(* ===== verification/_CoqProject ===== *)
-Q . S2P
Prelude.v
Float32.v
TimeSeries.v
Fill.v
GoStrings.v
Rbac.v
AppId.v
Utils.v
Json.v
Format.v
Model.v
Fingerprint.v
Md5.v
Db.v
PromQL.v
Checks.v
DeploymentStore.v
Rollouts.v
DeploymentStatus.v
Metrics.v
AlertStore.v
Categories.v
AlertNotify.v
Alerts.v
AlertsSpec.v
BuiltinRules.v
IncidentStore.v
Queries.v
WorldStore.v
WorldStoreSpec.v
RecordingRules.v
Evaluator.v
EvaluatorSpec.v
IncidentNotify.v
IncidentNotifySpec.v
Incidents.v
IncidentsSpec.v
Deployments.v
DeploymentsSpec.v
UpdateQueue.v
FlameGraph.v
TraceTree.v
Traces.v
Logs.v
GoNet.v
SpanCounting.v
Directory.v
RecentAddresses.v
Otlp.v
TracesBatch.v
Batches.v
Schema.v
AppView.v
Projects.v
Forms.v
Api.v
ApiSpec.v
Base64.v
Users.v
Sessions.v
OAuth.v
AuthSpec.v
Mcp.v
McpSpec.v
Config.v
ConfigSpec.v
