(* ===== verification/Prelude.v ===== *)
(** Coroot: a model of the program's own core logic.

    Coroot reads metrics, logs, traces and Kubernetes events, builds a [World] of
    applications from them once a minute, and acts on it: it opens and resolves
    alerts and SLO incidents, notifies Slack, Teams, PagerDuty, Opsgenie and
    webhooks, follows the rollouts of each application and judges them, and
    serves the results under role-based access control.  This library models the
    parts that decide: the arithmetic of time series, the evaluation and storage
    of the queries the world is built from, the selection of applications,
    categories and check settings, the three watchers with the rows they keep and
    the notifications they send, the queue that drives them, the collectors that
    receive telemetry and the schema it is stored in, the queries behind the
    pages of logs, traces and profiles, and the HTTP API with its users, sessions,
    permissions and OAuth server.  Paths below are under src/.

    * How the parts interact

    world/ evaluates the queries of constructor/queries.go every 15 seconds
    (Evaluator): each query over the steps it lacks (PromQL), the recording rules
    of constructor/queries.go from the world those results make (RecordingRules),
    and stores the points in ClickHouse, from where every page and every update
    loads its window (Queries, WorldStore).

    watchers/watchers.go takes project updates from a queue (UpdateQueue) and
    for each builds a window of data and runs the watchers on the world of that
    window: watchers/incidents.go (Incidents), watchers/deployments.go
    (Deployments) and watchers/alerts.go (Alerts).  Each reads and writes its
    tables through db/ (AlertStore, IncidentStore, DeploymentStore).  The first
    and the last hand what changed to their notifiers (AlertNotify,
    IncidentNotify), which look up the settings of the application's category
    (Categories), store one row for each destination in an outbox table, and send
    the rows not sent yet.  The deployment watcher finds rollouts in the life
    spans of replica sets (Rollouts), saves them, takes a snapshot of the metrics
    once a rollout is over (Metrics), compares it with the one before
    (DeploymentStatus) and tells each destination of each new state, remembering
    in the row what it told.  What a check requires of an application is looked
    up in the settings of the project (Checks).  The series that are summed and
    reduced are those of timeseries/ (TimeSeries, Fill) over binary32 numbers
    (Float32).

    collector/ receives the telemetry of agents and of OpenTelemetry: it reads
    the attributes (Otlp), names the two sides of each span from the addresses of
    the world (GoNet, Directory) and those of pods the world does not know yet
    (RecentAddresses), decides which of the spans of one request counts
    (SpanCounting), and sends what it received in batches (TracesBatch, Batches)
    to the tables of ch/ (Schema), which its migrations make.  The pages of
    clickhouse/ read those tables: Traces and TraceTree, Logs, FlameGraph.

    api/ serves requests: a request is authenticated by its session or as the
    anonymous user (Sessions over Users), a call of the MCP endpoint by a token
    of the OAuth server (OAuth); a handler (Api) checks the permissions of the
    user (Rbac), loads the world, reads and writes the tables of db/ (Projects
    and the stores above) through its forms (Forms), and answers a page.  The
    tools of the MCP endpoint (Mcp) are programs over the same calls; what they
    show of applications, connections and charts is AppView.  A start reads the
    configuration and writes the projects it declares into the same tables
    (Config).

    * The files

    - Prelude: panics ([outcome]), 64-bit integers with their wrap-around,
      slices with Go's bounds checks, the hint database [coroot].
    - Float32: Go's float32, executable; [IsNaN], [IsInf].
    - TimeSeries: timeseries/time.go, iterator.go, timeseries.go, funcs.go,
      value.go, aggregate.go.  Fill: the four Fill functions of timeseries.go.
    - GoStrings: what is used of strings, unicode/utf8 and path/filepath, and
      utils/glob.go.  Utils: utils/stringset.go, strings.go, the truncation of
      format.go, strconv.
    - Json: the part of encoding/json the settings and rows go through.  Format:
      the numbers of utils/format.go, with what fmt does for them.
    - Rbac: rbac/ and [Api.IsAllowed] of api/auth.go.
    - AppId: model/application_id.go.
    - Model: the statuses, severities, rules, alerts, checks, SLIs, applications
      and world of model/.
    - Fingerprint: [calcFingerprint] of watchers/alerts.go over SHA-256.
    - Db: the monad [M] of the stateful parts: rows of the tables, a component's
      memory, and an environment (clock, fresh ids, failing calls, map order)
      consulted through a tick counter.
    - Categories: db/application_categories.go, with the settings objects that
      the result shares with the project.
    - Checks: the table of built-in checks (model/check.go) and the settings of
      checks (model/check.go, db/check_configs.go).
      BuiltinRules: the built-in alerting rules (model/alerting_rule.go).
    - AlertStore (db/alert.go), AlertNotify (db/alert_notification.go,
      notifications/alerts.go), Alerts (watchers/alerts.go), AlertsSpec.
    - IncidentStore (db/incident.go, model/application_incident.go),
      IncidentNotify (notifications/incidents.go), IncidentNotifySpec, Incidents
      (watchers/incidents.go, api/rca.go), IncidentsSpec.
    - DeploymentStore (db/deployments.go, the data of
      model/application_deployment.go), Rollouts ([calcDeployments] of
      watchers/deployments.go), DeploymentStatus (summaries and states,
      model/application_deployment.go), Metrics ([calcMetricsSnapshot], with
      [MemoryGrowthPct] of auditor/memory.go, over binary64), Deployments (the
      watcher and SendDeployment of notifications/), DeploymentsSpec.
    - UpdateQueue: watchers/watchers.go.
    - PromQL: model/labels.go, promql/client.go, promql/selectors.go.  Queries:
      the table of queries and the requests a load makes of them
      (constructor/queries.go, [queryResults] of constructor.go).
    - WorldStore: the tables and rollups (ch/client.go) and world/store.go;
      WorldStoreSpec.  RecordingRules: the rules of constructor/queries.go and
      the SLOs of annotations.  Evaluator: world/evaluator.go, rules.go, run.go,
      client.go, backend.go, over Md5 for the marker; EvaluatorSpec.
    - FlameGraph: model/profile.go, clickhouse/profiles.go.  TraceTree: the error
      and latency views of the traces page (clickhouse/traces.go,
      api/views/overview/traces.go).  Traces: the queries of the traces page
      (clickhouse/traces.go, traces_facets.go, sort.go,
      ch/traces_expressions.go).  Logs: those of the logs page
      (clickhouse/logs.go, logs_facets.go).
    - GoNet: what is used of package net.  SpanCounting:
      collector/request_counting.go.  Directory: collector/applications.go, with
      the names of model/container.go.  RecentAddresses:
      collector/recent_addresses.go.  Otlp: collector/utils.go.  TracesBatch:
      collector/traces.go.  Batches: collector/logs.go, profiles.go, metrics.go.
    - Schema: ch/client.go, ch/migrations.go, db/clickhouse_schema.go.
    - Projects: db/project.go, integrations.go, custom_cloud_pricing.go,
      application_settings.go, dashboards.go.  Forms: api/forms/.  Api:
      api/api.go, rca.go, cloud.go, prometheus.go and the routes of main.go;
      ApiSpec: what a request may do and see.
    - Base64: encoding/base64, crypto/hmac.  Users: db/user.go, settings.go,
      mcp_session.go.  Sessions: api/auth.go, mcp_sessions.go, url.go.  OAuth:
      api/mcp_oauth.go.  AuthSpec: the requests that authenticate, together.
    - AppView: model/chart.go, connection.go, and what the tools read of
      application.go, container.go and sli.go.  Mcp: api/mcp.go; McpSpec: what a
      tool may do and show, and what a summary of a series says.
    - Config: config/; ConfigSpec: what a start makes of the declared projects.

    A definition has the name of the function it models where Rocq allows it; a
    part of a longer function has a name of its own and is composed where the
    function has it.  A record field has the Go field's name after a prefix of
    its type ([a_] an alert, [r_] an alert row, [rule_], [i_] an incident, [ir_]
    an incident row, and so on).

    * What the theorems show

    - Alerts: [evaluateCheckAlert_refines] says that one evaluation of a check
      moves its condition (pending time and open row) as the abstract machine
      [spec_step] does; [check_rule_keeps_one_open_alert] that no condition of a
      check or PromQL rule has two open alerts, whatever call fails;
      [long_For_never_fires], and the lemmas [cleared_suppression_is_firing] and
      [node_events_of_two_clusters_collide], what the code does at its edges.
    - Incidents: [evaluate_app_spec] says when an SLO is violated,
      [check_app_moves_incident] how the open incident then moves (the machine
      [incident_step]) while every other row stays, [incidents_keep_one_open]
      that an application has at most one, under either form of its id, and
      [missing_apps_resolved] what becomes of the incidents of applications that
      are gone; [full_objective_loses_details] is an edge.
    - Deployments: [calcDeployments_order_independent] says that discovery ends
      with a result that does not depend on the order of its maps,
      [calcDeployments_sound] and [rollouts_between_single_moments] what it
      finds, [rollouts_stable] that two passes over a sliding window agree on the
      history they share; [CheckDeployments_keeps_rows] is the invariant of the
      table over a whole pass, [discover_saves] that nothing found is lost;
      [snapshot_deployment_spec], [deployment_state_monotone] and
      [notify_status_spec] when a snapshot is taken, that states do not go back,
      and that a destination that is on record as told of a state is not called
      for it again; [slack_thread_lost] is an edge.
    - Checks: the tables are well formed ([builtin_rules_sound]) and installing
      them is idempotent ([InitBuiltinAlertingRules_spec]); settings saved are
      the ones read, in whatever order the rows come, where an application has
      one row ([SaveCheckConfig_then_Get]), and when the lookup by pattern
      is independent of map order ([getRaw_order_independent]).
    - Notifications: which keys are open at PagerDuty and Opsgenie
      ([open_key_spec], [open_keys_spec]), what enqueueing stores
      ([enqueue_key_destination], [enqueue_incident_keyed]), and that a failed
      delivery stops a destination for the pass
      ([send_loop_stops_after_failure]).
    - Queries: [queries_wellformed] says that the table has no query under two
      names or without its text, [requests_complete] that a load asks for all
      that the world is built from, under names that do not collide.
    - Store: [QueryRanges_reads_last] says what a load reads at any step, from
      the points or from a rollup, [wider_step_is_FillAny] that a load at a wider
      step gets what FillAny makes of a load of the points; [queryFilter_roundtrip] that a query's text
      survives its quoting.
    - Evaluator: [EvaluateProject_stores_once] says that, whatever fails and
      however much of a failed insert was kept, no point is stored twice and what
      is added comes after what is stored; [EvaluateProject_stores_labels] that a
      stored point of a query has its labels (those of rules need not, see the
      findings); [labelMap_roundtrip] that labels come back from the store,
      [rule_chunks_terminate] that the loop of the rules ends.  The first two
      discharge what [QueryRanges_reads_last] asks of the tables.
    - Recording rules: [aggConnections_sums] says what the connection rules
      sum, [slo_annotation_converges] that an annotated SLO is stored once.
    - Queue: [updates_are_not_lost], by induction over the interleavings;
      [member_window_spec].
    - Categories: the resolved settings, the category of an application, and
      what resolving writes back into the project.
    - Time series: the Fill functions against the samples of each bucket (one
      proof, [fill_spec], through the interface [FillKind]), iteration windows,
      counters, aggregates, JSON.
    - Access control: what the built-in roles may do, and that [Allows] and
      [AllowsForObjects] agree ([builtin_roles_allow]).
    - API: [writes_are_allowed] and [pages_are_allowed] say that what a request
      changes and what it is shown is allowed to the user who makes it (with the
      exceptions they list), by a weakest precondition over every handler;
      [builtin_roles_writes] what this leaves to viewers and editors,
      [secrets_are_hidden] that answers to users who may not edit do not depend
      on credentials; the examples of ApiRuns show where a handler panics and
      which root causes it overwrites.  [DeleteProject_spec] says that a project is deleted with all its
      rows or not at all, [SaveApplicationSetting_then_Get] that settings are
      read as they were saved.
    - Authentication: [mcp_access_was_consented] says that, over any run of
      requests that forge nothing, the MCP endpoint serves only a user who logged
      in and consented to the client; [oauth_flow_works] that a client that
      follows the protocol gets in; [ChangeUserPassword_spec] what a change of
      password does.  The examples of AuthRuns are concrete runs.
    - Tools: [tools_are_allowed] says that what a tool changes, reads and shows
      is allowed to the user of its call (the ids of what an application is
      connected with come with it), by the weakest precondition of the API over
      every tool, and that every loop it runs over a series ends without a panic;
      the rendering of traces is a call, whose end is not shown; [MCPSummarize_spec] what the numbers shown for a series are.
    - Configuration: [Bootstrap_declares] says that a start loses no project,
      whatever fails, and, setting by setting, what every project has when it went
      through ([as_declared], which does not mention the steps of the code);
      the examples of ConfigRuns are what it does to keys, rules and overrides at
      its edges.
    - Collectors: [spans_sent_once] and [telemetry_sent_once] say that what
      was received is sent, once and in order, and that only the rows of an
      insert that fails are lost (an insert is not repeated); [counted_by_history] that
      forgetting old server spans changes no count, [directory_owners] that the
      directory does not depend on the order of the world; [close_waits] when
      Close ends.
    - Schema: [baseline_is_ordered] says that every statement finds the tables
      and columns it needs, that inserts have theirs, and that no placeholder is
      left in what is sent; [migrations_resume] that attempts that failed are made
      up for and that a database without its sentinel is made anew,
      [half_migrated_is_left] when they are not.
    - Pages: [rollup_is_exact] says that the counts of logs from the rollup are
      those of the rows, [getSpans_is_one_query] that reading spans window by
      window answers as one query would, [filter_text_has_no_values] that no
      value a user typed is in the text of a query, [NewTracesWindow_covers] that
      the rounded window covers the asked one; [getProfile_totals] that a flame
      graph adds up to its samples; [failed_spans_spec] which spans an error
      begins at, [latency_graph_terminates] that the latency graph ends, and
      [durations_shared] that spans that run at once under one parent are given
      no more time together than they took.
    - Data: round trips of identifiers, statuses and destinations; stable
      fingerprints; glob matching always ends.

    * Bounds and fuel

    Go's int, int64, [timeseries.Time] (seconds) and [Duration] wrap at 64 bits
    ([wrap64]); theorems that need it ask for times within a range that covers
    any real clock.  Lengths of slices are below 2^63 and are not wrapped.  A Go
    [for iter.Next()] runs on fuel [iter_fuel], one more than the number of
    points, and the lemmas on iteration show that the loop ends before the fuel
    does; the rounds of [calcDeployments] over several iterators run on
    [rounds_fuel], one more than the longest series, enough by [rounds_at].  The loop over
    the hours of the recording rules runs on [chunk_fuel], enough by
    [rule_chunks_terminate].  Glob
    matching takes fuel from the length of the pattern; running out
    is a result of its own, which [Match_total] excludes.  A panic (a zero step,
    an index out of range) is the value [Panic], and theorems say when it is not
    reached.

    * Parameters

    What is not the program's code is an argument: notification clients
    ([Delivery], [IncidentDelivery], [DeploymentDelivery]), the formatting and
    regression libraries ([Humanize], [Regression]), the AI evaluators, Prometheus and
    ClickHouse answers ([Sources]), the root-cause service ([RcaCloud]), the log
    pattern and template libraries ([LogParser], [TextTemplate]), the order of
    map iteration ([MapOrder], a permutation that may differ at each loop; also
    that of the rows of check_configs, which are read without ORDER BY),
    the evaluation and parsing of PromQL ([Prometheus]), the texts of parse
    errors ([ErrorTexts]), what a failed insert into ClickHouse kept
    ([PartialInsert], a sublist of its rows for each table), the loaders that
    build a world from its series ([load_parts]), and which database calls fail
    ([Env]).  A failed call to the SQL database changes no row.

    For telemetry: the rows ClickHouse reads for a profile ([ProfileSource]), its
    text functions ([TextFunctions]), Unicode's letters and case beyond what is
    written out ([Unicode], [LowerCase]), which tables a dropped database has
    ([ClickHouseTables]), the URL parsers ([UrlHost], [UrlParse]), xxhash
    ([Xxhash]).  For the API: the PromQL parser and the duration parser
    ([PromParser], [Durations]); a handler's calls have any answer, of which the
    theorems ask only what the database ensures ([sound], for instance that a
    project is returned under the id it was asked for, and that the series of a
    world have the length of its window).  What the tools read of a request is
    [ToolRequest], the accessors of the MCP library; which runes beyond ASCII
    are printed as they are is [Printable].  For authentication:
    bcrypt and the clock ([Bcrypt], [WallClock]: any function of the tick), the
    reading of JSON that the program did not write ([SessionJson]) and the JWT
    library ([Jwt]) with the laws its documentation gives ([JwtLaws]: a token
    that was signed is verified as what was signed, and within its time only).
    For a start: the joining of URL paths and the loading of certificates
    ([Libraries]), what decoding the file gives, random strings and what an empty
    list of keys is stored as ([Start]).
    [unforged] is the assumption on whoever sends requests: what verifies under
    the secret was handed out.  AuthRuns has an instance of all of these.

    * Not modelled

    The auditor's reports (but for [MemoryGrowthPct]) and the loaders of the
    constructor that build the world: rule sets and label glue over third-party
    metrics, whose meaning is outside the code.  The rendering of views into
    charts and tables (api/views/, but for what TraceTree has): a tool shows what
    the auditor, a view or ClickHouse answers.  The clients of third-party services
    (cloud/, cloud-pricing/, notifications' HTTP), the decoding of configuration
    files, the gRPC server, the clusters' space manager, and the front
    end. *)

From Stdlib Require Import ZArith Lia.
From stdpp Require Export base numbers list gmap strings sorting fin_maps.

Local Open Scope Z_scope.

(** * Run-time panics

    A Go function either returns or panics (index out of range, integer
    division by zero, nil map write).  [outcome] is the result of running one;
    the [Panic] case is a value of the model and theorems say when it is not
    reached. *)
Inductive outcome (A : Type) : Type :=
| Ret (a : A)
| Panic.
Arguments Ret {A} a.
Arguments Panic {A}.

Definition obind {A B} (m : outcome A) (f : A → outcome B) : outcome B :=
  match m with Ret a => f a | Panic => Panic end.

Declare Scope go_scope.
Delimit Scope go_scope with go.
Notation "'let*' x := m 'in' k" := (obind m (λ x, k))
  (at level 10, x name, m at level 100, k at level 200) : go_scope.
Notation "'let*' ' p := m 'in' k" := (obind m (λ p, k))
  (at level 10, p strict pattern, m at level 100, k at level 200) : go_scope.
Open Scope go_scope.

#[export] Instance outcome_eq_dec {A} `{EqDecision A} : EqDecision (outcome A).
Proof. solve_decision. Defined.

Definition returns {A} (m : outcome A) : Prop := ∃ a, m = Ret a.

Lemma bind_Ret {A B} (a : A) (f : A → outcome B) : obind (Ret a) f = f a.
Proof. reflexivity. Qed.

Lemma bind_assoc {A B C} (m : outcome A) (f : A → outcome B) (g : B → outcome C) :
  obind (obind m f) g = obind m (λ a, obind (f a) g).
Proof. by destruct m. Qed.

Lemma bind_Ret_r {A} (m : outcome A) : obind m Ret = m.
Proof. by destruct m. Qed.

Lemma bind_returns_inv {A B} (m : outcome A) (f : A → outcome B) b :
  obind m f = Ret b → ∃ a, m = Ret a ∧ f a = Ret b.
Proof. destruct m as [a|]; [by exists a|done]. Qed.

(** * 64-bit integers

    Go's [int], [int64] and the types declared over them ([timeseries.Time],
    [timeseries.Duration]) are [Z] reduced into the two's complement range. *)
Definition i64_min : Z := - 2 ^ 63.
Definition i64_max : Z := 2 ^ 63 - 1.
Definition in_i64 (z : Z) : Prop := i64_min ≤ z ≤ i64_max.
Definition wrap64 (z : Z) : Z := (z + 2 ^ 63) mod 2 ^ 64 - 2 ^ 63.

#[export] Instance in_i64_dec z : Decision (in_i64 z).
Proof. unfold in_i64. apply _. Defined.

Lemma wrap64_range z : in_i64 (wrap64 z).
Proof.
  unfold in_i64, wrap64, i64_min, i64_max.
  pose proof (Z.mod_pos_bound (z + 2 ^ 63) (2 ^ 64) ltac:(lia)). lia.
Qed.

Lemma wrap64_id z : in_i64 z → wrap64 z = z.
Proof.
  unfold in_i64, wrap64, i64_min, i64_max; intros H.
  rewrite Z.mod_small by lia. lia.
Qed.

Definition add64 (a b : Z) : Z := wrap64 (a + b).
Definition sub64 (a b : Z) : Z := wrap64 (a - b).
Definition mul64 (a b : Z) : Z := wrap64 (a * b).

(** Integer division truncates toward zero and panics on a zero divisor;
    the one overflowing quotient, [i64_min / -1], wraps. *)
Definition quot64 (a b : Z) : outcome Z :=
  if bool_decide (b = 0) then Panic else Ret (wrap64 (Z.quot a b)).
Definition rem64 (a b : Z) : outcome Z :=
  if bool_decide (b = 0) then Panic else Ret (wrap64 (Z.rem a b)).

Lemma add64_wrap_l a b : add64 (wrap64 a) b = wrap64 (a + b).
Proof.
  unfold add64, wrap64. f_equal.
  replace ((a + 2 ^ 63) mod 2 ^ 64 - 2 ^ 63 + b + 2 ^ 63)
    with ((a + 2 ^ 63) mod 2 ^ 64 + b) by lia.
  rewrite Zplus_mod_idemp_l. f_equal. lia.
Qed.

Lemma add64_wrap_r a b : add64 a (wrap64 b) = wrap64 (a + b).
Proof.
  unfold add64. rewrite (Z.add_comm a (wrap64 b)). fold (add64 (wrap64 b) a).
  rewrite add64_wrap_l. f_equal. lia.
Qed.

Lemma add64_id a b : in_i64 (a + b) → add64 a b = a + b.
Proof. apply wrap64_id. Qed.
Lemma sub64_id a b : in_i64 (a - b) → sub64 a b = a - b.
Proof. apply wrap64_id. Qed.
Lemma mul64_id a b : in_i64 (a * b) → mul64 a b = a * b.
Proof. apply wrap64_id. Qed.
Lemma quot64_id a b : b ≠ 0 → in_i64 (Z.quot a b) → quot64 a b = Ret (Z.quot a b).
Proof. intros. unfold quot64. rewrite bool_decide_false, wrap64_id; done. Qed.
Lemma rem64_id a b : b ≠ 0 → in_i64 (Z.rem a b) → rem64 a b = Ret (Z.rem a b).
Proof. intros. unfold rem64. rewrite bool_decide_false, wrap64_id; done. Qed.

(** Closes a goal [in_i64 e] whose bounds are linear consequences of the
    hypotheses. *)
Ltac i64 := unfold in_i64, i64_min, i64_max; first [lia | unfold in_i64, i64_min, i64_max in *; lia].

(** Removes the wrap-around of every operation whose operands are provably in
    range. *)
Ltac unwrap :=
  repeat match goal with
  | |- context [add64 ?a ?b] => rewrite (add64_id a b) by i64
  | |- context [sub64 ?a ?b] => rewrite (sub64_id a b) by i64
  | |- context [mul64 ?a ?b] => rewrite (mul64_id a b) by i64
  | |- context [wrap64 ?a] => rewrite (wrap64_id a) by i64
  end.

(** Closes a decidable closed goal by evaluating its decision procedure. *)
Ltac decide_now := apply (bool_decide_unpack _); vm_compute; exact I.

(** * Slices

    A slice is a list; an index out of range panics. *)
Definition nth_go {A} (l : list A) (i : Z) : outcome A :=
  if bool_decide (0 ≤ i) then
    match l !! Z.to_nat i with Some x => Ret x | None => Panic end
  else Panic.

Definition set_go {A} (l : list A) (i : Z) (x : A) : outcome (list A) :=
  if bool_decide (0 ≤ i < Z.of_nat (length l)) then Ret (<[Z.to_nat i := x]> l)
  else Panic.

(** [l[i:]] *)
Definition from_go {A} (l : list A) (i : Z) : outcome (list A) :=
  if bool_decide (0 ≤ i ≤ Z.of_nat (length l)) then Ret (drop (Z.to_nat i) l)
  else Panic.

Definition len_go {A} (l : list A) : Z := Z.of_nat (length l).

Lemma nth_go_Ret {A} (l : list A) i x :
  nth_go l i = Ret x ↔ 0 ≤ i ∧ l !! Z.to_nat i = Some x.
Proof.
  unfold nth_go. case_bool_decide; [|split; [done|intros [??]; done]].
  destruct (l !! Z.to_nat i); naive_solver.
Qed.

Lemma nth_go_nat {A} (l : list A) (i : nat) x : l !! i = Some x → nth_go l (Z.of_nat i) = Ret x.
Proof. intros H. apply nth_go_Ret. rewrite Nat2Z.id. split; [lia|done]. Qed.

Lemma set_go_nat {A} (l : list A) (i : nat) x :
  (i < length l)%nat → set_go l (Z.of_nat i) x = Ret (<[i := x]> l).
Proof.
  intros H. unfold set_go. rewrite bool_decide_true by lia. by rewrite Nat2Z.id.
Qed.

Lemma from_go_nat {A} (l : list A) (i : nat) :
  (i ≤ length l)%nat → from_go l (Z.of_nat i) = Ret (drop i l).
Proof.
  intros H. unfold from_go. rewrite bool_decide_true by lia. by rewrite Nat2Z.id.
Qed.

(** * Automation *)
Create HintDb coroot.
Create Rewrite HintDb coroot.
#[export] Hint Resolve wrap64_range : coroot.
#[export] Hint Rewrite @bind_Ret @bind_Ret_r @bind_assoc : coroot.

(** Splits on the innermost boolean test or [match] of the goal. *)
Ltac split_match :=
  match goal with
  | |- context [bool_decide ?P] => case_bool_decide
  | |- context [match ?x with _ => _ end] => destruct x eqn:?
  end.

(** * Lists *)
Lemma NoDup_fst_eq {A B} (l : list (A * B)) k x y :
  NoDup (fst <$> l) → (k, x) ∈ l → (k, y) ∈ l → x = y.
Proof.
  intros Hn [i Hi]%list_elem_of_lookup [j Hj]%list_elem_of_lookup.
  assert (i = j) as -> by (eapply NoDup_lookup; [exact Hn|by rewrite list_lookup_fmap, Hi|by rewrite list_lookup_fmap, Hj]).
  congruence.
Qed.

Lemma existsb_false_Forall {A} (f : A → bool) (l : list A) :
  existsb f l = false ↔ Forall (λ x, f x = false) l.
Proof.
  induction l as [|x l IH]; simpl; [done|].
  rewrite orb_false_iff, Forall_cons, IH. done.
Qed.

Lemma existsb_Exists {A} (f : A → bool) (l : list A) :
  existsb f l = true ↔ ∃ x, x ∈ l ∧ f x = true.
Proof.
  rewrite List.existsb_exists. setoid_rewrite <- list_elem_of_In. done.
Qed.

Section filter.
Context {A : Type} (P : A → Prop) `{!∀ x, Decision (P x)}.

Lemma filter_all (l : list A) : Forall P l → filter P l = l.
Proof. induction 1; [done|]. rewrite filter_cons_True by done. by f_equal. Qed.

Lemma filter_none (l : list A) : Forall (λ x, ¬ P x) l → filter P l = [].
Proof. induction 1; [done|]. by rewrite filter_cons_False. Qed.
End filter.
