(* ===== verification/Float32.v ===== *)
(** Go's [float32]: IEEE-754 binary32, computed by the Standard Library's
    executable [SpecFloat] (24 bits of precision, exponents below 128).

    A value is a [spec_float]; NaN is one value (the code never looks at a
    payload).  [+ - * /] round to nearest even; comparisons with NaN are false.
    [IsNaN] and [IsInf] are those of timeseries/timeseries.go.  [float64], where
    the code computes in it, is here too. *)

From S2P Require Export Prelude.
From Stdlib Require Export SpecFloat.

Local Open Scope Z_scope.

Abbreviation f32 := spec_float.

#[export] Instance f32_eq_dec : EqDecision f32.
Proof. solve_decision. Defined.

Module F32.

Definition add : f32 → f32 → f32 := SFadd 24 128.
Definition sub : f32 → f32 → f32 := SFsub 24 128.
Definition mul : f32 → f32 → f32 := SFmul 24 128.
Definition div : f32 → f32 → f32 := SFdiv 24 128.

(** [x < y], [x <= y], [x > y], [x >= y], [x == y] *)
Definition ltb (x y : f32) : bool := SFltb x y.
Definition leb (x y : f32) : bool := SFleb x y.
Definition gtb (x y : f32) : bool := SFltb y x.
Definition geb (x y : f32) : bool := SFleb y x.
Definition eqb (x y : f32) : bool := SFeqb x y.

(** [float32(n)] of an integer, and the constant [n/d] (correctly rounded when
    [n] and [d] are below 2^24). *)
Definition of_Z (n : Z) : f32 := binary_normalize 24 128 n 0 false.
Definition frac (n d : Z) : f32 := div (of_Z n) (of_Z d).

Definition zero : f32 := S754_zero false.
Definition one : f32 := of_Z 1.
(** [math.MaxFloat32] is (2^24 - 1) * 2^104. *)
Definition max_float : f32 := S754_finite false 16777215 104.
Definition min_float : f32 := S754_finite true 16777215 104.

(** [int64(x)]: toward zero; what does not fit (and NaN) is the least integer,
    as on amd64.  [int64(math.Round(float64(x)))] rounds halves away from zero. *)
Definition scale (m : positive) (e : Z) (half : Z) : Z :=
  if e >=? 0 then Zpos m * 2 ^ e else (2 * Zpos m + half * 2 ^ (- e)) / (2 * 2 ^ (- e)).
Definition to_int (half : Z) (x : f32) : Z :=
  match x with
  | S754_zero _ => 0
  | S754_finite s m e =>
      let z := scale m e half in
      let z := if s then - z else z in
      if bool_decide (in_i64 z) then z else i64_min
  | _ => i64_min
  end.
Definition to_i64 : f32 → Z := to_int 0.
Definition round_i64 : f32 → Z := to_int 1.

(** * The order of the non-NaN values

    [key] places a non-NaN value on a line ordered lexicographically; [SFcompare]
    is that order. *)
Definition key (x : f32) : option (Z * Z * Z) :=
  match x with
  | S754_nan => None
  | S754_infinity true => Some (-2, 0, 0)
  | S754_finite true m e => Some (-1, - e, Zneg m)
  | S754_zero _ => Some (0, 0, 0)
  | S754_finite false m e => Some (1, e, Zpos m)
  | S754_infinity false => Some (2, 0, 0)
  end.

Definition key_lt (a b : Z * Z * Z) : Prop :=
  let '(a1, a2, a3) := a in let '(b1, b2, b3) := b in
  a1 < b1 ∨ (a1 = b1 ∧ (a2 < b2 ∨ (a2 = b2 ∧ a3 < b3))).

Lemma compare_key x y a b :
  key x = Some a → key y = Some b →
  match SFcompare x y with
  | Some Lt => key_lt a b
  | Some Eq => a = b
  | Some Gt => key_lt b a
  | None => False
  end.
Proof.
  destruct x as [[]|[]| |[] m e], y as [[]|[]| |[] m' e'];
    cbn -[Z.compare Pos.compare_cont]; intros; simplify_eq; simpl; try lia; try done;
    change (Pos.compare_cont Eq m m') with (m ?= m')%positive.
  all: destruct (Z.compare_spec e e'); subst; simpl; try lia.
  all: destruct (Pos.compare_spec m m'); subst; simpl; try done; lia.
Qed.

Lemma key_None x : key x = None ↔ x = S754_nan.
Proof. by destruct x as [[]|[]| |[]]. Qed.

Lemma key_Some x : x ≠ S754_nan → ∃ a, key x = Some a.
Proof. destruct x as [[]|[]| |[]]; simpl; eauto; done. Qed.

Lemma key_zero x a : key x = Some a → a = (0, 0, 0) → ∃ s, x = S754_zero s.
Proof. destruct x as [[]|[]| |[]]; simpl; intros; simplify_eq; eauto; done. Qed.

Lemma ltb_key x y :
  ltb x y = true ↔ ∃ a b, key x = Some a ∧ key y = Some b ∧ key_lt a b.
Proof.
  unfold ltb, SFltb. split.
  - intros H. destruct (key x) as [a|] eqn:Hx;
      [|apply key_None in Hx; subst; by destruct y].
    destruct (key y) as [b|] eqn:Hy;
      [|apply key_None in Hy; subst; by destruct x as [[]|[]| |[]]].
    pose proof (compare_key x y a b Hx Hy) as Hc.
    destruct (SFcompare x y) as [[]|]; try done. by exists a, b.
  - intros (a & b & Hx & Hy & Hlt). pose proof (compare_key x y a b Hx Hy) as Hc.
    destruct a as [[a1 a2] a3], b as [[b1 b2] b3], (SFcompare x y) as [[]|];
      simpl in *; try done; simplify_eq; lia.
Qed.

Lemma leb_key x y :
  leb x y = true ↔ ∃ a b, key x = Some a ∧ key y = Some b ∧ ¬ key_lt b a.
Proof.
  unfold leb, SFleb. split.
  - intros H. destruct (key x) as [a|] eqn:Hx;
      [|apply key_None in Hx; subst; by destruct y].
    destruct (key y) as [b|] eqn:Hy;
      [|apply key_None in Hy; subst; by destruct x as [[]|[]| |[]]].
    pose proof (compare_key x y a b Hx Hy) as Hc.
    exists a, b. split_and!; try done.
    destruct a as [[a1 a2] a3], b as [[b1 b2] b3], (SFcompare x y) as [[]|];
      simpl in *; try done; simplify_eq; lia.
  - intros (a & b & Hx & Hy & Hlt). pose proof (compare_key x y a b Hx Hy) as Hc.
    by destruct (SFcompare x y) as [[]|].
Qed.

(** Reduces an order goal on floats to arithmetic on their keys. *)
Ltac order :=
  repeat match goal with
  | H : ltb _ _ = true |- _ => apply ltb_key in H as (? & ? & ? & ? & ?)
  | H : leb _ _ = true |- _ => apply leb_key in H as (? & ? & ? & ? & ?)
  | |- ltb _ _ = true => apply ltb_key
  | |- leb _ _ = true => apply leb_key
  | H : key ?x = Some _, H' : key ?x = Some _ |- _ => rewrite H in H'; injection H' as ?; subst
  end;
  try (do 2 eexists; split_and!; [eassumption..|]);
  repeat match goal with p : (Z * Z * Z)%type |- _ => destruct p as [[] ] end;
  simpl in *; lia.

Lemma ltb_trans x y z : ltb x y = true → ltb y z = true → ltb x z = true.
Proof. intros. order. Qed.
Lemma leb_trans x y z : leb x y = true → leb y z = true → leb x z = true.
Proof. intros. order. Qed.
Lemma ltb_leb x y : ltb x y = true → leb x y = true.
Proof. intros. order. Qed.
Lemma leb_refl x : x ≠ S754_nan → leb x x = true.
Proof. intros [a Ha]%key_Some. order. Qed.

Lemma ltb_irrefl x : ltb x x = false.
Proof. apply not_true_iff_false. intros ?. order. Qed.

Lemma ltb_false_leb x y :
  x ≠ S754_nan → y ≠ S754_nan → ltb x y = false → leb y x = true.
Proof.
  intros [a Ha]%key_Some [b Hb]%key_Some H.
  apply leb_key. exists b, a. split_and!; try done. intros Hlt.
  rewrite (proj2 (ltb_key x y)) in H; [done|eauto].
Qed.

Lemma ltb_nan_l y : ltb S754_nan y = false.
Proof. by destruct y. Qed.
Lemma ltb_nan_r x : ltb x S754_nan = false.
Proof. by destruct x. Qed.

Lemma eqb_refl x : x ≠ S754_nan → eqb x x = true.
Proof.
  intros [a Ha]%key_Some. unfold eqb, SFeqb.
  pose proof (compare_key x x a a Ha Ha) as H.
  destruct a as [[a1 a2] a3], (SFcompare x x) as [[]|]; simpl in H; lia || done.
Qed.

End F32.

(** * float64, with conversions from and to float32 *)
Module F64.
Definition f64 := spec_float.
Definition add : f64 → f64 → f64 := SFadd 53 1024.
Definition sub : f64 → f64 → f64 := SFsub 53 1024.
Definition mul : f64 → f64 → f64 := SFmul 53 1024.
Definition div : f64 → f64 → f64 := SFdiv 53 1024.
Definition of_Z (n : Z) : f64 := binary_normalize 53 1024 n 0 false.
(** [float64(x)], exact, and [float32(x)], to nearest even. *)
Definition of_f32 (x : f32) : f64 :=
  match x with
  | S754_finite s m e => binary_normalize 53 1024 (if s then Zneg m else Zpos m) e s
  | x => x
  end.
Definition to_f32 (x : f64) : f32 :=
  match x with
  | S754_finite s m e => binary_normalize 24 128 (if s then Zneg m else Zpos m) e s
  | x => x
  end.
End F64.

(** ** timeseries/timeseries.go: [NaN], [IsNaN], [IsInf] *)
Definition NaN : f32 := S754_nan.

Definition IsNaN (v : f32) : bool := negb (F32.eqb v v).

Definition IsInf (f : f32) (sign : Z) : bool :=
  (bool_decide (sign >= 0)%Z && F32.gtb f F32.max_float)
  || (bool_decide (sign <= 0)%Z && F32.ltb f F32.min_float).

Lemma IsNaN_true v : IsNaN v = true ↔ v = NaN.
Proof.
  unfold IsNaN. split; [|by intros ->].
  intros H. destruct (decide (v = S754_nan)) as [->|Hn]; [done|].
  by rewrite F32.eqb_refl in H.
Qed.

Lemma IsNaN_false v : IsNaN v = false ↔ v ≠ NaN.
Proof. rewrite <- IsNaN_true. destruct (IsNaN v); naive_solver. Qed.

Lemma IsNaN_dec v : IsNaN v = bool_decide (v = NaN).
Proof. apply eq_true_iff_eq. by rewrite IsNaN_true, bool_decide_eq_true. Qed.

#[export] Hint Rewrite F32.ltb_nan_l F32.ltb_nan_r F32.ltb_irrefl : coroot.
#[export] Hint Resolve F32.ltb_trans F32.leb_trans F32.ltb_leb F32.leb_refl : coroot.

Example frac_half : F32.frac 1 2 = S754_finite false 8388608 (-24).
Proof. reflexivity. Qed.
