(* ===== verification/TimeSeries.v ===== *)
(** Time series (timeseries/): [Time] and [Duration], the [Iterator], the
    [TimeSeries] operations other than the Fill functions (file Fill), the
    point-wise functions of funcs.go and [Aggregate].

    A [*TimeSeries] is an [option TimeSeries] ([nil] is [None]).  Lengths and
    indices of slices are below 2^63 in Go and are not wrapped; times,
    durations and everything computed from them are. *)

From S2P Require Export Float32.
From Stdlib Require Import ZArith Lia.

Local Open Scope Z_scope.

(** * timeseries/time.go *)
Module Time.

Definition Second : Z := 1.
Definition Minute : Z := Second * 60.
Definition Hour : Z := Minute * 60.
Definition Day : Z := Hour * 24.
Definition Month : Z := Day * 30.

(** [t - t%Time(d)]: panics when [d] is zero. *)
Definition Truncate (t d : Z) : outcome Z := let* r := rem64 t d in Ret (sub64 t r).

Definition Add (t d : Z) : Z := add64 t d.
Definition Sub (t other : Z) : Z := sub64 t other.
Definition Before (t other : Z) : bool := bool_decide (t < other).
Definition After (t other : Z) : bool := bool_decide (t > other).
Definition IsZero (t : Z) : bool := bool_decide (t = 0).

Definition Ceil (t d : Z) : outcome Z := Truncate (Add t (sub64 d 1)) d.

(** [Time.MarshalJSON] writes milliseconds, [null] (here [None]) for zero;
    [Time.UnmarshalJSON] reads them ([null] leaves its [int64] zero). *)
Definition MarshalJSON (t : Z) : option Z :=
  if bool_decide (t = 0) then None else Some (mul64 t 1000).
Definition UnmarshalJSON (b : option Z) : Z :=
  match b with None => 0 | Some i => wrap64 (Z.quot i 1000) end.

End Time.

Module Duration.

Definition Truncate (d m : Z) : Z :=
  if bool_decide (m <= 0) then d else sub64 d (wrap64 (Z.rem d m)).

(** [DurationFromStandard] of a [time.Duration] in nanoseconds, [ToStandard]. *)
Definition FromStandard (d : Z) : Z := wrap64 (Z.quot d 1000000000).
Definition ToStandard (d : Z) : Z := mul64 d 1000000000.

End Duration.

Record Context := { ctx_From : Z; ctx_To : Z; ctx_Step : Z; ctx_RawStep : Z; ctx_Truncated : bool }.

Definition NewContext (from to step : Z) : Context :=
  {| ctx_From := from; ctx_To := to; ctx_Step := step; ctx_RawStep := step; ctx_Truncated := false |}.

Definition PointsCount (c : Context) : outcome Z :=
  quot64 (Time.Sub (ctx_To c) (ctx_From c)) (ctx_Step c).

(** * timeseries/iterator.go *)
Record Iterator := {
  it_step : Z;
  it_data : list f32;
  it_idx : Z;
  it_t : Z;
  it_v : f32
}.

Definition Next (i : Iterator) : outcome (bool * Iterator) :=
  if bool_decide (it_data i = []) then Ret (false, i)
  else
    let idx := it_idx i + 1 in
    let t := Time.Add (it_t i) (it_step i) in
    let i' := {| it_step := it_step i; it_data := it_data i; it_idx := idx; it_t := t; it_v := it_v i |} in
    if bool_decide (idx >= len_go (it_data i)) then Ret (false, i')
    else
      let* v := nth_go (it_data i) idx in
      Ret (true, {| it_step := it_step i; it_data := it_data i; it_idx := idx; it_t := t; it_v := v |}).

Definition Value (i : Iterator) : Z * f32 := (it_t i, it_v i).

(** [for iter.Next() { t, v := iter.Value(); body }].  The fuel is one more than
    the length of the data; the refinement lemmas below show it is enough. *)
Fixpoint for_iter {S} (fuel : nat) (body : S → Z → f32 → outcome S) (it : Iterator) (s : S) : outcome S :=
  match fuel with
  | O => Panic
  | S fuel =>
      let* r := Next it in
      if fst r then let* s' := body s (it_t (snd r)) (it_v (snd r)) in for_iter fuel body (snd r) s'
      else Ret s
  end.

(** [for x.Next() && y.Next() { body }] *)
Fixpoint for_iter2 {S} (fuel : nat) (body : S → f32 → f32 → outcome S) (x y : Iterator) (s : S) : outcome S :=
  match fuel with
  | O => Panic
  | S fuel =>
      let* rx := Next x in
      if fst rx then
        let* ry := Next y in
        if fst ry then
          let* s' := body s (it_v (snd rx)) (it_v (snd ry)) in
          for_iter2 fuel body (snd rx) (snd ry) s'
        else Ret s
      else Ret s
  end.

(** * timeseries/timeseries.go *)
Record TimeSeries := { ts_from : Z; ts_step : Z; ts_data : list f32 }.

#[export] Instance TimeSeries_eq_dec : EqDecision TimeSeries.
Proof. solve_decision. Defined.

Definition NewWithData (from step : Z) (data : list f32) : TimeSeries :=
  {| ts_from := from; ts_step := step; ts_data := data |}.

(** [make([]float32, n)] panics on a negative length. *)
Definition New (from pointsCount step : Z) : outcome TimeSeries :=
  if bool_decide (pointsCount < 0) then Panic
  else Ret (NewWithData from step (replicate (Z.to_nat pointsCount) NaN)).

Definition IsEmpty (ts : option TimeSeries) : bool :=
  match ts with None => true | Some _ => false end.

Definition Len (ts : option TimeSeries) : Z :=
  match ts with None => 0 | Some ts => len_go (ts_data ts) end.

Definition nil_iter : Iterator :=
  {| it_step := 0; it_data := []; it_idx := 0; it_t := 0; it_v := F32.zero |}.

Definition Iter (ts : option TimeSeries) : Iterator :=
  match ts with
  | None => nil_iter
  | Some ts =>
      {| it_step := ts_step ts; it_data := ts_data ts; it_idx := -1;
         it_t := Time.Add (ts_from ts) (wrap64 (- ts_step ts)); it_v := F32.zero |}
  end.

Definition IterFrom (ts : option TimeSeries) (from : Z) : outcome Iterator :=
  match ts with
  | None => Ret nil_iter
  | Some ts =>
      let from := if Time.Before from (ts_from ts) then ts_from ts else from in
      let to := Time.Add (ts_from ts) (mul64 (ts_step ts) (len_go (ts_data ts) - 1)) in
      if Time.After from to then Ret nil_iter
      else
        let* from := Time.Truncate from (ts_step ts) in
        let* q := quot64 (Time.Sub from (ts_from ts)) (ts_step ts) in
        Ret {| it_step := ts_step ts; it_data := ts_data ts; it_idx := q - 1;
                it_t := Time.Add from (wrap64 (- ts_step ts)); it_v := F32.zero |}
  end.

Definition iter_fuel (ts : option TimeSeries) : nat :=
  match ts with None => 1 | Some ts => S (length (ts_data ts)) end.

Definition for_ts {S} (body : S → Z → f32 → outcome S) (ts : option TimeSeries) (s : S) : outcome S :=
  for_iter (iter_fuel ts) body (Iter ts) s.

(** [ts.Set(t, v)] *)
Definition Set_ (ts : TimeSeries) (t : Z) (v : f32) : outcome TimeSeries :=
  let* t := Time.Truncate t (ts_step ts) in
  if bool_decide (t < ts_from ts) then Ret ts
  else
    let* idx := quot64 (Time.Sub t (ts_from ts)) (ts_step ts) in
    if bool_decide (idx < len_go (ts_data ts)) then
      let* data := set_go (ts_data ts) idx v in
      Ret (NewWithData (ts_from ts) (ts_step ts) data)
    else Ret ts.

Definition Last (ts : option TimeSeries) : f32 :=
  match ts with
  | None => NaN
  | Some ts => default NaN (last (ts_data ts))
  end.

(** [l >= k && !IsNaN(ts.data[l-k])] *)
Definition defined_at_end (data : list f32) (k : nat) : bool :=
  bool_decide (k ≤ length data)%nat && negb (IsNaN (nth (length data - k) data NaN)).

Definition TailIsEmpty (ts : option TimeSeries) : bool :=
  match ts with
  | None => true
  | Some ts =>
      if defined_at_end (ts_data ts) 1 then false
      else if defined_at_end (ts_data ts) 2 then false
      else if defined_at_end (ts_data ts) 3 then false
      else true
  end.

(** funcs.go: [type F func(Time, float32, float32) float32] *)
Abbreviation F := (Z → f32 → f32 → f32).

Definition Reduce (f : F) (ts : option TimeSeries) : outcome f32 :=
  match ts with
  | None => Ret NaN
  | Some _ => for_ts (λ acc t v, Ret (f t acc v)) ts NaN
  end.

(** The loop variable [i] and the slice being filled are the loop state. *)
Definition Map (f : Z → f32 → f32) (ts : option TimeSeries) : outcome (option TimeSeries) :=
  match ts with
  | None => Ret None
  | Some t0 =>
      let* r := for_ts (λ s t v, let* data := set_go (fst s) (snd s) (f t v) in Ret (data, snd s + 1)) ts
            (replicate (length (ts_data t0)) F32.zero, 0) in
      Ret (Some (NewWithData (ts_from t0) (ts_step t0) (fst r)))
  end.

Fixpoint map_from (f : Z → f32 → f32) (step t : Z) (data : list f32) : list f32 :=
  match data with
  | [] => []
  | v :: data => f t v :: map_from f step (Time.Add t step) data
  end.

(** [MapInPlace] writes through the receiver: the result is both the returned
    pointer's series and the new contents of [ts]. *)
Definition MapInPlace (f : Z → f32 → f32) (ts : option TimeSeries) : option TimeSeries :=
  match ts with
  | None => None
  | Some ts => Some (NewWithData (ts_from ts) (ts_step ts) (map_from f (ts_step ts) (ts_from ts) (ts_data ts)))
  end.

Definition WithNewValue (newValue : f32) (ts : option TimeSeries) : option TimeSeries :=
  match ts with
  | None => None
  | Some ts => Some (NewWithData (ts_from ts) (ts_step ts) (replicate (length (ts_data ts)) newValue))
  end.

Definition WithData (data : list f32) (ts : option TimeSeries) : option TimeSeries :=
  match ts with
  | None => None
  | Some ts => Some (NewWithData (ts_from ts) (ts_step ts) data)
  end.

Definition LastNotNull (ts : option TimeSeries) : outcome (Z * f32) :=
  match ts with
  | None => Ret (0, NaN)
  | Some _ => for_ts (λ s t v, Ret (if negb (IsNaN v) then (t, v) else s)) ts (0, F32.zero)
  end.

(** The accumulation [if !IsNaN(v) { sum += v; count++ }] of the averages. *)
Definition sum_count (s : f32 * Z) (v : f32) : f32 * Z :=
  if negb (IsNaN v) then (F32.add (fst s) v, snd s + 1) else s.

Definition LastNAvg (nPoints : Z) (defaultValue : f32) (ts : option TimeSeries) : outcome f32 :=
  match ts with
  | None => Ret defaultValue
  | Some ts =>
      if bool_decide (len_go (ts_data ts) < nPoints) then Ret defaultValue
      else
        let* tail := from_go (ts_data ts) (len_go (ts_data ts) - nPoints) in
        let '(sum, count) := foldl sum_count (F32.zero, 0) tail in
        Ret (if bool_decide (count > 0) then F32.div sum (F32.of_Z count) else defaultValue)
  end.

Definition Average (ts : option TimeSeries) : outcome f32 :=
  match ts with
  | None => Ret NaN
  | Some _ =>
      let* r := for_ts (λ s _ v, Ret (sum_count s v)) ts (F32.zero, 0) in
      Ret (if bool_decide (snd r = 0) then NaN else F32.div (fst r) (F32.of_Z (snd r)))
  end.

(** One step of [Increase]: state is [prev], [prevStatus] and the appended data. *)
Definition increase_delta (prev prevStatus v : f32) : f32 :=
  if negb (IsNaN v) && negb (IsNaN prev) then
    if F32.geb (F32.sub v prev) F32.zero then F32.sub v prev else v
  else if IsNaN prev && F32.eqb prevStatus F32.one then v
  else NaN.

Definition Increase (x status : option TimeSeries) : outcome (option TimeSeries) :=
  match x, status with
  | Some xs, Some _ =>
      let* r := for_iter2 (iter_fuel x)
            (λ (s : f32 * f32 * list f32) v st,
              let '(prev, prevStatus, data) := s in
              Ret (v, st, data ++ [increase_delta prev prevStatus v]))
            (Iter x) (Iter status) (NaN, NaN, []) in
      Ret (Some (NewWithData (ts_from xs) (ts_step xs) (snd r)))
  | _, _ => Ret None
  end.

Definition Aggregate2 (x y : option TimeSeries) (f : f32 → f32 → f32) : outcome (option TimeSeries) :=
  match x, y with
  | Some xs, Some _ =>
      let* r := for_iter2 (iter_fuel x)
            (λ s xv yv, let* data := set_go (fst s) (snd s) (f xv yv) in Ret (data, snd s + 1))
            (Iter x) (Iter y) (replicate (length (ts_data xs)) F32.zero, 0) in
      Ret (Some (NewWithData (ts_from xs) (ts_step xs) (fst r)))
  | _, _ => Ret None
  end.

Definition Mul (x y : option TimeSeries) := Aggregate2 x y F32.mul.
Definition Div (x y : option TimeSeries) := Aggregate2 x y F32.div.
Definition Sub_ (x y : option TimeSeries) := Aggregate2 x y F32.sub.
Definition Sum (x y : option TimeSeries) := Aggregate2 x y F32.add.

(** [MarshalJSON] and [UnmarshalJSON]: the JSON text is [null] ([None]) or an
    array whose elements are numbers or [null] (value.go writes [null] for NaN
    and the infinities). *)
Definition Value_MarshalJSON (f : f32) : option f32 :=
  if IsNaN f || IsInf f 0 then None else Some f.

Definition TS_MarshalJSON (ts : option TimeSeries) : outcome (option (list (option f32))) :=
  match ts with
  | None => Ret None
  | Some _ =>
      let* vs := for_ts (λ vs _ v, Ret (vs ++ [Value_MarshalJSON v])) ts [] in
      Ret (if bool_decide (vs = []) then None else Some vs)
  end.

Definition TS_UnmarshalJSON (ts : TimeSeries) (data : option (list (option f32))) : TimeSeries :=
  NewWithData (ts_from ts) (ts_step ts)
    (match data with
     | None => []
     | Some raw => map (λ v : option f32, match v with None => NaN | Some v => v end) raw
     end).

(** * timeseries/funcs.go *)
Definition Any : F := λ t v1 v2, if negb (IsNaN v1) then v1 else v2.

Definition LastNotNaN : F := λ t v1 v2, if negb (IsNaN v2) then v2 else v1.

Definition NanSum : F := λ t sum v,
  let sum := if IsNaN sum then F32.zero else sum in
  if negb (IsNaN v) then F32.add sum v else sum.

Definition NanCount : F := λ t count v,
  let count := if IsNaN count then F32.zero else count in
  if negb (IsNaN v) then F32.add count F32.one else count.

Definition Max : F := λ t max v,
  if IsNaN max then v
  else if IsNaN v then max
  else if F32.gtb v max then v else max.

Definition Min : F := λ t min v,
  if IsNaN min then v
  else if IsNaN v then min
  else if F32.ltb v min then v else min.

Definition Defined_ (t : Z) (v : f32) : f32 := if IsNaN v then F32.zero else F32.one.
Definition NanToZero (t : Z) (v : f32) : f32 := if IsNaN v then F32.zero else v.
Definition ZeroToNan (t : Z) (v : f32) : f32 := if F32.eqb v F32.zero then NaN else v.

(** * timeseries/aggregate.go *)
Module Aggregate.

Record t := { f : F; input : list TimeSeries }.

Definition NewAggregate (f : F) : t := {| f := f; input := [] |}.

Definition Add (a : t) (tss : list (option TimeSeries)) : t :=
  {| f := f a; input := foldl (λ input ts, match ts with None => input | Some ts => input ++ [ts] end) (input a) tss |}.

(** The inner loop of [Get]: [data[i] = a.f(t, data[i], v)]. *)
Definition merge (f : F) (data : list f32) (src : TimeSeries) : outcome (list f32) :=
  let* r := for_ts (λ s t v,
        let* d := nth_go (fst s) (snd s) in
        let* data := set_go (fst s) (snd s) (f t d v) in
        Ret (data, snd s + 1)) (Some src) (data, 0) in
  Ret (fst r).

Fixpoint merge_all (f : F) (data : list f32) (input : list TimeSeries) : outcome (list f32) :=
  match input with
  | [] => Ret data
  | src :: input => let* data := merge f data src in merge_all f data input
  end.

Definition Get (a : t) : outcome (option TimeSeries) :=
  match input a with
  | [] => Ret None
  | [ts] => Ret (Some ts)
  | first :: _ =>
      let* data := merge_all (f a) (replicate (length (ts_data first)) NaN) (input a) in
      Ret (Some (NewWithData (ts_from first) (ts_step first) data))
  end.

Definition AIsEmpty (a : t) : bool := bool_decide (input a = []).

Definition AReduce (a : t) (g : F) : outcome f32 := let* ts := Get a in Reduce g ts.

End Aggregate.

(** * The points of a series, and loops as folds *)
Fixpoint points_at (t step : Z) (data : list f32) : list (Z * f32) :=
  match data with
  | [] => []
  | v :: data => (wrap64 t, v) :: points_at (t + step) step data
  end.

Definition points (ts : TimeSeries) : list (Z * f32) :=
  points_at (ts_from ts) (ts_step ts) (ts_data ts).

Fixpoint fold_go {A S} (body : S → A → outcome S) (s : S) (l : list A) : outcome S :=
  match l with
  | [] => Ret s
  | x :: l => let* s' := body s x in fold_go body s' l
  end.

Lemma fold_go_pure {A S} (g : S → A → S) (s : S) (l : list A) :
  fold_go (λ s x, Ret (g s x)) s l = Ret (foldl g s l).
Proof. revert s; induction l as [|x l IH]; intros s; simpl; auto. Qed.

Lemma fold_go_app {A S} (body : S → A → outcome S) s l1 l2 :
  fold_go body s (l1 ++ l2) = obind (fold_go body s l1) (λ s, fold_go body s l2).
Proof. revert s; induction l1 as [|x l IH]; intros s; simpl; [done|]. by destruct (body s x); simpl. Qed.

Lemma points_at_values t step data : (points_at t step data).*2 = data.
Proof. revert t; induction data as [|v data IH]; intros t; simpl; [done|]. by rewrite IH. Qed.

Lemma points_at_lookup t step data (i : nat) v :
  data !! i = Some v → points_at t step data !! i = Some (wrap64 (t + Z.of_nat i * step), v).
Proof.
  revert t i; induction data as [|w data IH]; intros t i; [done|].
  destruct i as [|i]; simpl; intros H; simplify_eq; [by rewrite Z.add_0_r|].
  rewrite (IH _ _ H). do 3 f_equal. lia.
Qed.

Lemma points_at_length t step data : length (points_at t step data) = length data.
Proof. revert t; induction data as [|v data IH]; intros t; simpl; [done|]. by rewrite IH. Qed.

Lemma points_length ts : length (points ts) = length (ts_data ts).
Proof. apply points_at_length. Qed.

Lemma points_values ts : (points ts).*2 = ts_data ts.
Proof. apply points_at_values. Qed.

(** The iterator that has [k] points behind it. *)
Definition iter_at (from step : Z) (data : list f32) (k : nat) (v : f32) : Iterator :=
  {| it_step := step; it_data := data; it_idx := Z.of_nat k - 1;
     it_t := wrap64 (from + (Z.of_nat k - 1) * step); it_v := v |}.

Lemma Iter_iter_at ts :
  Iter (Some ts) = iter_at (ts_from ts) (ts_step ts) (ts_data ts) 0 F32.zero.
Proof.
  unfold Iter, iter_at, Time.Add. f_equal. rewrite add64_wrap_r; f_equal; lia.
Qed.

Lemma Next_at from step data k w v :
  data !! k = Some v → Next (iter_at from step data k w) = Ret (true, iter_at from step data (S k) v).
Proof.
  intros Hk. pose proof (lookup_lt_Some _ _ _ Hk).
  unfold Next, iter_at, len_go, Time.Add; simpl.
  rewrite bool_decide_false by (intros ->; done).
  rewrite bool_decide_false by lia.
  replace (Z.of_nat k - 1 + 1) with (Z.of_nat k) by lia.
  rewrite (nth_go_nat _ _ _ Hk); simpl.
  rewrite add64_wrap_l. do 3 f_equal; [lia|f_equal; lia].
Qed.

Lemma Next_at_end from step data w :
  ∃ it, Next (iter_at from step data (length data) w) = Ret (false, it).
Proof.
  unfold Next, iter_at, len_go; simpl.
  destruct data; simpl; [eauto|].
  rewrite bool_decide_true by lia. eauto.
Qed.

Lemma for_iter_at {S} (body : S → Z → f32 → outcome S) from step data k w fuel s :
  (k ≤ length data)%nat → (length data - k < fuel)%nat →
  for_iter fuel body (iter_at from step data k w) s
  = fold_go (λ s p, body s (fst p) (snd p)) s
      (points_at (from + Z.of_nat k * step) step (drop k data)).
Proof.
  revert k w s; induction fuel as [|fuel IH]; intros k w s Hk Hf; [lia|].
  destruct (decide (k = length data)) as [->|Hne]; simpl.
  - destruct (Next_at_end from step data w) as [it ->]; simpl.
    by rewrite drop_ge.
  - destruct (lookup_lt_is_Some_2 data k ltac:(lia)) as [v Hv].
    rewrite (Next_at _ _ _ _ _ _ Hv); simpl.
    rewrite (drop_S _ _ _ Hv); simpl.
    replace (Z.of_nat (Datatypes.S k) - 1) with (Z.of_nat k) by lia.
    destruct (body s _ v) as [s'|]; simpl; [|done].
    rewrite IH by lia. do 2 f_equal. lia.
Qed.

(** A loop over a series is the fold over its points: it terminates within
    [iter_fuel] and never indexes out of range by itself. *)
Lemma for_ts_fold {S} (body : S → Z → f32 → outcome S) ts s :
  for_ts body (Some ts) s = fold_go (λ s p, body s (fst p) (snd p)) s (points ts).
Proof.
  unfold for_ts. rewrite Iter_iter_at, for_iter_at by (simpl; lia).
  simpl. by rewrite Z.add_0_r.
Qed.

Lemma for_iter2_at {S} (body : S → f32 → f32 → outcome S) f1 st1 d1 w1 f2 st2 d2 w2 k fuel s :
  (k ≤ length d1)%nat → (k ≤ length d2)%nat → (length d1 - k < fuel)%nat →
  for_iter2 fuel body (iter_at f1 st1 d1 k w1) (iter_at f2 st2 d2 k w2) s
  = fold_go (λ s p, body s (fst p) (snd p)) s (zip (drop k d1) (drop k d2)).
Proof.
  revert k w1 w2 s; induction fuel as [|fuel IH]; intros k w1 w2 s Hk1 Hk2 Hf; [lia|].
  destruct (decide (k = length d1)) as [->|Hne]; simpl.
  { destruct (Next_at_end f1 st1 d1 w1) as [it ->]; simpl. by rewrite (drop_ge d1). }
  destruct (lookup_lt_is_Some_2 d1 k ltac:(lia)) as [v Hv].
  rewrite (Next_at _ _ _ _ _ _ Hv); simpl. rewrite (drop_S _ _ _ Hv); simpl.
  destruct (decide (k = length d2)) as [->|Hne2].
  { destruct (Next_at_end f2 st2 d2 w2) as [it ->]; simpl. by rewrite (drop_ge d2). }
  destruct (lookup_lt_is_Some_2 d2 k ltac:(lia)) as [v2 Hv2].
  rewrite (Next_at _ _ _ _ _ _ Hv2); simpl. rewrite (drop_S _ _ _ Hv2); simpl.
  destruct (body s v v2); simpl; [|done]. apply IH; lia.
Qed.

Lemma for_iter2_fold {S} (body : S → f32 → f32 → outcome S) x y s :
  for_iter2 (iter_fuel (Some x)) body (Iter (Some x)) (Iter (Some y)) s
  = fold_go (λ s p, body s (fst p) (snd p)) s (zip (ts_data x) (ts_data y)).
Proof. by rewrite !Iter_iter_at, for_iter2_at by (simpl; lia). Qed.

Lemma Reduce_fold f ts :
  Reduce f (Some ts) = Ret (foldl (λ acc p, f (fst p) acc (snd p)) NaN (points ts)).
Proof. unfold Reduce. by rewrite for_ts_fold, fold_go_pure. Qed.

#[export] Hint Rewrite @for_ts_fold @for_iter2_fold @fold_go_pure Reduce_fold : coroot.

(** [data[i] = ...; i++] over a list no longer than the slice: the filled slice. *)
Lemma fold_go_store_at {A} (g : A → f32) (l : list A) pre suf i :
  i = Z.of_nat (length pre) → (length l ≤ length suf)%nat →
  fold_go (λ (s : list f32 * Z) x, let* data := set_go (fst s) (snd s) (g x) in Ret (data, snd s + 1))
    (pre ++ suf, i) l
  = Ret (pre ++ (g <$> l) ++ drop (length l) suf, i + Z.of_nat (length l)).
Proof.
  revert pre suf i; induction l as [|x l IH]; intros pre suf i -> Hl; simpl.
  { by rewrite Z.add_0_r, drop_0. }
  destruct suf as [|w suf]; simpl in Hl; [lia|].
  rewrite set_go_nat by (rewrite length_app; simpl; lia); simpl.
  rewrite insert_app_r_alt, Nat.sub_diag by lia; simpl.
  rewrite cons_middle, app_assoc, IH; [|rewrite length_app; simpl; lia|lia].
  f_equal. f_equal; [by rewrite <- app_assoc|lia].
Qed.

Lemma fold_go_store {A} (g : A → f32) (l : list A) (data : list f32) :
  (length l ≤ length data)%nat →
  fold_go (λ (s : list f32 * Z) x, let* data := set_go (fst s) (snd s) (g x) in Ret (data, snd s + 1))
    (data, 0) l
  = Ret ((g <$> l) ++ drop (length l) data, Z.of_nat (length l)).
Proof. intros H. by apply (fold_go_store_at g l [] data 0). Qed.

Lemma Map_spec f ts :
  Map f (Some ts) = Ret (Some (NewWithData (ts_from ts) (ts_step ts)
                                 ((λ p, f (fst p) (snd p)) <$> points ts))).
Proof.
  unfold Map. rewrite for_ts_fold.
  rewrite (fold_go_store (λ p, f (fst p) (snd p)))
    by (rewrite length_replicate, points_length; lia); simpl.
  rewrite points_length, drop_replicate, Nat.sub_diag; simpl. by rewrite app_nil_r.
Qed.

Lemma Aggregate2_fold f x y :
  Aggregate2 (Some x) (Some y) f
  = Ret (Some (NewWithData (ts_from x) (ts_step x)
      (zip_with f (ts_data x) (ts_data y)
         ++ replicate (length (ts_data x) - length (ts_data y)) F32.zero))).
Proof.
  unfold Aggregate2. rewrite for_iter2_fold.
  rewrite (fold_go_store (λ p, f (fst p) (snd p)))
    by (rewrite length_replicate, length_zip_with; lia); simpl.
  rewrite length_zip_with, drop_replicate.
  do 4 f_equal; [|f_equal; lia].
  generalize (ts_data y); induction (ts_data x) as [|v l IH]; intros [|w l']; simpl; try done.
  by rewrite IH.
Qed.

(** * Rounding of times *)

(** A truncated remainder of a non-negative time is its [mod]. *)
Lemma Truncate_floor t d :
  0 ≤ t → 0 < d → in_i64 t → in_i64 d → Time.Truncate t d = Ret (d * (t / d)).
Proof.
  intros Ht Hd Hti Hdi. unfold Time.Truncate.
  pose proof (Z.mod_pos_bound t d Hd). pose proof (Z.div_mod t d ltac:(lia)).
  pose proof (Z.mod_le t d Ht Hd).
  rewrite rem64_id by (rewrite ?Z.rem_mod_nonneg by lia; first [lia|i64]); simpl.
  rewrite Z.rem_mod_nonneg, sub64_id by first [lia|i64]. f_equal. lia.
Qed.

(** [Time.Ceil] of a non-negative time is the least multiple of [d] that is
    not before it (so the step (r-d, r] holds [t]); it never panics for a
    positive [d] as long as [t + d] is representable. *)
Theorem Ceil_least_multiple t d :
  0 ≤ t → 0 < d → in_i64 (t + d) →
  ∃ r, Time.Ceil t d = Ret r ∧ r mod d = 0 ∧ r - d < t ≤ r.
Proof.
  intros Ht Hd Hr. unfold Time.Ceil, Time.Add. unwrap.
  rewrite Truncate_floor by first [lia|i64].
  pose proof (Z.mod_pos_bound (t + (d - 1)) d Hd).
  pose proof (Z.div_mod (t + (d - 1)) d ltac:(lia)).
  eexists; split; [done|]. split; [by rewrite Z.mul_comm, Z_mod_mult|lia].
Qed.

Example Ceil_least_multiple_witness : ∃ r, Time.Ceil 31 15 = Ret r ∧ r mod 15 = 0 ∧ r - 15 < 31 ≤ r.
Proof. apply (Ceil_least_multiple 31 15); [lia|lia|decide_now]. Defined.

(** * Reductions *)

(** What [Reduce] of [Max] or [Min] keeps: the running value is NaN while
    everything seen is NaN, and afterwards a seen value that [better] bounds
    all the others. *)
Definition extremum (better : f32 → f32 → bool) (m : f32) (vs : list f32) : Prop :=
  (m = NaN ∧ Forall (λ v, v = NaN) vs) ∨
  (m ≠ NaN ∧ m ∈ vs ∧ Forall (λ v, v ≠ NaN → better v m = true) vs).

Lemma foldl_extremum (better : f32 → f32 → bool) (f : F) (pts : list (Z * f32)) :
  (∀ v, v ≠ NaN → better v v = true) →
  (∀ x y z, better x y = true → better y z = true → better x z = true) →
  (∀ t m v, m ≠ NaN → v ≠ NaN → (f t m v = v ∧ better m v = true) ∨ (f t m v = m ∧ better v m = true)) →
  (∀ t v, f t NaN v = v) → (∀ t m, f t m NaN = m) →
  extremum better (foldl (λ acc p, f (fst p) acc (snd p)) NaN pts) (pts.*2).
Proof.
  intros Hrefl Htrans Hsel HnanL HnanR.
  induction pts as [|[t v] pts IH] using rev_ind; [left; done|].
  rewrite foldl_app, fmap_app; simpl.
  set (m := foldl _ NaN pts) in *.
  destruct (decide (v = NaN)) as [->|Hv].
  { rewrite HnanR. destruct IH as [[-> IH]|(Hm & Hin & IH)].
    - left. split; [done|]. rewrite Forall_app, Forall_singleton. done.
    - right. split_and!; [done|set_solver|]. rewrite Forall_app, Forall_singleton. done. }
  destruct (decide (m = NaN)) as [Hm|Hm].
  { rewrite Hm, HnanL. destruct IH as [[_ IH]|(Hm' & _)]; [|done].
    right. split_and!; [done|set_solver|].
    rewrite Forall_app, Forall_singleton. split; [|by intros _; apply Hrefl].
    eapply Forall_impl; [done|]. intros w -> ?. done. }
  destruct IH as [[? _]|(_ & Hin & IH)]; [done|].
  right. destruct (Hsel t m v Hm Hv) as [[-> Hb]|[-> Hb]].
  - split_and!; [done|set_solver|]. rewrite Forall_app, Forall_singleton.
    split; [|by intros _; apply Hrefl].
    eapply Forall_impl; [done|]. intros w Hw ?. by eapply Htrans; [apply Hw|].
  - split_and!; [done|set_solver|]. rewrite Forall_app, Forall_singleton. done.
Qed.

Lemma Max_selects t m v :
  m ≠ NaN → v ≠ NaN → (Max t m v = v ∧ F32.leb m v = true) ∨ (Max t m v = m ∧ F32.leb v m = true).
Proof.
  intros Hm Hv. unfold Max. rewrite !IsNaN_dec, !bool_decide_false by done.
  unfold F32.gtb. fold (F32.ltb m v). destruct (F32.ltb m v) eqn:E; auto using F32.ltb_leb, F32.ltb_false_leb.
Qed.

Lemma Min_selects t m v :
  m ≠ NaN → v ≠ NaN → (Min t m v = v ∧ F32.geb m v = true) ∨ (Min t m v = m ∧ F32.geb v m = true).
Proof.
  intros Hm Hv. unfold Min, F32.geb. rewrite !IsNaN_dec, !bool_decide_false by done.
  destruct (F32.ltb v m) eqn:E; [left|right]; (split; [done|]);
    [by apply F32.ltb_leb|by apply F32.ltb_false_leb].
Qed.

Lemma Max_nan_r t m : Max t m NaN = m.
Proof. unfold Max. rewrite !IsNaN_dec. case_bool_decide; [by subst|done]. Qed.
Lemma Min_nan_r t m : Min t m NaN = m.
Proof. unfold Min. rewrite !IsNaN_dec. case_bool_decide; [by subst|done]. Qed.

#[export] Hint Resolve Max_selects Min_selects Max_nan_r Min_nan_r : coroot.

(** Reducing a series by [Max] (respectively [Min]) returns NaN exactly when
    every point is NaN, and otherwise a point of the series that no non-NaN
    point exceeds (respectively is below); it never panics. *)
Theorem Reduce_Max_Min_extremum ts :
  ∃ hi lo, Reduce Max (Some ts) = Ret hi ∧ Reduce Min (Some ts) = Ret lo ∧
    extremum F32.leb hi (ts_data ts) ∧ extremum F32.geb lo (ts_data ts).
Proof.
  eexists _, _. rewrite !Reduce_fold. split_and!; [done..| |];
    rewrite <- points_values; apply foldl_extremum; auto with coroot.
  - exact F32.leb_trans.
  - exact F32.leb_refl.
  - intros x y z H1 H2. exact (F32.leb_trans z y x H2 H1).
Qed.

(** * Well-formed series

    What the callers build: a positive step, a start aligned to it and not
    negative, and times that stay in the 64-bit range. *)
Record wf_ts (ts : TimeSeries) : Prop := {
  wf_step : 0 < ts_step ts;
  wf_from : 0 ≤ ts_from ts;
  wf_aligned : (ts_step ts | ts_from ts);
  wf_range : in_i64 (ts_from ts + len_go (ts_data ts) * ts_step ts + ts_step ts)
}.

Lemma wf_range_lookup ts i v :
  wf_ts ts → ts_data ts !! i = Some v → in_i64 (ts_from ts + Z.of_nat i * ts_step ts).
Proof.
  intros [] Hi%lookup_lt_Some. unfold len_go in *.
  assert (Z.of_nat i * ts_step ts ≤ Z.of_nat (length (ts_data ts)) * ts_step ts) by nia.
  assert (0 ≤ Z.of_nat i * ts_step ts) by nia. i64.
Qed.

(** The bucket of a time at or after the start. *)
Definition bucket (ts : TimeSeries) (t : Z) : nat := Z.to_nat ((t - ts_from ts) / ts_step ts).

Lemma Truncate_bucket ts t :
  wf_ts ts → ts_from ts ≤ t → in_i64 t →
  Time.Truncate t (ts_step ts) = Ret (ts_from ts + Z.of_nat (bucket ts t) * ts_step ts)
  ∧ ts_from ts + Z.of_nat (bucket ts t) * ts_step ts ≤ t.
Proof.
  intros [? ? [q Hq] ?] Ht Hti. unfold bucket, len_go in *.
  assert (in_i64 (ts_step ts)).
  { assert (0 ≤ Z.of_nat (length (ts_data ts)) * ts_step ts) by nia. i64. }
  rewrite Truncate_floor by lia || done.
  assert (0 ≤ (t - ts_from ts) / ts_step ts) by (apply Z.div_pos; lia).
  rewrite Z2Nat.id by done.
  assert ((t - ts_from ts) / ts_step ts = t / ts_step ts - q) as ->.
  { rewrite Hq. replace (t - q * ts_step ts) with (t + (- q) * ts_step ts) by lia.
    rewrite Z.div_add by lia. lia. }
  pose proof (Z.mul_div_le t (ts_step ts) ltac:(lia)).
  split; [f_equal|]; lia.
Qed.

(** [Set] on a well-formed series never panics.  A time before the start, or
    at or past the end, changes nothing; any other time replaces exactly the
    point of the step [from + i*step, from + (i+1)*step) that holds it. *)
Theorem Set_replaces_its_bucket ts t v :
  wf_ts ts → 0 ≤ t → in_i64 t →
  Set_ ts t v = Ret (NewWithData (ts_from ts) (ts_step ts)
    (if bool_decide (t < ts_from ts) then ts_data ts
     else <[bucket ts t := v]> (ts_data ts))).
Proof.
  intros Hwf Ht Hti. pose proof Hwf as [? ? [q Hq] ?]. unfold Set_.
  assert (in_i64 (ts_step ts)).
  { unfold len_go in *. assert (0 ≤ Z.of_nat (length (ts_data ts)) * ts_step ts) by nia. i64. }
  case_bool_decide as Hlt.
  - rewrite Truncate_floor by done || lia. simpl.
    pose proof (Z.mul_div_le t (ts_step ts) ltac:(lia)).
    rewrite bool_decide_true by lia. by destruct ts.
  - destruct (Truncate_bucket ts t) as [-> Hle]; [done|lia|done|]; simpl.
    set (i := bucket ts t) in *.
    assert (0 ≤ Z.of_nat i * ts_step ts) by nia.
    rewrite bool_decide_false by lia. unfold Time.Sub. unwrap.
    replace (ts_from ts + Z.of_nat i * ts_step ts - ts_from ts) with (Z.of_nat i * ts_step ts) by lia.
    assert (Z.of_nat i ≤ Z.of_nat i * ts_step ts) by nia.
    rewrite quot64_id; rewrite ?Z.quot_mul by lia; [|lia|i64]; simpl.
    unfold len_go. case_bool_decide.
    + by rewrite set_go_nat by lia.
    + rewrite list_insert_ge by lia. by destruct ts.
Qed.

Example Set_replaces_its_bucket_witness :
  Set_ (NewWithData 60 15 [NaN; NaN; NaN]) 95 F32.one
  = Ret (NewWithData 60 15 [NaN; NaN; F32.one]).
Proof.
  apply (Set_replaces_its_bucket (NewWithData 60 15 [NaN; NaN; NaN]) 95 F32.one).
  - split; simpl; [lia|lia|by exists 4|decide_now].
  - lia.
  - decide_now.
Defined.

Lemma points_at_app t step d1 d2 :
  points_at t step (d1 ++ d2) = points_at t step d1 ++ points_at (t + len_go d1 * step) step d2.
Proof.
  unfold len_go. revert t; induction d1 as [|v d1 IH]; intros t; simpl.
  { f_equal. lia. }
  rewrite IH. do 3 f_equal. lia.
Qed.

Lemma points_at_times t step data :
  0 < step → 0 ≤ t → in_i64 (t + len_go data * step) →
  Forall (λ p, t ≤ fst p ≤ t + (len_go data - 1) * step) (points_at t step data).
Proof.
  unfold len_go. revert t; induction data as [|v data IH]; intros t Hs Ht Hr; [done|].
  assert (Z.of_nat (length (v :: data)) * step = step + Z.of_nat (length data) * step) as Hl
    by (rewrite length_cons; lia).
  assert (0 ≤ Z.of_nat (length data) * step) by nia.
  rewrite Hl in *. simpl. constructor; simpl.
  - rewrite wrap64_id by i64. lia.
  - eapply Forall_impl; [apply IH; [lia|lia|i64]|]. simpl. lia.
Qed.

(** The points whose time is not before that of index [k]: the suffix from [k]. *)
Lemma points_filter_suffix ts (k : nat) bound :
  wf_ts ts → (k ≤ length (ts_data ts))%nat →
  ts_from ts + (Z.of_nat k - 1) * ts_step ts ≤ bound < ts_from ts + Z.of_nat k * ts_step ts →
  filter (λ p, bound < fst p) (points ts)
  = points_at (ts_from ts + Z.of_nat k * ts_step ts) (ts_step ts) (drop k (ts_data ts)).
Proof.
  intros [Hs Hf _ Hr] Hk Hb. unfold points.
  rewrite <- (take_drop k (ts_data ts)) at 1. rewrite points_at_app, filter_app.
  unfold len_go in *. rewrite length_take_le by done.
  assert (Z.of_nat k * ts_step ts ≤ Z.of_nat (length (ts_data ts)) * ts_step ts) by nia.
  assert (0 ≤ Z.of_nat k * ts_step ts) by nia.
  pose proof (points_at_times (ts_from ts) (ts_step ts) (take k (ts_data ts))) as Hp.
  pose proof (points_at_times (ts_from ts + Z.of_nat k * ts_step ts) (ts_step ts) (drop k (ts_data ts))) as Hq.
  unfold len_go in *. rewrite length_take_le in Hp by done. rewrite length_drop in Hq.
  rewrite filter_none, filter_all; [done| |].
  - eapply Forall_impl; [apply Hq; try lia; i64|]. simpl. lia.
  - eapply Forall_impl; [apply Hp; try lia; i64|].
    intros [t v]; simpl. lia.
Qed.

Lemma bucket_bounds ts t :
  wf_ts ts → ts_from ts ≤ t →
  0 ≤ Z.of_nat (bucket ts t) * ts_step ts ≤ t - ts_from ts
  ∧ t - ts_from ts < (Z.of_nat (bucket ts t) + 1) * ts_step ts.
Proof.
  intros [Hs _ _ _] Ht. unfold bucket. rewrite Z2Nat.id by (apply Z.div_pos; lia).
  pose proof (Z.mod_pos_bound (t - ts_from ts) (ts_step ts) Hs).
  pose proof (Z.div_mod (t - ts_from ts) (ts_step ts) ltac:(lia)).
  assert (0 ≤ (t - ts_from ts) / ts_step ts) by (apply Z.div_pos; lia). nia.
Qed.

Definition last_time (ts : TimeSeries) : Z := ts_from ts + (len_go (ts_data ts) - 1) * ts_step ts.

Lemma IterFrom_at ts from :
  wf_ts ts → 0 ≤ from → in_i64 from →
  IterFrom (Some ts) from =
    let from' := Z.max from (ts_from ts) in
    if bool_decide (from' > last_time ts) then Ret nil_iter
    else Ret (iter_at (ts_from ts) (ts_step ts) (ts_data ts) (bucket ts from') F32.zero).
Proof.
  intros Hwf Hf Hfi. pose proof Hwf as [Hs H0 _ Hr]. unfold IterFrom, last_time, len_go in *.
  set (n := Z.of_nat (length (ts_data ts))) in *. assert (0 ≤ n * ts_step ts) by nia.
  unfold Time.Before, Time.After, Time.Add.
  unwrap. replace (ts_step ts * (n - 1)) with ((n - 1) * ts_step ts) by lia.
  replace (if bool_decide (from < ts_from ts) then ts_from ts else from)
    with (Z.max from (ts_from ts)) by (case_bool_decide; lia).
  cbv zeta. set (from' := Z.max from (ts_from ts)).
  case_bool_decide as Hp; [done|].
  assert (in_i64 from') by i64.
  destruct (Truncate_bucket ts from' Hwf ltac:(lia) ltac:(done)) as [-> Hle]; simpl.
  destruct (bucket_bounds ts from' Hwf ltac:(lia)).
  set (k := bucket ts from') in *. unfold Time.Sub. unwrap.
  replace (ts_from ts + Z.of_nat k * ts_step ts - ts_from ts) with (Z.of_nat k * ts_step ts) by lia.
  assert (Z.of_nat k ≤ Z.of_nat k * ts_step ts) by nia.
  rewrite quot64_id; rewrite ?Z.quot_mul by lia; [|lia|i64]; simpl.
  unfold iter_at. do 2 f_equal. unwrap. lia.
Qed.

(** The points [IterFrom from] ranges over. *)
Definition window (ts : TimeSeries) (from : Z) : list (Z * f32) :=
  if bool_decide (Z.max from (ts_from ts) ≤ last_time ts)
  then filter (λ p, from - ts_step ts < fst p) (points ts) else [].

Lemma window_suffix ts from :
  wf_ts ts → 0 ≤ from → in_i64 from →
  if bool_decide (Z.max from (ts_from ts) > last_time ts) then window ts from = []
  else let k := bucket ts (Z.max from (ts_from ts)) in
       (k < length (ts_data ts))%nat
       ∧ window ts from = points_at (ts_from ts + Z.of_nat k * ts_step ts) (ts_step ts) (drop k (ts_data ts)).
Proof.
  intros Hwf Hf Hfi. unfold window.
  set (from' := Z.max from (ts_from ts)). pose proof Hwf as [Hs H0 _ Hr].
  case_bool_decide as Hp; [by rewrite (bool_decide_false (from' ≤ _)) by lia|].
  rewrite (bool_decide_true (from' ≤ _)) by lia. cbv zeta.
  destruct (bucket_bounds ts from' Hwf ltac:(lia)) as [Hb1 Hb2].
  unfold last_time, len_go in *. set (k := bucket ts from') in *.
  assert (k < length (ts_data ts))%nat as Hk by nia. split; [done|].
  destruct (decide (from < ts_from ts)) as [Hlt|Hlt].
  - assert (from' = ts_from ts) as Hf' by lia. assert (k = 0)%nat as -> by nia.
    rewrite drop_0, Z.add_0_r. apply filter_all. unfold points.
    eapply Forall_impl; [apply points_at_times; unfold len_go; try lia; i64|]. simpl; lia.
  - assert (from' = from) as Hf' by lia. apply (points_filter_suffix ts k); [done|lia|lia].
Qed.

Lemma IterFrom_window {S} (body : S → Z → f32 → outcome S) ts from s :
  wf_ts ts → 0 ≤ from → in_i64 from →
  (let* it := IterFrom (Some ts) from in for_iter (iter_fuel (Some ts)) body it s)
  = fold_go (λ s p, body s (fst p) (snd p)) s (window ts from).
Proof.
  intros Hwf Hf Hfi. rewrite IterFrom_at by done. cbv zeta.
  pose proof (window_suffix ts from Hwf Hf Hfi) as Hw. case_bool_decide as Hp; [by rewrite Hw|].
  destruct Hw as [Hk ->]. cbn -[for_iter]. rewrite for_iter_at by lia. done.
Qed.

Lemma IterFrom_window2 {S} (body : S → f32 → f32 → outcome S) x y from s :
  wf_ts x → wf_ts y → ts_from x = ts_from y → ts_step x = ts_step y → 0 ≤ from → in_i64 from →
  (let* a := IterFrom (Some x) from in let* b := IterFrom (Some y) from in
   for_iter2 (iter_fuel (Some x)) body a b s)
  = fold_go (λ s p, body s (fst p) (snd p)) s (zip (window x from).*2 (window y from).*2).
Proof.
  intros Hx Hy Hfrom Hstep Hf Hfi. rewrite !IterFrom_at by done. cbv zeta.
  pose proof (window_suffix x from Hx Hf Hfi) as Hwx. pose proof (window_suffix y from Hy Hf Hfi) as Hwy.
  destruct (bool_decide (_ > last_time x)); [rewrite Hwx; by destruct (bool_decide _)|].
  destruct Hwx as [Hkx ->]. rewrite points_at_values. destruct (bool_decide (_ > last_time y)).
  - rewrite Hwy. cbn -[for_iter2]. rewrite zip_with_nil_r. cbn.
    destruct (lookup_lt_is_Some_2 (ts_data x) _ Hkx) as [v Hv]. by rewrite (Next_at _ _ _ _ _ _ Hv).
  - destruct Hwy as [Hky ->]. rewrite points_at_values. cbn -[for_iter2].
    assert (bucket x (Z.max from (ts_from x)) = bucket y (Z.max from (ts_from y))) as Hb
      by (unfold bucket; by rewrite Hfrom, Hstep).
    rewrite Hb in *. by rewrite for_iter2_at by lia.
Qed.

(** Ranging over [IterFrom from] visits, in order, exactly the points later
    than [from - step] when [from] is not past the last point, and nothing when
    it is; it neither panics nor runs out of fuel. *)
Theorem IterFrom_visits_suffix {S} (body : S → Z → f32 → outcome S) ts from s :
  wf_ts ts → 0 ≤ from → in_i64 from →
  (let* it := IterFrom (Some ts) from in for_iter (iter_fuel (Some ts)) body it s)
  = fold_go (λ s p, body s (fst p) (snd p)) s
      (if bool_decide (Z.max from (ts_from ts) ≤ last_time ts)
       then filter (λ p, from - ts_step ts < fst p) (points ts) else []).
Proof. apply IterFrom_window. Qed.

Example IterFrom_visits_suffix_witness :
  let ts := NewWithData 60 15 [F32.zero; F32.one; NaN] in
  (let* it := IterFrom (Some ts) 80 in
   for_iter (iter_fuel (Some ts)) (λ l t v, Ret (l ++ [t])) it []) = Ret [75; 90].
Proof.
  intros ts. unfold ts. rewrite IterFrom_visits_suffix; [reflexivity| |lia|decide_now].
  split; simpl; [lia|lia|by exists 4|decide_now].
Defined.

(** * Increase *)
Fixpoint increase_all (prev prevStatus : f32) (l : list (f32 * f32)) : list f32 :=
  match l with
  | [] => []
  | (v, st) :: l => increase_delta prev prevStatus v :: increase_all v st l
  end.

Lemma Increase_fold x st :
  Increase (Some x) (Some st)
  = Ret (Some (NewWithData (ts_from x) (ts_step x) (increase_all NaN NaN (zip (ts_data x) (ts_data st))))).
Proof.
  unfold Increase. rewrite for_iter2_fold.
  assert (∀ l p q acc, ∃ s,
    fold_go (λ (s : f32 * f32 * list f32) p,
       let '(prev, prevStatus, data) := s in
       Ret (fst p, snd p, data ++ [increase_delta prev prevStatus (fst p)])) (p, q, acc) l
    = Ret (s, acc ++ increase_all p q l)) as H.
  { induction l as [|[v w] l IH]; intros p q acc; simpl; [exists (p, q); by rewrite app_nil_r|].
    destruct (IH v w (acc ++ [increase_delta p q v])) as [s Hs].
    exists s. by rewrite Hs, <- app_assoc. }
  destruct (H (zip (ts_data x) (ts_data st)) NaN NaN []) as [s Hs]. by rewrite Hs.
Qed.

Lemma increase_all_lookup p q l i :
  increase_all p q l !! S i
  = (a ← l !! i; b ← l !! S i; Some (increase_delta (fst a) (snd a) (fst b))).
Proof.
  revert p q i; induction l as [|[v w] l IH]; intros p q i; [done|].
  simpl. destruct i as [|i]; simpl; [|by rewrite IH].
  by destruct l as [|[v' w'] l].
Qed.

(** A counter sample: undefined or not negative. *)
Definition counter_value (v : f32) : Prop := v = NaN ∨ F32.geb v F32.zero = true.

Lemma increase_delta_counter p q v : counter_value v → counter_value (increase_delta p q v).
Proof.
  intros Hv. unfold increase_delta. repeat split_match; try done; [|by left].
  by right.
Qed.

Lemma increase_all_length p q l : length (increase_all p q l) = length l.
Proof. revert p q; induction l as [|[v w] l IH]; intros p q; simpl; [done|]. by rewrite IH. Qed.

Lemma increase_all_counter p q l :
  Forall (λ p, counter_value (fst p)) l → Forall counter_value (increase_all p q l).
Proof.
  intros H. revert p q. induction H as [|[v w] l Hv Hl IH]; intros p q; simpl; [done|].
  constructor; [by apply increase_delta_counter|done].
Qed.

(** [Increase x status] never panics; point [i+1] of the result depends on
    points [i] and [i+1] of the counter and on the status at [i] alone, the
    first point is undefined, and on a counter no increase is negative, whatever
    resets and gaps it has. *)
Theorem Increase_of_counter x st :
  Forall counter_value (ts_data x) →
  ∃ d, Increase (Some x) (Some st) = Ret (Some (NewWithData (ts_from x) (ts_step x) d))
    ∧ length d = (length (ts_data x) `min` length (ts_data st))%nat
    ∧ (∀ v, d !! O = Some v → v = NaN)
    ∧ (∀ i v, d !! S i = Some v → ∃ a s b, ts_data x !! i = Some a ∧ ts_data st !! i = Some s
         ∧ ts_data x !! S i = Some b ∧ v = increase_delta a s b)
    ∧ Forall counter_value d.
Proof.
  intros Hc. exists (increase_all NaN NaN (zip (ts_data x) (ts_data st))).
  split_and!; [apply Increase_fold| | | |].
  - by rewrite increase_all_length, length_zip_with.
  - destruct (ts_data x) as [|a l], (ts_data st) as [|b l']; simpl; intros v ?; simplify_eq.
    unfold increase_delta. repeat split_match; try done;
      repeat match goal with H : _ && _ = true |- _ => apply andb_prop in H as [] end; done.
  - intros i v. rewrite increase_all_lookup.
    destruct (zip _ _ !! i) as [[a s]|] eqn:H1; [|done].
    destruct (zip _ _ !! S i) as [[b s']|] eqn:H2; [|done]. simpl. intros ?; simplify_eq.
    apply lookup_zip_with_Some in H1 as (? & ? & ? & ? & ?), H2 as (? & ? & ? & ? & ?).
    simplify_eq. eauto 10.
  - apply increase_all_counter, Forall_zip_with_fst with (P := counter_value); [done|].
    by apply Forall_forall.
Qed.

Example Increase_of_counter_witness :
  let x := NewWithData 0 15 [F32.of_Z 3; F32.of_Z 5; F32.of_Z 1; NaN; F32.of_Z 4] in
  let st := NewWithData 0 15 [F32.one; F32.one; F32.one; F32.one; F32.one] in
  Forall counter_value [NaN; F32.of_Z 2; F32.of_Z 1; NaN; F32.of_Z 4].
Proof.
  intros x st.
  destruct (Increase_of_counter x st) as (d & Hd & _ & _ & _ & Hc).
  - repeat constructor; (by left) || by right.
  - vm_compute in Hd. injection Hd as <-. exact Hc.
Defined.

(** * JSON *)
Lemma TS_MarshalJSON_spec ts :
  TS_MarshalJSON (Some ts)
  = Ret (if bool_decide (ts_data ts = []) then None else Some (Value_MarshalJSON <$> ts_data ts)).
Proof.
  unfold TS_MarshalJSON. rewrite for_ts_fold, fold_go_pure; simpl.
  assert (∀ (l : list (Z * f32)) acc,
    foldl (λ acc p, acc ++ [Value_MarshalJSON (snd p)]) acc l = acc ++ (Value_MarshalJSON <$> l.*2)) as ->.
  { induction l as [|p l IH]; intros acc; simpl; [by rewrite app_nil_r|].
    rewrite IH, <- app_assoc. done. }
  rewrite points_values; simpl. do 2 f_equal.
  by destruct (ts_data ts).
Qed.

(** A series read back from the JSON it is written as has the same points,
    except that an infinity comes back undefined; a series without points is
    written as [null] and comes back without points. *)
Theorem TimeSeries_JSON_roundtrip ts ts0 :
  ∃ j, TS_MarshalJSON (Some ts) = Ret j ∧
    ts_data (TS_UnmarshalJSON ts0 j) = (λ v, if IsInf v 0 then NaN else v) <$> ts_data ts.
Proof.
  rewrite TS_MarshalJSON_spec. eexists; split; [done|].
  case_bool_decide as H; simpl; [by rewrite H|].
  rewrite map_map. apply list_fmap_ext. intros i v _. simpl.
  unfold Value_MarshalJSON. destruct (IsNaN v) eqn:E; simpl.
  - apply IsNaN_true in E. by subst.
  - by destruct (IsInf v 0).
Qed.

(** * Aggregates *)
Module AggregateFacts.
Import Aggregate.

Fixpoint merge_points (f : F) (data : list f32) (pts : list (Z * f32)) : list f32 :=
  match data, pts with
  | d :: data, (t, v) :: pts => f t d v :: merge_points f data pts
  | _, _ => data
  end.

Lemma merge_points_length f data pts : length (merge_points f data pts) = length data.
Proof.
  revert pts; induction data as [|d data IH]; intros [|[t v] pts]; simpl; try done.
  by rewrite IH.
Qed.

Lemma merge_points_lookup f data pts i d :
  data !! i = Some d →
  merge_points f data pts !! i
  = Some (match pts !! i with Some (t, v) => f t d v | None => d end).
Proof.
  revert pts i; induction data as [|d' data IH]; intros pts i; [done|].
  destruct pts as [|[t v] pts], i as [|i]; simpl; intros; simplify_eq; try done.
  by apply IH.
Qed.

Lemma merge_fold f (pre suf : list f32) (pts : list (Z * f32)) :
  fold_go (λ (s : list f32 * Z) p,
      let* d := nth_go (fst s) (snd s) in
      let* data := set_go (fst s) (snd s) (f (fst p) d (snd p)) in
      Ret (data, snd s + 1)) (pre ++ suf, len_go pre) pts
  = if bool_decide (length pts ≤ length suf)%nat
    then Ret (pre ++ merge_points f suf pts, len_go pre + len_go pts) else Panic.
Proof.
  unfold len_go. revert pre suf; induction pts as [|[t v] pts IH]; intros pre suf; simpl.
  { rewrite Z.add_0_r. by destruct suf. }
  destruct suf as [|d suf]; simpl.
  { rewrite app_nil_r. unfold nth_go. rewrite bool_decide_true, Nat2Z.id by lia.
    by rewrite lookup_ge_None_2 by lia. }
  rewrite (nth_go_nat _ _ d) by (by rewrite list_lookup_middle); simpl.
  rewrite set_go_nat by (rewrite length_app; simpl; lia); simpl.
  rewrite insert_app_r_alt, Nat.sub_diag by lia; simpl.
  rewrite cons_middle, app_assoc.
  replace (Z.of_nat (length pre) + 1) with (Z.of_nat (length (pre ++ [f t d v])))
    by (rewrite length_app; simpl; lia).
  rewrite IH. rewrite (bool_decide_ext _ (S (length pts) ≤ S (length suf))%nat) by lia.
  case_bool_decide; [|done]. rewrite length_app, <- app_assoc. simpl. do 2 f_equal. lia.
Qed.

Lemma merge_spec f data src :
  merge f data src
  = if bool_decide (length (ts_data src) ≤ length data)%nat
    then Ret (merge_points f data (points src)) else Panic.
Proof.
  unfold merge. rewrite for_ts_fold. pose proof (merge_fold f [] data (points src)) as H.
  change (len_go (@nil f32)) with 0 in H. change ([] ++ data) with data in H.
  rewrite points_length in H. rewrite H. by destruct (bool_decide _).
Qed.

Lemma merge_all_spec f (n : nat) data input :
  length data = n →
  merge_all f data input
  = if bool_decide (Forall (λ ts, length (ts_data ts) ≤ n)%nat input)
    then Ret (foldl (λ d src, merge_points f d (points src)) data input) else Panic.
Proof.
  revert data; induction input as [|src input IH]; intros data Hn; cbn [merge_all foldl].
  { by rewrite bool_decide_true by done. }
  rewrite merge_spec, Hn.
  rewrite (bool_decide_ext (Forall (λ ts, length (ts_data ts) ≤ n)%nat (src :: input))
             (length (ts_data src) ≤ n ∧ Forall (λ ts, length (ts_data ts) ≤ n) input)%nat)
    by (by rewrite Forall_cons).
  rewrite bool_decide_and. destruct (bool_decide (length (ts_data src) ≤ n)%nat); [|done].
  cbn [obind]. by rewrite IH by (by rewrite merge_points_length).
Qed.

Lemma foldl_merge_length f data input :
  length (foldl (λ d src, merge_points f d (points src)) data input) = length data.
Proof.
  revert data; induction input as [|src input IH]; intros data; simpl; [done|].
  by rewrite IH, merge_points_length.
Qed.

Lemma foldl_merge_lookup f data input i d :
  data !! i = Some d →
  foldl (λ d src, merge_points f d (points src)) data input !! i
  = Some (foldl (λ acc src, match points src !! i with Some (t, v) => f t acc v | None => acc end) d input).
Proof.
  revert data d; induction input as [|src input IH]; intros data d H; simpl; [done|].
  apply IH. by apply merge_points_lookup.
Qed.

(** [Aggregate.Get] is [nil] without inputs and the input itself (the same
    series, not a copy) with one; with several it takes start, step and length
    from the first input and combines point [i] of every input that has one, in
    order, starting from NaN.  It panics exactly when some input is longer than
    the first. *)
Theorem Get_combines_pointwise f input :
  match input with
  | [] => Get {| f := f; input := input |} = Ret None
  | [ts] => Get {| f := f; input := input |} = Ret (Some ts)
  | first :: _ =>
      if bool_decide (Forall (λ ts, length (ts_data ts) ≤ length (ts_data first))%nat input)
      then ∃ data, Get {| f := f; input := input |}
                   = Ret (Some (NewWithData (ts_from first) (ts_step first) data))
           ∧ length data = length (ts_data first)
           ∧ ∀ i, (i < length data)%nat → data !! i =
               Some (foldl (λ acc src, match points src !! i with Some (t, v) => f t acc v | None => acc end)
                       NaN input)
      else Get {| f := f; input := input |} = Panic
  end.
Proof.
  destruct input as [|first [|second rest]]; [done..|].
  unfold Get, Aggregate.f, Aggregate.input.
  rewrite (merge_all_spec f (length (ts_data first))) by apply length_replicate.
  destruct (bool_decide _); [|done]. cbn [obind]. eexists; split; [done|].
  match goal with |- length ?d = _ ∧ _ => assert (length d = length (ts_data first)) as Hlen end.
  { by rewrite foldl_merge_length, length_replicate. }
  split; [done|]. intros i Hi. apply foldl_merge_lookup.
  apply lookup_replicate. split; [done|lia].
Qed.

End AggregateFacts.
