(* ===== verification/Fill.v ===== *)
(** The Fill functions of timeseries/timeseries.go: resampling source points
    [from, from+step, ...] into the buckets of an existing series.

    [FillAny], [FillMax], [FillSum] and [FillAvg] are the same loop over four
    accumulators; [FillKind] is what one of them supplies (its initial
    accumulator, what a defined value adds to it, and how it is written to a
    point), with the law that the proofs use.  The proof of the loop is done
    once, against that interface. *)

From S2P Require Export TimeSeries.
From Stdlib Require Import ZArith Lia.

Local Open Scope Z_scope.

(** * The interface of an accumulator *)
Class FillKind (A : Type) := {
  fk_zero : A;                                       (* after moving to the next point *)
  fk_first : list f32 → Z → outcome A;               (* before the loop, from [ts.data], [iDst] *)
  fk_push : A → f32 → A;                             (* a defined source value *)
  fk_flush : list f32 → Z → A → outcome (list f32);  (* writing [ts.data[iDst]] *)
  fk_value : f32 → A → f32;                          (* the point after a flush *)
  fk_flush_ok : ∀ data (i : nat) old acc,
    data !! i = Some old → fk_flush data (Z.of_nat i) acc = Ret (<[i := fk_value old acc]> data)
}.

Section fill.
Context {A : Type} `{!FillKind A}.

(** The block the four functions start with: where in the source to start
      ([tSrc], [iSrc]) and which point of [ts] that belongs to ([tDst], [iDst]). *)
Definition fill_align (ts : TimeSeries) (from step : Z) : outcome (Z * Z * Z * Z) :=
    let* src :=
      (if bool_decide (Time.Sub (ts_from ts) from >= ts_step ts) then
         let* tr := Time.Truncate from (ts_step ts) in
         let tSrc := Time.Add from (Duration.Truncate (Time.Sub (ts_from ts) tr) (ts_step ts)) in
         let tSrc := if bool_decide (tSrc > ts_from ts) then Time.Add tSrc (wrap64 (- ts_step ts)) else tSrc in
         let* iSrc := quot64 (sub64 tSrc from) step in
         Ret (tSrc, iSrc)
       else Ret (from, 0)) in
    let* dst :=
      (if bool_decide (fst src > ts_from ts) then
         let* tDst := Time.Truncate (fst src) (ts_step ts) in
         let tDst := if bool_decide (tDst < fst src) then Time.Add tDst (ts_step ts) else tDst in
         let* iDst := quot64 (sub64 tDst (ts_from ts)) (ts_step ts) in
         Ret (tDst, iDst)
       else Ret (ts_from ts, 0)) in
    Ret (src.1, src.2, dst.1, dst.2).

(** The loop [for _, v := range data[iSrc:]]; the result is [ts.data], the
      accumulator, [changed] and [iDst]. *)
Fixpoint fill_loop (S step maxIndex : Z) (vs : list f32)
      (data : list f32) (acc : A) (changed : bool) (tSrc tDst iDst : Z) : outcome (list f32 * A * bool * Z) :=
    match vs with
    | [] => Ret (data, acc, changed, iDst)
    | v :: vs =>
        let continue data acc tDst iDst :=
          let acc' := if negb (IsNaN v) then fk_push acc v else acc in
          let changed' := if negb (IsNaN v) then true else changed in
          fill_loop S step maxIndex vs data acc' changed' (add64 tSrc step) tDst iDst in
        if bool_decide (tSrc > tDst) then
          let* data := fk_flush data iDst acc in
          if bool_decide (iDst + 1 > maxIndex) then Ret (data, fk_zero, changed, iDst + 1)
          else continue data fk_zero (add64 tDst S) (iDst + 1)
        else continue data acc tDst iDst
    end.

(** [if iDst <= maxIndex { ts.data[iDst] = ... }; return changed] *)
Definition fill_finish (maxIndex : Z) (r : list f32 * A * bool * Z) : outcome (list f32 * bool) :=
    let '(data, acc, changed, iDst) := r in
    if bool_decide (iDst <= maxIndex) then
      let* data := fk_flush data iDst acc in Ret (data, changed)
    else Ret (data, changed).

Definition fill (ts : TimeSeries) (from step : Z) (data : list f32) : outcome (TimeSeries * bool) :=
    let maxIndex := len_go (ts_data ts) - 1 in
    let* al := fill_align ts from step in
    let '(tSrc, iSrc, tDst, iDst) := al in
    let* acc := fk_first (ts_data ts) iDst in
    let* vs := from_go data iSrc in
    let* r := fill_loop (ts_step ts) step maxIndex vs (ts_data ts) acc false tSrc tDst iDst in
    let* out := fill_finish maxIndex r in
    Ret (NewWithData (ts_from ts) (ts_step ts) (fst out), snd out).
End fill.
Arguments FillKind A : clear implicits.

(** * The four functions *)

(** [vv = v] *)
Program Definition any_kind : FillKind f32 := {|
  fk_zero := NaN;
  fk_first := λ _ _, Ret NaN;
  fk_push := λ _ v, v;
  fk_flush := set_go;
  fk_value := λ _ acc, acc
|}.
Next Obligation. intros. by apply set_go_nat, lookup_lt_is_Some_1. Qed.

(** [if IsNaN(vv) || v > vv { vv = v }] *)
Program Definition max_kind : FillKind f32 := {|
  fk_zero := NaN;
  fk_first := λ _ _, Ret NaN;
  fk_push := λ vv v, if IsNaN vv || F32.gtb v vv then v else vv;
  fk_flush := set_go;
  fk_value := λ _ acc, acc
|}.
Next Obligation. intros. by apply set_go_nat, lookup_lt_is_Some_1. Qed.

(** [vv += v], starting from the point already there *)
Program Definition sum_kind : FillKind f32 := {|
  fk_zero := F32.zero;
  fk_first := λ data iDst, let* d := nth_go data iDst in Ret (if negb (IsNaN d) then d else F32.zero);
  fk_push := F32.add;
  fk_flush := set_go;
  fk_value := λ _ acc, acc
|}.
Next Obligation. intros. by apply set_go_nat, lookup_lt_is_Some_1. Qed.

(** [vv += v; cc++]; a point is written only when [cc > 0] *)
Program Definition avg_kind : FillKind (f32 * f32) := {|
  fk_zero := (F32.zero, F32.zero);
  fk_first := λ data iDst,
    let* d := nth_go data iDst in
    Ret (if negb (IsNaN d) then (d, F32.one) else (F32.zero, F32.zero));
  fk_push := λ a v, (F32.add (fst a) v, F32.add (snd a) F32.one);
  fk_flush := λ data iDst a,
    if F32.gtb (snd a) F32.zero then set_go data iDst (F32.div (fst a) (snd a)) else Ret data;
  fk_value := λ old a, if F32.gtb (snd a) F32.zero then F32.div (fst a) (snd a) else old
|}.
Next Obligation.
  intros data i old [vv cc] H; simpl.
  destruct (F32.gtb cc F32.zero); [by apply set_go_nat, lookup_lt_is_Some_1|].
  by rewrite list_insert_id.
Qed.

Definition FillAny := @fill f32 any_kind.
Definition FillMax := @fill f32 max_kind.
Definition FillSum := @fill f32 sum_kind.
Definition FillAvg := @fill (f32 * f32) avg_kind.

Example FillAny_example :
  FillAny (NewWithData 60 30 [NaN; NaN; NaN]) 75 15 [F32.of_Z 1; F32.of_Z 2; NaN; F32.of_Z 4]
  = Ret (NewWithData 60 30 [NaN; F32.of_Z 2; F32.of_Z 4], true).
Proof. reflexivity. Qed.

(** * What a fill computes

    [samples lo hi t step vs]: the defined values of the source points at
    [t, t+step, ...] whose time is in (lo, hi]. *)
Fixpoint samples (lo hi t step : Z) (vs : list f32) : list f32 :=
  match vs with
  | [] => []
  | v :: vs =>
      (if bool_decide (lo < t ≤ hi) && negb (IsNaN v) then [v] else []) ++ samples lo hi (t + step) step vs
  end.

Lemma samples_none lo hi t step vs : 0 < step → hi < t → samples lo hi t step vs = [].
Proof.
  intros Hs. revert t; induction vs as [|v vs IH]; intros t Ht; simpl; [done|].
  rewrite bool_decide_false by lia. apply IH. lia.
Qed.

Lemma samples_nonempty_le lo hi t step vs :
  0 < step → samples lo hi t step vs ≠ [] → t ≤ hi.
Proof. intros Hs Hn. destruct (decide (t ≤ hi)); [done|]. by rewrite samples_none in Hn by lia. Qed.

Section fill_loop.
Context {A : Type} `{!FillKind A}.
Context (F0 S step : Z) (n : nat).
Hypothesis HS : 0 < step ≤ S.
Hypothesis HF0 : 0 ≤ F0.
Hypothesis Hend : in_i64 (F0 + Z.of_nat n * S + S).

Definition lo (k : nat) : Z := F0 + (Z.of_nat k - 1) * S.
Definition hi (k : nat) : Z := F0 + Z.of_nat k * S.

(** The point [k] after the loop, from the old point and the accumulator in
      bucket [i]: earlier points and points past the last sample are kept. *)
Definition filled (i : nat) (acc : A) (t : Z) (vs : list f32) (k : nat) (old : f32) : f32 :=
    if bool_decide (k < i)%nat then old
    else if bool_decide (k = i) then fk_value old (foldl fk_push acc (samples (lo k) (hi k) t step vs))
    else if bool_decide (lo k < t + (len_go vs - 1) * step)
    then fk_value old (foldl fk_push fk_zero (samples (lo k) (hi k) t step vs))
    else old.

Lemma hi_lt i k : (i < k)%nat → hi i ≤ lo k.
Proof. unfold hi, lo. nia. Qed.

Lemma hi_mono i j : (i ≤ j)%nat → hi i ≤ hi j.
Proof. unfold hi. nia. Qed.

Lemma hi_in_range i : (i ≤ n)%nat → 0 ≤ hi i ∧ in_i64 (hi i) ∧ hi i ≤ F0 + Z.of_nat n * S.
Proof. unfold hi. intros. assert (Z.of_nat i * S ≤ Z.of_nat n * S) by nia. assert (0 ≤ Z.of_nat i * S) by nia. split; [lia|]. split; [i64|lia]. Qed.

(** Processing one sample that belongs to the current bucket. *)
Lemma filled_push i acc t v vs k old :
    lo i < t ≤ hi i →
    filled i (if negb (IsNaN v) then fk_push acc v else acc) (t + step) vs k old
    = filled i acc t (v :: vs) k old.
Proof.
    intros Ht. unfold filled. simpl samples.
    replace (t + step + (len_go vs - 1) * step) with (t + (len_go (v :: vs) - 1) * step)
      by (unfold len_go; rewrite length_cons; lia).
    case_bool_decide; [done|]. case_bool_decide.
    - subst. rewrite (bool_decide_true (_ ∧ _)) by lia. simpl.
      by destruct (IsNaN v).
    - rewrite (bool_decide_false (lo k < t ≤ hi k)); [done|].
      pose proof (hi_lt i k ltac:(lia)). lia.
Qed.

(** Moving on to the next bucket. *)
Lemma filled_next i acc t vs k old :
    hi i < t → vs ≠ [] →
    filled i acc t vs k old
    = filled (Datatypes.S i) fk_zero t vs k (if bool_decide (k = i) then fk_value old acc else old).
Proof.
    intros Ht Hvs. unfold filled.
    assert (0 ≤ (len_go vs - 1) * step) by (unfold len_go; destruct vs; [done|rewrite length_cons; nia]).
    repeat case_bool_decide; try lia; try done.
    - subst. by rewrite samples_none by lia.
    - subst. unfold lo, hi in *. lia.
Qed.

Definition run (vs : list f32) (data : list f32) (acc : A) (ch : bool) (t : Z) (i : nat) :=
    let* r := fill_loop S step (Z.of_nat n - 1) vs data acc ch t (hi i) (Z.of_nat i) in
    fill_finish (Z.of_nat n - 1) r.

(** Some defined value among the samples up to the end of the series. *)
Definition any_sample (t : Z) (vs : list f32) : bool :=
    bool_decide (samples (t - 1) (hi (n - 1)) t step vs ≠ []).

Definition run_ok vs data acc ch t i : Prop :=
    ∃ data', run vs data acc ch t i = Ret (data', ch || any_sample t vs) ∧ length data' = n ∧
      ∀ k old, data !! k = Some old → data' !! k = Some (filled i acc t vs k old).

Lemma samples_lo lo1 lo2 h t vs :
    lo1 < t → lo2 < t → samples lo1 h t step vs = samples lo2 h t step vs.
Proof.
    revert t; induction vs as [|v vs IH]; intros t H1 H2; simpl; [done|].
    rewrite (IH (t + step)) by lia. f_equal. by rewrite (bool_decide_ext _ (lo2 < t ≤ h)) by lia.
Qed.

Lemma any_sample_cons t v vs :
    t ≤ hi (n - 1) → any_sample t (v :: vs) = negb (IsNaN v) || any_sample (t + step) vs.
Proof.
    intros Ht. unfold any_sample. simpl. rewrite (bool_decide_true (_ < _ ≤ _)) by lia.
    rewrite (samples_lo (t - 1) (t + step - 1)) by lia. by destruct (IsNaN v).
Qed.

Lemma any_sample_past t vs : hi (n - 1) < t → any_sample t vs = false.
Proof. intros Ht. unfold any_sample. by rewrite samples_none by lia. Qed.

Lemma run_sample v vs data acc ch t i :
    (i < n)%nat → lo i < t ≤ hi i → in_i64 (t + step) →
    (∀ acc ch, run_ok vs data acc ch (t + step) i) →
    run_ok (v :: vs) data acc ch t i.
Proof.
    intros Hi Ht Hr IH.
    destruct (IH (if negb (IsNaN v) then fk_push acc v else acc)
                 (if negb (IsNaN v) then true else ch)) as (data' & Hrun & Hlen & Hk).
    exists data'. unfold run in *. simpl. rewrite bool_decide_false by lia.
    rewrite add64_id by done. rewrite Hrun.
    rewrite any_sample_cons by (pose proof (hi_mono i (n - 1) ltac:(lia)); lia).
    split_and!; [f_equal; f_equal; by destruct (IsNaN v), ch|done|].
    intros k old Hold. rewrite (Hk _ _ Hold), filled_push by done. done.
Qed.

Lemma flush_lookup (data : list f32) (i : nat) acc old k old' :
    data !! i = Some old → data !! k = Some old' →
    <[i := fk_value old acc]> data !! k = Some (if bool_decide (k = i) then fk_value old' acc else old').
Proof.
    intros Hi Hk. rewrite list_lookup_insert. pose proof (lookup_lt_Some _ _ _ Hk).
    case_bool_decide; case_decide; try lia; by simplify_eq.
Qed.

Lemma run_nil data acc ch t i :
    length data = n → (i < n)%nat → t ≤ hi i + step → run_ok [] data acc ch t i.
Proof.
    intros Hlen Hi Ht. destruct (lookup_lt_is_Some_2 data i) as [old Hold]; [lia|].
    exists (<[i := fk_value old acc]> data). unfold run; simpl.
    rewrite bool_decide_true, (fk_flush_ok _ _ old) by (done || lia).
    rewrite length_insert. split_and!; [simpl; by rewrite orb_false_r|done|].
    intros k old' Hk. rewrite (flush_lookup _ _ _ _ _ old') by done.
    unfold filled, len_go; simpl.
    repeat case_bool_decide; try lia; try done.
    pose proof (hi_lt i k ltac:(lia)). lia.
Qed.

Lemma hi_succ i : (Datatypes.S i < n)%nat → add64 (hi i) S = hi (Datatypes.S i).
Proof.
    intros Hi. destruct (hi_in_range (Datatypes.S i) ltac:(lia)) as (_ & Hr & _).
    assert (hi i + S = hi (Datatypes.S i)) as Heq by (unfold hi; lia).
    by rewrite add64_id; rewrite Heq.
Qed.

Lemma fill_loop_ok vs data acc ch t i :
    length data = n → (i < n)%nat → lo i < t ≤ hi i + step →
    0 ≤ t → in_i64 (t + len_go vs * step) →
    run_ok vs data acc ch t i.
Proof.
    revert data acc ch t i; induction vs as [|v vs IH]; intros data acc ch t i Hlen Hi Ht H0 Hr.
    { apply run_nil; lia. }
    assert (in_i64 (t + step) ∧ in_i64 (t + step + len_go vs * step)) as [Hts Htl].
    { unfold len_go in *. rewrite length_cons in Hr.
      assert (0 ≤ Z.of_nat (length vs) * step) by nia. split; i64. }
    destruct (decide (t ≤ hi i)) as [Hle|Hgt].
    { apply run_sample; try done; [lia|]. intros. apply IH; try done; lia. }
    destruct (lookup_lt_is_Some_2 data i) as [old Hold]; [lia|].
    set (data1 := <[i := fk_value old acc]> data).
    destruct (decide (Datatypes.S i = n)) as [Hlast|Hmore].
    - exists data1. unfold run. simpl. rewrite bool_decide_true by lia.
      rewrite (fk_flush_ok _ _ old) by done. simpl. rewrite bool_decide_true by lia. simpl.
      rewrite bool_decide_false by lia.
      rewrite any_sample_past by (replace (n - 1)%nat with i by lia; lia).
      rewrite orb_false_r. unfold data1. rewrite length_insert. split_and!; try done.
      intros k old' Hk. rewrite (flush_lookup _ _ _ _ _ old') by done. f_equal.
      rewrite filled_next by (done || lia). unfold filled at 1.
      pose proof (lookup_lt_Some _ _ _ Hk).
      by rewrite (bool_decide_true (k < Datatypes.S i)%nat) by lia.
    - assert (run_ok (v :: vs) data1 fk_zero ch t (Datatypes.S i)) as (data' & Hrun & Hl & Hk).
      { apply run_sample; [lia|unfold lo, hi in *; lia|done|].
        intros. apply IH; try done; try lia; [by unfold data1; rewrite length_insert|].
        unfold lo, hi in *; lia. }
      exists data'. split_and!; [|done|].
      + revert Hrun. unfold run. simpl.
        rewrite (bool_decide_false (t > hi (Datatypes.S i))) by (unfold hi in *; lia).
        rewrite (bool_decide_true (t > hi i)) by lia.
        rewrite (fk_flush_ok _ _ old) by done. simpl. rewrite bool_decide_false by lia.
        rewrite hi_succ by lia.
        by replace (Z.of_nat i + 1) with (Z.of_nat (Datatypes.S i)) by lia.
      + intros k old' Hold'. rewrite (Hk _ _ (flush_lookup _ _ _ _ _ _ Hold Hold')).
        by rewrite (filled_next i) by (done || lia).
Qed.
End fill_loop.

(** * Alignment *)
Lemma Duration_Truncate_multiple d m q : 0 < m → d = q * m → in_i64 d → Duration.Truncate d m = d.
Proof.
  intros Hm -> Hd. unfold Duration.Truncate. rewrite bool_decide_false, Z.rem_mul by lia.
  change (wrap64 0) with 0. rewrite sub64_id by (by rewrite Z.sub_0_r). lia.
Qed.

Section align.
Context (ts : TimeSeries) (from step : Z).
Hypothesis Hwf : wf_ts ts.
Hypothesis Hstep : 0 < step.
Hypothesis Hdiv : (step | ts_step ts).
Hypothesis Hfrom : 0 ≤ from.

(** The time of the first source point that is used: a source that begins a
      whole step or more before the series is entered at the last time that is
      congruent to [from] and not after the start of the series. *)
Definition start : Z :=
    if bool_decide (ts_from ts - from >= ts_step ts) then
      if bool_decide (from mod ts_step ts = 0) then ts_from ts
      else ts_from ts - ts_step ts + from mod ts_step ts
    else from.

Definition skip : nat := Z.to_nat ((start - from) / step).
Definition first_bucket : nat := Z.to_nat ((start - ts_from ts + (ts_step ts - 1)) / ts_step ts).

Lemma ts_bounds : in_i64 (ts_from ts) ∧ in_i64 (ts_step ts) ∧ in_i64 (ts_from ts + ts_step ts) ∧ 0 < ts_step ts ∧ 0 ≤ ts_from ts.
Proof.
    destruct Hwf as [? ? _ Hr]. unfold len_go in Hr.
    assert (0 ≤ Z.of_nat (length (ts_data ts)) * ts_step ts) by nia.
    split_and!; try lia; i64.
Qed.

Lemma start_bounds : from ≤ start ∧ ts_from ts - ts_step ts < start.
Proof.
    destruct ts_bounds as (_ & _ & _ & HS & H0). unfold start.
    pose proof (Z.mod_pos_bound from (ts_step ts) HS).
    repeat case_bool_decide; lia.
Qed.

Lemma start_congruent : (step | start - from).
Proof.
    destruct ts_bounds as (_ & _ & _ & HS & H0). destruct Hdiv as [q Hq].
    destruct Hwf as [_ _ [p Hp] _]. unfold start.
    pose proof (Z.div_mod from (ts_step ts) ltac:(lia)) as Hd.
    repeat case_bool_decide; [| |exists 0; lia].
    - exists (q * (p - from / ts_step ts)). nia.
    - exists (q * (p - 1 - from / ts_step ts)). nia.
Qed.

Lemma first_bucket_bounds :
    let T := ts_from ts + Z.of_nat first_bucket * ts_step ts in T - ts_step ts < start ≤ T.
Proof.
    destruct ts_bounds as (_ & _ & _ & HS & H0). destruct start_bounds as [_ Hb].
    unfold first_bucket. set (x := start - ts_from ts + (ts_step ts - 1)).
    assert (0 ≤ x / ts_step ts) by (apply Z.div_pos; lia). rewrite Z2Nat.id by done.
    pose proof (Z.mod_pos_bound x (ts_step ts) HS). pose proof (Z.div_mod x (ts_step ts) ltac:(lia)).
    cbv zeta. lia.
Qed.

Lemma align_src :
    in_i64 (ts_from ts - from) → in_i64 from →
    (if bool_decide (Time.Sub (ts_from ts) from >= ts_step ts) then
       let* tr := Time.Truncate from (ts_step ts) in
       let tSrc := Time.Add from (Duration.Truncate (Time.Sub (ts_from ts) tr) (ts_step ts)) in
       let tSrc := if bool_decide (tSrc > ts_from ts) then Time.Add tSrc (wrap64 (- ts_step ts)) else tSrc in
       let* iSrc := quot64 (sub64 tSrc from) step in
       Ret (tSrc, iSrc)
     else Ret (from, 0)) = Ret (start, Z.of_nat skip).
Proof.
    intros Hr1 Hr2. destruct ts_bounds as (Hf & Hs & Hfs & HS & H0). unfold Time.Sub. unwrap.
    destruct start_bounds as [Hsb _]. pose proof start_congruent as Hcong.
    unfold skip. case_bool_decide as Hcase; cycle 1.
    { unfold start in *. rewrite bool_decide_false by done. by rewrite Z.sub_diag. }
    rewrite Truncate_floor by done || lia. cbn [obind].
    pose proof (Z.div_mod from (ts_step ts) ltac:(lia)) as Hdm.
    pose proof (Z.mod_pos_bound from (ts_step ts) HS) as Hmod.
    set (tr := ts_step ts * (from / ts_step ts)) in *.
    destruct Hwf as [_ _ [p Hp] _]. unwrap.
    rewrite (Duration_Truncate_multiple (ts_from ts - tr) (ts_step ts) (p - from / ts_step ts))
      by (unfold tr in *; lia || i64).
    unfold Time.Add. unwrap.
    replace (from + (ts_from ts - tr)) with (ts_from ts + from mod ts_step ts) by lia.
    assert (in_i64 start) by (unfold start; repeat case_bool_decide; i64).
    match goal with |- context [if ?b then ?x else ?y] =>
      assert ((if b then x else y) = start) as -> end.
    { unfold start. rewrite (bool_decide_true (_ >= _)) by lia.
      case_bool_decide; case_bool_decide; unwrap; lia. }
    unwrap.
    rewrite quot64_id; [|lia|]; rewrite Z.quot_div_nonneg by lia.
    2:{ pose proof (Z.div_le_upper_bound (start - from) step (start - from) Hstep ltac:(nia)).
        assert (0 ≤ (start - from) / step) by (apply Z.div_pos; lia). i64. }
    cbn [obind]. rewrite Z2Nat.id by (apply Z.div_pos; lia). done.
Qed.

Lemma align_dst :
    in_i64 start → in_i64 (ts_from ts + Z.of_nat first_bucket * ts_step ts) →
    (if bool_decide (start > ts_from ts) then
       let* tDst := Time.Truncate start (ts_step ts) in
       let tDst := if bool_decide (tDst < start) then Time.Add tDst (ts_step ts) else tDst in
       let* iDst := quot64 (sub64 tDst (ts_from ts)) (ts_step ts) in
       Ret (tDst, iDst)
     else Ret (ts_from ts, 0))
    = Ret (ts_from ts + Z.of_nat first_bucket * ts_step ts, Z.of_nat first_bucket).
Proof.
    intros Hi HT. destruct ts_bounds as (Hf & Hs & Hfs & HS & H0).
    destruct start_bounds as [Hsf Hsb]. pose proof first_bucket_bounds as Hfb. cbv zeta in Hfb.
    set (k := first_bucket) in *. case_bool_decide as Hc; cycle 1.
    { assert (Z.of_nat k = 0) as Hk by nia. rewrite Hk. repeat f_equal. lia. }
    rewrite Truncate_floor by done || lia. cbn [obind].
    set (x := Z.of_nat k) in *. destruct Hwf as [_ _ [p Hp] _].
    pose proof (Z.div_mod start (ts_step ts) ltac:(lia)) as Hd.
    pose proof (Z.mod_pos_bound start (ts_step ts) HS) as Hm.
    set (q := start / ts_step ts) in *. set (r := start mod ts_step ts) in *.
    assert ((if bool_decide (ts_step ts * q < start) then Time.Add (ts_step ts * q) (ts_step ts) else ts_step ts * q)
            = ts_from ts + x * ts_step ts) as ->.
    { unfold Time.Add. case_bool_decide.
      - assert (q + 1 = p + x) by nia. rewrite add64_id by (replace (ts_step ts * q + ts_step ts) with (ts_from ts + x * ts_step ts) by nia; done). nia.
      - assert (q = p + x) by nia. nia. }
    assert (x ≤ x * ts_step ts) by nia.
    assert (0 ≤ x * ts_step ts) by nia. rewrite sub64_id by i64.
    replace (ts_from ts + x * ts_step ts - ts_from ts) with (x * ts_step ts) by lia.
    rewrite quot64_id; rewrite ?Z.quot_mul by lia; [done|lia|i64].
Qed.
End align.

(** * The specification of a fill *)

(** The source is a series of its own ([step] divides the step of [ts], times
    are representable) that reaches the first point it is used for, and that
    point exists. *)
Record fill_input (ts : TimeSeries) (from step : Z) (data : list f32) : Prop := {
  fi_wf : wf_ts ts;
  fi_step : 0 < step;
  fi_div : (step | ts_step ts);
  fi_from : 0 ≤ from;
  fi_range : in_i64 (from + len_go data * step);
  fi_skip : (skip ts from step ≤ length data)%nat;
  fi_bucket : (first_bucket ts from < length (ts_data ts))%nat
}.

Section spec.
Context {A : Type} `{!FillKind A}.

Lemma fill_spec ts from step data acc0 :
    fill_input ts from step data →
    fk_first (ts_data ts) (Z.of_nat (first_bucket ts from)) = Ret acc0 →
    let k0 := first_bucket ts from in
    let t0 := start ts from in
    let vs := drop (skip ts from step) data in
    ∃ d, fill ts from step data
         = Ret (NewWithData (ts_from ts) (ts_step ts) d,
                any_sample (ts_from ts) (ts_step ts) step (length (ts_data ts)) t0 vs)
      ∧ length d = length (ts_data ts)
      ∧ ∀ k old, ts_data ts !! k = Some old →
          d !! k = Some (filled (ts_from ts) (ts_step ts) step k0 acc0 t0 vs k old).
Proof.
    intros [Hwf Hstep Hdiv Hfrom Hr Hskip Hbucket] Hfirst k0 t0 vs.
    destruct (ts_bounds ts Hwf) as (Hf & Hs & Hfs & HS & H0).
    destruct (start_bounds ts from Hwf) as [Hsb Hsf].
    pose proof (first_bucket_bounds ts from Hwf) as Hfb; cbv zeta in Hfb.
    pose proof (wf_range ts Hwf) as Hend. unfold len_go in Hend, Hr.
    assert (start ts from = from + Z.of_nat (skip ts from step) * step) as Hskipt.
    { destruct (start_congruent ts from step Hwf Hdiv) as [m Hm]; [done|].
      unfold skip. rewrite Hm, Z.div_mul by lia. rewrite Z2Nat.id by nia. lia. }
    assert (step ≤ ts_step ts) by (apply Z.divide_pos_le; done).
    assert (Z.of_nat (skip ts from step) * step ≤ Z.of_nat (length data) * step) by nia.
    assert (0 ≤ Z.of_nat (length data) * step) by nia.
    destruct (hi_in_range (ts_from ts) (ts_step ts) step (length (ts_data ts)) ltac:(lia) ltac:(lia) Hend k0)
      as (Hhi0 & Hhi & _); [lia|]. unfold hi in Hhi, Hhi0.
    destruct (fill_loop_ok (ts_from ts) (ts_step ts) step (length (ts_data ts)) ltac:(lia) ltac:(lia) Hend
                vs (ts_data ts) acc0 false t0 k0) as (d & Hrun & Hlen & Hk);
      [done|done|unfold lo, hi, k0, t0; nia|lia| |].
    { unfold t0, vs, len_go. rewrite length_drop, Hskipt.
      replace (from + Z.of_nat (skip ts from step) * step + Z.of_nat (length data - skip ts from step) * step)
        with (from + Z.of_nat (length data) * step) by nia. done. }
    exists d. split_and!; [|done|done].
    unfold fill, fill_align. rewrite align_src by (done || i64). cbn [obind fst snd].
    rewrite align_dst by (done || i64). cbn [obind fst snd].
    rewrite Hfirst. cbn [obind]. rewrite from_go_nat by done. cbn [obind].
    unfold run, hi in Hrun. fold k0 t0 vs. unfold len_go.
    destruct (fill_loop _ _ _ _ _ _ _ _ _ _) as [r|]; [|done].
    cbn [obind] in *. by rewrite Hrun.
Qed.
End spec.

(** The defined source values that point [k] of [ts] covers, and whether the
    fill gets as far as point [k]. *)
Definition samples_of (ts : TimeSeries) (from step : Z) (data : list f32) (k : nat) : list f32 :=
  samples (lo (ts_from ts) (ts_step ts) k) (hi (ts_from ts) (ts_step ts) k)
    (start ts from) step (drop (skip ts from step) data).

Definition written (ts : TimeSeries) (from step : Z) (data : list f32) (k : nat) : bool :=
  bool_decide (first_bucket ts from ≤ k)%nat &&
  (bool_decide (k = first_bucket ts from) ||
   bool_decide (lo (ts_from ts) (ts_step ts) k
                < start ts from + (len_go (drop (skip ts from step) data) - 1) * step)).

Lemma filled_written {A} `{!FillKind A} ts from step data acc0 k old :
  filled (ts_from ts) (ts_step ts) step (first_bucket ts from) acc0 (start ts from)
    (drop (skip ts from step) data) k old
  = if written ts from step data k
    then fk_value old (foldl fk_push (if bool_decide (k = first_bucket ts from) then acc0 else fk_zero)
                         (samples_of ts from step data k))
    else old.
Proof.
  unfold filled, written, samples_of.
  repeat case_bool_decide; simpl; try lia; done.
Qed.

Lemma samples_defined lo hi t step vs : Forall (λ v, v ≠ NaN) (samples lo hi t step vs).
Proof.
  revert t; induction vs as [|v vs IH]; intros t; simpl; [done|].
  apply Forall_app; split; [|done].
  destruct (bool_decide _ && negb (IsNaN v)) eqn:E; [|done].
  apply andb_prop in E as [_ E]. apply Forall_singleton, IsNaN_false. by apply negb_true_iff.
Qed.

Lemma FillAny_last ts from step data :
  fill_input ts from step data →
  ∃ d changed, FillAny ts from step data = Ret (NewWithData (ts_from ts) (ts_step ts) d, changed)
    ∧ length d = length (ts_data ts)
    ∧ ∀ k old, ts_data ts !! k = Some old →
        d !! k = Some (if written ts from step data k
                       then default NaN (last (samples_of ts from step data k)) else old).
Proof.
  intros Hi. destruct (fill_spec (FillKind0 := any_kind) ts from step data NaN Hi eq_refl)
    as (d & Hfill & Hlen & Hd).
  exists d; eexists; split_and!; [exact Hfill|done|].
  intros k old Hk. rewrite (Hd _ _ Hk), filled_written. f_equal.
  destruct (written _ _ _ _ _); [|done]. simpl.
  replace (if bool_decide _ then NaN else NaN) with NaN by (by case_bool_decide).
  generalize (samples_of ts from step data k). intros l.
  induction l as [|v l IH] using rev_ind; [done|]. by rewrite foldl_app, last_snoc.
Qed.

(** [FillAny], given an input whose source reaches the series, does not
    panic; every point it gets to holds the last defined source value of the
    interval (T - step, T] it stands for (undefined if there is none), every
    other point is kept, and it reports whether it saw a defined value. *)
Theorem FillAny_keeps_last ts from step data :
  fill_input ts from step data →
  ∃ d changed, FillAny ts from step data = Ret (NewWithData (ts_from ts) (ts_step ts) d, changed)
    ∧ length d = length (ts_data ts)
    ∧ ∀ k old, ts_data ts !! k = Some old →
        d !! k = Some (if written ts from step data k
                       then default NaN (last (samples_of ts from step data k)) else old).
Proof. exact (FillAny_last ts from step data). Qed.

Lemma max_push_fold (l : list f32) :
  Forall (λ v, v ≠ NaN) l →
  extremum F32.leb (foldl (λ vv v, if IsNaN vv || F32.gtb v vv then v else vv) NaN l) l.
Proof.
  intros Hl.
  assert (∀ m, foldl (λ vv v, if IsNaN vv || F32.gtb v vv then v else vv) m l
          = foldl (λ acc p, Max (fst p) acc (snd p)) m (pair 0 <$> l)) as ->.
  { induction Hl as [|v l Hv Hl IH]; intros m; simpl; [done|]. rewrite IH. f_equal.
    unfold Max. apply IsNaN_false in Hv. rewrite Hv. by destruct (IsNaN m), (F32.gtb v m). }
  assert ((pair 0 <$> l).*2 = l) as Hl2.
  { clear. induction l as [|v l IH]; [done|]. simpl. f_equal. exact IH. }
  pose proof (foldl_extremum F32.leb Max (pair 0 <$> l)) as H. rewrite Hl2 in H.
  apply H; auto with coroot; exact F32.leb_trans.
Qed.

(** [FillMax], on the same inputs, puts into every point it gets to the
    largest defined source value of the point's interval: a value of the
    interval that none exceeds, undefined when there is none. *)
Theorem FillMax_keeps_largest ts from step data :
  fill_input ts from step data →
  ∃ d changed, FillMax ts from step data = Ret (NewWithData (ts_from ts) (ts_step ts) d, changed)
    ∧ length d = length (ts_data ts)
    ∧ ∀ k old, ts_data ts !! k = Some old → ∃ v, d !! k = Some v ∧
        (if written ts from step data k
         then extremum F32.leb v (samples_of ts from step data k) else v = old).
Proof.
  intros Hi. destruct (fill_spec (FillKind0 := max_kind) ts from step data NaN Hi eq_refl)
    as (d & Hfill & Hlen & Hd).
  exists d; eexists; split_and!; [exact Hfill|done|].
  intros k old Hk. rewrite (Hd _ _ Hk), filled_written. eexists; split; [done|].
  destruct (written _ _ _ _ _); [|done]. simpl.
  replace (if bool_decide _ then NaN else NaN) with NaN by (by case_bool_decide).
  apply max_push_fold, samples_defined.
Qed.

(** The sum a bucket starts from: the point it already holds, if defined. *)
Definition sum_base (old : f32) : f32 := if IsNaN old then F32.zero else old.

(** [FillSum] adds, in the order of the source, the defined source values of
    an interval to zero, or for the first point it gets to, to what that point
    already held; every other point is kept and it does not panic. *)
Theorem FillSum_adds_bucket ts from step data :
  fill_input ts from step data →
  ∃ d changed, FillSum ts from step data = Ret (NewWithData (ts_from ts) (ts_step ts) d, changed)
    ∧ length d = length (ts_data ts)
    ∧ ∀ k old, ts_data ts !! k = Some old →
        d !! k = Some (if written ts from step data k
                       then foldl F32.add (if bool_decide (k = first_bucket ts from) then sum_base old else F32.zero)
                              (samples_of ts from step data k)
                       else old).
Proof.
  intros Hi. destruct (lookup_lt_is_Some_2 (ts_data ts) (first_bucket ts from)) as [old0 Hold0];
    [apply (fi_bucket _ _ _ _ Hi)|].
  destruct (fill_spec (FillKind0 := sum_kind) ts from step data (sum_base old0) Hi)
    as (d & Hfill & Hlen & Hd).
  { simpl. rewrite (nth_go_nat _ _ _ Hold0). simpl. unfold sum_base. by destruct (IsNaN old0). }
  exists d; eexists; split_and!; [exact Hfill|done|].
  intros k old Hk. rewrite (Hd _ _ Hk), filled_written. f_equal.
  destruct (written _ _ _ _ _); [|done]. simpl. case_bool_decide as Hc; [|done].
  rewrite Hc, Hold0 in Hk. by injection Hk as ->.
Qed.

(** [FillAvg] writes, for every interval it gets to that has a defined
    source value (or, for the first one, a defined old point), the quotient of
    the accumulated sum by the accumulated count, the old point counting as one
    value; a point without a value is kept, and it does not panic. *)
Theorem FillAvg_divides_by_count ts from step data :
  fill_input ts from step data →
  ∃ d changed, FillAvg ts from step data = Ret (NewWithData (ts_from ts) (ts_step ts) d, changed)
    ∧ length d = length (ts_data ts)
    ∧ ∀ k old, ts_data ts !! k = Some old →
        let vs := samples_of ts from step data k in
        let first := bool_decide (k = first_bucket ts from) && negb (IsNaN old) in
        let sum := foldl F32.add (if first then old else F32.zero) vs in
        let count := foldl (λ c _, F32.add c F32.one) (if first then F32.one else F32.zero) vs in
        d !! k = Some (if written ts from step data k && F32.gtb count F32.zero
                       then F32.div sum count else old).
Proof.
  intros Hi. destruct (lookup_lt_is_Some_2 (ts_data ts) (first_bucket ts from)) as [old0 Hold0];
    [apply (fi_bucket _ _ _ _ Hi)|].
  destruct (fill_spec (FillKind0 := avg_kind) ts from step data
              (if negb (IsNaN old0) then (old0, F32.one) else (F32.zero, F32.zero)) Hi)
    as (d & Hfill & Hlen & Hd).
  { simpl. by rewrite (nth_go_nat _ _ _ Hold0). }
  exists d; eexists; split_and!; [exact Hfill|done|].
  intros k old Hk vs first sum count. rewrite (Hd _ _ Hk), filled_written. f_equal.
  fold vs. destruct (written _ _ _ _ _); [|done]. simpl.
  assert (∀ a, foldl (λ (a : f32 * f32) v, (F32.add a.1 v, F32.add a.2 F32.one)) a vs
          = (foldl F32.add a.1 vs, foldl (λ c _, F32.add c F32.one) a.2 vs)) as Hf.
  { induction vs as [|v l IH]; intros [a b]; simpl; [done|]. by rewrite IH. }
  rewrite Hf. simpl. unfold sum, count, first.
  case_bool_decide as Hc; simpl; [|done].
  rewrite Hc, Hold0 in Hk. injection Hk as ->. by destruct (IsNaN old).
Qed.

Definition fill_witness_ts : TimeSeries := NewWithData 60 30 [NaN; F32.of_Z 7; NaN].
Definition fill_witness_data : list f32 := [F32.of_Z 1; F32.of_Z 2; NaN; F32.of_Z 4].

Lemma fill_witness_input : fill_input fill_witness_ts 45 15 fill_witness_data.
Proof.
  split; try decide_now; [|by exists 2].
  split; try decide_now. by exists 2.
Qed.

Example FillAny_keeps_last_witness :
  ∃ d changed, FillAny fill_witness_ts 45 15 fill_witness_data = Ret (NewWithData 60 30 d, changed)
    ∧ d !! 1%nat = Some (F32.of_Z 4).
Proof.
  destruct (FillAny_keeps_last _ _ _ _ fill_witness_input) as (d & changed & Hf & _ & Hd).
  exists d, changed. split; [exact Hf|]. rewrite (Hd 1%nat (F32.of_Z 7)); reflexivity.
Defined.

Example FillMax_keeps_largest_witness :
  ∃ d changed, FillMax fill_witness_ts 45 15 fill_witness_data = Ret (NewWithData 60 30 d, changed)
    ∧ length d = 3%nat.
Proof.
  destruct (FillMax_keeps_largest _ _ _ _ fill_witness_input) as (d & changed & Hf & Hl & _).
  exists d, changed. split; [exact Hf|exact Hl].
Defined.

Example FillSum_adds_bucket_witness :
  ∃ d changed, FillSum fill_witness_ts 45 15 fill_witness_data = Ret (NewWithData 60 30 d, changed)
    ∧ d !! 0%nat = Some (F32.of_Z 3) ∧ d !! 1%nat = Some (F32.of_Z 4).
Proof.
  destruct (FillSum_adds_bucket _ _ _ _ fill_witness_input) as (d & changed & Hf & _ & Hd).
  exists d, changed. split_and!; [exact Hf| |].
  - rewrite (Hd 0%nat NaN); reflexivity.
  - rewrite (Hd 1%nat (F32.of_Z 7)); reflexivity.
Defined.

Example FillAvg_divides_by_count_witness :
  ∃ d changed, FillAvg fill_witness_ts 45 15 fill_witness_data = Ret (NewWithData 60 30 d, changed)
    ∧ d !! 0%nat = Some (F32.frac 3 2) ∧ d !! 2%nat = Some NaN.
Proof.
  destruct (FillAvg_divides_by_count _ _ _ _ fill_witness_input) as (d & changed & Hf & _ & Hd).
  exists d, changed. split_and!; [exact Hf| |].
  - rewrite (Hd 0%nat NaN); reflexivity.
  - rewrite (Hd 2%nat NaN); reflexivity.
Defined.
