(* ===== verification/GoStrings.v ===== *)
(** What the program uses of Go's [strings], [unicode/utf8] and
    [path/filepath] packages, over byte strings, and utils/glob.go.

    [Match] is filepath.Match on a system whose separator is ['/'], with its
    functions [scanChunk], [matchChunk] and [getEsc].  Their loops consume the
    pattern by varying amounts, so they take fuel; [OutOfFuel] is a result of
    its own and [Match_total] shows that it is never the result. *)

From S2P Require Export Prelude.
From Stdlib Require Import Ascii String ZArith Lia NArith.
Local Open Scope string_scope.

Definition same (c : ascii) (d : ascii) : bool := Ascii.eqb c d.

(** [strings.Contains(s, string(c))] *)
Fixpoint contains (c : ascii) (s : string) : bool :=
  match s with
  | EmptyString => false
  | String d s => same d c || contains c s
  end.

(** [strings.Split(s, string(c))]: never empty. *)
Fixpoint Split (c : ascii) (s : string) : list string :=
  match s with
  | EmptyString => [""]
  | String d s =>
      if same d c then "" :: Split c s
      else match Split c s with
           | [] => [String d ""]
           | p :: ps => String d p :: ps
           end
  end.

(** [strings.SplitN(s, string(c), n)] for [n > 0]: at most [n] parts, the last
    one unsplit. *)
Fixpoint SplitN (c : ascii) (n : nat) (s : string) : list string :=
  match n with
  | O => []
  | S O => [s]
  | S n' =>
      (fix go (s : string) : list string :=
         match s with
         | EmptyString => [""]
         | String d s =>
             if same d c then "" :: SplitN c n' s
             else match go s with
                  | [] => [String d ""]
                  | p :: ps => String d p :: ps
                  end
         end) s
  end.

(** [strings.Join(parts, sep)] *)
Fixpoint Join (parts : list string) (sep : string) : string :=
  match parts with
  | [] => ""
  | [p] => p
  | p :: ps => p ++ sep ++ Join ps sep
  end.

(** [strings.ReplaceAll(s, old, new)] for a non-empty [old]; [skip] bytes belong
    to the occurrence just replaced. *)
Fixpoint replace_from (old new : string) (skip : nat) (s : string) : string :=
  match s with
  | EmptyString => ""
  | String d s' =>
      match skip with
      | S skip => replace_from old new skip s'
      | O =>
          if String.prefix old s then new ++ replace_from old new (String.length old - 1) s'
          else String d (replace_from old new 0 s')
      end
  end.
Definition ReplaceAll (s old new : string) : string := replace_from old new 0 s.

(** * unicode/utf8.DecodeRuneInString *)
Module Utf8.
Local Open Scope N_scope.

Definition RuneError : N := 65533.
Definition byte (a : ascii) : N := N_of_ascii a.
Definition in_range (lo hi : N) (a : ascii) : bool := (lo <=? byte a) && (byte a <=? hi).
Definition cont (a : ascii) : N := N.land (byte a) 63.

(** The rune and the number of bytes it takes; an invalid sequence is one byte
    of [RuneError]. *)
Definition decode (s : string) : N * nat :=
  match s with
  | EmptyString => (RuneError, 0%nat)
  | String a s1 =>
      let b := byte a in
      if b <? 128 then (b, 1%nat)
      else match s1 with
      | EmptyString => (RuneError, 1%nat)
      | String a1 s2 =>
          if in_range 194 223 a then
            if in_range 128 191 a1 then (N.lor (N.shiftl (N.land b 31) 6) (cont a1), 2%nat)
            else (RuneError, 1%nat)
          else
            let lo1 := if b =? 224 then 160 else if b =? 240 then 144 else 128 in
            let hi1 := if b =? 237 then 159 else if b =? 244 then 143 else 191 in
            match s2 with
            | EmptyString => (RuneError, 1%nat)
            | String a2 s3 =>
                if in_range 224 239 a then
                  if in_range lo1 hi1 a1 && in_range 128 191 a2
                  then (N.lor (N.shiftl (N.land b 15) 12) (N.lor (N.shiftl (cont a1) 6) (cont a2)), 3%nat)
                  else (RuneError, 1%nat)
                else match s3 with
                | EmptyString => (RuneError, 1%nat)
                | String a3 _ =>
                    if in_range 240 244 a && in_range lo1 hi1 a1 && in_range 128 191 a2 && in_range 128 191 a3
                    then (N.lor (N.shiftl (N.land b 7) 18)
                            (N.lor (N.shiftl (cont a1) 12) (N.lor (N.shiftl (cont a2) 6) (cont a3))), 4%nat)
                    else (RuneError, 1%nat)
                end
            end
      end
  end.

(** [utf8.RuneStart(b)] *)
Definition RuneStart (a : ascii) : bool := negb (N.land (byte a) 192 =? 128).

End Utf8.

Fixpoint sdrop (n : nat) (s : string) : string :=
  match n, s with
  | S n, String _ s => sdrop n s
  | _, _ => s
  end.

Fixpoint stake (n : nat) (s : string) : string :=
  match n, s with
  | S n, String c s => String c (stake n s)
  | _, _ => ""
  end.

(** * path/filepath.Match *)
Module Filepath.

Definition Separator : ascii := "/".

Inductive result (A : Type) : Type :=
| OK (a : A)
| BadPattern
| OutOfFuel.
Arguments OK {A} a.
Arguments BadPattern {A}.
Arguments OutOfFuel {A}.

Definition getEsc (chunk : string) : result (N * string) :=
  let esc (chunk : string) :=
    let '(r, n) := Utf8.decode chunk in
    if (r =? Utf8.RuneError)%N && (n =? 1)%nat then BadPattern
    else match sdrop n chunk with
         | EmptyString => BadPattern
         | nchunk => OK (r, nchunk)
         end in
  match chunk with
  | EmptyString => BadPattern
  | String c rest =>
      if same c "-" || same c "]" then BadPattern
      else if same c "\" then
        match rest with EmptyString => BadPattern | _ => esc rest end
      else esc chunk
  end.

(** The loop "parse all ranges" of a character class. *)
Fixpoint ranges (fuel : nat) (chunk : string) (r : N) (nrange : nat) (matched : bool) : result (bool * string) :=
  match fuel with
  | O => OutOfFuel
  | S fuel =>
      match chunk with
      | String c rest =>
          if same c "]" && (0 <? nrange)%nat then OK (matched, rest)
          else
            match getEsc chunk with
            | OK (lo, String d chunk') =>
                if same d "-" then
                  match getEsc chunk' with
                  | OK (hi, chunk'') =>
                      ranges fuel chunk'' r (S nrange) (matched || ((lo <=? r)%N && (r <=? hi)%N))
                  | BadPattern => BadPattern
                  | OutOfFuel => OutOfFuel
                  end
                else ranges fuel (String d chunk') r (S nrange) (matched || (lo =? r)%N)
            | OK (_, EmptyString) => BadPattern
            | BadPattern => BadPattern
            | OutOfFuel => OutOfFuel
            end
      | EmptyString => BadPattern
      end
  end.

(** [Some rest] when the chunk matched a prefix of [s], [None] when it did not. *)
Fixpoint matchChunk (fuel : nat) (chunk s : string) (failed : bool) : result (option string) :=
  match chunk with
  | EmptyString => OK (if failed then None else Some s)
  | String c rest =>
      match fuel with
      | O => OutOfFuel
      | S fuel =>
          let failed := match s with EmptyString => true | _ => failed end in
          let literal (c : ascii) (rest : string) :=
            match failed, s with
            | false, String d s' => matchChunk fuel rest s' (negb (same c d))
            | _, _ => matchChunk fuel rest s failed
            end in
          if same c "[" then
            let '(r, s) := if failed then (0%N, s) else let '(r, n) := Utf8.decode s in (r, sdrop n s) in
            let '(negated, rest) :=
              match rest with
              | String d rest' => if same d "^" then (true, rest') else (false, rest)
              | EmptyString => (false, rest)
              end in
            match ranges fuel rest r 0 false with
            | OK (m, rest) => matchChunk fuel rest s (failed || Bool.eqb m negated)
            | BadPattern => BadPattern
            | OutOfFuel => OutOfFuel
            end
          else if same c "?" then
            match failed, s with
            | false, String d _ => matchChunk fuel rest (sdrop (snd (Utf8.decode s)) s) (same d Separator)
            | _, _ => matchChunk fuel rest s failed
            end
          else if same c "\" then
            match rest with
            | EmptyString => BadPattern
            | String d rest' => literal d rest'
            end
          else literal c rest
      end
  end.

Definition match_chunk (chunk s : string) : result (option string) :=
  matchChunk (S (String.length chunk)) chunk s false.

(** [scanChunk]: the leading stars, then up to the next star outside a class. *)
Fixpoint skip_stars (pattern : string) : bool * string :=
  match pattern with
  | String c rest => if same c "*" then (true, snd (skip_stars rest)) else (false, pattern)
  | EmptyString => (false, pattern)
  end.

Fixpoint scan (pattern : string) (inrange : bool) : string * string :=
  match pattern with
  | EmptyString => ("", "")
  | String c rest =>
      let keep r := (String c (fst r), snd r) in
      if same c "\" then
        match rest with
        | String d rest' => let r := scan rest' inrange in (String c (String d (fst r)), snd r)
        | EmptyString => (String c "", "")
        end
      else if same c "[" then keep (scan rest true)
      else if same c "]" then keep (scan rest false)
      else if same c "*" && negb inrange then ("", pattern)
      else keep (scan rest inrange)
  end.

Definition scanChunk (pattern : string) : bool * string * string :=
  let '(star, p) := skip_stars pattern in
  let '(chunk, rest) := scan p false in (star, chunk, rest).

(** "Look for match skipping i+1 bytes. Cannot skip /." *)
Fixpoint star_loop (chunk rest name : string) : result (option string) :=
  match name with
  | EmptyString => OK None
  | String c name' =>
      if same c Separator then OK None
      else
        match match_chunk chunk name' with
        | OK (Some t) =>
            match rest, t with
            | EmptyString, String _ _ => star_loop chunk rest name'
            | _, _ => OK (Some t)
            end
        | OK None => star_loop chunk rest name'
        | BadPattern => BadPattern
        | OutOfFuel => OutOfFuel
        end
  end.

(** Before returning false: the remainder must be syntactically valid. *)
Fixpoint check_rest (fuel : nat) (pattern : string) : result bool :=
  match pattern with
  | EmptyString => OK false
  | _ =>
      match fuel with
      | O => OutOfFuel
      | S fuel =>
          let '(_, chunk, rest) := scanChunk pattern in
          match match_chunk chunk "" with
          | OK _ => check_rest fuel rest
          | BadPattern => BadPattern
          | OutOfFuel => OutOfFuel
          end
      end
  end.

Fixpoint match_loop (fuel : nat) (pattern name : string) : result bool :=
  match pattern with
  | EmptyString => OK (match name with EmptyString => true | _ => false end)
  | _ =>
      match fuel with
      | O => OutOfFuel
      | S fuel =>
          let '(star, chunk, rest) := scanChunk pattern in
          if star && (match chunk with EmptyString => true | _ => false end)
          then OK (negb (contains Separator name))
          else
            let after :=
              if star then
                match star_loop chunk rest name with
                | OK (Some t) => match_loop fuel rest t
                | OK None => check_rest fuel rest
                | BadPattern => BadPattern
                | OutOfFuel => OutOfFuel
                end
              else check_rest fuel rest in
            match match_chunk chunk name with
            | OK (Some t) =>
                match t, rest with
                | String _ _, EmptyString => after
                | _, _ => match_loop fuel rest t
                end
            | OK None => after
            | BadPattern => BadPattern
            | OutOfFuel => OutOfFuel
            end
      end
  end.

Definition Match (pattern name : string) : result bool :=
  match_loop (String.length pattern) pattern name.

End Filepath.

(** * utils/glob.go *)
Definition match_ok (p s : string) : bool :=
  match Filepath.Match p s with Filepath.OK b => b | _ => false end.

Definition GlobMatch (s : string) (patterns : list string) : bool :=
  existsb (λ p, match_ok p s) patterns.

#[global] Arguments GlobMatch : simpl never.

Definition GlobValidate (patterns : list string) : bool :=
  forallb (λ p, match Filepath.Match p "" with Filepath.OK _ => true | _ => false end) patterns.

Example glob1 : GlobMatch "kube-system/coredns" ["kube-system/*"] = true. Proof. reflexivity. Qed.
Example glob2 : GlobMatch "a/foo-prometheus-0" ["*/*prometheus*"] = true. Proof. reflexivity. Qed.
Example glob3 : GlobMatch "a/b/c" ["a/*"] = false. Proof. reflexivity. Qed.
Example glob4 : GlobMatch "foob" ["fo[a-z]?"] = true. Proof. reflexivity. Qed.
Example glob5 : GlobValidate ["a[b"] = false. Proof. reflexivity. Qed.
Example glob6 : GlobMatch "x" ["[^a-c]"] = true. Proof. reflexivity. Qed.

(** * filepath.Match terminates *)
Module FilepathFacts.
Import Filepath.

Lemma decode_width s : s ≠ "" → (1 ≤ snd (Utf8.decode s))%nat.
Proof. destruct s as [|a s]; [done|]. intros _. unfold Utf8.decode. repeat split_match; simpl; lia. Qed.

Lemma sdrop_length n s : String.length (sdrop n s) = (String.length s - n)%nat.
Proof. revert s; induction n as [|n IH]; intros [|c s]; simpl; auto. Qed.

Lemma getEsc_shorter chunk r chunk' :
  getEsc chunk = OK (r, chunk') → (0 < String.length chunk' < String.length chunk)%nat.
Proof.
  assert (∀ s, s ≠ "" → ∀ r s',
    (let '(r, n) := Utf8.decode s in
     if (r =? Utf8.RuneError)%N && (n =? 1)%nat then BadPattern
     else match sdrop n s with EmptyString => BadPattern | nchunk => OK (r, nchunk) end) = OK (r, s') →
    (0 < String.length s' < String.length s)%nat) as Hesc.
  { intros s Hs r0 s'. pose proof (decode_width s Hs).
    destruct (Utf8.decode s) as [r1 n] eqn:E. destruct (_ && _); [done|].
    pose proof (sdrop_length n s) as Hl. destruct (sdrop n s) eqn:Hd; [done|].
    intros [= <- <-]. simpl in *. lia. }
  unfold getEsc. destruct chunk as [|c rest]; [done|].
  destruct (_ || _); [done|]. destruct (same c "\").
  - destruct rest; [done|]. intros H. apply Hesc in H; [simpl in *; lia|done].
  - intros H. by apply Hesc in H.
Qed.

Lemma getEsc_fuel chunk : getEsc chunk ≠ OutOfFuel.
Proof. unfold getEsc. repeat split_match; done. Qed.

Lemma ranges_total fuel chunk r nrange m :
  (String.length chunk < fuel)%nat →
  ranges fuel chunk r nrange m ≠ OutOfFuel ∧
  ∀ b rest, ranges fuel chunk r nrange m = OK (b, rest) → (String.length rest < String.length chunk)%nat.
Proof.
  revert chunk nrange m; induction fuel as [|fuel IH]; intros chunk nrange m Hf; [lia|].
  destruct chunk as [|c rest]; [done|].
  cbn [ranges]. destruct (same c "]" && _).
  { split; [done|]. intros b rest' [= <- <-]. simpl. lia. }
  destruct (getEsc (String c rest)) as [[lo chunk']| |] eqn:E1; [|done|by apply getEsc_fuel in E1].
  apply getEsc_shorter in E1. destruct chunk' as [|d chunk']; [done|].
  destruct (same d "-"); cbn [String.length] in *.
  - destruct (getEsc chunk') as [[hi chunk'']| |] eqn:E2; [|done|by apply getEsc_fuel in E2].
    apply getEsc_shorter in E2. edestruct (IH chunk'') as [H1 H2]; [lia|].
    split; [exact H1|]. intros b rest' H. apply H2 in H. lia.
  - edestruct (IH (String d chunk')) as [H1 H2]; [simpl; lia|].
    split; [exact H1|]. intros b rest' H. apply H2 in H. simpl in *. lia.
Qed.

Lemma matchChunk_total fuel chunk s failed :
  (String.length chunk < fuel)%nat → matchChunk fuel chunk s failed ≠ OutOfFuel.
Proof.
  revert chunk s failed; induction fuel as [|fuel IH]; intros chunk s failed Hf; [lia|].
  destruct chunk as [|c rest]; [done|]. cbn [String.length] in Hf. cbn [matchChunk].
  set (failed' := match s with EmptyString => true | _ => failed end).
  assert (∀ rest' s' f, (String.length rest' ≤ String.length rest)%nat →
    matchChunk fuel rest' s' f ≠ OutOfFuel) as IH' by (intros; apply IH; lia).
  destruct (same c "[").
  - destruct (if failed' then _ else _) as [r s'].
    assert (∃ neg rest', (match rest with
       | String d rest' => if same d "^" then (true, rest') else (false, rest)
       | EmptyString => (false, rest) end) = (neg, rest') ∧ (String.length rest' ≤ String.length rest)%nat)
      as (neg & rest' & -> & Hl).
    { destruct rest as [|d r']; [by eauto|]. destruct (same d "^"); eexists _, _; split; try done; simpl; lia. }
    destruct (ranges_total fuel rest' r 0 false) as [H1 H2]; [lia|].
    destruct (ranges fuel rest' r 0 false) as [[m rest'']| |]; [|done|done].
    apply IH'. specialize (H2 _ _ eq_refl). lia.
  - destruct (same c "?"); [destruct failed', s; by apply IH'|].
    destruct (same c "\"); [destruct rest as [|d rest']; [done|]|];
      destruct failed', s; apply IH'; simpl; lia.
Qed.

Lemma match_chunk_total chunk s : match_chunk chunk s ≠ OutOfFuel.
Proof. apply matchChunk_total. lia. Qed.

Lemma skip_stars_length p : (String.length (snd (skip_stars p)) ≤ String.length p)%nat.
Proof. induction p as [|c p IH]; simpl; [done|]. destruct (same c "*"); simpl; lia. Qed.

Lemma scan_length p inr : (String.length (snd (scan p inr)) ≤ String.length p)%nat.
Proof.
  assert (∀ n p inr, (String.length p ≤ n)%nat →
    (String.length (snd (scan p inr)) ≤ String.length p)%nat) as H; [|by eapply H].
  clear. induction n as [|n IH]; intros [|c p] inr Hn; simpl in *; try lia.
  destruct (same c "\"); [destruct p as [|d p]; simpl in *; [lia|specialize (IH p inr ltac:(lia)); lia]|].
  pose proof (IH p true ltac:(lia)). pose proof (IH p false ltac:(lia)). pose proof (IH p inr ltac:(lia)).
  repeat split_match; simpl; lia.
Qed.

Lemma scan_shorter c p inr :
  same c "*" = false → (String.length (snd (scan (String c p) inr)) ≤ String.length p)%nat.
Proof.
  intros Hc. cbn [scan]. rewrite Hc. simpl andb. cbv zeta.
  destruct (same c "\").
  - destruct p as [|d p]; [simpl; lia|]. pose proof (scan_length p inr). simpl in *. lia.
  - destruct (same c "["), (same c "]"); apply scan_length.
Qed.

Lemma scanChunk_shorter p star chunk rest :
  p ≠ "" → scanChunk p = (star, chunk, rest) → (String.length rest < String.length p)%nat.
Proof.
  destruct p as [|c p]; [done|]. intros _. unfold scanChunk. cbn [skip_stars].
  destruct (same c "*") eqn:Hc.
  - pose proof (skip_stars_length p). destruct (skip_stars p) as [b q]; simpl in *.
    pose proof (scan_length q false). destruct (scan q false) as [ch r]. intros [= <- <- <-].
    simpl in *. lia.
  - pose proof (scan_shorter c p false Hc). destruct (scan (String c p) false) as [ch r].
    intros [= <- <- <-]. simpl in *. lia.
Qed.

Lemma star_loop_total chunk rest name : star_loop chunk rest name ≠ OutOfFuel.
Proof.
  induction name as [|c name IH]; simpl; [done|]. destruct (same c Separator); [done|].
  pose proof (match_chunk_total chunk name).
  destruct (match_chunk chunk name) as [[t|]| |]; [|done..]. by destruct rest, t.
Qed.

Lemma check_rest_total fuel p : (String.length p ≤ fuel)%nat → check_rest fuel p ≠ OutOfFuel.
Proof.
  revert p; induction fuel as [|fuel IH]; intros [|c p] Hf; try done; [simpl in Hf; lia|].
  cbn [check_rest]. destruct (scanChunk (String c p)) as [[star chunk] rest] eqn:E.
  apply scanChunk_shorter in E; [|done].
  pose proof (match_chunk_total chunk ""). destruct (match_chunk chunk ""); [|done..].
  apply IH. lia.
Qed.

Lemma match_loop_total fuel p name : (String.length p ≤ fuel)%nat → match_loop fuel p name ≠ OutOfFuel.
Proof.
  revert p name; induction fuel as [|fuel IH]; intros [|c p] name Hf; try done; [simpl in Hf; lia|].
  cbn [match_loop]. destruct (scanChunk (String c p)) as [[star chunk] rest] eqn:E.
  apply scanChunk_shorter in E; [|done].
  destruct (star && _); [done|].
  assert (check_rest fuel rest ≠ OutOfFuel) as Hcr by (apply check_rest_total; lia).
  match goal with |- context [if star then ?a else ?b] => set (after := if star then a else b) end.
  assert (after ≠ OutOfFuel) as Hafter.
  { unfold after. destruct star; [|done]. pose proof (star_loop_total chunk rest name).
    destruct (star_loop chunk rest name) as [[t|]| |]; try done. apply IH. lia. }
  pose proof (match_chunk_total chunk name).
  destruct (match_chunk chunk name) as [[t|]| |]; try done.
  destruct t, rest; try done; apply IH; simpl in *; lia.
Qed.

(** [filepath.Match] terminates on every pattern and name: the fuel the model
    gives its loops (the length of what they consume) is always enough, so the
    result is a verdict or [ErrBadPattern]. *)
Theorem Match_total p name : Match p name ≠ OutOfFuel.
Proof. by apply match_loop_total. Qed.

(** * What the patterns the program ships with match *)

(** A literal: no character that is special in a pattern. *)
Definition special (c : ascii) : bool := same c "*" || same c "?" || same c "[" || same c "\".

Fixpoint literal (s : string) : bool :=
  match s with EmptyString => true | String c s => negb (special c) && literal s end.

Fixpoint strip_prefix (p s : string) : option string :=
  match p, s with
  | EmptyString, _ => Some s
  | String c p, String d s => if same c d then strip_prefix p s else None
  | String _ _, EmptyString => None
  end.

Lemma special_false c :
  special c = false → same c "*" = false ∧ same c "?" = false ∧ same c "[" = false ∧ same c "\" = false.
Proof. unfold special. rewrite !orb_false_iff. tauto. Qed.

Lemma matchChunk_failed fuel p s :
  literal p = true → (String.length p < fuel)%nat → matchChunk fuel p s true = OK None.
Proof.
  revert p s; induction fuel as [|fuel IH]; intros p s Hp Hf; [lia|].
  destruct p as [|c p]; [done|]. simpl in Hp, Hf. apply andb_prop in Hp as [Hc Hp].
  apply negb_true_iff, special_false in Hc as (? & H2 & H3 & H4). cbn [matchChunk].
  rewrite H2, H3, H4. destruct s; apply IH; (done || lia).
Qed.

Lemma matchChunk_literal fuel p s :
  literal p = true → (String.length p < fuel)%nat → matchChunk fuel p s false = OK (strip_prefix p s).
Proof.
  revert p s; induction fuel as [|fuel IH]; intros p s Hp Hf; [lia|].
  destruct p as [|c p]; [done|]. pose proof Hp as Hp'. simpl in Hp, Hf. apply andb_prop in Hp as [Hc Hp].
  apply negb_true_iff, special_false in Hc as (? & H2 & H3 & H4). cbn [matchChunk].
  rewrite H2, H3, H4. destruct s as [|d s]; simpl.
  - apply matchChunk_failed; (done || lia).
  - destruct (same c d); simpl; [apply IH|apply matchChunk_failed]; (done || lia).
Qed.

Lemma match_chunk_literal p s : literal p = true → match_chunk p s = OK (strip_prefix p s).
Proof. intros. apply matchChunk_literal; [done|lia]. Qed.

Lemma append_cons c p q : String c p ++ q = String c (p ++ q).
Proof. reflexivity. Qed.
Lemma append_nil_l q : "" ++ q = q.
Proof. reflexivity. Qed.

Lemma scan_literal p q :
  literal p = true → (∃ q', q = "" ∨ q = String "*" q') → scan (p ++ q) false = (p, q).
Proof.
  intros Hp (q' & Hq). induction p as [|c p IH].
  - rewrite append_nil_l. by destruct Hq as [-> | ->].
  - rewrite append_cons. simpl in *. apply andb_prop in Hp as [Hc Hp]. apply negb_true_iff, special_false in Hc as (H1 & H2 & H3 & H4).
    rewrite H1, H3, H4, IH by done. simpl. by destruct (same c "]").
Qed.

Lemma skip_stars_literal p q :
  literal p = true → p ≠ "" → skip_stars (p ++ q) = (false, p ++ q).
Proof.
  destruct p as [|c p]; [done|]. rewrite append_cons. simpl. intros [Hc Hp]%andb_prop _.
  by apply negb_true_iff, special_false in Hc as (-> & _).
Qed.

Lemma append_nil_r s : s ++ "" = s.
Proof. induction s as [|c s IH]; [done|]. by rewrite append_cons, IH. Qed.

Lemma append_assoc p q r : p ++ q ++ r = (p ++ q) ++ r.
Proof.
  induction p as [|c p IH]; [by rewrite !append_nil_l|].
  by rewrite !append_cons, IH.
Qed.

Lemma strip_prefix_eq p s : (match strip_prefix p s with Some "" => true | _ => false end) = String.eqb p s.
Proof.
  revert s; induction p as [|c p IH]; intros [|d s]; simpl; try done.
  rewrite <- IH. unfold same. by destruct (Ascii.eqb c d).
Qed.

(** One round of the loop whose chunk is a literal without a leading star. *)
Lemma match_loop_literal fuel p pat rest name :
  pat ≠ "" → literal p = true → scanChunk pat = (false, p, rest) →
  match_loop (S fuel) pat name
  = match strip_prefix p name with
    | Some t => match t, rest with
                | String _ _, EmptyString => check_rest fuel rest
                | _, _ => match_loop fuel rest t
                end
    | None => check_rest fuel rest
    end.
Proof.
  intros Hpat Hp Hscan. destruct pat as [|c pat]; [done|].
  cbn [match_loop]. rewrite Hscan. simpl andb. cbv iota. by rewrite match_chunk_literal.
Qed.

Lemma length_S p : p ≠ "" → ∃ f, String.length p = S f.
Proof. destruct p; [done|]. simpl. eauto. Qed.

(** A literal pattern matches itself only. *)
Lemma Match_literal p s : literal p = true → Match p s = OK (String.eqb p s).
Proof.
  intros Hp. rewrite <- strip_prefix_eq. unfold Match.
  destruct (decide (p = "")) as [->|Hne]; [by destruct s|].
  assert (scanChunk p = (false, p, "")) as Hscan.
  { unfold scanChunk. rewrite <- (append_nil_r p) at 1.
    rewrite skip_stars_literal by done. rewrite scan_literal; [done|done|]. exists ""; by left. }
  destruct (length_S p Hne) as [f ->]. rewrite (match_loop_literal f p p "" s) by done.
  destruct (strip_prefix p s) as [[|]|]; by destruct f.
Qed.

(** A literal followed by a star matches what continues it without a separator. *)
Lemma Match_literal_star p s :
  literal p = true →
  Match (p ++ "*") s
  = OK (match strip_prefix p s with Some t => negb (contains Separator t) | None => false end).
Proof.
  intros Hp. unfold Match.
  destruct (decide (p = "")) as [->|Hne]; [reflexivity|].
  assert (scanChunk (p ++ "*") = (false, p, "*")) as Hscan.
  { unfold scanChunk. rewrite skip_stars_literal by done. rewrite scan_literal; [done|done|].
    exists ""; by right. }
  assert (∃ f, String.length (p ++ "*") = S (S f)) as [f ->].
  { destruct p as [|c p]; [done|]. rewrite append_cons. simpl.
    destruct (length_S (p ++ "*")) as [f ->]; [by destruct p|eauto]. }
  rewrite (match_loop_literal (S f) p _ "*" s); [|by destruct p|done|done].
  by destruct (strip_prefix p s) as [[|]|], f.
Qed.

End FilepathFacts.
