(* ===== verification/Rbac.v ===== *)
(** Role-based access control (rbac/ and [Api.IsAllowed] of api/auth.go):
    permissions are glob patterns over scopes, verbs and object attributes.

    An [Object] (map[string]string) is a [gmap]; a nil map reads like an empty
    one.  Go's random map order does not matter to the two loops over an object:
    the first only looks for a refusal, the second builds a map. *)

From S2P Require Export GoStrings.
From Stdlib Require Import String Ascii.
Local Open Scope string_scope.

Module Rbac.

Abbreviation Object := (gmap string string).

(** * rbac/action.go *)
Definition ActionAll := "*".
Definition ActionView := "view".
Definition ActionEdit := "edit".

Definition ScopeAll := "*".
Definition ScopeSettings := "settings".
Definition ScopeUsers := "users".
Definition ScopeRoles := "roles".
Definition ScopeProjectAll := "project.*".
Definition ScopeProjectSettings := "project.settings".
Definition ScopeProjectIntegrations := "project.integrations".
Definition ScopeProjectApplicationCategories := "project.application_categories".
Definition ScopeProjectCustomApplications := "project.custom_applications".
Definition ScopeProjectCustomCloudPricing := "project.custom_cloud_pricing".
Definition ScopeProjectInspections := "project.inspections".
Definition ScopeProjectInstrumentations := "project.instrumentations".
Definition ScopeProjectTraces := "project.traces".
Definition ScopeProjectLogs := "project.logs".
Definition ScopeProjectMetrics := "project.metrics".
Definition ScopeProjectCosts := "project.costs".
Definition ScopeProjectAnomalies := "project.anomalies".
Definition ScopeProjectRisks := "project.risks".
Definition ScopeApplication := "project.application".
Definition ScopeNode := "project.node".
Definition ScopeDashboards := "project.dashboards".
Definition ScopeDashboard := "project.dashboard".
Definition ScopeProjectAlertingRules := "project.alerting_rules".
Definition ScopeProjectAlerts := "project.alerts".

Record Action := { a_Scope : string; a_Action : string; a_Object : Object }.

Definition NewAction (scope action : string) (object : Object) : Action :=
  {| a_Scope := scope; a_Action := action; a_Object := object |}.

(** * rbac/permission.go *)
Record Permission := { p_Scope : string; p_Action : string; p_Object : Object }.

Definition NewPermission (scope action : string) (object : Object) : Permission :=
  {| p_Scope := scope; p_Action := action; p_Object := object |}.

(** The body of the loop of [allows]: does [k = av] pass? *)
Definition object_passes (p : Permission) (k av : string) : bool :=
  match p_Object p !! k with
  | None => true
  | Some pv =>
      if String.eqb pv "" then false
      else if String.eqb av "*" then true
      else GlobMatch av [pv]
  end.

Definition allows (p : Permission) (action : Action) : bool :=
  if negb (GlobMatch (a_Scope action) [p_Scope p]) then false
  else if negb (GlobMatch (a_Action action) [p_Action p]) then false
  else forallb (λ kv, object_passes p (fst kv) (snd kv)) (map_to_list (a_Object action)).

(** The body of the loop of [allowsForObject]: [return false, nil] *)
Definition object_denied (action : Action) (k pv : string) : bool :=
  negb (String.eqb pv "*") && (bool_decide (is_Some (a_Object action !! k)) && String.eqb pv "").

(** [object[k] = pv] *)
Definition object_restricts (action : Action) (kv : string * string) : Prop :=
  snd kv ≠ "*" ∧ is_Some (a_Object action !! fst kv).

#[local] Instance object_restricts_dec action kv : Decision (object_restricts action kv).
Proof. unfold object_restricts. apply _. Defined.

Definition allowsForObject (p : Permission) (action : Action) : bool * option Object :=
  if negb (GlobMatch (a_Scope action) [p_Scope p]) then (false, None)
  else if negb (GlobMatch (a_Action action) [p_Action p]) then (false, None)
  else if existsb (λ kv, object_denied action (fst kv) (snd kv)) (map_to_list (p_Object p)) then (false, None)
  else
    let object := filter (object_restricts action) (p_Object p) in
    (true, if bool_decide (object = ∅) then None else Some object).

Abbreviation PermissionSet := (list Permission).

Definition Allows (ps : PermissionSet) (action : Action) : bool := existsb (λ p, allows p action) ps.

(** [None] is the nil slice (nothing allowed); [Some []] is unrestricted. *)
Fixpoint AllowsForObjects_loop (ps : PermissionSet) (action : Action) (objects : option (list Object)) : option (list Object) :=
  match ps with
  | [] => objects
  | p :: ps =>
      match allowsForObject p action with
      | (false, _) => AllowsForObjects_loop ps action objects
      | (true, None) => Some []
      | (true, Some obj) => AllowsForObjects_loop ps action (Some (default [] objects ++ [obj])%list)
      end
  end.

Definition AllowsForObjects (ps : PermissionSet) (action : Action) : option (list Object) :=
  AllowsForObjects_loop ps action None.

(** * rbac/role.go *)
Record Role := { r_Name : string; r_Permissions : PermissionSet }.

Definition NewRole (name : string) (permissions : PermissionSet) : Role :=
  {| r_Name := name; r_Permissions := permissions |}.

Definition RoleAdmin := "Admin".
Definition RoleEditor := "Editor".
Definition RoleViewer := "Viewer".

Definition Roles : list Role := [
  NewRole RoleAdmin [NewPermission ScopeAll ActionAll ∅];
  NewRole RoleEditor [
    NewPermission ScopeAll ActionView ∅;
    NewPermission ScopeProjectApplicationCategories ActionEdit ∅;
    NewPermission ScopeProjectCustomApplications ActionEdit ∅;
    NewPermission ScopeProjectCustomCloudPricing ActionEdit ∅;
    NewPermission ScopeProjectInspections ActionEdit ∅;
    NewPermission ScopeProjectRisks ActionEdit ∅;
    NewPermission ScopeDashboards ActionEdit ∅;
    NewPermission ScopeProjectAlertingRules ActionEdit ∅;
    NewPermission ScopeProjectAlerts ActionEdit ∅];
  NewRole RoleViewer [NewPermission ScopeAll ActionView ∅]
].

Definition Valid (r : string) (roles : list Role) : bool := existsb (λ role, String.eqb (r_Name role) r) roles.
Definition Builtin (r : string) : bool := Valid r Roles.

(** * rbac/actions.go *)
Record ProjectActionSet := { pas_id : string }.
Definition Project (id : string) : ProjectActionSet := {| pas_id := id |}.
Definition project_object (p : ProjectActionSet) : Object := {["project_id" := pas_id p]}.

(** [ProjectViewAction], [ProjectEditAction] and [ProjectAction]: a project and a
    scope, on which [View] or [Edit] (or both) is offered. *)
Record ScopedAction := { sa_project : ProjectActionSet; sa_scope : string }.
Definition View (s : ScopedAction) : Action := NewAction (sa_scope s) ActionView (project_object (sa_project s)).
Definition Edit (s : ScopedAction) : Action := NewAction (sa_scope s) ActionEdit (project_object (sa_project s)).
Definition scoped (scope : string) (p : ProjectActionSet) : ScopedAction := {| sa_project := p; sa_scope := scope |}.

Definition Settings := scoped ScopeProjectSettings.
Definition Integrations := scoped ScopeProjectIntegrations.
Definition ApplicationCategories := scoped ScopeProjectApplicationCategories.
Definition CustomApplications := scoped ScopeProjectCustomApplications.
Definition CustomCloudPricing := scoped ScopeProjectCustomCloudPricing.
Definition Inspections := scoped ScopeProjectInspections.
Definition Instrumentations := scoped ScopeProjectInstrumentations.
Definition Traces := scoped ScopeProjectTraces.
Definition Logs := scoped ScopeProjectLogs.
Definition Metrics := scoped ScopeProjectMetrics.
Definition Costs := scoped ScopeProjectCosts.
Definition Anomalies := scoped ScopeProjectAnomalies.
Definition Risks := scoped ScopeProjectRisks.
Definition Dashboards := scoped ScopeDashboards.
Definition AlertingRules := scoped ScopeProjectAlertingRules.
Definition Alerts := scoped ScopeProjectAlerts.

Definition Application_View (category namespace kind name : string) (p : ProjectActionSet) : Action :=
  NewAction ScopeApplication ActionView
    (<["application_name" := name]> (<["application_kind" := kind]>
      (<["application_namespace" := namespace]> (<["application_category" := category]> (project_object p))))).

Definition Node_View (name : string) (p : ProjectActionSet) : Action :=
  NewAction ScopeNode ActionView (<["node_name" := name]> (project_object p)).

Definition Dashboard_View (name : string) (p : ProjectActionSet) : Action :=
  NewAction ScopeDashboard ActionView (<["dashboard_name" := name]> (project_object p)).

Definition ProjectList (p : ProjectActionSet) : list Action := [
  Edit (Settings p); Edit (Integrations p); Edit (ApplicationCategories p); Edit (CustomApplications p);
  Edit (CustomCloudPricing p); Edit (Inspections p); Edit (Instrumentations p);
  View (Traces p); View (Logs p); View (Costs p); View (Anomalies p); View (Risks p); Edit (Risks p);
  Application_View "*" "*" "*" "*" p; Node_View "*" p; Edit (Dashboards p); Dashboard_View "*" p;
  View (AlertingRules p); Edit (AlertingRules p); View (Alerts p); Edit (Alerts p)].

Definition ActionList : list Action :=
  ([NewAction ScopeSettings ActionEdit ∅; NewAction ScopeUsers ActionEdit ∅; NewAction ScopeRoles ActionEdit ∅]
  ++ ProjectList (Project ""))%list.

(** * api/auth.go: [IsAllowed]

    [roles] is the result of the role manager, [None] when it fails. *)
Definition IsAllowed (roles : option (list Role)) (user_roles : list string) (actions : list Action) : bool :=
  match roles with
  | None => false
  | Some roles =>
      existsb (λ rn,
        existsb (λ r,
          if negb (String.eqb (r_Name r) rn) then false
          else existsb (Allows (r_Permissions r)) actions) roles) user_roles
  end.

Example test_node : allows (NewPermission ScopeNode ActionView {["node_name" := "foo*"]}) (Node_View "foobar" (Project "foo")) = true.
Proof. reflexivity. Qed.
Example test_project : allows (NewPermission ScopeProjectAll ActionView {["project_id" := "foo"]}) (Node_View "foo" (Project "bar")) = false.
Proof. reflexivity. Qed.

(** * Lemmas *)
Lemma GlobMatch_literal s p : FilepathFacts.literal p = true → GlobMatch s [p] = String.eqb p s.
Proof. intros H. unfold GlobMatch, match_ok. cbn [existsb]. by rewrite FilepathFacts.Match_literal, orb_false_r. Qed.

Lemma GlobMatch_star s : GlobMatch s ["*"] = negb (contains "/" s).
Proof.
  unfold GlobMatch, match_ok. cbn [existsb].
  pose proof (FilepathFacts.Match_literal_star "" s eq_refl) as H.
  change ("" ++ "*")%string with "*" in H. by rewrite H, orb_false_r.
Qed.

Lemma allows_no_object scope verb a :
  allows (NewPermission scope verb ∅) a = GlobMatch (a_Scope a) [scope] && GlobMatch (a_Action a) [verb].
Proof.
  unfold allows; simpl. destruct (GlobMatch (a_Scope a) [scope]); simpl; [|done].
  destruct (GlobMatch (a_Action a) [verb]); simpl; [|done].
  apply forallb_forall. intros kv _. unfold object_passes. simpl. by rewrite lookup_empty.
Qed.

Definition slash_free (s : string) : Prop := contains "/" s = false.

Definition editor_scopes : list string := [
  ScopeProjectApplicationCategories; ScopeProjectCustomApplications; ScopeProjectCustomCloudPricing;
  ScopeProjectInspections; ScopeProjectRisks; ScopeDashboards; ScopeProjectAlertingRules; ScopeProjectAlerts].

Definition permissions_of (name : string) : PermissionSet :=
  match list_find (λ r, r_Name r = name) Roles with Some (_, r) => r_Permissions r | None => [] end.

(** What the built-in roles may do, for any action whose scope and verb have
    no slash (as all the program's have) and whatever object it is about: the
    administrator everything, the viewer exactly the [view] verb, the editor
    [view] everywhere and [edit] in eight project scopes only (so neither
    settings, users, roles nor integrations). *)
Theorem builtin_roles_allow a :
  slash_free (a_Scope a) → slash_free (a_Action a) →
  Allows (permissions_of RoleAdmin) a = true ∧
  Allows (permissions_of RoleViewer) a = bool_decide (a_Action a = ActionView) ∧
  Allows (permissions_of RoleEditor) a
  = bool_decide (a_Action a = ActionView ∨ (a_Action a = ActionEdit ∧ a_Scope a ∈ editor_scopes)).
Proof.
  unfold slash_free. intros Hs Ha.
  assert (∀ s : string, String.eqb s (a_Action a) = bool_decide (a_Action a = s)) as Heq.
  { intros s. apply eq_true_iff_eq. rewrite String.eqb_eq, bool_decide_eq_true. naive_solver. }
  split_and!; unfold Allows; simpl existsb; rewrite ?allows_no_object, ?GlobMatch_star, ?Hs, ?Ha; simpl; try done.
  - rewrite GlobMatch_literal by done. by rewrite Heq, orb_false_r.
  - rewrite !GlobMatch_literal by done. rewrite !Heq, orb_false_r.
    apply eq_true_iff_eq. rewrite bool_decide_eq_true, !orb_true_iff, !andb_true_iff, !String.eqb_eq, !bool_decide_eq_true.
    unfold editor_scopes. rewrite !elem_of_cons, elem_of_nil. naive_solver.
Qed.

Example builtin_roles_allow_witness :
  Allows (permissions_of RoleViewer) (Edit (Settings (Project "p"))) = false ∧
  Allows (permissions_of RoleEditor) (Edit (Risks (Project "p"))) = true.
Proof.
  destruct (builtin_roles_allow (Edit (Settings (Project "p"))) eq_refl eq_refl) as (_ & -> & _).
  destruct (builtin_roles_allow (Edit (Risks (Project "p"))) eq_refl eq_refl) as (_ & _ & ->).
  split; reflexivity.
Defined.

(** [IsAllowed] grants a request exactly when the roles could be read and
    some role with the name of one of the user's roles has a permission for
    some of the listed actions; a user without roles is never allowed. *)
Theorem IsAllowed_spec roles user_roles actions :
  IsAllowed roles user_roles actions = true ↔
  ∃ rs r a p, roles = Some rs ∧ r ∈ rs ∧ r_Name r ∈ user_roles ∧ a ∈ actions
    ∧ p ∈ r_Permissions r ∧ allows p a = true.
Proof.
  destruct roles as [rs|]; [|simpl; naive_solver]. simpl.
  rewrite existsb_Exists. setoid_rewrite existsb_Exists. split.
  - intros (rn & Hrn & r & Hr & H). destruct (String.eqb_spec (r_Name r) rn); simpl in H; [|done].
    apply existsb_Exists in H as (a & Ha & H). apply existsb_Exists in H as (p & Hp & H).
    exists rs, r, a, p. subst. done.
  - intros (rs' & r & a & p & [= ->] & Hr & Hn & Ha & Hp & H).
    exists (r_Name r). split; [done|]. exists r. split; [done|].
    rewrite String.eqb_refl. simpl. apply existsb_Exists. exists a. split; [done|].
    apply existsb_Exists. eauto.
Qed.

(** ** The two views of object restrictions *)
Lemma allows_objects p a :
  allows p a = true ↔ GlobMatch (a_Scope a) [p_Scope p] = true ∧ GlobMatch (a_Action a) [p_Action p] = true
    ∧ ∀ k av, a_Object a !! k = Some av → object_passes p k av = true.
Proof.
  unfold allows. destruct (GlobMatch (a_Scope a) _); simpl; [|naive_solver].
  destruct (GlobMatch (a_Action a) _); simpl; [|naive_solver].
  rewrite forallb_forall. split.
  - intros H. split_and!; [done..|]. intros k av Hk. apply (H (k, av)).
    by apply list_elem_of_In, elem_of_map_to_list.
  - intros (_ & _ & H) [k av] Hin. apply H. by apply elem_of_map_to_list, list_elem_of_In.
Qed.

Lemma allowsForObject_denied p a :
  fst (allowsForObject p a) = true ↔ GlobMatch (a_Scope a) [p_Scope p] = true ∧ GlobMatch (a_Action a) [p_Action p] = true
    ∧ ∀ k pv, p_Object p !! k = Some pv → is_Some (a_Object a !! k) → pv ≠ "".
Proof.
  unfold allowsForObject. destruct (GlobMatch (a_Scope a) _); simpl; [|naive_solver].
  destruct (GlobMatch (a_Action a) _); simpl; [|naive_solver].
  destruct (existsb _ _) eqn:E; simpl.
  - apply existsb_Exists in E as ([k pv] & Hin%elem_of_map_to_list & H). simpl in H.
    unfold object_denied in H. apply andb_prop in H as [_ [Hs%bool_decide_eq_true Hp%String.eqb_eq]%andb_prop].
    naive_solver.
  - split; [|done]. intros _. split_and!; [done..|]. intros k pv Hk Hs ->.
    apply existsb_false_Forall in E. rewrite Forall_forall in E.
    specialize (E (k, "") (proj2 (elem_of_map_to_list _ _ _) Hk)). simpl in E.
    unfold object_denied in E. by rewrite bool_decide_true in E.
Qed.

Lemma AllowsForObjects_loop_None ps a acc :
  AllowsForObjects_loop ps a acc = None ↔ acc = None ∧ ∀ p, p ∈ ps → fst (allowsForObject p a) = false.
Proof.
  revert acc; induction ps as [|p ps IH]; intros acc; simpl; [set_solver|].
  destruct (allowsForObject p a) as [[] [obj|]] eqn:E; rewrite ?IH.
  - split; [naive_solver|]. intros [_ H]. specialize (H p ltac:(left)). by rewrite E in H.
  - split; [naive_solver|]. intros [_ H]. specialize (H p ltac:(left)). by rewrite E in H.
  - split; intros [-> H]; (split; [done|]); intros q Hq; [|apply H; by right].
    apply elem_of_cons in Hq as [->|Hq]; [by rewrite E|by apply H].
  - split; intros [-> H]; (split; [done|]); intros q Hq; [|apply H; by right].
    apply elem_of_cons in Hq as [->|Hq]; [by rewrite E|by apply H].
Qed.

(** A role that allows an action is listed with objects for it: when
    [Allows] holds, [AllowsForObjects] (which the role page shows) does not
    report "nothing"; and a permission it reports as unrestricted is refused
    by [allows] only for an object value that contains a slash. *)
Theorem Allows_implies_listed ps a :
  (Allows ps a = true → AllowsForObjects ps a ≠ None) ∧
  (∀ p, p ∈ ps → allowsForObject p a = (true, None) →
     (∀ k av, a_Object a !! k = Some av → slash_free av) → Allows ps a = true).
Proof.
  split.
  - intros (p & Hp & H)%existsb_Exists Hn.
    apply AllowsForObjects_loop_None in Hn as [_ Hn]. specialize (Hn p Hp).
    apply not_true_iff_false in Hn. apply Hn. apply allowsForObject_denied.
    apply allows_objects in H as (Hs & Ha & Ho). split_and!; [done..|].
    intros k pv Hk [av Hav] ->. specialize (Ho k av Hav). unfold object_passes in Ho. by rewrite Hk in Ho.
  - intros p Hp H Hslash. apply existsb_Exists. exists p. split; [done|].
    assert (fst (allowsForObject p a) = true) as Hf by (by rewrite H).
    apply allowsForObject_denied in Hf as (Hs & Ha & Ho). apply allows_objects. split_and!; [done..|].
    intros k av Hav. unfold object_passes. destruct (p_Object p !! k) as [pv|] eqn:Hk; [|done].
    destruct (String.eqb_spec pv ""); [by destruct (Ho k pv Hk (mk_is_Some _ _ Hav))|].
    destruct (String.eqb_spec av "*"); [done|].
    assert (pv = "*") as ->; [|by rewrite GlobMatch_star, (Hslash k av Hav)].
    destruct (decide (pv = "*")) as [|Hne]; [done|]. exfalso.
    unfold allowsForObject in H. rewrite Hs, Ha in H. simpl in H.
    destruct (existsb _ _); [done|]. injection H as H. case_bool_decide as He; [|done].
    assert (filter (object_restricts a) (p_Object p) !! k = None) as Hl by (by rewrite He).
    apply map_lookup_filter_None in Hl as [Hl|Hl]; [by rewrite Hk in Hl|].
    apply (Hl pv Hk). split; simpl; [done|by eexists].
Qed.

Example Allows_implies_listed_witness :
  AllowsForObjects [NewPermission ScopeNode ActionView {["node_name" := "foo*"]}] (Node_View "foobar" (Project "p")) ≠ None.
Proof.
  destruct (Allows_implies_listed [NewPermission ScopeNode ActionView {["node_name" := "foo*"]}]
              (Node_View "foobar" (Project "p"))) as [H _].
  apply H. reflexivity.
Defined.

(** A permission whose object value is the wildcard ["*"] is reported as
    unrestricted, and still refuses an object whose value has a slash. *)
Lemma wildcard_object_refuses_slash :
  let p := NewPermission ScopeNode ActionView {["node_name" := "*"]} in
  let a := Node_View "rack1/node1" (Project "p") in
  allowsForObject p a = (true, None) ∧ allows p a = false.
Proof. split; reflexivity. Qed.

End Rbac.
