(* ===== verification/AppId.v ===== *)
(** Application identifiers (model/application_id.go): the normalising
    constructor, the textual form, and the parser that also reads the older
    form without the cluster id. *)

From S2P Require Export GoStrings.
From Stdlib Require Import Ascii String ZArith Lia.
Local Open Scope string_scope.

(** * strings and strconv *)

(** [strings.TrimPrefix(s, prefix)] *)
Definition TrimPrefix (s prefix : string) : string :=
  default s (FilepathFacts.strip_prefix prefix s).

Definition digit_value (a : ascii) : option Z :=
  let n := nat_of_ascii a in
  if (48 <=? n)%nat && (n <=? 57)%nat then Some (Z.of_nat n - 48)%Z else None.

Fixpoint digits (s : string) (acc : Z) : option Z :=
  match s with
  | EmptyString => Some acc
  | String a s => match digit_value a with Some d => digits s (acc * 10 + d)%Z | None => None end
  end.

(** [strconv.ParseUint(s, 10, 64)], [None] on its errors. *)
Definition ParseUint (s : string) : option Z :=
  if String.eqb s "" then None
  else match digits s 0 with
       | Some n => if bool_decide (n < 2 ^ 64)%Z then Some n else None
       | None => None
       end.

(** [regexp.MustCompile(`^[\da-f]+$`).MatchString] *)
Definition hex_digit (a : ascii) : bool :=
  let n := nat_of_ascii a in
  ((48 <=? n)%nat && (n <=? 57)%nat) || ((97 <=? n)%nat && (n <=? 102)%nat).
Fixpoint string_forall (p : ascii → bool) (s : string) : bool :=
  match s with EmptyString => true | String a s => p a && string_forall p s end.
Definition hexPattern (s : string) : bool := negb (String.eqb s "") && string_forall hex_digit s.

(** * model/kubernetes.go: the kinds the code tests for *)
Definition ApplicationKindDeployment : string := "Deployment".
Definition ApplicationKindCronJob : string := "CronJob".
Definition ApplicationKindJob : string := "Job".
Definition ApplicationKindReplicaSet : string := "ReplicaSet".
Definition ApplicationKindPod : string := "Pod".
Definition ApplicationKindExternalService : string := "ExternalService".

Definition ClusterIdExternal : string := "external".

Record ApplicationId := {
  ClusterId : string;
  Namespace : string;
  Kind : string;
  Name : string
}.

#[export] Instance ApplicationId_eq_dec : EqDecision ApplicationId.
Proof. solve_decision. Defined.
#[export] Instance ApplicationId_countable : Countable ApplicationId.
Proof.
  refine (inj_countable' (λ a, (ClusterId a, Namespace a, Kind a, Name a))
            (λ p, Build_ApplicationId p.1.1.1 p.1.1.2 p.1.2 p.2) _).
  by intros [].
Defined.

Definition ApplicationIdZero : ApplicationId :=
  {| ClusterId := ""; Namespace := ""; Kind := ""; Name := "" |}.

(** [parts[len(parts)-1]] and [strings.Join(parts[:len(parts)-1], sep)] of a
    split, which is never empty. *)
Definition last_part (parts : list string) : string := List.last parts "".
Definition but_last (parts : list string) : list string := removelast parts.

Definition NewApplicationId (clusterId ns kind name : string) : ApplicationId :=
  let '(kind, name) :=
    if String.eqb kind ApplicationKindReplicaSet then
      let parts := Split "-" name in
      if hexPattern (last_part parts) then (ApplicationKindDeployment, Join (but_last parts) "-")
      else (kind, name)
    else if String.eqb kind ApplicationKindJob then
      let parts := Split "-" name in
      match ParseUint (last_part parts) with
      | Some _ => (ApplicationKindCronJob, Join (but_last parts) "-")
      | None => (kind, name)
      end
    else if String.eqb kind "" || String.eqb kind "<none>" then (ApplicationKindPod, name)
    else (kind, name) in
  let clusterId := if String.eqb clusterId "" then "_" else clusterId in
  let ns := if String.eqb ns "" then "_" else ns in
  {| ClusterId := clusterId; Namespace := ns; Kind := kind; Name := name |}.

Definition set_ClusterId (c : string) (a : ApplicationId) : ApplicationId :=
  {| ClusterId := c; Namespace := Namespace a; Kind := Kind a; Name := Name a |}.

Definition NewApplicationIdFromString (src fallbackClusterId : string) : option ApplicationId :=
  let id :=
    match SplitN ":" 4 src with
    | [p0; p1; p2] => Some {| ClusterId := ""; Namespace := p0; Kind := p1; Name := p2 |}
    | [p0; p1; p2; p3] =>
        if String.eqb p0 "external" && negb (String.eqb p1 "external") then
          Some {| ClusterId := ""; Namespace := p0; Kind := p1; Name := p2 ++ ":" ++ p3 |}
        else Some {| ClusterId := p0; Namespace := p1; Kind := p2; Name := p3 |}
    | _ => None
    end in
  match id with
  | None => None
  | Some id =>
      let id := if String.eqb (ClusterId id) "" then set_ClusterId fallbackClusterId id else id in
      Some (if String.eqb (Kind id) ApplicationKindExternalService
            then set_ClusterId ClusterIdExternal id else id)
  end.

Definition NamespaceIsEmpty (a : ApplicationId) : bool :=
  String.eqb (Namespace a) "" || String.eqb (Namespace a) "_".

Definition IsZero (a : ApplicationId) : bool := bool_decide (a = ApplicationIdZero).

Definition AppIdString (a : ApplicationId) : string :=
  ClusterId a ++ ":" ++ Namespace a ++ ":" ++ Kind a ++ ":" ++ Name a.

Definition StringWithoutClusterId (a : ApplicationId) : string :=
  Namespace a ++ ":" ++ Kind a ++ ":" ++ Name a.

(** [Scan] of a column: SQL NULL is [None]. *)
Definition AppIdScan (src : option string) : option ApplicationId :=
  match src with
  | None => Some ApplicationIdZero
  | Some s => NewApplicationIdFromString s ""
  end.

Definition UnmarshalText (text : string) : option ApplicationId := NewApplicationIdFromString text "".

Example parse_full : NewApplicationIdFromString "1elggi7o:coroot:Deployment:agent" "fb" =
  Some (Build_ApplicationId "1elggi7o" "coroot" "Deployment" "agent").
Proof. reflexivity. Qed.
Example parse_short : NewApplicationIdFromString "coroot:Deployment:agent" "fb" =
  Some (Build_ApplicationId "fb" "coroot" "Deployment" "agent").
Proof. reflexivity. Qed.
Example parse_external : NewApplicationIdFromString "external:ExternalService:external:30001" "fb" =
  Some (Build_ApplicationId "external" "external" "ExternalService" "external:30001").
Proof. reflexivity. Qed.

(** * Facts *)
Module AppIdFacts.

Lemma same_refl c : same c c = true.
Proof. apply Ascii.eqb_refl. Qed.

Lemma SplitN_field c n a s :
  contains c a = false → SplitN c (S (S n)) (a ++ String c s) = a :: SplitN c (S n) s.
Proof.
  intros H. induction a as [|d a IH].
  { rewrite FilepathFacts.append_nil_l. cbn [SplitN]. by rewrite same_refl. }
  cbn [contains] in H. apply orb_false_iff in H as [Hd Ha].
  rewrite FilepathFacts.append_cons. cbn [SplitN]. rewrite Hd.
  specialize (IH Ha). cbn [SplitN] in IH. by rewrite IH.
Qed.

Lemma SplitN_4 c (p0 p1 p2 p3 : string) :
  contains c p0 = false → contains c p1 = false → contains c p2 = false →
  SplitN c 4 (p0 ++ String c (p1 ++ String c (p2 ++ String c p3))) = [p0; p1; p2; p3].
Proof. intros. by rewrite !SplitN_field. Qed.

Lemma AppIdString_fields a :
  AppIdString a = ClusterId a ++ String ":" (Namespace a ++ String ":" (Kind a ++ String ":" (Name a))).
Proof. done. Qed.

(** The three fields before the name hold no colon. *)
Definition separable (a : ApplicationId) : bool :=
  negb (contains ":" (ClusterId a)) && negb (contains ":" (Namespace a)) && negb (contains ":" (Kind a)).

(** An id the parser takes for the form without a cluster id. *)
Definition reads_as_short (a : ApplicationId) : bool :=
  String.eqb (ClusterId a) "external" && negb (String.eqb (Namespace a) "external").

(** Ids no text of which is another's: the name holds a colon only in the id of
    an external service, and no namespace is called [ExternalService]. *)
Definition named (a : ApplicationId) : bool :=
  separable a && negb (String.eqb (Namespace a) ApplicationKindExternalService)
  && (negb (contains ":" (Name a)) || String.eqb (Kind a) ApplicationKindExternalService).

Lemma SplitN_whole c n s : contains c s = false → SplitN c (S n) s = [s].
Proof.
  revert n. induction s as [|d s IH]; intros n H; [by destruct n|]. cbn [contains] in H. apply orb_false_iff in H as [Hd Hs].
  destruct n as [|n]; [done|]. specialize (IH (S n) Hs). cbn [SplitN] in *. by rewrite Hd, IH.
Qed.

Lemma separable_fields a :
  separable a = true → contains ":" (ClusterId a) = false ∧ contains ":" (Namespace a) = false ∧ contains ":" (Kind a) = false.
Proof. unfold separable. rewrite !andb_true_iff, !negb_true_iff. tauto. Qed.

Lemma AppIdString_split a :
  separable a = true → SplitN ":" 4 (AppIdString a) = [ClusterId a; Namespace a; Kind a; Name a].
Proof. intros (Hc & Hn & Hk)%separable_fields. by rewrite AppIdString_fields, SplitN_4. Qed.

Lemma named_separable a : named a = true → separable a = true.
Proof. unfold named. by intros [[? _]%andb_true_iff _]%andb_true_iff. Qed.

Lemma AppIdString_inj a b : separable a = true → separable b = true → AppIdString a = AppIdString b → a = b.
Proof.
  intros Ha Hb He. apply (f_equal (SplitN ":" 4)) in He. rewrite !AppIdString_split in He by done.
  destruct a, b. cbn in He. congruence.
Qed.

Lemma short_is_no_id a b : named a = true → named b = true → StringWithoutClusterId a ≠ AppIdString b.
Proof.
  intros Ha Hb He. apply (f_equal (SplitN ":" 4)) in He. rewrite AppIdString_split in He by by apply named_separable.
  destruct (separable_fields a) as (_ & Hn & Hk); [by apply named_separable|].
  change (StringWithoutClusterId a) with (Namespace a ++ String ":" (Kind a ++ String ":" (Name a))) in He.
  rewrite !SplitN_field in He by done. unfold named in Ha, Hb.
  apply andb_true_iff in Ha as [_ Ha]. apply andb_true_iff in Hb as [[_ Hb]%andb_true_iff _].
  destruct (contains ":" (Name a)) eqn:Hname.
  - cbn in Ha. apply String.eqb_eq in Ha. injection He as _ Hns _. rewrite <- Hns, Ha in Hb. done.
  - by rewrite SplitN_whole in He.
Qed.

(** Parsing what [String] wrote gives the id back, for every id whose cluster,
    namespace and kind hold no colon (the name may); the only changes are the
    ones the parser makes on purpose: an empty cluster id becomes the fallback,
    and an external service always gets the cluster id ["external"].  An id
    whose cluster is called "external" while its namespace is not is read as the
    older form: the cluster id becomes the namespace and every field shifts. *)
Theorem String_FromString_roundtrip (a : ApplicationId) (fb : string)
    (Hsep : separable a = true) :
  NewApplicationIdFromString (AppIdString a) fb =
    Some (if reads_as_short a then
            let a' := {| ClusterId := fb; Namespace := "external"; Kind := Namespace a;
                         Name := Kind a ++ ":" ++ Name a |} in
            if String.eqb (Namespace a) "ExternalService" then set_ClusterId "external" a' else a'
          else if String.eqb (Kind a) "ExternalService" then set_ClusterId "external" a
          else if String.eqb (ClusterId a) "" then set_ClusterId fb a
          else a).
Proof.
  unfold separable in Hsep. rewrite !andb_true_iff, !negb_true_iff in Hsep.
  destruct Hsep as [[Hc Hn] Hk].
  unfold NewApplicationIdFromString. rewrite AppIdString_fields, SplitN_4 by done.
  unfold reads_as_short. destruct a as [c n k m].
  cbn [ClusterId Namespace Kind Name] in *.
  destruct (String.eqb c "external" && negb (String.eqb n "external")) eqn:E.
  - apply andb_true_iff in E as [->%String.eqb_eq _].
    change (String.eqb (ClusterId _) "") with true; cbv iota.
    unfold ApplicationKindExternalService, set_ClusterId. cbn [Kind]. by case_match.
  - unfold ApplicationKindExternalService. cbn [ClusterId].
    destruct (String.eqb c "") eqn:Hce; cbn [Kind set_ClusterId]; by case_match.
Qed.

Lemma String_FromString_roundtrip_witness :
  NewApplicationIdFromString (AppIdString (Build_ApplicationId "c" "ns" "Pod" "a:b")) "fb" =
    Some (Build_ApplicationId "c" "ns" "Pod" "a:b").
Proof. apply (String_FromString_roundtrip (Build_ApplicationId "c" "ns" "Pod" "a:b") "fb"). reflexivity. Defined.

Lemma eqb_default s d : d ≠ "" → String.eqb (if String.eqb s "" then d else s) "" = false.
Proof. intros H. destruct (String.eqb s "") eqn:E; [by apply String.eqb_neq|done]. Qed.

(** [NewApplicationId] is a normal form: rebuilding an id from the fields of an
    id it made changes nothing, and neither the cluster, the namespace nor the
    kind of such an id is empty. *)
Theorem NewApplicationId_normalises (c ns k n : string) :
  let a := NewApplicationId c ns k n in
  NewApplicationId (ClusterId a) (Namespace a) (Kind a) (Name a) = a
  ∧ ClusterId a ≠ "" ∧ Namespace a ≠ "" ∧ Kind a ≠ "".
Proof.
  intros a.
  assert (ClusterId a ≠ "" ∧ Namespace a ≠ "") as [Hc Hn].
  { unfold a, NewApplicationId. split; repeat case_match; cbn; apply String.eqb_neq; by try apply eqb_default. }
  assert (NewApplicationId (ClusterId a) (Namespace a) (Kind a) (Name a) = a ∧ Kind a ≠ ""); [|naive_solver].
  apply String.eqb_neq in Hc, Hn. revert Hc Hn. unfold a, NewApplicationId.
  generalize (if String.eqb c "" then "_" else c) (if String.eqb ns "" then "_" else ns). clear.
  intros c ns.
  destruct (String.eqb k ApplicationKindReplicaSet) eqn:Hr.
  { apply String.eqb_eq in Hr as ->.
    destruct (hexPattern (last_part (Split "-" n))) eqn:Hx;
      cbn [ClusterId Namespace Kind Name]; intros -> ->; [done|].
    change (String.eqb ApplicationKindReplicaSet ApplicationKindReplicaSet) with true; cbv iota. by rewrite Hx. }
  destruct (String.eqb k ApplicationKindJob) eqn:Hj.
  { apply String.eqb_eq in Hj as ->.
    destruct (ParseUint (last_part (Split "-" n))) eqn:Hx;
      cbn [ClusterId Namespace Kind Name]; intros -> ->; [done|].
    change (String.eqb ApplicationKindJob ApplicationKindReplicaSet) with false.
    change (String.eqb ApplicationKindJob ApplicationKindJob) with true. cbv iota. by rewrite Hx. }
  destruct (String.eqb k "" || String.eqb k "<none>") eqn:He;
    cbn [ClusterId Namespace Kind Name]; intros -> ->; [done|].
  rewrite Hr, Hj, He. split; [done|]. apply orb_false_iff in He as [He _]. by apply String.eqb_neq.
Qed.

End AppIdFacts.
