(* ===== verification/Utils.v ===== *)
(** utils/stringset.go, utils/strings.go, [Truncate] and [LastPart] of
    utils/format.go, and what the program uses of strconv. *)

From S2P Require Export AppId.
From Stdlib Require Import Ascii String ZArith Lia NArith.
From stdpp Require Export pretty sorting.
From stdpp Require Import fin_sets.
Local Open Scope string_scope.

(** * strconv *)

(** [strconv.Itoa] and [%d] *)
Definition Itoa (z : Z) : string := pretty z.

Inductive parsed := ParsedInt (n : Z) | SyntaxError | RangeError.

(** The digit loop of [strconv.ParseUint(s, 10, 64)]: it stops at the first
    byte that is not a digit, or at the first value that does not fit. *)
Fixpoint parse_digits (s : string) (n : Z) : parsed :=
  match s with
  | EmptyString => ParsedInt n
  | String a s =>
      match digit_value a with
      | None => SyntaxError
      | Some d =>
          if bool_decide (1844674407370955162 ≤ n)%Z then RangeError
          else if bool_decide (2 ^ 64 ≤ n * 10 + d)%Z then RangeError
          else parse_digits s (n * 10 + d)%Z
      end
  end.

(** The value [strconv.Atoi] returns, its error ignored: zero on a syntax error,
    the nearest bound on a range error. *)
Definition Atoi (s : string) : Z :=
  let '(neg, s) :=
    match s with
    | String "-" s => (true, s)
    | String "+" s => (false, s)
    | _ => (false, s)
    end in
  if String.eqb s "" then 0%Z
  else match parse_digits s 0 with
       | SyntaxError => 0%Z
       | RangeError => if neg then i64_min else i64_max
       | ParsedInt n =>
           if negb neg then if bool_decide (2 ^ 63 ≤ n)%Z then i64_max else n
           else if bool_decide (2 ^ 63 < n)%Z then i64_min else (- n)%Z
       end.

(** * utils/stringset.go

    The map of a [StringSet] as a finite set; a nil map is the empty set, and a
    [*StringSet] an option. *)
Module StringSet.
Definition t := gset string.

Definition NewStringSet (items : list string) : t := list_to_set items.

Definition Add (items : list string) (ss : t) : t :=
  foldl (λ ss s, if String.eqb s "" then ss else {[s]} ∪ ss) ss items.

Definition Has (s : string) (ss : option t) : bool :=
  match ss with None => false | Some ss => bool_decide (s ∈ ss) end.

Definition Delete (s : string) (ss : t) : t := ss ∖ {[s]}.

Definition Len (ss : option t) : nat :=
  match ss with None => 0 | Some ss => size ss end.

(** [sort.Strings(maps.Keys(m))]: byte-wise ascending. *)
Definition sort_strings (l : list string) : list string := merge_sort String.le l.

Definition Items (ss : option t) : list string :=
  match ss with None => [] | Some ss => sort_strings (elements ss) end.

Definition GetFirst (ss : option t) : string :=
  if bool_decide (Len ss = 0) then "" else default "" (head (Items ss)).

(** [MarshalJSON] writes the items; [UnmarshalJSON] adds them to the receiver. *)
Definition UnmarshalJSON (items : list string) (ss : t) : t := Add items ss.
End StringSet.

(** * Runes *)

(** [[]rune(s)], one rune per position [range] visits. *)
Fixpoint runes (fuel : nat) (s : string) : list N :=
  match fuel with
  | O => []
  | S fuel =>
      match s with
      | EmptyString => []
      | _ => let '(r, n) := Utf8.decode s in r :: runes fuel (sdrop n s)
      end
  end.

(** [unicode.IsSpace] *)
Definition IsSpace (r : N) : bool :=
  ((9 <=? r) && (r <=? 13) || (r =? 32) || (r =? 133) || (r =? 160) || (r =? 5760)
   || ((8192 <=? r) && (r <=? 8202)) || (r =? 8232) || (r =? 8233) || (r =? 8239) || (r =? 8287) || (r =? 12288))%N.

(** [strings.Fields]: the maximal runs of runes that are not spaces; [field] is
    the run being read. *)
Fixpoint fields (fuel : nat) (s field : string) : list string :=
  let flush := if String.eqb field "" then [] else [field] in
  match fuel with
  | O => flush
  | S fuel =>
      match s with
      | EmptyString => flush
      | _ =>
          let '(r, n) := Utf8.decode s in
          if IsSpace r then (flush ++ fields fuel (sdrop n s) "")%list
          else fields fuel (sdrop n s) (field ++ stake n s)
      end
  end.
Definition Fields (s : string) : list string := fields (S (String.length s)) s "".

(** [string(rune)]: the UTF-8 encoding. *)
Definition encode_rune (r : N) : string :=
  let b n := ascii_of_N n in
  let low6 n := N.lor 128 (N.land n 63) in
  (if r <? 128 then String (b r) ""
   else if r <? 2048 then String (b (N.lor 192 (N.shiftr r 6))) (String (b (low6 r)) "")
   else if r <? 65536 then
     String (b (N.lor 224 (N.shiftr r 12))) (String (b (low6 (N.shiftr r 6))) (String (b (low6 r)) ""))
   else String (b (N.lor 240 (N.shiftr r 18)))
          (String (b (low6 (N.shiftr r 12))) (String (b (low6 (N.shiftr r 6))) (String (b (low6 r)) ""))))%N.

Definition encode_runes (l : list N) : string := foldr (λ r s, encode_rune r ++ s) "" l.

(** "…" *)
Definition ellipsis : string := encode_rune 8230%N.

(** utils/format.go: [Truncate(s, maxLen)] for [maxLen >= 0]. *)
Definition Truncate (s : string) (maxLen : nat) : string :=
  let rs := runes (String.length s) s in
  if bool_decide (length rs ≤ maxLen)%nat then s
  else encode_runes (take maxLen rs) ++ ellipsis.

(** utils/strings.go: [TruncateUtf8].  [s[maxLength]] of the loop is in range. *)
Fixpoint rune_boundary (s : string) (maxLength : nat) : nat :=
  match maxLength with
  | O => O
  | S n => match String.get maxLength s with
           | Some a => if Utf8.RuneStart a then maxLength else rune_boundary s n
           | None => rune_boundary s n
           end
  end.

Definition TruncateUtf8 (s : string) (maxLength : nat) : string :=
  if bool_decide (String.length s ≤ maxLength)%nat then s
  else match rune_boundary s maxLength with
       | O => ""
       | n => stake n s ++ "..."
       end.

(** utils/format.go: [LastPart(s, sep)] for a one-byte separator. *)
Definition LastPart (s : string) (sep : ascii) : string := last_part (Split sep s).

Example truncate1 : Truncate "hello" 3 = "hel" ++ ellipsis.
Proof. reflexivity. Qed.
Example fields1 : Fields "  a/* b/c	 d " = ["a/*"; "b/c"; "d"].
Proof. reflexivity. Qed.
Example atoi1 : (Atoi "-42", Atoi "99999999999999999999", Atoi "x1") = (-42, 2 ^ 63 - 1, 0)%Z.
Proof. reflexivity. Qed.

(** * Facts *)
Module UtilsFacts.

Lemma elem_of_Add x items ss :
  x ∈ StringSet.Add items ss ↔ x ∈ ss ∨ (x ∈ items ∧ x ≠ "").
Proof.
  unfold StringSet.Add. revert ss. induction items as [|i items IH]; intros ss; cbn [foldl]; [set_solver|].
  rewrite IH. destruct (String.eqb i "") eqn:E.
  - apply String.eqb_eq in E as ->. set_solver.
  - apply String.eqb_neq in E. set_solver.
Qed.

Lemma Items_sorted ss : Sorted String.le (StringSet.Items ss).
Proof. destruct ss; [apply Sorted_merge_sort, _|constructor]. Qed.

Lemma sort_strings_perm (l1 l2 : list string) : l1 ≡ₚ l2 → StringSet.sort_strings l1 = StringSet.sort_strings l2.
Proof.
  intros H. unfold StringSet.sort_strings.
  apply (StronglySorted_unique String.le); [apply (StronglySorted_merge_sort _)..|].
  by rewrite !merge_sort_Permutation.
Qed.

Lemma Items_Permutation ss : StringSet.Items (Some ss) ≡ₚ elements ss.
Proof. apply merge_sort_Permutation. Qed.

(** The set of a [StringSet] is what was added to it, the empty string apart:
    after [Add], [Has] answers for the old members and the non-empty added ones,
    [Items] lists each member once in ascending order, and [Len] counts them. *)
Theorem StringSet_Add_Items (items : list string) (ss : StringSet.t) :
  let ss' := Some (StringSet.Add items ss) in
  (∀ x, StringSet.Has x ss' = true ↔ x ∈ ss ∨ (x ∈ items ∧ x ≠ "")) ∧
  (∀ x, x ∈ StringSet.Items ss' ↔ StringSet.Has x ss' = true) ∧
  NoDup (StringSet.Items ss') ∧ Sorted String.le (StringSet.Items ss') ∧
  length (StringSet.Items ss') = StringSet.Len ss'.
Proof.
  intros ss'. split_and!.
  - intros x. unfold ss'; cbn. by rewrite bool_decide_eq_true, elem_of_Add.
  - intros x. unfold ss'; cbn -[StringSet.Items].
    by rewrite Items_Permutation, elem_of_elements, bool_decide_eq_true.
  - unfold ss'. rewrite Items_Permutation. apply NoDup_elements.
  - apply Items_sorted.
  - unfold ss'. by rewrite Items_Permutation.
Qed.

Lemma digit_value_char d : (d < 10)%N → digit_value (pretty_N_char d) = Some (Z.of_N d).
Proof. intros H. destruct d as [|p]; [done|]. do 4 (destruct p as [p|p|]; try done; try lia). Qed.

Lemma pretty_N_go_head x s :
  (0 < x)%N → ∃ d s', (d < 10)%N ∧ pretty_N_go x s = String (pretty_N_char d) s'.
Proof.
  revert s. induction x as [x IH] using (well_founded_induction N.lt_wf_0); intros s Hx.
  rewrite pretty_N_go_step by done.
  destruct (decide (x / 10 = 0)%N) as [E|E].
  - rewrite E, pretty_N_go_0. exists (x `mod` 10)%N, s. split; [by apply N.mod_lt|done].
  - apply IH; [apply N.div_lt; lia|by apply N.neq_0_lt_0].
Qed.

Lemma parse_digits_pretty x s :
  (x <= 2 ^ 63)%N → parse_digits (pretty_N_go x s) 0 = parse_digits s (Z.of_N x).
Proof.
  revert s. induction x as [x IH] using (well_founded_induction N.lt_wf_0); intros s Hx.
  destruct (decide (x = 0)%N) as [->|Hnz]; [by rewrite pretty_N_go_0|].
  pose proof (N.div_mod x 10 ltac:(done)) as Hdm.
  pose proof (N.mod_lt x 10 ltac:(done)) as Hlt.
  rewrite pretty_N_go_step by lia.
  assert (Hq : (x / 10 < x)%N) by (apply N.div_lt; lia).
  revert Hdm Hlt Hq. generalize (x / 10)%N (x mod 10)%N. intros q r Hdm Hlt Hq.
  rewrite IH by lia. cbn [parse_digits]. rewrite digit_value_char by done.
  rewrite !bool_decide_false by lia. f_equal. lia.
Qed.

Lemma parse_Itoa p : (Npos p <= 2 ^ 63)%N → parse_digits (pretty (Npos p)) 0 = ParsedInt (Zpos p).
Proof. intros H. unfold pretty, pretty_N. rewrite decide_False by done. by rewrite parse_digits_pretty. Qed.

Lemma Itoa_head p : ∃ d s, (d < 10)%N ∧ pretty (Npos p) = String (pretty_N_char d) s.
Proof. apply pretty_N_go_head. lia. Qed.

Lemma Atoi_digit d s : (d < 10)%N →
  Atoi (String (pretty_N_char d) s) =
    match parse_digits (String (pretty_N_char d) s) 0 with
    | SyntaxError => 0%Z
    | RangeError => i64_max
    | ParsedInt n => if bool_decide (2 ^ 63 ≤ n)%Z then i64_max else n
    end.
Proof. intros H. destruct d as [|p]; [done|]. do 4 (destruct p as [p|p|]; try done; try lia). Qed.

Lemma Atoi_neg d s : (d < 10)%N →
  Atoi (String "-" (String (pretty_N_char d) s)) =
    match parse_digits (String (pretty_N_char d) s) 0 with
    | SyntaxError => 0%Z
    | RangeError => i64_min
    | ParsedInt n => if bool_decide (2 ^ 63 < n)%Z then i64_min else (- n)%Z
    end.
Proof. done. Qed.

(** [strconv.Atoi] reads back what [strconv.Itoa] writes, over all of [int64]. *)
Lemma Atoi_Itoa z : in_i64 z → Atoi (Itoa z) = z.
Proof.
  intros Hz. unfold in_i64, i64_min, i64_max in Hz. unfold Itoa.
  destruct z as [|p|p]; [done| |].
  - destruct (Itoa_head p) as (d & s & Hd & E). change (pretty (Zpos p)) with (pretty (Npos p)).
    rewrite E, Atoi_digit, <- E, parse_Itoa by (done || lia). by rewrite bool_decide_false by lia.
  - destruct (Itoa_head p) as (d & s & Hd & E).
    change (pretty (Zneg p)) with (String "-" (pretty (Npos p))).
    rewrite E, Atoi_neg, <- E, parse_Itoa by (done || lia). by rewrite bool_decide_false by lia.
Qed.

Lemma strip_prefix_app p s : FilepathFacts.strip_prefix p (p ++ s) = Some s.
Proof.
  induction p as [|c p IH]; [done|].
  rewrite FilepathFacts.append_cons. cbn [FilepathFacts.strip_prefix]. by rewrite AppIdFacts.same_refl.
Qed.

Lemma TrimPrefix_app p s : TrimPrefix (p ++ s) p = s.
Proof. unfold TrimPrefix. by rewrite strip_prefix_app. Qed.

Lemma length_stake n s : String.length (stake n s) = Nat.min n (String.length s).
Proof. revert s; induction n as [|n IH]; intros [|a s]; cbn; [done..|]. by rewrite IH. Qed.

Lemma rune_boundary_le s n : (rune_boundary s n ≤ n)%nat.
Proof. induction n as [|n IH]; cbn [rune_boundary]; [lia|]. repeat case_match; lia. Qed.

Lemma get_lt n s : (n < String.length s)%nat → ∃ a, String.get n s = Some a.
Proof.
  revert s; induction n as [|n IH]; intros [|a s]; cbn; try lia; [eauto|].
  intros H. apply IH. lia.
Qed.

Lemma rune_boundary_spec s n :
  let k := rune_boundary s n in
  (0 < k)%nat → (n < String.length s)%nat →
  (∃ a, String.get k s = Some a ∧ Utf8.RuneStart a = true) ∧
  (∀ i a, (k < i ≤ n)%nat → String.get i s = Some a → Utf8.RuneStart a = false).
Proof.
  induction n as [|n IH]; cbn [rune_boundary]; [lia|]. intros Hk Hn.
  destruct (get_lt (S n) s Hn) as [a Ha]. rewrite Ha in *.
  destruct (Utf8.RuneStart a) eqn:E; [split; [by exists a|intros; lia]|].
  destruct (IH ltac:(lia) ltac:(lia)) as [H1 H2]. split; [done|].
  intros i b Hi Hb. destruct (decide (i = S n)) as [->|]; [congruence|apply (H2 i); [lia|done]].
Qed.

(** [TruncateUtf8] never splits a rune: a string that fits is returned as it
    is; a longer one is cut at the last position not past the limit where a rune
    starts and "..." is appended, and is dropped when there is no such position
    but the beginning. *)
Theorem TruncateUtf8_cuts_at_rune (s : string) (maxLength : nat) :
  ((String.length s ≤ maxLength)%nat ∧ TruncateUtf8 s maxLength = s)
  ∨ TruncateUtf8 s maxLength = ""
  ∨ ∃ k a, (0 < k ≤ maxLength)%nat ∧ TruncateUtf8 s maxLength = stake k s ++ "..."
      ∧ String.length (stake k s) = k
      ∧ String.get k s = Some a ∧ Utf8.RuneStart a = true
      ∧ ∀ i b, (k < i ≤ maxLength)%nat → String.get i s = Some b → Utf8.RuneStart b = false.
Proof.
  unfold TruncateUtf8. case_bool_decide as Hl; [by left|right].
  pose proof (rune_boundary_spec s maxLength) as H.
  pose proof (rune_boundary_le s maxLength) as Hle. cbv zeta in H.
  destruct (rune_boundary s maxLength) as [|k] eqn:E; [by left|right].
  destruct (H ltac:(lia) ltac:(lia)) as [(a & Ha & Hr) Hb].
  exists (S k), a. split_and!; try done; try lia.
  rewrite length_stake. lia.
Qed.

End UtilsFacts.
