(* ===== verification/Json.v ===== *)
(** encoding/json, as far as the program depends on it: a value after parsing,
    and the decoding of a Go value from it.

    A number is the [float32] its text is read as ([strconv.ParseFloat] of 32
    bits), which also is what a [float32] that was written reads as; one out of
    range is infinite here and an error to decode, as in Go. *)

From S2P Require Export Float32 Utils.
From Stdlib Require Import Ascii String ZArith Lia.
Local Open Scope string_scope.
Local Set Warnings "-register-all".

Inductive json :=
| JNull
| JBool (b : bool)
| JNum (v : f32)
| JStr (s : string)
| JArr (l : list json)
| JObj (l : list (string * json)).

(** Decoding: [None] is an error. *)
Definition json_float (j : json) (old : f32) : option f32 :=
  match j with
  | JNull => Some old
  | JNum v => if IsInf v 0 then None else Some v
  | _ => None
  end.
Definition json_string (j : json) (old : string) : option string :=
  match j with JNull => Some old | JStr s => Some s | _ => None end.
Definition json_bool (j : json) (old : bool) : option bool :=
  match j with JNull => Some old | JBool b => Some b | _ => None end.

(** A slice: [null] makes it nil. *)
Definition json_list {A} (decode : json → option A) (j : json) : option (list A) :=
  match j with
  | JNull => Some []
  | JArr l => mapM decode l
  | _ => None
  end.

(** A struct: [field] decodes one member into the struct, keyed by the field's
    name; a name that is no field is ignored, and [null] changes nothing. *)
Definition json_struct {S} (field : string → json → S → option S) (zero : S) (j : json) : option S :=
  match j with
  | JNull => Some zero
  | JObj l => foldl (λ s '(k, v), match s with Some s => field k v s | None => None end) (Some zero) l
  | _ => None
  end.

(** A map: later members win; [null] makes it nil, which reads like an empty
    one. *)
Definition json_map (j : json) : option (gmap string json) :=
  match j with
  | JNull => Some ∅
  | JObj l => Some (foldl (λ m '(k, v), <[k := v]> m) ∅ l)
  | _ => None
  end.

(** Writing a map: its members in the order of their keys. *)
Definition json_of_map (m : gmap string json) : json :=
  JObj ((λ k, (k, default JNull (m !! k))) <$> StringSet.sort_strings (fst <$> map_to_list m)).

(** Struct fields are matched by name, then by name without regard to case. *)
Definition lower (a : ascii) : ascii :=
  let n := N_of_ascii a in if (65 <=? n)%N && (n <=? 90)%N then ascii_of_N (n + 32) else a.
Fixpoint ToLower (s : string) : string :=
  match s with EmptyString => EmptyString | String a s => String (lower a) (ToLower s) end.
Definition is_field (name key : string) : bool := String.eqb (ToLower key) name.

(** A written map reads back. *)
Lemma fold_insert_lookup (l : list (string * json)) (m : gmap string json) k :
  NoDup (fst <$> l) →
  foldl (λ m '(k, v), <[k := v]> m) m l !! k =
    match List.find (λ p, String.eqb (fst p) k) l with Some p => Some (snd p) | None => m !! k end.
Proof.
  revert m. induction l as [|[k' v] l IH]; intros m Hn; [done|]. cbn. apply NoDup_cons in Hn as [Hk Hn].
  rewrite IH by done. destruct (String.eqb_spec k' k) as [->|Hne]; [|destruct (List.find _ l); [done|by apply lookup_insert_ne]].
  destruct (List.find _ l) as [p|] eqn:E; [|apply lookup_insert_eq].
  apply List.find_some in E as [Hin Heq%String.eqb_eq]. exfalso. apply Hk, list_elem_of_fmap. exists p. split; [done|].
  by apply list_elem_of_In.
Qed.

Lemma json_map_of_map (m : gmap string json) : json_map (json_of_map m) = Some m.
Proof.
  unfold json_map, json_of_map. f_equal. apply map_eq. intros k.
  set (keys := StringSet.sort_strings (fst <$> map_to_list m)).
  assert (Hp : keys ≡ₚ fst <$> map_to_list m) by apply merge_sort_Permutation.
  assert (Hn : NoDup keys) by (rewrite Hp; apply NoDup_fst_map_to_list).
  rewrite fold_insert_lookup by (rewrite <- list_fmap_compose; cbn; by rewrite list_fmap_id).
  destruct (List.find _ _) as [p|] eqn:E.
  - apply List.find_some in E as [Hin Heq%String.eqb_eq]. apply list_elem_of_In, list_elem_of_fmap in Hin as (k' & -> & Hin).
    cbn in *. subst k'. rewrite Hp in Hin. apply list_elem_of_fmap in Hin as ([k' v] & -> & Hin%elem_of_map_to_list). cbn. by rewrite Hin.
  - rewrite lookup_empty. symmetry. apply eq_None_not_Some. intros [v Hv].
    eapply List.find_none in E; [|apply list_elem_of_In, list_elem_of_fmap; exists k; split; [done|]].
    + cbn in E. by rewrite String.eqb_refl in E.
    + rewrite Hp. apply list_elem_of_fmap. exists (k, v). split; [done|]. by apply elem_of_map_to_list.
Qed.
