(* ===== verification/Format.v ===== *)
(** utils/format.go: the texts of numbers, with what they use of fmt and
    strconv: [%.kf] of a float, and [ParseFloat] of a decimal numeral.

    A finite float is a dyadic rational, so its decimal expansion is exact and
    rounding it to [k] digits is integer arithmetic (half to even, as strconv
    rounds). *)

From S2P Require Export Json Utils.
From Stdlib Require Import Ascii String ZArith Lia.
Local Open Scope string_scope.
Local Open Scope Z_scope.

(** * fmt *)

(** [n / d] for [0 <= n], [0 < d], to the nearest integer, a half to even. *)
Definition round_half_even (n d : Z) : Z :=
  let q := n / d in
  let r := n mod d in
  if 2 * r <? d then q
  else if d <? 2 * r then q + 1
  else if Z.even q then q else q + 1.

(** [|x| * 10^k] rounded, for a finite [x] of mantissa [m] and exponent [e]. *)
Definition scaled (k : Z) (m : positive) (e : Z) : Z :=
  if 0 <=? e then Zpos m * 2 ^ e * 10 ^ k
  else round_half_even (Zpos m * 10 ^ k) (2 ^ (- e)).

(** [n] in decimal, over at least [width] digits. *)
Fixpoint zeros (width : nat) : string :=
  match width with O => "" | S width => "0" ++ zeros width end.
Definition padded (width : nat) (n : Z) : string :=
  let s := Itoa n in zeros (width - String.length s) ++ s.

(** The decimal expansion of [n / 10^k]. *)
Definition decimal (k : nat) (n : Z) : string :=
  let p := 10 ^ Z.of_nat k in
  Itoa (n / p) ++ (if Nat.eqb k 0 then "" else "." ++ padded k (n mod p)).

(** [fmt.Sprintf("%.<k>f", x)], with a [+] flag when [plus]. *)
Definition Sprintf_f (plus : bool) (k : nat) (x : f32) : string :=
  let sign s := if s : bool then "-" else if plus then "+" else "" in
  match x with
  | S754_nan => if plus then "+NaN" else "NaN"
  | S754_infinity s => if s then "-Inf" else "+Inf"
  | S754_zero s => sign s ++ decimal k 0
  | S754_finite s m e => sign s ++ decimal k (scaled (Z.of_nat k) m e)
  end.

(** [strings.TrimRight(s, c)] for a one-byte cutset. *)
Fixpoint TrimRight (s : string) (c : ascii) : string :=
  match s with
  | EmptyString => EmptyString
  | String a s =>
      let s := TrimRight s c in
      if String.eqb s "" && Ascii.eqb a c then "" else String a s
  end.

(** * utils/format.go *)

(** [float32] constants 0.1, 0.01, 0.0001. *)
Definition FormatFloat (v : f32) : string :=
  if IsNaN v then ""
  else if F32.eqb v F32.zero then "0"
  else if F32.geb v F32.one then Sprintf_f false 0 v
  else if F32.geb v (F32.frac 1 10) then Sprintf_f false 1 v
  else if F32.geb v (F32.frac 1 100) then Sprintf_f false 2 v
  else Sprintf_f false 3 v.

Definition FormatLatency (v : f32) : string :=
  if F32.ltb v (F32.frac 1 10000) then "<0.1ms"
  else if F32.ltb v F32.one then FormatFloat (F32.mul v (F32.of_Z 1000)) ++ "ms"
  else FormatFloat v ++ "s".

Definition FormatPercentage (v : f32) : string :=
  TrimRight (TrimRight (Sprintf_f false 2 v) "0") "." ++ "%".

(** [math.Abs(float64(v))] is exact. *)
Definition FormatMoney (v : f32) : string :=
  let s := if F32.gtb v F32.zero then "+" else if F32.ltb v F32.zero then "-" else "" in
  s ++ "$" ++ Sprintf_f false 2 (SFabs v).

(** * strconv: [ParseFloat(s, 32)], [None] for its errors

    The decimal form: digits with at most one point, and an exponent. *)

(** The digits from [s] on: mantissa, number of digits seen, digits after the
    point, and the rest. *)
Fixpoint read_digits (s : string) (point : bool) (mant : Z) (seen frac : nat) : Z * nat * nat * string :=
  match s with
  | EmptyString => (mant, seen, frac, "")
  | String a s' =>
      match digit_value a with
      | Some d => read_digits s' point (mant * 10 + d) (S seen) (if point then S frac else frac)
      | None =>
          if Ascii.eqb a "." && negb point then read_digits s' true mant seen frac
          else (mant, seen, frac, s)
      end
  end.

(** [e[+-]digits]; an exponent beyond 10000 counts as 10000 or more. *)
Definition read_exponent (s : string) : option Z :=
  match s with
  | EmptyString => Some 0
  | String a s' =>
      if Ascii.eqb a "e" || Ascii.eqb a "E" then
        let '(neg, ds) := match s' with
                          | String "-" t => (true, t)
                          | String "+" t => (false, t)
                          | t => (false, t)
                          end in
        let '(n, seen, _, rest) := read_digits ds true 0 0 0 in
        if Nat.eqb seen 0 || negb (String.eqb rest "") then None
        else Some (if neg then - Z.min n 20000 else Z.min n 20000)
      else None
  end.

(** The float nearest to [mant * 10^e10]. *)
Definition of_decimal (neg : bool) (mant e10 : Z) : f32 :=
  match mant with
  | Zpos m =>
      if 0 <=? e10 then let x := binary_normalize 24 128 (mant * 10 ^ e10) 0 false in if neg then SFopp x else x
      else let '(q, e, l) := SFdiv_core_binary 24 128 mant 0 (10 ^ (- e10)) 0 in binary_round_aux 24 128 neg q e l
  | _ => S754_zero neg
  end.

Definition ParseFloat (s : string) : option f32 :=
  let '(signed, neg, s) := match s with
                           | String "-" t => (true, true, t)
                           | String "+" t => (true, false, t)
                           | t => (false, false, t)
                           end in
  let l := ToLower s in
  if String.eqb l "inf" || String.eqb l "infinity" then Some (S754_infinity neg)
  else if String.eqb l "nan" && negb signed then Some S754_nan
  else
    let '(mant, seen, frac, rest) := read_digits s false 0 0 0 in
    if Nat.eqb seen 0 then None
    else match read_exponent rest with
         | None => None
         | Some e =>
             let x := of_decimal neg mant (e - Z.of_nat frac) in
             if IsInf x 0 then None else Some x
         end.

Example sprintf1 : Sprintf_f false 3 (F32.frac 5 1000) = "0.005" ∧ Sprintf_f true 0 (F32.frac (-5) 2) = "-2"
  ∧ Sprintf_f true 0 (F32.frac 7 2) = "+4" ∧ Sprintf_f false 2 (F32.of_Z 0) = "0.00" ∧ Sprintf_f false 3 (S754_infinity false) = "+Inf".
Proof. repeat split. Qed.
Example format1 : FormatPercentage (F32.frac 995 10) = "99.5%" ∧ FormatPercentage (F32.of_Z 100) = "100%" ∧ FormatLatency (F32.frac 5 100) = "50ms"
  ∧ FormatMoney (F32.frac (-5) 4) = "-$1.25".
Proof. repeat split. Qed.
Example parse1 : ParseFloat "0.005" = Some (F32.frac 5 1000) ∧ ParseFloat "-2.5e1" = Some (F32.of_Z (-25)) ∧ ParseFloat "1.5x" = None
  ∧ ParseFloat "3e38" = Some (of_decimal false 3 38) ∧ ParseFloat "4e38" = None ∧ ParseFloat "+Inf" = Some (S754_infinity false)
  ∧ ParseFloat "." = None.
Proof. repeat split; vm_compute; reflexivity. Qed.
