(* ===== verification/Model.v ===== *)
(** The data the watchers work on (model/): statuses and severities, alerting
    rules and their selectors, alerts, checks, log patterns, applications and
    the world.

    Third-party code is a parameter: the log-pattern library (class
    [LogParser]) and the text/template engine (class [TextTemplate]).  A Go map
    the code ranges over is a list of its entries in the order one run of the
    loop visits them, so a theorem about every list is about every order. *)

From S2P Require Export Json Utils TimeSeries.
From Stdlib Require Import Ascii String ZArith Lia.
Local Open Scope string_scope.
Local Open Scope Z_scope.

(** * model/status.go *)
Module Status.
Definition UNKNOWN : Z := 0.
Definition OK : Z := 1.
Definition INFO : Z := 2.
Definition WARNING : Z := 3.
Definition CRITICAL : Z := 4.

(** [Status.String] *)
Definition ToString (s : Z) : string :=
  if s =? OK then "ok"
  else if s =? INFO then "info"
  else if s =? WARNING then "warning"
  else if s =? CRITICAL then "critical"
  else "unknown".

(** [Status.UnmarshalJSON] of the JSON string [str]. *)
Definition UnmarshalJSON (str : string) : Z :=
  if String.eqb str "ok" then OK
  else if String.eqb str "info" then INFO
  else if String.eqb str "warning" then WARNING
  else if String.eqb str "critical" then CRITICAL
  else UNKNOWN.

(** db/alert.go: [parseSeverity] *)
Definition parseSeverity (s : string) : Z :=
  if String.eqb s "warning" then WARNING
  else if String.eqb s "critical" then CRITICAL
  else UNKNOWN.
End Status.

(** * model/severity.go *)
Module Severity.
Definition SeverityUnknown : Z := 0.
Definition SeverityTrace : Z := 1.
Definition SeverityDebug : Z := 2.
Definition SeverityInfo : Z := 3.
Definition SeverityWarning : Z := 4.
Definition SeverityError : Z := 5.
Definition SeverityFatal : Z := 6.

(** [Severity.String] *)
Definition ToString (s : Z) : string :=
  if s =? SeverityUnknown then "unknown"
  else if s =? SeverityTrace then "trace"
  else if s =? SeverityDebug then "debug"
  else if s =? SeverityInfo then "info"
  else if s =? SeverityWarning then "warning"
  else if s =? SeverityError then "error"
  else if s =? SeverityFatal then "fatal"
  else ("severity-" ++ Itoa s)%string.

(** The OpenTelemetry severity numbers of a level. *)
Definition Range (s : Z) : Z * Z :=
  if s =? SeverityUnknown then (0, 0)
  else if s =? SeverityTrace then (1, 4)
  else if s =? SeverityDebug then (5, 8)
  else if s =? SeverityInfo then (9, 12)
  else if s =? SeverityWarning then (13, 16)
  else if s =? SeverityError then (17, 20)
  else if s =? SeverityFatal then (21, 24)
  else (s, s).

Definition SeverityFromString (s : string) : Z :=
  if String.eqb s "unknown" then SeverityUnknown
  else if String.eqb s "trace" then SeverityTrace
  else if String.eqb s "debug" then SeverityDebug
  else if String.eqb s "info" then SeverityInfo
  else if String.eqb s "warn" || String.eqb s "warning" then SeverityWarning
  else if String.eqb s "error" then SeverityError
  else if String.eqb s "fatal" || String.eqb s "critical" then SeverityFatal
  else Atoi (TrimPrefix s "severity-").
End Severity.

(** * model/application_category.go *)
Definition ApplicationCategoryApplication : string := "application".
Definition ApplicationCategoryControlPlane : string := "control-plane".
Definition ApplicationCategoryMonitoring : string := "monitoring".

Definition Auxiliary (c : string) : bool :=
  String.eqb c ApplicationCategoryMonitoring || String.eqb c ApplicationCategoryControlPlane.

(** * model/audit_report.go: the report names the code tests for *)
Definition AuditReportSLO : string := "SLO".
Definition AuditReportLogs : string := "Logs".

(** * model/alerting_rule.go

    A source holds the settings of its type; the code reads only the pointer
    that the type selects. *)
Record LogPatternSource := {
  lps_Severities : list string;
  lps_MinCount : Z;
  lps_MaxAlertsPerApp : Z;
  lps_EvaluateWithAI : bool
}.
Record KubernetesEventsSource := {
  kes_MinCount : Z;
  kes_MaxAlertsPerApp : Z;
  kes_EvaluateWithAI : bool
}.

Record AlertSource := {
  src_Type : string;
  src_Check : option string;
  src_LogPattern : option LogPatternSource;
  src_PromQL : option string;
  src_KubernetesEvents : option KubernetesEventsSource
}.
Definition AlertSourceTypeCheck : string := "check".
Definition AlertSourceTypeLogPatterns : string := "log_patterns".
Definition AlertSourceTypePromQL : string := "promql".
Definition AlertSourceTypeKubernetesEvents : string := "kubernetes_events".

Record AppSelector := {
  sel_Type : string;
  sel_Categories : list string;
  sel_ApplicationIdPatterns : list string
}.
Definition AppSelectorTypeAll : string := "all".
Definition AppSelectorTypeCategory : string := "category".
Definition AppSelectorTypeApplications : string := "applications".

Record AlertTemplates := { tpl_Summary : string; tpl_Description : string }.

Record AlertingRule := {
  rule_Id : string;
  rule_ProjectId : string;
  rule_Name : string;
  rule_Source : AlertSource;
  rule_Selector : AppSelector;
  rule_Severity : Z;
  rule_For : Z;
  rule_KeepFiringFor : Z;
  rule_Templates : AlertTemplates;
  rule_NotificationCategory : string;
  rule_Enabled : bool;
  rule_Readonly : bool;
  rule_Builtin : bool;
  rule_CreatedAt : Z;
  rule_UpdatedAt : Z
}.

(** The selector test the two [Matches] methods share, on a category and an id. *)
Definition selector_matches (sel : AppSelector) (category : string) (id : ApplicationId) : bool :=
  if String.eqb (sel_Type sel) AppSelectorTypeAll then true
  else if String.eqb (sel_Type sel) AppSelectorTypeCategory then
    existsb (String.eqb category) (sel_Categories sel)
  else if String.eqb (sel_Type sel) AppSelectorTypeApplications then
    GlobMatch (StringWithoutClusterId id) (sel_ApplicationIdPatterns sel)
  else false.

(** * model/alert.go *)
Record AlertDetail := { ad_Name : string; ad_Value : string; ad_Code : bool }.

Record Alert := {
  a_Id : string;
  a_Fingerprint : string;
  a_RuleId : string;
  a_ProjectId : string;
  a_ApplicationId : ApplicationId;
  a_ApplicationCategory : string;
  a_Severity : Z;
  a_Summary : string;
  a_Details : list AlertDetail;
  a_OpenedAt : Z;
  a_ResolvedAt : Z;
  a_ManuallyResolvedAt : Z;
  a_UpdatedAt : Z;
  a_Suppressed : bool;
  a_ResolvedBy : string;
  a_Report : string;
  a_PatternWords : string
}.

#[export] Instance AlertDetail_eq_dec : EqDecision AlertDetail.
Proof. solve_decision. Defined.
#[export] Instance Alert_eq_dec : EqDecision Alert.
Proof. solve_decision. Defined.

Definition IsFiring (a : Alert) : bool := a_ResolvedAt a =? 0.

Definition MatchesAlert (r : AlertingRule) (a : Alert) : bool :=
  selector_matches (rule_Selector r) (a_ApplicationCategory a) (a_ApplicationId a).

(** Assignments to fields of an alert the code holds a pointer to. *)
Definition alert_set_resolved (t : Z) (a : Alert) : Alert :=
  {| a_Id := a_Id a; a_Fingerprint := a_Fingerprint a; a_RuleId := a_RuleId a; a_ProjectId := a_ProjectId a;
     a_ApplicationId := a_ApplicationId a; a_ApplicationCategory := a_ApplicationCategory a;
     a_Severity := a_Severity a; a_Summary := a_Summary a; a_Details := a_Details a;
     a_OpenedAt := a_OpenedAt a; a_ResolvedAt := t; a_ManuallyResolvedAt := a_ManuallyResolvedAt a;
     a_UpdatedAt := a_UpdatedAt a; a_Suppressed := a_Suppressed a; a_ResolvedBy := a_ResolvedBy a;
     a_Report := a_Report a; a_PatternWords := a_PatternWords a |}.
Definition alert_set_content (sev : Z) (summary : string) (details : list AlertDetail) (a : Alert) : Alert :=
  {| a_Id := a_Id a; a_Fingerprint := a_Fingerprint a; a_RuleId := a_RuleId a; a_ProjectId := a_ProjectId a;
     a_ApplicationId := a_ApplicationId a; a_ApplicationCategory := a_ApplicationCategory a;
     a_Severity := sev; a_Summary := summary; a_Details := details;
     a_OpenedAt := a_OpenedAt a; a_ResolvedAt := a_ResolvedAt a; a_ManuallyResolvedAt := a_ManuallyResolvedAt a;
     a_UpdatedAt := a_UpdatedAt a; a_Suppressed := a_Suppressed a; a_ResolvedBy := a_ResolvedBy a;
     a_Report := a_Report a; a_PatternWords := a_PatternWords a |}.
Definition alert_set_times (opened updated : Z) (a : Alert) : Alert :=
  {| a_Id := a_Id a; a_Fingerprint := a_Fingerprint a; a_RuleId := a_RuleId a; a_ProjectId := a_ProjectId a;
     a_ApplicationId := a_ApplicationId a; a_ApplicationCategory := a_ApplicationCategory a;
     a_Severity := a_Severity a; a_Summary := a_Summary a; a_Details := a_Details a;
     a_OpenedAt := opened; a_ResolvedAt := a_ResolvedAt a; a_ManuallyResolvedAt := a_ManuallyResolvedAt a;
     a_UpdatedAt := updated; a_Suppressed := a_Suppressed a; a_ResolvedBy := a_ResolvedBy a;
     a_Report := a_Report a; a_PatternWords := a_PatternWords a |}.
Definition alert_set_resolved_by (by_ : string) (a : Alert) : Alert :=
  {| a_Id := a_Id a; a_Fingerprint := a_Fingerprint a; a_RuleId := a_RuleId a; a_ProjectId := a_ProjectId a;
     a_ApplicationId := a_ApplicationId a; a_ApplicationCategory := a_ApplicationCategory a;
     a_Severity := a_Severity a; a_Summary := a_Summary a; a_Details := a_Details a;
     a_OpenedAt := a_OpenedAt a; a_ResolvedAt := a_ResolvedAt a; a_ManuallyResolvedAt := a_ManuallyResolvedAt a;
     a_UpdatedAt := a_UpdatedAt a; a_Suppressed := a_Suppressed a; a_ResolvedBy := by_;
     a_Report := a_Report a; a_PatternWords := a_PatternWords a |}.

(** * model/check.go *)
Inductive CheckType := CheckTypeEventBased | CheckTypeItemBased | CheckTypeValueBased | CheckTypeManual.

Record Check_ := {
  ch_Id : string;
  ch_Title : string;
  ch_Status : Z;
  ch_Message : string;
  ch_Threshold : f32;
  ch_Unit : string;
  ch_Details : option StringSet.t;
  ch_typ : CheckType;
  ch_messageTemplate : string;
  ch_items : StringSet.t;
  ch_count : Z;
  ch_value : f32;
  ch_fired : bool
}.

(** The data a template is executed on: the map of an alert template, or the
    [CheckContext] of a check's message. *)
Inductive tvalue :=
| TString (s : string)
| TFloat (v : f32)
| TLabels (l : list (string * string)).

Inductive tdata :=
| TMap (m : list (string * tvalue))
| TCheckContext (items : StringSet.t) (count : Z) (value : f32) (unit_ : string) (threshold : f32).

(** text/template: [Parse] and [Execute], with the text of their errors. *)
Class TextTemplate := {
  Template : Type;
  template_Parse : string → string + Template;
  template_Execute : Template → tdata → string + string
}.

(** github.com/coroot/logparser: [Pattern], its [String] and [WeakEqual], and
    [NewPatternFromWords]. *)
Class LogParser := {
  Pattern : Type;
  PatternString : Pattern → string;
  WeakEqual : Pattern → Pattern → bool;
  NewPatternFromWords : string → Pattern
}.

Definition ch_SetStatus (status : Z) (message : string) (ch : Check_) : Check_ :=
  {| ch_Id := ch_Id ch; ch_Title := ch_Title ch; ch_Status := status; ch_Message := message;
     ch_Threshold := ch_Threshold ch; ch_Unit := ch_Unit ch; ch_Details := ch_Details ch;
     ch_typ := ch_typ ch; ch_messageTemplate := ch_messageTemplate ch; ch_items := ch_items ch;
     ch_count := ch_count ch; ch_value := ch_value ch; ch_fired := ch_fired ch |}.

(** The condition of [Check.Calc]'s [switch]. *)
Definition ch_violated (ch : Check_) : bool :=
  match ch_typ ch with
  | CheckTypeEventBased => negb (ch_count ch <=? F32.to_i64 (ch_Threshold ch))
  | CheckTypeItemBased => negb (bool_decide (StringSet.Len (Some (ch_items ch)) = 0%nat))
  | CheckTypeValueBased => negb (F32.leb (ch_value ch) (ch_Threshold ch))
  | CheckTypeManual => ch_fired ch
  end.

Section check.
Context `{TextTemplate}.

Definition ch_Calc (ch : Check_) : Check_ :=
  if ch_violated ch then
    match template_Parse (ch_messageTemplate ch) with
    | inl err => ch_SetStatus Status.UNKNOWN ("invalid template: " ++ err) ch
    | inr t =>
        match template_Execute t
                (TCheckContext (ch_items ch) (ch_count ch) (ch_value ch) (ch_Unit ch) (ch_Threshold ch)) with
        | inl err => ch_SetStatus Status.UNKNOWN ("failed to render message: " ++ err) ch
        | inr msg => ch_SetStatus Status.WARNING msg ch
        end
    end
  else ch.
End check.

Record AuditReport := { rep_Name : string; rep_Status : Z; rep_Checks : list Check_ }.

(** * model/sli.go *)
Record AvailabilitySLI := {
  as_ObjectivePercentage : f32;
  as_TotalRequests : option TimeSeries;
  as_FailedRequests : option TimeSeries;
  as_TotalRequestsRaw : option TimeSeries;
  as_FailedRequestsRaw : option TimeSeries
}.
Record HistogramBucket := { hb_Le : f32; hb_TimeSeries : option TimeSeries }.
Record LatencySLI := {
  ls_ObjectiveBucket : f32;
  ls_ObjectivePercentage : f32;
  ls_Histogram : list HistogramBucket;
  ls_HistogramRaw : list HistogramBucket
}.

Definition GetTotalAndFast (sli : LatencySLI) (raw : bool) : option TimeSeries * option TimeSeries :=
  let histogram := if raw then ls_HistogramRaw sli else ls_Histogram sli in
  foldl (λ '(total, fast) b,
      let fast := if F32.leb (hb_Le b) (ls_ObjectiveBucket sli) then hb_TimeSeries b else fast in
      let total := if IsInf (hb_Le b) 1 then hb_TimeSeries b else total in
      (total, fast))
    (None, None) histogram.

Definition DefaultHistogramBuckets : list f32 :=
  [F32.frac 5 1000; F32.frac 10 1000; F32.frac 25 1000; F32.frac 50 1000; F32.frac 100 1000;
   F32.frac 250 1000; F32.frac 500 1000; F32.of_Z 1; F32.frac 25 10; F32.of_Z 5; F32.of_Z 10].

Definition RoundUpToDefaultBucket (threshold : f32) : f32 :=
  default threshold (List.find (λ b, F32.geb b threshold) DefaultHistogramBuckets).

(** * model/application_deployment.go *)
Definition ApplicationDeploymentMetricsSnapshotShift : Z := 10 * Time.Minute.
Definition ApplicationDeploymentMetricsSnapshotWindow : Z := 20 * Time.Minute.
Definition significantPercentageDifference : f32 := F32.of_Z 5.

Definition ApplicationDeploymentStateStarted : Z := 0.
Definition ApplicationDeploymentStateInProgress : Z := 1.
Definition ApplicationDeploymentStateStuck : Z := 2.
Definition ApplicationDeploymentStateCancelled : Z := 3.
Definition ApplicationDeploymentStateDeployed : Z := 4.
Definition ApplicationDeploymentStateSummary : Z := 5.

Record MetricsSnapshot := {
  ms_Timestamp : Z;
  ms_Duration : Z;
  ms_Requests : Z;
  ms_Errors : Z;
  ms_Latency : gmap string Z;
  ms_Restarts : Z;
  ms_CPUUsage : f32;
  ms_MemoryLeakPercent : f32;
  ms_MemoryUsage : Z;
  ms_OOMKills : Z;
  ms_LogErrors : Z;
  ms_LogWarnings : Z
}.

(** The state overall and that of each destination. *)
Record ApplicationDeploymentNotifications := {
  dn_State : Z;
  dn_SlackState : Z;
  dn_SlackChannel : string;
  dn_SlackThreadTs : string;
  dn_TeamsState : Z;
  dn_WebhookState : Z
}.

(** [Details] holds the container images. *)
Record ApplicationDeployment := {
  dep_ApplicationId : ApplicationId;
  dep_Name : string;
  dep_StartedAt : Z;
  dep_FinishedAt : Z;
  dep_Details : option (list string);
  dep_MetricsSnapshot : option MetricsSnapshot;
  dep_Notifications : option ApplicationDeploymentNotifications
}.

(** * model/log.go, model/instance.go, model/application.go, model/world.go

    The fields the modelled code reads. *)
Section app.
Context `{LogParser}.

Record LogPattern := {
  lp_Pattern : option Pattern;
  lp_Sample : string;
  lp_Multiline : bool;
  lp_Messages : option TimeSeries;
  lp_SimilarPatternHashes : option StringSet.t
}.
Record LogMessages := {
  lm_Messages : option TimeSeries;
  lm_Patterns : list (string * option LogPattern)
}.

Record Pod := { pod_Phase : string; pod_ReplicaSet : string; pod_LifeSpan : option TimeSeries }.
Definition pod_IsObsolete (p : Pod) : bool := String.eqb (pod_Phase p) "".
Record Container := {
  c_Image : string;
  c_CpuUsage : option TimeSeries;
  c_MemoryRss : option TimeSeries;
  c_MemoryLimit : option TimeSeries;
  c_Restarts : option TimeSeries;
  c_OOMKills : option TimeSeries
}.
Record NodePrice := { np_PerCPUCore : f32; np_PerMemoryByte : f32 }.

(** model/connection.go.  The application of the remote instance, when there is
    one, is its id and category: the world holds one application of an id. *)
Record RemoteApp := { ra_Id : ApplicationId; ra_Category : string }.
Record Connection := {
  con_ActualRemotePort : string;
  con_ActualRemoteIP : string;
  con_ServiceRemoteIP : string;
  con_ServiceRemotePort : string;
  con_RemoteApplication : option RemoteApp;
  con_Rtt : option TimeSeries;
  con_SuccessfulConnections : option TimeSeries;
  con_Active : option TimeSeries;
  con_FailedConnections : option TimeSeries;
  con_ConnectionTime : option TimeSeries;
  con_BytesSent : option TimeSeries;
  con_BytesReceived : option TimeSeries;
  con_Retransmissions : option TimeSeries;
  con_RequestsCount : list (string * list (string * option TimeSeries));
  con_RequestsLatency : list (string * option TimeSeries);
  con_RequestsHistogram : list (string * list (f32 * option TimeSeries))
}.

(** model/traffic.go, and [DNSRequest] of model/container.go *)
Record TrafficStats := {
  tr_InternetEgress : option TimeSeries;
  tr_CrossAZEgress : option TimeSeries;
  tr_CrossAZIngress : option TimeSeries
}.
Definition no_traffic : TrafficStats := {| tr_InternetEgress := None; tr_CrossAZEgress := None; tr_CrossAZIngress := None |}.
Record DNSRequest := { dns_Type : string; dns_Domain : string }.

(** model/annotations.go: the last values of the annotations. *)
Definition ApplicationAnnotations : Type := list (string * string).
Definition annotation (aas : ApplicationAnnotations) (aa : string) : option string :=
  snd <$> List.find (λ kv, String.eqb (fst kv) aa) aas.

(** [inst_NodePrice] is that of the instance's node, when it has one with a
    price. *)
Record Instance_ := {
  inst_Name : string;
  inst_Pod : option Pod;
  inst_Containers : list (string * Container);
  inst_NodePrice : option NodePrice;
  inst_ClusterComponent : option ApplicationId;
  inst_Upstreams : list Connection;
  inst_Annotations : ApplicationAnnotations
}.
Definition inst_IsObsolete (i : Instance_) : bool :=
  match inst_Pod i with Some p => pod_IsObsolete p | None => false end.
Definition inst_IsPod (i : Instance_) : bool := match inst_Pod i with Some _ => true | None => false end.

Record Application := {
  app_Id : ApplicationId;
  app_Category : string;
  app_Instances : list Instance_;
  app_LogMessages : list (Z * option LogMessages);
  app_Reports : list AuditReport;
  app_AvailabilitySLIs : list AvailabilitySLI;
  app_LatencySLIs : list LatencySLI;
  app_Deployments : list ApplicationDeployment;
  app_Annotations : ApplicationAnnotations;
  app_TrafficStats : TrafficStats;
  app_DNSRequests : list (DNSRequest * list (string * option TimeSeries));
  app_DNSRequestsHistogram : list (f32 * option TimeSeries);
  app_InboundRequestsCount : list (string * option TimeSeries);
  app_InboundRequestsHistogram : list (f32 * option TimeSeries)
}.

(** [Application.GetAnnotation] *)
Definition GetAnnotation (app : Application) (aa : string) : string :=
  match annotation (app_Annotations app) aa with
  | Some v => v
  | None =>
      let live := List.filter (λ i, negb (inst_IsObsolete i)) (app_Instances app) in
      match omap (λ i, annotation (inst_Annotations i) aa) live with
      | [] => ""
      | values => StringSet.GetFirst (Some (StringSet.Add values (StringSet.NewStringSet [])))
      end
  end.

(** model/check.go: the settings of the checks of each application, as JSON. *)
Definition CheckConfigs : Type := list (ApplicationId * gmap string json).

Record World := {
  w_Ctx : Context;
  w_CheckConfigs : CheckConfigs;
  w_Applications : list Application
}.

(** A loop over [w.Applications], a map, visits them in any order ([range] of
    Db).  [w.Applications[id]]; [GetOrCreateApplication] stores an application under
    its own id. *)
Definition GetApplication (w : World) (id : ApplicationId) : option Application :=
  List.find (λ a, bool_decide (app_Id a = id)) (w_Applications w).

Definition Matches (r : AlertingRule) (app : Application) : bool :=
  selector_matches (rule_Selector r) (app_Category app) (app_Id app).

Definition GetCheckWithReport (app : Application) (checkId : string) : option (Check_ * string) :=
  let fix reports (rs : list AuditReport) :=
    match rs with
    | [] => None
    | r :: rs =>
        match List.find (λ ch, String.eqb (ch_Id ch) checkId) (rep_Checks r) with
        | Some ch => Some (ch, rep_Name r)
        | None => reports rs
        end
    end in
  reports (app_Reports app).

End app.

(** * Facts *)
Module ModelFacts.

(** A status written as JSON and read back is itself for each of the five
    statuses, and any other number reads back as [UNKNOWN]; the text stored in
    the alert table keeps only warnings and criticals. *)
Theorem Status_roundtrip (s : Z) :
  Status.UnmarshalJSON (Status.ToString s) = (if (1 <=? s) && (s <=? 4) then s else Status.UNKNOWN)
  ∧ Status.parseSeverity (Status.ToString s) = (if (3 <=? s) && (s <=? 4) then s else Status.UNKNOWN).
Proof.
  unfold Status.ToString. unfold Status.OK, Status.INFO, Status.WARNING, Status.CRITICAL.
  destruct (Z.eqb_spec s 1) as [->|]; [done|].
  destruct (Z.eqb_spec s 2) as [->|]; [done|].
  destruct (Z.eqb_spec s 3) as [->|]; [done|].
  destruct (Z.eqb_spec s 4) as [->|]; [done|].
  split; case_match eqn:E; try done; apply andb_true_iff in E; lia.
Qed.

(** A log severity written as text and read back is itself, for every 64-bit
    level, the named ones and the numbered ones; and the OpenTelemetry numbers
    1 to 24 belong to exactly one named level each. *)
Theorem Severity_roundtrip (s : Z) (Hs : in_i64 s) :
  Severity.SeverityFromString (Severity.ToString s) = s
  ∧ ∀ n, 1 ≤ n ≤ 24 →
      exists! l, 1 ≤ l ≤ 6 ∧ (Severity.Range l).1 ≤ n ≤ (Severity.Range l).2.
Proof.
  split.
  - unfold Severity.ToString, Severity.SeverityUnknown, Severity.SeverityTrace, Severity.SeverityDebug,
      Severity.SeverityInfo, Severity.SeverityWarning, Severity.SeverityError, Severity.SeverityFatal.
    repeat match goal with |- context [s =? ?k] => destruct (Z.eqb_spec s k) as [->|]; [done|] end.
    transitivity (Atoi (TrimPrefix ("severity-" ++ Itoa s) "severity-")); [done|].
    by rewrite UtilsFacts.TrimPrefix_app, UtilsFacts.Atoi_Itoa.
  - intros n Hn.
    assert (∃ l, 4 * l ≤ n + 3 < 4 * l + 4) as [l Hl]
      by (exists ((n + 3) / 4); Z.to_euclidean_division_equations; lia).
    exists l. split.
    + assert (l = 1 ∨ l = 2 ∨ l = 3 ∨ l = 4 ∨ l = 5 ∨ l = 6) as Hc by lia.
      destruct_or! Hc; subst l; cbn; lia.
    + intros k [Hk Hr]. assert (k = 1 ∨ k = 2 ∨ k = 3 ∨ k = 4 ∨ k = 5 ∨ k = 6) as Hc by lia.
      destruct_or! Hc; subst k; cbn in Hr; lia.
Qed.

Lemma Severity_roundtrip_witness : Severity.SeverityFromString (Severity.ToString 42) = 42.
Proof. apply (Severity_roundtrip 42). vm_compute. split; discriminate. Defined.

End ModelFacts.
