(* ===== verification/Fingerprint.v ===== *)
(** Alert fingerprints (watchers/alerts.go: [calcFingerprint]), with the
    SHA-256 of crypto/sha256 (FIPS 180-4) executable, so that a fingerprint can
    be computed. *)

From S2P Require Export Utils.
From Stdlib Require Import Ascii String NArith Lia.
Local Open Scope string_scope.

(** * crypto/sha256 *)
Module Sha256.
Local Open Scope N_scope.

Definition w32 (x : N) : N := N.land x 4294967295.
Definition add32 (x y : N) : N := w32 (x + y).
Definition rotr (k x : N) : N := N.lor (N.shiftr x k) (w32 (N.shiftl x (32 - k))).

Definition K : list N :=
  [1116352408; 1899447441; 3049323471; 3921009573; 961987163; 1508970993; 2453635748; 2870763221;
   3624381080; 310598401; 607225278; 1426881987; 1925078388; 2162078206; 2614888103; 3248222580;
   3835390401; 4022224774; 264347078; 604807628; 770255983; 1249150122; 1555081692; 1996064986;
   2554220882; 2821834349; 2952996808; 3210313671; 3336571891; 3584528711; 113926993; 338241895;
   666307205; 773529912; 1294757372; 1396182291; 1695183700; 1986661051; 2177026350; 2456956037;
   2730485921; 2820302411; 3259730800; 3345764771; 3516065817; 3600352804; 4094571909; 275423344;
   430227734; 506948616; 659060556; 883997877; 958139571; 1322822218; 1537002063; 1747873779;
   1955562222; 2024104815; 2227730452; 2361852424; 2428436474; 2756734187; 3204031479; 3329325298].

Definition H0 : list N :=
  [1779033703; 3144134277; 1013904242; 2773480762; 1359893119; 2600822924; 528734635; 1541459225].

Definition sigma0 (x : N) : N := N.lxor (rotr 7 x) (N.lxor (rotr 18 x) (N.shiftr x 3)).
Definition sigma1 (x : N) : N := N.lxor (rotr 17 x) (N.lxor (rotr 19 x) (N.shiftr x 10)).
Definition Sigma0 (x : N) : N := N.lxor (rotr 2 x) (N.lxor (rotr 13 x) (rotr 22 x)).
Definition Sigma1 (x : N) : N := N.lxor (rotr 6 x) (N.lxor (rotr 11 x) (rotr 25 x)).
Definition Ch (x y z : N) : N := N.lxor (N.land x y) (N.land (N.lxor x 4294967295) z).
Definition Maj (x y z : N) : N := N.lxor (N.land x y) (N.lxor (N.land x z) (N.land y z)).

(** Big-endian words of a block. *)
Fixpoint words (bs : list N) : list N :=
  match bs with
  | a :: b :: c :: d :: bs => (((a * 256 + b) * 256 + c) * 256 + d) :: words bs
  | _ => []
  end.

(** The message schedule, most recent word first. *)
Fixpoint schedule (n : nat) (ws : list N) : list N :=
  match n with
  | O => ws
  | S n =>
      let w := add32 (add32 (sigma1 (nth 1 ws 0)) (nth 6 ws 0)) (add32 (sigma0 (nth 14 ws 0)) (nth 15 ws 0)) in
      schedule n (w :: ws)
  end.

Definition round (st : list N) (kw : N * N) : list N :=
  match st with
  | [a; b; c; d; e; f; g; h] =>
      let t1 := add32 (add32 h (Sigma1 e)) (add32 (Ch e f g) (add32 (fst kw) (snd kw))) in
      let t2 := add32 (Sigma0 a) (Maj a b c) in
      [add32 t1 t2; a; b; c; add32 d t1; e; f; g]
  | _ => st
  end.

Definition compress (h : list N) (block : list N) : list N :=
  let ws := reverse (schedule 48 (reverse (words block))) in
  zip_with add32 h (foldl round h (zip K ws)).

Fixpoint blocks (fuel : nat) (bs : list N) (h : list N) : list N :=
  match fuel with
  | O => h
  | S fuel => blocks fuel (drop 64 bs) (compress h (take 64 bs))
  end.

(** [n] as [k] big-endian bytes. *)
Fixpoint be_bytes (k : nat) (n : N) : list N :=
  match k with
  | O => []
  | S k => (be_bytes k (n / 256) ++ [n mod 256])%list
  end.

Definition pad (bs : list N) : list N :=
  let n := List.length bs in
  (bs ++ [128%N] ++ replicate ((119 - n mod 64) mod 64) 0%N ++ be_bytes 8 (8 * N.of_nat n))%list.

Fixpoint bytes (s : string) : list N :=
  match s with EmptyString => [] | String a s => N_of_ascii a :: bytes s end.

(** [sha256.New(); h.Write(...); h.Sum(nil)] on the concatenation of what was
    written. *)
Definition Sum (s : string) : list N :=
  let bs := pad (bytes s) in
  flat_map (be_bytes 4) (blocks (List.length bs / 64) bs H0).

End Sha256.

(** [hex.EncodeToString] *)
Definition hex_char (n : N) : ascii := ascii_of_N (if (n <? 10)%N then 48 + n else 87 + n)%N.
Fixpoint hex_encode (bs : list N) : string :=
  match bs with
  | [] => ""
  | b :: bs => String (hex_char (b / 16)%N) (String (hex_char (b mod 16)%N) (hex_encode bs))
  end.

Example sha_abc :
  hex_encode (Sha256.Sum "abc") = "ba7816bf8f01cfea414140de5dae2223b00361a396177a9cb410ff61f20015ad".
Proof. vm_compute. reflexivity. Qed.
Example sha_empty :
  hex_encode (Sha256.Sum "") = "e3b0c44298fc1c149afbf4c8996fb92427ae41e4649b934ca495991b7852b855".
Proof. vm_compute. reflexivity. Qed.
Example sha_two_blocks :
  hex_encode (Sha256.Sum "abcdbcdecdefdefgefghfghighijhijkijkljklmklmnlmnomnopnopq")
  = "248d6a61d20638b8e5c026930c3e6039a33ce45964ff2167f6ecedd419db06c1".
Proof. vm_compute. reflexivity. Qed.

(** * calcFingerprint

    [extraLabels] is the map's entries in any order (keys without duplicates);
    the code sorts the keys and looks the values up. *)
Definition label_value (labels : list (string * string)) (k : string) : string :=
  match List.find (λ p, String.eqb (fst p) k) labels with Some p => snd p | None => "" end.

Definition fingerprint_input (ruleId appId : string) (extraLabels : list (string * string)) : string :=
  let keys := StringSet.sort_strings (fst <$> extraLabels) in
  ruleId ++ appId ++ foldr (λ k s, k ++ label_value extraLabels k ++ s) "" keys.

Definition calcFingerprint (ruleId appId : string) (extraLabels : list (string * string)) : string :=
  stake 16 (hex_encode (Sha256.Sum (fingerprint_input ruleId appId extraLabels))).

(** * Facts *)
Module FingerprintFacts.

Lemma label_value_lookup labels k v :
  NoDup (fst <$> labels) → (k, v) ∈ labels → label_value labels k = v.
Proof.
  unfold label_value. induction labels as [|[k' v'] labels IH]; cbn; [set_solver|].
  intros [Hk Hnd]%NoDup_cons [Heq|Hin]%elem_of_cons.
  - inversion Heq; subst. by rewrite String.eqb_refl.
  - destruct (String.eqb k' k) eqn:E; [|auto].
    apply String.eqb_eq in E as ->. destruct Hk. by apply (list_elem_of_fmap_2 fst labels (k, v)).
Qed.

Lemma label_value_perm l1 l2 k :
  NoDup (fst <$> l1) → l1 ≡ₚ l2 → k ∈ fst <$> l1 → label_value l1 k = label_value l2 k.
Proof.
  intros Hnd Hp ([k' v] & -> & Hin)%list_elem_of_fmap. cbn.
  rewrite !(label_value_lookup _ k' v); [done|by rewrite <- Hp|by rewrite <- Hp|done..].
Qed.

Lemma foldr_ext_in {A B} (f g : A → B → B) b l :
  (∀ x y, x ∈ l → f x y = g x y) → foldr f b l = foldr g b l.
Proof.
  induction l as [|x l IH]; intros H; [done|]. cbn. rewrite IH by (intros; apply H; set_solver).
  apply H; set_solver.
Qed.

Lemma fingerprint_input_perm ruleId appId l1 l2 :
  NoDup (fst <$> l1) → l1 ≡ₚ l2 → fingerprint_input ruleId appId l1 = fingerprint_input ruleId appId l2.
Proof.
  intros Hnd Hp. unfold fingerprint_input.
  rewrite (UtilsFacts.sort_strings_perm (fst <$> l1) (fst <$> l2)) by (by rewrite Hp).
  do 2 f_equal. apply foldr_ext_in. intros k s Hk. f_equal. f_equal.
  apply label_value_perm; [done..|]. unfold StringSet.sort_strings in Hk.
  rewrite merge_sort_Permutation in Hk. by rewrite Hp.
Qed.

(** A fingerprint does not depend on the order the labels' map is iterated in,
    so the same rule, application and labels always find the alert they opened;
    it depends on the rule and the application only through the concatenation
    of the two texts, so a rule and application whose texts join to the same
    string share their fingerprint. *)
Theorem calcFingerprint_stable (ruleId appId : string) (l1 l2 : list (string * string))
    (Hnd : NoDup (fst <$> l1)) (Hp : l1 ≡ₚ l2) :
  calcFingerprint ruleId appId l1 = calcFingerprint ruleId appId l2
  ∧ ∀ ruleId' appId', ruleId ++ appId = ruleId' ++ appId' →
      calcFingerprint ruleId appId l1 = calcFingerprint ruleId' appId' l2.
Proof.
  split.
  - unfold calcFingerprint. by rewrite (fingerprint_input_perm _ _ l1 l2).
  - intros ruleId' appId' Heq. unfold calcFingerprint. do 3 f_equal.
    rewrite (fingerprint_input_perm _ _ l1 l2) by done. unfold fingerprint_input.
    by rewrite !FilepathFacts.append_assoc, Heq.
Qed.

Lemma calcFingerprint_stable_witness :
  calcFingerprint "rule" "c:ns:Deployment:app" [("b", "2"); ("a", "1")]
    = calcFingerprint "rule" "c:ns:Deployment:app" [("a", "1"); ("b", "2")]
  ∧ calcFingerprint "rule" "1c:ns:Deployment:app" [] = calcFingerprint "rule1" "c:ns:Deployment:app" [].
Proof.
  split.
  - refine (proj1 (calcFingerprint_stable "rule" "c:ns:Deployment:app"
                     [("b", "2"); ("a", "1")] [("a", "1"); ("b", "2")] _ _)).
    + apply (bool_decide_unpack _). vm_compute. exact I.
    + apply perm_swap.
  - refine (proj2 (calcFingerprint_stable "rule" "1c:ns:Deployment:app" [] [] _ _) _ _ _);
      [constructor|reflexivity|reflexivity].
Defined.

End FingerprintFacts.
