(* ===== verification/Md5.v ===== *)
(** crypto/md5 (RFC 1321), executable, so that the marker of a set of rules can be
    computed. *)

From S2P Require Export Fingerprint.
From Stdlib Require Import Ascii String NArith.
Local Open Scope string_scope.

Module Md5.
Local Open Scope N_scope.

Definition K : list N :=
  [3614090360; 3905402710; 606105819; 3250441966; 4118548399; 1200080426; 2821735955; 4249261313;
   1770035416; 2336552879; 4294925233; 2304563134; 1804603682; 4254626195; 2792965006; 1236535329;
   4129170786; 3225465664; 643717713; 3921069994; 3593408605; 38016083; 3634488961; 3889429448;
   568446438; 3275163606; 4107603335; 1163531501; 2850285829; 4243563512; 1735328473; 2368359562;
   4294588738; 2272392833; 1839030562; 4259657740; 2763975236; 1272893353; 4139469664; 3200236656;
   681279174; 3936430074; 3572445317; 76029189; 3654602809; 3873151461; 530742520; 3299628645;
   4096336452; 1126891415; 2878612391; 4237533241; 1700485571; 2399980690; 4293915773; 2240044497;
   1873313359; 4264355552; 2734768916; 1309151649; 4149444226; 3174756917; 718787259; 3951481745].

(** The rotations of the four rounds. *)
Definition rotations : list N :=
  List.concat (map (λ r, List.concat (replicate 4 r)) [[7; 12; 17; 22]; [5; 9; 14; 20]; [4; 11; 16; 23]; [6; 10; 15; 21]]).

Definition H0 : list N := [1732584193; 4023233417; 2562383102; 271733878].

Definition rotl (k x : N) : N := N.lor (Sha256.w32 (N.shiftl x k)) (N.shiftr x (32 - k)).
Definition not32 (x : N) : N := N.lxor x 4294967295.

(** Little-endian words of a block. *)
Fixpoint words (bs : list N) : list N :=
  match bs with
  | a :: b :: c :: d :: bs => (((d * 256 + c) * 256 + b) * 256 + a) :: words bs
  | _ => []
  end.

(** The function of a step and the word it takes. *)
Definition mix (i : nat) (b c d : N) : N * nat :=
  if (i <? 16)%nat then (N.lor (N.land b c) (N.land (not32 b) d), i)
  else if (i <? 32)%nat then (N.lor (N.land d b) (N.land (not32 d) c), (5 * i + 1) mod 16)%nat
  else if (i <? 48)%nat then (N.lxor b (N.lxor c d), (3 * i + 5) mod 16)%nat
  else (N.lxor c (N.lor b (not32 d)), (7 * i) mod 16)%nat.

Definition round (ws st : list N) (i : nat) : list N :=
  match st with
  | [a; b; c; d] =>
      let '(f, g) := mix i b c d in
      let f := Sha256.add32 (Sha256.add32 f a) (Sha256.add32 (nth i K 0) (nth g ws 0)) in
      [d; Sha256.add32 b (rotl (nth i rotations 0) f); b; c]
  | _ => st
  end.

Definition compress (h block : list N) : list N :=
  zip_with Sha256.add32 h (foldl (round (words block)) h (seq 0 64)).

Fixpoint blocks (fuel : nat) (bs h : list N) : list N :=
  match fuel with
  | O => h
  | S fuel => blocks fuel (drop 64 bs) (compress h (take 64 bs))
  end.

(** [n] as [k] little-endian bytes. *)
Fixpoint le_bytes (k : nat) (n : N) : list N :=
  match k with
  | O => []
  | S k => n mod 256 :: le_bytes k (n / 256)
  end.

Definition pad (bs : list N) : list N :=
  let n := List.length bs in
  (bs ++ [128%N] ++ replicate ((119 - n mod 64) mod 64) 0%N ++ le_bytes 8 (8 * N.of_nat n))%list.

(** [md5.Sum] *)
Definition Sum (s : string) : list N :=
  let bs := pad (Sha256.bytes s) in
  flat_map (le_bytes 4) (blocks (List.length bs / 64) bs H0).

End Md5.

Example md5_empty : hex_encode (Md5.Sum "") = "d41d8cd98f00b204e9800998ecf8427e".
Proof. vm_compute. reflexivity. Qed.
Example md5_abc : hex_encode (Md5.Sum "abc") = "900150983cd24fb0d6963f7d28e17f72".
Proof. vm_compute. reflexivity. Qed.
Example md5_two_blocks :
  hex_encode (Md5.Sum "12345678901234567890123456789012345678901234567890123456789012345678901234567890")
  = "57edf4a22be3c955ac49da2e2107b67a".
Proof. vm_compute. reflexivity. Qed.
