(* ===== verification/Db.v ===== *)
(** The effects the stateful components share: a state monad over the rows of
    the database (the tables of db/migrations/00001_baseline.sql the modelled
    code uses) and a component's own memory.

    What a run cannot know in advance is the environment [Env], consulted once
    per effect through a tick counter: the wall clock ([timeseries.Now]), the
    ids [utils.NanoId] makes, whether a database call fails, and what a
    notification client answers.  A failed call changes no row.  One run of the
    watchers is sequential: the calls of one handler are not interleaved with
    those of another. *)

From S2P Require Export Json Model.
From Stdlib Require Import Ascii String ZArith Lia.
Local Open Scope string_scope.
Local Open Scope Z_scope.

(** * db/incident.go: notification destinations *)
Definition IntegrationTypeSlack : string := "slack".
Definition IntegrationTypePagerduty : string := "pagerduty".
Definition IntegrationTypeTeams : string := "teams".
Definition IntegrationTypeOpsgenie : string := "opsgenie".
Definition IntegrationTypeWebhook : string := "webhook".

Record Destination := { d_IntegrationType : string; d_SlackChannel : string; d_TeamsChannel : string }.
#[export] Instance Destination_eq_dec : EqDecision Destination.
Proof. solve_decision. Defined.

(** [IncidentNotificationDestination.Value] and [Scan] *)
Definition dest_Value (d : Destination) : string :=
  if String.eqb (d_IntegrationType d) IntegrationTypeSlack then
    (d_IntegrationType d ++ ":" ++ d_SlackChannel d)%string
  else if String.eqb (d_IntegrationType d) IntegrationTypeTeams && negb (String.eqb (d_TeamsChannel d) "") then
    (d_IntegrationType d ++ ":" ++ d_TeamsChannel d)%string
  else d_IntegrationType d.

Definition dest_Scan (src : string) : Destination :=
  match Split ":" src with
  | [] => {| d_IntegrationType := ""; d_SlackChannel := ""; d_TeamsChannel := "" |}
  | [t] => {| d_IntegrationType := t; d_SlackChannel := ""; d_TeamsChannel := "" |}
  | t :: c :: _ =>
      {| d_IntegrationType := t;
         d_SlackChannel := if String.eqb t IntegrationTypeSlack then c else "";
         d_TeamsChannel := if String.eqb t IntegrationTypeTeams then c else "" |}
  end.

(** * Rows

    A column the code writes as JSON holds the value itself. *)

(** [alert].  [application_id] and [severity] are the texts the code writes. *)
Record AlertRow := {
  r_id : string;
  r_fingerprint : string;
  r_rule_id : string;
  r_project_id : string;
  r_application_id : string;
  r_application_category : string;
  r_severity : string;
  r_summary : string;
  r_details : list AlertDetail;
  r_opened_at : Z;
  r_resolved_at : Z;
  r_updated_at : Z;
  r_suppressed : bool;
  r_resolved_by : string;
  r_report : string;
  r_pattern_words : string;
  r_manually_resolved_at : Z
}.
#[export] Instance AlertRow_eq_dec : EqDecision AlertRow.
Proof. solve_decision. Defined.

(** [alerting_rule]: [config] is the JSON of [alertingRuleConfig]. *)
Record alertingRuleConfig := {
  cfg_Name : string;
  cfg_Source : AlertSource;
  cfg_Selector : AppSelector;
  cfg_Severity : Z;
  cfg_For : Z;
  cfg_KeepFiringFor : Z;
  cfg_Templates : AlertTemplates;
  cfg_NotificationCategory : string;
  cfg_Readonly : bool
}.
Record RuleRow := {
  ru_id : string;
  ru_project_id : string;
  ru_config : alertingRuleConfig;
  ru_enabled : bool;
  ru_builtin : bool;
  ru_created_at : Z;
  ru_updated_at : Z
}.

Record AlertNotificationDetails := {
  nd_ProjectName : string;
  nd_RuleName : string;
  nd_Severity : string;
  nd_Summary : string;
  nd_Details : list AlertDetail;
  nd_Duration : string;
  nd_ResolvedBy : string
}.

(** [alert_notification] *)
Record AlertNotificationRow := {
  an_project_id : string;
  an_alert_id : string;
  an_rule_id : string;
  an_application_id : string;
  an_status : Z;
  an_destination : string;
  an_timestamp : Z;
  an_sent_at : Z;
  an_external_key : string;
  an_details : option AlertNotificationDetails
}.

(** [incident]: [details] and [rca] hold the values themselves, [None] for an
    empty text; [rca_status] and [rca_summary] may be NULL. *)
Record BurnRate := {
  br_LongWindowPercentage : f32;
  br_ShortWindowPercentage : f32;
  br_LongWindowBurnRate : f32;
  br_ShortWindowBurnRate : f32;
  br_LongWindow : Z;
  br_ShortWindow : Z;
  br_Severity : Z;
  br_Threshold : f32
}.
Record IncidentDetails := {
  id_AvailabilityBurnRates : list BurnRate;
  id_LatencyBurnRates : list BurnRate;
  id_AvailabilityImpact : f32;
  id_LatencyImpact : f32
}.
(** The propagation map and the widgets, which no modelled code reads, are left out. *)
Record RCA := {
  rca_Status : string;
  rca_Error : string;
  rca_ShortSummary : string;
  rca_RootCause : string;
  rca_ImmediateFixes : string;
  rca_DetailedRootCause : string
}.

Record IncidentRow := {
  ir_project_id : string;
  ir_application_id : string;
  ir_key : string;
  ir_opened_at : Z;
  ir_resolved_at : Z;
  ir_severity : Z;
  ir_details : option IncidentDetails;
  ir_rca : option RCA;
  ir_rca_status : option string;
  ir_rca_summary : option string
}.

Record IncidentNotificationDetails := {
  ind_Reports : list (string * string * string);
  ind_RCASummary : string;
  ind_RCARemediations : string
}.

(** [incident_notification] *)
Record IncidentNotificationRow := {
  in_project_id : string;
  in_application_id : string;
  in_incident_key : string;
  in_status : Z;
  in_destination : string;
  in_timestamp : Z;
  in_sent_at : Z;
  in_external_key : string;
  in_details : option IncidentNotificationDetails
}.

(** [check_configs]; the column [configs] holds JSON. *)
Record CheckConfigsRow := {
  ck_project_id : string;
  ck_application_id : option string;
  ck_configs : option json
}.

(** [application_deployment]; the last three columns hold JSON or NULL. *)
Record ApplicationDeploymentRow := {
  dr_project_id : string;
  dr_application_id : string;
  dr_name : string;
  dr_started_at : Z;
  dr_finished_at : Z;
  dr_details : option (list string);
  dr_metrics_snapshot : option MetricsSnapshot;
  dr_notifications : option ApplicationDeploymentNotifications
}.

Record Tables := {
  t_alert : list AlertRow;
  t_alerting_rule : list RuleRow;
  t_alert_notification : list AlertNotificationRow;
  t_incident : list IncidentRow;
  t_incident_notification : list IncidentNotificationRow;
  t_check_configs : list CheckConfigsRow;
  t_application_deployment : list ApplicationDeploymentRow
}.

Definition with_alert (f : list AlertRow → list AlertRow) (t : Tables) : Tables :=
  {| t_alert := f (t_alert t); t_alerting_rule := t_alerting_rule t;
     t_alert_notification := t_alert_notification t; t_incident := t_incident t;
     t_incident_notification := t_incident_notification t; t_check_configs := t_check_configs t;
     t_application_deployment := t_application_deployment t |}.
Definition with_alerting_rule (f : list RuleRow → list RuleRow) (t : Tables) : Tables :=
  {| t_alert := t_alert t; t_alerting_rule := f (t_alerting_rule t);
     t_alert_notification := t_alert_notification t; t_incident := t_incident t;
     t_incident_notification := t_incident_notification t; t_check_configs := t_check_configs t;
     t_application_deployment := t_application_deployment t |}.
Definition with_alert_notification (f : list AlertNotificationRow → list AlertNotificationRow) (t : Tables) : Tables :=
  {| t_alert := t_alert t; t_alerting_rule := t_alerting_rule t;
     t_alert_notification := f (t_alert_notification t); t_incident := t_incident t;
     t_incident_notification := t_incident_notification t; t_check_configs := t_check_configs t;
     t_application_deployment := t_application_deployment t |}.
Definition with_incident (f : list IncidentRow → list IncidentRow) (t : Tables) : Tables :=
  {| t_alert := t_alert t; t_alerting_rule := t_alerting_rule t;
     t_alert_notification := t_alert_notification t; t_incident := f (t_incident t);
     t_incident_notification := t_incident_notification t; t_check_configs := t_check_configs t;
     t_application_deployment := t_application_deployment t |}.
Definition with_incident_notification (f : list IncidentNotificationRow → list IncidentNotificationRow) (t : Tables) : Tables :=
  {| t_alert := t_alert t; t_alerting_rule := t_alerting_rule t;
     t_alert_notification := t_alert_notification t; t_incident := t_incident t;
     t_incident_notification := f (t_incident_notification t); t_check_configs := t_check_configs t;
     t_application_deployment := t_application_deployment t |}.
Definition with_check_configs (f : list CheckConfigsRow → list CheckConfigsRow) (t : Tables) : Tables :=
  {| t_alert := t_alert t; t_alerting_rule := t_alerting_rule t;
     t_alert_notification := t_alert_notification t; t_incident := t_incident t;
     t_incident_notification := t_incident_notification t; t_check_configs := f (t_check_configs t);
     t_application_deployment := t_application_deployment t |}.

Definition with_application_deployment (f : list ApplicationDeploymentRow → list ApplicationDeploymentRow) (t : Tables) : Tables :=
  {| t_alert := t_alert t; t_alerting_rule := t_alerting_rule t;
     t_alert_notification := t_alert_notification t; t_incident := t_incident t;
     t_incident_notification := t_incident_notification t; t_check_configs := t_check_configs t;
     t_application_deployment := f (t_application_deployment t) |}.

(** * WHERE, UPDATE and ORDER BY

    A WHERE clause is a boolean function of a row; an UPDATE maps the rows that
    satisfy one. *)
Definition update_where {R} (p : R → bool) (f : R → R) (rows : list R) : list R :=
  (λ r, if p r then f r else r) <$> rows.

Definition where_ {R} (p : R → bool) (rows : list R) : list R := List.filter p rows.

(** ORDER BY [le], a total order of the rows. *)
Definition holds {R} (le : R → R → bool) (a b : R) : Prop := le a b = true.
#[export] Instance holds_dec {R} (le : R → R → bool) : RelDecision (holds le).
Proof. intros a b. unfold holds. apply _. Defined.
Definition order_by {R} (le : R → R → bool) (rows : list R) : list R := merge_sort (holds le) rows.

(** * The monad *)
Class Env := {
  env_clock : nat → Z;
  env_nano : nat → string;
  env_fault : nat → option string
}.

Record Sys (Mem : Type) := Build_Sys { sys_mem : Mem; sys_tables : Tables; sys_ticks : nat }.
Arguments Build_Sys {Mem} _ _ _.
Arguments sys_mem {Mem} _.
Arguments sys_tables {Mem} _.
Arguments sys_ticks {Mem} _.

Definition M (Mem : Type) (A : Type) : Type := Sys Mem → A * Sys Mem.

#[export] Instance M_ret {Mem} : MRet (M Mem) := λ A a s, (a, s).
#[export] Instance M_bind {Mem} : MBind (M Mem) := λ A B f m s, let '(a, s') := m s in f a s'.

(** Runs [f] on every element of a list, in order. *)
Fixpoint forM_ {Mem A} (l : list A) (f : A → M Mem unit) : M Mem unit :=
  match l with
  | [] => mret tt
  | x :: l => _ ← f x; forM_ l f
  end.

(** Threads a state through a loop. *)
Fixpoint foldM {Mem S A} (f : S → A → M Mem S) (s : S) (l : list A) : M Mem S :=
  match l with
  | [] => mret s
  | x :: l => s' ← f s x; foldM f s' l
  end.

(** A step that may panic, and what follows it. *)
Definition and_then {Mem A B} (m : M Mem (outcome A)) (k : A → M Mem (outcome B)) : M Mem (outcome B) :=
  r ← m; match r with Ret a => k a | Panic => mret Panic end.

(** Runs [f] on every element of a list, in order, and collects the results. *)
Fixpoint collect {Mem A B} (f : A → M Mem (outcome B)) (l : list A) : M Mem (outcome (list B)) :=
  match l with
  | [] => mret (Ret [])
  | a :: l => and_then (f a) (λ b, and_then (collect f l) (λ bs, mret (Ret (b :: bs))))
  end.

(** The order in which [range] visits a map, which Go leaves
    open: some permutation, that may differ from one loop to the next. *)
Class MapOrder := {
  map_order : ∀ {A : Type}, nat → list A → list A;
  map_order_perm : ∀ A n (l : list A), map_order n l ≡ₚ l
}.

Section effects.
Context `{Env} {Mem : Type}.

Definition tick (s : Sys Mem) : Sys Mem := Build_Sys (sys_mem s) (sys_tables s) (S (sys_ticks s)).

Definition get_mem : M Mem Mem := λ s, (sys_mem s, s).
Definition put_mem (m : Mem) : M Mem unit := λ s, (tt, Build_Sys m (sys_tables s) (sys_ticks s)).
Definition modify_mem (f : Mem → Mem) : M Mem unit := λ s, (tt, Build_Sys (f (sys_mem s)) (sys_tables s) (sys_ticks s)).

(** [for ... range m] *)
Definition range `{MapOrder} {A} (l : list A) : M Mem (list A) := λ s, (map_order (sys_ticks s) l, tick s).

(** [timeseries.Now()] *)
Definition Now : M Mem Z := λ s, (env_clock (sys_ticks s), tick s).

(** [utils.NanoId(n)] *)
Definition NanoId : M Mem string := λ s, (env_nano (sys_ticks s), tick s).

(** The answer of something outside the program. *)
Definition ask {A} (answer : nat → A) : M Mem A := λ s, (answer (sys_ticks s), tick s).

(** One statement: [inl err] when the call fails or the statement itself is
    refused (a unique violation), with the tables as they were. *)
Definition statement {A} (q : Tables → string + (A * Tables)) : M Mem (string + A) := λ s,
  match env_fault (sys_ticks s) with
  | Some err => (inl err, tick s)
  | None =>
      match q (sys_tables s) with
      | inl err => (inl err, tick s)
      | inr (a, t) => (inr a, Build_Sys (sys_mem s) t (S (sys_ticks s)))
      end
  end.

(** A SELECT whose rows all scan, or the scan error of one of them. *)
Definition select {A} (q : Tables → string + A) : M Mem (string + A) :=
  statement (λ t, match q t with inl e => inl e | inr a => inr (a, t) end).

(** A SELECT of the rows [rows] without ORDER BY: the reader sees them in some
    order, that may differ from one SELECT to the next. *)
Definition select_rows `{MapOrder} {R A} (rows : Tables → list R) (q : list R → string + A) : M Mem (string + A) :=
  λ s, select (λ t, q (map_order (sys_ticks s) (rows t))) s.

(** An INSERT, UPDATE or DELETE that cannot violate a constraint. *)
Definition update (f : Tables → Tables) : M Mem (string + unit) :=
  statement (λ t, inr (tt, f t)).

End effects.

(** An environment for concrete runs: the clock shows the tick counter past
    [t0], and no call fails. *)
Definition steady_env (t0 : Z) : Env :=
  {| env_clock := λ n, t0 + Z.of_nat n; env_nano := λ n, pretty (N.of_nat n); env_fault := λ _, None |}.

Definition no_tables : Tables :=
  {| t_alert := []; t_alerting_rule := []; t_alert_notification := []; t_incident := []; t_incident_notification := [];
     t_check_configs := []; t_application_deployment := [] |}.

(** [err != nil] *)
Definition failed {A} (r : string + A) : bool := match r with inl _ => true | inr _ => false end.

(** Every row scanned, or the first error. *)
Fixpoint scan_all {R A} (scan : R → option A) (rows : list R) : string + list A :=
  match rows with
  | [] => inr []
  | r :: rows =>
      match scan r with
      | None => inl "scan"
      | Some a => match scan_all scan rows with inl e => inl e | inr l => inr (a :: l) end
      end
  end.

(** * Facts *)
Module DbFacts.
Section facts.
Context `{Env} {Mem : Type}.

Lemma bind_run {A B} (m : M Mem A) (f : A → M Mem B) s a s' :
  m s = (a, s') → (m ≫= f) s = f a s'.
Proof. intros Hm. unfold mbind, M_bind. by rewrite Hm. Qed.

(** What a statement leaves: the memory is untouched, and so are the tables
    unless it succeeded. *)
Lemma statement_inv {A} (q : Tables → string + (A * Tables)) (s : Sys Mem) r (s' : Sys Mem) :
  statement q s = (r, s') →
  sys_mem s' = sys_mem s ∧
  match r with
  | inl _ => sys_tables s' = sys_tables s
  | inr a => q (sys_tables s) = inr (a, sys_tables s')
  end.
Proof.
  unfold statement. destruct (env_fault _); [by intros [= <- <-]|].
  destruct (q (sys_tables s)) as [e|[a t]] eqn:E; by intros [= <- <-].
Qed.

Lemma select_inv {A} (q : Tables → string + A) (s : Sys Mem) r (s' : Sys Mem) :
  select q s = (r, s') →
  sys_mem s' = sys_mem s ∧ sys_tables s' = sys_tables s ∧
  (∀ a, r = inr a → q (sys_tables s) = inr a).
Proof.
  intros Hs. apply statement_inv in Hs as [Hm Hr]. split; [done|].
  destruct r as [e|a]; [by split|].
  destruct (q (sys_tables s)); [done|]. by injection Hr as -> ->; split; [|intros ? [= ->]].
Qed.

Lemma update_inv f (s : Sys Mem) r (s' : Sys Mem) :
  update f s = (r, s') →
  sys_mem s' = sys_mem s ∧
  sys_tables s' = (if failed r then sys_tables s else f (sys_tables s)).
Proof. intros [Hm Hr]%statement_inv. split; [done|]. destruct r; [done|]. by injection Hr. Qed.

(** Without a failing call a statement has its result. *)
Lemma select_run {A} (q : Tables → string + A) (s : Sys Mem) :
  env_fault (sys_ticks s) = None → select q s = (q (sys_tables s), tick s).
Proof.
  intros Hf. unfold select, statement. rewrite Hf. destruct (q (sys_tables s)); [done|].
  unfold tick. by destruct s.
Qed.

Lemma update_run f (s : Sys Mem) :
  env_fault (sys_ticks s) = None →
  update f s = (inr tt, Build_Sys (sys_mem s) (f (sys_tables s)) (S (sys_ticks s))).
Proof. intros Hf. unfold update, statement. by rewrite Hf. Qed.

(** ** Triples: a run from a state that satisfies [P] ends in one that satisfies
    [Q] of its result. *)
Definition triple {A} (P : Sys Mem → Prop) (m : M Mem A) (Q : A → Sys Mem → Prop) : Prop :=
  ∀ s, P s → Q (fst (m s)) (snd (m s)).

Lemma triple_ret {A} (a : A) (P : Sys Mem → Prop) (Q : A → Sys Mem → Prop) :
  (∀ s, P s → Q a s) → triple P (mret a) Q.
Proof. intros HQ s HP. by apply HQ. Qed.

Lemma triple_bind {A B} (m : M Mem A) (f : A → M Mem B) P R Q :
  triple P m R → (∀ a, triple (R a) (f a) Q) → triple P (m ≫= f) Q.
Proof.
  intros Hm Hf s HP. specialize (Hm s HP). unfold mbind, M_bind. destruct (m s) as [a s']. by apply Hf.
Qed.

Lemma triple_pre {A} (m : M Mem A) (P P' : Sys Mem → Prop) Q :
  (∀ s, P' s → P s) → triple P m Q → triple P' m Q.
Proof. intros HP Hm s Hs. apply Hm, HP, Hs. Qed.

Lemma triple_post {A} (m : M Mem A) (P : Sys Mem → Prop) (Q Q' : A → Sys Mem → Prop) :
  (∀ a s, Q a s → Q' a s) → triple P m Q → triple P m Q'.
Proof. intros HQ Hm s Hs. apply HQ, Hm, Hs. Qed.

(** A loop keeps an invariant its body keeps. *)
Lemma triple_forM {A} (P : Sys Mem → Prop) (l : list A) (f : A → M Mem unit) :
  (∀ x, x ∈ l → triple P (f x) (λ _, P)) → triple P (forM_ l f) (λ _, P).
Proof.
  induction l as [|x l IH]; intros Hf; [by apply triple_ret|]. cbn.
  eapply triple_bind; [apply Hf; set_solver|]. intros []. apply IH. intros; apply Hf; set_solver.
Qed.

Lemma triple_foldM {A S} (P : Sys Mem → Prop) (f : S → A → M Mem S) (l : list A) (s0 : S) :
  (∀ st x, triple P (f st x) (λ _, P)) → triple P (foldM f s0 l) (λ _, P).
Proof.
  intros Hf. revert s0. induction l as [|x l IH]; intros s0; [by apply triple_ret|]. cbn.
  eapply triple_bind; [apply Hf|]. intros st. apply IH.
Qed.

Lemma forM_app {A} (l k : list A) (f : A → M Mem unit) (s : Sys Mem) :
  forM_ (l ++ k)%list f s = forM_ k f (snd (forM_ l f s)).
Proof.
  revert s. induction l as [|x l IH]; intros s; [done|]. cbn.
  unfold mbind, M_bind. destruct (f x s) as [? s']. apply IH.
Qed.

(** A loop preserves what each of its steps preserves. *)
Lemma forM_inv {A} (P : Sys Mem → Prop) (l : list A) (f : A → M Mem unit) (s : Sys Mem) :
  (∀ x s, x ∈ l → P s → P (snd (f x s))) → P s → P (snd (forM_ l f s)).
Proof.
  revert s. induction l as [|x l IH]; intros s Hf Hs; [done|]. cbn. unfold mbind, M_bind.
  pose proof (Hf x s ltac:(set_solver) Hs) as Hx. destruct (f x s) as [? s'].
  apply IH; [|done]. intros; apply Hf; set_solver.
Qed.

(** ** Frames: a run that leaves the memory, and a view of the tables, alone. *)
Definition frames {X A} (view : Tables → X) (m : M Mem A) : Prop :=
  ∀ s, let s' := snd (m s) in sys_mem s' = sys_mem s ∧ view (sys_tables s') = view (sys_tables s).

Lemma frames_ret {X A} (view : Tables → X) (a : A) : frames view (mret a).
Proof. by intros s. Qed.

Lemma frames_bind {X A B} (view : Tables → X) (m : M Mem A) (f : A → M Mem B) :
  frames view m → (∀ a, frames view (f a)) → frames view (m ≫= f).
Proof.
  intros Hm Hf s. specialize (Hm s). unfold mbind, M_bind. destruct (m s) as [a s1]. cbn in Hm.
  specialize (Hf a s1). cbn in Hf. destruct Hm as [Hm1 Hm2], Hf as [Hf1 Hf2]. split; congruence.
Qed.

Lemma frames_forM {X A} (view : Tables → X) (l : list A) (f : A → M Mem unit) :
  (∀ x, frames view (f x)) → frames view (forM_ l f).
Proof. intros Hf. induction l; [apply frames_ret|]. apply frames_bind; auto. Qed.

Lemma frames_select {X A} (view : Tables → X) (q : Tables → string + A) : frames view (select q).
Proof.
  intros s. destruct (select q s) as [r s'] eqn:E. cbn. by apply select_inv in E as (-> & -> & _).
Qed.

Lemma frames_select_rows `{MapOrder} {X R A} (view : Tables → X) (rows : Tables → list R) (q : list R → string + A) :
  frames view (select_rows rows q).
Proof. intros s. apply frames_select. Qed.

Lemma frames_update {X} (view : Tables → X) f : (∀ t, view (f t) = view t) → frames view (update f).
Proof.
  intros Hf s. destruct (update _ s) as [r s'] eqn:E. cbn. apply update_inv in E as (-> & ->).
  split; [done|]. by destruct (failed r).
Qed.

Lemma frames_ask {X A} (view : Tables → X) (f : nat → A) : frames view (ask f).
Proof. done. Qed.
Lemma frames_now {X} (view : Tables → X) : frames view Now.
Proof. done. Qed.

End facts.

(** Follows the structure of a program. *)
Ltac frames :=
  repeat match goal with
  | |- frames _ (_ ≫= _) => apply frames_bind; [|intros ?]
  | |- frames _ (mret _) => apply frames_ret
  | |- frames _ (select _) => apply frames_select
  | |- frames _ (select_rows _ _) => apply frames_select_rows
  | |- frames _ (ask _) => apply frames_ask
  | |- frames _ Now => apply frames_now
  | |- frames _ (update _) => apply frames_update; intros ?; reflexivity
  | |- frames _ (match ?x with _ => _ end) => destruct x
  | |- frames _ (forM_ _ _) => apply frames_forM; intros ?
  | |- frames _ _ => solve [eauto with coroot]
  end.

Lemma Split_cons c a s : contains c a = false → Split c (a ++ String c s)%string = a :: Split c s.
Proof.
  intros Ha. induction a as [|d a IH].
  - rewrite FilepathFacts.append_nil_l. cbn [Split]. by rewrite AppIdFacts.same_refl.
  - cbn [contains] in Ha. apply orb_false_iff in Ha as [Hd Ha].
    rewrite FilepathFacts.append_cons. cbn [Split]. by rewrite Hd, IH.
Qed.

Lemma Split_none c a : contains c a = false → Split c a = [a].
Proof.
  intros Ha. induction a as [|d a IH]; [done|].
  cbn [contains] in Ha. apply orb_false_iff in Ha as [Hd Ha]. cbn [Split]. by rewrite Hd, IH.
Qed.

(** The destinations the notifiers make: the channel is set for its own
    integration only. *)
Definition well_formed (d : Destination) : bool :=
  negb (contains ":" (d_IntegrationType d))
  && (String.eqb (d_IntegrationType d) IntegrationTypeSlack || String.eqb (d_SlackChannel d) "")
  && (String.eqb (d_IntegrationType d) IntegrationTypeTeams || String.eqb (d_TeamsChannel d) "").

(** A notification destination read back from its column is the one that was
    written, for every destination whose channel holds no colon; a Slack channel
    with a colon is cut at the first one. *)
Theorem Destination_roundtrip (d : Destination) (Hw : well_formed d = true)
    (Ht : contains ":" (d_TeamsChannel d) = false) :
  dest_Scan (dest_Value d) =
    {| d_IntegrationType := d_IntegrationType d;
       d_SlackChannel := hd "" (Split ":" (d_SlackChannel d));
       d_TeamsChannel := d_TeamsChannel d |}.
Proof.
  destruct d as [t sc tc]. unfold well_formed in Hw. cbn [d_IntegrationType d_SlackChannel d_TeamsChannel] in *.
  rewrite !andb_true_iff, !orb_true_iff, negb_true_iff, !String.eqb_eq in Hw.
  destruct Hw as [[Hc Hs] Htc]. unfold dest_Value, dest_Scan.
  cbn [d_IntegrationType d_SlackChannel d_TeamsChannel].
  destruct (String.eqb t IntegrationTypeSlack) eqn:Et.
  - apply String.eqb_eq in Et as ->. destruct Htc as [Htc| ->]; [done|].
    change (IntegrationTypeSlack ++ ":" ++ sc)%string with ("slack" ++ String ":" sc)%string.
    rewrite (Split_cons ":" "slack" sc) by done.
    destruct (Split ":" sc) as [|c l] eqn:E; [|done].
    exfalso. destruct sc as [|a sc]; [done|]. cbn [Split] in E. by repeat case_match.
  - apply String.eqb_neq in Et. destruct Hs as [Hs| ->]; [done|].
    destruct (String.eqb t IntegrationTypeTeams) eqn:Et2; cbn [andb].
    + apply String.eqb_eq in Et2 as ->. destruct (String.eqb tc "") eqn:Ec; cbn [negb].
      * by apply String.eqb_eq in Ec as ->.
      * change (IntegrationTypeTeams ++ ":" ++ tc)%string with ("teams" ++ String ":" tc)%string.
        by rewrite (Split_cons ":" "teams" tc), Split_none.
    + apply String.eqb_neq in Et2. destruct Htc as [?|Htc]; [done|subst tc]. by rewrite Split_none.
Qed.

Lemma Destination_roundtrip_witness :
  dest_Scan (dest_Value (Build_Destination "slack" "alerts" "")) = Build_Destination "slack" "alerts" ""
  ∧ dest_Scan (dest_Value (Build_Destination "teams" "" "oncall")) = Build_Destination "teams" "" "oncall".
Proof.
  split.
  - exact (Destination_roundtrip (Build_Destination "slack" "alerts" "") eq_refl eq_refl).
  - exact (Destination_roundtrip (Build_Destination "teams" "" "oncall") eq_refl eq_refl).
Defined.

End DbFacts.

(** Scanning rows that all scan. *)
Lemma scan_all_run {R A} (scan : R → option A) (rows : list R) :
  (∀ r, r ∈ rows → scan r ≠ None) →
  ∃ l, scan_all scan rows = inr l
    ∧ (∀ r, r ∈ rows → ∃ a, a ∈ l ∧ scan r = Some a) ∧ (∀ a, a ∈ l → ∃ r, r ∈ rows ∧ scan r = Some a).
Proof.
  induction rows as [|r rows IH]; intros Hs; [exists []; split_and!; [done|set_solver|set_solver]|].
  destruct IH as (l & Hl & Hin & Hout); [set_solver|]. cbn.
  destruct (scan r) as [a|] eqn:E; [|by destruct (Hs r ltac:(left))]. rewrite Hl. exists (a :: l). split_and!; [done| |].
  - intros x [-> |Hx]%elem_of_cons; [exists a; set_solver|]. destruct (Hin x Hx) as (b & ? & ?). exists b; set_solver.
  - intros b [-> |Hb]%elem_of_cons; [exists r; set_solver|]. destruct (Hout b Hb) as (x & ? & ?). exists x; set_solver.
Qed.

(** * Rows under WHERE and UPDATE *)
Lemma where_app {R} (p : R → bool) l k : where_ p (l ++ k)%list = (where_ p l ++ where_ p k)%list.
Proof. apply List.filter_app. Qed.

Lemma elem_of_where {R} (p : R → bool) l x : x ∈ where_ p l ↔ x ∈ l ∧ p x = true.
Proof. unfold where_. by rewrite !list_elem_of_In, List.filter_In. Qed.

(** An UPDATE that puts no new row under a condition leaves no more of them. *)
Lemma where_update_le {R} (q c : R → bool) (f : R → R) rows :
  (∀ r, r ∈ rows → c r = true → q (f r) = true → q r = true) →
  (List.length (where_ q (update_where c f rows)) ≤ List.length (where_ q rows))%nat.
Proof.
  unfold where_, update_where. induction rows as [|r rows IH]; intros Hq; [done|]. cbn.
  specialize (IH (λ r' Hr', Hq r' ltac:(set_solver))).
  specialize (Hq r ltac:(set_solver)).
  destruct (c r); [destruct (q (f r)); [rewrite Hq by done|destruct (q r)]|destruct (q r)]; cbn; lia.
Qed.

Lemma where_update_within {R} (q c : R → bool) (f : R → R) rows :
  (∀ r, r ∈ rows → c r = true → q r = true) →
  where_ q (update_where c f rows) = where_ q (update_where c f (where_ q rows)).
Proof.
  unfold where_, update_where. induction rows as [|r rows IH]; intros Hc; [done|]. cbn.
  specialize (IH (λ r' Hr', Hc r' ltac:(set_solver))). specialize (Hc r ltac:(set_solver)).
  destruct (c r) eqn:E.
  - rewrite (Hc eq_refl). cbn. rewrite E, IH. done.
  - destruct (q r) eqn:Eq; cbn; [rewrite E|]; rewrite ?Eq, IH; done.
Qed.

Lemma where_update_other {R} (q c : R → bool) (f : R → R) rows :
  (∀ r, r ∈ rows → c r = true → q r = false ∧ q (f r) = false) →
  where_ q (update_where c f rows) = where_ q rows.
Proof.
  unfold where_, update_where. induction rows as [|r rows IH]; intros Hc; [done|]. cbn.
  specialize (IH (λ r' Hr', Hc r' ltac:(set_solver))). specialize (Hc r ltac:(set_solver)).
  destruct (c r); [destruct Hc as [-> ->]; done|]. by rewrite IH.
Qed.

(** An UPDATE of the only row that satisfies a condition. *)
Lemma where_update_one {R} (q c : R → bool) (f : R → R) rows r :
  where_ q rows = [r] → c r = true → (∀ r', r' ∈ rows → c r' = true → r' = r) →
  where_ q (update_where c f rows) = where_ q [f r].
Proof.
  intros Hr Hc Hu. rewrite where_update_within.
  - rewrite Hr. cbn. by rewrite Hc.
  - intros r' Hin Hc'. rewrite (Hu r' Hin Hc').
    assert (r ∈ where_ q rows) as H by (rewrite Hr; left). by apply elem_of_where in H as [_ H].
Qed.

(** An UPDATE that keeps a condition commutes with it. *)
Lemma where_none {R} (q : R → bool) rows : (∀ r, r ∈ rows → q r = false) → where_ q rows = [].
Proof.
  intros Hq. destruct (where_ q rows) as [|r l] eqn:E; [done|].
  assert (r ∈ where_ q rows) as [Hr Hqr]%elem_of_where by (rewrite E; left). by rewrite Hq in Hqr.
Qed.

Lemma where_unique {R} (q : R → bool) rows r :
  r ∈ rows → q r = true → (∀ r', r' ∈ rows → q r' = true → r' = r) → NoDup rows → where_ q rows = [r].
Proof.
  intros Hin Hr Hu. unfold where_. induction rows as [|x rows IH]; [by apply not_elem_of_nil in Hin|]. intros [Hx Hn]%NoDup_cons. cbn.
  apply elem_of_cons in Hin as [<-|Hin].
  - rewrite Hr. f_equal. apply (where_none q). intros r' Hr'. apply not_true_is_false. intros E.
    specialize (Hu r' (list_elem_of_further _ _ _ Hr') E). congruence.
  - destruct (q x) eqn:E; [specialize (Hu x (list_elem_of_here _ _) E); congruence|].
    apply IH; [done| |done]. intros r' Hr'. apply Hu. by right.
Qed.

Lemma where_update_comm {R} (q c : R → bool) (f : R → R) rows :
  (∀ r, q (f r) = q r) → where_ q (update_where c f rows) = update_where c f (where_ q rows).
Proof.
  intros Hq. unfold where_, update_where. induction rows as [|r rows IH]; [done|]. cbn.
  destruct (c r) eqn:Hc; rewrite ?Hq; destruct (q r); cbn; rewrite ?Hc, IH; done.
Qed.

Lemma where_NoDup {R K} (key : R → K) (q : R → bool) rows : NoDup (key <$> rows) → NoDup (key <$> where_ q rows).
Proof.
  unfold where_. induction rows as [|r rows IH]; [done|]. cbn. intros [Hr Hn]%NoDup_cons.
  destruct (q r); [|by apply IH]. cbn. apply NoDup_cons. split; [|by apply IH].
  intros (x & Hx & Hin)%list_elem_of_fmap. apply Hr, list_elem_of_fmap. exists x. split; [done|].
  apply list_elem_of_In in Hin. apply List.filter_In in Hin as [Hin _]. by apply list_elem_of_In.
Qed.
