(* ===== verification/PromQL.v ===== *)
(** Query results: the labels and values of a series (model/labels.go), the
    evaluation of PromQL (promql/client.go) and the metric names a query reads
    (promql/selectors.go).

    ClickHouse, which evaluates PromQL, the PromQL parser and the hash of a label
    set are parameters (class [Prometheus]). *)

From S2P Require Export Db.
From Stdlib Require Import Ascii String ZArith Lia.
Local Open Scope string_scope.
Local Open Scope Z_scope.

(** * model/labels.go *)
Definition LabelMachineId : string := "machine_id".
Definition LabelSystemUuid : string := "system_uuid".
Definition LabelContainerId : string := "container_id".
Definition LabelDestination : string := "destination".
Definition LabelDestinationIP : string := "destination_ip".
Definition LabelActualDestination : string := "actual_destination".

Abbreviation Labels := (gmap string string).

(** The fields of the embedded [NodeContainerId] and [ConnectionKey] are fields of the record. *)
Record MetricValues := {
  mv_Labels : Labels;
  mv_LabelsHash : Z;
  mv_Values : option TimeSeries;
  mv_MachineID : string;
  mv_SystemUUID : string;
  mv_ContainerId : string;
  mv_Destination : string;
  mv_ActualDestination : string;
  mv_DestIp : bool
}.

(** The composite literal with labels, hash and values. *)
Definition metric_values (ls : Labels) (hash : Z) (values : option TimeSeries) : MetricValues :=
  {| mv_Labels := ls; mv_LabelsHash := hash; mv_Values := values; mv_MachineID := ""; mv_SystemUUID := "";
     mv_ContainerId := ""; mv_Destination := ""; mv_ActualDestination := ""; mv_DestIp := false |}.
Definition mv_set_values (values : option TimeSeries) (mv : MetricValues) : MetricValues :=
  {| mv_Labels := mv_Labels mv; mv_LabelsHash := mv_LabelsHash mv; mv_Values := values;
     mv_MachineID := mv_MachineID mv; mv_SystemUUID := mv_SystemUUID mv; mv_ContainerId := mv_ContainerId mv;
     mv_Destination := mv_Destination mv; mv_ActualDestination := mv_ActualDestination mv; mv_DestIp := mv_DestIp mv |}.

(** * What evaluates PromQL *)

(** One row of the table function prometheusQueryRange, samples split into times
    and values. *)
Record rawSeries := { rs_tags : Labels; rs_ts : list Z; rs_vs : list F64.f64 }.

(** A vector selector of a parsed query: its name, and its matchers (label, equality
    or not, value). *)
Record VectorSelector := { vs_Name : string; vs_LabelMatchers : list (string * bool * string) }.

Class Prometheus := {
  prometheusQueryRange : nat → string → Z → Z → Z → list rawSeries;
  metricNames : nat → gset string;
  ParseExpr : string → string + list VectorSelector;
  LabelsToSignature : Labels → Z
}.

(** promModel.MetricNameLabel, labels.MetricName *)
Definition MetricNameLabel : string := "__name__".

Section promql.
Context `{Env} `{Prometheus} {Mem : Type}.

(** A call that may fail, and what it answers. *)
Definition call {A} (answer : nat → A) : M Mem (string + A) :=
  ask (λ n, match env_fault n with Some err => inl err | None => inr (answer n) end).

(** * promql/client.go: QueryRange *)

(** The labels of a series that are kept. *)
Definition kept_labels (keep : string → bool) (tags : Labels) : Labels :=
  filter (λ kv : string * string, kv.1 ≠ MetricNameLabel ∧ kv.2 ≠ "" ∧ keep kv.1 = true) tags.

(** One sample, [i] its index: a new series is made for the first one that is
    not NaN. *)
Definition add_sample (ls : Labels) (hash from to step : Z) (vs : list F64.f64)
    (mv : option MetricValues) (p : Z * Z) : outcome (option MetricValues) :=
  let '(i, t) := p in
  let* v := nth_go vs i in
  let v := F64.to_f32 v in
  if IsNaN v then Ret mv
  else
    let* mv :=
      match mv with
      | Some mv => Ret mv
      | None =>
          let* n := quot64 (Time.Sub to from) step in
          let* ts := New from (add64 n 1) step in
          Ret (metric_values ls hash (Some ts))
      end in
    match mv_Values mv with
    | Some ts => let* ts := Set_ ts t v in Ret (Some (mv_set_values (Some ts) mv))
    | None => Panic
    end.

(** [for i, t := range s.ts] *)
Definition indexed {A} (l : list A) : list (Z * A) := imap (λ i a, (Z.of_nat i, a)) l.

Definition add_series (keep : string → bool) (from to step : Z) (res : gmap Z MetricValues) (s : rawSeries)
  : outcome (gmap Z MetricValues) :=
  let ls := kept_labels keep (rs_tags s) in
  let hash := LabelsToSignature ls in
  let* mv := fold_go (add_sample ls hash from to step (rs_vs s)) (res !! hash) (indexed (rs_ts s)) in
  Ret (match mv with Some mv => <[hash := mv]> res | None => res end).

(** The series of the answer, by hash. *)
Definition series_of (keep : string → bool) (from to step : Z) (series : list rawSeries) : outcome (gmap Z MetricValues) :=
  fold_go (add_series keep from to step) ∅ series.

Definition PromQL_QueryRange `{MapOrder} (query : string) (keep : string → bool) (from to step : Z)
  : M Mem (outcome (string + list MetricValues)) :=
  let query := ReplaceAll query "$RANGE" (Itoa (mul64 step 3) ++ "s") in
  match Time.Truncate from step, Time.Truncate to step with
  | Ret from, Ret to =>
      r ← call (λ n, prometheusQueryRange n query from to step);
      match r with
      | inl err => mret (Ret (inl err))
      | inr series =>
          match series_of keep from to step series with
          | Ret res => mvs ← range (snd <$> map_to_list res); mret (Ret (inr mvs))
          | Panic => mret Panic
          end
      end
  | _, _ => mret Panic
  end.

Definition MetricNames : M Mem (string + gset string) := call metricNames.

(** * promql/selectors.go *)

(** The metric name a selector reads, if it can be told. *)
Definition selector_name (vs : VectorSelector) : string :=
  if String.eqb (vs_Name vs) "" then
    foldl (λ name '(label, equal, value), if String.eqb label MetricNameLabel && (equal : bool) then value else name)
      "" (vs_LabelMatchers vs)
  else vs_Name vs.

(** [inr None] for the nil slice: when it cannot tell, or when there is no selector. *)
Definition Selectors (query : string) : string + option (list string) :=
  match ParseExpr (ReplaceAll query "$RANGE" "1m") with
  | inl err => inl err
  | inr selectors =>
      let '(names, unknown) :=
        foldl (λ '(names, unknown) vs,
            let name := selector_name vs in
            if String.eqb name "" then (names, true)
            else if bool_decide (name ∈ names) then (names, unknown) else ((names ++ [name])%list, unknown))
          ([] : list string, false) selectors in
      inr (if (unknown : bool) || bool_decide (names = []) then None else Some names)
  end.

End promql.
