(* ===== verification/Checks.v ===== *)
(** model/check.go: the table of checks and the settings of one application
    (CheckConfigs), with the statements of db/check_configs.go and
    [AuditReport.CreateCheck] of model/audit_report.go.

    [CheckConfigs] maps an application id, possibly a glob pattern, to the JSON
    of its settings; [getRaw] ranges over that map, so it is the list of its
    entries in the order one run visits them, each id once. *)

From S2P Require Export Db.
From Stdlib Require Import Ascii String ZArith Lia.
Local Open Scope string_scope.
Local Open Scope Z_scope.

(** * model/audit_report.go: the reports a check belongs to *)
Definition AuditReportInstances : string := "Instances".
Definition AuditReportCPU : string := "CPU".
Definition AuditReportGPU : string := "GPU".
Definition AuditReportMemory : string := "Memory".
Definition AuditReportStorage : string := "Storage".
Definition AuditReportNetwork : string := "Net".
Definition AuditReportDNS : string := "DNS".
Definition AuditReportPostgres : string := "Postgres".
Definition AuditReportRedis : string := "Redis".
Definition AuditReportMongodb : string := "Mongodb".
Definition AuditReportMemcached : string := "Memcached".
Definition AuditReportMysql : string := "Mysql".
Definition AuditReportJvm : string := "JVM".
Definition AuditReportDotNet : string := ".NET".
Definition AuditReportPython : string := "Python".
Definition AuditReportNodejs : string := "Node.js".
Definition AuditReportNode : string := "Node".
Definition AuditReportDeployments : string := "Deployments".
Definition AuditReportProfiling : string := "Profiling".
Definition AuditReportTracing : string := "Tracing".

(** The units of a threshold. *)
Definition CheckUnitPercent : string := "percent".
Definition CheckUnitSecond : string := "second".
Definition CheckUnitByte : string := "byte".
Definition CheckUnitSecondsPerSecond : string := "seconds/second".

Record CheckConfig := {
  cc_Id : string;
  cc_Category : string;
  cc_Type : CheckType;
  cc_Title : string;
  cc_DefaultThreshold : f32;
  cc_Unit : string;
  cc_MessageTemplate : string;
  cc_ConditionFormatTemplate : string
}.

(** The double quote of a template. *)
Definition dq : string := String "034" EmptyString.

(** The fields of [Checks] in the order they are filled in, each under the id [init] gives it. *)
Definition workload_checks : list CheckConfig := [
  {| cc_Id := "SLOAvailability"; cc_Category := AuditReportSLO; cc_Type := CheckTypeManual; cc_Title := "Availability";
     cc_DefaultThreshold := F32.of_Z 99; cc_Unit := CheckUnitPercent;
     cc_MessageTemplate := "the app is serving errors";
     cc_ConditionFormatTemplate := "the successful request percentage < <threshold>" |};
  {| cc_Id := "SLOLatency"; cc_Category := AuditReportSLO; cc_Type := CheckTypeManual; cc_Title := "Latency";
     cc_DefaultThreshold := F32.of_Z 99; cc_Unit := CheckUnitPercent;
     cc_MessageTemplate := "the app is performing slowly";
     cc_ConditionFormatTemplate := "the percentage of requests served faster than <bucket> < <threshold>" |};
  {| cc_Id := "CPUNode"; cc_Category := AuditReportCPU; cc_Type := CheckTypeItemBased; cc_Title := "Node CPU utilization";
     cc_DefaultThreshold := F32.of_Z 80; cc_Unit := CheckUnitPercent;
     cc_MessageTemplate := ("high CPU utilization of {{.Items " ++ dq ++ "node" ++ dq ++ "}}");
     cc_ConditionFormatTemplate := "the CPU usage of a node > <threshold>" |};
  {| cc_Id := "CPUContainer"; cc_Category := AuditReportCPU; cc_Type := CheckTypeItemBased; cc_Title := "Container CPU utilization";
     cc_DefaultThreshold := F32.of_Z 80; cc_Unit := CheckUnitPercent;
     cc_MessageTemplate := ("high CPU utilization of {{.Items " ++ dq ++ "container" ++ dq ++ "}}");
     cc_ConditionFormatTemplate := "the CPU usage of a container > <threshold> of its CPU limit" |};
  {| cc_Id := "MemoryOOM"; cc_Category := AuditReportMemory; cc_Type := CheckTypeEventBased; cc_Title := "Out of Memory";
     cc_DefaultThreshold := F32.of_Z 0; cc_Unit := "";
     cc_MessageTemplate := ("application has been restarted {{.Count " ++ dq ++ "time" ++ dq ++ "}} by the OOM killer");
     cc_ConditionFormatTemplate := "the number of container terminations due to Out of Memory > <threshold>" |};
  {| cc_Id := "MemoryLeakPercent"; cc_Category := AuditReportMemory; cc_Type := CheckTypeValueBased; cc_Title := "Memory leak";
     cc_DefaultThreshold := F32.of_Z 10; cc_Unit := "";
     cc_MessageTemplate := "memory usage is growing by {{.Value}}% per hour";
     cc_ConditionFormatTemplate := "memory usage is growing by > <threshold> % per hour" |};
  {| cc_Id := "MemoryPressure"; cc_Category := AuditReportMemory; cc_Type := CheckTypeItemBased; cc_Title := "Memory pressure";
     cc_DefaultThreshold := F32.frac 2 100; cc_Unit := CheckUnitSecond;
     cc_MessageTemplate := ("high memory stall time on {{.Items " ++ dq ++ "instances" ++ dq ++ "}}");
     cc_ConditionFormatTemplate := "memory stall time > <threshold> per second" |};
  {| cc_Id := "StorageIOLoad"; cc_Category := AuditReportStorage; cc_Type := CheckTypeItemBased; cc_Title := "Disk I/O load";
     cc_DefaultThreshold := F32.of_Z 5; cc_Unit := CheckUnitSecondsPerSecond;
     cc_MessageTemplate := ("high I/O load of {{.Items " ++ dq ++ "volume" ++ dq ++ "}}");
     cc_ConditionFormatTemplate := "the I/O load of a volume > <threshold>" |};
  {| cc_Id := "StorageSpace"; cc_Category := AuditReportStorage; cc_Type := CheckTypeItemBased; cc_Title := "Disk space";
     cc_DefaultThreshold := F32.of_Z 80; cc_Unit := CheckUnitPercent;
     cc_MessageTemplate := ("{{.ItemsWithToBe " ++ dq ++ "volume" ++ dq ++ "}} over {{.ThresholdPercent}} full, max usage: {{.ValuePercent}}");
     cc_ConditionFormatTemplate := "the space usage of a volume > <threshold>" |};
  {| cc_Id := "NetworkRTT"; cc_Category := AuditReportNetwork; cc_Type := CheckTypeItemBased; cc_Title := "Network RTT within the cluster";
     cc_DefaultThreshold := F32.frac 1 100; cc_Unit := CheckUnitSecond;
     cc_MessageTemplate := ("high in-cluster network latency: {{.Items " ++ dq ++ "service" ++ dq ++ "}} affected, max RTT: {{.ValueDuration}}");
     cc_ConditionFormatTemplate := "RTT between services within the cluster exceeds <threshold>" |};
  {| cc_Id := "NetworkRTTExternal"; cc_Category := AuditReportNetwork; cc_Type := CheckTypeItemBased; cc_Title := "Network RTT to external services";
     cc_DefaultThreshold := F32.frac 2 10; cc_Unit := CheckUnitSecond;
     cc_MessageTemplate := ("high network latency to external services: {{.Items " ++ dq ++ "service" ++ dq ++ "}} affected, max RTT: {{.ValueDuration}}");
     cc_ConditionFormatTemplate := "RTT to an external service exceeds <threshold>" |};
  {| cc_Id := "NetworkRTTOtherClusters"; cc_Category := AuditReportNetwork; cc_Type := CheckTypeItemBased; cc_Title := "Network RTT to services in other clusters";
     cc_DefaultThreshold := F32.frac 1 10; cc_Unit := CheckUnitSecond;
     cc_MessageTemplate := ("high cross-cluster network latency: {{.Items " ++ dq ++ "service" ++ dq ++ "}} affected, max RTT: {{.ValueDuration}}");
     cc_ConditionFormatTemplate := "RTT to a service in another cluster exceeds <threshold>" |};
  {| cc_Id := "NetworkConnectivity"; cc_Category := AuditReportNetwork; cc_Type := CheckTypeItemBased; cc_Title := "Network connectivity";
     cc_DefaultThreshold := F32.of_Z 0; cc_Unit := "";
     cc_MessageTemplate := ("no connectivity with {{.Items " ++ dq ++ "upstream service" ++ dq ++ "}}");
     cc_ConditionFormatTemplate := "the number of unavailable upstream services > <threshold>" |};
  {| cc_Id := "NetworkTCPConnections"; cc_Category := AuditReportNetwork; cc_Type := CheckTypeItemBased; cc_Title := "TCP connections";
     cc_DefaultThreshold := F32.of_Z 0; cc_Unit := "";
     cc_MessageTemplate := ("failed to connect to {{.Items " ++ dq ++ "upstream service" ++ dq ++ "}}");
     cc_ConditionFormatTemplate := "the number of upstream services to which the app failed to connect > <threshold>" |};
  {| cc_Id := "InstanceAvailability"; cc_Category := AuditReportInstances; cc_Type := CheckTypeManual; cc_Title := "Instance availability";
     cc_DefaultThreshold := F32.of_Z 75; cc_Unit := CheckUnitPercent;
     cc_MessageTemplate := ("{{.ItemsWithToBe " ++ dq ++ "instance" ++ dq ++ "}} unavailable");
     cc_ConditionFormatTemplate := "the number of available instances < <threshold> of the desired" |};
  {| cc_Id := "InstanceRestarts"; cc_Category := AuditReportInstances; cc_Type := CheckTypeItemBased; cc_Title := "Restarts";
     cc_DefaultThreshold := F32.of_Z 1; cc_Unit := "";
     cc_MessageTemplate := ("application restarted {{.Count " ++ dq ++ "time" ++ dq ++ "}}");
     cc_ConditionFormatTemplate := "the number of container restarts > <threshold>" |};
  {| cc_Id := "DeploymentStatus"; cc_Category := AuditReportDeployments; cc_Type := CheckTypeValueBased; cc_Title := "Deployment status";
     cc_DefaultThreshold := F32.of_Z 180; cc_Unit := CheckUnitSecond;
     cc_MessageTemplate := "the rollout has already been in progress for {{.Value}}";
     cc_ConditionFormatTemplate := "a rollout is in progress > <threshold>" |}].
Definition redis_mongodb_checks : list CheckConfig := [
  {| cc_Id := "RedisAvailability"; cc_Category := AuditReportRedis; cc_Type := CheckTypeItemBased; cc_Title := "Redis availability";
     cc_DefaultThreshold := F32.of_Z 0; cc_Unit := "";
     cc_MessageTemplate := ("{{.ItemsWithToBe " ++ dq ++ "redis instance" ++ dq ++ "}} unavailable");
     cc_ConditionFormatTemplate := "the number of unavailable redis instances > <threshold>" |};
  {| cc_Id := "RedisLatency"; cc_Category := AuditReportRedis; cc_Type := CheckTypeItemBased; cc_Title := "Redis latency";
     cc_DefaultThreshold := F32.frac 5 1000; cc_Unit := CheckUnitSecond;
     cc_MessageTemplate := ("{{.ItemsWithToBe " ++ dq ++ "redis instance" ++ dq ++ "}} performing slowly");
     cc_ConditionFormatTemplate := "the average command execution time of a redis instance > <threshold>" |};
  {| cc_Id := "MongodbAvailability"; cc_Category := AuditReportMongodb; cc_Type := CheckTypeItemBased; cc_Title := "Mongodb availability";
     cc_DefaultThreshold := F32.of_Z 0; cc_Unit := "";
     cc_MessageTemplate := ("{{.ItemsWithToBe " ++ dq ++ "mongodb instance" ++ dq ++ "}} unavailable");
     cc_ConditionFormatTemplate := "the number of unavailable mongodb instances > <threshold>" |};
  {| cc_Id := "MongodbReplicationLag"; cc_Category := AuditReportMongodb; cc_Type := CheckTypeItemBased; cc_Title := "Mongodb replication lag";
     cc_DefaultThreshold := F32.of_Z 30; cc_Unit := CheckUnitSecond;
     cc_MessageTemplate := ("{{.ItemsWithToBe " ++ dq ++ "mongodb replica" ++ dq ++ "}} far behind the primary");
     cc_ConditionFormatTemplate := "replication lag > <threshold>" |};
  {| cc_Id := "MongodbLatency"; cc_Category := AuditReportMongodb; cc_Type := CheckTypeItemBased; cc_Title := "Mongodb latency";
     cc_DefaultThreshold := F32.frac 1 10; cc_Unit := CheckUnitSecond;
     cc_MessageTemplate := ("{{.ItemsWithToBe " ++ dq ++ "mongodb instance" ++ dq ++ "}} performing slowly");
     cc_ConditionFormatTemplate := "the average operation latency of a mongodb instance > <threshold>" |};
  {| cc_Id := "MongodbOplogWindow"; cc_Category := AuditReportMongodb; cc_Type := CheckTypeItemBased; cc_Title := "Mongodb oplog window";
     cc_DefaultThreshold := F32.of_Z 3600; cc_Unit := CheckUnitSecond;
     cc_MessageTemplate := ("{{.ItemsWithToBe " ++ dq ++ "mongodb instance" ++ dq ++ "}} at risk of a full resync: the oplog window is too small");
     cc_ConditionFormatTemplate := "the oplog window of a mongodb instance < <threshold>" |};
  {| cc_Id := "MongodbConnections"; cc_Category := AuditReportMongodb; cc_Type := CheckTypeItemBased; cc_Title := "Mongodb connections";
     cc_DefaultThreshold := F32.of_Z 90; cc_Unit := CheckUnitPercent;
     cc_MessageTemplate := ("{{.ItemsWithToBe " ++ dq ++ "mongodb instance" ++ dq ++ "}} approaching the connection limit");
     cc_ConditionFormatTemplate := "the number of connections of a mongodb instance > <threshold> of the limit" |};
  {| cc_Id := "MongodbSaturation"; cc_Category := AuditReportMongodb; cc_Type := CheckTypeItemBased; cc_Title := "Mongodb saturation";
     cc_DefaultThreshold := F32.of_Z 0; cc_Unit := "";
     cc_MessageTemplate := ("{{.ItemsWithToBe " ++ dq ++ "mongodb instance" ++ dq ++ "}} saturated: operations are queuing (waiting for a lock or a WiredTiger ticket)");
     cc_ConditionFormatTemplate := "the number of queued operations > <threshold>" |};
  {| cc_Id := "MongodbFragmentation"; cc_Category := AuditReportMongodb; cc_Type := CheckTypeItemBased; cc_Title := "Mongodb storage fragmentation";
     cc_DefaultThreshold := F32.of_Z 50; cc_Unit := CheckUnitPercent;
     cc_MessageTemplate := ("{{.ItemsWithToBe " ++ dq ++ "collection" ++ dq ++ "}} fragmented");
     cc_ConditionFormatTemplate := "reclaimable collection storage > <threshold> of the allocated storage" |};
  {| cc_Id := "MongodbBackups"; cc_Category := AuditReportMongodb; cc_Type := CheckTypeItemBased; cc_Title := "Mongodb backups";
     cc_DefaultThreshold := F32.of_Z 86400; cc_Unit := CheckUnitSecond;
     cc_MessageTemplate := ("backups are failing or stale on {{.Items " ++ dq ++ "mongodb cluster" ++ dq ++ "}}");
     cc_ConditionFormatTemplate := "no successful backup within <threshold>, the last backup failed, or the scheduled backup is overdue" |};
  {| cc_Id := "MemcachedAvailability"; cc_Category := AuditReportMemcached; cc_Type := CheckTypeItemBased; cc_Title := "Memcached availability";
     cc_DefaultThreshold := F32.of_Z 0; cc_Unit := "";
     cc_MessageTemplate := ("{{.ItemsWithToBe " ++ dq ++ "memcached instance" ++ dq ++ "}} unavailable");
     cc_ConditionFormatTemplate := "the number of unavailable memcached instances > <threshold>" |}].
Definition postgres_checks : list CheckConfig := [
  {| cc_Id := "PostgresAvailability"; cc_Category := AuditReportPostgres; cc_Type := CheckTypeItemBased; cc_Title := "Postgres availability";
     cc_DefaultThreshold := F32.of_Z 0; cc_Unit := "";
     cc_MessageTemplate := ("{{.ItemsWithToBe " ++ dq ++ "postgres instance" ++ dq ++ "}} unavailable");
     cc_ConditionFormatTemplate := "the number of unavailable postgres instances > <threshold>" |};
  {| cc_Id := "PostgresLatency"; cc_Category := AuditReportPostgres; cc_Type := CheckTypeItemBased; cc_Title := "Postgres latency";
     cc_DefaultThreshold := F32.frac 1 10; cc_Unit := CheckUnitSecond;
     cc_MessageTemplate := ("{{.ItemsWithToBe " ++ dq ++ "postgres instance" ++ dq ++ "}} performing slowly");
     cc_ConditionFormatTemplate := "the average query execution time of a postgres instance > <threshold>" |};
  {| cc_Id := "PostgresReplicationLag"; cc_Category := AuditReportPostgres; cc_Type := CheckTypeItemBased; cc_Title := "Postgres replication lag";
     cc_DefaultThreshold := F32.of_Z 30; cc_Unit := CheckUnitSecond;
     cc_MessageTemplate := ("{{.ItemsWithToBe " ++ dq ++ "postgres replica" ++ dq ++ "}} far behind the primary");
     cc_ConditionFormatTemplate := "replication lag > <threshold>" |};
  {| cc_Id := "PostgresConnections"; cc_Category := AuditReportPostgres; cc_Type := CheckTypeItemBased; cc_Title := "Postgres connections";
     cc_DefaultThreshold := F32.of_Z 90; cc_Unit := CheckUnitPercent;
     cc_MessageTemplate := ("{{.ItemsWithHave " ++ dq ++ "postgres instance" ++ dq ++ "}} too many connections");
     cc_ConditionFormatTemplate := "the number of connections > <threshold> of `max_connections`" |};
  {| cc_Id := "PostgresCheckpoint"; cc_Category := AuditReportPostgres; cc_Type := CheckTypeItemBased; cc_Title := "Postgres checkpoints";
     cc_DefaultThreshold := F32.of_Z 3; cc_Unit := "";
     cc_MessageTemplate := ("too long since the last checkpoint on {{.Items " ++ dq ++ "postgres instance" ++ dq ++ "}}");
     cc_ConditionFormatTemplate := "time since the last checkpoint > <threshold> * `checkpoint_timeout`" |};
  {| cc_Id := "PostgresWalArchiving"; cc_Category := AuditReportPostgres; cc_Type := CheckTypeItemBased; cc_Title := "Postgres WAL archiving";
     cc_DefaultThreshold := F32.of_Z 0; cc_Unit := "";
     cc_MessageTemplate := ("WAL archiving is failing on {{.Items " ++ dq ++ "postgres instance" ++ dq ++ "}}");
     cc_ConditionFormatTemplate := "the most recent WAL archive attempt has failed" |};
  {| cc_Id := "PostgresWraparound"; cc_Category := AuditReportPostgres; cc_Type := CheckTypeItemBased; cc_Title := "Postgres transaction ID wraparound";
     cc_DefaultThreshold := F32.of_Z 50; cc_Unit := CheckUnitPercent;
     cc_MessageTemplate := ("transaction ID wraparound risk on {{.Items " ++ dq ++ "postgres instance" ++ dq ++ "}}");
     cc_ConditionFormatTemplate := "the transaction ID age > <threshold> of the wraparound limit" |};
  {| cc_Id := "PostgresBloat"; cc_Category := AuditReportPostgres; cc_Type := CheckTypeItemBased; cc_Title := "Postgres bloat";
     cc_DefaultThreshold := F32.of_Z 50; cc_Unit := CheckUnitPercent;
     cc_MessageTemplate := ("{{.ItemsWithToBe " ++ dq ++ "database" ++ dq ++ "}} bloated");
     cc_ConditionFormatTemplate := "the estimated wasted space of a database > <threshold> of its size" |};
  {| cc_Id := "PostgresAutovacuum"; cc_Category := AuditReportPostgres; cc_Type := CheckTypeItemBased; cc_Title := "Postgres autovacuum";
     cc_DefaultThreshold := F32.of_Z 2; cc_Unit := "";
     cc_MessageTemplate := ("autovacuum is falling behind on {{.Items " ++ dq ++ "postgres instance" ++ dq ++ "}}");
     cc_ConditionFormatTemplate := "a table sits above <threshold>x its autovacuum trigger threshold with a material amount of dead rows" |};
  {| cc_Id := "PostgresStaleStatistics"; cc_Category := AuditReportPostgres; cc_Type := CheckTypeItemBased; cc_Title := "Postgres stale statistics";
     cc_DefaultThreshold := F32.of_Z 2; cc_Unit := "";
     cc_MessageTemplate := ("planner statistics are stale on {{.Items " ++ dq ++ "postgres instance" ++ dq ++ "}}");
     cc_ConditionFormatTemplate := "a large table sits above <threshold>x its autoanalyze trigger threshold" |};
  {| cc_Id := "PostgresBackups"; cc_Category := AuditReportPostgres; cc_Type := CheckTypeItemBased; cc_Title := "Postgres backups";
     cc_DefaultThreshold := F32.of_Z 86400; cc_Unit := CheckUnitSecond;
     cc_MessageTemplate := ("backups are failing or stale on {{.Items " ++ dq ++ "postgres cluster" ++ dq ++ "}}");
     cc_ConditionFormatTemplate := "no successful backup within <threshold>, the last backup failed, or WAL archiving is broken" |}].
Definition runtime_dns_checks : list CheckConfig := [
  {| cc_Id := "LogErrors"; cc_Category := AuditReportLogs; cc_Type := CheckTypeEventBased; cc_Title := "Errors";
     cc_DefaultThreshold := F32.of_Z 0; cc_Unit := "";
     cc_MessageTemplate := ("{{.Count " ++ dq ++ "error" ++ dq ++ "}} occurred");
     cc_ConditionFormatTemplate := "the number of messages with the ERROR and CRITICAL severity levels > <threshold>" |};
  {| cc_Id := "JvmAvailability"; cc_Category := AuditReportJvm; cc_Type := CheckTypeItemBased; cc_Title := "JVM availability";
     cc_DefaultThreshold := F32.of_Z 0; cc_Unit := "";
     cc_MessageTemplate := ("{{.ItemsWithToBe " ++ dq ++ "JVM instance" ++ dq ++ "}} unavailable");
     cc_ConditionFormatTemplate := "the number of unavailable JVM instances > <threshold>" |};
  {| cc_Id := "JvmSafepointTime"; cc_Category := AuditReportJvm; cc_Type := CheckTypeItemBased; cc_Title := "JVM safepoints";
     cc_DefaultThreshold := F32.frac 5 100; cc_Unit := CheckUnitSecond;
     cc_MessageTemplate := ("high safepoint time on {{.Items " ++ dq ++ "JVM instance" ++ dq ++ "}}");
     cc_ConditionFormatTemplate := "the time application have been stopped for safepoint operations > <threshold>" |};
  {| cc_Id := "DotNetAvailability"; cc_Category := AuditReportDotNet; cc_Type := CheckTypeItemBased; cc_Title := ".NET runtime availability";
     cc_DefaultThreshold := F32.of_Z 0; cc_Unit := "";
     cc_MessageTemplate := ("{{.ItemsWithToBe " ++ dq ++ ".NET instance" ++ dq ++ "}} unavailable");
     cc_ConditionFormatTemplate := "the number of unavailable .NET instances > <threshold>" |};
  {| cc_Id := "PythonGILWaitingTime"; cc_Category := AuditReportPython; cc_Type := CheckTypeItemBased; cc_Title := "Python GIL (Global Interpreter Lock) waiting time";
     cc_DefaultThreshold := F32.frac 5 100; cc_Unit := CheckUnitSecond;
     cc_MessageTemplate := ("high GIL waiting times on {{.Items " ++ dq ++ "Python instance" ++ dq ++ "}}");
     cc_ConditionFormatTemplate := "the time Python threads have been waiting for acquiring the GIL (Global Interpreter Lock) > <threshold>" |};
  {| cc_Id := "NodejsEventLoopBlockedTime"; cc_Category := AuditReportNodejs; cc_Type := CheckTypeItemBased; cc_Title := "Node.js event loop blocked time";
     cc_DefaultThreshold := F32.frac 7 10; cc_Unit := CheckUnitSecond;
     cc_MessageTemplate := ("high Node.js event loop blocked times on {{.Items " ++ dq ++ "Node.js instance" ++ dq ++ "}}");
     cc_ConditionFormatTemplate := "the time Node.js event loop executes blocking code > <threshold>" |};
  {| cc_Id := "DnsLatency"; cc_Category := AuditReportDNS; cc_Type := CheckTypeValueBased; cc_Title := "DNS latency";
     cc_DefaultThreshold := F32.frac 1 10; cc_Unit := CheckUnitSecond;
     cc_MessageTemplate := "high latency";
     cc_ConditionFormatTemplate := "the 95th percentile of DNS response times > <threshold>" |};
  {| cc_Id := "DnsServerErrors"; cc_Category := AuditReportDNS; cc_Type := CheckTypeEventBased; cc_Title := "DNS server errors";
     cc_DefaultThreshold := F32.of_Z 0; cc_Unit := "";
     cc_MessageTemplate := ("{{.Count " ++ dq ++ "server DNS error" ++ dq ++ "}} occurred");
     cc_ConditionFormatTemplate := "the number of server DNS errors (excluding NXDOMAIN) > <threshold>" |};
  {| cc_Id := "DnsNxdomainErrors"; cc_Category := AuditReportDNS; cc_Type := CheckTypeEventBased; cc_Title := "DNS NXDOMAIN errors";
     cc_DefaultThreshold := F32.of_Z 0; cc_Unit := "";
     cc_MessageTemplate := ("the app received an empty DNS response {{.Count " ++ dq ++ "time" ++ dq ++ "}}");
     cc_ConditionFormatTemplate := "the number of the NXDOMAIN DNS errors (for previously valid requests) > <threshold>" |}].
Definition mysql_checks : list CheckConfig := [
  {| cc_Id := "MysqlAvailability"; cc_Category := AuditReportMysql; cc_Type := CheckTypeItemBased; cc_Title := "Mysql availability";
     cc_DefaultThreshold := F32.of_Z 0; cc_Unit := "";
     cc_MessageTemplate := ("{{.ItemsWithToBe " ++ dq ++ "mysql instance" ++ dq ++ "}} unavailable");
     cc_ConditionFormatTemplate := "the number of unavailable mysql instances > <threshold>" |};
  {| cc_Id := "MysqlReplicationStatus"; cc_Category := AuditReportMysql; cc_Type := CheckTypeItemBased; cc_Title := "Mysql replication status";
     cc_DefaultThreshold := F32.of_Z 0; cc_Unit := CheckUnitSecond;
     cc_MessageTemplate := ("{{.ItemsWithHave " ++ dq ++ "mysql replica" ++ dq ++ "}} issues with IO or SQL replication threads");
     cc_ConditionFormatTemplate := "IO or SQL replication thread is not running " |};
  {| cc_Id := "MysqlReplicationLag"; cc_Category := AuditReportMysql; cc_Type := CheckTypeItemBased; cc_Title := "Mysql replication lag";
     cc_DefaultThreshold := F32.of_Z 30; cc_Unit := CheckUnitSecond;
     cc_MessageTemplate := ("{{.ItemsWithToBe " ++ dq ++ "mysql replica" ++ dq ++ "}} far behind the primary");
     cc_ConditionFormatTemplate := "replication lag > <threshold>" |};
  {| cc_Id := "MysqlConnections"; cc_Category := AuditReportMysql; cc_Type := CheckTypeItemBased; cc_Title := "Mysql connections";
     cc_DefaultThreshold := F32.of_Z 90; cc_Unit := CheckUnitPercent;
     cc_MessageTemplate := ("{{.ItemsWithHave " ++ dq ++ "mysql instance" ++ dq ++ "}} too many connections");
     cc_ConditionFormatTemplate := "the number of connections > <threshold> of `max_connections`" |}].

(** [Checks] *)
Definition Checks : list CheckConfig :=
  workload_checks ++ redis_mongodb_checks ++ postgres_checks ++ runtime_dns_checks ++ mysql_checks.


(** [Checks.index] *)
Definition check_index (id : string) : option CheckConfig := List.find (λ c, String.eqb (cc_Id c) id) Checks.

(** The thresholds of two checks the code names. *)
Definition default_threshold (id : string) : f32 :=
  match check_index id with Some c => cc_DefaultThreshold c | None => F32.zero end.

(** * Settings *)
Record CheckConfigSimple := { cs_Threshold : f32 }.
Record CheckConfigSLOAvailability := {
  ca_Custom : bool;
  ca_TotalRequestsQuery : string;
  ca_FailedRequestsQuery : string;
  ca_ObjectivePercentage : f32;
  ca_Source : string;
  ca_Error : string
}.
Record CheckConfigSLOLatency := {
  cl_Custom : bool;
  cl_HistogramQuery : string;
  cl_ObjectiveBucket : f32;
  cl_ObjectivePercentage : f32;
  cl_Source : string;
  cl_Error : string
}.

Definition simple_field (k : string) (v : json) (c : CheckConfigSimple) : option CheckConfigSimple :=
  if is_field "threshold" k then (λ t, {| cs_Threshold := t |}) <$> json_float v (cs_Threshold c) else Some c.
Definition decode_simple : json → option CheckConfigSimple := json_struct simple_field {| cs_Threshold := F32.zero |}.

Definition ca_make (custom : bool) (total failed : string) (o : f32) (source error : string) : CheckConfigSLOAvailability :=
  {| ca_Custom := custom; ca_TotalRequestsQuery := total; ca_FailedRequestsQuery := failed; ca_ObjectivePercentage := o;
     ca_Source := source; ca_Error := error |}.
Definition availability_field (k : string) (v : json) (c : CheckConfigSLOAvailability) : option CheckConfigSLOAvailability :=
  let '{| ca_Custom := u; ca_TotalRequestsQuery := t; ca_FailedRequestsQuery := f; ca_ObjectivePercentage := o; ca_Source := s; ca_Error := e |} := c in
  if is_field "custom" k then (λ x, ca_make x t f o s e) <$> json_bool v u
  else if is_field "total_requests_query" k then (λ x, ca_make u x f o s e) <$> json_string v t
  else if is_field "failed_requests_query" k then (λ x, ca_make u t x o s e) <$> json_string v f
  else if is_field "objective_percentage" k then (λ x, ca_make u t f x s e) <$> json_float v o
  else if is_field "source" k then (λ x, ca_make u t f o x e) <$> json_string v s
  else if is_field "error" k then (λ x, ca_make u t f o s x) <$> json_string v e
  else Some c.
Definition decode_availability : json → option (list CheckConfigSLOAvailability) :=
  json_list (json_struct availability_field (ca_make false "" "" F32.zero "" "")).

Definition cl_make (custom : bool) (query : string) (b o : f32) (source error : string) : CheckConfigSLOLatency :=
  {| cl_Custom := custom; cl_HistogramQuery := query; cl_ObjectiveBucket := b; cl_ObjectivePercentage := o;
     cl_Source := source; cl_Error := error |}.
Definition latency_field (k : string) (v : json) (c : CheckConfigSLOLatency) : option CheckConfigSLOLatency :=
  let '{| cl_Custom := u; cl_HistogramQuery := q; cl_ObjectiveBucket := b; cl_ObjectivePercentage := o; cl_Source := s; cl_Error := e |} := c in
  if is_field "custom" k then (λ x, cl_make x q b o s e) <$> json_bool v u
  else if is_field "histogram_query" k then (λ x, cl_make u x b o s e) <$> json_string v q
  else if is_field "objective_bucket" k then (λ x, cl_make u q x o s e) <$> json_float v b
  else if is_field "objective_percentage" k then (λ x, cl_make u q b x s e) <$> json_float v o
  else if is_field "source" k then (λ x, cl_make u q b o x e) <$> json_string v s
  else if is_field "error" k then (λ x, cl_make u q b o s x) <$> json_string v e
  else Some c.
Definition decode_latency : json → option (list CheckConfigSLOLatency) :=
  json_list (json_struct latency_field (cl_make false "" F32.zero F32.zero "" "")).

(** * CheckConfigs *)
(** [cc[id]], then [appConfigs[checkId]] *)
Definition configs_of (cc : CheckConfigs) (id : ApplicationId) : option (gmap string json) :=
  snd <$> List.find (λ p, bool_decide (fst p = id)) cc.
Definition raw_of (cc : CheckConfigs) (id : ApplicationId) (checkId : string) : option json :=
  cs ← configs_of cc id; cs !! checkId.

(** The loop over the patterns. *)
Fixpoint raw_of_pattern (cc : CheckConfigs) (appIdStr checkId : string) : option json :=
  match cc with
  | [] => None
  | (configAppId, appConfigs) :: cc =>
      if IsZero configAppId then raw_of_pattern cc appIdStr checkId
      else if GlobMatch appIdStr [StringWithoutClusterId configAppId] then
        match appConfigs !! checkId with
        | Some cfg => Some cfg
        | None => raw_of_pattern cc appIdStr checkId
        end
      else raw_of_pattern cc appIdStr checkId
  end.

(** The settings, and whether they are the project's default. *)
Definition getRaw (cc : CheckConfigs) (appId : ApplicationId) (checkId : string) : option json * bool :=
  match raw_of cc appId checkId with
  | Some cfg => (Some cfg, false)
  | None =>
      match raw_of_pattern cc (StringWithoutClusterId appId) checkId with
      | Some cfg => (Some cfg, false)
      | None =>
          match raw_of cc ApplicationIdZero checkId with
          | Some cfg => (Some cfg, true)
          | None => (None, false)
          end
      end
  end.

(** An unknown check is a nil pointer. *)
Definition GetSimple (cc : CheckConfigs) (checkId : string) (appId : ApplicationId) : outcome CheckConfigSimple :=
  match check_index checkId with
  | None => Panic
  | Some def =>
      let cfg := {| cs_Threshold := cc_DefaultThreshold def |} in
      match fst (getRaw cc appId checkId) with
      | None => Ret cfg
      | Some raw => Ret (default cfg (decode_simple raw))
      end
  end.

(** The default, the project's settings and the application's own, each when
    there are any. *)
Definition GetSimpleAll (cc : CheckConfigs) (checkId : string) (appId : ApplicationId) : option (list (option CheckConfigSimple)) :=
  match check_index checkId with
  | None => None
  | Some def =>
      let ids := ApplicationIdZero :: (if IsZero appId then [] else [appId]) in
      Some (Some {| cs_Threshold := cc_DefaultThreshold def |}
            :: ((λ id, raw ← raw_of cc id checkId; decode_simple raw) <$> ids))
  end.

Definition GetAvailability (cc : CheckConfigs) (appId : ApplicationId) : CheckConfigSLOAvailability * bool :=
  let defaultCfg o := ca_make false "" "" o "" "" in
  let o := default_threshold "SLOAvailability" in
  match fst (getRaw cc appId "SLOAvailability") with
  | None => (defaultCfg (if String.eqb (Kind appId) ApplicationKindExternalService then F32.zero else o), true)
  | Some raw =>
      match decode_availability raw with
      | None | Some [] => (defaultCfg o, true)
      | Some (c :: _) => (c, false)
      end
  end.

Definition set_bucket (b : f32) (c : CheckConfigSLOLatency) : CheckConfigSLOLatency :=
  cl_make (cl_Custom c) (cl_HistogramQuery c) b (cl_ObjectivePercentage c) (cl_Source c) (cl_Error c).

Definition GetLatency (cc : CheckConfigs) (appId : ApplicationId) (category : string) : CheckConfigSLOLatency * bool :=
  let auxObjectiveBucket := F32.of_Z 5 in
  let objectiveBucket := if Auxiliary category then auxObjectiveBucket else F32.frac 1 2 in
  let defaultCfg o := cl_make false "" objectiveBucket o "" "" in
  let o := default_threshold "SLOLatency" in
  match getRaw cc appId "SLOLatency" with
  | (None, _) => (defaultCfg (if String.eqb (Kind appId) ApplicationKindExternalService then F32.zero else o), true)
  | (Some raw, projectDefault) =>
      match decode_latency raw with
      | None | Some [] => (defaultCfg o, true)
      | Some (c :: _) => (if projectDefault && Auxiliary category then set_bucket auxObjectiveBucket c else c, false)
      end
  end.

(** [GetByCheck]: the settings of one check, decoded by its kind. *)
Inductive CheckConfigAny :=
| AnySimple (c : CheckConfigSimple)
| AnyAvailability (l : list CheckConfigSLOAvailability)
| AnyLatency (l : list CheckConfigSLOLatency).
Definition decode_any (id : string) (raw : json) : option CheckConfigAny :=
  if String.eqb id "SLOAvailability" then AnyAvailability <$> decode_availability raw
  else if String.eqb id "SLOLatency" then AnyLatency <$> decode_latency raw
  else AnySimple <$> decode_simple raw.
Definition GetByCheck (cc : CheckConfigs) (id : string) : list (ApplicationId * CheckConfigAny) :=
  omap (λ '(appId, cs), pair appId <$> (raw ← cs !! id; decode_any id raw)) cc.

(** [AuditReport.CreateCheck]: the check of an application, at its threshold. *)
Definition CreateCheck (cc : CheckConfigs) (appId : ApplicationId) (category : string) (cfg : CheckConfig) : outcome Check_ :=
  let* threshold :=
    if String.eqb (cc_Id cfg) "SLOAvailability" then Ret (ca_ObjectivePercentage (fst (GetAvailability cc appId)))
    else if String.eqb (cc_Id cfg) "SLOLatency" then Ret (cl_ObjectivePercentage (fst (GetLatency cc appId category)))
    else let* c := GetSimple cc (cc_Id cfg) appId in Ret (cs_Threshold c) in
  Ret {| ch_Id := cc_Id cfg; ch_Title := cc_Title cfg; ch_Status := Status.OK; ch_Message := ""; ch_Threshold := threshold;
         ch_Unit := cc_Unit cfg; ch_Details := None; ch_typ := cc_Type cfg; ch_messageTemplate := cc_MessageTemplate cfg;
         ch_items := StringSet.NewStringSet []; ch_count := 0; ch_value := F32.zero; ch_fired := false |}.

(** * db/check_configs.go *)
Section ops.
Context `{Env} {Mem : Type}.

(** [res[id] = cs] *)
Fixpoint set_configs (id : ApplicationId) (cs : gmap string json) (cc : CheckConfigs) : CheckConfigs :=
  match cc with
  | [] => [(id, cs)]
  | (k, v) :: cc => if bool_decide (k = id) then (k, cs) :: cc else (k, v) :: set_configs id cs cc
  end.

(** The id a row's settings are kept under; [None] when the loop skips it. *)
Definition config_id (projectId : string) (r : CheckConfigsRow) : option ApplicationId :=
  match NewApplicationIdFromString (default "" (ck_application_id r)) projectId with
  | None => None
  | Some id =>
      Some (if String.eqb (Namespace id) "" && String.eqb (Kind id) "" && String.eqb (Name id) "" then ApplicationIdZero else id)
  end.

Fixpoint read_configs (projectId : string) (rows : list CheckConfigsRow) (res : CheckConfigs) : string + CheckConfigs :=
  match rows with
  | [] => inr res
  | r :: rows =>
      match config_id projectId r, ck_configs r with
      | Some id, Some configs =>
          match json_map configs with
          | None => inl "unmarshal"
          | Some cs => read_configs projectId rows (set_configs id cs res)
          end
      | _, _ => read_configs projectId rows res
      end
  end.

Definition config_in (projectId : string) (r : CheckConfigsRow) : bool := String.eqb (ck_project_id r) projectId.
Definition config_of (projectId appIdStr : string) (r : CheckConfigsRow) : bool :=
  config_in projectId r && match ck_application_id r with Some a => String.eqb a appIdStr | None => false end.

Definition GetCheckConfigs `{MapOrder} (projectId : string) : M Mem (string + CheckConfigs) :=
  select_rows (λ t, where_ (config_in projectId) (t_check_configs t)) (λ rows, read_configs projectId rows []).

Definition row_set_configs (data : json) (r : CheckConfigsRow) : CheckConfigsRow :=
  {| ck_project_id := ck_project_id r; ck_application_id := ck_application_id r; ck_configs := Some data |}.

(** [cfg] is what json.Marshal makes of the settings; [null] removes them.  (A
    column that holds [null], which is never written, is read as no settings.) *)
Definition set_config (checkId : string) (cfg : json) (cs : gmap string json) : gmap string json :=
  match cfg with JNull => delete checkId cs | _ => <[checkId := cfg]> cs end.

Definition SaveCheckConfig (projectId : string) (appId : ApplicationId) (checkId : string) (cfg : option json) : M Mem (string + unit) :=
  let appIdStr := AppIdString appId in
  r ← select (λ t, inr (ck ← head (where_ (config_of projectId appIdStr) (t_check_configs t)); ck_configs ck));
  match r with
  | inl err => mret (inl err)
  | inr configs =>
      match (match configs with None => Some ∅ | Some j => json_map j end), cfg with
      | Some cs, Some c =>
          let data := json_of_map (set_config checkId c cs) in
          u ← statement (λ t, inr (List.length (where_ (config_of projectId appIdStr) (t_check_configs t)),
                                   with_check_configs (update_where (config_of projectId appIdStr) (row_set_configs data)) t));
          match u with
          | inl err => mret (inl err)
          | inr O =>
              update (with_check_configs (λ rows, (rows ++
                [{| ck_project_id := projectId; ck_application_id := Some appIdStr; ck_configs := Some data |}])%list))
          | inr _ => mret (inr tt)
          end
      | None, _ => mret (inl "unmarshal")
      | _, None => mret (inl "marshal")
      end
  end.

End ops.

#[local] Arguments json_map : simpl never.
#[local] Arguments json_of_map : simpl never.

Module ChecksFacts.

(** ** The order of the map *)
Lemma configs_of_elem (cc : CheckConfigs) id cs :
  NoDup (fst <$> cc) → (configs_of cc id = Some cs ↔ (id, cs) ∈ cc).
Proof.
  unfold configs_of. induction cc as [|[k v] cc IH]; cbn; intros Hn; [split; [done|set_solver]|].
  apply NoDup_cons in Hn as [Hk Hn]. destruct (bool_decide_reflect (k = id)) as [->|Hne]; cbn.
  - split; [intros [= ->]; left|]. intros [[= ->]|Hin]%elem_of_cons; [done|].
    exfalso. apply Hk. apply list_elem_of_fmap. by exists (id, cs).
  - rewrite IH by done. rewrite elem_of_cons. split; [auto|]. intros [[= -> _]|?]; [done|done].
Qed.

Lemma configs_of_perm (cc cc' : CheckConfigs) id : cc ≡ₚ cc' → NoDup (fst <$> cc) → configs_of cc id = configs_of cc' id.
Proof.
  intros Hp Hn. assert (NoDup (fst <$> cc')) as Hn' by (by rewrite <- Hp).
  apply option_eq. intros cs. by rewrite !configs_of_elem, Hp.
Qed.

(** An entry that is a pattern for the application, with settings of the check. *)
Definition pattern_match (appIdStr checkId : string) (e : ApplicationId * gmap string json) (raw : json) : Prop :=
  IsZero (fst e) = false ∧ GlobMatch appIdStr [StringWithoutClusterId (fst e)] = true ∧ snd e !! checkId = Some raw.

Lemma raw_of_pattern_spec cc appIdStr checkId :
  match raw_of_pattern cc appIdStr checkId with
  | Some raw => ∃ e, e ∈ cc ∧ pattern_match appIdStr checkId e raw
  | None => ∀ e raw, e ∈ cc → ¬ pattern_match appIdStr checkId e raw
  end.
Proof.
  induction cc as [|[k v] cc IH]; cbn [raw_of_pattern]; [set_solver|].
  assert (Hskip : (∀ raw, ¬ pattern_match appIdStr checkId (k, v) raw) →
    match raw_of_pattern cc appIdStr checkId with
    | Some raw => ∃ e, e ∈ (k, v) :: cc ∧ pattern_match appIdStr checkId e raw
    | None => ∀ e raw, e ∈ (k, v) :: cc → ¬ pattern_match appIdStr checkId e raw
    end).
  { intros Hno. destruct (raw_of_pattern cc appIdStr checkId); [destruct IH as (e & ? & ?); exists e; set_solver|].
    intros e raw [-> |He]%elem_of_cons; [apply Hno|by apply IH]. }
  unfold pattern_match in *. cbn [fst snd] in *.
  destruct (IsZero k) eqn:Hz; [apply Hskip; by intros raw (? & _)|].
  destruct (GlobMatch _ _) eqn:Hg; [|apply Hskip; by intros raw (_ & ? & _)].
  destruct (v !! checkId) as [raw|] eqn:Hv; [exists (k, v); split; [left|done]|apply Hskip; intros raw (_ & _ & ?); congruence].
Qed.

(** The settings of an application do not depend on the order in which the
    map is visited, as long as the patterns that match it and have settings for
    the check agree; an exact entry goes before a pattern, a pattern before the
    project's default, and only the default is reported as such. *)
Theorem getRaw_order_independent (cc cc' : CheckConfigs) (appId : ApplicationId) (checkId : string)
    (Hperm : cc ≡ₚ cc') (Hkeys : NoDup (fst <$> cc))
    (Hagree : ∀ e e' raw raw', e ∈ cc → e' ∈ cc → pattern_match (StringWithoutClusterId appId) checkId e raw →
                pattern_match (StringWithoutClusterId appId) checkId e' raw' → raw = raw') :
  getRaw cc appId checkId = getRaw cc' appId checkId
  ∧ (∀ raw, raw_of cc appId checkId = Some raw → getRaw cc appId checkId = (Some raw, false))
  ∧ (∀ e raw, raw_of cc appId checkId = None → e ∈ cc → pattern_match (StringWithoutClusterId appId) checkId e raw →
       getRaw cc appId checkId = (Some raw, false))
  ∧ (snd (getRaw cc appId checkId) = true → fst (getRaw cc appId checkId) = raw_of cc ApplicationIdZero checkId).
Proof.
  set (str := StringWithoutClusterId appId) in *.
  assert (Hraw : ∀ id, raw_of cc id checkId = raw_of cc' id checkId) by (intros id; unfold raw_of; by rewrite (configs_of_perm cc cc')).
  pose proof (raw_of_pattern_spec cc str checkId) as H1. pose proof (raw_of_pattern_spec cc' str checkId) as H2.
  assert (Hpat : raw_of_pattern cc str checkId = raw_of_pattern cc' str checkId).
  { destruct (raw_of_pattern cc _ _) as [r|] eqn:E1, (raw_of_pattern cc' _ _) as [r'|] eqn:E2; [| | |done].
    - destruct H1 as (e & He & Hm), H2 as (e' & He' & Hm'). f_equal. rewrite <- Hperm in He'. by apply (Hagree e e').
    - destruct H1 as (e & He & Hm). rewrite Hperm in He. by apply H2 in Hm.
    - destruct H2 as (e & He & Hm). rewrite <- Hperm in He. by apply H1 in Hm. }
  unfold getRaw. fold str. split_and!.
  - by rewrite !Hraw, Hpat.
  - by intros raw ->.
  - intros e raw -> He Hm. destruct (raw_of_pattern cc str checkId) as [r|]; [|by apply H1 in Hm].
    destruct H1 as (e' & He' & Hm'). do 2 f_equal. by apply (Hagree e' e).
  - destruct (raw_of cc appId checkId); [done|]. destruct (raw_of_pattern cc str checkId); [done|].
    by destruct (raw_of cc ApplicationIdZero checkId).
Qed.

(** Without agreement the order decides: two patterns of the tests of the
    repository match one application. *)
Definition app_of (name : string) : ApplicationId := NewApplicationId "c" "default" "Deployment" name.
Definition two_patterns : CheckConfigs :=
  [(app_of "*-api", {["SLOAvailability" := JNum (F32.of_Z 98)]}); (app_of "test-*", {["SLOAvailability" := JNum (F32.of_Z 90)]})].

Lemma getRaw_order_independent_witness :
  getRaw two_patterns (app_of "auth-api") "SLOAvailability" = getRaw (reverse two_patterns) (app_of "auth-api") "SLOAvailability"
  ∧ fst (getRaw two_patterns (app_of "test-api") "SLOAvailability") = Some (JNum (F32.of_Z 98))
  ∧ fst (getRaw (reverse two_patterns) (app_of "test-api") "SLOAvailability") = Some (JNum (F32.of_Z 90)).
Proof.
  split; [|split; vm_compute; reflexivity].
  refine (proj1 (getRaw_order_independent two_patterns (reverse two_patterns) (app_of "auth-api") "SLOAvailability" _ _ _)).
  - symmetry. apply reverse_Permutation.
  - apply NoDup_cons. split; [|apply NoDup_singleton]. intros H%list_elem_of_singleton. discriminate H.
  - intros e e' raw raw' [-> |He%list_elem_of_singleton]%elem_of_cons; [|subst e; intros _ (_ & H & _); vm_compute in H; discriminate].
    intros [-> |He'%list_elem_of_singleton]%elem_of_cons; [|subst e'; intros _ (_ & H & _); vm_compute in H; discriminate].
    intros (_ & _ & H) (_ & _ & H'). congruence.
Defined.

(** ** Saving and reading back *)
Lemma configs_of_set id cs cc id' :
  configs_of (set_configs id cs cc) id' = if bool_decide (id = id') then Some cs else configs_of cc id'.
Proof.
  unfold configs_of. induction cc as [|[k v] cc IH]; cbn; [by destruct (bool_decide _)|].
  destruct (bool_decide_reflect (k = id)) as [->|Hne]; cbn; [by destruct (bool_decide (id = id'))|].
  destruct (bool_decide_reflect (k = id')) as [->|Hne']; cbn; [|exact IH]. by rewrite bool_decide_false by congruence.
Qed.

(** The entry of a row, [None] when the loop skips it. *)
Definition row_entry (projectId : string) (r : CheckConfigsRow) : option (ApplicationId * json) :=
  id ← config_id projectId r; pair id <$> ck_configs r.
Definition readable (projectId : string) (rows : list CheckConfigsRow) : Prop :=
  ∀ r e, r ∈ rows → row_entry projectId r = Some e → is_Some (json_map (snd e)).

(** The settings the rows hold for one application, a text for each of its rows. *)
Definition entry_of (projectId : string) (id : ApplicationId) (r : CheckConfigsRow) : option json :=
  e ← row_entry projectId r; if bool_decide (fst e = id) then Some (snd e) else None.
Definition texts_of (projectId : string) (rows : list CheckConfigsRow) (id : ApplicationId) : list json :=
  omap (entry_of projectId id) rows.

(** The row read last is the one that is kept. *)
Lemma read_configs_run projectId rows res :
  readable projectId rows →
  ∃ cc, read_configs projectId rows res = inr cc
    ∧ ∀ id, configs_of cc id = match last (texts_of projectId rows id) with Some j => json_map j | None => configs_of res id end.
Proof.
  revert res. induction rows as [|r rows IH]; intros res Hr; [by exists res|]. cbn [read_configs].
  assert (Hrows : readable projectId rows) by (intros x e ?; apply Hr; by right).
  assert (Hskip : row_entry projectId r = None → ∀ id, texts_of projectId (r :: rows) id = texts_of projectId rows id).
  { intros Hn id. unfold texts_of. cbn. unfold entry_of at 1. by rewrite Hn. }
  specialize (Hr r). unfold row_entry in Hr, Hskip. destruct (config_id projectId r) as [id|] eqn:Hc.
  2: { destruct (IH res Hrows) as (cc & ? & Hl). exists cc. split; [done|]. intros id. by rewrite Hskip. }
  destruct (ck_configs r) as [j|] eqn:Hj.
  2: { destruct (IH res Hrows) as (cc & ? & Hl). exists cc. split; [done|]. intros id'. by rewrite Hskip. }
  cbn in Hr. destruct (Hr (id, j) ltac:(left) eq_refl) as [cs Hcs]. cbn in Hcs. rewrite Hcs.
  destruct (IH (set_configs id cs res) Hrows) as (cc & Hcc & Hl). exists cc. split; [done|]. intros id'. rewrite Hl, configs_of_set.
  unfold texts_of at 2. cbn. unfold entry_of at 1, row_entry. rewrite Hc, Hj. cbn. fold (texts_of projectId rows id').
  destruct (bool_decide (id = id')); [|done]. rewrite last_cons. by destruct (last _).
Qed.

Section save.
Context `{Env} `{MapOrder} {Mem : Type}.
Context (Hnf : ∀ k, env_fault k = None).
Context (projectId : string) (appId : ApplicationId) (checkId : string) (c : json).

(** The id under which a text is read, and the rows it is read from. *)
Definition text_id (text : string) : option ApplicationId :=
  config_id projectId {| ck_project_id := projectId; ck_application_id := Some text; ck_configs := None |}.

Abbreviation own := (config_of projectId (AppIdString appId)).
Abbreviation of_project rows := (where_ (config_in projectId) rows).
Abbreviation keys rows := ((λ r, (ck_project_id r, ck_application_id r)) <$> rows).

Context (Hid : text_id (AppIdString appId) = Some appId).

(** What reading the rows, in whatever order they come, finds for an
    application: the settings of one of its rows. *)
Lemma GetCheckConfigs_run (s : Sys Mem) :
  let rows := of_project (t_check_configs (sys_tables s)) in
  readable projectId rows →
  ∃ cc, GetCheckConfigs projectId s = (inr cc, tick s)
    ∧ ∀ id, match texts_of projectId rows id with
            | [] => configs_of cc id = None
            | texts => ∃ j, j ∈ texts ∧ configs_of cc id = json_map j
            end.
Proof.
  intros rows Hread. unfold GetCheckConfigs, select_rows. rewrite DbFacts.select_run by done. fold rows.
  pose proof (map_order_perm _ (sys_ticks s) rows) as Hperm. set (rows' := map_order (sys_ticks s) rows) in *.
  destruct (read_configs_run projectId rows' []) as (cc & Hcc & Hl).
  { intros r e Hr. apply Hread. by rewrite <- Hperm. }
  exists cc. split; [by rewrite Hcc|]. intros id. specialize (Hl id). cbn in Hl.
  assert (Hp : texts_of projectId rows' id ≡ₚ texts_of projectId rows id) by (unfold texts_of; by rewrite Hperm).
  destruct (texts_of projectId rows id) as [|j0 l] eqn:E.
  - apply Permutation_nil_r in Hp. by rewrite Hp in Hl.
  - destruct (last (texts_of projectId rows' id)) as [j|] eqn:El.
    + exists j. split; [|done]. rewrite <- Hp. by apply last_Some_elem_of.
    + apply last_None in El. rewrite El in Hp. by apply Permutation_nil_cons in Hp.
Qed.

Lemma configs_of_texts rows (cc : CheckConfigs) id j :
  match texts_of projectId rows id with
  | [] => configs_of cc id = None
  | texts => ∃ j, j ∈ texts ∧ configs_of cc id = json_map j
  end → (∀ j', j' ∈ texts_of projectId rows id → j' = j) →
  configs_of cc id = match texts_of projectId rows id with [] => None | _ => json_map j end.
Proof.
  intros Hcc Hj. destruct (texts_of projectId rows id); [done|]. destruct Hcc as (j' & Hin & ->). by rewrite (Hj j' Hin).
Qed.

Lemma own_text r : own r = true → ck_application_id r = Some (AppIdString appId) ∧ config_in projectId r = true.
Proof.
  unfold config_of. intros [Hp Ha]%andb_true_iff. destruct (ck_application_id r) as [a|]; [|done].
  apply String.eqb_eq in Ha as ->. done.
Qed.

Lemma own_id r : own r = true → config_id projectId r = Some appId.
Proof. intros [Ht _]%own_text. rewrite <- Hid. unfold text_id, config_id. by rewrite Ht. Qed.

Lemma row_entry_saved r data : own r = true → row_entry projectId (row_set_configs data r) = Some (appId, data).
Proof. intros Ho. unfold row_entry. change (config_id _ (row_set_configs data r)) with (config_id projectId r). by rewrite own_id. Qed.

(** A row of the project that is read as the application's, stored under an
    older form of its id. *)
Definition older_form (r : CheckConfigsRow) : Prop :=
  config_in projectId r = true ∧ config_id projectId r = Some appId ∧ own r = false.
Definition no_older_row (rows : list CheckConfigsRow) : Prop := ∀ r, r ∈ rows → ¬ older_form r.
(** No two rows of the project are read as the same application's. *)
Definition one_row (rows : list CheckConfigsRow) (id : ApplicationId) : Prop :=
  (List.length (texts_of projectId (of_project rows) id) ≤ 1)%nat.

(** The settings in the application's own row. *)
Definition own_configs (rows : list CheckConfigsRow) : option json := r ← head (where_ own rows); ck_configs r.
Definition own_settings (rows : list CheckConfigsRow) : gmap string json := default ∅ (j ← own_configs rows; json_map j).

Lemma own_rows rows r r' : NoDup (keys rows) → r ∈ rows → r' ∈ rows → own r = true → own r' = true → r = r'.
Proof.
  intros Hn [i Hi]%list_elem_of_lookup [j Hj]%list_elem_of_lookup [Ht Hp]%own_text [Ht' Hp']%own_text.
  assert (i = j) as ->; [|congruence].
  unfold config_in in *. apply String.eqb_eq in Hp, Hp'.
  eapply NoDup_lookup; [exact Hn|rewrite list_lookup_fmap, Hi; done|rewrite list_lookup_fmap, Hj; cbn; congruence].
Qed.

Lemma own_configs_of rows r : NoDup (keys rows) → r ∈ rows → own r = true → own_configs rows = ck_configs r.
Proof.
  intros Hn Hin Ho. unfold own_configs. destruct (where_ own rows) as [|r' l] eqn:E; cbn.
  - assert (r ∈ where_ own rows) as Hr by (by apply elem_of_where). rewrite E in Hr. by apply not_elem_of_nil in Hr.
  - assert (r' ∈ where_ own rows) as [Hin' Ho']%elem_of_where by (rewrite E; left). by rewrite (own_rows rows r r').
Qed.

Lemma elem_of_texts rows id j :
  j ∈ texts_of projectId rows id ↔ ∃ r, r ∈ rows ∧ config_id projectId r = Some id ∧ ck_configs r = Some j.
Proof.
  unfold texts_of. rewrite list_elem_of_omap. split; intros (r & Hr & He); exists r; (split; [done|]); revert He; unfold entry_of, row_entry.
  - destruct (config_id projectId r) as [id'|]; [|done]. destruct (ck_configs r) as [j'|]; [|done]. cbn.
    by destruct (bool_decide_reflect (id' = id)) as [->|]; [intros [= ->]|].
  - intros [-> ->]. cbn. by rewrite bool_decide_true.
Qed.

(** The rows after a save. *)
Definition saved_row (data : json) : CheckConfigsRow :=
  {| ck_project_id := projectId; ck_application_id := Some (AppIdString appId); ck_configs := Some data |}.
Definition saved (data : json) (rows : list CheckConfigsRow) : list CheckConfigsRow :=
  match where_ own rows with [] => (rows ++ [saved_row data])%list | _ => update_where own (row_set_configs data) rows end.

Lemma own_saved_row data : own (saved_row data) = true.
Proof. unfold config_of, config_in. cbn. by rewrite !String.eqb_refl. Qed.

(** A row of the table after the save: the one saved, or one that was there and
    is not the application's own. *)
Lemma elem_of_saved data rows r :
  r ∈ saved data rows → (own r = true ∧ ck_configs r = Some data) ∨ (own r = false ∧ r ∈ rows).
Proof.
  unfold saved. destruct (where_ own rows) eqn:E.
  - intros [Hr| ->%list_elem_of_singleton]%elem_of_app; [|left; split; [apply own_saved_row|done]].
    right. split; [|done]. destruct (own r) eqn:Ho; [|done]. assert (r ∈ where_ own rows) as Hin by (by apply elem_of_where).
    rewrite E in Hin. by apply not_elem_of_nil in Hin.
  - intros (x & -> & Hx)%list_elem_of_fmap. destruct (own x) eqn:Ho; [left|by right]. split; [exact Ho|done].
Qed.
Lemma saved_has_own data rows : ∃ r, r ∈ saved data rows ∧ own r = true ∧ ck_configs r = Some data.
Proof.
  unfold saved. destruct (where_ own rows) as [|r l] eqn:E.
  - exists (saved_row data). split_and!; [set_solver|apply own_saved_row|done].
  - assert (r ∈ where_ own rows) as [Hr Ho]%elem_of_where by (rewrite E; left). exists (row_set_configs data r).
    split_and!; [|exact Ho|done]. apply list_elem_of_fmap. exists r. by rewrite Ho.
Qed.

Lemma saved_others data rows : where_ (λ r, negb (own r)) (saved data rows) = where_ (λ r, negb (own r)) rows.
Proof.
  unfold saved. destruct (where_ own rows) eqn:E.
  - rewrite where_app. unfold where_ at 2. cbn [List.filter]. rewrite own_saved_row. apply app_nil_r.
  - clear E. unfold where_, update_where. induction rows as [|r rows IH]; [done|]. cbn. destruct (own r) eqn:Ho; cbn [List.filter].
    + change (own (row_set_configs data r)) with (own r). by rewrite Ho.
    + rewrite Ho. cbn. by f_equal.
Qed.

(** Rows of other applications keep what they hold. *)
Lemma texts_of_own rows id : id ≠ appId → texts_of projectId (where_ own rows) id = [].
Proof.
  intros Hne. destruct (texts_of _ _ _) as [|j l] eqn:E; [done|].
  assert (j ∈ texts_of projectId (where_ own rows) id) as (r & [_ Ho]%elem_of_where & Hr & _)%elem_of_texts by (rewrite E; left).
  rewrite own_id in Hr by done. congruence.
Qed.

Lemma texts_of_others rows id :
  id ≠ appId → texts_of projectId (of_project rows) id = texts_of projectId (of_project (where_ (λ r, negb (own r)) rows)) id.
Proof.
  intros Hne. unfold texts_of, where_. induction rows as [|r rows IH]; [done|]. cbn [List.filter].
  destruct (config_in projectId r) eqn:Hp, (own r) eqn:Ho; cbn [negb List.filter omap list_omap]; try rewrite Hp; cbn [omap list_omap]; try done.
  - rewrite IH. unfold entry_of at 1, row_entry. rewrite own_id by done. destruct (ck_configs r); [|done]. cbn.
    by rewrite bool_decide_false by congruence.
  - unfold omap in *. cbn. by rewrite IH.
Qed.

Lemma save_run (s : Sys Mem) :
  let rows := t_check_configs (sys_tables s) in
  NoDup (keys rows) → readable projectId (of_project rows) →
  let '(r, s') := SaveCheckConfig projectId appId checkId (Some c) s in
  r = inr tt ∧ t_check_configs (sys_tables s') = saved (json_of_map (set_config checkId c (own_settings rows))) rows.
Proof.
  intros rows Hn Hread. unfold SaveCheckConfig. unfold mbind at 1, M_bind at 1. rewrite DbFacts.select_run by done. fold rows.
  change (head (where_ own rows) ≫= λ ck, ck_configs ck) with (own_configs rows). cbv iota beta.
  assert (Hcs : match own_configs rows with None => Some ∅ | Some j => json_map j end = Some (own_settings rows)).
  { unfold own_settings. destruct (own_configs rows) as [j|] eqn:Hj; [|done]. cbn. unfold own_configs in Hj.
    destruct (where_ own rows) as [|r l] eqn:E; [done|]. cbn in Hj. assert (r ∈ where_ own rows) as [Hin Ho]%elem_of_where by (rewrite E; left).
    destruct (Hread r (appId, j)) as [cs Hcs]; [apply elem_of_where; by apply own_text in Ho as [_ ?]|unfold row_entry; by rewrite own_id, Hj|].
    cbn in Hcs. by rewrite Hcs. }
  rewrite Hcs. unfold mbind at 1, M_bind at 1. unfold statement at 1. rewrite Hnf. cbn [tick sys_tables sys_mem sys_ticks].
  fold rows. unfold saved. destruct (where_ own rows) as [|r l] eqn:E; cbn [List.length]; [|done].
  rewrite DbFacts.update_run by done. split; [done|]. cbn. fold rows. f_equal.
  unfold update_where. rewrite <- (list_fmap_id rows) at 2. apply list_fmap_ext. intros i x Hx%list_elem_of_lookup_2.
  destruct (own x) eqn:Ho; [|done]. assert (x ∈ where_ own rows) as Hin by (by apply elem_of_where).
  rewrite E in Hin. by apply not_elem_of_nil in Hin.
Qed.

(** The rows after the save are readable, and hold for the application what was saved. *)
Lemma saved_readable m rows :
  readable projectId (of_project rows) → readable projectId (of_project (saved (json_of_map m) rows)).
Proof.
  intros Hread r e [Hin Hp]%elem_of_where He. apply elem_of_saved in Hin as [[Ho Hj]|[Ho Hin]].
  - unfold row_entry in He. rewrite own_id, Hj in He by done. injection He as <-. cbn. rewrite json_map_of_map. by eexists.
  - apply (Hread r); [by apply elem_of_where|done].
Qed.

Lemma saved_texts data rows j :
  j ∈ texts_of projectId (of_project (saved data rows)) appId →
  j = data ∨ ∃ r, r ∈ rows ∧ older_form r ∧ ck_configs r = Some j.
Proof.
  intros (r & [Hin Hp]%elem_of_where & Hr & Hj)%elem_of_texts. apply elem_of_saved in Hin as [[Ho Hd]|[Ho Hin]]; [left; congruence|].
  right. exists r. done.
Qed.

Lemma saved_texts_ne data rows : texts_of projectId (of_project (saved data rows)) appId ≠ [].
Proof.
  destruct (saved_has_own data rows) as (r & Hr & Ho & Hd). intros E.
  assert (data ∈ texts_of projectId (of_project (saved data rows)) appId) as Hin; [|rewrite E in Hin; by apply not_elem_of_nil in Hin].
  apply elem_of_texts. exists r. split_and!; [apply elem_of_where; by apply own_text in Ho as Hp; destruct Hp|by apply own_id|done].
Qed.

(** Before the save, without an older row, what is read is what the application's
    own row holds. *)
Lemma settings_before rows (cc : CheckConfigs) :
  NoDup (keys rows) → no_older_row rows →
  match texts_of projectId (of_project rows) appId with
  | [] => configs_of cc appId = None
  | texts => ∃ j, j ∈ texts ∧ configs_of cc appId = json_map j
  end → default ∅ (configs_of cc appId) = own_settings rows.
Proof.
  intros Hkeys Hold Hcc. unfold own_settings.
  assert (Hown : ∀ j, j ∈ texts_of projectId (of_project rows) appId → own_configs rows = Some j).
  { intros j (r & [Hin Hp]%elem_of_where & Hr & Hj)%elem_of_texts. rewrite <- Hj. apply own_configs_of; [done..|].
    destruct (own r) eqn:Ho; [done|]. by destruct (Hold r Hin). }
  destruct (texts_of projectId (of_project rows) appId) as [|j0 l0] eqn:E0.
  - rewrite Hcc. destruct (own_configs rows) as [j|] eqn:Hj; [|done]. exfalso. unfold own_configs in Hj.
    destruct (where_ own rows) as [|r l1] eqn:E1; [done|]. cbn in Hj.
    assert (r ∈ where_ own rows) as [Hin Ho]%elem_of_where by (rewrite E1; left).
    assert (j ∈ texts_of projectId (of_project rows) appId) as Hj'; [|rewrite E0 in Hj'; by apply not_elem_of_nil in Hj'].
    apply elem_of_texts. exists r. split_and!; [apply elem_of_where; by apply own_text in Ho as [_ ?]|by apply own_id|done].
  - destruct Hcc as (j & Hj & ->). by rewrite (Hown j Hj).
Qed.

(** Saving between two reads. *)
Lemma save_and_read (s : Sys Mem)
    (Hkeys : NoDup (keys (t_check_configs (sys_tables s))))
    (Hread : readable projectId (of_project (t_check_configs (sys_tables s)))) :
  let rows := t_check_configs (sys_tables s) in
  let '(before, s) := GetCheckConfigs projectId s in
  let '(r, s) := SaveCheckConfig projectId appId checkId (Some c) s in
  let '(after, s') := GetCheckConfigs projectId s in
  r = inr tt ∧ ∃ cc cc', before = inr cc ∧ after = inr cc'
    ∧ (∀ id, id ≠ appId → one_row rows id → configs_of cc' id = configs_of cc id)
    ∧ (no_older_row rows → configs_of cc' appId = Some (set_config checkId c (default ∅ (configs_of cc appId))))
    ∧ (configs_of cc' appId = Some (set_config checkId c (own_settings rows))
       ∨ ∃ older j, older ∈ rows ∧ older_form older ∧ ck_configs older = Some j ∧ configs_of cc' appId = json_map j)
    ∧ where_ (λ r, negb (own r)) (t_check_configs (sys_tables s')) = where_ (λ r, negb (own r)) rows.
Proof.
  set (rows := t_check_configs (sys_tables s)) in *. cbv zeta.
  destruct (GetCheckConfigs_run s Hread) as (cc & -> & Hcc). cbv iota beta. fold rows in Hcc.
  pose proof (save_run (tick s) Hkeys Hread) as Hrun. destruct (SaveCheckConfig _ _ _ _ (tick s)) as [r s1].
  destruct Hrun as [-> Hrows]. change (t_check_configs (sys_tables (tick s))) with rows in Hrows.
  set (m := set_config checkId c (own_settings rows)) in *. pose proof (saved_readable m rows Hread) as Hread'. rewrite <- Hrows in Hread'.
  destruct (GetCheckConfigs_run s1 Hread') as (cc' & -> & Hcc'). rewrite Hrows in Hcc'. split; [done|]. exists cc, cc'.
  split; [done|]. split; [done|]. split_and!.
  - intros id Hne Hone. unfold one_row in Hone. specialize (Hcc id). specialize (Hcc' id).
    rewrite (texts_of_others (saved _ _)), saved_others, <- texts_of_others in Hcc' by done.
    destruct (texts_of projectId (of_project rows) id) as [|j [|]]; [congruence| |cbn in Hone; lia].
    destruct Hcc as (j1 & ->%list_elem_of_singleton & ->), Hcc' as (j2 & ->%list_elem_of_singleton & ->). done.
  - intros Hold. rewrite (configs_of_texts _ _ _ (json_of_map m) (Hcc' appId)).
    2: { intros j [?|(r & Hr & Ho & _)]%saved_texts; [done|]. by apply Hold in Ho. }
    destruct (texts_of _ (of_project (saved _ _)) appId) eqn:E; [by apply saved_texts_ne in E|]. rewrite json_map_of_map. unfold m. do 2 f_equal.
    by rewrite (settings_before rows cc Hkeys Hold (Hcc appId)).
  - specialize (Hcc' appId). destruct (texts_of _ (of_project (saved _ _)) appId) as [|j0 l0] eqn:E; [by apply saved_texts_ne in E|].
    destruct Hcc' as (j & Hj & ->). rewrite <- E in Hj. apply saved_texts in Hj as [->|(r & Hr & Ho & Hj)].
    + left. apply json_map_of_map.
    + right. by exists r, j.
  - cbn [tick sys_tables]. rewrite Hrows. apply saved_others.
Qed.

(** C35 Settings that are saved are read back: once a save has succeeded, the
    application's settings are the old ones with the one saved, and those of
    another application stay what they were, in whatever order the rows come
    back (the SELECT has no ORDER BY) and although the two reads may see
    different orders.  That is so as long as the project has one row for the
    application asked about, since of two rows the one read last wins: the
    application's settings are read back if none of its rows is under an older
    form of its id ([no_older_row]).  With such a row either wins: what is read
    is the setting saved, in the settings of the application's own row, or an
    older row's.  No other row of the table changes.  Every row is of its own
    project and id, holds settings that can be read, no call to the database
    fails, and the application's id is one its text is read back as. *)
Theorem SaveCheckConfig_then_Get (s : Sys Mem)
    (Hkeys : NoDup (keys (t_check_configs (sys_tables s))))
    (Hread : readable projectId (of_project (t_check_configs (sys_tables s)))) :
  let rows := t_check_configs (sys_tables s) in
  let '(before, s) := GetCheckConfigs projectId s in
  let '(r, s) := SaveCheckConfig projectId appId checkId (Some c) s in
  let '(after, s') := GetCheckConfigs projectId s in
  r = inr tt ∧ ∃ cc cc', before = inr cc ∧ after = inr cc'
    ∧ (∀ id, id ≠ appId → one_row rows id → configs_of cc' id = configs_of cc id)
    ∧ (no_older_row rows → configs_of cc' appId = Some (set_config checkId c (default ∅ (configs_of cc appId))))
    ∧ (configs_of cc' appId = Some (set_config checkId c (own_settings rows))
       ∨ ∃ older j, older ∈ rows ∧ older_form older ∧ ck_configs older = Some j ∧ configs_of cc' appId = json_map j)
    ∧ where_ (λ r, negb (own r)) (t_check_configs (sys_tables s')) = where_ (λ r, negb (own r)) rows.
Proof. exact (save_and_read s Hkeys Hread). Qed.

End save.

(** A row of the older form of the id, next to which a save makes the
    application's own; which of the two is read is up to the database. *)
#[local] Instance save_env : Env := steady_env 1000.
#[local] Instance as_stored : MapOrder := {| map_order _ _ l := l; map_order_perm _ _ l := reflexivity l |}.
Definition from_the_end : MapOrder := {| map_order _ _ l := reverse l; map_order_perm _ _ l := reverse_Permutation l |}.
Definition app : ApplicationId := {| ClusterId := "p"; Namespace := "default"; Kind := "Deployment"; Name := "app" |}.
Definition app_row (id : string) : CheckConfigsRow :=
  {| ck_project_id := "p"; ck_application_id := Some id; ck_configs := Some (JObj [("CPUNode", JObj [])]) |}.
Definition run_rows (rows : list CheckConfigsRow) : Sys unit := Build_Sys tt (with_check_configs (λ _, rows) no_tables) 0.
Definition threshold_90 : json := JObj [("threshold", JNum (F32.of_Z 90))].
Definition read_app (o : MapOrder) (s : Sys unit) : option (gmap string json) :=
  match fst (GetCheckConfigs (H0 := o) "p" s) with inr cc => configs_of cc app | inl _ => None end.
Definition save_app : M unit (string + unit) := SaveCheckConfig "p" app "StorageSpace" (Some threshold_90).

Example either_row_wins :
  let s' := snd (save_app (run_rows [app_row (StringWithoutClusterId app)])) in
  read_app as_stored s' = Some {["StorageSpace" := threshold_90]} ∧ read_app from_the_end s' = Some {["CPUNode" := JObj []]}.
Proof. vm_compute. split; reflexivity. Qed.

Lemma SaveCheckConfig_then_Get_witness :
  let s := run_rows [app_row (AppIdString app)] in
  no_older_row "p" app (t_check_configs (sys_tables s))
  ∧ let '(before, s) := GetCheckConfigs "p" s in
    let '(r, s) := save_app s in
    let '(after, s') := GetCheckConfigs "p" s in
    r = inr tt ∧ ∃ cc cc', before = inr cc ∧ after = inr cc'
      ∧ configs_of cc' app = Some (set_config "StorageSpace" threshold_90 (default ∅ (configs_of cc app))).
Proof.
  assert (Ho : no_older_row "p" app [app_row (AppIdString app)]).
  { intros r ->%list_elem_of_singleton (_ & _ & Ho). vm_compute in Ho. discriminate Ho. }
  split; [exact Ho|].
  pose proof (SaveCheckConfig_then_Get (λ _, eq_refl) "p" app "StorageSpace" threshold_90 eq_refl (run_rows [app_row (AppIdString app)])) as Ht.
  cbv zeta in Ht. destruct (GetCheckConfigs "p" _) as [before s1]. fold save_app in Ht. destruct (save_app s1) as [r s2]. destruct (GetCheckConfigs "p" s2) as [after s3].
  destruct Ht as (Hr & cc & cc' & H1 & H2 & _ & H3 & _).
  - apply NoDup_singleton.
  - intros r0 e Hin He. cbn in Hin. apply list_elem_of_singleton in Hin as ->. vm_compute in He. injection He as <-. by eexists.
  - split; [exact Hr|]. exists cc, cc'. split; [exact H1|]. split; [exact H2|]. by apply H3.
Defined.

End ChecksFacts.
