(* ===== verification/DeploymentStore.v ===== *)
(** db/deployments.go: the statements on the table application_deployment. *)

From S2P Require Export Db.
From Stdlib Require Import Ascii ZArith Lia.
Local Open Scope string_scope.
Local Open Scope Z_scope.

Definition DeploymentsLastN : nat := 100.

Definition of_deployment (projectId : string) (id : ApplicationId) (started : Z) (r : ApplicationDeploymentRow) : bool :=
  String.eqb (dr_project_id r) projectId && String.eqb (dr_application_id r) (AppIdString id) && (dr_started_at r =? started).

Definition deployment_row (projectId : string) (d : ApplicationDeployment) : ApplicationDeploymentRow :=
  {| dr_project_id := projectId; dr_application_id := AppIdString (dep_ApplicationId d); dr_name := dep_Name d;
     dr_started_at := dep_StartedAt d; dr_finished_at := dep_FinishedAt d; dr_details := dep_Details d;
     dr_metrics_snapshot := None; dr_notifications := dep_Notifications d |}.

Definition row_set_finished (finished : Z) (name : string) (r : ApplicationDeploymentRow) : ApplicationDeploymentRow :=
  {| dr_project_id := dr_project_id r; dr_application_id := dr_application_id r; dr_name := name;
     dr_started_at := dr_started_at r; dr_finished_at := finished; dr_details := dr_details r;
     dr_metrics_snapshot := dr_metrics_snapshot r; dr_notifications := dr_notifications r |}.
Definition row_set_snapshot (ms : option MetricsSnapshot) (r : ApplicationDeploymentRow) : ApplicationDeploymentRow :=
  {| dr_project_id := dr_project_id r; dr_application_id := dr_application_id r; dr_name := dr_name r;
     dr_started_at := dr_started_at r; dr_finished_at := dr_finished_at r; dr_details := dr_details r;
     dr_metrics_snapshot := ms; dr_notifications := dr_notifications r |}.
Definition row_set_notifications (ns : option ApplicationDeploymentNotifications) (r : ApplicationDeploymentRow) : ApplicationDeploymentRow :=
  {| dr_project_id := dr_project_id r; dr_application_id := dr_application_id r; dr_name := dr_name r;
     dr_started_at := dr_started_at r; dr_finished_at := dr_finished_at r; dr_details := dr_details r;
     dr_metrics_snapshot := dr_metrics_snapshot r; dr_notifications := ns |}.

(** [marshal] of a snapshot: encoding/json refuses NaN and the infinities. *)
Definition json_number (x : f32) : bool := negb (IsNaN x) && negb (IsInf x 0).
Definition marshal_snapshot (ms : option MetricsSnapshot) : option (option MetricsSnapshot) :=
  match ms with
  | None => Some None
  | Some m => if json_number (ms_CPUUsage m) && json_number (ms_MemoryLeakPercent m) then Some (Some m) else None
  end.

Definition scan_deployment (r : ApplicationDeploymentRow) : option ApplicationDeployment :=
  match AppIdScan (Some (dr_application_id r)) with
  | None => None
  | Some id =>
      Some {| dep_ApplicationId := id; dep_Name := dr_name r; dep_StartedAt := dr_started_at r;
              dep_FinishedAt := dr_finished_at r; dep_Details := dr_details r;
              dep_MetricsSnapshot := dr_metrics_snapshot r; dep_Notifications := dr_notifications r |}
  end.

(** [row_number() OVER (PARTITION BY application_id ORDER BY started_at DESC)]:
    one more than the number of rows of the application that started later. *)
Definition later_row (r r' : ApplicationDeploymentRow) : bool :=
  String.eqb (dr_application_id r') (dr_application_id r) && (dr_started_at r <? dr_started_at r').
Definition row_number (rows : list ApplicationDeploymentRow) (r : ApplicationDeploymentRow) : nat :=
  S (length (where_ (later_row r) rows)).

(** [ORDER BY application_id, started_at] *)
Definition deployment_order (r r' : ApplicationDeploymentRow) : bool :=
  if String.eqb (dr_application_id r) (dr_application_id r') then dr_started_at r <=? dr_started_at r'
  else bool_decide (String.le (dr_application_id r) (dr_application_id r')).

Definition of_project (projectId : string) (r : ApplicationDeploymentRow) : bool := String.eqb (dr_project_id r) projectId.

(** [res[d.ApplicationId] = append(res[d.ApplicationId], &d)] *)
Definition append_deployment (res : gmap ApplicationId (list ApplicationDeployment)) (d : ApplicationDeployment)
  : gmap ApplicationId (list ApplicationDeployment) :=
  <[dep_ApplicationId d := (default [] (res !! dep_ApplicationId d) ++ [d])%list]> res.

Section store.
Context `{Env} {Mem : Type}.

Definition insert_deployment (row : ApplicationDeploymentRow) : M Mem (string + unit) :=
  statement (λ t,
    if existsb (λ r, String.eqb (dr_project_id r) (dr_project_id row)
                     && String.eqb (dr_application_id r) (dr_application_id row)
                     && (dr_started_at r =? dr_started_at row)) (t_application_deployment t)
    then inl "unique_violation"
    else inr (tt, with_application_deployment (λ rows, (rows ++ [row])%list) t)).

Definition SaveApplicationDeployment (projectId : string) (d : ApplicationDeployment) : M Mem (string + unit) :=
  if Time.IsZero (dep_StartedAt d) then mret (inl "invalid deployment")
  else
    let own := of_deployment projectId (dep_ApplicationId d) (dep_StartedAt d) in
    saved ← select (λ t, inr (dr_finished_at <$> head (where_ own (t_application_deployment t))));
    match (saved : string + option Z) with
    | inl e => mret (inl e)
    | inr None => insert_deployment (deployment_row projectId d)
    | inr (Some savedFinishedAt) =>
        if Time.IsZero (dep_FinishedAt d) then mret (inr tt)
        else if negb (Time.IsZero savedFinishedAt) then mret (inr tt)
        else update (with_application_deployment (update_where own (row_set_finished (dep_FinishedAt d) (dep_Name d))))
    end.

Definition GetApplicationDeployments (projectId : string) : M Mem (string + gmap ApplicationId (list ApplicationDeployment)) :=
  select (λ t,
    let p := where_ (of_project projectId) (t_application_deployment t) in
    match scan_all scan_deployment (order_by deployment_order (where_ (λ r, Nat.leb (row_number p r) DeploymentsLastN) p)) with
    | inl e => inl e
    | inr ds => inr (foldl append_deployment ∅ ds)
    end).

Definition SaveApplicationDeploymentMetricsSnapshot (projectId : string) (d : ApplicationDeployment) : M Mem (string + unit) :=
  match marshal_snapshot (dep_MetricsSnapshot d) with
  | None => mret (inl "json: unsupported value")
  | Some data =>
      update (with_application_deployment
                (update_where (of_deployment projectId (dep_ApplicationId d) (dep_StartedAt d)) (row_set_snapshot data)))
  end.

Definition SaveApplicationDeploymentNotifications (projectId : string) (d : ApplicationDeployment) : M Mem (string + unit) :=
  update (with_application_deployment
            (update_where (of_deployment projectId (dep_ApplicationId d) (dep_StartedAt d))
               (row_set_notifications (dep_Notifications d)))).

End store.
