(* ===== verification/Rollouts.v ===== *)
(** [calcDeployments] of watchers/deployments.go: the rollouts of an
    application, read off the life spans of the pods of its replica sets.

    [add_instance] collects life spans and images, [rounds] moves the iterators
    of all replica sets in lockstep and records which of them run at each
    moment, and [rollout_step] is the state machine over those moments.  Maps
    are ranged over in the order [MapOrder] gives, counted by a tick [n]. *)

From S2P Require Export Db.
From Stdlib Require Import Ascii String ZArith Lia.
From stdpp Require Import fin_maps.
Local Open Scope string_scope.
Local Open Scope Z_scope.

Record ReplicaSets := { rss_time : Z; rss_names : list string }.

Section rollouts.
Context `{LogParser}.

(** * Life spans and images of the replica sets *)
Definition add_instance (m : gmap string Aggregate.t * gmap string StringSet.t) (i : Instance_)
  : gmap string Aggregate.t * gmap string StringSet.t :=
  match inst_Pod i with
  | None => m
  | Some pod =>
      let rs := pod_ReplicaSet pod in
      if String.eqb rs "" then m
      else
        let ts := default (Aggregate.NewAggregate NanSum) (fst m !! rs) in
        let images := default (StringSet.NewStringSet []) (snd m !! rs) in
        (<[rs := Aggregate.Add ts [pod_LifeSpan pod]]> (fst m),
         <[rs := foldl (λ ss c, StringSet.Add [c_Image (snd c)] ss) images (inst_Containers i)]> (snd m))
  end.

Definition replica_sets (app : Application) : gmap string Aggregate.t * gmap string StringSet.t :=
  foldl add_instance (∅, ∅) (app_Instances app).

(** * The iterators in lockstep *)

(** [iters[name] = agg.Get().Iter()] *)
Fixpoint iterators (l : list (string * Aggregate.t)) : outcome (list (string * Iterator)) :=
  match l with
  | [] => Ret []
  | (name, agg) :: l =>
      let* ts := Aggregate.Get agg in
      let* its := iterators l in
      Ret ((name, Iter ts) :: its)
  end.

(** One pass over the iterators: [None] when one of them is exhausted. *)
Fixpoint visit (its : list (string * Iterator)) (t : Z) (names : list string)
  : outcome (option (Z * list string * list (string * Iterator))) :=
  match its with
  | [] => Ret (Some (t, names, []))
  | (name, it) :: its =>
      let* r := Next it in
      if negb (fst r) then Ret None
      else
        let '(t, v) := Value (snd r) in
        let names := if F32.gtb v F32.zero then (names ++ [name])%list else names in
        let* rest := visit its t names in
        Ret (match rest with
             | None => None
             | Some (t, names, its) => Some (t, names, (name, snd r) :: its)
             end)
  end.

(** [for { ... }]: each round visits the iterators, in an order of its own, and
    appends a moment unless no replica set runs. *)
Fixpoint rounds `{MapOrder} (fuel n : nat) (its : list (string * Iterator)) : outcome (list ReplicaSets) :=
  match fuel with
  | O => Panic
  | S fuel =>
      let* r := visit (map_order n its) 0 [] in
      match r with
      | None => Ret []
      | Some (t, names, its) =>
          let* rest := rounds fuel (S n) its in
          Ret (if bool_decide (names = []) then rest
               else {| rss_time := t; rss_names := StringSet.sort_strings names |} :: rest)
      end
  end.

(** A round uses up one point of every series. *)
Definition rounds_fuel (its : list (string * Iterator)) : nat :=
  S (foldr (λ p fuel, Nat.max (length (it_data (snd p))) fuel) 0%nat its).

(** * The state machine

    [deployment], a pointer into [deployments], is an index. *)
Record rollout := {
  ro_deployments : list ApplicationDeployment;
  ro_deployment : option nat;
  ro_prev : string
}.

Definition new_deployment (id : ApplicationId) (name : string) (started finished : Z) : ApplicationDeployment :=
  {| dep_ApplicationId := id; dep_Name := name; dep_StartedAt := started; dep_FinishedAt := finished;
     dep_Details := None; dep_MetricsSnapshot := None; dep_Notifications := None |}.

Definition dep_set_finished (t : Z) (d : ApplicationDeployment) : ApplicationDeployment :=
  {| dep_ApplicationId := dep_ApplicationId d; dep_Name := dep_Name d; dep_StartedAt := dep_StartedAt d;
     dep_FinishedAt := t; dep_Details := dep_Details d; dep_MetricsSnapshot := dep_MetricsSnapshot d;
     dep_Notifications := dep_Notifications d |}.

(** [if deployment != nil && curr == deployment.Name { deployment.FinishedAt = t }] *)
Definition finish (s : rollout) (curr : string) (t : Z) : list ApplicationDeployment :=
  match ro_deployment s with
  | None => ro_deployments s
  | Some i => alter (λ d, if String.eqb curr (dep_Name d) then dep_set_finished t d else d) i (ro_deployments s)
  end.

Definition rollout_step (id : ApplicationId) (s : rollout) (rss : ReplicaSets) : rollout :=
  let t := rss_time rss in
  match rss_names rss with
  | [] => s
  | [curr] =>
      if String.eqb (ro_prev s) "" then
        {| ro_deployments := ro_deployments s; ro_deployment := ro_deployment s; ro_prev := curr |}
      else
        let deployments := finish s curr t in
        if String.eqb (ro_prev s) curr then
          {| ro_deployments := deployments; ro_deployment := None; ro_prev := ro_prev s |}
        else
          {| ro_deployments := deployments ++ [new_deployment id curr t t]; ro_deployment := None; ro_prev := curr |}
  | names =>
      if String.eqb (ro_prev s) "" then s
      else
        match ro_deployment s with
        | Some _ => s
        | None =>
            let name := default "" (List.find (λ n, negb (String.eqb n (ro_prev s))) names) in
            {| ro_deployments := ro_deployments s ++ [new_deployment id name t 0];
               ro_deployment := Some (length (ro_deployments s)); ro_prev := name |}
        end
  end.

Definition rollouts (id : ApplicationId) (h : list ReplicaSets) : rollout :=
  foldl (rollout_step id) {| ro_deployments := []; ro_deployment := None; ro_prev := "" |} h.

Definition with_images (images : gmap string StringSet.t) (d : ApplicationDeployment) : ApplicationDeployment :=
  match images !! dep_Name d with
  | None => d
  | Some ss =>
      {| dep_ApplicationId := dep_ApplicationId d; dep_Name := dep_Name d; dep_StartedAt := dep_StartedAt d;
         dep_FinishedAt := dep_FinishedAt d; dep_Details := Some (StringSet.Items (Some ss));
         dep_MetricsSnapshot := dep_MetricsSnapshot d; dep_Notifications := dep_Notifications d |}
  end.

Definition calcDeployments `{MapOrder} (n : nat) (app : Application) : outcome (list ApplicationDeployment) :=
  if negb (String.eqb (Kind (app_Id app)) ApplicationKindDeployment) || bool_decide (app_Instances app = [])
  then Ret []
  else
    let '(lifeSpans, images) := replica_sets app in
    if bool_decide (lifeSpans = ∅) then Ret []
    else
      let* its := iterators (map_order n (map_to_list lifeSpans)) in
      let* rssOverTime := rounds (rounds_fuel its) (S n) its in
      Ret (with_images images <$> ro_deployments (rollouts (app_Id app) rssOverTime)).

End rollouts.

(** * Facts: the lockstep *)
Module LockstepFacts.

Section lockstep.
Context `{MapOrder} (from step : Z).

(** A replica set with its points, and the iterator that has [k] of them behind
    it with [w] as its current value. *)
Abbreviation entry := (string * list f32 * f32)%type.
Definition it_of (k : nat) (e : entry) : string * Iterator := (fst (fst e), iter_at from step (snd (fst e)) k (snd e)).

(** The replica sets that run at moment [k], and the moments of a history. *)
Definition runs_at (k : nat) (s : string * list f32) : bool :=
  match snd s !! k with Some v => F32.gtb v F32.zero | None => false end.
Definition running (sets : list (string * list f32)) (k : nat) : list string :=
  StringSet.sort_strings (fst <$> filter (λ s, runs_at k s = true) sets).
Definition moment (sets : list (string * list f32)) (k : nat) : option ReplicaSets :=
  match running sets k with
  | [] => None
  | names => Some {| rss_time := wrap64 (from + Z.of_nat k * step); rss_names := names |}
  end.
Definition moments (sets : list (string * list f32)) (len : nat) : list ReplicaSets :=
  omap (moment sets) (seq 0 len).

Lemma running_perm sets sets' k : sets ≡ₚ sets' → running sets k = running sets' k.
Proof.
  intros Hp. apply UtilsFacts.sort_strings_perm. by rewrite Hp.
Qed.
Lemma visit_at (k : nat) es t names :
  Forall (λ e : entry, (k < length (snd (fst e)))%nat) es →
  ∃ es', fst <$> es' = fst <$> es
    ∧ visit (it_of k <$> es) t names
      = Ret (Some (match es with [] => t | _ => wrap64 (from + Z.of_nat k * step) end,
                   (names ++ (fst <$> filter (λ s, runs_at k s = true) (fst <$> es)))%list,
                   it_of (S k) <$> es')).
Proof.
  intros Hk. revert t names. induction Hk as [|[[name data] w] es Hlt _ IH]; intros t names.
  { exists []. split; [done|]. simpl. by rewrite app_nil_r. }
  destruct (lookup_lt_is_Some_2 _ _ Hlt) as [v Hv]. cbn in Hv. cbn.
  rewrite (Next_at _ _ _ _ _ _ Hv). cbn.
  set (t' := wrap64 _).
  set (names' := if F32.gtb v F32.zero then (names ++ [name])%list else names).
  destruct (IH t' names') as (es' & Hes & Hvisit). rewrite Hvisit.
  exists ((name, data, v) :: es'). split; [cbn; by f_equal|].
  assert (t' = wrap64 (from + Z.of_nat k * step)) as Ht
    by (unfold t'; do 2 f_equal; lia).
  cbn. do 4 f_equal.
  - by destruct es.
  - unfold names'. case_decide as Hr; unfold runs_at in Hr; cbn in Hr; rewrite Hv in Hr.
    + rewrite Hr. cbn. by rewrite <- app_assoc.
    + by destruct (F32.gtb v F32.zero).
Qed.

Lemma visit_end (k : nat) es t names :
  Forall (λ e : entry, (k ≤ length (snd (fst e)))%nat) es →
  Exists (λ e : entry, length (snd (fst e)) = k) es →
  visit (it_of k <$> es) t names = Ret None.
Proof.
  intros Hk Hex. revert t names. induction Hk as [|[[name data] w] es Hle _ IH]; intros t names; [by inversion Hex|].
  cbn in Hle |- *. destruct (decide (length data = k)) as [<-|Hne].
  { by destruct (Next_at_end from step data w) as [it ->]. }
  destruct (lookup_lt_is_Some_2 data k ltac:(lia)) as [v Hv].
  rewrite (Next_at _ _ _ _ _ _ Hv). cbn. rewrite IH; [done|].
  apply Exists_cons in Hex as [Hd|]; [by destruct Hne|done].
Qed.

(** The rounds from moment [k] on, whatever order they visit the iterators in:
    they end when the shortest series does. *)
Lemma rounds_at (len fuel n k : nat) es sets :
  es ≠ [] → fst <$> es ≡ₚ sets →
  Forall (λ e : entry, (len ≤ length (snd (fst e)))%nat) es →
  Exists (λ e : entry, length (snd (fst e)) = len) es →
  (k ≤ len)%nat → (len - k < fuel)%nat →
  rounds fuel n (it_of k <$> es) = Ret (omap (moment sets) (seq k (len - k))).
Proof.
  revert n k es. induction fuel as [|fuel IH]; intros n k es Hne Hperm Hall Hex Hk Hf; [lia|].
  cbn -[seq].
  destruct (Permutation_map_inv (it_of k) _ (map_order_perm _ n (map (it_of k) es))) as (es1 & Hes1 & Hp1).
  change (it_of k <$> es) with (map (it_of k) es).
  rewrite Hes1. change (map (it_of k) es1) with (it_of k <$> es1).
  rewrite Hp1 in Hall, Hex, Hperm.
  destruct (decide (k = len)) as [->|Hlt].
  { rewrite visit_end, Nat.sub_diag by done. done. }
  destruct (visit_at k es1 0 []) as (es2 & Hfst & Hvisit).
  { eapply Forall_impl; [done|]. intros e ?; cbn in *. lia. }
  rewrite Hvisit. cbn -[seq].
  assert (Hall2 : Forall (λ e : entry, (len ≤ length (snd (fst e)))%nat) es2).
  { apply (Forall_fmap fst (λ s : string * list f32, (len ≤ length (snd s))%nat)). rewrite Hfst. by apply Forall_fmap. }
  assert (Hex2 : Exists (λ e : entry, length (snd (fst e)) = len) es2).
  { apply (Exists_fmap fst (λ s : string * list f32, length (snd s) = len)). rewrite Hfst. by apply Exists_fmap. }
  rewrite IH; [|by intros ->; inversion Hex2|by rewrite Hfst|done..|lia|lia]. cbn -[seq].
  replace (len - k)%nat with (S (len - S k)) by lia. cbn.
  assert (Hrun : StringSet.sort_strings (fst <$> filter (λ s, runs_at k s = true) (fst <$> es1)) = running sets k)
    by (apply UtilsFacts.sort_strings_perm; by rewrite Hperm).
  set (names := fst <$> filter _ (fst <$> es1)) in *.
  assert (Hm : moment sets k = if bool_decide (names = []) then None
               else Some {| rss_time := wrap64 (from + Z.of_nat k * step); rss_names := StringSet.sort_strings names |}).
  { unfold moment. rewrite <- Hrun. case_bool_decide as Hnil; [by rewrite Hnil|].
    destruct (StringSet.sort_strings names) eqn:Hs; [|done]. destruct Hnil.
    apply Permutation_nil_r. rewrite <- Hs. unfold StringSet.sort_strings. by rewrite merge_sort_Permutation. }
  rewrite Hm. destruct es1; [by inversion Hex|]. by case_bool_decide.
Qed.

End lockstep.
End LockstepFacts.

(** * Facts: the rollouts of a history *)
Module RolloutFacts.
Import LockstepFacts.

Section machine.
Context `{LogParser} (id : ApplicationId).
Implicit Types (s : rollout) (d : ApplicationDeployment) (ds : list ApplicationDeployment).

Definition step_from (s : rollout) (h : list ReplicaSets) : rollout := foldl (rollout_step id) s h.

(** [d'] is [d], possibly finished since: at a moment of [h] when its replica set was
    alone. *)
Definition grown (h : list ReplicaSets) (d d' : ApplicationDeployment) : Prop :=
  d' = d ∨ (dep_FinishedAt d = 0 ∧ ∃ m, m ∈ h ∧ rss_names m = [dep_Name d] ∧ d' = dep_set_finished (rss_time m) d).

(** A deployment that was started at a moment of [h]. *)
Definition started_in (h : list ReplicaSets) (d : ApplicationDeployment) : Prop :=
  ∃ m, m ∈ h ∧ dep_StartedAt d = rss_time m ∧ dep_Name d ∈ rss_names m.

(** [ds'] continues [ds] over the moments of [h]: later deployments, which start at
    these, are appended, and the last one may finish at one of them. *)
Definition extends (h : list ReplicaSets) (ds ds' : list ApplicationDeployment) : Prop :=
  ∃ old new, ds' = (old ++ new)%list ∧ Forall2 (grown h) ds old ∧ Forall (started_in h) new.

#[local] Instance grown_preorder h : PreOrder (grown h).
Proof.
  split; [by left|]. intros d1 d2 d3 [->|(H1 & m1 & I1 & N1 & ->)] [->|(H2 & m2 & I2 & N2 & ->)]; unfold grown; eauto 10.
Qed.

Lemma grown_all h ds : Forall2 (grown h) ds ds.
Proof. induction ds; constructor; [by left|done]. Qed.

Lemma grown_started h ds ds' : Forall2 (grown h) ds ds' → Forall (started_in h) ds → Forall (started_in h) ds'.
Proof.
  induction 1 as [|d d' ds ds' Hg _ IH]; [done|]. intros [Hd Hds]%Forall_cons. constructor; [|auto].
  by destruct Hg as [->|(_ & m & _ & _ & ->)].
Qed.

#[local] Instance extends_preorder h : PreOrder (extends h).
Proof.
  split.
  - intros ds. exists ds, []. rewrite app_nil_r. split_and!; [done|apply grown_all|constructor].
  - intros ds1 ds2 ds3 (old1 & new1 & -> & H1 & S1) (old2 & new2 & -> & H2 & S2).
    apply Forall2_app_inv_l in H2 as (a & b & Ha & Hb & ->).
    exists a, (b ++ new2)%list. split_and!; [by rewrite app_assoc|by etrans|]. apply Forall_app. split; [by eapply grown_started|done].
Qed.

Lemma extends_mono h h' ds ds' : (∀ m, m ∈ h → m ∈ h') → extends h ds ds' → extends h' ds ds'.
Proof.
  intros Hh (old & new & -> & H1 & S1). exists old, new. split_and!; [done| |].
  - eapply Forall2_impl; [exact H1|]. intros d d' [->|(H0 & m & I & N & ->)]; [by left|right]. split; [done|]. exists m. auto.
  - eapply Forall_impl; [exact S1|]. intros d (m & I & Hd). exists m. auto.
Qed.

(** What the state says: the deployment in progress, if any, is the last one, is
    not finished, and carries the name [prev]. *)
Definition consistent (s : rollout) : Prop :=
  match ro_deployment s with
  | None => True
  | Some i => ro_prev s ≠ "" ∧ ∃ ds d, ro_deployments s = (ds ++ [d])%list ∧ i = length ds
                ∧ dep_Name d = ro_prev s ∧ dep_FinishedAt d = 0
  end.

(** A moment of a history: a sorted list of distinct names, none empty. *)
Definition names_ok (rss : ReplicaSets) : Prop := NoDup (rss_names rss) ∧ "" ∉ rss_names rss.

Lemma finish_extends s m curr : rss_names m = [curr] → consistent s → extends [m] (ro_deployments s) (finish s curr (rss_time m)).
Proof.
  intros Hm. unfold consistent, finish. destruct (ro_deployment s) as [i|]; [|done].
  intros (_ & ds & d & Hds & -> & _ & H0). rewrite Hds, alter_app_r_alt, Nat.sub_diag by lia. cbn.
  eexists (ds ++ [_])%list, []. rewrite app_nil_r. split_and!; [done| |constructor].
  apply Forall2_app; [apply grown_all|]. constructor; [|done].
  destruct (String.eqb_spec curr (dep_Name d)) as [->|]; [right|by left]. split; [done|]. exists m. split_and!; [by left|done|done].
Qed.

Lemma extends_snoc h ds ds' d : started_in h d → extends h ds ds' → extends h ds (ds' ++ [d]).
Proof.
  intros Hd (old & new & -> & ? & ?). exists old, (new ++ [d])%list. split_and!; [by rewrite app_assoc|done|].
  apply Forall_app. split; [done|by constructor].
Qed.

(** Some name other than [prev] is among two distinct ones. *)
Lemma find_other prev n1 n2 names :
  NoDup (n1 :: n2 :: names) →
  ∃ n, List.find (λ n, negb (String.eqb n prev)) (n1 :: n2 :: names) = Some n ∧ n ≠ prev ∧ n ∈ n1 :: n2 :: names.
Proof.
  intros Hnd. destruct (List.find _ _) as [n|] eqn:Hf.
  - apply List.find_some in Hf as [Hin Hn]. exists n. split; [done|].
    apply negb_true_iff, String.eqb_neq in Hn. by rewrite list_elem_of_In.
  - pose proof (List.find_none _ _ Hf n1 ltac:(by left)) as H1.
    pose proof (List.find_none _ _ Hf n2 ltac:(right; by left)) as H2.
    apply negb_false_iff, String.eqb_eq in H1, H2. subst. apply NoDup_cons in Hnd as [Hn _]. set_solver.
Qed.

(** One moment: the deployments are extended, and the state stays consistent. *)
Lemma step_extends s rss :
  names_ok rss → consistent s →
  consistent (rollout_step id s rss) ∧ extends [rss] (ro_deployments s) (ro_deployments (rollout_step id s rss)).
Proof.
  intros [Hnd Hne] Hc. unfold rollout_step.
  destruct (rss_names rss) as [|n1 [|n2 names]] eqn:Hn; [done| |].
  - destruct (String.eqb_spec (ro_prev s) "") as [He|He]; cbn.
    { split; [|done]. unfold consistent in *. cbn. destruct (ro_deployment s); [|done]. by destruct Hc as [? _]. }
    pose proof (finish_extends s rss n1 Hn Hc).
    destruct (String.eqb (ro_prev s) n1); cbn; [done|]. split; [done|]. apply extends_snoc; [|done].
    exists rss. split_and!; [by left|done|cbn; rewrite Hn; by left].
  - destruct (String.eqb_spec (ro_prev s) "") as [He|He]; [done|].
    destruct (ro_deployment s) as [i|] eqn:Hd; [done|]. cbn -[List.find].
    destruct (find_other (ro_prev s) n1 n2 names Hnd) as (n & Hf & Hneq & Hin). rewrite Hf. cbn.
    split; [|apply extends_snoc; [|done]].
    + unfold consistent. cbn. split; [by intros ->|]. eexists _, _. done.
    + exists rss. split_and!; [by left|done|cbn; by rewrite Hn].
Qed.

Lemma steps_extend s h :
  Forall names_ok h → consistent s →
  consistent (step_from s h) ∧ extends h (ro_deployments s) (ro_deployments (step_from s h)).
Proof.
  intros Hh. revert s. induction Hh as [|rss h Hr _ IH]; intros s Hc; [done|].
  destruct (step_extends s rss Hr Hc) as [Hc' He]. cbn.
  destruct (IH _ Hc') as [? He']. split; [done|]. etrans; eapply extends_mono; try eassumption.
  - intros m ->%list_elem_of_singleton. by left.
  - intros m Hm. by right.
Qed.
(** * The structure of what is found *)

(** [d] starts at a moment when its replica set runs, and is finished, if at all,
    at a moment, not before its start, when only that replica set runs. *)
Definition sound (h : list ReplicaSets) (d : ApplicationDeployment) : Prop :=
  dep_ApplicationId d = id ∧ dep_Name d ≠ ""
  ∧ (∃ r, r ∈ h ∧ rss_time r = dep_StartedAt d ∧ dep_Name d ∈ rss_names r)
  ∧ (dep_FinishedAt d = 0
     ∨ ∃ r, r ∈ h ∧ rss_time r = dep_FinishedAt d ∧ rss_names r = [dep_Name d] ∧ dep_StartedAt d ≤ dep_FinishedAt d).

(** A deployment and the next one: another name, a later start, after the end. *)
Definition before (d d' : ApplicationDeployment) : Prop :=
  dep_Name d ≠ dep_Name d' ∧ dep_StartedAt d < dep_StartedAt d'
  ∧ (dep_FinishedAt d = 0 ∨ dep_FinishedAt d < dep_StartedAt d').

Definition linked ds : Prop := ∀ i d d', ds !! i = Some d → ds !! S i = Some d' → before d d'.

Definition inv (h : list ReplicaSets) s : Prop :=
  Forall (sound h) (ro_deployments s) ∧ linked (ro_deployments s)
  ∧ (∀ d, last (ro_deployments s) = Some d → dep_Name d = ro_prev s ∧ ro_prev s ≠ "").

Lemma sound_weaken h r d : sound h d → sound (h ++ [r]) d.
Proof.
  intros (? & ? & (r1 & ? & ? & ?) & Hf). split_and!; [done|done| |].
  - exists r1. set_solver.
  - destruct Hf as [?|(r2 & ? & ?)]; [by left|right]. exists r2. set_solver.
Qed.

Lemma linked_snoc ds d' : linked ds → (∀ d, last ds = Some d → before d d') → linked (ds ++ [d']).
Proof.
  intros Hl Hlast i d1 d2 H1 H2.
  destruct (decide (S i < length ds)%nat) as [Hi|Hi].
  - rewrite lookup_app_l in H1, H2 by lia. eauto.
  - rewrite lookup_app_r in H2 by lia. apply list_lookup_singleton_Some in H2 as [Hi2 <-].
    rewrite lookup_app_l in H1 by lia. apply Hlast. rewrite last_lookup.
    by replace (pred (length ds)) with i by lia.
Qed.

(** Finishing the last deployment keeps the links. *)
Lemma linked_finish_last ds d t : linked (ds ++ [d]) → linked (ds ++ [dep_set_finished t d]).
Proof.
  intros Hl i d1 d2 H1 H2.
  assert (S i < length (ds ++ [dep_set_finished t d]))%nat by (by eapply lookup_lt_Some).
  rewrite length_app in *. cbn in *. rewrite lookup_app_l in H1 by lia.
  destruct (decide (S i < length ds)%nat) as [Hi|Hi].
  - rewrite lookup_app_l in H2 by lia. apply (Hl i); by rewrite lookup_app_l by lia.
  - rewrite lookup_app_r in H2 by lia. apply list_lookup_singleton_Some in H2 as [Hi2 <-].
    apply (Hl i d1 d); [by rewrite lookup_app_l by lia|].
    by rewrite lookup_app_r, Hi2 by lia.
Qed.

(** A new deployment that starts at moment [r], after all of [h]. *)
Lemma inv_append h s s' r d :
  (∀ r', r' ∈ h → rss_time r' < rss_time r) →
  inv h s →
  ro_deployments s' = (ro_deployments s ++ [d])%list → ro_prev s' = dep_Name d →
  dep_Name d ≠ ro_prev s → dep_StartedAt d = rss_time r → sound (h ++ [r]) d →
  inv (h ++ [r]) s'.
Proof.
  intros Ht (Hs & Hl & Hp) Hds Hprev Hne Hstart Hd. unfold inv. rewrite Hds, Hprev. split_and!.
  - apply Forall_app. split; [|by constructor]. eapply Forall_impl; [done|]. intros; by apply sound_weaken.
  - apply linked_snoc; [done|]. intros d0 Hd0. destruct (Hp _ Hd0) as [Hn _].
    rewrite last_lookup in Hd0.
    apply (Forall_lookup_1 _ _ _ _ Hs) in Hd0 as (_ & _ & (r1 & Hr1 & Ht1 & _) & Hf).
    rewrite <- Hstart in Ht. pose proof (Ht r1 Hr1). split_and!; [congruence|lia|].
    destruct Hf as [?|(r2 & Hr2 & Ht2 & _)]; [by left|right]. specialize (Ht r2 Hr2). lia.
  - intros d0. rewrite last_snoc. intros [= <-]. split; [done|]. apply Hd.
Qed.

Lemma inv_keep h s s' r :
  inv h s → ro_deployments s' = ro_deployments s →
  (ro_prev s' = ro_prev s ∨ ro_prev s = "") → inv (h ++ [r]) s'.
Proof.
  intros (Hs & Hl & Hp) Hds Hprev. unfold inv. rewrite Hds. split_and!; [|done|].
  - eapply Forall_impl; [done|]. intros; by apply sound_weaken.
  - intros d Hd. destruct (Hp d Hd). destruct Hprev as [->|]; [|congruence]. done.
Qed.

(** The deployment in progress finishes at moment [r]. *)
Lemma inv_finish h s s' r curr :
  (∀ r', r' ∈ h → rss_time r' < rss_time r) → consistent s → rss_names r = [curr] → curr = ro_prev s →
  inv h s → ro_deployments s' = finish s curr (rss_time r) → ro_prev s' = ro_prev s → inv (h ++ [r]) s'.
Proof.
  intros Ht Hc Hr -> Hinv Hds Hprev. unfold finish, consistent in *.
  destruct (ro_deployment s) as [i|]; [|eapply inv_keep; eauto].
  destruct Hc as (Hne & ds & d & Hs & -> & Hname & H0). destruct Hinv as (Hall & Hl & Hp).
  rewrite Hs in *. rewrite alter_app_r_alt, Nat.sub_diag in Hds by lia. cbn in Hds.
  rewrite Hname, String.eqb_refl in Hds.
  apply Forall_app in Hall as [Hall Hd]. rewrite Forall_singleton in Hd.
  unfold inv. rewrite Hds, Hprev. split_and!.
  - apply Forall_app. split; [eapply Forall_impl; [done|]; intros; by apply sound_weaken|].
    apply Forall_singleton. destruct (sound_weaken h r d Hd) as (? & ? & Hst & _).
    destruct Hd as (_ & _ & (r1 & Hr1 & Ht1 & _) & _). specialize (Ht r1 Hr1).
    split_and!; [done..|]. right. exists r. cbn. rewrite Hr, Hname. split_and!; [set_solver|done|done|lia].
  - by apply linked_finish_last.
  - intros d0. rewrite last_snoc. intros [= <-]. done.
Qed.

Lemma inv_step h s r :
  (∀ r', r' ∈ h → rss_time r' < rss_time r) → names_ok r → consistent s → inv h s →
  inv (h ++ [r]) (rollout_step id s r).
Proof.
  intros Ht [Hnd Hne] Hc Hinv. unfold rollout_step.
  destruct (rss_names r) as [|n1 [|n2 names]] eqn:Hn.
  - by eapply inv_keep; eauto.
  - destruct (String.eqb_spec (ro_prev s) "") as [He|He]; [by eapply inv_keep; eauto|].
    destruct (String.eqb_spec (ro_prev s) n1) as [Hp|Hp].
    { subst n1. by eapply inv_finish. }
    assert (Hf : finish s n1 (rss_time r) = ro_deployments s).
    { unfold finish, consistent in *. destruct (ro_deployment s) as [i|]; [|done].
      destruct Hc as (_ & ds & d & -> & -> & Hname & _). rewrite alter_app_r_alt, Nat.sub_diag by lia. cbn.
      destruct (String.eqb_spec n1 (dep_Name d)); [congruence|done]. }
    eapply inv_append; [done..|cbn; by rewrite Hf|done|cbn; congruence|done|].
    assert (r ∈ (h ++ [r])%list) by set_solver.
    split_and!; cbn; [done|by intros ->; apply Hne; left|exists r; rewrite Hn; set_solver|].
    right. exists r. split_and!; [done|done|done|lia].
  - destruct (String.eqb_spec (ro_prev s) "") as [He|He]; [by eapply inv_keep; eauto|].
    destruct (ro_deployment s) as [i|] eqn:Hd; [by eapply inv_keep; eauto|].
    destruct (find_other (ro_prev s) n1 n2 names Hnd) as (n & Hf & Hneq & Hin). rewrite Hf.
    eapply inv_append; [done..|].
    split_and!; cbn; [done|by intros ->|exists r; rewrite Hn; set_solver|by left].
Qed.

Lemma rollouts_snoc h r : rollouts id (h ++ [r]) = rollout_step id (rollouts id h) r.
Proof. unfold rollouts. by rewrite foldl_app. Qed.

Lemma rollouts_consistent h : Forall names_ok h → consistent (rollouts id h).
Proof. intros Hh. by apply (steps_extend _ h Hh). Qed.

Lemma rollouts_inv h :
  Forall names_ok h → StronglySorted (λ r r', rss_time r < rss_time r') h → inv h (rollouts id h).
Proof.
  induction h as [|r h IH] using rev_ind; intros Hok Hs.
  { split_and!; [constructor|by intros i d d' Hd|done]. }
  apply Forall_app in Hok as [Hok Hr]. rewrite Forall_singleton in Hr.
  apply StronglySorted_app in Hs as (Hlt & Hs & _).
  rewrite rollouts_snoc. apply inv_step; [|done|by apply rollouts_consistent|auto].
  intros r' Hr'. apply Hlt; set_solver.
Qed.

(** * A window that starts later *)

(** The state with [ds0] found before. *)
Definition shift (ds0 : list ApplicationDeployment) s : rollout :=
  {| ro_deployments := ds0 ++ ro_deployments s;
     ro_deployment := (λ i, (length ds0 + i)%nat) <$> ro_deployment s; ro_prev := ro_prev s |}.

Lemma finish_shift ds0 s curr t : finish (shift ds0 s) curr t = (ds0 ++ finish s curr t)%list.
Proof. unfold finish. cbn. destruct (ro_deployment s); cbn; [|done]. by rewrite alter_app_r. Qed.

Lemma step_shift ds0 s r : rollout_step id (shift ds0 s) r = shift ds0 (rollout_step id s r).
Proof.
  unfold rollout_step. destruct (rss_names r) as [|n1 [|n2 names]]; [done| |].
  - cbn. destruct (String.eqb (ro_prev s) ""); [done|]. rewrite finish_shift.
    destruct (String.eqb (ro_prev s) n1); unfold shift; cbn; [done|]. by rewrite app_assoc.
  - cbn. destruct (String.eqb (ro_prev s) ""); [done|].
    destruct (ro_deployment s); cbn; [done|]. unfold shift; cbn. by rewrite length_app, app_assoc.
Qed.

Lemma steps_shift ds0 s h : step_from (shift ds0 s) h = shift ds0 (step_from s h).
Proof. revert s. induction h as [|r h IH]; intros s; [done|]. cbn. by rewrite step_shift, IH. Qed.

(** After a moment with one replica set, only its name and what was found are
    remembered. *)
Lemma step_single s r curr :
  consistent s → rss_names r = [curr] →
  rollout_step id s r
  = shift (ro_deployments (rollout_step id s r)) {| ro_deployments := []; ro_deployment := None; ro_prev := curr |}.
Proof.
  intros Hc Hr. unfold rollout_step. rewrite Hr.
  destruct (String.eqb_spec (ro_prev s) "") as [He|He].
  - unfold consistent in Hc. destruct (ro_deployment s); [by destruct Hc|]. unfold shift. cbn. by rewrite app_nil_r.
  - destruct (String.eqb_spec (ro_prev s) curr) as [->|]; unfold shift; cbn; by rewrite app_nil_r.
Qed.

Lemma rollouts_app h h' : rollouts id (h ++ h') = step_from (rollouts id h) h'.
Proof. unfold rollouts, step_from. by rewrite foldl_app. Qed.

(** From the first moment with one replica set on, a later window finds the same
    deployments as a window that started earlier. *)
Lemma rollouts_later_window pre w curr post :
  Forall names_ok pre → rss_names w = [curr] →
  ro_deployments (rollouts id (pre ++ w :: post))
  = (ro_deployments (rollouts id (pre ++ [w])) ++ ro_deployments (rollouts id (w :: post)))%list.
Proof.
  intros Hpre Hw. pose proof (rollouts_consistent pre Hpre) as Hc.
  replace (pre ++ w :: post)%list with ((pre ++ [w]) ++ post)%list by (by rewrite <- app_assoc).
  rewrite (rollouts_app _ post), rollouts_snoc, (step_single _ w curr Hc Hw).
  rewrite steps_shift. cbn [shift ro_deployments].
  rewrite app_nil_r. f_equal. change (w :: post) with ([w] ++ post)%list. rewrite rollouts_app.
  do 2 f_equal. unfold rollouts. cbn. unfold rollout_step. by rewrite Hw.
Qed.
End machine.
End RolloutFacts.

(** * What [calcDeployments] returns *)
Module CalcFacts.
Import LockstepFacts RolloutFacts.

Section calc.
Context `{LP : LogParser} `{MapOrder}.

(** The pods of the application's replica sets have life spans over one window:
    [len] points from [from], [step] apart. *)
Definition on_window (from step : Z) (len : nat) (ts : TimeSeries) : Prop :=
  ts_from ts = from ∧ ts_step ts = step ∧ length (ts_data ts) = len.
Definition covered (app : Application) (from step : Z) (len : nat) : Prop :=
  ∀ i pod, i ∈ app_Instances app → inst_Pod i = Some pod → pod_ReplicaSet pod ≠ "" →
  ∃ ts, pod_LifeSpan pod = Some ts ∧ on_window from step len ts.

(** The replica sets with the sum of the life spans of their pods. *)
Definition values (agg : Aggregate.t) : list f32 :=
  match Aggregate.Get agg with Ret (Some ts) => ts_data ts | _ => [] end.
Definition presence (app : Application) : list (string * list f32) :=
  (λ p, (fst p, values (snd p))) <$> map_to_list (fst (replica_sets app)).

Definition agg_ok (from step : Z) (len : nat) (agg : Aggregate.t) : Prop :=
  Aggregate.input agg ≠ [] ∧ Forall (on_window from step len) (Aggregate.input agg).

Lemma replica_sets_ok app from step len :
  covered app from step len → map_Forall (λ name agg, name ≠ "" ∧ agg_ok from step len agg) (fst (replica_sets app)).
Proof.
  unfold covered, replica_sets. generalize (app_Instances app). intros insts.
  assert (Hm : ∀ m, map_Forall (λ name agg, name ≠ "" ∧ agg_ok from step len agg) (fst m) →
    (∀ i pod, i ∈ insts → inst_Pod i = Some pod → pod_ReplicaSet pod ≠ "" →
       ∃ ts, pod_LifeSpan pod = Some ts ∧ on_window from step len ts) →
    map_Forall (λ name agg, name ≠ "" ∧ agg_ok from step len agg) (fst (foldl add_instance m insts))).
  { induction insts as [|i insts IH]; intros m Hok Hc; [done|]. cbn.
    apply IH; [|intros i' pod Hi; apply (Hc i'); set_solver].
    unfold add_instance. destruct (inst_Pod i) as [pod|] eqn:Hp; [|done].
    destruct (String.eqb_spec (pod_ReplicaSet pod) "") as [He|He]; [done|].
    destruct (Hc i pod ltac:(left) Hp He) as (ts & Hts & Hw). cbn. rewrite Hts.
    apply map_Forall_insert_2; [|done]. split; [done|].
    destruct (fst m !! pod_ReplicaSet pod) as [agg|] eqn:Hm; unfold agg_ok; cbn.
    - destruct (Hok _ _ Hm) as (_ & _ & Hall). split; [by intros [_ [=]]%app_eq_nil|].
      apply Forall_app. by split; [|constructor].
    - split; [done|]. by constructor. }
  apply Hm. apply map_Forall_empty.
Qed.

Lemma agg_ok_Get from step len agg :
  agg_ok from step len agg → ∃ ts, Aggregate.Get agg = Ret (Some ts) ∧ on_window from step len ts.
Proof.
  intros [Hne Hall]. destruct agg as [f [|first [|second rest]]]; [done| |]; cbn in Hall.
  - rewrite Forall_singleton in Hall. by exists first.
  - pose proof Hall as [Hf _]%Forall_cons. unfold Aggregate.Get, Aggregate.f, Aggregate.input.
    rewrite (AggregateFacts.merge_all_spec f len) by (rewrite length_replicate; apply Hf).
    rewrite bool_decide_true by (eapply Forall_impl; [done|]; intros ts (_ & _ & ->); done).
    cbn [obind]. eexists. split; [done|]. split_and!; unfold NewWithData; cbn [ts_from ts_step ts_data]; [apply Hf..|].
    rewrite AggregateFacts.foldl_merge_length, length_replicate. apply Hf.
Qed.

Lemma iterators_on_window from step len l :
  Forall (λ p : string * Aggregate.t, agg_ok from step len (snd p)) l →
  iterators l = Ret (it_of from step 0 <$> ((λ p, (fst p, values (snd p), F32.zero)) <$> l))
  ∧ Forall (λ p : string * Aggregate.t, length (values (snd p)) = len) l.
Proof.
  induction 1 as [|[name agg] l Hok _ [IH IHl]]; [done|]. cbn [snd] in Hok.
  destruct (agg_ok_Get _ _ _ _ Hok) as (ts & Hget & Hf & Hs & Hlen).
  assert (Hv : values agg = ts_data ts) by (unfold values; by rewrite Hget).
  cbn [iterators]. rewrite Hget. cbn [obind]. rewrite IH. cbn [obind].
  rewrite Iter_iter_at, Hf, Hs, <- Hv. split; [done|]. constructor; [|done]. cbn. by rewrite Hv.
Qed.

Lemma moments_nil from step len : moments from step [] len = [].
Proof. unfold moments. induction (seq 0 len) as [|k l IH]; [done|]. exact IH. Qed.

Lemma calc_moments n app from step len :
  covered app from step len →
  String.eqb (Kind (app_Id app)) ApplicationKindDeployment = true →
  calcDeployments n app
  = Ret (with_images (snd (replica_sets app))
           <$> ro_deployments (rollouts (app_Id app) (moments from step (presence app) len))).
Proof.
  intros Hc Hk. unfold calcDeployments. rewrite Hk. cbn [negb orb].
  pose proof (replica_sets_ok _ _ _ _ Hc) as Hok. unfold presence.
  case_bool_decide as Hi.
  { unfold replica_sets. rewrite Hi. cbn. rewrite map_to_list_empty. cbn. by rewrite moments_nil. }
  destruct (replica_sets app) as [lifeSpans images]. cbn [fst snd] in *.
  case_bool_decide as He.
  { rewrite He, map_to_list_empty. cbn. by rewrite moments_nil. }
  set (l := map_order n (map_to_list lifeSpans)).
  assert (Hp : l ≡ₚ map_to_list lifeSpans) by apply map_order_perm.
  assert (Hall : Forall (λ p : string * Aggregate.t, agg_ok from step len (snd p)) l).
  { rewrite Hp. apply map_Forall_to_list in Hok. eapply Forall_impl; [done|]. by intros [? ?] [_ ?]. }
  destruct (iterators_on_window _ _ _ _ Hall) as [-> Hlen]. cbn [obind].
  set (es := (λ p, (fst p, values (snd p), F32.zero)) <$> l).
  assert (Hlen' : Forall (λ e : string * list f32 * f32, length (snd (fst e)) = len) es) by (by apply Forall_fmap).
  assert (Hne : es ≠ []).
  { intros Hnil%fmap_nil_inv. rewrite Hnil in Hp. apply Permutation_nil_l in Hp. symmetry in Hp. by apply map_to_list_empty_iff in Hp. }
  rewrite (rounds_at _ _ len _ _ _ es ((λ p, (fst p, values (snd p))) <$> map_to_list lifeSpans)).
  - cbn [obind]. by rewrite Nat.sub_0_r.
  - done.
  - unfold es. rewrite <- list_fmap_compose. cbn. by rewrite Hp.
  - eapply Forall_impl; [done|]. cbn. intros e ->. lia.
  - destruct es as [|e es']; [done|]. apply Forall_cons in Hlen' as [He' _]. by constructor.
  - lia.
  - destruct es as [|e es']; [done|]. apply Forall_cons in Hlen' as [He' _]. unfold rounds_fuel. cbn. lia.
Qed.
End calc.
End CalcFacts.

(** * Properties *)
Module RolloutTheorems.
Import LockstepFacts RolloutFacts CalcFacts.

Section moments.
Context `{LP : LogParser}.

Lemma presence_names app : fst <$> presence app = fst <$> map_to_list (fst (replica_sets app)).
Proof. unfold presence. by rewrite <- list_fmap_compose. Qed.

Lemma running_ok app from step len k :
  covered app from step len → NoDup (running (presence app) k) ∧ "" ∉ running (presence app) k.
Proof.
  intros Hc. unfold running, StringSet.sort_strings. rewrite merge_sort_Permutation.
  assert (Hsub : sublist (fst <$> filter (λ s, runs_at k s = true) (presence app)) (fst <$> presence app)).
  { by apply fmap_sublist, sublist_filter. }
  rewrite presence_names in Hsub. split.
  - exact (sublist_NoDup _ _ (NoDup_fst_map_to_list (fst (replica_sets app))) Hsub).
  - intros Hin. eapply elem_of_sublist in Hin; [|exact Hsub].
    apply list_elem_of_fmap in Hin as ([name agg] & Hname & Hin%elem_of_map_to_list).
    destruct (replica_sets_ok _ _ _ _ Hc _ _ Hin) as [Hne _]. by cbn in Hname.
Qed.

Lemma elem_of_moments from step sets len r :
  r ∈ moments from step sets len ↔
  ∃ k, (k < len)%nat ∧ rss_time r = wrap64 (from + Z.of_nat k * step) ∧ rss_names r = running sets k ∧ rss_names r ≠ [].
Proof.
  unfold moments. rewrite list_elem_of_omap. setoid_rewrite elem_of_seq. unfold moment. split.
  - intros (k & Hk & Hm). exists k. destruct (running sets k) eqn:E; [done|]. injection Hm as <-. cbn. split_and!; [lia|done..].
  - intros (k & Hk & Ht & Hn & Hne). exists k. split; [lia|]. destruct (running sets k) eqn:E; [congruence|].
    destruct r; cbn in *; congruence.
Qed.

Lemma moments_sorted from step sets len :
  0 < step → 0 ≤ from → from + Z.of_nat len * step < 2 ^ 62 →
  StronglySorted (λ r r', rss_time r < rss_time r') (moments from step sets len).
Proof.
  intros Hs Hf Hl. unfold moments.
  assert (Hgen : ∀ m k, (k + m ≤ len)%nat →
    StronglySorted (λ r r', rss_time r < rss_time r') (omap (moment from step sets) (seq k m))).
  { induction m as [|m IH]; intros k Hk; [constructor|]. cbn [seq omap list_omap].
    unfold moment at 1. destruct (running sets k) eqn:E; [apply (IH (S k)); lia|].
    constructor; [apply (IH (S k)); lia|]. apply Forall_forall. intros r Hr. apply list_elem_of_omap in Hr as (j & Hj%elem_of_seq & Hm).
    unfold moment in Hm. destruct (running sets j); [done|]. injection Hm as <-. cbn.
    rewrite !wrap64_id by (unfold in_i64, i64_min, i64_max; nia). nia. }
  by apply Hgen.
Qed.
End moments.

Section theorems.
Context `{LP : LogParser}.

(** C34 [calcDeployments] returns: over pods whose life spans cover one window it
    ends without a panic, and what it finds is read off the sorted sets of
    running replica sets moment by moment, so the order in which its maps are
    visited does not matter. *)
Theorem calcDeployments_order_independent `{MapOrder} n app from step len :
  covered app from step len →
  calcDeployments n app
  = Ret (if String.eqb (Kind (app_Id app)) ApplicationKindDeployment
         then with_images (snd (replica_sets app))
                <$> ro_deployments (rollouts (app_Id app) (moments from step (presence app) len))
         else []).
Proof.
  intros Hc. destruct (String.eqb _ _) eqn:Hk; [by apply calc_moments|].
  unfold calcDeployments. by rewrite Hk.
Qed.

(** What is found is sound: each deployment has a name and starts at a moment
    when its replica set runs; its end, if it has one, is a moment not before
    its start when only that replica set runs; and the next one has another
    name, starts later, and after the end. *)
Theorem calcDeployments_sound `{MapOrder} n app from step len ds :
  covered app from step len → 0 < step → 0 ≤ from → from + Z.of_nat len * step < 2 ^ 62 →
  calcDeployments n app = Ret ds →
  linked ds
  ∧ ∀ d, d ∈ ds →
    dep_ApplicationId d = app_Id app ∧ dep_Name d ≠ ""
    ∧ ∃ k, (k < len)%nat ∧ dep_StartedAt d = from + Z.of_nat k * step ∧ dep_Name d ∈ running (presence app) k
    ∧ (dep_FinishedAt d = 0
       ∨ ∃ j, (k ≤ j < len)%nat ∧ dep_FinishedAt d = from + Z.of_nat j * step ∧ running (presence app) j = [dep_Name d]).
Proof.
  intros Hc Hs Hf Hl. rewrite (calcDeployments_order_independent n app from step len Hc). intros [= <-].
  destruct (String.eqb _ _); [|by split; [intros i d d' Hd|intros d Hd; apply not_elem_of_nil in Hd]].
  set (h := moments from step (presence app) len).
  assert (Hh : ∀ r, r ∈ h → ∃ k, (k < len)%nat ∧ rss_time r = from + Z.of_nat k * step ∧ rss_names r = running (presence app) k).
  { intros r (k & Hk & Ht & Hn & _)%elem_of_moments. exists k.
    rewrite wrap64_id in Ht by (unfold in_i64, i64_min, i64_max; nia). done. }
  assert (Hok : Forall names_ok h).
  { apply Forall_forall. intros r Hr. destruct (Hh r Hr) as (k & _ & _ & Hn). unfold names_ok. rewrite Hn. by eapply running_ok. }
  destruct (rollouts_inv (app_Id app) h Hok) as (Hall & Hlink & _); [by apply moments_sorted|].
  assert (Hfields : ∀ d, let d' := with_images (snd (replica_sets app)) d in
    dep_ApplicationId d' = dep_ApplicationId d ∧ dep_Name d' = dep_Name d
    ∧ dep_StartedAt d' = dep_StartedAt d ∧ dep_FinishedAt d' = dep_FinishedAt d).
  { intros d. unfold with_images. by destruct (_ !! dep_Name d). }
  split.
  - intros i d1 d2 H1 H2. rewrite list_lookup_fmap in H1, H2.
    apply fmap_Some in H1 as (e1 & H1 & ->), H2 as (e2 & H2 & ->).
    unfold before. destruct (Hfields e1) as (_ & -> & -> & ->), (Hfields e2) as (_ & -> & -> & _). exact (Hlink _ _ _ H1 H2).
  - intros d (e & -> & He)%list_elem_of_fmap. destruct (Hfields e) as (-> & -> & -> & ->).
    eapply Forall_forall in Hall; [|exact He].
    destruct Hall as (Hid & Hne & (r & Hr & Ht & Hn) & Hfin).
    destruct (Hh r Hr) as (k & Hk & Htr & Hnr). split; [done|]. split; [done|]. exists k.
    split_and!; [done|congruence|by rewrite <- Hnr|].
    destruct Hfin as [?|(r2 & Hr2 & Ht2 & Hn2 & Hle)]; [by left|right].
    destruct (Hh r2 Hr2) as (j & Hj & Htr2 & Hnr2). exists j. split_and!; [|done|congruence|congruence]. nia.
Qed.

(** C19 Passes over a sliding window agree: let [w] be a moment with one replica set
    in the windows of two passes, the second of which starts with it (a window that
    starts in the middle of a rollout does not see its start).  What the first pass
    finds after [w] the second finds again, with the same names and starts, and with
    the same ends unless a deployment without an end was since left alone at a moment
    that is new.  What the second finds besides starts at a moment that is new. *)
Theorem rollouts_stable id pre w curr mid post :
  Forall names_ok (pre ++ w :: mid ++ post) → rss_names w = [curr] →
  ∃ seen, ro_deployments (rollouts id (pre ++ w :: mid)) = (ro_deployments (rollouts id (pre ++ [w])) ++ seen)%list
    ∧ extends post seen (ro_deployments (rollouts id (w :: mid ++ post))).
Proof.
  intros Hok Hw. apply Forall_app in Hok as [Hpre Hok].
  exists (ro_deployments (rollouts id (w :: mid))). split; [by eapply rollouts_later_window|].
  change (w :: mid ++ post)%list with ((w :: mid) ++ post)%list in *.
  apply Forall_app in Hok as [Hmid Hpost]. rewrite rollouts_app.
  by apply steps_extend; [|apply rollouts_consistent].
Qed.

(** From one moment with a single replica set to the next, over moments [mids]
    with several: nothing happened if [mids] is empty and the replica set is the
    same; else a deployment of the first new replica set starts at the first of
    these moments (or at the last one, if there are none in between) and
    finishes when it is left alone; if another one is left, that deployment was
    cancelled and another, of the replica set left, starts and finishes there. *)
Theorem rollouts_between_single_moments id w a mids e b :
  rss_names w = [a] → rss_names e = [b] → a ≠ "" →
  Forall (λ m, (2 ≤ length (rss_names m))%nat ∧ names_ok m) mids →
  ro_deployments (rollouts id (w :: mids ++ [e]))
  = match mids with
    | [] => if String.eqb a b then [] else [new_deployment id b (rss_time e) (rss_time e)]
    | m :: _ =>
        let c := default "" (List.find (λ n, negb (String.eqb n a)) (rss_names m)) in
        if String.eqb c b then [new_deployment id b (rss_time m) (rss_time e)]
        else [new_deployment id c (rss_time m) 0; new_deployment id b (rss_time e) (rss_time e)]
    end.
Proof.
  intros Hw He Ha Hm. unfold rollouts. cbn [foldl].
  assert (Hstart : rollout_step id {| ro_deployments := []; ro_deployment := None; ro_prev := "" |} w
          = {| ro_deployments := []; ro_deployment := None; ro_prev := a |}) by (unfold rollout_step; by rewrite Hw).
  rewrite Hstart. apply String.eqb_neq in Ha. destruct mids as [|m mids].
  { cbn. unfold rollout_step. rewrite He. cbn. rewrite Ha. by destruct (String.eqb a b). }
  apply Forall_cons in Hm as [[Hlen [Hnd Hne]] Hm].
  destruct (rss_names m) as [|n1 [|n2 names]] eqn:Hn; [cbn in Hlen; lia..|].
  destruct (find_other a n1 n2 names Hnd) as (c & Hc & Hca & Hin). rewrite Hc.
  assert (Hce : String.eqb c "" = false) by (apply String.eqb_neq; intros ->; done).
  cbn [app foldl]. set (s := {| ro_deployments := [new_deployment id c (rss_time m) 0]; ro_deployment := Some 0%nat; ro_prev := c |}).
  assert (Hfirst : rollout_step id {| ro_deployments := []; ro_deployment := None; ro_prev := a |} m = s).
  { unfold rollout_step. rewrite Hn. cbn [ro_prev ro_deployment]. rewrite Ha, Hc. done. }
  rewrite Hfirst, foldl_app. cbn [foldl].
  assert (Hkeep : foldl (rollout_step id) s mids = s).
  { clear -Hm Hce. induction Hm as [|m' ms [Hlen _] _ IH]; [done|]. cbn [foldl].
    replace (rollout_step id s m') with s; [done|]. unfold rollout_step.
    destruct (rss_names m') as [|? [|? ?]]; [cbn in Hlen; lia..|]. cbn. by rewrite Hce. }
  rewrite Hkeep. unfold rollout_step. rewrite He. unfold s, finish. cbn -[String.eqb].
  rewrite Hce, (String.eqb_sym c b). by destruct (String.eqb_spec b c) as [->|].
Qed.
End theorems.
End RolloutTheorems.

(** * Concrete histories *)
Module RolloutRuns.
Import LockstepFacts RolloutFacts CalcFacts RolloutTheorems.

#[local] Instance run_order : MapOrder := {| map_order _ _ l := l; map_order_perm _ _ l := reflexivity l |}.
#[local] Instance run_parser : LogParser :=
  {| Pattern := string; PatternString s := s; WeakEqual := String.eqb; NewPatternFromWords s := s |}.

Definition pod (name rs image : string) (life : list f32) : Instance_ :=
  {| inst_Name := name; inst_Pod := Some {| pod_Phase := "Running"; pod_ReplicaSet := rs; pod_LifeSpan := Some (NewWithData 900 30 life) |};
     inst_Containers := [("main", {| c_Image := image; c_CpuUsage := None; c_MemoryRss := None; c_MemoryLimit := None;
                                     c_Restarts := None; c_OOMKills := None |})];
     inst_NodePrice := None; inst_ClusterComponent := None; inst_Upstreams := []; inst_Annotations := [] |}.
(** A rollout of a second replica set, over four moments. *)
Definition app : Application :=
  {| app_Id := NewApplicationId "c" "ns" "Deployment" "web"; app_Category := "application";
     app_Instances := [pod "web-a-1" "web-a" "web:1" [F32.one; F32.one; F32.one; NaN];
                       pod "web-b-1" "web-b" "web:2" [NaN; F32.one; F32.one; F32.one];
                       pod "web-b-2" "web-b" "web:2" [NaN; NaN; F32.one; F32.one]];
     app_LogMessages := []; app_Reports := []; app_AvailabilitySLIs := []; app_LatencySLIs := []; app_Deployments := []; app_Annotations := []; app_TrafficStats := no_traffic; app_DNSRequests := [];
     app_DNSRequestsHistogram := []; app_InboundRequestsCount := []; app_InboundRequestsHistogram := [] |}.

Lemma app_covered : covered app 900 30 4.
Proof.
  intros i p Hi Hp _. cbn in Hi.
  repeat (apply elem_of_cons in Hi as [->|Hi];
          [cbn in Hp; injection Hp as <-; cbn; eexists; split; [reflexivity|done]|]).
  by apply not_elem_of_nil in Hi.
Qed.

Definition found : ApplicationDeployment :=
  {| dep_ApplicationId := app_Id app; dep_Name := "web-b"; dep_StartedAt := 930; dep_FinishedAt := 990;
     dep_Details := Some ["web:2"]; dep_MetricsSnapshot := None; dep_Notifications := None |}.

Lemma calcDeployments_order_independent_witness :
  calcDeployments 0 app = Ret [found].
Proof. rewrite (calcDeployments_order_independent 0 app 900 30 4 app_covered). vm_compute. reflexivity. Defined.

Lemma calcDeployments_sound_witness : calcDeployments 0 app = Ret [found] ∧ linked [found].
Proof.
  assert (Hc : calcDeployments 0 app = Ret [found]) by (vm_compute; reflexivity).
  split; [exact Hc|].
  refine (proj1 (calcDeployments_sound 0 app 900 30 4 [found] app_covered _ _ _ Hc)); [lia|lia|].
  vm_compute. reflexivity.
Defined.

Definition at_ (t : Z) (names : list string) : ReplicaSets := {| rss_time := t; rss_names := names |}.
Lemma names_ok_at t names : bool_decide (NoDup names ∧ "" ∉ names) = true → names_ok (at_ t names).
Proof. apply bool_decide_eq_true_1. Qed.

(** The window moves past a finished rollout while the next one runs, which the
    second pass sees finish. *)
Lemma rollouts_stable_witness :
  ∃ seen, ro_deployments (rollouts (app_Id app) ([at_ 1 ["a"]; at_ 2 ["a"; "b"]] ++ at_ 3 ["b"] :: [at_ 4 ["b"; "c"]]))
          = (ro_deployments (rollouts (app_Id app) ([at_ 1 ["a"]; at_ 2 ["a"; "b"]] ++ [at_ 3 ["b"]])) ++ seen)%list
    ∧ extends [at_ 5 ["c"]] seen (ro_deployments (rollouts (app_Id app) (at_ 3 ["b"] :: [at_ 4 ["b"; "c"]] ++ [at_ 5 ["c"]]))).
Proof.
  apply (rollouts_stable (app_Id app) [at_ 1 ["a"]; at_ 2 ["a"; "b"]] (at_ 3 ["b"]) "b" [at_ 4 ["b"; "c"]] [at_ 5 ["c"]]); [|reflexivity].
  repeat apply Forall_cons_2; try apply Forall_nil_2; apply names_ok_at; vm_compute; reflexivity.
Defined.

Lemma rollouts_between_single_moments_witness :
  ro_deployments (rollouts (app_Id app) (at_ 1 ["a"] :: [at_ 2 ["a"; "b"]] ++ [at_ 3 ["a"]]))
  = [new_deployment (app_Id app) "b" 2 0; new_deployment (app_Id app) "a" 3 3].
Proof.
  refine (rollouts_between_single_moments (app_Id app) (at_ 1 ["a"]) "a" [at_ 2 ["a"; "b"]] (at_ 3 ["a"]) "a" eq_refl eq_refl _ _).
  - discriminate.
  - constructor; [|constructor]. split; [cbn; lia|]. apply names_ok_at. vm_compute. reflexivity.
Defined.
End RolloutRuns.
