(* ===== verification/DeploymentStatus.v ===== *)
(** model/application_deployment.go: the state of each deployment of an
    application ([CalcApplicationDeploymentStatuses]) and the comparison of a
    finished one with the one before ([CalcApplicationDeploymentSummary]).

    The parts of the summary have a definition each, named after the comment
    above them in the source; a part returns the entries it adds.  The English
    plurals and durations of third-party libraries are parameters. *)

From S2P Require Export Checks Format.
From Stdlib Require Import Ascii String ZArith Lia.
Local Open Scope string_scope.
Local Open Scope Z_scope.

(** github.com/dustin/go-humanize/english [Plural]; github.com/hako/durafmt
    [Parse(d).LimitFirstN(n).String()]. *)
Class Humanize := {
  Plural : Z → string → string → string;
  durafmt_String : Z → nat → string
}.

Record ApplicationDeploymentSummary := {
  sum_Report : string;
  sum_Ok : bool;
  sum_Message : string;
  sum_Time : Z
}.

Record ApplicationDeploymentStatus := {
  st_Status : Z;
  st_State : Z;
  st_Message : string;
  st_Lifetime : Z;
  st_Summary : list ApplicationDeploymentSummary;
  st_Deployment : ApplicationDeployment;
  st_Last : bool
}.

(** * getFastRequestsCount *)
Record histogramBucket := { hbk_le : f32; hbk_count : Z }.

Definition bucket_of (e : string * Z) : option histogramBucket :=
  match ParseFloat (fst e) with
  | None => None
  | Some le => Some {| hbk_le := le; hbk_count := snd e |}
  end.

(** [buckets[i].le < buckets[j].le] or neither is less. *)
Definition le_order (a b : histogramBucket) : bool := negb (F32.ltb (hbk_le b) (hbk_le a)).

Fixpoint last_below (objectiveBucket res : f32) (buckets : list histogramBucket) : f32 :=
  match buckets with
  | [] => res
  | b :: buckets =>
      if F32.leb (hbk_le b) objectiveBucket then last_below objectiveBucket (F32.of_Z (hbk_count b)) buckets
      else res
  end.

Definition getFastRequestsCount (histogram : gmap string Z) (objectiveBucket : f32) : f32 :=
  let buckets := omap bucket_of (map_to_list histogram) in
  if bool_decide (buckets = []) then NaN else last_below objectiveBucket NaN (order_by le_order buckets).

(** * CalcApplicationDeploymentSummary *)
Section summary.
Context `{Humanize} `{LogParser}.

(** [utils.FormatDuration] *)
Definition FormatDuration (d : Z) (limitFirstN : nat) : string := durafmt_String (Duration.ToStandard d) limitFirstN.

(** [add]; the loop at the end sets the time. *)
Definition add (t : Z) (report : string) (ok : bool) (message : string) : list ApplicationDeploymentSummary :=
  [{| sum_Report := report; sum_Ok := ok; sum_Message := message; sum_Time := t |}].

(** [float32(a) * 100 / float32(b)] *)
Definition percent_of (a b : Z) : f32 := F32.div (F32.mul (F32.of_Z a) (F32.of_Z 100)) (F32.of_Z b).

(** [float32(math.Abs(float64(x))) > significantPercentageDifference] *)
Definition significant (x : f32) : bool := F32.gtb (SFabs x) significantPercentageDifference.

Definition availability_percent (ms : MetricsSnapshot) : f32 :=
  percent_of (sub64 (ms_Requests ms) (ms_Errors ms)) (ms_Requests ms).

Definition availability_part (t : Z) (objective : f32) (curr : MetricsSnapshot) (prev : option MetricsSnapshot)
  : Z * list ApplicationDeploymentSummary :=
  if 0 <? ms_Requests curr then
    let vCurr := availability_percent curr in
    let entry ok := add t AuditReportSLO ok
          ("Availability: " ++ FormatPercentage vCurr ++ " (objective: " ++ FormatPercentage objective ++ ")") in
    if F32.ltb vCurr objective then (Status.CRITICAL, entry false)
    else
      match prev with
      | Some prev =>
          if (0 <? ms_Requests prev) && F32.ltb (availability_percent prev) objective
          then (Status.OK, entry true) else (Status.OK, [])
      | None => (Status.OK, [])
      end
  else (Status.OK, []).

(** [fast * 100 / float32(requests)] *)
Definition fast_percent (fast : f32) (ms : MetricsSnapshot) : f32 :=
  F32.div (F32.mul fast (F32.of_Z 100)) (F32.of_Z (ms_Requests ms)).

Definition latency_part (t : Z) (cfg : CheckConfigSLOLatency) (status : Z) (curr : MetricsSnapshot) (prev : option MetricsSnapshot)
  : Z * list ApplicationDeploymentSummary :=
  let fast := getFastRequestsCount (ms_Latency curr) (cl_ObjectiveBucket cfg) in
  if IsNaN fast then (status, [])
  else
    let vCurr := fast_percent fast curr in
    let entry ok := add t AuditReportSLO ok
          ("Latency: " ++ FormatPercentage vCurr ++ " of requests faster "
           ++ FormatFloat (F32.mul (cl_ObjectiveBucket cfg) (F32.of_Z 1000)) ++ "ms (objective: "
           ++ FormatPercentage (cl_ObjectivePercentage cfg) ++ ")") in
    if F32.ltb vCurr (cl_ObjectivePercentage cfg) then (Status.CRITICAL, entry false)
    else
      match prev with
      | Some prev =>
          let fast := getFastRequestsCount (ms_Latency prev) (cl_ObjectiveBucket cfg) in
          if negb (IsNaN fast) && F32.ltb (fast_percent fast prev) (cl_ObjectivePercentage cfg)
          then (status, entry true) else (status, [])
      | None => (status, [])
      end.

(** The loops over the instances: the total price and the count of nodes. *)
Definition node_price (price : NodePrice → f32) (app : Application) : f32 * f32 :=
  foldl (λ tc i, match inst_NodePrice i with
                 | None => tc
                 | Some p => (F32.add (fst tc) (price p), F32.add (snd tc) F32.one)
                 end) (F32.zero, F32.zero) (app_Instances app).

(** [costs], empty unless the nodes have a price. *)
Definition costs (price : NodePrice → f32) (app : Application) (usage diffPercent : f32) : string :=
  let '(totalPrice, count) := node_price price app in
  let avgPrice := F32.div totalPrice count in
  if F32.gtb totalPrice F32.zero then
    let diffCosts := F32.div (F32.mul (F32.mul usage avgPrice) diffPercent) (F32.of_Z 100) in
    " (" ++ FormatMoney (F32.mul diffCosts (F32.of_Z Time.Month)) ++ "/mo)"
  else "".

Definition cpu_part (t : Z) (app : Application) (curr : MetricsSnapshot) (prev : option MetricsSnapshot)
  : list ApplicationDeploymentSummary :=
  match prev with
  | None => []
  | Some prev =>
      if (0 <? ms_Requests curr) && (0 <? ms_Requests prev)
         && F32.gtb (ms_CPUUsage curr) F32.zero && F32.gtb (ms_CPUUsage prev) F32.zero then
        let perRequestCurr := F32.div (ms_CPUUsage curr) (F32.of_Z (ms_Requests curr)) in
        let perRequestPrev := F32.div (ms_CPUUsage prev) (F32.of_Z (ms_Requests prev)) in
        let diffPercent := F32.div (F32.mul (F32.sub perRequestCurr perRequestPrev) (F32.of_Z 100)) perRequestPrev in
        if significant diffPercent then
          let prevAvgCpuUsage := F32.div (ms_CPUUsage prev) (F32.of_Z ApplicationDeploymentMetricsSnapshotWindow) in
          add t AuditReportCPU (F32.ltb diffPercent F32.zero)
            ("CPU usage: " ++ Sprintf_f true 0 diffPercent ++ "%" ++ costs np_PerCPUCore app prevAvgCpuUsage diffPercent
             ++ " compared to the previous deployment")
        else []
      else []
  end.

Definition memory_part (t : Z) (app : Application) (curr : MetricsSnapshot) (prev : option MetricsSnapshot)
  : list ApplicationDeploymentSummary :=
  (if 0 <? ms_OOMKills curr
   then add t AuditReportMemory false
          ("Memory: app containers have been restarted " ++ Plural (ms_OOMKills curr) "time" "" ++ " by the OOM killer")
   else [])
  ++ match prev with
     | None => []
     | Some prev =>
         if (0 <? ms_MemoryUsage curr) && (0 <? ms_MemoryUsage prev) then
           let diffPercent := percent_of (sub64 (ms_MemoryUsage curr) (ms_MemoryUsage prev)) (ms_MemoryUsage prev) in
           if significant diffPercent then
             add t AuditReportMemory (F32.ltb diffPercent F32.zero)
               ("Memory usage: " ++ Sprintf_f true 0 diffPercent ++ "%"
                ++ costs np_PerMemoryByte app (F32.of_Z (ms_MemoryUsage prev)) diffPercent
                ++ " compared to the previous deployment")
           else []
         else []
     end
  ++ (if F32.gtb (ms_MemoryLeakPercent curr) significantPercentageDifference
      then add t AuditReportMemory false
             ("Memory: a memory leak detected (" ++ Sprintf_f true 0 (ms_MemoryLeakPercent curr) ++ "% per hour)")
      else match prev with
           | Some prev =>
               if F32.gtb (ms_MemoryLeakPercent prev) significantPercentageDifference
               then add t AuditReportMemory true "Memory: looks like the memory leak has been fixed"
               else []
           | None => []
           end).

Definition restarts_part (t : Z) (curr : MetricsSnapshot) : list ApplicationDeploymentSummary :=
  let restarts := sub64 (ms_Restarts curr) (ms_OOMKills curr) in
  if 0 <? restarts
  then add t AuditReportInstances false ("Crash: app containers have been restarted " ++ Plural restarts "time" "")
  else [].

Definition logs_part (t : Z) (curr : MetricsSnapshot) (prev : option MetricsSnapshot) : list ApplicationDeploymentSummary :=
  if 0 <? ms_LogErrors curr then
    match prev with
    | None => add t AuditReportLogs false "Logs: there are errors in the logs"
    | Some prev =>
        if ms_LogErrors prev =? 0 then add t AuditReportLogs false "Logs: there are errors in the logs"
        else if (0 <? ms_LogErrors prev) && (0 <? ms_Requests curr) && (0 <? ms_Requests prev) then
          if ms_LogErrors curr =? 0 then add t AuditReportLogs true "Logs: there are no more errors in the logs"
          else
            let perRequestCurr := F32.div (F32.of_Z (ms_LogErrors curr)) (F32.of_Z (ms_Requests curr)) in
            let perRequestPrev := F32.div (F32.of_Z (ms_LogErrors prev)) (F32.of_Z (ms_Requests prev)) in
            let diff := F32.div (F32.mul (F32.sub perRequestCurr perRequestPrev) (F32.of_Z 100)) perRequestPrev in
            if significant diff then
              let ok := F32.ltb diff F32.zero in
              add t AuditReportLogs ok
                ("Logs: the number of errors in the logs has " ++ (if ok then "decreased" else "increased")
                 ++ " by " ++ Itoa (F32.to_i64 (SFabs diff)) ++ "%")
            else []
        else []
    end
  else [].

Definition CalcApplicationDeploymentSummary (app : Application) (cc : CheckConfigs) (t : Z)
    (curr : MetricsSnapshot) (prev : option MetricsSnapshot) : list ApplicationDeploymentSummary * Z :=
  let availabilityCfg := fst (GetAvailability cc (app_Id app)) in
  let latencyCfg := fst (GetLatency cc (app_Id app) (app_Category app)) in
  let '(status, availability) := availability_part t (ca_ObjectivePercentage availabilityCfg) curr prev in
  let '(status, latency) := latency_part t latencyCfg status curr prev in
  (availability ++ latency ++ cpu_part t app curr prev ++ memory_part t app curr prev
   ++ restarts_part t curr ++ logs_part t curr prev, status)%list.

(** * CalcApplicationDeploymentStatuses *)

(** [for j := i - 1; j >= 0; j--]: the last snapshot of the deployments before. *)
Definition previous_snapshot (earlier : list ApplicationDeployment) : option MetricsSnapshot :=
  last (omap dep_MetricsSnapshot earlier).

(** The [switch] of the loop; [next] is the start of the next deployment, when
    there is one. *)
Definition deployment_status (app : Application) (cc : CheckConfigs) (durationThreshold now : Z)
    (earlier : list ApplicationDeployment) (d : ApplicationDeployment) (next : option Z) : ApplicationDeploymentStatus :=
  let last := match next with None => true | Some _ => false end in
  let make status state message summary :=
    {| st_Status := status; st_State := state; st_Message := message;
       st_Lifetime := Time.Sub (default now next) (dep_StartedAt d);
       st_Summary := summary; st_Deployment := d; st_Last := last |} in
  match dep_MetricsSnapshot d with
  | Some ms =>
      let '(summary, status) := CalcApplicationDeploymentSummary app cc (dep_StartedAt d) ms (previous_snapshot earlier) in
      make status ApplicationDeploymentStateSummary "" summary
  | None =>
      if negb (Time.IsZero (dep_FinishedAt d)) then
        make Status.OK ApplicationDeploymentStateDeployed "The service has been successfully deployed" []
      else if negb last then
        make Status.WARNING ApplicationDeploymentStateCancelled "The deployment has been cancelled" []
      else if durationThreshold <? Time.Sub now (dep_StartedAt d) then
        make Status.CRITICAL ApplicationDeploymentStateStuck
          ("The rollout has been in progress for over " ++ FormatDuration durationThreshold 1) []
      else make Status.WARNING ApplicationDeploymentStateInProgress "The rollout is in progress" []
  end.

Fixpoint statuses (app : Application) (cc : CheckConfigs) (durationThreshold now : Z)
    (earlier rest : list ApplicationDeployment) : list ApplicationDeploymentStatus :=
  match rest with
  | [] => []
  | d :: rest =>
      deployment_status app cc durationThreshold now earlier d (dep_StartedAt <$> head rest)
      :: statuses app cc durationThreshold now (earlier ++ [d])%list rest
  end.

Definition CalcApplicationDeploymentStatuses (app : Application) (cc : CheckConfigs) (now : Z)
  : outcome (list ApplicationDeploymentStatus) :=
  let* cfg := GetSimple cc "DeploymentStatus" (app_Id app) in
  Ret (statuses app cc (F32.to_i64 (cs_Threshold cfg)) now [] (app_Deployments app)).

End summary.

(** * Facts *)
Module DeploymentStatusFacts.

Section histogram.

#[local] Instance le_order_total : Total (holds le_order).
Proof.
  intros a b. unfold holds, le_order. destruct (F32.ltb (hbk_le b) (hbk_le a)) eqn:E; [|by left].
  right. destruct (F32.ltb (hbk_le a) (hbk_le b)) eqn:E'; [|done].
  pose proof (F32.ltb_trans _ _ _ E E') as Hirr. by rewrite F32.ltb_irrefl in Hirr.
Qed.

Implicit Types l : list histogramBucket.
Definition below (a b : histogramBucket) : Prop := F32.leb (hbk_le a) (hbk_le b) = true.

Lemma sorted_buckets l :
  Forall (λ b, hbk_le b ≠ NaN) l → StronglySorted below (order_by le_order l).
Proof.
  intros Hnan. unfold order_by.
  assert (Hs : Sorted (holds le_order) (merge_sort (holds le_order) l)) by apply (Sorted_merge_sort _).
  rewrite <- (merge_sort_Permutation (holds le_order) l) in Hnan.
  induction Hs as [|b l' Hs IH Hd]; [constructor|]. apply Forall_cons in Hnan as [Hb Hnan].
  specialize (IH Hnan). constructor; [done|].
  destruct Hd as [|b' l'' Hbb']; [constructor|]. apply Forall_cons in Hnan as [Hb' Hnan].
  assert (below b b') as Hle.
  { unfold holds, le_order in Hbb'. apply negb_true_iff in Hbb'. by apply F32.ltb_false_leb. }
  apply StronglySorted_inv in IH as [_ IH]. constructor; [done|].
  eapply Forall_impl; [exact IH|]. intros c Hc. by eapply F32.leb_trans.
Qed.

(** The loop returns the count of the last bucket not above the objective. *)
Lemma last_below_sorted objective res l :
  StronglySorted below l →
  (Forall (λ b, F32.leb (hbk_le b) objective = false) l ∧ last_below objective res l = res)
  ∨ ∃ b, b ∈ l ∧ F32.leb (hbk_le b) objective = true ∧ last_below objective res l = F32.of_Z (hbk_count b)
      ∧ ∀ b', b' ∈ l → F32.leb (hbk_le b') objective = true → below b' b ∨ b' = b.
Proof.
  revert res. induction l as [|b l IH]; intros res Hs; [by left; split; [constructor|]|].
  apply StronglySorted_inv in Hs as [Hs Hb]. cbn [last_below].
  destruct (F32.leb (hbk_le b) objective) eqn:E.
  - right. destruct (IH (F32.of_Z (hbk_count b)) Hs) as [[Hall ->] |(c & Hc & Hco & -> & Hmax)].
    + exists b. split_and!; [by left|done|done|]. intros b' [->|Hb']%elem_of_cons Hle; [by right|].
      rewrite Forall_forall in Hall. by rewrite Hall in Hle.
    + exists c. split_and!; [by right|done|done|]. intros b' [->|Hb']%elem_of_cons Hle; [|auto].
      rewrite Forall_forall in Hb. left. by apply Hb.
  - left. split; [|done]. constructor; [done|]. eapply Forall_impl; [exact Hb|]. intros c Hc. cbn in Hc |- *.
    apply not_true_iff_false. intros Hco. unfold below in Hc.
    by rewrite (F32.leb_trans _ _ _ Hc Hco) in E.
Qed.

(** The bucket of the histogram with key [k]. *)
Definition has_bucket (histogram : gmap string Z) (b : histogramBucket) : Prop :=
  ∃ k, histogram !! k = Some (hbk_count b) ∧ ParseFloat k = Some (hbk_le b).

Lemma elem_of_buckets histogram b : b ∈ omap bucket_of (map_to_list histogram) ↔ has_bucket histogram b.
Proof.
  rewrite list_elem_of_omap. unfold has_bucket, bucket_of. split.
  - intros ([k n] & Hin%elem_of_map_to_list & Hb). exists k. cbn in Hb.
    destruct (ParseFloat k); [|done]. by injection Hb as <-.
  - intros (k & Hk & Hp). exists (k, hbk_count b). cbn. rewrite Hp. split; [by apply elem_of_map_to_list|by destruct b].
Qed.

(** The count [getFastRequestsCount] reads off a histogram is that of the
    largest bucket not above the objective, the key being read as a number; it
    is NaN when there is none. *)
Theorem getFastRequestsCount_spec histogram objective :
  (∀ b, has_bucket histogram b → hbk_le b ≠ NaN) →
  (getFastRequestsCount histogram objective = NaN
    ∧ ∀ b, has_bucket histogram b → F32.leb (hbk_le b) objective = false)
  ∨ ∃ b, has_bucket histogram b ∧ F32.leb (hbk_le b) objective = true
      ∧ getFastRequestsCount histogram objective = F32.of_Z (hbk_count b)
      ∧ ∀ b', has_bucket histogram b' → F32.leb (hbk_le b') objective = true → F32.leb (hbk_le b') (hbk_le b) = true.
Proof.
  intros Hnan. unfold getFastRequestsCount.
  setoid_rewrite <- elem_of_buckets. setoid_rewrite <- elem_of_buckets in Hnan.
  revert Hnan. generalize (omap bucket_of (map_to_list histogram)) as l. intros l Hnan.
  case_bool_decide as Hl.
  { left. rewrite Hl. split; [done|]. intros b Hb. by apply not_elem_of_nil in Hb. }
  assert (Hp : order_by le_order l ≡ₚ l) by apply merge_sort_Permutation.
  destruct (last_below_sorted objective NaN (order_by le_order l)) as [[Hall ->] |(b & Hb & Hle & -> & Hmax)].
  - apply sorted_buckets. by apply Forall_forall.
  - left. split; [done|]. rewrite Hp, Forall_forall in Hall. done.
  - right. exists b. rewrite Hp in Hb. split_and!; [done..|]. intros b' Hb' Hle'.
    destruct (Hmax b') as [?| ->]; [by rewrite Hp|done|done|]. by apply F32.leb_refl, Hnan.
Qed.

(** The bounds of the program's own histograms come back from the keys a
    snapshot is written with ([%.3f]), so no bucket is lost or moved on the way. *)
Theorem default_buckets_roundtrip (le : f32) (count : Z) :
  le ∈ DefaultHistogramBuckets → bucket_of (Sprintf_f false 3 le, count) = Some {| hbk_le := le; hbk_count := count |}.
Proof.
  intros Hle. assert (Hall : forallb (λ le, bool_decide (ParseFloat (Sprintf_f false 3 le) = Some le)) DefaultHistogramBuckets = true)
    by (vm_compute; reflexivity).
  rewrite forallb_forall in Hall. apply list_elem_of_In in Hle. apply Hall, bool_decide_eq_true_1 in Hle.
  unfold bucket_of. cbn [fst snd]. by rewrite Hle.
Qed.
End histogram.

Section summary.
Context `{Humanize} `{LogParser}.

(** An entry of the parts other than the two SLO parts. *)
Definition other_entry (t : Z) (s : ApplicationDeploymentSummary) : Prop :=
  sum_Time s = t ∧ sum_Report s ≠ AuditReportSLO ∧ sum_Message s ≠ "Logs: there are no more errors in the logs".

(** Splits a part into its cases and checks the entries each adds. *)
Ltac entries :=
  repeat (rewrite ?Forall_app; split_and?; split_match);
  rewrite ?Forall_nil, ?Forall_singleton, ?Forall_app; try done; split_and!; try done.

Lemma cpu_part_entries t app curr prev : Forall (other_entry t) (cpu_part t app curr prev).
Proof. unfold cpu_part, add, other_entry. entries. Qed.

Lemma memory_part_entries t app curr prev : Forall (other_entry t) (memory_part t app curr prev).
Proof. unfold memory_part, add, other_entry. rewrite !Forall_app. split_and!; entries. Qed.

Lemma restarts_part_entries t curr : Forall (other_entry t) (restarts_part t curr).
Proof. unfold restarts_part, add, other_entry. entries. Qed.

Lemma logs_part_entries t curr prev : Forall (other_entry t) (logs_part t curr prev).
Proof.
  unfold logs_part, add, other_entry. destruct (0 <? ms_LogErrors curr) eqn:Hc; [|constructor].
  destruct prev as [prev|]; [|by constructor]. destruct (_ =? 0); [by constructor|].
  destruct (_ && _); [|constructor]. destruct (Z.eqb_spec (ms_LogErrors curr) 0) as [E|E]; [by rewrite E in Hc|].
  cbv zeta. destruct (significant _); [|constructor]. by constructor.
Qed.

Lemma other_entries t app curr prev :
  Forall (other_entry t) (cpu_part t app curr prev ++ memory_part t app curr prev ++ restarts_part t curr ++ logs_part t curr prev).
Proof.
  rewrite !Forall_app. auto using cpu_part_entries, memory_part_entries, restarts_part_entries, logs_part_entries.
Qed.
(** What an SLO part does to the status: CRITICAL with an entry that is not ok,
    or as it was. *)
Definition slo_part (t status0 : Z) (p : Z * list ApplicationDeploymentSummary) : Prop :=
  Forall (λ s, sum_Time s = t ∧ sum_Report s = AuditReportSLO ∧ sum_Message s ≠ "Logs: there are no more errors in the logs") (snd p)
  ∧ ((fst p = Status.CRITICAL ∧ ∃ s, s ∈ snd p ∧ sum_Ok s = false) ∨ (fst p = status0 ∧ ∀ s, s ∈ snd p → sum_Ok s = true)).

Lemma slo_part_nothing t status0 : slo_part t status0 (status0, []).
Proof. split; [constructor|]. right. split; [done|]. intros s Hs. by apply not_elem_of_nil in Hs. Qed.

Lemma slo_part_entry t status0 (ok : bool) (message : string) :
  message ≠ "Logs: there are no more errors in the logs" →
  slo_part t status0 (if ok then status0 else Status.CRITICAL, add t AuditReportSLO ok message).
Proof.
  intros Hm. split; [by constructor|]. unfold add. cbn. destruct ok; [right|left]; split; try done.
  - by intros s ->%list_elem_of_singleton.
  - eexists. by split; [left|].
Qed.

Lemma availability_part_slo t objective curr prev :
  slo_part t Status.OK (availability_part t objective curr prev).
Proof.
  unfold availability_part. destruct (0 <? _); [|apply slo_part_nothing]. cbv zeta.
  destruct (F32.ltb _ _); [by apply (slo_part_entry t Status.OK false)|].
  destruct prev as [prev|]; [|apply slo_part_nothing].
  destruct (_ && _); [by apply (slo_part_entry t Status.OK true)|apply slo_part_nothing].
Qed.

Lemma latency_part_slo t cfg status curr prev : slo_part t status (latency_part t cfg status curr prev).
Proof.
  unfold latency_part. cbv zeta. destruct (IsNaN _); [apply slo_part_nothing|].
  destruct (F32.ltb _ _); [by apply (slo_part_entry t status false)|].
  destruct prev as [prev|]; [|apply slo_part_nothing].
  destruct (_ && _); [by apply (slo_part_entry t status true)|apply slo_part_nothing].
Qed.

(** The status of a summary is OK or CRITICAL, and it is CRITICAL exactly when an
    SLO entry is not ok; every entry is at the start of the deployment; and no
    entry ever says that the log errors are gone, because the branch that would
    say so is inside the test that there are some. *)
Theorem CalcApplicationDeploymentSummary_status app cc t curr prev :
  let '(res, status) := CalcApplicationDeploymentSummary app cc t curr prev in
  (status = Status.OK ∨ status = Status.CRITICAL)
  ∧ (status = Status.CRITICAL ↔ ∃ s, s ∈ res ∧ sum_Report s = AuditReportSLO ∧ sum_Ok s = false)
  ∧ ∀ s, s ∈ res → sum_Time s = t ∧ sum_Message s ≠ "Logs: there are no more errors in the logs".
Proof.
  unfold CalcApplicationDeploymentSummary.
  pose proof (availability_part_slo t (ca_ObjectivePercentage (fst (GetAvailability cc (app_Id app)))) curr prev) as Ha.
  destruct (availability_part _ _ _ _) as [s1 e1]. cbv zeta.
  pose proof (latency_part_slo t (fst (GetLatency cc (app_Id app) (app_Category app))) s1 curr prev) as Hl.
  destruct (latency_part _ _ _ _ _) as [s2 e2].
  pose proof (other_entries t app curr prev) as Ho. revert Ho.
  generalize (cpu_part t app curr prev ++ memory_part t app curr prev ++ restarts_part t curr ++ logs_part t curr prev)%list as e3.
  intros e3 Ho. destruct Ha as [Ha Ha'], Hl as [Hl Hl']. cbn [fst snd] in *.
  rewrite Forall_forall in Ha, Hl, Ho. split_and!.
  - destruct Hl' as [[-> _]|[-> _]]; [by right|]. destruct Ha' as [[-> _]|[-> _]]; [by right|by left].
  - split.
    + intros ->. destruct Hl' as [(_ & s & Hs & Hok)|[Hs1 _]].
      { exists s. split_and!; [set_solver|by apply Hl|done]. }
      destruct Ha' as [(_ & s & Hs & Hok)|[Hs1' _]]; [|by rewrite Hs1' in Hs1].
      exists s. split_and!; [set_solver|by apply Ha|done].
    + intros (s & Hs & Hr & Hok). rewrite !elem_of_app in Hs. destruct Hs as [Hs|[Hs|Hs]].
      * destruct Ha' as [[Hs1 _]|[_ Hall]]; [|by rewrite Hall in Hok].
        destruct Hl' as [[-> _]|[-> _]]; done.
      * destruct Hl' as [[-> _]|[_ Hall]]; [done|by rewrite Hall in Hok].
      * by destruct (Ho s Hs) as (_ & ? & _).
  - intros s Hs. rewrite !elem_of_app in Hs.
    destruct Hs as [Hs|[Hs|Hs]]; [destruct (Ha s Hs)|destruct (Hl s Hs)|destruct (Ho s Hs)]; naive_solver.
Qed.

Lemma deployment_status_state app cc threshold now earlier d next :
  st_State (deployment_status app cc threshold now earlier d next)
  = if dep_MetricsSnapshot d is Some _ then ApplicationDeploymentStateSummary
    else if bool_decide (dep_FinishedAt d = 0) then
      if next is Some _ then ApplicationDeploymentStateCancelled
      else if threshold <? Time.Sub now (dep_StartedAt d) then ApplicationDeploymentStateStuck
      else ApplicationDeploymentStateInProgress
    else ApplicationDeploymentStateDeployed.
Proof.
  unfold deployment_status. destruct (dep_MetricsSnapshot d) as [ms|].
  { by destruct (CalcApplicationDeploymentSummary app cc _ ms _). }
  unfold Time.IsZero. destruct (bool_decide _); [|done]. destruct next; [done|]. cbn. by destruct (_ <? _).
Qed.

(** The state of one deployment never goes back: as time passes, once it is
    followed by another, finished, or has a snapshot, its state is at least what
    it was. *)
Theorem deployment_state_monotone app app' cc cc' threshold now now' earlier earlier' d d' next next' :
  0 ≤ dep_StartedAt d ≤ now → now ≤ now' < 2 ^ 62 →
  dep_StartedAt d' = dep_StartedAt d →
  (dep_FinishedAt d ≠ 0 → dep_FinishedAt d' ≠ 0) →
  (is_Some (dep_MetricsSnapshot d) → is_Some (dep_MetricsSnapshot d')) →
  (is_Some next → is_Some next') →
  st_State (deployment_status app cc threshold now earlier d next)
  ≤ st_State (deployment_status app' cc' threshold now' earlier' d' next').
Proof.
  intros Hs Hn Hstart Hf Hm Hnext. rewrite !deployment_status_state, Hstart.
  unfold Time.Sub. rewrite !sub64_id by i64.
  destruct (dep_MetricsSnapshot d') as [ms'|], (dep_MetricsSnapshot d) as [ms|];
    [done| |by destruct Hm as [? ?]|]; cbn.
  { repeat (destruct (bool_decide _) || destruct next || destruct (_ <? _)); done. }
  destruct (bool_decide_reflect (dep_FinishedAt d' = 0)), (bool_decide_reflect (dep_FinishedAt d = 0)); try done; [|by destruct Hf|].
  - destruct next' as [nx'|], next as [nx|]; try done; [by destruct (_ <? _)|by destruct Hnext as [? ?]|].
    destruct (Z.ltb_spec threshold (now - dep_StartedAt d)), (Z.ltb_spec threshold (now' - dep_StartedAt d)); try done. lia.
  - destruct next as [nx|]; [done|]. by destruct (_ <? _).
Qed.
End summary.
End DeploymentStatusFacts.

(** * Concrete values *)
Module DeploymentStatusRuns.
Import DeploymentStatusFacts.

#[local] Instance run_parser : LogParser :=
  {| Pattern := string; PatternString s := s; WeakEqual := String.eqb; NewPatternFromWords s := s |}.
#[local] Instance run_humanize : Humanize :=
  {| Plural n s _ := (Itoa n ++ " " ++ s ++ "s")%string; durafmt_String d _ := (Itoa (d / 1000000000) ++ " seconds")%string |}.

Definition histogram : gmap string Z := {["0.005" := 10; "0.500" := 90; "+Inf" := 100]}.

Lemma getFastRequestsCount_spec_witness :
  (∃ b, has_bucket histogram b ∧ getFastRequestsCount histogram (F32.frac 1 2) = F32.of_Z (hbk_count b))
  ∧ getFastRequestsCount histogram (F32.frac 1 2) = F32.of_Z 90.
Proof.
  split; [|vm_compute; reflexivity].
  destruct (getFastRequestsCount_spec histogram (F32.frac 1 2)) as [[Hn _]|(b & Hb & _ & Hc & _)];
    [|vm_compute in Hn; discriminate|exists b; split; [exact Hb|exact Hc]].
  intros b Hb%elem_of_buckets.
  assert (Hall : Forall (λ b, hbk_le b ≠ NaN) (omap bucket_of (map_to_list histogram))) by decide_now.
  rewrite Forall_forall in Hall. exact (Hall b Hb).
Defined.

Lemma default_buckets_roundtrip_witness :
  bucket_of (Sprintf_f false 3 (F32.frac 5 1000), 7) = Some {| hbk_le := F32.frac 5 1000; hbk_count := 7 |}.
Proof. apply (default_buckets_roundtrip (F32.frac 5 1000) 7). left. Defined.

Definition rolling : ApplicationDeployment :=
  {| dep_ApplicationId := ApplicationIdZero; dep_Name := "web-b"; dep_StartedAt := 100; dep_FinishedAt := 0;
     dep_Details := None; dep_MetricsSnapshot := None; dep_Notifications := None |}.
Definition no_app : Application :=
  {| app_Id := ApplicationIdZero; app_Category := "application"; app_Instances := []; app_LogMessages := []; app_Reports := [];
     app_AvailabilitySLIs := []; app_LatencySLIs := []; app_Deployments := []; app_Annotations := []; app_TrafficStats := no_traffic; app_DNSRequests := [];
     app_DNSRequestsHistogram := []; app_InboundRequestsCount := []; app_InboundRequestsHistogram := [] |}.

(** In progress after a minute, stuck after four. *)
Lemma deployment_state_monotone_witness :
  let before := deployment_status no_app [] 180 160 [] rolling None in
  let after := deployment_status no_app [] 180 340 [] rolling None in
  st_State before ≤ st_State after ∧ st_State before = 1 ∧ st_State after = 2.
Proof.
  split; [|split; reflexivity].
  apply (deployment_state_monotone no_app no_app [] [] 180 160 340 [] [] rolling rolling None None); cbn; try done; lia.
Defined.
End DeploymentStatusRuns.
