(* ===== verification/Metrics.v ===== *)
(** The metrics snapshot of a finished deployment: [calcMetricsSnapshot], [sum]
    and [sumRate] of watchers/deployments.go, and [MemoryGrowthPct] of
    auditor/memory.go, which estimates a memory leak in float64.

    gonum's [stat.LinearRegression] is a parameter. *)

From S2P Require Export Db Format.
From Stdlib Require Import Ascii ZArith Lia.
Local Open Scope string_scope.
Local Open Scope Z_scope.

(** gonum.org/v1/gonum/stat [LinearRegression(x, y, nil, false)]: alpha, beta. *)
Class Regression := { LinearRegression : list spec_float → list spec_float → spec_float * spec_float }.

(** * MemoryGrowthPct *)
Section memory.
Context `{Regression}.

(** The loop over the points: [x, y] is the longest run of defined points without
    a drop by half so far, [cx, cy] the current one, [prev] the value before. *)
Record growth := {
  gr_x : list spec_float; gr_y : list spec_float;
  gr_cx : list spec_float; gr_cy : list spec_float;
  gr_prev : f32
}.
Definition longer_run (g : growth) : list spec_float * list spec_float :=
  if bool_decide (List.length (gr_x g) < List.length (gr_cx g))%nat then (gr_cx g, gr_cy g) else (gr_x g, gr_y g).
Definition growth_step (g : growth) (t : Z) (v : f32) : growth :=
  if IsNaN v then g
  else
    let drop := negb (IsNaN (gr_prev g)) && F32.gtb (gr_prev g) F32.zero
                && F32.ltb v (F32.mul (gr_prev g) (F32.frac 1 2)) in
    let '(x, y) := if drop then longer_run g else (gr_x g, gr_y g) in
    {| gr_x := x; gr_y := y;
       gr_cx := ((if drop then [] else gr_cx g) ++ [F64.of_Z t])%list;
       gr_cy := ((if drop then [] else gr_cy g) ++ [F64.of_f32 v])%list; gr_prev := v |}.

(** [for tailStart > 0 && x[len(x)-1]-x[tailStart] < 15m { tailStart-- }] *)
Fixpoint tail_start (x : list spec_float) (end_ : spec_float) (tailStart : nat) : nat :=
  match tailStart with
  | O => O
  | S n =>
      if SFltb (F64.sub end_ (nth tailStart x S754_nan)) (F64.of_Z (15 * Time.Minute)) then tail_start x end_ n
      else tailStart
  end.

(** The trend [alpha + beta * t] over the last hour before [to], as a percentage. *)
Definition growth_pct (alpha beta : spec_float) (limit : f32) (to : Z) : f32 :=
  let at_ t := F64.to_f32 (F64.add alpha (F64.mul beta (F64.of_Z t))) in
  let s := at_ (Time.Add to (- Time.Hour)) in
  let e := at_ to in
  if negb (F32.gtb e F32.zero && F32.gtb e s) then F32.zero
  else
    let minGrowth := if negb (IsNaN limit) && F32.gtb limit F32.zero then F32.mul limit (F32.frac 5 100)
                     else F32.of_Z (50 * 1024 * 1024) in
    let d := F32.sub e s in
    if F32.ltb d minGrowth then F32.zero
    else F32.mul (F32.div d (if F32.gtb s F32.zero then s else e)) (F32.of_Z 100).

Definition MemoryGrowthPct (rss : option TimeSeries) (limit : f32) (to : Z) : outcome f32 :=
  match rss with
  | None => Ret F32.zero
  | Some _ =>
      let* defined := Reduce NanCount rss in
      if F32.ltb defined (F32.mul (F32.of_Z (Len rss)) (F32.frac 8 10)) then Ret F32.zero
      else
        let* g := for_ts (λ g t v, Ret (growth_step g t v)) rss
              {| gr_x := []; gr_y := []; gr_cx := []; gr_cy := []; gr_prev := NaN |} in
        let '(x, y) := longer_run g in
        if bool_decide (len_go x < 10 ∨ len_go x < Len rss / 3) then Ret F32.zero
        else
          let '(alpha, beta) := LinearRegression x y in
          if SFleb beta (S754_zero false) then Ret F32.zero
          else
            let n := List.length x in
            let tailStart := tail_start x (nth (n - 1) x S754_nan) (n - n / 4) in
            if bool_decide (n - tailStart < 5)%nat then Ret F32.zero
            else
              let tailBeta := snd (LinearRegression (drop tailStart x) (drop tailStart y)) in
              if SFleb tailBeta (S754_zero false)
                 || SFltb tailBeta (F64.mul beta (F64.div (F64.of_Z 3) (F64.of_Z 10))) then Ret F32.zero
              else Ret (growth_pct alpha beta limit to)
  end.

End memory.

(** * calcMetricsSnapshot *)
Definition sum_step (from to : Z) : F := λ t s v,
  let s := if IsNaN s then F32.zero else s in
  if Time.Before t from || Time.After t to || IsNaN v then s else F32.add s v.

Definition sum (ts : option TimeSeries) (from to : Z) : outcome f32 :=
  let* s := Reduce (sum_step from to) ts in
  Ret (if IsNaN s then F32.zero else s).

Definition sumRate (ts : option TimeSeries) (from to step : Z) : outcome f32 :=
  let* s := sum ts from to in
  let* seconds := quot64 step Time.Second in
  Ret (F32.mul s (F32.of_Z seconds)).

Section snapshot.
Context `{Regression} `{LogParser}.

(** The requests and errors of the first availability SLI. *)
Definition snapshot_requests (slis : list AvailabilitySLI) (from to step : Z) : outcome (Z * Z) :=
  match slis with
  | [] => Ret (0, 0)
  | sli :: _ =>
      let* requests := sumRate (as_TotalRequests sli) from to step in
      let* errors := sumRate (as_FailedRequests sli) from to step in
      Ret (F32.to_i64 requests, F32.to_i64 errors)
  end.

(** The histogram of the first latency SLI. *)
Fixpoint snapshot_buckets (hs : list HistogramBucket) (from to step : Z) (latency : gmap string Z) : outcome (gmap string Z) :=
  match hs with
  | [] => Ret latency
  | h :: hs =>
      let* v := sumRate (hb_TimeSeries h) from to step in
      snapshot_buckets hs from to step (<[Sprintf_f false 3 (hb_Le h) := F32.to_i64 v]> latency)
  end.
Definition snapshot_latency (slis : list LatencySLI) (from to step : Z) : outcome (gmap string Z) :=
  match slis with
  | [] => Ret ∅
  | sli :: _ => snapshot_buckets (ls_Histogram sli) from to step ∅
  end.

(** [logErrors] and [logWarnings]; a nil [msgs] of those levels is dereferenced. *)
Fixpoint snapshot_logs (logs : list (Z * option LogMessages)) (errors warnings : Aggregate.t)
  : outcome (Aggregate.t * Aggregate.t) :=
  match logs with
  | [] => Ret (errors, warnings)
  | (level, msgs) :: logs =>
      if (level =? Severity.SeverityError) || (level =? Severity.SeverityFatal) then
        match msgs with
        | None => Panic
        | Some m => snapshot_logs logs (Aggregate.Add errors [lm_Messages m]) warnings
        end
      else if level =? Severity.SeverityWarning then
        match msgs with
        | None => Panic
        | Some m => snapshot_logs logs errors (Aggregate.Add warnings [lm_Messages m])
        end
      else snapshot_logs logs errors warnings
  end.

(** The aggregates over the containers, and the largest growth. *)
Record usage := { us_cpu : Aggregate.t; us_mem : Aggregate.t; us_restarts : Aggregate.t; us_oom : Aggregate.t; us_leak : f32 }.

Definition add_container (to : Z) (u : usage) (c : Container) : outcome usage :=
  let* limit := Reduce Max (c_MemoryLimit c) in
  let* pct := MemoryGrowthPct (c_MemoryRss c) limit to in
  Ret {| us_cpu := Aggregate.Add (us_cpu u) [c_CpuUsage c];
         us_mem := Aggregate.Add (us_mem u) [c_MemoryRss c];
         us_restarts := Aggregate.Add (us_restarts u) [c_Restarts c];
         us_oom := Aggregate.Add (us_oom u) [c_OOMKills c];
         us_leak := if F32.gtb pct (us_leak u) then pct else us_leak u |}.

Definition containers (app : Application) : list Container :=
  List.concat ((λ i, snd <$> inst_Containers i) <$> app_Instances app).

(** The mean of the defined points, zero unless it is positive. *)
Definition memory_usage (totalMem : option TimeSeries) : outcome Z :=
  match totalMem with
  | None => Ret 0
  | Some _ =>
      let* s := Reduce NanSum totalMem in
      let* defined := Map Defined_ totalMem in
      let* c := Reduce NanSum defined in
      Ret (if F32.gtb c F32.zero && F32.gtb s F32.zero then F32.to_i64 (F32.div s c) else 0)
  end.

(** [int64(sum(agg.Get(), from, to))] *)
Definition sum_of (agg : Aggregate.t) (from to : Z) : outcome Z :=
  let* ts := Aggregate.Get agg in
  let* s := sum ts from to in
  Ret (F32.to_i64 s).

Definition calcMetricsSnapshot (app : Application) (from to step : Z) : outcome MetricsSnapshot :=
  let sums := Aggregate.NewAggregate NanSum in
  let* requests := snapshot_requests (app_AvailabilitySLIs app) from to step in
  let* latency := snapshot_latency (app_LatencySLIs app) from to step in
  let* logs := snapshot_logs (app_LogMessages app) sums sums in
  let* u := fold_go (add_container to)
        {| us_cpu := sums; us_mem := sums; us_restarts := sums; us_oom := sums; us_leak := F32.zero |}
        (containers app) in
  let* cpu := Aggregate.Get (us_cpu u) in
  let* cpuUsage := sumRate cpu from to step in
  let* totalMem := Aggregate.Get (us_mem u) in
  let* memoryUsage := memory_usage totalMem in
  let* oomKills := sum_of (us_oom u) from to in
  let* restarts := sum_of (us_restarts u) from to in
  let* logErrors := sum_of (fst logs) from to in
  let* logWarnings := sum_of (snd logs) from to in
  Ret {| ms_Timestamp := to; ms_Duration := Time.Sub to from;
         ms_Requests := fst requests; ms_Errors := snd requests; ms_Latency := latency;
         ms_Restarts := restarts; ms_CPUUsage := cpuUsage; ms_MemoryLeakPercent := us_leak u;
         ms_MemoryUsage := memoryUsage; ms_OOMKills := oomKills;
         ms_LogErrors := logErrors; ms_LogWarnings := logWarnings |}.

End snapshot.

(** * Facts *)
Module MetricsFacts.

Lemma sum_returns ts from to : returns (sum ts from to).
Proof. unfold sum. destruct ts as [ts|]; [rewrite Reduce_fold|]; eexists; reflexivity. Qed.

Lemma sumRate_returns ts from to step : returns (sumRate ts from to step).
Proof. unfold sumRate. destruct (sum_returns ts from to) as [s ->]. eexists. reflexivity. Qed.

Lemma Reduce_returns f ts : returns (Reduce f ts).
Proof. destruct ts as [ts|]; [rewrite Reduce_fold|]; eexists; reflexivity. Qed.

Section returns.
Context `{Regression} `{LogParser}.

Lemma MemoryGrowthPct_returns rss limit to : returns (MemoryGrowthPct rss limit to).
Proof.
  unfold MemoryGrowthPct. destruct rss as [ts|]; [|by eexists].
  destruct (Reduce_returns NanCount (Some ts)) as [c ->]. cbn [obind].
  destruct (F32.ltb _ _); [by eexists|]. rewrite for_ts_fold, fold_go_pure. cbn [obind].
  destruct (longer_run _) as [x y]. case_bool_decide; [by eexists|].
  destruct (LinearRegression x y) as [alpha beta]. destruct (SFleb beta _); [by eexists|]. cbv zeta.
  case_bool_decide; [by eexists|]. destruct (_ || _); by eexists.
Qed.

(** The series an aggregate adds up are no longer than the first of them. *)
Definition fits (tss : list (option TimeSeries)) : Prop :=
  match omap (λ ts, ts) tss with
  | [] => True
  | first :: rest => Forall (λ ts, length (ts_data ts) ≤ length (ts_data first))%nat rest
  end.

Lemma Add_all f tss agg :
  Aggregate.Add {| Aggregate.f := f; Aggregate.input := agg |} tss
  = {| Aggregate.f := f; Aggregate.input := (agg ++ omap (λ ts, ts) tss)%list |}.
Proof.
  unfold Aggregate.Add. cbn. f_equal. revert agg.
  induction tss as [|[ts|] tss IH]; intros agg; cbn; [by rewrite app_nil_r| |apply IH].
  rewrite IH. by rewrite <- app_assoc.
Qed.

Lemma Get_fits f tss :
  fits tss → returns (Aggregate.Get {| Aggregate.f := f; Aggregate.input := omap (λ ts, ts) tss |}).
Proof.
  unfold fits. destruct (omap _ tss) as [|first [|second rest]]; [by eexists..|].
  intros Hf. unfold Aggregate.Get, Aggregate.f, Aggregate.input.
  rewrite (AggregateFacts.merge_all_spec f (length (ts_data first))) by apply length_replicate.
  rewrite bool_decide_true by (by constructor). by eexists.
Qed.

Lemma sum_of_fits f tss from to :
  fits tss → returns (sum_of {| Aggregate.f := f; Aggregate.input := omap (λ ts, ts) tss |} from to).
Proof.
  intros [ts Hts]%(Get_fits f). unfold sum_of. rewrite Hts. cbn [obind].
  destruct (sum_returns ts from to) as [s ->]. by eexists.
Qed.
Lemma Add_nil a : Aggregate.Add a [] = a.
Proof. by destruct a. Qed.

Lemma add_containers to cs u :
  ∃ u', fold_go (add_container to) u cs = Ret u'
    ∧ us_cpu u' = Aggregate.Add (us_cpu u) (c_CpuUsage <$> cs)
    ∧ us_mem u' = Aggregate.Add (us_mem u) (c_MemoryRss <$> cs)
    ∧ us_restarts u' = Aggregate.Add (us_restarts u) (c_Restarts <$> cs)
    ∧ us_oom u' = Aggregate.Add (us_oom u) (c_OOMKills <$> cs).
Proof.
  revert u. induction cs as [|c cs IH]; intros u; cbn [fold_go fmap list_fmap].
  { exists u. by rewrite !Add_nil. }
  unfold add_container at 1. destruct (Reduce_returns Max (c_MemoryLimit c)) as [limit ->]. cbn [obind].
  destruct (MemoryGrowthPct_returns (c_MemoryRss c) limit to) as [pct ->]. cbn [obind].
  match goal with |- context [fold_go _ ?u1 cs] => destruct (IH u1) as (u' & Hu & H1 & H2 & H3 & H4) end.
  exists u'. by split_and!.
Qed.

(** The message series of the levels a predicate picks. *)
Definition messages_of (p : Z → bool) (app : Application) : list (option TimeSeries) :=
  (λ l, m ← snd l; lm_Messages m) <$> List.filter (λ l, p (fst l)) (app_LogMessages app).
Definition is_error (level : Z) : bool := (level =? Severity.SeverityError) || (level =? Severity.SeverityFatal).
Definition is_warning (level : Z) : bool := level =? Severity.SeverityWarning.

Lemma snapshot_logs_messages logs errors warnings :
  Forall (λ l : Z * option LogMessages, is_error (fst l) || is_warning (fst l) = true → snd l ≠ None) logs →
  ∃ r, snapshot_logs logs errors warnings = Ret r
    ∧ fst r = Aggregate.Add errors ((λ l, m ← snd l; lm_Messages m) <$> List.filter (λ l, is_error (fst l)) logs)
    ∧ snd r = Aggregate.Add warnings ((λ l, m ← snd l; lm_Messages m) <$> List.filter (λ l, is_warning (fst l)) logs).
Proof.
  intros Hall. revert errors warnings. induction Hall as [|[level msgs] logs Hl _ IH]; intros errors warnings; cbn.
  { exists (errors, warnings). by rewrite !Add_nil. }
  cbn in Hl. fold (is_error level). change (level =? Severity.SeverityWarning) with (is_warning level).
  destruct (is_error level) eqn:He.
  - assert (Hw : is_warning level = false).
    { unfold is_error, is_warning in *. apply orb_true_iff in He as [->%Z.eqb_eq| ->%Z.eqb_eq]; reflexivity. }
    rewrite Hw in *. destruct msgs as [m|]; [|by destruct Hl].
    destruct (IH (Aggregate.Add errors [lm_Messages m]) warnings) as (r & -> & H1 & H2). exists r. by split_and!.
  - destruct (is_warning level) eqn:Hw.
    + destruct msgs as [m|]; [|by destruct Hl].
      destruct (IH errors (Aggregate.Add warnings [lm_Messages m])) as (r & -> & H1 & H2). exists r. by split_and!.
    + apply IH.
Qed.

Lemma snapshot_buckets_returns hs from to step latency : returns (snapshot_buckets hs from to step latency).
Proof.
  revert latency. induction hs as [|h hs IH]; intros latency; cbn; [by eexists|].
  destruct (sumRate_returns (hb_TimeSeries h) from to step) as [v ->]. apply IH.
Qed.

(** What the snapshot reads does not make it panic: every log level it counts
    has messages, and in each sum no series is longer than the first. *)
Definition readable_app (app : Application) : Prop :=
  Forall (λ l : Z * option LogMessages, is_error (fst l) || is_warning (fst l) = true → snd l ≠ None) (app_LogMessages app)
  ∧ fits (messages_of is_error app) ∧ fits (messages_of is_warning app)
  ∧ fits (c_CpuUsage <$> containers app) ∧ fits (c_MemoryRss <$> containers app)
  ∧ fits (c_Restarts <$> containers app) ∧ fits (c_OOMKills <$> containers app).

(** [calcMetricsSnapshot] does not panic, whatever the regression answers, and
    the snapshot is that of the window. *)
Theorem calcMetricsSnapshot_returns app from to step :
  readable_app app →
  ∃ ms, calcMetricsSnapshot app from to step = Ret ms ∧ ms_Timestamp ms = to ∧ ms_Duration ms = Time.Sub to from.
Proof.
  intros (Hlogs & Herr & Hwarn & Hcpu & Hmem & Hres & Hoom). unfold messages_of in *. unfold calcMetricsSnapshot. cbv zeta.
  assert (Hreq : returns (snapshot_requests (app_AvailabilitySLIs app) from to step)).
  { destruct (app_AvailabilitySLIs app) as [|sli slis]; [by eexists|]. cbn.
    destruct (sumRate_returns (as_TotalRequests sli) from to step) as [a ->].
    destruct (sumRate_returns (as_FailedRequests sli) from to step) as [b ->]. by eexists. }
  assert (Hlat : returns (snapshot_latency (app_LatencySLIs app) from to step)).
  { destruct (app_LatencySLIs app); [by eexists|]. apply snapshot_buckets_returns. }
  destruct Hreq as [requests ->], Hlat as [latency ->]. cbn [obind].
  destruct (snapshot_logs_messages (app_LogMessages app) (Aggregate.NewAggregate NanSum) (Aggregate.NewAggregate NanSum) Hlogs)
    as ([errors warnings] & -> & He & Hw). cbn [obind fst snd] in *.
  match goal with |- context [fold_go _ ?u0 _] =>
    destruct (add_containers to (containers app) u0) as (u & -> & Hu1 & Hu2 & Hu3 & Hu4) end.
  cbn [obind us_cpu us_mem us_restarts us_oom] in *.
  unfold Aggregate.NewAggregate in *. rewrite Add_all in *. cbn [List.app] in *.
  rewrite Hu1, Hu2, Hu3, Hu4, He, Hw.
  destruct (Get_fits NanSum _ Hcpu) as [cpu ->]. cbn [obind].
  destruct (sumRate_returns cpu from to step) as [c ->]. cbn [obind].
  destruct (Get_fits NanSum _ Hmem) as [mem ->]. cbn [obind].
  assert (Hm : returns (memory_usage mem)).
  { unfold memory_usage. destruct mem as [ts|]; [|by eexists].
    destruct (Reduce_returns NanSum (Some ts)) as [s ->]. cbn [obind]. rewrite Map_spec. cbn [obind].
    match goal with |- context [Reduce NanSum ?x] => destruct (Reduce_returns NanSum x) as [n ->] end. by eexists. }
  destruct Hm as [m ->]. cbn [obind].
  destruct (sum_of_fits NanSum _ from to Hoom) as [a ->], (sum_of_fits NanSum _ from to Hres) as [b ->].
  destruct (sum_of_fits NanSum _ from to Herr) as [e ->], (sum_of_fits NanSum _ from to Hwarn) as [w ->].
  cbn [obind]. eexists. split; [reflexivity|]. done.
Qed.
End returns.
End MetricsFacts.

(** * A concrete snapshot *)
Module MetricsRuns.
Import MetricsFacts.

#[local] Instance run_parser : LogParser :=
  {| Pattern := string; PatternString s := s; WeakEqual := String.eqb; NewPatternFromWords s := s |}.
#[local] Instance run_regression : Regression := {| LinearRegression _ _ := (S754_zero false, S754_zero false) |}.

Definition series (vs : list f32) : option TimeSeries := Some (NewWithData 0 30 vs).
Definition container (cpu mem : list f32) : string * Container :=
  ("main", {| c_Image := ""; c_CpuUsage := series cpu; c_MemoryRss := series mem; c_MemoryLimit := None;
              c_Restarts := None; c_OOMKills := series [F32.one; NaN; F32.one] |}).
Definition app : Application :=
  {| app_Id := ApplicationIdZero; app_Category := "application";
     app_Instances := [{| inst_Name := "a"; inst_Pod := None;
                          inst_Containers := [container [F32.one; F32.one; NaN] [F32.of_Z 64; NaN; F32.of_Z 32]; container [F32.one; NaN; NaN] [NaN; NaN; NaN]];
                          inst_NodePrice := None; inst_ClusterComponent := None; inst_Upstreams := []; inst_Annotations := [] |}];
     app_LogMessages := [(Severity.SeverityInfo, None); (Severity.SeverityError, Some {| lm_Messages := series [F32.of_Z 3; NaN; F32.of_Z 4]; lm_Patterns := [] |})];
     app_Reports := [];
     app_AvailabilitySLIs := [{| as_ObjectivePercentage := F32.of_Z 99; as_TotalRequests := series [F32.of_Z 2; F32.of_Z 2; F32.of_Z 2]; as_FailedRequests := None;
                                 as_TotalRequestsRaw := None; as_FailedRequestsRaw := None |}];
     app_LatencySLIs := []; app_Deployments := []; app_Annotations := []; app_TrafficStats := no_traffic; app_DNSRequests := [];
     app_DNSRequestsHistogram := []; app_InboundRequestsCount := []; app_InboundRequestsHistogram := [] |}.

(** Over the last two points, in steps of half a minute. *)
Lemma calcMetricsSnapshot_returns_witness :
  ∃ ms, calcMetricsSnapshot app 30 60 30 = Ret ms
    ∧ (ms_Timestamp ms, ms_Duration ms, ms_Requests ms, ms_MemoryUsage ms, ms_OOMKills ms, ms_LogErrors ms) = (60, 30, 120, 32, 2, 4).
Proof.
  destruct (calcMetricsSnapshot_returns app 30 60 30) as (ms & Hms & Ht & Hd).
  - split_and!; try (apply Forall_fold_right; cbn; repeat split; discriminate);
      unfold fits; cbn; repeat constructor.
  - exists ms. split; [exact Hms|]. vm_compute in Hms. injection Hms as <-. reflexivity.
Defined.
End MetricsRuns.
