(* ===== verification/AlertStore.v ===== *)
(** db/alert.go: the statements on the [alert] and [alerting_rule] tables.

    A WHERE clause is a boolean function of a row; an UPDATE maps the rows that
    satisfy it.  Where a query orders rows by [opened_at], rows opened at the
    same second may come in any order in Postgres; here they come in table
    order. *)

From S2P Require Export Db.
From Stdlib Require Import Ascii String ZArith Lia.
Local Open Scope string_scope.
Local Open Scope Z_scope.

(** * Columns of [alert] the UPDATE statements assign *)

(** SET severity, summary, details, resolved_at, updated_at *)
Definition row_set_content (sev summary : string) (details : list AlertDetail) (resolved updated : Z) (r : AlertRow) : AlertRow :=
  {| r_id := r_id r; r_fingerprint := r_fingerprint r; r_rule_id := r_rule_id r; r_project_id := r_project_id r;
     r_application_id := r_application_id r; r_application_category := r_application_category r;
     r_severity := sev; r_summary := summary; r_details := details;
     r_opened_at := r_opened_at r; r_resolved_at := resolved; r_updated_at := updated;
     r_suppressed := r_suppressed r; r_resolved_by := r_resolved_by r; r_report := r_report r;
     r_pattern_words := r_pattern_words r; r_manually_resolved_at := r_manually_resolved_at r |}.

(** SET the columns of an alert's state *)
Definition row_set_state (resolved updated : Z) (suppressed : bool) (by_ : string) (manually : Z) (r : AlertRow) : AlertRow :=
  {| r_id := r_id r; r_fingerprint := r_fingerprint r; r_rule_id := r_rule_id r; r_project_id := r_project_id r;
     r_application_id := r_application_id r; r_application_category := r_application_category r;
     r_severity := r_severity r; r_summary := r_summary r; r_details := r_details r;
     r_opened_at := r_opened_at r; r_resolved_at := resolved; r_updated_at := updated;
     r_suppressed := suppressed; r_resolved_by := by_; r_report := r_report r;
     r_pattern_words := r_pattern_words r; r_manually_resolved_at := manually |}.

(** * Conditions *)
Definition in_project (projectId : string) (r : AlertRow) : bool := String.eqb (r_project_id r) projectId.
Definition has_id (projectId id : string) (r : AlertRow) : bool := in_project projectId r && String.eqb (r_id r) id.
Definition id_in (projectId : string) (ids : list string) (r : AlertRow) : bool :=
  in_project projectId r && existsb (String.eqb (r_id r)) ids.

(** resolved_at = 0 OR suppressed = 1 *)
Definition active_or_suppressed (r : AlertRow) : bool := (r_resolved_at r =? 0) || r_suppressed r.
(** resolved_at = 0 AND manually_resolved_at = 0 AND suppressed = 0 *)
Definition firing (r : AlertRow) : bool :=
  (r_resolved_at r =? 0) && (r_manually_resolved_at r =? 0) && negb (r_suppressed r).

Definition fingerprint_open (projectId fingerprint : string) (r : AlertRow) : bool :=
  in_project projectId r && String.eqb (r_fingerprint r) fingerprint && active_or_suppressed r.
Definition rule_unresolved (projectId ruleId : string) (r : AlertRow) : bool :=
  in_project projectId r && String.eqb (r_rule_id r) ruleId && (r_resolved_at r =? 0).

(** ORDER BY opened_at DESC *)
Definition opened_desc (a b : AlertRow) : Prop := r_opened_at b ≤ r_opened_at a.
#[export] Instance opened_desc_dec : RelDecision opened_desc.
Proof. intros a b. unfold opened_desc. apply _. Defined.
#[export] Instance opened_desc_total : Total opened_desc.
Proof. intros a b. unfold opened_desc. lia. Qed.
Definition order_by_opened_desc (rows : list AlertRow) : list AlertRow := merge_sort opened_desc rows.

(** [scanAlert] / [scanAlertRow]: fails when the application id does not parse. *)
Definition scanAlert (projectId : string) (r : AlertRow) : option Alert :=
  match AppIdScan (Some (r_application_id r)) with
  | None => None
  | Some appId =>
      Some {| a_Id := r_id r; a_Fingerprint := r_fingerprint r; a_RuleId := r_rule_id r; a_ProjectId := projectId;
              a_ApplicationId := appId; a_ApplicationCategory := r_application_category r;
              a_Severity := Status.parseSeverity (r_severity r); a_Summary := r_summary r; a_Details := r_details r;
              a_OpenedAt := r_opened_at r; a_ResolvedAt := r_resolved_at r;
              a_ManuallyResolvedAt := r_manually_resolved_at r; a_UpdatedAt := r_updated_at r;
              a_Suppressed := r_suppressed r; a_ResolvedBy := r_resolved_by r; a_Report := r_report r;
              a_PatternWords := r_pattern_words r |}
  end.

(** The row [CreateAlert] inserts. *)
Definition alert_row (projectId : string) (a : Alert) : AlertRow :=
  {| r_id := a_Id a; r_fingerprint := a_Fingerprint a; r_rule_id := a_RuleId a; r_project_id := projectId;
     r_application_id := AppIdString (a_ApplicationId a); r_application_category := a_ApplicationCategory a;
     r_severity := Status.ToString (a_Severity a); r_summary := a_Summary a; r_details := a_Details a;
     r_opened_at := a_OpenedAt a; r_resolved_at := a_ResolvedAt a; r_updated_at := a_UpdatedAt a;
     r_suppressed := a_Suppressed a; r_resolved_by := a_ResolvedBy a; r_report := a_Report a;
     r_pattern_words := a_PatternWords a; r_manually_resolved_at := a_ManuallyResolvedAt a |}.

Section ops.
Context `{Env} {Mem : Type}.

(** [sql.ErrNoRows] is [ErrNotFound]. *)
Definition GetAlert (projectId id : string) : M Mem (string + Alert) :=
  select (λ t,
    match where_ (has_id projectId id) (t_alert t) with
    | [] => inl "not found"
    | r :: _ => match scanAlert projectId r with Some a => inr a | None => inl "scan" end
    end).

Definition GetActiveOrSuppressedAlertByFingerprint (projectId fingerprint : string) : M Mem (string + option Alert) :=
  select (λ t,
    match order_by_opened_desc (where_ (fingerprint_open projectId fingerprint) (t_alert t)) with
    | [] => inr None
    | r :: _ => match scanAlert projectId r with Some a => inr (Some a) | None => inl "scan" end
    end).

(** The alert is passed by pointer: its times are set before the INSERT, which
    a row with the same id (the primary key) refuses. *)
Definition CreateAlert (projectId : string) (a : Alert) : M Mem ((string + unit) * Alert) :=
  now ← Now;
  let a := alert_set_times now now a in
  r ← statement (λ t,
        if existsb (λ r, String.eqb (r_id r) (a_Id a)) (t_alert t) then inl "unique_violation"
        else inr (tt, with_alert (λ rows, (rows ++ [alert_row projectId a])%list) t));
  mret (r, a).

Definition UpdateAlert (projectId : string) (a : Alert) : M Mem ((string + unit) * Alert) :=
  now ← Now;
  let a := alert_set_times (a_OpenedAt a) now a in
  r ← update (with_alert (update_where (has_id projectId (a_Id a))
        (row_set_content (Status.ToString (a_Severity a)) (a_Summary a) (a_Details a) (a_ResolvedAt a) (a_UpdatedAt a))));
  mret (r, a).

Definition ResolveAlert (projectId id : string) (resolvedAt : Z) : M Mem (string + unit) :=
  update (with_alert (update_where (has_id projectId id)
    (λ r, row_set_state resolvedAt resolvedAt (r_suppressed r) (r_resolved_by r) (r_manually_resolved_at r) r))).

Definition ResolveAlertsByRule (projectId ruleId : string) : M Mem (string + list Alert) :=
  now ← Now;
  r ← select (λ t, scan_all (scanAlert projectId) (where_ (rule_unresolved projectId ruleId) (t_alert t)));
  match r with
  | inl err => mret (inl err)
  | inr alerts =>
      u ← update (with_alert (update_where (rule_unresolved projectId ruleId)
            (λ r, row_set_state now now (r_suppressed r) (r_resolved_by r) (r_manually_resolved_at r) r)));
      mret (match u with inl err => inl err | inr _ => inr (alert_set_resolved now <$> alerts) end)
  end.

Definition ResolveAlerts (projectId : string) (ids : list string) (resolvedBy : string) : M Mem (string + unit) :=
  if bool_decide (ids = []) then mret (inr tt) else
  now ← Now;
  update (with_alert (update_where (λ r, id_in projectId ids r && (r_resolved_at r =? 0))
    (λ r, row_set_state (r_resolved_at r) now (r_suppressed r) resolvedBy now r))).

Definition SuppressAlerts (projectId : string) (ids : list string) (suppressedBy : string) : M Mem (string + unit) :=
  if bool_decide (ids = []) then mret (inr tt) else
  now ← Now;
  update (with_alert (update_where (id_in projectId ids)
    (λ r, row_set_state 0 now true suppressedBy 0 r))).

Definition ClearSuppression (projectId fingerprint : string) : M Mem (string + unit) :=
  update (with_alert (update_where
    (λ r, in_project projectId r && String.eqb (r_fingerprint r) fingerprint && r_suppressed r)
    (λ r, row_set_state (r_resolved_at r) (r_updated_at r) false "" (r_manually_resolved_at r) r))).

(** [RowsAffected] is the number of rows the WHERE clause selected. *)
Definition reopenable (projectId : string) (ids : list string) (r : AlertRow) : bool :=
  id_in projectId ids r && ((0 <? r_manually_resolved_at r) || r_suppressed r).
Definition ReopenAlerts (projectId : string) (ids : list string) : M Mem (string + nat) :=
  if bool_decide (ids = []) then mret (inr 0%nat) else
  now ← Now;
  statement (λ t, inr (List.length (where_ (reopenable projectId ids) (t_alert t)),
    with_alert (update_where (reopenable projectId ids)
      (λ r, row_set_state (r_resolved_at r) now false "" 0 r)) t)).

Definition GetLatestAlertsByRule (projectId ruleId : string) : M Mem (string + list Alert) :=
  select (λ t, scan_all (scanAlert projectId)
    (order_by_opened_desc (where_ (rule_unresolved projectId ruleId) (t_alert t)))).

Definition HasAlerts (projectId : string) : M Mem (string + bool) :=
  select (λ t, inr (existsb (in_project projectId) (t_alert t))).

(** SELECT key, COUNT( * ) ... GROUP BY key, as a map from key to count. *)
Definition count_by (key : AlertRow → string) (rows : list AlertRow) : gmap string nat :=
  foldr (λ r m, <[key r := S (default 0%nat (m !! key r))]> m) ∅ rows.
Definition GetFiringAlertCountsByRule (projectId : string) : M Mem (string + gmap string nat) :=
  select (λ t, inr (count_by r_rule_id (where_ (λ r, in_project projectId r && firing r) (t_alert t)))).
Definition GetFiringAlertCountsBySeverity (projectId : string) : M Mem (string + gmap string nat) :=
  select (λ t, inr (count_by r_severity (where_ (λ r, in_project projectId r && firing r) (t_alert t)))).

(** * Alerting rules *)
Definition rule_config (r : AlertingRule) : alertingRuleConfig :=
  {| cfg_Name := rule_Name r; cfg_Source := rule_Source r; cfg_Selector := rule_Selector r;
     cfg_Severity := rule_Severity r; cfg_For := rule_For r; cfg_KeepFiringFor := rule_KeepFiringFor r;
     cfg_Templates := rule_Templates r; cfg_NotificationCategory := rule_NotificationCategory r;
     cfg_Readonly := rule_Readonly r |}.

Definition unmarshalAlertingRule (projectId : string) (r : RuleRow) : AlertingRule :=
  let cfg := ru_config r in
  {| rule_Id := ru_id r; rule_ProjectId := projectId; rule_Name := cfg_Name cfg; rule_Source := cfg_Source cfg; rule_Selector := cfg_Selector cfg;
     rule_Severity := cfg_Severity cfg; rule_For := cfg_For cfg; rule_KeepFiringFor := cfg_KeepFiringFor cfg;
     rule_Templates := cfg_Templates cfg; rule_NotificationCategory := cfg_NotificationCategory cfg;
     rule_Enabled := ru_enabled r; rule_Readonly := cfg_Readonly cfg; rule_Builtin := ru_builtin r;
     rule_CreatedAt := ru_created_at r; rule_UpdatedAt := ru_updated_at r |}.

Definition rule_row (projectId : string) (now : Z) (r : AlertingRule) : RuleRow :=
  {| ru_id := rule_Id r; ru_project_id := projectId; ru_config := rule_config r; ru_enabled := rule_Enabled r;
     ru_builtin := rule_Builtin r; ru_created_at := now; ru_updated_at := now |}.

Definition rule_has_id (projectId id : string) (r : RuleRow) : bool :=
  String.eqb (ru_project_id r) projectId && String.eqb (ru_id r) id.

Definition GetAlertingRules (projectId : string) : M Mem (string + list AlertingRule) :=
  select (λ t, inr (unmarshalAlertingRule projectId <$> where_ (λ r, String.eqb (ru_project_id r) projectId) (t_alerting_rule t))).

Definition GetAlertingRule (projectId id : string) : M Mem (string + AlertingRule) :=
  select (λ t, match where_ (rule_has_id projectId id) (t_alerting_rule t) with
               | [] => inl "not found"
               | r :: _ => inr (unmarshalAlertingRule projectId r)
               end).

Definition CreateAlertingRule (projectId : string) (r : AlertingRule) : M Mem (string + unit) :=
  now ← Now;
  statement (λ t,
    if existsb (rule_has_id projectId (rule_Id r)) (t_alerting_rule t) then inl "unique_violation"
    else inr (tt, with_alerting_rule (λ rows, (rows ++ [rule_row projectId now r])%list) t)).

Definition UpdateAlertingRule (projectId : string) (r : AlertingRule) : M Mem (string + unit) :=
  now ← Now;
  update (with_alerting_rule (update_where (rule_has_id projectId (rule_Id r))
    (λ row, {| ru_id := ru_id row; ru_project_id := ru_project_id row; ru_config := rule_config r;
               ru_enabled := rule_Enabled r; ru_builtin := ru_builtin row;
               ru_created_at := ru_created_at row; ru_updated_at := now |}))).

Definition DeleteAlertingRule (projectId id : string) : M Mem (string + unit) :=
  r ← GetAlertingRule projectId id;
  match r with
  | inl err => mret (inl err)
  | inr rule =>
      if rule_Readonly rule then mret (inl "readonly")
      else
        d ← statement (λ t,
              let p row := rule_has_id projectId id row && negb (ru_builtin row) in
              inr (List.length (where_ p (t_alerting_rule t)),
                   with_alerting_rule (where_ (λ row, negb (p row))) t));
        mret (match d with
              | inl err => inl err
              | inr n => if bool_decide (n = 0%nat) then inl "not found" else inr tt
              end)
  end.

(** [InitBuiltinAlertingRules] over the list [BuiltinAlertingRules] returns; a rule that is
    already there is skipped. *)
Fixpoint InitBuiltinAlertingRules (projectId : string) (builtins : list AlertingRule) : M Mem (string + unit) :=
  match builtins with
  | [] => mret (inr tt)
  | r :: builtins =>
      e ← CreateAlertingRule projectId r;
      match e with
      | inl err => if String.eqb err "unique_violation" then InitBuiltinAlertingRules projectId builtins
                   else mret (inl err)
      | inr _ => InitBuiltinAlertingRules projectId builtins
      end
  end.

Definition DisableBuiltinAlertingRules (projectId : string) : M Mem (string + unit) :=
  now ← Now;
  update (with_alerting_rule (update_where
    (λ r, String.eqb (ru_project_id r) projectId && ru_builtin r && ru_enabled r)
    (λ row, {| ru_id := ru_id row; ru_project_id := ru_project_id row; ru_config := ru_config row;
               ru_enabled := false; ru_builtin := ru_builtin row;
               ru_created_at := ru_created_at row; ru_updated_at := now |}))).

Definition rule_clear_readonly (r : AlertingRule) : AlertingRule :=
  {| rule_Id := rule_Id r; rule_ProjectId := rule_ProjectId r; rule_Name := rule_Name r;
     rule_Source := rule_Source r; rule_Selector := rule_Selector r;
     rule_Severity := rule_Severity r; rule_For := rule_For r; rule_KeepFiringFor := rule_KeepFiringFor r;
     rule_Templates := rule_Templates r; rule_NotificationCategory := rule_NotificationCategory r;
     rule_Enabled := rule_Enabled r; rule_Readonly := false; rule_Builtin := rule_Builtin r;
     rule_CreatedAt := rule_CreatedAt r; rule_UpdatedAt := rule_UpdatedAt r |}.

Fixpoint clear_readonly_loop (projectId : string) (rules : list AlertingRule) : M Mem (string + unit) :=
  match rules with
  | [] => mret (inr tt)
  | r :: rules =>
      if rule_Readonly r then
        e ← UpdateAlertingRule projectId (rule_clear_readonly r);
        match e with inl err => mret (inl err) | inr _ => clear_readonly_loop projectId rules end
      else clear_readonly_loop projectId rules
  end.
Definition ClearAlertingRulesReadonly (projectId : string) : M Mem (string + unit) :=
  r ← GetAlertingRules projectId;
  match r with inl err => mret (inl err) | inr rules => clear_readonly_loop projectId rules end.

End ops.
