(* ===== verification/Categories.v ===== *)
(** Application categories and their notification settings
    (db/application_categories.go, model/application_category.go) and the parts
    of a project (db/project.go, db/integrations.go) they depend on.

    [GetApplicationCategories] copies a category's settings struct but not the
    Slack and Teams objects it points to, so the channels it fills in are written
    into the project's own settings: the model returns the project's settings
    after the call next to the result. *)

From S2P Require Export Db.
From Stdlib Require Import Ascii String ZArith Lia.
Local Open Scope string_scope.

(** * db/integrations.go *)
Record IntegrationSlack := {
  sl_DefaultChannel : string; sl_Incidents : bool; sl_Deployments : bool; sl_Alerts : option bool }.
Record IntegrationTeams := {
  te_WebhookUrl : string; te_Channels : list (string * string); te_DefaultChannel : string;
  te_Incidents : bool; te_Deployments : bool; te_Alerts : option bool }.
Record IntegrationPagerduty := { pd_Incidents : bool; pd_Alerts : option bool }.
Record IntegrationOpsgenie := { og_Incidents : bool; og_Alerts : option bool }.
Record IntegrationWebhook := {
  wh_Incidents : bool; wh_Deployments : bool; wh_Alerts : option bool; wh_AlertTemplate : string }.

Record Integrations := {
  i_BaseUrl : string;
  i_Slack : option IntegrationSlack;
  i_Teams : option IntegrationTeams;
  i_Pagerduty : option IntegrationPagerduty;
  i_Opsgenie : option IntegrationOpsgenie;
  i_Webhook : option IntegrationWebhook
}.

Definition boolValue (b : option bool) : bool := default false b.

Definition TeamsDefaultChannelName : string := "default".
Definition GetDefaultChannel (i : IntegrationTeams) : string :=
  if String.eqb (te_DefaultChannel i) "" then TeamsDefaultChannelName else te_DefaultChannel i.
Definition GetChannels (i : IntegrationTeams) : list (string * string) :=
  if bool_decide (te_Channels i = []) then
    if String.eqb (te_WebhookUrl i) "" then [] else [(TeamsDefaultChannelName, te_WebhookUrl i)]
  else te_Channels i.
Definition GetWebhookUrl (channel : string) (i : IntegrationTeams) : string :=
  let channel := if String.eqb channel "" then GetDefaultChannel i else channel in
  match List.find (λ ch, String.eqb (fst ch) channel) (GetChannels i) with
  | Some ch => snd ch
  | None => ""
  end.

(** * model/application_category.go *)
Definition BuiltinCategoryPatterns : list (string * list string) :=
  [(ApplicationCategoryApplication, []);
   (ApplicationCategoryControlPlane, [
    "kube-system/*"; "*/kubelet"; "*/kube-apiserver"; "*/k3s"; "*/k3s-agent"; "*/systemd*";
    "*/containerd"; "*/docker*"; "*/*chaos-*"; "istio*/*"; "amazon-cloudwatch/*"; "karpenter/*";
    "cert-manager/*"; "argocd/*"; "flux-system/*"; "linkerd/*"; "vault/*"; "keda/*"; "keycloak/*";
    "longhorn-system/*"; "calico*/*"; "_/esm-cache"; "_/*motd*"; "_/*apt*"; "_/*fwupd*"; "_/snap*";
    "keptn-system/*"; "kyverno/*"; "litmus/*"; "openshift*/*"; "_/crio*"; "*/coredns"; "chaos-mesh/*";
    "cilium/*"; "external-dns/*"; "gpu-operator/*"]);
   (ApplicationCategoryMonitoring, [
    "monitoring/*"; "prometheus/*"; "*/*prometheus*"; "grafana/*"; "*/*grafana*"; "*/*alertmanager*";
    "coroot/*"; "*/*coroot*"; "metrics-server/*"; "loki/*"; "observability/*"; "jaeger/*"; "thanos/*";
    "sentry/*"; "*/*victoria-metrics*"; "*/*victoria-logs*"; "*/*vminsert*"; "*/*vmselect*";
    "*/*vmstorage*"; "*/*vmagent*"; "*/*vmalert*"; "*/*vmauth*"; "datadog/*"; "*/*datadog*"])].

Definition builtin_patterns (c : string) : list string :=
  match List.find (λ p, String.eqb (fst p) c) BuiltinCategoryPatterns with Some p => snd p | None => [] end.

Definition category_Builtin (c : string) : bool := existsb (λ p, String.eqb (fst p) c) BuiltinCategoryPatterns.
Definition category_Default (c : string) : bool := String.eqb c ApplicationCategoryApplication.

(** * Notification settings *)
Record ChannelSettings := { cs_Enabled : bool; cs_Channel : string }.

Record Destinations := {
  nd_Slack : option ChannelSettings;
  nd_Teams : option ChannelSettings;
  nd_Pagerduty : option bool;
  nd_Opsgenie : option bool;
  nd_Webhook : option bool
}.
(** The settings of one kind of notification: incidents, deployments or alerts. *)
Record KindSettings := { ks_Enabled : bool; ks_Destinations : Destinations }.
Record NotificationSettings := {
  ns_Incidents : KindSettings;
  ns_Deployments : KindSettings;
  ns_Alerts : KindSettings
}.

Definition no_destinations : Destinations :=
  {| nd_Slack := None; nd_Teams := None; nd_Pagerduty := None; nd_Opsgenie := None; nd_Webhook := None |}.
Definition no_kind : KindSettings := {| ks_Enabled := false; ks_Destinations := no_destinations |}.
Definition no_settings : NotificationSettings :=
  {| ns_Incidents := no_kind; ns_Deployments := no_kind; ns_Alerts := no_kind |}.

Definition channel_enabled (c : option ChannelSettings) : bool :=
  match c with Some c => cs_Enabled c | None => false end.

Definition hasEnabled (s : Destinations) : bool :=
  channel_enabled (nd_Slack s) || channel_enabled (nd_Teams s) || boolValue (nd_Pagerduty s)
  || boolValue (nd_Opsgenie s) || boolValue (nd_Webhook s).

Record ApplicationCategorySettings := {
  acs_CustomPatterns : list string;
  acs_NotifyOfDeployments : bool;
  acs_NotificationSettings : NotificationSettings
}.

Record ApplicationCategory := {
  ac_Name : string;
  ac_Builtin : bool;
  ac_Default : bool;
  ac_BuiltinPatterns : string;
  ac_CustomPatterns : string;
  ac_NotificationSettings : NotificationSettings
}.

(** * db/project.go *)
Record Project := {
  p_Id : string;
  p_Name : string;
  p_Integrations : Integrations;
  p_ApplicationCategorySettings : gmap string (option ApplicationCategorySettings);
  p_MemberProjects : list string
}.

Definition Multicluster (p : Project) : bool := negb (bool_decide (p_MemberProjects p = [])).

(** [settings[name]], nil for a missing name. *)
Definition category_settings (p : Project) (name : string) : option ApplicationCategorySettings :=
  mjoin (p_ApplicationCategorySettings p !! name).

Definition sorted_names {A} (m : gmap string A) : list string := StringSet.sort_strings (fst <$> map_to_list m).

(** [CalcApplicationCategory]: the first custom category, then the first built-in
    one, in the order of the names. *)
Definition CalcApplicationCategory (p : Project) (appId : ApplicationId) : string :=
  let id := Namespace appId ++ "/" ++ Name appId in
  let custom name :=
    match category_settings p name with
    | None => false
    | Some s => if bool_decide (acs_CustomPatterns s = []) then false else GlobMatch id (acs_CustomPatterns s)
    end in
  match List.find custom (sorted_names (p_ApplicationCategorySettings p)) with
  | Some name => name
  | None =>
      let builtin name := GlobMatch id (builtin_patterns name) in
      match List.find builtin (StringSet.sort_strings (fst <$> BuiltinCategoryPatterns)) with
      | Some name => name
      | None => ApplicationCategoryApplication
      end
  end.

(** * GetApplicationCategories: the settings of one kind

    The Slack, Teams and Webhook blocks, the same for the three kinds: [on] is
    whether the integration is configured for the kind and [def] what a missing
    destination is set to. *)
Definition set_enabled (b : bool) (k : KindSettings) : KindSettings :=
  {| ks_Enabled := b; ks_Destinations := ks_Destinations k |}.
Definition set_slack (c : option ChannelSettings) (k : KindSettings) : KindSettings :=
  {| ks_Enabled := ks_Enabled k;
     ks_Destinations := {| nd_Slack := c; nd_Teams := nd_Teams (ks_Destinations k);
       nd_Pagerduty := nd_Pagerduty (ks_Destinations k); nd_Opsgenie := nd_Opsgenie (ks_Destinations k);
       nd_Webhook := nd_Webhook (ks_Destinations k) |} |}.
Definition set_teams (c : option ChannelSettings) (k : KindSettings) : KindSettings :=
  {| ks_Enabled := ks_Enabled k;
     ks_Destinations := {| nd_Slack := nd_Slack (ks_Destinations k); nd_Teams := c;
       nd_Pagerduty := nd_Pagerduty (ks_Destinations k); nd_Opsgenie := nd_Opsgenie (ks_Destinations k);
       nd_Webhook := nd_Webhook (ks_Destinations k) |} |}.
Definition set_pagerduty (c : option bool) (k : KindSettings) : KindSettings :=
  {| ks_Enabled := ks_Enabled k;
     ks_Destinations := {| nd_Slack := nd_Slack (ks_Destinations k); nd_Teams := nd_Teams (ks_Destinations k);
       nd_Pagerduty := c; nd_Opsgenie := nd_Opsgenie (ks_Destinations k);
       nd_Webhook := nd_Webhook (ks_Destinations k) |} |}.
Definition set_opsgenie (c : option bool) (k : KindSettings) : KindSettings :=
  {| ks_Enabled := ks_Enabled k;
     ks_Destinations := {| nd_Slack := nd_Slack (ks_Destinations k); nd_Teams := nd_Teams (ks_Destinations k);
       nd_Pagerduty := nd_Pagerduty (ks_Destinations k); nd_Opsgenie := c;
       nd_Webhook := nd_Webhook (ks_Destinations k) |} |}.
Definition set_webhook (c : option bool) (k : KindSettings) : KindSettings :=
  {| ks_Enabled := ks_Enabled k;
     ks_Destinations := {| nd_Slack := nd_Slack (ks_Destinations k); nd_Teams := nd_Teams (ks_Destinations k);
       nd_Pagerduty := nd_Pagerduty (ks_Destinations k); nd_Opsgenie := nd_Opsgenie (ks_Destinations k);
       nd_Webhook := c |} |}.

(** [if Channel == "" { Channel = defaultChannel }] *)
Definition fill_channel (defaultChannel : string) (c : ChannelSettings) : ChannelSettings :=
  if String.eqb (cs_Channel c) "" then {| cs_Enabled := cs_Enabled c; cs_Channel := defaultChannel |} else c.

Definition slack_block (on def : bool) (defaultChannel : string) (k : KindSettings) : KindSettings :=
  if on then
    match nd_Slack (ks_Destinations k) with
    | None => set_slack (Some (fill_channel defaultChannel {| cs_Enabled := def; cs_Channel := "" |})) (set_enabled def k)
    | Some c => set_slack (Some (fill_channel defaultChannel c)) k
    end
  else set_slack None k.

Definition teams_block (on def : bool) (defaultChannel : string) (k : KindSettings) : KindSettings :=
  if on then
    match nd_Teams (ks_Destinations k) with
    | None => set_teams (Some (fill_channel defaultChannel {| cs_Enabled := def; cs_Channel := "" |})) (set_enabled def k)
    | Some c => set_teams (Some (fill_channel defaultChannel c)) k
    end
  else set_teams None k.

Definition webhook_block (on def : bool) (k : KindSettings) : KindSettings :=
  if on then
    match nd_Webhook (ks_Destinations k) with
    | None => set_webhook (Some def) (set_enabled def k)
    | Some _ => k
    end
  else set_webhook None k.

(** For incidents the PagerDuty and Opsgenie blocks set [Enabled] whether or not
    the category has the destination; for alerts only when it has not. *)
Definition pagerduty_incidents (on : bool) (k : KindSettings) : KindSettings :=
  if on then
    let k := set_enabled true k in
    match nd_Pagerduty (ks_Destinations k) with None => set_pagerduty (Some true) k | Some _ => k end
  else set_pagerduty None k.
Definition pagerduty_alerts (on : bool) (k : KindSettings) : KindSettings :=
  if on then
    match nd_Pagerduty (ks_Destinations k) with
    | None => set_pagerduty (Some true) (set_enabled true k)
    | Some _ => k
    end
  else set_pagerduty None k.
Definition opsgenie_incidents (on : bool) (k : KindSettings) : KindSettings :=
  if on then
    let k := set_enabled true k in
    match nd_Opsgenie (ks_Destinations k) with None => set_opsgenie (Some true) k | Some _ => k end
  else set_opsgenie None k.
Definition opsgenie_alerts (on : bool) (k : KindSettings) : KindSettings :=
  if on then
    match nd_Opsgenie (ks_Destinations k) with
    | None => set_opsgenie (Some true) (set_enabled true k)
    | Some _ => k
    end
  else set_opsgenie None k.

(** The last step: a kind without an enabled destination is disabled. *)
Definition clear_enabled (k : KindSettings) : KindSettings :=
  if hasEnabled (ks_Destinations k) then k else set_enabled false k.

Section resolve.
Variable i : Integrations.

Definition slack_on (f : IntegrationSlack → bool) : bool := match i_Slack i with Some s => f s | None => false end.
Definition teams_on (f : IntegrationTeams → bool) : bool := match i_Teams i with Some s => f s | None => false end.
Definition webhook_on (f : IntegrationWebhook → bool) : bool := match i_Webhook i with Some s => f s | None => false end.
Definition pagerduty_on (f : IntegrationPagerduty → bool) : bool := match i_Pagerduty i with Some s => f s | None => false end.
Definition opsgenie_on (f : IntegrationOpsgenie → bool) : bool := match i_Opsgenie i with Some s => f s | None => false end.
Definition slack_channel : string := match i_Slack i with Some s => sl_DefaultChannel s | None => "" end.
Definition teams_channel : string := match i_Teams i with Some t => GetDefaultChannel t | None => "" end.

Definition resolve_incidents (k : KindSettings) : KindSettings :=
  let k := slack_block (slack_on sl_Incidents) true slack_channel k in
  let k := teams_block (teams_on te_Incidents) true teams_channel k in
  let k := webhook_block (webhook_on wh_Incidents) true k in
  let k := pagerduty_incidents (pagerduty_on pd_Incidents) k in
  let k := opsgenie_incidents (opsgenie_on og_Incidents) k in
  clear_enabled k.

Definition resolve_deployments (notifyOfDeployments : bool) (k : KindSettings) : KindSettings :=
  let k := slack_block (slack_on sl_Deployments) notifyOfDeployments slack_channel k in
  let k := teams_block (teams_on te_Deployments) notifyOfDeployments teams_channel k in
  let k := webhook_block (webhook_on wh_Deployments) notifyOfDeployments k in
  clear_enabled k.

Definition resolve_alerts (k : KindSettings) : KindSettings :=
  let k := slack_block (slack_on (λ s, boolValue (sl_Alerts s))) true slack_channel k in
  let k := teams_block (teams_on (λ t, boolValue (te_Alerts t))) true teams_channel k in
  let k := webhook_block (webhook_on (λ w, boolValue (wh_Alerts w))) true k in
  let k := pagerduty_alerts (pagerduty_on (λ p, boolValue (pd_Alerts p))) k in
  let k := opsgenie_alerts (opsgenie_on (λ o, boolValue (og_Alerts o))) k in
  clear_enabled k.

Definition resolve_settings (notifyOfDeployments : bool) (ns : NotificationSettings) : NotificationSettings :=
  {| ns_Incidents := resolve_incidents (ns_Incidents ns);
     ns_Deployments := resolve_deployments notifyOfDeployments (ns_Deployments ns);
     ns_Alerts := resolve_alerts (ns_Alerts ns) |}.

(** What the call leaves in the project's own settings: the channels of the
    Slack and Teams objects both share. *)
Definition alias_kind (slack teams : bool) (k : KindSettings) : KindSettings :=
  let k := if slack then set_slack (fill_channel slack_channel <$> nd_Slack (ks_Destinations k)) k else k in
  if teams then set_teams (fill_channel teams_channel <$> nd_Teams (ks_Destinations k)) k else k.
Definition alias_settings (ns : NotificationSettings) : NotificationSettings :=
  {| ns_Incidents := alias_kind (slack_on sl_Incidents) (teams_on te_Incidents) (ns_Incidents ns);
     ns_Deployments := alias_kind (slack_on sl_Deployments) (teams_on te_Deployments) (ns_Deployments ns);
     ns_Alerts := alias_kind (slack_on (λ s, boolValue (sl_Alerts s))) (teams_on (λ t, boolValue (te_Alerts t))) (ns_Alerts ns) |}.

End resolve.

(** The category named [c]: a custom one of the project's settings, or a
    built-in one. *)
Definition resolve_category (p : Project) (c : string) : ApplicationCategory :=
  let settings := category_settings p c in
  let builtin := category_Builtin c in
  let ns := match settings with Some s => acs_NotificationSettings s | None => no_settings end in
  let notify := match settings with Some s => acs_NotifyOfDeployments s | None => false end in
  let isdef := builtin && category_Default c in
  {| ac_Name := c;
     ac_Builtin := builtin;
     ac_Default := isdef;
     ac_BuiltinPatterns := GoStrings.Join (builtin_patterns c) " ";
     ac_CustomPatterns := match settings with Some s => GoStrings.Join (acs_CustomPatterns s) " " | None => "" end;
     ac_NotificationSettings := resolve_settings (p_Integrations p) (isdef || notify) ns |}.

Definition category_names (p : Project) : gset string :=
  dom (p_ApplicationCategorySettings p) ∪ list_to_set (fst <$> BuiltinCategoryPatterns).

(** [project.GetApplicationCategories()[c]] *)
Definition GetApplicationCategories (p : Project) : gmap string ApplicationCategory :=
  set_to_map (λ c, (c, resolve_category p c)) (category_names p).

(** The project after the call. *)
Definition alias_project (p : Project) : Project :=
  {| p_Id := p_Id p; p_Name := p_Name p; p_Integrations := p_Integrations p;
     p_ApplicationCategorySettings :=
       (λ os : option ApplicationCategorySettings, option_map (λ s, {| acs_CustomPatterns := acs_CustomPatterns s;
                       acs_NotifyOfDeployments := acs_NotifyOfDeployments s;
                       acs_NotificationSettings := alias_settings (p_Integrations p) (acs_NotificationSettings s) |}) os)
       <$> p_ApplicationCategorySettings p;
     p_MemberProjects := p_MemberProjects p |}.

(** * SaveApplicationCategory

    The project's settings after the call, before they are written to the
    database ([inr None]: nothing is written), or [ErrConflict]. *)
Definition clear_default (slack : option string) (c : option ChannelSettings) : option ChannelSettings :=
  match c, slack with
  | Some c, Some d => Some (if String.eqb (cs_Channel c) d then {| cs_Enabled := cs_Enabled c; cs_Channel := "" |} else c)
  | _, _ => c
  end.
Definition clear_channels (i : Integrations) (k : KindSettings) : KindSettings :=
  let k := set_slack (clear_default (sl_DefaultChannel <$> i_Slack i) (nd_Slack (ks_Destinations k))) k in
  set_teams (clear_default (GetDefaultChannel <$> i_Teams i) (nd_Teams (ks_Destinations k))) k.

Definition clear_default_channels (i : Integrations) (ns : NotificationSettings) : NotificationSettings :=
  {| ns_Incidents := clear_channels i (ns_Incidents ns);
     ns_Deployments := clear_channels i (ns_Deployments ns);
     ns_Alerts := clear_channels i (ns_Alerts ns) |}.

Definition no_category_settings : ApplicationCategorySettings :=
  {| acs_CustomPatterns := []; acs_NotifyOfDeployments := false; acs_NotificationSettings := no_settings |}.

Definition SaveApplicationCategory (p : Project) (name : string) (category : option ApplicationCategory)
    : string + option (gmap string (option ApplicationCategorySettings)) :=
  let settings := p_ApplicationCategorySettings p in
  match category with
  | None => if category_Builtin name then inr None else inr (Some (delete name settings))
  | Some c =>
      let renamed := negb (String.eqb name (ac_Name c)) in
      let taken := match category_settings p (ac_Name c) with Some _ => true | None => false end in
      if renamed && (category_Builtin name || taken) then inl "conflict"
      else
        let settings := if negb (category_Builtin name) && renamed then delete name settings else settings in
        let cs := default no_category_settings (mjoin (settings !! ac_Name c)) in
        let cs := {| acs_CustomPatterns := if category_Default (ac_Name c) then acs_CustomPatterns cs
                                           else Fields (ac_CustomPatterns c);
                     acs_NotifyOfDeployments := acs_NotifyOfDeployments cs;
                     acs_NotificationSettings :=
                       clear_default_channels (p_Integrations p) (ac_NotificationSettings c) |} in
        inr (Some (<[ac_Name c := Some cs]> settings))
  end.

(** * Facts *)
Module CategoriesFacts.

(** The custom patterns of a category match an application. *)
Definition custom_match (p : Project) (appId : ApplicationId) (name : string) : bool :=
  match category_settings p name with
  | None => false
  | Some s => if bool_decide (acs_CustomPatterns s = []) then false
              else GlobMatch (Namespace appId ++ "/" ++ Name appId) (acs_CustomPatterns s)
  end.
Definition builtin_match (appId : ApplicationId) (name : string) : bool :=
  GlobMatch (Namespace appId ++ "/" ++ Name appId) (builtin_patterns name).

(** A property of the three kinds of a category's settings. *)
Definition all_kinds (P : KindSettings → Prop) (ns : NotificationSettings) : Prop :=
  P (ns_Incidents ns) ∧ P (ns_Deployments ns) ∧ P (ns_Alerts ns).

Lemma clear_enabled_spec k :
  ks_Enabled (clear_enabled k) = ks_Enabled k && hasEnabled (ks_Destinations k)
  ∧ ks_Destinations (clear_enabled k) = ks_Destinations k.
Proof. unfold clear_enabled. destruct (hasEnabled _); cbn; by rewrite ?andb_true_r, ?andb_false_r. Qed.

Lemma clear_enabled_Enabled k : ks_Enabled (clear_enabled k) = ks_Enabled k && hasEnabled (ks_Destinations k).
Proof. apply clear_enabled_spec. Qed.
Lemma clear_enabled_Destinations k : ks_Destinations (clear_enabled k) = ks_Destinations k.
Proof. apply clear_enabled_spec. Qed.

(** A destination of a kind is missing although its integration is configured. *)
Definition missing {A} (on : bool) (d : option A) : bool := on && match d with None => true | Some _ => false end.

(** Each block as one record: the switch it may set and the destination it
    replaces. *)
Ltac block_eq k := destruct k as [e [sl te pd og wh]]; cbn.

Lemma slack_block_eq on def ch k :
  let d := ks_Destinations k in
  slack_block on def ch k =
    {| ks_Enabled := if missing on (nd_Slack d) then def else ks_Enabled k;
       ks_Destinations := {|
         nd_Slack := if on then Some (fill_channel ch (default {| cs_Enabled := def; cs_Channel := "" |} (nd_Slack d))) else None;
         nd_Teams := nd_Teams d; nd_Pagerduty := nd_Pagerduty d; nd_Opsgenie := nd_Opsgenie d; nd_Webhook := nd_Webhook d |} |}.
Proof. block_eq k. by destruct on, sl. Qed.

Lemma teams_block_eq on def ch k :
  let d := ks_Destinations k in
  teams_block on def ch k =
    {| ks_Enabled := if missing on (nd_Teams d) then def else ks_Enabled k;
       ks_Destinations := {|
         nd_Teams := if on then Some (fill_channel ch (default {| cs_Enabled := def; cs_Channel := "" |} (nd_Teams d))) else None;
         nd_Slack := nd_Slack d; nd_Pagerduty := nd_Pagerduty d; nd_Opsgenie := nd_Opsgenie d; nd_Webhook := nd_Webhook d |} |}.
Proof. block_eq k. by destruct on, te. Qed.

Lemma webhook_block_eq on def k :
  let d := ks_Destinations k in
  webhook_block on def k =
    {| ks_Enabled := if missing on (nd_Webhook d) then def else ks_Enabled k;
       ks_Destinations := {|
         nd_Webhook := if on then Some (default def (nd_Webhook d)) else None;
         nd_Slack := nd_Slack d; nd_Teams := nd_Teams d; nd_Pagerduty := nd_Pagerduty d; nd_Opsgenie := nd_Opsgenie d |} |}.
Proof. block_eq k. by destruct on, wh. Qed.

(** [always]: the switch is set whenever the integration is configured. *)
Definition key_destination (on : bool) (d : option bool) : option bool :=
  if on then Some (default true d) else None.

Lemma pagerduty_incidents_eq on k :
  pagerduty_incidents on k = set_pagerduty (key_destination on (nd_Pagerduty (ks_Destinations k))) (set_enabled (on || ks_Enabled k) k).
Proof. block_eq k. by destruct on, pd. Qed.
Lemma opsgenie_incidents_eq on k :
  opsgenie_incidents on k = set_opsgenie (key_destination on (nd_Opsgenie (ks_Destinations k))) (set_enabled (on || ks_Enabled k) k).
Proof. block_eq k. by destruct on, og. Qed.
Lemma pagerduty_alerts_eq on k :
  pagerduty_alerts on k = set_pagerduty (key_destination on (nd_Pagerduty (ks_Destinations k)))
    (set_enabled (missing on (nd_Pagerduty (ks_Destinations k)) || ks_Enabled k) k).
Proof. block_eq k. by destruct on, pd. Qed.
Lemma opsgenie_alerts_eq on k :
  opsgenie_alerts on k = set_opsgenie (key_destination on (nd_Opsgenie (ks_Destinations k)))
    (set_enabled (missing on (nd_Opsgenie (ks_Destinations k)) || ks_Enabled k) k).
Proof. block_eq k. by destruct on, og. Qed.

(** Puts a resolution into one record. *)
Ltac resolve_eq :=
  rewrite ?opsgenie_incidents_eq, ?opsgenie_alerts_eq, ?pagerduty_incidents_eq, ?pagerduty_alerts_eq,
    ?webhook_block_eq, ?teams_block_eq, ?slack_block_eq;
  cbn [ks_Enabled ks_Destinations nd_Slack nd_Teams nd_Pagerduty nd_Opsgenie nd_Webhook
       set_pagerduty set_opsgenie set_enabled].

(** The destinations that go to an integration not configured for a kind. *)
Definition only_configured (slack teams webhook pagerduty opsgenie : bool) (d : Destinations) : Prop :=
  (is_Some (nd_Slack d) ↔ slack = true) ∧ (is_Some (nd_Teams d) ↔ teams = true) ∧
  (is_Some (nd_Webhook d) ↔ webhook = true) ∧ (is_Some (nd_Pagerduty d) → pagerduty = true) ∧
  (is_Some (nd_Opsgenie d) → opsgenie = true).

Lemma is_Some_on {A} (on : bool) (x : A) : is_Some (if on then Some x else None) ↔ on = true.
Proof. destruct on; split; [done|eauto|intros []; done|done]. Qed.

Lemma resolve_incidents_configured i k :
  only_configured (slack_on i sl_Incidents) (teams_on i te_Incidents) (webhook_on i wh_Incidents)
    (pagerduty_on i pd_Incidents) (opsgenie_on i og_Incidents) (ks_Destinations (resolve_incidents i k)).
Proof.
  unfold resolve_incidents. rewrite clear_enabled_Destinations. resolve_eq.
  unfold key_destination.
  split_and!; cbn [nd_Slack nd_Teams nd_Pagerduty nd_Opsgenie nd_Webhook]; by rewrite is_Some_on.
Qed.

Lemma resolve_alerts_configured i k :
  only_configured (slack_on i (λ s, boolValue (sl_Alerts s))) (teams_on i (λ t, boolValue (te_Alerts t)))
    (webhook_on i (λ w, boolValue (wh_Alerts w))) (pagerduty_on i (λ p, boolValue (pd_Alerts p)))
    (opsgenie_on i (λ o, boolValue (og_Alerts o))) (ks_Destinations (resolve_alerts i k)).
Proof.
  unfold resolve_alerts. rewrite clear_enabled_Destinations. resolve_eq.
  unfold key_destination.
  split_and!; cbn [nd_Slack nd_Teams nd_Pagerduty nd_Opsgenie nd_Webhook]; by rewrite is_Some_on.
Qed.

(** Decides an equation between switches. *)
Ltac switches :=
  unfold resolve_incidents, resolve_deployments, resolve_alerts;
  rewrite clear_enabled_Enabled, clear_enabled_Destinations; resolve_eq; f_equal;
  repeat match goal with
  | |- context [missing ?a ?b] => generalize (missing a b)
  | |- context [pagerduty_on ?a ?b] => generalize (pagerduty_on a b)
  | |- context [opsgenie_on ?a ?b] => generalize (opsgenie_on a b)
  | |- context [ks_Enabled ?k] => generalize (ks_Enabled k)
  end;
  repeat (intros []); reflexivity.

Lemma resolve_alerts_Enabled i k :
  ks_Enabled (resolve_alerts i k) =
    (ks_Enabled k
     || missing (slack_on i (λ s, boolValue (sl_Alerts s))) (nd_Slack (ks_Destinations k))
     || missing (teams_on i (λ t, boolValue (te_Alerts t))) (nd_Teams (ks_Destinations k))
     || missing (webhook_on i (λ w, boolValue (wh_Alerts w))) (nd_Webhook (ks_Destinations k))
     || missing (pagerduty_on i (λ p, boolValue (pd_Alerts p))) (nd_Pagerduty (ks_Destinations k))
     || missing (opsgenie_on i (λ o, boolValue (og_Alerts o))) (nd_Opsgenie (ks_Destinations k)))
    && hasEnabled (ks_Destinations (resolve_alerts i k)).
Proof. switches. Qed.

Lemma resolve_deployments_Enabled i notify k :
  ks_Enabled (resolve_deployments i notify k) =
    (if missing (slack_on i sl_Deployments) (nd_Slack (ks_Destinations k))
        || missing (teams_on i te_Deployments) (nd_Teams (ks_Destinations k))
        || missing (webhook_on i wh_Deployments) (nd_Webhook (ks_Destinations k))
     then notify else ks_Enabled k)
    && hasEnabled (ks_Destinations (resolve_deployments i notify k)).
Proof. switches. Qed.

Lemma resolve_incidents_Enabled i k :
  ks_Enabled (resolve_incidents i k) =
    (ks_Enabled k || pagerduty_on i pd_Incidents || opsgenie_on i og_Incidents
     || missing (slack_on i sl_Incidents) (nd_Slack (ks_Destinations k))
     || missing (teams_on i te_Incidents) (nd_Teams (ks_Destinations k))
     || missing (webhook_on i wh_Incidents) (nd_Webhook (ks_Destinations k)))
    && hasEnabled (ks_Destinations (resolve_incidents i k)).
Proof. switches. Qed.

Lemma lookup_categories p c :
  GetApplicationCategories p !! c = if bool_decide (c ∈ category_names p) then Some (resolve_category p c) else None.
Proof.
  unfold GetApplicationCategories. case_bool_decide as Hc.
  - apply lookup_set_to_map; [by intros ? ? ? ? [=]|]. by exists c.
  - apply eq_None_not_Some. intros [x Hx].
    apply lookup_set_to_map in Hx as (c' & Hin & [= -> _]); [done|by intros ? ? ? ? [=]].
Qed.

(** When a category's notifications of a kind are on, for every category of
    every project: alerts are enabled when the category enables them, or a
    configured integration is new to it, and some destination of the result is
    enabled; deployments likewise, where a new integration sets what the
    category's [NotifyOfDeployments] says; incidents are also enabled whenever a
    PagerDuty or Opsgenie integration is configured for incidents, whatever the
    category says.  A destination is set only when its integration is configured
    for the kind. *)
Theorem GetApplicationCategories_spec (p : Project) (c : string) (ac : ApplicationCategory)
    (Hc : GetApplicationCategories p !! c = Some ac) :
  let i := p_Integrations p in
  let before := match category_settings p c with Some s => acs_NotificationSettings s | None => no_settings end in
  let notify := ac_Default ac || match category_settings p c with Some s => acs_NotifyOfDeployments s | None => false end in
  let after := ac_NotificationSettings ac in
  let d k := ks_Destinations k in
  ks_Enabled (ns_Alerts after) =
    (ks_Enabled (ns_Alerts before)
     || missing (slack_on i (λ s, boolValue (sl_Alerts s))) (nd_Slack (d (ns_Alerts before)))
     || missing (teams_on i (λ t, boolValue (te_Alerts t))) (nd_Teams (d (ns_Alerts before)))
     || missing (webhook_on i (λ w, boolValue (wh_Alerts w))) (nd_Webhook (d (ns_Alerts before)))
     || missing (pagerduty_on i (λ p, boolValue (pd_Alerts p))) (nd_Pagerduty (d (ns_Alerts before)))
     || missing (opsgenie_on i (λ o, boolValue (og_Alerts o))) (nd_Opsgenie (d (ns_Alerts before))))
    && hasEnabled (d (ns_Alerts after))
  ∧ ks_Enabled (ns_Deployments after) =
    (if missing (slack_on i sl_Deployments) (nd_Slack (d (ns_Deployments before)))
        || missing (teams_on i te_Deployments) (nd_Teams (d (ns_Deployments before)))
        || missing (webhook_on i wh_Deployments) (nd_Webhook (d (ns_Deployments before)))
     then notify else ks_Enabled (ns_Deployments before))
    && hasEnabled (d (ns_Deployments after))
  ∧ ks_Enabled (ns_Incidents after) =
    (ks_Enabled (ns_Incidents before) || pagerduty_on i pd_Incidents || opsgenie_on i og_Incidents
     || missing (slack_on i sl_Incidents) (nd_Slack (d (ns_Incidents before)))
     || missing (teams_on i te_Incidents) (nd_Teams (d (ns_Incidents before)))
     || missing (webhook_on i wh_Incidents) (nd_Webhook (d (ns_Incidents before))))
    && hasEnabled (d (ns_Incidents after))
  ∧ only_configured (slack_on i sl_Incidents) (teams_on i te_Incidents) (webhook_on i wh_Incidents)
      (pagerduty_on i pd_Incidents) (opsgenie_on i og_Incidents) (d (ns_Incidents after))
  ∧ only_configured (slack_on i (λ s, boolValue (sl_Alerts s))) (teams_on i (λ t, boolValue (te_Alerts t)))
      (webhook_on i (λ w, boolValue (wh_Alerts w))) (pagerduty_on i (λ p, boolValue (pd_Alerts p)))
      (opsgenie_on i (λ o, boolValue (og_Alerts o))) (d (ns_Alerts after)).
Proof.
  rewrite lookup_categories in Hc. case_bool_decide; [|done]. injection Hc as <-.
  exact (conj (resolve_alerts_Enabled _ _) (conj (resolve_deployments_Enabled _ _ _)
    (conj (resolve_incidents_Enabled _ _)
       (conj (resolve_incidents_configured _ _) (resolve_alerts_configured _ _))))).
Qed.

(** A project with a PagerDuty integration whose category turned incident
    notifications off. *)
Definition pagerduty_project : Project :=
  {| p_Id := "p"; p_Name := "p";
     p_Integrations := {| i_BaseUrl := ""; i_Slack := None; i_Teams := None;
       i_Pagerduty := Some {| pd_Incidents := true; pd_Alerts := Some true |}; i_Opsgenie := None; i_Webhook := None |};
     p_ApplicationCategorySettings :=
       {["db" := Some {| acs_CustomPatterns := ["db/*"]; acs_NotifyOfDeployments := false;
          acs_NotificationSettings :=
            {| ns_Incidents := {| ks_Enabled := false; ks_Destinations :=
                 {| nd_Slack := None; nd_Teams := None; nd_Pagerduty := Some true; nd_Opsgenie := None; nd_Webhook := None |} |};
               ns_Deployments := no_kind;
               ns_Alerts := {| ks_Enabled := false; ks_Destinations :=
                 {| nd_Slack := None; nd_Teams := None; nd_Pagerduty := Some true; nd_Opsgenie := None; nd_Webhook := None |} |} |} |}]};
     p_MemberProjects := [] |}.

(** Incidents come back enabled, alerts stay off. *)
Lemma GetApplicationCategories_spec_witness :
  ks_Enabled (ns_Incidents (ac_NotificationSettings (resolve_category pagerduty_project "db"))) = true
  ∧ ks_Enabled (ns_Alerts (ac_NotificationSettings (resolve_category pagerduty_project "db"))) = false.
Proof.
  pose proof (GetApplicationCategories_spec pagerduty_project "db" (resolve_category pagerduty_project "db") eq_refl)
    as (Ha & _ & Hi & _).
  split; [etransitivity; [exact Hi|reflexivity]|etransitivity; [exact Ha|reflexivity]].
Defined.

Lemma find_sorted (f : string → bool) (l : list string) :
  StronglySorted String.le l →
  match List.find f l with
  | Some x => x ∈ l ∧ f x = true ∧ ∀ y, y ∈ l → f y = true → String.le x y
  | None => ∀ y, y ∈ l → f y = false
  end.
Proof.
  induction 1 as [|x l Hs IH Hx]; cbn; [set_solver|]. destruct (f x) eqn:E.
  - split_and!; [set_solver|done|]. intros y [->|Hy]%elem_of_cons _; [reflexivity|].
    rewrite Forall_forall in Hx. auto.
  - destruct (List.find f l) as [z|].
    + destruct IH as (Hz & Hf & Hmin). split_and!; [set_solver|done|].
      intros y [->|Hy]%elem_of_cons Hfy; [congruence|auto].
    + intros y [->|Hy]%elem_of_cons; auto.
Qed.

Lemma sort_strings_sorted l : StronglySorted String.le (StringSet.sort_strings l).
Proof. apply (StronglySorted_merge_sort _). Qed.

Lemma elem_of_sort_strings x l : x ∈ StringSet.sort_strings l ↔ x ∈ l.
Proof. unfold StringSet.sort_strings. by rewrite merge_sort_Permutation. Qed.

Lemma custom_match_named p appId c : custom_match p appId c = true → c ∈ sorted_names (p_ApplicationCategorySettings p).
Proof.
  unfold custom_match, category_settings, sorted_names. rewrite elem_of_sort_strings.
  destruct (p_ApplicationCategorySettings p !! c) as [s|] eqn:E; [|done]. intros _.
  apply list_elem_of_fmap. exists (c, s). split; [done|]. by apply elem_of_map_to_list.
Qed.

(** The category of an application: a custom category one of whose patterns
    matches "namespace/name" if there is one, the first in the order of the
    names; otherwise the first built-in category that matches; otherwise
    "application". *)
Theorem CalcApplicationCategory_spec (p : Project) (appId : ApplicationId) :
  let c := CalcApplicationCategory p appId in
  (custom_match p appId c = true ∧ ∀ c', custom_match p appId c' = true → String.le c c')
  ∨ ((∀ c', custom_match p appId c' = false) ∧
     ((builtin_match appId c = true ∧ category_Builtin c = true
       ∧ ∀ c', category_Builtin c' = true → builtin_match appId c' = true → String.le c c')
      ∨ (c = ApplicationCategoryApplication ∧ ∀ c', category_Builtin c' = true → builtin_match appId c' = false))).
Proof.
  intros c. unfold c, CalcApplicationCategory. fold (custom_match p appId).
  pose proof (find_sorted (custom_match p appId) (sorted_names (p_ApplicationCategorySettings p))
    (sort_strings_sorted _)) as H.
  change (List.find (λ name, _) (sorted_names _))
    with (List.find (custom_match p appId) (sorted_names (p_ApplicationCategorySettings p))).
  destruct (List.find _ _) as [x|].
  { left. destruct H as (_ & Hx & Hmin). split; [done|]. intros c' Hc'. apply Hmin; [|done].
    by apply (custom_match_named p appId). }
  right. split.
  { intros c'. destruct (custom_match p appId c') eqn:E; [|done].
    rewrite <- E. apply H. by apply (custom_match_named p appId). }
  pose proof (find_sorted (builtin_match appId) (StringSet.sort_strings (fst <$> BuiltinCategoryPatterns))
    (sort_strings_sorted _)) as Hb.
  change (List.find (λ name, _) _) with (List.find (builtin_match appId) (StringSet.sort_strings (fst <$> BuiltinCategoryPatterns))).
  assert (Hin : ∀ c', category_Builtin c' = true → c' ∈ StringSet.sort_strings (fst <$> BuiltinCategoryPatterns)).
  { intros c' (q & Hq & Heq)%existsb_Exists. apply elem_of_sort_strings, list_elem_of_fmap.
    exists q. split; [symmetry; by apply String.eqb_eq|done]. }
  destruct (List.find _ _) as [x|]; [left|right].
  - destruct Hb as (Hx & Hm & Hmin). split_and!; [done| |auto].
    apply elem_of_sort_strings, list_elem_of_fmap in Hx as (q & -> & Hq).
    apply existsb_Exists. exists q. split; [done|]. apply String.eqb_refl.
  - split; [done|]. auto.
Qed.

Lemma fill_channel_idemp ch c : fill_channel ch (fill_channel ch c) = fill_channel ch c.
Proof.
  unfold fill_channel. destruct c as [e c]. cbn. destruct (String.eqb c "") eqn:E; cbn; [|by rewrite E].
  by destruct (String.eqb ch "").
Qed.

(** The blocks see no difference once the channels are filled in. *)
Lemma slack_teams_alias i son ton sdef tdef k :
  teams_block ton tdef (teams_channel i) (slack_block son sdef (slack_channel i) (alias_kind i son ton k))
  = teams_block ton tdef (teams_channel i) (slack_block son sdef (slack_channel i) k).
Proof.
  rewrite !teams_block_eq, !slack_block_eq. unfold alias_kind.
  destruct k as [e [[s|] [t|] pd og wh]], son, ton; cbn; by rewrite ?fill_channel_idemp.
Qed.

(** Reading the categories writes the default channels into the project's own
    settings (the objects are shared), and reading them again from the project so
    changed gives the same categories. *)
Theorem GetApplicationCategories_aliasing (p : Project) :
  GetApplicationCategories (alias_project p) = GetApplicationCategories p
  ∧ alias_project (alias_project p) = alias_project p.
Proof.
  assert (Hs : ∀ c, category_settings (alias_project p) c =
    option_map (λ s, {| acs_CustomPatterns := acs_CustomPatterns s;
       acs_NotifyOfDeployments := acs_NotifyOfDeployments s;
       acs_NotificationSettings := alias_settings (p_Integrations p) (acs_NotificationSettings s) |})
      (category_settings p c)).
  { intros c. unfold category_settings. cbn. rewrite lookup_fmap. by destruct (_ !! c) as [[]|]. }
  split.
  - apply map_eq. intros c. rewrite !lookup_categories.
    assert (category_names (alias_project p) = category_names p) as ->.
    { unfold category_names. cbn. by rewrite dom_fmap_L. }
    case_bool_decide; [|done]. f_equal. unfold resolve_category. rewrite Hs.
    destruct (category_settings p c) as [s|]; [|done]. cbn -[GoStrings.Join]. f_equal.
    unfold resolve_settings, alias_settings. f_equal; cbn [ns_Incidents ns_Deployments ns_Alerts].
    + unfold resolve_incidents. by rewrite slack_teams_alias.
    + unfold resolve_deployments. by rewrite slack_teams_alias.
    + unfold resolve_alerts. by rewrite slack_teams_alias.
  - unfold alias_project; cbn. f_equal. rewrite <- map_fmap_compose. apply map_fmap_ext.
    intros c [s|] _; [|done]. cbn. do 2 f_equal. unfold alias_settings; cbn.
    f_equal; unfold alias_kind; destruct (slack_on _ _), (teams_on _ _); cbn; try done;
      repeat match goal with |- context [nd_Slack ?d] => destruct (nd_Slack d) eqn:? | |- context [nd_Teams ?d] => destruct (nd_Teams d) eqn:? end;
      cbn; by rewrite ?fill_channel_idemp.
Qed.

End CategoriesFacts.
