(* ===== verification/AlertNotify.v ===== *)
(** Alert notifications: the outbox table (db/alert_notification.go) and the
    notifier (notifications/alerts.go, [getClient] and [isEnabled] of
    notifications/notifications.go).

    What happens outside is a parameter ([Delivery]): the projects [GetProjects]
    reads, the answer of a destination's client to one send (the client may set
    the notification's external key), and the text of a duration.  [sendAlerts]
    runs under [sendLock], so one run is one sequence of steps; it returns the
    notifications it handed to a client, in order, with their outcome. *)

From S2P Require Export Categories AlertStore.
From Stdlib Require Import Ascii String ZArith Lia.
Local Open Scope string_scope.
Local Open Scope Z_scope.

(** * db/alert_notification.go *)
Record AlertNotification := {
  n_ProjectId : string;
  n_AlertId : string;
  n_RuleId : string;
  n_ApplicationId : ApplicationId;
  n_Status : Z;
  n_Destination : Destination;
  n_Timestamp : Z;
  n_SentAt : Z;
  n_ExternalKey : string;
  n_Details : option AlertNotificationDetails
}.

Definition set_external_key (k : string) (n : AlertNotification) : AlertNotification :=
  {| n_ProjectId := n_ProjectId n; n_AlertId := n_AlertId n; n_RuleId := n_RuleId n;
     n_ApplicationId := n_ApplicationId n; n_Status := n_Status n; n_Destination := n_Destination n;
     n_Timestamp := n_Timestamp n; n_SentAt := n_SentAt n; n_ExternalKey := k; n_Details := n_Details n |}.
Definition set_sent_at (t : Z) (n : AlertNotification) : AlertNotification :=
  {| n_ProjectId := n_ProjectId n; n_AlertId := n_AlertId n; n_RuleId := n_RuleId n;
     n_ApplicationId := n_ApplicationId n; n_Status := n_Status n; n_Destination := n_Destination n;
     n_Timestamp := n_Timestamp n; n_SentAt := t; n_ExternalKey := n_ExternalKey n; n_Details := n_Details n |}.
Definition set_status (s : Z) (n : AlertNotification) : AlertNotification :=
  {| n_ProjectId := n_ProjectId n; n_AlertId := n_AlertId n; n_RuleId := n_RuleId n;
     n_ApplicationId := n_ApplicationId n; n_Status := s; n_Destination := n_Destination n;
     n_Timestamp := n_Timestamp n; n_SentAt := n_SentAt n; n_ExternalKey := n_ExternalKey n; n_Details := n_Details n |}.
Definition set_details (d : option AlertNotificationDetails) (n : AlertNotification) : AlertNotification :=
  {| n_ProjectId := n_ProjectId n; n_AlertId := n_AlertId n; n_RuleId := n_RuleId n;
     n_ApplicationId := n_ApplicationId n; n_Status := n_Status n; n_Destination := n_Destination n;
     n_Timestamp := n_Timestamp n; n_SentAt := n_SentAt n; n_ExternalKey := n_ExternalKey n; n_Details := d |}.

(** The row [PutAlertNotification] inserts: [sent_at] has its default, zero. *)
Definition notification_row (n : AlertNotification) : AlertNotificationRow :=
  {| an_project_id := n_ProjectId n; an_alert_id := n_AlertId n; an_rule_id := n_RuleId n;
     an_application_id := AppIdString (n_ApplicationId n); an_status := n_Status n;
     an_destination := dest_Value (n_Destination n); an_timestamp := n_Timestamp n; an_sent_at := 0;
     an_external_key := n_ExternalKey n; an_details := n_Details n |}.

Definition scan_notification (r : AlertNotificationRow) : option AlertNotification :=
  match AppIdScan (Some (an_application_id r)) with
  | None => None
  | Some id =>
      let id := if String.eqb (ClusterId id) "" then set_ClusterId (an_project_id r) id else id in
      Some {| n_ProjectId := an_project_id r; n_AlertId := an_alert_id r; n_RuleId := an_rule_id r;
              n_ApplicationId := id; n_Status := an_status r; n_Destination := dest_Scan (an_destination r);
              n_Timestamp := an_timestamp r; n_SentAt := 0; n_ExternalKey := an_external_key r;
              n_Details := an_details r |}
  end.

Definition lex (c1 : comparison) (c2 : comparison) : comparison := match c1 with Eq => c2 | _ => c1 end.
(** ORDER BY project_id, application_id, alert_id, timestamp *)
Definition unsent_order (a b : AlertNotificationRow) : bool :=
  match lex (String.compare (an_project_id a) (an_project_id b))
         (lex (String.compare (an_application_id a) (an_application_id b))
            (lex (String.compare (an_alert_id a) (an_alert_id b)) (an_timestamp a ?= an_timestamp b))) with
  | Gt => false | _ => true
  end.
Definition by_timestamp (a b : AlertNotificationRow) : bool := an_timestamp a <=? an_timestamp b.

(** The rows one UPDATE of a sent notification selects. *)
Definition notification_key (n : AlertNotification) (r : AlertNotificationRow) : bool :=
  String.eqb (an_project_id r) (n_ProjectId n) && String.eqb (an_alert_id r) (n_AlertId n)
  && (an_timestamp r =? n_Timestamp n) && String.eqb (an_destination r) (dest_Value (n_Destination n)).
Definition previous_of (n : AlertNotification) (r : AlertNotificationRow) : bool :=
  String.eqb (an_project_id r) (n_ProjectId n) && String.eqb (an_alert_id r) (n_AlertId n)
  && String.eqb (an_destination r) (dest_Value (n_Destination n)) && (an_timestamp r <? n_Timestamp n).

Definition row_set_sent (sent : Z) (key : string) (r : AlertNotificationRow) : AlertNotificationRow :=
  {| an_project_id := an_project_id r; an_alert_id := an_alert_id r; an_rule_id := an_rule_id r;
     an_application_id := an_application_id r; an_status := an_status r; an_destination := an_destination r;
     an_timestamp := an_timestamp r; an_sent_at := sent; an_external_key := key; an_details := an_details r |}.

Class Delivery := {
  delivery_projects : nat → string + list Project;
  delivery_send : nat → AlertNotification → string + string;
  FormatDurationShort : Z → nat → string
}.

Inductive NotificationType := NotificationTypeIncident | NotificationTypeAlert.

Definition isEnabled (incidents : bool) (alerts : option bool) (t : NotificationType) : bool :=
  match t with
  | NotificationTypeIncident => incidents
  | NotificationTypeAlert => boolValue alerts
  end.

(** Whether [getClient] finds a client for a destination. *)
Definition getClient (d : Destination) (i : Integrations) (t : NotificationType) : bool :=
  if String.eqb (d_IntegrationType d) IntegrationTypeSlack then
    slack_on i (λ c, isEnabled (sl_Incidents c) (sl_Alerts c) t)
  else if String.eqb (d_IntegrationType d) IntegrationTypeTeams then
    teams_on i (λ c, isEnabled (te_Incidents c) (te_Alerts c) t)
  else if String.eqb (d_IntegrationType d) IntegrationTypePagerduty then
    pagerduty_on i (λ c, isEnabled (pd_Incidents c) (pd_Alerts c) t)
  else if String.eqb (d_IntegrationType d) IntegrationTypeOpsgenie then
    opsgenie_on i (λ c, isEnabled (og_Incidents c) (og_Alerts c) t)
  else if String.eqb (d_IntegrationType d) IntegrationTypeWebhook then
    webhook_on i (λ c, isEnabled (wh_Incidents c) (wh_Alerts c) t)
  else false.

(** notifications.go: [retryWindow] *)
Definition retryWindow : Z := Time.Hour.

(** * notifications/alerts.go *)
Definition filterAlertDetails (details : list AlertDetail) : list AlertDetail :=
  where_ (λ d, negb (String.eqb (ad_Name d) "PromQL" || String.eqb (ad_Name d) "PromQLChart")) details.

(** The loop of [getOpenAlert] over the previous notifications. *)
Definition open_key (prevs : list AlertNotification) : string :=
  foldl (λ openKey prev,
    if n_Status prev =? Status.OK then
      if String.eqb openKey (n_ExternalKey prev) then "" else openKey
    else n_ExternalKey prev) "" prevs.

(** The last non-empty external key, for the thread of a Slack message. *)
Definition thread_key (n : AlertNotification) (prevs : list AlertNotification) : AlertNotification :=
  foldl (λ n pn, if String.eqb (n_ExternalKey pn) "" then n else set_external_key (n_ExternalKey pn) n) n prevs.

Section notifier.
Context `{Env} `{Delivery} {Mem : Type}.

Definition PutAlertNotification (n : AlertNotification) : M Mem (string + unit) :=
  update (with_alert_notification (λ rows, (rows ++ [notification_row n])%list)).

Definition UpdateAlertNotification (n : AlertNotification) : M Mem (string + unit) :=
  update (with_alert_notification (update_where (notification_key n) (row_set_sent (n_SentAt n) (n_ExternalKey n)))).

Definition GetNotSentAlertNotifications (from : Z) : M Mem (string + list AlertNotification) :=
  select (λ t, scan_all scan_notification
    (order_by unsent_order (where_ (λ r, (from <=? an_timestamp r) && (an_sent_at r =? 0)) (t_alert_notification t)))).

Definition GetPreviousAlertNotifications (n : AlertNotification) : M Mem (string + list AlertNotification) :=
  select (λ t, scan_all scan_notification
    (order_by by_timestamp (where_ (previous_of n) (t_alert_notification t)))).

Definition GetProjects : M Mem (string + list Project) := ask delivery_projects.
Definition SendAlert (n : AlertNotification) : M Mem (string + string) := ask (λ k, delivery_send k n).

(** [failedDestinations] holds the project and the destination. *)
Definition dkey (n : AlertNotification) : string * Destination := (n_ProjectId n, n_Destination n).

Definition sent_record : Type := AlertNotification * bool.

(** The client's part of the loop body: [None] when there is no client. *)
Definition send_one (project : Project) (n : AlertNotification) : M Mem (option string * AlertNotification * list sent_record) :=
  if getClient (n_Destination n) (p_Integrations project) NotificationTypeAlert then
    n ← (if String.eqb (d_IntegrationType (n_Destination n)) IntegrationTypeSlack then
           prevs ← GetPreviousAlertNotifications n;
           mret (match prevs with inl _ => n | inr prevs => thread_key n prevs end)
         else mret n);
    r ← SendAlert n;
    match r with
    | inl err => mret (Some err, n, [(n, false)])
    | inr key => mret (None, set_external_key key n, [(n, true)])
    end
  else mret (None, n, []).

Fixpoint send_loop (projects : list Project) (notifications : list AlertNotification)
    (failedDestinations : list (string * Destination)) : M Mem (list sent_record) :=
  match notifications with
  | [] => mret []
  | n :: notifications =>
      if bool_decide (dkey n ∈ failedDestinations) then send_loop projects notifications failedDestinations
      else
        match List.find (λ p, String.eqb (p_Id p) (n_ProjectId n)) projects with
        | None => send_loop projects notifications failedDestinations
        | Some project =>
            r ← send_one project n;
            let '(sendErr, n', sent) := r in
            match sendErr with
            | Some _ =>
                rest ← send_loop projects notifications (dkey n :: failedDestinations);
                mret (sent ++ rest)%list
            | None =>
                now ← Now;
                _ ← UpdateAlertNotification (set_sent_at now n');
                rest ← send_loop projects notifications failedDestinations;
                mret (sent ++ rest)%list
            end
        end
  end.

Definition sendAlerts : M Mem (list sent_record) :=
  ps ← GetProjects;
  match ps with
  | inl _ => mret []
  | inr [] => mret []
  | inr projects =>
      now ← Now;
      r ← GetNotSentAlertNotifications (Time.Add now (wrap64 (- retryWindow)));
      match r with
      | inl _ => mret []
      | inr notifications => send_loop projects notifications []
      end
  end.

Definition getOpenAlert (n : AlertNotification) : M Mem (string + string) :=
  prevs ← GetPreviousAlertNotifications n;
  mret (match prevs with inl err => inl err | inr prevs => inr (open_key prevs) end).

Definition onOpen (externalKey : string) (n : AlertNotification) (details : option AlertNotificationDetails) : M Mem unit :=
  _ ← PutAlertNotification (set_details details (set_external_key externalKey n));
  mret tt.
Definition onResolve (externalKey : string) (n : AlertNotification) (details : option AlertNotificationDetails) : M Mem unit :=
  _ ← PutAlertNotification (set_details details (set_external_key externalKey (set_status Status.OK n)));
  mret tt.

Definition external_key (project : Project) (alert : Alert) : string :=
  (p_Id project ++ ":" ++ a_Id alert ++ ":" ++ Status.ToString (a_Severity alert))%string.

Definition enqueue_details (project : Project) (alert : Alert) (rule : AlertingRule) : AlertNotificationDetails :=
  {| nd_ProjectName := p_Name project; nd_RuleName := rule_Name rule;
     nd_Severity := Status.ToString (a_Severity alert); nd_Summary := a_Summary alert;
     nd_Details := filterAlertDetails (a_Details alert);
     nd_Duration := if 0 <? a_ResolvedAt alert
                    then FormatDurationShort (Time.Sub (a_ResolvedAt alert) (a_OpenedAt alert)) 2 else "";
     nd_ResolvedBy := "" |}.

Definition enqueue_notification (now : Z) (project : Project) (alert : Alert) (d : Destination) : AlertNotification :=
  {| n_ProjectId := p_Id project; n_AlertId := a_Id alert; n_RuleId := a_RuleId alert;
     n_ApplicationId := a_ApplicationId alert; n_Status := a_Severity alert; n_Destination := d;
     n_Timestamp := now; n_SentAt := 0; n_ExternalKey := ""; n_Details := None |}.

Definition enqueue (now : Z) (project : Project) (alert : Alert) (rule : AlertingRule) (d : Destination) : M Mem unit :=
  let n := enqueue_notification now project alert d in
  let details := Some (enqueue_details project alert rule) in
  let t := d_IntegrationType d in
  if String.eqb t IntegrationTypeSlack || String.eqb t IntegrationTypeTeams || String.eqb t IntegrationTypeWebhook then
    if 0 <? a_ResolvedAt alert then onResolve "" n details else onOpen "" n details
  else if String.eqb t IntegrationTypePagerduty || String.eqb t IntegrationTypeOpsgenie then
    r ← getOpenAlert n;
    match r with
    | inl _ => mret tt
    | inr openKey =>
        if 0 <? a_ResolvedAt alert then
          if String.eqb openKey "" then mret tt else onResolve openKey n details
        else onOpen (external_key project alert) n details
    end
  else mret tt.

(** The destinations of a category's settings, in the order they are notified. *)
Definition destinations (k : KindSettings) : list Destination :=
  let ds := ks_Destinations k in
  (match nd_Slack ds with
   | Some c => if cs_Enabled c then [{| d_IntegrationType := IntegrationTypeSlack; d_SlackChannel := cs_Channel c; d_TeamsChannel := "" |}] else []
   | None => [] end
   ++ match nd_Teams ds with
      | Some c => if cs_Enabled c then [{| d_IntegrationType := IntegrationTypeTeams; d_SlackChannel := ""; d_TeamsChannel := cs_Channel c |}] else []
      | None => [] end
   ++ (if boolValue (nd_Pagerduty ds) then [{| d_IntegrationType := IntegrationTypePagerduty; d_SlackChannel := ""; d_TeamsChannel := "" |}] else [])
   ++ (if boolValue (nd_Opsgenie ds) then [{| d_IntegrationType := IntegrationTypeOpsgenie; d_SlackChannel := ""; d_TeamsChannel := "" |}] else [])
   ++ (if boolValue (nd_Webhook ds) then [{| d_IntegrationType := IntegrationTypeWebhook; d_SlackChannel := ""; d_TeamsChannel := "" |}] else []))%list.

(** The category an alert is notified under, when [app] is its application's
    category. *)
Definition enqueue_category (app : option string) (rule : AlertingRule) : string :=
  match app with
  | Some c => c
  | None => if String.eqb (rule_NotificationCategory rule) "" then ApplicationCategoryApplication
            else rule_NotificationCategory rule
  end.

Definition Enqueue (project : Project) (app : option string) (alert : Alert) (rule : AlertingRule) (now : Z) : M Mem unit :=
  match GetApplicationCategories project !! enqueue_category app rule with
  | None => mret tt
  | Some c =>
      let s := ns_Alerts (ac_NotificationSettings c) in
      if ks_Enabled s then
        _ ← forM_ (destinations s) (enqueue now project alert rule);
        _ ← sendAlerts;
        mret tt
      else mret tt
  end.

(** * EnqueueResolvedAlerts: alerts resolved, suppressed or dropped by a user *)
Definition resolved_details (now : Z) (project : Project) (alert : Alert) (rule : AlertingRule) : AlertNotificationDetails :=
  {| nd_ProjectName := p_Name project; nd_RuleName := rule_Name rule;
     nd_Severity := Status.ToString (a_Severity alert); nd_Summary := a_Summary alert;
     nd_Details := filterAlertDetails (a_Details alert);
     nd_Duration := FormatDurationShort (Time.Sub now (a_OpenedAt alert)) 2;
     nd_ResolvedBy := a_ResolvedBy alert |}.

Definition resolved_notification (now : Z) (project : Project) (alert : Alert) (rule : AlertingRule) (d : Destination) : AlertNotification :=
  let t := d_IntegrationType d in
  {| n_ProjectId := p_Id project; n_AlertId := a_Id alert; n_RuleId := a_RuleId alert;
     n_ApplicationId := a_ApplicationId alert; n_Status := Status.OK; n_Destination := d;
     n_Timestamp := now; n_SentAt := 0;
     n_ExternalKey := if String.eqb t IntegrationTypePagerduty || String.eqb t IntegrationTypeOpsgenie
                      then external_key project alert else "";
     n_Details := Some (resolved_details now project alert rule) |}.

Definition enqueueResolvedAlert (now : Z) (project : Project) (alert : Alert) (rule : AlertingRule) (s : KindSettings) : M Mem unit :=
  forM_ (destinations s) (λ d, _ ← PutAlertNotification (resolved_notification now project alert rule d); mret tt).

Definition resolved_category (alert : Alert) (rule : AlertingRule) : string :=
  if String.eqb (a_ApplicationCategory alert) "" then
    if String.eqb (rule_NotificationCategory rule) "" then ApplicationCategoryApplication
    else rule_NotificationCategory rule
  else a_ApplicationCategory alert.

Definition EnqueueResolvedAlerts (project : Project) (alerts : list Alert) (rule : AlertingRule) : M Mem unit :=
  now ← Now;
  forM_ alerts (λ alert,
    let alert := alert_set_resolved now alert in
    match GetApplicationCategories project !! resolved_category alert rule with
    | None => mret tt
    | Some c =>
        let s := ns_Alerts (ac_NotificationSettings c) in
        if ks_Enabled s then enqueueResolvedAlert now project alert rule s else mret tt
    end).

End notifier.

(** * Facts *)
Module AlertNotifyFacts.

Lemma open_key_snoc prevs n :
  open_key (prevs ++ [n])%list =
    if n_Status n =? Status.OK then
      if String.eqb (open_key prevs) (n_ExternalKey n) then "" else open_key prevs
    else n_ExternalKey n.
Proof. unfold open_key. by rewrite foldl_app. Qed.

(** The notification that left an incident open at its destination. *)
Definition left_open (prevs : list AlertNotification) (k : string) : Prop :=
  ∃ pre n post, prevs = (pre ++ n :: post)%list ∧ n_Status n ≠ Status.OK ∧ n_ExternalKey n = k ∧
    ∀ m, m ∈ post → n_Status m = Status.OK ∧ n_ExternalKey m ≠ k.

Lemma left_open_snoc_ok prevs n k :
  n_Status n = Status.OK → left_open (prevs ++ [n])%list k ↔ left_open prevs k ∧ n_ExternalKey n ≠ k.
Proof.
  intros Hn. split.
  - intros (pre & x & post & Heq & Hx & Hk & Hpost).
    destruct post as [|y post _] using rev_ind.
    + apply app_inj_tail in Heq as [-> ->]. done.
    + rewrite app_comm_cons, app_assoc in Heq. apply app_inj_tail in Heq as [-> ->].
      destruct (Hpost y) as [_ Hy]; [set_solver|]. split; [|done].
      exists pre, x, post. split_and!; try done. intros m Hm. apply Hpost. set_solver.
  - intros [(pre & x & post & -> & Hx & Hk & Hpost) Hne].
    exists pre, x, (post ++ [n])%list. split_and!; [by rewrite <- app_assoc|done|done|].
    intros m [Hm|Hm%list_elem_of_singleton]%elem_of_app; [by apply Hpost|by subst m].
Qed.

Lemma left_open_snoc_open prevs n k :
  n_Status n ≠ Status.OK → left_open (prevs ++ [n])%list k ↔ n_ExternalKey n = k.
Proof.
  intros Hn. split.
  - intros (pre & x & post & Heq & Hx & Hk & Hpost).
    destruct post as [|y post _] using rev_ind.
    + by apply app_inj_tail in Heq as [-> ->].
    + rewrite app_comm_cons, app_assoc in Heq. apply app_inj_tail in Heq as [-> ->].
      destruct (Hpost y) as [Hy _]; [set_solver|]. done.
  - intros Hk. exists prevs, n, []. split_and!; try done. set_solver.
Qed.

(** What [getOpenAlert] computes from an alert's previous notifications to a
    destination: a non-empty key [k] is open exactly when some notification
    opened it and every later one resolves another key. *)
Theorem open_key_spec (prevs : list AlertNotification) (k : string) (Hk : k ≠ "") :
  open_key prevs = k ↔ left_open prevs k.
Proof.
  induction prevs as [|n prevs IH] using rev_ind.
  { split; [done|]. by intros ([|] & ? & ? & ? & _). }
  rewrite open_key_snoc. destruct (Z.eqb_spec (n_Status n) Status.OK) as [Hn|Hn].
  - rewrite left_open_snoc_ok, <- IH by done.
    destruct (String.eqb (open_key prevs) (n_ExternalKey n)) eqn:E.
    + apply String.eqb_eq in E. split; [congruence|]. intros [H1 H2]. congruence.
    + apply String.eqb_neq in E. naive_solver.
  - by rewrite left_open_snoc_open.
Qed.

Definition witness_notification (status : Z) (key : string) : AlertNotification :=
  {| n_ProjectId := "p"; n_AlertId := "a"; n_RuleId := "r"; n_ApplicationId := ApplicationIdZero;
     n_Status := status; n_Destination := Build_Destination "pagerduty" "" ""; n_Timestamp := 1; n_SentAt := 0;
     n_ExternalKey := key; n_Details := None |}.

Lemma open_key_spec_witness :
  left_open [witness_notification 4 "p:a:critical"; witness_notification 1 "other"] "p:a:critical".
Proof.
  apply (open_key_spec [witness_notification 4 "p:a:critical"; witness_notification 1 "other"] "p:a:critical");
    [discriminate|reflexivity].
Defined.

Section facts.
Context `{Env} `{Delivery} {Mem : Type}.

(** ** What the notifier leaves alone *)

(** A step of the notifier changes neither the memory nor any table but its own. *)
Definition outbox_only {A} (m : M Mem A) : Prop :=
  ∀ s, let s' := snd (m s) in
    sys_mem s' = sys_mem s ∧ with_alert_notification (λ _, []) (sys_tables s') = with_alert_notification (λ _, []) (sys_tables s).

Lemma outbox_ret {A} (a : A) : outbox_only (mret a).
Proof. by intros s. Qed.

Lemma outbox_bind {A B} (m : M Mem A) (f : A → M Mem B) :
  outbox_only m → (∀ a, outbox_only (f a)) → outbox_only (m ≫= f).
Proof.
  intros Hm Hf s. specialize (Hm s). unfold mbind, M_bind. destruct (m s) as [a s1]. cbn in Hm.
  specialize (Hf a s1). cbn in Hf. destruct Hm as [Hm1 Hm2], Hf as [Hf1 Hf2]. split; congruence.
Qed.

Lemma outbox_forM {A} (l : list A) (f : A → M Mem unit) :
  (∀ x, outbox_only (f x)) → outbox_only (forM_ l f).
Proof. intros Hf. induction l; [apply outbox_ret|]. apply outbox_bind; auto. Qed.

Lemma outbox_select {A} (q : Tables → string + A) : outbox_only (select q).
Proof.
  intros s. destruct (select q s) as [r s'] eqn:E. cbn. by apply DbFacts.select_inv in E as (-> & -> & _).
Qed.

Lemma outbox_update f : outbox_only (update (with_alert_notification f)).
Proof.
  intros s. destruct (update _ s) as [r s'] eqn:E. cbn. apply DbFacts.update_inv in E as (-> & ->).
  split; [done|]. by destruct (failed r).
Qed.

Lemma outbox_now : outbox_only Now.
Proof. done. Qed.
Lemma outbox_projects : outbox_only GetProjects.
Proof. done. Qed.
Lemma outbox_send n : outbox_only (SendAlert n).
Proof. done. Qed.

#[local] Hint Resolve outbox_ret outbox_bind outbox_forM outbox_select outbox_update outbox_now
  outbox_projects outbox_send : coroot.

(** Follows the structure of a notifier's program. *)
Ltac outbox :=
  repeat match goal with
  | |- outbox_only (_ ≫= _) => apply outbox_bind; [|intros ?]
  | |- outbox_only (match ?x with _ => _ end) => destruct x
  | |- outbox_only (forM_ _ _) => apply outbox_forM; intros ?
  | |- outbox_only _ => solve [eauto with coroot]
  end.

Lemma outbox_send_one project n : outbox_only (send_one project n).
Proof. unfold send_one, GetPreviousAlertNotifications. outbox. Qed.
#[local] Hint Resolve outbox_send_one : coroot.

Lemma outbox_send_loop projects l failed : outbox_only (send_loop projects l failed).
Proof.
  revert failed. induction l as [|n l IH]; intros failed; cbn [send_loop]; [outbox|].
  unfold UpdateAlertNotification. outbox.
Qed.
#[local] Hint Resolve outbox_send_loop : coroot.

Lemma outbox_sendAlerts : outbox_only sendAlerts.
Proof. unfold sendAlerts, GetNotSentAlertNotifications. outbox. Qed.
#[local] Hint Resolve outbox_sendAlerts : coroot.

Lemma outbox_Enqueue project app alert rule now : outbox_only (Enqueue project app alert rule now).
Proof.
  unfold Enqueue, enqueue, onOpen, onResolve, PutAlertNotification, getOpenAlert, GetPreviousAlertNotifications.
  outbox.
Qed.

(** What the watchers need of the notifier: the alert and rule tables and the
    memory are as before. *)
Lemma Enqueue_frame project app alert rule now (s : Sys Mem) :
  let s' := snd (Enqueue project app alert rule now s) in
  sys_mem s' = sys_mem s ∧ t_alert (sys_tables s') = t_alert (sys_tables s)
  ∧ t_alerting_rule (sys_tables s') = t_alerting_rule (sys_tables s).
Proof.
  destruct (outbox_Enqueue project app alert rule now s) as [Hm Ht]. cbn.
  split; [done|]. by injection Ht.
Qed.

(** ** Delivery *)

Lemma thread_key_dkey n prevs : dkey (thread_key n prevs) = dkey n.
Proof.
  unfold thread_key. revert n. induction prevs as [|q prevs IH]; intros n; [done|]. cbn [foldl].
  rewrite IH. by destruct (String.eqb _ _).
Qed.

(** One send concerns the notification's own destination, and reports an error
    exactly when it records a failed call. *)
Lemma send_one_record p m (s : Sys Mem) e n' sent (s' : Sys Mem) :
  send_one p m s = ((e, n', sent), s') →
  dkey n' = dkey m ∧
  ((∃ err x, e = Some err ∧ sent = [(x, false)] ∧ dkey x = dkey m)
   ∨ (e = None ∧ (sent = [] ∨ ∃ x, sent = [(x, true)] ∧ dkey x = dkey m))).
Proof.
  unfold send_one. destruct (getClient _ _ _); [|intros [= <- <- <- <-]; eauto].
  set (pick := if String.eqb _ _ then _ else _). unfold mbind at 1, M_bind at 1.
  assert (Hpick : ∀ n1 s1, pick s = (n1, s1) → dkey n1 = dkey m).
  { intros n1 s1. unfold pick. destruct (String.eqb _ _); [|by intros [= <- _]].
    unfold mbind, M_bind. destruct (GetPreviousAlertNotifications m s) as [[e1|prevs] s2];
      intros [= <- _]; [done|apply thread_key_dkey]. }
  destruct (pick s) as [n1 s1]. specialize (Hpick n1 s1 eq_refl).
  unfold mbind, M_bind. cbn. destruct (delivery_send _ _) as [err|key]; intros [= <- <- <- <-].
  - split; [done|]. left. eauto.
  - split; [done|]. right. eauto.
Qed.

(** The loop's records after the head notification was handled. *)
Lemma send_loop_cons projects m l failed (s : Sys Mem) :
  (∃ s' : Sys Mem, fst (send_loop projects (m :: l) failed s) = fst (send_loop projects l failed s'))
  ∨ ((dkey m ∉ failed) ∧
     ((∃ x (s' : Sys Mem), dkey x = dkey m ∧
         fst (send_loop projects (m :: l) failed s) = ((x, false) :: fst (send_loop projects l (dkey m :: failed) s')))
      ∨ (∃ x (s' : Sys Mem), dkey x = dkey m ∧
           fst (send_loop projects (m :: l) failed s) = ((x, true) :: fst (send_loop projects l failed s'))))).
Proof.
  cbn [send_loop]. case_bool_decide as Hd; [left; by exists s|].
  destruct (List.find _ projects) as [p|]; [|left; by exists s].
  unfold mbind, M_bind. destruct (send_one p m s) as [[[e n'] sent] s1] eqn:E1.
  apply send_one_record in E1 as [_ [(err & x & -> & -> & Hx)|[-> Hsent]]].
  - right. split; [done|]. left. exists x, s1.
    destruct (send_loop projects l (dkey m :: failed) s1). done.
  - cbn. destruct (UpdateAlertNotification _ _) as [u s2].
    destruct (send_loop projects l failed s2) as [rest s3] eqn:E2. cbn.
    destruct Hsent as [->|(x & -> & Hx)].
    + left. exists s2. by rewrite E2.
    + right. split; [done|]. right. exists x, s2. by rewrite E2.
Qed.

Lemma send_loop_skips projects l failed (s : Sys Mem) n ok :
  (n, ok) ∈ fst (send_loop projects l failed s) → dkey n ∉ failed.
Proof.
  revert failed s. induction l as [|m l IH]; intros failed s; [cbn; set_solver|].
  destruct (send_loop_cons projects m l failed s)
    as [[s' ->]|[Hm [(x & s' & Hx & ->)|(x & s' & Hx & ->)]]]; [apply IH|..].
  - intros [Heq|Hin]%elem_of_cons; [by injection Heq as -> _; rewrite Hx|].
    apply IH in Hin. set_solver.
  - intros [Heq|Hin]%elem_of_cons; [by injection Heq as -> _; rewrite Hx|by apply IH in Hin].
Qed.

(** Once a send to a destination of a project fails, [sendAlerts] makes no
    further call to that destination in the same pass, so the notifications
    queued behind it are not delivered ahead of it. *)
Theorem send_loop_stops_after_failure (projects : list Project) (l : list AlertNotification)
    (failed : list (string * Destination)) (s : Sys Mem) (pre post : list sent_record) (n : AlertNotification)
    (Hrun : fst (send_loop projects l failed s) = (pre ++ (n, false) :: post)%list) :
  ∀ m ok, (m, ok) ∈ post → dkey m ≠ dkey n.
Proof.
  revert failed s pre Hrun. induction l as [|x l IH]; intros failed s pre Hrun.
  { by destruct pre. }
  destruct (send_loop_cons projects x l failed s)
    as [[s' E]|[Hm [(y & s' & Hy & E)|(y & s' & Hy & E)]]]; rewrite E in Hrun.
  - by apply (IH failed s' pre).
  - destruct pre as [|z pre].
    + injection Hrun as -> Hrest. rewrite <- Hrest. intros m ok Hin%send_loop_skips Heq.
      apply Hin. rewrite Heq, Hy. left.
    + injection Hrun as Hz Hrest. by apply (IH (dkey x :: failed) s' pre).
  - destruct pre as [|z pre]; [done|]. injection Hrun as Hz Hrest. by apply (IH failed s' pre).
Qed.

(** The previous notifications of [n] stored when it is enqueued. *)
Definition previous (n : AlertNotification) (t : Tables) : string + list AlertNotification :=
  scan_all scan_notification (order_by by_timestamp (where_ (previous_of n) (t_alert_notification t))).

Definition is_key_destination (d : Destination) : bool :=
  String.eqb (d_IntegrationType d) IntegrationTypePagerduty || String.eqb (d_IntegrationType d) IntegrationTypeOpsgenie.

(** What enqueueing an alert for a PagerDuty or Opsgenie destination stores,
    when no call fails: a firing alert is opened under the key made of the
    project, the alert and its severity; a resolved one resolves the key that is
    open at the destination, and stores nothing when none is. *)
Theorem enqueue_key_destination (now : Z) (project : Project) (alert : Alert) (rule : AlertingRule)
    (d : Destination) (s : Sys Mem) (prevs : list AlertNotification)
    (Hnf : ∀ k, env_fault k = None) (Hd : is_key_destination d = true)
    (Hprev : previous (enqueue_notification now project alert d) (sys_tables s) = inr prevs) :
  let rows key status :=
    let n := set_details (Some (enqueue_details project alert rule))
               (set_external_key key (set_status status (enqueue_notification now project alert d))) in
    (t_alert_notification (sys_tables s) ++ [notification_row n])%list in
  t_alert_notification (sys_tables (snd (enqueue now project alert rule d s))) =
    if 0 <? a_ResolvedAt alert then
      if String.eqb (open_key prevs) "" then t_alert_notification (sys_tables s)
      else rows (open_key prevs) Status.OK
    else rows (external_key project alert) (a_Severity alert).
Proof.
  cbv zeta. unfold enqueue. apply orb_true_iff in Hd.
  replace (String.eqb _ _ || String.eqb _ _ || String.eqb _ _) with false
    by (destruct Hd as [Hd|Hd]; apply String.eqb_eq in Hd; by rewrite Hd).
  replace (String.eqb _ _ || String.eqb _ _) with true by (symmetry; by apply orb_true_iff).
  unfold getOpenAlert, GetPreviousAlertNotifications, mbind, M_bind.
  rewrite DbFacts.select_run by done. fold (previous (enqueue_notification now project alert d) (sys_tables s)).
  rewrite Hprev. cbn [mret M_ret].
  destruct (0 <? a_ResolvedAt alert); [destruct (String.eqb (open_key prevs) ""); [done|]|];
    unfold onResolve, onOpen, PutAlertNotification, mbind, M_bind; by rewrite DbFacts.update_run by done.
Qed.

End facts.

(** A client that accepts nothing, and one project with a webhook. *)
Definition webhook_project : Project :=
  {| p_Id := "p"; p_Name := "p";
     p_Integrations := {| i_BaseUrl := ""; i_Slack := None; i_Teams := None; i_Pagerduty := None; i_Opsgenie := None;
       i_Webhook := Some {| wh_Incidents := true; wh_Deployments := true; wh_Alerts := Some true; wh_AlertTemplate := "t" |} |};
     p_ApplicationCategorySettings := ∅; p_MemberProjects := [] |}.
Definition refusing_delivery : Delivery :=
  {| delivery_projects := λ _, inr [webhook_project]; delivery_send := λ _ _, inl "refused";
     FormatDurationShort := λ _ _, "" |}.
Definition webhook_notification (alert : string) : AlertNotification :=
  {| n_ProjectId := "p"; n_AlertId := alert; n_RuleId := "r"; n_ApplicationId := ApplicationIdZero;
     n_Status := 4; n_Destination := Build_Destination "webhook" "" ""; n_Timestamp := 1; n_SentAt := 0;
     n_ExternalKey := ""; n_Details := None |}.

Lemma send_loop_stops_after_failure_witness :
  let s := Build_Sys tt no_tables 0 in
  @fst (list sent_record) _ (@send_loop (steady_env 0) refusing_delivery unit [webhook_project]
    [webhook_notification "a"; webhook_notification "b"] [] s) = [(webhook_notification "a", false)]
  ∧ ∀ m ok, (m, ok) ∈ ([] : list sent_record) → dkey m ≠ dkey (webhook_notification "a").
Proof.
  split; [reflexivity|].
  exact (@send_loop_stops_after_failure (steady_env 0) refusing_delivery unit [webhook_project]
    [webhook_notification "a"; webhook_notification "b"] [] (Build_Sys tt no_tables 0) [] [] (webhook_notification "a") eq_refl).
Defined.

Definition witness_alert (resolved : Z) : Alert :=
  {| a_Id := "a"; a_Fingerprint := "f"; a_RuleId := "r"; a_ProjectId := "p"; a_ApplicationId := ApplicationIdZero;
     a_ApplicationCategory := ""; a_Severity := Status.CRITICAL; a_Summary := ""; a_Details := [];
     a_OpenedAt := 10; a_ResolvedAt := resolved; a_ManuallyResolvedAt := 0; a_UpdatedAt := 10;
     a_Suppressed := false; a_ResolvedBy := ""; a_Report := ""; a_PatternWords := "" |}.
Definition witness_rule : AlertingRule :=
  {| rule_Id := "r"; rule_ProjectId := "p"; rule_Name := "rule";
     rule_Source := {| src_Type := AlertSourceTypeCheck; src_Check := Some "CPUNode"; src_LogPattern := None;
                       src_PromQL := None; src_KubernetesEvents := None |};
     rule_Selector := {| sel_Type := AppSelectorTypeAll; sel_Categories := []; sel_ApplicationIdPatterns := [] |};
     rule_Severity := Status.WARNING; rule_For := 0; rule_KeepFiringFor := 0;
     rule_Templates := {| tpl_Summary := ""; tpl_Description := "" |}; rule_NotificationCategory := "";
     rule_Enabled := true; rule_Readonly := false; rule_Builtin := false; rule_CreatedAt := 0; rule_UpdatedAt := 0 |}.

(** Resolving an alert PagerDuty was never told about stores nothing. *)
Lemma enqueue_key_destination_witness :
  t_alert_notification (sys_tables (snd (@enqueue (steady_env 0) refusing_delivery unit 20 webhook_project (witness_alert 20)
    witness_rule (Build_Destination "pagerduty" "" "") (Build_Sys tt no_tables 0)))) = [].
Proof.
  exact (@enqueue_key_destination (steady_env 0) refusing_delivery unit 20 webhook_project (witness_alert 20) witness_rule
    (Build_Destination "pagerduty" "" "") (Build_Sys tt no_tables 0) [] (λ _, eq_refl) eq_refl eq_refl).
Defined.

End AlertNotifyFacts.
