(* ===== verification/Alerts.v ===== *)
(** watchers/alerts.go: the alerting state machine.

    One [Check] of a project evaluates every enabled rule (a check of each
    matching application, its log patterns, a PromQL query, Kubernetes events),
    opens, updates and resolves the rows of the [alert] table, and notifies.
    What a run keeps between two calls is [pendingAlerts] (when each firing
    condition was first seen) and [initializedProjects].

    Parameters: the answers of the AI evaluators, of the Prometheus query and of
    ClickHouse ([Sources]), formatting done by third-party code, and the order
    of map iteration ([MapOrder]). *)

From S2P Require Export AlertNotify Fingerprint.
From Stdlib Require Import Ascii String ZArith Lia.
Local Open Scope string_scope.
Local Open Scope Z_scope.

Definition alertDetailValueMaxLen : nat := 1000.

Record AlertsMem := {
  pendingAlerts : gmap string Z;
  initializedProjects : gmap string bool
}.
Definition set_pending (f : gmap string Z → gmap string Z) (m : AlertsMem) : AlertsMem :=
  {| pendingAlerts := f (pendingAlerts m); initializedProjects := initializedProjects m |}.
Definition set_initialized (f : gmap string bool → gmap string bool) (m : AlertsMem) : AlertsMem :=
  {| pendingAlerts := pendingAlerts m; initializedProjects := f (initializedProjects m) |}.

(** A Kubernetes event, as read from the logs. *)
Record LogEntry := {
  le_Body : string;
  le_LogAttributes : list (string * string);
  le_ClusterId : string;
  le_ClusterName : string
}.
Definition attr (k : string) (e : LogEntry) : string := label_value (le_LogAttributes e) k.

Record Evaluation := { ev_ShouldAlert : bool; ev_Explanation : string }.

Class Sources `{LogParser} := {
  logPatternEvaluator : option (bool * (nat → Application → Z → LogPattern → string + Evaluation));
  kubernetesEventEvaluator : option (nat → Application → LogEntry → string + Evaluation);
  promql_QueryRange : nat → string → string + list (list (string * string) * option TimeSeries);
  promql_AddExtraSelector : string → string → option string;
  clickhouse_events : nat → string + list (string + list LogEntry);
  json_filters : list (string * string * string) → string;
  Format_g : f32 → string;
  Duration_String : Z → string
}.

(** [lp.Messages.Reduce(timeseries.NanSum)]; [Reduce] never panics
    ([Reduce_fold]). *)
Definition nan_sum (ts : option TimeSeries) : f32 :=
  match Reduce NanSum ts with Ret v => v | Panic => NaN end.

(** UNKNOWN severities fire as warnings. *)
Definition rule_severity (rule : AlertingRule) : Z :=
  if rule_Severity rule =? Status.UNKNOWN then Status.WARNING else rule_Severity rule.

(** [KeepFiringFor > 0 && now.Sub(a.UpdatedAt) < KeepFiringFor] *)
Definition keeps_firing (rule : AlertingRule) (now : Z) (a : Alert) : bool :=
  (0 <? rule_KeepFiringFor rule) && (Time.Sub now (a_UpdatedAt a) <? rule_KeepFiringFor rule).

Definition detail (name value : string) (code : bool) : AlertDetail :=
  {| ad_Name := name; ad_Value := value; ad_Code := code |}.

(** The description of a rule's template, when it has one. *)
Definition description_detail (description : string) : list AlertDetail :=
  if String.eqb description "" then [] else [detail "Description" description false].

(** A new alert: the times are set by [CreateAlert]. *)
Definition new_alert (id fingerprint : string) (rule : AlertingRule) (projectId : string) (app : ApplicationId)
    (category summary : string) (details : list AlertDetail) (report words : string) (manually : Z)
    (suppressed : bool) (resolvedBy : string) : Alert :=
  {| a_Id := id; a_Fingerprint := fingerprint; a_RuleId := rule_Id rule; a_ProjectId := projectId;
     a_ApplicationId := app; a_ApplicationCategory := category; a_Severity := rule_severity rule;
     a_Summary := summary; a_Details := details; a_OpenedAt := 0; a_ResolvedAt := 0;
     a_ManuallyResolvedAt := manually; a_UpdatedAt := 0; a_Suppressed := suppressed;
     a_ResolvedBy := resolvedBy; a_Report := report; a_PatternWords := words |}.

(** The alerts of a rule, the first one of each fingerprint. *)
Fixpoint first_by_fingerprint (seen : list string) (l : list Alert) : list Alert :=
  match l with
  | [] => []
  | a :: l => if bool_decide (a_Fingerprint a ∈ seen) then first_by_fingerprint seen l
              else a :: first_by_fingerprint (a_Fingerprint a :: seen) l
  end.

(** [alertByFingerprint[fp]] *)
Definition by_fingerprint (fp : string) (l : list Alert) : option Alert :=
  List.find (λ a, String.eqb (a_Fingerprint a) fp) l.

(** [firingCountByApp] of the alerts that are neither suppressed nor resolved by hand. *)
Definition firing_count (l : list Alert) : gmap string Z :=
  foldl (λ m a, if (a_ManuallyResolvedAt a =? 0) && negb (a_Suppressed a)
                then let k := AppIdString (a_ApplicationId a) in <[k := default 0 (m !! k) + 1]> m else m) ∅ l.

(** What the loops over log patterns and over event groups thread: the alerts
    held in [alertByFingerprint], the counts, and [activeFingerprints]. *)
Record Tracked := { tr_alerts : list Alert; tr_firing : gmap string Z; tr_active : gset string }.
Definition tr_activate (fp : string) (tr : Tracked) : Tracked :=
  {| tr_alerts := tr_alerts tr; tr_firing := tr_firing tr; tr_active := {[fp]} ∪ tr_active tr |}.
Definition tr_store (a : Alert) (tr : Tracked) : Tracked :=
  {| tr_alerts := update_where (λ b, String.eqb (a_Fingerprint b) (a_Fingerprint a)) (λ _, a) (tr_alerts tr);
     tr_firing := tr_firing tr; tr_active := tr_active tr |}.
Definition tr_count (app : string) (tr : Tracked) : Tracked :=
  {| tr_alerts := tr_alerts tr; tr_firing := <[app := default 0 (tr_firing tr !! app) + 1]> (tr_firing tr);
     tr_active := tr_active tr |}.

(** The AI analysis an alert already has. *)
Definition ai_analysis (l : list AlertDetail) : list AlertDetail :=
  match List.find (λ d, String.eqb (ad_Name d) "AI analysis") l with Some d => [d] | None => [] end.

(** [regexp.QuoteMeta] *)
Definition is_meta (a : ascii) : bool := contains a "\.+*?()|[]{}^$".
Fixpoint QuoteMeta (s : string) : string :=
  match s with
  | EmptyString => ""
  | String a s => if is_meta a then String "\" (String a (QuoteMeta s)) else String a (QuoteMeta s)
  end.

Definition dquote : string := String (ascii_of_nat 34) "".
(** [fmt.Sprintf] of [k="v"] *)
Definition quoted (k v : string) : string := (k ++ "=" ++ dquote ++ v ++ dquote)%string.
Definition newline : string := String (ascii_of_nat 10) "".

Section alerts.
Context `{Env} `{MapOrder} `{Delivery} `{TextTemplate} `{LP : LogParser} `{!Sources}.

Abbreviation MA := (M AlertsMem).

Definition renderTemplate (tmpl : string) (data : tdata) : string :=
  if String.eqb tmpl "" then ""
  else match template_Parse tmpl with
       | inl _ => tmpl
       | inr t => match template_Execute t data with inl _ => tmpl | inr s => s end
       end.

Definition buildTemplateData (app : Application) (check : Check_) : tdata :=
  TMap [("app", TString (Name (app_Id app))); ("namespace", TString (Namespace (app_Id app)));
        ("check_title", TString (ch_Title check)); ("check_message", TString (ch_Message check));
        ("check_value", TFloat (ch_value check))].

Definition get_pending (fp : string) : MA (option Z) := m ← get_mem; mret (pendingAlerts m !! fp).
Definition put_pending (fp : string) (t : Z) : MA unit := modify_mem (set_pending (<[fp := t]>)).
Definition delete_pending (fp : string) : MA unit := modify_mem (set_pending (delete fp)).

(** The [For] gate of a firing condition without an open alert: whether the
    alert is created now. *)
Definition pending_gate (rule : AlertingRule) (fp : string) (now : Z) : MA bool :=
  if 0 <? rule_For rule then
    p ← get_pending fp;
    match p with
    | None => _ ← put_pending fp now; mret false
    | Some firstSeen =>
        if Time.Sub now firstSeen <? rule_For rule then mret false
        else _ ← delete_pending fp; mret true
    end
  else _ ← delete_pending fp; mret true.

(** [CreateAlert] and, when it succeeded, the notification. *)
Definition create_and_notify (project : Project) (app : option Application) (alert : Alert) (rule : AlertingRule)
    (notify : bool) (now : Z) : MA bool :=
  r ← CreateAlert (p_Id project) alert;
  let '(err, alert) := r in
  if failed err then mret false
  else if notify then _ ← Enqueue project (app_Category <$> app) alert rule now; mret true
  else mret true.

(** [ResolveAlert] and the notification, [notify] apart. *)
Definition resolve_and_notify (project : Project) (app : option Application) (a : Alert) (rule : AlertingRule)
    (notify : bool) (now : Z) : MA unit :=
  let a := alert_set_resolved now a in
  err ← ResolveAlert (p_Id project) (a_Id a) now;
  if failed err then mret tt
  else if notify then Enqueue project (app_Category <$> app) a rule now
  else mret tt.

Definition check_details (rule : AlertingRule) (app : Application) (check : Check_) : list AlertDetail :=
  (description_detail (renderTemplate (tpl_Description (rule_Templates rule)) (buildTemplateData app check))
   ++ if bool_decide (StringSet.Len (ch_Details check) = 0%nat) then []
      else [detail "Findings" (GoStrings.Join (StringSet.Items (ch_Details check)) newline) false])%list.

Definition evaluateCheckAlert (project : Project) (rule : AlertingRule) (app : Application) (check : Check_)
    (report : string) (now : Z) : MA unit :=
  let fingerprint := calcFingerprint (rule_Id rule) (AppIdString (app_Id app)) [] in
  let isFiring := Status.OK <? ch_Status check in
  r ← GetActiveOrSuppressedAlertByFingerprint (p_Id project) fingerprint;
  match r with
  | inl _ => mret tt
  | inr existingAlert =>
      if match existingAlert with Some a => a_Suppressed a | None => false end then
        if isFiring then mret tt
        else _ ← ClearSuppression (p_Id project) fingerprint; mret tt
      else if isFiring then
        let severity := rule_severity rule in
        let details := check_details rule app check in
        match existingAlert with
        | None =>
            create ← pending_gate rule fingerprint now;
            if create : bool then
              id ← NanoId;
              _ ← create_and_notify project (Some app)
                    (new_alert id fingerprint rule (p_Id project) (app_Id app) (app_Category app)
                       (ch_Message check) details report "" 0 false "") rule true now;
              mret tt
            else mret tt
        | Some a =>
            _ ← UpdateAlert (p_Id project) (alert_set_content severity (ch_Message check) details a);
            mret tt
        end
      else
        _ ← delete_pending fingerprint;
        match existingAlert with
        | None => mret tt
        | Some a =>
            if keeps_firing rule now a then mret tt
            else resolve_and_notify project (Some app) a rule true now
        end
  end.

(** * Log patterns *)
Definition lp_severities (src : LogPatternSource) : list Z := Severity.SeverityFromString <$> lps_Severities src.
Definition lp_min_count (src : LogPatternSource) : Z := if lps_MinCount src <=? 0 then 10 else lps_MinCount src.
Definition lp_max_alerts (src : LogPatternSource) : Z := if lps_MaxAlertsPerApp src <=? 0 then 20 else lps_MaxAlertsPerApp src.

(** A pattern of an application that is loud enough: its severity, hash, count. *)
Definition lp_message_count (minCount : Z) (lp : option LogPattern) : option (LogPattern * Pattern * f32) :=
  match lp with
  | Some l =>
      match lp_Messages l, lp_Pattern l with
      | Some _, Some p =>
          let messageCount := nan_sum (lp_Messages l) in
          if IsNaN messageCount || F32.ltb messageCount (F32.of_Z minCount) then None else Some (l, p, messageCount)
      | _, _ => None
      end
  | None => None
  end.

Definition count_text (c : f32) : string := Itoa (F32.round_i64 c).
Definition lp_summary (sev : Z) (c : f32) (w : World) : string :=
  ("new " ++ Severity.ToString sev ++ " in the logs (" ++ count_text c ++ " messages in the last "
   ++ Duration_String (Time.Sub (ctx_To (w_Ctx w)) (ctx_From (w_Ctx w))) ++ ")")%string.
Definition lp_details (rule : AlertingRule) (lp : LogPattern) : list AlertDetail :=
  (description_detail (tpl_Description (rule_Templates rule))
   ++ if String.eqb (lp_Sample lp) "" then []
      else [detail "Sample" (Utils.Truncate (lp_Sample lp) alertDetailValueMaxLen) true])%list.

Definition findBlockingAlert (ruleId fingerprint appId : string) (lp : LogPattern) (alerts : list Alert) : option Alert :=
  match by_fingerprint fingerprint alerts with
  | Some a => Some a
  | None =>
      let similar := match lp_SimilarPatternHashes lp with None => [] | ss => StringSet.Items ss end in
      let fix first (hashes : list string) : option Alert :=
        match hashes with
        | [] => None
        | sh :: hashes =>
            match by_fingerprint (calcFingerprint ruleId appId [("ph", sh)]) alerts with
            | Some a => Some a
            | None => first hashes
            end
        end in
      match first similar with
      | Some a => Some a
      | None =>
          match lp_Pattern lp with
          | None => None
          | Some p =>
              List.find (λ a, String.eqb (AppIdString (a_ApplicationId a)) appId
                  && negb (String.eqb (a_PatternWords a) "")
                  && WeakEqual p (NewPatternFromWords (a_PatternWords a))) alerts
          end
      end
  end.

(** The AI evaluation: the explanation, and whether it suppresses the alert. *)
Definition ai_outcome (r : string + Evaluation) : string * bool :=
  match r with
  | inl err => (("AI evaluation failed: " ++ err)%string, false)
  | inr ev => (ev_Explanation ev, negb (ev_ShouldAlert ev))
  end.
Definition lp_ai (src : LogPatternSource) (app : Application) (sev : Z) (lp : LogPattern) : MA (string * bool) :=
  match logPatternEvaluator with
  | Some (_, evaluate) =>
      if lps_EvaluateWithAI src then λ s, (ai_outcome (evaluate (sys_ticks s) app sev lp), tick s)
      else mret ("", false)
  | None => mret ("", false)
  end.
Definition ai_detail (explanation : string) : list AlertDetail :=
  if String.eqb explanation "" then [] else [detail "AI analysis" explanation false].

(** The body of the innermost loop, for one pattern. *)
Definition lp_step (project : Project) (rule : AlertingRule) (src : LogPatternSource) (w : World) (now : Z)
    (app : Application) (sev : Z) (tr : Tracked) (hp : string * option LogPattern) : MA Tracked :=
  let '(hash, lp) := hp in
  match lp_message_count (lp_min_count src) lp with
  | None => mret tr
  | Some (lp, pattern, messageCount) =>
      let appId := AppIdString (app_Id app) in
      let fingerprint := calcFingerprint (rule_Id rule) appId [("ph", hash)] in
      let tr := tr_activate fingerprint tr in
      match findBlockingAlert (rule_Id rule) fingerprint appId lp (tr_alerts tr) with
      | Some b =>
          let tr := tr_activate (a_Fingerprint b) tr in
          if negb (a_Suppressed b) && (a_ManuallyResolvedAt b =? 0) then
            let b := alert_set_content (a_Severity b) (lp_summary sev messageCount w)
                       (lp_details rule lp ++ ai_analysis (a_Details b))%list b in
            r ← UpdateAlert (p_Id project) b;
            mret (tr_store (snd r) tr)
          else mret tr
      | None =>
          if lp_max_alerts src <=? default 0 (tr_firing tr !! appId) then mret tr
          else
            ai ← lp_ai src app sev lp;
            let '(aiExplanation, aiSuppressed) := ai in
            id ← NanoId;
            created ← create_and_notify project (Some app)
              (new_alert id fingerprint rule (p_Id project) (app_Id app) (app_Category app)
                 (lp_summary sev messageCount w) (lp_details rule lp ++ ai_detail aiExplanation)%list
                 AuditReportLogs (PatternString pattern) 0 aiSuppressed (if aiSuppressed then "AI" else ""))
              rule (negb aiSuppressed) now;
            mret (if created : bool then tr_count appId tr else tr)
      end
  end.

(** The patterns of the selected severities, in the order they are visited. *)
Definition lp_patterns (src : LogPatternSource) (app : Application) : list (Z * (string * option LogPattern)) :=
  flat_map (λ '(sev, msgs),
    match msgs with
    | Some m => if bool_decide (sev ∈ lp_severities src) then pair sev <$> lm_Patterns m else []
    | None => []
    end) (app_LogMessages app).

(** The loop that resolves the alerts whose fingerprint was not seen. *)
Definition resolve_stale (project : Project) (rule : AlertingRule) (w : World) (now : Z) (tr : Tracked) : MA unit :=
  l ← range (tr_alerts tr);
  forM_ l (λ a,
    if bool_decide (a_Fingerprint a ∈ tr_active tr) then mret tt
    else if a_Suppressed a then mret tt
    else if keeps_firing rule now a then mret tt
    else resolve_and_notify project (GetApplication w (a_ApplicationId a)) a rule (a_ManuallyResolvedAt a =? 0) now).

Definition initLogPatternAlerts (project : Project) (rule : AlertingRule) (src : LogPatternSource)
    (apps : list Application) (now : Z) : MA unit :=
  forM_ apps (λ app,
    forM_ (lp_patterns src app) (λ '(sev, (hash, lp)),
      match lp_message_count (lp_min_count src) lp with
      | None => mret tt
      | Some (lp, pattern, messageCount) =>
          id ← NanoId;
          _ ← CreateAlert (p_Id project)
            (new_alert id (calcFingerprint (rule_Id rule) (AppIdString (app_Id app)) [("ph", hash)]) rule (p_Id project)
               (app_Id app) (app_Category app)
               ("new " ++ Severity.ToString sev ++ " in the logs (" ++ count_text messageCount ++ " messages)")%string
               (lp_details rule lp) AuditReportLogs (PatternString pattern) now false "init");
          mret tt
      end)).

Definition evaluateLogPatternAlerts (project : Project) (rule : AlertingRule) (src : LogPatternSource) (w : World)
    (now : Z) : MA unit :=
  apps ← range (w_Applications w);
  let matchingApps := where_ (Matches rule) apps in
  m ← get_mem;
  let initialized := default false (initializedProjects m !! p_Id project) in
  let ai := match logPatternEvaluator with Some (enabled, _) => enabled | None => false end in
  if negb initialized && negb ai then initLogPatternAlerts project rule src matchingApps now
  else
    _ ← modify_mem (set_initialized (<[p_Id project := true]>));
    r ← GetLatestAlertsByRule (p_Id project) (rule_Id rule);
    match r with
    | inl _ => mret tt
    | inr latestAlerts =>
        let alerts := first_by_fingerprint [] latestAlerts in
        let tr := {| tr_alerts := alerts; tr_firing := firing_count alerts; tr_active := ∅ |} in
        tr ← foldM (λ tr app,
               foldM (λ tr '(sev, hp), lp_step project rule src w now app sev tr hp) tr (lp_patterns src app))
             tr matchingApps;
        resolve_stale project rule w now tr
    end.

(** * PromQL *)
Definition buildPromQLTemplateData (labels : list (string * string)) (value : f32) : tdata :=
  TMap ((("value", TFloat value) :: ("labels", TLabels labels) :: (prod_map id TString <$> labels))).

Definition promql_details (rule : AlertingRule) (expression : string) (labels : list (string * string)) (value : f32) : list AlertDetail :=
  let description := renderTemplate (tpl_Description (rule_Templates rule)) (buildPromQLTemplateData labels value) in
  let parts := StringSet.sort_strings ((λ '(k, v), quoted k v) <$> labels) in
  let scopedQuery :=
    if bool_decide (labels = []) then expression
    else default expression (promql_AddExtraSelector expression ("{" ++ GoStrings.Join parts "," ++ "}")) in
  (description_detail description
   ++ (if bool_decide (labels = []) then []
       else [detail "Labels" (Utils.Truncate (GoStrings.Join parts newline) alertDetailValueMaxLen) true])
   ++ [detail "PromQL" expression true; detail "PromQLChart" scopedQuery false])%list.

Definition promql_summary (rule : AlertingRule) (labels : list (string * string)) (value : f32) : string :=
  let summary := renderTemplate (tpl_Summary (rule_Templates rule)) (buildPromQLTemplateData labels value) in
  if String.eqb summary "" then ("PromQL alert is firing (value: " ++ Format_g value ++ ")")%string else summary.

(** One series of the result; [activeFingerprints] is threaded. *)
Definition promql_step (project : Project) (rule : AlertingRule) (expression : string) (now : Z)
    (active : gset string) (mv : list (string * string) * option TimeSeries) : MA (gset string) :=
  let '(labels, values) := mv in
  let value := Last values in
  if IsNaN value then mret active
  else
    let fingerprint := calcFingerprint (rule_Id rule) "" labels in
    let active := {[fingerprint]} ∪ active in
    r ← GetActiveOrSuppressedAlertByFingerprint (p_Id project) fingerprint;
    match r with
    | inl _ => mret active
    | inr existingAlert =>
        if match existingAlert with Some a => a_Suppressed a | None => false end then mret active
        else
          let summary := promql_summary rule labels value in
          let details := promql_details rule expression labels value in
          match existingAlert with
          | None =>
              create ← pending_gate rule fingerprint now;
              if create : bool then
                id ← NanoId;
                _ ← create_and_notify project None
                      (new_alert id fingerprint rule (p_Id project) ApplicationIdZero "" summary details "" "" 0 false "")
                      rule true now;
                mret active
              else mret active
          | Some a =>
              _ ← UpdateAlert (p_Id project) (alert_set_content (rule_severity rule) summary details a);
              mret active
          end
    end.

Definition evaluatePromQLAlerts (project : Project) (rule : AlertingRule) (expression : string) (now : Z) : MA unit :=
  results ← (λ s, (promql_QueryRange (sys_ticks s) expression, tick s));
  match results with
  | inl _ => mret tt
  | inr results =>
      active ← foldM (promql_step project rule expression now) ∅ results;
      r ← GetLatestAlertsByRule (p_Id project) (rule_Id rule);
      match r with
      | inl _ => mret tt
      | inr alerts =>
          forM_ alerts (λ a,
            if bool_decide (a_Fingerprint a ∈ active) then mret tt
            else if a_Suppressed a then mret tt
            else
              _ ← delete_pending (a_Fingerprint a);
              if keeps_firing rule now a then mret tt
              else resolve_and_notify project None a rule (a_ManuallyResolvedAt a =? 0) now)
      end
  end.

(** * Kubernetes events *)
Record EventGroup := {
  g_key : string;
  g_appId : ApplicationId;
  g_app : option Application;
  g_reason : string;
  g_objKind : string;
  g_objNs : string;
  g_objName : string;
  g_clusterId : string;
  g_clusterName : string;
  g_sourceComponent : string;
  g_nodeLevel : bool;
  g_events : list LogEntry
}.
Definition g_add (e : LogEntry) (g : EventGroup) : EventGroup :=
  {| g_key := g_key g; g_appId := g_appId g; g_app := g_app g; g_reason := g_reason g; g_objKind := g_objKind g;
     g_objNs := g_objNs g; g_objName := g_objName g; g_clusterId := g_clusterId g; g_clusterName := g_clusterName g;
     g_sourceComponent := g_sourceComponent g; g_nodeLevel := g_nodeLevel g; g_events := (g_events g ++ [e])%list |}.

Definition kes_min_count (src : KubernetesEventsSource) : Z := if kes_MinCount src <=? 0 then 1 else kes_MinCount src.
Definition kes_max_alerts (src : KubernetesEventsSource) : Z := if kes_MaxAlertsPerApp src <=? 0 then 20 else kes_MaxAlertsPerApp src.

(** [instanceByName] and [appByComponentId]: the last pod instance visited wins. *)
Definition pod_instances (w : World) : list (Application * Instance_) :=
  flat_map (λ a, pair a <$> where_ inst_IsPod (app_Instances a)) (w_Applications w).
Definition instanceByName (w : World) (name : string) : option Application :=
  fst <$> List.find (λ p, String.eqb (inst_Name (snd p)) name) (reverse (pod_instances w)).
Definition appByComponentId (w : World) (id : ApplicationId) : option Application :=
  fst <$> List.find (λ p, bool_decide (inst_ClusterComponent (snd p) = Some id)) (reverse (pod_instances w)).

(** The group of an event, without events. *)
Definition event_group (w : World) (e : LogEntry) : EventGroup :=
  let ns := attr "object.namespace" e in
  let name := attr "object.name" e in
  let kind := attr "object.kind" e in
  let reason := attr "event.reason" e in
  let sourceComponent := attr "source.component" e in
  if String.eqb sourceComponent "node-controller" then
    {| g_key := (le_ClusterId e ++ "|" ++ reason)%string; g_appId := ApplicationIdZero; g_app := None;
       g_reason := reason; g_objKind := ""; g_objNs := ""; g_objName := "";
       g_clusterId := le_ClusterId e; g_clusterName := le_ClusterName e; g_sourceComponent := sourceComponent;
       g_nodeLevel := true; g_events := [] |}
  else
    let appId := NewApplicationId (le_ClusterId e) ns kind name in
    let app := match GetApplication w appId with
               | Some a => Some a
               | None => match instanceByName w name with Some a => Some a | None => appByComponentId w appId end
               end in
    let groupAppId := match app with Some a => app_Id a | None => appId end in
    {| g_key := (AppIdString groupAppId ++ "|" ++ reason)%string; g_appId := groupAppId; g_app := app;
       g_reason := reason; g_objKind := kind; g_objNs := ns; g_objName := name;
       g_clusterId := le_ClusterId e; g_clusterName := le_ClusterName e; g_sourceComponent := sourceComponent;
       g_nodeLevel := false; g_events := [] |}.

(** Adds an event to the group with its key, made from the first event of it. *)
Definition add_event (w : World) (groups : list EventGroup) (e : LogEntry) : list EventGroup :=
  let g := event_group w e in
  if existsb (λ h, String.eqb (g_key h) (g_key g)) groups
  then update_where (λ h, String.eqb (g_key h) (g_key g)) (g_add e) groups
  else (groups ++ [g_add e g])%list.
Definition group_events (w : World) (events : list LogEntry) : list EventGroup := foldl (add_event w) [] events.

Definition k8s_fingerprint (rule : AlertingRule) (g : EventGroup) : string :=
  calcFingerprint (rule_Id rule) (if g_nodeLevel g then "" else AppIdString (g_appId g)) [("reason", g_reason g)].

(** The names of the objects the events are about, sorted and without repetition. *)
Definition object_names (g : EventGroup) : list string :=
  StringSet.Items (Some (StringSet.Add (attr "object.name" <$> g_events g) ∅)).

Definition k8s_labels (g : EventGroup) : list string :=
  let cluster := if negb (String.eqb (g_clusterName g) "") then [quoted "cluster" (g_clusterName g)]
                 else if negb (String.eqb (g_clusterId g) "") then [quoted "cluster" (g_clusterId g)] else [] in
  let source := if String.eqb (g_sourceComponent g) "" then [] else [quoted "source" (g_sourceComponent g)] in
  let object :=
    if g_nodeLevel g then
      if bool_decide (object_names g = []) then [] else [quoted "affected" (GoStrings.Join (object_names g) ", ")]
    else match g_app g with
         | Some _ => []
         | None =>
             ((if String.eqb (g_objKind g) "" then [] else [quoted "kind" (g_objKind g)])
              ++ (if String.eqb (g_objNs g) "" then [] else [quoted "namespace" (g_objNs g)])
              ++ [quoted "name" (g_objName g)])%list
         end in
  StringSet.sort_strings (cluster ++ [quoted "reason" (g_reason g)] ++ source ++ object)%list.

(** The filters of the query that shows a group's events: name, operator, value. *)
Definition k8s_filters (g : EventGroup) : list (string * string * string) :=
  let cluster := if String.eqb (g_clusterName g) "" then [] else [("Cluster", "=", g_clusterName g)] in
  let object :=
    if g_nodeLevel g then [("source.component", "=", "node-controller")]
    else match g_app g with
         | None =>
             ((if String.eqb (g_objKind g) "" then [] else [("object.kind", "=", g_objKind g)])
              ++ (if String.eqb (g_objNs g) "" then [] else [("object.namespace", "=", g_objNs g)])
              ++ [("object.name", "=", g_objName g)])%list
         | Some _ =>
             match object_names g with
             | [] => []
             | [n] => [("object.name", "=", n)]
             | names => [("object.name", "~",
                  ("^(" ++ GoStrings.Join (StringSet.sort_strings (QuoteMeta <$> names)) "|" ++ ")$")%string)]
             end
         end in
  (cluster ++ [("event.reason", "=", g_reason g)] ++ object)%list.

Definition k8s_details (rule : AlertingRule) (g : EventGroup) : list AlertDetail :=
  (description_detail (tpl_Description (rule_Templates rule))
   ++ match g_events g with
      | e :: _ => if String.eqb (le_Body e) "" then []
                  else [detail "Event message" (Utils.Truncate (le_Body e) alertDetailValueMaxLen) true]
      | [] => []
      end
   ++ [detail "Labels" (GoStrings.Join (k8s_labels g) newline) true;
       detail "KubernetesEventsQuery" (json_filters (k8s_filters g)) false])%list.

Definition k8s_ai (src : KubernetesEventsSource) (g : EventGroup) : MA (string * bool) :=
  match kubernetesEventEvaluator, g_app g, g_events g with
  | Some evaluate, Some app, e :: _ =>
      if kes_EvaluateWithAI src then λ s, (ai_outcome (evaluate (sys_ticks s) app e), tick s) else mret ("", false)
  | _, _, _ => mret ("", false)
  end.

(** The body of the loop over the groups. *)
Definition k8s_step (project : Project) (rule : AlertingRule) (src : KubernetesEventsSource) (window : Z) (now : Z)
    (tr : Tracked) (g : EventGroup) : MA Tracked :=
  if len_go (g_events g) <? kes_min_count src then mret tr
  else
    let fingerprint := k8s_fingerprint rule g in
    let tr := tr_activate fingerprint tr in
    let summary := (g_reason g ++ " (" ++ Itoa (len_go (g_events g)) ++ " events in the last " ++ Duration_String window ++ ")")%string in
    let details := k8s_details rule g in
    match by_fingerprint fingerprint (tr_alerts tr) with
    | Some a =>
        if a_Suppressed a then mret tr
        else
          r ← UpdateAlert (p_Id project)
                (alert_set_content (rule_severity rule) summary (details ++ ai_analysis (a_Details a))%list a);
          mret (tr_store (snd r) tr)
    | None =>
        let appId := AppIdString (g_appId g) in
        if negb (g_nodeLevel g) && (kes_max_alerts src <=? default 0 (tr_firing tr !! appId)) then mret tr
        else
          ai ← k8s_ai src g;
          let '(aiExplanation, aiSuppressed) := ai in
          id ← NanoId;
          created ← create_and_notify project (g_app g)
            (new_alert id fingerprint rule (p_Id project)
               (match g_app g with Some a => app_Id a | None => ApplicationIdZero end)
               (match g_app g with Some a => app_Category a | None => ApplicationCategoryApplication end)
               summary (details ++ ai_detail aiExplanation)%list "" "" 0 aiSuppressed (if aiSuppressed then "AI" else ""))
            rule (negb aiSuppressed) now;
          mret (if (created : bool) && negb (g_nodeLevel g) then tr_count appId tr else tr)
    end.

Definition evaluateKubernetesEventsAlerts (project : Project) (rule : AlertingRule) (src : KubernetesEventsSource)
    (w : World) (from to now : Z) : MA unit :=
  clients ← (λ s, (clickhouse_events (sys_ticks s), tick s));
  match clients with
  | inl _ => mret tt
  | inr clients =>
      let events := flat_map (λ r, match r with inl _ => [] | inr evts => evts end) clients in
      apps ← range (w_Applications w);
      let groups := group_events {| w_Ctx := w_Ctx w; w_CheckConfigs := w_CheckConfigs w; w_Applications := apps |} events in
      r ← GetLatestAlertsByRule (p_Id project) (rule_Id rule);
      match r with
      | inl _ => mret tt
      | inr latestAlerts =>
          let alerts := first_by_fingerprint [] latestAlerts in
          let tr := {| tr_alerts := alerts; tr_firing := firing_count alerts; tr_active := ∅ |} in
          groups ← range groups;
          tr ← foldM (k8s_step project rule src (Time.Sub to from) now) tr groups;
          resolve_stale project rule w now tr
      end
  end.

(** * The cycle *)
Definition resolveNonMatchingAlerts (project : Project) (rule : AlertingRule) (w : World) (now : Z) : MA unit :=
  r ← GetLatestAlertsByRule (p_Id project) (rule_Id rule);
  match r with
  | inl _ => mret tt
  | inr alerts =>
      forM_ alerts (λ a,
        let app := GetApplication w (a_ApplicationId a) in
        if rule_Enabled rule && MatchesAlert rule a
           && (IsZero (a_ApplicationId a) || match app with Some _ => true | None => false end)
        then mret tt
        else resolve_and_notify project app a rule (a_ManuallyResolvedAt a =? 0) now)
  end.

(** [threshold]: thirty minutes. *)
Definition pending_threshold : Z := Duration.FromStandard (30 * 60 * 1000000000).

Definition cleanupPendingAlerts (now : Z) : MA unit :=
  modify_mem (set_pending (filter (λ p, Time.Sub now (snd p) <= pending_threshold))).

Definition evaluate_rule (project : Project) (rule : AlertingRule) (w : World) (from to now : Z) : MA unit :=
  let src := rule_Source rule in
  if String.eqb (src_Type src) AlertSourceTypeCheck then
    match src_Check src with
    | None => mret tt
    | Some checkId =>
        apps ← range (w_Applications w);
        forM_ apps (λ app,
          if Matches rule app then
            match GetCheckWithReport app checkId with
            | None => mret tt
            | Some (check, report) => evaluateCheckAlert project rule app check report now
            end
          else mret tt)
    end
  else if String.eqb (src_Type src) AlertSourceTypeLogPatterns then
    match src_LogPattern src with
    | None => mret tt
    | Some lps => evaluateLogPatternAlerts project rule lps w now
    end
  else if String.eqb (src_Type src) AlertSourceTypePromQL then
    match src_PromQL src with
    | None => mret tt
    | Some expression => if String.eqb expression "" then mret tt else evaluatePromQLAlerts project rule expression now
    end
  else if String.eqb (src_Type src) AlertSourceTypeKubernetesEvents then
    match src_KubernetesEvents src with
    | None => mret tt
    | Some kes => evaluateKubernetesEventsAlerts project rule kes w from to now
    end
  else mret tt.

(** An enabled rule whose source lacks the settings of its type: the loop goes
    on to the next rule, before [resolveNonMatchingAlerts]. *)
Definition source_missing (src : AlertSource) : bool :=
  let absent {A} (o : option A) := match o with None => true | Some _ => false end in
  if String.eqb (src_Type src) AlertSourceTypeCheck then absent (src_Check src)
  else if String.eqb (src_Type src) AlertSourceTypeLogPatterns then absent (src_LogPattern src)
  else if String.eqb (src_Type src) AlertSourceTypePromQL then
    match src_PromQL src with None => true | Some e => String.eqb e "" end
  else if String.eqb (src_Type src) AlertSourceTypeKubernetesEvents then absent (src_KubernetesEvents src)
  else false.

Definition check_rule (project : Project) (rule : AlertingRule) (w : World) (from to now : Z) : MA unit :=
  if rule_Enabled rule && source_missing (rule_Source rule) then mret tt
  else
    _ ← (if rule_Enabled rule then evaluate_rule project rule w from to now else mret tt);
    resolveNonMatchingAlerts project rule w now.

Definition Check (project : Project) (w : World) (from to : Z) : MA unit :=
  r ← GetAlertingRules (p_Id project);
  match r with
  | inl _ => mret tt
  | inr rules =>
      now ← Now;
      m ← get_mem;
      ready ← (if default false (initializedProjects m !! p_Id project) then mret (inr tt)
               else
                 h ← HasAlerts (p_Id project);
                 match h with
                 | inl err => mret (inl err)
                 | inr hasAlerts => _ ← modify_mem (set_initialized (<[p_Id project := hasAlerts]>)); mret (inr tt)
                 end);
      match (ready : string + unit) with
      | inl _ => mret tt
      | inr _ =>
          _ ← forM_ rules (λ rule, check_rule project rule w from to now);
          cleanupPendingAlerts now
      end
  end.

End alerts.
