(* ===== verification/AlertsSpec.v ===== *)
(** What the alerting state machine promises.

    The abstract view of one condition (a project and a fingerprint) is when it
    was first seen, while it waits for the rule's [For], and its open row;
    [spec_step] says how one evaluation of a check moves it, and
    [evaluateCheckAlert_refines] that the handler does just that.  Further: the
    invariant that a condition never has two open rows, what the half-hour
    cleanup does to long [For] settings, and what clearing a suppression leaves
    behind. *)

From S2P Require Export Alerts.
From Stdlib Require Import Ascii String ZArith Lia.
Local Open Scope string_scope.
Local Open Scope Z_scope.

(** * Rows *)

(** The open rows of a condition. *)
Definition open_rows (projectId fp : string) (rows : list AlertRow) : list AlertRow :=
  where_ (fingerprint_open projectId fp) rows.

(** Row ids are unique (the primary key), and a condition has at most one open
    row. *)
Record wf_alerts (rows : list AlertRow) : Prop := {
  wf_ids : NoDup (r_id <$> rows);
  wf_open : ∀ p fp, (List.length (open_rows p fp rows) ≤ 1)%nat
}.

Lemma update_where_ids c f rows :
  (∀ r, r_id (f r) = r_id r) → r_id <$> update_where c f rows = r_id <$> rows.
Proof.
  intros Hf. unfold update_where. rewrite <- list_fmap_compose. apply list_fmap_ext.
  intros i r _. cbn. by destruct (c r).
Qed.

Lemma wf_update c f rows :
  (∀ r, r_id (f r) = r_id r) →
  (∀ p fp r, r ∈ rows → c r = true → fingerprint_open p fp (f r) = true → fingerprint_open p fp r = true) →
  wf_alerts rows → wf_alerts (update_where c f rows).
Proof.
  intros Hid Ho [Hn Hopen]. split; [by rewrite update_where_ids|]. intros p fp.
  etransitivity; [|apply (Hopen p fp)]. apply where_update_le. auto.
Qed.

Lemma wf_insert rows row :
  r_id row ∉ r_id <$> rows → open_rows (r_project_id row) (r_fingerprint row) rows = [] →
  wf_alerts rows → wf_alerts (rows ++ [row])%list.
Proof.
  intros Hid Hnone [Hn Hopen]. split.
  - rewrite fmap_app. apply NoDup_app. split_and!; [done|set_solver|apply NoDup_singleton].
  - intros p fp. unfold open_rows. rewrite where_app, length_app. fold (open_rows p fp rows). cbn.
    destruct (fingerprint_open p fp row) eqn:E; cbn; [|rewrite Nat.add_0_r; apply Hopen].
    unfold fingerprint_open, in_project in E. rewrite !andb_true_iff, !String.eqb_eq in E.
    destruct E as [[<- <-] _]. by rewrite Hnone.
Qed.

Lemma same_id_row rows r r' : NoDup (r_id <$> rows) → r ∈ rows → r' ∈ rows → r_id r = r_id r' → r = r'.
Proof.
  intros Hn [i Hi]%list_elem_of_lookup [j Hj]%list_elem_of_lookup Heq.
  assert (i = j) as ->; [|congruence].
  eapply (NoDup_lookup _ _ _ _ Hn); rewrite list_lookup_fmap; [by rewrite Hi|by rewrite Hj; cbn; rewrite Heq].
Qed.

(** What [GetActiveOrSuppressedAlertByFingerprint] finds. *)
Lemma open_query_spec projectId fp rows :
  match order_by_opened_desc (where_ (fingerprint_open projectId fp) rows) with
  | [] => open_rows projectId fp rows = []
  | r :: _ => r ∈ open_rows projectId fp rows
  end.
Proof.
  unfold order_by_opened_desc, open_rows.
  pose proof (merge_sort_Permutation opened_desc (where_ (fingerprint_open projectId fp) rows)) as Hp.
  destruct (merge_sort _ _) as [|r l].
  - symmetry. by apply Permutation_nil_l.
  - rewrite <- Hp. left.
Qed.

Lemma open_query_singleton projectId fp rows r :
  open_rows projectId fp rows = [r] → order_by_opened_desc (where_ (fingerprint_open projectId fp) rows) = [r].
Proof. unfold open_rows, order_by_opened_desc. intros ->. done. Qed.

Lemma scanAlert_fields p r a :
  scanAlert p r = Some a →
  a_Id a = r_id r ∧ a_Fingerprint a = r_fingerprint r ∧ a_ResolvedAt a = r_resolved_at r
  ∧ a_UpdatedAt a = r_updated_at r ∧ a_Suppressed a = r_suppressed r ∧ a_OpenedAt a = r_opened_at r
  ∧ a_ManuallyResolvedAt a = r_manually_resolved_at r ∧ a_RuleId a = r_rule_id r.
Proof. unfold scanAlert. destruct (AppIdScan _); [|done]. by intros [= <-]. Qed.

(** Column updates the statements make. *)
Lemma open_set_state p fp resolved updated supp by_ man r :
  fingerprint_open p fp (row_set_state resolved updated supp by_ man r) =
    in_project p r && String.eqb (r_fingerprint r) fp && ((resolved =? 0) || supp).
Proof. done. Qed.
Lemma open_set_content p fp sev summary details resolved updated r :
  fingerprint_open p fp (row_set_content sev summary details resolved updated r) =
    in_project p r && String.eqb (r_fingerprint r) fp && ((resolved =? 0) || r_suppressed r).
Proof. done. Qed.

(** * The statements keep the tables well formed *)
Section statements.
Context `{Env} {Mem : Type}.

Definition wf_sys (s : Sys Mem) : Prop := wf_alerts (t_alert (sys_tables s)).

Lemma wf_update_statement c f (s : Sys Mem) :
  (∀ r, r_id (f r) = r_id r) →
  (∀ p fp r, r ∈ t_alert (sys_tables s) → c r = true → fingerprint_open p fp (f r) = true → fingerprint_open p fp r = true) →
  wf_sys s → wf_sys (snd (update (with_alert (update_where c f)) s)).
Proof.
  intros Hid Ho Hs. destruct (update _ s) as [e s'] eqn:E. apply DbFacts.update_inv in E as [_ Ht].
  unfold wf_sys. cbn. rewrite Ht. destruct (failed e); [done|]. by apply wf_update.
Qed.

Lemma wf_ResolveAlert p id now (s : Sys Mem) :
  now ≠ 0 → wf_sys s → wf_sys (snd (ResolveAlert p id now s)).
Proof.
  intros Hn. apply wf_update_statement; [done|]. intros q fp r _ _.
  rewrite open_set_state. unfold fingerprint_open, active_or_suppressed.
  replace (now =? 0) with false by lia. cbn. rewrite !andb_true_iff. intros [H1 ->]. by rewrite orb_true_r.
Qed.

Lemma wf_ClearSuppression p fp (s : Sys Mem) : wf_sys s → wf_sys (snd (ClearSuppression p fp s)).
Proof.
  apply wf_update_statement; [done|]. intros q fp' r _ _.
  rewrite open_set_state. unfold fingerprint_open, active_or_suppressed. rewrite orb_false_r, !andb_true_iff.
  intros [H1 ->]. done.
Qed.

Lemma wf_tick (s : Sys Mem) : wf_sys s → wf_sys (tick s).
Proof. done. Qed.

(** [UpdateAlert] of an alert as it was read, whatever its new content. *)
Lemma wf_UpdateAlert p r a a' (s : Sys Mem) :
  r ∈ t_alert (sys_tables s) → scanAlert p r = Some a → a_Id a' = a_Id a → a_ResolvedAt a' = a_ResolvedAt a →
  wf_sys s → wf_sys (snd (UpdateAlert p a' s)).
Proof.
  intros Hr Hscan Hid Hres Hs. apply scanAlert_fields in Hscan as (Ha & _ & Hra & _).
  unfold UpdateAlert, mbind, M_bind. cbn [Now].
  set (f := row_set_content _ _ _ _ _).
  pose proof (wf_update_statement (has_id p (a_Id a')) f (tick s)) as Hw.
  cbn [a_Id alert_set_times] in *. fold (has_id p (a_Id a')).
  destruct (update _ (tick s)) as [e s'] eqn:E. cbn. cbn in Hw. apply Hw; [done| |done].
  intros q fp r' Hr' Hc. unfold f. rewrite open_set_content. cbn [alert_set_times a_ResolvedAt].
  unfold has_id in Hc. apply andb_true_iff in Hc as [_ Hc]. apply String.eqb_eq in Hc.
  assert (r' = r) as ->.
  { apply (same_id_row (t_alert (sys_tables s))); [apply Hs|done|done|congruence]. }
  by rewrite Hres, Hra.
Qed.

(** [CreateAlert] when the condition has no open row. *)
Lemma wf_CreateAlert p a (s : Sys Mem) :
  open_rows p (a_Fingerprint a) (t_alert (sys_tables s)) = [] →
  wf_sys s → wf_sys (snd (CreateAlert p a s)).
Proof.
  intros Hnone Hs. unfold CreateAlert, mbind, M_bind. cbn [Now].
  destruct (statement _ (tick s)) as [e s'] eqn:E. cbn. apply DbFacts.statement_inv in E as [_ Ht].
  destruct e as [err|u]; unfold wf_sys; [by rewrite Ht|].
  destruct (existsb _ _) eqn:Hx; [done|]. injection Ht as _ <-. cbn.
  apply wf_insert; [|done|done]. cbn. intros (r & Hid & Hr)%list_elem_of_fmap.
  apply existsb_false_Forall in Hx. rewrite Forall_forall in Hx. specialize (Hx _ Hr). cbn in Hx.
  by rewrite Hid, String.eqb_refl in Hx.
Qed.

End statements.

(** * The handlers keep the tables well formed *)
Section handlers.
Context `{Env} `{MapOrder} `{Delivery} `{TextTemplate} `{LP : LogParser} `{!Sources}.
Abbreviation wf := (wf_sys (Mem := AlertsMem)).
Abbreviation triple := DbFacts.triple.

(** Programs that read or write the memory, the clock or the ids. *)
Lemma keep_gate (T : Tables → Prop) rule fp now :
  triple (λ s, T (sys_tables s)) (pending_gate rule fp now) (λ _ s, T (sys_tables s)).
Proof.
  intros s HT. unfold pending_gate, get_pending, put_pending, delete_pending, mbind, M_bind. cbn.
  destruct (0 <? rule_For rule); [|done]. destruct (pendingAlerts _ !! fp) as [t|]; [|done].
  by destruct (_ <? _).
Qed.

Lemma triple_NanoId (T : Tables → Prop) :
  triple (Mem := AlertsMem) (λ s, T (sys_tables s)) NanoId (λ _ s, T (sys_tables s)).
Proof. by intros s. Qed.

Lemma keep_delete_pending (T : Tables → Prop) fp :
  triple (λ s, T (sys_tables s)) (delete_pending fp) (λ _ s, T (sys_tables s)).
Proof. by intros s. Qed.

Definition query_post (p fp : string) (r : string + option Alert) (t : Tables) : Prop :=
  wf_alerts (t_alert t) ∧
  match r with
  | inr None => open_rows p fp (t_alert t) = []
  | inr (Some a) => ∃ row, row ∈ t_alert t ∧ scanAlert p row = Some a
  | inl _ => True
  end.

Lemma triple_query p fp :
  triple wf (GetActiveOrSuppressedAlertByFingerprint p fp) (λ r s, query_post p fp r (sys_tables s)).
Proof.
  intros s Hs. destruct (GetActiveOrSuppressedAlertByFingerprint p fp s) as [r s'] eqn:E.
  apply DbFacts.select_inv in E as (_ & Ht & Hr). cbn. rewrite Ht. split; [done|].
  destruct r as [e|o]; [done|]. specialize (Hr o eq_refl).
  pose proof (open_query_spec p fp (t_alert (sys_tables s))) as Hq.
  destruct (order_by_opened_desc _) as [|row l]; [by injection Hr as <-|].
  destruct (scanAlert p row) as [a|] eqn:Hscan; [|done]. injection Hr as <-.
  exists row. split; [|done]. by apply elem_of_where in Hq as [Hq _].
Qed.

Lemma wf_Enqueue project app a rule now : triple wf (Enqueue project app a rule now) (λ _, wf).
Proof.
  intros s Hs. unfold wf_sys. by rewrite (proj1 (proj2 (AlertNotifyFacts.Enqueue_frame project app a rule now s))).
Qed.

Lemma wf_create project app a rule notify now :
  triple (λ s, wf s ∧ open_rows (p_Id project) (a_Fingerprint a) (t_alert (sys_tables s)) = [])
    (create_and_notify project app a rule notify now) (λ _, wf).
Proof.
  unfold create_and_notify. eapply DbFacts.triple_bind with (R := λ _, wf).
  - intros s [Hs Hn]. by apply wf_CreateAlert.
  - intros [err a']. destruct (failed err); [by apply DbFacts.triple_ret|].
    destruct notify; [|by apply DbFacts.triple_ret].
    eapply DbFacts.triple_bind; [apply wf_Enqueue|]. intros ?. by apply DbFacts.triple_ret.
Qed.

Lemma wf_resolve project app a rule notify now :
  now ≠ 0 → triple wf (resolve_and_notify project app a rule notify now) (λ _, wf).
Proof.
  intros Hn. unfold resolve_and_notify. eapply DbFacts.triple_bind with (R := λ _, wf).
  - intros s Hs. by apply wf_ResolveAlert.
  - intros err. destruct (failed err); [by apply DbFacts.triple_ret|].
    destruct notify; [apply wf_Enqueue|by apply DbFacts.triple_ret].
Qed.

(** Refreshing an alert just read. *)
Lemma wf_refresh p fp a sev summary details :
  triple (λ s, query_post p fp (inr (Some a)) (sys_tables s))
    (UpdateAlert p (alert_set_content sev summary details a)) (λ _, wf).
Proof. intros s (Hs & row & Hrow & Hscan). by apply (wf_UpdateAlert p row a). Qed.

(** The gate, then a new alert, after a query that found nothing. *)
Lemma wf_gate_create project app rule fp now (mk : string → Alert) :
  (∀ id, a_Fingerprint (mk id) = fp) →
  triple (λ s, query_post (p_Id project) fp (inr None) (sys_tables s))
    (create ← pending_gate rule fp now;
     if create : bool then id ← NanoId; _ ← create_and_notify project app (mk id) rule true now; mret tt
     else mret tt) (λ _, wf).
Proof.
  intros Hfp. eapply DbFacts.triple_bind; [apply keep_gate|]. intros [].
  - eapply DbFacts.triple_bind; [apply triple_NanoId|]. intros id.
    eapply DbFacts.triple_bind with (R := λ _, wf); [|intros ?; by apply DbFacts.triple_ret].
    eapply DbFacts.triple_pre; [|apply wf_create]. cbn. intros s [Hs Hn]. by rewrite Hfp.
  - apply DbFacts.triple_ret. by intros s [Hs _].
Qed.

Lemma wf_evaluateCheckAlert project rule app check report now :
  now ≠ 0 → triple wf (evaluateCheckAlert project rule app check report now) (λ _, wf).
Proof.
  intros Hn. unfold evaluateCheckAlert. eapply DbFacts.triple_bind; [apply triple_query|].
  intros [err|o]; [apply DbFacts.triple_ret; by intros s [Hs _]|].
  destruct o as [a|]; [destruct (a_Suppressed a)|].
  - destruct (_ <? _); [apply DbFacts.triple_ret; by intros s [Hs _]|].
    eapply DbFacts.triple_bind with (R := λ _, wf); [|intros ?; by apply DbFacts.triple_ret].
    intros s [Hs _]. by apply wf_ClearSuppression.
  - destruct (_ <? _).
    + eapply DbFacts.triple_bind; [apply wf_refresh|]. intros ?. by apply DbFacts.triple_ret.
    + eapply DbFacts.triple_bind; [apply keep_delete_pending|]. intros ?.
      destruct (keeps_firing rule now a); [apply DbFacts.triple_ret; by intros s [Hs _]|].
      eapply DbFacts.triple_pre; [|by apply wf_resolve]. by intros s [Hs _].
  - destruct (_ <? _).
    + by apply (wf_gate_create _ (Some app)).
    + eapply DbFacts.triple_bind; [apply keep_delete_pending|]. intros ?.
      apply DbFacts.triple_ret. by intros s [Hs _].
Qed.

Lemma wf_promql_step project rule expression now active mv :
  triple wf (promql_step project rule expression now active mv) (λ _, wf).
Proof.
  destruct mv as [labels values]. unfold promql_step.
  destruct (IsNaN _); [by apply DbFacts.triple_ret|].
  eapply DbFacts.triple_bind; [apply triple_query|].
  intros [err|o]; [apply DbFacts.triple_ret; by intros s [Hs _]|].
  destruct o as [a|]; [destruct (a_Suppressed a); [apply DbFacts.triple_ret; by intros s [Hs _]|]|].
  - eapply DbFacts.triple_bind; [apply wf_refresh|]. intros ?. by apply DbFacts.triple_ret.
  - eapply DbFacts.triple_bind; [apply keep_gate|]. intros [].
    + eapply DbFacts.triple_bind; [apply triple_NanoId|]. intros id.
      eapply DbFacts.triple_bind with (R := λ _, wf); [|intros ?; by apply DbFacts.triple_ret].
      eapply DbFacts.triple_pre; [|apply wf_create]. by intros s [Hs Hnone].
    + apply DbFacts.triple_ret. by intros s [Hs _].
Qed.

Lemma wf_GetLatest p ruleId : triple wf (GetLatestAlertsByRule p ruleId) (λ _, wf).
Proof.
  intros s Hs. destruct (GetLatestAlertsByRule p ruleId s) as [r s'] eqn:E.
  apply DbFacts.select_inv in E as (_ & Ht & _). unfold wf_sys. cbn. by rewrite Ht.
Qed.

Lemma wf_evaluatePromQLAlerts project rule expression now :
  now ≠ 0 → triple wf (evaluatePromQLAlerts project rule expression now) (λ _, wf).
Proof.
  intros Hn. unfold evaluatePromQLAlerts. eapply DbFacts.triple_bind with (R := λ _, wf); [by intros s|].
  intros [err|results]; [by apply DbFacts.triple_ret|].
  eapply DbFacts.triple_bind; [apply DbFacts.triple_foldM; intros; apply wf_promql_step|]. intros active.
  eapply DbFacts.triple_bind; [apply wf_GetLatest|]. intros [err|alerts]; [by apply DbFacts.triple_ret|].
  apply DbFacts.triple_forM. intros a _. case_bool_decide; [by apply DbFacts.triple_ret|].
  destruct (a_Suppressed a); [by apply DbFacts.triple_ret|].
  eapply DbFacts.triple_bind; [apply (keep_delete_pending (λ t, wf_alerts (t_alert t)))|]. intros ?.
  destruct (keeps_firing rule now a); [by apply DbFacts.triple_ret|]. by apply wf_resolve.
Qed.

Lemma wf_resolveNonMatching project rule w now :
  now ≠ 0 → triple wf (resolveNonMatchingAlerts project rule w now) (λ _, wf).
Proof.
  intros Hn. unfold resolveNonMatchingAlerts. eapply DbFacts.triple_bind; [apply wf_GetLatest|].
  intros [err|alerts]; [by apply DbFacts.triple_ret|]. apply DbFacts.triple_forM. intros a _.
  destruct (_ && _); [by apply DbFacts.triple_ret|]. by apply wf_resolve.
Qed.

(** C2 No condition ever has two open alerts, whatever database calls fail:
    evaluating check rules and PromQL rules, and resolving the alerts a rule no
    longer matches, keep the alert table's ids unique and at most one row open
    (unresolved or suppressed) for each project and fingerprint. *)
Theorem check_rule_keeps_one_open_alert (project : Project) (rule : AlertingRule) (w : World) (from to now : Z)
    (s : Sys AlertsMem) (Hnow : now ≠ 0)
    (Htype : src_Type (rule_Source rule) = AlertSourceTypeCheck ∨ src_Type (rule_Source rule) = AlertSourceTypePromQL)
    (Hs : wf_alerts (t_alert (sys_tables s))) :
  wf_alerts (t_alert (sys_tables (snd (check_rule project rule w from to now s)))).
Proof.
  revert s Hs. change (triple wf (check_rule project rule w from to now) (λ _, wf)).
  unfold check_rule. destruct (_ && _); [by apply DbFacts.triple_ret|].
  eapply DbFacts.triple_bind with (R := λ _, wf); [|intros ?; by apply wf_resolveNonMatching].
  destruct (rule_Enabled rule); [|by apply DbFacts.triple_ret].
  unfold evaluate_rule. destruct Htype as [-> | ->]; cbn -[forM_].
  - destruct (src_Check _) as [checkId|]; [|by apply DbFacts.triple_ret].
    eapply DbFacts.triple_bind with (R := λ _, wf); [by intros ? ?|]. intros apps.
    apply DbFacts.triple_forM. intros app _. destruct (Matches rule app); [|by apply DbFacts.triple_ret].
    destruct (GetCheckWithReport app checkId) as [[check report]|]; [|by apply DbFacts.triple_ret].
    by apply wf_evaluateCheckAlert.
  - destruct (src_PromQL _) as [e|]; [|by apply DbFacts.triple_ret].
    destruct (String.eqb e ""); [by apply DbFacts.triple_ret|]. by apply wf_evaluatePromQLAlerts.
Qed.

End handlers.

(** * The abstract state machine of a condition *)

(** When the condition was first seen, and its open row. *)
Definition condition : Type := option Z * option AlertRow.

Definition cond_state (p fp : string) (s : Sys AlertsMem) : condition :=
  (pendingAlerts (sys_mem s) !! fp, head (open_rows p fp (t_alert (sys_tables s)))).

(** One evaluation: [fires] is whether the check fires, [fresh] the row of a new
    alert, [refresh] the new content of an open one, [unmute] the row whose
    suppression is cleared. *)
Definition spec_step (rule : AlertingRule) (fires : bool) (now : Z) (fresh : AlertRow) (refresh : AlertRow → AlertRow)
    (c : condition) : condition :=
  let '(pending, open) := c in
  match open with
  | Some r =>
      if r_suppressed r then
        if fires then c
        else (pending, if r_resolved_at r =? 0
                       then Some (row_set_state 0 (r_updated_at r) false "" (r_manually_resolved_at r) r) else None)
      else if fires then (pending, Some (refresh r))
      else if (0 <? rule_KeepFiringFor rule) && (Time.Sub now (r_updated_at r) <? rule_KeepFiringFor rule)
           then (None, Some r) else (None, None)
  | None =>
      if fires then
        if 0 <? rule_For rule then
          match pending with
          | None => (Some now, None)
          | Some since => if Time.Sub now since <? rule_For rule then (pending, None) else (None, Some fresh)
          end
        else (None, Some fresh)
      else (None, None)
  end.

(** An UPDATE that concerns one open row. *)
Lemma open_rows_update p fp c f rows r :
  open_rows p fp rows = [r] → c r = true →
  (∀ r', r' ∈ rows → c r' = true → r' = r) →
  open_rows p fp (update_where c f rows) = where_ (fingerprint_open p fp) [f r].
Proof.
  apply where_update_one.
Qed.

Lemma open_rows_update_other p fp p' fp' c f rows r :
  (p', fp') ≠ (p, fp) → fingerprint_open p fp r = true →
  (∀ r', r_project_id (f r') = r_project_id r' ∧ r_fingerprint (f r') = r_fingerprint r') →
  (∀ r', r' ∈ rows → c r' = true → r' = r) →
  open_rows p' fp' (update_where c f rows) = open_rows p' fp' rows.
Proof.
  intros Hne Hr Hf Hu. unfold open_rows. apply where_update_other.
  intros r' Hin Hc. rewrite (Hu r' Hin Hc). destruct (Hf r) as [Hp Hfp].
  unfold fingerprint_open, in_project in *. rewrite Hp, Hfp.
  rewrite !andb_true_iff, !String.eqb_eq in Hr. destruct Hr as [[<- <-] _].
  destruct (String.eqb (r_project_id r) p') eqn:E1, (String.eqb (r_fingerprint r) fp') eqn:E2; try done.
  apply String.eqb_eq in E1, E2. congruence.
Qed.

#[local] Arguments calcFingerprint : simpl never.

(** The [For] gate. *)
Definition gate_spec (rule : AlertingRule) (now : Z) (pending : option Z) : bool * option Z :=
  if 0 <? rule_For rule then
    match pending with
    | None => (false, Some now)
    | Some since => if Time.Sub now since <? rule_For rule then (false, pending) else (true, None)
    end
  else (true, None).

Lemma gate_run rule fp now (s : Sys AlertsMem) :
  ∃ m, pending_gate rule fp now s = (fst (gate_spec rule now (pendingAlerts (sys_mem s) !! fp)), Build_Sys m (sys_tables s) (sys_ticks s))
    ∧ pendingAlerts m !! fp = snd (gate_spec rule now (pendingAlerts (sys_mem s) !! fp))
    ∧ ∀ fp', fp' ≠ fp → pendingAlerts m !! fp' = pendingAlerts (sys_mem s) !! fp'.
Proof.
  unfold pending_gate, gate_spec, get_pending, put_pending, delete_pending, modify_mem, get_mem, mbind, M_bind.
  destruct s as [m t k]. cbn. destruct (0 <? rule_For rule).
  2:{ eexists; split; [reflexivity|]. cbn. rewrite lookup_delete_eq. split; [done|]. intros. by rewrite lookup_delete_ne. }
  destruct (pendingAlerts m !! fp) as [since|] eqn:E; cbn [sys_mem]; rewrite E; [destruct (_ <? _)|].
  - eexists; split; [reflexivity|]. done.
  - eexists; split; [reflexivity|]. cbn. rewrite lookup_delete_eq. split; [done|]. intros. by rewrite lookup_delete_ne.
  - eexists; split; [reflexivity|]. cbn. rewrite lookup_insert_eq. split; [done|]. intros. by rewrite lookup_insert_ne.
Qed.

Section refinement.
Context `{Env} `{MapOrder} `{Delivery} `{TextTemplate} `{LP : LogParser} `{!Sources}.
Context (project : Project) (rule : AlertingRule) (app : Application) (check : Check_) (report : string) (now : Z).

Let p := p_Id project.
Let fp := calcFingerprint (rule_Id rule) (AppIdString (app_Id app)) [].
Let fires := Status.OK <? ch_Status check.

(** The row of an alert opened now, under the id [id], at the clock's [t]. *)
Definition fresh_row (id : string) (t : Z) : AlertRow :=
  alert_row p (alert_set_times t t
    (new_alert id fp rule p (app_Id app) (app_Category app) (ch_Message check) (check_details rule app check)
       report "" 0 false "")).
Definition refresh_row (t : Z) (r : AlertRow) : AlertRow :=
  row_set_content (Status.ToString (rule_severity rule)) (ch_Message check) (check_details rule app check)
    (r_resolved_at r) t r.

(** The other conditions are as they were. *)
Definition others_kept (s s' : Sys AlertsMem) : Prop :=
  (∀ p' fp', (p', fp') ≠ (p, fp) → open_rows p' fp' (t_alert (sys_tables s')) = open_rows p' fp' (t_alert (sys_tables s)))
  ∧ ∀ fp', fp' ≠ fp → pendingAlerts (sys_mem s') !! fp' = pendingAlerts (sys_mem s) !! fp'.

Definition refines (s s' : Sys AlertsMem) : Prop :=
  others_kept s s' ∧
  ∃ id t, cond_state p fp s' = spec_step rule fires now (fresh_row id t) (refresh_row t) (cond_state p fp s).

Context (Hnf : ∀ k, env_fault k = None).

Lemma query_run (s : Sys AlertsMem) rows a :
  order_by_opened_desc (where_ (fingerprint_open p fp) (t_alert (sys_tables s))) = rows →
  match rows with [] => a = None | r :: _ => scanAlert p r = a ∧ a ≠ None end →
  GetActiveOrSuppressedAlertByFingerprint p fp s = (inr a, tick s).
Proof.
  intros Hr Ha. unfold GetActiveOrSuppressedAlertByFingerprint. rewrite DbFacts.select_run by done. rewrite Hr.
  destruct rows as [|r l]; [by subst|]. destruct Ha as [-> Ha]. by destruct a.
Qed.

(** ** The calls of one evaluation, when none fails *)
Definition with_rows (rows : list AlertRow) (s : Sys AlertsMem) : Prop := t_alert (sys_tables s) = rows.

Lemma create_run o a notify (s : Sys AlertsMem) :
  a_Id a ∉ r_id <$> t_alert (sys_tables s) →
  let s' := snd (create_and_notify project o a rule notify now s) in
  sys_mem s' = sys_mem s ∧
  with_rows (t_alert (sys_tables s) ++ [alert_row p (alert_set_times (env_clock (sys_ticks s)) (env_clock (sys_ticks s)) a)])%list s'.
Proof.
  intros Hid. unfold create_and_notify, CreateAlert, Now, statement, mbind, M_bind. cbn -[Enqueue]. rewrite Hnf.
  assert (existsb (λ r, String.eqb (r_id r) (a_Id a)) (t_alert (sys_tables s)) = false) as ->.
  { apply existsb_false_Forall, Forall_forall. intros r Hr. apply String.eqb_neq. intros He. apply Hid.
    apply list_elem_of_fmap. by exists r. }
  cbn -[Enqueue]. destruct notify; [|done].
  destruct (Enqueue _ _ _ _ _ _) as [u s'] eqn:E.
  match type of E with Enqueue _ ?o ?a _ _ ?s0 = _ =>
    pose proof (AlertNotifyFacts.Enqueue_frame project o a rule now s0) as Hf end.
  rewrite E in Hf. destruct Hf as (Hm & Ht & _). by split.
Qed.

Lemma resolve_run o a notify (s : Sys AlertsMem) :
  let s' := snd (resolve_and_notify project o a rule notify now s) in
  sys_mem s' = sys_mem s ∧
  with_rows (update_where (has_id p (a_Id a))
    (λ r, row_set_state now now (r_suppressed r) (r_resolved_by r) (r_manually_resolved_at r) r) (t_alert (sys_tables s))) s'.
Proof.
  unfold resolve_and_notify, ResolveAlert, mbind, M_bind. cbn -[Enqueue update]. rewrite DbFacts.update_run by done.
  cbn -[Enqueue]. destruct notify; [|done].
  match goal with |- context[snd (Enqueue _ ?o ?a _ _ ?s0)] =>
    pose proof (AlertNotifyFacts.Enqueue_frame project o a rule now s0) as (Hm & Ht & _) end.
  by rewrite Hm; unfold with_rows; rewrite Ht.
Qed.

(** ** The cases of a condition *)

Lemma open_rows_snoc p' fp' rows row :
  open_rows p' fp' (rows ++ [row])%list = (open_rows p' fp' rows ++ open_rows p' fp' [row])%list.
Proof. apply where_app. Qed.

Lemma open_fresh p' fp' id t :
  open_rows p' fp' [fresh_row id t] = if String.eqb p p' && String.eqb fp fp' then [fresh_row id t] else [].
Proof.
  unfold open_rows, where_, fresh_row, new_alert. cbn.
  unfold fingerprint_open, in_project, active_or_suppressed. cbn. by rewrite andb_true_r.
Qed.

Lemma others_pending (s s' : Sys AlertsMem) :
  t_alert (sys_tables s') = t_alert (sys_tables s) →
  (∀ fp', fp' ≠ fp → pendingAlerts (sys_mem s') !! fp' = pendingAlerts (sys_mem s) !! fp') → others_kept s s'.
Proof. intros Ht Hm. split; [by intros; rewrite Ht|done]. Qed.

(** Whatever happens to the rows, once the pending entry is dropped. *)
Lemma delete_run (s : Sys AlertsMem) :
  ∃ m, delete_pending fp s = (tt, Build_Sys m (sys_tables s) (sys_ticks s)) ∧ pendingAlerts m !! fp = None
    ∧ ∀ fp', fp' ≠ fp → pendingAlerts m !! fp' = pendingAlerts (sys_mem s) !! fp'.
Proof.
  eexists. split; [reflexivity|]. cbn. rewrite lookup_delete_eq. split; [done|].
  intros. by rewrite lookup_delete_ne.
Qed.

(** No open row. *)
Lemma refines_closed (s : Sys AlertsMem) :
  open_rows p fp (t_alert (sys_tables s)) = [] → (∀ k, env_nano k ∉ r_id <$> t_alert (sys_tables s)) →
  refines s (snd (evaluateCheckAlert project rule app check report now s)).
Proof.
  intros Hnone Hid. unfold evaluateCheckAlert. cbv zeta. fold p fp fires. unfold mbind at 1, M_bind at 1.
  rewrite (query_run s [] None); [|unfold order_by_opened_desc; fold (open_rows p fp (t_alert (sys_tables s))); by rewrite Hnone|done].
  cbv iota beta. destruct fires eqn:Hfires.
  2:{ destruct (delete_run (tick s)) as (m & Hrun & Hfp & Hm). rewrite (DbFacts.bind_run _ _ _ _ _ Hrun).
      split; [by apply others_pending|]. exists "", 0. unfold cond_state, spec_step. rewrite Hnone, Hfires. cbn. by rewrite Hfp, Hnone. }
  destruct (gate_run rule fp now (tick s)) as (m & Hrun & Hfp & Hm). rewrite (DbFacts.bind_run _ _ _ _ _ Hrun).
  change (sys_mem (tick s)) with (sys_mem s) in *. 
  destruct (fst (gate_spec rule now (pendingAlerts (sys_mem s) !! fp))) eqn:Hgate; cycle 1.
  { split; [by apply others_pending|]. exists "", 0. unfold cond_state, spec_step. rewrite Hnone, Hfires. cbn.
    rewrite Hfp, Hnone. revert Hgate. unfold gate_spec. repeat case_match; naive_solver. }
  set (s1 := Build_Sys m _ _). unfold mbind at 1, M_bind at 1. cbn [NanoId].
  destruct (create_run (Some app) (new_alert (env_nano (sys_ticks s1)) fp rule p (app_Id app) (app_Category app)
    (ch_Message check) (check_details rule app check) report "" 0 false "") true (tick s1)) as [Hmem Hrows]; [apply Hid|].
  fold p. unfold NanoId. unfold mbind at 1, M_bind at 1.
  destruct (create_and_notify _ _ _ _ _ _ _) as [b s2]. cbn in Hmem, Hrows. cbv iota beta.
  match type of Hrows with context [alert_row p (alert_set_times ?t _ (new_alert ?id _ _ _ _ _ _ _ _ _ _ _ _))] =>
    change (with_rows (t_alert (sys_tables s) ++ [fresh_row id t])%list s2) in Hrows; set (id0 := id) in *; set (t0 := t) in * end.
  unfold with_rows in Hrows. split.
  - split; [|intros; cbn; rewrite Hmem; by apply Hm]. intros p' fp' Hne. cbn. rewrite Hrows, open_rows_snoc, open_fresh.
    destruct (String.eqb_spec p p') as [<-|], (String.eqb_spec fp fp') as [<-|]; cbn; by rewrite ?app_nil_r.
  - exists id0, t0. unfold cond_state, spec_step. cbn [snd mret M_ret]. rewrite Hnone, Hfires, Hmem, Hrows, open_rows_snoc, Hnone, open_fresh, !String.eqb_refl.
    cbn. rewrite Hfp. revert Hgate. unfold gate_spec. repeat case_match; naive_solver.
Qed.

(** One open row. *)
Context (s : Sys AlertsMem) (r : AlertRow) (a : Alert).
Context (Hwf : wf_alerts (t_alert (sys_tables s))) (Hopen : open_rows p fp (t_alert (sys_tables s)) = [r])
  (Hscan : scanAlert p r = Some a) (Hnow : now ≠ 0).

Lemma row_in : r ∈ t_alert (sys_tables s) ∧ fingerprint_open p fp r = true.
Proof. apply elem_of_where. fold (open_rows p fp (t_alert (sys_tables s))). rewrite Hopen. left. Qed.

Lemma by_id r' : r' ∈ t_alert (sys_tables s) → has_id p (a_Id a) r' = true → r' = r.
Proof.
  intros Hr' [_ Hid]%andb_true_iff. apply String.eqb_eq in Hid.
  apply (same_id_row (t_alert (sys_tables s))); [apply Hwf|done|apply row_in|].
  by rewrite Hid, (proj1 (scanAlert_fields _ _ _ Hscan)).
Qed.

Lemma has_own_id : has_id p (a_Id a) r = true.
Proof.
  destruct row_in as [_ Ho]. unfold fingerprint_open in Ho. unfold has_id. apply andb_true_iff in Ho as [[-> _]%andb_true_iff _].
  by rewrite (proj1 (scanAlert_fields _ _ _ Hscan)), String.eqb_refl.
Qed.

(** The state after an UPDATE that concerns only the open row. *)
Lemma refines_update (f : AlertRow → AlertRow) (c : AlertRow → bool) id t (s' : Sys AlertsMem) :
  with_rows (update_where c f (t_alert (sys_tables s))) s' →
  (∀ fp', fp' ≠ fp → pendingAlerts (sys_mem s') !! fp' = pendingAlerts (sys_mem s) !! fp') →
  (∀ r', r_project_id (f r') = r_project_id r' ∧ r_fingerprint (f r') = r_fingerprint r') →
  c r = true → (∀ r', r' ∈ t_alert (sys_tables s) → c r' = true → r' = r) →
  spec_step rule fires now (fresh_row id t) (refresh_row t) (pendingAlerts (sys_mem s) !! fp, Some r) =
    (pendingAlerts (sys_mem s') !! fp, if active_or_suppressed (f r) then Some (f r) else None) →
  refines s s'.
Proof.
  intros Hrows Hm Hf Hc Hu Hspec. unfold with_rows in Hrows. split.
  - split; [|done]. intros p' fp' Hne. rewrite Hrows. apply (open_rows_update_other p fp _ _ _ _ _ r); [done|apply row_in|done|done].
  - exists id, t. assert (cond_state p fp s = (pendingAlerts (sys_mem s) !! fp, Some r)) as -> by (unfold cond_state; by rewrite Hopen).
    rewrite Hspec. unfold cond_state. rewrite Hrows, (open_rows_update p fp c f _ r Hopen Hc Hu). f_equal.
    unfold where_, fingerprint_open, in_project. cbn. destruct (Hf r) as [-> ->].
    destruct row_in as [_ Ho]. unfold fingerprint_open, in_project in Ho.
    apply andb_true_iff in Ho as [[-> ->]%andb_true_iff _]. cbn. by destruct (active_or_suppressed (f r)).
Qed.

(** ... and when the rows stay. *)
Lemma refines_same id t (s' : Sys AlertsMem) :
  with_rows (t_alert (sys_tables s)) s' →
  (∀ fp', fp' ≠ fp → pendingAlerts (sys_mem s') !! fp' = pendingAlerts (sys_mem s) !! fp') →
  spec_step rule fires now (fresh_row id t) (refresh_row t) (pendingAlerts (sys_mem s) !! fp, Some r) =
    (pendingAlerts (sys_mem s') !! fp, Some r) →
  refines s s'.
Proof.
  intros Hrows Hm Hspec. unfold with_rows in Hrows. split; [by apply others_pending|]. exists id, t.
  assert (cond_state p fp s = (pendingAlerts (sys_mem s) !! fp, Some r)) as -> by (unfold cond_state; by rewrite Hopen).
  rewrite Hspec. unfold cond_state. by rewrite Hrows, Hopen.
Qed.

Lemma refines_open : refines s (snd (evaluateCheckAlert project rule app check report now s)).
Proof.
  unfold evaluateCheckAlert. cbv zeta. fold p fp fires. unfold mbind at 1, M_bind at 1.
  rewrite (query_run s [r] (Some a)); [|by apply open_query_singleton|by rewrite Hscan]. cbv iota beta.
  destruct (scanAlert_fields _ _ _ Hscan) as (_ & _ & Hra & Hua & Hsa & _). destruct row_in as [_ Ho].
  unfold fingerprint_open in Ho. apply andb_true_iff in Ho as [Hkey Ho]. unfold active_or_suppressed in Ho.
  rewrite Hsa. destruct (r_suppressed r) eqn:Hsup; destruct fires eqn:Hfires.
  - by apply (refines_same "" 0); [| |cbn [spec_step]; rewrite Hsup, Hfires].
  - unfold ClearSuppression, mbind, M_bind. rewrite DbFacts.update_run by done.
    eapply (refines_update _ _ "" 0); [reflexivity|done|done| | |].
    + cbv beta. by rewrite Hkey, Hsup.
    + intros r' Hr' [Hk Hs']%andb_true_iff.
      assert (r' ∈ open_rows p fp (t_alert (sys_tables s))) as H'; [|rewrite Hopen in H'; set_solver].
      apply elem_of_where. split; [done|]. unfold fingerprint_open, active_or_suppressed. by rewrite Hk, Hs', orb_true_r.
    + cbn [spec_step]. rewrite Hsup, Hfires. unfold active_or_suppressed. cbn. rewrite orb_false_r.
      by destruct (Z.eqb_spec (r_resolved_at r) 0) as [->|].
  - rewrite orb_false_r in Ho. unfold UpdateAlert, Now, mbind, M_bind. rewrite DbFacts.update_run by done.
    eapply (refines_update _ _ "" (env_clock (sys_ticks (tick s)))); [reflexivity|done|done|apply has_own_id|by apply by_id|].
    cbn [spec_step]. rewrite Hsup, Hfires. unfold active_or_suppressed, refresh_row. cbn. by rewrite Hra, Ho.
  - rewrite orb_false_r in Ho. destruct (delete_run (tick s)) as (m & Hrun & Hfp & Hm). rewrite (DbFacts.bind_run _ _ _ _ _ Hrun).
    unfold keeps_firing. rewrite Hua.
    destruct ((0 <? rule_KeepFiringFor rule) && _) eqn:Hkeep.
    { apply (refines_same "" 0); [reflexivity|exact Hm|]. cbn [spec_step]. by rewrite Hsup, Hfires, Hkeep; cbn; rewrite Hfp. }
    set (s1 := Build_Sys m _ _). destruct (resolve_run (Some app) a true s1) as [Hmem Hrows].
    eapply (refines_update _ _ "" 0); [exact Hrows|rewrite Hmem; exact Hm|done|apply has_own_id|by apply by_id|].
    cbn [spec_step]. rewrite Hsup, Hfires, Hkeep, Hmem. unfold active_or_suppressed. cbn. rewrite ?Hsup, Hfp.
    by destruct (Z.eqb_spec now 0).
Qed.

End refinement.

(** * What the state machine does *)
Section promises.
Context `{Env} `{MapOrder} `{Delivery} `{TextTemplate} `{LP : LogParser} `{!Sources}.
Context (project : Project) (rule : AlertingRule) (app : Application).

Abbreviation fingerprint_of := (calcFingerprint (rule_Id rule) (AppIdString (app_Id app)) []).

(** C1 When no database call fails, one evaluation of a check moves its condition
    (when it was first seen, and its open alert) exactly as [spec_step] says:
    waiting for the rule's [For], opening, refreshing, keeping for
    [KeepFiringFor], resolving, or ending a suppression; and no other condition
    moves. *)
Theorem evaluateCheckAlert_refines (check : Check_) (report : string) (now : Z) (s : Sys AlertsMem)
    (Hnf : ∀ k, env_fault k = None) (Hnow : now ≠ 0) (Hwf : wf_alerts (t_alert (sys_tables s)))
    (Hfresh : ∀ k, env_nano k ∉ r_id <$> t_alert (sys_tables s))
    (Hscan : ∀ r, r ∈ open_rows (p_Id project) fingerprint_of (t_alert (sys_tables s)) → scanAlert (p_Id project) r ≠ None) :
  refines project rule app check report now s (snd (evaluateCheckAlert project rule app check report now s)).
Proof.
  pose proof (wf_open _ Hwf (p_Id project) fingerprint_of) as Hlen.
  destruct (open_rows (p_Id project) fingerprint_of (t_alert (sys_tables s))) as [|r [|r' l]] eqn:Hopen;
    [by apply refines_closed| |cbn in Hlen; lia].
  destruct (scanAlert (p_Id project) r) as [a|] eqn:Ha; [|destruct (Hscan r ltac:(left) Ha)].
  by apply (refines_open _ _ _ _ _ _ Hnf s r a).
Qed.

(** Clearing a suppression resurrects the alert: when a suppressed alert's
    check has recovered, the evaluation leaves the alert unresolved, no longer
    suppressed, and counted as firing. *)
Theorem cleared_suppression_is_firing (check : Check_) (report : string) (now : Z) (s : Sys AlertsMem) (r : AlertRow)
    (Hnf : ∀ k, env_fault k = None) (Hnow : now ≠ 0) (Hwf : wf_alerts (t_alert (sys_tables s)))
    (Hr : r ∈ open_rows (p_Id project) fingerprint_of (t_alert (sys_tables s)))
    (Hscan : scanAlert (p_Id project) r ≠ None) (Hok : ch_Status check ≤ Status.OK)
    (Hsup : r_suppressed r = true) (Hopen : r_resolved_at r = 0) (Hman : r_manually_resolved_at r = 0) :
  ∃ r', r_id r' = r_id r ∧ firing r' = true ∧
    open_rows (p_Id project) fingerprint_of
      (t_alert (sys_tables (snd (evaluateCheckAlert project rule app check report now s)))) = [r'].
Proof.
  pose proof (wf_open _ Hwf (p_Id project) fingerprint_of) as Hlen.
  destruct (open_rows (p_Id project) fingerprint_of (t_alert (sys_tables s))) as [|r0 [|r' l]] eqn:Hrows;
    [set_solver| |cbn in Hlen; lia].
  apply list_elem_of_singleton in Hr as <-. destruct (scanAlert (p_Id project) r) as [a|] eqn:Ha; [|done].
  destruct (refines_open project rule app check report now Hnf s r a Hwf Hrows Ha Hnow) as [_ (id & t & Hc)].
  pose proof (wf_evaluateCheckAlert project rule app check report now Hnow s Hwf) as Hwf'.
  unfold cond_state in Hc. rewrite Hrows in Hc. cbn [head spec_step] in Hc. rewrite Hsup, Hopen in Hc.
  replace (Status.OK <? ch_Status check) with false in Hc by lia. injection Hc as _ Hc.
  pose proof (wf_open _ Hwf' (p_Id project) fingerprint_of) as Hlen'.
  destruct (open_rows _ _ (t_alert (sys_tables (snd _)))) as [|r1 [|r2 l]]; [done| |cbn in Hlen'; lia].
  injection Hc as ->. eexists. split; [|split; [|reflexivity]]; [done|]. unfold firing. cbn. by rewrite Hman.
Qed.

(** ** The half-hour cleanup *)

Lemma bind_snd {A B} (m : M AlertsMem A) (f : M AlertsMem B) s : snd ((_ ← m; f) s) = snd (f (snd (m s))).
Proof. unfold mbind, M_bind. by destruct (m s). Qed.

(** Evaluations at the given times, each followed by the cleanup. *)
Definition cycles (report : string) (l : list (Z * Check_)) : M AlertsMem unit :=
  forM_ l (λ '(now, check), _ ← evaluateCheckAlert project rule app check report now; cleanupPendingAlerts now).

(** Less than [gap] seconds between two evaluations. *)
Fixpoint spaced (gap last : Z) (l : list (Z * Check_)) : Prop :=
  match l with
  | [] => True
  | (now, _) :: l => last ≤ now < last + gap ∧ now < 2 ^ 62 ∧ spaced gap now l
  end.

Definition waiting (last : Z) (s : Sys AlertsMem) : Prop :=
  match pendingAlerts (sys_mem s) !! fingerprint_of with
  | None => True
  | Some since => 0 ≤ since ≤ last ∧ last - since ≤ pending_threshold
  end.

Lemma sub64_small a b : 0 ≤ a < 2 ^ 62 → 0 ≤ b < 2 ^ 62 → Time.Sub a b = a - b.
Proof. intros. unfold Time.Sub, sub64. apply wrap64_id. unfold in_i64, i64_min, i64_max. lia. Qed.

Lemma cleanup_waits now last (s : Sys AlertsMem) :
  0 ≤ last → last ≤ now → now < 2 ^ 62 → waiting last s →
  let s' := snd (cleanupPendingAlerts now s) in sys_tables s' = sys_tables s ∧ waiting now s'.
Proof.
  intros Hlast Hnow Hmax Hw. split; [done|]. unfold waiting in *. cbn.
  destruct (filter _ _ !! _) as [since|] eqn:E; [|done].
  apply map_lookup_filter_Some in E as [E Hle]. rewrite E in Hw. cbn in Hle. rewrite sub64_small in Hle; lia.
Qed.

Definition kept (last now : Z) (s s' : Sys AlertsMem) : Prop :=
  sys_tables s' = sys_tables s ∧ ∃ last', last ≤ last' ≤ now ∧ waiting last' s'.

Lemma evaluation_waits report check now last (s : Sys AlertsMem) :
  0 ≤ last → last ≤ now < last + (rule_For rule - pending_threshold) → now < 2 ^ 62 →
  open_rows (p_Id project) fingerprint_of (t_alert (sys_tables s)) = [] → waiting last s →
  kept last now s (snd (evaluateCheckAlert project rule app check report now s)).
Proof.
  intros Hlast Hnow Hmax Hnone Hw. unfold evaluateCheckAlert. cbv zeta. unfold mbind at 1, M_bind at 1.
  destruct (GetActiveOrSuppressedAlertByFingerprint _ _ s) as [q s1] eqn:Hq.
  apply DbFacts.select_inv in Hq as (Hm1 & Ht1 & Hq). unfold waiting in Hw. rewrite <- Hm1 in Hw.
  destruct q as [err|o]; [split; [done|]; exists last; split; [lia|done]|].
  specialize (Hq o eq_refl). unfold open_rows in Hnone. unfold order_by_opened_desc in Hq. rewrite Hnone in Hq.
  injection Hq as <-. change pending_threshold with 1800 in *. destruct (Status.OK <? ch_Status check).
  - destruct (gate_run rule fingerprint_of now s1) as (m & Hrun & Hfp & _). rewrite (DbFacts.bind_run _ _ _ _ _ Hrun).
    unfold gate_spec in Hfp |- *. replace (0 <? rule_For rule) with true in * by lia.
    destruct (pendingAlerts (sys_mem s1) !! fingerprint_of) as [since|] eqn:E.
    + rewrite sub64_small in * by lia. replace (now - since <? rule_For rule) with true in * by lia.
      split; [done|]. exists last. split; [lia|]. unfold waiting. cbn. rewrite Hfp. cbn.
      change pending_threshold with 1800. lia.
    + split; [done|]. exists now. split; [lia|]. unfold waiting. cbn. rewrite Hfp. cbn.
      change pending_threshold with 1800. lia.
  - destruct (delete_run rule app s1) as (m & Hrun & Hfp & _). rewrite (DbFacts.bind_run _ _ _ _ _ Hrun).
    split; [done|]. exists now. split; [lia|]. unfold waiting. cbn. by rewrite Hfp.
Qed.

(** A [For] longer than half an hour never fires: however long a check fails,
    as long as it is evaluated more often than every [For - 30min], the cleanup
    drops the time it was first seen before [For] has passed, and no table ever
    changes. *)
Theorem long_For_never_fires (report : string) (l : list (Z * Check_)) (last : Z) (s : Sys AlertsMem)
    (Hlast : 0 ≤ last) (Hspaced : spaced (rule_For rule - pending_threshold) last l)
    (Hnone : open_rows (p_Id project) fingerprint_of (t_alert (sys_tables s)) = []) (Hw : waiting last s) :
  sys_tables (snd (cycles report l s)) = sys_tables s.
Proof.
  revert last s Hlast Hspaced Hnone Hw. induction l as [|[now check] l IH]; intros last s Hlast Hspaced Hnone Hw; [done|].
  destruct Hspaced as (Hnow & Hmax & Hspaced). unfold cycles. cbn [forM_]. rewrite !bind_snd.
  destruct (evaluation_waits report check now last s Hlast Hnow Hmax Hnone Hw) as (Ht & last' & Hl & Hw').
  destruct (cleanup_waits now last' (snd (evaluateCheckAlert project rule app check report now s))) as [Ht' Hw''];
    [lia|lia|done|done|].
  etransitivity; [apply (IH now); [lia|done| |done]|]; by rewrite Ht', Ht.
Qed.

End promises.

(** * Kubernetes events *)
Lemma append_length (a b : string) : String.length (a ++ b)%string = (String.length a + String.length b)%nat.
Proof. induction a as [|c a IH]; [done|]. exact (f_equal S IH). Qed.

Lemma append_cancel_r (a b s : string) : (a ++ s)%string = (b ++ s)%string → a = b.
Proof.
  intros He. assert (Hl : String.length a = String.length b).
  { apply (f_equal String.length) in He. rewrite !append_length in He. lia. }
  revert b Hl He. induction a as [|c a IH]; intros [|d b]; cbn; [done|done|done|].
  intros [= Hl] [= -> He]. f_equal. by apply IH.
Qed.

(** Node events of two clusters are two groups under one fingerprint: the
    group key holds the cluster, the fingerprint of the group's alert only the
    rule and the reason, so that the loop, which looks for an open alert by
    fingerprint among those it read before it, opens an alert for each. *)
Theorem node_events_of_two_clusters_collide `{LP : LogParser} (w : World) (rule : AlertingRule) (e1 e2 : LogEntry)
    (H1 : attr "source.component" e1 = "node-controller") (H2 : attr "source.component" e2 = "node-controller")
    (Hreason : attr "event.reason" e1 = attr "event.reason" e2) (Hcluster : le_ClusterId e1 ≠ le_ClusterId e2) :
  ∃ g1 g2, group_events w [e1; e2] = [g1; g2] ∧ g_key g1 ≠ g_key g2 ∧ k8s_fingerprint rule g1 = k8s_fingerprint rule g2.
Proof.
  unfold group_events. cbn -[event_group]. unfold add_event. cbn -[event_group].
  assert (Hkey : String.eqb (g_key (event_group w e1)) (g_key (event_group w e2)) = false).
  { apply String.eqb_neq. unfold event_group. rewrite H1, H2. cbn. rewrite Hreason. by intros ?%append_cancel_r. }
  cbn -[event_group]. change (g_key (g_add e1 (event_group w e1))) with (g_key (event_group w e1)). rewrite Hkey. cbn -[event_group].
  do 2 eexists. split; [done|]. split; [by apply String.eqb_neq|].
  unfold k8s_fingerprint, event_group. rewrite H1, H2. cbn. by rewrite Hreason.
Qed.

(** * Concrete runs *)
Module AlertsRuns.

#[local] Instance run_env : Env := steady_env 1000.
#[local] Instance run_order : MapOrder := {| map_order _ _ l := l; map_order_perm _ _ l := reflexivity l |}.
#[local] Instance run_delivery : Delivery := AlertNotifyFacts.refusing_delivery.
#[local] Instance run_template : TextTemplate :=
  {| Template := string; template_Parse s := inr s; template_Execute t _ := inr t |}.
#[local] Instance run_parser : LogParser :=
  {| Pattern := string; PatternString s := s; WeakEqual := String.eqb; NewPatternFromWords s := s |}.
#[local] Instance run_sources : Sources :=
  {| logPatternEvaluator := None; kubernetesEventEvaluator := None; promql_QueryRange _ _ := inr [];
     promql_AddExtraSelector e _ := Some e; clickhouse_events _ := inr []; json_filters _ := "";
     Format_g _ := ""; Duration_String _ := "" |}.

Definition run_rule (for_ : Z) : AlertingRule :=
  {| rule_Id := "r"; rule_ProjectId := "p"; rule_Name := "rule"; rule_Source := rule_Source AlertNotifyFacts.witness_rule;
     rule_Selector := rule_Selector AlertNotifyFacts.witness_rule; rule_Severity := Status.WARNING; rule_For := for_;
     rule_KeepFiringFor := 0; rule_Templates := {| tpl_Summary := ""; tpl_Description := "" |};
     rule_NotificationCategory := ""; rule_Enabled := true; rule_Readonly := false; rule_Builtin := false;
     rule_CreatedAt := 0; rule_UpdatedAt := 0 |}.
Definition run_check (status : Z) : Check_ :=
  {| ch_Id := "CPUNode"; ch_Title := "CPU"; ch_Status := status; ch_Message := "m"; ch_Threshold := F32.of_Z 0; ch_Unit := "";
     ch_Details := None; ch_typ := CheckTypeValueBased; ch_messageTemplate := ""; ch_items := StringSet.NewStringSet [];
     ch_count := 0; ch_value := F32.of_Z 0; ch_fired := true |}.
Definition run_app : Application :=
  {| app_Id := NewApplicationId "" "ns" "Deployment" "app"; app_Category := "application"; app_Instances := [];
     app_LogMessages := []; app_Reports := []; app_AvailabilitySLIs := []; app_LatencySLIs := []; app_Deployments := []; app_Annotations := []; app_TrafficStats := no_traffic; app_DNSRequests := [];
     app_DNSRequestsHistogram := []; app_InboundRequestsCount := []; app_InboundRequestsHistogram := [] |}.
Definition run_project : Project := AlertNotifyFacts.webhook_project.
Definition start (rows : list AlertRow) : Sys AlertsMem :=
  Build_Sys {| pendingAlerts := ∅; initializedProjects := ∅ |} (with_alert (λ _, rows) no_tables) 0.

Definition run_world (check : Check_) : World :=
  {| w_Ctx := NewContext 0 900 30; w_CheckConfigs := [];
     w_Applications :=
       [{| app_Id := app_Id run_app; app_Category := app_Category run_app; app_Instances := []; app_LogMessages := [];
           app_Reports := [{| rep_Name := "CPU"; rep_Status := ch_Status check; rep_Checks := [check] |}]; app_AvailabilitySLIs := []; app_LatencySLIs := []; app_Deployments := []; app_Annotations := []; app_TrafficStats := no_traffic; app_DNSRequests := [];
     app_DNSRequestsHistogram := []; app_InboundRequestsCount := []; app_InboundRequestsHistogram := [] |}] |}.

Lemma wf_no_rows : wf_alerts [].
Proof. split; [apply NoDup_nil_2|intros; cbn; lia]. Qed.

Lemma check_rule_keeps_one_open_alert_witness :
  let s' := snd (check_rule run_project (run_rule 0) (run_world (run_check Status.WARNING)) 0 900 1000 (start [])) in
  wf_alerts (t_alert (sys_tables s')) ∧ List.length (t_alert (sys_tables s')) = 1%nat.
Proof.
  split; [|vm_compute; reflexivity].
  exact (check_rule_keeps_one_open_alert run_project (run_rule 0) (run_world (run_check Status.WARNING)) 0 900 1000 (start [])
    ltac:(discriminate) (or_introl eq_refl) wf_no_rows).
Defined.

Lemma evaluateCheckAlert_refines_witness :
  let s' := snd (evaluateCheckAlert run_project (run_rule 0) run_app (run_check Status.WARNING) "CPU" 1000 (start [])) in
  refines run_project (run_rule 0) run_app (run_check Status.WARNING) "CPU" 1000 (start []) s'
  ∧ r_severity <$> t_alert (sys_tables s') = ["warning"].
Proof.
  split; [|vm_compute; reflexivity].
  apply (evaluateCheckAlert_refines run_project (run_rule 0) run_app (run_check Status.WARNING) "CPU" 1000 (start []));
    [done|done|apply wf_no_rows|intros k; apply not_elem_of_nil|intros r Hr; by apply not_elem_of_nil in Hr].
Defined.

(** A suppressed alert of the check. *)
Definition suppressed_row : AlertRow :=
  row_set_state 0 900 true "user" 0
    (fresh_row run_project (run_rule 0) run_app (run_check Status.WARNING) "CPU" "id" 900).

Lemma wf_suppressed : wf_alerts [suppressed_row].
Proof.
  split; [apply NoDup_singleton|]. intros p fp. unfold open_rows, where_. cbn -[fingerprint_open suppressed_row].
  destruct (fingerprint_open _ _ _); cbn; lia.
Qed.

Lemma cleared_suppression_is_firing_witness :
  ∃ r', r_id r' = "id" ∧ firing r' = true ∧
    open_rows "p" (calcFingerprint "r" (AppIdString (app_Id run_app)) [])
      (t_alert (sys_tables (snd (evaluateCheckAlert run_project (run_rule 0) run_app (run_check Status.OK) "CPU" 1000
         (start [suppressed_row]))))) = [r'].
Proof.
  apply (cleared_suppression_is_firing run_project (run_rule 0) run_app (run_check Status.OK) "CPU" 1000 (start [suppressed_row])
    suppressed_row); [done|done|apply wf_suppressed| |vm_compute; discriminate|vm_compute; discriminate| | |];
    try (vm_compute; reflexivity).
  assert (open_rows (p_Id run_project) (calcFingerprint (rule_Id (run_rule 0)) (AppIdString (app_Id run_app)) [])
    (t_alert (sys_tables (start [suppressed_row]))) = [suppressed_row]) as -> by (vm_compute; reflexivity). left.
Defined.

(** Two hours of failing, evaluated every ten minutes, under a [For] of one hour. *)
Definition two_hours : list (Z * Check_) := (λ n : nat, (1000 + 600 * Z.of_nat n, run_check Status.WARNING)) <$> seq 0 13.

Lemma long_For_never_fires_witness :
  sys_tables (snd (cycles run_project (run_rule 3600) run_app "CPU" two_hours (start []))) = no_tables
  ∧ List.length (t_alert (sys_tables (snd (cycles run_project (run_rule 1500) run_app "CPU" two_hours (start []))))) = 1%nat.
Proof.
  split; [|vm_compute; reflexivity].
  apply (long_For_never_fires run_project (run_rule 3600) run_app "CPU" two_hours 1000 (start [])); [done| |reflexivity|].
  - cbn. change pending_threshold with 1800. lia.
  - unfold waiting. cbn. by rewrite lookup_empty.
Defined.

(** A node of each of two clusters is not ready. *)
Definition node_event (cluster : string) : LogEntry :=
  {| le_Body := "not ready"; le_ClusterId := cluster; le_ClusterName := cluster;
     le_LogAttributes := [("source.component", "node-controller"); ("event.reason", "NodeNotReady"); ("object.name", "n")] |}.
Definition two_clusters : Sources :=
  {| logPatternEvaluator := None; kubernetesEventEvaluator := None; promql_QueryRange _ _ := inr [];
     promql_AddExtraSelector e _ := Some e; clickhouse_events _ := inr [inr [node_event "c1"; node_event "c2"]];
     json_filters _ := ""; Format_g _ := ""; Duration_String _ := "" |}.

Lemma node_events_of_two_clusters_collide_witness :
  (∃ g1 g2, group_events (run_world (run_check 1)) [node_event "c1"; node_event "c2"] = [g1; g2]
     ∧ g_key g1 ≠ g_key g2 ∧ k8s_fingerprint (run_rule 0) g1 = k8s_fingerprint (run_rule 0) g2)
  ∧ List.length (open_rows "p" (calcFingerprint "r" "" [("reason", "NodeNotReady")])
      (t_alert (sys_tables (snd (@evaluateKubernetesEventsAlerts _ _ _ _ two_clusters run_project (run_rule 0)
         {| kes_MinCount := 1; kes_MaxAlertsPerApp := 0; kes_EvaluateWithAI := false |}
         (run_world (run_check 1)) 0 900 1000 (start [])))))) = 2%nat.
Proof.
  split; [|vm_compute; reflexivity].
  apply (node_events_of_two_clusters_collide (run_world (run_check 1)) (run_rule 0) (node_event "c1") (node_event "c2"));
    [reflexivity|reflexivity|reflexivity|discriminate].
Defined.

End AlertsRuns.
