(* ===== verification/BuiltinRules.v ===== *)
(** The built-in alerting rules of model/alerting_rule.go, and their
    installation in a project ([InitBuiltinAlertingRules] of db/alert.go). *)

From S2P Require Export Checks Alerts.
From Stdlib Require Import Ascii String ZArith Lia.
Local Open Scope string_scope.
Local Open Scope Z_scope.

Definition check_source (checkId : string) : AlertSource :=
  {| src_Type := AlertSourceTypeCheck; src_Check := Some checkId; src_LogPattern := None; src_PromQL := None; src_KubernetesEvents := None |}.

(** What the literals share: every application, enabled, built in. *)
Definition builtin_rule (id name : string) (source : AlertSource) (severity for_ keepFiringFor : Z) (description : string) : AlertingRule :=
  {| rule_Id := id; rule_ProjectId := ""; rule_Name := name; rule_Source := source;
     rule_Selector := {| sel_Type := AppSelectorTypeAll; sel_Categories := []; sel_ApplicationIdPatterns := [] |};
     rule_Severity := severity; rule_For := for_; rule_KeepFiringFor := keepFiringFor;
     rule_Templates := {| tpl_Summary := ""; tpl_Description := description |}; rule_NotificationCategory := "";
     rule_Enabled := true; rule_Readonly := false; rule_Builtin := true; rule_CreatedAt := 0; rule_UpdatedAt := 0 |}.

(** The rules in the order of the source, in groups. *)
Definition workload_rules : list AlertingRule := [
  builtin_rule "storage-space" "Low disk space"
    (check_source "StorageSpace")
    Status.WARNING (5 * Time.Minute) (5 * Time.Minute)
    "Disk space is running low. If the volume fills up completely, the application may fail to write data, causing errors and potential data loss.";
  builtin_rule "memory-oom" "Out of memory kills"
    (check_source "MemoryOOM")
    Status.WARNING 0 0
    "Containers are being terminated by the kernel due to memory limits. This can cause request failures and temporary service unavailability.";
  builtin_rule "memory-pressure" "Memory pressure"
    (check_source "MemoryPressure")
    Status.WARNING (5 * Time.Minute) (5 * Time.Minute)
    "High memory stall time indicates the application is waiting for memory operations, leading to increased latency and degraded performance.";
  builtin_rule "memory-leak" "Memory leak"
    (check_source "MemoryLeakPercent")
    Status.WARNING (15 * Time.Minute) (15 * Time.Minute)
    "Memory usage is growing steadily, likely indicating a memory leak. Without intervention, the container will eventually be OOM-killed.";
  builtin_rule "cpu-limit" "Container CPU utilization"
    (check_source "CPUContainer")
    Status.WARNING (5 * Time.Minute) (5 * Time.Minute)
    "Application is being throttled due to CPU limits. This can cause increased response times and request timeouts.";
  builtin_rule "instance-availability" "Instance availability"
    (check_source "InstanceAvailability")
    Status.WARNING (2 * Time.Minute) (5 * Time.Minute)
    "Some application instances are unavailable. This reduces capacity and may affect service availability.";
  builtin_rule "instance-restarts" "Instance restarts"
    (check_source "InstanceRestarts")
    Status.WARNING 0 0
    "Application instances are restarting frequently. This may indicate crashes, health check failures, or configuration issues.";
  builtin_rule "network-connectivity" "Network connectivity"
    (check_source "NetworkConnectivity")
    Status.WARNING (2 * Time.Minute) (5 * Time.Minute)
    "Network connectivity issues detected. This may cause failed requests to upstream services."].
Definition postgres_rules : list AlertingRule := [
  builtin_rule "redis-availability" "Redis availability"
    (check_source "RedisAvailability")
    Status.WARNING (2 * Time.Minute) (5 * Time.Minute)
    "Some Redis instances are unavailable. This may cause degraded performance or failures for dependent applications.";
  builtin_rule "postgres-availability" "Postgres availability"
    (check_source "PostgresAvailability")
    Status.WARNING (2 * Time.Minute) (5 * Time.Minute)
    "Some PostgreSQL instances are unavailable. This may cause failures for dependent applications.";
  builtin_rule "postgres-replication-lag" "Postgres replication lag"
    (check_source "PostgresReplicationLag")
    Status.WARNING (2 * Time.Minute) (5 * Time.Minute)
    "PostgreSQL replica is falling behind the primary. Read queries on replicas may return stale data.";
  builtin_rule "postgres-latency" "Postgres latency"
    (check_source "PostgresLatency")
    Status.WARNING (5 * Time.Minute) (5 * Time.Minute)
    "PostgreSQL query latency is elevated. This may cause slow response times for dependent applications.";
  builtin_rule "postgres-connections" "Postgres connections"
    (check_source "PostgresConnections")
    Status.WARNING (5 * Time.Minute) (5 * Time.Minute)
    "PostgreSQL connection pool is nearing capacity. New connections may be rejected.";
  builtin_rule "postgres-checkpoints" "Postgres checkpoints"
    (check_source "PostgresCheckpoint")
    Status.WARNING (5 * Time.Minute) (5 * Time.Minute)
    "PostgreSQL is not completing checkpoints on schedule. The checkpointer may be stuck, risking a long crash recovery.";
  builtin_rule "postgres-wal-archiving" "Postgres WAL archiving"
    (check_source "PostgresWalArchiving")
    Status.WARNING (5 * Time.Minute) (5 * Time.Minute)
    "PostgreSQL is failing to archive WAL. WAL files cannot be recycled and will accumulate until the disk fills.";
  builtin_rule "postgres-wraparound" "Postgres transaction ID wraparound"
    (check_source "PostgresWraparound")
    Status.CRITICAL (5 * Time.Minute) (5 * Time.Minute)
    "PostgreSQL is approaching transaction ID wraparound. If the age reaches the limit the database will stop accepting writes. Vacuum freezing is likely blocked by a held xmin horizon (a replication slot, long-running or prepared transaction).";
  builtin_rule "postgres-bloat" "Postgres bloat"
    (check_source "PostgresBloat")
    Status.WARNING (10 * Time.Minute) (5 * Time.Minute)
    "A large share of a PostgreSQL database is estimated to be wasted space (bloat). Reclaim it with pg_repack (online) or VACUUM FULL/REINDEX."].
Definition redis_mongodb_rules : list AlertingRule := [
  builtin_rule "postgres-autovacuum" "Postgres autovacuum"
    (check_source "PostgresAutovacuum")
    Status.WARNING (10 * Time.Minute) (5 * Time.Minute)
    "Dead rows are accumulating in a PostgreSQL database faster than autovacuum can reclaim them, risking bloat and degraded performance. Check for snapshot-pinning transactions/slots and autovacuum tuning.";
  builtin_rule "postgres-stale-statistics" "Postgres stale statistics"
    (check_source "PostgresStaleStatistics")
    Status.WARNING (10 * Time.Minute) (5 * Time.Minute)
    "A large table has changed far past its autoanalyze threshold, so the query planner is working from stale row estimates and may pick bad plans (like a sequential scan instead of an index). Run ANALYZE and check why autoanalyze fell behind.";
  builtin_rule "postgres-backups" "Postgres backups"
    (check_source "PostgresBackups")
    Status.WARNING (10 * Time.Minute) (5 * Time.Minute)
    "PostgreSQL backups are stale or failing: either no successful backup completed within the expected window, the most recent backup failed, or continuous WAL archiving has stopped. Without healthy backups and archiving, point-in-time recovery is not possible. Check the backup target and the database logs.";
  builtin_rule "redis-latency" "Redis latency"
    (check_source "RedisLatency")
    Status.WARNING (5 * Time.Minute) (5 * Time.Minute)
    "Redis latency is elevated. This may cause slow response times for dependent applications.";
  builtin_rule "mongodb-availability" "MongoDB availability"
    (check_source "MongodbAvailability")
    Status.WARNING (2 * Time.Minute) (5 * Time.Minute)
    "Some MongoDB instances are unavailable. This may cause failures for dependent applications.";
  builtin_rule "mongodb-replication-lag" "MongoDB replication lag"
    (check_source "MongodbReplicationLag")
    Status.WARNING (2 * Time.Minute) (5 * Time.Minute)
    "MongoDB replica is falling behind the primary. Read queries on secondaries may return stale data.";
  builtin_rule "mongodb-latency" "MongoDB latency"
    (check_source "MongodbLatency")
    Status.WARNING (5 * Time.Minute) (5 * Time.Minute)
    "MongoDB operation latency is elevated. This may cause slow response times for dependent applications.";
  builtin_rule "mongodb-oplog-window" "MongoDB oplog window"
    (check_source "MongodbOplogWindow")
    Status.WARNING (5 * Time.Minute) (5 * Time.Minute)
    "The MongoDB oplog window is too small. Any member that falls behind or restarts for longer than the window will require a full initial sync. Consider increasing the oplog size."].
Definition mongodb_mysql_rules : list AlertingRule := [
  builtin_rule "mongodb-connections" "MongoDB connections"
    (check_source "MongodbConnections")
    Status.WARNING (5 * Time.Minute) (5 * Time.Minute)
    "A MongoDB instance is approaching its connection limit. New connections will be rejected once the limit is reached. Check client connection pooling.";
  builtin_rule "mongodb-saturation" "MongoDB saturation"
    (check_source "MongodbSaturation")
    Status.WARNING (5 * Time.Minute) (5 * Time.Minute)
    "A MongoDB instance is saturated and operations are queuing. The check details say why: either it is out of WiredTiger tickets (a storage bottleneck - slow disk, cache pressure, or too many concurrent operations), or operations are blocked on a lock held by a backup (fsyncLock), a long DDL, or a long transaction.";
  builtin_rule "mongodb-fragmentation" "MongoDB storage fragmentation"
    (check_source "MongodbFragmentation")
    Status.WARNING (10 * Time.Minute) (5 * Time.Minute)
    "A large share of the storage allocated for a MongoDB collection is reclaimable free space left by deleted documents. Run compact (rolling, secondaries first) to reclaim it.";
  builtin_rule "mongodb-backups" "MongoDB backups"
    (check_source "MongodbBackups")
    Status.WARNING (10 * Time.Minute) (5 * Time.Minute)
    "MongoDB backups are stale or failing: either no successful backup completed within the expected window, the most recent backup failed, or the scheduled backup is overdue. Check the backup storage and the percona-backup-mongodb logs.";
  builtin_rule "mysql-availability" "MySQL availability"
    (check_source "MysqlAvailability")
    Status.WARNING (2 * Time.Minute) (5 * Time.Minute)
    "Some MySQL instances are unavailable. This may cause failures for dependent applications.";
  builtin_rule "mysql-replication-lag" "MySQL replication lag"
    (check_source "MysqlReplicationLag")
    Status.WARNING (2 * Time.Minute) (5 * Time.Minute)
    "MySQL replica is falling behind the primary. Read queries on replicas may return stale data.";
  builtin_rule "mysql-connections" "MySQL connections"
    (check_source "MysqlConnections")
    Status.WARNING (5 * Time.Minute) (5 * Time.Minute)
    "MySQL connection pool is nearing capacity. New connections may be rejected.";
  builtin_rule "memcached-availability" "Memcached availability"
    (check_source "MemcachedAvailability")
    Status.WARNING (2 * Time.Minute) (5 * Time.Minute)
    "Some Memcached instances are unavailable. This may cause degraded performance for dependent applications."].
Definition network_runtime_rules : list AlertingRule := [
  builtin_rule "storage-io-load" "Storage I/O load"
    (check_source "StorageIOLoad")
    Status.WARNING (5 * Time.Minute) (5 * Time.Minute)
    "Storage I/O load is high. This may cause slow read/write operations and degraded application performance.";
  builtin_rule "network-rtt" "Network RTT (in-cluster)"
    (check_source "NetworkRTT")
    Status.WARNING (5 * Time.Minute) (5 * Time.Minute)
    "Network round-trip time between services within the cluster is elevated.";
  builtin_rule "network-rtt-external" "Network RTT (external)"
    (check_source "NetworkRTTExternal")
    Status.WARNING (5 * Time.Minute) (5 * Time.Minute)
    "Network round-trip time to external services is elevated.";
  builtin_rule "network-rtt-other-clusters" "Network RTT (cross-cluster)"
    (check_source "NetworkRTTOtherClusters")
    Status.WARNING (5 * Time.Minute) (5 * Time.Minute)
    "Network round-trip time to services in other clusters is elevated.";
  builtin_rule "network-tcp-connections" "Network TCP connections"
    (check_source "NetworkTCPConnections")
    Status.WARNING (5 * Time.Minute) (5 * Time.Minute)
    "High number of TCP connection failures. This may indicate network issues or unavailable upstream services.";
  builtin_rule "jvm-availability" "JVM availability"
    (check_source "JvmAvailability")
    Status.WARNING (2 * Time.Minute) (5 * Time.Minute)
    "JVM metrics are not being collected. This may indicate the application is down or instrumentation is misconfigured.";
  builtin_rule "jvm-safepoint-time" "JVM safepoint time"
    (check_source "JvmSafepointTime")
    Status.WARNING (5 * Time.Minute) (5 * Time.Minute)
    "JVM is spending significant time at safepoints. This may cause application pauses and increased latency.";
  builtin_rule "dotnet-availability" ".NET availability"
    (check_source "DotNetAvailability")
    Status.WARNING (2 * Time.Minute) (5 * Time.Minute)
    ".NET metrics are not being collected. This may indicate the application is down or instrumentation is misconfigured."].
Definition dns_log_rules : list AlertingRule := [
  builtin_rule "dns-latency" "DNS latency"
    (check_source "DnsLatency")
    Status.WARNING (5 * Time.Minute) (5 * Time.Minute)
    "DNS resolution latency is elevated. This may cause slow connection establishment to other services.";
  builtin_rule "dns-server-errors" "DNS server errors"
    (check_source "DnsServerErrors")
    Status.WARNING (2 * Time.Minute) (5 * Time.Minute)
    "DNS server errors detected. This may cause failures when connecting to other services.";
  builtin_rule "dns-nxdomain-errors" "DNS NXDOMAIN errors"
    (check_source "DnsNxdomainErrors")
    Status.WARNING (2 * Time.Minute) (5 * Time.Minute)
    "Application is trying to resolve non-existent domain names. Check for typos in service names or missing services.";
  builtin_rule "python-gil-waiting-time" "Python GIL waiting time"
    (check_source "PythonGILWaitingTime")
    Status.WARNING (5 * Time.Minute) (5 * Time.Minute)
    "Python threads are spending significant time waiting for the GIL. This may cause increased latency and reduced throughput.";
  builtin_rule "nodejs-event-loop-blocked-time" "Node.js event loop blocked time"
    (check_source "NodejsEventLoopBlockedTime")
    Status.WARNING (5 * Time.Minute) (5 * Time.Minute)
    "The Node.js event loop is being blocked for extended periods. This may cause increased latency and unresponsive behavior.";
  builtin_rule "mysql-replication-status" "MySQL replication status"
    (check_source "MysqlReplicationStatus")
    Status.WARNING (2 * Time.Minute) (5 * Time.Minute)
    "MySQL replication thread is not running. The replica may not be receiving updates from the primary.";
  builtin_rule "new-log-patterns" "Log errors"
    {| src_Type := AlertSourceTypeLogPatterns; src_Check := None;
       src_LogPattern := Some {| lps_Severities := [Severity.ToString Severity.SeverityError; Severity.ToString Severity.SeverityFatal]; lps_MinCount := 10; lps_MaxAlertsPerApp := 20; lps_EvaluateWithAI := true |};
       src_PromQL := None; src_KubernetesEvents := None |}
    Status.WARNING 0 (Time.Hour)
    "A new log pattern has been detected. Review the log messages to determine whether this indicates an error, a misconfiguration, or expected behavior. Suppress the alert if this is not a problem.";
  builtin_rule "kubernetes-events" "Kubernetes events"
    {| src_Type := AlertSourceTypeKubernetesEvents; src_Check := None; src_LogPattern := None; src_PromQL := None;
       src_KubernetesEvents := Some {| kes_MinCount := 1; kes_MaxAlertsPerApp := 20; kes_EvaluateWithAI := true |} |}
    Status.WARNING 0 (Time.Hour)
    "A Kubernetes event has been detected. Review the event to determine whether it indicates a problem requiring attention."].

Definition BuiltinAlertingRules : list AlertingRule :=
  workload_rules ++ postgres_rules ++ redis_mongodb_rules ++ mongodb_mysql_rules ++ network_runtime_rules ++ dns_log_rules.

Module BuiltinRulesFacts.

(** A check that exists, for a rule on a check. *)
Definition known_check (r : AlertingRule) : bool :=
  match src_Check (rule_Source r) with
  | Some id => match check_index id with Some _ => true | None => false end
  | None => true
  end.

(** What a rule needs to be evaluated and to fire: its source has the settings
    of its type, a check it names exists, its severity is not below a warning,
    and its [For] ends before the pending time is dropped. *)
Definition sound_rule (r : AlertingRule) : Prop :=
  rule_Enabled r = true ∧ source_missing (rule_Source r) = false ∧ known_check r = true
  ∧ rule_Severity r ∈ [Status.WARNING; Status.CRITICAL] ∧ 0 ≤ rule_For r ≤ pending_threshold ∧ 0 ≤ rule_KeepFiringFor r.

(** Decided by computation. *)
Definition sound_ruleb (r : AlertingRule) : bool :=
  rule_Enabled r && negb (source_missing (rule_Source r)) && known_check r
  && ((rule_Severity r =? Status.WARNING) || (rule_Severity r =? Status.CRITICAL))
  && (0 <=? rule_For r) && (rule_For r <=? pending_threshold) && (0 <=? rule_KeepFiringFor r).

Lemma sound_ruleb_spec r : sound_ruleb r = true → sound_rule r.
Proof.
  unfold sound_ruleb, sound_rule. rewrite !andb_true_iff, orb_true_iff, negb_true_iff, !Z.eqb_eq, !Z.leb_le.
  intros ((((((? & ?) & ?) & Hs) & ?) & ?) & ?). split_and!; try done. rewrite !elem_of_cons. tauto.
Qed.

(** The checks no built-in rule watches. *)
Definition unwatched : list string :=
  cc_Id <$> where_ (λ c, negb (existsb (λ r, bool_decide (src_Check (rule_Source r) = Some (cc_Id c))) BuiltinAlertingRules)) Checks.

(** The tables fit together: ids of checks and of built-in rules are unique,
    every built-in rule can be evaluated and can fire (its check exists, so its
    threshold is read without a panic, and its [For] is within the half hour the
    pending time lives).  Every check has a rule but the two SLOs, which open
    incidents, CPUNode, DeploymentStatus, which notifies by itself, and
    LogErrors, which the log-pattern rule stands in for. *)
Theorem builtin_rules_sound :
  NoDup (cc_Id <$> Checks) ∧ NoDup (rule_Id <$> BuiltinAlertingRules)
  ∧ (∀ r, r ∈ BuiltinAlertingRules → sound_rule r)
  ∧ unwatched = ["SLOAvailability"; "SLOLatency"; "CPUNode"; "DeploymentStatus"; "LogErrors"].
Proof.
  split_and!.
  - apply (bool_decide_unpack _). vm_compute. exact I.
  - apply (bool_decide_unpack _). vm_compute. exact I.
  - assert (Hall : forallb sound_ruleb BuiltinAlertingRules = true) by (vm_compute; reflexivity).
    rewrite forallb_forall in Hall. intros r Hr. by apply sound_ruleb_spec, Hall, list_elem_of_In.
  - vm_compute. reflexivity.
Qed.

(** ** Installing the rules *)
Section init.
Context `{Env} {Mem : Type}.
Context (Hnf : ∀ k, env_fault k = None).
Context (projectId : string).

Definition installed (rows : list RuleRow) (r : AlertingRule) : bool := existsb (rule_has_id projectId (rule_Id r)) rows.

Lemma create_rule_run (r : AlertingRule) (s : Sys Mem) :
  CreateAlertingRule projectId r s =
    (if installed (t_alerting_rule (sys_tables s)) r
     then (inl "unique_violation", tick (tick s))
     else (inr tt, Build_Sys (sys_mem s)
             (with_alerting_rule (λ rows, (rows ++ [rule_row projectId (env_clock (sys_ticks s)) r])%list) (sys_tables s))
             (S (S (sys_ticks s))))).
Proof.
  unfold CreateAlertingRule, Now, statement, mbind, M_bind. rewrite Hnf. cbn [tick sys_tables sys_ticks sys_mem].
  unfold installed. by destruct (existsb _ _).
Qed.

Lemma installed_snoc rows now r r' :
  rule_Id r ≠ rule_Id r' → installed (rows ++ [rule_row projectId now r])%list r' = installed rows r'.
Proof.
  intros Hne. unfold installed. rewrite existsb_app. cbn. unfold rule_has_id at 2. cbn.
  apply String.eqb_neq in Hne. by rewrite Hne, andb_false_r, !orb_false_r.
Qed.

(** Installing the built-in rules adds, to the rules of the project, the
    missing ones and only those, in their order, and so changes no rule that is
    there: one that was edited or disabled stays as it is, and installing again
    adds nothing. *)
Theorem InitBuiltinAlertingRules_spec (builtins : list AlertingRule) (s : Sys Mem) (Hn : NoDup (rule_Id <$> builtins)) :
  let '(r, s') := InitBuiltinAlertingRules projectId builtins s in
  let rows := t_alerting_rule (sys_tables s) in
  let missing := where_ (λ b, negb (installed rows b)) builtins in
  r = inr tt ∧ (∃ times, List.length times = List.length missing
                ∧ t_alerting_rule (sys_tables s') = (rows ++ zip_with (rule_row projectId) times missing)%list)
  ∧ (∀ b, b ∈ builtins → installed (t_alerting_rule (sys_tables s')) b = true).
Proof.
  revert s. induction builtins as [|b builtins IH]; intros s.
  { split_and!; [done|exists []; by rewrite app_nil_r|set_solver]. }
  apply NoDup_cons in Hn as [Hb Hn]. specialize (IH Hn). cbn [InitBuiltinAlertingRules].
  unfold mbind, M_bind. rewrite create_rule_run. destruct (installed (t_alerting_rule (sys_tables s)) b) eqn:Hi.
  - change (String.eqb "unique_violation" "unique_violation") with true. cbv iota. specialize (IH (tick (tick s))).
    destruct (InitBuiltinAlertingRules _ _ _) as [r s']. cbn zeta in *. cbn [tick sys_tables] in IH.
    destruct IH as (-> & (times & Hlen & Hrows) & Hall). unfold where_ in *. cbn [List.filter]. rewrite Hi. cbn [negb].
    split_and!; [done|by exists times|]. intros b' [-> |Hb']%elem_of_cons; [|by apply Hall].
    rewrite Hrows. unfold installed in *. by rewrite existsb_app, Hi.
  - set (s1 := Build_Sys _ _ _). specialize (IH s1). destruct (InitBuiltinAlertingRules _ _ s1) as [r s']. cbn zeta in *.
    destruct IH as (-> & (times & Hlen & Hrows) & Hall). unfold where_ in *. cbn [List.filter]. rewrite Hi. cbn [negb].
    assert (Hmiss : List.filter (λ b', negb (installed (t_alerting_rule (sys_tables s1)) b')) builtins =
                    List.filter (λ b', negb (installed (t_alerting_rule (sys_tables s)) b')) builtins).
    { apply List.filter_ext_in. intros b' Hb'%list_elem_of_In. f_equal. subst s1. cbn [sys_tables with_alerting_rule t_alerting_rule]. rewrite installed_snoc; [done|].
      intros Heq. apply Hb. rewrite Heq. apply list_elem_of_fmap. by exists b'. }
    rewrite Hmiss in Hlen, Hrows. split_and!; [done| |].
    + exists (env_clock (sys_ticks s) :: times). split; [cbn; by rewrite Hlen|]. rewrite Hrows. cbn. by rewrite <- app_assoc.
    + intros b' [-> |Hb']%elem_of_cons; [|by apply Hall]. rewrite Hrows. unfold installed. cbn.
      rewrite !existsb_app. cbn. unfold rule_has_id at 2. cbn. by rewrite !String.eqb_refl, orb_true_r.
Qed.

End init.

(** A project where one rule was disabled. *)
#[local] Instance init_env : Env := steady_env 1000.
Definition disabled_row : RuleRow :=
  {| ru_id := "memory-oom"; ru_project_id := "p"; ru_config := rule_config (builtin_rule "memory-oom" "" (check_source "MemoryOOM") 0 0 0 "");
     ru_enabled := false; ru_builtin := true; ru_created_at := 1; ru_updated_at := 1 |}.
Definition one_rule : Sys unit := Build_Sys tt (with_alerting_rule (λ _, [disabled_row]) no_tables) 0.

Lemma InitBuiltinAlertingRules_spec_witness :
  let s' := snd (InitBuiltinAlertingRules "p" BuiltinAlertingRules one_rule) in
  (∀ b, b ∈ BuiltinAlertingRules → installed "p" (t_alerting_rule (sys_tables s')) b = true)
  ∧ List.length (t_alerting_rule (sys_tables s')) = List.length BuiltinAlertingRules
  ∧ head (t_alerting_rule (sys_tables s')) = Some disabled_row.
Proof.
  split; [|split; vm_compute; reflexivity].
  pose proof (InitBuiltinAlertingRules_spec (λ _, eq_refl) "p" BuiltinAlertingRules one_rule) as Ht.
  cbv zeta. destruct (InitBuiltinAlertingRules _ _ _) as [r s'] eqn:E. cbn zeta in Ht. apply Ht.
  apply (bool_decide_unpack _). vm_compute. exact I.
Defined.

End BuiltinRulesFacts.
