(* ===== verification/IncidentStore.v ===== *)
(** model/application_incident.go and the statements of db/incident.go on the
    [incident] table.

    [details] is the JSON of [IncidentDetails], whose error is dropped: JSON has
    no infinities and no NaN, so details that hold one are stored as the empty
    text, and read back as no details. *)

From S2P Require Export AlertNotify.
From Stdlib Require Import Ascii String ZArith Lia.
Local Open Scope string_scope.
Local Open Scope Z_scope.

(** * model/alert.go *)
Record AlertRule := { ar_LongWindow : Z; ar_ShortWindow : Z; ar_BurnRateThreshold : f32; ar_Severity : Z }.

Definition AlertRules : list AlertRule := [
  {| ar_LongWindow := Time.Hour; ar_ShortWindow := 5 * Time.Minute; ar_BurnRateThreshold := F32.frac 144 10; ar_Severity := Status.CRITICAL |};
  {| ar_LongWindow := 6 * Time.Hour; ar_ShortWindow := 15 * Time.Minute; ar_BurnRateThreshold := F32.of_Z 6; ar_Severity := Status.CRITICAL |}].

(** What [init] computes from the rules; it panics on a rule whose short window
    is longer than its long one ([AlertRules_valid]). *)
Definition MaxAlertRuleWindow : Z :=
  foldl (λ m r, if m <? ar_LongWindow r then ar_LongWindow r else m) Time.Hour AlertRules.
Definition MinAlertRuleShortWindow : Z :=
  foldl (λ m r, if (m =? 0) || (ar_ShortWindow r <? m) then ar_ShortWindow r else m) 0 AlertRules.
Definition IncidentTimeOffset : Z := Time.Hour + 5 * Time.Minute.

Lemma AlertRules_valid : Forall (λ r, ar_ShortWindow r ≤ ar_LongWindow r) AlertRules.
Proof. repeat constructor; vm_compute; discriminate. Qed.

(** * model/application_incident.go *)
Record ApplicationIncident := {
  i_ApplicationId : ApplicationId;
  i_Key : string;
  i_OpenedAt : Z;
  i_ResolvedAt : Z;
  i_Severity : Z;
  i_Details : IncidentDetails;
  i_RCA : option RCA
}.

Definition Resolved (i : ApplicationIncident) : bool := negb (Time.IsZero (i_ResolvedAt i)).

Definition ShortDescription (i : ApplicationIncident) : string :=
  let a := F32.gtb (id_AvailabilityImpact (i_Details i)) F32.zero in
  let l := F32.gtb (id_LatencyImpact (i_Details i)) F32.zero in
  let default :=
    if a && l then "High latency and errors" else if l then "High latency"
    else if a then "Elevated error rate" else "SLO violation" in
  match i_RCA i with
  | Some rca => if String.eqb (rca_ShortSummary rca) "" then default else rca_ShortSummary rca
  | None => default
  end.

Definition no_details : IncidentDetails :=
  {| id_AvailabilityBurnRates := []; id_LatencyBurnRates := []; id_AvailabilityImpact := F32.zero; id_LatencyImpact := F32.zero |}.

(** [json.Marshal] of the details. *)
Definition finite (x : f32) : bool := negb (IsNaN x) && negb (IsInf x 0).
Definition br_finite (b : BurnRate) : bool :=
  finite (br_LongWindowPercentage b) && finite (br_ShortWindowPercentage b)
  && finite (br_LongWindowBurnRate b) && finite (br_ShortWindowBurnRate b) && finite (br_Threshold b).
Definition marshal_details (d : IncidentDetails) : option IncidentDetails :=
  if forallb br_finite (id_AvailabilityBurnRates d) && forallb br_finite (id_LatencyBurnRates d)
     && finite (id_AvailabilityImpact d) && finite (id_LatencyImpact d)
  then Some d else None.

(** * db/incident.go *)
Definition effectiveRCAStatus (status rootCause : string) : string :=
  if String.eqb status "" && negb (String.eqb rootCause "") then "OK" else status.

(** [application_id], with the project as the cluster when it names none. *)
Definition scan_app_id (projectId : string) (text : string) : option ApplicationId :=
  match AppIdScan (Some text) with
  | None => None
  | Some id => Some (if String.eqb (ClusterId id) "" then set_ClusterId projectId id else id)
  end.

(** The columns every query reads; [rca] for those that read it. *)
Definition scan_incident_with (rca : IncidentRow → option RCA) (projectId : string) (r : IncidentRow) : option ApplicationIncident :=
  match scan_app_id projectId (ir_application_id r) with
  | None => None
  | Some id => Some {| i_ApplicationId := id; i_Key := ir_key r; i_OpenedAt := ir_opened_at r;
                       i_ResolvedAt := ir_resolved_at r; i_Severity := ir_severity r;
                       i_Details := default no_details (ir_details r); i_RCA := rca r |}
  end.
Definition scanIncident : string → IncidentRow → option ApplicationIncident := scan_incident_with ir_rca.
Definition scan_brief : string → IncidentRow → option ApplicationIncident := scan_incident_with (λ _, None).

Definition row_set_update (severity : Z) (details : option IncidentDetails) (r : IncidentRow) : IncidentRow :=
  {| ir_project_id := ir_project_id r; ir_application_id := ir_application_id r; ir_key := ir_key r;
     ir_opened_at := ir_opened_at r; ir_resolved_at := ir_resolved_at r; ir_severity := severity;
     ir_details := details; ir_rca := ir_rca r; ir_rca_status := ir_rca_status r; ir_rca_summary := ir_rca_summary r |}.
Definition row_set_rca (rca : RCA) (r : IncidentRow) : IncidentRow :=
  {| ir_project_id := ir_project_id r; ir_application_id := ir_application_id r; ir_key := ir_key r;
     ir_opened_at := ir_opened_at r; ir_resolved_at := ir_resolved_at r; ir_severity := ir_severity r;
     ir_details := ir_details r; ir_rca := Some rca;
     ir_rca_status := Some (effectiveRCAStatus (rca_Status rca) (rca_RootCause rca)); ir_rca_summary := Some (rca_ShortSummary rca) |}.
Definition row_set_resolved (t : Z) (r : IncidentRow) : IncidentRow :=
  {| ir_project_id := ir_project_id r; ir_application_id := ir_application_id r; ir_key := ir_key r;
     ir_opened_at := ir_opened_at r; ir_resolved_at := t; ir_severity := ir_severity r;
     ir_details := ir_details r; ir_rca := ir_rca r; ir_rca_status := ir_rca_status r; ir_rca_summary := ir_rca_summary r |}.

Definition incident_in (projectId : string) (r : IncidentRow) : bool := String.eqb (ir_project_id r) projectId.
Definition incident_has_key (projectId key : string) (r : IncidentRow) : bool := incident_in projectId r && String.eqb (ir_key r) key.
Definition incident_open (projectId : string) (r : IncidentRow) : bool := incident_in projectId r && (ir_resolved_at r =? 0).
(** application_id = $2 OR application_id = $3 *)
Definition of_app (appId : ApplicationId) (r : IncidentRow) : bool :=
  String.eqb (ir_application_id r) (AppIdString appId) || String.eqb (ir_application_id r) (StringWithoutClusterId appId).

Definition by_opened_desc (a b : IncidentRow) : bool := ir_opened_at b <=? ir_opened_at a.
Definition by_opened_asc (a b : IncidentRow) : bool := ir_opened_at a <=? ir_opened_at b.
(** ORDER BY (resolved_at = 0) DESC, opened_at DESC *)
Definition open_first (a b : IncidentRow) : bool :=
  match ir_resolved_at a =? 0, ir_resolved_at b =? 0 with
  | true, false => true
  | false, true => false
  | _, _ => by_opened_desc a b
  end.

Section ops.
Context `{Env} {Mem : Type}.

(** What [GetIncidentByKey] returns beside an error of the query or of [Scan]: the
    incident with nothing but its key, under the project as the cluster. *)
Definition unread_incident (projectId key : string) : ApplicationIncident :=
  {| i_ApplicationId := set_ClusterId projectId ApplicationIdZero; i_Key := key; i_OpenedAt := 0; i_ResolvedAt := 0;
     i_Severity := 0; i_Details := no_details; i_RCA := None |}.
Definition GetIncidentByKey (projectId key : string) : M Mem ((string * option ApplicationIncident) + ApplicationIncident) :=
  r ← select (λ t, inr (head (where_ (incident_has_key projectId key) (t_incident t))));
  mret (match r with
        | inl e => inl (e, Some (unread_incident projectId key))
        | inr None => inl ("not found", None)
        | inr (Some r) => match scanIncident projectId r with Some i => inr i | None => inl ("scan", Some (unread_incident projectId key)) end
        end).

Definition GetLatestIncidentsBrief (projectId : string) (limit : nat) : M Mem (string + list ApplicationIncident) :=
  select (λ t, scan_all (scan_brief projectId) (take limit (order_by open_first (where_ (incident_in projectId) (t_incident t))))).

(** The RCA shown in the list: from the columns, or for a row older than the
    columns from its [rca]. *)
Definition brief_rca (status summary : option string) : option RCA :=
  let st := default "" status in let su := default "" summary in
  if String.eqb st "" && String.eqb su "" then None
  else Some {| rca_Status := st; rca_Error := ""; rca_ShortSummary := su; rca_RootCause := ""; rca_ImmediateFixes := ""; rca_DetailedRootCause := "" |}.
Definition legacy (r : IncidentRow) : bool := bool_decide (ir_rca_status r = None) && bool_decide (ir_rca_summary r = None).

Definition getIncidentRCAByKeys (projectId : string) (keys : list string) : M Mem (string + list (string * RCA)) :=
  select (λ t, inr (omap (λ r, pair (ir_key r) <$> ir_rca r)
    (where_ (λ r, incident_in projectId r && existsb (String.eqb (ir_key r)) keys) (t_incident t)))).

(** The last row of a key wins, keys being unique in a project. *)
Definition rca_of_key (l : list (string * RCA)) (key : string) : option RCA :=
  snd <$> List.find (λ p, String.eqb (fst p) key) l.
Definition with_rca (rca : option RCA) (i : ApplicationIncident) : ApplicationIncident :=
  {| i_ApplicationId := i_ApplicationId i; i_Key := i_Key i; i_OpenedAt := i_OpenedAt i; i_ResolvedAt := i_ResolvedAt i;
     i_Severity := i_Severity i; i_Details := i_Details i; i_RCA := rca |}.
Definition fill_rca (l : list (string * RCA)) (i : ApplicationIncident) : ApplicationIncident :=
  match rca_of_key l (i_Key i) with
  | None => i
  | Some rca => with_rca (Some {| rca_Status := effectiveRCAStatus (rca_Status rca) (rca_RootCause rca); rca_Error := "";
      rca_ShortSummary := rca_ShortSummary rca; rca_RootCause := ""; rca_ImmediateFixes := ""; rca_DetailedRootCause := "" |}) i
  end.

Definition GetIncidentsForList (projectId : string) (limit : nat) : M Mem (string + list ApplicationIncident) :=
  r ← select (λ t,
        let rows := take limit (order_by open_first (where_ (incident_in projectId) (t_incident t))) in
        match scan_all (scan_incident_with (λ r, brief_rca (ir_rca_status r) (ir_rca_summary r)) projectId) rows with
        | inl e => inl e
        | inr l => inr (l, ir_key <$> where_ legacy rows)
        end);
  match r with
  | inl e => mret (inl e)
  | inr (res, missing) =>
      if bool_decide (missing = []) then mret (inr res)
      else
        rcaByKey ← getIncidentRCAByKeys projectId missing;
        match rcaByKey with
        | inl e => mret (inl e)
        | inr l => mret (inr (fill_rca l <$> res))
        end
  end.

(** The map is kept as the list of incidents, in order; [incidents[id]] filters it. *)
Definition GetApplicationIncidents (projectId : string) (from to : Z) : M Mem (string + list ApplicationIncident) :=
  select (λ t, scan_all (scan_brief projectId) (order_by by_opened_asc
    (where_ (λ r, incident_in projectId r && (ir_opened_at r <=? to) && ((ir_resolved_at r =? 0) || (from <=? ir_resolved_at r))) (t_incident t)))).

Definition GetOpenIncidents (projectId : string) : M Mem (string + list ApplicationIncident) :=
  select (λ t, scan_all (scanIncident projectId) (where_ (incident_open projectId) (t_incident t))).

Definition GetLastOpenIncident (projectId : string) (appId : ApplicationId) : M Mem (string + option ApplicationIncident) :=
  select (λ t,
    match order_by by_opened_desc (where_ (λ r, incident_open projectId r && of_app appId r) (t_incident t)) with
    | [] => inr None
    | r :: _ => inr (Some {| i_ApplicationId := appId; i_Key := ir_key r; i_OpenedAt := ir_opened_at r;
                             i_ResolvedAt := ir_resolved_at r; i_Severity := ir_severity r;
                             i_Details := default no_details (ir_details r); i_RCA := ir_rca r |})
    end).

Definition incident_row (projectId : string) (appId : ApplicationId) (i : ApplicationIncident) : IncidentRow :=
  {| ir_project_id := projectId; ir_application_id := AppIdString appId; ir_key := i_Key i; ir_opened_at := i_OpenedAt i;
     ir_resolved_at := 0; ir_severity := i_Severity i; ir_details := marshal_details (i_Details i); ir_rca := None;
     ir_rca_status := Some ""; ir_rca_summary := Some "" |}.

(** The primary key (project, application, time) and the unique key. *)
Definition incident_conflict (row r : IncidentRow) : bool :=
  String.eqb (ir_project_id r) (ir_project_id row)
  && ((String.eqb (ir_application_id r) (ir_application_id row) && (ir_opened_at r =? ir_opened_at row))
      || String.eqb (ir_key r) (ir_key row)).

Definition CreateIncident (projectId : string) (appId : ApplicationId) (i : ApplicationIncident) : M Mem (string + unit) :=
  let row := incident_row projectId appId i in
  statement (λ t,
    if existsb (incident_conflict row) (t_incident t) then inl "unique_violation"
    else inr (tt, with_incident (λ rows, (rows ++ [row])%list) t)).

Definition UpdateIncident (projectId key : string) (severity : Z) (details : IncidentDetails) : M Mem (string + unit) :=
  update (with_incident (update_where (incident_has_key projectId key) (row_set_update severity (marshal_details details)))).

Definition UpdateIncidentRCA (projectId key : string) (rca : RCA) : M Mem (string + unit) :=
  update (with_incident (update_where (incident_has_key projectId key) (row_set_rca rca))).

Definition ResolveIncident (projectId key : string) (resolvedAt : Z) : M Mem (string + unit) :=
  update (with_incident (update_where (incident_has_key projectId key) (row_set_resolved resolvedAt))).

End ops.
