(* ===== verification/Queries.v ===== *)
(** constructor/queries.go: the queries whose results the world is built from,
    and the requests one load of the world makes (constructor/constructor.go:
    [queryResults]). *)

From S2P Require Export PromQL Checks Categories IncidentStore.
From Stdlib Require Import Ascii String ZArith Lia.
Local Open Scope string_scope.
Local Open Scope Z_scope.

(** timeseries.FillFunc: which of the four functions of the file Fill a point of a
    wider step takes. *)
Inductive FillFunc := FillAny | FillAvg | FillSum | FillMax.
#[export] Instance FillFunc_eq_dec : EqDecision FillFunc.
Proof. solve_decision. Defined.

(** * The names of the recording rules *)
Definition qApplicationCustomSLI : string := "application_custom_sli".
Definition qRecordingRuleApplicationLogMessages : string := "rr_application_log_messages".
Definition qRecordingRuleApplicationTCPSuccessful : string := "rr_connection_tcp_successful".
Definition qRecordingRuleApplicationTCPActive : string := "rr_connection_tcp_active".
Definition qRecordingRuleApplicationTCPFailed : string := "rr_connection_tcp_failed".
Definition qRecordingRuleApplicationTCPConnectionTime : string := "rr_connection_tcp_connection_time".
Definition qRecordingRuleApplicationTCPBytesSent : string := "rr_connection_tcp_bytes_sent".
Definition qRecordingRuleApplicationTCPBytesReceived : string := "rr_connection_tcp_bytes_received".
Definition qRecordingRuleApplicationTCPRetransmissions : string := "rr_connection_tcp_retransmissions".
Definition qRecordingRuleApplicationNetLatency : string := "rr_connection_net_latency".
Definition qRecordingRuleApplicationL7Requests : string := "rr_connection_l7_requests".
Definition qRecordingRuleApplicationL7Latency : string := "rr_connection_l7_latency".
Definition qRecordingRuleApplicationTraffic : string := "rr_application_traffic".
Definition qRecordingRuleApplicationL7Histogram : string := "rr_application_l7_histogram".
Definition qRecordingRuleApplicationL7InboundRequests : string := "rr_application_l7_inbound_requests".
Definition qRecordingRuleApplicationL7InboundHistogram : string := "rr_application_l7_inbound_histogram".
Definition qRecordingRuleApplicationCategories : string := "rr_application_categories".
Definition qRecordingRuleApplicationSLO : string := "rr_application_slo".
Definition qRecordingRuleApplicationExternalEndpoint : string := "rr_connection_external_endpoints".
Definition qRecordingRuleApplicationDNSRequests : string := "rr_application_dns_requests".
Definition qRecordingRuleApplicationDNSLatency : string := "rr_application_dns_latency".

Definition applicationAnnotations : list string :=
  ["annotation_coroot_com_application_category"; "annotation_coroot_com_custom_application_name";
   "annotation_coroot_com_slo_availability_objective"; "annotation_coroot_com_slo_latency_objective";
   "annotation_coroot_com_slo_latency_threshold"].

Definition qConnectionAggregations : list (string * FillFunc) := [
  (qRecordingRuleApplicationTCPSuccessful, FillAvg);
  (qRecordingRuleApplicationTCPActive, FillMax);
  (qRecordingRuleApplicationTCPFailed, FillAvg);
  (qRecordingRuleApplicationTCPConnectionTime, FillAvg);
  (qRecordingRuleApplicationTCPBytesSent, FillAvg);
  (qRecordingRuleApplicationTCPBytesReceived, FillAvg);
  (qRecordingRuleApplicationTCPRetransmissions, FillAvg);
  (qRecordingRuleApplicationNetLatency, FillAvg);
  (qRecordingRuleApplicationL7Requests, FillAvg);
  (qRecordingRuleApplicationL7Latency, FillAvg);
  (qRecordingRuleApplicationTraffic, FillAvg);
  (qRecordingRuleApplicationExternalEndpoint, FillAny);
  (qRecordingRuleApplicationDNSRequests, FillAvg);
  (qRecordingRuleApplicationDNSLatency, FillAvg)].

Definition possibleNamespaceLabels : list string :=
  ["namespace"; "ns"; "kubernetes_namespace"; "kubernetes_ns"; "k8s_namespace"; "k8s_ns"].
Definition possiblePodLabels : list string := ["pod"; "pod_name"; "kubernetes_pod"; "k8s_pod"].
Definition possibleDBInstanceLabels : list string := ["address"; "instance"; "rds_instance_id"; "ec_instance_id"].

(** * Query and its constructors *)
Record Query := {
  q_Name : string;
  q_Query : string;
  q_Labels : StringSet.t;
  q_InstanceToInstance : bool;
  q_FillFunc : option FillFunc
}.

Definition WithFillFunc (f : FillFunc) (q : Query) : Query :=
  {| q_Name := q_Name q; q_Query := q_Query q; q_Labels := q_Labels q;
     q_InstanceToInstance := q_InstanceToInstance q; q_FillFunc := Some f |}.

(** [strings.Contains(s, sub)] *)
Definition Contains (s sub : string) : bool := match String.index 0 sub s with Some _ => true | None => false end.

Definition Q (name query : string) (labels : list string) : Query :=
  {| q_Name := name; q_Query := query;
     q_Labels := StringSet.Add labels (StringSet.NewStringSet
       [LabelMachineId; LabelSystemUuid; LabelContainerId; LabelDestination; LabelDestinationIP; LabelActualDestination]);
     q_InstanceToInstance := false;
     q_FillFunc := if Contains query "rate(" then Some FillAvg else None |}.

Definition qItoI (name query : string) (labels : list string) : Query :=
  let q := Q name query (labels ++ ["app_id"])%list in
  {| q_Name := q_Name q; q_Query := q_Query q; q_Labels := q_Labels q; q_InstanceToInstance := true; q_FillFunc := q_FillFunc q |}.
Definition qPod (name query : string) (labels : list string) : Query := Q name query ("uid" :: labels).
Definition qRDS (name query : string) (labels : list string) : Query := Q name query ("rds_instance_id" :: labels).
Definition qDB (name query : string) (labels : list string) : Query :=
  Q name query (possibleDBInstanceLabels ++ possibleNamespaceLabels ++ possiblePodLabels ++ labels)%list.
Definition qJVM (name query : string) (labels : list string) : Query := Q name query ("jvm" :: labels).
Definition qDotNet (name query : string) (labels : list string) : Query := Q name query ("application" :: labels).
Definition qFargateContainer (name query : string) (labels : list string) : Query :=
  Q name query ("kubernetes_io_hostname" :: "namespace" :: "pod" :: "container" :: labels).

(** The layer-7 queries: [sum by(<by>) (rate(<metric>...)) or rate(<metric>...)]. *)
Definition l7 (by_ metric : string) : string :=
  "sum by(" ++ by_ ++ ") (rate(" ++ metric ++ "{app_id!=" ++ dq ++ dq ++ "}[$RANGE])) or rate("
  ++ metric ++ "{app_id=" ++ dq ++ dq ++ "}[$RANGE])".
Definition l7Req : string → string := l7 "app_id, destination, actual_destination, status".
Definition l7ReqWithMethod : string → string := l7 "app_id, destination, actual_destination, status, method".
Definition l7Latency : string → string := l7 "app_id, destination, actual_destination".
Definition l7Histogram : string → string := l7 "app_id, destination, actual_destination, le".
Definition l7InboundReq : string → string := l7 "app_id, status".
Definition l7InboundHistogram : string → string := l7 "app_id, le".

(** * QUERIES *)
Definition node_queries : list Query := [
  Q "node_agent_info" "node_agent_info" ["version"];
  Q "up" "up" ["job"; "instance"];
  Q "node_info" "node_info" ["hostname"; "kernel_version"];
  Q "node_cloud_info" "node_cloud_info" ["provider"; "region"; "availability_zone"; "instance_type"; "instance_life_cycle"];
  Q "node_uptime_seconds" "node_uptime_seconds" [];
  Q "node_cpu_cores" "node_resources_cpu_logical_cores" [];
  Q "node_cpu_usage_percent" ("sum(rate(node_resources_cpu_usage_seconds_total{mode!=" ++ dq ++ "idle" ++ dq ++ "}[$RANGE])) without(mode) /sum(rate(node_resources_cpu_usage_seconds_total[$RANGE])) without(mode)*100") [];
  Q "node_cpu_usage_by_mode" ("rate(node_resources_cpu_usage_seconds_total{mode!=" ++ dq ++ "idle" ++ dq ++ "}[$RANGE]) / ignoring(mode) group_left sum(rate(node_resources_cpu_usage_seconds_total[$RANGE])) without(mode)*100") ["mode"];
  Q "node_memory_total_bytes" "node_resources_memory_total_bytes" [];
  Q "node_memory_available_bytes" "node_resources_memory_available_bytes" [];
  Q "node_memory_free_bytes" "node_resources_memory_free_bytes" [];
  Q "node_memory_cached_bytes" "node_resources_memory_cached_bytes" [];
  Q "node_disk_read_time" "rate(node_resources_disk_read_time_seconds_total[$RANGE])" ["device"];
  Q "node_disk_write_time" "rate(node_resources_disk_write_time_seconds_total[$RANGE])" ["device"];
  Q "node_disk_reads" "rate(node_resources_disk_reads_total[$RANGE])" ["device"];
  Q "node_disk_writes" "rate(node_resources_disk_writes_total[$RANGE])" ["device"];
  Q "node_disk_read_bytes" "rate(node_resources_disk_read_bytes_total[$RANGE])" ["device"];
  Q "node_disk_written_bytes" "rate(node_resources_disk_written_bytes_total[$RANGE])" ["device"];
  Q "node_disk_io_time" "rate(node_resources_disk_io_time_seconds_total[$RANGE])" ["device"];
  Q "node_net_up" "node_net_interface_up" ["interface"];
  Q "node_net_ip" "node_net_interface_ip" ["interface"; "ip"];
  Q "node_net_rx_bytes" "rate(node_net_received_bytes_total[$RANGE])" ["interface"];
  Q "node_net_tx_bytes" "rate(node_net_transmitted_bytes_total[$RANGE])" ["interface"];
  Q "node_gpu_info" "node_gpu_info" ["gpu_uuid"; "name"; "driver_version"];
  Q "node_gpu_memory_total_bytes" "node_resources_gpu_memory_total_bytes" ["gpu_uuid"];
  WithFillFunc FillMax (Q "node_gpu_memory_used_bytes" "node_resources_gpu_memory_used_bytes" ["gpu_uuid"]%list);
  WithFillFunc FillAvg (Q "node_gpu_memory_utilization_percent_avg" "node_resources_gpu_memory_utilization_percent_avg" ["gpu_uuid"]%list);
  WithFillFunc FillMax (Q "node_gpu_memory_utilization_percent_peak" "node_resources_gpu_memory_utilization_percent_peak" ["gpu_uuid"]%list);
  WithFillFunc FillAvg (Q "node_gpu_utilization_percent_avg" "node_resources_gpu_utilization_percent_avg" ["gpu_uuid"]%list);
  WithFillFunc FillMax (Q "node_gpu_utilization_percent_peak" "node_resources_gpu_utilization_percent_peak" ["gpu_uuid"]%list);
  WithFillFunc FillMax (Q "node_gpu_temperature_celsius" "node_resources_gpu_temperature_celsius" ["gpu_uuid"]%list);
  WithFillFunc FillAvg (Q "node_gpu_power_usage_watts" "node_resources_gpu_power_usage_watts" ["gpu_uuid"]%list);
  Q "ip_to_fqdn" "sum by(fqdn, ip) (ip_to_fqdn)" ["ip"; "fqdn"]].

Definition fargate_queries : list Query := [
  Q "fargate_node_machine_cpu_cores" ("machine_cpu_cores{eks_amazonaws_com_compute_type=" ++ dq ++ "fargate" ++ dq ++ "}") ["eks_amazonaws_com_compute_type"; "kubernetes_io_hostname"; "topology_kubernetes_io_region"; "topology_kubernetes_io_zone"];
  Q "fargate_node_machine_memory_bytes" ("machine_memory_bytes{eks_amazonaws_com_compute_type=" ++ dq ++ "fargate" ++ dq ++ "}") ["eks_amazonaws_com_compute_type"; "kubernetes_io_hostname"; "topology_kubernetes_io_region"; "topology_kubernetes_io_zone"];
  qFargateContainer "fargate_container_spec_cpu_limit_cores" ("container_spec_cpu_quota{eks_amazonaws_com_compute_type=" ++ dq ++ "fargate" ++ dq ++ "}/container_spec_cpu_period{eks_amazonaws_com_compute_type=" ++ dq ++ "fargate" ++ dq ++ "}") [];
  qFargateContainer "fargate_container_cpu_usage_seconds" ("rate(container_cpu_usage_seconds_total{eks_amazonaws_com_compute_type=" ++ dq ++ "fargate" ++ dq ++ "}[$RANGE])") [];
  qFargateContainer "fargate_container_cpu_cfs_throttled_seconds" ("rate(container_cpu_cfs_throttled_seconds_total{eks_amazonaws_com_compute_type=" ++ dq ++ "fargate" ++ dq ++ "}[$RANGE])") [];
  qFargateContainer "fargate_container_spec_memory_limit_bytes" ("container_spec_memory_limit_bytes{eks_amazonaws_com_compute_type=" ++ dq ++ "fargate" ++ dq ++ "}") [];
  WithFillFunc FillMax (qFargateContainer "fargate_container_memory_rss" ("container_memory_rss{eks_amazonaws_com_compute_type=" ++ dq ++ "fargate" ++ dq ++ "}") []);
  WithFillFunc FillMax (qFargateContainer "fargate_container_memory_cache" ("container_memory_cache{eks_amazonaws_com_compute_type=" ++ dq ++ "fargate" ++ dq ++ "}") []);
  qFargateContainer "fargate_container_oom_events_total" ("container_oom_events_total{eks_amazonaws_com_compute_type=" ++ dq ++ "fargate" ++ dq ++ "}") ["job"; "instance"]].

Definition kube_queries : list Query := [
  Q "kube_node_info" "kube_node_info" ["node"; "kernel_version"];
  Q "kube_service_info" "kube_service_info" ["namespace"; "service"; "cluster_ip"];
  Q "kube_service_port" "kube_service_port" ["namespace"; "service"; "port"; "node_port"];
  Q "kube_service_spec_type" "kube_service_spec_type" ["namespace"; "service"; "type"];
  Q "kube_endpoint_address" "kube_endpoint_address" ["namespace"; "endpoint"; "ip"; "port_number"];
  Q "kube_service_status_load_balancer_ingress" "kube_service_status_load_balancer_ingress" ["namespace"; "service"; "ip"];
  Q "kube_deployment_spec_replicas" "kube_deployment_spec_replicas" ["namespace"; "deployment"];
  Q "kube_daemonset_status_desired_number_scheduled" "kube_daemonset_status_desired_number_scheduled" ["namespace"; "daemonset"];
  Q "kube_statefulset_replicas" "kube_statefulset_replicas" ["namespace"; "statefulset"];
  Q "kube_deployment_annotations" "kube_deployment_annotations" (applicationAnnotations ++ ["namespace"; "deployment"])%list;
  Q "kube_statefulset_annotations" "kube_statefulset_annotations" (applicationAnnotations ++ ["namespace"; "statefulset"])%list;
  Q "kube_daemonset_annotations" "kube_daemonset_annotations" (applicationAnnotations ++ ["namespace"; "daemonset"])%list;
  Q "kube_cronjob_annotations" "kube_cronjob_annotations" (applicationAnnotations ++ ["namespace"; "cronjob"])%list;
  Q "kube_job_owner" "kube_job_owner" ["namespace"; "job_name"; "owner_kind"; "owner_name"; "owner_is_controller"];
  qPod "kube_pod_info" "kube_pod_info" ["namespace"; "pod"; "created_by_name"; "created_by_kind"; "node"; "pod_ip"; "host_ip"];
  qPod "kube_pod_annotations" "kube_pod_annotations" applicationAnnotations;
  qPod "kube_pod_labels" "kube_pod_labels" ["label_postgres_operator_crunchydata_com_cluster"; "label_postgres_operator_crunchydata_com_role"; "label_cluster_name"; "label_team"; "label_application"; "label_spilo_role"; "label_role"; "label_cnpg_io_cluster"; "label_stackgres_io_cluster_name"; "label_app_kubernetes_io_managed_by"; "label_app_kubernetes_io_instance"; "label_helm_sh_chart"; "label_app_kubernetes_io_name"; "label_app_kubernetes_io_component"; "label_app_kubernetes_io_part_of"; "label_valkey_io_cluster"];
  qPod "kube_pod_status_phase" "kube_pod_status_phase > 0" ["phase"];
  qPod "kube_pod_status_ready" ("kube_pod_status_ready{condition=" ++ dq ++ "true" ++ dq ++ "}") [];
  qPod "kube_pod_status_scheduled" ("kube_pod_status_scheduled{condition=" ++ dq ++ "true" ++ dq ++ "} > 0") [];
  qPod "kube_pod_init_container_info" "kube_pod_init_container_info" ["namespace"; "pod"; "container"];
  qPod "kube_pod_container_resource_requests" "kube_pod_container_resource_requests" ["namespace"; "pod"; "container"; "resource"];
  qPod "kube_pod_container_status_ready" "kube_pod_container_status_ready > 0" ["namespace"; "pod"; "container"];
  qPod "kube_pod_container_status_running" "kube_pod_container_status_running > 0" ["namespace"; "pod"; "container"];
  qPod "kube_pod_container_status_waiting" "kube_pod_container_status_waiting > 0" ["namespace"; "pod"; "container"];
  qPod "kube_pod_container_status_waiting_reason" "kube_pod_container_status_waiting_reason > 0" ["namespace"; "pod"; "container"; "reason"];
  qPod "kube_pod_container_status_terminated" "kube_pod_container_status_terminated > 0" ["namespace"; "pod"; "container"];
  qPod "kube_pod_container_status_terminated_reason" "kube_pod_container_status_terminated_reason > 0" ["namespace"; "pod"; "container"; "reason"];
  qPod "kube_pod_container_status_last_terminated_reason" "kube_pod_container_status_last_terminated_reason" ["namespace"; "pod"; "container"; "reason"]].

Definition container_queries : list Query := [
  Q "container_info" "container_info" ["image"; "systemd_triggered_by"; "systemd_type"];
  Q "container_application_type" "container_application_type" ["application_type"];
  Q "container_cpu_limit" "container_resources_cpu_limit_cores" [];
  WithFillFunc FillMax (Q "container_cpu_usage" "rate(container_resources_cpu_usage_seconds_total[$RANGE])" []);
  Q "container_cpu_delay" "rate(container_resources_cpu_delay_seconds_total[$RANGE])" [];
  Q "container_throttled_time" "rate(container_resources_cpu_throttled_seconds_total[$RANGE])" [];
  Q "container_memory_limit" "container_resources_memory_limit_bytes" [];
  WithFillFunc FillMax (Q "container_memory_rss" "container_resources_memory_rss_bytes" []);
  WithFillFunc FillMax (Q "container_memory_cache" "container_resources_memory_cache_bytes" []);
  Q "container_memory_pressure" "rate(container_resources_memory_pressure_waiting_seconds_total[$RANGE])" ["kind"];
  Q "container_oom_kills_total" "container_oom_kills_total % 10000000" ["job"; "instance"];
  Q "container_restarts" "container_restarts_total % 10000000" ["job"; "instance"];
  Q "container_volume_size" "container_resources_disk_size_bytes" ["mount_point"; "volume"; "device"];
  WithFillFunc FillMax (Q "container_volume_used" "container_resources_disk_used_bytes" ["mount_point"; "volume"; "device"]%list);
  WithFillFunc FillMax (Q "container_gpu_usage_percent" "container_resources_gpu_usage_percent" ["gpu_uuid"]%list);
  WithFillFunc FillMax (Q "container_gpu_memory_usage_percent" "container_resources_gpu_memory_usage_percent" ["gpu_uuid"]%list);
  Q "container_net_tcp_listen_info" "container_net_tcp_listen_info" ["listen_addr"; "proxy"]].

Definition connection_queries : list Query := [
  WithFillFunc FillAvg (qItoI "container_net_latency" ("avg by(app_id, destination_ip) (container_net_latency_seconds{app_id!=" ++ dq ++ dq ++ "}) or container_net_latency_seconds{app_id=" ++ dq ++ dq ++ "}") []);
  qItoI "container_net_tcp_successful_connects" ("sum by(app_id, destination, actual_destination) (rate(container_net_tcp_successful_connects_total{app_id!=" ++ dq ++ dq ++ "}[$RANGE])) or rate(container_net_tcp_successful_connects_total{app_id=" ++ dq ++ dq ++ "}[$RANGE])") [];
  qItoI "container_net_tcp_failed_connects" ("sum by(app_id, destination, actual_destination) (rate(container_net_tcp_failed_connects_total{app_id!=" ++ dq ++ dq ++ "}[$RANGE])) or rate(container_net_tcp_failed_connects_total{app_id=" ++ dq ++ dq ++ "}[$RANGE])") [];
  WithFillFunc FillMax (qItoI "container_net_tcp_active_connections" ("sum by(app_id, destination, actual_destination) (container_net_tcp_active_connections{app_id!=" ++ dq ++ dq ++ "}) or container_net_tcp_active_connections{app_id=" ++ dq ++ dq ++ "}") []);
  qItoI "container_net_tcp_connection_time_seconds" ("sum by(app_id, destination, actual_destination) (rate(container_net_tcp_connection_time_seconds_total{app_id!=" ++ dq ++ dq ++ "}[$RANGE])) or rate(container_net_tcp_connection_time_seconds_total{app_id=" ++ dq ++ dq ++ "}[$RANGE])") [];
  qItoI "container_net_tcp_bytes_sent" ("sum by(app_id, destination, actual_destination, az, region) (rate(container_net_tcp_bytes_sent_total{app_id!=" ++ dq ++ dq ++ "}[$RANGE])) or rate(container_net_tcp_bytes_sent_total{app_id=" ++ dq ++ dq ++ "}[$RANGE])") ["region"; "az"];
  qItoI "container_net_tcp_bytes_received" ("sum by(app_id, destination, actual_destination, az, region) (rate(container_net_tcp_bytes_received_total{app_id!=" ++ dq ++ dq ++ "}[$RANGE])) or rate(container_net_tcp_bytes_received_total{app_id=" ++ dq ++ dq ++ "}[$RANGE])") ["region"; "az"];
  qItoI "container_net_tcp_retransmits" ("sum by(app_id, destination, actual_destination) (rate(container_net_tcp_retransmits_total{app_id!=" ++ dq ++ dq ++ "}[$RANGE])) or rate(container_net_tcp_retransmits_total{app_id=" ++ dq ++ dq ++ "}[$RANGE])") [];
  Q "container_log_messages" "container_log_messages_total % 10000000" ["level"; "pattern_hash"; "sample"; "job"; "instance"]].

Definition l7_queries : list Query := [
  qItoI "container_http_requests_count" (l7Req "container_http_requests_total") ["status"];
  qItoI "container_http_requests_latency_total" (l7Latency "container_http_requests_duration_seconds_total_sum") [];
  qItoI "container_http_requests_histogram" (l7Histogram "container_http_requests_duration_seconds_total_bucket") ["le"];
  qItoI "container_postgres_queries_count" (l7Req "container_postgres_queries_total") ["status"];
  qItoI "container_postgres_queries_latency_total" (l7Latency "container_postgres_queries_duration_seconds_total_sum") [];
  qItoI "container_postgres_queries_histogram" (l7Histogram "container_postgres_queries_duration_seconds_total_bucket") ["le"];
  qItoI "container_redis_queries_count" (l7Req "container_redis_queries_total") ["status"];
  qItoI "container_redis_queries_latency_total" (l7Latency "container_redis_queries_duration_seconds_total_sum") [];
  qItoI "container_redis_queries_histogram" (l7Histogram "container_redis_queries_duration_seconds_total_bucket") ["le"];
  qItoI "container_memcached_queries_count" (l7Req "container_memcached_queries_total") ["status"];
  qItoI "container_memcached_queries_latency_total" (l7Latency "container_memcached_queries_duration_seconds_total_sum") [];
  qItoI "container_memcached_queries_histogram" (l7Histogram "container_memcached_queries_duration_seconds_total_bucket") ["le"];
  qItoI "container_mysql_queries_count" (l7Req "container_mysql_queries_total") ["status"];
  qItoI "container_mysql_queries_latency_total" (l7Latency "container_mysql_queries_duration_seconds_total_sum") [];
  qItoI "container_mysql_queries_histogram" (l7Histogram "container_mysql_queries_duration_seconds_total_bucket") ["le"];
  qItoI "container_mongo_queries_count" (l7Req "container_mongo_queries_total") ["status"];
  qItoI "container_mongo_queries_latency_total" (l7Latency "container_mongo_queries_duration_seconds_total_sum") [];
  qItoI "container_mongo_queries_histogram" (l7Histogram "container_mongo_queries_duration_seconds_total_bucket") ["le"];
  qItoI "container_kafka_requests_count" (l7Req "container_kafka_requests_total") ["status"];
  qItoI "container_kafka_requests_latency_total" (l7Latency "container_kafka_requests_duration_seconds_total_sum") [];
  qItoI "container_kafka_requests_histogram" (l7Histogram "container_kafka_requests_duration_seconds_total_bucket") ["le"];
  qItoI "container_cassandra_queries_count" (l7Req "container_cassandra_queries_total") ["status"];
  qItoI "container_cassandra_queries_latency_total" (l7Latency "container_cassandra_queries_duration_seconds_total_sum") [];
  qItoI "container_cassandra_queries_histogram" (l7Histogram "container_cassandra_queries_duration_seconds_total_bucket") ["le"];
  qItoI "container_clickhouse_queries_count" (l7Req "container_clickhouse_queries_total") ["status"];
  qItoI "container_clickhouse_queries_latency_total" (l7Latency "container_clickhouse_queries_duration_seconds_total_sum") [];
  qItoI "container_clickhouse_queries_histogram" (l7Histogram "container_clickhouse_queries_duration_seconds_total_bucket") ["le"];
  qItoI "container_zookeeper_requests_count" (l7Req "container_zookeeper_requests_total") ["status"];
  qItoI "container_zookeeper_requests_latency_total" (l7Latency "container_zookeeper_requests_duration_seconds_total_sum") [];
  qItoI "container_zookeeper_requests_histogram" (l7Histogram "container_zookeeper_requests_duration_seconds_total_bucket") ["le"];
  qItoI "container_foundationdb_requests_count" (l7Req "container_foundationdb_requests_total") ["status"];
  qItoI "container_foundationdb_requests_latency_total" (l7Latency "container_foundationdb_requests_duration_seconds_total_sum") [];
  qItoI "container_foundationdb_requests_histogram" (l7Histogram "container_foundationdb_requests_duration_seconds_total_bucket") ["le"];
  qItoI "container_rabbitmq_messages" (l7ReqWithMethod "container_rabbitmq_messages_total") ["status"; "method"];
  qItoI "container_nats_messages" (l7ReqWithMethod "container_nats_messages_total") ["status"; "method"]].

Definition inbound_queries : list Query := [
  qItoI "container_http_inbound_requests_count" (l7InboundReq "container_http_inbound_requests_total") ["status"];
  qItoI "container_http_inbound_requests_histogram" (l7InboundHistogram "container_http_inbound_requests_duration_seconds_total_bucket") ["le"];
  qItoI "container_postgres_inbound_queries_count" (l7InboundReq "container_postgres_inbound_queries_total") ["status"];
  qItoI "container_postgres_inbound_queries_histogram" (l7InboundHistogram "container_postgres_inbound_queries_duration_seconds_total_bucket") ["le"];
  qItoI "container_redis_inbound_queries_count" (l7InboundReq "container_redis_inbound_queries_total") ["status"];
  qItoI "container_redis_inbound_queries_histogram" (l7InboundHistogram "container_redis_inbound_queries_duration_seconds_total_bucket") ["le"];
  qItoI "container_memcached_inbound_queries_count" (l7InboundReq "container_memcached_inbound_queries_total") ["status"];
  qItoI "container_memcached_inbound_queries_histogram" (l7InboundHistogram "container_memcached_inbound_queries_duration_seconds_total_bucket") ["le"];
  qItoI "container_mysql_inbound_queries_count" (l7InboundReq "container_mysql_inbound_queries_total") ["status"];
  qItoI "container_mysql_inbound_queries_histogram" (l7InboundHistogram "container_mysql_inbound_queries_duration_seconds_total_bucket") ["le"];
  qItoI "container_mongo_inbound_queries_count" (l7InboundReq "container_mongo_inbound_queries_total") ["status"];
  qItoI "container_mongo_inbound_queries_histogram" (l7InboundHistogram "container_mongo_inbound_queries_duration_seconds_total_bucket") ["le"];
  qItoI "container_kafka_inbound_requests_count" (l7InboundReq "container_kafka_inbound_requests_total") ["status"];
  qItoI "container_kafka_inbound_requests_histogram" (l7InboundHistogram "container_kafka_inbound_requests_duration_seconds_total_bucket") ["le"];
  qItoI "container_cassandra_inbound_queries_count" (l7InboundReq "container_cassandra_inbound_queries_total") ["status"];
  qItoI "container_cassandra_inbound_queries_histogram" (l7InboundHistogram "container_cassandra_inbound_queries_duration_seconds_total_bucket") ["le"];
  qItoI "container_clickhouse_inbound_queries_count" (l7InboundReq "container_clickhouse_inbound_queries_total") ["status"];
  qItoI "container_clickhouse_inbound_queries_histogram" (l7InboundHistogram "container_clickhouse_inbound_queries_duration_seconds_total_bucket") ["le"];
  qItoI "container_zookeeper_inbound_requests_count" (l7InboundReq "container_zookeeper_inbound_requests_total") ["status"];
  qItoI "container_zookeeper_inbound_requests_histogram" (l7InboundHistogram "container_zookeeper_inbound_requests_duration_seconds_total_bucket") ["le"];
  qItoI "container_foundationdb_inbound_requests_count" (l7InboundReq "container_foundationdb_inbound_requests_total") ["status"];
  qItoI "container_foundationdb_inbound_requests_histogram" (l7InboundHistogram "container_foundationdb_inbound_requests_duration_seconds_total_bucket") ["le"];
  Q "l7_requests_by_dest" "sum by(actual_destination, status) (rate(container_mongo_queries_total[$RANGE]) or rate(container_mysql_queries_total[$RANGE]))" ["status"];
  Q "l7_total_latency_by_dest" "sum by(actual_destination) (rate(container_mongo_queries_duration_seconds_total_sum[$RANGE]) or rate(container_mysql_queries_duration_seconds_total_sum[$RANGE]))" [];
  qItoI "container_dns_requests_total" ("sum by(app_id, request_type, domain, status) (rate(container_dns_requests_total{app_id!=" ++ dq ++ dq ++ "}[$RANGE])) or rate(container_dns_requests_total{app_id=" ++ dq ++ dq ++ "}[$RANGE])") ["request_type"; "domain"; "status"];
  qItoI "container_dns_requests_latency" ("sum by(app_id, le) (rate(container_dns_requests_duration_seconds_total_bucket{app_id!=" ++ dq ++ dq ++ "}[$RANGE])) or rate(container_dns_requests_duration_seconds_total_bucket{app_id=" ++ dq ++ dq ++ "}[$RANGE]) ") ["le"]].

Definition aws_queries : list Query := [
  Q "aws_discovery_error" "aws_discovery_error" ["error"];
  qRDS "aws_rds_info" "aws_rds_info" ["cluster_id"; "ipv4"; "port"; "engine"; "engine_version"; "instance_type"; "storage_type"; "region"; "availability_zone"; "multi_az"];
  qRDS "aws_rds_status" "aws_rds_status" ["status"];
  qRDS "aws_rds_cpu_cores" "aws_rds_cpu_cores" [];
  WithFillFunc FillAvg (qRDS "aws_rds_cpu_usage_percent" "aws_rds_cpu_usage_percent" ["mode"]%list);
  qRDS "aws_rds_memory_total_bytes" "aws_rds_memory_total_bytes" [];
  qRDS "aws_rds_memory_cached_bytes" "aws_rds_memory_cached_bytes" [];
  qRDS "aws_rds_memory_free_bytes" "aws_rds_memory_free_bytes" [];
  qRDS "aws_rds_storage_provisioned_iops" "aws_rds_storage_provisioned_iops" [];
  qRDS "aws_rds_allocated_storage_gibibytes" "aws_rds_allocated_storage_gibibytes" [];
  qRDS "aws_rds_fs_total_bytes" ("aws_rds_fs_total_bytes{mount_point=" ++ dq ++ "/rdsdbdata" ++ dq ++ "}") [];
  qRDS "aws_rds_fs_used_bytes" ("aws_rds_fs_used_bytes{mount_point=" ++ dq ++ "/rdsdbdata" ++ dq ++ "}") [];
  WithFillFunc FillMax (qRDS "aws_rds_io_util_percent" "aws_rds_io_util_percent" ["device"]%list);
  WithFillFunc FillAvg (qRDS "aws_rds_io_ops_per_second" "aws_rds_io_ops_per_second" ["device"; "operation"]%list);
  WithFillFunc FillMax (qRDS "aws_rds_io_await_seconds" "aws_rds_io_await_seconds" ["device"]%list);
  WithFillFunc FillAvg (qRDS "aws_rds_net_rx_bytes_per_second" "aws_rds_net_rx_bytes_per_second" ["interface"]%list);
  WithFillFunc FillAvg (qRDS "aws_rds_net_tx_bytes_per_second" "aws_rds_net_tx_bytes_per_second" ["interface"]%list);
  qRDS "aws_rds_log_messages_total" "aws_rds_log_messages_total % 10000000" ["level"; "pattern_hash"; "sample"; "job"; "instance"];
  Q "aws_elasticache_info" "aws_elasticache_info" ["ec_instance_id"; "cluster_id"; "ipv4"; "port"; "engine"; "engine_version"; "instance_type"; "region"; "availability_zone"];
  Q "aws_elasticache_status" "aws_elasticache_status" ["ec_instance_id"; "status"]].

Definition pg_queries : list Query := [
  qDB "pg_up" "pg_up" [];
  qDB "pg_scrape_error" "pg_scrape_error" ["error"; "warning"];
  qDB "pg_info" "pg_info" ["server_version"];
  qDB "pg_setting" "pg_setting" ["name"; "unit"];
  WithFillFunc FillMax (qDB "pg_connections" ("pg_connections{db!=" ++ dq ++ "postgres" ++ dq ++ "}") ["db"; "user"; "state"; "query"; "wait_event_type"]%list);
  WithFillFunc FillMax (qDB "pg_lock_awaiting_queries" "pg_lock_awaiting_queries" ["db"; "user"; "blocking_query"]%list);
  WithFillFunc FillAvg (qDB "pg_latency_seconds" "pg_latency_seconds" ["summary"]%list);
  WithFillFunc FillAvg (qDB "pg_top_query_calls_per_second" "pg_top_query_calls_per_second" ["db"; "user"; "query"]%list);
  WithFillFunc FillAvg (qDB "pg_top_query_time_per_second" "pg_top_query_time_per_second" ["db"; "user"; "query"]%list);
  WithFillFunc FillAvg (qDB "pg_top_query_io_time_per_second" "pg_top_query_io_time_per_second" ["db"; "user"; "query"]%list);
  WithFillFunc FillAvg (qDB "pg_db_queries_per_second" "pg_db_queries_per_second" ["db"]%list);
  qDB "pg_wal_current_lsn" "pg_wal_current_lsn" [];
  qDB "pg_wal_throughput" "rate(pg_wal_current_lsn[$RANGE]) or rate(pg_wal_receive_lsn[$RANGE])" [];
  qDB "pg_wal_receive_lsn" "pg_wal_receive_lsn" [];
  qDB "pg_wal_reply_lsn" "pg_wal_reply_lsn" [];
  qDB "pg_wal_replay_paused" "pg_wal_replay_paused" [];
  qDB "pg_wal_receiver_status" "pg_wal_receiver_status" [];
  qDB "pg_wal_size_bytes" "pg_wal_size_bytes" [];
  qDB "pg_replication_slot_retained_wal_bytes" "pg_replication_slot_retained_wal_bytes" ["slot"; "active"; "wal_status"];
  qDB "pg_wal_archived_segments_total" "pg_wal_archived_segments_total" ["job"];
  qDB "pg_wal_archive_failures_total" "pg_wal_archive_failures_total" ["job"];
  qDB "pg_wal_archiving_status" "pg_wal_archiving_status" [];
  qDB "pg_xid_age" "pg_xid_age" ["db"];
  qDB "pg_multixact_age" "pg_multixact_age" ["db"];
  qDB "pg_oldest_xmin_age" "pg_oldest_xmin_age" ["holder"];
  qDB "pg_database_size_bytes" "pg_database_size_bytes" ["db"];
  qDB "pg_table_size_bytes" "pg_table_size_bytes" ["db"; "table"];
  qDB "pg_db_table_bloat_bytes" "pg_db_table_bloat_bytes" ["db"];
  qDB "pg_db_index_bloat_bytes" "pg_db_index_bloat_bytes" ["db"];
  qDB "pg_table_bloat_bytes" "pg_table_bloat_bytes" ["db"; "table"];
  qDB "pg_index_bloat_bytes" "pg_index_bloat_bytes" ["db"; "table"; "index"];
  qDB "pg_table_dead_tuple_bytes" "pg_table_dead_tuple_bytes" ["db"; "table"];
  qDB "pg_table_dead_tuples" "pg_table_dead_tuples" ["db"; "table"];
  qDB "pg_table_live_tuples" "pg_table_live_tuples" ["db"; "table"];
  qDB "pg_table_seconds_since_last_autovacuum" "pg_table_seconds_since_last_autovacuum" ["db"; "table"];
  qDB "pg_table_setting" "pg_table_setting" ["db"; "table"; "autovacuum_disabled"; "autovacuum_vacuum_scale_factor"; "autovacuum_vacuum_threshold"; "autovacuum_vacuum_cost_delay"; "autovacuum_vacuum_cost_limit"; "autovacuum_analyze_scale_factor"; "autovacuum_analyze_threshold"];
  qDB "pg_autovacuum_workers" "pg_autovacuum_workers" [];
  qDB "pg_table_vacuum_in_progress" "pg_table_vacuum_in_progress" ["db"; "table"];
  qDB "pg_table_vacuum_throttled" "pg_table_vacuum_throttled" ["db"; "table"];
  qDB "pg_table_mods_since_analyze" "pg_table_mods_since_analyze" ["db"; "table"];
  qDB "pg_table_reltuples" "pg_table_reltuples" ["db"; "table"];
  qDB "pg_table_seconds_since_last_analyze" "pg_table_seconds_since_last_analyze" ["db"; "table"];
  qDB "pg_checkpoints_scheduled_total" "pg_checkpoints_scheduled_total" ["type"; "job"];
  qDB "pg_checkpoints_total" "pg_checkpoints_total" ["job"];
  qDB "pg_restartpoints_total" "pg_restartpoints_total" ["job"];
  qDB "pg_buffers_written_total" "rate(pg_buffers_written_total[$RANGE])" ["source"];
  qDB "pg_time_since_last_checkpoint_seconds" "pg_time_since_last_checkpoint_seconds" [];
  qDB "pg_wal_since_last_checkpoint_bytes" "pg_wal_since_last_checkpoint_bytes" []].

Definition mysql_redis_queries : list Query := [
  qDB "mysql_up" "mysql_up" [];
  qDB "mysql_scrape_error" "mysql_scrape_error" ["error"; "warning"];
  qDB "mysql_info" "mysql_info" ["server_uuid"; "server_version"];
  WithFillFunc FillAvg (qDB "mysql_top_query_calls_per_second" "mysql_top_query_calls_per_second" ["schema"; "query"]%list);
  WithFillFunc FillAvg (qDB "mysql_top_query_time_per_second" "mysql_top_query_time_per_second" ["schema"; "query"]%list);
  WithFillFunc FillAvg (qDB "mysql_top_query_lock_time_per_second" "mysql_top_query_lock_time_per_second" ["schema"; "query"]%list);
  WithFillFunc FillMax (qDB "mysql_locked_queries" "mysql_locked_queries" ["schema"; "query"]%list);
  WithFillFunc FillMax (qDB "mysql_lock_awaiting_queries" "mysql_lock_awaiting_queries" ["schema"; "blocking_query"]%list);
  qDB "mysql_replication_io_status" "mysql_replication_io_status" ["source_server_uuid"; "last_error"; "state"];
  qDB "mysql_replication_sql_status" "mysql_replication_sql_status" ["source_server_uuid"; "last_error"; "state"];
  WithFillFunc FillMax (qDB "mysql_replication_lag_seconds" "mysql_replication_lag_seconds" ["source_server_uuid"]%list);
  qDB "mysql_connections_max" "mysql_connections_max" [];
  WithFillFunc FillMax (qDB "mysql_connections_current" "mysql_connections_current" []);
  qDB "mysql_connections_total" "rate(mysql_connections_total[$RANGE])" [];
  qDB "mysql_connections_aborted_total" "rate(mysql_connections_aborted_total[$RANGE])" [];
  qDB "mysql_traffic_received_bytes_total" "rate(mysql_traffic_received_bytes_total[$RANGE])" [];
  qDB "mysql_traffic_sent_bytes_total" "rate(mysql_traffic_sent_bytes_total[$RANGE])" [];
  qDB "mysql_queries_total" "rate(mysql_queries_total[$RANGE])" [];
  qDB "mysql_slow_queries_total" "rate(mysql_slow_queries_total[$RANGE])" [];
  WithFillFunc FillAvg (qDB "mysql_top_table_io_wait_time_per_second" "mysql_top_table_io_wait_time_per_second" ["schema"; "table"; "operation"]%list);
  qDB "mysql_database_size_bytes" "mysql_database_size_bytes" ["db"];
  qDB "mysql_table_size_bytes" "mysql_table_size_bytes" ["db"; "table"];
  qDB "redis_up" "redis_up" [];
  qDB "redis_scrape_error" "redis_exporter_last_scrape_error" ["err"];
  qDB "redis_instance_info" "redis_instance_info" ["redis_version"; "role"];
  qDB "redis_commands_duration_seconds_total" "rate(redis_commands_duration_seconds_total[$RANGE])" ["cmd"];
  qDB "redis_commands_total" "rate(redis_commands_total[$RANGE])" ["cmd"];
  qDB "redis_db_keys" "redis_db_keys" ["db"];
  qDB "redis_db_keys_expiring" "redis_db_keys_expiring" ["db"]].

Definition mongo_queries : list Query := [
  qDB "mongo_up" "mongo_up" [];
  qDB "mongo_scrape_error" "mongo_scrape_error" ["error"; "warning"];
  qDB "mongo_info" "mongo_info" ["server_version"; "flavor"];
  qDB "mongo_rs_status" "mongo_rs_status" ["rs"; "role"];
  qDB "mongo_rs_last_applied_timestamp_ms" "time() - mongo_rs_last_applied_timestamp_ms/1000" [];
  qDB "mongo_rs_member_status" "mongo_rs_member_status" ["rs"; "member"; "state"];
  WithFillFunc FillMax (qDB "mongo_rs_member_replication_lag_seconds" "mongo_rs_member_replication_lag_seconds" ["rs"; "member"]%list);
  qDB "mongo_rs_member_config_info" "mongo_rs_member_config_info" ["rs"; "member"; "arbiter"; "votes"];
  qDB "mongo_rs_config_info" "mongo_rs_config_info" ["rs"; "write_concern_majority_journal_default"];
  qDB "mongo_profiling_level" "mongo_profiling_level" ["db"];
  qDB "mongo_oplog_window_seconds" "mongo_oplog_window_seconds" [];
  qDB "mongo_oplog_size_bytes" "mongo_oplog_size_bytes" [];
  qDB "mongo_oplog_max_size_bytes" "mongo_oplog_max_size_bytes" [];
  WithFillFunc FillMax (qDB "mongo_connections_current" "mongo_connections_current" []);
  WithFillFunc FillMax (qDB "mongo_connections_active" "mongo_connections_active" []);
  qDB "mongo_connections_max" "mongo_connections_max" [];
  qDB "mongo_connections_created_total" "rate(mongo_connections_created_total[$RANGE])" [];
  qDB "mongo_connections_rejected_total" "rate(mongo_connections_rejected_total[$RANGE])" [];
  qDB "mongo_connections_by_app" "mongo_connections_by_app" ["app"];
  WithFillFunc FillMax (qDB "mongo_open_transactions" "mongo_open_transactions" ["app"]%list);
  qDB "mongo_opcounters_total" "rate(mongo_opcounters_total[$RANGE])" ["op"];
  qDB "mongo_documents_returned_total" "rate(mongo_documents_returned_total[$RANGE])" [];
  qDB "mongo_op_latency_seconds_total" "rate(mongo_op_latency_seconds_total[$RANGE])" ["type"];
  qDB "mongo_op_latency_ops_total" "rate(mongo_op_latency_ops_total[$RANGE])" ["type"];
  WithFillFunc FillMax (qDB "mongo_queued_operations" "mongo_queued_operations" ["type"]%list);
  qDB "mongo_wt_tickets_available" "mongo_wt_tickets_available" ["type"];
  WithFillFunc FillMax (qDB "mongo_wt_cache_used_bytes" "mongo_wt_cache_used_bytes" []);
  WithFillFunc FillMax (qDB "mongo_wt_cache_dirty_bytes" "mongo_wt_cache_dirty_bytes" []);
  qDB "mongo_wt_cache_max_bytes" "mongo_wt_cache_max_bytes" [];
  qDB "mongo_wt_pages_evicted_by_app_threads_total" "rate(mongo_wt_pages_evicted_by_app_threads_total[$RANGE])" [];
  qDB "mongo_wt_app_threads_evicting_seconds_total" "rate(mongo_wt_app_threads_evicting_seconds_total[$RANGE])" [];
  qDB "mongo_wt_checkpoints_total" "rate(mongo_wt_checkpoints_total[$RANGE])" [];
  qDB "mongo_wt_checkpoint_seconds_total" "rate(mongo_wt_checkpoint_seconds_total[$RANGE])" [];
  qDB "mongo_wt_journal_bytes_written_total" "rate(mongo_wt_journal_bytes_written_total[$RANGE])" [];
  qDB "mongo_wt_journal_bytes_since_checkpoint" "mongo_wt_journal_bytes_since_checkpoint" [];
  qDB "mongo_time_since_last_checkpoint_seconds" "mongo_time_since_last_checkpoint_seconds" [];
  qDB "mongo_scanned_keys_total" "rate(mongo_scanned_keys_total[$RANGE])" [];
  qDB "mongo_scanned_documents_total" "rate(mongo_scanned_documents_total[$RANGE])" [];
  qDB "mongo_collection_scans_total" "rate(mongo_collection_scans_total[$RANGE])" [];
  qDB "mongo_scan_and_order_total" "rate(mongo_scan_and_order_total[$RANGE])" [];
  qDB "mongo_ttl_deleted_documents_total" "rate(mongo_ttl_deleted_documents_total[$RANGE])" [];
  qDB "mongo_flow_control_time_acquiring_seconds_total" "rate(mongo_flow_control_time_acquiring_seconds_total[$RANGE])" [];
  qDB "mongo_write_conflicts_total" "rate(mongo_write_conflicts_total[$RANGE])" [];
  qDB "mongo_wt_cache_bytes_read_into_total" "rate(mongo_wt_cache_bytes_read_into_total[$RANGE])" [];
  qDB "mongo_repl_apply_ops_total" "rate(mongo_repl_apply_ops_total[$RANGE])" [];
  qDB "mongo_repl_buffer_operations" "mongo_repl_buffer_operations" [];
  qDB "mongo_repl_buffer_bytes" "mongo_repl_buffer_bytes" [];
  qDB "mongo_cursors_open" "mongo_cursors_open" [];
  qDB "mongo_cursors_open_no_timeout" "mongo_cursors_open_no_timeout" [];
  qDB "mongo_cursors_timed_out_total" "rate(mongo_cursors_timed_out_total[$RANGE])" [];
  qDB "mongo_fsync_locked" "mongo_fsync_locked" [];
  qDB "mongo_prepared_transactions" "mongo_prepared_transactions" [];
  WithFillFunc FillAvg (qDB "mongo_top_query_calls_per_second" "mongo_top_query_calls_per_second" ["db"; "collection"; "query"]%list);
  WithFillFunc FillAvg (qDB "mongo_top_query_time_per_second" "mongo_top_query_time_per_second" ["db"; "collection"; "query"]%list);
  WithFillFunc FillAvg (qDB "mongo_top_query_docs_returned_per_second" "mongo_top_query_docs_returned_per_second" ["db"; "collection"; "query"]%list);
  WithFillFunc FillAvg (qDB "mongo_top_query_docs_examined_per_second" "mongo_top_query_docs_examined_per_second" ["db"; "collection"; "query"]%list);
  WithFillFunc FillAvg (qDB "mongo_top_query_keys_examined_per_second" "mongo_top_query_keys_examined_per_second" ["db"; "collection"; "query"]%list);
  WithFillFunc FillMax (qDB "mongo_operations_waiting_for_lock" "mongo_operations_waiting_for_lock" ["db"]%list);
  WithFillFunc FillMax (qDB "mongo_long_running_operations" "mongo_long_running_operations" ["db"; "collection"; "query"; "plan"]%list);
  qDB "mongo_database_size_bytes" "mongo_database_size_bytes" ["db"];
  qDB "mongo_collection_size_bytes" "mongo_collection_size_bytes" ["db"; "collection"];
  qDB "mongo_collection_storage_size_bytes" "mongo_collection_storage_size_bytes" ["db"; "collection"];
  qDB "mongo_collection_free_storage_bytes" "mongo_collection_free_storage_bytes" ["db"; "collection"];
  qDB "mongo_collection_documents" "mongo_collection_documents" ["db"; "collection"]].

Definition runtime_queries : list Query := [
  qDB "memcached_up" "memcached_up" [];
  qDB "memcached_version" "memcached_version" ["version"];
  qDB "memcached_limit_bytes" "memcached_limit_bytes" [];
  qDB "memcached_items_evicted_total" "rate(memcached_items_evicted_total[$RANGE])" [];
  qDB "memcached_commands_total" "rate(memcached_commands_total[$RANGE])" ["command"; "status"];
  qJVM "container_jvm_info" "container_jvm_info" ["java_version"];
  WithFillFunc FillMax (qJVM "container_jvm_heap_used_bytes" "container_jvm_heap_used_bytes" []);
  qJVM "container_jvm_gc_time_seconds" "rate(container_jvm_gc_time_seconds[$RANGE])" ["gc"];
  qJVM "container_jvm_safepoint_time_seconds" "rate(container_jvm_safepoint_time_seconds[$RANGE])" [];
  qJVM "container_jvm_safepoint_sync_time_seconds" "rate(container_jvm_safepoint_sync_time_seconds[$RANGE])" [];
  qJVM "container_jvm_heap_max_size_bytes" "container_jvm_heap_max_size_bytes" [];
  qJVM "container_jvm_alloc_bytes_total" "rate(container_jvm_alloc_bytes_total[$RANGE])" [];
  qJVM "container_jvm_alloc_objects_total" "rate(container_jvm_alloc_objects_total[$RANGE])" [];
  qJVM "container_jvm_lock_contentions_total" "rate(container_jvm_lock_contentions_total[$RANGE])" [];
  qJVM "container_jvm_lock_time_seconds_total" "rate(container_jvm_lock_time_seconds_total[$RANGE])" [];
  qJVM "container_jvm_profiling_status" "container_jvm_profiling_status" [];
  Q "container_go_alloc_bytes_total" "rate(container_go_alloc_bytes_total[$RANGE])" [];
  Q "container_go_alloc_objects_total" "rate(container_go_alloc_objects_total[$RANGE])" [];
  qDotNet "container_dotnet_info" "container_dotnet_info" ["runtime_version"];
  qDotNet "container_dotnet_memory_allocated_bytes_total" "rate(container_dotnet_memory_allocated_bytes_total[$RANGE])" [];
  qDotNet "container_dotnet_exceptions_total" "rate(container_dotnet_exceptions_total[$RANGE])" [];
  WithFillFunc FillMax (qDotNet "container_dotnet_memory_heap_size_bytes" "container_dotnet_memory_heap_size_bytes" ["generation"]%list);
  qDotNet "container_dotnet_gc_count_total" "rate(container_dotnet_gc_count_total[$RANGE])" ["generation"];
  qDotNet "container_dotnet_heap_fragmentation_percent" "container_dotnet_heap_fragmentation_percent" [];
  qDotNet "container_dotnet_monitor_lock_contentions_total" "rate(container_dotnet_monitor_lock_contentions_total[$RANGE])" [];
  qDotNet "container_dotnet_thread_pool_completed_items_total" "rate(container_dotnet_thread_pool_completed_items_total[$RANGE])" [];
  WithFillFunc FillMax (qDotNet "container_dotnet_thread_pool_queue_length" "container_dotnet_thread_pool_queue_length" []);
  qDotNet "container_dotnet_thread_pool_size" "container_dotnet_thread_pool_size" [];
  Q "container_python_thread_lock_wait_time_seconds" "rate(container_python_thread_lock_wait_time_seconds[$RANGE])" [];
  Q "container_nodejs_event_loop_blocked_time_seconds" "rate(container_nodejs_event_loop_blocked_time_seconds_total[$RANGE])" []].

Definition flux_queries : list Query := [
  qPod "fluxcd_git_repository_info" "fluxcd_git_repository_info" ["name"; "namespace"; "suspended"; "url"; "interval"];
  qPod "fluxcd_git_repository_status" "fluxcd_git_repository_status" ["name"; "namespace"; "type"; "reason"];
  qPod "fluxcd_oci_repository_info" "fluxcd_oci_repository_info" ["name"; "namespace"; "suspended"; "url"; "interval"];
  qPod "fluxcd_oci_repository_status" "fluxcd_oci_repository_status" ["name"; "namespace"; "type"; "reason"];
  qPod "fluxcd_helm_repository_info" "fluxcd_helm_repository_info" ["name"; "namespace"; "suspended"; "url"; "interval"];
  qPod "fluxcd_helm_repository_status" "fluxcd_helm_repository_status" ["name"; "namespace"; "type"; "reason"];
  qPod "fluxcd_helm_chart_info" "fluxcd_helm_chart_info" ["name"; "namespace"; "suspended"; "chart"; "interval"; "version"; "source_kind"; "source_name"; "source_namespace"];
  qPod "fluxcd_helm_chart_status" "fluxcd_helm_chart_status" ["name"; "namespace"; "type"; "reason"];
  qPod "fluxcd_helm_release_info" "fluxcd_helm_release_info" ["name"; "namespace"; "suspended"; "chart"; "interval"; "version"; "source_kind"; "source_name"; "source_namespace"; "chart_ref_kind"; "chart_ref_name"; "chart_ref_namespace"; "target_namespace"];
  qPod "fluxcd_helm_release_status" "fluxcd_helm_release_status" ["name"; "namespace"; "type"; "reason"];
  qPod "fluxcd_kustomization_info" "fluxcd_kustomization_info" ["name"; "namespace"; "suspended"; "interval"; "path"; "source_kind"; "source_name"; "source_namespace"; "target_namespace"; "last_applied_revision"; "last_attempted_revision"];
  qPod "fluxcd_kustomization_status" "fluxcd_kustomization_status" ["name"; "namespace"; "type"; "reason"];
  qPod "fluxcd_kustomization_dependency_info" "fluxcd_kustomization_dependency_info" ["name"; "namespace"; "depends_on_name"; "depends_on_namespace"];
  qPod "fluxcd_kustomization_inventory_entry_info" "fluxcd_kustomization_inventory_entry_info" ["name"; "namespace"; "entry_id"];
  qPod "fluxcd_resourceset_info" "fluxcd_resourceset_info" ["name"; "namespace"; "last_applied_revision"];
  qPod "fluxcd_resourceset_status" "fluxcd_resourceset_status" ["name"; "namespace"; "type"; "reason"];
  qPod "fluxcd_resourceset_dependency_info" "fluxcd_resourceset_dependency_info" ["name"; "namespace"; "depends_on_name"; "depends_on_namespace"; "depends_on_kind"];
  qPod "fluxcd_resourceset_inventory_entry_info" "fluxcd_resourceset_inventory_entry_info" ["name"; "namespace"; "entry_id"]].

Definition argocd_queries : list Query := [
  qPod "argocd_application_info" "argocd_application_info" ["name"; "namespace"; "project"; "source_type"; "repo"; "path"; "chart"; "dest_server"; "dest_name"; "dest_namespace"];
  qPod "argocd_application_sync_status" "argocd_application_sync_status" ["name"; "namespace"; "sync_status"];
  qPod "argocd_application_health_status" "argocd_application_health_status" ["name"; "namespace"; "health_status"];
  qPod "argocd_application_operation_status" "argocd_application_operation_status" ["name"; "namespace"; "operation_phase"];
  qPod "argocd_application_operation_finished_timestamp_seconds" "argocd_application_operation_finished_timestamp_seconds" ["name"; "namespace"];
  qPod "argocd_application_resource_info" "argocd_application_resource_info" ["name"; "namespace"; "resource_group"; "resource_kind"; "resource_namespace"; "resource_name"];
  qPod "argocd_application_resource_sync_status" "argocd_application_resource_sync_status" ["name"; "namespace"; "resource_group"; "resource_kind"; "resource_namespace"; "resource_name"; "sync_status"];
  qPod "argocd_application_resource_status" "argocd_application_resource_status" ["name"; "namespace"; "resource_group"; "resource_kind"; "resource_namespace"; "resource_name"; "status"];
  qPod "argocd_application_resource_health_status" "argocd_application_resource_health_status" ["name"; "namespace"; "resource_group"; "resource_kind"; "resource_namespace"; "resource_name"; "health_status"]].

Definition backup_queries : list Query := [
  qPod "pg_backup_target_info" "pg_backup_target_info" ["name"; "namespace"; "operator"; "method"; "path"; "endpoint"; "s3_bucket"; "s3_endpoint"; "gcs_bucket"; "azure_container"; "schedule"; "retention_policy"];
  qPod "pg_cluster_status" "pg_cluster_status" ["name"; "namespace"; "operator"; "type"; "status"; "reason"];
  qPod "pg_backup_last_successful_timestamp_seconds" "pg_backup_last_successful_timestamp_seconds" ["name"; "namespace"; "operator"; "method"];
  qPod "pg_backup_first_recoverability_point_timestamp_seconds" "pg_backup_first_recoverability_point_timestamp_seconds" ["name"; "namespace"; "operator"; "method"];
  qPod "pg_backup_last_failed_timestamp_seconds" "pg_backup_last_failed_timestamp_seconds" ["name"; "namespace"; "operator"];
  qPod "pg_backup_schedule_info" "pg_backup_schedule_info" ["name"; "namespace"; "operator"; "cluster"; "schedule"];
  qPod "pg_backup_next_scheduled_timestamp_seconds" "pg_backup_next_scheduled_timestamp_seconds" ["name"; "namespace"; "operator"; "cluster"];
  qPod "pg_backup_info" "pg_backup_info" ["name"; "namespace"; "operator"; "cluster"; "method"; "kind"; "path"];
  qPod "pg_backup_status" "pg_backup_status" ["name"; "namespace"; "operator"; "status"];
  qPod "pg_backup_completed_timestamp_seconds" "pg_backup_completed_timestamp_seconds" ["name"; "namespace"; "operator"; "cluster"];
  qPod "mongo_backup_target_info" "mongo_backup_target_info" ["name"; "namespace"; "operator"; "method"; "s3_bucket"; "s3_endpoint"; "s3_prefix"; "azure_container"];
  qPod "mongo_backup_schedule_info" "mongo_backup_schedule_info" ["name"; "namespace"; "operator"; "task"; "schedule"; "method"; "kind"; "enabled"];
  qPod "mongo_backup_pitr_info" "mongo_backup_pitr_info" ["name"; "namespace"; "operator"; "enabled"];
  qPod "mongo_cluster_status" "mongo_cluster_status" ["name"; "namespace"; "operator"; "status"];
  qPod "mongo_backup_info" "mongo_backup_info" ["name"; "namespace"; "operator"; "cluster"; "method"; "kind"; "path"];
  qPod "mongo_backup_status" "mongo_backup_status" ["name"; "namespace"; "operator"; "status"];
  qPod "mongo_backup_completed_timestamp_seconds" "mongo_backup_completed_timestamp_seconds" ["name"; "namespace"; "operator"]].

Definition QUERIES : list Query :=
  List.concat [node_queries; fargate_queries; kube_queries; container_queries; connection_queries; l7_queries; inbound_queries; aws_queries; pg_queries; mysql_redis_queries; mongo_queries; runtime_queries; flux_queries; argocd_queries; backup_queries].

(** * EvaluatedQueries *)
Definition Total (cfg : CheckConfigSLOAvailability) : string := "sum(rate(" ++ ca_TotalRequestsQuery cfg ++ "[$RANGE]))".
Definition Failed (cfg : CheckConfigSLOAvailability) : string := "sum(rate(" ++ ca_FailedRequestsQuery cfg ++ "[$RANGE]))".
Definition Histogram (cfg : CheckConfigSLOLatency) : string := "sum by(le)(rate(" ++ cl_HistogramQuery cfg ++ "[$RANGE]))".

(** The custom queries of one application. *)
Definition custom_queries (project : Project) (checkConfigs : CheckConfigs) (appId : ApplicationId) : list Query :=
  let '(availabilityCfg, _) := GetAvailability checkConfigs appId in
  let '(latencyCfg, _) := GetLatency checkConfigs appId (CalcApplicationCategory project appId) in
  ((if ca_Custom availabilityCfg then [Q "" (Total availabilityCfg) []; Q "" (Failed availabilityCfg) []] else [])
   ++ (if cl_Custom latencyCfg then [Q "" (Histogram latencyCfg) ["le"]] else []))%list.

(** [checkConfigs] in the order it is visited. *)
Definition EvaluatedQueries (project : Project) (checkConfigs : CheckConfigs) : list Query :=
  (QUERIES ++ List.concat (map (λ e, custom_queries project checkConfigs (fst e)) checkConfigs))%list.

(** * constructor/constructor.go: queryResults *)

(** ResultsStep: the step of the stored results. *)
Definition ResultsStep : Z := 15 * Time.Second.

Definition sliSuffix : string := "_sli".
Definition sliRawSuffix : string := "_raw".

(** The options of a load. *)
Record Options := {
  OptionLoadInstanceToInstanceConnections : bool;
  OptionLoadRawSLIs : bool;
  OptionLoadContainerLogs : bool
}.

Record QueryRequest := {
  rq_Query : string;
  rq_From : Z;
  rq_To : Z;
  rq_Step : Z;
  rq_FillFunc : option FillFunc
}.

(** The window of a load, at the world's step and at the raw one. *)
Record load_window := { lw_from : Z; lw_to : Z; lw_step : Z; lw_rawFrom : Z; lw_rawTo : Z }.
Definition load_window_of (from to step : Z) : outcome load_window :=
  let t := Time.Add to (wrap64 (- MaxAlertRuleWindow)) in
  let* rawFrom := Time.Truncate (if Time.Before t from then t else from) ResultsStep in
  let* rawTo := Time.Truncate to ResultsStep in
  let* from := Time.Ceil from step in
  let* to := Time.Ceil to step in
  Ret {| lw_from := from; lw_to := to; lw_step := step; lw_rawFrom := rawFrom; lw_rawTo := rawTo |}.

(** [addRequest]: no fill function means [FillAny]. *)
Definition request (query : string) (from to step : Z) (f : option FillFunc) : QueryRequest :=
  {| rq_Query := query; rq_From := from; rq_To := to; rq_Step := step; rq_FillFunc := Some (default FillAny f) |}.

(** [addQuery]: the requests made under a name, in order. *)
Definition addQuery (o : Options) (lw : load_window) (name query : string) (sli : bool) (f : option FillFunc)
  : list (string * QueryRequest) :=
  if sli then
    ((name ++ sliSuffix)%string, request query (lw_from lw) (lw_to lw) (lw_step lw) (Some FillAvg))
      :: (if OptionLoadRawSLIs o
          then [((name ++ sliRawSuffix)%string, request query (lw_rawFrom lw) (lw_rawTo lw) ResultsStep None)] else [])
  else [(name, request query (lw_from lw) (lw_to lw) (lw_step lw) f)].

(** One of the QUERIES. *)
Definition query_requests (o : Options) (lw : load_window) (q : Query) : list (string * QueryRequest) :=
  if negb (OptionLoadInstanceToInstanceConnections o) && q_InstanceToInstance q then []
  else if negb (OptionLoadContainerLogs o) && String.eqb (q_Name q) "container_log_messages" then
    addQuery o lw qRecordingRuleApplicationLogMessages qRecordingRuleApplicationLogMessages false (Some FillSum)
  else addQuery o lw (q_Name q) (q_Query q) false (q_FillFunc q).

(** The recording rules that stand in for the connections of the instances. *)
Definition sli_rules : list string :=
  [qRecordingRuleApplicationL7Requests; qRecordingRuleApplicationL7Histogram;
   qRecordingRuleApplicationL7InboundRequests; qRecordingRuleApplicationL7InboundHistogram].
Definition rule_requests (o : Options) (lw : load_window) : list (string * QueryRequest) :=
  if OptionLoadInstanceToInstanceConnections o then []
  else ((qConnectionAggregations ≫= λ '(query, f), addQuery o lw query query false (Some f))
        ++ (sli_rules ≫= λ query, addQuery o lw query query true None))%list.

(** The custom SLIs of one application. *)
Definition custom_requests (o : Options) (lw : load_window) (project : Project) (checkConfigs : CheckConfigs) (appId : ApplicationId)
  : list (string * QueryRequest) :=
  let qName := (qApplicationCustomSLI ++ "/" ++ AppIdString appId ++ "/")%string in
  let '(availabilityCfg, _) := GetAvailability checkConfigs appId in
  let '(latencyCfg, _) := GetLatency checkConfigs appId (CalcApplicationCategory project appId) in
  ((if ca_Custom availabilityCfg then
      addQuery o lw (qName ++ "total_requests") (Total availabilityCfg) true None
      ++ addQuery o lw (qName ++ "failed_requests") (Failed availabilityCfg) true None
    else [])
   ++ (if cl_Custom latencyCfg then addQuery o lw (qName ++ "requests_histogram") (Histogram latencyCfg) true None else []))%list.

(** What is put into [requests], in order; and the map. *)
Definition request_list (o : Options) (lw : load_window) (project : Project) (checkConfigs : CheckConfigs) : list (string * QueryRequest) :=
  ((QUERIES ≫= query_requests o lw) ++ rule_requests o lw
   ++ (checkConfigs ≫= λ e, custom_requests o lw project checkConfigs (fst e)))%list.
Definition requests_of (l : list (string * QueryRequest)) : gmap string QueryRequest :=
  foldl (λ m '(name, r), <[name := r]> m) ∅ l.

(** [queryResults], up to the read of the results. *)
Definition queryRequests (o : Options) (project : Project) (from to step : Z) (checkConfigs : CheckConfigs)
  : outcome (gmap string QueryRequest) :=
  let* lw := load_window_of from to step in
  Ret (requests_of (request_list o lw project checkConfigs)).

(** * Facts *)
Module QueriesFacts.

(** A list is without duplicates when no two neighbours of its sorted form are equal. *)
Fixpoint neighbours_differ (l : list string) : bool :=
  match l with
  | x :: (y :: _) as l' => negb (String.eqb x y) && neighbours_differ l'
  | _ => true
  end.

Lemma neighbours_NoDup (l : list string) : neighbours_differ (StringSet.sort_strings l) = true → NoDup l.
Proof.
  intros Hd. cut (NoDup (StringSet.sort_strings l)).
  { unfold StringSet.sort_strings. by rewrite merge_sort_Permutation. }
  pose proof (CategoriesFacts.sort_strings_sorted l) as Hs. revert Hd Hs. generalize (StringSet.sort_strings l) as k.
  induction k as [|x [|y k] IH]; intros Hd Hs; [constructor|apply NoDup_singleton|].
  cbn [neighbours_differ] in Hd. apply andb_true_iff in Hd as [Hne%negb_true_iff%String.eqb_neq Hd].
  apply StronglySorted_inv in Hs as [Hs Hx]. constructor; [|by apply IH].
  intros Hin. apply StronglySorted_inv in Hs as [_ Hy]. apply elem_of_cons in Hin as [->|Hin]; [done|].
  rewrite Forall_forall in Hx, Hy. apply Hne. apply (anti_symm String.le); [apply Hx; by left|by apply Hy].
Qed.

(** The names of the recording rules. *)
Definition rule_names : list string :=
  [qRecordingRuleApplicationLogMessages; qRecordingRuleApplicationTCPSuccessful; qRecordingRuleApplicationTCPActive;
   qRecordingRuleApplicationTCPFailed; qRecordingRuleApplicationTCPConnectionTime; qRecordingRuleApplicationTCPBytesSent;
   qRecordingRuleApplicationTCPBytesReceived; qRecordingRuleApplicationTCPRetransmissions; qRecordingRuleApplicationNetLatency;
   qRecordingRuleApplicationL7Requests; qRecordingRuleApplicationL7Latency; qRecordingRuleApplicationTraffic;
   qRecordingRuleApplicationL7Histogram; qRecordingRuleApplicationL7InboundRequests; qRecordingRuleApplicationL7InboundHistogram;
   qRecordingRuleApplicationCategories; qRecordingRuleApplicationSLO; qRecordingRuleApplicationExternalEndpoint;
   qRecordingRuleApplicationDNSRequests; qRecordingRuleApplicationDNSLatency].
Definition static_names : list string :=
  ((q_Name <$> QUERIES) ++ qRecordingRuleApplicationLogMessages :: qConnectionAggregations.*1
   ++ ((λ n, n ++ sliSuffix)%string <$> sli_rules) ++ ((λ n, n ++ sliRawSuffix)%string <$> sli_rules))%list.

Lemma static_names_NoDup : NoDup static_names.
Proof. apply neighbours_NoDup. lazy. reflexivity. Qed.

Lemma queries_NoDup : NoDup ((q_Query <$> QUERIES) ++ rule_names)%list.
Proof. apply neighbours_NoDup. lazy. reflexivity. Qed.

(** ** The table of queries *)

(** The parts of the table fit together: names and texts are unique, also against
    the recording rules, whose results share the store with them; a query of a
    rate is averaged over a wider step unless another function is asked for; the
    connections of instances, which are left out of a page, have the rules that
    stand in for them. *)
Theorem queries_wellformed :
  NoDup ((q_Name <$> QUERIES) ++ rule_names)%list
  ∧ NoDup ((q_Query <$> QUERIES) ++ rule_names)%list
  ∧ (∀ q, q ∈ QUERIES → Contains (q_Query q) "rate(" = true → q_FillFunc q = Some FillAvg ∨ q_FillFunc q = Some FillMax)
  ∧ (∀ q, q ∈ QUERIES → q_InstanceToInstance q = true → "app_id" ∈ q_Labels q)
  ∧ (∀ name, name ∈ (qConnectionAggregations.*1 ++ sli_rules)%list → name ∈ rule_names).
Proof.
  split_and!.
  - apply neighbours_NoDup. lazy. reflexivity.
  - exact queries_NoDup.
  - assert (H : forallb (λ q, negb (Contains (q_Query q) "rate(")
                  || bool_decide (q_FillFunc q = Some FillAvg) || bool_decide (q_FillFunc q = Some FillMax)) QUERIES = true) by (lazy; reflexivity).
    rewrite forallb_forall in H. intros q Hq Hc. apply list_elem_of_In, H in Hq. rewrite Hc in Hq. cbn in Hq.
    apply orb_true_iff in Hq as [?%bool_decide_eq_true|?%bool_decide_eq_true]; auto.
  - assert (H : forallb (λ q, negb (q_InstanceToInstance q) || bool_decide ("app_id" ∈ q_Labels q)) QUERIES = true) by (vm_compute; reflexivity).
    rewrite forallb_forall in H. intros q Hq Hi. apply list_elem_of_In, H in Hq. rewrite Hi in Hq. by apply bool_decide_eq_true in Hq.
  - assert (H : forallb (λ n, bool_decide (n ∈ rule_names)) (qConnectionAggregations.*1 ++ sli_rules)%list = true) by (vm_compute; reflexivity).
    rewrite forallb_forall in H. intros n Hn. apply list_elem_of_In, H in Hn. by apply bool_decide_eq_true in Hn.
Qed.

(** ** No request overwrites another *)
Lemma string_app_inv (a x b y : string) :
  (a ++ x = b ++ y)%string → ∃ z, (a = b ++ z ∧ y = z ++ x)%string ∨ (b = a ++ z ∧ x = z ++ y)%string.
Proof.
  revert b. induction a as [|c a IH]; intros b Heq; cbn in Heq; [exists b; by right|].
  destruct b as [|d b]; cbn in Heq; [exists (String c a); by left|].
  injection Heq as -> Heq. destruct (IH b Heq) as (z & [[-> ->]|[-> ->]]); exists z; auto.
Qed.

Lemma append_cancel (p a b : string) : (p ++ a = p ++ b)%string → a = b.
Proof. induction p as [|c p IH]; [done|]. rewrite !FilepathFacts.append_cons. by intros [= H%IH]. Qed.

Lemma requests_of_lookup (l : list (string * QueryRequest)) name r :
  NoDup l.*1 → requests_of l !! name = Some r ↔ (name, r) ∈ l.
Proof.
  unfold requests_of. intros Hn. assert (H : ∀ m : gmap string QueryRequest, (∀ n, n ∈ l.*1 → m !! n = None) →
    foldl (λ m '(name, r), <[name := r]> m) m l !! name = Some r ↔ (name, r) ∈ l ∨ m !! name = Some r); [|rewrite H; [set_solver|done]].
  revert Hn. induction l as [|[n q] l IH]; intros Hn m Hm; cbn; [set_solver|].
  apply NoDup_cons in Hn as [Hnot Hn]. cbn in Hnot. rewrite IH; [|done|].
  - rewrite elem_of_cons, lookup_insert_Some. split; [|intros [[[= -> ->]|?]|Hl]; auto].
    + intros [?|[[-> ->]|[_ ?]]]; auto.
    + right. right. split; [|done]. intros ->. rewrite Hm in Hl; [done|by left].
  - intros n' Hn'. rewrite lookup_insert_ne by (intros ->; done). apply Hm. by right.
Qed.

Lemma addQuery_names o lw name query sli f :
  (addQuery o lw name query sli f).*1
  = if sli then (name ++ sliSuffix)%string :: (if OptionLoadRawSLIs o then [(name ++ sliRawSuffix)%string] else []) else [name].
Proof. unfold addQuery. destruct sli; [|done]. by destruct (OptionLoadRawSLIs o). Qed.

(** The names of the requests, part by part. *)
Definition query_names (o : Options) (q : Query) : list string :=
  if negb (OptionLoadInstanceToInstanceConnections o) && q_InstanceToInstance q then []
  else if negb (OptionLoadContainerLogs o) && String.eqb (q_Name q) "container_log_messages" then [qRecordingRuleApplicationLogMessages]
  else [q_Name q].
Lemma query_requests_names o lw q : (query_requests o lw q).*1 = query_names o q.
Proof. unfold query_requests, query_names. repeat case_match; rewrite ?addQuery_names; done. Qed.

Lemma fmap_bind {A} (f : A → list (string * QueryRequest)) l : (l ≫= f).*1 = l ≫= λ x, (f x).*1.
Proof. induction l as [|x l IH]; [done|]. cbn. by rewrite fmap_app, IH. Qed.

Lemma query_name_cases o q name :
  name ∈ query_names o q → name = q_Name q ∨ (name = qRecordingRuleApplicationLogMessages ∧ q_Name q = "container_log_messages").
Proof.
  unfold query_names. destruct (_ && _); [intros Hn; by apply not_elem_of_nil in Hn|].
  destruct (negb (OptionLoadContainerLogs o)); cbn [andb];
    [destruct (String.eqb_spec (q_Name q) "container_log_messages")|]; intros Hn%list_elem_of_singleton; auto.
Qed.

Lemma query_names_NoDup o (qs : list Query) :
  NoDup (q_Name <$> qs) → qRecordingRuleApplicationLogMessages ∉ (q_Name <$> qs) → NoDup (qs ≫= query_names o).
Proof.
  induction qs as [|q qs IH]; intros Hn Hlog; [apply NoDup_nil_2|].
  apply NoDup_cons in Hn as [Hq Hn]. apply not_elem_of_cons in Hlog as [Hlogq Hlog].
  change (NoDup (query_names o q ++ (qs ≫= query_names o))). apply NoDup_app. split_and!; [| |by apply IH].
  - unfold query_names. repeat case_match; first [apply NoDup_nil_2|apply NoDup_singleton].
  - intros name Hname (q' & Hname' & Hq')%list_elem_of_bind.
    assert (Hin : q_Name q' ∈ (q_Name <$> qs)) by (by apply list_elem_of_fmap_2).
    apply query_name_cases in Hname as [->|[-> Hc]]; apply query_name_cases in Hname' as [Hn'|[Hn' Hc']].
    + apply Hq. by rewrite Hn'.
    + by apply Hlogq.
    + apply Hlog. by rewrite Hn'.
    + apply Hq. by rewrite Hc, <- Hc'.
Qed.

(** The names of the requests of one application, and of all the others. *)
Definition sli_names (o : Options) (name : string) : list string :=
  (name ++ sliSuffix)%string :: (if OptionLoadRawSLIs o then [(name ++ sliRawSuffix)%string] else []).
Definition custom_prefix : string := (qApplicationCustomSLI ++ "/")%string.
Definition custom_endings (o : Options) (cfgs : CheckConfigs) (project : Project) (appId : ApplicationId) : list string :=
  ((if ca_Custom (fst (GetAvailability cfgs appId)) then sli_names o "/total_requests" ++ sli_names o "/failed_requests" else [])
   ++ (if cl_Custom (fst (GetLatency cfgs appId (CalcApplicationCategory project appId))) then sli_names o "/requests_histogram" else []))%list.

Lemma custom_requests_names o lw project cfgs appId :
  (custom_requests o lw project cfgs appId).*1
  = (λ e, custom_prefix ++ AppIdString appId ++ e)%string <$> custom_endings o cfgs project appId.
Proof.
  unfold custom_requests, custom_endings, sli_names.
  destruct (GetAvailability cfgs appId) as [a ?], (GetLatency cfgs appId _) as [l ?]. cbn [fst].
  assert (Hassoc : ∀ e s, (((qApplicationCustomSLI ++ "/" ++ AppIdString appId ++ "/") ++ e) ++ s
    = custom_prefix ++ AppIdString appId ++ ("/" ++ e) ++ s)%string).
  { intros e s. unfold custom_prefix. rewrite <- !FilepathFacts.append_assoc. reflexivity. }
  rewrite fmap_app. destruct (ca_Custom a), (cl_Custom l), (OptionLoadRawSLIs o) eqn:Ho;
    rewrite ?fmap_app; unfold addQuery; rewrite ?Ho; cbn [fmap list_fmap fst app]; rewrite ?Hassoc; reflexivity.
Qed.

Lemma custom_endings_NoDup o cfgs project appId : NoDup (custom_endings o cfgs project appId).
Proof.
  apply neighbours_NoDup. unfold custom_endings, sli_names.
  destruct (ca_Custom _), (cl_Custom _), (OptionLoadRawSLIs o); reflexivity.
Qed.

(** The endings of two custom names tell their applications apart. *)
Definition all_endings : list string :=
  ["/total_requests_sli"; "/total_requests_raw"; "/failed_requests_sli"; "/failed_requests_raw";
   "/requests_histogram_sli"; "/requests_histogram_raw"].

Lemma custom_endings_all o cfgs project appId e : e ∈ custom_endings o cfgs project appId → e ∈ all_endings.
Proof.
  unfold custom_endings, sli_names, all_endings. rewrite !list_elem_of_In.
  destruct (ca_Custom _), (cl_Custom _), (OptionLoadRawSLIs o); cbn; tauto.
Qed.

Lemma ends_differ a b e e' : e ∈ all_endings → e' ∈ all_endings → (a ++ e = b ++ e')%string → a = b ∧ e = e'.
Proof.
  intros He He' Heq. apply string_app_inv in Heq as (z & [[-> Hz]|[-> Hz]]); unfold all_endings in He, He';
    (destruct z as [|c z]; [rewrite FilepathFacts.append_nil_r; auto|exfalso]);
    repeat (apply elem_of_cons in He as [->|He]); try (by apply not_elem_of_nil in He);
    repeat (apply elem_of_cons in He' as [->|He']); try (by apply not_elem_of_nil in He');
    rewrite FilepathFacts.append_cons in Hz; injection Hz as _ Hz;
    repeat (destruct z as [|? z]; [rewrite FilepathFacts.append_nil_l in Hz; discriminate Hz|]; rewrite FilepathFacts.append_cons in Hz;
            first [discriminate Hz|injection Hz as _ Hz]).
Qed.

Section requests.
Context (o : Options) (lw : load_window) (project : Project) (cfgs : CheckConfigs).

Definition rule_request_names : list string :=
  if OptionLoadInstanceToInstanceConnections o then [] else (qConnectionAggregations.*1 ++ (sli_rules ≫= sli_names o))%list.

Lemma rule_requests_names : (rule_requests o lw).*1 = rule_request_names.
Proof. unfold rule_requests, rule_request_names, sli_names. destruct (OptionLoadInstanceToInstanceConnections o), (OptionLoadRawSLIs o) eqn:Ho; cbn; rewrite ?Ho; reflexivity. Qed.

(** The names that do not depend on the project. *)
Definition fixed_names : list string := ((QUERIES ≫= query_names o) ++ rule_request_names)%list.

Lemma fixed_names_NoDup : NoDup fixed_names.
Proof.
  pose proof static_names_NoDup as Hs. unfold static_names in Hs. apply NoDup_app in Hs as (Hq & Hqr & Hr).
  apply NoDup_cons in Hr as [Hlog Hr]. unfold fixed_names. apply NoDup_app. split_and!.
  - apply query_names_NoDup; [exact Hq|]. intros Hin. eapply Hqr; [exact Hin|]. left.
  - intros name (q & Hname & Hin)%list_elem_of_bind Hrule.
    assert (Hrule' : name ∈ (qConnectionAggregations.*1 ++ ((λ n, n ++ sliSuffix)%string <$> sli_rules) ++ ((λ n, n ++ sliRawSuffix)%string <$> sli_rules))%list).
    { revert Hrule. unfold rule_request_names, sli_names. rewrite !list_elem_of_In. destruct (OptionLoadInstanceToInstanceConnections o), (OptionLoadRawSLIs o); cbn; tauto. }
    apply query_name_cases in Hname as [->|[-> _]]; [|by apply Hlog].
    eapply Hqr; [by apply list_elem_of_fmap_2|]. by right.
  - unfold rule_request_names. destruct (OptionLoadInstanceToInstanceConnections o); [apply NoDup_nil_2|].
    apply neighbours_NoDup. unfold sli_names. destruct (OptionLoadRawSLIs o); lazy; reflexivity.
Qed.

(** No fixed name starts like a custom one. *)
Lemma fixed_names_prefix name : name ∈ fixed_names → String.prefix custom_prefix name = false.
Proof.
  assert (H : forallb (λ n, negb (String.prefix custom_prefix n)) static_names = true) by (lazy; reflexivity).
  rewrite forallb_forall in H. intros Hin. apply negb_true_iff, H, list_elem_of_In. clear H.
  unfold fixed_names in Hin. unfold static_names. rewrite elem_of_app in Hin |- *. destruct Hin as [(q & Hname & Hin)%list_elem_of_bind|Hin].
  - apply query_name_cases in Hname as [->|[-> _]]; [left; by apply list_elem_of_fmap_2|right; left].
  - right. right. revert Hin. unfold rule_request_names, sli_names. rewrite !list_elem_of_In.
    destruct (OptionLoadInstanceToInstanceConnections o), (OptionLoadRawSLIs o); cbn; tauto.
Qed.

Lemma prefix_true p a : String.prefix p (p ++ a)%string = true.
Proof.
  induction p as [|c p IH]; [by destruct a|]. rewrite FilepathFacts.append_cons. cbn [String.prefix].
  destruct (Ascii.ascii_dec c c) as [|Hc]; [exact IH|by destruct Hc].
Qed.

Lemma custom_names_NoDup (ids : list ApplicationId) :
  NoDup ids → (∀ a b, a ∈ ids → b ∈ ids → AppIdString a = AppIdString b → a = b) →
  NoDup (ids ≫= λ id, (λ e, custom_prefix ++ AppIdString id ++ e)%string <$> custom_endings o cfgs project id).
Proof.
  assert (Heq : ∀ a b e e', e ∈ all_endings → e' ∈ all_endings →
    (custom_prefix ++ AppIdString a ++ e = custom_prefix ++ AppIdString b ++ e')%string → AppIdString a = AppIdString b ∧ e = e').
  { intros a b e e' He He' H%append_cancel. by apply ends_differ in H. }
  intros Hn Hinj. apply NoDup_bind; [| |exact Hn].
  - intros a b name Ha Hb (e & -> & He)%list_elem_of_fmap (e' & H & He')%list_elem_of_fmap.
    apply Heq in H as [H _]; [by apply Hinj| |]; by eapply custom_endings_all.
  - intros a Ha. apply NoDup_fmap_2_strong; [|apply custom_endings_NoDup].
    intros e e' He He' H. apply Heq in H as [_ H]; [exact H| |]; by eapply custom_endings_all.
Qed.

Lemma request_list_NoDup :
  NoDup cfgs.*1 → (∀ a b, a ∈ cfgs.*1 → b ∈ cfgs.*1 → AppIdString a = AppIdString b → a = b) →
  NoDup (request_list o lw project cfgs).*1.
Proof.
  intros Hn Hinj. unfold request_list.
  assert (Hnames : ((QUERIES ≫= query_requests o lw) ++ rule_requests o lw ++ (cfgs ≫= λ e, custom_requests o lw project cfgs (fst e)))%list.*1
    = (fixed_names ++ (cfgs.*1 ≫= λ id, (λ e, custom_prefix ++ AppIdString id ++ e)%string <$> custom_endings o cfgs project id))%list).
  { rewrite !fmap_app, !fmap_bind, rule_requests_names, app_assoc. unfold fixed_names. f_equal; [f_equal|].
    - apply list_bind_ext; [intros q; apply query_requests_names|reflexivity].
    - rewrite list_fmap_bind. apply list_bind_ext; [intros e; apply custom_requests_names|reflexivity]. }
  rewrite Hnames. apply NoDup_app. split_and!; [apply fixed_names_NoDup| |by apply custom_names_NoDup].
  intros name Hf (id & (e & -> & He)%list_elem_of_fmap & _)%list_elem_of_bind.
  apply fixed_names_prefix in Hf. rewrite prefix_true in Hf. discriminate Hf.
Qed.
End requests.

(** When the ids of the check settings differ as strings, no request of a load
    overwrites another under its name: the map holds exactly the requests made. *)
Theorem requests_complete (o : Options) (project : Project) (from to step : Z) (cfgs : CheckConfigs) (lw : load_window)
  (Hlw : load_window_of from to step = Ret lw)
  (Hids : NoDup cfgs.*1)
  (Hstr : ∀ a b, a ∈ cfgs.*1 → b ∈ cfgs.*1 → AppIdString a = AppIdString b → a = b) :
  ∃ m, queryRequests o project from to step cfgs = Ret m
    ∧ ∀ name r, m !! name = Some r ↔ (name, r) ∈ request_list o lw project cfgs.
Proof.
  exists (requests_of (request_list o lw project cfgs)). unfold queryRequests. rewrite Hlw. split; [reflexivity|].
  intros name r. apply requests_of_lookup. by apply request_list_NoDup.
Qed.
End QueriesFacts.

(** * An example *)
Module QueriesRuns.

Definition shop : ApplicationId := NewApplicationId "c" "shop" "Deployment" "cart".
Definition all_options : Options :=
  {| OptionLoadInstanceToInstanceConnections := false; OptionLoadRawSLIs := true; OptionLoadContainerLogs := false |}.
Definition custom_sli : CheckConfigs :=
  [(ApplicationIdZero, ∅);
   (shop, {["SLOAvailability" := JArr [JObj [("custom", JBool true); ("total_requests_query", JStr "total"); ("failed_requests_query", JStr "failed")]]]})].
Definition plain_project : Project :=
  {| p_Id := "p"; p_Name := "p";
     p_Integrations := {| i_BaseUrl := ""; i_Slack := None; i_Teams := None; i_Pagerduty := None; i_Opsgenie := None; i_Webhook := None |};
     p_ApplicationCategorySettings := ∅; p_MemberProjects := [] |}.

Definition custom_request : QueryRequest :=
  {| rq_Query := "sum(rate(total[$RANGE]))"; rq_From := 720300; rq_To := 720600; rq_Step := 300; rq_FillFunc := Some FillAvg |}.

Definition custom_window : load_window := {| lw_from := 720300; lw_to := 720600; lw_step := 300; lw_rawFrom := 698985; lw_rawTo := 720585 |}.

Lemma requests_complete_witness :
  ∃ m, queryRequests all_options plain_project 720010 720590 300 custom_sli = Ret m
    ∧ m !! "application_custom_sli/c:shop:Deployment:cart/total_requests_sli" = Some custom_request.
Proof.
  destruct (QueriesFacts.requests_complete all_options plain_project 720010 720590 300 custom_sli
    custom_window) as (m & Hm & H).
  - vm_compute. reflexivity.
  - apply NoDup_cons. split; [|apply NoDup_singleton]. intros Hin%list_elem_of_singleton. discriminate Hin.
  - intros a b [->|Ha%list_elem_of_singleton]%elem_of_cons [->|Hb%list_elem_of_singleton]%elem_of_cons Heq; try subst a; try subst b;
      first [reflexivity|vm_compute in Heq; discriminate Heq].
  - exists m. split; [exact Hm|]. apply H. apply (list_elem_of_lookup_2 _ 348). vm_compute. reflexivity.
Defined.
End QueriesRuns.
