(* ===== verification/WorldStore.v ===== *)
(** world/store.go: the stored results of the queries, and how a load reads them.

    The ClickHouse tables are those of ch/client.go: world_series, world_points,
    and two rollups that materialized views fill from each insert.  A SELECT is
    modelled by the record [points_query] of what its text says and by the rows
    it gives; a row's expiry (TTL) is not modelled.  Aggregates take the rows in
    the order they were inserted, an order ClickHouse leaves open. *)

From S2P Require Export Queries.
From Stdlib Require Import Ascii String ZArith Lia.
Local Open Scope string_scope.
Local Open Scope Z_scope.

(** * Rows *)

(** world/evaluator.go: seriesRow, pointRow, batch.  The table holds the same. *)
Record seriesRow := { se_query : string; se_hash : Z; se_labels : Labels; se_lastSeen : Z }.
Record pointRow := { po_query : string; po_hash : Z; po_t : Z; po_v : f32 }.
Record batch := { b_series : list seriesRow; b_points : list pointRow }.

(** A DateTime column holds 32 bits of seconds. *)
Definition date_time (t : Z) : Z := t mod 2 ^ 32.

(** A row of a rollup, or a point seen as one: its time, the state of
    argMax(Value, Timestamp), the sum, the count and the maximum. *)
Record cell := {
  ce_query : string;
  ce_hash : Z;
  ce_t : Z;
  ce_last : Z * f32;
  ce_sum : F64.f64;
  ce_cnt : Z;
  ce_max : f32
}.

Definition cell_of (p : pointRow) : cell :=
  {| ce_query := po_query p; ce_hash := po_hash p; ce_t := po_t p; ce_last := (po_t p, po_v p);
     ce_sum := F64.of_f32 (po_v p); ce_cnt := 1; ce_max := po_v p |}.

(** argMax, argMaxMerge: the first of the latest; max *)
Definition later (a b : Z * f32) : Z * f32 := if fst a <? fst b then b else a.
Definition larger (a b : f32) : f32 := if F32.ltb a b then b else a.
Definition merge_cell (a b : cell) : cell :=
  {| ce_query := ce_query a; ce_hash := ce_hash a; ce_t := ce_t a; ce_last := later (ce_last a) (ce_last b);
     ce_sum := F64.add (ce_sum a) (ce_sum b); ce_cnt := ce_cnt a + ce_cnt b; ce_max := larger (ce_max a) (ce_max b) |}.

Definition at_time (t : Z) (c : cell) : cell :=
  {| ce_query := ce_query c; ce_hash := ce_hash c; ce_t := t; ce_last := ce_last c; ce_sum := ce_sum c;
     ce_cnt := ce_cnt c; ce_max := ce_max c |}.

(** GROUP BY Query, SeriesHash, f(Timestamp) *)
Definition cell_key (f : Z → Z) (c : cell) : string * Z * Z := (ce_query c, ce_hash c, f (ce_t c)).
Definition cells_at (f : Z → Z) (k : string * Z * Z) (cs : list cell) : list cell := List.filter (λ c, bool_decide (cell_key f c = k)) cs.
Definition merge_cells (t : Z) (cs : list cell) : option cell :=
  match cs with [] => None | c :: cs => Some (at_time t (foldl merge_cell c cs)) end.
Definition group_by (f : Z → Z) (cs : list cell) : list cell :=
  omap (λ k, merge_cells (snd k) (cells_at f k cs)) (remove_dups (cell_key f <$> cs)).

(** toStartOfInterval(Timestamp - INTERVAL 1 SECOND, INTERVAL w SECOND) + INTERVAL w SECOND *)
Definition interval_end (w t : Z) : Z := (t - 1) - (t - 1) mod w + w.

(** * The tables of one ClickHouse database *)
Record WorldTables := {
  world_series : list seriesRow;
  world_points : list pointRow;
  world_points_5m : list cell;
  world_points_1h : list cell
}.
Definition no_world_tables : WorldTables :=
  {| world_series := []; world_points := []; world_points_5m := []; world_points_1h := [] |}.

(** world_points_5m_mv, world_points_1h_mv: the rows a block of points adds. *)
Definition rollup (w : Z) (ps : list pointRow) : list cell := group_by (interval_end w) (cell_of <$> ps).

(** The times as the columns store them. *)
Definition stored_point (p : pointRow) : pointRow :=
  {| po_query := po_query p; po_hash := po_hash p; po_t := date_time (po_t p); po_v := po_v p |}.
Definition stored_series (s : seriesRow) : seriesRow :=
  {| se_query := se_query s; se_hash := se_hash s; se_labels := se_labels s; se_lastSeen := date_time (se_lastSeen s) |}.

Definition insert_series (rows : list seriesRow) (t : WorldTables) : WorldTables :=
  {| world_series := (world_series t ++ (stored_series <$> rows))%list; world_points := world_points t;
     world_points_5m := world_points_5m t; world_points_1h := world_points_1h t |}.
(** A block of points, with the blocks of it that reach the two views. *)
Definition insert_points (rows rows_5m rows_1h : list pointRow) (t : WorldTables) : WorldTables :=
  {| world_series := world_series t; world_points := (world_points t ++ (stored_point <$> rows))%list;
     world_points_5m := (world_points_5m t ++ rollup (5 * Time.Minute) (stored_point <$> rows_5m))%list;
     world_points_1h := (world_points_1h t ++ rollup Time.Hour (stored_point <$> rows_1h))%list |}.

(** FINAL: of the rows of a series the one with the greatest LastSeen, the last
    inserted of those. *)
Definition newer (best : option seriesRow) (s : seriesRow) : option seriesRow :=
  match best with
  | Some b => if se_lastSeen s <? se_lastSeen b then Some b else Some s
  | None => Some s
  end.
Definition series_key (s : seriesRow) : string * Z := (se_query s, se_hash s).
Definition final (rows : list seriesRow) : list seriesRow :=
  omap (λ k, foldl newer None (List.filter (λ s, bool_decide (series_key s = k)) rows)) (remove_dups (series_key <$> rows)).

(** * The text of a filter *)

(** sqlStringEscaper *)
Definition bs : ascii := "092"%char.
Definition sq : ascii := "039"%char.
Fixpoint escape_sql (s : string) : string :=
  match s with
  | EmptyString => ""
  | String a s' =>
      if Ascii.eqb a bs || Ascii.eqb a sq then String bs (String a (escape_sql s')) else String a (escape_sql s')
  end.
Definition quote_sql (s : string) : string := String sq (escape_sql s ++ String sq "").
Definition queryFilter (queries : list string) : string :=
  match queries with
  | [] => ""
  | _ => " AND Query IN (" ++ String.concat ", " (map quote_sql queries) ++ ")"
  end.

(** The condition that text states. *)
Definition in_queries (queries : list string) (query : string) : bool :=
  match queries with [] => true | _ => bool_decide (query ∈ queries) end.

(** * pointsSQL *)
Inductive points_source := FromPoints | From5m | From1h.
#[export] Instance points_source_eq_dec : EqDecision points_source.
Proof. solve_decision. Defined.

(** What the text of the SELECT says: the table, the window [pq_lo, pq_to], the
    length [pq_prune] of the interval its sorting key starts with, the bucket
    ([None]: the points as they are), the queries. *)
Record points_query := {
  pq_source : points_source;
  pq_lo : Z;
  pq_to : Z;
  pq_prune : Z;
  pq_step : option Z;
  pq_queries : list string
}.

Definition pointsSQL (from to step : Z) (queries : list string) : outcome points_query :=
  let raw := step =? ResultsStep in
  let lo := if raw then from else Time.Add from (add64 (wrap64 (- step)) 1) in
  if raw then
    Ret {| pq_source := FromPoints; pq_lo := lo; pq_to := to; pq_prune := Time.Hour; pq_step := None; pq_queries := queries |}
  else
    let* r1 := rem64 step Time.Hour in
    let* r5 := rem64 step (5 * Time.Minute) in
    let '(src, prune) :=
      if (Time.Hour <=? step) && (r1 =? 0) then (From1h, Time.Day)
      else if (5 * Time.Minute <=? step) && (r5 =? 0) then (From5m, Time.Day)
      else (FromPoints, Time.Hour) in
    Ret {| pq_source := src; pq_lo := lo; pq_to := to; pq_prune := prune; pq_step := Some step; pq_queries := queries |}.

(** WHERE: the pruning condition [toStartOf...(Timestamp) BETWEEN ...], the window, the filter *)
Definition start_of (d t : Z) : Z := t - t mod d.
Definition pq_where (q : points_query) (c : cell) : bool :=
  (start_of (pq_prune q) (pq_lo q) <=? start_of (pq_prune q) (ce_t c))
  && (start_of (pq_prune q) (ce_t c) <=? start_of (pq_prune q) (pq_to q))
  && (pq_lo q <=? ce_t c) && (ce_t c <=? pq_to q) && in_queries (pq_queries q) (ce_query c).

(** One row of the answer: last, average, sum and max. *)
Record aggregates := { ag_last : f32; ag_avg : f32; ag_sum : f32; ag_max : f32 }.
Definition pointAnswer : Type := string * Z * Z * aggregates.
Definition row_of (c : cell) : pointAnswer :=
  (ce_query c, ce_hash c, ce_t c,
   {| ag_last := snd (ce_last c); ag_avg := F64.to_f32 (F64.div (ce_sum c) (F64.of_Z (ce_cnt c)));
      ag_sum := F64.to_f32 (ce_sum c); ag_max := ce_max c |}).

Definition source_cells (t : WorldTables) (src : points_source) : list cell :=
  match src with
  | FromPoints => cell_of <$> world_points t
  | From5m => world_points_5m t
  | From1h => world_points_1h t
  end.

(** The rows of the SELECT; the raw points have one value, which stands for the four. *)
Definition run_points (t : WorldTables) (q : points_query) : list pointAnswer :=
  let cells := List.filter (pq_where q) (source_cells t (pq_source q)) in
  match pq_step q with
  | None => (λ c, (ce_query c, ce_hash c, ce_t c,
               let v := snd (ce_last c) in {| ag_last := v; ag_avg := v; ag_sum := v; ag_max := v |})) <$> cells
  | Some step => row_of <$> group_by (interval_end step) cells
  end.

(** seriesSQL: the labels of the series of the queries. *)
Definition run_series (t : WorldTables) (queries : list string) : list seriesRow :=
  List.filter (λ s, in_queries queries (se_query s)) (final (world_series t)).

(** * The memory of the evaluator and of the stores

    The databases of the projects are a part of it: they are outside of the
    process and survive [drop].  The ClickHouse connections and the duration of
    a cycle, which is only logged, are left out; times are in seconds. *)

(** projectState: [ps_seen] is the seriesCache, [ps_lastEvaluated] what the store
    remembers of LastEvaluated and when it read it. *)
Record projectState := { ps_seen : gmap (string * Z) Z; ps_lastEvaluated : option (Z * Z) }.
Record evalStatus := { es_lastEvaluated : Z; es_err : string; es_at : Z }.
Record EvalMem := {
  em_ch : gmap string WorldTables;
  em_projects : gmap string projectState;
  em_status : gmap string evalStatus;
  em_updates : list string
}.

Definition tables_of (id : string) (m : EvalMem) : WorldTables := default no_world_tables (em_ch m !! id).
Definition set_tables (id : string) (t : WorldTables) (m : EvalMem) : EvalMem :=
  {| em_ch := <[id := t]> (em_ch m); em_projects := em_projects m; em_status := em_status m; em_updates := em_updates m |}.
Definition set_projects (ps : gmap string projectState) (m : EvalMem) : EvalMem :=
  {| em_ch := em_ch m; em_projects := ps; em_status := em_status m; em_updates := em_updates m |}.
Definition set_state (id : string) (ps : projectState) (m : EvalMem) : EvalMem := set_projects (<[id := ps]> (em_projects m)) m.

(** * Store *)

(** storedSeries: a row of the series with its points. *)
Record storedSeries := { ss_labels : Labels; ss_hash : Z; ss_points : list (Z * aggregates) }.

Record window := { wi_from : Z; wi_to : Z; wi_step : Z }.
#[export] Instance window_eq_dec : EqDecision window.
Proof. solve_decision. Defined.

Definition maxFilteredQueries : nat := 50.
Definition lastEvaluatedTTL : Z := 5.

Definition windowOf (r : QueryRequest) : outcome window :=
  let* from := Time.Truncate (rq_From r) (rq_Step r) in
  let* to := Time.Truncate (rq_To r) (rq_Step r) in
  Ret {| wi_from := from; wi_to := to; wi_step := rq_Step r |}.

(** aggregateFor: which of the four values of a point is read. *)
Inductive aggregate := aggLast | aggAvg | aggSum | aggMax.
Definition aggregateFor (f : option FillFunc) : aggregate :=
  match f with
  | Some FillAvg => aggAvg
  | Some FillSum => aggSum
  | Some FillMax => aggMax
  | Some FillAny | None => aggLast
  end.
Definition ag_of (a : aggregate) (v : aggregates) : f32 :=
  match a with aggLast => ag_last v | aggAvg => ag_avg v | aggSum => ag_sum v | aggMax => ag_max v end.

(** One label: the labels that are fields are taken out. *)
Definition split_label (mv : MetricValues) (kv : string * string) : MetricValues :=
  let '(k, v) := kv in
  let set labels machine uuid container dest actual ip :=
    {| mv_Labels := labels; mv_LabelsHash := mv_LabelsHash mv; mv_Values := mv_Values mv; mv_MachineID := machine;
       mv_SystemUUID := uuid; mv_ContainerId := container; mv_Destination := dest; mv_ActualDestination := actual; mv_DestIp := ip |} in
  let '{| mv_Labels := ls; mv_MachineID := m; mv_SystemUUID := u; mv_ContainerId := c; mv_Destination := d;
          mv_ActualDestination := a; mv_DestIp := ip |} := mv in
  if String.eqb k LabelMachineId then set ls v u c d a ip
  else if String.eqb k LabelSystemUuid then set ls m v c d a ip
  else if String.eqb k LabelContainerId then set ls m u v d a ip
  else if String.eqb k LabelDestination then set ls m u c v a ip
  else if String.eqb k LabelActualDestination then set ls m u c d v ip
  else if String.eqb k LabelDestinationIP then set ls m u c v a true
  else set (<[k := v]> ls) m u c d a ip.

(** The points of a series put into the window; whether there was one. *)
Definition set_points (agg : aggregate) (ts : TimeSeries) (points : list (Z * aggregates)) : outcome (TimeSeries * bool) :=
  fold_go (λ '(ts, changed) '(t, v),
      if IsNaN (ag_of agg v) then Ret (ts, changed)
      else let* ts := Set_ ts t (ag_of agg v) in Ret (ts, true)) (ts, false) points.

Section store.
Context `{Env} `{MapOrder}.

(** A SELECT on the database of a project: its rows come in any order. *)
Definition query_rows {A} (id : string) (f : WorldTables → list A) : M EvalMem (string + list A) := λ s,
  match env_fault (sys_ticks s) with
  | Some err => (inl err, tick s)
  | None => (inr (map_order (sys_ticks s) (f (tables_of id (sys_mem s)))), tick s)
  end.

Definition metric_value (w : window) (agg : aggregate) (ss : storedSeries) : M EvalMem (outcome (option MetricValues)) :=
  labels ← range (map_to_list (ss_labels ss));
  mret (let* n := quot64 (Time.Sub (wi_to w) (wi_from w)) (wi_step w) in
        let* ts := New (wi_from w) (add64 n 1) (wi_step w) in
        let* r := set_points agg ts (ss_points ss) in
        Ret (if snd r then
               Some (foldl split_label (metric_values ∅ (ss_hash ss) (Some (fst r))) labels)
             else None)).

Definition metricValues (series : list storedSeries) (w : window) (f : option FillFunc) : M EvalMem (outcome (list MetricValues)) :=
  and_then (collect (metric_value w (aggregateFor f)) series) (λ mvs, mret (Ret (omap (λ x, x) mvs))).

(** [read]: the series and the points of a window, by query. *)
Definition read_names (queries : gset string) : list string :=
  if (size queries <=? maxFilteredQueries)%nat then StringSet.sort_strings (elements queries) else [].
Definition points_of (points : list pointAnswer) (s : seriesRow) : list (Z * aggregates) :=
  omap (λ '(q, h, t, v), if bool_decide ((q, h) = series_key s) then Some (t, v) else None) points.
Definition stored_of (series : list seriesRow) (points : list pointAnswer) (query : string) : list storedSeries :=
  (λ s, {| ss_labels := se_labels s; ss_hash := se_hash s; ss_points := points_of points s |})
    <$> List.filter (λ s, String.eqb (se_query s) query) series.

Definition read (id : string) (w : window) (queries : gset string) : M EvalMem (outcome (string + (string → list storedSeries))) :=
  let names := read_names queries in
  r ← query_rows id (λ t, run_series t names);
  match r with
  | inl err => mret (Ret (inl err))
  | inr series =>
      match pointsSQL (wi_from w) (wi_to w) (wi_step w) names with
      | Panic => mret Panic
      | Ret q =>
          p ← query_rows id (λ t, run_points t q);
          mret (Ret (match p with inl err => inl err | inr points => inr (stored_of series points) end))
      end
  end.

(** The windows of the requests, and the queries of each. *)
Definition request_windows (requests : list (string * QueryRequest)) : outcome (list window) :=
  fold_go (λ ws '(_, r), let* w := windowOf r in Ret (if bool_decide (w ∈ ws) then ws else (ws ++ [w])%list)) [] requests.
Definition queriesByWindow (requests : list (string * QueryRequest)) (w : window) : gset string :=
  list_to_set (omap (λ '(_, r), if decide (windowOf r = Ret w) then Some (rq_Query r) else None) requests).

Definition seriesByWindow : Type := list (window * (string → list storedSeries)).
Definition series_in (l : seriesByWindow) (w : window) : option (string → list storedSeries) :=
  snd <$> List.find (λ e, bool_decide (fst e = w)) l.

(** The reads of the windows, one after the other in the order they end; the
    last error. *)
Fixpoint read_windows (id : string) (requests : list (string * QueryRequest)) (ws : list window) (acc : seriesByWindow * option string)
  : M EvalMem (outcome (seriesByWindow * option string)) :=
  match ws with
  | [] => mret (Ret acc)
  | w :: ws =>
      and_then (read id w (queriesByWindow requests w)) (λ r,
        read_windows id requests ws
          (match r with
           | inl err => (fst acc, Some err)
           | inr series => ((w, series) :: fst acc, snd acc)
           end))
  end.

(** The series of each request whose window could be read. *)
Definition answer_request (l : seriesByWindow) (e : string * QueryRequest) : M EvalMem (outcome (option (string * list MetricValues))) :=
  let '(name, r) := e in
  match windowOf r with
  | Panic => mret Panic
  | Ret w =>
      match series_in l w with
      | None => mret (Ret None)
      | Some series => and_then (metricValues (series (rq_Query r)) w (rq_FillFunc r)) (λ mvs, mret (Ret (Some (name, mvs))))
      end
  end.

Definition QueryRanges (id : string) (requests : gmap string QueryRequest)
  : M EvalMem (outcome (gmap string (list MetricValues) * option string)) :=
  requests ← range (map_to_list requests);
  match request_windows requests with
  | Panic => mret Panic
  | Ret ws =>
      ws ← range ws;
      and_then (read_windows id requests ws ([], None)) (λ r,
        requests ← range requests;
        and_then (collect (answer_request (fst r)) requests) (λ res,
          mret (Ret (list_to_map (omap (λ x, x) res), snd r))))
  end.

(** ** LastEvaluated *)
Definition max_time (rows : list pointRow) : Z := foldl Z.max 0 (po_t <$> rows).
Definition marker_prefix : string := "rr_world_computed_".
Definition is_marker (p : pointRow) : bool := String.prefix marker_prefix (po_query p).
Definition since (lo : option Z) (p : pointRow) : bool := match lo with Some lo => lo <? po_t p | None => true end.

(** One answer of the database: a number. *)
Definition query_row (id : string) (f : WorldTables → Z) : M EvalMem (string + Z) := λ s,
  match env_fault (sys_ticks s) with
  | Some err => (inl err, tick s)
  | None => (inr (f (tables_of id (sys_mem s))), tick s)
  end.

(** The last marker among the points of a WHERE, the last point when there is none. *)
Definition last_in (id : string) (lo : option Z) : M EvalMem (string + Z) :=
  r ← query_row id (λ t, max_time (List.filter (λ p, since lo p && is_marker p) (world_points t)));
  match r with
  | inl err => mret (inl err)
  | inr t => if t =? 0 then query_row id (λ t, max_time (List.filter (since lo) (world_points t))) else mret (inr t)
  end.

Definition remember (id : string) (t now : Z) (m : EvalMem) : EvalMem :=
  match em_projects m !! id with
  | Some ps => set_state id {| ps_seen := ps_seen ps; ps_lastEvaluated := Some (t, now) |} m
  | None => m
  end.

(** The last day first, then the whole table; what is found is remembered. *)
Definition refresh (id : string) : M EvalMem (string + Z) :=
  today ← Now;
  r ← last_in id (Some (today - Time.Day));
  r ← (match r with inr t => if t =? 0 then last_in id None else mret (inr t) | inl err => mret (inl err) end);
  match r with
  | inl err => mret (inl err)
  | inr t => now ← Now; _ ← modify_mem (remember id t now); mret (inr t)
  end.

Definition LastEvaluated (id : string) : M EvalMem (string + Z) :=
  now ← Now;
  m ← get_mem;
  match em_projects m !! id ≫= ps_lastEvaluated with
  | Some (t, at_) => if Time.Sub now at_ <? lastEvaluatedTTL then mret (inr t) else refresh id
  | None => refresh id
  end.
End store.
