(* ===== verification/WorldStoreSpec.v ===== *)
(** Properties of the store of query results: its queries cannot be broken by a
    query's text, the rollups answer as the points do, and a load reads the
    last, or the largest, stored point of each of its steps. *)

From S2P Require Import Fill.
From S2P Require Export WorldStore.
From Stdlib Require Import Ascii String ZArith Lia.
Local Open Scope string_scope.
Local Open Scope Z_scope.

(** * The filter *)
Module FilterFacts.

(** A string literal of ClickHouse after its opening quote: a backslash makes the
    next quote or backslash a character of the string. *)
Fixpoint literal (s : string) : option (string * string) :=
  match s with
  | EmptyString => None
  | String a s' =>
      let more b (r : option (string * string)) := (λ '(q, rest), (String b q, rest)) <$> r in
      if Ascii.eqb a sq then Some ("", s')
      else if Ascii.eqb a bs then
        match s' with
        | EmptyString => None
        | String b s'' => if Ascii.eqb b bs || Ascii.eqb b sq then more b (literal s'') else None
        end
      else more a (literal s')
  end.

(** The literals of a list, separated by commas, up to its closing bracket. *)
Fixpoint literals (fuel : nat) (s : string) : option (list string * string) :=
  match fuel, s with
  | S fuel, String a s =>
      if negb (Ascii.eqb a sq) then None
      else
        match literal s with
        | Some (q, String ")" rest) => Some ([q], rest)
        | Some (q, String "," (String " " rest)) => (λ '(qs, rest), (q :: qs, rest)) <$> literals fuel rest
        | _ => None
        end
  | _, _ => None
  end.

Lemma literal_escape s rest : literal (escape_sql s ++ String sq rest) = Some (s, rest).
Proof.
  induction s as [|a s IH]; [reflexivity|]. cbn [escape_sql].
  destruct (Ascii.eqb_spec a bs) as [->|Hbs]; [cbn [orb]; rewrite !FilepathFacts.append_cons; cbn; by rewrite IH|].
  destruct (Ascii.eqb_spec a sq) as [->|Hsq]; cbn [orb].
  - rewrite !FilepathFacts.append_cons. cbn. by rewrite IH.
  - rewrite FilepathFacts.append_cons. cbn [literal]. apply Ascii.eqb_neq in Hbs, Hsq. by rewrite Hsq, Hbs, IH.
Qed.

Lemma literals_last fuel s q rest : literal s = Some (q, String ")" rest) → literals (S fuel) (String sq s) = Some ([q], rest).
Proof. intros H. cbn [literals]. by rewrite H. Qed.
Lemma literals_more fuel s q rest :
  literal s = Some (q, String "," (String " " rest)) →
  literals (S fuel) (String sq s) = (λ '(qs, rest), (q :: qs, rest)) <$> literals fuel rest.
Proof. intros H. cbn [literals]. by rewrite H. Qed.

Lemma literals_quote queries rest :
  queries ≠ [] → literals (List.length queries) (String.concat ", " (map quote_sql queries) ++ String ")" rest) = Some (queries, rest).
Proof.
  intros Hne. induction queries as [|q queries IH]; [done|]. clear Hne.
  destruct queries as [|q' queries].
  - change (String.concat ", " (map quote_sql [q])) with (String sq (escape_sql q ++ String sq "")).
    rewrite FilepathFacts.append_cons. apply literals_last.
    rewrite <- FilepathFacts.append_assoc, FilepathFacts.append_cons. apply literal_escape.
  - specialize (IH ltac:(discriminate)). revert IH.
    change (String.concat ", " (map quote_sql (q :: q' :: queries)))
      with (String sq (escape_sql q ++ String sq "") ++ String "," (String " " "") ++ String.concat ", " (map quote_sql (q' :: queries))).
    generalize (String.concat ", " (map quote_sql (q' :: queries))) as text. intros text IH.
    cbn [List.length] in IH |- *. rewrite <- FilepathFacts.append_assoc, FilepathFacts.append_cons.
    erewrite literals_more; [by rewrite IH|].
    rewrite <- !FilepathFacts.append_assoc, FilepathFacts.append_cons, literal_escape. reflexivity.
Qed.

(** The text of the filter is read as exactly the queries asked for, whatever
    characters they are made of. *)
Theorem queryFilter_roundtrip (queries : list string) (rest : string) :
  queries ≠ [] →
  ∃ text, (queryFilter queries ++ rest)%string = (" AND Query IN (" ++ text)%string
    ∧ literals (List.length queries) text = Some (queries, rest).
Proof.
  intros Hne. exists (String.concat ", " (map quote_sql queries) ++ String ")" rest). split; [|by apply literals_quote].
  destruct queries; [done|]. unfold queryFilter. rewrite <- !FilepathFacts.append_assoc. reflexivity.
Qed.

Lemma queryFilter_roundtrip_witness :
  ∃ text, queryFilter ["a"; "up{job='x\y'}"] = (" AND Query IN (" ++ text)%string
    ∧ literals 2 text = Some (["a"; "up{job='x\y'}"], "").
Proof.
  destruct (queryFilter_roundtrip ["a"; "up{job='x\y'}"] "" ltac:(discriminate)) as (text & Ht & H).
  exists text. split; [exact Ht|exact H].
Defined.
End FilterFacts.

(** * What a cell says of the points it stands for *)
Module AggregationFacts.

Definition defined (ps : list pointRow) : Prop := ∀ p, p ∈ ps → po_v p ≠ NaN.

Record covers (ps : list pointRow) (c : cell) : Prop := {
  cov_key : ∀ p, p ∈ ps → po_query p = ce_query c ∧ po_hash p = ce_hash c;
  cov_last : ∃ p, p ∈ ps ∧ ce_last c = (po_t p, po_v p) ∧ ∀ p', p' ∈ ps → po_t p' ≤ po_t p;
  cov_cnt : ce_cnt c = Z.of_nat (List.length ps);
  cov_max : ∃ p, p ∈ ps ∧ ce_max c = po_v p ∧ ∀ p', p' ∈ ps → F32.leb (po_v p') (po_v p) = true
}.

Lemma covers_perm ps ps' c : ps ≡ₚ ps' → covers ps c → covers ps' c.
Proof.
  intros Hp [Hk (p & Hl) Hc (m & Hm)]. split.
  - intros q Hq. apply Hk. by rewrite Hp.
  - exists p. destruct Hl as (Hin & He & Hle). split_and!; [by rewrite <- Hp|done|]. intros q Hq. apply Hle. by rewrite Hp.
  - by rewrite <- (Permutation_length Hp).
  - exists m. destruct Hm as (Hin & He & Hle). split_and!; [by rewrite <- Hp|done|]. intros q Hq. apply Hle. by rewrite Hp.
Qed.

Lemma covers_cell p : po_v p ≠ NaN → covers [p] (cell_of p).
Proof.
  intros Hv. split; [by intros q ->%list_elem_of_singleton| |done|].
  - exists p. split_and!; [by left|done|]. by intros q ->%list_elem_of_singleton.
  - exists p. split_and!; [by left|done|]. intros q ->%list_elem_of_singleton. by apply F32.leb_refl.
Qed.

Lemma covers_at_time t ps c : covers ps c → covers ps (at_time t c).
Proof. by intros []. Qed.

Lemma leb_larger_l a b : a ≠ NaN → F32.leb a (larger a b) = true.
Proof. intros Ha. unfold larger. destruct (F32.ltb a b) eqn:E; [by apply F32.ltb_leb|by apply F32.leb_refl]. Qed.
Lemma leb_larger_r a b : a ≠ NaN → b ≠ NaN → F32.leb b (larger a b) = true.
Proof. intros Ha Hb. unfold larger. destruct (F32.ltb a b) eqn:E; [by apply F32.leb_refl|by apply F32.ltb_false_leb]. Qed.

Lemma covers_merge ps qs a b :
  defined ps → defined qs → covers ps a → covers qs b → ce_query a = ce_query b → ce_hash a = ce_hash b →
  covers (ps ++ qs)%list (merge_cell a b).
Proof.
  intros Hdp Hdq [Hka (p & Hp & Hpe & Hple) Hca (x & Hx & Hxe & Hxle)] [Hkb (q & Hq & Hqe & Hqle) Hcb (y & Hy & Hye & Hyle)] He1 He2.
  split.
  - intros r [Hr%Hka|Hr%Hkb]%elem_of_app; cbn; [done|]. by rewrite He1, He2.
  - cbn. rewrite Hpe, Hqe. unfold later. cbn [fst]. destruct (Z.ltb_spec (po_t p) (po_t q)).
    + exists q. split_and!; [apply elem_of_app; by right|done|]. intros r [Hr%Hple|Hr%Hqle]%elem_of_app; lia.
    + exists p. split_and!; [apply elem_of_app; by left|done|]. intros r [Hr%Hple|Hr%Hqle]%elem_of_app; lia.
  - cbn. rewrite Hca, Hcb, length_app. lia.
  - cbn. rewrite Hxe, Hye. pose proof (leb_larger_l (po_v x) (po_v y) (Hdp _ Hx)) as Hl.
    pose proof (leb_larger_r (po_v x) (po_v y) (Hdp _ Hx) (Hdq _ Hy)) as Hr.
    assert (Hz : larger (po_v x) (po_v y) = po_v x ∨ larger (po_v x) (po_v y) = po_v y) by (unfold larger; case_match; auto).
    exists (if F32.ltb (po_v x) (po_v y) then y else x). unfold larger in *.
    destruct (F32.ltb (po_v x) (po_v y)); (split_and!; [apply elem_of_app; auto|done|]);
      intros r [Hr'%Hxle|Hr'%Hyle]%elem_of_app; first [done|by eapply F32.leb_trans].
Qed.

(** Cells that stand for some points, whose times [g] sends to the cell's. *)
Definition stands (g : Z → Z) (e : list pointRow * cell) : Prop :=
  defined (fst e) ∧ covers (fst e) (snd e) ∧ ∀ p, p ∈ fst e → g (po_t p) = ce_t (snd e).
Definition rolled (g : Z → Z) (ps : list pointRow) (cs : list cell) : Prop :=
  ∃ l, Forall (stands g) l ∧ List.concat (fst <$> l) ≡ₚ ps ∧ snd <$> l = cs.

Lemma rolled_points ps : defined ps → rolled (λ t, t) ps (cell_of <$> ps).
Proof.
  intros Hd. exists ((λ p, ([p], cell_of p)) <$> ps). split_and!.
  - apply Forall_fmap, Forall_forall. intros p Hp. split_and!; cbn; [by intros q ->%list_elem_of_singleton; apply Hd|by apply covers_cell, Hd|].
    by intros q ->%list_elem_of_singleton.
  - clear. induction ps as [|p ps IH]; [done|]. cbn. by f_equiv.
  - rewrite <- list_fmap_compose. by apply list_fmap_ext.
Qed.

Lemma rolled_app g ps ps' cs cs' : rolled g ps cs → rolled g ps' cs' → rolled g (ps ++ ps')%list (cs ++ cs')%list.
Proof.
  intros (l & Hl & Hp & <-) (l' & Hl' & Hp' & <-). exists (l ++ l')%list. split_and!; [by apply Forall_app| |by rewrite fmap_app].
  by rewrite fmap_app, concat_app, Hp, Hp'.
Qed.

(** Grouping a list by a key. *)
Lemma concat_groups {A K} `{EqDecision K} (key : A → K) (ks : list K) (l : list A) :
  NoDup ks → (∀ x, x ∈ l → key x ∈ ks) → List.concat ((λ k, List.filter (λ x, bool_decide (key x = k)) l) <$> ks) ≡ₚ l.
Proof.
  revert l. induction ks as [|k ks IH]; intros l Hnd Hin.
  - destruct l as [|x l]; [done|]. by destruct (not_elem_of_nil (key x)); apply Hin; left.
  - apply NoDup_cons in Hnd as [Hk Hnd]. cbn.
    set (rest := List.filter (λ x, negb (bool_decide (key x = k))) l).
    assert (Hrest : (λ k', List.filter (λ x, bool_decide (key x = k')) l) <$> ks = (λ k', List.filter (λ x, bool_decide (key x = k')) rest) <$> ks).
    { apply list_fmap_ext. intros i k' Hk'%list_elem_of_lookup_2. unfold rest. clear -Hk Hk'.
      induction l as [|x l IHl]; [done|]. cbn. destruct (bool_decide_reflect (key x = k)) as [Hx|Hx]; cbn.
      - rewrite bool_decide_false by (intros <-; congruence). exact IHl.
      - by destruct (bool_decide (key x = k')); rewrite IHl. }
    rewrite Hrest, IH; [|done|].
    + clear. unfold rest. induction l as [|x l IHl]; [done|]. cbn. destruct (bool_decide (key x = k)); cbn; [by rewrite IHl|].
      by rewrite <- Permutation_middle, IHl.
    + intros x Hx. apply list_elem_of_In, filter_In in Hx as [Hx Hne]. apply negb_true_iff, bool_decide_eq_false in Hne.
      apply list_elem_of_In, Hin, elem_of_cons in Hx as [?|?]; done.
Qed.

Lemma concat_fst_perm {A B} (l l' : list (list A * B)) : l ≡ₚ l' → List.concat (fst <$> l) ≡ₚ List.concat (fst <$> l').
Proof.
  induction 1 as [|x l l' _ IH|x y l|l1 l2 l3 _ IH1 _ IH2]; [done|cbn; by rewrite IH| |by rewrite IH1].
  cbn. rewrite !app_assoc. f_equiv. apply Permutation_app_comm.
Qed.

(** ** GROUP BY *)
Section group.
Context (f g : Z → Z) (Hfg : ∀ t, f (g t) = f t).

Lemma merge_stands e l :
  Forall (stands g) (e :: l) → (∀ e', e' ∈ l → ce_query (snd e') = ce_query (snd e) ∧ ce_hash (snd e') = ce_hash (snd e)) →
  defined (List.concat (fst <$> e :: l)) ∧ covers (List.concat (fst <$> e :: l)) (foldl merge_cell (snd e) (snd <$> l)).
Proof.
  intros [(Hd & Hc & _) Hl]%Forall_cons.
  cut (∀ ps c, defined ps → covers ps c → (∀ e', e' ∈ l → ce_query (snd e') = ce_query c ∧ ce_hash (snd e') = ce_hash c) →
    defined (ps ++ List.concat (fst <$> l)) ∧ covers (ps ++ List.concat (fst <$> l)) (foldl merge_cell c (snd <$> l))).
  { intros H Hk. by apply (H (fst e) (snd e)). }
  clear Hd Hc e. induction Hl as [|e l (Hd & Hc & _) Hl IH]; intros ps c Hdp Hcp Hk; cbn; [by rewrite app_nil_r|].
  destruct (Hk e) as [Hq Hh]; [by left|]. rewrite app_assoc. apply IH.
  - intros p [?|?]%elem_of_app; auto.
  - by apply covers_merge.
  - intros e' He'. cbn. apply Hk. by right.
Qed.

Definition selected (k : string * Z * Z) (l : list (list pointRow * cell)) := List.filter (λ e, bool_decide (cell_key f (snd e) = k)) l.

Lemma selected_cells k l : snd <$> selected k l = cells_at f k (snd <$> l).
Proof.
  unfold selected, cells_at. induction l as [|e l IH]; [done|]. cbn. destruct (bool_decide _); cbn; by rewrite IH.
Qed.

Definition entry (l : list (list pointRow * cell)) (k : string * Z * Z) : option (list pointRow * cell) :=
  match selected k l with
  | [] => None
  | e :: l => Some (List.concat (fst <$> e :: l), at_time (snd k) (foldl merge_cell (snd e) (snd <$> l)))
  end.

Lemma entry_stands l k e : Forall (stands g) l → entry l k = Some e → stands f e ∧ cell_key (λ t, t) (snd e) = k.
Proof.
  intros Hl He. unfold entry in He. pose proof (selected_cells k l) as Hsel.
  assert (Hin : ∀ x, x ∈ selected k l → stands g x ∧ cell_key f (snd x) = k).
  { intros x Hx. apply list_elem_of_In, filter_In in Hx as [Hx%list_elem_of_In Hk%bool_decide_eq_true].
    split; [|done]. rewrite Forall_forall in Hl. by apply Hl. }
  destruct (selected k l) as [|e0 l0]; [done|]. injection He as <-. clear Hsel.
  destruct (Hin e0) as [_ Hk0]; [by left|].
  destruct (merge_stands e0 l0) as [Hd Hc].
  - apply Forall_forall. intros x Hx. by apply Hin.
  - intros e' He'. destruct (Hin e') as [_ Hk']; [by right|]. unfold cell_key in Hk0, Hk'. rewrite <- Hk0 in Hk'. injection Hk'. auto.
  - assert (Hkey : ce_query (foldl merge_cell (snd e0) (snd <$> l0)) = ce_query (snd e0)
      ∧ ce_hash (foldl merge_cell (snd e0) (snd <$> l0)) = ce_hash (snd e0)).
    { clear. generalize (snd e0) as c. induction (snd <$> l0) as [|c' cs IH]; intros c; [done|]. cbn. by destruct (IH (merge_cell c c')) as [-> ->]. }
    split; [split_and!; [exact Hd|by apply covers_at_time|]|].
    + intros p Hp. change (p ∈ List.concat (fst <$> e0 :: l0)) in Hp. change (f (po_t p) = snd k).
      apply list_elem_of_In, in_concat in Hp as (qs & Hqs & Hp). apply list_elem_of_In in Hqs, Hp.
      apply list_elem_of_fmap in Hqs as (x & -> & Hx). destruct (Hin x Hx) as [(_ & _ & Ht) Hk].
      rewrite <- Hfg, (Ht p Hp). unfold cell_key in Hk. by rewrite <- Hk.
    + cbn [snd]. unfold cell_key. cbn. destruct Hkey as [-> ->]. unfold cell_key in Hk0. by rewrite <- Hk0.
Qed.

Lemma group_rolled ps cs : rolled g ps cs → rolled f ps (group_by f cs).
Proof.
  intros (l & Hl & Hp & <-). set (ks := remove_dups (cell_key f <$> (snd <$> l))).
  exists (omap (entry l) ks). split_and!.
  - apply Forall_forall. intros e He. apply list_elem_of_omap in He as (k & _ & He). by apply (entry_stands l k).
  - rewrite <- Hp. assert (Hc : List.concat (fst <$> omap (entry l) ks) = List.concat (fst <$> List.concat ((λ k, selected k l) <$> ks))).
    { generalize ks. intros ks'. induction ks' as [|k ks' IH]; [done|]. cbn. rewrite fmap_app, concat_app, <- IH. unfold entry.
      destruct (selected k l); cbn; [done|]. by rewrite <- app_assoc. }
    rewrite Hc. apply concat_fst_perm.
    apply (concat_groups (λ e, cell_key f (snd e)) ks l); [apply NoDup_remove_dups|].
    intros e He. apply elem_of_remove_dups. apply list_elem_of_fmap_2, list_elem_of_fmap_2, He.
  - unfold group_by. fold ks. rewrite list_fmap_omap. generalize ks. intros ks'. apply list_omap_ext.
    apply Forall_Forall2_diag, Forall_forall. intros k _. rewrite <- selected_cells. unfold entry, merge_cells. by destruct (selected k l).
Qed.

Lemma merge_cells_key k cs c : merge_cells (snd k) (cells_at f k cs) = Some c → cell_key (λ t, t) c = k.
Proof.
  unfold merge_cells. destruct (cells_at f k cs) as [|c0 l] eqn:E; [done|]. intros [= <-].
  assert (Hin : c0 ∈ cells_at f k cs) by (rewrite E; left).
  apply list_elem_of_In, filter_In in Hin as [_ Hk%bool_decide_eq_true]. clear E.
  assert (Hkey : ∀ c, ce_query (foldl merge_cell c l) = ce_query c ∧ ce_hash (foldl merge_cell c l) = ce_hash c).
  { induction l as [|c' l IH]; intros c; [done|]. cbn. by destruct (IH (merge_cell c c')) as [-> ->]. }
  unfold cell_key. cbn. destruct (Hkey c0) as [-> ->]. by rewrite <- Hk.
Qed.

Lemma group_keys_NoDup cs : NoDup (cell_key (λ t, t) <$> group_by f cs).
Proof.
  unfold group_by. generalize (NoDup_remove_dups (cell_key f <$> cs)). generalize (remove_dups (cell_key f <$> cs)). intros ks Hnd.
  induction Hnd as [|k ks Hk Hnd IH]; [constructor|]. cbn. destruct (merge_cells _ _) as [c|] eqn:E; [|exact IH].
  cbn. constructor; [|exact IH]. rewrite (merge_cells_key k cs c E). intros (c' & Hk' & Hc')%list_elem_of_fmap.
  apply list_elem_of_omap in Hc' as (k' & Hin & Hc'). apply merge_cells_key in Hc'. congruence.
Qed.
End group.
End AggregationFacts.

(** * What a read of a window gives *)
Module ReadFacts.
Import AggregationFacts.

Lemma interval_end_spec w t T : 0 < w → interval_end w t = T ↔ (w | T) ∧ T - w < t ≤ T.
Proof.
  intros Hw. unfold interval_end. pose proof (Z.mod_pos_bound (t - 1) w Hw). pose proof (Z.div_mod (t - 1) w ltac:(lia)).
  split; [intros <-; split; [exists ((t - 1) / w + 1); lia|lia]|].
  intros [[k ->] Ht]. set (d := (t - 1) / w) in *. set (m := (t - 1) mod w) in *.
  assert (d < k) by (apply (Z.mul_lt_mono_pos_l w); lia). assert (k - 2 < d) by (apply (Z.mul_lt_mono_pos_l w); lia).
  assert (d = k - 1) by lia. nia.
Qed.

Lemma interval_end_compose w s t : 0 < w → 0 < s → (w | s) → interval_end s (interval_end w t) = interval_end s t.
Proof.
  intros Hw Hs [k Hk]. destruct (proj1 (interval_end_spec w t _ Hw) eq_refl) as [[a Ha] Hb].
  destruct (proj1 (interval_end_spec s t _ Hs) eq_refl) as [[c Hc] Hd].
  apply interval_end_spec; [done|]. split; [by exists c|]. subst s. rewrite Ha, Hc in *.
  assert (a < c * k + 1) by (apply (Z.mul_lt_mono_pos_r w); lia). assert (a * w ≤ c * k * w) by (apply Z.mul_le_mono_nonneg_r; lia). lia.
Qed.

Lemma interval_end_lt w t lo : 0 < w → (w | lo) → (lo < interval_end w t ↔ lo < t).
Proof. intros Hw [k Hk]. destruct (proj1 (interval_end_spec w t _ Hw) eq_refl) as [[a Ha] Hb].
  split; [|lia]. rewrite Ha in *. subst lo. intros Hlt%Z.mul_lt_mono_pos_r; [|done].
  assert (k * w ≤ (a - 1) * w) by (apply Z.mul_le_mono_nonneg_r; lia). lia.
Qed.

Lemma start_of_mono d a b : 0 < d → a ≤ b → start_of d a ≤ start_of d b.
Proof.
  intros Hd Hab. unfold start_of. pose proof (Z.div_mod a d ltac:(lia)). pose proof (Z.div_mod b d ltac:(lia)).
  pose proof (Z.div_le_mono a b d Hd Hab). nia.
Qed.

(** The pruning condition, which only names the granules to read, drops no row of the window. *)
Lemma pq_where_window q c : 0 < pq_prune q →
  pq_where q c = (pq_lo q <=? ce_t c) && (ce_t c <=? pq_to q) && in_queries (pq_queries q) (ce_query c).
Proof.
  intros Hd. unfold pq_where. destruct (Z.leb_spec (pq_lo q) (ce_t c)) as [Hlo|]; [|by rewrite !andb_false_r].
  destruct (Z.leb_spec (ce_t c) (pq_to q)) as [Hto|]; [|by rewrite !andb_false_r].
  apply (start_of_mono (pq_prune q)) in Hlo, Hto; [|done..].
  apply Z.leb_le in Hlo, Hto. by rewrite Hlo, Hto.
Qed.

Lemma filter_perm {A} (P : A → bool) (l l' : list A) : l ≡ₚ l' → List.filter P l ≡ₚ List.filter P l'.
Proof.
  induction 1 as [|x l l' _ IH|x y l|l1 l2 l3 _ IH1 _ IH2]; [done| | |by rewrite IH1].
  - cbn. destruct (P x); by rewrite IH.
  - cbn. destruct (P x), (P y); try done. apply Permutation_swap.
Qed.

Lemma filter_rolled g (P : cell → bool) (Q : pointRow → bool) ps cs :
  (∀ p c, po_query p = ce_query c → g (po_t p) = ce_t c → P c = Q p) →
  rolled g ps cs → rolled g (List.filter Q ps) (List.filter P cs).
Proof.
  intros HPQ (l & Hl & Hp & <-). exists (List.filter (λ e, P (snd e)) l). split_and!.
  - apply Forall_forall. intros e He. apply list_elem_of_In, filter_In in He as [He _]. rewrite Forall_forall in Hl. by apply Hl, list_elem_of_In.
  - rewrite <- (filter_perm Q _ _ Hp). clear Hp. induction Hl as [|e l (Hd & Hc & Ht) Hl IH]; [done|].
    cbn. rewrite List.filter_app. assert (Hall : ∀ p, p ∈ fst e → Q p = P (snd e)).
    { intros p Hin. symmetry. apply HPQ; [by apply (cov_key _ _ Hc)|by apply Ht]. }
    assert (Hf : List.filter Q (fst e) = if P (snd e) then fst e else []).
    { revert Hall. generalize (fst e). intros qs Hall. induction qs as [|p qs IHq]; [by destruct (P (snd e))|].
      cbn. rewrite Hall by left. rewrite IHq by (intros; apply Hall; by right). by destruct (P (snd e)). }
    rewrite Hf. destruct (P (snd e)); cbn; by rewrite IH.
  - clear. induction l as [|e l IH]; [done|]. cbn. destruct (P (snd e)); cbn; by rewrite IH.
Qed.

(** ** Tables that only saw inserts that went through *)
Definition consistent (t : WorldTables) : Prop :=
  defined (world_points t)
  ∧ rolled (interval_end (5 * Time.Minute)) (world_points t) (world_points_5m t)
  ∧ rolled (interval_end Time.Hour) (world_points t) (world_points_1h t).

Lemma consistent_none : consistent no_world_tables.
Proof. split_and!; [by intros p ?%not_elem_of_nil| |]; by exists []. Qed.

Lemma defined_app ps ps' : defined ps → defined ps' → defined (ps ++ ps')%list.
Proof. intros H1 H2 p [?|?]%elem_of_app; auto. Qed.

Lemma consistent_insert ps t :
  defined ps → consistent t → consistent (insert_points ps ps ps t).
Proof.
  intros Hd (Hp & H5 & H1). assert (Hds : defined (stored_point <$> ps)).
  { intros p (p' & -> & Hp')%list_elem_of_fmap. cbn. by apply Hd. }
  split_and!; cbn; [by apply defined_app|apply rolled_app; [exact H5|]..|apply rolled_app; [exact H1|]];
    apply (group_rolled _ (λ t, t)); first [done|by apply rolled_points].
Qed.

(** A window as [windowOf] makes it. *)
Record window_ok (from to step : Z) : Prop := {
  wo_step : 0 < step;
  wo_grid : (ResultsStep | step);
  wo_from : (step | from);
  wo_to : (step | to);
  wo_low : 0 ≤ from ≤ to;
  wo_range : in_i64 (to + 2 * step)
}.

Definition on_grid (ps : list pointRow) : Prop := ∀ p, p ∈ ps → (ResultsStep | po_t p).
Definition point_key (p : pointRow) : string * Z * Z := (po_query p, po_hash p, po_t p).

(** The points a read covers. *)
Definition wanted (lo to : Z) (names : list string) (p : pointRow) : bool :=
  (lo <? po_t p) && (po_t p <=? to) && in_queries names (po_query p).

(** A row that tells the last value and the largest of a cell. *)
Definition answers (r : pointAnswer) (c : cell) : Prop :=
  fst r = cell_key (λ t, t) c ∧ ag_last (snd r) = snd (ce_last c) ∧ ag_max (snd r) = ce_max c.

Lemma source_rolled t w src lo to names f :
  rolled (interval_end w) (world_points t) (source_cells t src) →
  0 < w → (w | lo) → (w | to) → (∀ t, f (interval_end w t) = f t) →
  rolled f (List.filter (wanted lo to names) (world_points t))
    (group_by f (List.filter (λ c, (lo + 1 <=? ce_t c) && (ce_t c <=? to) && in_queries names (ce_query c)) (source_cells t src))).
Proof.
  intros Hr Hw Hlo Hto Hf. apply (group_rolled f (interval_end w) Hf), filter_rolled; [|exact Hr].
  intros p c Hq Ht. unfold wanted. rewrite <- Hq, <- Ht. f_equal. f_equal.
  - apply Bool.eq_iff_eq_true. rewrite Z.leb_le, Z.ltb_lt. rewrite <- (interval_end_lt w (po_t p) lo) by done. lia.
  - apply Bool.eq_iff_eq_true. rewrite !Z.leb_le. pose proof (interval_end_lt w (po_t p) to Hw Hto). lia.
Qed.

Lemma points_rolled ps lo to names :
  defined ps →
  rolled (λ t, t) (List.filter (wanted lo to names) ps)
    (List.filter (λ c, (lo + 1 <=? ce_t c) && (ce_t c <=? to) && in_queries names (ce_query c)) (cell_of <$> ps)).
Proof.
  intros Hd. apply (filter_rolled (λ t, t)); [|by apply rolled_points].
  intros p c Hq Ht. unfold wanted. rewrite <- Hq, <- Ht. do 2 f_equal.
  apply Bool.eq_iff_eq_true. rewrite Z.leb_le, Z.ltb_lt. lia.
Qed.

Lemma filter_ext_eq {A} (P Q : A → bool) (l : list A) : (∀ x, P x = Q x) → List.filter P l = List.filter Q l.
Proof. intros H. induction l as [|x l IH]; [done|]. cbn. by rewrite H, IH. Qed.

Lemma row_of_answers cells : Forall2 answers (row_of <$> cells) cells.
Proof. induction cells as [|c cells IH]; [done|]. constructor; [by split_and!|exact IH]. Qed.

Lemma rolled_ext f g ps cs : (∀ p, p ∈ ps → f (po_t p) = g (po_t p)) → rolled f ps cs → rolled g ps cs.
Proof.
  intros Hfg (l & Hl & Hp & Hs). exists l. split_and!; [|done..]. apply Forall_forall. intros e He.
  rewrite Forall_forall in Hl. destruct (Hl e He) as (Hd & Hc & Ht). split_and!; [done..|].
  intros p Hin. rewrite <- Hfg; [by apply Ht|]. rewrite <- Hp. apply list_elem_of_In, in_concat. exists (fst e).
  split; [by apply list_elem_of_In, list_elem_of_fmap_2|by apply list_elem_of_In].
Qed.

Lemma interval_end_grid w t : 0 < w → (w | t) → interval_end w t = t.
Proof. intros Hw Ht. apply interval_end_spec; [done|]. split; [done|lia]. Qed.

Section read.
Context (t : WorldTables) (from to step : Z) (names : list string).
Context (Hc : consistent t) (Hw : window_ok from to step) (Hg : on_grid (world_points t)) (Hu : NoDup (point_key <$> world_points t)).

Lemma window_low : in_i64 (- step) ∧ in_i64 (- step + 1) ∧ in_i64 (from - step + 1).
Proof. destruct Hw. split_and!; i64. Qed.

(** The step of the stored points: the points as they are. *)
Lemma raw_read : step = ResultsStep →
  ∃ q cells, pointsSQL from to step names = Ret q ∧ Forall2 answers (run_points t q) cells
    ∧ rolled (interval_end step) (List.filter (wanted (from - step) to names) (world_points t)) cells
    ∧ NoDup (cell_key (λ t, t) <$> cells).
Proof.
  intros Hstep. destruct Hw as [Hpos Hgrid Hfrom Hto Hlow Hrange]. destruct Hc as (Hd & _ & _).
  set (q := {| pq_source := FromPoints; pq_lo := from; pq_to := to; pq_prune := Time.Hour; pq_step := None; pq_queries := names |}).
  set (cells := List.filter (λ c, (from - 1 + 1 <=? ce_t c) && (ce_t c <=? to) && in_queries names (ce_query c)) (cell_of <$> world_points t)).
  exists q, cells. split_and!.
  - unfold pointsSQL. by rewrite Hstep, Z.eqb_refl.
  - assert (Hrun : run_points t q = (λ c, (ce_query c, ce_hash c, ce_t c,
        let v := snd (ce_last c) in {| ag_last := v; ag_avg := v; ag_sum := v; ag_max := v |})) <$> cells).
    { unfold run_points, cells. cbn [pq_step q pq_source source_cells]. f_equal. apply filter_ext_eq. intros c.
      rewrite pq_where_window by done. cbn. by replace (from - 1 + 1) with from by lia. }
    rewrite Hrun. assert (Hcell : ∀ c, c ∈ cells → ce_max c = snd (ce_last c)).
    { intros c Hin. apply list_elem_of_In, filter_In in Hin as [Hin _]. by apply list_elem_of_In, list_elem_of_fmap in Hin as (p & -> & _). }
    revert Hcell. generalize cells. intros cs Hcell. induction cs as [|c cs IH]; [done|].
    constructor; [split_and!; [done..|]; cbn; symmetry; apply Hcell; by left|]. apply IH. intros c' Hc'. apply Hcell. by right.
  - apply (rolled_ext (λ t, t)).
    + intros p Hp. apply list_elem_of_In, filter_In in Hp as [Hp%list_elem_of_In _]. rewrite Hstep. symmetry. by apply interval_end_grid, Hg.
    + pose proof (points_rolled (world_points t) (from - 1) to names Hd) as Hr. fold cells in Hr. revert Hr.
      rewrite (List.filter_ext_in _ (wanted (from - step) to names)); [done|].
      intros p Hp%list_elem_of_In%Hg. unfold wanted. do 2 f_equal. apply Bool.eq_iff_eq_true. rewrite !Z.ltb_lt.
      destruct Hp as [a Ha], Hfrom as [b Hb]. rewrite Hstep in *. unfold ResultsStep, Time.Second in *. lia.
  - unfold cells. clear -Hu. induction (world_points t) as [|p ps IH]; [constructor|]. apply NoDup_cons in Hu as [Hp Hu]. cbn.
    case_match; [|by apply IH]. cbn. constructor; [|by apply IH].
    intros (c & Hk & Hin)%list_elem_of_fmap. apply list_elem_of_In, filter_In in Hin as [Hin%list_elem_of_In _].
    apply list_elem_of_fmap in Hin as (p' & -> & Hp'). apply Hp, list_elem_of_fmap. exists p'. split; [exact Hk|done].
Qed.

(** Which table a step reads, and that its rows have the buckets of the points. *)
Lemma pointsSQL_buckets : step ≠ ResultsStep →
  ∃ src prune, pointsSQL from to step names
    = Ret {| pq_source := src; pq_lo := from - step + 1; pq_to := to; pq_prune := prune; pq_step := Some step; pq_queries := names |}
    ∧ 0 < prune ∧ (src = From1h → (Time.Hour | step)) ∧ (src = From5m → (5 * Time.Minute | step)).
Proof.
  intros Hstep. destruct window_low as (H1 & H2 & H3). destruct Hw as [Hpos _ _ _ _ Hrange].
  assert (Hrem : ∀ d, 0 < d → in_i64 d → rem64 step d = Ret (step mod d)).
  { intros d Hd Hdi. pose proof (Z.mod_pos_bound step d Hd). rewrite rem64_id; rewrite ?Z.rem_mod_nonneg by lia; [done|lia|i64]. }
  unfold pointsSQL. rewrite (proj2 (Z.eqb_neq _ _) Hstep), !Hrem by (first [done|by vm_compute]). cbn [and_then].
  unfold Time.Add. rewrite (wrap64_id (- step)) by done. rewrite (add64_id (- step) 1) by done.
  rewrite (add64_id from) by (by replace (from + (- step + 1)) with (from - step + 1) by lia).
  replace (from + (- step + 1)) with (from - step + 1) by lia. cbn.
  destruct (Z.leb_spec Time.Hour step), (Z.eqb_spec (step mod Time.Hour) 0) as [Hh|]; cbn;
    [eexists From1h, _; split_and!; [done|done|by intros _; apply Z.mod_divide|done]|..];
    (destruct (Z.leb_spec (5 * Time.Minute) step), (Z.eqb_spec (step mod (5 * Time.Minute)) 0) as [Hm|]; cbn;
      [eexists From5m, _; split_and!; [done|done|done|by intros _; apply Z.mod_divide]|..];
      eexists FromPoints, _; by split_and!).
Qed.

Lemma bucket_read : step ≠ ResultsStep →
  ∃ q cells, pointsSQL from to step names = Ret q ∧ Forall2 answers (run_points t q) cells
    ∧ rolled (interval_end step) (List.filter (wanted (from - step) to names) (world_points t)) cells
    ∧ NoDup (cell_key (λ t, t) <$> cells).
Proof.
  intros Hstep. destruct (pointsSQL_buckets Hstep) as (src & prune & Hq & Hprune & H1 & H5).
  destruct Hw as [Hpos Hgrid Hfrom Hto Hlow Hrange]. destruct Hc as (Hd & H5m & H1h). rewrite Hq.
  set (q := {| pq_source := src; pq_lo := from - step + 1; pq_to := to; pq_prune := prune; pq_step := Some step; pq_queries := names |}).
  set (kept := List.filter (λ c, (from - step + 1 <=? ce_t c) && (ce_t c <=? to) && in_queries names (ce_query c)) (source_cells t src)).
  exists q, (group_by (interval_end step) kept).
  assert (Hrun : run_points t q = row_of <$> group_by (interval_end step) kept).
  { unfold run_points, kept. cbn [pq_step q pq_source]. do 2 f_equal. apply filter_ext_eq. intros c. by rewrite pq_where_window. }
  rewrite Hrun. split_and!; [done|apply row_of_answers| |apply group_keys_NoDup].
  assert (Hsrc : ∀ w, 0 < w → (w | step) → rolled (interval_end w) (world_points t) (source_cells t src) →
    rolled (interval_end step) (List.filter (wanted (from - step) to names) (world_points t)) (group_by (interval_end step) kept)).
  { intros w Hw0 Hdiv Hr. apply (source_rolled t w); [exact Hr|done| | |].
    - apply Z.divide_sub_r; [by transitivity step|done].
    - by transitivity step.
    - intros t0. by apply interval_end_compose. }
  destruct src.
  - unfold kept. cbn [source_cells]. by apply (group_rolled _ (λ t, t)), points_rolled.
  - by apply (Hsrc (5 * Time.Minute)); [|apply H5|].
  - by apply (Hsrc Time.Hour); [|apply H1|].
Qed.

Lemma read_rolled :
  ∃ q cells, pointsSQL from to step names = Ret q ∧ Forall2 answers (run_points t q) cells
    ∧ rolled (interval_end step) (List.filter (wanted (from - step) to names) (world_points t)) cells
    ∧ NoDup (cell_key (λ t, t) <$> cells).
Proof. destruct (decide (step = ResultsStep)); [by apply raw_read|by apply bucket_read]. Qed.

(** ** The rows, as buckets of the points *)
Definition in_bucket (query : string) (hash lo hi : Z) (p : pointRow) : bool :=
  String.eqb (po_query p) query && (po_hash p =? hash) && (lo <? po_t p) && (po_t p <=? hi).
Definition latest (ps : list pointRow) : option pointRow :=
  foldl (λ best p, match best with Some b => if po_t b <? po_t p then Some p else best | None => Some p end) None ps.
Definition bucket_value (ps : list pointRow) (query : string) (hash lo hi : Z) : f32 :=
  match latest (List.filter (in_bucket query hash lo hi) ps) with Some p => po_v p | None => NaN end.

Lemma latest_spec ps : match latest ps with Some p => p ∈ ps ∧ ∀ p', p' ∈ ps → po_t p' ≤ po_t p | None => ps = [] end.
Proof.
  unfold latest. induction ps as [|p ps IH] using rev_ind; [done|]. rewrite foldl_app. cbn.
  destruct (foldl _ None ps) as [b|]; [|subst ps; split; [left|by intros p' ->%list_elem_of_singleton]].
  destruct IH as [Hin Hle]. destruct (Z.ltb_spec (po_t b) (po_t p)); (split; [apply elem_of_app; auto using list_elem_of_singleton|]).
  - right. by apply list_elem_of_singleton.
  - intros p' [Hp'%Hle|Hp'%list_elem_of_singleton]%elem_of_app; [lia|by subst].
  - intros p' [Hp'%Hle|Hp'%list_elem_of_singleton]%elem_of_app; [lia|by subst].
Qed.

Lemma in_bucket_true q h lo hi p : in_bucket q h lo hi p = true ↔ po_query p = q ∧ po_hash p = h ∧ lo < po_t p ≤ hi.
Proof. unfold in_bucket. rewrite !andb_true_iff, String.eqb_eq, Z.eqb_eq, Z.ltb_lt, Z.leb_le. tauto. Qed.

Lemma bucket_value_unique q h lo hi p :
  p ∈ world_points t → in_bucket q h lo hi p = true → (∀ p', p' ∈ world_points t → in_bucket q h lo hi p' = true → po_t p' ≤ po_t p) →
  bucket_value (world_points t) q h lo hi = po_v p.
Proof.
  intros Hin Hb Hmax. unfold bucket_value. pose proof (latest_spec (List.filter (in_bucket q h lo hi) (world_points t))) as Hl.
  destruct (latest _) as [p'|].
  - destruct Hl as [Hin' Hle]. apply list_elem_of_In, filter_In in Hin' as [Hin'%list_elem_of_In Hb'].
    assert (Ht : po_t p' = po_t p).
    { apply Z.le_antisymm; [by apply Hmax|]. apply Hle, list_elem_of_In, filter_In. split; [by apply list_elem_of_In|done]. }
    f_equal. apply list_elem_of_lookup in Hin as [i Hi], Hin' as [j Hj].
    assert (i = j); [|congruence]. apply (NoDup_lookup (point_key <$> world_points t) i j (point_key p)); [done|by rewrite list_lookup_fmap, Hi|].
    rewrite list_lookup_fmap, Hj. cbn. f_equal. unfold point_key. rewrite Ht.
    apply in_bucket_true in Hb as (<- & <- & _), Hb' as (<- & <- & _). done.
  - exfalso. apply (not_elem_of_nil p). rewrite <- Hl. apply list_elem_of_In, filter_In. by split; [apply list_elem_of_In|].
Qed.

(** A row stands for a bucket of the window, and a bucket that is not empty has one row. *)
Definition rows_ok (rows : list pointAnswer) : Prop :=
  NoDup (fst <$> rows)
  ∧ (∀ q h T ag, (q, h, T, ag) ∈ rows → (step | T) ∧ from ≤ T ≤ to ∧ in_queries names q = true
      ∧ ag_last ag = bucket_value (world_points t) q h (T - step) T ∧ ag_last ag ≠ NaN)
  ∧ (∀ q h T, (step | T) → from ≤ T ≤ to → in_queries names q = true →
      bucket_value (world_points t) q h (T - step) T ≠ NaN → ∃ ag, (q, h, T, ag) ∈ rows).

Lemma wanted_true p : wanted (from - step) to names p = true ↔ from - step < po_t p ≤ to ∧ in_queries names (po_query p) = true.
Proof. unfold wanted. rewrite !andb_true_iff, Z.ltb_lt, Z.leb_le. tauto. Qed.

Lemma rows_are_buckets :
  ∃ q, pointsSQL from to step names = Ret q ∧ rows_ok (run_points t q).
Proof.
  destruct read_rolled as (q & cells & Hq & Hans & (l & Hl & Hperm & <-) & Hnd). exists q. split; [done|].
  destruct Hw as [Hpos Hgrid Hfrom Hto Hlow Hrange]. pose proof Hc as (Hd & _ & _). rewrite Forall_forall in Hl.
  assert (Hkeys : fst <$> run_points t q = cell_key (λ t, t) <$> (snd <$> l)).
  { clear -Hans. induction Hans as [|r c rs cs (Hk & _) _ IH]; [done|]. cbn. by rewrite Hk, IH. }
  assert (Hpoint : ∀ p, (∃ e, e ∈ l ∧ p ∈ fst e) ↔ p ∈ world_points t ∧ wanted (from - step) to names p = true).
  { intros p. transitivity (p ∈ List.filter (wanted (from - step) to names) (world_points t)); [|by rewrite !list_elem_of_In, filter_In].
    rewrite <- Hperm, list_elem_of_In, in_concat. split; [intros (e & He & Hp)|intros (qs & Hqs & Hp)].
    - exists (fst e). split; [by apply list_elem_of_In, list_elem_of_fmap_2|by apply list_elem_of_In].
    - apply list_elem_of_In, list_elem_of_fmap in Hqs as (e & -> & He). exists e. split; [done|by apply list_elem_of_In]. }
  assert (Hkey : ∀ e p, e ∈ l → p ∈ fst e → cell_key (λ t, t) (snd e) = (po_query p, po_hash p, interval_end step (po_t p))).
  { intros e p He Hp. destruct (Hl e He) as (_ & Hcov & Ht). destruct (cov_key _ _ Hcov p Hp) as [-> ->]. by rewrite (Ht p Hp). }
  assert (Hsame : ∀ e e', e ∈ l → e' ∈ l → cell_key (λ t, t) (snd e) = cell_key (λ t, t) (snd e') → e = e').
  { intros e e' [i Hi]%list_elem_of_lookup [j Hj]%list_elem_of_lookup Heq.
    assert (i = j); [|congruence]. apply (NoDup_lookup (cell_key (λ t, t) <$> (snd <$> l)) i j (cell_key (λ t, t) (snd e))); [done|..];
      rewrite !list_lookup_fmap; [by rewrite Hi|by rewrite Hj, Heq]. }
  split_and!.
  - by rewrite Hkeys.
  - intros q0 h T ag Hrow. destruct (proj1 (list_elem_of_lookup _ _) Hrow) as [i Hi].
    destruct (Forall2_lookup_l _ _ _ _ _ Hans Hi) as (c & Hci & Hk & Hlast & _). cbn in Hk, Hlast.
    rewrite list_lookup_fmap in Hci. apply fmap_Some in Hci as (e & Hei & ->). apply list_elem_of_lookup_2 in Hei as He.
    destruct (Hl e He) as (Hde & Hcov & Ht). destruct (cov_last _ _ Hcov) as (p & Hp & Hpe & Hmax).
    rewrite (Hkey e p He Hp) in Hk. injection Hk as -> -> ->.
    destruct (proj1 (Hpoint p) (ex_intro _ e (conj He Hp))) as [Hpin Hpw]. apply wanted_true in Hpw as [Hpt Hpq].
    destruct (proj1 (interval_end_spec step (po_t p) _ Hpos) eq_refl) as [HT Hb]. set (T := interval_end step (po_t p)) in *.
    assert (from ≤ T ≤ to).
    { destruct HT as [a Ha], Hfrom as [b Hfb], Hto as [c Hcc]. rewrite Ha in *. subst from to.
      assert (b - 1 < a) by (apply (Z.mul_lt_mono_pos_r step); lia). assert (a - 1 < c) by (apply (Z.mul_lt_mono_pos_r step); lia).
      split; apply Z.mul_le_mono_nonneg_r; lia. }
    assert (Hv : ag_last ag = po_v p) by (by rewrite Hlast, Hpe). split_and!; [done|lia|lia|done| |rewrite Hv; by apply Hd].
    rewrite Hv. symmetry. apply bucket_value_unique; [done|by apply in_bucket_true|].
    intros p' Hp' (Hq' & Hh' & Ht')%in_bucket_true. destruct (proj2 (Hpoint p')) as (e' & He' & Hpe').
    { split; [done|]. apply wanted_true. rewrite Hq'. split; [lia|done]. }
    assert (e' = e) as ->; [|by apply Hmax]. apply Hsame; [done..|]. rewrite (Hkey e p He Hp), (Hkey e' p' He' Hpe'), Hq', Hh'.
    f_equal. by apply interval_end_spec.
  - intros q0 h T HT HTw Hqn Hb. unfold bucket_value in Hb. pose proof (latest_spec (List.filter (in_bucket q0 h (T - step) T) (world_points t))) as Hlat.
    destruct (latest _) as [p|]; [|done]. destruct Hlat as [Hp _]. apply list_elem_of_In, filter_In in Hp as [Hp%list_elem_of_In (<- & <- & Ht)%in_bucket_true].
    destruct (proj2 (Hpoint p)) as (e & He & Hpe); [split; [done|]; apply wanted_true; split; [lia|done]|].
    assert (He' : snd e ∈ snd <$> l) by (by apply list_elem_of_fmap_2). apply list_elem_of_lookup in He' as [i Hi].
    destruct (Forall2_lookup_r _ _ _ _ _ Hans Hi) as (r & Hri & Hk & _ & _). destruct r as [[[q1 h1] T1] ag].
    cbn in Hk. rewrite (Hkey e p He Hpe) in Hk. injection Hk as -> -> ->. apply list_elem_of_lookup_2 in Hri.
    exists ag. replace (interval_end step (po_t p)) with T in Hri; [done|]. symmetry. by apply interval_end_spec.
Qed.
End read.

(** ** The labels of a series *)
Section labels.
Context (hash : Z) (values : option TimeSeries).

Definition split_labels (labels : Labels) : MetricValues :=
  foldl split_label (metric_values ∅ hash values) (map_to_list labels).

(** Of the labels "destination" and "destination_ip" the one visited last is kept. *)
Definition one_destination (labels : Labels) : Prop := labels !! LabelDestination = None ∨ labels !! LabelDestinationIP = None.

Lemma split_label_comm mv kv kv' :
  fst kv ≠ fst kv' → ¬ (fst kv = LabelDestination ∧ fst kv' = LabelDestinationIP) →
  ¬ (fst kv = LabelDestinationIP ∧ fst kv' = LabelDestination) →
  split_label (split_label mv kv) kv' = split_label (split_label mv kv') kv.
Proof.
  destruct kv as [k v], kv' as [k' v'], mv as [ls h ts m u c d a ip]. cbn [fst]. intros Hne Hd Hd'. unfold split_label.
  repeat match goal with
  | |- context [String.eqb ?x ?y] => destruct (String.eqb_spec x y); [subst x|]
  end; cbn; try reflexivity; try done; try (by destruct Hne); try (by destruct Hd); try (by destruct Hd').
  f_equal. by apply insert_insert_ne.
Qed.

Lemma foldl_foldr_rev {A B} (f : A → B → A) (a : A) (l : list B) : foldl f a l = foldr (λ b a, f a b) a (rev l).
Proof. revert a. induction l as [|b l IH]; intros a; [done|]. cbn. by rewrite foldr_app, IH. Qed.

Lemma split_labels_order (labels : Labels) l :
  one_destination labels → l ≡ₚ map_to_list labels → foldl split_label (metric_values ∅ hash values) l = split_labels labels.
Proof.
  intros Hone Hp. unfold split_labels. rewrite !foldl_foldr_rev.
  apply (foldr_permutation (=) (λ kv mv, split_label mv kv)); [by intros ? ? ? ->| |by rewrite <- (Permutation_rev l), <- (Permutation_rev (map_to_list labels))].
  assert (Hin : ∀ j kv, rev l !! j = Some kv → labels !! fst kv = Some (snd kv)).
  { intros j [k v] Hj%list_elem_of_lookup_2. rewrite list_elem_of_In, <- in_rev, <- list_elem_of_In, Hp in Hj. by apply elem_of_map_to_list. }
  assert (Hnd : NoDup (fst <$> rev l)).
  { rewrite <- (Permutation_rev l), Hp. apply NoDup_fst_map_to_list. }
  intros j1 kv j2 kv' mv Hne H1 H2. symmetry. apply split_label_comm.
  - intros Heq. apply Hne. apply (NoDup_lookup (fst <$> rev l) j1 j2 (fst kv)); [done|by rewrite list_lookup_fmap, H1|by rewrite list_lookup_fmap, H2, Heq].
  - intros [E1 E2]. apply Hin in H1, H2. rewrite E1 in H1. rewrite E2 in H2. destruct Hone; congruence.
  - intros [E1 E2]. apply Hin in H1, H2. rewrite E1 in H1. rewrite E2 in H2. destruct Hone; congruence.
Qed.
End labels.


(** ** The points of a series in its window *)
Definition in_window (ts : TimeSeries) (T : Z) : Prop :=
  ts_from ts ≤ T < ts_from ts + len_go (ts_data ts) * ts_step ts ∧ (ts_step ts | T).

Lemma bucket_at ts k : 0 < ts_step ts → bucket ts (ts_from ts + Z.of_nat k * ts_step ts) = k.
Proof. intros Hs. unfold bucket. replace (ts_from ts + Z.of_nat k * ts_step ts - ts_from ts) with (Z.of_nat k * ts_step ts) by lia. rewrite Z.div_mul by lia. lia. Qed.

Lemma in_window_bucket ts T : wf_ts ts → in_window ts T → T = ts_from ts + Z.of_nat (bucket ts T) * ts_step ts ∧ (bucket ts T < List.length (ts_data ts))%nat.
Proof.
  intros [Hs Hf [a Ha] _] [Hr [b Hb]]. unfold bucket, len_go in *. rewrite Ha, Hb in *.
  replace (b * ts_step ts - a * ts_step ts) with ((b - a) * ts_step ts) by lia. rewrite Z.div_mul by lia.
  assert (0 ≤ b - a) by (apply (Z.mul_le_mono_pos_r _ _ (ts_step ts)); lia).
  assert (b - a < Z.of_nat (List.length (ts_data ts))) by (apply (Z.mul_lt_mono_pos_r (ts_step ts)); lia).
  rewrite Z2Nat.id by lia. split; lia.
Qed.

Lemma set_points_last ts pts b :
  wf_ts ts → (∀ T v, (T, v) ∈ pts → in_window ts T ∧ ag_last v ≠ NaN) → NoDup (fst <$> pts) →
  ∃ d, fold_go (λ '(ts, changed) '(t, v),
        if IsNaN (ag_of aggLast v) then Ret (ts, changed) else let* ts := Set_ ts t (ag_of aggLast v) in Ret (ts, true)) (ts, b) pts
      = Ret (NewWithData (ts_from ts) (ts_step ts) d, b || negb (bool_decide (pts = [])))
    ∧ List.length d = List.length (ts_data ts)
    ∧ (∀ T v, (T, v) ∈ pts → d !! bucket ts T = Some (ag_last v))
    ∧ (∀ k, (∀ v, (ts_from ts + Z.of_nat k * ts_step ts, v) ∉ pts) → d !! k = ts_data ts !! k).
Proof.
  revert ts b. induction pts as [|[T v] pts IH]; intros ts b Hwf Hin Hnd.
  { exists (ts_data ts). rewrite bool_decide_true by done. cbn. rewrite orb_false_r. split_and!; [by destruct ts|done| |done].
    by intros ? ? ?%not_elem_of_nil. }
  apply NoDup_cons in Hnd as [HT Hnd]. destruct (Hin T v) as [Hw Hv]; [by left|].
  destruct (in_window_bucket ts T Hwf Hw) as [HTb Hlt]. cbn [fold_go ag_of].
  rewrite (proj2 (IsNaN_false (ag_last v)) Hv).
  destruct Hw as [[Hlo Hhi] Hdiv]. pose proof Hwf as [Hs Hf Ha Hr].
  assert (in_i64 T) by i64.
  rewrite Set_replaces_its_bucket by (first [done|lia]). rewrite bool_decide_false by lia. cbn [and_then].
  set (ts' := NewWithData (ts_from ts) (ts_step ts) (<[bucket ts T := ag_last v]> (ts_data ts))).
  assert (Hlen : List.length (ts_data ts') = List.length (ts_data ts)) by apply length_insert.
  assert (Hwf' : wf_ts ts') by (split; try done; unfold len_go in *; by rewrite Hlen).
  destruct (IH ts' true Hwf') as (d & Hd & Hl & Hp & Hk); [|exact Hnd|].
  { intros T' v' HT'. destruct (Hin T' v') as [[Hw1 Hw2] Hv']; [by right|]. split; [|done]. split; [|done].
    unfold len_go in *. by rewrite Hlen. }
  exists d. rewrite bool_decide_false by done. rewrite orb_true_r. split_and!; [exact Hd|by rewrite Hl| |].
  - intros T' v' [[= -> ->]|HT']%elem_of_cons; [|by apply Hp].
    rewrite (Hk (bucket ts T)); [by apply list_lookup_insert_eq|]. intros v' Hv'. apply HT. cbn in Hv'. rewrite <- HTb in Hv'.
    by apply (list_elem_of_fmap_2 fst) in Hv'.
  - intros k Hk'. rewrite Hk by (intros v' Hv'; apply (Hk' v'); by right). cbn. apply list_lookup_insert_ne.
    intros <-. apply (Hk' v). rewrite <- HTb. left.
Qed.

(** ** What a load gives for a series

    The last stored value of each step, unless there is none in the window. *)
Definition points_in (w : window) : nat := Z.to_nat ((wi_to w - wi_from w) / wi_step w + 1).
Definition series_data (ps : list pointRow) (query : string) (hash : Z) (w : window) : list f32 :=
  (λ k, let T := wi_from w + Z.of_nat k * wi_step w in bucket_value ps query hash (T - wi_step w) T) <$> seq 0 (points_in w).
Definition loaded (ps : list pointRow) (w : window) (s : seriesRow) : option MetricValues :=
  let data := series_data ps (se_query s) (se_hash s) w in
  if forallb IsNaN data then None
  else Some (split_labels (se_hash s) (Some (NewWithData (wi_from w) (wi_step w) data)) (se_labels s)).

Section load.
Context `{Env} `{MapOrder}.
Context (t : WorldTables) (w : window) (names : list string) (rows : list pointAnswer).
Context (Hw : window_ok (wi_from w) (wi_to w) (wi_step w)).
Context (Hrows : rows_ok t (wi_from w) (wi_to w) (wi_step w) names rows).

Lemma window_div : (wi_to w - wi_from w) = ((wi_to w - wi_from w) / wi_step w) * wi_step w ∧ 0 ≤ (wi_to w - wi_from w) / wi_step w.
Proof.
  destruct Hw as [Hs _ Hf Ht Hl _]. assert (Hd : (wi_step w | wi_to w - wi_from w)) by (by apply Z.divide_sub_r).
  destruct Hd as [a Ha]. rewrite Ha, Z.div_mul by lia. split; [done|]. apply (Z.mul_le_mono_pos_r _ _ (wi_step w)); lia.
Qed.

Lemma window_new :
  (let* n := quot64 (Time.Sub (wi_to w) (wi_from w)) (wi_step w) in New (wi_from w) (add64 n 1) (wi_step w))
  = Ret (NewWithData (wi_from w) (wi_step w) (replicate (points_in w) NaN)).
Proof.
  destruct window_div as [Hd Hn]. destruct Hw as [Hs _ _ _ Hl Hr]. unfold Time.Sub. rewrite sub64_id by i64.
  assert (Hle : (wi_to w - wi_from w) / wi_step w ≤ wi_to w - wi_from w).
  { rewrite Hd at 2. rewrite <- (Z.mul_1_r ((wi_to w - wi_from w) / wi_step w)) at 1. apply Z.mul_le_mono_nonneg_l; lia. }
  rewrite quot64_id; rewrite ?Z.quot_div_nonneg by lia; [|lia|i64]. cbn. rewrite add64_id by i64.
  unfold New. rewrite bool_decide_false by lia. done.
Qed.

Lemma window_ts_ok d : List.length d = points_in w → wf_ts (NewWithData (wi_from w) (wi_step w) d).
Proof.
  destruct window_div as [Hd Hn]. destruct Hw as [Hs _ Hf _ Hl Hr]. intros Hlen. split; cbn; [done|lia|done|].
  unfold len_go. rewrite Hlen. unfold points_in. rewrite Z2Nat.id by lia.
  replace (((wi_to w - wi_from w) / wi_step w + 1) * wi_step w) with ((wi_to w - wi_from w) / wi_step w * wi_step w + wi_step w) by lia.
  rewrite <- Hd. i64.
Qed.

Lemma points_of_spec s T v : (T, v) ∈ points_of rows s ↔ (se_query s, se_hash s, T, v) ∈ rows.
Proof.
  unfold points_of. rewrite list_elem_of_omap. split.
  - intros ([[[q h] T'] v'] & Hin & He). case_bool_decide as Hk; [|done]. injection He as -> ->. unfold series_key in Hk. by injection Hk as -> ->.
  - intros Hin. eexists. split; [exact Hin|]. cbn. by rewrite bool_decide_true.
Qed.

Lemma points_of_NoDup s : NoDup (fst <$> points_of rows s).
Proof.
  destruct Hrows as [Hnd _]. clear Hrows. unfold points_of. induction rows as [|[[[q h] T] v] rs IH]; [constructor|]. cbn in Hnd |- *.
  apply NoDup_cons in Hnd as [Hk Hnd]. case_bool_decide as Hs; [|by apply IH]. cbn. constructor; [|by apply IH].
  intros ([T' v'] & HT & Hin)%list_elem_of_fmap. cbn in HT. subst T'. apply list_elem_of_omap in Hin as ([[[q' h'] T'] v''] & Hin & He).
  case_bool_decide as Hs'; [|done]. injection He as -> ->. apply Hk, list_elem_of_fmap. exists (q', h', T, v'). split; [cbn; congruence|done].
Qed.

Lemma metric_value_loaded s st :
  in_queries names (se_query s) = true → one_destination (se_labels s) →
  metric_value w aggLast {| ss_labels := se_labels s; ss_hash := se_hash s; ss_points := points_of rows s |} st
  = (Ret (loaded (world_points t) w s), tick st).
Proof.
  intros Hq Hone. unfold metric_value, range, mbind, M_bind. cbn [fst snd ss_labels ss_hash ss_points].
  set (ts := NewWithData (wi_from w) (wi_step w) (replicate (points_in w) NaN)).
  assert (Hwf : wf_ts ts) by (apply window_ts_ok; apply length_replicate).
  destruct Hrows as (_ & Hrow & Hbucket). destruct window_div as [Hdiv Hn]. pose proof Hw as [Hs _ Hf Ht Hl Hr].
  assert (Hlen : len_go (ts_data ts) * ts_step ts = wi_to w - wi_from w + wi_step w).
  { unfold len_go, ts. cbn. rewrite length_replicate. unfold points_in. rewrite Z2Nat.id by lia. lia. }
  destruct (set_points_last ts (points_of rows s) false Hwf) as (d & Hset & Hdl & Hdp & Hdk); [|apply points_of_NoDup|].
  { intros T v Hin%points_of_spec%Hrow. destruct Hin as (HT & Hb & _ & _ & Hv). split; [|done]. split; [|done]. rewrite Hlen. cbn. lia. }
  assert (Hdata : d = series_data (world_points t) (se_query s) (se_hash s) w).
  { apply list_eq. intros k. unfold series_data. rewrite list_lookup_fmap.
    destruct (decide (k < points_in w)%nat) as [Hk|Hk].
    2:{ rewrite (lookup_ge_None_2 (seq _ _)) by (rewrite length_seq; lia). apply lookup_ge_None_2. rewrite Hdl. unfold ts. cbn. rewrite length_replicate. lia. }
    rewrite lookup_seq_lt by done. cbn [fmap option_fmap option_map]. rewrite Nat.add_0_l.
    set (T := wi_from w + Z.of_nat k * wi_step w).
    assert (HTw : (wi_step w | T) ∧ wi_from w ≤ T ≤ wi_to w).
    { unfold points_in in Hk. split; [apply Z.divide_add_r; [done|by apply Z.divide_factor_r]|]. unfold T.
      assert (Z.of_nat k * wi_step w ≤ (wi_to w - wi_from w) / wi_step w * wi_step w) by (apply Z.mul_le_mono_nonneg_r; lia). lia. }
    destruct (decide (bucket_value (world_points t) (se_query s) (se_hash s) (T - wi_step w) T = NaN)) as [Hnan|Hval].
    - rewrite Hnan, Hdk; [unfold ts; cbn; apply lookup_replicate_2; done|]. intros v Hin%points_of_spec%Hrow.
      destruct Hin as (_ & _ & _ & Hv & Hv'). cbn in Hv, Hv'. unfold T in Hnan. congruence.
    - destruct (Hbucket (se_query s) (se_hash s) T) as [v Hv]; [tauto|tauto|done|done|].
      pose proof (Hdp T v (proj2 (points_of_spec _ _ _) Hv)) as Hdv. assert (Hb : bucket ts T = k) by (by apply (bucket_at ts k)). rewrite Hb in Hdv. rewrite Hdv.
      by apply Hrow in Hv as (_ & _ & _ & -> & _). }
  pose proof window_new as Hnew. destruct (quot64 _ _) as [n|]; [|done]. cbn [obind] in Hnew |- *. rewrite Hnew.
  cbn [obind]. unfold set_points. fold ts. rewrite Hset. cbn [obind fst snd orb]. unfold loaded. rewrite <- Hdata.
  f_equal. destruct (bool_decide_reflect (points_of rows s = [])) as [He|He]; cbn [negb].
  - rewrite (proj2 (forallb_forall IsNaN d)); [done|]. intros v Hv%list_elem_of_In. apply IsNaN_true.
    apply list_elem_of_lookup in Hv as [k Hk]. rewrite Hdk in Hk by (intros v' Hv'; rewrite He in Hv'; by apply not_elem_of_nil in Hv').
    by apply lookup_replicate in Hk as [? _].
  - destruct (points_of rows s) as [|[T v] pts] eqn:Hpts; [done|].
    assert (Hin : (T, v) ∈ points_of rows s) by (rewrite Hpts; left).
    destruct (forallb IsNaN d) eqn:Hall; [exfalso|].
    + rewrite forallb_forall in Hall. specialize (Hdp T v ltac:(rewrite <- Hpts; exact Hin)). apply list_elem_of_lookup_2, list_elem_of_In, Hall, IsNaN_true in Hdp.
      apply points_of_spec, Hrow in Hin as (_ & _ & _ & _ & Hne). done.
    + do 2 f_equal. rewrite split_labels_order with (labels := se_labels s); [done|done|]. apply map_order_perm.
Qed.

(** Whatever value is read, a series is given without a panic. *)
Lemma set_points_returns agg ts b pts :
  wf_ts ts → (∀ T v, (T, v) ∈ pts → 0 ≤ T ∧ in_i64 T) →
  ∃ r, fold_go (λ '(ts, changed) '(t, v),
        if IsNaN (ag_of agg v) then Ret (ts, changed) else let* ts := Set_ ts t (ag_of agg v) in Ret (ts, true)) (ts, b) pts = Ret r.
Proof.
  revert ts b. induction pts as [|[T v] pts IH]; intros ts b Hwf Hin; [by eexists|]. cbn [fold_go].
  destruct (Hin T v) as [HT Hi]; [by left|]. assert (Hin' : ∀ T v, (T, v) ∈ pts → 0 ≤ T ∧ in_i64 T) by (intros; eapply Hin; by right).
  destruct (IsNaN (ag_of agg v)); cbn [obind]; [by apply IH|].
  rewrite Set_replaces_its_bucket by done. cbn [obind]. apply IH; [|done].
  destruct Hwf as [? ? ? Hr]. split; [done..|]. cbn. destruct (bool_decide _); unfold len_go in *; rewrite ?length_insert; done.
Qed.

Lemma metric_value_returns agg s st :
  ∃ r, metric_value w agg {| ss_labels := se_labels s; ss_hash := se_hash s; ss_points := points_of rows s |} st = (Ret r, tick st).
Proof.
  unfold metric_value, range, mbind, M_bind. cbn [fst snd ss_labels ss_hash ss_points].
  set (ts := NewWithData (wi_from w) (wi_step w) (replicate (points_in w) NaN)).
  assert (Hwf : wf_ts ts) by (apply window_ts_ok; apply length_replicate).
  destruct Hrows as (_ & Hrow & _). pose proof Hw as [Hs _ _ _ Hl Hr].
  destruct (set_points_returns agg ts false (points_of rows s) Hwf) as [r Hset].
  { intros T v (HT & Hb & _)%points_of_spec%Hrow. split; [lia|i64]. }
  pose proof window_new as Hnew. destruct (quot64 _ _) as [n|]; [|done]. cbn [obind] in Hnew |- *. rewrite Hnew.
  cbn [obind]. unfold set_points. fold ts. rewrite Hset. by eexists.
Qed.
End load.
End ReadFacts.

(** * QueryRanges, when no call fails *)
Module LoadFacts.
Import AggregationFacts ReadFacts DbFacts.

Section gives.
Context `{Env} `{MapOrder} (mem : EvalMem).

(** A run that changes no memory and gives a value, without a panic, that
    satisfies [R]. *)
Definition gives {A} (m : M EvalMem A) (R : A → Prop) : Prop := triple (λ s, sys_mem s = mem) m (λ a s, sys_mem s = mem ∧ R a).
Definition yields {A} (m : M EvalMem (outcome A)) (R : A → Prop) : Prop := gives m (λ r, ∃ a, r = Ret a ∧ R a).

Lemma gives_ret {A} (a : A) (R : A → Prop) : R a → gives (mret a) R.
Proof. intros HR. by apply triple_ret. Qed.
Lemma gives_bind {A B} (m : M EvalMem A) (f : A → M EvalMem B) R Q :
  gives m R → (∀ a, R a → gives (f a) Q) → gives (m ≫= f) Q.
Proof. intros Hm Hf. eapply triple_bind; [exact Hm|]. intros a s [Hs HR]. by apply Hf. Qed.
Lemma yields_ret {A} (a : A) (R : A → Prop) : R a → yields (mret (Ret a)) R.
Proof. intros HR. apply gives_ret. by exists a. Qed.
Lemma yields_then {A B} (m : M EvalMem (outcome A)) (f : A → M EvalMem (outcome B)) R Q :
  yields m R → (∀ a, R a → yields (f a) Q) → yields (and_then m f) Q.
Proof. intros Hm Hf. eapply gives_bind; [exact Hm|]. intros r (a & -> & HR). by apply Hf. Qed.
Lemma gives_post {A} (m : M EvalMem A) (R Q : A → Prop) : (∀ a, R a → Q a) → gives m R → gives m Q.
Proof. intros HRQ. apply triple_post. intros a s [Hs HR]. split; auto. Qed.

Lemma gives_range {A} (l : list A) : gives (range l) (λ l', l' ≡ₚ l).
Proof. intros s Hs. split; [done|]. apply map_order_perm. Qed.

Lemma yields_collect {A B C} (f : A → M EvalMem (outcome B)) (g : C → A) (l : list C) (R : C → B → Prop) :
  (∀ x, x ∈ l → yields (f (g x)) (R x)) → yields (collect f (g <$> l)) (Forall2 R l).
Proof.
  induction l as [|x l IH]; intros Hf; cbn; [by apply yields_ret|].
  eapply yields_then; [apply Hf; left|]. intros b Hb. eapply yields_then; [apply IH; intros; apply Hf; by right|].
  intros bs Hbs. apply yields_ret. by constructor.
Qed.

Lemma yields_collect_id {A B} (f : A → M EvalMem (outcome B)) (l : list A) (R : A → B → Prop) :
  (∀ x, x ∈ l → yields (f x) (R x)) → yields (collect f l) (Forall2 R l).
Proof. intros Hf. pose proof (yields_collect f (λ x, x) l R Hf) as Hc. by rewrite list_fmap_id in Hc. Qed.
End gives.

Section load.
Context `{Env} `{MapOrder}.
Context (Hf : ∀ n, env_fault n = None).
Context (id : string) (mem : EvalMem).
Let t := tables_of id mem.
Context (Hc : consistent t) (Hg : on_grid (world_points t)) (Hu : NoDup (point_key <$> world_points t)).
Context (Hone : ∀ s, s ∈ world_series t → one_destination (se_labels s)).

Lemma query_rows_gives {A} (f : WorldTables → list A) : gives mem (query_rows id f) (λ r, ∃ l, r = inr l ∧ l ≡ₚ f t).
Proof.
  intros s <-. unfold query_rows. rewrite Hf. split; [done|]. eexists. split; [done|]. apply map_order_perm.
Qed.

Lemma read_names_in queries q : q ∈ queries → in_queries (read_names queries) q = true.
Proof.
  intros Hq. unfold read_names. destruct (_ <=? _)%nat; [|done].
  assert (Hin : q ∈ StringSet.sort_strings (elements queries)) by (unfold StringSet.sort_strings; rewrite merge_sort_Permutation; by apply elem_of_elements).
  unfold in_queries. destruct (StringSet.sort_strings _); [done|]. by apply bool_decide_eq_true.
Qed.

Lemma rows_ok_perm from to step names rows rows' : rows ≡ₚ rows' → rows_ok t from to step names rows → rows_ok t from to step names rows'.
Proof.
  intros Hp (Hnd & Hin & Hb). split_and!.
  - by rewrite <- Hp.
  - intros q h T ag Hr. apply Hin. by rewrite Hp.
  - intros q h T HT Hr Hn Hv. destruct (Hb q h T HT Hr Hn Hv) as [ag Hag]. exists ag. by rewrite <- Hp.
Qed.

(** What was read for a window. *)
Definition series_read (w : window) (queries : gset string) (f : string → list storedSeries) : Prop :=
  ∃ names series rows, f = stored_of series rows ∧ series ≡ₚ run_series t names
    ∧ rows_ok t (wi_from w) (wi_to w) (wi_step w) names rows ∧ ∀ q, q ∈ queries → in_queries names q = true.

Lemma read_gives w queries :
  window_ok (wi_from w) (wi_to w) (wi_step w) → yields mem (read id w queries) (λ r, ∃ f, r = inr f ∧ series_read w queries f).
Proof.
  intros Hw. unfold read. eapply gives_bind; [apply query_rows_gives|]. intros r (series & -> & Hs).
  destruct (rows_are_buckets t _ _ _ (read_names queries) Hc Hw Hg Hu) as (q & -> & Hrows).
  eapply gives_bind; [apply query_rows_gives|]. intros r (rows & -> & Hr). apply yields_ret.
  exists (stored_of series rows). split; [done|]. exists (read_names queries), series, rows. split_and!; [done|done| |by apply read_names_in].
  eapply rows_ok_perm; [symmetry; exact Hr|exact Hrows].
Qed.

(** The series of a query, the newest row of each. *)
Definition query_series (query : string) : list seriesRow := List.filter (λ s, String.eqb (se_query s) query) (final (world_series t)).

Lemma final_in s : s ∈ final (world_series t) → s ∈ world_series t.
Proof.
  unfold final. intros (k & _ & Hs)%list_elem_of_omap.
  assert (Hin : ∀ l b s, foldl newer b l = Some s → s ∈ l ∨ b = Some s).
  { induction l as [|x l IH]; intros b s' Hb; [by right|]. cbn in Hb. apply IH in Hb as [?|Hb]; [by left; right|].
    unfold newer in Hb. destruct b as [b|]; [|injection Hb as <-; left; left]. case_match; injection Hb as <-; [by right|left; left]. }
  apply Hin in Hs as [Hs|]; [|done]. by apply list_elem_of_In, filter_In in Hs as [?%list_elem_of_In _].
Qed.

Lemma metricValues_gives w queries f query fill :
  window_ok (wi_from w) (wi_to w) (wi_step w) → series_read w queries f → query ∈ queries →
  yields mem (metricValues (f query) w fill)
    (λ mvs, aggregateFor fill = aggLast → mvs ≡ₚ omap (loaded (world_points t) w) (query_series query)).
Proof.
  intros Hw (names & series & rows & -> & Hs & Hrows & Hq) Hin. specialize (Hq query Hin). unfold metricValues.
  assert (Hper : List.filter (λ s, String.eqb (se_query s) query) series ≡ₚ query_series query).
  { rewrite (filter_perm _ _ _ Hs). unfold run_series, query_series. generalize (final (world_series t)). intros l.
    induction l as [|s l IH]; [done|]. cbn. destruct (String.eqb_spec (se_query s) query) as [Heq|Hne].
    - rewrite Heq, Hq. cbn. rewrite Heq, String.eqb_refl. by rewrite IH.
    - destruct (in_queries names (se_query s)); [|done]. cbn. apply String.eqb_neq in Hne. by rewrite Hne. }
  assert (Hsel : ∀ s, s ∈ List.filter (λ s, String.eqb (se_query s) query) series → se_query s = query ∧ one_destination (se_labels s)).
  { intros s Hs'. apply list_elem_of_In, filter_In in Hs' as [Hs' Heq%String.eqb_eq]. split; [done|].
    apply Hone, final_in. apply list_elem_of_In in Hs'. rewrite Hs in Hs'. by apply list_elem_of_In, filter_In in Hs' as [?%list_elem_of_In _]. }
  unfold stored_of. eapply yields_then.
  - apply (yields_collect mem _ _ _ (λ s mv, aggregateFor fill = aggLast → mv = loaded (world_points t) w s)).
    intros s Hin' st Hst. destruct (Hsel s Hin') as [Hsq Hso].
    destruct (metric_value_returns t w names rows Hw Hrows (aggregateFor fill) s st) as [r Hr]. rewrite Hr. split; [done|].
    exists r. split; [done|]. intros Hagg. rewrite Hagg in Hr.
    rewrite (metric_value_loaded t w names rows Hw Hrows s st) in Hr; [congruence|by rewrite Hsq|done].
  - intros mvs Hmvs. apply yields_ret. intros Hagg. rewrite <- Hper. clear Hsel Hper.
    induction Hmvs as [|s mv sel mvs Hmv Hmvs IH]; [done|]. cbn. rewrite (Hmv Hagg). destruct (loaded _ _ _); cbn; by rewrite IH.
Qed.

(** ** All the requests *)
Context (requests : gmap string QueryRequest).
Context (Hreq : ∀ name r, requests !! name = Some r → ∃ w, windowOf r = Ret w ∧ window_ok (wi_from w) (wi_to w) (wi_step w)).

Definition answered (r : QueryRequest) (mvs : list MetricValues) : Prop :=
  ∃ w, windowOf r = Ret w
    ∧ (aggregateFor (rq_FillFunc r) = aggLast → mvs ≡ₚ omap (loaded (world_points t) w) (query_series (rq_Query r))).

Lemma request_windows_ret l : (∀ e, e ∈ l → ∃ w, windowOf (snd e) = Ret w) →
  ∃ ws, request_windows l = Ret ws ∧ NoDup ws ∧ ∀ w, w ∈ ws ↔ ∃ e, e ∈ l ∧ windowOf (snd e) = Ret w.
Proof.
  intros Hl. unfold request_windows.
  cut (∀ (l' : list (string * QueryRequest)) (acc : list window), (∀ e, e ∈ l' → ∃ w, windowOf (snd e) = Ret w) → NoDup acc →
    ∃ ws, fold_go (λ ws '(_, r), let* w := windowOf r in Ret (if bool_decide (w ∈ ws) then ws else (ws ++ [w])%list)) acc l' = Ret ws
      ∧ NoDup ws ∧ ∀ w, w ∈ ws ↔ w ∈ acc ∨ ∃ e, e ∈ l' ∧ windowOf (snd e) = Ret w).
  { intros H'. destruct (H' l [] Hl) as (ws & Hws & Hnd & Hin); [constructor|]. exists ws. split_and!; [done|done|]. intros w. rewrite Hin.
    split; [intros [?%not_elem_of_nil|?]; done|by right]. }
  clear. induction l' as [|[name r] l' IH]; intros acc Hl Hnd; cbn [fold_go].
  { exists acc. split_and!; [done|done|]. intros w. split; [by left|]. intros [?|(e & ?%not_elem_of_nil & _)]; done. }
  destruct (Hl (name, r)) as [w Hw]; [left|]. cbn [snd] in Hw. rewrite Hw. cbn [obind].
  destruct (IH (if bool_decide (w ∈ acc) then acc else (acc ++ [w])%list)) as (ws & Hws & Hnd' & Hin).
  - intros e He. apply Hl. by right.
  - case_bool_decide; [done|]. apply NoDup_app. split_and!; [done| |apply NoDup_singleton]. by intros x Hx ->%list_elem_of_singleton.
  - exists ws. split_and!; [done|done|]. intros w'. rewrite Hin. split.
    + intros [Hacc|(e & He & Hwe)]; [|right; exists e; split; [by right|done]].
      case_bool_decide; [by left|]. apply elem_of_app in Hacc as [?| ->%list_elem_of_singleton]; [by left|]. right. exists (name, r). split; [left|done].
    + intros [Hacc|(e & [->|He]%elem_of_cons & Hwe)]; [left|left|right; by exists e].
      * case_bool_decide; [done|]. apply elem_of_app. by left.
      * cbn in Hwe. assert (w' = w) as -> by congruence. case_bool_decide; [done|]. apply elem_of_app. right. by apply list_elem_of_singleton.
Qed.

Definition reads_ok (l : list (string * QueryRequest)) (acc : seriesByWindow) : Prop :=
  ∀ w f, (w, f) ∈ acc → series_read w (queriesByWindow l w) f.

Lemma read_windows_gives l ws acc :
  (∀ w, w ∈ ws → window_ok (wi_from w) (wi_to w) (wi_step w)) → reads_ok l acc →
  yields mem (read_windows id l ws (acc, None))
    (λ r, snd r = None ∧ reads_ok l (fst r) ∧ ∀ w, w ∈ ws ∨ w ∈ fst <$> acc → w ∈ fst <$> fst r).
Proof.
  revert acc. induction ws as [|w ws IH]; intros acc Hws Hacc.
  { apply yields_ret. split_and!; [done|done|]. by intros w [?%not_elem_of_nil|?]. }
  cbn [read_windows]. eapply yields_then; [apply read_gives, Hws; left|]. intros r (f & -> & Hf').
  apply (gives_post mem _ (λ r, ∃ a, r = Ret a ∧ (snd a = None ∧ reads_ok l (fst a) ∧ ∀ w', w' ∈ ws ∨ w' ∈ fst <$> ((w, f) :: acc) → w' ∈ fst <$> fst a))).
  - intros r (a & -> & Ha1 & Ha2 & Ha3). exists a. split; [done|]. split_and!; [done|done|].
    intros w' [[->|?]%elem_of_cons|?]; apply Ha3; [right; left|by left|right; by right].
  - apply IH; [intros; apply Hws; by right|]. intros w' f' [[= -> ->]|?]%elem_of_cons; [done|by apply Hacc].
Qed.

Lemma series_in_found acc w : w ∈ fst <$> acc → ∃ f, series_in acc w = Some f ∧ (w, f) ∈ acc.
Proof.
  unfold series_in. induction acc as [|[w' f] acc IH]; [by intros ?%not_elem_of_nil|]. cbn.
  case_bool_decide as Heq; [intros _; subst w'; exists f; split; [done|left]|].
  intros [?|Hin]%elem_of_cons; [done|]. destruct (IH Hin) as (f' & Hf' & Hin'). exists f'. split; [exact Hf'|by right].
Qed.

Lemma queriesByWindow_in l name r w : (name, r) ∈ l → windowOf r = Ret w → rq_Query r ∈ queriesByWindow l w.
Proof.
  intros Hin Hw. unfold queriesByWindow. apply elem_of_list_to_set, list_elem_of_omap. exists (name, r).
  split; [done|]. by rewrite decide_True.
Qed.

Lemma QueryRanges_gives :
  yields mem (QueryRanges id requests)
    (λ r, snd r = None ∧ ∀ name q, requests !! name = Some q → ∃ mvs, fst r !! name = Some mvs ∧ answered q mvs).
Proof.
  unfold QueryRanges. eapply gives_bind; [apply gives_range|]. intros l Hl.
  assert (Hin : ∀ name q, (name, q) ∈ l ↔ requests !! name = Some q) by (intros; rewrite Hl; apply elem_of_map_to_list).
  destruct (request_windows_ret l) as (ws & -> & _ & Hws).
  { intros [name q] He%Hin%Hreq. destruct He as (w & Hw & _). by exists w. }
  eapply gives_bind; [apply gives_range|]. intros ws' Hws'. eapply yields_then.
  { apply (read_windows_gives l ws' []); [|by intros ? ? ?%not_elem_of_nil].
    intros w Hw. rewrite Hws', Hws in Hw. destruct Hw as ([name q] & He & Hw). apply Hin, Hreq in He as (w' & Hw'' & Hok). cbn in Hw. congruence. }
  intros r (Hnone & Hok & Hcov). eapply gives_bind; [apply gives_range|]. intros l' Hl'.
  eapply yields_then.
  - apply (yields_collect_id mem _ _ (λ e a, ∃ mvs, a = Some (fst e, mvs) ∧ answered (snd e) mvs)).
    intros [name q] He. assert (Hel : (name, q) ∈ l) by (by rewrite <- Hl'). cbn [fst snd].
    destruct (Hreq name q (proj1 (Hin _ _) Hel)) as (w & Hw & Hwok). unfold answer_request. rewrite Hw.
    destruct (series_in_found (fst r) w) as (f & -> & Hf').
    { apply Hcov. left. rewrite Hws', Hws. by exists (name, q). }
    eapply yields_then; [apply (metricValues_gives w (queriesByWindow l w) f (rq_Query q) (rq_FillFunc q))|].
    + done.
    + by apply Hok.
    + by apply (queriesByWindow_in l name q w).
    + intros mvs Hmvs. apply yields_ret. exists mvs. split; [done|]. by exists w.
  - intros res Hres. apply yields_ret. split; [done|]. intros name q Hq.
    assert (Hel : (name, q) ∈ l') by (by rewrite Hl', Hin). cbn [fst].
    assert (Hpairs : ∃ mvs, (name, mvs) ∈ omap (λ x, x) res ∧ answered q mvs).
    { apply list_elem_of_lookup in Hel as [i Hi]. destruct (Forall2_lookup_l _ _ _ _ _ Hres Hi) as (a & Ha & mvs & -> & Hans).
      exists mvs. split; [|done]. apply list_elem_of_omap. exists (Some (name, mvs)). split; [by eapply list_elem_of_lookup_2|done]. }
    destruct Hpairs as (mvs & Hpair & Hans). exists mvs. split; [|done].
    apply elem_of_list_to_map_1; [|done].
    assert (Hkeys : fst <$> omap (λ x, x) res = fst <$> l').
    { clear -Hres. induction Hres as [|e a l res (mvs & -> & _) _ IH]; [done|]. cbn. by rewrite IH. }
    rewrite Hkeys, Hl', Hl. apply NoDup_fst_map_to_list.
Qed.
End load.
End LoadFacts.

(** * The store and the fill functions *)
Module FillFacts.
Import AggregationFacts ReadFacts.

Section fill.
Context (t : WorldTables) (query : string) (hash : Z) (w : window).
Context (Hd : defined (world_points t)) (Hg : on_grid (world_points t)) (Hu : NoDup (point_key <$> world_points t)).
Context (Hw : window_ok (wi_from w) (wi_to w) (wi_step w)) (Hpos : 0 < wi_from w).

(** The window that has the points of all the steps of [w], at the step of the points:
    it starts with the first point of the first step. *)
Definition raw_window : window :=
  {| wi_from := wi_from w - wi_step w + ResultsStep; wi_to := wi_to w; wi_step := ResultsStep |}.

Let bv (lo hi : Z) : f32 := bucket_value (world_points t) query hash lo hi.

Lemma bv_ext lo hi lo' hi' :
  (∀ p, p ∈ world_points t → in_bucket query hash lo hi p = in_bucket query hash lo' hi' p) → bv lo hi = bv lo' hi'.
Proof.
  intros Heq. unfold bv, bucket_value. rewrite (List.filter_ext_in _ (in_bucket query hash lo' hi')); [done|].
  intros p Hp. by apply Heq, list_elem_of_In.
Qed.

Lemma bv_none lo hi : hi ≤ lo → bv lo hi = NaN.
Proof.
  intros Hle. unfold bv, bucket_value. pose proof (latest_spec (List.filter (in_bucket query hash lo hi) (world_points t))) as Hl.
  destruct (latest _) as [p|]; [|done]. destruct Hl as [Hin _]. apply list_elem_of_In, filter_In in Hin as [_ Hb].
  apply in_bucket_true in Hb. lia.
Qed.

(** One more step of the grid. *)
Lemma bv_step lo hi : (ResultsStep | hi) → lo < hi →
  bv lo hi = if IsNaN (bv (hi - ResultsStep) hi) then bv lo (hi - ResultsStep) else bv (hi - ResultsStep) hi.
Proof.
  intros Hhi Hlo. destruct (IsNaN (bv (hi - ResultsStep) hi)) eqn:E.
  - apply bv_ext. intros p Hp. apply Bool.eq_iff_eq_true. rewrite !in_bucket_true.
    split; [|unfold ResultsStep, Time.Second; intros (?&?&?); split_and!; [done|done|lia|lia]].
    intros (Hq & Hh & Ht). split_and!; [done|done|lia|].
    destruct (Z.le_gt_cases (po_t p) (hi - ResultsStep)) as [|Hgt]; [done|exfalso]. apply IsNaN_true in E.
    assert (Hb : in_bucket query hash (hi - ResultsStep) hi p = true) by (apply in_bucket_true; split_and!; [done|done|lia|lia]).
    apply (Hd p Hp). rewrite <- E. symmetry. unfold bv. apply bucket_value_unique; [done..|].
    intros p' Hp' (_ & _ & Ht')%in_bucket_true. destruct (Hg p Hp) as [a Ha], (Hg p' Hp') as [b Hb'], Hhi as [c ->].
    unfold ResultsStep, Time.Second in *. lia.
  - apply IsNaN_false in E. unfold bv, bucket_value in E |- *.
    pose proof (latest_spec (List.filter (in_bucket query hash (hi - ResultsStep) hi) (world_points t))) as Hl.
    destruct (latest (List.filter (in_bucket query hash (hi - ResultsStep) hi) (world_points t))) as [p|]; [|done].
    destruct Hl as [Hin _]. apply list_elem_of_In, filter_In in Hin as [Hin%list_elem_of_In Hb].
    apply in_bucket_true in Hb as (Hq & Hh & Ht).
    assert (Hpt : po_t p = hi).
    { destruct (Hg p Hin) as [a Ha], Hhi as [c ->]. unfold ResultsStep, Time.Second in *. lia. }
    apply bucket_value_unique; [done|done|apply in_bucket_true; split_and!; [done|done|lia|lia]|].
    intros p' Hp' (_ & _ & Ht')%in_bucket_true. lia.
Qed.

Lemma samples_app lo hi t0 step vs v :
  samples lo hi t0 step (vs ++ [v])%list
  = (samples lo hi t0 step vs ++ (if bool_decide (lo < t0 + Z.of_nat (List.length vs) * step ≤ hi) && negb (IsNaN v) then [v] else []))%list.
Proof.
  revert t0. induction vs as [|x vs IH]; intros t0; cbn [samples app List.length].
  - by rewrite app_nil_r, Z.add_0_r.
  - rewrite IH, app_assoc, Nat2Z.inj_succ. by replace (t0 + Z.succ (Z.of_nat (List.length vs)) * step) with (t0 + step + Z.of_nat (List.length vs) * step) by lia.
Qed.

(** The last sample of a bucket among the first [m] points of the grid from [t0]. *)
Lemma samples_last lo hi t0 m : (ResultsStep | t0) → (ResultsStep | hi) → t0 - ResultsStep ≤ lo →
  default NaN (last (samples lo hi t0 ResultsStep
    ((λ k, bv (t0 + Z.of_nat k * ResultsStep - ResultsStep) (t0 + Z.of_nat k * ResultsStep)) <$> seq 0 m)))
  = bv lo (Z.min hi (t0 + (Z.of_nat m - 1) * ResultsStep)).
Proof.
  intros Ht0 Hhi Hlo. induction m as [|m IH].
  { cbn. symmetry. apply bv_none. unfold ResultsStep, Time.Second in *. lia. }
  rewrite seq_S, fmap_app. cbn [fmap list_fmap]. rewrite Nat.add_0_l, samples_app, length_fmap, length_seq.
  set (T := t0 + Z.of_nat m * ResultsStep). replace (t0 + (Z.of_nat (S m) - 1) * ResultsStep) with T by (unfold T; lia).
  replace (t0 + (Z.of_nat m - 1) * ResultsStep) with (T - ResultsStep) in IH by (unfold T; lia).
  assert (HT : (ResultsStep | T)) by (apply Z.divide_add_r; [done|apply Z.divide_factor_r]).
  destruct (bool_decide_reflect (lo < T ≤ hi)) as [Hin|Hout]; cbn [andb].
  - rewrite (Z.min_r hi T) by lia. rewrite (bv_step lo T HT) by lia.
    destruct (IsNaN (bv (T - ResultsStep) T)); cbn [negb].
    + rewrite app_nil_r, IH. f_equal. unfold ResultsStep, Time.Second in *. lia.
    + by rewrite last_snoc.
  - rewrite app_nil_r, IH. destruct (Z.le_gt_cases T lo); [by rewrite !bv_none by (unfold ResultsStep, Time.Second; lia)|].
    f_equal. destruct HT as [a Ha], Hhi as [b Hb]. unfold ResultsStep, Time.Second in *. lia.
Qed.

Let n := points_in w.
Let dst : TimeSeries := NewWithData (wi_from w) (wi_step w) (replicate n NaN).

Lemma raw_points : 0 ≤ wi_from raw_window ∧ (ResultsStep | wi_from raw_window) ∧ wi_from raw_window ≤ wi_from w
  ∧ wi_from raw_window + (Z.of_nat (points_in raw_window) - 1) * ResultsStep = wi_to w
  ∧ (0 < points_in raw_window)%nat.
Proof.
  destruct Hw as [Hs Hg' Hf Ht Hl Hr]. pose proof (Z.divide_pos_le _ _ Hpos Hf). pose proof (Z.divide_pos_le _ _ Hs Hg').
  assert (Hdf : (ResultsStep | wi_from w)) by (by transitivity (wi_step w)).
  assert (Hdt : (ResultsStep | wi_to w)) by (by transitivity (wi_step w)).
  assert (Hraw : (ResultsStep | wi_from raw_window)) by (apply Z.divide_add_r; [by apply Z.divide_sub_r|done]).
  assert (Hdiff : (ResultsStep | wi_to w - wi_from raw_window)) by (by apply Z.divide_sub_r).
  assert (Hge : 0 ≤ wi_to w - wi_from raw_window) by (cbn; lia).
  unfold points_in. cbn [wi_step raw_window wi_to]. destruct Hdiff as [a Ha]. change (wi_to raw_window) with (wi_to w). rewrite Ha.
  rewrite Z.div_mul by done. assert (0 ≤ a) by (unfold ResultsStep, Time.Second in *; lia).
  rewrite Z2Nat.id by lia. split_and!; [cbn; unfold ResultsStep, Time.Second in *; lia|done|cbn; lia|lia|lia].
Qed.

Lemma fill_ready : fill_input dst (wi_from raw_window) ResultsStep (series_data (world_points t) query hash raw_window)
  ∧ start dst (wi_from raw_window) = wi_from raw_window ∧ skip dst (wi_from raw_window) ResultsStep = 0%nat
  ∧ first_bucket dst (wi_from raw_window) = 0%nat.
Proof.
  destruct raw_points as (H1 & H2 & H3 & H4 & H5). pose proof (window_div w Hw) as [Hdiv Hn].
  pose proof Hw as [Hs Hg' Hf Ht Hl Hr]. pose proof (Z.divide_pos_le _ _ Hs Hg').
  assert (Hstart : start dst (wi_from raw_window) = wi_from raw_window).
  { unfold start. rewrite bool_decide_false; [done|]. cbn. unfold ResultsStep, Time.Second in *. lia. }
  assert (Hskip : skip dst (wi_from raw_window) ResultsStep = 0%nat) by (unfold skip; rewrite Hstart, Z.sub_diag; done).
  assert (Hfirst : first_bucket dst (wi_from raw_window) = 0%nat).
  { unfold first_bucket. rewrite Hstart. cbn. rewrite Z.div_small; [done|]. unfold ResultsStep, Time.Second in *. lia. }
  split_and!; [|done..]. split.
  - apply window_ts_ok; [done|apply length_replicate].
  - done.
  - done.
  - done.
  - unfold len_go, series_data. rewrite length_fmap, length_seq.
    replace (wi_from raw_window + Z.of_nat (points_in raw_window) * ResultsStep) with (wi_to w + ResultsStep) by lia.
    assert (0 < ResultsStep) by done. i64.
  - rewrite Hskip. lia.
  - rewrite Hfirst. cbn. rewrite length_replicate. unfold n, points_in. lia.
Qed.

(** Reading a step of the window is filling it from the points of the store. *)
Lemma series_data_FillAny :
  ∃ changed, Fill.FillAny dst (wi_from raw_window) ResultsStep (series_data (world_points t) query hash raw_window)
    = Ret (NewWithData (wi_from w) (wi_step w) (series_data (world_points t) query hash w), changed).
Proof.
  destruct fill_ready as (Hin & Hstart & Hskip & Hfirst). destruct raw_points as (H1 & H2 & H3 & H4 & H5).
  pose proof (window_div w Hw) as [Hdiv Hn]. pose proof Hw as [Hs Hg' Hf Ht Hl Hr]. pose proof (Z.divide_pos_le _ _ Hs Hg').
  destruct (FillAny_last dst (wi_from raw_window) ResultsStep _ Hin) as (d & changed & Hfill & Hlen & Hk).
  exists changed. rewrite Hfill. cbn. do 3 f_equal. apply list_eq. intros k.
  destruct (decide (k < n)%nat) as [Hkn|Hkn].
  2:{ rewrite !lookup_ge_None_2; [done| |].
      - unfold series_data. rewrite length_fmap, length_seq. unfold n in Hkn. lia.
      - rewrite Hlen. cbn. rewrite length_replicate. lia. }
  rewrite (Hk k NaN) by (cbn; by apply lookup_replicate_2).
  assert (Hser : series_data (world_points t) query hash w !! k
    = Some (bv (wi_from w + Z.of_nat k * wi_step w - wi_step w) (wi_from w + Z.of_nat k * wi_step w))).
  { unfold series_data. by rewrite list_lookup_fmap, lookup_seq_lt by done. }
  rewrite Hser. f_equal. clear Hser.
  assert (Hwr : written dst (wi_from raw_window) ResultsStep (series_data (world_points t) query hash raw_window) k = true).
  { unfold written. rewrite Hfirst, Hskip, Hstart. rewrite (bool_decide_true (0 ≤ k)%nat) by lia. cbn [andb].
    apply orb_true_iff. right. apply bool_decide_eq_true. rewrite drop_0. unfold len_go, series_data. rewrite length_fmap, length_seq, H4.
    unfold lo. cbn. unfold n, points_in in Hkn.
    assert (Z.of_nat k * wi_step w ≤ (wi_to w - wi_from w) / wi_step w * wi_step w) by (apply Z.mul_le_mono_nonneg_r; lia). lia. }
  rewrite Hwr. unfold samples_of. rewrite Hskip, Hstart, drop_0. unfold series_data at 1.
  pose proof (Z.divide_factor_r (wi_step w) (Z.of_nat k)) as Hkd.
  assert (HT : (ResultsStep | wi_from w + Z.of_nat k * wi_step w)).
  { transitivity (wi_step w); [done|]. by apply Z.divide_add_r. }
  pose proof (samples_last (lo (wi_from w) (wi_step w) k) (hi (wi_from w) (wi_step w) k) (wi_from raw_window) (points_in raw_window) H2) as Hsl.
  cbn [ts_from ts_step dst NewWithData]. unfold bv in Hsl. cbn [wi_step raw_window]. rewrite Hsl.
  - assert (Hle : wi_from w + Z.of_nat k * wi_step w ≤ wi_to w).
    { unfold n, points_in in Hkn.
      assert (Z.of_nat k * wi_step w ≤ (wi_to w - wi_from w) / wi_step w * wi_step w) by (apply Z.mul_le_mono_nonneg_r; lia). lia. }
    rewrite H4, Z.min_l by (unfold hi; lia). unfold lo, hi. f_equal. lia.
  - exact HT.
  - unfold lo. cbn. assert (0 ≤ Z.of_nat k * wi_step w) by (apply Z.mul_nonneg_nonneg; lia). lia.
Qed.
End fill.

(** A window has a value of a series exactly when the series has a point in one of
    its steps. *)
Lemma bucket_value_nan ps query hash lo hi : defined ps →
  IsNaN (bucket_value ps query hash lo hi) = true ↔ ∀ p, p ∈ ps → in_bucket query hash lo hi p = false.
Proof.
  intros Hd. unfold bucket_value. assert (Hl := latest_spec (List.filter (in_bucket query hash lo hi) ps)). split.
  - destruct (latest _) as [p|].
    + intros E%IsNaN_true. destruct Hl as [[Hp%list_elem_of_In _]%list_elem_of_In%filter_In _]. by destruct (Hd p Hp).
    + intros _ p Hp. apply not_true_iff_false. intros Hb. assert (Hin : p ∈ List.filter (in_bucket query hash lo hi) ps).
      { apply list_elem_of_In, filter_In. split; [by apply list_elem_of_In|done]. }
      rewrite Hl in Hin. by apply not_elem_of_nil in Hin.
  - intros Hn. destruct (latest _) as [p|]; [|done]. destruct Hl as [[Hp%list_elem_of_In Hb]%list_elem_of_In%filter_In _]. by rewrite Hn in Hb.
Qed.
Lemma series_data_nan ps query hash w : defined ps → window_ok (wi_from w) (wi_to w) (wi_step w) →
  forallb IsNaN (series_data ps query hash w) = true ↔ ∀ p, p ∈ ps → in_bucket query hash (wi_from w - wi_step w) (wi_to w) p = false.
Proof.
  intros Hd Hw. pose proof (window_div w Hw) as [Hdiv Hn]. pose proof Hw as [Hs Hg Hf Ht Hl Hr]. unfold series_data.
  rewrite forallb_forall. split; intros Hall.
  - intros p Hp. apply not_true_iff_false. intros (Hq & Hh & Hb)%in_bucket_true.
    destruct (proj1 (interval_end_spec (wi_step w) (po_t p) _ Hs) eq_refl) as [HT HTb]. set (T := interval_end (wi_step w) (po_t p)) in *.
    assert (Hk : ∃ k, T = wi_from w + k * wi_step w ∧ 0 ≤ k ≤ (wi_to w - wi_from w) / wi_step w).
    { destruct HT as [a Ha], Hf as [b Hb'], Ht as [c Hc]. exists (a - b). split; [lia|].
      rewrite Hc, Hb', <- Z.mul_sub_distr_r, Z.div_mul by lia. rewrite Hb', Hc, Ha in *. nia. }
    destruct Hk as (k & ET & Hk0). specialize (Hall (bucket_value ps query hash (T - wi_step w) T)).
    rewrite bucket_value_nan in Hall by done. cut (in_bucket query hash (T - wi_step w) T p = false).
    { apply not_false_iff_true, in_bucket_true. split_and!; [done|done|lia|lia]. }
    apply Hall; [|done]. apply list_elem_of_In, list_elem_of_fmap. exists (Z.to_nat k). rewrite Z2Nat.id by lia. split; [by rewrite ET|].
    apply elem_of_seq. unfold points_in. lia.
  - intros v Hv. apply list_elem_of_In, list_elem_of_fmap in Hv as (k & -> & Hk%elem_of_seq). cbv zeta. apply bucket_value_nan; [done|].
    intros p Hp. apply not_true_iff_false. intros (Hq & Hh & Hb)%in_bucket_true. specialize (Hall p Hp).
    revert Hall. apply not_false_iff_true, in_bucket_true. unfold points_in in Hk. split_and!; [done|done|nia|nia].
Qed.

Definition with_values (values : option TimeSeries) (mv : MetricValues) : MetricValues :=
  {| mv_Labels := mv_Labels mv; mv_LabelsHash := mv_LabelsHash mv; mv_Values := values; mv_MachineID := mv_MachineID mv;
     mv_SystemUUID := mv_SystemUUID mv; mv_ContainerId := mv_ContainerId mv; mv_Destination := mv_Destination mv;
     mv_ActualDestination := mv_ActualDestination mv; mv_DestIp := mv_DestIp mv |}.
Lemma split_labels_values hash values values' labels :
  split_labels hash values labels = with_values values (split_labels hash values' labels) ∧ mv_Values (split_labels hash values labels) = values.
Proof.
  unfold split_labels. induction (map_to_list labels) as [|kv l IH] using rev_ind; [done|]. rewrite !foldl_app. cbn [foldl].
  destruct IH as [-> IH]. clear IH. destruct (foldl split_label (metric_values ∅ hash values') l), kv as [k v].
  unfold split_label, with_values. cbn. by repeat case_match.
Qed.

(** A series of the raw window made one of the wider window. *)
Definition refilled (w : window) (raw wide : MetricValues) : Prop :=
  ∃ ts filled changed, mv_Values raw = Some ts
    ∧ Fill.FillAny (NewWithData (wi_from w) (wi_step w) (replicate (points_in w) NaN)) (ts_from ts) (ts_step ts) (ts_data ts) = Ret (filled, changed)
    ∧ wide = with_values (Some filled) raw.

Lemma loaded_refilled (t : WorldTables) w l :
  defined (world_points t) → on_grid (world_points t) → NoDup (point_key <$> world_points t) →
  window_ok (wi_from w) (wi_to w) (wi_step w) → 0 < wi_from w → window_ok (wi_from (raw_window w)) (wi_to (raw_window w)) (wi_step (raw_window w)) →
  Forall2 (refilled w) (omap (loaded (world_points t) (raw_window w)) l) (omap (loaded (world_points t) w) l).
Proof.
  intros Hd Hg Hu Hw Hpos Hraw. induction l as [|s l IH]; [constructor|]. cbn [omap list_omap].
  assert (L : ∀ w, loaded (world_points t) w s = if forallb IsNaN (series_data (world_points t) (se_query s) (se_hash s) w) then None
    else Some (split_labels (se_hash s) (Some (NewWithData (wi_from w) (wi_step w) (series_data (world_points t) (se_query s) (se_hash s) w))) (se_labels s)))
    by done. rewrite !L.
  assert (E : forallb IsNaN (series_data (world_points t) (se_query s) (se_hash s) (raw_window w))
            = forallb IsNaN (series_data (world_points t) (se_query s) (se_hash s) w)).
  { apply Bool.eq_iff_eq_true. rewrite !series_data_nan by done.
    replace (wi_from (raw_window w) - wi_step (raw_window w)) with (wi_from w - wi_step w) by (cbn; lia). done. }
  clear L. rewrite E. clear E. destruct (forallb IsNaN (series_data (world_points t) (se_query s) (se_hash s) w)); [exact IH|]. constructor; [|exact IH].
  destruct (series_data_FillAny t (se_query s) (se_hash s) w Hd Hg Hu Hw Hpos) as [changed Hf].
  destruct (split_labels_values (se_hash s) (Some (NewWithData (wi_from w) (wi_step w) (series_data (world_points t) (se_query s) (se_hash s) w)))
    (Some (NewWithData (wi_from (raw_window w)) (wi_step (raw_window w)) (series_data (world_points t) (se_query s) (se_hash s) (raw_window w)))) (se_labels s)) as [-> _].
  do 3 eexists. split; [exact (proj2 (split_labels_values _ _ None _))|]. split; [exact Hf|done].
Qed.

Lemma Forall2_permuted {A B} (R : A → B → Prop) l l' k : l ≡ₚ l' → Forall2 R l' k → ∃ k', Forall2 R l k' ∧ k' ≡ₚ k.
Proof.
  intros P. revert k. induction P as [|x l l' _ IH|x y l|l1 l2 l3 _ IH1 _ IH2]; intros k F.
  - inversion F. by exists [].
  - inversion F as [|? y ? k' Hx F']; subst. destruct (IH k' F') as (k2 & F2 & P2). exists (y :: k2). split; [by constructor|by rewrite P2].
  - inversion F as [|? a ? k' Hx F']; subst. inversion F' as [|? b ? k2 Hy F2]; subst. exists (b :: a :: k2). split; [by repeat constructor|by apply Permutation_swap].
  - destruct (IH2 k F) as (k2 & F2 & P2). destruct (IH1 k2 F2) as (k1 & F1 & P1). exists k1. split; [done|by rewrite P1].
Qed.
End FillFacts.

(** * Theorems *)
Module WorldStoreTheorems.
Import AggregationFacts ReadFacts.

(** What [QueryRanges] gives of the last values. *)
Lemma QueryRanges_last `{Env} `{MapOrder} (id : string) (requests : gmap string QueryRequest) (s : Sys EvalMem) :
  let t := tables_of id (sys_mem s) in
  (∀ n, env_fault n = None) →
  consistent t → on_grid (world_points t) → NoDup (point_key <$> world_points t) →
  (∀ r, r ∈ world_series t → one_destination (se_labels r)) →
  (∀ name r, requests !! name = Some r → ∃ w, windowOf r = Ret w ∧ window_ok (wi_from w) (wi_to w) (wi_step w)) →
  ∃ res s', QueryRanges id requests s = (Ret (res, None), s') ∧ sys_mem s' = sys_mem s
    ∧ ∀ name r w, requests !! name = Some r → windowOf r = Ret w → aggregateFor (rq_FillFunc r) = aggLast →
        ∃ mvs, res !! name = Some mvs ∧ mvs ≡ₚ omap (loaded (world_points t) w) (LoadFacts.query_series id (sys_mem s) (rq_Query r)).
Proof.
  intros t Hf Hc Hg Hu Hone Hreq.
  destruct (LoadFacts.QueryRanges_gives Hf id (sys_mem s) Hc Hg Hu Hone requests Hreq s eq_refl) as (Hmem & [res err] & Hrun & Hnone & Hans).
  cbn in Hnone. subst err. destruct (QueryRanges id requests s) as [o s'] eqn:E. cbn in Hmem, Hrun. subst o.
  exists res, s'. split_and!; [done|done|]. intros name r w Hr Hw Hagg.
  destruct (Hans name r Hr) as (mvs & Hmvs & w' & Hw' & Hperm). exists mvs. split; [done|].
  assert (w' = w) as -> by congruence. by apply Hperm.
Qed.

(** C15 When no call fails, every request is answered without a panic, and one that
    reads the last value of a step gets, for each series of its query with a
    point in the window, the newest labels stored and, at each step T, the last
    point stored in (T - step, T] (NaN when there is none): the same whether the
    step reads the points or a rollup. *)
Theorem QueryRanges_reads_last `{Env} `{MapOrder} (id : string) (requests : gmap string QueryRequest) (s : Sys EvalMem) :
  let t := tables_of id (sys_mem s) in
  (∀ n, env_fault n = None) →
  consistent t → on_grid (world_points t) → NoDup (point_key <$> world_points t) →
  (∀ r, r ∈ world_series t → one_destination (se_labels r)) →
  (∀ name r, requests !! name = Some r → ∃ w, windowOf r = Ret w ∧ window_ok (wi_from w) (wi_to w) (wi_step w)) →
  ∃ res s', QueryRanges id requests s = (Ret (res, None), s') ∧ sys_mem s' = sys_mem s
    ∧ ∀ name r w, requests !! name = Some r → windowOf r = Ret w → aggregateFor (rq_FillFunc r) = aggLast →
        ∃ mvs, res !! name = Some mvs ∧ mvs ≡ₚ omap (loaded (world_points t) w) (LoadFacts.query_series id (sys_mem s) (rq_Query r)).
Proof. apply QueryRanges_last. Qed.

(** C17 A load at a wider step gives what [timeseries.FillAny] makes of a load at the
    step of the points: when two requests of a query read the last values, one of the
    window [w] and one of [raw_window w] (its step that of the points, from the first
    point of the first step of [w]), then the answer of the first has the series of
    that of the second, with the values [FillAny] fills in from them.  So the rollups
    and the GROUP BY of a wide step lose nothing of what the points would give. *)
Theorem wider_step_is_FillAny `{Env} `{MapOrder} (id : string) (requests : gmap string QueryRequest) (s : Sys EvalMem) wide raw r r' w :
  let t := tables_of id (sys_mem s) in
  (∀ n, env_fault n = None) →
  consistent t → on_grid (world_points t) → NoDup (point_key <$> world_points t) →
  (∀ r, r ∈ world_series t → one_destination (se_labels r)) →
  (∀ name r, requests !! name = Some r → ∃ w, windowOf r = Ret w ∧ window_ok (wi_from w) (wi_to w) (wi_step w)) →
  requests !! wide = Some r → requests !! raw = Some r' → rq_Query r' = rq_Query r →
  aggregateFor (rq_FillFunc r) = aggLast → aggregateFor (rq_FillFunc r') = aggLast →
  windowOf r = Ret w → windowOf r' = Ret (FillFacts.raw_window w) → 0 < wi_from w →
  ∃ res s' mvs raws filled, QueryRanges id requests s = (Ret (res, None), s')
    ∧ res !! wide = Some mvs ∧ res !! raw = Some raws ∧ Forall2 (FillFacts.refilled w) raws filled ∧ mvs ≡ₚ filled.
Proof.
  intros t Hf Hc Hg Hu Hone Hreq Hwide Hraw Hq Ha Ha' Hw Hw' Hpos.
  destruct (QueryRanges_last id requests s Hf Hc Hg Hu Hone Hreq) as (res & s' & Hrun & _ & Hans).
  destruct (Hans wide r w Hwide Hw Ha) as (mvs & Hmvs & Pm). destruct (Hans raw r' _ Hraw Hw' Ha') as (raws & Hraws & Pr). rewrite Hq in Pr.
  destruct (Hreq _ _ Hwide) as (w1 & Ew & Hok). destruct (Hreq _ _ Hraw) as (w2 & Ew' & Hok').
  assert (w1 = w) as -> by congruence. assert (w2 = FillFacts.raw_window w) as -> by congruence.
  destruct (FillFacts.Forall2_permuted _ _ _ _ Pr (FillFacts.loaded_refilled t w _ (proj1 Hc) Hg Hu Hok Hpos Hok')) as (filled & Hfill & Pf).
  exists res, s', mvs, raws, filled. split_and!; [done..|]. by rewrite Pm, Pf.
Qed.
End WorldStoreTheorems.

(** * An example: the points of one series over ten minutes *)
Module WorldStoreRuns.
Import AggregationFacts ReadFacts.

Definition point (t : Z) (v : Z) : pointRow := {| po_query := "up"; po_hash := 7; po_t := t; po_v := F32.of_Z v |}.
Definition some_points : list pointRow := [point 600 1; point 615 2; point 900 3; point 915 4].
Definition labels : Labels := {["job" := "a"; "machine_id" := "m1"]}.
Definition tables : WorldTables :=
  insert_points some_points some_points some_points
    (insert_series [{| se_query := "up"; se_hash := 7; se_labels := labels; se_lastSeen := 915 |}] no_world_tables).

Lemma tables_consistent : consistent tables.
Proof.
  apply consistent_insert; [|apply consistent_none].
  intros p Hp. unfold some_points in Hp. repeat (apply elem_of_cons in Hp as [->|Hp]; [discriminate|]). by apply not_elem_of_nil in Hp.
Qed.
Lemma tables_on_grid : on_grid (world_points tables).
Proof.
  intros p Hp. change (world_points tables) with some_points in Hp. unfold some_points in Hp.
  repeat (apply elem_of_cons in Hp as [->|Hp]; [apply Z.mod_divide; [discriminate|reflexivity]|]). by apply not_elem_of_nil in Hp.
Qed.
Lemma tables_unique : NoDup (point_key <$> world_points tables).
Proof. apply (bool_decide_eq_true_1 _). vm_compute. reflexivity. Qed.

Definition page : window := {| wi_from := 900; wi_to := 1200; wi_step := 300 |}.
Lemma page_ok : window_ok 900 1200 300.
Proof. split; try done; try (apply Z.mod_divide; [discriminate|reflexivity]). Qed.

#[local] Instance run_env : Env := steady_env 2000.
#[local] Instance run_order : MapOrder := {| map_order _ _ l := l; map_order_perm _ _ l := reflexivity l |}.

Definition memory : EvalMem := {| em_ch := {["p" := tables]}; em_projects := ∅; em_status := ∅; em_updates := [] |}.
Definition requests : gmap string QueryRequest :=
  {["up" := {| rq_Query := "up"; rq_From := 900; rq_To := 1200; rq_Step := 300; rq_FillFunc := None |}]}.
Definition up_series : MetricValues :=
  {| mv_Labels := {["job" := "a"]}; mv_LabelsHash := 7; mv_Values := Some (NewWithData 900 300 [F32.of_Z 3; F32.of_Z 4]);
     mv_MachineID := "m1"; mv_SystemUUID := ""; mv_ContainerId := ""; mv_Destination := ""; mv_ActualDestination := ""; mv_DestIp := false |}.

(** The request of the page and that of its points. *)
Definition both_requests : gmap string QueryRequest :=
  {["up" := {| rq_Query := "up"; rq_From := 900; rq_To := 1200; rq_Step := 300; rq_FillFunc := None |};
    "points" := {| rq_Query := "up"; rq_From := 615; rq_To := 1200; rq_Step := 15; rq_FillFunc := None |}]}.
Lemma labels_one r : r ∈ world_series tables → one_destination (se_labels r).
Proof.
  intros Hr. change (world_series _) with [{| se_query := "up"; se_hash := 7; se_labels := labels; se_lastSeen := 915 |}] in Hr.
  apply list_elem_of_singleton in Hr as ->. left. reflexivity.
Qed.
Lemma wider_step_is_FillAny_witness :
  ∃ res s' mvs raws filled, QueryRanges "p" both_requests (Build_Sys memory no_tables 0) = (Ret (res, None), s')
    ∧ res !! "up" = Some mvs ∧ res !! "points" = Some raws ∧ Forall2 (FillFacts.refilled page) raws filled ∧ mvs ≡ₚ filled.
Proof.
  refine (WorldStoreTheorems.wider_step_is_FillAny "p" both_requests (Build_Sys memory no_tables 0) "up" "points" _ _ page
    _ tables_consistent tables_on_grid tables_unique labels_one _ _ _ _ _ _ _ _ _); try reflexivity.
  intros name r Hr. unfold both_requests in Hr. apply lookup_insert_Some in Hr as [[_ <-]|[_ Hr]].
  - exists page. split; [reflexivity|exact page_ok].
  - apply lookup_singleton_Some in Hr as [_ <-]. exists {| wi_from := 615; wi_to := 1200; wi_step := 15 |}. split; [reflexivity|].
    split; try done; try (apply Z.mod_divide; [discriminate|reflexivity]).
Defined.

Lemma QueryRanges_reads_last_witness :
  ∃ res s', QueryRanges "p" requests (Build_Sys memory no_tables 0) = (Ret (res, None), s')
    ∧ ∃ mvs, res !! "up" = Some mvs ∧ mvs ≡ₚ [up_series].
Proof.
  destruct (WorldStoreTheorems.QueryRanges_reads_last "p" requests (Build_Sys memory no_tables 0)) as (res & s' & Hrun & _ & H).
  - reflexivity.
  - exact tables_consistent.
  - exact tables_on_grid.
  - exact tables_unique.
  - exact labels_one.
  - intros name r Hr. unfold requests in Hr. apply lookup_singleton_Some in Hr as [_ <-]. exists page. split; [reflexivity|exact page_ok].
  - exists res, s'. split; [exact Hrun|]. destruct (H "up" _ page (lookup_singleton_eq _ _) eq_refl eq_refl) as (mvs & Hm & Hp).
    exists mvs. split; [exact Hm|]. rewrite Hp. vm_compute. reflexivity.
Defined.
End WorldStoreRuns.
