(* ===== verification/RecordingRules.v ===== *)
(** constructor/queries.go: the recording rules, application-level series that are
    computed from the world rather than by PromQL, and the SLO settings read from
    annotations.

    A map is visited in the order [range] gives.  The error texts of strconv and
    time are a parameter. *)

From S2P Require Export Queries Format.
From Stdlib Require Import Ascii String ZArith Lia.
Local Open Scope string_scope.
Local Open Scope Z_scope.

(** The texts of [strconv.ParseFloat]'s and [time.ParseDuration]'s errors, of
    the text that does not parse. *)
Class ErrorTexts := { ParseFloat_error : string → string; ParseDuration_error : string → string }.

(** * The standard library *)

(** [net.JoinHostPort] *)
Definition JoinHostPort (host port : string) : string :=
  if contains ":" host then "[" ++ host ++ "]:" ++ port else host ++ ":" ++ port.

(** [strings.TrimSpace] of ASCII text. *)
Definition ascii_space (a : ascii) : bool := let n := N_of_ascii a in (N.leb 9 n && N.leb n 13) || N.eqb n 32.
Fixpoint TrimLeftSpace (s : string) : string :=
  match s with String a s' => if ascii_space a then TrimLeftSpace s' else s | _ => s end.
Fixpoint TrimRightSpace (s : string) : string :=
  match s with
  | EmptyString => ""
  | String a s' => let s' := TrimRightSpace s' in if String.eqb s' "" && ascii_space a then "" else String a s'
  end.
Definition TrimSpace (s : string) : string := TrimRightSpace (TrimLeftSpace s).

(** [time.ParseDuration], in nanoseconds: a sign and a sequence of decimal numbers
    with units.  Sums are kept below [2^63]. *)
Module ParseDuration.

(** leadingInt: the number, and the rest; [None] on overflow. *)
Fixpoint leadingInt (s : string) (x : Z) : option (Z * string) :=
  match s with
  | EmptyString => Some (x, "")
  | String a s' =>
      match digit_value a with
      | Some d => if (2 ^ 63 / 10 <? x) || (2 ^ 63 <? x * 10 + d) then None else leadingInt s' (x * 10 + d)
      | None => Some (x, s)
      end
  end.

(** leadingFraction: the digits that fit, the power of ten, and the rest. *)
Fixpoint leadingFraction (s : string) (x scale : Z) (overflow : bool) : Z * Z * string :=
  match s with
  | EmptyString => (x, scale, "")
  | String a s' =>
      match digit_value a with
      | Some d =>
          if overflow || ((2 ^ 63 - 1) / 10 <? x) || (2 ^ 63 <? x * 10 + d) then leadingFraction s' x scale true
          else leadingFraction s' (x * 10 + d) (scale * 10) false
      | None => (x, scale, s)
      end
  end.

Definition number_char (a : ascii) : bool := Ascii.eqb a "." || match digit_value a with Some _ => true | None => false end.
Fixpoint unit_text (s : string) : string * string :=
  match s with
  | String a s' => if number_char a then ("", s) else let '(u, rest) := unit_text s' in (String a u, rest)
  | EmptyString => ("", "")
  end.

Definition micro_sign : string := encode_rune 181%N.
Definition mu : string := encode_rune 956%N.
Definition unit_of (u : string) : option Z :=
  if String.eqb u "ns" then Some 1
  else if String.eqb u "us" || String.eqb u (micro_sign ++ "s") || String.eqb u (mu ++ "s") then Some 1000
  else if String.eqb u "ms" then Some 1000000
  else if String.eqb u "s" then Some 1000000000
  else if String.eqb u "m" then Some 60000000000
  else if String.eqb u "h" then Some 3600000000000
  else None.

(** One number with its unit. *)
Definition element (s : string) : option (Z * string) :=
  '(v, s1) ← leadingInt s 0;
  let pre := negb (Nat.eqb (String.length s) (String.length s1)) in
  let '(f, scale, s2, post) :=
    match s1 with
    | String "." t => let '(f, scale, t') := leadingFraction t 0 1 false in
                      (f, scale, t', negb (Nat.eqb (String.length t) (String.length t')))
    | _ => (0, 1, s1, false)
    end in
  if negb (pre || post) then None
  else
    let '(u, rest) := unit_text s2 in
    unit ← unit_of u;
    if 2 ^ 63 / unit <? v then None
    else
      let v := v * unit in
      let v := if 0 <? f then v + F32.to_i64 (F64.mul (F64.of_Z f) (F64.div (F64.of_Z unit) (F64.of_Z scale))) else v in
      if 2 ^ 63 <? v then None else Some (v, rest).

Fixpoint elements (fuel : nat) (s : string) (d : Z) : option Z :=
  match fuel, s with
  | _, EmptyString => Some d
  | O, _ => None
  | S fuel, String a _ =>
      if number_char a then
        '(v, rest) ← element s;
        if 2 ^ 63 <? d + v then None else elements fuel rest (d + v)
      else None
  end.

Definition parse (s : string) : option Z :=
  let '(neg, s) := match s with String "-" t => (true, t) | String "+" t => (false, t) | t => (false, t) end in
  if String.eqb s "0" then Some 0
  else if String.eqb s "" then None
  else
    d ← elements (String.length s) s 0;
    if (neg : bool) then Some (wrap64 (- d)) else if 2 ^ 63 - 1 <? d then None else Some d.

(** [Duration.Seconds] *)
Definition Seconds (d : Z) : F64.f64 :=
  F64.add (F64.of_Z (Z.quot d 1000000000)) (F64.div (F64.of_Z (Z.rem d 1000000000)) (F64.of_Z 1000000000)).

Example parse_durations : parse "500ms" = Some 500000000 ∧ parse "1h15m30.5s" = Some 4530500000000 ∧ parse "-1.5h" = Some (-5400000000000)
  ∧ parse "10" = None ∧ parse "" = None ∧ parse ".5s" = Some 500000000 ∧ parse "3x" = None ∧ parse ".s" = None ∧ parse "9999999999h" = None.
Proof. repeat split. Qed.
End ParseDuration.

(** * Aggregates by key

    [m[k]], made when it is missing, gets one more series. *)
Fixpoint agg_add {K} `{EqDecision K} (k : K) (ts : option TimeSeries) (m : list (K * Aggregate.t)) : list (K * Aggregate.t) :=
  match m with
  | [] => [(k, Aggregate.Add (Aggregate.NewAggregate NanSum) [ts])]
  | (k', agg) :: m => if decide (k' = k) then (k', Aggregate.Add agg [ts]) :: m else (k', agg) :: agg_add k ts m
  end.

(** The calls [m[k].Add(ts)] of a loop, in their order. *)
Definition group {K} `{EqDecision K} (calls : list (K * option TimeSeries)) : list (K * Aggregate.t) :=
  foldl (λ m '(k, ts), agg_add k ts m) [] calls.

(** A request status, and the bucket it counts in. *)
Definition IsRequestStatusFailed (status : string) : bool :=
  String.eqb status "failed" || String.prefix "5" status
  || (String.prefix "grpc:" status && negb (String.eqb status "grpc:OK")).
Definition status_bucket (status : string) : string := if IsRequestStatusFailed status then "failed" else "ok".

Section rules.
Context `{LP : LogParser} `{Env} `{MapOrder} `{Prometheus} {Mem : Type}.

Definition series (ls : Labels) (values : option TimeSeries) : MetricValues := metric_values ls (LabelsToSignature ls) values.

(** What the rules return: the series, with the project they may have changed. *)
Abbreviation rule_result := (outcome (Project * list MetricValues)).

(** [for k, agg := range m { ts := agg.Get(); if !ts.IsEmpty() { ... } }] *)
Definition emit {K} (labels : K → Labels) (m : list (K * Aggregate.t)) : M Mem (outcome (list MetricValues)) :=
  m ← range m;
  mret (fold_go (λ res '(k, agg),
      let* ts := Aggregate.Get agg in
      Ret (if IsEmpty ts then res else (res ++ [series (labels k) ts])%list)) [] m).

(** The series of every application, one after the other. *)
Definition each_app (w : World) (f : Application → M Mem (outcome (list MetricValues))) : M Mem (outcome (list MetricValues)) :=
  apps ← range (w_Applications w);
  and_then (collect f apps) (λ rs, mret (Ret (List.concat rs))).

(** The connections of the instances of an application that have a remote one. *)
Definition upstreams (app : Application) : list (RemoteApp * Connection) :=
  omap (λ u, (λ dest, (dest, u)) <$> con_RemoteApplication u) (List.concat (map inst_Upstreams (app_Instances app))).

(** * aggConnections and the rules of connections *)
Definition by_dest (tsF : Connection → option TimeSeries) (app : Application) : list (ApplicationId * Aggregate.t) :=
  group ((λ '(dest, u), (ra_Id dest, tsF u)) <$> upstreams app).

Definition connection_labels (app dest : ApplicationId) : Labels := {["app" := AppIdString app; "dest" := AppIdString dest]}.

Definition aggConnections (tsF : Connection → option TimeSeries) (w : World) : M Mem (outcome (list MetricValues)) :=
  each_app w (λ app, emit (connection_labels (app_Id app)) (by_dest tsF app)).

(** The average of the round-trip times: their sum over the count of those defined. *)
Fixpoint rtts_add (dest : ApplicationId) (rtt : TimeSeries) (m : list (ApplicationId * list TimeSeries)) :=
  match m with
  | [] => [(dest, [rtt])]
  | (d, rtts) :: m => if decide (d = dest) then (d, (rtts ++ [rtt])%list) :: m else (d, rtts) :: rtts_add dest rtt m
  end.
Definition rtts_by_dest (app : Application) : list (ApplicationId * list TimeSeries) :=
  foldl (λ m '(dest, u), match con_Rtt u with Some rtt => rtts_add (ra_Id dest) rtt m | None => m end) [] (upstreams app).
Definition average_rtt (rtts : list TimeSeries) : outcome (option TimeSeries) :=
  let* sum := Aggregate.Get (Aggregate.Add (Aggregate.NewAggregate NanSum) (Some <$> rtts)) in
  let* count := fold_go (λ count rtt, let* d := Map Defined_ (Some rtt) in Ret (Aggregate.Add count [d]))
                  (Aggregate.NewAggregate NanSum) rtts in
  let* count := Aggregate.Get count in
  Div sum count.
Definition net_latency (w : World) : M Mem (outcome (list MetricValues)) :=
  each_app w (λ app,
    m ← range (rtts_by_dest app);
    mret (fold_go (λ res '(dest, rtts),
        let* avg := average_rtt rtts in
        Ret (res ++ [series (<["agg" := "avg"]> (connection_labels (app_Id app) dest)) avg])%list) [] m)).

(** ** Layer-7 requests *)
Definition l7_requests_of (app : Application) : list (string * string * ApplicationId * Aggregate.t) :=
  group ('(dest, u) ← upstreams app; '(proto, byStatus) ← con_RequestsCount u; '(status, ts) ← byStatus;
         [((status_bucket status, proto, ra_Id dest), ts)]).
Definition l7_requests (w : World) : M Mem (outcome (list MetricValues)) :=
  each_app w (λ app, emit (λ '(status, proto, dest),
    <["proto" := proto]> (<["status" := status]> (connection_labels (app_Id app) dest))) (l7_requests_of app)).

Definition l7_latency_of (app : Application) : list (string * ApplicationId * Aggregate.t) :=
  group ('(dest, u) ← upstreams app; '(proto, ts) ← con_RequestsLatency u; [((proto, ra_Id dest), ts)]).
Definition l7_latency (w : World) : M Mem (outcome (list MetricValues)) :=
  each_app w (λ app, emit (λ '(proto, dest), <["proto" := proto]> (connection_labels (app_Id app) dest)) (l7_latency_of app)).

(** The histogram of a destination sums the requests of every client, but not those
    of auxiliary clients unless the destination is auxiliary itself. *)
Definition counts_client (app : Application) (dest : RemoteApp) : bool :=
  negb (negb (Auxiliary (ra_Category dest)) && Auxiliary (app_Category app)).
Definition histogram_calls (app : Application) : list (f32 * ApplicationId * option TimeSeries) :=
  '(dest, u) ← List.filter (λ '(dest, _), counts_client app dest) (upstreams app);
  '(_, byLe) ← con_RequestsHistogram u; '(le, ts) ← byLe; [((le, ra_Id dest), ts)].
Definition le_labels (app : ApplicationId) (le : f32) : Labels := {["app" := AppIdString app; "le" := Sprintf_f false 6 le]}.
Definition l7_histogram (w : World) : M Mem (outcome (list MetricValues)) :=
  apps ← range (w_Applications w);
  emit (λ '(le, dest), le_labels dest le) (group (apps ≫= histogram_calls)).

(** ** Requests and DNS requests of the application itself *)
Definition inbound_requests (w : World) : M Mem (outcome (list MetricValues)) :=
  each_app w (λ app,
    emit (λ bucket, {["app" := AppIdString (app_Id app); "status" := bucket]})
      (group ((λ '(status, ts), (status_bucket status, ts))
                <$> List.filter (λ '(_, ts), negb (IsEmpty ts)) (app_InboundRequestsCount app)))).

(** One series for each entry of a map that has one. *)
Definition present {K} (labels : K → Labels) (m : list (K * option TimeSeries)) : M Mem (outcome (list MetricValues)) :=
  m ← range m;
  mret (Ret (omap (λ '(k, ts), if IsEmpty ts then None else Some (series (labels k) ts)) m)).

Definition inbound_histogram (w : World) : M Mem (outcome (list MetricValues)) :=
  each_app w (λ app, present (le_labels (app_Id app)) (app_InboundRequestsHistogram app)).
Definition dns_requests (w : World) : M Mem (outcome (list MetricValues)) :=
  each_app w (λ app,
    m ← range (app_DNSRequests app);
    and_then (collect (λ '(r, byStatus),
        present (λ status, {["app" := AppIdString (app_Id app); "request_type" := dns_Type r;
                             "domain" := dns_Domain r; "status" := status]}) byStatus) m)
      (λ rs, mret (Ret (List.concat rs)))).
Definition dns_latency (w : World) : M Mem (outcome (list MetricValues)) :=
  each_app w (λ app, present (le_labels (app_Id app)) (app_DNSRequestsHistogram app)).

(** ** Traffic: TrafficKindInternetEgress, TrafficKindCrossAZEgress, TrafficKindCrossAZIngress *)
Definition traffic (w : World) : M Mem (outcome (list MetricValues)) :=
  each_app w (λ app,
    let part kind ts := if IsEmpty ts then [] else [series ({["app" := AppIdString (app_Id app); "kind" := kind]}) ts] in
    let s := app_TrafficStats app in
    mret (Ret (part "internet_egress" (tr_InternetEgress s) ++ part "cross_az_egress" (tr_CrossAZEgress s)
               ++ part "cross_az_ingress" (tr_CrossAZIngress s))%list)).

(** ** Log messages *)

(** [ts.Reduce(timeseries.NanSum) > 0] *)
Definition some_messages (ts : option TimeSeries) : outcome bool := let* n := Reduce NanSum ts in Ret (F32.gtb n F32.zero).

Definition log_labels (app : ApplicationId) (severity : Z) : Labels :=
  {["application" := AppIdString app; "level" := Severity.ToString severity]}.

(** [fmt.Sprintf("%t", b)] *)
Definition Sprintf_t (b : bool) : string := if b then "true" else "false".

Definition pattern_series (app : ApplicationId) (severity : Z) (p : option LogPattern) : outcome (list MetricValues) :=
  match p with
  | None => Panic
  | Some p =>
      let* some := some_messages (lp_Messages p) in
      if some then
        match lp_Pattern p with
        | None => Panic
        | Some words =>
            Ret [series (<["words" := PatternString words]> (<["sample" := lp_Sample p]>
                   (<["similar" := String.concat " " (StringSet.Items (lp_SimilarPatternHashes p))]>
                   (<["multiline" := Sprintf_t (lp_Multiline p)]> (log_labels app severity))))) (lp_Messages p)]
        end
      else Ret []
  end.

Definition severity_series (app : ApplicationId) (e : Z * option LogMessages) : M Mem (outcome (list MetricValues)) :=
  let '(severity, msgs) := e in
  match msgs with
  | None => mret Panic
  | Some msgs =>
      if bool_decide (lm_Patterns msgs = []) then
        mret (let* some := some_messages (lm_Messages msgs) in
              Ret (if some : bool then [series (log_labels app severity) (lm_Messages msgs)] else []))
      else
        patterns ← range (lm_Patterns msgs);
        mret (fold_go (λ res '(_, p), let* r := pattern_series app severity p in Ret (res ++ r)%list) [] patterns)
  end.

Definition log_messages (w : World) : M Mem (outcome (list MetricValues)) :=
  each_app w (λ app,
    m ← range (app_LogMessages app);
    and_then (collect (severity_series (app_Id app)) m) (λ rs, mret (Ret (List.concat rs)))).
(** ** External endpoints *)
Definition external_endpoint (u : Connection) : option string :=
  if negb (String.eqb (con_ActualRemoteIP u) "") then Some (JoinHostPort (con_ActualRemoteIP u) (con_ActualRemotePort u))
  else if negb (String.eqb (con_ServiceRemoteIP u) "") then Some (JoinHostPort (con_ServiceRemoteIP u) (con_ServiceRemotePort u))
  else None.
Fixpoint endpoints_add (dest : ApplicationId) (ep : option string) (m : list (ApplicationId * StringSet.t)) :=
  let add := default (λ ss, ss) ((λ ep, StringSet.Add [ep]) <$> ep) in
  match m with
  | [] => [(dest, add (StringSet.NewStringSet []))]
  | (d, eps) :: m => if decide (d = dest) then (d, add eps) :: m else (d, eps) :: endpoints_add dest ep m
  end.
Definition endpoints_of (app : Application) : list (ApplicationId * StringSet.t) :=
  foldl (λ m '(dest, u),
      if String.eqb (Kind (ra_Id dest)) ApplicationKindExternalService then endpoints_add (ra_Id dest) (external_endpoint u) m
      else m) [] (upstreams app).

Definition external_endpoints (w : World) : M Mem (outcome (list MetricValues)) :=
  match PointsCount (w_Ctx w) with
  | Panic => mret Panic
  | Ret n =>
      if n <? 1 then mret (Ret [])
      else
        let ts := NewWithData (ctx_From (w_Ctx w)) (ctx_Step (w_Ctx w)) (replicate (Z.to_nat n) F32.one) in
        each_app w (λ app,
          m ← range (endpoints_of app);
          mret (Ret (List.concat ((λ '(dest, eps),
            (λ ep, series (<[LabelActualDestination := ep]> (connection_labels (app_Id app) dest)) (Some ts))
              <$> StringSet.Items (Some eps)) <$> m))))
  end.

(** ** Categories: a category that an annotation names is added to the project *)
Definition set_categories (m : gmap string (option ApplicationCategorySettings)) (p : Project) : Project :=
  {| p_Id := p_Id p; p_Name := p_Name p; p_Integrations := p_Integrations p; p_ApplicationCategorySettings := m;
     p_MemberProjects := p_MemberProjects p |}.
Definition add_category (s : Project * bool) (category : string) : Project * bool :=
  let '(p, needSave) := s in
  match p_ApplicationCategorySettings p !! category with
  | Some _ => (p, needSave)
  | None => (set_categories (<[category := None]> (p_ApplicationCategorySettings p)) p, true)
  end.
Definition save_categories (SaveProjectSettings : Project → M Mem (string + unit)) (p : Project) (w : World) : M Mem Project :=
  apps ← range (w_Applications w);
  let '(p, needSave) := foldl add_category (p, false) (map app_Category apps) in
  if (needSave : bool) then _ ← SaveProjectSettings p; mret p else mret p.
End rules.

(** * SLO settings from annotations *)
Definition ApplicationAnnotationSLOAvailabilityObjective : string := "slo_availability_objective".
Definition ApplicationAnnotationSLOLatencyObjective : string := "slo_latency_objective".
Definition ApplicationAnnotationSLOLatencyThreshold : string := "slo_latency_threshold".
Definition CheckConfigSourceKubernetesAnnotations : string := "kubernetes-annotations".

(** [json.Marshal] of the settings; a number that is not finite cannot be
    marshalled.  [source] and [error] are omitted when they are empty. *)
Definition finite (x : f32) : bool := negb (IsNaN x || IsInf x 0).
Definition omitempty (k v : string) : list (string * json) := if String.eqb v "" then [] else [(k, JStr v)].
Definition encode_availability (c : CheckConfigSLOAvailability) : option json :=
  if finite (ca_ObjectivePercentage c) then
    Some (JArr [JObj ([("custom", JBool (ca_Custom c)); ("total_requests_query", JStr (ca_TotalRequestsQuery c));
                       ("failed_requests_query", JStr (ca_FailedRequestsQuery c));
                       ("objective_percentage", JNum (ca_ObjectivePercentage c))]
                      ++ omitempty "source" (ca_Source c) ++ omitempty "error" (ca_Error c))%list])
  else None.
Definition encode_latency (c : CheckConfigSLOLatency) : option json :=
  if finite (cl_ObjectiveBucket c) && finite (cl_ObjectivePercentage c) then
    Some (JArr [JObj ([("custom", JBool (cl_Custom c)); ("histogram_query", JStr (cl_HistogramQuery c));
                       ("objective_bucket", JNum (cl_ObjectiveBucket c));
                       ("objective_percentage", JNum (cl_ObjectivePercentage c))]
                      ++ omitempty "source" (cl_Source c) ++ omitempty "error" (cl_Error c))%list])
  else None.

(** [==] of the structs: NaN is not equal to itself. *)
Definition availability_eqb (a b : CheckConfigSLOAvailability) : bool :=
  Bool.eqb (ca_Custom a) (ca_Custom b) && String.eqb (ca_TotalRequestsQuery a) (ca_TotalRequestsQuery b)
  && String.eqb (ca_FailedRequestsQuery a) (ca_FailedRequestsQuery b)
  && F32.eqb (ca_ObjectivePercentage a) (ca_ObjectivePercentage b)
  && String.eqb (ca_Source a) (ca_Source b) && String.eqb (ca_Error a) (ca_Error b).
Definition latency_eqb (a b : CheckConfigSLOLatency) : bool :=
  Bool.eqb (cl_Custom a) (cl_Custom b) && String.eqb (cl_HistogramQuery a) (cl_HistogramQuery b)
  && F32.eqb (cl_ObjectiveBucket a) (cl_ObjectiveBucket b) && F32.eqb (cl_ObjectivePercentage a) (cl_ObjectivePercentage b)
  && String.eqb (cl_Source a) (cl_Source b) && String.eqb (cl_Error a) (cl_Error b).

Section slo.
Context `{LP : LogParser} `{Env} `{ErrorTexts} {Mem : Type}.

(** [strings.TrimRight(s, "%")] and the spaces around. *)
Definition objective_text (s : string) : string := TrimSpace (TrimRight (TrimSpace s) "%").
Definition parseObjective (s : string) : string + f32 :=
  match ParseFloat (objective_text s) with
  | Some v => inr v
  | None => inl (ParseFloat_error (objective_text s))
  end.
Definition parseThreshold (s : string) : string + f32 :=
  match ParseDuration.parse (TrimSpace s) with
  | Some d => inr (RoundUpToDefaultBucket (F64.to_f32 (ParseDuration.Seconds d)))
  | None => inl (ParseDuration_error (TrimSpace s))
  end.

(** The settings an annotation asks for. *)
Definition annotated_availability (objectiveStr : string) (cfg : CheckConfigSLOAvailability) : CheckConfigSLOAvailability :=
  let with_ o e := ca_make false (ca_TotalRequestsQuery cfg) (ca_FailedRequestsQuery cfg) o CheckConfigSourceKubernetesAnnotations e in
  match parseObjective objectiveStr with
  | inl err => with_ F32.zero ("Invalid annotation 'coroot.com/slo-availability-objective': " ++ err)
  | inr objective => with_ objective ""
  end.

Definition updateAvailabilitySLOFromAnnotations (p : Project) (w : World) (app : Application) : M Mem unit :=
  let objectiveStr := GetAnnotation app ApplicationAnnotationSLOAvailabilityObjective in
  let cfg := fst (GetAvailability (w_CheckConfigs w) (app_Id app)) in
  if String.eqb objectiveStr "" then mret tt
  else
    let cfg' := annotated_availability objectiveStr cfg in
    if availability_eqb cfg' cfg then mret tt
    else _ ← SaveCheckConfig (p_Id p) (app_Id app) "SLOAvailability" (encode_availability cfg'); mret tt.

(** The objective and the threshold of the annotations, or the first error. *)
Definition annotated_latency (objectiveStr thresholdStr : string) (cfg : CheckConfigSLOLatency) : CheckConfigSLOLatency :=
  let objective := if String.eqb objectiveStr "" then inr (cl_ObjectivePercentage cfg) else parseObjective objectiveStr in
  let error1 := match objective with
                | inl err => "Invalid annotation 'coroot.com/slo-latency-objective': " ++ err | inr _ => "" end in
  let o := match objective with inl _ => F32.zero | inr o => o end in
  let threshold := if F32.gtb o F32.zero && negb (String.eqb thresholdStr "") then parseThreshold thresholdStr
                   else inr (cl_ObjectiveBucket cfg) in
  let error := match threshold with
               | inl err => if String.eqb error1 "" then "Invalid annotation 'coroot.com/slo-latency-threshold': " ++ err else error1
               | inr _ => error1 end in
  match objective, threshold with
  | inr o, inr t =>
      cl_make false (cl_HistogramQuery cfg) t o CheckConfigSourceKubernetesAnnotations ""
  | _, _ => cl_make false (cl_HistogramQuery cfg) (cl_ObjectiveBucket cfg) F32.zero CheckConfigSourceKubernetesAnnotations error
  end.

Definition updateLatencySLOFromAnnotations (p : Project) (w : World) (app : Application) : M Mem unit :=
  let objectiveStr := GetAnnotation app ApplicationAnnotationSLOLatencyObjective in
  let thresholdStr := GetAnnotation app ApplicationAnnotationSLOLatencyThreshold in
  if String.eqb objectiveStr "" && String.eqb thresholdStr "" then mret tt
  else
    let cfg := fst (GetLatency (w_CheckConfigs w) (app_Id app) (app_Category app)) in
    let cfg' := annotated_latency objectiveStr thresholdStr cfg in
    if latency_eqb cfg' cfg then mret tt
    else _ ← SaveCheckConfig (p_Id p) (app_Id app) "SLOLatency" (encode_latency cfg'); mret tt.
End slo.

(** * RecordingRules *)
Section table.
Context `{LP : LogParser} `{Env} `{MapOrder} `{Prometheus} `{ErrorTexts} {Mem : Type}.
Context (SaveProjectSettings : Project → M Mem (string + unit)).

Definition rule : Type := Project → World → M Mem (outcome (Project * list MetricValues)).

(** A rule that only computes series. *)
Definition series_rule (f : World → M Mem (outcome (list MetricValues))) : rule :=
  λ p w, and_then (f w) (λ mvs, mret (Ret (p, mvs))).

Definition categories_rule : rule := λ p w, p ← save_categories SaveProjectSettings p w; mret (Ret (p, [])).
Definition slo_rule : rule := λ p w,
  apps ← range (w_Applications w);
  _ ← forM_ apps (λ app, _ ← updateAvailabilitySLOFromAnnotations p w app; updateLatencySLOFromAnnotations p w app);
  mret (Ret (p, [])).

Definition RecordingRules : list (string * rule) := [
  (qRecordingRuleApplicationLogMessages, series_rule log_messages);
  (qRecordingRuleApplicationTCPSuccessful, series_rule (aggConnections con_SuccessfulConnections));
  (qRecordingRuleApplicationTCPActive, series_rule (aggConnections con_Active));
  (qRecordingRuleApplicationTCPFailed, series_rule (aggConnections con_FailedConnections));
  (qRecordingRuleApplicationTCPConnectionTime, series_rule (aggConnections con_ConnectionTime));
  (qRecordingRuleApplicationTCPBytesSent, series_rule (aggConnections con_BytesSent));
  (qRecordingRuleApplicationTCPBytesReceived, series_rule (aggConnections con_BytesReceived));
  (qRecordingRuleApplicationTCPRetransmissions, series_rule (aggConnections con_Retransmissions));
  (qRecordingRuleApplicationNetLatency, series_rule net_latency);
  (qRecordingRuleApplicationL7Requests, series_rule l7_requests);
  (qRecordingRuleApplicationL7Latency, series_rule l7_latency);
  (qRecordingRuleApplicationL7Histogram, series_rule l7_histogram);
  (qRecordingRuleApplicationL7InboundRequests, series_rule inbound_requests);
  (qRecordingRuleApplicationL7InboundHistogram, series_rule inbound_histogram);
  (qRecordingRuleApplicationDNSRequests, series_rule dns_requests);
  (qRecordingRuleApplicationDNSLatency, series_rule dns_latency);
  (qRecordingRuleApplicationTraffic, series_rule traffic);
  (qRecordingRuleApplicationCategories, categories_rule);
  (qRecordingRuleApplicationSLO, slo_rule);
  (qRecordingRuleApplicationExternalEndpoint, series_rule external_endpoints)].
End table.

(** * Facts *)
Module RecordingRulesFacts.

(** ** Grouping *)
Section group.
Context {K : Type} `{EqDecision K}.

Definition agg_of (m : list (K * Aggregate.t)) (k : K) : option Aggregate.t :=
  snd <$> List.find (λ e, bool_decide (fst e = k)) m.
(** The series added under a key, in order. *)
Definition inputs (calls : list (K * option TimeSeries)) (k : K) : list TimeSeries :=
  omap snd (List.filter (λ c, bool_decide (fst c = k)) calls).

Lemma agg_add_of (k : K) ts m (k' : K) :
  agg_of (agg_add k ts m) k'
  = if decide (k' = k) then Some (Aggregate.Add (default (Aggregate.NewAggregate NanSum) (agg_of m k)) [ts]) else agg_of m k'.
Proof.
  unfold agg_of. induction m as [|[k0 agg] m IH]; cbn.
  - destruct (decide (k' = k)) as [->|]; [by rewrite bool_decide_true|by rewrite bool_decide_false].
  - destruct (decide (k0 = k)) as [->|Hne]; cbn.
    + rewrite (bool_decide_true (k = k)) by done. destruct (decide (k' = k)) as [->|].
      * by rewrite bool_decide_true.
      * by rewrite !bool_decide_false by done.
    + rewrite (bool_decide_false (k0 = k)) by done. case_bool_decide as E; [subst|exact IH].
      by rewrite decide_False by done.
Qed.

Lemma agg_add_keys (k : K) ts m :
  (agg_add k ts m).*1 = if decide (k ∈ m.*1) then m.*1 else (m.*1 ++ [k])%list.
Proof.
  induction m as [|[k0 agg] m IH]; [done|]. cbn. destruct (decide (k0 = k)) as [->|Hne]; cbn.
  { rewrite decide_True; [done|left]. }
  rewrite IH. destruct (decide (k ∈ m.*1)).
  - rewrite decide_True; [done|by right].
  - rewrite decide_False; [done|]. intros [?|?]%elem_of_cons; congruence.
Qed.

Lemma group_snoc calls (k : K) ts : group (calls ++ [(k, ts)]) = agg_add k ts (group calls).
Proof. unfold group. by rewrite foldl_snoc. Qed.

Lemma group_keys (calls : list (K * option TimeSeries)) : NoDup (group calls).*1 ∧ ∀ k, k ∈ (group calls).*1 ↔ k ∈ calls.*1.
Proof.
  induction calls as [|[k ts] calls [Hn Hk]] using rev_ind; [split; [constructor|done]|].
  rewrite group_snoc, agg_add_keys, fmap_app. split.
  - destruct (decide _) as [|Hnot]; [done|]. apply NoDup_app. split_and!; [done| |apply NoDup_singleton].
    intros x Hx ->%list_elem_of_singleton. done.
  - intros x. rewrite elem_of_app, <- Hk. cbn. rewrite list_elem_of_singleton.
    destruct (decide _); [|rewrite elem_of_app, list_elem_of_singleton; done]. naive_solver.
Qed.

Lemma inputs_snoc calls (k : K) ts k' :
  inputs (calls ++ [(k, ts)]) k' = (inputs calls k' ++ if decide (k' = k) then option_list ts else [])%list.
Proof.
  unfold inputs. rewrite List.filter_app, omap_app. f_equal. cbn.
  destruct (decide (k' = k)) as [->|]; [rewrite bool_decide_true by done|by rewrite bool_decide_false by done].
  by destruct ts.
Qed.

Lemma group_of calls (k : K) :
  agg_of (group calls) k
  = if decide (k ∈ calls.*1) then Some {| Aggregate.f := NanSum; Aggregate.input := inputs calls k |} else None.
Proof.
  induction calls as [|[k0 ts] calls IH] using rev_ind; [done|].
  rewrite group_snoc, agg_add_of, inputs_snoc, fmap_app. cbn.
  destruct (decide (k = k0)) as [->|Hne].
  - rewrite (decide_True (P := k0 ∈ (_ ++ _)%list)) by (apply elem_of_app; right; by left). rewrite IH.
    destruct (decide (k0 ∈ calls.*1)) as [|Hnot]; cbn; unfold Aggregate.Add; cbn.
    + by destruct ts; cbn; rewrite ?app_nil_r.
    + assert (Hi : inputs calls k0 = []).
      { unfold inputs. clear IH. induction calls as [|[k1 t1] calls IHc]; [done|]. cbn in *.
        rewrite elem_of_cons in Hnot. rewrite bool_decide_false by naive_solver. apply IHc. naive_solver. }
      rewrite Hi. by destruct ts.
  - rewrite IH, app_nil_r. destruct (decide (k ∈ calls.*1)).
    + rewrite decide_True by (apply elem_of_app; by left). done.
    + rewrite decide_False; [done|]. rewrite elem_of_app, list_elem_of_singleton. naive_solver.
Qed.

(** The groups, as a list: one for each key. *)
Lemma group_list (calls : list (K * option TimeSeries)) :
  group calls = (λ k, (k, {| Aggregate.f := NanSum; Aggregate.input := inputs calls k |})) <$> (group calls).*1.
Proof.
  destruct (group_keys calls) as [Hn Hk].
  assert (H : ∀ k agg, (k, agg) ∈ group calls → agg = {| Aggregate.f := NanSum; Aggregate.input := inputs calls k |}).
  { intros k agg Hin. pose proof (group_of calls k) as Hof.
    rewrite decide_True in Hof by (apply Hk, list_elem_of_fmap; by exists (k, agg)).
    unfold agg_of in Hof. destruct (List.find _ _) as [[k1 a1]|] eqn:E; [|done].
    apply List.find_some in E as [Hin1 Heq%bool_decide_eq_true]. cbn in *. subst k1. injection Hof as ->.
    apply list_elem_of_In in Hin1. exact (NoDup_fst_eq _ _ _ _ Hn Hin Hin1). }
  clear Hn Hk. revert H. generalize (group calls) as m. induction m as [|[k agg] m IH]; intros H; [done|].
  cbn. f_equal; [by rewrite (H k agg) by left|]. apply IH. intros; apply H; by right.
Qed.
End group.
(** ** What a rule emits *)

(** The sum at point [i] of the series that have one, leaving out NaN. *)
Definition sum_at (tss : list TimeSeries) (i : nat) : f32 := foldl (NanSum 0) NaN (omap (λ ts, ts_data ts !! i) tss).
(** The series emitted for those added under one key: none without one, the series
    itself when there is one, and the sum, point by point, of several. *)
Definition summed (tss : list TimeSeries) : option TimeSeries :=
  match tss with
  | [] => None
  | [ts] => Some ts
  | first :: _ => Some (NewWithData (ts_from first) (ts_step first) (sum_at tss <$> seq 0 (List.length (ts_data first))))
  end.
(** No series is longer than the first. *)
Definition fitting (tss : list TimeSeries) : Prop :=
  ∀ first, head tss = Some first → Forall (λ ts, List.length (ts_data ts) ≤ List.length (ts_data first))%nat tss.

Lemma NanSum_fold (tss : list TimeSeries) (i : nat) (acc : f32) :
  foldl (λ acc src, match points src !! i with Some (t, v) => NanSum t acc v | None => acc end) acc tss
  = foldl (NanSum 0) acc (omap (λ ts, ts_data ts !! i) tss).
Proof.
  revert acc. induction tss as [|ts tss IH]; intros acc; [done|]. cbn [foldl omap list_omap].
  assert (Hp : (points ts).*2 !! i = ts_data ts !! i) by (by rewrite points_values).
  rewrite list_lookup_fmap in Hp. destruct (points ts !! i) as [[t v]|]; cbn in Hp; rewrite <- Hp; apply IH.
Qed.

Lemma Get_summed (tss : list TimeSeries) :
  fitting tss → Aggregate.Get {| Aggregate.f := NanSum; Aggregate.input := tss |} = Ret (summed tss).
Proof.
  intros Hfit. pose proof (AggregateFacts.Get_combines_pointwise NanSum tss) as Hget.
  destruct tss as [|first [|second rest]]; [done..|].
  rewrite bool_decide_true in Hget by (by apply Hfit).
  destruct Hget as (data & -> & Hlen & Hdata). unfold summed. do 3 f_equal.
  apply list_eq. intros i. rewrite list_lookup_fmap.
  destruct (decide (i < List.length data)%nat) as [Hi|Hi].
  - rewrite Hdata, lookup_seq_lt by (done || lia). cbn [fmap option_fmap option_map]. by rewrite NanSum_fold.
  - rewrite lookup_ge_None_2 by lia. by rewrite lookup_seq_ge by lia.
Qed.

Section emit.
Context `{LP : LogParser} `{Env} `{MapOrder} `{Prometheus} {Mem : Type}.

(** The series of one loop over a group: one for each key with a series. *)
Definition emitted {K} `{EqDecision K} (labels : K → Labels) (calls : list (K * option TimeSeries)) : list MetricValues :=
  omap (λ k, (λ ts, series (labels k) (Some ts)) <$> summed (inputs calls k)) (remove_dups calls.*1).

Lemma emit_fold {K} (labels : K → Labels) (value : Aggregate.t → option TimeSeries) (m : list (K * Aggregate.t)) res :
  (∀ k agg, (k, agg) ∈ m → Aggregate.Get agg = Ret (value agg)) →
  fold_go (λ res '(k, agg), let* ts := Aggregate.Get agg in
      Ret (if IsEmpty ts then res else (res ++ [series (labels k) ts])%list)) res m
  = Ret (res ++ omap (λ '(k, agg), (λ ts, series (labels k) (Some ts)) <$> value agg) m)%list.
Proof.
  revert res. induction m as [|[k agg] m IH]; intros res Hm; cbn; [by rewrite app_nil_r|].
  rewrite (Hm k agg) by left. cbn. rewrite IH by (intros; apply (Hm k0); by right).
  destruct (value agg); cbn; [by rewrite <- app_assoc|done].
Qed.

Lemma emit_group {K} `{EqDecision K} (labels : K → Labels) calls (s : Sys Mem) :
  (∀ k, fitting (inputs calls k)) →
  ∃ res, fst (emit labels (group calls) s) = Ret res ∧ res ≡ₚ emitted labels calls.
Proof.
  intros Hfit. unfold emit, range, mbind, M_bind. set (m := map_order (sys_ticks s) (group calls)).
  assert (Hm : m ≡ₚ group calls) by apply map_order_perm.
  set (value agg := summed (Aggregate.input agg)).
  exists (omap (λ '(k, agg), (λ ts, series (labels k) (Some ts)) <$> value agg) m). split.
  { apply (emit_fold labels value m []). intros k agg Hin. rewrite Hm, group_list in Hin.
    apply list_elem_of_fmap in Hin as (k' & [= -> ->] & _). by apply Get_summed. }
  rewrite Hm. unfold emitted. rewrite group_list.
  destruct (group_keys calls) as [Hn Hk].
  assert (Hperm : remove_dups calls.*1 ≡ₚ (group calls).*1).
  { apply NoDup_Permutation; [apply NoDup_remove_dups|done|]. intros k. by rewrite elem_of_remove_dups, Hk. }
  rewrite Hperm. generalize (group calls).*1 as ks. intros ks. subst value. induction ks as [|k ks IH]; [done|]. cbn in *.
  destruct (summed (inputs calls k)); cbn; by rewrite IH.
Qed.

(** Loops that collect: each element's results are known up to their order. *)
Lemma collect_perm {A B} (f : A → M Mem (outcome (list B))) (g : A → list B) (l : list A) (s : Sys Mem) :
  (∀ a s, a ∈ l → ∃ r, fst (f a s) = Ret r ∧ r ≡ₚ g a) →
  ∃ rs, fst (collect f l s) = Ret rs ∧ List.concat rs ≡ₚ l ≫= g.
Proof.
  revert s. induction l as [|a l IH]; intros s Hf; [by exists []|]. cbn [collect]. unfold and_then, mbind, M_bind at 1.
  destruct (f a s) as [r s1] eqn:E. destruct (Hf a s ltac:(left)) as (r' & Hr & Hp). rewrite E in Hr. cbn in Hr. subst r.
  unfold mbind, M_bind. destruct (IH s1) as (rs & Hrs & Hps); [intros; apply Hf; by right|].
  destruct (collect f l s1) as [x s2]. cbn in Hrs. subst x. exists (r' :: rs). split; [done|].
  cbn. by rewrite Hp, Hps.
Qed.

Lemma each_app_perm (w : World) (f : Application → M Mem (outcome (list MetricValues))) (g : Application → list MetricValues) (s : Sys Mem) :
  (∀ app s, app ∈ w_Applications w → ∃ r, fst (f app s) = Ret r ∧ r ≡ₚ g app) →
  ∃ res, fst (each_app w f s) = Ret res ∧ res ≡ₚ w_Applications w ≫= g.
Proof.
  intros Hf. unfold each_app, range, mbind, M_bind. set (apps := map_order (sys_ticks s) (w_Applications w)).
  assert (Hperm : apps ≡ₚ w_Applications w) by apply map_order_perm.
  destruct (collect_perm f g apps (tick s)) as (rs & Hrs & Hps).
  { intros app s' Hin. apply Hf. by rewrite <- Hperm. }
  unfold and_then, mbind, M_bind. destruct (collect f apps (tick s)) as [x s2]. cbn in Hrs. subst x.
  exists (List.concat rs). split; [done|]. by rewrite Hps, Hperm.
Qed.

(** C29 The series of a connection rule: for each application and each destination it has
    a connection with a series to, one series under the labels of the two, the sum
    over the connections point by point (the series itself when there is one). *)
Theorem aggConnections_sums (tsF : Connection → option TimeSeries) (w : World) (s : Sys Mem)
    (Hfit : ∀ app dest, app ∈ w_Applications w →
       fitting (inputs ((λ '(d, u), (ra_Id d, tsF u)) <$> upstreams app) dest)) :
  ∃ res, fst (aggConnections tsF w s) = Ret res
    ∧ res ≡ₚ w_Applications w ≫= λ app,
        emitted (connection_labels (app_Id app)) ((λ '(d, u), (ra_Id d, tsF u)) <$> upstreams app).
Proof. apply each_app_perm. intros app s' Hin. apply emit_group. intros dest. by apply Hfit. Qed.
End emit.




Section slo.
Context `{LP : LogParser} `{Env} `{MapOrder} `{ErrorTexts} {Mem : Type}.
Context (Hnf : ∀ k, env_fault k = None).



End slo.

End RecordingRulesFacts.

(** * Concrete runs *)
Module RecordingRuns.
#[local] Instance run_env : Env := steady_env 1000.
#[local] Instance run_order : MapOrder := {| map_order := λ _ _ l, l; map_order_perm := λ _ _ l, reflexivity l |}.
#[local] Instance run_parser : LogParser :=
  {| Pattern := string; PatternString := λ p, p; WeakEqual := String.eqb; NewPatternFromWords := λ p, p |}.
#[local] Instance run_prometheus : Prometheus :=
  {| prometheusQueryRange := λ _ _ _ _ _, []; metricNames := λ _, ∅; ParseExpr := λ _, inr [];
     LabelsToSignature := λ ls, Z.of_nat (size ls) |}.
#[local] Instance run_errors : ErrorTexts := {| ParseFloat_error := λ s, s; ParseDuration_error := λ s, s |}.

Definition app_id (name : string) : ApplicationId := NewApplicationId "p" "default" "Deployment" name.
Definition connection (dest : string) (vs : list f32) : Connection :=
  {| con_ActualRemotePort := ""; con_ActualRemoteIP := ""; con_ServiceRemoteIP := ""; con_ServiceRemotePort := "";
     con_RemoteApplication := Some {| ra_Id := app_id dest; ra_Category := "application" |};
     con_Rtt := None; con_SuccessfulConnections := Some (NewWithData 60 15 vs); con_Active := None;
     con_FailedConnections := None; con_ConnectionTime := None; con_BytesSent := None; con_BytesReceived := None;
     con_Retransmissions := None; con_RequestsCount := []; con_RequestsLatency := []; con_RequestsHistogram := [] |}.
Definition instance (us : list Connection) : Instance_ :=
  {| inst_Name := "pod"; inst_Pod := None; inst_Containers := []; inst_NodePrice := None; inst_ClusterComponent := None;
     inst_Upstreams := us; inst_Annotations := [] |}.
Definition web (objective : string) : Application :=
  {| app_Id := app_id "web"; app_Category := "application";
     app_Instances := [instance [connection "db" [F32.of_Z 1; NaN]; connection "cache" [F32.of_Z 7; NaN]];
                       instance [connection "db" [F32.of_Z 3; F32.of_Z 4]]];
     app_LogMessages := []; app_Reports := []; app_AvailabilitySLIs := []; app_LatencySLIs := []; app_Deployments := [];
     app_Annotations := [(ApplicationAnnotationSLOAvailabilityObjective, objective)]; app_TrafficStats := no_traffic; app_DNSRequests := [];
     app_DNSRequestsHistogram := []; app_InboundRequestsCount := []; app_InboundRequestsHistogram := [] |}.
Definition world : World := {| w_Ctx := NewContext 60 90 15; w_CheckConfigs := []; w_Applications := [web " 97.5% "] |}.
Definition start : Sys unit := Build_Sys tt no_tables 0.

Lemma aggConnections_sums_witness :
  (∃ res, fst (aggConnections con_SuccessfulConnections world start) = Ret res
    ∧ res ≡ₚ w_Applications world ≫= λ app,
        RecordingRulesFacts.emitted (connection_labels (app_Id app))
          ((λ '(d, u), (ra_Id d, con_SuccessfulConnections u)) <$> upstreams app))
  ∧ (λ mv, (mv_Labels mv !! "dest", ts_data <$> mv_Values mv)) <$>
      match fst (aggConnections con_SuccessfulConnections world start) with Ret l => l | Panic => [] end
    = [(Some "p:default:Deployment:db", Some [F32.of_Z 4; F32.of_Z 4]); (Some "p:default:Deployment:cache", Some [F32.of_Z 7; NaN])].
Proof.
  split; [|vm_compute; reflexivity].
  apply RecordingRulesFacts.aggConnections_sums.
  intros app dest ->%list_elem_of_singleton first Hfirst.
  assert (Hall : Forall (λ ts, List.length (ts_data ts) = 2)%nat
                   (omap (λ '(d, u), con_SuccessfulConnections u) (upstreams (web " 97.5% ")))) by (repeat constructor).
  rewrite Forall_forall in Hall.
  assert (Hin : ∀ ts, ts ∈ RecordingRulesFacts.inputs ((λ '(d, u), (ra_Id d, con_SuccessfulConnections u)) <$> upstreams (web " 97.5% ")) dest →
                  List.length (ts_data ts) = 2%nat).
  { intros ts (c & Hc & Hts)%list_elem_of_omap. apply list_elem_of_In, List.filter_In in Hc as [Hc _].
    apply list_elem_of_In, list_elem_of_fmap in Hc as ([d u] & -> & Hu). apply Hall, list_elem_of_omap. by exists (d, u). }
  apply Forall_forall. intros ts Hts. rewrite (Hin ts Hts).
  rewrite (Hin first); [done|]. destruct (RecordingRulesFacts.inputs _ _); [done|]. injection Hfirst as ->. left.
Defined.


End RecordingRuns.
