(* ===== verification/Evaluator.v ===== *)
(** world/evaluator.go, rules.go, run.go, client.go, backend.go: the evaluator,
    which every period evaluates the queries of each project over the steps they
    lack and stores the results, and what a page asks it.

    The tasks of a cycle run concurrently and append their results under one
    lock; they are modelled in the order they end, which is open.  The part of
    constructor.LoadWorld that builds a world from the series it has read is a
    parameter ([load_parts]). *)

From S2P Require Export Md5 WorldStore RecordingRules.
From Stdlib Require Import Ascii String ZArith Lia.
Local Open Scope string_scope.
Local Open Scope Z_scope.

(** * Constants *)
Definition Backfill : Z := 24 * Time.Hour.
Definition seriesRefresh : Z := 10 * Time.Minute.
Definition lag : Z := 2.
Definition ruleHistory : Z := 10 * Time.Minute.
Definition ruleLookahead : Z := 2.
Definition ruleChunk : Z := Time.Hour.

(** An insert that fails may have stored some of its rows: blocks go to several
    shards, and to each view of a shard ([part]), one by one. *)
Class PartialInsert := {
  kept : ∀ {A : Type}, nat → nat → list A → list A;
  kept_sublist : ∀ A n part (l : list A), sublist (kept n part l) l
}.

(** * The series cache *)
Definition seriesCache : Type := gmap (string * Z) Z.

Definition due (seen : seriesCache) (query : string) (hash now : Z) : bool * seriesCache :=
  match seen !! (query, hash) with
  | Some at_ => if Time.Sub now at_ <? seriesRefresh then (false, seen) else (true, <[(query, hash) := now]> seen)
  | None => (true, <[(query, hash) := now]> seen)
  end.

Record Result := {
  res_To : Z;
  res_Queries : Z;
  res_Skipped : Z;
  res_Series : Z;
  res_Points : Z;
  res_FirstError : option string
}.

Definition labelMap (mv : MetricValues) : Labels :=
  let set k v (ls : Labels) := if String.eqb v "" then ls else <[k := v]> ls in
  set LabelActualDestination (mv_ActualDestination mv)
    (set (if mv_DestIp mv then LabelDestinationIP else LabelDestination) (mv_Destination mv)
      (set LabelContainerId (mv_ContainerId mv)
        (set LabelSystemUuid (mv_SystemUUID mv)
          (set LabelMachineId (mv_MachineID mv) (mv_Labels mv))))).

(** The points that are stored: defined, and within the limits (zero: none). *)
Definition point_wanted (notBefore notAfter t : Z) (v : f32) : bool :=
  negb (IsNaN v || (t <? notBefore) || (negb (notAfter =? 0) && (notAfter <? t))).

Definition appendSeries (out : batch) (seen : seriesCache) (query : string) (mv : MetricValues) (now notBefore notAfter : Z)
  : outcome (batch * seriesCache) :=
  let* points := for_ts (λ ps t v,
      Ret (if point_wanted notBefore notAfter t v
           then (ps ++ [{| po_query := query; po_hash := mv_LabelsHash mv; po_t := t; po_v := v |}])%list else ps))
      (mv_Values mv) (b_points out) in
  if (List.length points =? List.length (b_points out))%nat then Ret ({| b_series := b_series out; b_points := points |}, seen)
  else
    let '(d, seen) := due seen query (mv_LabelsHash mv) now in
    let row := {| se_query := query; se_hash := mv_LabelsHash mv; se_labels := labelMap mv; se_lastSeen := now |} in
    Ret ({| b_series := if d then (b_series out ++ [row])%list else b_series out; b_points := points |}, seen).

Definition append_all (query : string) (now notBefore notAfter : Z) (s : batch * seriesCache) (mvs : list MetricValues)
  : outcome (batch * seriesCache) :=
  fold_go (λ '(out, seen) mv, appendSeries out seen query mv now notBefore notAfter) s mvs.

Definition anyKnown (selectors : list string) (names : gset string) : bool := existsb (λ s, bool_decide (s ∈ names)) selectors.

(** * The statements of the backend *)
Section backend.
Context `{Env} `{PartialInsert}.

Definition insert (id : string) (all : WorldTables → WorldTables) (some : nat → WorldTables → WorldTables) : M EvalMem (string + unit) := λ s,
  let n := sys_ticks s in
  let put (f : WorldTables → WorldTables) := Build_Sys (set_tables id (f (tables_of id (sys_mem s))) (sys_mem s)) (sys_tables s) (S n) in
  match env_fault n with
  | Some err => (inl err, put (some n))
  | None => (inr tt, put all)
  end.

(** [write]: the series first, then the points. *)
Definition write (id : string) (b : batch) : M EvalMem (string + unit) :=
  r ← (if bool_decide (b_series b = []) then mret (inr tt)
       else insert id (insert_series (b_series b)) (λ n, insert_series (kept n 0 (b_series b))));
  match r with
  | inl err => mret (inl err)
  | inr _ =>
      let ps := b_points b in
      insert id (insert_points ps ps ps) (λ n, insert_points (kept n 0 ps) (kept n 1 ps) (kept n 2 ps))
  end.

(** [lastPerQuery] *)
Definition last_per_query (since : Z) (points : list pointRow) : gmap string Z :=
  foldl (λ m p, if since <=? po_t p then <[po_query p := Z.max (po_t p) (default 0 (m !! po_query p))]> m else m) ∅ points.
Definition lastPerQuery (id : string) (since : Z) : M EvalMem (string + gmap string Z) := λ s,
  match env_fault (sys_ticks s) with
  | Some err => (inl err, tick s)
  | None => (inr (last_per_query (date_time since) (world_points (tables_of id (sys_mem s)))), tick s)
  end.
End backend.

(** * cycle *)
Section evaluator.
Context `{LP : LogParser} `{Env} `{MapOrder} `{Prometheus} `{ErrorTexts} `{PartialInsert}.

(** The tasks, the queries seen, and how many were skipped. *)
Record plan := { pl_tasks : list (Query * Z); pl_done : gmap string bool; pl_skipped : Z }.
Definition no_plan : plan := {| pl_tasks := []; pl_done := ∅; pl_skipped := 0 |}.

(** The first step of a query that is not stored. *)
Definition first_missing (to backfill : Z) (last : gmap string Z) (query : string) : Z :=
  let from := Time.Add to (wrap64 (- backfill)) in
  match last !! query with
  | Some l => if from <? Time.Add l ResultsStep then Time.Add l ResultsStep else from
  | None => from
  end.

Definition plan_query (names : gset string) (to backfill : Z) (last : gmap string Z) (pl : plan) (q : Query) : plan :=
  if String.eqb (q_Query q) "" || default false (pl_done pl !! q_Query q) then pl
  else
    let done := <[q_Query q := true]> (pl_done pl) in
    let skip := {| pl_tasks := pl_tasks pl; pl_done := done; pl_skipped := pl_skipped pl + 1 |} in
    match Selectors (q_Query q) with
    | inl _ => skip
    | inr selectors =>
        if match selectors with Some ss => negb (anyKnown ss names) | None => false end then skip
        else
          let from := first_missing to backfill last (q_Query q) in
          {| pl_tasks := if to <? from then pl_tasks pl else (pl_tasks pl ++ [(q, from)])%list;
             pl_done := done; pl_skipped := pl_skipped pl |}
    end.
Definition plan_queries (names : gset string) (to backfill : Z) (last : gmap string Z) (queries : list Query) : plan :=
  foldl (plan_query names to backfill last) no_plan queries.

(** What the tasks share: the batch, the cache, the first error. *)
Record cycleState := { cy_out : batch; cy_seen : seriesCache; cy_error : option string }.

Definition run_task (to : Z) (st : cycleState) (t : Query * Z) : M EvalMem (outcome cycleState) :=
  let '(q, from) := t in
  and_then (PromQL_QueryRange (q_Query q) (λ l, bool_decide (l ∈ q_Labels q)) from to ResultsStep) (λ r,
    mret (match r with
          | inl err => Ret {| cy_out := cy_out st; cy_seen := cy_seen st;
                              cy_error := match cy_error st with None => Some err | Some e => Some e end |}
          | inr mvs =>
              let* s := append_all (q_Query q) to 0 0 (cy_out st, cy_seen st) mvs in
              Ret {| cy_out := fst s; cy_seen := snd s; cy_error := cy_error st |}
          end)).
Fixpoint run_tasks (to : Z) (st : cycleState) (ts : list (Query * Z)) : M EvalMem (outcome cycleState) :=
  match ts with
  | [] => mret (Ret st)
  | t :: ts => and_then (run_task to st t) (λ st, run_tasks to st ts)
  end.

(** The result, the error of the cycle, and the cache. *)
Definition cycleAnswer : Type := Result * option string * seriesCache.
Definition result (to queries skipped series points : Z) (first : option string) : Result :=
  {| res_To := to; res_Queries := queries; res_Skipped := skipped; res_Series := series; res_Points := points; res_FirstError := first |}.

Definition no_batch : batch := {| b_series := []; b_points := [] |}.

Definition finish_cycle (id : string) (to : Z) (pl : plan) (st : cycleState) : M EvalMem cycleAnswer :=
  let out := cy_out st in
  let res := result to (Z.of_nat (List.length (pl_tasks pl))) (pl_skipped pl) (len_go (b_series out)) (len_go (b_points out)) (cy_error st) in
  if bool_decide (b_points out = []) then mret (res, None, cy_seen st)
  else
    r ← write id out;
    mret (res, match r with inl err => Some ("write: " ++ err)%string | inr _ => None end, cy_seen st).

Definition cycle (id : string) (queries : list Query) (now backfill : Z) (seen : seriesCache) (last : gmap string Z)
  : M EvalMem (outcome cycleAnswer) :=
  match Time.Truncate (Time.Add now (wrap64 (- lag * ResultsStep))) ResultsStep with
  | Panic => mret Panic
  | Ret to =>
      names ← MetricNames;
      match names with
      | inl err => mret (Ret (result to 0 0 0 0 None, Some ("metric names: " ++ err)%string, seen))
      | inr names =>
          let pl := plan_queries names to backfill last queries in
          tasks ← range (pl_tasks pl);
          and_then (run_tasks to {| cy_out := no_batch; cy_seen := seen; cy_error := None |} tasks) (λ st,
            a ← finish_cycle id to pl st; mret (Ret a))
      end
  end.

(** * constructor.LoadWorld, of a project that is not multi-cluster *)
Context (load_parts : Project → Context → CheckConfigs → gmap string (list MetricValues) → M EvalMem (outcome World)).

Definition rule_options : Options :=
  {| OptionLoadInstanceToInstanceConnections := true; OptionLoadRawSLIs := false; OptionLoadContainerLogs := true |}.

Definition LoadWorld (o : Options) (project : Project) (from to step : Z) : M EvalMem (outcome (string + World)) :=
  match Time.Ceil from step, Time.Ceil to step with
  | Ret wfrom, Ret wto =>
      r ← GetCheckConfigs (p_Id project);
      match r with
      | inl err => mret (Ret (inl err))
      | inr checkConfigs =>
          checkConfigs ← range checkConfigs;
          match queryRequests o project from to step checkConfigs with
          | Panic => mret Panic
          | Ret requests =>
              and_then (QueryRanges (p_Id project) requests) (λ '(metrics, err),
                match err with
                | Some err => mret (Ret (inl err))
                | None => and_then (load_parts project (NewContext wfrom wto step) checkConfigs metrics) (λ w, mret (Ret (inr w)))
                end)
          end
      end
  | _, _ => mret Panic
  end.

(** * Recording rules *)
Context (SaveProjectSettings : Project → M EvalMem (string + unit)).

Definition rulesMarker (names : list string) : string :=
  marker_prefix ++ hex_encode (take 4 (Md5.Sum (String.concat "," names))).
Definition rule_list : list string := StringSet.sort_strings (fst <$> RecordingRules (Mem := EvalMem) SaveProjectSettings).
Definition rule_named (name : string) : option (rule (Mem := EvalMem)) :=
  snd <$> List.find (λ r, String.eqb (fst r) name) (RecordingRules (Mem := EvalMem) SaveProjectSettings).

Definition not_before (last : gmap string Z) (chunkFrom : Z) (name : string) : Z :=
  match last !! name with
  | Some l => if chunkFrom <? Time.Add l ResultsStep then Time.Add l ResultsStep else chunkFrom
  | None => chunkFrom
  end.

(** What the rules of a chunk share: the project, which they may change, the batch and the cache. *)
Definition ruleState : Type := Project * (batch * seriesCache).
Definition run_rule (last : gmap string Z) (chunkFrom chunkTo : Z) (w : World) (st : ruleState) (name : string)
  : M EvalMem (outcome ruleState) :=
  let '(project, s) := st in
  match rule_named name with
  | None => mret Panic
  | Some f =>
      and_then (f project w) (λ '(project, mvs),
        mret (let* s := append_all name chunkTo (not_before last chunkFrom name) chunkTo s mvs in Ret (project, s)))
  end.
Fixpoint run_rules (last : gmap string Z) (chunkFrom chunkTo : Z) (w : World) (st : ruleState) (names : list string)
  : M EvalMem (outcome ruleState) :=
  match names with
  | [] => mret (Ret st)
  | name :: names => and_then (run_rule last chunkFrom chunkTo w st name) (λ st, run_rules last chunkFrom chunkTo w st names)
  end.

(** The cache of a project, which its cycles share. *)
Definition set_seen (id : string) (seen : seriesCache) (m : EvalMem) : EvalMem :=
  match em_projects m !! id with
  | Some ps => set_state id {| ps_seen := seen; ps_lastEvaluated := ps_lastEvaluated ps |} m
  | None => m
  end.

Definition marker_point (marker : string) (t : Z) : pointRow := {| po_query := marker; po_hash := 0; po_t := t; po_v := F32.one |}.
Definition add_point (p : pointRow) (b : batch) : batch := {| b_series := b_series b; b_points := (b_points b ++ [p])%list |}.
Definition add_counts (series points : Z) (r : Result) : Result :=
  result (res_To r) (res_Queries r) (res_Skipped r) (res_Series r + series) (res_Points r + points) (res_FirstError r).

(** One chunk: its world, its rules, its marker. *)
Definition rule_chunk (names : list string) (marker : string) (evaluatedTo to : Z) (last : gmap string Z) (chunkFrom : Z)
    (project : Project) (seen : seriesCache) (res : Result) : M EvalMem (outcome (string + (Project * seriesCache * Result))) :=
  let chunkTo := Z.min (Time.Add chunkFrom (wrap64 (ruleChunk - ResultsStep))) to in
  let worldTo := Z.min (Time.Add chunkTo (ruleLookahead * ResultsStep)) evaluatedTo in
  and_then (LoadWorld rule_options project (Time.Add chunkFrom (wrap64 (- ruleHistory))) worldTo ResultsStep) (λ w,
    match w with
    | inl err => mret (Ret (inl ("load world: " ++ err)%string))
    | inr w =>
        and_then (run_rules last chunkFrom chunkTo w (project, (no_batch, seen)) names) (λ '(project, (out, seen)),
          _ ← modify_mem (set_seen (p_Id project) seen);
          r ← write (p_Id project) (add_point (marker_point marker chunkTo) out);
          match r with
          | inl err => mret (Ret (inl err))
          | inr _ => mret (Ret (inr (project, seen, add_counts (len_go (b_series out)) (len_go (b_points out)) res)))
          end)
    end).

Fixpoint rule_chunks (fuel : nat) (names : list string) (marker : string) (evaluatedTo to : Z) (last : gmap string Z) (chunkFrom : Z)
    (project : Project) (seen : seriesCache) (res : Result) : M EvalMem (outcome (option string * Result)) :=
  match fuel with
  | O => mret (Ret (None, res))
  | S fuel =>
      if to <? chunkFrom then mret (Ret (None, res))
      else
        and_then (rule_chunk names marker evaluatedTo to last chunkFrom project seen res) (λ r,
          match r with
          | inl err => mret (Ret (Some err, res))
          | inr (project, seen, res) =>
              rule_chunks fuel names marker evaluatedTo to last (Time.Add chunkFrom ruleChunk) project seen res
          end)
  end.

(** How many chunks a backfill has at most, and one more. *)
Definition chunk_fuel (from to : Z) : nat := S (Z.to_nat ((to - from) / ruleChunk + 1)).

Definition set_to (to : Z) (r : Result) : Result :=
  result to (res_Queries r) (res_Skipped r) (res_Series r) (res_Points r) (res_FirstError r).

(** The error, and the result as it was left. *)
Definition recordingRules (backfill : Z) (project : Project) (evaluatedTo : Z) (seen : seriesCache) (last : gmap string Z) (res : Result)
  : M EvalMem (outcome (option string * Result)) :=
  let to := Time.Add evaluatedTo (wrap64 (- ruleLookahead * ResultsStep)) in
  let res := set_to to res in
  let names := rule_list in
  if bool_decide (names = []) then mret (Ret (None, set_to evaluatedTo res))
  else
    let marker := rulesMarker names in
    let from := match last !! marker with Some l => Time.Add l ResultsStep | None => Time.Add to (wrap64 (- backfill)) end in
    match Time.Truncate from ResultsStep with
    | Panic => mret Panic
    | Ret from =>
        if to <? from then mret (Ret (None, res))
        else rule_chunks (chunk_fuel from to) names marker evaluatedTo to last from project seen res
    end.

(** * EvaluateProject *)

(** [state]: the cached state of a project, or new connections. *)
Definition new_state : projectState := {| ps_seen := ∅; ps_lastEvaluated := None |}.
Definition state (id : string) : M EvalMem (string + projectState) :=
  m ← get_mem;
  match em_projects m !! id with
  | Some ps => mret (inr ps)
  | None =>
      r ← call (λ _, tt);
      match r with
      | inl err => mret (inl err)
      | inr _ => _ ← modify_mem (set_state id new_state); mret (inr new_state)
      end
  end.
Definition drop_state (id : string) (m : EvalMem) : EvalMem := set_projects (delete id (em_projects m)) m.

Definition no_result : Result := result 0 0 0 0 0 None.

(** The part after the queries and the last steps are known. *)
Definition evaluate (project : Project) (now backfill : Z) (ps : projectState) (queries : list Query) (last : gmap string Z)
  : M EvalMem (outcome (Result * option string)) :=
  let id := p_Id project in
  and_then (cycle id queries now backfill (ps_seen ps) last) (λ '(res, err, seen),
    match err with
    | Some err => _ ← modify_mem (drop_state id); mret (Ret (res, Some err))
    | None =>
        _ ← modify_mem (set_seen id seen);
        and_then (recordingRules backfill project (res_To res) seen last res) (λ '(err, res),
          mret (Ret (res, match err with Some err => Some ("recording rules: " ++ err)%string | None => res_FirstError res end)))
    end).

Definition EvaluateProject (project : Project) (now backfill : Z) : M EvalMem (outcome (Result * option string)) :=
  let id := p_Id project in
  ps ← state id;
  match ps with
  | inl err => mret (Ret (no_result, Some err))
  | inr ps =>
      r ← GetCheckConfigs id;
      match r with
      | inl err => mret (Ret (no_result, Some ("could not get check configs: " ++ err)%string))
      | inr checkConfigs =>
          checkConfigs ← range checkConfigs;
          let queries := EvaluatedQueries project checkConfigs in
          r ← lastPerQuery id (Time.Add now (wrap64 (- backfill - Time.Hour)));
          match r with
          | inl err => _ ← modify_mem (drop_state id); mret (Ret (no_result, Some ("last evaluated: " ++ err)%string))
          | inr last => evaluate project now backfill ps queries last
          end
      end
  end.

(** * runProject and Run *)
Definition set_status (id : string) (st : evalStatus) (m : EvalMem) : EvalMem :=
  {| em_ch := em_ch m; em_projects := em_projects m; em_status := <[id := st]> (em_status m); em_updates := em_updates m |}.

(** The zero status of a project that was not evaluated. *)
Definition status_of (id : string) (m : EvalMem) : evalStatus :=
  default {| es_lastEvaluated := 0; es_err := ""; es_at := 0 |} (em_status m !! id).

(** The status after a cycle: one that failed before it knew the time keeps the
    time of an earlier one. *)
Definition next_status (id : string) (res : Result) (err : option string) (at_ : Z) (m : EvalMem) : evalStatus :=
  {| es_lastEvaluated :=
       if bool_decide (err ≠ None) && (res_To res =? 0) then es_lastEvaluated (status_of id m) else res_To res;
     es_err := default "" err; es_at := at_ |}.

(** [updates] has room for one id; a send that would block is dropped. *)
Definition send_update (id : string) (m : EvalMem) : EvalMem :=
  match em_updates m with
  | [] => {| em_ch := em_ch m; em_projects := em_projects m; em_status := em_status m; em_updates := [id] |}
  | _ => m
  end.

Definition runProject (backfill : Z) (project : Project) : M EvalMem (outcome unit) :=
  now ← Now;
  and_then (EvaluateProject project now backfill) (λ '(res, err),
    at_ ← Now;
    _ ← modify_mem (λ m, set_status (p_Id project) (next_status (p_Id project) res err at_ m) m);
    _ ← modify_mem (if 0 <? res_Points res then send_update (p_Id project) else λ m, m);
    mret (Ret tt)).

(** One period of [Run]; only the primary instance evaluates. *)
Definition run_period (GetPrimaryLock : M EvalMem bool) (GetProjects : M EvalMem (string + list Project)) (backfill : Z)
  : M EvalMem (outcome unit) :=
  primary ← GetPrimaryLock;
  if negb primary then mret (Ret tt)
  else
    projects ← GetProjects;
    match projects with
    | inl _ => mret (Ret tt)
    | inr projects =>
        projects ← range projects;
        and_then (collect (λ p, if Multicluster p then mret (Ret tt) else runProject backfill p) projects) (λ _, mret (Ret tt))
    end.

(** * client.go *)

(** Up to when this instance stored the results, in a cycle of the last two periods. *)
Definition recentlyEvaluated (period now : Z) (st : evalStatus) : option Z :=
  if (es_lastEvaluated st =? 0) || (2 * period <? now - es_at st) then None else Some (es_lastEvaluated st).

(** [store]: connecting to the project's ClickHouse when this is the first use. *)
Definition client_store (id : string) : M EvalMem (string + unit) :=
  m ← get_mem;
  match em_projects m !! id with
  | Some _ => mret (inr tt)
  | None =>
      r ← call (λ _, tt);
      match r with
      | inl err => mret (inl ("project " ++ id ++ ": " ++ err)%string)
      | inr _ => ps ← state id; mret (match ps with inl err => inl err | inr _ => inr tt end)
      end
  end.

Definition GetTo (period : Z) (id : string) : M EvalMem (string + Z) :=
  now ← Now;
  m ← get_mem;
  match recentlyEvaluated period now (status_of id m) with
  | Some t => mret (inr t)
  | None =>
      st ← client_store id;
      match st with
      | inl err => mret (inl err)
      | inr _ => LastEvaluated id
      end
  end.

(** The error of the last cycle, and the lag. *)
Definition GetStatus (period : Z) (id : string) : M EvalMem (string + (string * Z)) :=
  to ← GetTo period id;
  match to with
  | inl err => mret (inl err)
  | inr to =>
      m ← get_mem;
      let err := es_err (status_of id m) in
      if to =? 0 then mret (inr (err, Backfill))
      else now ← Now; mret (inr (err, Time.Sub now to))
  end.
End evaluator.
