(* ===== verification/EvaluatorSpec.v ===== *)
(** Properties of the evaluator: no point is stored twice and every point of a
    query has its labels, whatever fails; what a cycle that goes through stores;
    what its errors leave behind. *)

From S2P Require Import WorldStoreSpec.
From S2P Require Export Evaluator.
From Stdlib Require Import Ascii String ZArith Lia.
Local Open Scope string_scope.
Local Open Scope Z_scope.

(** * What the rules leave alone *)
Module FrameFacts.
Import DbFacts.

(** A run that does not touch the memory of the evaluator. *)
Definition unmoved {A} (m : M EvalMem A) : Prop := ∀ s, sys_mem (snd (m s)) = sys_mem s.

Lemma unmoved_ret {A} (a : A) : unmoved (mret a).
Proof. done. Qed.
Lemma unmoved_bind {A B} (m : M EvalMem A) (f : A → M EvalMem B) : unmoved m → (∀ a, unmoved (f a)) → unmoved (m ≫= f).
Proof. intros Hm Hf s. unfold mbind, M_bind. specialize (Hm s). destruct (m s) as [a s']. cbn in Hm. by rewrite Hf. Qed.
Lemma unmoved_then {A B} (m : M EvalMem (outcome A)) (f : A → M EvalMem (outcome B)) : unmoved m → (∀ a, unmoved (f a)) → unmoved (and_then m f).
Proof. intros Hm Hf. apply unmoved_bind; [done|]. intros [a|]; [apply Hf|done]. Qed.
Lemma unmoved_collect {A B} (f : A → M EvalMem (outcome B)) l : (∀ x, unmoved (f x)) → unmoved (collect f l).
Proof.
  intros Hf. induction l as [|x l IH]; [done|]. apply unmoved_then; [apply Hf|]. intros b. by apply unmoved_then.
Qed.
Lemma unmoved_forM {A} (f : A → M EvalMem unit) l : (∀ x, unmoved (f x)) → unmoved (forM_ l f).
Proof. intros Hf. induction l as [|x l IH]; [done|]. by apply unmoved_bind. Qed.

Section env.
Context `{Env} `{MapOrder}.
Lemma unmoved_range {A} (l : list A) : unmoved (range l).
Proof. done. Qed.
Lemma unmoved_statement {A} (q : Tables → string + (A * Tables)) : unmoved (statement q).
Proof. intros s. destruct (statement q s) as [r s'] eqn:E. by apply statement_inv in E as [? _]. Qed.
Lemma unmoved_select {A} (q : Tables → string + A) : unmoved (select q).
Proof. apply unmoved_statement. Qed.
Lemma unmoved_select_rows {R A} (rows : Tables → list R) (q : list R → string + A) : unmoved (select_rows rows q).
Proof. intros s. apply unmoved_select. Qed.
Lemma unmoved_update f : unmoved (update f).
Proof. apply unmoved_statement. Qed.
Lemma unmoved_ask {A} (f : nat → A) : unmoved (ask f).
Proof. done. Qed.
Lemma unmoved_call {A} (f : nat → A) : unmoved (call f).
Proof. apply unmoved_ask. Qed.
Lemma unmoved_Now : unmoved Now.
Proof. done. Qed.
End env.
End FrameFacts.
Import FrameFacts.
Create HintDb unmoved.
#[export] Hint Resolve unmoved_ret unmoved_bind unmoved_then unmoved_collect unmoved_forM unmoved_range unmoved_statement unmoved_select unmoved_select_rows unmoved_update
  unmoved_ask unmoved_call unmoved_Now : unmoved.

(** One step of a proof that a run leaves the memory as it is. *)
Ltac unmoved_step :=
  first [ apply unmoved_bind; [|intros ?] | apply unmoved_then; [|intros ?] | apply unmoved_collect; intros ? | apply unmoved_forM; intros ?
        | solve [auto with unmoved]
        | match goal with
          | |- unmoved (match ?x with _ => _ end) => destruct x
          | |- unmoved (if ?x then _ else _) => destruct x
          end ].
Ltac unmoved := repeat unmoved_step.

Module RuleFacts.
Section rules.
Context `{LP : LogParser} `{Env} `{MapOrder} `{Prometheus} `{ErrorTexts}.
Context (SaveProjectSettings : Project → M EvalMem (string + unit)).

(** A rule leaves the memory and the project's id alone. *)
Definition tame (f : rule (Mem := EvalMem)) : Prop :=
  ∀ p w, unmoved (f p w) ∧ ∀ s p' mvs, fst (f p w s) = Ret (p', mvs) → p_Id p' = p_Id p.

Lemma tame_series f : (∀ w, unmoved (f w)) → tame (series_rule f).
Proof.
  intros Hf p w. split; [unfold series_rule; unmoved; apply Hf|]. intros s p' mvs. unfold series_rule, and_then, mbind, M_bind.
  destruct (f w s) as [[l|] s']; [|done]. by intros [= <- _].
Qed.

Lemma unmoved_each_app w f : (∀ a, unmoved (f a)) → unmoved (each_app (Mem := EvalMem) w f).
Proof. intros Hf. unfold each_app. unmoved; apply Hf. Qed.
Lemma unmoved_emit {K} labels (m : list (K * Aggregate.t)) : unmoved (emit (Mem := EvalMem) labels m).
Proof. unfold emit. unmoved. Qed.
Lemma unmoved_present {K} labels (m : list (K * option TimeSeries)) : unmoved (present (Mem := EvalMem) labels m).
Proof. unfold present. unmoved. Qed.
#[local] Hint Resolve unmoved_each_app unmoved_emit unmoved_present : unmoved.

Lemma unmoved_aggConnections tsF w : unmoved (aggConnections (Mem := EvalMem) tsF w).
Proof. unfold aggConnections. auto with unmoved. Qed.
Lemma unmoved_net_latency w : unmoved (net_latency (Mem := EvalMem) w).
Proof. unfold net_latency. apply unmoved_each_app. intros a. unmoved. Qed.
Lemma unmoved_log_messages w : unmoved (log_messages (Mem := EvalMem) w).
Proof. unfold log_messages. apply unmoved_each_app. intros a. unmoved. unfold severity_series. unmoved. Qed.
Lemma unmoved_dns_requests w : unmoved (dns_requests (Mem := EvalMem) w).
Proof. unfold dns_requests. apply unmoved_each_app. intros a. unmoved. Qed.
Lemma unmoved_traffic w : unmoved (traffic (Mem := EvalMem) w).
Proof. unfold traffic. apply unmoved_each_app. intros a. unmoved. Qed.
Lemma unmoved_external_endpoints w : unmoved (external_endpoints (Mem := EvalMem) w).
Proof. unfold external_endpoints. unmoved. Qed.
Lemma unmoved_l7_histogram w : unmoved (l7_histogram (Mem := EvalMem) w).
Proof. unfold l7_histogram. unmoved. Qed.
Lemma unmoved_SaveCheckConfig p a c j : unmoved (SaveCheckConfig (Mem := EvalMem) p a c j).
Proof. unfold SaveCheckConfig. unmoved. Qed.
Lemma unmoved_availability p w a : unmoved (updateAvailabilitySLOFromAnnotations (Mem := EvalMem) p w a).
Proof. unfold updateAvailabilitySLOFromAnnotations. pose proof unmoved_SaveCheckConfig. unmoved. Qed.
Lemma unmoved_latency p w a : unmoved (updateLatencySLOFromAnnotations (Mem := EvalMem) p w a).
Proof. unfold updateLatencySLOFromAnnotations. pose proof unmoved_SaveCheckConfig. unmoved. Qed.

Lemma tame_slo : tame slo_rule.
Proof.
  intros p w. split.
  - unfold slo_rule. pose proof unmoved_availability. pose proof unmoved_latency. unmoved.
  - intros s p' mvs. unfold slo_rule, mbind, M_bind. destruct (range _ s) as [apps s']. destruct (forM_ _ _ s') as [[] s'']. by intros [= <- _].
Qed.

Lemma add_category_id st c : p_Id (fst (add_category st c)) = p_Id (fst st).
Proof. destruct st as [p b]. unfold add_category. by destruct (_ !! _). Qed.
Lemma add_categories_id cs st : p_Id (fst (foldl add_category st cs)) = p_Id (fst st).
Proof. revert st. induction cs as [|c cs IH]; intros st; [done|]. cbn. by rewrite IH, add_category_id. Qed.

Lemma tame_categories : (∀ p, unmoved (SaveProjectSettings p)) → tame (categories_rule SaveProjectSettings).
Proof.
  intros Hsave p w. split.
  - unfold categories_rule, save_categories. unmoved; apply Hsave.
  - intros s p' mvs. unfold categories_rule, save_categories, mbind, M_bind. destruct (range _ s) as [apps s'].
    pose proof (add_categories_id (map app_Category apps) (p, false)) as Hid. destruct (foldl add_category _ _) as [p1 b]. cbn in Hid.
    destruct b; [destruct (SaveProjectSettings p1 s') as [? s'']|]; intros [= <- _]; done.
Qed.

(** Every rule of the table. *)
Lemma rules_tame name f : (∀ p, unmoved (SaveProjectSettings p)) → rule_named SaveProjectSettings name = Some f → tame f.
Proof.
  intros Hsave Hf. unfold rule_named in Hf. destruct (List.find _ _) as [[n g]|] eqn:E; [|done]. injection Hf as <-.
  apply find_some in E as [Hin _]. unfold RecordingRules in Hin.
  pose proof unmoved_aggConnections. pose proof unmoved_net_latency. pose proof unmoved_log_messages. pose proof unmoved_dns_requests.
  pose proof unmoved_traffic. pose proof unmoved_external_endpoints. pose proof unmoved_l7_histogram.
  repeat (destruct Hin as [[= <- <-]|Hin];
    [first [by apply tame_slo|by apply tame_categories|
            apply tame_series; intros w; first [solve [auto with unmoved]|
              unfold l7_requests, l7_latency, inbound_requests, inbound_histogram, dns_latency; solve [auto with unmoved]]]|]).
  destruct Hin.
Qed.
End rules.
End RuleFacts.

(** * Labels there and back *)
Module LabelFacts.
Import ReadFacts.

(** The labels that are fields of a series. *)
Definition field_labels : list string :=
  [LabelMachineId; LabelSystemUuid; LabelContainerId; LabelDestination; LabelDestinationIP; LabelActualDestination].

Ltac field_label := apply list_elem_of_In; cbn; tauto.

(** A series as the program makes them: the labels that are fields are not among
    its other labels, and it has an IP as its destination only if it has one. *)
Record wf_series (mv : MetricValues) : Prop := {
  ws_fields : ∀ k, k ∈ field_labels → mv_Labels mv !! k = None;
  ws_ip : mv_Destination mv = "" → mv_DestIp mv = false
}.

Section labels.
Context (hash : Z) (values : option TimeSeries).

Lemma split_labels_insert k v (m : Labels) :
  m !! k = None → one_destination (<[k := v]> m) → split_labels hash values (<[k := v]> m) = split_label (split_labels hash values m) (k, v).
Proof.
  intros Hk Hone. rewrite <- (split_labels_order hash values (<[k := v]> m) (map_to_list m ++ [(k, v)])); [|done|].
  - by rewrite foldl_app.
  - rewrite (map_to_list_insert m k v Hk). apply Permutation_app_comm.
Qed.

Lemma split_labels_others (m : Labels) : (∀ k, k ∈ field_labels → m !! k = None) → split_labels hash values m = metric_values m hash values.
Proof.
  induction m as [|k v m Hk IH] using map_ind; intros Hm.
  - unfold split_labels. by rewrite map_to_list_empty.
  - assert (Hn : ∀ k', k' ∈ field_labels → k ≠ k' ∧ m !! k' = None).
    { intros k' Hk'. specialize (Hm k' Hk'). by apply lookup_insert_None in Hm as [? ?]. }
    rewrite split_labels_insert; [|done|left; apply Hm; field_label].
    rewrite IH by (intros k' Hk'; by apply Hn). unfold split_label, metric_values.
    rewrite !(proj2 (String.eqb_neq k _)); [done|apply Hn; field_label..].
Qed.

(** A label that is a field: written when it is not empty, read back into it. *)
Definition set_label (k v : string) (ls : Labels) : Labels := if String.eqb v "" then ls else <[k := v]> ls.
Lemma set_label_ne k v ls k' : k ≠ k' → set_label k v ls !! k' = ls !! k'.
Proof. intros Hne. unfold set_label. destruct (String.eqb v ""); [done|]. by apply lookup_insert_ne. Qed.
Lemma split_set_label k v ls :
  ls !! k = None → one_destination (set_label k v ls) →
  split_labels hash values (set_label k v ls) = if String.eqb v "" then split_labels hash values ls else split_label (split_labels hash values ls) (k, v).
Proof. unfold set_label. destruct (String.eqb v ""); [done|]. apply split_labels_insert. Qed.
End labels.

Lemma split_labelMap mv : wf_series mv → one_destination (labelMap mv) → split_labels (mv_LabelsHash mv) (mv_Values mv) (labelMap mv) = mv.
Proof.
  intros [Hf Hip] Hone. destruct mv as [ls h ts m u c d a ip]. cbn [mv_Labels mv_DestIp mv_Destination mv_LabelsHash mv_Values] in *.
  change (labelMap _) with (set_label LabelActualDestination a (set_label (if ip then LabelDestinationIP else LabelDestination) d
    (set_label LabelContainerId c (set_label LabelSystemUuid u (set_label LabelMachineId m ls))))) in *.
  set (dk := if ip then LabelDestinationIP else LabelDestination) in *.
  assert (Hdk : dk ∈ field_labels ∧ dk ≠ LabelActualDestination ∧ dk ≠ LabelContainerId ∧ dk ≠ LabelSystemUuid ∧ dk ≠ LabelMachineId) by (unfold dk; destruct ip; (split; [field_label|done])).
  assert (Hnone : ∀ k, k ∈ field_labels → ls !! k = None) by done.
  assert (Hother : one_destination (set_label LabelContainerId c (set_label LabelSystemUuid u (set_label LabelMachineId m ls)))
                 ∧ one_destination (set_label LabelSystemUuid u (set_label LabelMachineId m ls)) ∧ one_destination (set_label LabelMachineId m ls)).
  { unfold one_destination. rewrite !set_label_ne by done. rewrite !Hnone by (field_label). auto. }
  assert (Hone' : one_destination (set_label dk d (set_label LabelContainerId c (set_label LabelSystemUuid u (set_label LabelMachineId m ls))))).
  { unfold one_destination in *. by rewrite !(set_label_ne LabelActualDestination) in Hone by done. }
  destruct Hother as (H1 & H2 & H3). destruct Hdk as (Hdk & Hda & Hdc & Hdu & Hdm).
  rewrite split_set_label; [|rewrite !set_label_ne by done; apply Hnone; field_label|done].
  rewrite split_set_label; [|rewrite !set_label_ne by done; by apply Hnone|done].
  rewrite split_set_label; [|rewrite !set_label_ne by done; apply Hnone; field_label|done].
  rewrite split_set_label; [|rewrite !set_label_ne by done; apply Hnone; field_label|done].
  rewrite split_set_label; [|apply Hnone; field_label|done].
  rewrite split_labels_others by done.
  destruct (String.eqb_spec m "") as [->|], (String.eqb_spec u "") as [->|], (String.eqb_spec c "") as [->|], (String.eqb_spec a "") as [->|],
    (String.eqb_spec d "") as [->|]; try rewrite (Hip eq_refl); try (unfold dk; destruct ip; reflexivity); reflexivity.
Qed.

Lemma labelMap_one_destination mv : wf_series mv → one_destination (labelMap mv).
Proof.
  intros [Hf _]. unfold labelMap, one_destination. fold (set_label LabelActualDestination (mv_ActualDestination mv)).
  destruct (mv_DestIp mv); [left|right]; repeat (case_match; [|rewrite lookup_insert_ne by done]); apply Hf; field_label.
Qed.
End LabelFacts.

(** * What is appended to a batch *)
Module BatchFacts.
Import AggregationFacts ReadFacts.

Definition points_opt (ts : option TimeSeries) : list (Z * f32) := match ts with Some ts => points ts | None => [] end.
Definition point_of (query : string) (mv : MetricValues) (tv : Z * f32) : pointRow :=
  {| po_query := query; po_hash := mv_LabelsHash mv; po_t := fst tv; po_v := snd tv |}.
Definition new_points (query : string) (nb na : Z) (mv : MetricValues) : list pointRow :=
  point_of query mv <$> List.filter (λ tv, point_wanted nb na (fst tv) (snd tv)) (points_opt (mv_Values mv)).
Definition row_of_series (query : string) (now : Z) (mv : MetricValues) : seriesRow :=
  {| se_query := query; se_hash := mv_LabelsHash mv; se_labels := labelMap mv; se_lastSeen := now |}.

Lemma for_points {A} (f : A → Z → f32 → A) ts (s : A) :
  for_ts (λ s t v, Ret (f s t v)) ts s = Ret (foldl (λ s tv, f s (fst tv) (snd tv)) s (points_opt ts)).
Proof.
  destruct ts as [ts|]; [|done]. rewrite for_ts_fold. cbn [points_opt]. generalize (points ts). intros l. revert s.
  induction l as [|tv l IH]; intros s; [done|]. cbn. by rewrite IH.
Qed.

(** One series: its points go to the end of the batch, and its labels when they are due. *)
Lemma appendSeries_spec out seen query mv now nb na :
  appendSeries out seen query mv now nb na
  = Ret (match new_points query nb na mv with
         | [] => ({| b_series := b_series out; b_points := b_points out |}, seen)
         | new =>
             let '(d, seen') := due seen query (mv_LabelsHash mv) now in
             ({| b_series := if d then (b_series out ++ [row_of_series query now mv])%list else b_series out;
                 b_points := (b_points out ++ new)%list |}, seen')
         end).
Proof.
  unfold appendSeries. rewrite (for_points (λ ps t v, if point_wanted nb na t v
    then (ps ++ [{| po_query := query; po_hash := mv_LabelsHash mv; po_t := t; po_v := v |}])%list else ps)). cbn [obind].
  assert (Hfold : ∀ l ps, foldl (λ ps tv, if point_wanted nb na (fst tv) (snd tv)
      then (ps ++ [{| po_query := query; po_hash := mv_LabelsHash mv; po_t := fst tv; po_v := snd tv |}])%list else ps) ps l
    = (ps ++ (point_of query mv <$> List.filter (λ tv, point_wanted nb na (fst tv) (snd tv)) l))%list).
  { induction l as [|tv l IH]; intros ps; [by rewrite app_nil_r|]. cbn. rewrite IH. destruct (point_wanted _ _ _ _); cbn; [by rewrite <- app_assoc|done]. }
  rewrite Hfold. unfold new_points. destruct (point_of query mv <$> _) as [|p new].
  - rewrite app_nil_r, Nat.eqb_refl. done.
  - rewrite length_app. cbn [List.length]. rewrite (proj2 (Nat.eqb_neq _ _)) by lia. by destruct (due _ _ _ _) as [[] ?].
Qed.

Definition keyed (l : list seriesRow) (query : string) (hash : Z) : Prop := ∃ s, s ∈ l ∧ se_query s = query ∧ se_hash s = hash.
Lemma keyed_app l l' q h : keyed (l ++ l')%list q h ↔ keyed l q h ∨ keyed l' q h.
Proof.
  split; [intros (s & [?|?]%elem_of_app & ?); [left|right]; by exists s|].
  intros [(s & ? & ?)|(s & ? & ?)]; exists s; (split; [apply elem_of_app; auto|done]).
Qed.

Lemma due_spec seen query hash now d seen' : due seen query hash now = (d, seen') →
  is_Some (seen' !! (query, hash)) ∧ (d = false → is_Some (seen !! (query, hash)))
  ∧ ∀ k, is_Some (seen' !! k) → k = (query, hash) ∧ d = true ∨ is_Some (seen !! k).
Proof.
  unfold due, seriesCache in *. destruct (seen !! (query, hash)) as [at_|] eqn:E; [destruct (_ <? _)|]; intros [= <- <-].
  - split_and!; [by eexists|by eexists|auto].
  - split_and!; [rewrite lookup_insert_eq; by eexists|done|]. intros k Hk. destruct (decide (k = (query, hash))) as [->|]; [auto|].
    rewrite lookup_insert_ne in Hk by done. auto.
  - split_and!; [rewrite lookup_insert_eq; by eexists|done|]. intros k Hk. destruct (decide (k = (query, hash))) as [->|]; [auto|].
    rewrite lookup_insert_ne in Hk by done. auto.
Qed.

(** A query's series: the points in order, and labels for each of them, written
    now or counted as written before. *)
Lemma append_all_spec query now nb na mvs out seen :
  ∃ rows seen', append_all query now nb na (out, seen) mvs
      = Ret ({| b_series := (b_series out ++ rows)%list; b_points := (b_points out ++ (mvs ≫= new_points query nb na))%list |}, seen')
    ∧ (∀ p, p ∈ (mvs ≫= new_points query nb na) → po_query p = query ∧ (keyed rows query (po_hash p) ∨ is_Some (seen !! (query, po_hash p))))
    ∧ (∀ k, is_Some (seen' !! k) → is_Some (seen !! k) ∨ keyed rows (fst k) (snd k))
    ∧ (∀ r, r ∈ rows → ∃ mv, mv ∈ mvs ∧ new_points query nb na mv ≠ [] ∧ r = row_of_series query now mv).
Proof.
  unfold append_all. revert out seen. induction mvs as [|mv mvs IH]; intros out seen; cbn [fold_go].
  { exists [], seen. split_and!; [by rewrite !app_nil_r; destruct out|by intros ? ?%not_elem_of_nil|auto|by intros ? ?%not_elem_of_nil]. }
  rewrite appendSeries_spec. cbn [obind]. change ((mv :: mvs) ≫= new_points query nb na) with (new_points query nb na mv ++ (mvs ≫= new_points query nb na))%list.
  destruct (new_points query nb na mv) as [|p0 new] eqn:Hnew.
  - destruct (IH {| b_series := b_series out; b_points := b_points out |} seen) as (rows & seen' & -> & H1 & H2 & H3).
    exists rows, seen'. split_and!; [done|done|done|]. intros r (mv' & Hmv & Hn & ->)%H3. exists mv'. split_and!; [by right|done..].
  - destruct (due seen query (mv_LabelsHash mv) now) as [d seen1] eqn:Hdue. apply due_spec in Hdue as (Hd1 & Hd2 & Hd3).
    set (row := if d then [row_of_series query now mv] else []).
    destruct (IH {| b_series := (b_series out ++ row)%list; b_points := (b_points out ++ p0 :: new)%list |} seen1) as (rows & seen' & Hrun & H1 & H2 & H3).
    exists (row ++ rows)%list, seen'. rewrite <- Hnew in *.
    assert (Hp : ∀ p, p ∈ new_points query nb na mv → po_query p = query ∧ po_hash p = mv_LabelsHash mv) by (by intros p (tv & -> & _)%list_elem_of_fmap).
    assert (Hseen1 : ∀ k, is_Some (seen1 !! k) → is_Some (seen !! k) ∨ keyed row (fst k) (snd k)).
    { intros k [[-> ->]|?]%Hd3; [|auto]. right. exists (row_of_series query now mv). split_and!; [left|done|done]. }
    split_and!.
    + cbn [b_series b_points] in Hrun. rewrite !app_assoc.
      unfold row in *. destruct d; [exact Hrun|]. rewrite app_nil_r in *. exact Hrun.
    + intros p [Hin|Hin]%elem_of_app.
      * destruct (Hp p Hin) as [-> ->]. split; [done|]. destruct d; [left|right; by apply Hd2].
        apply keyed_app. left. exists (row_of_series query now mv). split_and!; [left|done|done].
      * destruct (H1 p Hin) as [Hq [Hk|Hk]]; (split; [done|]); [left; apply keyed_app; by right|].
        destruct (Hseen1 _ Hk) as [?|?]; [by right|left]. apply keyed_app. by left.
    + intros k [Hk|Hk]%H2; [destruct (Hseen1 k Hk) as [?|?]; [by left|right]|right]; apply keyed_app; auto.
    + intros r [Hr|(mv' & Hmv & Hn & ->)%H3]%elem_of_app; [|exists mv'; split_and!; [by right|done..]].
      unfold row in Hr. destruct d; [|by apply not_elem_of_nil in Hr]. apply list_elem_of_singleton in Hr as ->. exists mv. split_and!; [left|by rewrite Hnew|done].
Qed.
End BatchFacts.

(** * The series of an answer *)
Module SeriesFacts.
Import BatchFacts ReadFacts.

Lemma fold_go_inv {A S} (P : S → Prop) (body : S → A → outcome S) l s s' :
  (∀ s x s', P s → body s x = Ret s' → P s') → P s → fold_go body s l = Ret s' → P s'.
Proof.
  intros Hbody. revert s. induction l as [|x l IH]; intros s HP; cbn [fold_go]; [by intros [= <-]|].
  destruct (body s x) as [s1|] eqn:E; [|done]. cbn [obind]. apply IH. by eapply Hbody.
Qed.

Lemma Set_shape ts t v ts' : TimeSeries.Set_ ts t v = Ret ts' →
  ts_from ts' = ts_from ts ∧ ts_step ts' = ts_step ts ∧ List.length (ts_data ts') = List.length (ts_data ts).
Proof.
  unfold TimeSeries.Set_. destruct (Time.Truncate _ _) as [t'|]; [|done]. cbn [obind]. case_bool_decide; [by intros [= <-]|].
  destruct (quot64 _ _) as [i|]; [|done]. cbn [obind]. case_bool_decide; [|by intros [= <-]].
  unfold set_go. case_bool_decide; [|done]. cbn [obind]. intros [= <-]. cbn. by rewrite length_insert.
Qed.

(** Series that can be told apart, each with at most one point a step. *)
Definition steps_once (mv : MetricValues) : Prop :=
  NoDup (fst <$> points_opt (mv_Values mv)) ∧ ∀ tv, tv ∈ points_opt (mv_Values mv) → (ResultsStep | fst tv).
Definition distinct_series (mvs : list MetricValues) : Prop :=
  NoDup (mv_LabelsHash <$> mvs) ∧ ∀ mv, mv ∈ mvs → steps_once mv.

Lemma new_points_of q nb na mvs p : p ∈ (mvs ≫= new_points q nb na) →
  ∃ mv tv, mv ∈ mvs ∧ tv ∈ points_opt (mv_Values mv) ∧ point_wanted nb na (fst tv) (snd tv) = true ∧ p = point_of q mv tv.
Proof.
  intros (mv & Hp & Hmv)%list_elem_of_bind. apply list_elem_of_fmap in Hp as (tv & -> & Htv).
  apply list_elem_of_In, filter_In in Htv as [Htv%list_elem_of_In Hw]. by exists mv, tv.
Qed.

Lemma new_points_NoDup q nb na mvs : distinct_series mvs → NoDup (point_key <$> (mvs ≫= new_points q nb na)).
Proof.
  induction mvs as [|mv mvs IH]; intros [Hh Hs]; [constructor|]. apply NoDup_cons in Hh as [Hfresh Hh].
  change ((mv :: mvs) ≫= new_points q nb na) with (new_points q nb na mv ++ (mvs ≫= new_points q nb na))%list.
  rewrite fmap_app. apply NoDup_app. split_and!.
  - destruct (Hs mv) as [Hnd _]; [left|]. unfold new_points. revert Hnd. induction (points_opt (mv_Values mv)) as [|tv l IHl]; intros Hnd; [constructor|].
    apply NoDup_cons in Hnd as [Ht Hnd]. cbn [List.filter]. destruct (point_wanted _ _ _ _); [|by apply IHl]. cbn. constructor; [|by apply IHl].
    intros (p & Hk & Hp)%list_elem_of_fmap. apply list_elem_of_fmap in Hp as (tv' & -> & Htv'%list_elem_of_In). apply filter_In in Htv' as [Htv' _].
    apply Ht, list_elem_of_fmap. exists tv'. split; [|by apply list_elem_of_In]. by injection Hk.
  - intros k (p & -> & Hp)%list_elem_of_fmap (p' & Hk & Hp')%list_elem_of_fmap. apply list_elem_of_fmap in Hp as (tv & -> & _).
    apply new_points_of in Hp' as (mv' & tv' & Hmv' & _ & _ & ->). injection Hk as Hk _. apply Hfresh, list_elem_of_fmap. by exists mv'.
  - apply IH. split; [done|]. intros; apply Hs; by right.
Qed.

Lemma points_at_nth t step data tv : tv ∈ points_at t step data → ∃ k : nat, (k < List.length data)%nat ∧ fst tv = wrap64 (t + Z.of_nat k * step).
Proof.
  intros [k Hk]%list_elem_of_lookup. exists k. pose proof (lookup_lt_Some _ _ _ Hk) as Hl. rewrite points_at_length in Hl. split; [done|].
  destruct (lookup_lt_is_Some_2 data k Hl) as [v Hv]. rewrite (points_at_lookup t step data k v Hv) in Hk. by injection Hk as <-.
Qed.

Section window.
Context `{Prometheus} (from to step : Z).
Context (Hs : 0 < step) (Hft : 0 ≤ from ≤ to) (Hfrom : (step | from)) (Hto : (step | to)) (Hr : in_i64 (to + 2 * step)).

Definition steps_between : nat := Z.to_nat ((to - from) / step + 1).

(** A series over the steps from [from] to [to]. *)
Definition spans (hash : Z) (mv : MetricValues) : Prop :=
  mv_LabelsHash mv = hash ∧ ∃ d, mv_Values mv = Some (NewWithData from step d) ∧ List.length d = steps_between.

Lemma range_div : to - from = (to - from) / step * step ∧ 0 ≤ (to - from) / step.
Proof.
  assert (Hd : (step | to - from)) by (by apply Z.divide_sub_r). destruct Hd as [a Ha]. rewrite Ha, Z.div_mul by lia. split; [done|].
  apply (Z.mul_le_mono_pos_r _ _ step); lia.
Qed.

Lemma new_spans n ts : quot64 (Time.Sub to from) step = Ret n → New from (add64 n 1) step = Ret ts →
  ts = NewWithData from step (replicate steps_between NaN).
Proof.
  destruct range_div as [Hd Hn]. unfold Time.Sub. rewrite sub64_id by i64.
  assert (Hle : (to - from) / step ≤ to - from).
  { rewrite Hd at 2. rewrite <- (Z.mul_1_r ((to - from) / step)) at 1. apply Z.mul_le_mono_nonneg_l; lia. }
  rewrite quot64_id; rewrite ?Z.quot_div_nonneg by lia; [|lia|i64]. intros [= <-]. rewrite add64_id by i64.
  unfold New. rewrite bool_decide_false by lia. by intros [= <-].
Qed.

Lemma add_sample_spans ls hash vs mv p mv' :
  (∀ m, mv = Some m → spans hash m) → add_sample ls hash from to step vs mv p = Ret mv' → ∀ m, mv' = Some m → spans hash m.
Proof.
  intros Hmv. unfold add_sample. destruct p as [i t]. destruct (nth_go vs i) as [v|]; [|done]. cbn [obind].
  destruct (IsNaN _); [intros [= <-]; exact Hmv|].
  assert (Hset : ∀ m, spans hash m → (match mv_Values m with
      | Some ts => let* ts := TimeSeries.Set_ ts t (F64.to_f32 v) in Ret (Some (mv_set_values (Some ts) m)) | None => Panic end) = Ret mv' → ∀ m', mv' = Some m' → spans hash m').
  { intros m (Hh & d & -> & Hd) Hset m' ->. destruct (TimeSeries.Set_ _ _ _) as [ts|] eqn:E; [|done]. injection Hset as <-.
    apply Set_shape in E as (Ef & Es & El). split; [done|]. exists (ts_data ts). cbn in *. rewrite El, <- Ef, <- Es. by destruct ts. }
  destruct mv as [m|]; [cbn [obind]; apply Hset; by apply Hmv|].
  destruct (quot64 _ _) as [n|] eqn:Eq; [|done]. cbn [obind]. destruct (New _ _ _) as [ts|] eqn:En; [|done]. cbn [obind]. apply Hset.
  rewrite (new_spans n ts Eq En). split; [done|]. eexists. split; [done|]. apply length_replicate.
Qed.

Lemma series_of_spans keep series res : series_of keep from to step series = Ret res → ∀ h mv, res !! h = Some mv → spans h mv.
Proof.
  apply (fold_go_inv (λ res, ∀ h mv, res !! h = Some mv → spans h mv)); [|by intros h mv ?%lookup_empty_Some].
  intros r s r' Hres. unfold add_series. destruct (fold_go _ _ _) as [mv|] eqn:E; [|done]. cbn [obind]. intros [= <-].
  assert (Hmv : ∀ m, mv = Some m → spans (LabelsToSignature (kept_labels keep (rs_tags s))) m).
  { revert E. apply (fold_go_inv (λ mv, ∀ m, mv = Some m → spans _ m)); [|apply Hres]. intros; by eapply add_sample_spans. }
  destruct mv as [m|]; [|exact Hres]. intros h mv [[<- <-]|[? ?]]%lookup_insert_Some; [by apply Hmv|by apply Hres].
Qed.

Lemma spans_points hash mv tv : spans hash mv → tv ∈ points_opt (mv_Values mv) → ∃ k, 0 ≤ k ∧ fst tv = from + k * step ∧ fst tv ≤ to.
Proof.
  intros (_ & d & -> & Hd) (k & Hk & ->)%points_at_nth. cbn [ts_data ts_from ts_step NewWithData] in *. exists (Z.of_nat k).
  destruct range_div as [Hdiv Hn]. rewrite Hd in Hk. unfold steps_between in Hk.
  assert (Z.of_nat k * step ≤ (to - from) / step * step) by (apply Z.mul_le_mono_nonneg_r; lia).
  assert (0 ≤ Z.of_nat k * step) by (apply Z.mul_nonneg_nonneg; lia). rewrite wrap64_id by i64. lia.
Qed.

Lemma spans_NoDup hash mv : spans hash mv → NoDup (fst <$> points_opt (mv_Values mv)).
Proof.
  intros (_ & d & -> & Hd). apply NoDup_alt. intros i j t Hi Hj. cbn [points_opt] in *. unfold points in *. cbn [ts_data ts_from ts_step NewWithData] in *.
  destruct range_div as [Hdiv Hn].
  assert (Hat : ∀ i, (fst <$> points_at from step d) !! i = Some t → t = from + Z.of_nat i * step).
  { intros n Hlk. rewrite list_lookup_fmap in Hlk. apply fmap_Some in Hlk as (tv & Hlk & ->). pose proof (lookup_lt_Some _ _ _ Hlk) as Hl. rewrite points_at_length in Hl.
    destruct (lookup_lt_is_Some_2 d n Hl) as [v Hv]. rewrite (points_at_lookup _ _ _ n v Hv) in Hlk. injection Hlk as <-. cbn [fst].
    rewrite Hd in Hl. unfold steps_between in Hl. assert (Z.of_nat n * step ≤ (to - from) / step * step) by (apply Z.mul_le_mono_nonneg_r; lia).
    assert (0 ≤ Z.of_nat n * step) by (apply Z.mul_nonneg_nonneg; lia). apply wrap64_id. i64. }
  apply Hat in Hi as ->. apply Hat in Hj. apply Nat2Z.inj, (Z.mul_reg_r _ _ step); lia.
Qed.

(** The series of an answer, in any order. *)
Lemma series_of_distinct keep series res mvs : (ResultsStep | step) → series_of keep from to step series = Ret res → mvs ≡ₚ snd <$> map_to_list res →
  distinct_series mvs ∧ ∀ mv tv, mv ∈ mvs → tv ∈ points_opt (mv_Values mv) → from ≤ fst tv ≤ to.
Proof.
  intros Hgrid Hres Hp. pose proof (series_of_spans keep series res Hres) as Hspans.
  assert (Hin : ∀ mv, mv ∈ mvs → ∃ h, spans h mv).
  { intros mv Hmv. rewrite Hp in Hmv. apply list_elem_of_fmap in Hmv as ([h mv'] & -> & Hmv%elem_of_map_to_list). exists h. by apply Hspans. }
  split; [split|].
  - rewrite Hp. rewrite <- list_fmap_compose.
    assert (mv_LabelsHash ∘ snd <$> map_to_list res = fst <$> map_to_list res) as ->; [|apply NoDup_fst_map_to_list].
    apply list_fmap_ext. intros i [h mv] Hi%list_elem_of_lookup_2%elem_of_map_to_list. by apply Hspans in Hi as [? _].
  - intros mv [h Hmv]%Hin. split; [by eapply spans_NoDup|]. intros tv (k & _ & -> & _)%(spans_points h mv tv Hmv).
    apply Z.divide_add_r; [by eapply Z.divide_trans|]. apply Z.divide_mul_r. done.
  - intros mv tv [h Hmv]%Hin (k & Hk & -> & Hle)%(spans_points h mv tv Hmv). assert (0 ≤ k * step) by (apply Z.mul_nonneg_nonneg; lia). lia.
Qed.
End window.
End SeriesFacts.

(** * What a run writes *)
Module WriteFacts.
Import BatchFacts ReadFacts SeriesFacts DbFacts.

(** The rows and the points a run adds to the tables of a project, and the rows
    for good labels: what follows is stated with the rows as they were given. *)
Definition appended (id : string) (rows : list seriesRow) (ps : list pointRow) (m m' : EvalMem) : Prop :=
  world_series (tables_of id m') = (world_series (tables_of id m) ++ (stored_series <$> rows))%list
  ∧ world_points (tables_of id m') = (world_points (tables_of id m) ++ (stored_point <$> ps))%list
  ∧ ∀ id', id' ≠ id → tables_of id' m' = tables_of id' m.

Lemma appended_refl id m : appended id [] [] m m.
Proof. split_and!; [by rewrite app_nil_r..|done]. Qed.
Lemma appended_same id m m' : em_ch m' = em_ch m → appended id [] [] m m'.
Proof. intros He. unfold appended, tables_of. rewrite He. split_and!; [by rewrite app_nil_r..|done]. Qed.
Lemma appended_trans id rows rows' ps ps' m m' m'' :
  appended id rows ps m m' → appended id rows' ps' m' m'' → appended id (rows ++ rows')%list (ps ++ ps')%list m m''.
Proof.
  intros (Hs & Hp & Ho) (Hs' & Hp' & Ho'). split_and!.
  - by rewrite Hs', Hs, fmap_app, app_assoc.
  - by rewrite Hp', Hp, fmap_app, app_assoc.
  - intros id' Hid. by rewrite Ho', Ho.
Qed.
Lemma appended_keeps_l id rows ps m m' m'' : em_ch m' = em_ch m → appended id rows ps m' m'' → appended id rows ps m m''.
Proof. intros He Ha. exact (appended_trans id [] rows [] ps m m' m'' (appended_same id m m' He) Ha). Qed.
Lemma appended_keeps_r id rows ps m m' m'' : appended id rows ps m m' → em_ch m'' = em_ch m' → appended id rows ps m m''.
Proof.
  intros (Hs & Hp & Ho) He. unfold appended, tables_of in *. rewrite He. by split_and!.
Qed.

Lemma tables_of_set id t m : tables_of id (set_tables id t m) = t.
Proof. unfold tables_of, set_tables. cbn. by rewrite lookup_insert_eq. Qed.
Lemma tables_of_set_ne id id' t m : id' ≠ id → tables_of id' (set_tables id t m) = tables_of id' m.
Proof. intros Hne. unfold tables_of, set_tables. cbn. by rewrite lookup_insert_ne. Qed.

Lemma stored_series_keyed rows q h : keyed (stored_series <$> rows) q h ↔ keyed rows q h.
Proof.
  split.
  - intros (s & (r & -> & Hr)%list_elem_of_fmap & <- & <-). by exists r.
  - intros (s & Hs & <- & <-). exists (stored_series s). split; [by apply list_elem_of_fmap_2|done].
Qed.

Section write.
Context `{Env} `{PartialInsert}.

(** A write adds a part of the batch; of a batch whose points got there in part,
    all the series did. *)
Lemma write_appends id b s :
  let r := write id b s in
  ∃ rows ps, appended id rows ps (sys_mem s) (sys_mem (snd r)) ∧ sublist rows (b_series b) ∧ sublist ps (b_points b)
    ∧ (ps ≠ [] → rows = b_series b)
    ∧ em_projects (sys_mem (snd r)) = em_projects (sys_mem s) ∧ sys_tables (snd r) = sys_tables s
    ∧ (fst r = inr tt → rows = b_series b ∧ ps = b_points b).
Proof.
  cbn zeta. unfold write, mbind, M_bind.
  set (w1 := if bool_decide (b_series b = []) then _ else _).
  assert (H1 : ∃ rows, appended id rows [] (sys_mem s) (sys_mem (snd (w1 s))) ∧ sublist rows (b_series b)
    ∧ em_projects (sys_mem (snd (w1 s))) = em_projects (sys_mem s) ∧ sys_tables (snd (w1 s)) = sys_tables s
    ∧ ∀ u, fst (w1 s) = inr u → rows = b_series b).
  { unfold w1. case_bool_decide as Hb; [rewrite Hb; exists []; split_and!; [apply appended_refl|done..]|].
    unfold insert. destruct (env_fault _) as [err|]; cbn [fst snd sys_mem sys_tables].
    - exists (kept (sys_ticks s) 0 (b_series b)). split_and!; [|apply kept_sublist|done..].
      split_and!; rewrite ?tables_of_set; cbn; [done|by rewrite app_nil_r|by intros; apply tables_of_set_ne].
    - exists (b_series b). split_and!; [|done..]. split_and!; rewrite ?tables_of_set; cbn; [done|by rewrite app_nil_r|by intros; apply tables_of_set_ne]. }
  destruct H1 as (rows & Ha & Hsub & Hpr & Htb & Hrows). destruct (w1 s) as [[err|[]] s1]; cbn [fst snd] in *.
  { exists rows, []. split_and!; [done|done|apply sublist_nil_l|done..]. }
  rewrite (Hrows tt eq_refl) in *. unfold insert. destruct (env_fault _) as [err|]; cbn [fst snd sys_mem sys_tables].
  - exists (b_series b), (kept (sys_ticks s1) 0 (b_points b)). split_and!; [|done|apply kept_sublist|done..].
    rewrite <- (app_nil_r (b_series b)). eapply (appended_trans id _ [] []); [exact Ha|].
    split_and!; rewrite ?tables_of_set; cbn; [by rewrite app_nil_r|done|by intros; apply tables_of_set_ne].
  - exists (b_series b), (b_points b). split_and!; [|done..].
    rewrite <- (app_nil_r (b_series b)). eapply (appended_trans id _ [] []); [exact Ha|].
    split_and!; rewrite ?tables_of_set; cbn; [by rewrite app_nil_r|done|by intros; apply tables_of_set_ne].
Qed.
End write.

(** Points of the steps from [since] to [until] that come after the last ones of their queries. *)
Record fresh (since until : Z) (last : gmap string Z) (p : pointRow) : Prop := {
  fr_since : since ≤ po_t p ≤ until;
  fr_last : ∀ l, last !! po_query p = Some l → l < po_t p;
  fr_grid : (ResultsStep | po_t p)
}.

Lemma stored_fresh since until last ps : 0 ≤ since → until < 2 ^ 32 → Forall (fresh since until last) ps → stored_point <$> ps = ps.
Proof.
  intros Hs Hu. induction 1 as [|p ps [Hr _ _] _ IH]; [done|]. cbn. rewrite IH. f_equal. unfold stored_point, date_time. destruct p as [q h t v]. cbn in *.
  by rewrite Z.mod_small by lia.
Qed.

Lemma sublist_NoDup_key {A K} (f : A → K) (l l' : list A) : sublist l l' → NoDup (f <$> l') → NoDup (f <$> l).
Proof.
  intros Hs Hnd. eapply sublist_NoDup; [exact Hnd|]. clear Hnd. induction Hs; cbn; by constructor.
Qed.

Lemma sublist_Forall_sub {A} (P : A → Prop) (l l' : list A) : sublist l l' → Forall P l' → Forall P l.
Proof. intros Hs. rewrite !Forall_forall. intros HP x Hx. apply HP. by eapply elem_of_sublist. Qed.
End WriteFacts.

(** * A cycle *)
Module CycleFacts.
Import BatchFacts ReadFacts SeriesFacts WriteFacts FrameFacts DbFacts.

Lemma then_ret {A B} (m : M EvalMem (outcome A)) (f : A → M EvalMem (outcome B)) s b :
  fst (and_then m f s) = Ret b → ∃ a, fst (m s) = Ret a ∧ fst (f a (snd (m s))) = Ret b.
Proof. unfold and_then, mbind, M_bind. destruct (m s) as [[a|] s']; [|done]. intros Hb. by exists a. Qed.

(** ** A batch in the making *)
Section collected.
Context (since until : Z) (last : gmap string Z) (P : string → Prop) (seen0 : seriesCache).

(** What a batch holds while the queries [todo] are still to come: fresh points of
    queries in [P], none twice, with their labels here or, as [seen0] tells, written before. *)
Record collected (todo : list string) (out : batch) (seen : seriesCache) : Prop := {
  co_fresh : Forall (fresh since until last) (b_points out);
  co_once : NoDup (point_key <$> b_points out);
  co_query : ∀ p, p ∈ b_points out → (po_query p ∉ todo) ∧ (P (po_query p));
  co_rows : ∀ r, r ∈ b_series out → P (se_query r);
  co_labels : ∀ p, p ∈ b_points out → keyed (b_series out) (po_query p) (po_hash p) ∨ is_Some (seen0 !! (po_query p, po_hash p));
  co_seen : ∀ k, is_Some (seen !! k) → is_Some (seen0 !! k) ∨ keyed (b_series out) (fst k) (snd k);
  co_none : b_points out = [] → b_series out = []
}.

Lemma collected_nothing todo : collected todo no_batch seen0.
Proof. split; [constructor|constructor|by intros ? ?%not_elem_of_nil..|auto|done]. Qed.

Lemma collected_skip q todo out seen : collected (q :: todo) out seen → collected todo out seen.
Proof.
  intros []. split; [done..| |done|done|done|done]. intros p Hp. destruct (co_query0 p Hp) as [Hq ?]. split; [|done].
  intros Hin. apply Hq. by right.
Qed.

Lemma collected_append q todo out seen now nb na mvs :
  collected (q :: todo) out seen → q ∉ todo → P q → distinct_series mvs →
  (∀ mv tv, mv ∈ mvs → tv ∈ points_opt (mv_Values mv) → point_wanted nb na (fst tv) (snd tv) = true → fresh since until last (point_of q mv tv)) →
  ∃ out' seen', append_all q now nb na (out, seen) mvs = Ret (out', seen') ∧ collected todo out' seen'.
Proof.
  intros Hc Hq HP Hd Hfresh. pose proof (collected_skip _ _ _ _ Hc) as Hc'. destruct Hc as [_ _ Hold _ _ _ _]. destruct Hc' as [Hf Ho Hqs Hr Hl Hs Hno].
  destruct (append_all_spec q now nb na mvs out seen) as (rows & seen' & Hrun & Hpts & Hseen & Hrows).
  eexists _, seen'. split; [exact Hrun|].
  assert (Hnew : ∀ p, p ∈ (mvs ≫= new_points q nb na) → po_query p = q) by (intros p Hp; by apply Hpts).
  split; cbn [b_points b_series].
  - apply Forall_app. split; [done|]. apply Forall_forall. intros p (mv & tv & Hmv & Htv & Hw & ->)%new_points_of. by apply Hfresh.
  - rewrite fmap_app. apply NoDup_app. split_and!; [done| |by apply new_points_NoDup].
    intros k (p & -> & Hp)%list_elem_of_fmap (p' & Hk & Hp')%list_elem_of_fmap. destruct (Hold p Hp) as [Hn _].
    apply Hn. injection Hk as Hk _. rewrite Hk, (Hnew p' Hp'). left.
  - intros p [Hp|Hp]%elem_of_app; [by apply Hqs|]. by rewrite (Hnew p Hp).
  - intros r [Hin|(mv & _ & _ & ->)%Hrows]%elem_of_app; [by apply Hr|done].
  - intros p [Hp|Hp]%elem_of_app.
    + destruct (Hl p Hp); [left; apply keyed_app; auto|by right].
    + destruct (Hpts p Hp) as [Hpq [Hk|Hk]]; [left; apply keyed_app; rewrite Hpq; auto|].
      rewrite Hpq. destruct (Hs _ Hk) as [?|?]; [by right|left; apply keyed_app; auto].
  - intros k [Hk|Hk]%Hseen; [|right; apply keyed_app; auto]. destruct (Hs k Hk) as [?|?]; [by left|right; apply keyed_app; auto].
  - intros [Hp0 Hnone]%app_eq_nil. rewrite (Hno Hp0). destruct rows as [|r rows]; [done|]. exfalso.
    destruct (Hrows r) as (mv & Hmv & Hne & _); [left|]. destruct (new_points q nb na mv) as [|p l] eqn:E; [done|].
    assert (Hin : p ∈ (mvs ≫= new_points q nb na)) by (apply list_elem_of_bind; exists mv; rewrite E; split; [left|done]).
    rewrite Hnone in Hin. by apply not_elem_of_nil in Hin.
Qed.
End collected.

(** ** What a part of an evaluation did to the tables of a project *)
Section wrote.
Context (since until : Z) (last : gmap string Z) (P : string → Prop).

(** A batch of fresh points of queries in [P], none twice. *)
Record good_batch (b : batch) : Prop := {
  gb_fresh : Forall (fresh since until last) (b_points b);
  gb_once : NoDup (point_key <$> b_points b);
  gb_points : ∀ p, p ∈ b_points b → P (po_query p);
  gb_rows : ∀ r, r ∈ b_series b → P (se_query r)
}.

(** It added such points and rows. *)
Record wrote (id : string) (m m' : EvalMem) (b : batch) : Prop := {
  wr_appended : appended id (b_series b) (b_points b) m m';
  wr_good : good_batch b
}.

Lemma no_batch_good : good_batch no_batch.
Proof. split; [constructor|constructor|by intros ? ?%not_elem_of_nil..]. Qed.
Lemma wrote_nothing id m m' : em_ch m' = em_ch m → wrote id m m' no_batch.
Proof. intros He. split; [by apply appended_same|apply no_batch_good]. Qed.
Lemma collected_good seen0 todo out seen : collected since until last P seen0 todo out seen → good_batch out.
Proof. intros [Hf Ho Hq Hr _ _ _]. split; [done|done| |done]. intros p Hp. by apply Hq. Qed.

(** Writing a good batch; of a batch whose points got there in part, all the rows did. *)
Lemma write_wrote `{Env} `{PartialInsert} id out s :
  good_batch out →
  let r := write id out s in
  ∃ b, wrote id (sys_mem s) (sys_mem (snd r)) b ∧ sublist (b_points b) (b_points out) ∧ (b_points b ≠ [] → b_series b = b_series out)
    ∧ em_projects (sys_mem (snd r)) = em_projects (sys_mem s) ∧ (fst r = inr tt → b = out).
Proof.
  intros [Hf Ho Hq Hr]. destruct (write_appends id out s) as (rows & ps & Ha & Hsr & Hsp & Hall & Hp & Ht & Hok). exists {| b_series := rows; b_points := ps |}.
  split_and!; [|done|done|done|intros Hw; destruct (Hok Hw) as [-> ->]; by destruct out]. split; [exact Ha|]. split; cbn.
  - by eapply sublist_Forall_sub.
  - by eapply sublist_NoDup_key.
  - intros p Hin. apply Hq. by eapply elem_of_sublist.
  - intros r Hin. apply Hr. by eapply elem_of_sublist.
Qed.
End wrote.

(** Wider bounds. *)
Lemma wrote_weaken since until last (P Q : string → Prop) a b id m m' x :
  wrote a b last P id m m' x → since ≤ a → b ≤ until → (∀ q, P q → Q q) → wrote since until last Q id m m' x.
Proof.
  intros [Ha [Hf Ho Hp Hr]] H1 H2 HPQ. split; [done|]. split; [|done|by intros p ?%Hp%HPQ|by intros r ?%Hr%HPQ].
  eapply Forall_impl; [exact Hf|]. intros p [Ht Hl Hg]. split; [lia|done|done].
Qed.

Definition join (a b : batch) : batch := {| b_series := (b_series a ++ b_series b)%list; b_points := (b_points a ++ b_points b)%list |}.

(** Two parts, one after the other: points of the same query are of other steps. *)
Lemma wrote_join since until last P Q a b c d id m m' m'' x y :
  wrote a b last P id m m' x → wrote c d last Q id m' m'' y → since ≤ a → since ≤ c → b ≤ until → d ≤ until →
  (b < c ∨ ∀ q, P q → ¬ Q q) → wrote since until last (λ q, P q ∨ Q q) id m m'' (join x y).
Proof.
  intros [Ha [Hfa Hoa Hpa Hra]] [Hb [Hfb Hob Hpb Hrb]] H1 H2 H3 H4 Hdis. split; [by eapply appended_trans|]. split; cbn.
  - apply Forall_app. split; (eapply Forall_impl; [eassumption|]); intros p [Hr Hl Hg]; (split; [lia|done|done]).
  - rewrite fmap_app. apply NoDup_app. split_and!; [done| |done].
    intros k (p & -> & Hp)%list_elem_of_fmap (p' & Hk & Hp')%list_elem_of_fmap. injection Hk as Hq _ Ht.
    destruct Hdis as [Hlt|Hne].
    + rewrite Forall_forall in Hfa, Hfb. destruct (Hfa p Hp) as [? _ _], (Hfb p' Hp') as [? _ _]. lia.
    + apply (Hne (po_query p)); [by apply Hpa|]. rewrite Hq. by apply Hpb.
  - intros p [?|?]%elem_of_app; [left; by apply Hpa|right; by apply Hpb].
  - intros r [?|?]%elem_of_app; [left; by apply Hra|right; by apply Hrb].
Qed.

(** ** The steps of a cycle *)

(** Times that a clock shows. *)
Definition sane (now backfill : Z) : Prop := 0 ≤ backfill ∧ backfill + 2 * Time.Hour ≤ now < 2 ^ 32.
Definition since_of (now backfill : Z) : Z := now - backfill - Time.Hour.
Definition last_ok (last : gmap string Z) : Prop := ∀ q l, last !! q = Some l → 0 ≤ l < 2 ^ 32.

Lemma truncated t : 0 ≤ t < 2 ^ 40 → ∃ t', Time.Truncate t ResultsStep = Ret t' ∧ t - ResultsStep < t' ≤ t ∧ 0 ≤ t' ∧ (ResultsStep | t').
Proof.
  intros Ht. unfold ResultsStep, Time.Second in *. exists (15 * (t / 15)). pose proof (Z.mod_pos_bound t 15 ltac:(lia)). pose proof (Z.div_mod t 15 ltac:(lia)).
  split; [apply Truncate_floor; first [lia|i64]|]. split; [lia|]. split; [|by exists (t / 15); lia]. assert (0 ≤ t / 15) by (apply Z.div_pos; lia). lia.
Qed.

Lemma truncated_grid t : 0 ≤ t < 2 ^ 40 → (ResultsStep | t) → Time.Truncate t ResultsStep = Ret t.
Proof.
  intros Ht [k Hk]. destruct (truncated t Ht) as (t' & -> & Hb & _ & [k' Hk']). f_equal. unfold ResultsStep, Time.Second in *. lia.
Qed.

Lemma cycle_end now backfill : sane now backfill →
  ∃ to, Time.Truncate (Time.Add now (wrap64 (- lag * ResultsStep))) ResultsStep = Ret to ∧ now - 45 < to ≤ now - 30 ∧ (ResultsStep | to).
Proof.
  unfold sane, Time.Hour, Time.Minute, Time.Second. intros (Hb & Hn). rewrite wrap64_id by (unfold lag, ResultsStep, Time.Second; i64). unfold Time.Add.
  rewrite add64_id by (unfold lag, ResultsStep, Time.Second; i64). destruct (truncated (now + - lag * ResultsStep)) as (to & -> & Hto & _ & Hg);
    [unfold lag, ResultsStep, Time.Second; lia|]. exists to. split; [done|]. split; [unfold lag, ResultsStep, Time.Second in Hto; lia|done].
Qed.

Section cycle.
Context `{LP : LogParser} `{Env} `{MapOrder} `{Prometheus} `{ErrorTexts} `{PartialInsert}.
Context (now backfill to : Z) (last : gmap string Z).
Context (Hsane : sane now backfill) (Hto : now - 45 < to ≤ now - 30) (Hgrid : (ResultsStep | to)) (Hlast : last_ok last).
#[local] Abbreviation since := (since_of now backfill).

(** A task: its query has no stored point from its start on. *)
Record task_ok (t : Query * Z) : Prop := {
  tk_from : to - backfill ≤ snd t ≤ to;
  tk_last : ∀ l, last !! q_Query (fst t) = Some l → l + ResultsStep ≤ snd t
}.

Lemma first_missing_spec q :
  let from := first_missing to backfill last q in
  to - backfill ≤ from ∧ ∀ l, last !! q = Some l → l + ResultsStep ≤ from.
Proof.
  cbn zeta. unfold first_missing, sane, ResultsStep, Time.Hour, Time.Minute, Time.Second, Time.Add in *. rewrite wrap64_id by i64. rewrite add64_id by i64.
  destruct (last !! q) as [l|] eqn:E; [|split; [lia|done]]. pose proof (Hlast q l E). rewrite add64_id by i64.
  destruct (Z.ltb_spec (to + - backfill) (l + 15 * 1)); (split; [lia|intros ? [= <-]; lia]).
Qed.

Section plan.
Context (names : gset string) (P : string → Prop).
Context (HP : ∀ q, ¬ P q → Selectors q = inr (Some [q]) ∧ q ∉ names).
Context (Pdec : ∀ q, Decision (P q)).

Record plan_ok (pl : plan) : Prop := {
  pk_once : NoDup (q_Query ∘ fst <$> pl_tasks pl);
  pk_done : ∀ t, t ∈ pl_tasks pl → pl_done pl !! q_Query (fst t) = Some true;
  pk_tasks : ∀ t, t ∈ pl_tasks pl → task_ok t ∧ P (q_Query (fst t))
}.

Lemma plan_query_ok pl q : plan_ok pl → plan_ok (plan_query names to backfill last pl q).
Proof.
  intros Hpl. unfold plan_query. destruct (_ || _) eqn:Eo; [done|]. apply orb_false_iff in Eo as [_ Hnew]. destruct Hpl as [Ho Hd Ht].
  assert (Hold : ∀ t, t ∈ pl_tasks pl → q_Query (fst t) ≠ q_Query q) by (intros t Hin He; by rewrite <- He, (Hd t Hin) in Hnew).
  assert (Hskip : ∀ n, plan_ok {| pl_tasks := pl_tasks pl; pl_done := <[q_Query q := true]> (pl_done pl); pl_skipped := n |}).
  { split; cbn; [done| |done]. intros t Hin. rewrite lookup_insert_ne by (symmetry; by apply Hold). by apply Hd. }
  destruct (Selectors (q_Query q)) as [err|sel] eqn:Es; [apply Hskip|]. destruct (match sel with Some ss => _ | None => _ end) eqn:Ek; [apply Hskip|].
  destruct (Z.ltb_spec to (first_missing to backfill last (q_Query q))) as [|Hle]; [apply Hskip|].
  assert (HPq : P (q_Query q)).
  { destruct (Pdec (q_Query q)) as [|Hn]; [done|]. destruct (HP _ Hn) as [Hsel Hnames]. rewrite Hsel in Es. injection Es as <-.
    unfold anyKnown in Ek. cbn in Ek. by rewrite bool_decide_false in Ek by done. }
  destruct (first_missing_spec (q_Query q)) as [Hf Hl]. split; cbn [pl_tasks pl_done].
  - rewrite fmap_app. apply NoDup_app. split_and!; [done| |apply NoDup_singleton].
    intros x (t & -> & Hin)%list_elem_of_fmap Hx%list_elem_of_singleton. cbn in Hx. by apply (Hold t Hin).
  - intros t [Hin| ->%list_elem_of_singleton]%elem_of_app; [|apply lookup_insert_eq].
    rewrite lookup_insert_ne by (symmetry; by apply Hold). by apply Hd.
  - intros t [Hin| ->%list_elem_of_singleton]%elem_of_app; [by apply Ht|]. split; [|done]. by split.
Qed.

Lemma plan_queries_ok queries : plan_ok (plan_queries names to backfill last queries).
Proof.
  unfold plan_queries. assert (Hpl : plan_ok no_plan) by (split; [constructor|by intros ? ?%not_elem_of_nil..]).
  revert Hpl. generalize no_plan. induction queries as [|q qs IH]; intros pl Hpl; [done|]. cbn. by apply IH, plan_query_ok.
Qed.
End plan.

(** What the database answers a task. *)
Lemma QueryRange_series q keep from s mvs :
  to - backfill ≤ from ≤ to → fst (PromQL_QueryRange (Mem := EvalMem) q keep from to ResultsStep s) = Ret (inr mvs) →
  distinct_series mvs ∧ ∀ mv tv, mv ∈ mvs → tv ∈ points_opt (mv_Values mv) → from - ResultsStep < fst tv ≤ to.
Proof.
  intros Hf. unfold sane, Time.Hour, Time.Minute, Time.Second in *. unfold PromQL_QueryRange.
  destruct (truncated from) as (from' & -> & Hb & Hp & Hd); [lia|]. rewrite truncated_grid by (first [done|lia]).
  unfold call, ask, range, mbind, M_bind. destruct (env_fault _); [done|]. cbn [fst snd]. destruct (series_of _ _ _ _ _) as [res|] eqn:E; [|done]. cbn [fst]. intros [= <-].
  assert (0 < ResultsStep ∧ ResultsStep = 15) as [Hpos H15] by done.
  destruct (series_of_distinct from' to ResultsStep Hpos ltac:(lia) Hd Hgrid ltac:(rewrite H15 in *; i64) keep _ res _ (Z.divide_refl _) E (map_order_perm _ (sys_ticks (tick s)) _)) as [Hds Hbs].
  split; [exact Hds|]. intros mv tv Hmv Htv. specialize (Hbs mv tv Hmv Htv). lia.
Qed.

Context (P : string → Prop) (seen0 : seriesCache).
#[local] Abbreviation collected := (collected since to last P seen0).

Lemma run_task_collects st t todo s st' :
  task_ok t → P (q_Query (fst t)) → q_Query (fst t) ∉ todo → collected (q_Query (fst t) :: todo) (cy_out st) (cy_seen st) →
  fst (run_task to st t s) = Ret st' → collected todo (cy_out st') (cy_seen st').
Proof.
  destruct t as [q from]. intros Ht HPq Hq Hc (r & Hr & Hst)%then_ret. destruct Ht as [Hf Hl]. cbn [fst snd] in *. unfold mret, M_ret in Hst. cbn [fst] in Hst.
  destruct r as [err|mvs]; [injection Hst as <-; by eapply collected_skip|].
  destruct (QueryRange_series _ _ _ _ _ Hf Hr) as [Hd Ht].
  edestruct (collected_append since to last P seen0 (q_Query q) todo (cy_out st) (cy_seen st) to 0 0 mvs Hc Hq HPq Hd) as (out' & seen' & Happ & Hc'); [|rewrite Happ in Hst; by injection Hst as <-].
  intros mv tv Hmv Htv _. specialize (Ht mv tv Hmv Htv). unfold since_of, sane, Time.Hour, Time.Minute, Time.Second, ResultsStep, Time.Second in *. split; cbn [point_of po_query po_t].
  - lia.
  - intros l Hll. specialize (Hl l Hll). lia.
  - destruct Hd as [_ Hd]. by apply (Hd mv Hmv).
Qed.

Lemma run_tasks_collects ts st s st' :
  NoDup (q_Query ∘ fst <$> ts) → (∀ t, t ∈ ts → task_ok t ∧ P (q_Query (fst t))) → collected (q_Query ∘ fst <$> ts) (cy_out st) (cy_seen st) →
  fst (run_tasks to st ts s) = Ret st' → collected [] (cy_out st') (cy_seen st').
Proof.
  revert st s. induction ts as [|t ts IH]; intros st s Hnd Ht Hc; [by intros [= <-]|]. cbn [run_tasks]. intros (st1 & Hst & Hrest)%then_ret.
  apply NoDup_cons in Hnd as [Hnew Hnd]. eapply IH; [exact Hnd|intros; apply Ht; by right| |exact Hrest].
  destruct (Ht t) as [Hok HPt]; [left|]. eapply run_task_collects; [exact Hok|exact HPt|exact Hnew|exact Hc|exact Hst].
Qed.

Lemma unmoved_run_tasks ts st : unmoved (run_tasks to st ts).
Proof.
  revert st. induction ts as [|t ts IH]; intros st; [done|]. cbn [run_tasks]. apply unmoved_then; [|done]. unfold run_task. destruct t as [q from].
  apply unmoved_then; [|intros; apply unmoved_ret]. unfold PromQL_QueryRange. pose proof (unmoved_call (A := list rawSeries)). unmoved.
Qed.

(** Points whose labels are here, or were written before. *)
Definition labelled (b : batch) : Prop :=
  ∀ p, p ∈ b_points b → keyed (b_series b) (po_query p) (po_hash p) ∨ is_Some (seen0 !! (po_query p, po_hash p)).
(** A cache that counts no more labels as written than are here, or were written before. *)
Definition remembers (b : batch) (seen : seriesCache) : Prop :=
  ∀ k, is_Some (seen !! k) → is_Some (seen0 !! k) ∨ keyed (b_series b) (fst k) (snd k).
#[local] Abbreviation wrote := (wrote since to last P).

(** The end of a cycle. *)
Lemma finish_cycle_wrote id pl st s :
  collected [] (cy_out st) (cy_seen st) →
  let r := finish_cycle id to pl st s in
  ∃ b, wrote id (sys_mem s) (sys_mem (snd r)) b ∧ labelled b ∧ em_projects (sys_mem (snd r)) = em_projects (sys_mem s)
    ∧ res_To (fst (fst (fst r))) = to ∧ (snd (fst (fst r)) = None → b = cy_out st ∧ remembers b (snd (fst r))).
Proof.
  intros Hc. pose proof Hc as [_ _ _ _ Hl Hs Hn]. unfold finish_cycle. case_bool_decide as Hb; cbn [fst snd mret M_ret].
  - exists no_batch. split_and!; [by apply wrote_nothing|by intros ? ?%not_elem_of_nil|done|done|]. intros _.
    assert (cy_out st = no_batch) as He by (destruct (cy_out st) as [rows ps]; cbn in *; by rewrite (Hn Hb), Hb). rewrite He in Hs. done.
  - destruct (write_wrote since to last P id (cy_out st) s) as (b & Hw & Hsub & Hall & Hp & Hok); [by eapply collected_good|]. unfold mbind, M_bind.
    destruct (write id (cy_out st) s) as [r s'] eqn:E. cbn [fst snd mret M_ret] in *. exists b. split_and!; [done| |done|done|].
    + intros p Hin. rewrite Hall by (intros He; rewrite He in Hin; by apply not_elem_of_nil in Hin). apply Hl. by eapply elem_of_sublist.
    + destruct r as [err|[]]; [done|]. intros _. by rewrite (Hok eq_refl).
Qed.

Context (HP : ∀ q, ¬ P q → Selectors q = inr (Some [q]) ∧ ∀ n, q ∉ metricNames n).
Context (Pdec : ∀ q, Decision (P q)).
Context (Hend : Time.Truncate (Time.Add now (wrap64 (- lag * ResultsStep))) ResultsStep = Ret to).

Lemma cycle_wrote id queries s :
  let r := cycle id queries now backfill seen0 last s in
  ∃ b, wrote id (sys_mem s) (sys_mem (snd r)) b ∧ labelled b ∧ em_projects (sys_mem (snd r)) = em_projects (sys_mem s)
    ∧ ∀ res err seen, fst r = Ret (res, err, seen) → res_To res = to ∧ (err = None → remembers b seen).
Proof.
  cbn zeta. destruct (cycle id queries now backfill seen0 last s) as [o s'] eqn:Hrun. cbn [fst snd].
  unfold cycle in Hrun. rewrite Hend in Hrun. unfold MetricNames, call, ask, mbind at 1, M_bind at 1 in Hrun.
  assert (Hnone : sys_mem s' = sys_mem s → wrote id (sys_mem s) (sys_mem s') no_batch ∧ labelled no_batch ∧ em_projects (sys_mem s') = em_projects (sys_mem s)).
  { intros ->. split_and!; [by apply wrote_nothing|by intros ? ?%not_elem_of_nil|done]. }
  destruct (env_fault _) as [err|].
  { injection Hrun as <- <-. exists no_batch. destruct (Hnone eq_refl) as (? & ? & ?). split_and!; [done..|]. by intros res e seen [= <- <- <-]. }
  set (names := metricNames (sys_ticks s)) in *.
  pose proof (plan_queries_ok names P (λ q Hq, conj (proj1 (HP q Hq)) (proj2 (HP q Hq) (sys_ticks s))) Pdec queries) as [Hpo _ Hpt].
  set (pl := plan_queries names to backfill last queries) in *. unfold mbind at 1, M_bind at 1, range in Hrun. cbn [fst snd] in Hrun.
  set (tasks := map_order _ (pl_tasks pl)) in *. assert (Hperm : tasks ≡ₚ pl_tasks pl) by apply map_order_perm.
  set (s1 := tick (tick s)) in *. set (st0 := {| cy_out := no_batch; cy_seen := seen0; cy_error := None |}) in *.
  unfold and_then, mbind at 1, M_bind at 1 in Hrun. pose proof (unmoved_run_tasks tasks st0 s1) as Hk.
  assert (Hc : ∀ st, fst (run_tasks to st0 tasks s1) = Ret st → collected [] (cy_out st) (cy_seen st)).
  { intros st. apply run_tasks_collects; [by rewrite Hperm|intros t Hin; apply Hpt; by rewrite <- Hperm|apply collected_nothing]. }
  destruct (run_tasks to st0 tasks s1) as [[st|] s2]; cbn [fst snd] in *.
  2:{ injection Hrun as <- <-. exists no_batch. destruct (Hnone Hk) as (? & ? & ?). by split_and!. }
  destruct (finish_cycle_wrote id pl st s2 (Hc st eq_refl)) as (b & Hw & Hl & Hp & Hres & Hseen). rewrite Hk in Hw, Hp.
  unfold mbind, M_bind in Hrun. destruct (finish_cycle id to pl st s2) as [[[res err] seen] s3]. cbn [fst snd] in *.
  injection Hrun as <- <-. exists b. split_and!; [done..|]. intros res' err' seen' [= <- <- <-]. split; [done|]. intros He. by apply Hseen.
Qed.
End cycle.
End CycleFacts.

(** * The recording rules of an evaluation *)
Module ChunkFacts.
Import BatchFacts ReadFacts SeriesFacts WriteFacts FrameFacts DbFacts RuleFacts CycleFacts.

Section load.
Context `{Env} `{MapOrder}.
Lemma unmoved_query_rows {A} id (f : WorldTables → list A) : unmoved (query_rows id f).
Proof. intros s. unfold query_rows. by destruct (env_fault _). Qed.
Lemma unmoved_read id w queries : unmoved (read id w queries).
Proof. unfold read. pose proof (@unmoved_query_rows seriesRow). pose proof (@unmoved_query_rows pointAnswer). unmoved. Qed.
Lemma unmoved_read_windows id requests ws acc : unmoved (read_windows id requests ws acc).
Proof. revert acc. induction ws as [|w ws IH]; intros acc; [done|]. cbn [read_windows]. apply unmoved_then; [apply unmoved_read|]. intros; apply IH. Qed.
Lemma unmoved_metricValues l w f : unmoved (metricValues l w f).
Proof. unfold metricValues. unmoved. Qed.
Lemma unmoved_QueryRanges id requests : unmoved (QueryRanges id requests).
Proof.
  unfold QueryRanges. pose proof unmoved_read_windows. pose proof unmoved_metricValues. unmoved. unfold answer_request. unmoved.
Qed.
End load.

Section rules.
Context `{LP : LogParser} `{Env} `{MapOrder} `{Prometheus} `{ErrorTexts} `{PartialInsert}.
Context (load_parts : Project → Context → CheckConfigs → gmap string (list MetricValues) → M EvalMem (outcome World)).
Context (SaveProjectSettings : Project → M EvalMem (string + unit)).

(** What the rules rely on: nothing that is called here touches the memory of the
    evaluator, and on a world that was loaded each rule gives series that can be
    told apart, with at most one point a step. *)
Record rules_sound : Prop := {
  rs_load : ∀ p ctx cc metrics, unmoved (load_parts p ctx cc metrics);
  rs_save : ∀ p, unmoved (SaveProjectSettings p);
  rs_series : ∀ p ctx cc metrics s w, fst (load_parts p ctx cc metrics s) = Ret w →
    ∀ name f p s p' mvs, rule_named SaveProjectSettings name = Some f → fst (f p w s) = Ret (p', mvs) → distinct_series mvs
}.
Context (Hsound : rules_sound).

Lemma unmoved_LoadWorld o p from to step : unmoved (LoadWorld load_parts o p from to step).
Proof.
  unfold LoadWorld. pose proof (rs_load Hsound). destruct (Time.Ceil from step); [|unmoved]. destruct (Time.Ceil to step); [|unmoved].
  apply unmoved_bind; [unfold GetCheckConfigs; unmoved|]. intros [err|cc]; [unmoved|]. apply unmoved_bind; [apply unmoved_range|]. intros cc'.
  destruct (queryRequests _ _ _ _ _ _); [|unmoved]. apply unmoved_then; [apply unmoved_QueryRanges|]. intros [metrics [err|]]; unmoved.
Qed.

Lemma LoadWorld_world o p from to step s w : fst (LoadWorld load_parts o p from to step s) = Ret (inr w) →
  ∃ p ctx cc metrics s, fst (load_parts p ctx cc metrics s) = Ret w.
Proof.
  unfold LoadWorld. destruct (Time.Ceil from step); [|done]. destruct (Time.Ceil to step); [|done]. unfold mbind, M_bind.
  destruct (GetCheckConfigs _ s) as [[err|cc] s1]; [done|]. unfold range. destruct (queryRequests _ _ _ _ _ _) as [rq|]; [|done].
  intros ([metrics err] & _ & Hw)%then_ret. destruct err; [done|]. apply then_ret in Hw as (w' & Hw & Hr). injection Hr as ->. by eexists _, _, _, _, _.
Qed.

Abbreviation rule_list := (rule_list SaveProjectSettings).
Abbreviation marker := (rulesMarker rule_list).

(** The queries that are names of rules, or their marker. *)
Definition reserved (q : string) : Prop := q = marker ∨ q ∈ rule_list.
#[local] Instance reserved_dec q : Decision (reserved q).
Proof. unfold reserved. apply _. Defined.

Lemma rule_list_NoDup : NoDup rule_list.
Proof.
  unfold Evaluator.rule_list, StringSet.sort_strings. rewrite merge_sort_Permutation. apply (bool_decide_eq_true_1 _). vm_compute. reflexivity.
Qed.
Lemma marker_no_rule : marker ∉ rule_list.
Proof.
  assert (Hl : rule_list = Evaluator.rule_list (λ _, mret (inl ""))) by reflexivity. rewrite Hl. apply (bool_decide_eq_true_1 _). vm_compute. reflexivity.
Qed.
Context (last : gmap string Z) (Hlast : last_ok last).

Lemma not_before_spec chunkFrom name : 0 ≤ chunkFrom < 2 ^ 40 →
  chunkFrom ≤ not_before last chunkFrom name ∧ ∀ l, last !! name = Some l → l < not_before last chunkFrom name.
Proof.
  intros Hc. unfold not_before, ResultsStep, Time.Second, Time.Add. destruct (last !! name) as [l|] eqn:E; [|split; [lia|done]].
  pose proof (Hlast name l E). rewrite add64_id by i64. destruct (Z.ltb_spec chunkFrom (l + 15 * 1)); (split; [lia|intros ? [= <-]; lia]).
Qed.

(** What the rules of a chunk collect from its world. *)
Section run.
Context (chunkFrom chunkTo : Z) (Hchunk : 0 ≤ chunkFrom ≤ chunkTo) (Hmax : 0 < chunkTo < 2 ^ 32).
Context (w : World) (Hw : ∃ p ctx cc metrics s, fst (load_parts p ctx cc metrics s) = Ret w).
Context (seen0 : seriesCache).
#[local] Abbreviation collected := (collected chunkFrom chunkTo last (λ q, q ∈ rule_list) seen0).

Lemma run_rule_collects name todo project out seen s project' out' seen' :
  name ∈ rule_list → name ∉ todo → collected (name :: todo) out seen →
  fst (run_rule SaveProjectSettings last chunkFrom chunkTo w (project, (out, seen)) name s) = Ret (project', (out', seen')) →
  collected todo out' seen' ∧ p_Id project' = p_Id project.
Proof.
  intros Hin Hnew Hc. unfold run_rule. destruct (rule_named _ name) as [f|] eqn:Ef; [|done]. intros ([p1 mvs] & Hf & Hr)%then_ret.
  destruct (rules_tame SaveProjectSettings name f (rs_save Hsound) Ef project w) as [_ Hid]. specialize (Hid s p1 mvs Hf).
  destruct Hw as (p0 & ctx & cc & metrics & s0 & Hload). pose proof (rs_series Hsound _ _ _ _ _ _ Hload _ _ _ _ _ _ Ef Hf) as Hd.
  destruct (not_before_spec chunkFrom name ltac:(lia)) as [Hnb Hnl].
  edestruct (collected_append chunkFrom chunkTo last (λ q, q ∈ rule_list) seen0 name todo out seen chunkTo (not_before last chunkFrom name) chunkTo mvs Hc Hnew Hin Hd)
    as (out1 & seen1 & Happ & Hc1).
  - intros mv tv Hmv Htv Hwd. unfold point_wanted in Hwd. rewrite (proj2 (Z.eqb_neq chunkTo 0)) in Hwd by lia. cbn [negb andb] in Hwd.
    apply negb_true_iff, orb_false_iff in Hwd as [[_ Hlo%Z.ltb_ge]%orb_false_iff Hhi%Z.ltb_ge]. split; cbn [point_of po_t po_query].
    + lia.
    + intros l Hl. specialize (Hnl l Hl). lia.
    + destruct Hd as [_ Hd]. by apply (Hd mv Hmv).
  - cbn [mret M_ret fst] in Hr. rewrite Happ in Hr. cbn [obind] in Hr. injection Hr as <- <- <-. done.
Qed.

Lemma run_rules_collects names project out seen s project' out' seen' :
  NoDup names → (∀ n, n ∈ names → n ∈ rule_list) → collected names out seen →
  fst (run_rules SaveProjectSettings last chunkFrom chunkTo w (project, (out, seen)) names s) = Ret (project', (out', seen')) →
  collected [] out' seen' ∧ p_Id project' = p_Id project.
Proof.
  revert project out seen s. induction names as [|name names IH]; intros project out seen s Hnd Hin Hc; [by intros [= <- <- <-]|].
  cbn [run_rules]. apply NoDup_cons in Hnd as [Hnew Hnd]. intros ([p1 [out1 seen1]] & Hrule & Hrest)%then_ret.
  edestruct (run_rule_collects name names) as [Hc1 Hid]; [apply Hin; left|exact Hnew|exact Hc|exact Hrule|].
  rewrite <- Hid. eapply IH; [exact Hnd|intros; apply Hin; by right|exact Hc1|exact Hrest].
Qed.

Lemma unmoved_run_rules names st : unmoved (run_rules SaveProjectSettings last chunkFrom chunkTo w st names).
Proof.
  revert st. induction names as [|name names IH]; intros st; [done|]. cbn [run_rules]. apply unmoved_then; [|done]. unfold run_rule. destruct st as [p st].
  destruct (rule_named _ name) as [f|] eqn:Ef; [|apply unmoved_ret]. destruct (rules_tame SaveProjectSettings name f (rs_save Hsound) Ef p w) as [Hk _].
  apply unmoved_then; [exact Hk|]. intros [p' mvs]. apply unmoved_ret.
Qed.

(** The marker of the chunk goes to the end of its batch. *)
Lemma add_marker_good out seen : (ResultsStep | chunkTo) → (∀ l, last !! marker = Some l → l < chunkFrom) →
  collected [] out seen → good_batch chunkFrom chunkTo last reserved (add_point (marker_point marker chunkTo) out).
Proof.
  intros Hg Hml [Hf Ho Hq Hr _ _ _]. split; cbn [add_point b_points b_series].
  - apply Forall_app. split; [done|]. apply Forall_singleton. split; cbn; [lia| |done]. intros l Hl. specialize (Hml l Hl). lia.
  - rewrite fmap_app. apply NoDup_app. split_and!; [done| |apply NoDup_singleton].
    intros k (p & -> & Hp)%list_elem_of_fmap Hk%list_elem_of_singleton. assert (Hm : po_query p = marker) by exact (f_equal (λ k, fst (fst k)) Hk).
    apply marker_no_rule. rewrite <- Hm. by apply Hq.
  - intros p [Hp| ->%list_elem_of_singleton]%elem_of_app; [right; by apply Hq|]. by left.
  - intros r Hin. right. by apply Hr.
Qed.
End run.
(** ** The chunks *)
Section chunks.
Context (id : string) (Q : string * Z → Prop) (evaluatedTo to : Z).
Context (Hto : to < 2 ^ 32) (Hgrid : (ResultsStep | to)).

(** The cache of the project counts, for queries that are no rules, only labels in [Q] as written. *)
Definition seen_only (seen : seriesCache) : Prop := ∀ k, is_Some (seen !! k) → Q k ∨ reserved (fst k).
Definition project_seen (m : EvalMem) : Prop := ∀ ps, em_projects m !! id = Some ps → seen_only (ps_seen ps).

Lemma project_seen_same m m' : em_projects m' = em_projects m → project_seen m → project_seen m'.
Proof. unfold project_seen. by intros ->. Qed.
Lemma project_seen_set seen m : seen_only seen → project_seen m → project_seen (set_seen id seen m).
Proof.
  intros Hs Hm. unfold set_seen. destruct (em_projects m !! id) as [ps|] eqn:E; [|done]. intros ps' Hps. cbn in Hps.
  rewrite lookup_insert_eq in Hps. by injection Hps as <-.
Qed.
Lemma set_seen_ch seen m : em_ch (set_seen id seen m) = em_ch m.
Proof. unfold set_seen. by destruct (em_projects m !! id). Qed.

Definition end_of_chunk (chunkFrom : Z) : Z := Z.min (chunkFrom + ruleChunk - ResultsStep) to.

Lemma rule_chunk_wrote chunkFrom project seen res s :
  p_Id project = id → (ResultsStep | chunkFrom) → 0 < chunkFrom ≤ to → (∀ l, last !! marker = Some l → l < chunkFrom) →
  seen_only seen → project_seen (sys_mem s) →
  let r := rule_chunk load_parts SaveProjectSettings rule_list marker evaluatedTo to last chunkFrom project seen res s in
  ∃ b, wrote chunkFrom (end_of_chunk chunkFrom) last reserved id (sys_mem s) (sys_mem (snd r)) b ∧ project_seen (sys_mem (snd r))
    ∧ ∀ p seen res, fst r = Ret (inr (p, seen, res)) → p_Id p = id ∧ seen_only seen.
Proof.
  intros Hid Hcg Hc Hml Hseen Hps. cbn zeta. destruct (rule_chunk _ _ _ _ _ _ _ _ _ _ _ s) as [o s'] eqn:Hrun. cbn [fst snd].
  unfold rule_chunk in Hrun. 
  assert (Hadd : Time.Add chunkFrom (wrap64 (ruleChunk - ResultsStep)) = chunkFrom + (ruleChunk - ResultsStep)).
  { change (wrap64 (ruleChunk - ResultsStep)) with 3585. change (ruleChunk - ResultsStep) with 3585. apply add64_id. i64. }
  rewrite Hadd in Hrun.
  assert (He : Z.min (chunkFrom + (ruleChunk - ResultsStep)) to = end_of_chunk chunkFrom) by (unfold end_of_chunk; f_equal; lia). rewrite He in Hrun.
  set (chunkTo := end_of_chunk chunkFrom) in *.
  assert (Hct : chunkFrom ≤ chunkTo ≤ to) by (unfold chunkTo, end_of_chunk, ruleChunk, ResultsStep, Time.Hour, Time.Minute, Time.Second; lia).
  assert (Hcd : (ResultsStep | chunkTo)).
  { unfold chunkTo, end_of_chunk. destruct (Z.min_spec (chunkFrom + ruleChunk - ResultsStep) to) as [[_ ->]|[_ ->]]; [|done].
    apply Z.divide_sub_r; [apply Z.divide_add_r; [done|by exists 240]|apply Z.divide_refl]. }
  assert (Hnone : sys_mem s' = sys_mem s → ∃ b, wrote chunkFrom chunkTo last reserved id (sys_mem s) (sys_mem s') b ∧ project_seen (sys_mem s')).
  { intros ->. exists no_batch. split; [by apply wrote_nothing|done]. }
  unfold and_then at 1, mbind at 1, M_bind at 1 in Hrun.
  match type of Hrun with context [LoadWorld load_parts ?o ?p ?f ?t ?st s] =>
    pose proof (unmoved_LoadWorld o p f t st s) as Hk1; pose proof (LoadWorld_world o p f t st s) as Hworld;
    destruct (LoadWorld load_parts o p f t st s) as [[[err|w]|] s1] end; cbn [fst snd] in Hk1, Hworld.
  1,3: injection Hrun as <- <-; destruct (Hnone Hk1) as (b & ? & ?); exists b; by split_and!.
  specialize (Hworld w eq_refl). unfold and_then at 1, mbind at 1, M_bind at 1 in Hrun.
  pose proof (unmoved_run_rules chunkFrom chunkTo w rule_list (project, (no_batch, seen)) s1) as Hk2. rewrite Hk1 in Hk2.
  pose proof (run_rules_collects chunkFrom chunkTo ltac:(lia) ltac:(lia) w Hworld seen rule_list project no_batch seen s1) as Hrules.
  destruct (run_rules _ _ _ _ _ _ _ s1) as [[[project1 [out seen1]]|] s2]; cbn [fst snd] in Hk2, Hrules.
  2:{ injection Hrun as <- <-. destruct (Hnone Hk2) as (b & ? & ?). exists b. by split_and!. }
  destruct (Hrules _ _ _ rule_list_NoDup (λ n Hn, Hn) (collected_nothing _ _ _ _ _ _) eq_refl) as [Hcol Hp1]. rewrite Hid in Hp1.
  assert (Hseen1 : seen_only seen1).
  { intros k [Hk|(r & Hr & Hq & _)]%(co_seen _ _ _ _ _ _ _ _ Hcol); [by apply Hseen|]. right. right. rewrite <- Hq. by apply (co_rows _ _ _ _ _ _ _ _ Hcol). }
  unfold modify_mem, mbind at 1, M_bind at 1 in Hrun. rewrite Hp1 in Hrun.
  set (s3 := {| sys_mem := set_seen id seen1 (sys_mem s2); sys_tables := sys_tables s2; sys_ticks := sys_ticks s2 |}) in *.
  destruct (write_wrote chunkFrom chunkTo last reserved id (add_point (marker_point marker chunkTo) out) s3) as (b & Hw & _ & _ & Hpr & Hok).
  { eapply (add_marker_good chunkFrom chunkTo); [lia|exact Hcd|exact Hml|exact Hcol]. }
  assert (Hw' : wrote chunkFrom chunkTo last reserved id (sys_mem s) (sys_mem (snd (write id (add_point (marker_point marker chunkTo) out) s3))) b).
  { destruct Hw as [Ha Hg]. split; [|exact Hg]. eapply appended_keeps_l; [|exact Ha]. unfold s3. cbn [sys_mem]. by rewrite set_seen_ch, Hk2. }
  assert (Hps' : project_seen (sys_mem (snd (write id (add_point (marker_point marker chunkTo) out) s3)))).
  { eapply project_seen_same; [exact Hpr|]. apply project_seen_set; [done|]. by rewrite Hk2. }
  unfold mbind, M_bind in Hrun. destruct (write id _ s3) as [r s4]. cbn [fst snd] in *. exists b.
  destruct r as [err|u]; injection Hrun as <- <-; split_and!; try done. by intros ? ? ? [= <- <- <-].
Qed.
Lemma rule_chunks_wrote fuel chunkFrom project seen res s :
  p_Id project = id → (ResultsStep | chunkFrom) → 0 < chunkFrom → chunkFrom < 2 ^ 40 → (∀ l, last !! marker = Some l → l < chunkFrom) →
  seen_only seen → project_seen (sys_mem s) →
  let r := rule_chunks load_parts SaveProjectSettings fuel rule_list marker evaluatedTo to last chunkFrom project seen res s in
  ∃ b, wrote chunkFrom to last reserved id (sys_mem s) (sys_mem (snd r)) b ∧ project_seen (sys_mem (snd r)).
Proof.
  revert chunkFrom project seen res s. induction fuel as [|fuel IH]; intros chunkFrom project seen res s Hid Hcg Hpos Hmax Hml Hseen Hps; cbn zeta.
  { exists no_batch. split; [by apply wrote_nothing|done]. }
  cbn [rule_chunks]. destruct (Z.ltb_spec to chunkFrom) as [|Hle]; [exists no_batch; split; [by apply wrote_nothing|done]|].
  destruct (rule_chunk_wrote chunkFrom project seen res s Hid Hcg ltac:(lia) Hml Hseen Hps) as (b & Hw & Hps1 & Hres).
  unfold and_then, mbind, M_bind. destruct (rule_chunk _ _ _ _ _ _ _ _ _ _ _ s) as [o s1]. cbn [fst snd] in Hw, Hps1, Hres.
  assert (Het : chunkFrom ≤ end_of_chunk chunkFrom ≤ to ∧ end_of_chunk chunkFrom < chunkFrom + ruleChunk)
    by (unfold end_of_chunk, ruleChunk, ResultsStep, Time.Hour, Time.Minute, Time.Second; lia).
  assert (Hend : wrote chunkFrom to last reserved id (sys_mem s) (sys_mem s1) b) by (eapply wrote_weaken; [exact Hw|lia|lia|done]).
  destruct o as [[err|[[p1 seen1] res1]]|]; cbn [fst snd mret M_ret]; [by exists b| |by exists b].
  destruct (Hres _ _ _ eq_refl) as [Hid1 Hseen1].
  assert (Hadd : Time.Add chunkFrom ruleChunk = chunkFrom + ruleChunk) by (apply add64_id; unfold ruleChunk, Time.Hour, Time.Minute, Time.Second; i64). rewrite Hadd.
  destruct (Z.le_gt_cases (chunkFrom + ruleChunk) to) as [Hmore|Hdone].
  - destruct (IH (chunkFrom + ruleChunk) p1 seen1 res1 s1 Hid1) as (b' & Hw' & Hps').
    + apply Z.divide_add_r; [done|by exists 240].
    + unfold ruleChunk, Time.Hour, Time.Minute, Time.Second. lia.
    + unfold ruleChunk, Time.Hour, Time.Minute, Time.Second in *. lia.
    + intros l Hl. specialize (Hml l Hl). unfold ruleChunk, Time.Hour, Time.Minute, Time.Second. lia.
    + done.
    + done.
    + exists (join b b'). split; [|done]. eapply (wrote_weaken chunkFrom to last (λ q, reserved q ∨ reserved q) reserved chunkFrom to); [|lia|lia|tauto].
      eapply wrote_join; [exact Hw|exact Hw'|lia|unfold ruleChunk, Time.Hour, Time.Minute, Time.Second; lia|lia|lia|left; lia].
  - destruct fuel as [|fuel]; cbn [rule_chunks]; [by exists b|]. rewrite (proj2 (Z.ltb_lt to (chunkFrom + ruleChunk))) by lia. by exists b.
Qed.
End chunks.

(** More fuel than [chunk_fuel] changes nothing. *)
Lemma chunk_fuel_enough evaluatedTo to names mark chunkFrom project seen res n :
  0 ≤ chunkFrom < 2 ^ 40 → to < 2 ^ 40 → (chunk_fuel chunkFrom to ≤ n)%nat → ∀ s,
  rule_chunks load_parts SaveProjectSettings n names mark evaluatedTo to last chunkFrom project seen res s
  = rule_chunks load_parts SaveProjectSettings (chunk_fuel chunkFrom to) names mark evaluatedTo to last chunkFrom project seen res s.
Proof.
  assert (Hmono : ∀ fuel chunkFrom project seen res n s, 0 ≤ chunkFrom < 2 ^ 40 → to < 2 ^ 40 → to - chunkFrom < Z.of_nat fuel * ruleChunk → (fuel ≤ n)%nat →
    rule_chunks load_parts SaveProjectSettings n names mark evaluatedTo to last chunkFrom project seen res s
    = rule_chunks load_parts SaveProjectSettings fuel names mark evaluatedTo to last chunkFrom project seen res s ∨ fuel = O).
  { clear. induction fuel as [|fuel IH]; intros chunkFrom project seen res n s Hc Ht Hf Hn; [by right|left].
    destruct n as [|n]; [lia|]. cbn [rule_chunks]. destruct (Z.ltb_spec to chunkFrom) as [|Hle]; [done|].
    unfold and_then, mbind, M_bind. destruct (rule_chunk _ _ _ _ _ _ _ _ _ _ _ s) as [[[err|[[p1 seen1] res1]]|] s1]; [done| |done].
    assert (Hadd : Time.Add chunkFrom ruleChunk = chunkFrom + ruleChunk) by (apply add64_id; unfold ruleChunk, Time.Hour, Time.Minute, Time.Second; i64). rewrite Hadd.
    destruct (Z.le_gt_cases (chunkFrom + ruleChunk) to) as [Hmore|Hdone].
    - destruct (IH (chunkFrom + ruleChunk) p1 seen1 res1 n s1) as [->| ->]; unfold ruleChunk, Time.Hour, Time.Minute, Time.Second in *; [lia..|done|lia].
    - assert (He : ∀ k, rule_chunks load_parts SaveProjectSettings k names mark evaluatedTo to last (chunkFrom + ruleChunk) p1 seen1 res1 s1 = (Ret (None, res1), s1)); [|by rewrite !He].
      intros [|k]; cbn [rule_chunks]; [done|]. by rewrite (proj2 (Z.ltb_lt to (chunkFrom + ruleChunk))) by lia. }
  intros Hc Ht Hn s. destruct (Hmono (chunk_fuel chunkFrom to) chunkFrom project seen res n s Hc Ht) as [Heq|Hz]; [|done|exact Heq|done].
  unfold chunk_fuel, ruleChunk, Time.Hour, Time.Minute, Time.Second in *. pose proof (Z.div_mod (to - chunkFrom) 3600 ltac:(lia)).
  pose proof (Z.mod_pos_bound (to - chunkFrom) 3600 ltac:(lia)). rewrite Nat2Z.inj_succ.
  destruct (Z.le_gt_cases 0 ((to - chunkFrom) / (1 * 60 * 60) + 1)) as [Hnn|Hneg]; [rewrite Z2Nat.id by done|]; change (1 * 60 * 60) with 3600 in *; lia.
Qed.

(** All of them. *)
Section all.
Context (now backfill evaluatedTo : Z).
Context (Hsane : sane now backfill) (Hto : now - 45 < evaluatedTo ≤ now - 30) (Hgrid : (ResultsStep | evaluatedTo)).
Context (Hsince : ∀ q l, last !! q = Some l → since_of now backfill ≤ l).

Lemma recordingRules_wrote Q project seen res s :
  seen_only Q seen → project_seen (p_Id project) Q (sys_mem s) →
  let r := recordingRules load_parts SaveProjectSettings backfill project evaluatedTo seen last res s in
  ∃ b, wrote (since_of now backfill) evaluatedTo last reserved (p_Id project) (sys_mem s) (sys_mem (snd r)) b ∧ project_seen (p_Id project) Q (sys_mem (snd r)).
Proof.
  intros Hseen Hps. cbn zeta. unfold recordingRules. case_bool_decide; [exists no_batch; split; [by apply wrote_nothing|done]|].
  unfold sane, since_of, Time.Hour, Time.Minute, Time.Second in *.
  assert (Hto2 : Time.Add evaluatedTo (wrap64 (- ruleLookahead * ResultsStep)) = evaluatedTo - 30).
  { change (wrap64 (- ruleLookahead * ResultsStep)) with (-30). unfold Time.Add. rewrite add64_id by i64. lia. } rewrite Hto2. clear Hto2.
  set (from0 := match last !! marker with Some l => _ | None => _ end).
  assert (Hfrom0 : 0 ≤ from0 < 2 ^ 40 ∧ now - backfill - Time.Hour + ResultsStep ≤ from0 ∧ ∀ l, last !! marker = Some l → l + ResultsStep ≤ from0).
  { unfold from0, since_of, Time.Hour, Time.Minute, ResultsStep, Time.Second, Time.Add in *. destruct (last !! marker) as [l|] eqn:E.
    - pose proof (Hlast _ _ E). pose proof (Hsince _ _ E). rewrite add64_id by i64. split_and!; [lia|lia|lia|]. intros ? [= <-]. lia.
    - rewrite wrap64_id by i64. rewrite add64_id by i64. split_and!; [lia..|done]. }
  destruct Hfrom0 as (Hb & Hlow & Hml). destruct (truncated from0 Hb) as (from & -> & Hft & Hf0 & Hfd).
  destruct (Z.ltb_spec (evaluatedTo - 30) from) as [|Hle]; [exists no_batch; split; [by apply wrote_nothing|done]|].
  unfold since_of, Time.Hour, Time.Minute, ResultsStep, Time.Second in *.
  edestruct (rule_chunks_wrote (p_Id project) Q evaluatedTo (evaluatedTo - 30)) as (b & Hw & Hp); [| | |..|exists b; split; [eapply wrote_weaken; [exact Hw|..]|exact Hp]];
    try done; try lia.
  - apply Z.divide_sub_r; [done|by exists 2].
  - intros l Hl. specialize (Hml l Hl). lia.
Qed.
End all.
End rules.
End ChunkFacts.

(** * An evaluation *)
Module EvaluationFacts.
Import BatchFacts ReadFacts SeriesFacts WriteFacts FrameFacts DbFacts CycleFacts ChunkFacts.

(** ** The last step of each query *)
Lemma last_per_query_spec since ps :
  (∀ p, p ∈ ps → 0 ≤ po_t p) →
  (∀ q l, last_per_query since ps !! q = Some l → ∃ p, p ∈ ps ∧ po_query p = q ∧ po_t p = l ∧ since ≤ l)
  ∧ ∀ p, p ∈ ps → since ≤ po_t p → ∃ l, last_per_query since ps !! po_query p = Some l ∧ po_t p ≤ l.
Proof.
  induction ps as [|p ps IH] using rev_ind; intros Hpos.
  { split; [intros q l Hl; cbn in Hl; by rewrite lookup_empty in Hl|by intros ? ?%not_elem_of_nil]. }
  destruct IH as [Hof Hto]; [intros; apply Hpos; apply elem_of_app; auto|].
  assert (Hp : 0 ≤ po_t p) by (apply Hpos; apply elem_of_app; right; left).
  unfold last_per_query in *. rewrite foldl_app. cbn [foldl]. set (m := foldl _ ∅ ps) in *.
  destruct (Z.leb_spec since (po_t p)) as [Hs|Hs]; split.
  - intros q l [[<- <-]|[_ Hl]]%lookup_insert_Some.
    + destruct (m !! po_query p) as [l'|] eqn:E; cbn [from_option id]; [|exists p; split_and!; [apply elem_of_app; right; left|done|lia|lia]].
      destruct (Hof _ _ E) as (p' & Hp' & Hq & Ht & Hs'). destruct (Z.max_spec (po_t p) l') as [[? ->]|[? ->]].
      * exists p'. split_and!; [apply elem_of_app; by left|done..].
      * exists p. split_and!; [apply elem_of_app; right; left|done..].
    + destruct (Hof _ _ Hl) as (p' & Hp' & ?). exists p'. split; [apply elem_of_app; by left|done].
  - intros p' Hp' Hs'. destruct (decide (po_query p' = po_query p)) as [Hq|Hne].
    + eexists. rewrite Hq. split; [apply lookup_insert_eq|]. apply elem_of_app in Hp' as [Hp'| ->%list_elem_of_singleton]; [|lia].
      destruct (Hto p' Hp' Hs') as (l & Hl & Hle). rewrite Hq in Hl. rewrite Hl. cbn [from_option id]. lia.
    + rewrite lookup_insert_ne by done. apply elem_of_app in Hp' as [Hp'| ->%list_elem_of_singleton]; [by apply Hto|done].
  - intros q l Hl. destruct (Hof _ _ Hl) as (p' & Hp' & ?). exists p'. split; [apply elem_of_app; by left|done].
  - intros p' [Hp'| ->%list_elem_of_singleton]%elem_of_app Hs'; [by apply Hto|lia].
Qed.

(** What the cache of a project counts as written. *)
Definition cached_seen (id : string) (m : EvalMem) : seriesCache := default ∅ (ps_seen <$> em_projects m !! id).

Section evaluation.
Context `{LP : LogParser} `{Env} `{MapOrder} `{Prometheus} `{ErrorTexts} `{PartialInsert}.
Context (load_parts : Project → Context → CheckConfigs → gmap string (list MetricValues) → M EvalMem (outcome World)).
Context (SaveProjectSettings : Project → M EvalMem (string + unit)).
Context (Hsound : rules_sound load_parts SaveProjectSettings).
#[local] Abbreviation reserved := (reserved SaveProjectSettings).

(** The recorded series are no metrics: their names read themselves, and nobody sends them. *)
Definition recorded_apart : Prop := ∀ q, reserved q → Selectors q = inr (Some [q]) ∧ ∀ n, q ∉ metricNames n.
Context (Hapart : recorded_apart).

Context (now backfill : Z) (Hsane : sane now backfill).
#[local] Abbreviation since := (since_of now backfill).

(** What an evaluation did, whatever failed: it added points of steps that their
    queries lacked, none twice; each but those of rules with its labels, unless
    the cache told that they were written; and the cache is true again. *)
Definition evaluated (id : string) (last : gmap string Z) (seen0 : seriesCache) (Q : string * Z → Prop) (m m' : EvalMem) : Prop :=
  ∃ b, wrote since now last (λ _, True) id m m' b
    ∧ (∀ p, p ∈ b_points b → ¬ reserved (po_query p) → keyed (b_series b) (po_query p) (po_hash p) ∨ is_Some (seen0 !! (po_query p, po_hash p)))
    ∧ project_seen SaveProjectSettings id (λ k, Q k ∨ keyed (b_series b) (fst k) (snd k)) m'.

Lemma project_seen_weaken id (Q Q' : string * Z → Prop) m : (∀ k, Q k → Q' k) →
  project_seen SaveProjectSettings id Q m → project_seen SaveProjectSettings id Q' m.
Proof. intros HQ Hm ps Hps k Hk. destruct (Hm ps Hps k Hk) as [?|?]; [left; by apply HQ|by right]. Qed.

Lemma evaluated_nothing id last seen0 Q m m' : em_ch m' = em_ch m → project_seen SaveProjectSettings id Q m' → evaluated id last seen0 Q m m'.
Proof.
  intros He Hp. exists no_batch. split_and!; [by apply wrote_nothing|by intros ? ?%not_elem_of_nil|]. eapply project_seen_weaken; [|exact Hp]. by left.
Qed.

Lemma drop_state_seen id Q m : project_seen SaveProjectSettings id Q (drop_state id m).
Proof. intros ps Hps. cbn in Hps. by rewrite lookup_delete_eq in Hps. Qed.

Section last.
Context (last : gmap string Z) (Hlast : last_ok last) (Hsince : ∀ q l, last !! q = Some l → since ≤ l).

Lemma evaluate_evaluated project ps queries Q s :
  seen_only SaveProjectSettings Q (ps_seen ps) → project_seen SaveProjectSettings (p_Id project) Q (sys_mem s) →
  evaluated (p_Id project) last (ps_seen ps) Q (sys_mem s)
    (sys_mem (snd (evaluate load_parts SaveProjectSettings project now backfill ps queries last s))).
Proof.
  intros Hseen Hps. destruct (evaluate _ _ _ _ _ _ _ _ s) as [o s'] eqn:Hrun. cbn [snd]. unfold evaluate in Hrun.
  destruct (cycle_end now backfill Hsane) as (to & Hend & Hto & Hg).
  destruct (cycle_wrote now backfill to last Hsane Hto Hg Hlast (λ q, ¬ reserved q) (ps_seen ps)) with (id := p_Id project) (queries := queries) (s := s)
    as (b & Hw & Hl & Hpr & Hres).
  { intros q Hn. apply Hapart. by apply dec_stable in Hn. }
  { intros q. unfold ChunkFacts.reserved. apply _. }
  { exact Hend. }
  set (id := p_Id project) in *. unfold and_then at 1, mbind at 1, M_bind at 1 in Hrun.
  destruct (cycle id queries now backfill (ps_seen ps) last s) as [oc s1]. cbn [fst snd] in Hw, Hpr, Hres.
  (* one batch, or the two *)
  assert (Hone : em_ch (sys_mem s') = em_ch (sys_mem s1) → project_seen SaveProjectSettings id Q (sys_mem s') → evaluated id last (ps_seen ps) Q (sys_mem s) (sys_mem s')).
  { intros He Hp. exists b. split_and!.
    - destruct Hw as [Ha Hgb]. eapply (wrote_weaken since now last (λ q, ¬ reserved q) _ since to); [|lia|lia|done]. split; [|exact Hgb]. by eapply appended_keeps_r.
    - intros p Hp' _. by apply Hl.
    - eapply project_seen_weaken; [|exact Hp]. by left. }
  destruct oc as [[[res err] seen]|]; [|injection Hrun as <- <-; apply Hone; [done|]; by eapply project_seen_same].
  destruct (Hres _ _ _ eq_refl) as [Hresto Hrem]. destruct err as [err|].
  { unfold modify_mem, mbind, M_bind in Hrun. injection Hrun as <- <-. apply Hone; [done|]. apply drop_state_seen. }
  unfold modify_mem, mbind at 1, M_bind at 1 in Hrun.
  set (s2 := {| sys_mem := set_seen id seen (sys_mem s1); sys_tables := sys_tables s1; sys_ticks := sys_ticks s1 |}) in *.
  set (Q' := λ k : string * Z, Q k ∨ keyed (b_series b) (fst k) (snd k)).
  assert (Hseen' : seen_only SaveProjectSettings Q' seen).
  { intros k [Hk|Hk]%(Hrem eq_refl); [|left; by right]. destruct (Hseen k Hk) as [?|?]; [left; by left|by right]. }
  destruct (recordingRules_wrote load_parts SaveProjectSettings Hsound last Hlast now backfill to Hsane Hto Hg Hsince Q' project seen res s2 Hseen') as (b' & Hw' & Hp').
  { apply project_seen_set; [exact Hseen'|]. eapply project_seen_same; [exact Hpr|]. eapply project_seen_weaken; [|exact Hps]. by left. }
  unfold and_then, mbind, M_bind in Hrun. rewrite Hresto in Hrun.
  destruct (recordingRules _ _ backfill project to seen last res s2) as [or s3]. cbn [snd] in Hw', Hp'.
  assert (Hs3 : s' = s3) by (destruct or as [[? ?]|]; by injection Hrun as _ <-). subst s3. clear Hrun.
  assert (Hw2 : wrote since to last reserved id (sys_mem s1) (sys_mem s') b').
  { destruct Hw' as [Ha Hgb]. split; [|exact Hgb]. eapply appended_keeps_l; [|exact Ha]. unfold s2. cbn [sys_mem]. apply set_seen_ch. }
  exists (join b b'). split_and!.
  - eapply (wrote_weaken since now last (λ q, ¬ reserved q ∨ reserved q) _ since to); [|lia|lia|done].
    eapply wrote_join; [exact Hw|exact Hw2|lia|lia|lia|lia|]. right. intros q Hq Hr. exact (Hq Hr).
  - intros p [Hp|Hp]%elem_of_app Hn; [|by destruct (Hn (gb_points _ _ _ _ _ (wr_good _ _ _ _ _ _ _ _ Hw') p Hp))].
    destruct (Hl p Hp) as [?|?]; [left; apply keyed_app; by left|by right].
  - eapply project_seen_weaken; [|exact Hp']. intros k [?|?]; [by left|right]. apply keyed_app. by left.
Qed.
End last.
Lemma since_time : date_time (Time.Add now (wrap64 (- backfill - Time.Hour))) = since.
Proof.
  unfold sane, since_of, Time.Hour, Time.Minute, Time.Second, Time.Add in *. rewrite wrap64_id by i64. rewrite add64_id by i64.
  unfold date_time. rewrite Z.mod_small by lia. lia.
Qed.

Lemma state_run id s o s' : state id s = (o, s') →
  em_ch (sys_mem s') = em_ch (sys_mem s)
  ∧ ∀ Q, project_seen SaveProjectSettings id Q (sys_mem s) → project_seen SaveProjectSettings id Q (sys_mem s')
      ∧ ∀ ps, o = inr ps → seen_only SaveProjectSettings Q (ps_seen ps) ∧ ps_seen ps = cached_seen id (sys_mem s).
Proof.
  unfold state, get_mem, mbind at 1, M_bind at 1, cached_seen. destruct (em_projects (sys_mem s) !! id) as [ps|] eqn:E.
  { intros [= <- <-]. split; [done|]. intros Q HQ. split; [done|]. intros ps' [= <-]. split; [by apply HQ|done]. }
  unfold call, ask, mbind, M_bind, modify_mem. destruct (env_fault _) as [err|]; intros [= <- <-]; (split; [done|]); intros Q HQ; (split; [|done || intros ps [= <-]]).
  - done.
  - intros ps Hps. cbn in Hps. rewrite lookup_insert_eq in Hps. injection Hps as <-. intros k Hk. cbn in Hk. by apply is_Some_None in Hk.
  - split; [|done]. intros k Hk. cbn in Hk. by apply is_Some_None in Hk.
Qed.

Lemma EvaluateProject_evaluated project s Q :
  let id := p_Id project in
  let points := world_points (tables_of id (sys_mem s)) in
  (∀ p, p ∈ points → 0 ≤ po_t p < 2 ^ 32) → project_seen SaveProjectSettings id Q (sys_mem s) →
  evaluated id (last_per_query since points) (cached_seen id (sys_mem s)) Q (sys_mem s)
    (sys_mem (snd (EvaluateProject load_parts SaveProjectSettings project now backfill s))).
Proof.
  cbn zeta. intros Hrange HQ. set (id := p_Id project) in *. destruct (EvaluateProject _ _ _ _ _ s) as [o s'] eqn:Hrun. cbn [snd].
  unfold EvaluateProject in Hrun. fold id in Hrun. unfold mbind at 1, M_bind at 1 in Hrun. destruct (state id s) as [ops s1] eqn:Est.
  apply state_run in Est as [Hch1 Hst]. destruct (Hst Q HQ) as [HQ1 Hps]. clear Hst.
  assert (Hnone : ∀ s2, sys_mem s2 = sys_mem s1 → evaluated id (last_per_query since (world_points (tables_of id (sys_mem s)))) (cached_seen id (sys_mem s)) Q (sys_mem s) (sys_mem s2)).
  { intros s2 ->. by apply evaluated_nothing. }
  destruct ops as [err|ps]; [injection Hrun as <- <-; by apply Hnone|]. destruct (Hps ps eq_refl) as [Hseen Hsame]. clear Hps.
  unfold mbind at 1, M_bind at 1 in Hrun. assert (Hk2 : unmoved (GetCheckConfigs (Mem := EvalMem) id)) by (unfold GetCheckConfigs; unmoved). specialize (Hk2 s1).
  destruct (GetCheckConfigs id s1) as [[err|cc] s2]; cbn [snd] in Hk2; [injection Hrun as <- <-; by apply Hnone|].
  unfold range, mbind at 1 2, M_bind at 1 2 in Hrun. cbn [fst snd] in Hrun. unfold lastPerQuery in Hrun. cbn [tick sys_ticks sys_mem] in Hrun.
  destruct (env_fault _) as [err|].
  { unfold modify_mem, mbind, M_bind in Hrun. injection Hrun as <- <-. apply evaluated_nothing; [cbn; by rewrite Hk2|apply drop_state_seen]. }
  rewrite since_time in Hrun. cbn [tick sys_mem] in Hrun.
  assert (Htab : tables_of id (sys_mem s2) = tables_of id (sys_mem s)) by (unfold tables_of; by rewrite Hk2, Hch1). rewrite Htab in Hrun.
  destruct (last_per_query_spec since (world_points (tables_of id (sys_mem s)))) as [Hof _]; [intros p Hp; by apply Hrange|].
  match type of Hrun with evaluate _ _ _ _ _ _ ?qs ?last ?st = _ =>
    pose proof (evaluate_evaluated last) as Hev; specialize (Hev) with (project := project) (ps := ps) (queries := qs) (Q := Q) (s := st) end.
  rewrite Hrun in Hev. cbn [tick sys_mem snd] in Hev. rewrite Hk2, Hsame in Hev.
  destruct Hev as (b & Hw & Hl & Hp).
  - intros q l Hq. apply Hof in Hq as (p & Hp & _ & <- & _). by apply Hrange.
  - intros q l Hq. by apply Hof in Hq as (_ & _ & _ & _ & ?).
  - by rewrite <- Hsame.
  - done.
  - exists b. split_and!; [|done|done]. destruct Hw as [Ha Hg]. split; [|done]. by eapply appended_keeps_l.
Qed.
End evaluation.
End EvaluationFacts.

(** * Theorems *)
Module EvaluatorTheorems.
Import BatchFacts ReadFacts SeriesFacts WriteFacts FrameFacts CycleFacts ChunkFacts EvaluationFacts.

(** Points on the grid of the steps, none stored twice, with times a DateTime holds. *)
Record stored_once (t : WorldTables) : Prop := {
  so_grid : on_grid (world_points t);
  so_once : NoDup (point_key <$> world_points t);
  so_range : ∀ p, p ∈ world_points t → 0 ≤ po_t p < 2 ^ 32
}.

(** The new points of a query are of later steps than its old ones. *)
Definition later_than (old new : list pointRow) : Prop := ∀ p p', p ∈ old → p' ∈ new → po_query p = po_query p' → po_t p < po_t p'.

Section evaluator.
Context `{LP : LogParser} `{Env} `{MapOrder} `{Prometheus} `{ErrorTexts} `{PartialInsert}.
Context (load_parts : Project → Context → CheckConfigs → gmap string (list MetricValues) → M EvalMem (outcome World)).
Context (SaveProjectSettings : Project → M EvalMem (string + unit)).

Lemma evaluated_points id now backfill seen0 Q m m' :
  sane now backfill → stored_once (tables_of id m) →
  evaluated SaveProjectSettings now backfill id (last_per_query (since_of now backfill) (world_points (tables_of id m))) seen0 Q m m' →
  stored_once (tables_of id m')
  ∧ (∃ new, world_points (tables_of id m') = (world_points (tables_of id m) ++ new)%list ∧ later_than (world_points (tables_of id m)) new)
  ∧ ∀ id', id' ≠ id → tables_of id' m' = tables_of id' m.
Proof.
  intros Hsane [Hg Ho Hr] (b & [(_ & Hp & Hother) [Hf Hnd _ _]] & _). destruct Hsane as [Hb Hn].
  assert (Hs0 : 0 ≤ since_of now backfill) by (unfold since_of, Time.Hour, Time.Minute, Time.Second in *; lia).
  rewrite (stored_fresh _ _ _ _ Hs0 (proj2 Hn) Hf) in Hp. rewrite Forall_forall in Hf.
  assert (Hlater : later_than (world_points (tables_of id m)) (b_points b)).
  { intros p p' Hold Hnew Hq. destruct (Hf p' Hnew) as [[Hlo _] Hlast _]. destruct (Z.lt_ge_cases (po_t p) (since_of now backfill)) as [|Hge]; [lia|].
    destruct (last_per_query_spec (since_of now backfill) (world_points (tables_of id m))) as [_ Hto]; [intros p0 Hp0; by apply Hr|].
    destruct (Hto p Hold Hge) as (l & Hl & Hle). rewrite Hq in Hl. specialize (Hlast l Hl). lia. }
  split_and!; [split; rewrite Hp| |done].
  - intros p [Hin|Hin]%elem_of_app; [by apply Hg|]. by destruct (Hf p Hin).
  - rewrite fmap_app. apply NoDup_app. split_and!; [done| |done].
    intros k (p & -> & Hin)%list_elem_of_fmap (p' & Hk & Hin')%list_elem_of_fmap. injection Hk as Hq _ Ht. specialize (Hlater p p' Hin Hin' Hq). lia.
  - intros p [Hin|Hin]%elem_of_app; [by apply Hr|]. destruct (Hf p Hin) as [? _ _]. lia.
  - by exists (b_points b).
Qed.

(** C9 An evaluation stores each step of a series at most once and in order, whatever
    fails in it: the points it adds, all or the part that got there, are of later
    steps than the stored points of their queries, and so the next evaluation
    completes what is missing and writes nothing again. *)
Theorem EvaluateProject_stores_once project now backfill s :
  rules_sound load_parts SaveProjectSettings → recorded_apart SaveProjectSettings → sane now backfill →
  let id := p_Id project in
  let m := sys_mem s in
  let m' := sys_mem (snd (EvaluateProject load_parts SaveProjectSettings project now backfill s)) in
  stored_once (tables_of id m) →
  stored_once (tables_of id m')
  ∧ (∃ new, world_points (tables_of id m') = (world_points (tables_of id m) ++ new)%list ∧ later_than (world_points (tables_of id m)) new)
  ∧ ∀ id', id' ≠ id → tables_of id' m' = tables_of id' m.
Proof.
  intros Hsound Hapart Hsane id m m' Hso.
  assert (Hseen : project_seen SaveProjectSettings id (λ _, True) m) by (intros ps _ k _; by left).
  pose proof (EvaluateProject_evaluated load_parts SaveProjectSettings Hsound Hapart now backfill Hsane project s (λ _, True) (so_range _ Hso) Hseen) as Hev.
  exact (evaluated_points id now backfill _ _ m m' Hsane Hso Hev).
Qed.

(** The labels of every series that has points are stored, and the cache counts as
    written only series whose labels are: of the queries, not of the recording rules
    or of their marker ([reserved]).  The marker has no labels, and the labels of a
    rule's series are counted as written before they are (rules.go), so that a failed
    write leaves them out for good. *)
Definition labels_stored (id : string) (m : EvalMem) : Prop :=
  (∀ p, p ∈ world_points (tables_of id m) → ¬ reserved SaveProjectSettings (po_query p) → keyed (world_series (tables_of id m)) (po_query p) (po_hash p))
  ∧ project_seen SaveProjectSettings id (λ k, keyed (world_series (tables_of id m)) (fst k) (snd k)) m.

(** C20 Whatever fails in an evaluation, of the queries (the recording rules and their
    marker are not meant, see [labels_stored]) every stored point has the labels of its
    series stored, and the labels the cache counts as written are stored: so what an
    evaluation leaves out because the cache has it was written before. *)
Theorem EvaluateProject_stores_labels project now backfill s :
  rules_sound load_parts SaveProjectSettings → recorded_apart SaveProjectSettings → sane now backfill →
  let id := p_Id project in
  stored_once (tables_of id (sys_mem s)) → labels_stored id (sys_mem s) →
  labels_stored id (sys_mem (snd (EvaluateProject load_parts SaveProjectSettings project now backfill s))).
Proof.
  intros Hsound Hapart Hsane id Hso [Hlab Hseen].
  destruct (EvaluateProject_evaluated load_parts SaveProjectSettings Hsound Hapart now backfill Hsane project s _ (so_range _ Hso) Hseen) as (b & [(Hs & Hp & _) [Hf _ _ _]] & Hl & Hc).
  fold id in Hs, Hp, Hl, Hc. set (m' := sys_mem (snd _)) in *.
  assert (Hin : ∀ q h, keyed (world_series (tables_of id (sys_mem s))) q h ∨ keyed (b_series b) q h → keyed (world_series (tables_of id m')) q h).
  { intros q h Hk. rewrite Hs. apply keyed_app. destruct Hk; [by left|right]. by apply stored_series_keyed. }
  split.
  - rewrite Hp. intros p [Hold|(p' & -> & Hnew)%list_elem_of_fmap]%elem_of_app Hn; apply Hin; [left; by apply Hlab|].
    destruct (Hl p' Hnew Hn) as [?|Hk]; [by right|left]. unfold cached_seen in Hk.
    destruct (em_projects (sys_mem s) !! id) as [ps|] eqn:E; cbn in Hk; [|by apply is_Some_None in Hk].
    destruct (Hseen ps E _ Hk) as [?|?]; [done|]. by destruct Hn.
  - intros ps Hps k Hk. destruct (Hc ps Hps k Hk) as [Hq|?]; [left|by right]. by apply Hin.
Qed.

(** The labels that are stored for a series are those the store splits again,
    in whatever order it visits them. *)
Theorem labelMap_roundtrip mv l :
  LabelFacts.wf_series mv → l ≡ₚ map_to_list (labelMap mv) →
  foldl split_label (metric_values ∅ (mv_LabelsHash mv) (mv_Values mv)) l = mv.
Proof.
  intros Hwf Hl. pose proof (LabelFacts.labelMap_one_destination mv Hwf) as Hone.
  rewrite (split_labels_order _ _ _ l Hone Hl). by apply LabelFacts.split_labelMap.
Qed.

(** The loop of the recording rules ends: [chunk_fuel] is enough for every hour
    from the first step to the last one. *)
Theorem rule_chunks_terminate fuel evaluatedTo to last names mark chunkFrom project seen res s :
  0 ≤ chunkFrom < 2 ^ 40 → to < 2 ^ 40 → (chunk_fuel chunkFrom to ≤ fuel)%nat →
  rule_chunks load_parts SaveProjectSettings fuel names mark evaluatedTo to last chunkFrom project seen res s
  = rule_chunks load_parts SaveProjectSettings (chunk_fuel chunkFrom to) names mark evaluatedTo to last chunkFrom project seen res s.
Proof. intros Hc Ht Hf. by apply chunk_fuel_enough. Qed.
End evaluator.
End EvaluatorTheorems.

(** * An example: two evaluations, the first of which fails half-way *)
Module EvaluatorRuns.
Import BatchFacts ReadFacts SeriesFacts WriteFacts FrameFacts CycleFacts ChunkFacts EvaluationFacts EvaluatorTheorems.

#[local] Instance run_order : MapOrder := {| map_order _ _ l := l; map_order_perm _ _ l := reflexivity l |}.
#[local] Instance run_parser : LogParser :=
  {| Pattern := string; PatternString := λ p, p; WeakEqual := String.eqb; NewPatternFromWords := λ p, p |}.
#[local] Instance run_errors : ErrorTexts := {| ParseFloat_error := λ s, s; ParseDuration_error := λ s, s |}.

(** An insert that fails stores every row but the first. *)
#[local] Instance run_inserts : PartialInsert.
Proof.
  refine {| kept := λ A _ _ l, match l with [] => [] | _ :: l => l end |}.
  intros A _ _ [|x l]; [constructor|]. by constructor.
Defined.

(** A series with a point a step, for the one metric there is. *)
#[local] Instance run_prometheus : Prometheus :=
  {| prometheusQueryRange := λ _ _ from to step,
       let ts := (λ k, from + Z.of_nat k * step) <$> seq 0 (Z.to_nat ((to - from) / step + 1)) in
       [{| rs_tags := {["__name__" := "node_info"; "hostname" := "h"]}; rs_ts := ts; rs_vs := (λ _, F64.of_Z 1) <$> ts |}];
     metricNames := λ _, {["node_info"]};
     ParseExpr := λ q, inr [{| vs_Name := q; vs_LabelMatchers := [] |}];
     LabelsToSignature := λ ls, Z.of_nat (map_fold (λ k v n, String.length k + String.length v + n)%nat O ls) |}.

(** A world with one application that has connections to two others. *)
Definition app_id (name : string) : ApplicationId := NewApplicationId "p" "default" "Deployment" name.
Definition connection (dest : string) (vs : list f32) : Connection :=
  {| con_ActualRemotePort := ""; con_ActualRemoteIP := ""; con_ServiceRemoteIP := ""; con_ServiceRemotePort := "";
     con_RemoteApplication := Some {| ra_Id := app_id dest; ra_Category := "application" |};
     con_Rtt := None; con_SuccessfulConnections := Some (NewWithData 35880 15 vs); con_Active := None;
     con_FailedConnections := None; con_ConnectionTime := None; con_BytesSent := None; con_BytesReceived := None;
     con_Retransmissions := None; con_RequestsCount := []; con_RequestsLatency := []; con_RequestsHistogram := [] |}.
Definition web : Application :=
  {| app_Id := app_id "web"; app_Category := "application";
     app_Instances := [{| inst_Name := "pod"; inst_Pod := None; inst_Containers := []; inst_NodePrice := None; inst_ClusterComponent := None;
                          inst_Upstreams := [connection "db" [F32.of_Z 1; NaN; F32.of_Z 2; F32.of_Z 2; F32.of_Z 3; F32.of_Z 1];
                                             connection "cache" [F32.of_Z 7; F32.of_Z 7; NaN; NaN; NaN; F32.of_Z 7]];
                          inst_Annotations := [] |}];
     app_LogMessages := []; app_Reports := []; app_AvailabilitySLIs := []; app_LatencySLIs := []; app_Deployments := [];
     app_Annotations := []; app_TrafficStats := no_traffic; app_DNSRequests := [];
     app_DNSRequestsHistogram := []; app_InboundRequestsCount := []; app_InboundRequestsHistogram := [] |}.
Definition world : World := {| w_Ctx := NewContext 35880 35970 15; w_CheckConfigs := []; w_Applications := [web] |}.
Definition project : Project :=
  {| p_Id := "p"; p_Name := "p";
     p_Integrations := {| i_BaseUrl := ""; i_Slack := None; i_Teams := None; i_Pagerduty := None; i_Opsgenie := None; i_Webhook := None |};
     p_ApplicationCategorySettings := ∅; p_MemberProjects := [] |}.
Definition load (p : Project) (ctx : Context) (cc : CheckConfigs) (metrics : gmap string (list MetricValues)) : M EvalMem (outcome World) :=
  mret (Ret world).
Definition save (p : Project) : M EvalMem (string + unit) := mret (inr tt).

(** The insert of the points fails in the first evaluation. *)
#[local] Instance run_env : Env :=
  {| env_clock := λ n, 36000; env_nano := λ n, ""; env_fault := λ n, if (n =? 9)%nat then Some "connection reset" else None |}.

Definition empty : EvalMem := {| em_ch := ∅; em_projects := ∅; em_status := ∅; em_updates := [] |}.
Definition s0 : Sys EvalMem := Build_Sys empty no_tables 0.
Definition run (s : Sys EvalMem) := EvaluateProject load save project 36000 60 s.

Lemma apart : recorded_apart save.
Proof.
  assert (Hall : forallb (λ q, bool_decide (ReplaceAll q "$RANGE" "1m" = q ∧ q ≠ "" ∧ q ≠ "node_info")) (rulesMarker (rule_list save) :: rule_list save) = true)
    by (vm_compute; reflexivity).
  rewrite forallb_forall in Hall. intros q Hq.
  assert (Hin : In q (rulesMarker (rule_list save) :: rule_list save)) by (apply list_elem_of_In, elem_of_cons; exact Hq).
  apply Hall in Hin as (Hr & Hne & Hni)%bool_decide_eq_true. split.
  - unfold Selectors. cbn [ParseExpr run_prometheus]. rewrite Hr. cbn [foldl]. unfold selector_name. cbn [vs_Name].
    rewrite (proj2 (String.eqb_neq q "") Hne). cbn. by rewrite (proj2 (String.eqb_neq q "") Hne).
  - intros n. cbn [metricNames run_prometheus]. by rewrite elem_of_singleton.
Qed.

(** What a list of series is checked for. *)
Definition check_series (mvs : list MetricValues) : bool :=
  bool_decide (NoDup (mv_LabelsHash <$> mvs))
  && forallb (λ mv, bool_decide (NoDup (fst <$> points_opt (mv_Values mv))) && forallb (λ tv, bool_decide (fst tv mod ResultsStep = 0)) (points_opt (mv_Values mv))) mvs.
Lemma check_series_ok mvs : check_series mvs = true → distinct_series mvs.
Proof.
  unfold check_series. intros [Hnd%bool_decide_eq_true Hall]%andb_true_iff. split; [done|]. rewrite forallb_forall in Hall.
  intros mv Hmv%list_elem_of_In%Hall. apply andb_true_iff in Hmv as [Hn%bool_decide_eq_true Hg]. rewrite forallb_forall in Hg. split; [done|].
  intros tv Htv%list_elem_of_In%Hg%bool_decide_eq_true. by apply Z.mod_divide.
Qed.

Lemma sound : rules_sound load save.
Proof.
  split; [done|done|]. intros p ctx cc metrics s w [= <-] name f pr st p' mvs Hf Hrun.
  unfold rule_named in Hf. destruct (List.find _ _) as [[n g]|] eqn:E; [|done]. injection Hf as <-. apply find_some in E as [Hin _].
  apply check_series_ok. unfold RecordingRules in Hin.
  repeat (destruct Hin as [[= <- <-]|Hin]; [vm_compute in Hrun; first [injection Hrun as <- <-]; vm_compute; reflexivity|]).
  destruct Hin as [[= <- <-]|Hin].
  { unfold categories_rule, save_categories, mbind, M_bind in Hrun. destruct (range _ st) as [apps st']. destruct (foldl add_category _ _) as [p1 b].
    destruct b; cbn in Hrun; injection Hrun as <- <-; vm_compute; reflexivity. }
  repeat (destruct Hin as [[= <- <-]|Hin]; [vm_compute in Hrun; injection Hrun as <- <-; vm_compute; reflexivity|]).
  destruct Hin.
Qed.

Lemma nothing_stored : stored_once (tables_of "p" empty).
Proof. split; [by intros p ?%not_elem_of_nil|constructor|by intros p ?%not_elem_of_nil]. Qed.
Lemma nothing_labelled : labels_stored save "p" empty.
Proof. split; [by intros p ?%not_elem_of_nil|]. intros ps Hps. cbn in Hps. by rewrite lookup_empty in Hps. Qed.
Lemma times_sane : sane 36000 60.
Proof. split; [lia|]. unfold Time.Hour, Time.Minute, Time.Second. lia. Qed.

(** The first evaluation stores four of its five points; the second one adds to
    them only points of later steps. *)
Definition after_failure : Sys EvalMem := snd (run s0).

Lemma EvaluateProject_stores_once_witness :
  (λ p, po_t p) <$> world_points (tables_of "p" (sys_mem after_failure)) = [35925; 35940; 35955; 35970]
  ∧ (let t := tables_of "p" (sys_mem (snd (run after_failure))) in
     stored_once t ∧ ∃ new, world_points t = (world_points (tables_of "p" (sys_mem after_failure)) ++ new)%list
       ∧ later_than (world_points (tables_of "p" (sys_mem after_failure))) new).
Proof.
  split; [vm_compute; reflexivity|].
  destruct (EvaluateProject_stores_once load save project 36000 60 s0 sound apart times_sane nothing_stored) as (Hso & _).
  destruct (EvaluateProject_stores_once load save project 36000 60 after_failure sound apart times_sane Hso) as (Hso' & Hnew & _).
  exact (conj Hso' Hnew).
Defined.

Lemma EvaluateProject_stores_labels_witness :
  labels_stored save "p" (sys_mem after_failure) ∧ labels_stored save "p" (sys_mem (snd (run after_failure))).
Proof.
  pose proof (EvaluateProject_stores_labels load save project 36000 60 s0 sound apart times_sane nothing_stored nothing_labelled) as Hl.
  split; [exact Hl|].
  apply (EvaluateProject_stores_labels load save project 36000 60 after_failure sound apart times_sane); [|exact Hl].
  split; [|apply (bool_decide_eq_true_1 _); vm_compute; reflexivity|].
  - intros p Hp. assert (Hall : forallb (λ p, bool_decide (po_t p mod ResultsStep = 0)) (world_points (tables_of "p" (sys_mem after_failure))) = true) by (vm_compute; reflexivity).
    rewrite forallb_forall in Hall. by apply list_elem_of_In, Hall, bool_decide_eq_true, Z.mod_divide in Hp.
  - intros p Hp. assert (Hall : forallb (λ p, bool_decide (0 ≤ po_t p < 2 ^ 32)) (world_points (tables_of "p" (sys_mem after_failure))) = true) by (vm_compute; reflexivity).
    rewrite forallb_forall in Hall. by apply list_elem_of_In, Hall, bool_decide_eq_true in Hp.
Defined.

Definition connection_series : MetricValues :=
  {| mv_Labels := {["job" := "agent"]}; mv_LabelsHash := 5; mv_Values := None; mv_MachineID := "m1"; mv_SystemUUID := ""; mv_ContainerId := "/k8s/x";
     mv_Destination := "10.0.0.1:80"; mv_ActualDestination := "10.0.0.2:80"; mv_DestIp := true |}.
Lemma labelMap_roundtrip_witness :
  labelMap connection_series !! LabelDestinationIP = Some "10.0.0.1:80"
  ∧ foldl split_label (metric_values ∅ 5 None) (rev (map_to_list (labelMap connection_series))) = connection_series.
Proof.
  split; [reflexivity|]. apply (labelMap_roundtrip connection_series).
  - split; [|done]. intros k Hk. cbn [mv_Labels connection_series]. apply lookup_singleton_ne. intros <-. revert Hk. apply (bool_decide_eq_true_1 _). vm_compute. reflexivity.
  - symmetry. apply Permutation_rev.
Defined.

(** Two hours of rules take three chunks at most. *)
Lemma rule_chunks_terminate_witness :
  chunk_fuel 28800 36000 = 4%nat
  ∧ rule_chunks load save 100 [] "rr_world_computed_" 36030 36000 ∅ 28800 project ∅ no_result s0
    = rule_chunks load save 4 [] "rr_world_computed_" 36030 36000 ∅ 28800 project ∅ no_result s0.
Proof. split; [reflexivity|]. apply (rule_chunks_terminate load save 100); [lia|lia|vm_compute; lia]. Defined.
End EvaluatorRuns.
