(* ===== verification/IncidentNotify.v ===== *)
(** Incident notifications: the outbox table (db/incident.go) and the notifier
    (notifications/incidents.go, [incidentDetails] of
    notifications/notifications.go).

    The answer of a destination's client to one send is a parameter, as for
    alerts.  PagerDuty and Opsgenie hold one incident per key, so the notifier
    works out from what it stored before which critical and which warning key
    are open there. *)

From S2P Require Export IncidentStore.
From Stdlib Require Import Ascii String ZArith Lia.
Local Open Scope string_scope.
Local Open Scope Z_scope.

Record IncidentNotification := {
  inc_ProjectId : string;
  inc_ApplicationId : ApplicationId;
  inc_IncidentKey : string;
  inc_Status : Z;
  inc_Destination : Destination;
  inc_Timestamp : Z;
  inc_SentAt : Z;
  inc_ExternalKey : string;
  inc_Details : option IncidentNotificationDetails
}.

Definition inc_set_external_key (k : string) (n : IncidentNotification) : IncidentNotification :=
  {| inc_ProjectId := inc_ProjectId n; inc_ApplicationId := inc_ApplicationId n; inc_IncidentKey := inc_IncidentKey n;
     inc_Status := inc_Status n; inc_Destination := inc_Destination n; inc_Timestamp := inc_Timestamp n;
     inc_SentAt := inc_SentAt n; inc_ExternalKey := k; inc_Details := inc_Details n |}.
Definition inc_set_sent_at (t : Z) (n : IncidentNotification) : IncidentNotification :=
  {| inc_ProjectId := inc_ProjectId n; inc_ApplicationId := inc_ApplicationId n; inc_IncidentKey := inc_IncidentKey n;
     inc_Status := inc_Status n; inc_Destination := inc_Destination n; inc_Timestamp := inc_Timestamp n;
     inc_SentAt := t; inc_ExternalKey := inc_ExternalKey n; inc_Details := inc_Details n |}.
Definition inc_set_message (status : Z) (key : string) (d : option IncidentNotificationDetails) (n : IncidentNotification) : IncidentNotification :=
  {| inc_ProjectId := inc_ProjectId n; inc_ApplicationId := inc_ApplicationId n; inc_IncidentKey := inc_IncidentKey n;
     inc_Status := status; inc_Destination := inc_Destination n; inc_Timestamp := inc_Timestamp n;
     inc_SentAt := inc_SentAt n; inc_ExternalKey := key; inc_Details := d |}.

Definition inc_row (n : IncidentNotification) : IncidentNotificationRow :=
  {| in_project_id := inc_ProjectId n; in_application_id := AppIdString (inc_ApplicationId n);
     in_incident_key := inc_IncidentKey n; in_status := inc_Status n; in_destination := dest_Value (inc_Destination n);
     in_timestamp := inc_Timestamp n; in_sent_at := 0; in_external_key := inc_ExternalKey n; in_details := inc_Details n |}.

Definition inc_scan (r : IncidentNotificationRow) : option IncidentNotification :=
  match scan_app_id (in_project_id r) (in_application_id r) with
  | None => None
  | Some id =>
      Some {| inc_ProjectId := in_project_id r; inc_ApplicationId := id; inc_IncidentKey := in_incident_key r;
              inc_Status := in_status r; inc_Destination := dest_Scan (in_destination r); inc_Timestamp := in_timestamp r;
              inc_SentAt := 0; inc_ExternalKey := in_external_key r; inc_Details := in_details r |}
  end.

(** ORDER BY project_id, application_id, incident_key, timestamp *)
Definition inc_unsent_order (a b : IncidentNotificationRow) : bool :=
  match lex (String.compare (in_project_id a) (in_project_id b))
         (lex (String.compare (in_application_id a) (in_application_id b))
            (lex (String.compare (in_incident_key a) (in_incident_key b)) (in_timestamp a ?= in_timestamp b))) with
  | Gt => false | _ => true
  end.
Definition inc_by_timestamp (a b : IncidentNotificationRow) : bool := in_timestamp a <=? in_timestamp b.

Definition inc_same (n : IncidentNotification) (r : IncidentNotificationRow) : bool :=
  String.eqb (in_project_id r) (inc_ProjectId n) && String.eqb (in_incident_key r) (inc_IncidentKey n)
  && String.eqb (in_destination r) (dest_Value (inc_Destination n)).
Definition inc_key (n : IncidentNotification) (r : IncidentNotificationRow) : bool :=
  inc_same n r && (in_timestamp r =? inc_Timestamp n).
Definition inc_previous_of (n : IncidentNotification) (r : IncidentNotificationRow) : bool :=
  inc_same n r && (in_timestamp r <? inc_Timestamp n).

Definition inc_row_set_sent (sent : Z) (key : string) (r : IncidentNotificationRow) : IncidentNotificationRow :=
  {| in_project_id := in_project_id r; in_application_id := in_application_id r; in_incident_key := in_incident_key r;
     in_status := in_status r; in_destination := in_destination r; in_timestamp := in_timestamp r;
     in_sent_at := sent; in_external_key := key; in_details := in_details r |}.

Class IncidentDelivery := { delivery_send_incident : nat → IncidentNotification → string + string }.

(** The loop of [getOpenIncidents]: the critical and the warning key open at
    the destination. *)
Definition open_step (keys : string * string) (prev : IncidentNotification) : string * string :=
  let '(critical, warning) := keys in
  if inc_Status prev =? Status.CRITICAL then (inc_ExternalKey prev, warning)
  else if inc_Status prev =? Status.WARNING then (critical, inc_ExternalKey prev)
  else if inc_Status prev =? Status.OK then
    if String.eqb warning (inc_ExternalKey prev) then (critical, "")
    else if String.eqb critical (inc_ExternalKey prev) then ("", warning) else keys
  else keys.
Definition open_keys (prevs : list IncidentNotification) : string * string := foldl open_step ("", "") prevs.

Definition inc_thread_key (n : IncidentNotification) (prevs : list IncidentNotification) : IncidentNotification :=
  foldl (λ n pn, if String.eqb (inc_ExternalKey pn) "" then n else inc_set_external_key (inc_ExternalKey pn) n) n prevs.

Section notifier.
Context `{Env} `{Delivery} `{IncidentDelivery} `{LogParser} {Mem : Type}.

Definition PutIncidentNotification (n : IncidentNotification) : M Mem (string + unit) :=
  update (with_incident_notification (λ rows, (rows ++ [inc_row n])%list)).
Definition UpdateIncidentNotification (n : IncidentNotification) : M Mem (string + unit) :=
  update (with_incident_notification (update_where (inc_key n) (inc_row_set_sent (inc_SentAt n) (inc_ExternalKey n)))).
Definition GetNotSentIncidentNotifications (from : Z) : M Mem (string + list IncidentNotification) :=
  select (λ t, scan_all inc_scan
    (order_by inc_unsent_order (where_ (λ r, (from <=? in_timestamp r) && (in_sent_at r =? 0)) (t_incident_notification t)))).
Definition GetPreviousIncidentNotifications (n : IncidentNotification) : M Mem (string + list IncidentNotification) :=
  select (λ t, scan_all inc_scan (order_by inc_by_timestamp (where_ (inc_previous_of n) (t_incident_notification t)))).

(** The checks behind an incident that is still open, the SLO report apart. *)
Definition incident_reports (app : Application) : list (string * string * string) :=
  flat_map (λ r,
    if String.eqb (rep_Name r) AuditReportSLO then []
    else (λ ch, (rep_Name r, ch_Title ch,
                 if bool_decide (StringSet.Len (ch_Details ch) = 0%nat) then ch_Message ch
                 else (ch_Message ch ++ " (" ++ GoStrings.Join (StringSet.Items (ch_Details ch)) "; " ++ ")")%string))
         <$> where_ (λ ch, negb (ch_Status ch <? Status.WARNING)) (rep_Checks r)) (app_Reports app).

Definition incidentDetails (app : Application) (i : ApplicationIncident) : option IncidentNotificationDetails :=
  let reports := if Resolved i then [] else incident_reports app in
  match reports, i_RCA i with
  | [], None => None
  | _, rca =>
      let ok := match rca with Some r => String.eqb (rca_Status r) "OK" | None => false end in
      let field (f : RCA → string) := match rca with Some r => if ok then f r else "" | None => "" end in
      Some {| ind_Reports := reports; ind_RCASummary := field rca_ShortSummary; ind_RCARemediations := field rca_ImmediateFixes |}
  end.

Definition getOpenIncidents (n : IncidentNotification) : M Mem (string + string * string) :=
  prevs ← GetPreviousIncidentNotifications n;
  mret (match prevs with inl err => inl err | inr prevs => inr (open_keys prevs) end).

Definition inc_onOpen (externalKey : string) (n : IncidentNotification) (details : option IncidentNotificationDetails) : M Mem unit :=
  _ ← PutIncidentNotification (inc_set_message (inc_Status n) externalKey details n); mret tt.
Definition inc_onResolve (externalKey : string) (n : IncidentNotification) (details : option IncidentNotificationDetails) : M Mem unit :=
  _ ← PutIncidentNotification (inc_set_message Status.OK externalKey details n); mret tt.

Definition incident_external_key (project : Project) (i : ApplicationIncident) : string :=
  (p_Id project ++ ":" ++ i_Key i ++ ":" ++ Status.ToString (i_Severity i))%string.
Definition incident_notification (now : Z) (project : Project) (app : Application) (i : ApplicationIncident) (d : Destination) : IncidentNotification :=
  {| inc_ProjectId := p_Id project; inc_ApplicationId := app_Id app; inc_IncidentKey := i_Key i; inc_Status := i_Severity i;
     inc_Destination := d; inc_Timestamp := now; inc_SentAt := 0; inc_ExternalKey := ""; inc_Details := None |}.

(** [onResolve] of a key, when it is open. *)
Definition resolve_key (key : string) (n : IncidentNotification) : M Mem unit :=
  if String.eqb key "" then mret tt else inc_onResolve key n None.

Definition enqueue_incident (now : Z) (project : Project) (app : Application) (i : ApplicationIncident) (d : Destination) : M Mem unit :=
  let n := incident_notification now project app i d in
  let t := d_IntegrationType d in
  if String.eqb t IntegrationTypeSlack || String.eqb t IntegrationTypeTeams || String.eqb t IntegrationTypeWebhook then
    if Resolved i then inc_onResolve "" n (incidentDetails app i) else inc_onOpen "" n (incidentDetails app i)
  else if String.eqb t IntegrationTypePagerduty || String.eqb t IntegrationTypeOpsgenie then
    r ← getOpenIncidents n;
    match r with
    | inl _ => mret tt
    | inr (openCriticalKey, openWarningKey) =>
        let externalKey := incident_external_key project i in
        if Resolved i then _ ← resolve_key openCriticalKey n; resolve_key openWarningKey n
        else if i_Severity i =? Status.WARNING then
          _ ← resolve_key openCriticalKey n; inc_onOpen externalKey n (incidentDetails app i)
        else if i_Severity i =? Status.CRITICAL then inc_onOpen externalKey n (incidentDetails app i)
        else mret tt
    end
  else mret tt.

Definition SendIncident (n : IncidentNotification) : M Mem (string + string) := ask (λ k, delivery_send_incident k n).
Definition inc_dkey (n : IncidentNotification) : string * Destination := (inc_ProjectId n, inc_Destination n).
Definition inc_sent_record : Type := IncidentNotification * bool.

Definition send_one_incident (project : Project) (n : IncidentNotification) : M Mem (option string * IncidentNotification * list inc_sent_record) :=
  if getClient (inc_Destination n) (p_Integrations project) NotificationTypeIncident then
    n ← (if String.eqb (d_IntegrationType (inc_Destination n)) IntegrationTypeSlack then
           prevs ← GetPreviousIncidentNotifications n;
           mret (match prevs with inl _ => n | inr prevs => inc_thread_key n prevs end)
         else mret n);
    r ← SendIncident n;
    match r with
    | inl err => mret (Some err, n, [(n, false)])
    | inr key => mret (None, inc_set_external_key key n, [(n, true)])
    end
  else mret (None, n, []).

Fixpoint send_incident_loop (projects : list Project) (notifications : list IncidentNotification)
    (failedDestinations : list (string * Destination)) : M Mem (list inc_sent_record) :=
  match notifications with
  | [] => mret []
  | n :: notifications =>
      if bool_decide (inc_dkey n ∈ failedDestinations) then send_incident_loop projects notifications failedDestinations
      else
        match List.find (λ p, String.eqb (p_Id p) (inc_ProjectId n)) projects with
        | None => send_incident_loop projects notifications failedDestinations
        | Some project =>
            r ← send_one_incident project n;
            let '(sendErr, n', sent) := r in
            match sendErr with
            | Some _ =>
                rest ← send_incident_loop projects notifications (inc_dkey n :: failedDestinations);
                mret (sent ++ rest)%list
            | None =>
                now ← Now;
                _ ← UpdateIncidentNotification (inc_set_sent_at now n');
                rest ← send_incident_loop projects notifications failedDestinations;
                mret (sent ++ rest)%list
            end
        end
  end.

Definition sendIncidents : M Mem (list inc_sent_record) :=
  ps ← GetProjects;
  match ps with
  | inl _ => mret []
  | inr [] => mret []
  | inr projects =>
      now ← Now;
      r ← GetNotSentIncidentNotifications (Time.Add now (wrap64 (- retryWindow)));
      match r with
      | inl _ => mret []
      | inr notifications => send_incident_loop projects notifications []
      end
  end.

Definition EnqueueIncident (project : Project) (app : Application) (i : ApplicationIncident) (now : Z) : M Mem unit :=
  match GetApplicationCategories project !! app_Category app with
  | None => mret tt
  | Some c =>
      let s := ns_Incidents (ac_NotificationSettings c) in
      if ks_Enabled s then
        _ ← forM_ (destinations s) (enqueue_incident now project app i);
        _ ← sendIncidents;
        mret tt
      else mret tt
  end.

End notifier.
