(* ===== verification/IncidentNotifySpec.v ===== *)
(** What the incident notifier promises: which keys are open at a destination,
    what enqueueing stores, and what the notifier leaves alone. *)

From S2P Require Export IncidentNotify.
From Stdlib Require Import Ascii String ZArith Lia.
Local Open Scope string_scope.
Local Open Scope Z_scope.

(** * Open keys *)
Lemma open_keys_snoc prevs n : open_keys (prevs ++ [n])%list = open_step (open_keys prevs) n.
Proof. unfold open_keys. by rewrite foldl_app. Qed.

(** The notification that left key [k] open with severity [st]. *)
Definition inc_left_open (st : Z) (prevs : list IncidentNotification) (k : string) : Prop :=
  ∃ pre n post, prevs = (pre ++ n :: post)%list ∧ inc_Status n = st ∧ inc_ExternalKey n = k ∧
    ∀ m, m ∈ post → inc_Status m ≠ st ∧ (inc_Status m = Status.OK → inc_ExternalKey m ≠ k).

Lemma inc_left_open_snoc st prevs n k :
  inc_left_open st (prevs ++ [n])%list k ↔
    if inc_Status n =? st then inc_ExternalKey n = k
    else inc_left_open st prevs k ∧ (inc_Status n = Status.OK → inc_ExternalKey n ≠ k).
Proof.
  destruct (Z.eqb_spec (inc_Status n) st) as [Hn|Hn]; split.
  - intros (pre & x & post & Heq & Hx & Hk & Hpost). destruct post as [|y post _] using rev_ind.
    + by apply app_inj_tail in Heq as [-> ->].
    + rewrite app_comm_cons, app_assoc in Heq. apply app_inj_tail in Heq as [-> ->].
      destruct (Hpost y) as [Hy _]; [set_solver|]. done.
  - intros Hk. exists prevs, n, []. split_and!; try done. set_solver.
  - intros (pre & x & post & Heq & Hx & Hk & Hpost). destruct post as [|y post _] using rev_ind.
    + apply app_inj_tail in Heq as [-> ->]. done.
    + rewrite app_comm_cons, app_assoc in Heq. apply app_inj_tail in Heq as [-> ->].
      destruct (Hpost y) as [_ Hy]; [set_solver|]. split; [|done].
      exists pre, x, post. split_and!; try done. intros m Hm. apply Hpost. set_solver.
  - intros [(pre & x & post & -> & Hx & Hk & Hpost) Hne].
    exists pre, x, (post ++ [n])%list. split_and!; [by rewrite <- app_assoc|done|done|].
    intros m [Hm|Hm%list_elem_of_singleton]%elem_of_app; [by apply Hpost|by subst m].
Qed.

(** No key is used for both severities: an external key ends with its own. *)
Definition keys_apart (prevs : list IncidentNotification) : Prop :=
  ∀ n m, n ∈ prevs → m ∈ prevs → inc_Status n = Status.CRITICAL → inc_Status m = Status.WARNING →
    inc_ExternalKey n ≠ inc_ExternalKey m.

(** A key found open was used to open. *)
Lemma open_keys_used prevs :
  (fst (open_keys prevs) = "" ∨ ∃ n, n ∈ prevs ∧ inc_Status n = Status.CRITICAL ∧ inc_ExternalKey n = fst (open_keys prevs))
  ∧ (snd (open_keys prevs) = "" ∨ ∃ n, n ∈ prevs ∧ inc_Status n = Status.WARNING ∧ inc_ExternalKey n = snd (open_keys prevs)).
Proof.
  induction prevs as [|n prevs IH] using rev_ind; [by split; left|].
  rewrite open_keys_snoc. unfold open_step. destruct (open_keys prevs) as [c w]. cbn [fst snd] in *.
  destruct IH as [IHc IHw].
  assert (∀ k st, (k = "" ∨ ∃ m, m ∈ prevs ∧ inc_Status m = st ∧ inc_ExternalKey m = k) →
    k = "" ∨ ∃ m, m ∈ (prevs ++ [n])%list ∧ inc_Status m = st ∧ inc_ExternalKey m = k) as Hmono by set_solver.
  destruct (Z.eqb_spec (inc_Status n) Status.CRITICAL); [split; [right; exists n; set_solver|auto]|].
  destruct (Z.eqb_spec (inc_Status n) Status.WARNING); [split; [auto|right; exists n; set_solver]|].
  destruct (Z.eqb_spec (inc_Status n) Status.OK); [|auto].
  destruct (String.eqb w (inc_ExternalKey n)); [auto|]. destruct (String.eqb c (inc_ExternalKey n)); auto.
Qed.

(** The keys [getOpenIncidents] finds open at a destination: a critical key
    is open exactly when some critical notification opened it, no later one is
    critical, and no later one resolves it; and the same for warnings. *)
Theorem open_keys_spec (prevs : list IncidentNotification) (k : string) (Hk : k ≠ "") (Hapart : keys_apart prevs) :
  (fst (open_keys prevs) = k ↔ inc_left_open Status.CRITICAL prevs k)
  ∧ (snd (open_keys prevs) = k ↔ inc_left_open Status.WARNING prevs k).
Proof.
  induction prevs as [|n prevs IH] using rev_ind.
  { split; (split; [done|]); by intros ([|] & ? & ? & ? & _). }
  destruct IH as [IHc IHw]; [intros a b Ha Hb; apply Hapart; set_solver|].
  pose proof (open_keys_used prevs) as [Huc Huw].
  rewrite open_keys_snoc, !inc_left_open_snoc. unfold open_step. destruct (open_keys prevs) as [c w]. cbn [fst snd] in *.
  destruct (Z.eqb_spec (inc_Status n) Status.CRITICAL) as [Hc|Hc].
  { rewrite Hc. cbn [fst snd]. change (Status.CRITICAL =? Status.WARNING) with false. cbn iota.
    split; [done|]. rewrite IHw. split; [intros; split; [done|discriminate]|tauto]. }
  destruct (Z.eqb_spec (inc_Status n) Status.WARNING) as [Hw|Hw].
  { cbn [fst snd]. split; [|done]. rewrite IHc, Hw. split; [intros; split; [done|discriminate]|tauto]. }
  rewrite <- IHc, <- IHw. destruct (Z.eqb_spec (inc_Status n) Status.OK) as [Ho|Ho]; cbn [fst snd].
  2:{ split; tauto. }
  destruct (String.eqb_spec w (inc_ExternalKey n)) as [Hwk|Hwk]; cbn [fst snd].
  { split; [|naive_solver]. split; [|tauto]. intros Hck. split; [done|]. intros _ Hnk.
    destruct Huc as [?|(x & Hx & Hxs & Hxk)]; [congruence|]. destruct Huw as [?|(y & Hy & Hys & Hyk)]; [congruence|].
    apply (Hapart x y); [set_solver|set_solver|done|done|congruence]. }
  destruct (String.eqb_spec c (inc_ExternalKey n)) as [Hck|Hck]; cbn [fst snd]; naive_solver.
Qed.

(** * Enqueueing *)
Section enqueue.
Context `{Env} `{Delivery} `{IncidentDelivery} `{LP : LogParser} {Mem : Type}.

(** What enqueueing an incident for a destination that holds one incident per
    key stores, when [prevs] was stored before. *)
Definition key_messages (now : Z) (project : Project) (app : Application) (i : ApplicationIncident) (d : Destination)
    (prevs : list IncidentNotification) : list IncidentNotification :=
  let n := incident_notification now project app i d in
  let '(critical, warning) := open_keys prevs in
  let close k := if String.eqb k "" then [] else [inc_set_message Status.OK k None n] in
  let open := [inc_set_message (i_Severity i) (incident_external_key project i) (incidentDetails app i) n] in
  if Resolved i then (close critical ++ close warning)%list
  else if i_Severity i =? Status.WARNING then (close critical ++ open)%list
  else if i_Severity i =? Status.CRITICAL then open else [].

Definition inc_previous (n : IncidentNotification) (t : Tables) : string + list IncidentNotification :=
  scan_all inc_scan (order_by inc_by_timestamp (where_ (inc_previous_of n) (t_incident_notification t))).

Definition stored (s : Sys Mem) (l : list IncidentNotification) (s' : Sys Mem) : Prop :=
  t_incident_notification (sys_tables s') = (t_incident_notification (sys_tables s) ++ (inc_row <$> l))%list.

Context (Hnf : ∀ k, env_fault k = None).

Lemma put_run n (s : Sys Mem) :
  ∃ s', (_ ← PutIncidentNotification n; mret tt) s = (tt, s') ∧ stored s [n] s'.
Proof. unfold PutIncidentNotification, mbind, M_bind. rewrite DbFacts.update_run by done. by eexists. Qed.

Lemma stored_trans (s1 s2 s3 : Sys Mem) l k : stored s1 l s2 → stored s2 k s3 → stored s1 (l ++ k)%list s3.
Proof. unfold stored. intros -> ->. by rewrite fmap_app, <- app_assoc. Qed.

Lemma resolve_key_run k n (s : Sys Mem) :
  ∃ s', resolve_key k n s = (tt, s') ∧ stored s (if String.eqb k "" then [] else [inc_set_message Status.OK k None n]) s'.
Proof.
  unfold resolve_key. destruct (String.eqb k ""); [exists s; split; [done|unfold stored; by rewrite app_nil_r]|].
  apply put_run.
Qed.

Lemma bind_stored (m k : M Mem unit) (s : Sys Mem) l1 l2 :
  (∃ s', m s = (tt, s') ∧ stored s l1 s') → (∀ s', ∃ s'', k s' = (tt, s'') ∧ stored s' l2 s'') →
  ∃ s', (_ ← m; k) s = (tt, s') ∧ stored s (l1 ++ l2)%list s'.
Proof.
  intros (s1 & Hm & Hs1) Hk. destruct (Hk s1) as (s2 & Hk' & Hs2). exists s2.
  split; [by rewrite (DbFacts.bind_run _ _ _ _ _ Hm)|by apply stored_trans with s1].
Qed.

(** Compares the strings a test is about. *)
Ltac case_eqb := match goal with |- context [String.eqb ?a ?b] => destruct (String.eqb_spec a b) end.

Lemma open_step_ok c w k d n :
  open_step (c, w) (inc_set_message Status.OK k d n) =
    if String.eqb w k then (c, "") else if String.eqb c k then ("", w) else (c, w).
Proof. done. Qed.

Definition is_keyed (d : Destination) : bool :=
  String.eqb (d_IntegrationType d) IntegrationTypePagerduty || String.eqb (d_IntegrationType d) IntegrationTypeOpsgenie.

Lemma enqueue_keyed_run now project app i d (s : Sys Mem) prevs :
  is_keyed d = true → inc_previous (incident_notification now project app i d) (sys_tables s) = inr prevs →
  stored s (key_messages now project app i d prevs) (snd (enqueue_incident now project app i d s)).
Proof.
  intros Hd Hprev. unfold enqueue_incident. cbv zeta. unfold is_keyed in Hd. rewrite Hd.
  apply orb_true_iff in Hd.
  replace (String.eqb _ _ || String.eqb _ _ || String.eqb _ _) with false
    by (destruct Hd as [Hd|Hd]; apply String.eqb_eq in Hd; by rewrite Hd).
  unfold mbind at 1, M_bind at 1. unfold getOpenIncidents, GetPreviousIncidentNotifications. unfold mbind at 1, M_bind at 1.
  rewrite DbFacts.select_run by done. unfold inc_previous in Hprev. rewrite Hprev. cbn [mret M_ret]. unfold key_messages.
  destruct (open_keys prevs) as [c w].
  set (n := incident_notification now project app i d). set (s1 := tick s).
  change (stored s) with (stored s1).
  assert (∀ m l, (∃ s', m s1 = (tt, s') ∧ stored s1 l s') → stored s1 l (snd (m s1))) as Hgo by (intros m l (s' & -> & Hs'); done).
  destruct (Resolved i); [|destruct (i_Severity i =? Status.WARNING); [|destruct (i_Severity i =? Status.CRITICAL)]]; cbn iota.
  - apply (Hgo (_ ← resolve_key c n; resolve_key w n)), bind_stored; [apply resolve_key_run|intros; apply resolve_key_run].
  - apply (Hgo (_ ← resolve_key c n; inc_onOpen _ n _)), bind_stored; [apply resolve_key_run|intros; apply put_run].
  - apply (Hgo (inc_onOpen _ n _)), put_run.
  - unfold stored. cbn. by rewrite app_nil_r.
Qed.

(** What enqueueing an incident for PagerDuty or Opsgenie stores, when no call
    fails, and what is then open at the destination: a resolved incident closes
    every open key; a critical one is open under its own key; a warning closes
    the critical key first. *)
Theorem enqueue_incident_keyed (now : Z) (project : Project) (app : Application) (i : ApplicationIncident) (d : Destination)
    (s : Sys Mem) (prevs : list IncidentNotification) (Hd : is_keyed d = true)
    (Hprev : inc_previous (incident_notification now project app i d) (sys_tables s) = inr prevs) :
  let msgs := key_messages now project app i d prevs in
  let ext := incident_external_key project i in
  t_incident_notification (sys_tables (snd (enqueue_incident now project app i d s))) =
    (t_incident_notification (sys_tables s) ++ (inc_row <$> msgs))%list
  ∧ (Resolved i = true → open_keys (prevs ++ msgs)%list = ("", ""))
  ∧ (Resolved i = false → i_Severity i = Status.CRITICAL →
       open_keys (prevs ++ msgs)%list = (ext, snd (open_keys prevs)))
  ∧ (Resolved i = false → i_Severity i = Status.WARNING → fst (open_keys prevs) ≠ snd (open_keys prevs) ∨ fst (open_keys prevs) = "" →
       open_keys (prevs ++ msgs)%list = ("", ext)).
Proof.
  cbv zeta. split; [by apply enqueue_keyed_run|]. unfold key_messages.
  assert (∀ l, open_keys (prevs ++ l)%list = foldl open_step (open_keys prevs) l) as Happ by (intros; apply foldl_app).
  destruct (open_keys prevs) as [c w] eqn:Hk. split_and!.
  - intros ->. rewrite Happ, foldl_app.
    destruct (String.eqb_spec c "") as [->|Hc]; destruct (String.eqb_spec w "") as [->|Hw]; cbn [foldl]; try done;
      repeat (rewrite ?open_step_ok; case_eqb; try congruence).
  - intros -> Hs. by rewrite Happ, Hs.
  - intros -> Hs Hne. rewrite Happ, Hs. change (Status.WARNING =? Status.WARNING) with true. cbn iota.
    rewrite foldl_app. cbn [fst snd] in Hne.
    destruct (String.eqb_spec c "") as [->|Hc]; cbn [foldl]; [done|].
    rewrite open_step_ok. destruct Hne as [Hne|?]; [|done].
    repeat (case_eqb; try congruence). done.
Qed.

End enqueue.

(** * What the notifier leaves alone *)
Section frame.
Context `{Env} `{Delivery} `{IncidentDelivery} `{LP : LogParser} {Mem : Type}.

(** Everything but its own table. *)
Definition inc_outbox (t : Tables) : Tables := with_incident_notification (λ _, []) t.

Lemma frames_send_one_incident project n : DbFacts.frames (Mem := Mem) inc_outbox (send_one_incident project n).
Proof. unfold send_one_incident, GetPreviousIncidentNotifications, SendIncident. DbFacts.frames. Qed.

Lemma frames_send_incident_loop projects l failed : DbFacts.frames (Mem := Mem) inc_outbox (send_incident_loop projects l failed).
Proof.
  revert failed. induction l as [|n l IH]; intros failed; cbn [send_incident_loop]; [DbFacts.frames|].
  pose proof frames_send_one_incident. unfold UpdateIncidentNotification. DbFacts.frames.
Qed.

Lemma frames_EnqueueIncident project app i now : DbFacts.frames (Mem := Mem) inc_outbox (EnqueueIncident project app i now).
Proof.
  pose proof frames_send_incident_loop.
  unfold EnqueueIncident, sendIncidents, GetProjects, GetNotSentIncidentNotifications, enqueue_incident, resolve_key, inc_onOpen,
    inc_onResolve, PutIncidentNotification, getOpenIncidents, GetPreviousIncidentNotifications.
  DbFacts.frames.
Qed.

End frame.

(** * Concrete runs *)
Module IncidentNotifyRuns.

#[local] Instance run_env : Env := steady_env 1000.
#[local] Instance run_delivery : Delivery := AlertNotifyFacts.refusing_delivery.
#[local] Instance run_incident_delivery : IncidentDelivery := {| delivery_send_incident _ _ := inl "refused" |}.
#[local] Instance run_parser : LogParser :=
  {| Pattern := string; PatternString s := s; WeakEqual := String.eqb; NewPatternFromWords s := s |}.

Definition run_message (status : Z) (key : string) : IncidentNotification :=
  {| inc_ProjectId := "p"; inc_ApplicationId := NewApplicationId "c" "ns" "Deployment" "app"; inc_IncidentKey := "k";
     inc_Status := status; inc_Destination := Build_Destination "pagerduty" "" ""; inc_Timestamp := 1; inc_SentAt := 0;
     inc_ExternalKey := key; inc_Details := None |}.

Lemma open_keys_spec_witness :
  let prevs := [run_message Status.CRITICAL "p:k:critical"; run_message Status.WARNING "p:k:warning"; run_message Status.OK "p:k:warning"] in
  (fst (open_keys prevs) = "p:k:critical" ↔ inc_left_open Status.CRITICAL prevs "p:k:critical")
  ∧ (snd (open_keys prevs) = "p:k:critical" ↔ inc_left_open Status.WARNING prevs "p:k:critical").
Proof.
  apply (open_keys_spec [run_message Status.CRITICAL "p:k:critical"; run_message Status.WARNING "p:k:warning"; run_message Status.OK "p:k:warning"]
    "p:k:critical"); [discriminate|].
  intros n m Hn Hm. rewrite !elem_of_cons, elem_of_nil in Hn, Hm.
  destruct Hn as [-> |[-> |[-> |[]]]], Hm as [-> |[-> |[-> |[]]]]; cbn; discriminate.
Defined.

Definition run_app : Application :=
  {| app_Id := NewApplicationId "c" "ns" "Deployment" "app"; app_Category := "application"; app_Instances := [];
     app_LogMessages := []; app_Reports := []; app_AvailabilitySLIs := []; app_LatencySLIs := []; app_Deployments := []; app_Annotations := []; app_TrafficStats := no_traffic; app_DNSRequests := [];
     app_DNSRequestsHistogram := []; app_InboundRequestsCount := []; app_InboundRequestsHistogram := [] |}.
Definition run_incident (resolved severity : Z) : ApplicationIncident :=
  {| i_ApplicationId := app_Id run_app; i_Key := "k"; i_OpenedAt := 10; i_ResolvedAt := resolved; i_Severity := severity;
     i_Details := no_details; i_RCA := None |}.
Definition run_state : Sys unit :=
  Build_Sys tt (with_incident_notification (λ _, [inc_row (run_message Status.CRITICAL "p:k:critical")]) no_tables) 0.

(** The critical incident stored at time 1 is closed when it is resolved. *)
Lemma enqueue_incident_keyed_witness :
  let prevs := [run_message Status.CRITICAL "p:k:critical"] in
  let d := Build_Destination "pagerduty" "" "" in
  let msgs := key_messages 20 AlertNotifyFacts.webhook_project run_app (run_incident 20 Status.OK) d prevs in
  in_external_key <$> t_incident_notification (sys_tables (snd
    (enqueue_incident 20 AlertNotifyFacts.webhook_project run_app (run_incident 20 Status.OK) d run_state))) = ["p:k:critical"; "p:k:critical"]
  ∧ open_keys (prevs ++ msgs)%list = ("", "").
Proof.
  destruct (enqueue_incident_keyed (H := run_env) (Mem := unit) (λ _, eq_refl) 20 AlertNotifyFacts.webhook_project run_app (run_incident 20 Status.OK)
    (Build_Destination "pagerduty" "" "") run_state [run_message Status.CRITICAL "p:k:critical"] eq_refl eq_refl)
    as (Hrows & Hclosed & _).
  cbv zeta. rewrite Hrows. split; [vm_compute; reflexivity|]. exact (Hclosed eq_refl).
Defined.

End IncidentNotifyRuns.
