(* ===== verification/Incidents.v ===== *)
(** watchers/incidents.go: SLO burn rates and the life of an incident, and
    [IncidentRCA] and [IncidentTimeContext] of api/rca.go.

    The sums over a window panic when a series has a step of zero ([outcome]);
    a panic ends the run.  Parameters: what the cloud answers about the root
    cause of an incident, and whether the data it is sent can be read. *)

From S2P Require Export IncidentNotify Checks DeploymentStore.
From Stdlib Require Import Ascii String ZArith Lia.
Local Open Scope string_scope.
Local Open Scope Z_scope.

(** * Sums over a window *)
Definition sumFromFunc : Type := Z → outcome f32.

Definition total_step (s : f32 * Z * Z) (t : Z) (v : f32) : outcome (f32 * Z * Z) :=
  let '(sum, count, countDefined) := s in
  if IsNaN v then Ret (sum, count + 1, countDefined)
  else Ret (F32.add sum v, count + 1, countDefined + 1).

(** Undefined when fewer than half of the points are. *)
Definition totalSum (ts : option TimeSeries) : sumFromFunc := λ from,
  let* iter := IterFrom ts from in
  let* r := for_iter (iter_fuel ts) total_step iter (F32.zero, 0, 0) in
  let '(sum, count, countDefined) := r in
  if F32.ltb (F32.div (F32.of_Z countDefined) (F32.of_Z count)) (F32.frac 1 2) then Ret NaN else Ret sum.

Definition failed_step (sum : f32) (t : Z) (v : f32) : outcome f32 :=
  if IsNaN v then Ret sum else Ret (F32.add sum v).
Definition failedSum (ts : option TimeSeries) : sumFromFunc := λ from,
  let* iter := IterFrom ts from in for_iter (iter_fuel ts) failed_step iter F32.zero.

Definition slow_step (sum total fast : f32) : outcome f32 :=
  if IsNaN total then Ret sum
  else if IsNaN fast then Ret (F32.add sum total)
  else Ret (F32.add sum (F32.sub total fast)).
Definition slowSum (totalRaw fastRaw : option TimeSeries) : sumFromFunc := λ from,
  let* totalIter := IterFrom totalRaw from in
  let* fastIter := IterFrom fastRaw from in
  for_iter2 (iter_fuel totalRaw) slow_step totalIter fastIter F32.zero.

(** * Burn rates *)

(** One rule: [None] when a window has no defined ratio. *)
Definition rule_burn_rate (now : Z) (badSum totalSum : sumFromFunc) (objective : f32) (r : AlertRule) : outcome (option BurnRate) :=
  let from := Time.Add now (wrap64 (- ar_LongWindow r)) in
  let* total := totalSum from in
  let* bad := badSum from in
  let v := F32.div bad total in
  if IsNaN v then Ret None
  else
    let from := Time.Add now (wrap64 (- ar_ShortWindow r)) in
    let* bad := badSum from in
    let* total := totalSum from in
    let w := F32.div bad total in
    if IsNaN w then Ret None
    else
      let long := F32.div v objective in
      let short := F32.div w objective in
      Ret (Some {| br_LongWindowPercentage := F32.mul v (F32.of_Z 100); br_ShortWindowPercentage := F32.mul w (F32.of_Z 100);
                   br_LongWindowBurnRate := long; br_ShortWindowBurnRate := short;
                   br_LongWindow := ar_LongWindow r; br_ShortWindow := ar_ShortWindow r;
                   br_Severity := if F32.gtb long (ar_BurnRateThreshold r) && F32.gtb short (ar_BurnRateThreshold r)
                                  then ar_Severity r else Status.OK;
                   br_Threshold := ar_BurnRateThreshold r |}).

Fixpoint burn_rates (now : Z) (badSum totalSum : sumFromFunc) (objective : f32) (rules : list AlertRule) : outcome (list BurnRate) :=
  match rules with
  | [] => Ret []
  | r :: rules =>
      let* b := rule_burn_rate now badSum totalSum objective r in
      let* res := burn_rates now badSum totalSum objective rules in
      Ret (match b with Some b => b :: res | None => res end)
  end.

Definition calcBurnRates (now : Z) (badSum totalSum : sumFromFunc) (objectivePercentage : f32) : outcome (list BurnRate) :=
  burn_rates now badSum totalSum (F32.sub F32.one (F32.div objectivePercentage (F32.of_Z 100))) AlertRules.

(** The burn rates, and the sums when there are any. *)
Definition sli_result : Type := list BurnRate * option (sumFromFunc * sumFromFunc).

Section watcher.
Context `{LP : LogParser}.

Definition availability (ctx : Context) (app : Application) : outcome sli_result :=
  match app_AvailabilitySLIs app with
  | [] => Ret ([], None)
  | sli :: _ =>
      if TailIsEmpty (as_TotalRequestsRaw sli) then Ret ([], None)
      else
        let totalF := totalSum (as_TotalRequestsRaw sli) in
        let failedF : sumFromFunc :=
          if IsEmpty (as_FailedRequestsRaw sli) then λ _, Ret F32.zero else failedSum (as_FailedRequestsRaw sli) in
        let* rates := calcBurnRates (ctx_To ctx) failedF totalF (as_ObjectivePercentage sli) in
        Ret (rates, Some (failedF, totalF))
  end.

Definition latency (ctx : Context) (app : Application) : outcome sli_result :=
  match app_LatencySLIs app with
  | [] => Ret ([], None)
  | sli :: _ =>
      let '(totalRaw, fastRaw) := GetTotalAndFast sli true in
      let totalF := totalSum totalRaw in
      if IsEmpty fastRaw then Ret ([], None)
      else
        let slowF := slowSum totalRaw fastRaw in
        let* rates := calcBurnRates (ctx_To ctx) slowF totalF (ls_ObjectivePercentage sli) in
        Ret (rates, Some (slowF, totalF))
  end.

(** The share of bad requests since the incident was opened, in percent. *)
Definition calcImpact (now openedAt : Z) (sums : option (sumFromFunc * sumFromFunc)) : outcome f32 :=
  let from := Time.Add openedAt (wrap64 (- MinAlertRuleShortWindow)) in
  let dataFrom := Time.Add now (wrap64 (- MaxAlertRuleWindow)) in
  let from := if Time.Before from dataFrom then dataFrom else from in
  match sums with
  | None => Ret F32.zero
  | Some (badF, totalF) =>
      let* bad := badF from in
      let* total := totalF from in
      let v := F32.div bad total in
      Ret (if IsNaN v then F32.zero else F32.mul v (F32.of_Z 100))
  end.

Definition worst (status : Z) (rates : list BurnRate) : Z :=
  foldl (λ s br, if s <? br_Severity br then br_Severity br else s) status rates.

(** What one evaluation of an application's SLIs says: the status, and the
    details of an incident opened at a given time. *)
Record Evaluated := { e_status : Z; e_availability : sli_result; e_latency : sli_result }.

Definition evaluate_app (ctx : Context) (app : Application) : outcome Evaluated :=
  let* a := availability ctx app in
  let* l := latency ctx app in
  Ret {| e_status := worst (worst Status.UNKNOWN (fst l)) (fst a); e_availability := a; e_latency := l |}.

Definition evaluated_details (now openedAt : Z) (e : Evaluated) : outcome IncidentDetails :=
  let* ai := calcImpact now openedAt (snd (e_availability e)) in
  let* li := calcImpact now openedAt (snd (e_latency e)) in
  Ret {| id_AvailabilityBurnRates := fst (e_availability e); id_LatencyBurnRates := fst (e_latency e);
         id_AvailabilityImpact := ai; id_LatencyImpact := li |}.

End watcher.

(** * api/rca.go *)
Class RcaCloud := {
  rca_status : nat → string * option string;
  rca_metrics : nat → option string;
  rca_answer : nat → ApplicationId → Z → Z → string + RCA
}.

Definition no_rca : RCA :=
  {| rca_Status := ""; rca_Error := ""; rca_ShortSummary := ""; rca_RootCause := ""; rca_ImmediateFixes := ""; rca_DetailedRootCause := "" |}.
Definition rca_set (status : string) (error : option string) (r : RCA) : RCA :=
  {| rca_Status := status; rca_Error := default (rca_Error r) error; rca_ShortSummary := rca_ShortSummary r;
     rca_RootCause := rca_RootCause r; rca_ImmediateFixes := rca_ImmediateFixes r; rca_DetailedRootCause := rca_DetailedRootCause r |}.

Section incidents.
Context `{Env} `{MapOrder} `{Delivery} `{IncidentDelivery} `{LP : LogParser} `{RcaCloud} {Mem : Type}.

(** The loop of [IncidentTimeContext] over the incidents of the application. *)
Definition time_context_step (key : string) (to from : Z) (i : ApplicationIncident) : Z :=
  if String.eqb (i_Key i) key || negb (Resolved i) then from
  else if Time.After (i_ResolvedAt i) from && Time.Before (i_ResolvedAt i) to then i_ResolvedAt i else from.

Definition IncidentTimeContext (projectId : string) (i : ApplicationIncident) (now : Z) : M Mem (Z * Z) :=
  let from := Time.Add (i_OpenedAt i) (wrap64 (- IncidentTimeOffset)) in
  let to := if Resolved i then i_ResolvedAt i else now in
  r ← GetApplicationIncidents projectId from (i_OpenedAt i);
  match r with
  | inl _ => mret (from, to)
  | inr incidents =>
      mret (foldl (time_context_step (i_Key i) to) from
              (where_ (λ j, bool_decide (i_ApplicationId j = i_ApplicationId i)) incidents), to)
  end.

(** What is read for the request, or the error that ends it: the deployments,
    and the metrics ([Constructor.QueryResults], which reads the settings of the
    checks first). *)
Definition rca_request (project : Project) : M Mem (string + unit) :=
  deployments ← GetApplicationDeployments (p_Id project);
  match deployments with
  | inl err => mret (inl err)
  | inr _ =>
      checkConfigs ← GetCheckConfigs (p_Id project);
      match checkConfigs with
      | inl err => mret (inl err)
      | inr _ => metrics ← ask rca_metrics; mret (match metrics with Some err => inl err | None => inr tt end)
      end
  end.

(** Once the cloud is ready: the RCA the incident ends with. *)
Definition rca_of_incident (project : Project) (w : World) (i : ApplicationIncident) (rca : RCA) : M Mem RCA :=
  if Multicluster project then mret (rca_set "Failed" (Some "RCA is not supported for mult-cluster projects") rca)
  else
    match GetApplication w (i_ApplicationId i) with
    | None => mret (rca_set "Failed" (Some "application not found") rca)
    | Some app =>
        ctx ← IncidentTimeContext (p_Id project) i (ctx_To (w_Ctx w));
        inputs ← rca_request project;
        match inputs with
        | inl err => mret (rca_set "Failed" (Some err) rca)
        | inr _ =>
            answer ← ask (λ n, rca_answer n (app_Id app) (fst ctx) (snd ctx));
            match answer with
            | inl err => mret (rca_set "Failed" (Some err) rca)
            | inr response => mret (rca_set "OK" None response)
            end
        end
    end.

(** The incident is passed by pointer: it is returned with its new RCA, which
    the deferred [UpdateIncidentRCA] sets and stores on every path but the
    first. *)
Definition IncidentRCA (project : Project) (w : World) (i : ApplicationIncident) : M Mem ApplicationIncident :=
  let rca := default no_rca (i_RCA i) in
  if String.eqb (rca_Status rca) "OK" then mret i
  else
    final ← (status ← ask rca_status;
             if negb (String.eqb (fst status) "OK") then mret (rca_set (fst status) (snd status) rca)
             else
               started ← (match i_RCA i with
                          | Some _ => mret (inr tt)
                          | None => UpdateIncidentRCA (p_Id project) (i_Key i) (rca_set "In progress" None no_rca)
                          end);
               match (started : string + unit) with
               | inl _ => mret rca
               | inr _ => rca_of_incident project w i rca
               end);
    _ ← UpdateIncidentRCA (p_Id project) (i_Key i) final;
    mret (with_rca (Some final) i).

(** * Incidents.Check *)

(** What becomes of an application's open incident: the incident and whether
    it is notified; [None] when there is nothing more to do for it. *)
Definition new_incident (app : Application) (key : string) (now status : Z) (d : IncidentDetails) : ApplicationIncident :=
  {| i_ApplicationId := app_Id app; i_Key := key; i_OpenedAt := now; i_ResolvedAt := 0; i_Severity := status;
     i_Details := d; i_RCA := None |}.
Definition set_incident (resolvedAt severity : Z) (d : IncidentDetails) (i : ApplicationIncident) : ApplicationIncident :=
  {| i_ApplicationId := i_ApplicationId i; i_Key := i_Key i; i_OpenedAt := i_OpenedAt i; i_ResolvedAt := resolvedAt;
     i_Severity := severity; i_Details := d; i_RCA := i_RCA i |}.

Definition open_incident (project : Project) (app : Application) (now : Z) (e : Evaluated) : M Mem (outcome (option (ApplicationIncident * bool))) :=
  key ← NanoId;
  match evaluated_details now now e with
  | Panic => mret Panic
  | Ret d =>
      let i := new_incident app key now (e_status e) d in
      err ← CreateIncident (p_Id project) (app_Id app) i;
      mret (Ret (if failed err then None else Some (i, true)))
  end.

Definition resolve_incident (project : Project) (now : Z) (i : ApplicationIncident) : M Mem (outcome (option (ApplicationIncident * bool))) :=
  err ← ResolveIncident (p_Id project) (i_Key i) now;
  mret (Ret (if failed err then None else Some (set_incident now Status.OK (i_Details i) i, true))).

Definition update_incident (project : Project) (now : Z) (e : Evaluated) (i : ApplicationIncident) : M Mem (outcome (option (ApplicationIncident * bool))) :=
  match evaluated_details now (i_OpenedAt i) e with
  | Panic => mret Panic
  | Ret d =>
      err ← UpdateIncident (p_Id project) (i_Key i) (e_status e) d;
      mret (Ret (if failed err then None else Some (set_incident (i_ResolvedAt i) (e_status e) d i, false)))
  end.

(** The root cause is asked for when [w.rca] is set, then the incident is
    notified. *)
Definition after_incident (rca : bool) (project : Project) (w : World) (app : Application) (now : Z) (i : ApplicationIncident)
    (needNotify : bool) : M Mem unit :=
  i ← (if rca then IncidentRCA project w i else mret i);
  if needNotify then EnqueueIncident project app i now else mret tt.

Definition check_app (rca : bool) (project : Project) (w : World) (now : Z) (app : Application) : M Mem (outcome unit) :=
  match evaluate_app (w_Ctx w) app with
  | Panic => mret Panic
  | Ret e =>
      if e_status e =? Status.UNKNOWN then mret (Ret tt)
      else
        r ← GetLastOpenIncident (p_Id project) (app_Id app);
        match r with
        | inl _ => mret (Ret tt)
        | inr incident =>
            next ← (match incident with
                    | None => if e_status e <=? Status.OK then mret (Ret None) else open_incident project app now e
                    | Some i => if e_status e =? Status.OK then resolve_incident project now i
                                else update_incident project now e i
                    end);
            match next with
            | Panic => mret Panic
            | Ret None => mret (Ret tt)
            | Ret (Some (i, needNotify)) => _ ← after_incident rca project w app now i needNotify; mret (Ret tt)
            end
        end
  end.

Fixpoint check_apps (rca : bool) (project : Project) (w : World) (now : Z) (apps : list Application) : M Mem (outcome unit) :=
  match apps with
  | [] => mret (Ret tt)
  | app :: apps =>
      r ← check_app rca project w now app;
      match r with
      | Panic => mret Panic
      | Ret _ => check_apps rca project w now apps
      end
  end.

Definition resolveIncidentsForMissingApps (project : Project) (w : World) (now : Z) : M Mem unit :=
  r ← GetOpenIncidents (p_Id project);
  match r with
  | inl _ => mret tt
  | inr incidents =>
      forM_ incidents (λ i,
        match GetApplication w (i_ApplicationId i) with
        | Some _ => mret tt
        | None => _ ← ResolveIncident (p_Id project) (i_Key i) now; mret tt
        end)
  end.

Definition CheckIncidents (rca : bool) (project : Project) (w : World) : M Mem (outcome unit) :=
  now ← Now;
  apps ← range (w_Applications w);
  r ← check_apps rca project w now apps;
  match r with
  | Panic => mret Panic
  | Ret _ => _ ← resolveIncidentsForMissingApps project w now; mret (Ret tt)
  end.

End incidents.
