(* ===== verification/IncidentsSpec.v ===== *)
(** What the incident watcher promises: when an application's SLOs are violated,
    how its open incident moves, that it never has two, and what becomes of the
    incidents of applications that are gone. *)

From S2P Require Export Incidents IncidentNotifySpec.
From Stdlib Require Import Ascii String ZArith Lia.
Local Open Scope string_scope.
Local Open Scope Z_scope.

(** * Sums over a window *)

(** The defined values, and what the loops compute from the points of a window. *)
Definition defined (vs : list f32) : list f32 := where_ (λ v, negb (IsNaN v)) vs.
Definition sum (vs : list f32) : f32 := foldl F32.add F32.zero vs.
Definition len_Z {A} (l : list A) : Z := Z.of_nat (List.length l).

Definition total_of (ts : TimeSeries) (from : Z) : f32 :=
  let vs := (window ts from).*2 in
  if F32.ltb (F32.div (F32.of_Z (len_Z (defined vs))) (F32.of_Z (len_Z vs))) (F32.frac 1 2) then NaN else sum (defined vs).
Definition failed_of (ts : TimeSeries) (from : Z) : f32 := sum (defined (window ts from).*2).
Definition slow_of (total fast : TimeSeries) (from : Z) : f32 :=
  sum (omap (λ p : f32 * f32, if IsNaN (fst p) then None else if IsNaN (snd p) then Some (fst p) else Some (F32.sub (fst p) (snd p)))
         (zip (window total from).*2 (window fast from).*2)).

Lemma fold_total pts s c d :
  fold_go (λ s p, total_step s (fst p) (snd p)) (s, c, d) pts =
    Ret (foldl F32.add s (defined pts.*2), c + len_Z pts, d + len_Z (defined pts.*2)).
Proof.
  revert s c d. induction pts as [|[t v] pts IH]; intros s c d; cbn -[len_Z].
  { unfold len_Z. cbn. by rewrite !Z.add_0_r. }
  unfold total_step at 1, defined, where_. cbn -[len_Z]. destruct (IsNaN v); cbn -[len_Z]; rewrite IH;
    unfold defined, where_, len_Z; cbn; do 2 f_equal; [f_equal|..]; try lia; f_equal; lia.
Qed.

Lemma fold_failed pts s :
  fold_go (λ s p, failed_step s (fst p) (snd p)) s pts = Ret (foldl F32.add s (defined pts.*2)).
Proof.
  revert s. induction pts as [|[t v] pts IH]; intros s; [done|]. cbn.
  unfold failed_step at 1, defined, where_. cbn. destruct (IsNaN v); cbn; apply IH.
Qed.

Lemma fold_slow l s :
  fold_go (λ s p, slow_step s (fst p) (snd p)) s l =
    Ret (foldl F32.add s (omap (λ p : f32 * f32,
      if IsNaN (fst p) then None else if IsNaN (snd p) then Some (fst p) else Some (F32.sub (fst p) (snd p))) l)).
Proof.
  revert s. induction l as [|[t f] l IH]; intros s; [done|]. cbn.
  unfold slow_step at 1. destruct (IsNaN t); [apply IH|]. destruct (IsNaN f); cbn; apply IH.
Qed.

Lemma totalSum_run ts from : wf_ts ts → 0 ≤ from → in_i64 from → totalSum (Some ts) from = Ret (total_of ts from).
Proof.
  intros Hwf H0 Hr. unfold totalSum.
  pose proof (IterFrom_window total_step ts from (F32.zero, 0, 0) Hwf H0 Hr) as Hi.
  destruct (IterFrom (Some ts) from) as [it|]; [|by rewrite fold_total in Hi].
  cbn [obind] in Hi |- *. rewrite Hi, fold_total. cbn [obind]. unfold total_of.
  assert (len_Z (window ts from) = len_Z ((window ts from).*2)) as -> by (unfold len_Z; by rewrite length_fmap).
  by destruct (F32.ltb _ _).
Qed.

Lemma failedSum_run ts from : wf_ts ts → 0 ≤ from → in_i64 from → failedSum (Some ts) from = Ret (failed_of ts from).
Proof. intros. unfold failedSum. rewrite IterFrom_window by done. apply fold_failed. Qed.

Lemma slowSum_run x y from :
  wf_ts x → wf_ts y → ts_from x = ts_from y → ts_step x = ts_step y → 0 ≤ from → in_i64 from →
  slowSum (Some x) (Some y) from = Ret (slow_of x y from).
Proof. intros. unfold slowSum. rewrite IterFrom_window2 by done. apply fold_slow. Qed.

(** * When an SLO is violated *)

(** Over both windows of the rule the error budget burns faster than its
    threshold. *)
Definition exceeds (bad total : Z → f32) (objectivePercentage : f32) (now : Z) (r : AlertRule) : Prop :=
  let objective := F32.sub F32.one (F32.div objectivePercentage (F32.of_Z 100)) in
  let burn w := F32.div (F32.div (bad (now - w)) (total (now - w))) objective in
  F32.gtb (burn (ar_LongWindow r)) (ar_BurnRateThreshold r) = true
  ∧ F32.gtb (burn (ar_ShortWindow r)) (ar_BurnRateThreshold r) = true.

Lemma worst_spec l s :
  s ≤ worst s l ∧ (∀ b, b ∈ l → br_Severity b ≤ worst s l) ∧ (worst s l = s ∨ ∃ b, b ∈ l ∧ worst s l = br_Severity b).
Proof.
  unfold worst. revert s. induction l as [|b l IH]; intros s; cbn; [split_and!; [lia|set_solver|by left]|].
  destruct (IH (if s <? br_Severity b then br_Severity b else s)) as (H1 & H2 & H3).
  destruct (Z.ltb_spec s (br_Severity b)); split_and!; try lia.
  - intros x [-> |Hx]%elem_of_cons; [lia|auto].
  - destruct H3 as [->|(x & Hx & ->)]; right; [exists b|exists x]; set_solver.
  - intros x [-> |Hx]%elem_of_cons; [lia|auto].
  - destruct H3 as [->|(x & Hx & ->)]; [by left|right; exists x; set_solver].
Qed.

(** The severities a burn rate can have. *)
Definition rated (rates : list BurnRate) : Prop := ∀ b, b ∈ rates → br_Severity b = Status.OK ∨ br_Severity b = Status.CRITICAL.
Definition any_critical (rates : list BurnRate) : Prop := ∃ b, b ∈ rates ∧ br_Severity b = Status.CRITICAL.

Lemma worst_critical l s :
  rated l → s ∈ [Status.UNKNOWN; Status.OK; Status.CRITICAL] →
  worst s l ∈ [Status.UNKNOWN; Status.OK; Status.CRITICAL] ∧ (worst s l = Status.CRITICAL ↔ s = Status.CRITICAL ∨ any_critical l).
Proof.
  intros Hl Hs. destruct (worst_spec l s) as (H1 & H2 & H3). unfold any_critical.
  assert (worst s l ∈ [Status.UNKNOWN; Status.OK; Status.CRITICAL]) as Hw.
  { destruct H3 as [->|(b & Hb & ->)]; [done|]. destruct (Hl b Hb) as [-> | ->]; set_solver. }
  split; [done|]. split.
  - intros Heq. destruct H3 as [H3|(b & Hb & H3)]; [left; congruence|right; exists b; split; congruence].
  - intros [-> |(b & Hb & Hc)].
    + rewrite !elem_of_cons, elem_of_nil in Hw. unfold Status.UNKNOWN, Status.OK, Status.CRITICAL in *. lia.
    + specialize (H2 b Hb). rewrite !elem_of_cons, elem_of_nil in Hw.
      unfold Status.UNKNOWN, Status.OK, Status.CRITICAL in *. lia.
Qed.

(** Times far enough from both ends of the 64-bit range. *)
Definition sane_now (now : Z) : Prop := MaxAlertRuleWindow ≤ now < 2 ^ 62.

Lemma window_start now w : sane_now now → 0 ≤ w ≤ MaxAlertRuleWindow → Time.Add now (wrap64 (- w)) = now - w.
Proof.
  unfold sane_now. change MaxAlertRuleWindow with 21600. intros Hn Hw. unfold Time.Add, add64.
  rewrite (wrap64_id (- w)), wrap64_id; [lia|..]; unfold in_i64, i64_min, i64_max; lia.
Qed.

Lemma rule_windows r : r ∈ AlertRules → 0 ≤ ar_LongWindow r ≤ MaxAlertRuleWindow ∧ 0 ≤ ar_ShortWindow r ≤ MaxAlertRuleWindow ∧ ar_Severity r = Status.CRITICAL.
Proof.
  intros Hr. assert (Forall (λ r, 0 ≤ ar_LongWindow r ≤ MaxAlertRuleWindow ∧ 0 ≤ ar_ShortWindow r ≤ MaxAlertRuleWindow ∧ ar_Severity r = Status.CRITICAL) AlertRules) as HF
    by (repeat constructor; vm_compute; discriminate).
  by rewrite Forall_forall in HF; apply HF.
Qed.

Section rates.
Context (now : Z) (bad total : Z → f32) (badF totalF : sumFromFunc).
Context (Hnow : sane_now now).
Context (Hbad : ∀ from, 0 ≤ from → in_i64 from → badF from = Ret (bad from))
  (Htotal : ∀ from, 0 ≤ from → in_i64 from → totalF from = Ret (total from)).

Lemma from_range w : 0 ≤ w ≤ MaxAlertRuleWindow → 0 ≤ now - w ∧ in_i64 (now - w).
Proof. unfold sane_now in Hnow. change MaxAlertRuleWindow with 21600 in *. unfold in_i64, i64_min, i64_max. lia. Qed.

Lemma div_nan_l y : F32.div NaN y = NaN.
Proof. by destruct y. Qed.
Lemma gtb_nan_l y : F32.gtb NaN y = false.
Proof. by destruct y as [[]|[]| |[] ? ?]. Qed.

Lemma rule_burn_rate_run objP r :
  r ∈ AlertRules →
  ∃ b, rule_burn_rate now badF totalF (F32.sub F32.one (F32.div objP (F32.of_Z 100))) r = Ret b
    ∧ (∀ x, b = Some x → br_Severity x = Status.OK ∨ br_Severity x = Status.CRITICAL)
    ∧ ((∃ x, b = Some x ∧ br_Severity x = Status.CRITICAL) ↔ exceeds bad total objP now r).
Proof.
  intros Hr. destruct (rule_windows r Hr) as (Hl & Hs & Hsev). unfold rule_burn_rate, exceeds. cbv zeta.
  rewrite !window_start by done. destruct (from_range _ Hl), (from_range _ Hs).
  rewrite !Hbad, !Htotal by done. cbn [obind].
  generalize (F32.sub F32.one (F32.div objP (F32.of_Z 100))). intros objective.
  set (v := F32.div (bad (now - ar_LongWindow r)) _). set (w := F32.div (bad (now - ar_ShortWindow r)) _).
  destruct (IsNaN v) eqn:Hv; [|destruct (IsNaN w) eqn:Hw].
  - apply IsNaN_true in Hv as ->. eexists. split; [done|]. split; [done|]. rewrite div_nan_l, gtb_nan_l. naive_solver.
  - apply IsNaN_true in Hw as ->. eexists. split; [done|]. split; [done|].
    rewrite (div_nan_l objective), (gtb_nan_l (ar_BurnRateThreshold r)). naive_solver.
  - eexists. split; [done|]. destruct (F32.gtb _ _ && F32.gtb _ _) eqn:E; cbn.
    + rewrite Hsev. apply andb_true_iff in E. split; [naive_solver|]. split; [done|]. eauto.
    + apply andb_false_iff in E. split; [naive_solver|]. split; [naive_solver|]. intros [E1 E2]. destruct E as [E|E]; [by rewrite E in E1|by rewrite E in E2].
Qed.

Lemma calcBurnRates_run objP :
  ∃ rates, calcBurnRates now badF totalF objP = Ret rates ∧ rated rates
    ∧ (any_critical rates ↔ ∃ r, r ∈ AlertRules ∧ exceeds bad total objP now r).
Proof.
  unfold calcBurnRates. assert (∀ r, r ∈ AlertRules → r ∈ AlertRules) as Hsub by done. revert Hsub.
  generalize AlertRules at 1 3 4. intros rules. induction rules as [|r rules IH]; intros Hsub.
  { exists []. split_and!; [done|intros b Hb; by apply not_elem_of_nil in Hb|]. split; [intros (? & Hb & _)|intros (? & Hb & _)]; by apply not_elem_of_nil in Hb. }
  destruct IH as (rates & Hrun & Hrated & Hcrit); [set_solver|].
  destruct (rule_burn_rate_run objP r) as (b & Hb & Hbr & Hbc); [set_solver|].
  cbn [burn_rates]. rewrite Hb. cbn [obind]. rewrite Hrun. cbn [obind]. eexists. split; [done|].
  unfold any_critical in *. destruct b as [b|]; (split; [|split]).
  - intros x [-> |Hx]%elem_of_cons; [by apply Hbr|by apply Hrated].
  - intros (x & [-> |Hx]%elem_of_cons & Hs); [exists r; split; [left|apply Hbc; eauto]|].
    destruct (proj1 Hcrit ltac:(eauto)) as (q & Hq & He). exists q. split; [by right|done].
  - intros (q & [-> |Hq]%elem_of_cons & He).
    + apply Hbc in He as (x & [= ->] & Hs). exists x. split; [left|done].
    + destruct (proj2 Hcrit ltac:(eauto)) as (x & Hx & Hs). exists x. split; [by right|done].
  - done.
  - intros Hx. destruct (proj1 Hcrit Hx) as (q & Hq & He). exists q. split; [by right|done].
  - intros (q & [-> |Hq]%elem_of_cons & He); [by apply Hbc in He as (x & ? & _)|apply Hcrit; eauto].
Qed.

End rates.

(** ** Of an application *)
Section slo.
Context `{LP : LogParser}.

(** The sums over the windows of the first availability and latency SLI:
    bad requests, all requests, and the objective; [None] when there is nothing
    to evaluate. *)
Definition total_opt (ts : option TimeSeries) (from : Z) : f32 := match ts with None => F32.zero | Some ts => total_of ts from end.
Definition failed_opt (ts : option TimeSeries) (from : Z) : f32 := match ts with None => F32.zero | Some ts => failed_of ts from end.
Definition slow_opt (total : option TimeSeries) (fast : TimeSeries) (from : Z) : f32 :=
  match total with None => F32.zero | Some ts => slow_of ts fast from end.

Definition availability_sums (app : Application) : option ((Z → f32) * (Z → f32) * f32) :=
  match app_AvailabilitySLIs app with
  | [] => None
  | sli :: _ => if TailIsEmpty (as_TotalRequestsRaw sli) then None
                else Some (failed_opt (as_FailedRequestsRaw sli), total_opt (as_TotalRequestsRaw sli), as_ObjectivePercentage sli)
  end.
Definition latency_sums (app : Application) : option ((Z → f32) * (Z → f32) * f32) :=
  match app_LatencySLIs app with
  | [] => None
  | sli :: _ =>
      let '(total, fast) := GetTotalAndFast sli true in
      match fast with None => None | Some fast => Some (slow_opt total fast, total_opt total, ls_ObjectivePercentage sli) end
  end.

Definition violated (now : Z) (sums : option ((Z → f32) * (Z → f32) * f32)) : Prop :=
  match sums with
  | None => False
  | Some (bad, total, objective) => ∃ r, r ∈ AlertRules ∧ exceeds bad total objective now r
  end.

Definition wf_opt (ts : option TimeSeries) : Prop := match ts with None => True | Some ts => wf_ts ts end.
Definition aligned (x y : option TimeSeries) : Prop :=
  match x, y with Some x, Some y => ts_from x = ts_from y ∧ ts_step x = ts_step y | _, _ => True end.
Definition wf_slis (app : Application) : Prop :=
  match app_AvailabilitySLIs app with [] => True | sli :: _ => wf_opt (as_TotalRequestsRaw sli) ∧ wf_opt (as_FailedRequestsRaw sli) end
  ∧ match app_LatencySLIs app with
    | [] => True
    | sli :: _ => let '(total, fast) := GetTotalAndFast sli true in wf_opt total ∧ wf_opt fast ∧ aligned total fast
    end.

Lemma total_opt_run ts from : wf_opt ts → 0 ≤ from → in_i64 from → totalSum ts from = Ret (total_opt ts from).
Proof. destruct ts; [apply totalSum_run|done]. Qed.
Lemma failed_opt_run ts from : wf_opt ts → 0 ≤ from → in_i64 from →
  (if IsEmpty ts then λ _, Ret F32.zero else failedSum ts) from = Ret (failed_opt ts from).
Proof. destruct ts; [apply failedSum_run|done]. Qed.
Lemma slow_opt_run total fast from :
  wf_opt total → wf_ts fast → aligned total (Some fast) → 0 ≤ from → in_i64 from →
  slowSum total (Some fast) from = Ret (slow_opt total fast from).
Proof.
  destruct total as [total|]; [intros ? ? []; by apply slowSum_run|]. intros _ Hf _ H0 Hr.
  unfold slowSum. rewrite IterFrom_at by done. cbv zeta. by destruct (bool_decide _).
Qed.

(** The evaluation of one SLI. *)
Definition runs (sums : option (sumFromFunc * sumFromFunc)) : Prop :=
  match sums with
  | None => True
  | Some (badF, totalF) => ∀ from, 0 ≤ from → in_i64 from → (∃ v, badF from = Ret v) ∧ (∃ v, totalF from = Ret v)
  end.
Definition evaluates_to (now : Z) (r : outcome sli_result) (sums : option ((Z → f32) * (Z → f32) * f32)) : Prop :=
  ∃ res, r = Ret res ∧ rated (fst res) ∧ (any_critical (fst res) ↔ violated now sums) ∧ runs (snd res).

Lemma nothing_evaluated now : evaluates_to now (Ret ([], None)) None.
Proof.
  exists ([], None). split; [done|]. split; [intros b Hb; by apply not_elem_of_nil in Hb|]. split; [|done].
  split; [intros (b & Hb & _); by apply not_elem_of_nil in Hb|done].
Qed.

Ltac use_rates Hrun :=
  match type of Hrun with _ = ?res =>
    match goal with |- context [calcBurnRates ?n ?b ?t ?o] =>
      replace (calcBurnRates n b t o) with res by (symmetry; exact Hrun) end end; cbn [obind].

Lemma availability_run ctx app : wf_slis app → sane_now (ctx_To ctx) → evaluates_to (ctx_To ctx) (availability ctx app) (availability_sums app).
Proof.
  intros [Hwf _] Hnow. unfold availability, availability_sums.
  destruct (app_AvailabilitySLIs app) as [|sli l]; [apply nothing_evaluated|].
  destruct (TailIsEmpty _); [apply nothing_evaluated|]. destruct Hwf as [Ht Hf].
  destruct (calcBurnRates_run (ctx_To ctx) (failed_opt (as_FailedRequestsRaw sli)) (total_opt (as_TotalRequestsRaw sli)) _ _ Hnow
    (λ from, failed_opt_run _ from Hf) (λ from, total_opt_run _ from Ht) (as_ObjectivePercentage sli)) as (rates & Hrun & Hr & Hc).
  cbv zeta. use_rates Hrun. eexists. split_and!; [done..|]. intros from H0 Hi.
  split; eexists; [by apply failed_opt_run|by apply total_opt_run].
Qed.

Lemma latency_run ctx app : wf_slis app → sane_now (ctx_To ctx) → evaluates_to (ctx_To ctx) (latency ctx app) (latency_sums app).
Proof.
  intros [_ Hwf] Hnow. unfold latency, latency_sums.
  destruct (app_LatencySLIs app) as [|sli l]; [apply nothing_evaluated|].
  destruct (GetTotalAndFast sli true) as [total [fast|]]; [|apply nothing_evaluated]. destruct Hwf as (Ht & Hf & Ha).
  destruct (calcBurnRates_run (ctx_To ctx) (slow_opt total fast) (total_opt total) _ _ Hnow
    (λ from, slow_opt_run _ _ from Ht Hf Ha) (λ from, total_opt_run _ from Ht) (ls_ObjectivePercentage sli)) as (rates & Hrun & Hr & Hc).
  cbv zeta. cbn [IsEmpty]. use_rates Hrun. eexists. split_and!; [done..|]. intros from H0 Hi.
  split; eexists; [by apply slow_opt_run|by apply total_opt_run].
Qed.

(** The details of an incident of an evaluated application are always defined. *)
Definition details_of (now : Z) (e : Evaluated) (openedAt : Z) : IncidentDetails :=
  match evaluated_details now openedAt e with Ret d => d | Panic => no_details end.

Lemma calcImpact_run now t sums : sane_now now → runs sums → ∃ v, calcImpact now t sums = Ret v.
Proof.
  intros Hnow Hs. unfold calcImpact. destruct sums as [[badF totalF]|]; [|by eexists]. cbv zeta.
  set (dataFrom := Time.Add now _). set (from := Time.Add t _).
  assert (Hdata : 0 ≤ dataFrom ∧ in_i64 dataFrom).
  { unfold dataFrom. rewrite window_start; [by apply from_range; [|split; [vm_compute; discriminate|]]|done|split; [vm_compute; discriminate|done]]. }
  assert (Hfrom : 0 ≤ (if Time.Before from dataFrom then dataFrom else from)
                  ∧ in_i64 (if Time.Before from dataFrom then dataFrom else from)).
  { unfold Time.Before. case_bool_decide; [done|]. split; [lia|apply wrap64_range]. }
  destruct (Hs _ (proj1 Hfrom) (proj2 Hfrom)) as [[b ->] [v ->]]. by eexists.
Qed.

Lemma details_run ctx app now e :
  wf_slis app → sane_now (ctx_To ctx) → sane_now now → evaluate_app ctx app = Ret e →
  ∀ t, evaluated_details now t e = Ret (details_of now e t).
Proof.
  intros Hwf Hctx Hnow He t. revert He. unfold evaluate_app.
  destruct (availability_run ctx app Hwf Hctx) as (a & Ha & _ & _ & Har).
  destruct (latency_run ctx app Hwf Hctx) as (l & Hl & _ & _ & Hlr). rewrite Ha, Hl. cbn [obind]. intros [= <-].
  unfold details_of, evaluated_details. cbn [e_availability e_latency].
  destruct (calcImpact_run now t _ Hnow Har) as [v ->]. destruct (calcImpact_run now t _ Hnow Hlr) as [v' ->]. done.
Qed.

(** C23 Evaluating an application's SLOs does not panic on well-formed series; its
    status is UNKNOWN, OK or CRITICAL, and it is CRITICAL exactly when, for some
    alert rule, the error budget of the availability or of the latency SLI burns
    faster than the rule's threshold over both of its windows. *)
Theorem evaluate_app_spec (ctx : Context) (app : Application) (Hwf : wf_slis app) (Hnow : sane_now (ctx_To ctx)) :
  ∃ e, evaluate_app ctx app = Ret e
    ∧ e_status e ∈ [Status.UNKNOWN; Status.OK; Status.CRITICAL]
    ∧ (e_status e = Status.CRITICAL ↔
         violated (ctx_To ctx) (availability_sums app) ∨ violated (ctx_To ctx) (latency_sums app)).
Proof.
  destruct (availability_run ctx app Hwf Hnow) as (a & Ha & Har & Hac & _).
  destruct (latency_run ctx app Hwf Hnow) as (l & Hl & Hlr & Hlc & _).
  unfold evaluate_app. rewrite Ha, Hl. cbn [obind]. eexists. split; [done|]. cbn [e_status].
  destruct (worst_critical (fst l) Status.UNKNOWN Hlr ltac:(set_solver)) as [Hw Hwc].
  destruct (worst_critical (fst a) _ Har Hw) as [Hw' Hwc']. split; [done|].
  rewrite Hwc', Hwc, Hac, Hlc. split; [intros [[?|?]|?]; [done|by right|by left]|intros [?|?]; auto].
Qed.

End slo.

(** * One open incident *)

(** The open rows of an application: what [GetLastOpenIncident] reads, under the
    id of today or the older one without the cluster. *)
Definition last_open_rows (projectId : string) (appId : ApplicationId) (rows : list IncidentRow) : list IncidentRow :=
  where_ (λ r, incident_open projectId r && of_app appId r) rows.

(** The unique index on (project, key), and at most one open row for each
    application. *)
Record wf_incidents (rows : list IncidentRow) : Prop := {
  wfi_keys : NoDup ((λ r, (ir_project_id r, ir_key r)) <$> rows);
  wfi_open : ∀ p a, AppIdFacts.named a = true → (List.length (last_open_rows p a rows) ≤ 1)%nat
}.

Lemma same_key_row rows r r' :
  wf_incidents rows → r ∈ rows → r' ∈ rows → (ir_project_id r, ir_key r) = (ir_project_id r', ir_key r') → r = r'.
Proof.
  intros [Hn _] [i Hi]%list_elem_of_lookup [j Hj]%list_elem_of_lookup Heq.
  assert (i = j) as -> by (eapply NoDup_lookup; [exact Hn|rewrite list_lookup_fmap, Hi; done|rewrite list_lookup_fmap, Hj; cbn; by rewrite Heq]).
  congruence.
Qed.

(** The columns no UPDATE changes. *)
Definition row_identity (r : IncidentRow) : string * string * string * Z :=
  (ir_project_id r, ir_application_id r, ir_key r, ir_opened_at r).

Lemma wf_incident_update c f rows :
  (∀ r, row_identity (f r) = row_identity r) → (∀ r, ir_resolved_at (f r) = 0 → ir_resolved_at r = 0) →
  wf_incidents rows → wf_incidents (update_where c f rows).
Proof.
  intros Hid Hres [Hn Ho]. split.
  - unfold update_where. rewrite <- list_fmap_compose. rewrite (list_fmap_ext _ (λ r, (ir_project_id r, ir_key r))); [done|].
    intros i r _. cbn. destruct (c r); [|done]. specialize (Hid r). unfold row_identity in Hid. by injection Hid as -> _ -> _.
  - intros p a Hna. etransitivity; [|apply (Ho p a Hna)]. apply where_update_le. intros r _ _.
    specialize (Hid r). unfold row_identity in Hid. injection Hid as Hp Ha _ _.
    unfold incident_open, incident_in, of_app. rewrite Hp, Ha. rewrite !andb_true_iff. intros [[-> Hz] ->]. split; [|done].
    split; [done|]. apply Z.eqb_eq, Hres. lia.
Qed.

(** A row of an application is no other application's. *)
Lemma of_app_row a b r :
  AppIdFacts.named a = true → AppIdFacts.named b = true → ir_application_id r = AppIdString b → of_app a r = true → a = b.
Proof.
  intros Ha Hb Hr [He%String.eqb_eq|He%String.eqb_eq]%orb_true_iff; rewrite Hr in He.
  - symmetry. by apply AppIdFacts.AppIdString_inj; [apply AppIdFacts.named_separable..|].
  - by destruct (AppIdFacts.short_is_no_id a b).
Qed.

Lemma wf_incident_insert rows row appId :
  existsb (incident_conflict row) rows = false → ir_resolved_at row = 0 →
  AppIdFacts.named appId = true → ir_application_id row = AppIdString appId →
  last_open_rows (ir_project_id row) appId rows = [] →
  wf_incidents rows → wf_incidents (rows ++ [row])%list.
Proof.
  intros Hc Hres Happ Hid Hnone [Hn Ho]. split.
  - rewrite fmap_app. apply NoDup_app. split_and!; [done| |apply NoDup_singleton].
    intros x Hx Hx'. cbn in Hx'. apply list_elem_of_singleton in Hx' as ->.
    apply list_elem_of_fmap in Hx as (r & Heq & Hr). injection Heq as Hp Hk.
    apply existsb_false_Forall in Hc. rewrite Forall_forall in Hc. specialize (Hc r Hr). unfold incident_conflict in Hc.
    by rewrite <- Hp, <- Hk, !String.eqb_refl, orb_true_r in Hc.
  - intros p a Ha. unfold last_open_rows. rewrite where_app, length_app. fold (last_open_rows p a rows). cbn.
    destruct (_ && _) eqn:E; cbn; [|rewrite Nat.add_0_r; by apply Ho].
    unfold incident_open, incident_in in E. rewrite !andb_true_iff, !String.eqb_eq in E.
    destruct E as [[<- _] ->%(of_app_row a appId row Ha Happ Hid)]. by rewrite Hnone.
Qed.

Section invariant.
Context `{Env} `{MapOrder} `{Delivery} `{IncidentDelivery} `{LP : LogParser} `{RcaCloud} {Mem : Type}.

Abbreviation wf := (λ s : Sys Mem, wf_incidents (t_incident (sys_tables s))).
Abbreviation triple := DbFacts.triple.

Lemma wf_statement c f :
  (∀ r, row_identity (f r) = row_identity r) → (∀ r, ir_resolved_at (f r) = 0 → ir_resolved_at r = 0) →
  triple wf (update (with_incident (update_where c f))) (λ _, wf).
Proof.
  intros Hid Hres s Hs. destruct (update _ s) as [e s'] eqn:E. apply DbFacts.update_inv in E as [_ Ht].
  cbn. rewrite Ht. destruct (failed e); [done|]. by apply wf_incident_update.
Qed.

Lemma wf_frames {A} (m : M Mem A) : DbFacts.frames t_incident m → triple wf m (λ _, wf).
Proof. intros Hm s Hs. by rewrite (proj2 (Hm s)). Qed.

Lemma wf_IncidentRCA project w i : triple wf (IncidentRCA project w i) (λ _, wf).
Proof.
  assert (∀ key rca, triple wf (UpdateIncidentRCA (p_Id project) key rca) (λ _, wf)) as Hrca
    by (intros; by apply wf_statement).
  unfold IncidentRCA. destruct (String.eqb _ _); [by apply DbFacts.triple_ret|].
  eapply DbFacts.triple_bind with (R := λ _, wf).
  - eapply DbFacts.triple_bind with (R := λ _, wf); [apply wf_frames, DbFacts.frames_ask|]. intros [st err]. cbn [fst snd].
    destruct (negb _); [by apply DbFacts.triple_ret|].
    eapply DbFacts.triple_bind with (R := λ _, wf); [destruct (i_RCA i); [by apply DbFacts.triple_ret|apply Hrca]|].
    intros [?|?]; [by apply DbFacts.triple_ret|]. apply wf_frames.
    unfold rca_of_incident, IncidentTimeContext, GetApplicationIncidents, rca_request, GetApplicationDeployments, GetCheckConfigs. DbFacts.frames.
  - intros rca. eapply DbFacts.triple_bind with (R := λ _, wf); [apply Hrca|]. intros ?. by apply DbFacts.triple_ret.
Qed.

Lemma wf_after rca project w app now i notify : triple wf (after_incident rca project w app now i notify) (λ _, wf).
Proof.
  unfold after_incident. eapply DbFacts.triple_bind with (R := λ _, wf);
    [destruct rca; [apply wf_IncidentRCA|by apply DbFacts.triple_ret]|].
  intros j. destruct notify; [|by apply DbFacts.triple_ret]. apply wf_frames. intros s.
  destruct (frames_EnqueueIncident project app j now s) as [Hm Ht]. split; [done|].
  change t_incident with (λ t, t_incident (inc_outbox t)). cbn beta. by rewrite Ht.
Qed.

Lemma wf_CreateIncident project app i :
  AppIdFacts.named (app_Id app) = true →
  triple (λ s, wf s ∧ last_open_rows (p_Id project) (app_Id app) (t_incident (sys_tables s)) = [])
    (CreateIncident (p_Id project) (app_Id app) i) (λ _, wf).
Proof.
  intros Hname s [Hs Hn]. unfold CreateIncident. destruct (statement _ s) as [e s'] eqn:E.
  apply DbFacts.statement_inv in E as [_ Ht]. cbn. destruct e; [by rewrite Ht|].
  destruct (existsb _ _) eqn:Hc; [done|]. injection Ht as _ <-. cbn. by eapply wf_incident_insert.
Qed.

Lemma wf_check_app rca project w now app :
  now ≠ 0 → AppIdFacts.named (app_Id app) = true → triple wf (check_app rca project w now app) (λ _, wf).
Proof.
  intros Hnow Hname. unfold check_app. destruct (evaluate_app _ _) as [e|]; [|by apply DbFacts.triple_ret].
  destruct (_ =? _); [by apply DbFacts.triple_ret|].
  eapply DbFacts.triple_bind with (R := λ r s, wf s ∧
    (r = inr None → last_open_rows (p_Id project) (app_Id app) (t_incident (sys_tables s)) = [])).
  { intros s Hs. unfold GetLastOpenIncident. destruct (select _ s) as [r s'] eqn:E. apply DbFacts.select_inv in E as (_ & Ht & Hr).
    cbn. rewrite Ht. split; [done|]. intros ->. specialize (Hr None eq_refl). fold (last_open_rows (p_Id project) (app_Id app) (t_incident (sys_tables s))) in Hr.
    unfold order_by in Hr. pose proof (merge_sort_Permutation (holds by_opened_desc) (last_open_rows (p_Id project) (app_Id app) (t_incident (sys_tables s)))) as Hp.
    destruct (merge_sort _ _); [|done]. symmetry. by apply Permutation_nil_l. }
  intros [err|o]; [apply DbFacts.triple_ret; tauto|].
  eapply DbFacts.triple_bind with (R := λ _, wf).
  - destruct o as [i|].
    + eapply DbFacts.triple_pre with (P := wf); [tauto|]. destruct (_ =? _).
      * unfold resolve_incident. eapply DbFacts.triple_bind with (R := λ _, wf); [|intros ?; by apply DbFacts.triple_ret].
        apply wf_statement; [done|]. intros r Hr. by destruct Hnow.
      * unfold update_incident. destruct (evaluated_details _ _ _); [|by apply DbFacts.triple_ret].
        eapply DbFacts.triple_bind with (R := λ _, wf); [by apply wf_statement|intros ?; by apply DbFacts.triple_ret].
    + destruct (_ <=? _); [apply DbFacts.triple_ret; tauto|]. unfold open_incident.
      eapply DbFacts.triple_bind with (R := λ _ s, wf s ∧ last_open_rows (p_Id project) (app_Id app) (t_incident (sys_tables s)) = []).
      { intros s [Hs Hn]. split; [done|by apply Hn]. }
      intros key. destruct (evaluated_details _ _ _); [|apply DbFacts.triple_ret; tauto].
      eapply DbFacts.triple_bind; [by apply wf_CreateIncident|intros ?; by apply DbFacts.triple_ret].
  - intros [[[i notify]|]|]; [|by apply DbFacts.triple_ret|by apply DbFacts.triple_ret].
    eapply DbFacts.triple_bind; [apply wf_after|]. intros ?. by apply DbFacts.triple_ret.
Qed.

Lemma wf_check_apps rca project w now apps :
  now ≠ 0 → (∀ app, app ∈ apps → AppIdFacts.named (app_Id app) = true) → triple wf (check_apps rca project w now apps) (λ _, wf).
Proof.
  intros Hnow. induction apps as [|app apps IH]; cbn [check_apps]; intros Hnames; [by apply DbFacts.triple_ret|].
  specialize (IH (λ a Ha, Hnames a (list_elem_of_further _ _ _ Ha))). specialize (Hnames app (list_elem_of_here _ _)).
  eapply DbFacts.triple_bind; [by apply wf_check_app|]. intros [?|]; [done|by apply DbFacts.triple_ret].
Qed.

Lemma wf_missing project w now : now ≠ 0 → triple wf (resolveIncidentsForMissingApps project w now) (λ _, wf).
Proof.
  intros Hnow. unfold resolveIncidentsForMissingApps.
  eapply DbFacts.triple_bind with (R := λ _, wf); [apply wf_frames; unfold GetOpenIncidents; DbFacts.frames|].
  intros [err|l]; [by apply DbFacts.triple_ret|]. apply DbFacts.triple_forM. intros i _.
  destruct (GetApplication _ _); [by apply DbFacts.triple_ret|].
  eapply DbFacts.triple_bind with (R := λ _, wf); [|intros ?; by apply DbFacts.triple_ret].
  apply wf_statement; [done|]. intros r Hr. by destruct Hnow.
Qed.

(** C4 An application never has two open incidents, whatever database call fails
    and whatever the root-cause service answers: a run of the incident watcher
    keeps the keys of a project unique and at most one incident of an
    application unresolved, those stored under its older id without the cluster
    among them.  The ids of the applications are [named]: no text of one is a
    text of another. *)
Theorem incidents_keep_one_open (rca : bool) (project : Project) (w : World) (s : Sys Mem)
    (Hclock : ∀ n, env_clock n ≠ 0) (Hnames : ∀ app, app ∈ w_Applications w → AppIdFacts.named (app_Id app) = true) (Hs : wf_incidents (t_incident (sys_tables s))) :
  wf_incidents (t_incident (sys_tables (snd (CheckIncidents rca project w s)))).
Proof.
  revert s Hs. change (triple wf (CheckIncidents rca project w) (λ _, wf)). unfold CheckIncidents.
  eapply DbFacts.triple_bind with (R := λ now s, wf s ∧ now ≠ 0); [intros s Hs; split; [done|apply Hclock]|]. intros now.
  intros s [Hs Hnow]. revert s Hs. change (triple wf (apps ← range (w_Applications w); r ← check_apps rca project w now apps;
    match r with Panic => mret Panic | Ret _ => _ ← resolveIncidentsForMissingApps project w now; mret (Ret tt) end) (λ _, wf)).
  eapply DbFacts.triple_bind with (R := λ apps s, wf s ∧ ∀ app, app ∈ apps → app ∈ w_Applications w).
  { intros s Hs. split; [done|]. intros app. unfold range. cbn. by rewrite map_order_perm. }
  intros apps s [Hs Happs]. revert s Hs.
  change (triple wf (r ← check_apps rca project w now apps;
    match r with Panic => mret Panic | Ret _ => _ ← resolveIncidentsForMissingApps project w now; mret (Ret tt) end) (λ _, wf)).
  eapply DbFacts.triple_bind; [apply wf_check_apps; auto|]. intros [?|]; [|by apply DbFacts.triple_ret].
  eapply DbFacts.triple_bind; [by apply wf_missing|]. intros ?. by apply DbFacts.triple_ret.
Qed.

End invariant.

(** * The life of an incident *)

(** The row an evaluation leaves, if it touches one: [fresh] is the row of a new
    incident, [details] the new details of one opened at a time. *)
Definition incident_step (status now : Z) (fresh : IncidentRow) (details : Z → IncidentDetails) (open : list IncidentRow) : option IncidentRow :=
  if status =? Status.UNKNOWN then None
  else match open with
       | [] => if status <=? Status.OK then None else Some fresh
       | r :: _ => Some (if status =? Status.OK then row_set_resolved now r
                         else row_set_update status (marshal_details (details (ir_opened_at r))) r)
       end.

(** Whether the evaluation opens or resolves an incident. *)
Definition incident_turns (status : Z) (open : list IncidentRow) : bool :=
  if status =? Status.UNKNOWN then false
  else match open with [] => negb (status <=? Status.OK) | _ :: _ => status =? Status.OK end.

(** A row but for its root cause, which is compared too when none is asked for. *)
Definition row_but_rca (rca : bool) (r : IncidentRow) : IncidentRow :=
  if rca then
    {| ir_project_id := ir_project_id r; ir_application_id := ir_application_id r; ir_key := ir_key r;
       ir_opened_at := ir_opened_at r; ir_resolved_at := ir_resolved_at r; ir_severity := ir_severity r;
       ir_details := ir_details r; ir_rca := None; ir_rca_status := None; ir_rca_summary := None |}
  else r.

(** The table has the row, under its key, and every other row as it was. *)
Definition only_row (rca : bool) (rows rows' : list IncidentRow) (row : IncidentRow) : Prop :=
  let same := incident_has_key (ir_project_id row) (ir_key row) in
  row_but_rca rca <$> where_ same rows' = [row_but_rca rca row]
  ∧ where_ (λ r, negb (same r)) rows' = where_ (λ r, negb (same r)) rows.

Section life.
Context `{Env} `{MapOrder} `{Delivery} `{IncidentDelivery} `{LP : LogParser} `{RcaCloud} {Mem : Type}.
Context (Hnf : ∀ k, env_fault k = None).

(** What the investigation of the incident of a key leaves: the other rows, and
    the incident's but for its root cause. *)
Definition rca_view (projectId key : string) (t : Tables) : list IncidentRow * list IncidentRow :=
  (where_ (λ r, negb (incident_has_key projectId key r)) (t_incident t),
   row_but_rca true <$> where_ (incident_has_key projectId key) (t_incident t)).

Lemma frames_IncidentRCA project w i :
  DbFacts.frames (Mem := Mem) (rca_view (p_Id project) (i_Key i)) (IncidentRCA project w i).
Proof.
  assert (∀ rca, DbFacts.frames (Mem := Mem) (rca_view (p_Id project) (i_Key i)) (UpdateIncidentRCA (p_Id project) (i_Key i) rca)) as Hrca.
  { intros rca. apply DbFacts.frames_update. intros t. unfold rca_view. cbn. f_equal.
    - apply where_update_other. intros r _ Hc. split; [by rewrite Hc|].
      change (negb (incident_has_key (p_Id project) (i_Key i) r) = false). by rewrite Hc.
    - rewrite where_update_comm by done. unfold update_where. rewrite <- list_fmap_compose. apply list_fmap_ext. intros j r _. cbn.
      by destruct (incident_has_key _ _ r). }
  unfold IncidentRCA, rca_of_incident, IncidentTimeContext, GetApplicationIncidents, rca_request, GetApplicationDeployments, GetCheckConfigs. DbFacts.frames.
Qed.

Lemma frames_EnqueueIncident_rows project app i now : DbFacts.frames (Mem := Mem) t_incident (EnqueueIncident project app i now).
Proof.
  intros s. destruct (frames_EnqueueIncident project app i now s) as [Hm Ht]. split; [done|].
  change t_incident with (λ t, t_incident (inc_outbox t)). cbn beta. by rewrite Ht.
Qed.

(** Without a notification the outbox stays. *)
Lemma frames_RCA_outbox project w i : DbFacts.frames (Mem := Mem) t_incident_notification (IncidentRCA project w i).
Proof. unfold IncidentRCA, UpdateIncidentRCA, rca_of_incident, IncidentTimeContext, GetApplicationIncidents, rca_request, GetApplicationDeployments, GetCheckConfigs. DbFacts.frames. Qed.

Lemma frames_after_quiet rca project w app now i :
  DbFacts.frames (Mem := Mem) t_incident_notification (after_incident rca project w app now i false).
Proof. pose proof frames_RCA_outbox. unfold after_incident. DbFacts.frames. Qed.

Context (project : Project) (app : Application) (now : Z).
Abbreviation rows_of s := (t_incident (sys_tables s)).
Abbreviation open_of s := (last_open_rows (p_Id project) (app_Id app) (t_incident (sys_tables s))).

Lemma rca_view_only key (t t' : Tables) rows row :
  ir_project_id row = p_Id project → ir_key row = key →
  rca_view (p_Id project) key t' = rca_view (p_Id project) key t →
  only_row false rows (t_incident t) row → only_row true rows (t_incident t') row.
Proof.
  unfold only_row, rca_view. intros -> -> [= Ho Hs] [Hrow Hrest]. split; [|by rewrite Ho].
  rewrite Hs. change (row_but_rca false) with (id (A := IncidentRow)) in Hrow. rewrite list_fmap_id in Hrow. by rewrite Hrow.
Qed.

(** An UPDATE by the key of the open row. *)
Lemma only_row_update (s : Sys Mem) r f :
  wf_incidents (rows_of s) → open_of s = [r] → (∀ r, row_identity (f r) = row_identity r) →
  ir_project_id r = p_Id project
  ∧ only_row false (rows_of s) (update_where (incident_has_key (p_Id project) (ir_key r)) f (rows_of s)) (f r).
Proof.
  intros Hwf Hr Hf. assert (r ∈ open_of s) as [Hin Ho]%elem_of_where by (rewrite Hr; left).
  assert (Hp : ir_project_id r = p_Id project).
  { unfold incident_open, incident_in in Ho. apply andb_true_iff in Ho as [[Ho _]%andb_true_iff _]. by apply String.eqb_eq. }
  split; [done|]. pose proof (Hf r) as Hfr. unfold row_identity in Hfr. injection Hfr as Hfp _ Hfk _.
  unfold only_row. rewrite Hfp, Hfk, Hp.
  assert (Hk : ∀ r', incident_has_key (p_Id project) (ir_key r) (f r') = incident_has_key (p_Id project) (ir_key r) r').
  { intros r'. specialize (Hf r'). unfold row_identity in Hf. injection Hf as Hf1 _ Hf3 _. unfold incident_has_key, incident_in. by rewrite Hf1, Hf3. }
  assert (Hs : where_ (incident_has_key (p_Id project) (ir_key r)) (rows_of s) = [r]).
  { apply where_unique; [done| | |].
    - unfold incident_has_key, incident_in. by rewrite Hp, !String.eqb_refl.
    - intros r' Hin' [Hp' Hk']%andb_true_iff. apply String.eqb_eq in Hk', Hp'. eapply same_key_row; [exact Hwf|done|done|congruence].
    - eapply NoDup_fmap_1, (wfi_keys _ Hwf). }
  split.
  - rewrite where_update_comm by done. rewrite Hs. cbn. unfold incident_has_key at 1, incident_in. rewrite Hp, !String.eqb_refl. done.
  - apply where_update_other. intros r' _ Hc. split; [by rewrite Hc|by rewrite Hk, Hc].
Qed.

Lemma only_row_insert rows row :
  existsb (incident_conflict row) rows = false → only_row false rows (rows ++ [row])%list row.
Proof.
  intros Hc. unfold only_row. rewrite !where_app.
  assert (Hrow : incident_has_key (ir_project_id row) (ir_key row) row = true) by (unfold incident_has_key, incident_in; by rewrite !String.eqb_refl).
  split.
  - rewrite (where_none (incident_has_key _ _) rows).
    { unfold where_. cbn. by rewrite Hrow. }
    intros r Hr. apply existsb_false_Forall in Hc. rewrite Forall_forall in Hc. specialize (Hc r Hr).
    unfold incident_conflict in Hc. unfold incident_has_key, incident_in. destruct (String.eqb (ir_project_id r) _); [|done].
    cbn in *. by apply orb_false_iff in Hc as [_ ->].
  - unfold where_ at 2. cbn. rewrite Hrow. cbn. by rewrite app_nil_r.
Qed.

Definition last_incident (r : IncidentRow) : ApplicationIncident :=
  {| i_ApplicationId := app_Id app; i_Key := ir_key r; i_OpenedAt := ir_opened_at r; i_ResolvedAt := ir_resolved_at r;
     i_Severity := ir_severity r; i_Details := default no_details (ir_details r); i_RCA := ir_rca r |}.

Lemma last_open_run (s : Sys Mem) :
  (List.length (open_of s) ≤ 1)%nat →
  GetLastOpenIncident (p_Id project) (app_Id app) s = (inr (last_incident <$> head (open_of s)), tick s).
Proof.
  intros Hlen. unfold GetLastOpenIncident. rewrite DbFacts.select_run by done.
  fold (open_of s). destruct (open_of s) as [|r [|r' l]]; [done|done|cbn in Hlen; lia].
Qed.

Lemma after_only rca w i notify (s1 : Sys Mem) rows row :
  ir_project_id row = p_Id project → i_Key i = ir_key row → only_row false rows (rows_of s1) row →
  let s' := snd ((_ ← after_incident rca project w app now i notify; mret (Ret tt)) s1) in
  only_row rca rows (rows_of s') row ∧ (notify = false → t_incident_notification (sys_tables s') = t_incident_notification (sys_tables s1)).
Proof.
  intros Hp Hk Hrow. cbv zeta. split.
  - unfold after_incident. destruct rca.
    + unfold mbind, M_bind. destruct (IncidentRCA project w i s1) as [j s2] eqn:E.
      pose proof (proj2 (frames_IncidentRCA project w i s1)) as Hv. rewrite E, Hk in Hv. cbn in Hv.
      pose proof (rca_view_only _ _ _ _ _ Hp eq_refl Hv Hrow) as Hrow2. destruct notify; [|done].
      pose proof (proj2 (frames_EnqueueIncident_rows project app j now s2)) as Hq.
      destruct (EnqueueIncident project app j now s2) as [u s3]. cbn in *. by rewrite Hq.
    + unfold mbind, M_bind. cbn [mret M_ret]. destruct notify; [|done].
      pose proof (proj2 (frames_EnqueueIncident_rows project app i now s1)) as Hq.
      destruct (EnqueueIncident project app i now s1) as [u s3]. cbn in *. by rewrite Hq.
  - intros ->. pose proof (frames_after_quiet rca project w app now i s1) as [_ Hq]. unfold mbind, M_bind.
    by destruct (after_incident _ _ _ _ _ _ _ s1) as [u s2].
Qed.

(** C3 One evaluation of an application's SLOs, when no call fails, does to the
    table of incidents what [incident_step] says: a violation adds one row, a
    further violation updates its severity and details, a recovery resolves it,
    and nothing to evaluate leaves the table as it is.  Every other row, those of
    the application among them, stays in all its columns; the row itself gets
    nothing else but its root cause, and that only when root causes are asked
    for.  A notification is stored only when an incident is opened or resolved. *)
Theorem check_app_moves_incident (rca : bool) (w : World) (e : Evaluated) (s : Sys Mem)
    (Hslis : wf_slis app) (Hctx : sane_now (ctx_To (w_Ctx w))) (Hnow : sane_now now)
    (Heval : evaluate_app (w_Ctx w) app = Ret e) (Hwf : wf_incidents (rows_of s)) (Hname : AppIdFacts.named (app_Id app) = true)
    (Hfresh : ∀ k, existsb (incident_conflict (incident_row (p_Id project) (app_Id app)
                 (new_incident app (env_nano k) now (e_status e) (details_of now e now)))) (rows_of s) = false) :
  let s' := snd (check_app rca project w now app s) in
  (∃ key, match incident_step (e_status e) now
      (incident_row (p_Id project) (app_Id app) (new_incident app key now (e_status e) (details_of now e now))) (details_of now e) (open_of s) with
    | None => rows_of s' = rows_of s
    | Some row => only_row rca (rows_of s) (rows_of s') row
    end)
  ∧ (incident_turns (e_status e) (open_of s) = false →
     t_incident_notification (sys_tables s') = t_incident_notification (sys_tables s)).
Proof.
  pose proof (details_run _ _ _ _ Hslis Hctx Hnow Heval) as Hd. pose proof (wfi_open _ Hwf (p_Id project) _ Hname) as Hlen.
  cbv zeta. remember (snd (check_app rca project w now app s)) as s' eqn:Hs'. revert Hs'.
  unfold check_app. rewrite Heval. unfold incident_step, incident_turns.
  destruct (e_status e =? Status.UNKNOWN); [intros ->; split; [by exists ""|done]|].
  rewrite (DbFacts.bind_run _ _ _ _ _ (last_open_run s Hlen)).
  destruct (open_of s) as [|r [|r' l]] eqn:Hopen; [| |cbn in Hlen; lia]; cbn [head fmap option_fmap option_map].
  - destruct (e_status e <=? Status.OK); [intros ->; split; [by exists ""|done]|].
    unfold open_incident, NanoId. unfold mbind at 1, M_bind at 1. unfold mbind at 1, M_bind at 1. rewrite Hd.
    unfold CreateIncident, statement. unfold mbind at 1, M_bind at 1. cbn [tick sys_ticks sys_tables]. rewrite Hnf, Hfresh.
    cbn [mret M_ret failed].
    match goal with |- context [mbind _ (after_incident rca project w app now ?i true) ?s1] =>
      destruct (after_only rca w i true s1 (rows_of s) (incident_row (p_Id project) (app_Id app) i) eq_refl eq_refl
        (only_row_insert _ _ (Hfresh _))) as [Hm _] end.
    intros ->. split; [eexists; exact Hm|done].
  - destruct (e_status e =? Status.OK).
    + unfold resolve_incident, ResolveIncident. unfold mbind at 1, M_bind at 1. unfold mbind at 1, M_bind at 1.
      rewrite DbFacts.update_run by done. cbn [mret M_ret failed last_incident i_Key].
      destruct (only_row_update s r (row_set_resolved now) Hwf Hopen (λ _, eq_refl)) as [Hp Hm].
      match goal with |- context [mbind _ (after_incident rca project w app now ?i true) ?s1] =>
        destruct (after_only rca w i true s1 (rows_of s) (row_set_resolved now r) Hp eq_refl Hm) as [Hm' _] end.
      intros ->. split; [exists ""; exact Hm'|done].
    + unfold update_incident, UpdateIncident. cbn [last_incident i_OpenedAt]. rewrite Hd.
      unfold mbind at 1, M_bind at 1. unfold mbind at 1, M_bind at 1. rewrite DbFacts.update_run by done. cbn [mret M_ret failed].
      destruct (only_row_update s r (row_set_update (e_status e) (marshal_details (details_of now e (ir_opened_at r)))) Hwf Hopen (λ _, eq_refl))
        as [Hp Hm].
      match goal with |- context [mbind _ (after_incident rca project w app now ?i false) ?s1] =>
        destruct (after_only rca w i false s1 (rows_of s) (row_set_update (e_status e) (marshal_details (details_of now e (ir_opened_at r))) r) Hp eq_refl Hm)
          as [Hm' Hq] end.
      intros ->. split; [exists ""; exact Hm'|intros _; exact (Hq eq_refl)].
Qed.

End life.

(** * Incidents of applications that are gone *)
Section missing.
Context `{Env} `{LP : LogParser} {Mem : Type}.
Context (Hnf : ∀ k, env_fault k = None).
Context (project : Project) (w : World) (now : Z).

(** An open incident whose application the world does not have. *)
Definition gone (r : IncidentRow) : bool :=
  incident_open (p_Id project) r
  && match scan_app_id (p_Id project) (ir_application_id r) with
     | Some id => match GetApplication w id with Some _ => false | None => true end
     | None => false
     end.

(** The loop resolves the rows under the keys of the incidents without an
    application. *)
Definition hit (l : list ApplicationIncident) (r : IncidentRow) : bool :=
  existsb (λ i, match GetApplication w (i_ApplicationId i) with Some _ => false | None => incident_has_key (p_Id project) (i_Key i) r end) l.

Lemma resolve_loop_rows (l : list ApplicationIncident) (s s' : Sys Mem) :
  snd (forM_ l (λ i, match GetApplication w (i_ApplicationId i) with
      | Some _ => mret tt
      | None => _ ← ResolveIncident (p_Id project) (i_Key i) now; mret tt end) s) = s' →
  sys_tables s' = with_incident (update_where (hit l) (row_set_resolved now)) (sys_tables s).
Proof.
  revert s. induction l as [|i l IH]; intros s; cbn [forM_].
  { intros <-. unfold hit, update_where, with_incident. cbn. rewrite list_fmap_id. by destruct (sys_tables s). }
  unfold mbind at 1, M_bind at 1. unfold hit. cbn [existsb]. destruct (GetApplication w (i_ApplicationId i)) as [app|] eqn:Happ.
  - cbn [mret M_ret]. intros ->%IH. unfold with_incident, update_where. f_equal.
  - unfold ResolveIncident. unfold mbind at 1, M_bind at 1. rewrite DbFacts.update_run by done. cbn [mret M_ret].
    intros ->%IH. unfold with_incident, update_where. cbn [sys_tables t_incident t_alert t_alerting_rule t_alert_notification t_incident_notification].
    f_equal. rewrite <- list_fmap_compose. apply list_fmap_ext. intros k r _. cbn. change (hit l (row_set_resolved now r)) with (hit l r).
    destruct (incident_has_key _ _ r) eqn:Hk; cbn; [change (hit l (row_set_resolved now r)) with (hit l r)|done].
    by destruct (hit l r).
Qed.

(** When no call fails, the pass over missing applications resolves exactly
    the open incidents whose application is not in the world, and changes no
    other row; nor does it notify anyone of those it resolves. *)
Theorem missing_apps_resolved (s : Sys Mem) (Hwf : wf_incidents (t_incident (sys_tables s)))
    (Hscan : ∀ r, r ∈ t_incident (sys_tables s) → incident_open (p_Id project) r = true → scanIncident (p_Id project) r ≠ None) :
  sys_tables (snd (resolveIncidentsForMissingApps project w now s)) =
    with_incident (update_where gone (row_set_resolved now)) (sys_tables s).
Proof.
  remember (snd (resolveIncidentsForMissingApps project w now s)) as s' eqn:Hs'. revert Hs'.
  unfold resolveIncidentsForMissingApps, GetOpenIncidents. unfold mbind at 1, M_bind at 1. rewrite DbFacts.select_run by done.
  destruct (scan_all_run (scanIncident (p_Id project)) (where_ (incident_open (p_Id project)) (t_incident (sys_tables s))))
    as (l & -> & Hin & Hout); [by intros r [? ?]%elem_of_where; apply Hscan|].
  intros ->%eq_sym%resolve_loop_rows. cbn [tick sys_tables]. unfold with_incident, update_where. f_equal.
  apply list_fmap_ext. intros k r Hr%list_elem_of_lookup_2. enough (hit l r = gone r) as -> by done.
  apply eq_bool_prop_intro. rewrite !Is_true_true. unfold hit. rewrite existsb_exists. split.
  - intros (i & Hi%list_elem_of_In & Hk). destruct (GetApplication w (i_ApplicationId i)) eqn:Happ; [done|].
    destruct (Hout i Hi) as (r' & [Hr' Ho]%elem_of_where & Hsc). revert Hsc. unfold scanIncident, scan_incident_with.
    destruct (scan_app_id _ _) as [id|] eqn:Hid; [|done]. intros [= <-]. cbn in Happ, Hk.
    assert (r = r') as ->.
    { eapply same_key_row; [exact Hwf|done|done|]. unfold incident_has_key in Hk. apply andb_true_iff in Hk as [Hp Hk].
      unfold incident_open in Ho. apply andb_true_iff in Ho as [Hp' _]. unfold incident_in in *.
      apply String.eqb_eq in Hp, Hp', Hk. congruence. }
    unfold gone. by rewrite Ho, Hid, Happ.
  - unfold gone. intros [Ho Hg]%andb_true_iff. destruct (Hin r) as (i & Hi & Hsc); [by apply elem_of_where|].
    exists i. split; [by apply list_elem_of_In|]. revert Hsc. unfold scanIncident, scan_incident_with.
    destruct (scan_app_id _ _) as [id|] eqn:Hid; [|done]. intros [= <-]. cbn.
    destruct (GetApplication w id); [done|]. unfold incident_has_key. unfold incident_open in Ho.
    apply andb_true_iff in Ho as [-> _]. by rewrite String.eqb_refl.
Qed.

End missing.

(** * An objective of 100% *)

Lemma div_zero_not_finite v : finite (F32.div v (S754_zero false)) = false.
Proof. by destruct v as [[]|[]| |[] ? ?]. Qed.

(** With an objective of 100% the error budget is zero, so every burn rate is
    infinite or undefined, and JSON can hold neither: the details of an incident
    that hold one are stored as the empty text (in the run of the witness, half
    of the requests failing, such an incident is opened). *)
Theorem full_objective_loses_details (now : Z) (badF totalF : sumFromFunc) (rates : list BurnRate) (b : BurnRate) (d : IncidentDetails)
    (Hrates : calcBurnRates now badF totalF (F32.of_Z 100) = Ret rates) (Hb : b ∈ rates)
    (Hd : id_AvailabilityBurnRates d = rates ∨ id_LatencyBurnRates d = rates) :
  marshal_details d = None.
Proof.
  assert (Hinf : br_finite b = false).
  { revert Hrates Hb. unfold calcBurnRates. replace (F32.sub _ _) with (S754_zero false) by (vm_compute; reflexivity).
    clear Hd. generalize AlertRules. intros rules. revert rates. induction rules as [|r rules IH]; intros rates; cbn [burn_rates].
    { intros [= <-] Hb. by apply not_elem_of_nil in Hb. }
    destruct (rule_burn_rate _ _ _ _ r) as [o|] eqn:Ho; [|done]. cbn [obind].
    destruct (burn_rates _ _ _ _ rules) as [rest|] eqn:Hrest; [|done]. cbn [obind]. intros [= <-] Hb.
    assert (∀ x, o = Some x → br_finite x = false) as Hx.
    { intros x ->. unfold rule_burn_rate in Ho. destruct (totalF _); [|done]. cbn [obind] in Ho.
      destruct (badF _); [|done]. cbn [obind] in Ho. destruct (IsNaN _); [done|].
      destruct (badF _); [|done]. cbn [obind] in Ho. destruct (totalF _); [|done]. cbn [obind] in Ho.
      destruct (IsNaN _); [done|]. injection Ho as <-. unfold br_finite.
      cbn [br_LongWindowBurnRate br_ShortWindowBurnRate br_LongWindowPercentage br_ShortWindowPercentage br_Threshold].
      by rewrite div_zero_not_finite, andb_false_r. }
    destruct o as [x|]; [apply elem_of_cons in Hb as [-> |Hb]; [by apply Hx|]|]; by apply (IH rest). }
  assert (Hall : forallb br_finite rates = false).
  { apply not_true_is_false. rewrite List.forallb_forall. intros Hall. apply list_elem_of_In in Hb. by rewrite Hall in Hinf. }
  unfold marshal_details. destruct Hd as [-> | ->]; rewrite Hall; [done|]. by rewrite andb_false_r.
Qed.

(** * Concrete runs *)
Module IncidentRuns.

#[local] Instance run_order : MapOrder := {| map_order _ _ l := l; map_order_perm _ _ l := reflexivity l |}.
#[local] Instance run_env : Env := steady_env 30000.
#[local] Instance run_delivery : Delivery := AlertNotifyFacts.refusing_delivery.
#[local] Instance run_incident_delivery : IncidentDelivery := {| delivery_send_incident _ _ := inl "refused" |}.
#[local] Instance run_parser : LogParser :=
  {| Pattern := string; PatternString s := s; WeakEqual := String.eqb; NewPatternFromWords s := s |}.
#[local] Instance run_cloud : RcaCloud :=
  {| rca_status _ := ("OK", None); rca_metrics _ := None; rca_answer _ _ _ _ := inl "busy" |}.

(** Requests every five minutes, of which half fail, under an objective of 99%. *)
Definition requests (n : Z) : TimeSeries := NewWithData 0 300 (replicate 100 (F32.of_Z n)).
Definition failing_app : Application :=
  {| app_Id := NewApplicationId "c" "ns" "Deployment" "app"; app_Category := "application"; app_Instances := [];
     app_LogMessages := []; app_Reports := [];
     app_AvailabilitySLIs := [{| as_ObjectivePercentage := F32.of_Z 99; as_TotalRequests := None; as_FailedRequests := None; as_TotalRequestsRaw := Some (requests 100);
                                 as_FailedRequestsRaw := Some (requests 50) |}];
     app_LatencySLIs := []; app_Deployments := []; app_Annotations := []; app_TrafficStats := no_traffic; app_DNSRequests := [];
     app_DNSRequestsHistogram := []; app_InboundRequestsCount := []; app_InboundRequestsHistogram := [] |}.
Definition run_world : World := {| w_Ctx := NewContext 0 29700 300; w_CheckConfigs := []; w_Applications := [failing_app] |}.
Definition run_project : Project := AlertNotifyFacts.webhook_project.
Definition start (rows : list IncidentRow) : Sys unit := Build_Sys tt (with_incident (λ _, rows) no_tables) 0.

Lemma wf_requests n : wf_ts (requests n).
Proof. split; [done|done|by exists 0|vm_compute; split; discriminate]. Qed.
Lemma wf_failing_app : wf_slis failing_app.
Proof. split; [split; apply wf_requests|done]. Qed.
Lemma sane t : bool_decide (MaxAlertRuleWindow ≤ t < 2 ^ 62) = true → sane_now t.
Proof. apply bool_decide_eq_true_1. Qed.

Definition status_of (r : outcome Evaluated) : Z := match r with Ret e => e_status e | Panic => -1 end.

Lemma evaluate_app_spec_witness :
  violated 29700 (availability_sums failing_app) ∨ violated 29700 (latency_sums failing_app).
Proof.
  destruct (evaluate_app_spec (w_Ctx run_world) failing_app wf_failing_app (sane 29700 eq_refl)) as (e & He & _ & Hc).
  apply Hc. transitivity (status_of (evaluate_app (w_Ctx run_world) failing_app)); [by rewrite He|vm_compute; reflexivity].
Defined.

Lemma wf_no_incidents : wf_incidents [].
Proof. split; [apply NoDup_nil_2|intros; cbn; lia]. Qed.

Lemma clock_runs n : env_clock n ≠ 0.
Proof. cbn. lia. Qed.

Lemma named_apps app : app ∈ w_Applications run_world → AppIdFacts.named (app_Id app) = true.
Proof. cbn. intros ->%list_elem_of_singleton. done. Qed.

Lemma incidents_keep_one_open_witness :
  let s' := snd (CheckIncidents true run_project run_world (start [])) in
  wf_incidents (t_incident (sys_tables s')) ∧ ir_severity <$> t_incident (sys_tables s') = [Status.CRITICAL].
Proof.
  split; [|vm_compute; reflexivity].
  exact (incidents_keep_one_open true run_project run_world (start []) clock_runs named_apps wf_no_incidents).
Defined.

Definition the_evaluation : Evaluated :=
  match evaluate_app (w_Ctx run_world) failing_app with Ret e => e | Panic => {| e_status := 0; e_availability := ([], None); e_latency := ([], None) |} end.

Lemma the_evaluation_runs : evaluate_app (w_Ctx run_world) failing_app = Ret the_evaluation.
Proof.
  unfold the_evaluation. destruct (availability_run (w_Ctx run_world) failing_app wf_failing_app (sane 29700 eq_refl)) as (a & Ha & _).
  destruct (latency_run (w_Ctx run_world) failing_app wf_failing_app (sane 29700 eq_refl)) as (l & Hl & _).
  unfold evaluate_app. by rewrite Ha, Hl.
Qed.

(** From no incident, one is opened. *)
Lemma check_app_moves_incident_witness :
  let s' := snd (check_app true run_project run_world 30000 failing_app (start [])) in
  (∃ key, match incident_step (e_status the_evaluation) 30000
      (incident_row "p" (app_Id failing_app) (new_incident failing_app key 30000 (e_status the_evaluation) (details_of 30000 the_evaluation 30000)))
      (details_of 30000 the_evaluation) [] with
    | None => t_incident (sys_tables s') = []
    | Some row => only_row true [] (t_incident (sys_tables s')) row
    end)
  ∧ List.length (t_incident (sys_tables s')) = 1%nat.
Proof.
  split; [|vm_compute; reflexivity].
  exact (proj1 (check_app_moves_incident (λ _, eq_refl) run_project failing_app 30000 true run_world the_evaluation (start [])
    wf_failing_app (sane 29700 eq_refl) (sane 30000 eq_refl) the_evaluation_runs wf_no_incidents eq_refl (λ _, eq_refl))).
Defined.

(** An incident of an application that is gone, and one of another project. *)
Definition stale_row (projectId : string) : IncidentRow :=
  incident_row projectId (NewApplicationId "c" "ns" "Deployment" "gone")
    (new_incident failing_app "k" 10 Status.CRITICAL no_details).

Lemma missing_apps_resolved_witness :
  let s := start [stale_row "p"; stale_row "q"] in
  let s' := snd (resolveIncidentsForMissingApps run_project run_world 30000 s) in
  sys_tables s' = with_incident (update_where (gone run_project run_world) (row_set_resolved 30000)) (sys_tables s)
  ∧ ir_resolved_at <$> t_incident (sys_tables s') = [30000; 0].
Proof.
  split; [|vm_compute; reflexivity].
  apply (missing_apps_resolved (H := run_env) (λ _, eq_refl) run_project run_world 30000 (start [stale_row "p"; stale_row "q"])).
  - split; [by repeat constructor; set_solver|]. intros p a _. unfold last_open_rows, where_, incident_open, incident_in.
    cbn -[String.eqb of_app]. destruct (String.eqb_spec "p" p) as [<-|]; cbn -[String.eqb of_app].
    + change (String.eqb "q" "p") with false. cbn -[of_app]. destruct (of_app a _); cbn; lia.
    + destruct (String.eqb "q" p); cbn -[of_app]; [destruct (of_app a _)|]; cbn; lia.
  - intros r Hr _. cbn in Hr. apply elem_of_cons in Hr as [-> |Hr%list_elem_of_singleton]; [|subst r]; vm_compute; discriminate.
Defined.

Definition half_bad : sumFromFunc := λ _, Ret (F32.of_Z 50).
Definition all_requests : sumFromFunc := λ _, Ret (F32.of_Z 100).
Definition full_rates : list BurnRate := match calcBurnRates 30000 half_bad all_requests (F32.of_Z 100) with Ret l => l | Panic => [] end.

Lemma full_objective_loses_details_witness :
  (br_Severity <$> full_rates) = [Status.CRITICAL; Status.CRITICAL]
  ∧ marshal_details {| id_AvailabilityBurnRates := full_rates; id_LatencyBurnRates := []; id_AvailabilityImpact := F32.of_Z 50; id_LatencyImpact := F32.zero |} = None.
Proof.
  split; [vm_compute; reflexivity|].
  refine (full_objective_loses_details 30000 half_bad all_requests full_rates (hd (Build_BurnRate NaN NaN NaN NaN 0 0 0 NaN) full_rates) _ _ _ _).
  - vm_compute. reflexivity.
  - vm_compute. left.
  - left. reflexivity.
Defined.

End IncidentRuns.
