(* ===== verification/Deployments.v ===== *)
(** The deployment watcher: watchers/deployments.go.

    Deployments are pointers in the world, reached through their application
    only: a pass returns the applications with their deployments as it leaves
    them.  The clients of Slack, Teams and the webhook are parameters; that the
    Slack client writes the thread it posted into the deployment, even when its
    reply then fails, is modelled. *)

From S2P Require Export Categories DeploymentStore Rollouts DeploymentStatus Metrics.
From Stdlib Require Import Ascii ZArith Lia.
Local Open Scope string_scope.
Local Open Scope Z_scope.

(** * watchers/deployments.go *)

(** The answers of the clients: Slack posts (or updates, when it has a thread) a
    message and answers its channel and timestamp, then replies in the thread. *)
Class DeploymentDelivery := {
  slack_post : nat → string → option string → ApplicationDeploymentStatus → string + (string * string);
  slack_reply : nat → string → string → ApplicationDeploymentStatus → string + unit;
  teams_post : nat → string → ApplicationDeploymentStatus → string + unit;
  webhook_post : nat → ApplicationDeploymentStatus → string + unit
}.

Definition no_notifications : ApplicationDeploymentNotifications :=
  {| dn_State := 0; dn_SlackState := 0; dn_SlackChannel := ""; dn_SlackThreadTs := ""; dn_TeamsState := 0; dn_WebhookState := 0 |}.
Definition dn_set_thread (channel ts : string) (n : ApplicationDeploymentNotifications) : ApplicationDeploymentNotifications :=
  {| dn_State := dn_State n; dn_SlackState := dn_SlackState n; dn_SlackChannel := channel; dn_SlackThreadTs := ts;
     dn_TeamsState := dn_TeamsState n; dn_WebhookState := dn_WebhookState n |}.
Definition dn_set_slack (state : Z) (n : ApplicationDeploymentNotifications) : ApplicationDeploymentNotifications :=
  {| dn_State := dn_State n; dn_SlackState := state; dn_SlackChannel := dn_SlackChannel n; dn_SlackThreadTs := dn_SlackThreadTs n;
     dn_TeamsState := dn_TeamsState n; dn_WebhookState := dn_WebhookState n |}.
Definition dn_set_teams (state : Z) (n : ApplicationDeploymentNotifications) : ApplicationDeploymentNotifications :=
  {| dn_State := dn_State n; dn_SlackState := dn_SlackState n; dn_SlackChannel := dn_SlackChannel n; dn_SlackThreadTs := dn_SlackThreadTs n;
     dn_TeamsState := state; dn_WebhookState := dn_WebhookState n |}.
Definition dn_set_webhook (state : Z) (n : ApplicationDeploymentNotifications) : ApplicationDeploymentNotifications :=
  {| dn_State := dn_State n; dn_SlackState := dn_SlackState n; dn_SlackChannel := dn_SlackChannel n; dn_SlackThreadTs := dn_SlackThreadTs n;
     dn_TeamsState := dn_TeamsState n; dn_WebhookState := state |}.

Definition dep_set_notifications (n : ApplicationDeploymentNotifications) (d : ApplicationDeployment) : ApplicationDeployment :=
  {| dep_ApplicationId := dep_ApplicationId d; dep_Name := dep_Name d; dep_StartedAt := dep_StartedAt d;
     dep_FinishedAt := dep_FinishedAt d; dep_Details := dep_Details d; dep_MetricsSnapshot := dep_MetricsSnapshot d;
     dep_Notifications := Some n |}.
Definition dep_set_snapshot (ms : MetricsSnapshot) (d : ApplicationDeployment) : ApplicationDeployment :=
  {| dep_ApplicationId := dep_ApplicationId d; dep_Name := dep_Name d; dep_StartedAt := dep_StartedAt d;
     dep_FinishedAt := dep_FinishedAt d; dep_Details := dep_Details d; dep_MetricsSnapshot := Some ms;
     dep_Notifications := dep_Notifications d |}.

Section watcher.
Context `{LP : LogParser} `{Env} `{MapOrder} `{Regression} `{Humanize} `{DeploymentDelivery} {Mem : Type}.

Definition app_set_deployments (ds : list ApplicationDeployment) (a : Application) : Application :=
  {| app_Id := app_Id a; app_Category := app_Category a; app_Instances := app_Instances a;
     app_LogMessages := app_LogMessages a; app_Reports := app_Reports a;
     app_AvailabilitySLIs := app_AvailabilitySLIs a; app_LatencySLIs := app_LatencySLIs a; app_Deployments := ds; app_Annotations := app_Annotations a; app_TrafficStats := app_TrafficStats a;
     app_DNSRequests := app_DNSRequests a; app_DNSRequestsHistogram := app_DNSRequestsHistogram a;
     app_InboundRequestsCount := app_InboundRequestsCount a; app_InboundRequestsHistogram := app_InboundRequestsHistogram a |}.

(** * discoverAndSaveDeployments *)

(** [for _, d := range calcDeployments(app)]: the deployments of the application,
    and whether the pass goes on. *)
Fixpoint discover (projectId : string) (found known : list ApplicationDeployment) : M Mem (list ApplicationDeployment * bool) :=
  match found with
  | [] => mret (known, true)
  | d :: found =>
      let k := List.find (λ dd, String.eqb (dep_Name dd) (dep_Name d) && (dep_StartedAt dd =? dep_StartedAt d)) known in
      let known' := match k with None => (known ++ [d])%list | Some _ => known end in
      if match k with None => true | Some dd => negb (dep_FinishedAt dd =? dep_FinishedAt d) end then
        err ← SaveApplicationDeployment projectId d;
        if failed err then mret (known, false) else discover projectId found known'
      else discover projectId found known'
  end.

(** [for _, app := range world.Applications]: a failed statement ends the pass. *)
Fixpoint discover_apps (project : Project) (apps : list Application) : M Mem (outcome (list Application)) :=
  match apps with
  | [] => mret (Ret [])
  | app :: apps =>
      if negb (String.eqb (Kind (app_Id app)) ApplicationKindDeployment) then
        and_then (discover_apps project apps) (λ apps, mret (Ret (app :: apps)))
      else
        and_then (ask (λ n, calcDeployments n app)) (λ found,
          r ← discover (p_Id project) found (app_Deployments app);
          let app := app_set_deployments (fst r) app in
          if (snd r : bool) then and_then (discover_apps project apps) (λ apps, mret (Ret (app :: apps)))
          else mret (Ret (app :: apps)))
  end.

Definition discoverAndSaveDeployments (project : Project) (w : World) : M Mem (outcome (list Application)) :=
  apps ← range (w_Applications w); discover_apps project apps.

(** * snapshotDeploymentMetrics *)

(** Whether a deployment gets a snapshot now: the end of its window, and whether
    it is due; [next] is the start of the next deployment. *)
Definition snapshot_window (d : ApplicationDeployment) : Z * Z :=
  let from := Time.Add (dep_FinishedAt d) ApplicationDeploymentMetricsSnapshotShift in
  (from, Time.Add from ApplicationDeploymentMetricsSnapshotWindow).
Definition snapshot_due (d : ApplicationDeployment) (next : option Z) (now : Z) : bool :=
  match dep_MetricsSnapshot d with
  | Some _ => false
  | None => negb (Time.IsZero (dep_FinishedAt d)) && negb (Time.After (snd (snapshot_window d)) (default now next))
  end.

Definition snapshot_deployment (projectId : string) (app : Application) (now step : Z)
    (d : ApplicationDeployment) (next : option Z) : M Mem (outcome ApplicationDeployment) :=
  if snapshot_due d next now then
    match calcMetricsSnapshot app (fst (snapshot_window d)) (snd (snapshot_window d)) step with
    | Panic => mret Panic
    | Ret ms =>
        let d := dep_set_snapshot ms d in
        _ ← SaveApplicationDeploymentMetricsSnapshot projectId d;
        mret (Ret d)
    end
  else mret (Ret d).

Fixpoint snapshot_deployments (projectId : string) (app : Application) (now step : Z) (ds : list ApplicationDeployment)
  : M Mem (outcome (list ApplicationDeployment)) :=
  match ds with
  | [] => mret (Ret [])
  | d :: ds =>
      and_then (snapshot_deployment projectId app now step d (dep_StartedAt <$> head ds)) (λ d,
        and_then (snapshot_deployments projectId app now step ds) (λ ds, mret (Ret (d :: ds))))
  end.

Definition snapshotDeploymentMetrics (project : Project) (w : World) : M Mem (outcome (list Application)) :=
  apps ← range (w_Applications w);
  collect (λ app,
    and_then (snapshot_deployments (p_Id project) app (ctx_To (w_Ctx w)) (ctx_Step (w_Ctx w)) (app_Deployments app))
      (λ ds, mret (Ret (app_set_deployments ds app)))) apps.

(** * sendNotifications *)

(** notifications/slack.go: [Slack.SendDeployment]; the thread is kept even when
    the reply fails. *)
Definition Slack_SendDeployment (channel : string) (ds : ApplicationDeploymentStatus) (n : ApplicationDeploymentNotifications)
  : M Mem (bool * ApplicationDeploymentNotifications) :=
  let threaded := negb (String.eqb (dn_SlackChannel n) "") && negb (String.eqb (dn_SlackThreadTs n) "") in
  r ← ask (λ k, slack_post k (if threaded then dn_SlackChannel n else channel)
                  (if threaded then Some (dn_SlackThreadTs n) else None) ds);
  match r with
  | inl _ => mret (false, n)
  | inr (ch, ts) =>
      let n := dn_set_thread ch ts n in
      r ← ask (λ k, slack_reply k ch ts ds);
      mret (negb (failed r), n)
  end.

(** notifications/teams.go: [Teams.SendDeployment] says nothing of a rollout in
    progress. *)
Definition Teams_SendDeployment (url : string) (ds : ApplicationDeploymentStatus) : M Mem bool :=
  if st_State ds =? ApplicationDeploymentStateInProgress then mret true
  else r ← ask (λ k, teams_post k url ds); mret (negb (failed r)).

Definition Webhook_SendDeployment (ds : ApplicationDeploymentStatus) : M Mem bool :=
  r ← ask (λ k, webhook_post k ds); mret (negb (failed r)).

(** The three blocks: what the destination is told, and whether it was. *)
Definition notify_slack (i : Integrations) (s : Destinations) (ds : ApplicationDeploymentStatus) (n : ApplicationDeploymentNotifications)
  : M Mem (bool * ApplicationDeploymentNotifications) :=
  match i_Slack i, nd_Slack s with
  | Some slack, Some c =>
      if sl_Deployments slack && cs_Enabled c && (dn_SlackState n <? st_State ds) then
        r ← Slack_SendDeployment (if String.eqb (cs_Channel c) "" then sl_DefaultChannel slack else cs_Channel c) ds n;
        mret (fst r, if fst r : bool then dn_set_slack (st_State ds) (snd r) else snd r)
      else mret (false, n)
  | _, _ => mret (false, n)
  end.

Definition notify_teams (i : Integrations) (s : Destinations) (ds : ApplicationDeploymentStatus) (n : ApplicationDeploymentNotifications)
  : M Mem (bool * ApplicationDeploymentNotifications) :=
  match i_Teams i, nd_Teams s with
  | Some teams, Some c =>
      if te_Deployments teams && cs_Enabled c && (dn_TeamsState n <? st_State ds) then
        sent ← Teams_SendDeployment (GetWebhookUrl (cs_Channel c) teams) ds;
        mret (sent, if sent : bool then dn_set_teams (st_State ds) n else n)
      else mret (false, n)
  | _, _ => mret (false, n)
  end.

Definition notify_webhook (i : Integrations) (s : Destinations) (ds : ApplicationDeploymentStatus) (n : ApplicationDeploymentNotifications)
  : M Mem (bool * ApplicationDeploymentNotifications) :=
  match i_Webhook i, nd_Webhook s with
  | Some wh, Some enabled =>
      if wh_Deployments wh && enabled && (dn_WebhookState n <? st_State ds) then
        sent ← Webhook_SendDeployment ds;
        mret (sent, if sent : bool then dn_set_webhook (st_State ds) n else n)
      else mret (false, n)
  | _, _ => mret (false, n)
  end.

(** The body of the loop over the statuses. *)
Definition notify_status (project : Project) (s : Destinations) (now : Z) (ds : ApplicationDeploymentStatus)
  : M Mem (outcome ApplicationDeployment) :=
  let i := p_Integrations project in
  let d := st_Deployment ds in
  if Time.Day <? Time.Sub now (dep_StartedAt d) then mret (Ret d)
  else
    let n := default no_notifications (dep_Notifications d) in
    if st_State ds <=? dn_State n then mret (Ret (dep_set_notifications n d))
    else
      slack ← notify_slack i s ds n;
      teams ← notify_teams i s ds (snd slack);
      webhook ← notify_webhook i s ds (snd teams);
      let d := dep_set_notifications (snd webhook) d in
      if fst slack || fst teams || fst webhook then
        _ ← SaveApplicationDeploymentNotifications (p_Id project) d;
        mret (Ret d)
      else mret (Ret d).

Definition notify_app (project : Project) (w : World) (app : Application) : M Mem (outcome Application) :=
  match GetApplicationCategories project !! app_Category app with
  | None => mret (Ret app)
  | Some c =>
      let s := ns_Deployments (ac_NotificationSettings c) in
      if negb (ks_Enabled s) then mret (Ret app)
      else
        match CalcApplicationDeploymentStatuses app (w_CheckConfigs w) (ctx_To (w_Ctx w)) with
        | Panic => mret Panic
        | Ret sts =>
            and_then (collect (notify_status project (ks_Destinations s) (ctx_To (w_Ctx w))) sts)
              (λ ds, mret (Ret (app_set_deployments ds app)))
        end
  end.

Definition sendNotifications (project : Project) (w : World) : M Mem (outcome (list Application)) :=
  apps ← range (w_Applications w);
  collect (notify_app project w) apps.

(** * Check *)
Definition world_set_applications (apps : list Application) (w : World) : World :=
  {| w_Ctx := w_Ctx w; w_CheckConfigs := w_CheckConfigs w; w_Applications := apps |}.

Definition CheckDeployments (project : Project) (w : World) : M Mem (outcome World) :=
  and_then (discoverAndSaveDeployments project w) (λ apps, let w := world_set_applications apps w in
  and_then (snapshotDeploymentMetrics project w) (λ apps, let w := world_set_applications apps w in
  and_then (sendNotifications project w) (λ apps, mret (Ret (world_set_applications apps w))))).

(** constructor/constructor.go: [loadApplicationDeployments], which gives the
    world of the next pass its deployments. *)
Definition loadApplicationDeployments (project : Project) (w : World) : M Mem World :=
  r ← GetApplicationDeployments (p_Id project);
  match r with
  | inl _ => mret w
  | inr byApp =>
      mret (world_set_applications
        ((λ app, match byApp !! app_Id app with
                 | None => app
                 | Some ds => app_set_deployments ds app
                 end) <$> w_Applications w) w)
  end.

End watcher.
