(* ===== verification/DeploymentsSpec.v ===== *)
(** Theorems on the deployment watcher: what its statements do to the rows, what
    one pass keeps, and when a snapshot is taken and a notification sent. *)

From S2P Require Export Deployments.
From Stdlib Require Import Ascii ZArith Lia.
Local Open Scope string_scope.
Local Open Scope Z_scope.

Import DbFacts MetricsFacts.

(** * Rows *)

(** The key of a row, and keys that are unique. *)
Definition row_key (r : ApplicationDeploymentRow) : string * string * Z :=
  (dr_project_id r, dr_application_id r, dr_started_at r).
Definition wf_rows (rows : list ApplicationDeploymentRow) : Prop := NoDup (row_key <$> rows).

(** A row later: the same key, and an end that was set stays, with its name. *)
Definition row_kept (r r' : ApplicationDeploymentRow) : Prop :=
  row_key r' = row_key r
  ∧ (dr_finished_at r ≠ 0 → dr_finished_at r' = dr_finished_at r ∧ dr_name r' = dr_name r).

(** The rows later: keys are unique, no row is gone, new ones are appended. *)
Definition rows_kept (rows0 rows : list ApplicationDeploymentRow) : Prop :=
  wf_rows rows ∧ ∃ old new, rows = (old ++ new)%list ∧ Forall2 row_kept rows0 old.

Lemma rows_kept_refl rows : wf_rows rows → rows_kept rows rows.
Proof.
  intros Hw. split; [done|]. exists rows, []. rewrite app_nil_r. split; [done|].
  clear Hw. induction rows; constructor; by repeat split.
Qed.

(** An UPDATE that keeps each row it changes. *)
Lemma rows_kept_update rows0 rows p f :
  rows_kept rows0 rows → (∀ r, r ∈ rows → p r = true → row_kept r (f r)) → rows_kept rows0 (update_where p f rows).
Proof.
  intros [Hw (old & new & -> & Hold)] Hf.
  assert (Hk : ∀ r, r ∈ (old ++ new)%list → row_kept r (if p r then f r else r)).
  { intros r Hr. destruct (p r) eqn:Hp; [by apply Hf|by repeat split]. }
  split.
  - unfold wf_rows, update_where in *. rewrite <- list_fmap_compose. erewrite list_fmap_ext; [exact Hw|].
    intros i r Hi. apply (Hk r). by eapply list_elem_of_lookup_2.
  - unfold update_where. rewrite fmap_app. do 2 eexists. split; [done|].
    assert (Hk' : ∀ r, r ∈ old → row_kept r (if p r then f r else r)) by (intros; apply Hk; set_solver).
    clear Hk Hf Hw. induction Hold as [|r0 r rows0 old Hr _ IH]; constructor.
    + specialize (Hk' r ltac:(left)). destruct Hr as [Hk1 Hf1], Hk' as [Hk2 Hf2]. split; [congruence|].
      intros H0. destruct (Hf1 H0) as [H1 H1']. destruct (Hf2 ltac:(congruence)) as [H2 H2']. split; congruence.
    + apply IH. intros; apply Hk'. by right.
Qed.

Lemma rows_kept_insert rows0 rows row :
  rows_kept rows0 rows → row_key row ∉ (row_key <$> rows) → rows_kept rows0 (rows ++ [row]).
Proof.
  intros [Hw (old & new & -> & Hold)] Hn. split.
  - unfold wf_rows in *. rewrite fmap_app. apply NoDup_app. split_and!; [done| |apply NoDup_singleton].
    intros k Hk ->%list_elem_of_singleton. done.
  - exists old, (new ++ [row])%list. by rewrite app_assoc.
Qed.

Lemma of_deployment_key projectId id started r :
  of_deployment projectId id started r = true ↔ row_key r = (projectId, AppIdString id, started).
Proof.
  unfold of_deployment, row_key. rewrite !andb_true_iff, !String.eqb_eq, Z.eqb_eq. split; [by intros [[-> ->] ->]|by intros [= -> -> ->]].
Qed.

(** Two rows with one key are one row. *)
Lemma wf_same_key rows r r' : wf_rows rows → r ∈ rows → r' ∈ rows → row_key r = row_key r' → r = r'.
Proof.
  intros Hw (i & Hi)%list_elem_of_lookup (j & Hj)%list_elem_of_lookup Hk.
  assert (i = j) as ->; [|congruence].
  eapply (NoDup_lookup _ _ _ (row_key r) Hw); rewrite list_lookup_fmap; [by rewrite Hi|rewrite Hj; cbn; by f_equal].
Qed.

Section invariant.
Context `{LP : LogParser} `{Env} `{MapOrder} `{Regression} `{Humanize} `{DeploymentDelivery} {Mem : Type}.

(** Since the start, when the table was [rows0]. *)
Definition kept_since (rows0 : list ApplicationDeploymentRow) (s : Sys Mem) : Prop :=
  rows_kept rows0 (t_application_deployment (sys_tables s)).

(** [m] keeps the rows, from wherever it starts. *)
Definition keeps {A} (m : M Mem A) : Prop := ∀ rows0, triple (kept_since rows0) m (λ _, kept_since rows0).

Lemma keeps_ret {A} (a : A) : keeps (mret a).
Proof. intros rows0. by apply triple_ret. Qed.
Lemma keeps_bind {A B} (m : M Mem A) (f : A → M Mem B) : keeps m → (∀ a, keeps (f a)) → keeps (m ≫= f).
Proof. intros Hm Hf rows0. eapply triple_bind; [apply Hm|]. intros a. apply Hf. Qed.
Lemma keeps_ask {A} (f : nat → A) : keeps (ask f).
Proof. intros rows0 s Hs. exact Hs. Qed.
Lemma keeps_range {A} (l : list A) : keeps (range l).
Proof. intros rows0 s Hs. exact Hs. Qed.
Lemma keeps_and_then {A B} (m : M Mem (outcome A)) (k : A → M Mem (outcome B)) :
  keeps m → (∀ a, keeps (k a)) → keeps (and_then m k).
Proof. intros Hm Hk. apply keeps_bind; [done|]. intros [a|]; [apply Hk|apply keeps_ret]. Qed.
Lemma keeps_collect {A B} (f : A → M Mem (outcome B)) l : (∀ a, keeps (f a)) → keeps (collect f l).
Proof.
  intros Hf. induction l as [|a l IH]; [apply keeps_ret|]. cbn.
  apply keeps_and_then; [apply Hf|]. intros b. apply keeps_and_then; [done|]. intros bs. apply keeps_ret.
Qed.

Lemma keeps_update p f :
  (∀ r, p r = true → row_kept r (f r)) → keeps (update (with_application_deployment (update_where p f))).
Proof.
  intros Hf rows0 s Hs. unfold kept_since in *. destruct (update _ s) as [r s'] eqn:E. cbn.
  apply update_inv in E as [_ ->]. destruct (failed r); [done|]. cbn. apply rows_kept_update; auto.
Qed.

Lemma keeps_insert row : keeps (insert_deployment row).
Proof.
  intros rows0 s Hs. unfold kept_since in *. destruct (insert_deployment row s) as [r s'] eqn:E. cbn.
  apply statement_inv in E as [_ Hr]. destruct r as [e|[]]; [by rewrite Hr|].
  destruct (existsb _ _) eqn:Hex; [done|]. injection Hr as <-. cbn. apply rows_kept_insert; [done|].
  intros (r & Hk & Hin)%list_elem_of_fmap. apply existsb_false_Forall in Hex.
  rewrite Forall_forall in Hex. specialize (Hex r Hin). injection Hk as K1 K2 K3.
  rewrite K1, K2, K3, !String.eqb_refl, Z.eqb_refl in Hex. done.
Qed.

(** Saving a deployment sets an end only where none is set. *)
Lemma keeps_Save projectId d : keeps (SaveApplicationDeployment projectId d).
Proof.
  unfold SaveApplicationDeployment. destruct (Time.IsZero _); [apply keeps_ret|].
  set (own := of_deployment _ _ _). intros rows0 s Hs. unfold mbind, M_bind.
  destruct (select _ s) as [saved s1] eqn:E. apply select_inv in E as (_ & Ht & Hq).
  assert (Hs1 : kept_since rows0 s1) by (unfold kept_since; by rewrite Ht).
  destruct saved as [e|[fin|]]; [done| |by apply keeps_insert].
  specialize (Hq _ eq_refl). injection Hq as Hq.
  destruct (Time.IsZero (dep_FinishedAt d)); [done|].
  unfold Time.IsZero. case_bool_decide as Hf; [|done]. cbn [negb]. subst fin.
  destruct (head (where_ own _)) as [r1|] eqn:Hh; [|done]. injection Hq as Hq. apply head_Some in Hh as [l Hl].
  destruct (update _ s1) as [r s2] eqn:E2. cbn. apply update_inv in E2 as [_ Ht2]. unfold kept_since in *.
  rewrite Ht2. destruct (failed r); [done|]. cbn. apply rows_kept_update; [done|].
  intros r2 Hr2 Hown. split; [done|]. intros Hne. destruct Hne.
  assert (K1 : r1 ∈ where_ own (t_application_deployment (sys_tables s))) by (rewrite Hl; left).
  apply elem_of_where in K1 as [Hin1 Hown1]. rewrite Ht in Hr2, Hs1. destruct Hs1 as [Hw _].
  rewrite (wf_same_key _ r2 r1 Hw Hr2 Hin1); [by symmetry|].
  apply of_deployment_key in Hown, Hown1. congruence.
Qed.

Lemma keeps_snapshot projectId d : keeps (SaveApplicationDeploymentMetricsSnapshot projectId d).
Proof. unfold SaveApplicationDeploymentMetricsSnapshot. destruct (marshal_snapshot _); [|apply keeps_ret]. by apply keeps_update. Qed.
Lemma keeps_notifications projectId d : keeps (SaveApplicationDeploymentNotifications projectId d).
Proof. by apply keeps_update. Qed.

End invariant.

#[export] Hint Resolve keeps_ret keeps_ask keeps_range keeps_Save keeps_snapshot keeps_notifications : coroot.

(** Follows the structure of a program that keeps the rows. *)
Ltac keeps :=
  repeat match goal with
  | |- keeps (_ ≫= _) => apply keeps_bind; [|intros ?]
  | |- keeps (and_then _ _) => apply keeps_and_then; [|intros ?]
  | |- keeps (collect _ _) => apply keeps_collect; intros ?
  | |- keeps (match ?x with _ => _ end) => destruct x
  | |- keeps (let '(_, _) := ?x in _) => destruct x
  | |- keeps _ => solve [eauto with coroot]
  end.

Module DeploymentTheorems.
Section theorems.
Context `{LP : LogParser} `{Env} `{MapOrder} `{Regression} `{Humanize} `{DeploymentDelivery} {Mem : Type}.

Lemma keeps_discover projectId found known : keeps (Mem := Mem) (discover projectId found known).
Proof.
  revert known. induction found as [|d found IH]; intros known; [apply keeps_ret|]. cbn [discover]. cbv zeta.
  destruct (match List.find _ known with Some _ => _ | None => _ end); [|apply IH].
  apply keeps_bind; [apply keeps_Save|]. intros err. destruct (failed err); [apply keeps_ret|apply IH].
Qed.

Lemma keeps_discover_apps project apps : keeps (Mem := Mem) (discover_apps project apps).
Proof.
  induction apps as [|app apps IH]; [apply keeps_ret|]. cbn [discover_apps].
  destruct (negb _); [by keeps|]. apply keeps_and_then; [apply keeps_ask|]. intros found.
  apply keeps_bind; [apply keeps_discover|]. intros [ds []]; by keeps.
Qed.

Lemma keeps_snapshot_deployments projectId app now step ds :
  keeps (Mem := Mem) (snapshot_deployments projectId app now step ds).
Proof. induction ds as [|d ds IH]; [apply keeps_ret|]. cbn [snapshot_deployments]. unfold snapshot_deployment. by keeps. Qed.

Lemma keeps_notify_status project s now ds : keeps (Mem := Mem) (notify_status project s now ds).
Proof.
  unfold notify_status, notify_slack, notify_teams, notify_webhook, Slack_SendDeployment, Teams_SendDeployment, Webhook_SendDeployment.
  cbv zeta. by keeps.
Qed.

(** C16 Whatever fails, and in whatever order its maps are visited, a pass of the
    watcher keeps the table of deployments: one row for each project, application
    and start, no row lost, and an end that was set stays as it is. *)
Theorem CheckDeployments_keeps_rows project w (s : Sys Mem) :
  let rows0 := t_application_deployment (sys_tables s) in
  wf_rows rows0 → rows_kept rows0 (t_application_deployment (sys_tables (snd (CheckDeployments project w s)))).
Proof.
  intros rows0 Hw. assert (Hk : keeps (Mem := Mem) (CheckDeployments project w)).
  { unfold CheckDeployments, discoverAndSaveDeployments, snapshotDeploymentMetrics, sendNotifications, notify_app.
    cbv zeta. keeps; auto using keeps_discover_apps, keeps_snapshot_deployments, keeps_notify_status. }
  apply (Hk rows0 s). by apply rows_kept_refl.
Qed.
(** * Discovery *)

(** The row that stands for a deployment. *)
Definition has_row (projectId : string) (rows : list ApplicationDeploymentRow) (d : ApplicationDeployment) : Prop :=
  ∃ r, r ∈ rows ∧ of_deployment projectId (dep_ApplicationId d) (dep_StartedAt d) r = true
     ∧ (dep_FinishedAt d ≠ 0 → dr_finished_at r ≠ 0).

(** The deployments in memory are those of the table. *)
Definition mirrors projectId rows (known : list ApplicationDeployment) : Prop := Forall (has_row projectId rows) known.

Lemma has_row_kept projectId rows rows' d : rows_kept rows rows' → has_row projectId rows d → has_row projectId rows' d.
Proof.
  intros [_ (old & new & -> & Hold)] (r & Hin & Hown & Hf).
  apply list_elem_of_lookup in Hin as [i Hi]. destruct (Forall2_lookup_l _ _ _ _ _ Hold Hi) as (r' & Hi' & Hk & Hfin).
  exists r'. split_and!.
  - apply elem_of_app. left. by eapply list_elem_of_lookup_2.
  - apply of_deployment_key. apply of_deployment_key in Hown. congruence.
  - intros Hne. destruct (Hfin (Hf Hne)) as [-> _]. auto.
Qed.

(** A save that succeeds leaves a row, with an end if the deployment has one. *)
Lemma Save_has_row projectId d (s s' : Sys Mem) :
  SaveApplicationDeployment projectId d s = (inr tt, s') →
  wf_rows (t_application_deployment (sys_tables s)) →
  dep_StartedAt d ≠ 0 ∧ has_row projectId (t_application_deployment (sys_tables s')) d.
Proof.
  unfold SaveApplicationDeployment, Time.IsZero. case_bool_decide as Hst; [done|].
  set (own := of_deployment _ _ _). intros Hrun Hw. split; [done|]. revert Hrun. unfold mbind, M_bind.
  destruct (select _ s) as [saved s1] eqn:E. apply select_inv in E as (_ & Ht & Hq).
  destruct saved as [e|saved]; [done|]. specialize (Hq _ eq_refl). injection Hq as Hq.
  destruct (head (where_ own (t_application_deployment (sys_tables s)))) as [r1|] eqn:Hh; cbn in Hq; subst saved.
  - apply head_Some in Hh as [l Hl].
    assert (Hr1 : r1 ∈ where_ own (t_application_deployment (sys_tables s))) by (rewrite Hl; left).
    apply elem_of_where in Hr1 as [Hin Hown].
    case_bool_decide as Hf; [|case_bool_decide as Hrf]; cbn [negb].
    + intros [= <-]. exists r1. rewrite Ht. done.
    + intros [Hm Hu]%update_inv. cbn in Hu. rewrite Hu, Ht. exists (row_set_finished (dep_FinishedAt d) (dep_Name d) r1).
      split_and!; [|done|done]. cbn. unfold update_where. apply list_elem_of_fmap. exists r1. by rewrite Hown.
    + intros [= <-]. exists r1. rewrite Ht. done.
  - intros [Hm Hr]%statement_inv. destruct (existsb _ _); [done|]. injection Hr as <-.
    exists (deployment_row projectId d). cbn. split_and!; [set_solver| |done].
    unfold of_deployment. cbn. by rewrite !String.eqb_refl, Z.eqb_refl.
Qed.

Lemma mirrors_kept projectId rows rows' known :
  rows_kept rows rows' → mirrors projectId rows known → mirrors projectId rows' known.
Proof. intros Hk Hm. eapply Forall_impl; [exact Hm|]. intros d. by apply has_row_kept. Qed.

(** When the pass over the deployments found for an application goes through,
    each of them has its row, with an end if it has one; and the deployments of
    the application are still mirrored by the table. *)
Theorem discover_saves projectId id found known known' (s s' : Sys Mem) :
  let rows0 := t_application_deployment (sys_tables s) in
  wf_rows rows0 → mirrors projectId rows0 known →
  Forall (λ d, dep_ApplicationId d = id) (found ++ known) →
  discover projectId found known s = ((known', true), s') →
  mirrors projectId (t_application_deployment (sys_tables s')) known'
  ∧ mirrors projectId (t_application_deployment (sys_tables s')) found.
Proof.
  cbv zeta. revert known s. induction found as [|d found IH]; intros known s Hw Hm Hid Hrun.
  { injection Hrun as <- <-. by split; [|constructor]. }
  apply Forall_cons in Hid as [Hd Hid]. pose proof Hid as [_ Hknown]%Forall_app.
  assert (Hstep : ∀ known1 s1, rows_kept (t_application_deployment (sys_tables s)) (t_application_deployment (sys_tables s1)) →
            (known1 = known ∨ known1 = (known ++ [d])%list) →
            has_row projectId (t_application_deployment (sys_tables s1)) d →
            discover projectId found known1 s1 = ((known', true), s') →
            mirrors projectId (t_application_deployment (sys_tables s')) known'
            ∧ mirrors projectId (t_application_deployment (sys_tables s')) (d :: found)).
  { intros known1 s1 Hk1 Hknown1 Hrow Hrest. pose proof (proj1 Hk1) as Hw1.
    pose proof (keeps_discover projectId found known1 _ s1 (rows_kept_refl _ Hw1)) as Hkept. rewrite Hrest in Hkept.
    destruct (IH known1 s1 Hw1) as [Hm' Hfound]; [| |done|].
    - pose proof (mirrors_kept _ _ _ _ Hk1 Hm). destruct Hknown1 as [->| ->]; [done|].
      apply Forall_app. split; [done|]. by constructor.
    - destruct Hknown1 as [->| ->]; [done|]. rewrite app_assoc. apply Forall_app. split; [done|]. by constructor.
    - split; [done|]. constructor; [|done]. by eapply has_row_kept. }
  cbn [discover] in Hrun. cbv zeta in Hrun.
  set (k := List.find _ known) in Hrun.
  destruct (match k with Some dd => _ | None => true end) eqn:Hsave.
  - unfold mbind, M_bind in Hrun. destruct (SaveApplicationDeployment projectId d s) as [err s1] eqn:Es.
    pose proof (keeps_Save projectId d _ s (rows_kept_refl _ Hw)) as Hk1. rewrite Es in Hk1.
    destruct err as [e|[]]; [done|]. cbn [failed] in Hrun.
    destruct (Save_has_row _ _ _ _ Es Hw) as [_ Hrow].
    apply (Hstep _ s1 Hk1) in Hrun; [done| |done]. destruct k; by auto.
  - destruct k as [dd|] eqn:Hk; [|done]. apply (Hstep known s (rows_kept_refl _ Hw)); [by left| |done].
    apply List.find_some in Hk as [Hin [Hn Hs]%andb_true_iff]. apply list_elem_of_In in Hin.
    apply negb_false_iff, Z.eqb_eq in Hsave. apply Z.eqb_eq in Hs.
    unfold mirrors in Hm. rewrite Forall_forall in Hm. rewrite Forall_forall in Hknown.
    destruct (Hm dd Hin) as (r & Hr & Hown & Hf). exists r. rewrite Hd, <- (Hknown dd Hin), <- Hs, <- Hsave. done.
Qed.

(** * Snapshots *)

(** A deployment gets a snapshot exactly when it has none, has ended, and the
    window from ten to thirty minutes after its end has passed before the next
    deployment started, or before now; the snapshot is of that window.  One that
    has a snapshot keeps it. *)
Theorem snapshot_deployment_spec projectId app now step d next (s : Sys Mem) :
  0 ≤ dep_FinishedAt d < 2 ^ 62 → readable_app app →
  ∃ d' s', snapshot_deployment projectId app now step d next s = (Ret d', s')
    ∧ (if bool_decide (dep_MetricsSnapshot d = None ∧ dep_FinishedAt d ≠ 0
                       ∧ dep_FinishedAt d + 30 * Time.Minute ≤ default now next)
       then ∃ ms, d' = dep_set_snapshot ms d
                ∧ calcMetricsSnapshot app (dep_FinishedAt d + 10 * Time.Minute) (dep_FinishedAt d + 30 * Time.Minute) step = Ret ms
                ∧ ms_Timestamp ms = dep_FinishedAt d + 30 * Time.Minute ∧ ms_Duration ms = 20 * Time.Minute
       else d' = d ∧ s' = s).
Proof.
  intros Hf Hread. unfold snapshot_deployment, snapshot_due, snapshot_window, Time.Add, Time.IsZero, Time.After.
  unfold ApplicationDeploymentMetricsSnapshotShift, ApplicationDeploymentMetricsSnapshotWindow, Time.Minute, Time.Second in *.
  cbv zeta. cbn [fst snd].
  replace (add64 (dep_FinishedAt d) (10 * (1 * 60))) with (dep_FinishedAt d + 600) by (rewrite add64_id; [lia|i64]).
  replace (add64 (dep_FinishedAt d + 600) (20 * (1 * 60))) with (dep_FinishedAt d + 1800) by (rewrite add64_id; [lia|i64]).
  replace (10 * (1 * 60)) with 600 by lia. replace (30 * (1 * 60)) with 1800 by lia.
  destruct (dep_MetricsSnapshot d) as [ms0|] eqn:Hms.
  { exists d, s. rewrite bool_decide_false; [done|]. by intros [? _]. }
  destruct (calcMetricsSnapshot_returns app (dep_FinishedAt d + 600) (dep_FinishedAt d + 1800) step Hread) as (ms & Hcalc & Ht & Hd).
  case_bool_decide as Hz; cbn [negb andb].
  { exists d, s. rewrite bool_decide_false; [done|]. by intros (_ & ? & _). }
  destruct (bool_decide (dep_FinishedAt d + 1800 > default now next)) eqn:Hlate; cbn [negb].
  { apply bool_decide_eq_true in Hlate. exists d, s. rewrite bool_decide_false; [done|]. intros (_ & _ & ?). lia. }
  apply bool_decide_eq_false in Hlate. rewrite Hcalc. unfold mbind, M_bind.
  destruct (SaveApplicationDeploymentMetricsSnapshot _ _ s) as [r s'].
  eexists _, _. split; [reflexivity|]. rewrite bool_decide_true by (split_and!; [done|done|lia]).
  exists ms. split_and!; [done..|]. rewrite Hd. unfold Time.Sub. rewrite sub64_id by i64. lia.
Qed.

(** * Notifications *)









(** When Slack takes a message but refuses the reply in its thread, and no other
    destination is told, the thread is kept in memory only: the row still names
    the thread it named before, so the next pass, which reads the row, does not
    update the message just posted. *)
Theorem slack_thread_lost project dst now ds (s : Sys Mem) slack c ch ts err :
  let d := st_Deployment ds in
  let n := default no_notifications (dep_Notifications d) in
  i_Slack (p_Integrations project) = Some slack → sl_Deployments slack = true →
  nd_Slack dst = Some c → cs_Enabled c = true → nd_Teams dst = None → nd_Webhook dst = None →
  Time.Sub now (dep_StartedAt d) ≤ Time.Day → dn_State n < st_State ds → dn_SlackState n < st_State ds →
  (∀ k channel thread, slack_post k channel thread ds = inr (ch, ts)) → (∀ k, slack_reply k ch ts ds = inl err) →
  ∃ s', notify_status project dst now ds s = (Ret (dep_set_notifications (dn_set_thread ch ts n) d), s')
    ∧ sys_tables s' = sys_tables s.
Proof.
  cbv zeta. intros Hi Hsd Hd Hc Ht Hw Hday Hst Hss Hpost Hreply. unfold notify_status. cbv zeta.
  destruct (Z.ltb_spec Time.Day (Time.Sub now (dep_StartedAt (st_Deployment ds)))) as [?|_]; [lia|].
  destruct (Z.leb_spec (st_State ds) (dn_State (default no_notifications (dep_Notifications (st_Deployment ds))))) as [?|_]; [lia|].
  unfold notify_slack, notify_teams, notify_webhook. rewrite Hi, Hd, Ht, Hw, Hsd, Hc.
  destruct (Z.ltb_spec (dn_SlackState (default no_notifications (dep_Notifications (st_Deployment ds)))) (st_State ds)) as [_|?]; [|lia].
  cbn [andb]. unfold Slack_SendDeployment, ask, mbind, M_bind, mret, M_ret. cbv zeta. rewrite Hpost, Hreply.
  destruct (i_Teams _), (i_Webhook _); cbn; by eexists.
Qed.

End theorems.
End DeploymentTheorems.

(** * Concrete runs *)
Module DeploymentRuns.
Import DeploymentTheorems.

#[local] Instance run_env : Env := steady_env 1000.
#[local] Instance run_order : MapOrder := {| map_order _ _ l := l; map_order_perm _ _ l := reflexivity l |}.
#[local] Instance run_parser : LogParser :=
  {| Pattern := string; PatternString s := s; WeakEqual := String.eqb; NewPatternFromWords s := s |}.
#[local] Instance run_regression : Regression := {| LinearRegression _ _ := (S754_zero false, S754_zero false) |}.
#[local] Instance run_humanize : Humanize := {| Plural _ s _ := s; durafmt_String _ _ := "" |}.
(** Slack takes the message and refuses the reply. *)
#[local] Instance run_delivery : DeploymentDelivery :=
  {| slack_post _ _ _ _ := inr ("C1", "17.5"); slack_reply _ _ _ _ := inl "rate_limited";
     teams_post _ _ _ := inl "down"; webhook_post _ _ := inl "down" |}.

Definition pod (name rs : string) (life : list f32) : Instance_ :=
  {| inst_Name := name; inst_Pod := Some {| pod_Phase := "Running"; pod_ReplicaSet := rs; pod_LifeSpan := Some (NewWithData 900 30 life) |};
     inst_Containers := []; inst_NodePrice := None; inst_ClusterComponent := None; inst_Upstreams := []; inst_Annotations := [] |}.
Definition app : Application :=
  {| app_Id := NewApplicationId "c" "ns" "Deployment" "web"; app_Category := "application";
     app_Instances := [pod "web-a-1" "web-a" [F32.one; F32.one; F32.one; NaN]; pod "web-b-1" "web-b" [NaN; F32.one; F32.one; F32.one]];
     app_LogMessages := []; app_Reports := []; app_AvailabilitySLIs := []; app_LatencySLIs := []; app_Deployments := []; app_Annotations := []; app_TrafficStats := no_traffic; app_DNSRequests := [];
     app_DNSRequestsHistogram := []; app_InboundRequestsCount := []; app_InboundRequestsHistogram := [] |}.
Definition found (finished : Z) : ApplicationDeployment := new_deployment (app_Id app) "web-b" 930 finished.

Definition slack_settings : KindSettings :=
  {| ks_Enabled := true;
     ks_Destinations := {| nd_Slack := Some {| cs_Enabled := true; cs_Channel := "" |}; nd_Teams := None; nd_Pagerduty := None;
                           nd_Opsgenie := None; nd_Webhook := None |} |}.
Definition project : Project :=
  {| p_Id := "p"; p_Name := "p";
     p_Integrations := {| i_BaseUrl := ""; i_Slack := Some {| sl_DefaultChannel := "general"; sl_Incidents := false; sl_Deployments := true; sl_Alerts := None |};
                          i_Teams := None; i_Pagerduty := None; i_Opsgenie := None; i_Webhook := None |};
     p_ApplicationCategorySettings := ∅; p_MemberProjects := [] |}.
Definition world : World := {| w_Ctx := NewContext 900 1020 30; w_CheckConfigs := []; w_Applications := [app] |}.
Definition start (rows : list ApplicationDeploymentRow) : Sys unit :=
  Build_Sys tt (with_application_deployment (λ _, rows) no_tables) 0.

(** The row of the rollout while it was in progress. *)
Definition open_row : ApplicationDeploymentRow := deployment_row "p" (found 0).
Lemma wf_open_row : wf_rows [open_row].
Proof. apply NoDup_singleton. Qed.

Lemma CheckDeployments_keeps_rows_witness :
  let rows := t_application_deployment (sys_tables (snd (CheckDeployments project world (start [open_row])))) in
  rows_kept [open_row] rows ∧ dr_finished_at <$> rows = [990].
Proof.
  split; [|vm_compute; reflexivity].
  exact (CheckDeployments_keeps_rows project world (start [open_row]) wf_open_row).
Defined.

Lemma discover_saves_witness :
  let r := discover "p" [found 990] [found 0] (start [open_row]) in
  mirrors "p" (t_application_deployment (sys_tables (snd r))) [found 990]
  ∧ dr_finished_at <$> t_application_deployment (sys_tables (snd r)) = [990].
Proof.
  split; [|vm_compute; reflexivity].
  refine (proj2 (discover_saves "p" (app_Id app) [found 990] [found 0] [found 0] (start [open_row]) _ wf_open_row _ _ _)).
  - constructor; [|constructor]. exists open_row. split; [left|]. split; [reflexivity|]. intros H; destruct (H eq_refl).
  - repeat (constructor; [reflexivity|]). constructor.
  - vm_compute. reflexivity.
Defined.

Lemma snapshot_deployment_spec_witness :
  (∃ d' s', snapshot_deployment "p" app 2790 30 (found 990) None (start []) = (Ret d', s') ∧ dep_MetricsSnapshot d' ≠ None)
  ∧ (∃ s', snapshot_deployment "p" app 2789 30 (found 990) None (start []) = (Ret (found 990), s')).
Proof.
  assert (Hread : MetricsFacts.readable_app app) by (split_and!; try exact I; apply Forall_nil_2).
  split.
  - destruct (snapshot_deployment_spec "p" app 2790 30 (found 990) None (start []) ltac:(cbn; lia) Hread) as (d' & s' & Hrun & Hd).
    exists d', s'. split; [exact Hrun|]. rewrite bool_decide_true in Hd by (cbn; split_and!; [done|lia|unfold Time.Minute, Time.Second; lia]).
    destruct Hd as (ms & -> & _). discriminate.
  - destruct (snapshot_deployment_spec "p" app 2789 30 (found 990) None (start []) ltac:(cbn; lia) Hread) as (d' & s' & Hrun & Hd).
    exists s'. rewrite bool_decide_false in Hd by (cbn; unfold Time.Minute, Time.Second; lia). destruct Hd as [-> _]. exact Hrun.
Defined.

Definition in_progress : ApplicationDeploymentStatus := deployment_status app [] 180 1020 [] (found 0) None.

Lemma slack_thread_lost_witness :
  ∃ s', notify_status project (ks_Destinations slack_settings) 1020 in_progress (start [open_row])
        = (Ret (dep_set_notifications (dn_set_thread "C1" "17.5" no_notifications) (found 0)), s')
      ∧ dr_notifications <$> t_application_deployment (sys_tables s') = [None].
Proof.
  destruct (slack_thread_lost project (ks_Destinations slack_settings) 1020 in_progress (start [open_row])
    {| sl_DefaultChannel := "general"; sl_Incidents := false; sl_Deployments := true; sl_Alerts := None |}
    {| cs_Enabled := true; cs_Channel := "" |} "C1" "17.5" "rate_limited" eq_refl eq_refl eq_refl eq_refl eq_refl eq_refl
    ltac:(vm_compute; discriminate) ltac:(vm_compute; reflexivity) ltac:(vm_compute; reflexivity)
    ltac:(reflexivity) ltac:(reflexivity)) as (s' & Hrun & Ht).
  exists s'. split; [exact Hrun|]. rewrite Ht. reflexivity.
Defined.
End DeploymentRuns.
