(* ===== verification/UpdateQueue.v ===== *)
(** watchers/watchers.go: the queue of project updates, and the window of data
    one update is checked on.

    Two goroutines share the channel and the [pending] set: the producer's body
    runs under the lock, the consumer takes a project from the channel and then,
    under the lock, out of the set.  So the queue is a step relation whose steps
    are those three, interleaved at will, the timer's, and the end of one handling.  A ghost
    set [unseen] holds the projects updated since their last handling began. *)

From S2P Require Export Model.
From Stdlib Require Import Ascii String ZArith Lia.
Local Open Scope string_scope.
Local Open Scope Z_scope.

(** [make(chan db.ProjectId, 1000)] *)
Definition capacity : nat := 1000.

Inductive Consumer := Waiting | Received (projectId : string) | Handling (projectId : string).

Record Queue := {
  q_chan : list string;
  q_pending : gmap string bool;
  q_consumer : Consumer;
  q_unseen : gset string
}.

Definition empty_queue : Queue := {| q_chan := []; q_pending := ∅; q_consumer := Waiting; q_unseen := ∅ |}.

(** The producer's body, for one update: a project that is pending is skipped;
    when the channel is full the update is dropped. *)
Definition produce (projectId : string) (q : Queue) : Queue :=
  if default false (q_pending q !! projectId) then
    {| q_chan := q_chan q; q_pending := q_pending q; q_consumer := q_consumer q; q_unseen := {[projectId]} ∪ q_unseen q |}
  else if bool_decide (List.length (q_chan q) < capacity)%nat then
    {| q_chan := (q_chan q ++ [projectId])%list; q_pending := <[projectId := true]> (q_pending q);
       q_consumer := q_consumer q; q_unseen := {[projectId]} ∪ q_unseen q |}
  else
    {| q_chan := q_chan q; q_pending := <[projectId := false]> (q_pending q); q_consumer := q_consumer q;
       q_unseen := {[projectId]} ∪ q_unseen q |}.

(** The consumer: receive, then delete from [pending] and handle the project
    (or skip it, on a replica that is not the primary one). *)
Definition receive (q : Queue) : option Queue :=
  match q_consumer q, q_chan q with
  | Waiting, projectId :: chan =>
      Some {| q_chan := chan; q_pending := q_pending q; q_consumer := Received projectId; q_unseen := q_unseen q |}
  | _, _ => None
  end.
Definition begin_handling (q : Queue) : option Queue :=
  match q_consumer q with
  | Received projectId =>
      Some {| q_chan := q_chan q; q_pending := delete projectId (q_pending q); q_consumer := Handling projectId;
              q_unseen := q_unseen q ∖ {[projectId]} |}
  | _ => None
  end.
(** A tick of the timer: a multi-cluster project is handled, the queue is left
    alone.  The tick's loop over the projects is several such steps. *)
Definition tick (projectId : string) (q : Queue) : option Queue :=
  match q_consumer q with
  | Waiting =>
      Some {| q_chan := q_chan q; q_pending := q_pending q; q_consumer := Handling projectId; q_unseen := q_unseen q |}
  | _ => None
  end.
Definition end_handling (q : Queue) : option Queue :=
  match q_consumer q with
  | Handling _ => Some {| q_chan := q_chan q; q_pending := q_pending q; q_consumer := Waiting; q_unseen := q_unseen q |}
  | _ => None
  end.

(** The steps, for updates of the projects [P]. *)
Inductive step (P : gset string) : Queue → Queue → Prop :=
  | step_produce projectId q : projectId ∈ P → step P q (produce projectId q)
  | step_receive q q' : receive q = Some q' → step P q q'
  | step_begin q q' : begin_handling q = Some q' → step P q q'
  | step_tick projectId q q' : tick projectId q = Some q' → step P q q'
  | step_end q q' : end_handling q = Some q' → step P q q'.

Inductive reachable (P : gset string) : Queue → Prop :=
  | reachable_start : reachable P empty_queue
  | reachable_step q q' : reachable P q → step P q q' → reachable P q'.

(** * handleProjectUpdate: the window of a multi-cluster project

    [resultsTo] of each member project, in order: [None] when reading it
    fails; zero when the member has no results yet. *)
Fixpoint member_window (members : list (option Z)) (from to : Z) : option (Z * Z) :=
  match members with
  | [] => Some (from, to)
  | None :: _ => None
  | Some resultsTo :: members =>
      if Time.IsZero resultsTo || Time.Before resultsTo from then None
      else if Time.IsZero to || Time.Before resultsTo to
      then member_window members (Time.Add resultsTo (wrap64 (- Time.Hour))) resultsTo
      else member_window members from to
  end.

(** The window [alerts.Check] and the world are given. *)
Definition update_window (multicluster : bool) (results : list (option Z)) : option (Z * Z) :=
  if multicluster then member_window results 0 0
  else match results with
       | Some resultsTo :: _ =>
           if Time.IsZero resultsTo then None else Some (Time.Add resultsTo (wrap64 (- Time.Hour)), resultsTo)
       | _ => None
       end.

Module UpdateQueueFacts.

Definition received (q : Queue) : list string := match q_consumer q with Received p => [p] | _ => [] end.

(** Where a pending project is, and that it is there once. *)
Record wf_queue (P : gset string) (q : Queue) : Prop := {
  wq_pending : ∀ p, q_pending q !! p = Some true ↔ p ∈ (received q ++ q_chan q)%list;
  wq_nodup : NoDup (received q ++ q_chan q);
  wq_known : ∀ p, p ∈ (received q ++ q_chan q)%list → p ∈ P;
  wq_unseen : ∀ p, p ∈ q_unseen q → p ∈ (received q ++ q_chan q)%list
}.

Lemma chan_fits P q : wf_queue P q → (List.length (q_chan q) ≤ size P)%nat.
Proof.
  intros [_ Hn Hk _]. apply NoDup_app in Hn as (_ & _ & Hn). rewrite <- (size_list_to_set (C := gset string)) by done.
  apply subseteq_size. intros p Hp%elem_of_list_to_set. apply Hk. set_solver.
Qed.

Lemma wf_produce P p q :
  (size P ≤ capacity)%nat → p ∈ P → wf_queue P q → wf_queue P (produce p q).
Proof.
  intros Hcap Hp Hwf. pose proof Hwf as [Hpend Hn Hk Hu]. unfold produce.
  destruct (default false (q_pending q !! p)) eqn:Hd.
  - assert (q_pending q !! p = Some true) as Hin%Hpend by (by destruct (q_pending q !! p) as [[]|]).
    split; cbn; [done..|]. intros x [->%elem_of_singleton|Hx]%elem_of_union; [done|by apply Hu].
  - assert (Hnot : p ∉ (received q ++ q_chan q)%list) by (intros Hin%Hpend; by rewrite Hin in Hd).
    assert (Hlen : (List.length (received q ++ q_chan q)%list < size P)%nat).
    { rewrite <- (size_list_to_set (C := gset string)) by done. apply subset_size. split.
      - intros x Hx%elem_of_list_to_set. by apply Hk.
      - intros Hsub. by apply Hnot, (elem_of_list_to_set (C := gset string)), Hsub. }
    rewrite length_app in Hlen. rewrite bool_decide_true by lia.
    split; cbn; change (received _) with (received q).
    + intros x. rewrite lookup_insert_Some, Hpend, !elem_of_app, list_elem_of_singleton.
      destruct (decide (p = x)) as [->|]; naive_solver.
    + rewrite app_assoc. apply NoDup_app. split_and!; [done| |apply NoDup_singleton].
      intros x Hx ->%list_elem_of_singleton. done.
    + intros x. rewrite !elem_of_app, list_elem_of_singleton. specialize (Hk x). rewrite elem_of_app in Hk. naive_solver.
    + intros x [->%elem_of_singleton|Hx%Hu]%elem_of_union; rewrite !elem_of_app, list_elem_of_singleton; [tauto|]. rewrite elem_of_app in Hx. tauto.
Qed.

Lemma wf_step P q q' : (size P ≤ capacity)%nat → step P q q' → wf_queue P q → wf_queue P q'.
Proof.
  intros Hcap [p r Hp|r r' Hr|r r' Hr|p r r' Hr|r r' Hr] Hwf; [by apply wf_produce|..]; destruct Hwf as [Hpend Hn Hk Hu].
  - unfold receive in Hr. unfold received in *. destruct (q_consumer r) eqn:Hc; [|done|done].
    destruct (q_chan r) as [|p l] eqn:Hch; [done|]. injection Hr as <-. by split.
  - unfold begin_handling in Hr. unfold received in *. destruct (q_consumer r) as [|p|] eqn:Hc; [done| |done].
    injection Hr as <-. cbn in *. apply NoDup_cons in Hn as [Hp Hn]. split; cbn; [|done|set_solver|].
    + intros x. rewrite lookup_delete_Some, Hpend. set_solver.
    + intros x [Hx Hne%not_elem_of_singleton]%elem_of_difference. specialize (Hu x Hx). set_solver.
  - unfold tick in Hr. unfold received in *. destruct (q_consumer r) eqn:Hc; [|done|done].
    injection Hr as <-. by split.
  - unfold end_handling in Hr. unfold received in *. destruct (q_consumer r) as [|p|p] eqn:Hc; [done|done|].
    injection Hr as <-. by split.
Qed.

(** C39 No update is lost: with at most [capacity] projects, whatever the
    interleaving of the two goroutines, a project updated since its last
    handling began is in the channel or already received, once; so the channel
    never holds more than one entry for each project, and is never full when an
    update has to be queued. *)
Theorem updates_are_not_lost (P : gset string) (q : Queue) (Hcap : (size P ≤ capacity)%nat) (Hq : reachable P q) :
  (∀ p, p ∈ q_unseen q → p ∈ q_chan q ∨ q_consumer q = Received p)
  ∧ NoDup (q_chan q) ∧ (List.length (q_chan q) ≤ size P)%nat.
Proof.
  assert (Hwf : wf_queue P q).
  { induction Hq as [|q q' _ IH Hstep]; [|by eapply wf_step].
    split; cbn; [intros p; rewrite lookup_empty; set_solver|constructor|set_solver|set_solver]. }
  pose proof (chan_fits P q Hwf). destruct Hwf as [Hpend Hn Hk Hu]. split_and!; [|by apply NoDup_app in Hn as (_ & _ & ?)|done].
  intros p Hp%Hu. unfold received in Hp. destruct (q_consumer q); set_solver.
Qed.

Lemma updates_are_not_lost_witness :
  let q := produce "b" (produce "a" (produce "a" empty_queue)) in
  q_chan q = ["a"; "b"] ∧ ("a" ∈ q_chan q ∨ q_consumer q = Received "a").
Proof.
  split; [vm_compute; reflexivity|].
  apply (updates_are_not_lost {["a"; "b"]} (produce "b" (produce "a" (produce "a" empty_queue)))).
  - vm_compute. lia.
  - repeat (eapply reachable_step; [|constructor; set_solver]). constructor.
  - cbn. set_solver.
Defined.

(** The window of a multi-cluster project ends at the earliest end of its
    members' data, none of them missing, and is an hour long; but a member that
    lags more than an hour behind stops the update only when it comes after the
    one it lags: the members' order decides. *)
Theorem member_window_spec (members : list (option Z)) (from to : Z)
    (Hsane : ∀ t, Some t ∈ members → 0 ≤ t < 2 ^ 62) (Hw : member_window members 0 0 = Some (from, to)) (Hne : members ≠ []) :
  from = to - Time.Hour ∧ Some to ∈ members ∧ (∀ m, m ∈ members → ∃ t, m = Some t ∧ t ≠ 0 ∧ to ≤ t).
Proof.
  assert (Hgen : ∀ l f t, (∀ x, Some x ∈ l → 0 ≤ x < 2 ^ 62) → (t = 0 → l ≠ []) → (t ≠ 0 → f = t - Time.Hour) →
    member_window l f t = Some (from, to) →
    from = to - Time.Hour ∧ (Some to ∈ l ∨ (to = t ∧ t ≠ 0)) ∧ (t ≠ 0 → to ≤ t)
    ∧ (∀ m, m ∈ l → ∃ x, m = Some x ∧ x ≠ 0 ∧ to ≤ x)).
  { induction l as [|[x|] l IH]; intros f t Hs Ht Hf; cbn [member_window]; [| |done].
    - destruct (decide (t = 0)) as [->|Hne0]; [by destruct (Ht eq_refl)|]. intros [= <- <-].
      split_and!; [auto|by right|lia|set_solver].
    - assert (0 ≤ x < 2 ^ 62) as Hx by (apply Hs; left).
      assert (Hl : ∀ y, Some y ∈ l → 0 ≤ y < 2 ^ 62) by (intros; apply Hs; by right).
      unfold Time.IsZero, Time.Before. destruct (bool_decide (x = 0)) eqn:Ex; [done|].
      apply bool_decide_eq_false in Ex. cbn [orb]. destruct (bool_decide (x < f)); [done|].
      assert (Hadd : Time.Add x (wrap64 (- Time.Hour)) = x - Time.Hour).
      { unfold Time.Add, add64. change (wrap64 (- Time.Hour)) with (-3600). change Time.Hour with 3600.
        rewrite wrap64_id; unfold in_i64, i64_min, i64_max; lia. }
      rewrite Hadd.
      destruct (bool_decide (t = 0) || bool_decide (x < t)) eqn:Et.
      + intros (H1 & H2 & H3 & H4)%IH; [|done|done|done]. specialize (H3 Ex).
        apply orb_true_iff in Et. rewrite !bool_decide_eq_true in Et.
        split_and!; [done|left; destruct H2 as [?|[-> _]]; set_solver|lia|].
        intros m [-> |Hm]%elem_of_cons; [by exists x|auto].
      + apply orb_false_iff in Et as [Et1 Et2]. apply bool_decide_eq_false in Et1, Et2.
        intros (H1 & H2 & H3 & H4)%IH; [|done|done|done]. specialize (H3 Et1).
        split_and!; [done|destruct H2 as [?|?]; [left; by right|by right]|done|].
        intros m [-> |Hm]%elem_of_cons; [exists x; split_and!; [done|done|lia]|auto]. }
  destruct (Hgen members 0 0) as (H1 & H2 & _ & H4); [done|done|done|done|].
  split_and!; [done|by destruct H2 as [?|[_ ?]]|done].
Qed.

Lemma member_window_spec_witness :
  (6400 = 10000 - Time.Hour ∧ Some 10000 ∈ [Some 10000; Some 20000])
  ∧ member_window [Some 20000; Some 10000] 0 0 = None.
Proof.
  split; [|vm_compute; reflexivity].
  destruct (member_window_spec [Some 10000; Some 20000] 6400 10000) as (H1 & H2 & _); [|vm_compute; reflexivity|discriminate|by split].
  intros t. rewrite !elem_of_cons, elem_of_nil. intros [[= ->]|[[= ->]|[]]]; lia.
Defined.

End UpdateQueueFacts.
