(* ===== verification/FlameGraph.v ===== *)
(** Flame graphs (model/profile.go) and how the profiles read from ClickHouse
    become one (clickhouse/profiles.go).

    A node is a tree: [InsertStack] walks it from the root along a stack, finding
    or creating a child at each frame, so the pointer the code moves is the
    position of the recursion.  A [Data] map that is nil is [None]. *)

From Stdlib Require Import ZArith Lia Bool String Ascii.
From S2P Require Import Prelude GoStrings.
Import FilepathFacts.

Local Open Scope string_scope.
Local Open Scope Z_scope.

(** * What is used of strings and path *)
Module GoPath.

Fixpoint LastIndexByte (s : string) (c : ascii) : Z :=
  match s with
  | EmptyString => -1
  | String d s' =>
      let i := LastIndexByte s' c in
      if 0 <=? i then i + 1 else if same c d then 0 else -1
  end.

Fixpoint Index (s sub : string) : Z :=
  match strip_prefix sub s with
  | Some _ => 0
  | None =>
      match s with
      | EmptyString => -1
      | String _ s' => let i := Index s' sub in if 0 <=? i then i + 1 else -1
      end
  end.

Definition HasSuffix (s suffix : string) : bool :=
  (String.length suffix <=? String.length s)%nat
  && String.eqb (sdrop (String.length s - String.length suffix) s) suffix.

(** [s[:i]] and [s[i:]] at an index the code has checked. *)
Definition upto (s : string) (i : Z) : string := stake (Z.to_nat i) s.
Definition from (s : string) (i : Z) : string := sdrop (Z.to_nat i) s.

(** path.Clean, on the elements between the slashes: [acc] holds the elements
    kept so far, the last one first. *)
Fixpoint clean_elements (rooted : bool) (acc elements : list string) : list string :=
  match elements with
  | [] => acc
  | "" :: es | "." :: es => clean_elements rooted acc es
  | ".." :: es =>
      match acc with
      | x :: acc' =>
          if String.eqb x ".." then clean_elements rooted (".." :: acc) es
          else clean_elements rooted acc' es
      | [] => clean_elements rooted (if rooted then [] else [".."]) es
      end
  | e :: es => clean_elements rooted (e :: acc) es
  end.

Definition Clean (p : string) : string :=
  let rooted := match p with String c _ => same c "/" | EmptyString => false end in
  let kept := rev (clean_elements rooted [] (Split "/" p)) in
  if rooted then "/" ++ Join kept "/"
  else match kept with [] => "." | _ => Join kept "/" end.

(** path.Dir: the path up to its last slash, cleaned. *)
Definition Dir (p : string) : string :=
  Clean (upto p (LastIndexByte p "/" + 1)).

End GoPath.
Import GoPath.

(** * The names of functions *)

(** [javaFuncRe], the expression
    [^(([0-9a-z.]+)\.[^.]+\.[^(]+)\(], matched the leftmost-first way: the
    package is the longest run of its class after which the rest matches; the
    other runs end at the first character they exclude, so they have one
    length.  The result is the two submatches. *)
Fixpoint until (c : ascii) (s : string) : option (string * string) :=
  match s with
  | EmptyString => None
  | String d s' =>
      if same c d then Some ("", s')
      else match until c s' with
           | Some (a, b) => Some (String d a, b)
           | None => None
           end
  end.

(** One or more characters that are not [c], then [c]. *)
Definition run_until (c : ascii) (s : string) : option (string * string) :=
  match until c s with
  | Some ("", _) | None => None
  | some => some
  end.

Definition package_char (c : ascii) : bool :=
  let n := N_of_ascii c in
  ((48 <=? n)%N && (n <=? 57)%N) || ((97 <=? n)%N && (n <=? 122)%N) || same "." c.

(** What follows the package: a dot, the class, a dot, the method, a parenthesis. *)
Definition class_and_method (s : string) : option string :=
  match s with
  | String "." s1 =>
      match run_until "." s1 with
      | Some (class, s2) =>
          match run_until "(" s2 with
          | Some (method, _) => Some ("." ++ class ++ "." ++ method)
          | None => None
          end
      | None => None
      end
  | _ => None
  end.

Fixpoint java_package (package s : string) : option (string * string) :=
  let here :=
    match package with
    | EmptyString => None
    | _ => match class_and_method s with
           | Some rest => Some (package ++ rest, package)
           | None => None
           end
    end in
  match s with
  | String c s' =>
      if package_char c then
        match java_package (package ++ String c EmptyString) s' with
        | Some m => Some m
        | None => here
        end
      else here
  | EmptyString => here
  end.

Definition javaFuncRe (s : string) : option (string * string) := java_package "" s.

(** The branches of [parseStackFunction] that may fall through to the next. *)
Definition python_function (parts : list string) : option (string * string) :=
  match parts with
  | [file; function; _] =>
      if HasSuffix file ".py" then
        let i := Index file "site-packages/" in
        if bool_decide (i = -1) then Some (function ++ " @" ++ file, file)
        else let file := from file (i + len_go (list_ascii_of_string "site-packages/")) in
             Some (function ++ " @" ++ file, Dir file)
      else None
  | _ => None
  end.

Definition java_function (parts : list string) : option (string * string) :=
  match parts with
  | _ :: p :: _ :: _ => javaFuncRe p
  | _ => None
  end.

Definition parseStackFunction (sf : string) : string * string :=
  let parts := Split " " sf in
  match parts with
  | [p; _] =>
      let i := LastIndexByte p "/" in
      (p, if 0 <? i then upto p i else "")
  | _ =>
      match python_function parts with
      | Some r => r
      | None =>
          match java_function parts with
          | Some r => r
          | None =>
              let i := LastIndexByte sf " " in
              if 0 <? i then (upto sf i, "") else (sf, "")
          end
      end
  end.

(** * The tree *)

Local Unset Elimination Schemes.
Inductive FlameGraphNode : Type := Node {
  Name : string;
  Total : Z;
  Self : Z;
  Comp : Z;
  Children : list FlameGraphNode;
  ColorBy : string;
  Data : option (gmap string string);
}.

Definition new_node (name colorBy : string) : FlameGraphNode := Node name 0 0 0 [] colorBy None.

Definition with_children (f : list FlameGraphNode → list FlameGraphNode) (n : FlameGraphNode) : FlameGraphNode :=
  Node (Name n) (Total n) (Self n) (Comp n) (f (Children n)) (ColorBy n) (Data n).

(** [node.Total += value; if comp != nil { node.Comp += *comp }] *)
Definition pass (value : Z) (comp : option Z) (n : FlameGraphNode) : FlameGraphNode :=
  Node (Name n) (add64 (Total n) value) (Self n)
    (match comp with Some c => add64 (Comp n) c | None => Comp n end)
    (Children n) (ColorBy n) (Data n).

(** [node.Self += value] *)
Definition add_self (value : Z) (n : FlameGraphNode) : FlameGraphNode :=
  Node (Name n) (Total n) (add64 (Self n) value) (Comp n) (Children n) (ColorBy n) (Data n).

(** sort.Search: the binary search between [i] and [j], on fuel [j - i]. *)
Fixpoint search (fuel : nat) (f : nat → bool) (i j : nat) : nat :=
  match fuel with
  | O => i
  | S fuel =>
      if (i <? j)%nat then
        let h := ((i + j) / 2)%nat in
        if f h then search fuel f i h else search fuel f (S h) j
      else i
  end.

Definition Search (n : nat) (f : nat → bool) : nat := search n f 0 n.

(** [strings.Compare(n.Children[i].Name, name) >= 0] *)
Definition at_or_after (name : string) (children : list FlameGraphNode) (i : nat) : bool :=
  match children !! i with
  | Some c => match String.compare (Name c) name with Lt => false | _ => true end
  | None => false
  end.

(** Growing the slice by one and copying its tail one place up. *)
Definition insert_at {A} (i : nat) (x : A) (l : list A) : list A := take i l ++ x :: drop i l.

(** The index of the child the code returns, and the node it leaves. *)
Definition Insert (n : FlameGraphNode) (s : string) : nat * FlameGraphNode :=
  let '(name, colorBy) := parseStackFunction s in
  let i := Search (length (Children n)) (at_or_after name (Children n)) in
  match Children n !! i with
  | Some c =>
      if String.eqb (Name c) name then (i, n)
      else (i, with_children (insert_at i (new_node name colorBy)) n)
  | None => (i, with_children (insert_at i (new_node name colorBy)) n)
  end.

(** The loop over the stack, from the node reached. *)
Fixpoint insert_path (frames : list string) (value : Z) (comp : option Z) (node : FlameGraphNode) : FlameGraphNode :=
  match frames with
  | [] => add_self value (pass value comp node)
  | s :: frames =>
      let '(i, node) := Insert (pass value comp node) s in
      with_children (alter (insert_path frames value comp) i) node
  end.

(** The stack has the innermost frame first. *)
Definition InsertStack (n : FlameGraphNode) (stack : list string) (value : Z) (comp : option Z) : FlameGraphNode :=
  insert_path (rev stack) value comp n.

(** * Comparing two flame graphs *)

(** [byName]: the last child of a name. *)
Definition byName (comparison : option FlameGraphNode) (name : string) : option (nat * FlameGraphNode) :=
  match comparison with
  | None => None
  | Some c => foldl (λ found p, if String.eqb (Name p.2) name then Some p else found) None
                (imap pair (Children c))
  end.

(** [ch.Comp = comp.Total; ch.Total += ch.Comp], and the data of [comp] written
    over those of [ch]. *)
Definition add_comparison (comp ch : FlameGraphNode) : FlameGraphNode :=
  Node (Name ch) (add64 (Total ch) (Total comp)) (Self ch) (Total comp) (Children ch) (ColorBy ch)
    (match Data comp with
     | Some d => if bool_decide (d = ∅) then Data ch else Some (d ∪ default ∅ (Data ch))
     | None => Data ch
     end).

Definition set_comp (comp : Z) (n : FlameGraphNode) : FlameGraphNode :=
  Node (Name n) (Total n) (Self n) comp (Children n) (ColorBy n) (Data n).

(** The children of the comparison that no child of [n] has the name of: [seen]
    has the positions met. *)
Definition unseen (seen : list nat) (comparison : option FlameGraphNode) : list FlameGraphNode :=
  match comparison with
  | None => []
  | Some c =>
      flat_map (λ p : nat * FlameGraphNode,
        if bool_decide (p.1 ∈ seen) then [] else [set_comp (Total p.2) p.2])
        (imap pair (Children c))
  end.

(** What [add_comparison] sets is not read by the recursion, which may come
    first. *)
Fixpoint diff (n : FlameGraphNode) (comparison : option FlameGraphNode) : FlameGraphNode :=
  let compared :=
    map (λ ch,
      match byName comparison (Name ch) with
      | Some (_, comp) => add_comparison comp (diff ch (Some comp))
      | None => diff ch None
      end) (Children n) in
  let seen := omap (λ ch, fst <$> byName comparison (Name ch)) (Children n) in
  Node (Name n) (Total n) (Self n) (Comp n) (compared ++ unseen seen comparison) (ColorBy n) (Data n).

(** [n.Diff(comparison)], which reads the comparison's total and writes to [n]:
    both are dereferenced. *)
Definition Diff (n comparison : option FlameGraphNode) : outcome FlameGraphNode :=
  match n, comparison with
  | Some n, Some c =>
      let n := diff n (Some c) in
      Ret (Node (Name n) (add64 (Total n) (Total c)) (Self n) (Total c) (Children n) (ColorBy n) (Data n))
  | _, _ => Panic
  end.

(** * Profiles *)

Local Set Elimination Schemes.

Inductive ProfileAggregation := ProfileAggregationSum | ProfileAggregationAvg.

#[export] Instance ProfileAggregation_eq_dec : EqDecision ProfileAggregation.
Proof. solve_decision. Defined.

Definition ProfileCategoryNone : string := "".
Definition ProfileCategoryCPU : string := "cpu".
Definition ProfileCategoryMemory : string := "memory".
Definition ProfileCategoryLock : string := "lock".

Record ProfileMeta := {
  pm_Category : string;
  pm_Name : string;
  pm_Aggregation : option ProfileAggregation;
  pm_Featured : bool;
  pm_NodeAgent : bool;
}.

Definition meta (category name : string) (agg : ProfileAggregation) (featured nodeAgent : bool) : ProfileMeta :=
  {| pm_Category := category; pm_Name := name; pm_Aggregation := Some agg; pm_Featured := featured; pm_NodeAgent := nodeAgent |}.

(** The table [Profiles], by the values of its keys. *)
Definition Profiles : list (string * ProfileMeta) := [
  ("ebpf:cpu:nanoseconds", meta ProfileCategoryCPU "CPU (eBPF)" ProfileAggregationSum false true);
  ("go:profile_cpu:nanoseconds", meta ProfileCategoryCPU "CPU" ProfileAggregationSum true false);
  ("go:heap_alloc_objects:count", meta ProfileCategoryMemory "Memory (alloc_objects)" ProfileAggregationSum false false);
  ("go:heap_alloc_space:bytes", meta ProfileCategoryMemory "Memory (alloc_space)" ProfileAggregationSum false false);
  ("go:heap_inuse_objects:count", meta ProfileCategoryMemory "Memory (inuse_objects)" ProfileAggregationAvg false false);
  ("go:heap_inuse_space:bytes", meta ProfileCategoryMemory "Memory (inuse_space)" ProfileAggregationAvg true false);
  ("go:goroutine_goroutine:count", meta ProfileCategoryNone "Golang (goroutines)" ProfileAggregationAvg false false);
  ("go:block_contentions:count", meta ProfileCategoryNone "Golang (block_contentions)" ProfileAggregationSum false false);
  ("go:block_delay:nanoseconds", meta ProfileCategoryNone "Golang (block_delay)" ProfileAggregationSum false false);
  ("go:mutex_contentions:count", meta ProfileCategoryNone "Golang (mutex_contentions)" ProfileAggregationSum false false);
  ("go:mutex_delay:nanoseconds", meta ProfileCategoryNone "Golang (mutex_delay)" ProfileAggregationSum false false);
  ("go_runtime:heap_alloc_objects:count", meta ProfileCategoryMemory "Go Memory (alloc_objects)" ProfileAggregationSum false true);
  ("go_runtime:heap_alloc_space:bytes", meta ProfileCategoryMemory "Go Memory (alloc_space)" ProfileAggregationSum true true);
  ("go_runtime:heap_inuse_objects:count", meta ProfileCategoryMemory "Go Memory (inuse_objects)" ProfileAggregationAvg false true);
  ("go_runtime:heap_inuse_space:bytes", meta ProfileCategoryMemory "Go Memory (inuse_space)" ProfileAggregationAvg true true);
  ("java:heap_alloc_objects:count", meta ProfileCategoryMemory "Java Memory (alloc_objects)" ProfileAggregationSum false true);
  ("java:heap_alloc_space:bytes", meta ProfileCategoryMemory "Java Memory (alloc_space)" ProfileAggregationSum true true);
  ("java:cpu:nanoseconds", meta ProfileCategoryCPU "Java CPU (async-profiler)" ProfileAggregationSum false true);
  ("java:lock_contentions:count", meta ProfileCategoryLock "Java Lock (contentions)" ProfileAggregationSum false true);
  ("java:lock_delay:nanoseconds", meta ProfileCategoryLock "Java Lock (delay)" ProfileAggregationSum true true)
].

Definition aggregation_of (type : string) : option ProfileAggregation :=
  match List.find (λ p, String.eqb p.1 type) Profiles with
  | Some (_, m) => pm_Aggregation m
  | None => None
  end.

(** The queries of clickhouse/queries.go the profiles are read with. *)
Inductive profile_sql := qProfile | qProfileAvg | qProfileDiff.

Record ProfileQuery := {
  pq_Type : string;
  pq_Diff : bool;
}.

(** What the driver gives of a query: each row or the error of scanning it, and
    the error the rows ended with, which only [rows.Err()] tells. *)
Record Rows (A : Type) := { scanned : list (string + A); rows_err : option string }.
Arguments scanned {A} r.
Arguments rows_err {A} r.
Arguments Build_Rows {A} _ _.

(** The answers of ClickHouse. *)
Class ProfileSource := {
  profile_rows : profile_sql → ProfileQuery → string + Rows (Z * list string);
  diff_rows : ProfileQuery → string + Rows (Z * Z * list string);
}.

(** [for rows.Next() { err = rows.Scan(...); if err != nil { return }; ... }] *)
Fixpoint each_row {A S} (f : S → A → S) (rows : list (string + A)) (s : S) : string + S :=
  match rows with
  | [] => inr s
  | inl err :: _ => inl err
  | inr a :: rows => each_row f rows (f s a)
  end.

Definition root : FlameGraphNode := new_node "total" "".

Section get.
Context `{ProfileSource}.

Definition query_of (q : ProfileQuery) : profile_sql :=
  if bool_decide (aggregation_of (pq_Type q) = Some ProfileAggregationAvg) then qProfileAvg else qProfile.

Definition getProfile (q : ProfileQuery) : string + option FlameGraphNode :=
  match profile_rows (query_of q) q with
  | inl err => inl err
  | inr rows =>
      match each_row (λ n '(value, stack), InsertStack n stack value None) (scanned rows) root with
      | inl err => inl err
      | inr root => inr (if bool_decide (Total root = 0) then None else Some root)
      end
  end.

Definition getDiffProfile (q : ProfileQuery) : string + option FlameGraphNode :=
  match diff_rows q with
  | inl err => inl err
  | inr rows =>
      match each_row (λ n '(base, comp, stack), InsertStack n stack (add64 base comp) (Some comp)) (scanned rows) root with
      | inl err => inl err
      | inr root =>
          inr (if bool_decide (Total root = 0) || bool_decide (Comp root = 0) then None else Some root)
      end
  end.

Definition GetProfile (q : ProfileQuery) : string + option FlameGraphNode :=
  if pq_Diff q then getDiffProfile q else getProfile q.
End get.

Module FlameGraphFacts.
Local Open Scope list_scope.

(** * Order of names *)

Definition before (a b : FlameGraphNode) : Prop := String.compare (Name a) (Name b) = Lt.
Definition sorted (l : list FlameGraphNode) : Prop := StronglySorted before l.

Lemma compare_Lt x y : String.compare x y = Lt ↔ (String.le x y ∧ x ≠ y).
Proof.
  unfold String.le, String.leb. split.
  - intros E. rewrite E. split; [done|]. intros ->.
    pose proof (String.compare_antisym y y) as A. rewrite E in A. done.
  - intros [L N]. destruct (String.compare x y) eqn:E; [|done|done].
    apply String.compare_eq_iff in E. done.
Qed.

Lemma compare_Lt_trans x y z : String.compare x y = Lt → String.compare y z = Lt → String.compare x z = Lt.
Proof.
  rewrite !compare_Lt. intros [L1 N1] [L2 N2]. split; [by etrans|].
  intros ->. apply N1, (anti_symm String.le); done.
Qed.

Lemma sorted_lookup l i j a b : sorted l → (i < j)%nat → l !! i = Some a → l !! j = Some b → before a b.
Proof.
  intros S Hij Ha Hb. apply take_drop_middle in Ha as E. rewrite <- E in S.
  apply (StronglySorted_app_1_elem_of before (take i l ++ [a]) (drop (Datatypes.S i) l)).
  - by rewrite <- app_assoc.
  - set_solver.
  - apply list_elem_of_lookup. exists (j - Datatypes.S i)%nat. rewrite lookup_drop. rewrite <- Hb. f_equal. lia.
Qed.

Lemma sorted_NoDup l : sorted l → NoDup (Name <$> l).
Proof.
  induction 1 as [|a l S IH F]; cbn; constructor; [|done].
  intros (b & E & Hb)%list_elem_of_fmap. rewrite Forall_forall in F. specialize (F b Hb).
  unfold before in F. rewrite E in F. apply compare_Lt in F. naive_solver.
Qed.

(** * The binary search *)

Section search.
Context (f : nat → bool) (n : nat).
Hypothesis mono : ∀ a b, (a ≤ b < n)%nat → f a = true → f b = true.

Lemma search_spec fuel i j :
  (j - i ≤ fuel)%nat → (i ≤ j ≤ n)%nat →
  (∀ k, (k < i)%nat → f k = false) → (∀ k, (j ≤ k < n)%nat → f k = true) →
  let r := search fuel f i j in
  (i ≤ r ≤ j)%nat ∧ (∀ k, (k < r)%nat → f k = false) ∧ (∀ k, (r ≤ k < n)%nat → f k = true).
Proof.
  revert i j. induction fuel as [|fuel IH]; intros i j Hf Hij Hlo Hhi; cbn [search].
  { assert (i = j) as <- by lia. auto. }
  case_match eqn:E; cycle 1.
  { apply Nat.ltb_ge in E. assert (i = j) as <- by lia. auto. }
  apply Nat.ltb_lt in E. set (h := ((i + j) / 2)%nat).
  assert (i ≤ h < j)%nat by (subst h; split; [apply Nat.div_le_lower_bound|apply Nat.div_lt_upper_bound]; lia).
  destruct (f h) eqn:Hh.
  - destruct (IH i h) as (B & L & U); try lia; auto.
    + intros k Hk. apply (mono h); [lia|done].
    + split_and!; [lia..| |]; done.
  - destruct (IH (S h) j) as (B & L & U); try lia; auto.
    + intros k Hk. destruct (f k) eqn:Ek; [|done]. rewrite (mono k h) in Hh; [done|lia|done].
    + split_and!; [lia..| |]; done.
Qed.
End search.

Lemma Search_spec f n :
  (∀ a b, (a ≤ b < n)%nat → f a = true → f b = true) →
  (Search n f ≤ n)%nat ∧ (∀ k, (k < Search n f)%nat → f k = false) ∧ (∀ k, (Search n f ≤ k < n)%nat → f k = true).
Proof.
  intros M. destruct (search_spec f n M n 0 n) as (B & L & U); [lia..| | |]; [lia|lia|].
  unfold Search. split_and!; [lia|done|done].
Qed.

Lemma at_or_after_mono name l a b :
  sorted l → (a ≤ b < length l)%nat → at_or_after name l a = true → at_or_after name l b = true.
Proof.
  unfold at_or_after. intros Hs Hab Ha.
  destruct (decide (a = b)) as [<-|Ne]; [done|].
  destruct (l !! a) as [x|] eqn:Ea; [|done].
  destruct (lookup_lt_is_Some_2 l b) as [y Ey]; [lia|]. rewrite Ey.
  pose proof (sorted_lookup l a b x y Hs ltac:(lia) Ea Ey) as B. unfold before in B.
  destruct (String.compare (Name y) name) eqn:Ey'; [done| |done].
  rewrite (compare_Lt_trans _ _ _ B Ey') in Ha. done.
Qed.

(** * Children by name *)

Definition find_child (x : string) (l : list FlameGraphNode) : option FlameGraphNode :=
  List.find (λ c, String.eqb (Name c) x) l.

Lemma find_child_None x l : find_child x l = None ↔ x ∉ Name <$> l.
Proof.
  unfold find_child. rewrite list_elem_of_fmap. split.
  - intros F (c & -> & Hc). apply list_elem_of_In in Hc.
    pose proof (List.find_none _ _ F c Hc) as N. cbn in N. by rewrite String.eqb_refl in N.
  - intros N. destruct (List.find _ l) as [c|] eqn:E; [|done].
    apply List.find_some in E as [Hc E]. apply String.eqb_eq in E. destruct N. exists c.
    split; [done|]. by apply list_elem_of_In.
Qed.

Lemma find_child_Some x l c : NoDup (Name <$> l) → find_child x l = Some c ↔ (c ∈ l ∧ Name c = x).
Proof.
  intros N. split.
  - intros E. apply List.find_some in E as [Hc E]. apply String.eqb_eq in E. by apply list_elem_of_In in Hc.
  - intros [Hc <-]. induction l as [|d l IH]; [by apply not_elem_of_nil in Hc|].
    cbn in N |- *. apply NoDup_cons in N as [N1 N2]. apply elem_of_cons in Hc as [->|Hc].
    + by rewrite String.eqb_refl.
    + destruct (String.eqb_spec (Name d) (Name c)) as [E|E]; [|by apply IH].
      destruct N1. rewrite E. apply list_elem_of_fmap. eauto.
Qed.

Lemma find_child_app x l k : find_child x (l ++ k) = match find_child x l with Some c => Some c | None => find_child x k end.
Proof. unfold find_child. induction l as [|c l IH]; [done|]. cbn. by destruct (String.eqb (Name c) x). Qed.

Lemma find_child_map x f l :
  (∀ c, c ∈ l → Name (f c) = Name c) → find_child x (map f l) = f <$> find_child x l.
Proof.
  unfold find_child. induction l as [|c l IH]; intros H; [done|]. cbn.
  rewrite (H c) by set_solver. destruct (String.eqb (Name c) x); [done|]. apply IH. set_solver.
Qed.

(** What [InsertStack] does to the children of a node at one frame: the child of
    the frame's name is found, or made in its place, and changed by [f]. *)
Record stepped (n : FlameGraphNode) (s : string) (f : FlameGraphNode → FlameGraphNode) (r : FlameGraphNode) : Prop := {
  stepped_same : Name r = Name n ∧ Total r = Total n ∧ Self r = Self n ∧ Comp r = Comp n;
  stepped_sorted : sorted (Children r);
  stepped_find : ∀ x, find_child x (Children r) =
    if String.eqb (parseStackFunction s).1 x
    then Some (f (default (new_node (parseStackFunction s).1 (parseStackFunction s).2) (find_child x (Children n))))
    else find_child x (Children n);
  stepped_split : ∃ l1 l2 c, Children r = l1 ++ f c :: l2 ∧
    (Children n = l1 ++ c :: l2 ∨
     (Children n = l1 ++ l2 ∧ c = new_node (parseStackFunction s).1 (parseStackFunction s).2));
}.

Lemma before_names a b a' b' : Name a = Name a' → Name b = Name b' → before a b → before a' b'.
Proof. unfold before. by intros -> ->. Qed.

Lemma sorted_split l1 c l2 :
  sorted (l1 ++ l2) → (∀ a, a ∈ l1 → before a c) → (∀ b, b ∈ l2 → before c b) → sorted (l1 ++ c :: l2).
Proof.
  intros S L R. apply StronglySorted_app in S as (X & S1 & S2). apply StronglySorted_app. split_and!; [|done|].
  - intros a b Ha [->|Hb]%elem_of_cons; auto.
  - constructor; [done|]. by apply Forall_forall.
Qed.

Lemma sorted_renamed l l' : Name <$> l = Name <$> l' → sorted l → sorted l'.
Proof.
  revert l'. induction l as [|a l IH]; intros [|b l'] E S; [constructor|done|done|].
  cbn in E. injection E as E1 E2. inversion S as [|? ? S1 F]; subst. constructor; [by apply IH|].
  assert (∀ y, y ∈ (Name <$> l) → String.compare (Name a) y = Lt) as G.
  { intros y (z & -> & Hz)%list_elem_of_fmap. rewrite Forall_forall in F. by apply F. }
  rewrite E2, E1 in G. apply Forall_forall. intros z Hz. apply G, list_elem_of_fmap. eauto.
Qed.

(** Distinct names: the child in the middle is the one of its name. *)
Lemma find_child_middle x l1 c l2 f :
  sorted (l1 ++ c :: l2) → Name (f c) = Name c →
  find_child x (l1 ++ f c :: l2) = if String.eqb (Name c) x then Some (f c) else find_child x (l1 ++ l2).
Proof.
  intros S%sorted_NoDup Nf. rewrite fmap_app, fmap_cons in S. apply NoDup_app in S as (_ & D & _).
  rewrite !find_child_app. unfold find_child at 2. cbn. rewrite Nf.
  destruct (String.eqb_spec (Name c) x) as [<-|Ne].
  - destruct (find_child (Name c) l1) eqn:F; [|done].
    assert (find_child (Name c) l1 ≠ None) as N by (by rewrite F). exfalso. apply N, find_child_None.
    intros I. apply (D _ I). set_solver.
  - done.
Qed.

Lemma find_child_here x l1 c l2 :
  sorted (l1 ++ c :: l2) → find_child x (l1 ++ c :: l2) = if String.eqb (Name c) x then Some c else find_child x (l1 ++ l2).
Proof. intros S. exact (find_child_middle x l1 c l2 id S eq_refl). Qed.

Lemma alter_middle {A} (f : A → A) l1 x l2 : alter f (length l1) (l1 ++ x :: l2) = l1 ++ f x :: l2.
Proof. induction l1 as [|y l1 IH]; [done|]. cbn. f_equal. apply IH. Qed.

Lemma find_child_fresh x l1 c l2 :
  sorted (l1 ++ c :: l2) → find_child x (l1 ++ l2) = if String.eqb (Name c) x then None else find_child x (l1 ++ c :: l2).
Proof.
  intros S. rewrite find_child_here by done.
  destruct (String.eqb_spec (Name c) x) as [<-|Ne]; [|done].
  apply find_child_None. apply sorted_NoDup in S. rewrite fmap_app, fmap_cons in S.
  rewrite fmap_app. apply NoDup_app in S as (_ & D & N2). apply NoDup_cons in N2 as [N2 _].
  intros [I|I]%elem_of_app; [|done]. apply (D _ I). set_solver.
Qed.

Lemma Insert_step n s f :
  sorted (Children n) → (∀ c, Name (f c) = Name c) →
  stepped n s f (with_children (alter f (Insert n s).1) (Insert n s).2).
Proof.
  intros Sn Nf. unfold Insert. destruct (parseStackFunction s) as [name color] eqn:Ep.
  destruct (Search_spec (at_or_after name (Children n)) (length (Children n))) as (B & L & U).
  { intros a b Hab. by apply at_or_after_mono. }
  set (i := Search _ _) in *.
  set (l1 := take i (Children n)).
  assert (Li : length l1 = i) by (subst l1; rewrite length_take; lia).
  assert (B1 : ∀ a, a ∈ l1 → String.compare (Name a) name = Lt).
  { intros a [k Hk]%list_elem_of_lookup. pose proof (lookup_lt_Some _ _ _ Hk) as Lk.
    subst l1. rewrite lookup_take_lt in Hk by lia.
    specialize (L k ltac:(lia)). unfold at_or_after in L. rewrite Hk in L.
    by destruct (String.compare (Name a) name). }
  assert (Split : ∀ c l2, Children n = l1 ++ c :: l2 → Name c = name →
    stepped n s f (with_children (alter f i) n)).
  { intros c l2 E Nc. pose proof Sn as S1. rewrite E in S1.
    assert (C' : Children (with_children (alter f i) n) = l1 ++ f c :: l2).
    { cbn. rewrite E, <- Li. apply alter_middle. }
    split.
    - done.
    - rewrite C'. apply (sorted_renamed (l1 ++ c :: l2)); [|done]. by rewrite !fmap_app, !fmap_cons, Nf.
    - intros x. rewrite C', Ep. cbn [fst snd]. rewrite <- Nc, find_child_middle by done.
      rewrite E, find_child_here by done. by destruct (String.eqb (Name c) x).
    - exists l1, l2, c. auto. }
  assert (Fresh : ∀ l2, Children n = l1 ++ l2 → (∀ b, b ∈ l2 → String.compare name (Name b) = Lt) →
    stepped n s f (with_children (alter f i) (with_children (insert_at i (new_node name color)) n))).
  { intros l2 E A2. pose proof Sn as S1. rewrite E in S1. set (c := new_node name color).
    assert (S2 : sorted (l1 ++ c :: l2)) by (apply sorted_split; [done|done|exact A2]).
    assert (C' : Children (with_children (alter f i) (with_children (insert_at i c) n)) = l1 ++ f c :: l2).
    { cbn. unfold insert_at. fold l1. rewrite <- Li, alter_middle. do 2 f_equal.
      rewrite E. by rewrite drop_app_length. }
    split.
    - done.
    - rewrite C'. apply (sorted_renamed (l1 ++ c :: l2)); [|done]. by rewrite !fmap_app, !fmap_cons, Nf.
    - intros x. rewrite C', Ep, E. cbn [fst snd]. rewrite find_child_middle, find_child_fresh with (c := c) by done.
      cbn [Name c new_node]. subst c. cbn. by destruct (String.eqb name x).
    - exists l1, l2, c. rewrite Ep. auto. }
  assert (After : ∀ c, Children n !! i = Some c → String.compare (Name c) name ≠ Lt).
  { intros c Hc. specialize (U i). pose proof (lookup_lt_Some _ _ _ Hc). unfold at_or_after in U. rewrite Hc in U.
    specialize (U ltac:(lia)). by destruct (String.compare (Name c) name). }
  destruct (Children n !! i) as [c|] eqn:Hi; cycle 1.
  { apply (Fresh []); [|set_solver]. apply lookup_ge_None in Hi. subst l1. rewrite app_nil_r, take_ge; done. }
  pose proof (take_drop_middle _ _ _ Hi) as E. fold l1 in E. symmetry in E.
  destruct (String.eqb_spec (Name c) name) as [Nc|Nc]; [by apply (Split c (drop (S i) (Children n)))|].
  apply (Fresh (c :: drop (S i) (Children n))); [done|].
  assert (G : String.compare name (Name c) = Lt).
  { specialize (After c eq_refl). rewrite String.compare_antisym.
    destruct (String.compare (Name c) name) eqn:Ec; [|done|done]. by apply String.compare_eq_iff in Ec. }
  intros b [->|Hb]%elem_of_cons; [done|]. apply (compare_Lt_trans _ _ _ G).
  rewrite E in Sn. apply StronglySorted_app_1_r in Sn. inversion Sn as [|? ? _ F]; subst.
  rewrite Forall_forall in F. by apply F.
Qed.

(** * The invariant of a flame graph *)

Fixpoint sum (g : FlameGraphNode → Z) (l : list FlameGraphNode) : Z :=
  match l with [] => 0 | c :: l => g c + sum g l end.

Lemma sum_app g l k : sum g (l ++ k) = sum g l + sum g k.
Proof. induction l as [|c l IH]; cbn; lia. Qed.

(** Every node has its children in the order of their names, each name once, and
    a total that is its own value and its children's. *)
Inductive well_formed : FlameGraphNode → Prop :=
| well_formed_node n :
    sorted (Children n) → Total n = wrap64 (Self n + sum Total (Children n)) →
    Forall well_formed (Children n) → well_formed n.

Lemma well_formed_sorted n : well_formed n → sorted (Children n).
Proof. by inversion 1. Qed.

Lemma well_formed_new name color : well_formed (new_node name color).
Proof. constructor; [constructor|reflexivity|constructor]. Qed.

Lemma Insert_same n s : ∃ l, (Insert n s).2 = with_children (λ _, l) n.
Proof.
  unfold Insert. destruct (parseStackFunction s) as [name color], (Children n !! _) as [c|]; [case_match|];
    cbn; [exists (Children n)|eexists..]; by destruct n.
Qed.

Lemma insert_path_Name frames value comp n : Name (insert_path frames value comp n) = Name n.
Proof.
  destruct frames as [|s frames]; [done|]. cbn. destruct (Insert_same (pass value comp n) s) as [l E].
  destruct (Insert _ s) as [i n']. cbn in E. by rewrite E.
Qed.

Lemma insert_path_step s frames value comp n :
  sorted (Children n) →
  stepped (pass value comp n) s (insert_path frames value comp) (insert_path (s :: frames) value comp n).
Proof.
  intros S. pose proof (Insert_step (pass value comp n) s (insert_path frames value comp) S (insert_path_Name frames value comp)) as St.
  cbn [insert_path]. by destruct (Insert (pass value comp n) s).
Qed.

Lemma insert_path_Total frames value comp n :
  sorted (Children n) → Total (insert_path frames value comp n) = add64 (Total n) value.
Proof.
  intros S. destruct frames as [|s frames]; [done|].
  by destruct (stepped_same _ _ _ _ (insert_path_step s frames value comp n S)) as (_ & -> & _).
Qed.

Lemma wrap64_add_l a b : wrap64 (wrap64 a + b) = wrap64 (a + b).
Proof. exact (add64_wrap_l a b). Qed.

Lemma insert_path_well_formed frames value comp n :
  well_formed n → well_formed (insert_path frames value comp n).
Proof.
  revert n. induction frames as [|s frames IH]; intros n W; inversion W as [? S B F]; subst.
  - cbn. constructor; cbn; [done| |done]. unfold add64. rewrite B, !wrap64_add_l. f_equal. lia.
  - pose proof (insert_path_step s frames value comp n S) as St.
    destruct (stepped_split _ _ _ _ St) as (l1 & l2 & c & E & Old).
    destruct (stepped_same _ _ _ _ St) as (_ & ET & ES & _).
    assert (Wc : well_formed c ∧ Forall well_formed (l1 ++ l2) ∧ sum Total (Children n) = sum Total (l1 ++ c :: l2)).
    { destruct Old as [Old|[Old ->]]; cbn in Old; rewrite Old in F |- *.
      - apply Forall_app in F as [F1 [F2 F3]%Forall_cons_1]. by rewrite Forall_app.
      - split_and!; [apply well_formed_new|done|]. rewrite !sum_app. cbn. lia. }
    destruct Wc as (Wc & Wl & Sc). constructor.
    + exact (stepped_sorted _ _ _ _ St).
    + rewrite ET, ES, E. cbn [Total Self pass]. unfold add64. rewrite B, Sc, wrap64_add_l, !sum_app. cbn.
      rewrite insert_path_Total by (by apply well_formed_sorted). unfold add64.
      replace (Self n + (sum Total l1 + (wrap64 (Total c + value) + sum Total l2)))
        with (wrap64 (Total c + value) + (Self n + sum Total l1 + sum Total l2)) by lia.
      rewrite wrap64_add_l. f_equal. lia.
    + rewrite E. apply Forall_app in Wl as [W1 W2]. apply Forall_app. split; [done|]. constructor; [by apply IH|done].
Qed.

(** * The value at a path from the root *)

Fixpoint at_path (path : list string) (n : FlameGraphNode) : option FlameGraphNode :=
  match path with
  | [] => Some n
  | x :: path => match find_child x (Children n) with Some c => at_path path c | None => None end
  end.

(** A value read at a path, zero where there is no node. *)
Definition value_at (g : FlameGraphNode → Z) (path : list string) (n : FlameGraphNode) : Z :=
  from_option g 0 (at_path path n).

Lemma value_at_cons g x path n :
  value_at g (x :: path) n = match find_child x (Children n) with Some c => value_at g path c | None => 0 end.
Proof. unfold value_at. cbn. by destruct (find_child x (Children n)). Qed.

Definition names (frames : list string) : list string := map (λ s, (parseStackFunction s).1) frames.

Section value.
(** A field, with what passing through a node and ending at it do to it. *)
Context (g : FlameGraphNode → Z) (through final : Z → Z) (value : Z) (comp : option Z).
Hypothesis g_children : ∀ f n, g (with_children f n) = g n.
Hypothesis g_pass : ∀ n, g (pass value comp n) = through (g n).
Hypothesis g_final : ∀ n, g (add_self value (pass value comp n)) = final (g n).
Hypothesis g_new : ∀ name color, g (new_node name color) = 0.

Lemma value_at_new path name color : value_at g path (new_node name color) = 0.
Proof. destruct path; [apply g_new|done]. Qed.

Lemma insert_path_value path frames n :
  well_formed n →
  value_at g path (insert_path frames value comp n) =
    if bool_decide (path = names frames) then final (value_at g path n)
    else if bool_decide (path `prefix_of` names frames) then through (value_at g path n)
    else value_at g path n.
Proof.
  revert frames n. induction path as [|x path IH]; intros frames n W.
  - destruct frames as [|s frames]; [apply g_final|].
    rewrite (bool_decide_eq_false_2 ([] = names (s :: frames))) by done.
    rewrite bool_decide_eq_true_2 by apply prefix_nil.
    cbn [insert_path]. destruct (Insert_same (pass value comp n) s) as [l E]. destruct (Insert _ s) as [i n']. cbn in E.
    unfold value_at. cbn [at_path from_option]. by rewrite E, !g_children, g_pass.
  - rewrite !value_at_cons. destruct frames as [|s frames].
    { cbn [names map]. rewrite !bool_decide_eq_false_2; [done|by intros ?%prefix_nil_not|done]. }
    pose proof (insert_path_step s frames value comp n (well_formed_sorted _ W)) as St.
    rewrite (stepped_find _ _ _ _ St). cbn [Children pass].
    change (names (s :: frames)) with ((parseStackFunction s).1 :: names frames).
    destruct (String.eqb_spec (parseStackFunction s).1 x) as [->|Ne]; cycle 1.
    { rewrite !bool_decide_eq_false_2; [done| |congruence]. intros ?%prefix_cons_inv_1. congruence. }
    rewrite IH; cycle 1.
    { destruct (find_child x (Children n)) as [c|] eqn:E; [|apply well_formed_new]. cbn.
      inversion W as [? S _ F]; subst. apply find_child_Some in E as [Hc _]; [|by apply sorted_NoDup].
      rewrite Forall_forall in F. by apply F. }
    assert (Ec : value_at g path (default (new_node x (parseStackFunction s).2) (find_child x (Children n))) =
      match find_child x (Children n) with Some c => value_at g path c | None => 0 end).
    { destruct (find_child x (Children n)); [done|]. apply value_at_new. }
    rewrite Ec. repeat case_bool_decide; try done; exfalso.
    all: try (match goal with H : ¬ (_ `prefix_of` _) |- _ => apply H; by apply prefix_cons end).
    all: try congruence.
    all: match goal with H : ¬ (_ `prefix_of` _), H' : _ :: _ `prefix_of` _ |- _ => apply H; by apply prefix_cons_inv_2 in H' end.
Qed.
End value.

(** * Diff *)

(** Names are distinct under every node. *)
Inductive distinct : FlameGraphNode → Prop :=
| distinct_node n : NoDup (Name <$> Children n) → Forall distinct (Children n) → distinct n.

Lemma well_formed_distinct n : well_formed n → distinct n.
Proof.
  revert n. fix IH 2. intros n [m S _ F]. constructor; [by apply sorted_NoDup|].
  clear S. induction F as [|c l Wc F IHl]; constructor; [by apply IH|exact IHl].
Qed.

Lemma distinct_NoDup n : distinct n → NoDup (Name <$> Children n).
Proof. by inversion 1. Qed.

Lemma distinct_child n x c : distinct n → find_child x (Children n) = Some c → distinct c.
Proof.
  inversion 1 as [? N F]; subst. rewrite Forall_forall in F. intros [Hc _]%find_child_Some; auto.
Qed.

(** The last element a loop finds. *)
Lemma last_found {A} (p : A → bool) l :
  match foldl (λ found x, if p x then Some x else found) None l with
  | Some x => x ∈ l ∧ p x = true
  | None => ∀ x, x ∈ l → p x = false
  end.
Proof.
  induction l as [|y l IH] using rev_ind; [by intros x ?%not_elem_of_nil|].
  rewrite foldl_app. cbn. destruct (p y) eqn:E; [split; [set_solver|done]|].
  destruct (foldl _ None l) as [x|]; [set_solver|]. intros x Hx. apply elem_of_app in Hx as [Hx|Hx]; [auto|]. apply list_elem_of_singleton in Hx as ->. done.
Qed.

Lemma byName_Some c name j ch :
  NoDup (Name <$> Children c) → byName (Some c) name = Some (j, ch) ↔ (Children c !! j = Some ch ∧ Name ch = name).
Proof.
  intros N. unfold byName.
  pose proof (last_found (λ p : nat * FlameGraphNode, String.eqb (Name p.2) name) (imap pair (Children c))) as L.
  destruct (foldl _ None (imap pair (Children c))) as [[j' ch']|]; cbn in L.
  - destruct L as [(i & y & E & Hl)%elem_of_lookup_imap En]. injection E as -> ->. apply String.eqb_eq in En. split.
    + by intros [= -> ->].
    + intros [H <-]. assert (i = j) as ->; [|congruence].
      apply (NoDup_lookup (Name <$> Children c) i j (Name y)); [done|..]; rewrite list_lookup_fmap.
      * by rewrite Hl.
      * rewrite H. cbn. by rewrite En.
  - split; [done|]. intros [H <-]. specialize (L (j, ch)). cbn in L. rewrite String.eqb_refl in L.
    discriminate L. by apply elem_of_lookup_imap_2.
Qed.

Lemma byName_find c name :
  NoDup (Name <$> Children c) → snd <$> byName (Some c) name = find_child name (Children c).
Proof.
  intros N. destruct (byName (Some c) name) as [[j ch]|] eqn:E; cbn.
  - apply byName_Some in E as [H En]; [|done]. symmetry. apply find_child_Some; [done|].
    split; [by apply list_elem_of_lookup_2 in H|done].
  - symmetry. destruct (find_child name (Children c)) as [ch|] eqn:F; [|done].
    apply find_child_Some in F as [[j Hj]%list_elem_of_lookup En]; [|done].
    rewrite (proj2 (byName_Some c name j ch N)) in E; done.
Qed.

Definition diff_child (comparison : option FlameGraphNode) (ch : FlameGraphNode) : FlameGraphNode :=
  match byName comparison (Name ch) with
  | Some (_, comp) => add_comparison comp (diff ch (Some comp))
  | None => diff ch None
  end.

Definition positions (comparison : option FlameGraphNode) (l : list FlameGraphNode) : list nat :=
  omap (λ ch, fst <$> byName comparison (Name ch)) l.

Lemma diff_unfold n comparison :
  diff n comparison
  = with_children (λ l, map (diff_child comparison) l ++ unseen (positions comparison l) comparison) n.
Proof. by destruct n. Qed.

Lemma diff_child_Name comparison ch : Name (diff_child comparison ch) = Name ch.
Proof. unfold diff_child. destruct (byName comparison (Name ch)) as [[j comp]|]; by destruct ch. Qed.

Lemma find_child_flat_map x (p : nat * FlameGraphNode → bool) (l : list (nat * FlameGraphNode)) :
  (∀ q, q ∈ l → Name q.2 = x → p q = true) →
  find_child x (flat_map (λ q, if p q then [] else [set_comp (Total q.2) q.2]) l) = None.
Proof.
  intros H. apply find_child_None. intros (c & -> & Hc)%list_elem_of_fmap.
  apply list_elem_of_In, in_flat_map in Hc as (q & Hq & Hc). apply list_elem_of_In in Hq.
  destruct (p q) eqn:E; [done|]. destruct Hc as [<-|[]]. by rewrite (H q Hq) in E.
Qed.

Lemma find_child_unseen c x seen :
  (∀ j ch, Children c !! j = Some ch → Name ch = x → j ∉ seen) →
  find_child x (unseen seen (Some c)) = (λ ch, set_comp (Total ch) ch) <$> find_child x (Children c).
Proof.
  unfold unseen. intros H. set (l := Children c) in *.
  enough (G : ∀ (f : nat → nat), (∀ j ch, l !! j = Some ch → Name ch = x → f j ∉ seen) →
    find_child x (flat_map (λ p : nat * FlameGraphNode, if bool_decide (p.1 ∈ seen) then [] else [set_comp (Total p.2) p.2])
      (imap (λ j, pair (f j)) l)) = (λ ch, set_comp (Total ch) ch) <$> find_child x l) by exact (G id H).
  clear H. induction l as [|d l IH]; intros f Hf; [done|].
  cbn [imap flat_map]. rewrite find_child_app. unfold find_child at 3. cbn [List.find].
  destruct (String.eqb_spec (Name d) x) as [Ed|Ne].
  - rewrite bool_decide_eq_false_2 by (by apply (Hf O d)). cbn. by rewrite (proj2 (String.eqb_eq _ _) Ed).
  - assert (E : find_child x (if bool_decide ((f O, d).1 ∈ seen) then [] else [set_comp (Total (f O, d).2) (f O, d).2]) = None).
    { case_bool_decide; [done|]. cbn. by rewrite (proj2 (String.eqb_neq _ _) Ne). }
    rewrite E. apply (IH (f ∘ S)). intros j ch. apply (Hf (S j)).
Qed.

(** The children of a difference, by name. *)
Lemma find_child_diff n c x :
  distinct n → distinct c →
  find_child x (Children (diff n (Some c))) =
    match find_child x (Children n), find_child x (Children c) with
    | Some ch, Some comp => Some (add_comparison comp (diff ch (Some comp)))
    | Some ch, None => Some (diff ch None)
    | None, Some comp => Some (set_comp (Total comp) comp)
    | None, None => None
    end.
Proof.
  intros Dn Dc. pose proof (distinct_NoDup _ Dn) as Nn. pose proof (distinct_NoDup _ Dc) as Nc.
  rewrite diff_unfold. cbn [Children with_children]. rewrite find_child_app, find_child_map by (intros; apply diff_child_Name).
  destruct (find_child x (Children n)) as [ch|] eqn:F; cbn [fmap option_fmap option_map].
  - apply find_child_Some in F as [_ <-]; [|done]. rewrite <- byName_find by done.
    unfold diff_child. by destruct (byName (Some c) (Name ch)) as [[j comp]|].
  - rewrite find_child_unseen.
    + by destruct (find_child x (Children c)).
    + intros j comp Hj Ex (ch & Hch & Ej)%list_elem_of_omap.
      destruct (byName (Some c) (Name ch)) as [[j' comp']|] eqn:E; [|done]. cbn in Ej. injection Ej as ->.
      apply byName_Some in E as [H1 H2]; [|done]. assert (comp' = comp) as -> by congruence.
      apply find_child_None in F. apply F, list_elem_of_fmap. exists ch. split; [congruence|done].
Qed.

Lemma find_child_diff_None n x :
  find_child x (Children (diff n None)) = (λ ch, diff ch None) <$> find_child x (Children n).
Proof.
  rewrite diff_unfold. cbn [Children with_children]. rewrite app_nil_r. apply (find_child_map x (diff_child None)).
  intros; apply diff_child_Name.
Qed.

(** Without a comparison nothing changes that a path shows. *)
Lemma value_at_diff_None g path n :
  (∀ m, g (diff m None) = g m) → value_at g path (diff n None) = value_at g path n.
Proof.
  intros Hg. revert n. induction path as [|x path IH]; intros n.
  - unfold value_at. cbn. apply Hg.
  - rewrite !value_at_cons, find_child_diff_None. destruct (find_child x (Children n)); [apply IH|done].
Qed.

Lemma at_path_cons x path n :
  at_path (x :: path) n = match find_child x (Children n) with Some c => at_path path c | None => None end.
Proof. done. Qed.

Definition at_both (f : Z → Z → Z) (path : list string) (n c : FlameGraphNode) : Z :=
  match at_path path n, at_path path c with
  | Some a, Some b => f (Total a) (Total b)
  | Some a, None => Total a
  | None, Some b => Total b
  | None, None => 0
  end.

(** The total of a node of the difference, the root apart. *)
Lemma diff_total x path n c :
  distinct n → distinct c →
  value_at Total (x :: path) (diff n (Some c)) = at_both add64 (x :: path) n c.
Proof.
  revert x n c. induction path as [|y path IH]; intros x n c Dn Dc;
    rewrite value_at_cons, find_child_diff by done; unfold at_both; rewrite !(at_path_cons x);
    destruct (find_child x (Children n)) as [ch|] eqn:Fn, (find_child x (Children c)) as [comp|] eqn:Fc.
  - unfold value_at. cbn. by destruct ch.
  - unfold value_at. cbn. by destruct ch.
  - done.
  - done.
  - change (value_at Total (y :: path) (diff ch (Some comp)) = at_both add64 (y :: path) ch comp).
    apply IH; eauto using distinct_child.
  - rewrite value_at_diff_None by (by intros []). unfold value_at. by destruct (at_path (y :: path) ch).
  - unfold value_at. change (at_path (y :: path) (set_comp (Total comp) comp)) with (at_path (y :: path) comp).
    by destruct (at_path (y :: path) comp).
  - done.
Qed.

(** The comparison's share at a node. *)
Lemma diff_comp x path n c :
  distinct n → distinct c → (∀ p, value_at Comp p n = 0) → (∀ p, value_at Comp p c = 0) →
  value_at Comp (x :: path) (diff n (Some c)) =
    match at_path (removelast (x :: path)) n with
    | Some _ => value_at Total (x :: path) c
    | None => 0
    end.
Proof.
  revert x n c. induction path as [|y path IH]; intros x n c Dn Dc Zn Zc.
  - rewrite !value_at_cons, find_child_diff by done. cbn [removelast at_path].
    destruct (find_child x (Children n)) as [ch|] eqn:Fn, (find_child x (Children c)) as [comp|] eqn:Fc; try done.
    specialize (Zn [x]). rewrite value_at_cons, Fn in Zn. rewrite <- Zn. by destruct ch.
  - rewrite !(value_at_cons _ x), find_child_diff by done.
    change (removelast (x :: y :: path)) with (x :: removelast (y :: path)). rewrite at_path_cons.
    destruct (find_child x (Children n)) as [ch|] eqn:Fn, (find_child x (Children c)) as [comp|] eqn:Fc.
    + apply (IH y ch comp); [eauto using distinct_child..| |].
      * intros p. specialize (Zn (x :: p)). by rewrite value_at_cons, Fn in Zn.
      * intros p. specialize (Zc (x :: p)). by rewrite value_at_cons, Fc in Zc.
    + rewrite value_at_diff_None by (by intros []).
      specialize (Zn (x :: y :: path)). rewrite value_at_cons, Fn in Zn. rewrite Zn. by destruct (at_path _ ch).
    + specialize (Zc (x :: y :: path)). rewrite value_at_cons, Fc in Zc. exact Zc.
    + done.
Qed.

End FlameGraphFacts.

Module FlameGraphTheorems.
Import FlameGraphFacts.
Local Open Scope list_scope.

(** The sum of the values of the stacks whose frames, outermost first, satisfy
    [p]. *)
Definition total_of {A} (value : A → Z) (p : list string → bool) (stack : A → list string) (l : list A) : Z :=
  foldr (λ a acc, (if p (names (rev (stack a))) then value a else 0) + acc) 0 l.

Definition through (path frames : list string) : bool := bool_decide (path `prefix_of` frames).
Definition ending (path frames : list string) : bool := bool_decide (path = frames).

Section fold.
Context {A : Type} (stack : A → list string) (value : A → Z) (comp : A → option Z).

Definition insert_all (l : list A) (n : FlameGraphNode) : FlameGraphNode :=
  foldl (λ n a, InsertStack n (stack a) (value a) (comp a)) n l.

Lemma insert_all_well_formed l n : well_formed n → well_formed (insert_all l n).
Proof.
  revert n. induction l as [|a l IH]; intros n W; [done|]. apply IH. by apply insert_path_well_formed.
Qed.

(** A field that adds [d a] at the nodes where [p] holds of the path and the
    stack's frames. *)
Lemma insert_all_value (g : FlameGraphNode → Z) (d : A → Z) (p : list string → list string → bool) path l n z :
  (∀ a n, well_formed n → value_at g path (InsertStack n (stack a) (value a) (comp a)) =
     if p path (names (rev (stack a))) then add64 (value_at g path n) (d a) else value_at g path n) →
  well_formed n → value_at g path n = wrap64 z →
  value_at g path (insert_all l n) = wrap64 (z + total_of d (p path) stack l).
Proof.
  intros Step. revert n z. induction l as [|a l IH]; intros n z W E.
  - cbn. by rewrite Z.add_0_r.
  - change (insert_all (a :: l) n) with (insert_all l (InsertStack n (stack a) (value a) (comp a))).
    rewrite (IH _ (z + if p path (names (rev (stack a))) then d a else 0)).
    + cbn. f_equal. unfold total_of. lia.
    + by apply insert_path_well_formed.
    + rewrite Step, E by done. destruct (p path _); [by rewrite add64_wrap_l|]. f_equal. lia.
Qed.

Lemma insert_total a path n :
  well_formed n → value_at Total path (InsertStack n (stack a) (value a) (comp a)) =
  if through path (names (rev (stack a))) then add64 (value_at Total path n) (value a) else value_at Total path n.
Proof.
  intros W. unfold InsertStack, through.
  rewrite (insert_path_value Total (λ z, add64 z (value a)) (λ z, add64 z (value a)) (value a) (comp a)) by done.
  destruct (bool_decide_reflect (path = names (rev (stack a)))) as [->|]; [|done].
  by rewrite bool_decide_eq_true_2.
Qed.

Lemma insert_self a path n :
  well_formed n → value_at Self path (InsertStack n (stack a) (value a) (comp a)) =
  if ending path (names (rev (stack a))) then add64 (value_at Self path n) (value a) else value_at Self path n.
Proof.
  intros W. unfold InsertStack, ending.
  rewrite (insert_path_value Self id (λ z, add64 z (value a)) (value a) (comp a)) by done.
  case_bool_decide; [done|]. by case_bool_decide.
Qed.

Lemma insert_comp a c path n :
  comp a = Some c →
  well_formed n → value_at Comp path (InsertStack n (stack a) (value a) (comp a)) =
  if through path (names (rev (stack a))) then add64 (value_at Comp path n) c else value_at Comp path n.
Proof.
  intros -> W. unfold InsertStack, through.
  rewrite (insert_path_value Comp (λ z, add64 z c) (λ z, add64 z c) (value a) (Some c)) by done.
  destruct (bool_decide_reflect (path = names (rev (stack a)))) as [->|]; [|done].
  by rewrite bool_decide_eq_true_2.
Qed.
End fold.

(** Without a comparison the field is left alone. *)
Lemma insert_no_comp st v path n :
  well_formed n → value_at Comp path (InsertStack n st v None) = value_at Comp path n.
Proof.
  intros W. unfold InsertStack. rewrite (insert_path_value Comp id id v None) by done. by repeat case_bool_decide.
Qed.

Lemma each_row_all {A S} (f : S → A → S) (l : list A) s : each_row f (map inr l) s = inr (foldl f s l).
Proof. revert s. induction l as [|a l IH]; intros s; [done|]. apply IH. Qed.

Lemma root_well_formed : well_formed root.
Proof. apply well_formed_new. Qed.

Lemma root_value g path : (∀ name color, g (new_node name color) = 0) → value_at g path root = wrap64 0.
Proof. intros Hg. by apply value_at_new. Qed.

Section get.
Context `{ProfileSource}.

(** C32 A profile is the stacks it is read from: when every row is read, the node
    at a path of function names has as its total the values of the stacks that
    begin with that path and as its own value those of the stacks that end there
    (modulo 2^64), every node's total is its own value and its children's, and
    the children are in the order of their names.  A profile whose values sum to
    zero is none. *)
Theorem getProfile_totals q l err :
  profile_rows (query_of q) q = inr (Build_Rows (map inr l) err) →
  match getProfile q with
  | inl _ => False
  | inr None => wrap64 (total_of fst (through []) snd l) = 0
  | inr (Some n) => well_formed n ∧ ∀ path,
      value_at Total path n = wrap64 (total_of fst (through path) snd l) ∧
      value_at Self path n = wrap64 (total_of fst (ending path) snd l)
  end.
Proof.
  intros E. unfold getProfile. rewrite E. cbn [scanned]. rewrite each_row_all.
  set (n := foldl _ root l).
  assert (En : n = insert_all snd fst (λ _, None) l root).
  { subst n. clear E. unfold insert_all. generalize root. induction l as [|[v st] l IH]; [done|]. intros r. apply IH. }
  assert (W : well_formed n) by (rewrite En; apply insert_all_well_formed, root_well_formed).
  assert (T : ∀ path, value_at Total path n = wrap64 (total_of fst (through path) snd l)).
  { intros path. rewrite En. rewrite (insert_all_value _ _ _ Total fst through path l root 0); [done| |apply root_well_formed|by apply root_value].
    intros. by apply (insert_total snd fst (λ _, None)). }
  case_bool_decide as Z.
  - rewrite <- T. done.
  - split; [done|]. intros path. split; [done|]. rewrite En.
    rewrite (insert_all_value _ _ _ Self fst ending path l root 0); [done| |apply root_well_formed|by apply root_value].
    intros. by apply (insert_self snd fst (λ _, None)).
Qed.

(** A profile of two windows: the total of a node has the values of both, its
    [Comp] those of the second. *)
Lemma getDiffProfile_totals q (l : list (Z * Z * list string)) err :
  diff_rows q = inr (Build_Rows (map inr l) err) →
  match getDiffProfile q with
  | inr (Some n) => well_formed n ∧ ∀ path,
      value_at Total path n = wrap64 (total_of (λ r, add64 r.1.1 r.1.2) (through path) snd l) ∧
      value_at Comp path n = wrap64 (total_of (λ r, r.1.2) (through path) snd l)
  | inr None => True
  | inl _ => False
  end.
Proof.
  intros E. unfold getDiffProfile. rewrite E. cbn [scanned]. rewrite each_row_all.
  set (n := foldl _ root l).
  assert (En : n = insert_all snd (λ r, add64 r.1.1 r.1.2) (λ r, Some r.1.2) l root).
  { subst n. clear E. unfold insert_all. generalize root. induction l as [|[[b c] st] l IH]; [done|]. intros r. apply IH. }
  destruct (_ || _); [done|]. split; [rewrite En; apply insert_all_well_formed, root_well_formed|]. intros path. rewrite En. split.
  - rewrite (insert_all_value _ _ _ Total (λ r, add64 r.1.1 r.1.2) through path l root 0); [done| |apply root_well_formed|by apply root_value].
    intros. by apply (insert_total snd (λ r, add64 r.1.1 r.1.2) (λ r, Some r.1.2)).
  - rewrite (insert_all_value _ _ _ Comp (λ r, r.1.2) through path l root 0); [done| |apply root_well_formed|by apply root_value].
    intros. by apply (insert_comp snd (λ r, add64 r.1.1 r.1.2) (λ r, Some r.1.2)).
Qed.
End get.

(** The difference of two flame graphs whose nodes have distinct names: at every
    path the total is the sum of the totals of the two, and the share of the
    comparison is the comparison's total where the parent of the node is in the
    first graph; below that, where only the comparison has the parent, the share
    is left at zero although the total is all the comparison's. *)
Theorem Diff_spec n c :
  distinct n → distinct c → (∀ p, value_at Comp p n = 0) → (∀ p, value_at Comp p c = 0) →
  ∃ d, Diff (Some n) (Some c) = Ret d ∧ ∀ path,
    value_at Total path d = at_both add64 path n c ∧
    value_at Comp path d =
      match at_path (removelast path) n with Some _ => value_at Total path c | None => 0 end.
Proof.
  intros Dn Dc Zn Zc. eexists. split; [reflexivity|]. intros [|x path].
  - unfold value_at. cbn. rewrite diff_unfold. by destruct n.
  - split.
    + rewrite <- diff_total by done. rewrite !value_at_cons. by rewrite diff_unfold.
    + rewrite <- diff_comp by done. rewrite !value_at_cons. by rewrite diff_unfold.
Qed.

(** A graph that is missing makes the comparison panic. *)
Lemma Diff_nil n : Diff None n = Panic ∧ Diff n None = Panic.
Proof. by destruct n. Qed.

End FlameGraphTheorems.

Module FlameGraphRuns.
Import FlameGraphFacts FlameGraphTheorems.

(** The functions of model/profile_test.go. *)
Example python : parseStackFunction "/usr/local/lib/python3.12/threading.py Thread._bootstrap :0"
  = ("Thread._bootstrap @/usr/local/lib/python3.12/threading.py", "/usr/local/lib/python3.12/threading.py").
Proof. vm_compute. reflexivity. Qed.
Example python_package : parseStackFunction "/usr/local/lib/python3.12/site-packages/grpc/_channel.py _MultiThreadedRendezvous.__next__ :0"
  = ("_MultiThreadedRendezvous.__next__ @grpc/_channel.py", "grpc").
Proof. vm_compute. reflexivity. Qed.
Example java : parseStackFunction "boolean io.netty.channel.epoll.EpollEventLoop.processReady(io.netty.channel.epoll.EpollEventArray, int) :0"
  = ("io.netty.channel.epoll.EpollEventLoop.processReady", "io.netty.channel.epoll").
Proof. vm_compute. reflexivity. Qed.
Example java_nested : parseStackFunction "void okhttp3.internal.connection.RealCall$AsyncCall.run() :0"
  = ("okhttp3.internal.connection.RealCall$AsyncCall.run", "okhttp3.internal.connection").
Proof. vm_compute. reflexivity. Qed.
Example golang : parseStackFunction "github.com/prometheus/prometheus/scrape.(*scrapePool).sync.gowrap2 :0"
  = ("github.com/prometheus/prometheus/scrape.(*scrapePool).sync.gowrap2", "github.com/prometheus/prometheus").
Proof. vm_compute. reflexivity. Qed.

Definition rows : list (Z * list string) :=
  [(5, ["read"; "serve"; "main"]); (7, ["write"; "serve"; "main"]); (2, ["serve"; "main"]); (-1, ["gc"])].

Definition source : ProfileSource :=
  {| profile_rows := λ _ _, inr (Build_Rows (map inr rows) None);
     diff_rows := λ _, inr (Build_Rows [inr (3, 4, ["main"])] None) |}.

Lemma getProfile_totals_witness :
  match @getProfile source {| pq_Type := "go:profile_cpu:nanoseconds"; pq_Diff := false |} with
  | inr (Some n) => value_at Total ["main"; "serve"] n = 14 ∧ value_at Self ["main"; "serve"] n = 2
  | _ => False
  end.
Proof.
  pose proof (@getProfile_totals source {| pq_Type := "go:profile_cpu:nanoseconds"; pq_Diff := false |} rows None eq_refl) as T.
  destruct (getProfile _) as [|[n|]] eqn:E; [exact T| |vm_compute in T; discriminate T].
  destruct T as [_ T]. destruct (T ["main"; "serve"]) as [-> ->]. split; vm_compute; reflexivity.
Defined.

(** A base with [a], a comparison with [a] and with [b] over [c]. *)
Definition base : FlameGraphNode := InsertStack root ["a"] 1 None.
Definition comparison : FlameGraphNode := InsertStack (InsertStack root ["a"] 2 None) ["c"; "b"] 5 None.

Lemma Diff_spec_witness :
  ∃ d, Diff (Some base) (Some comparison) = Ret d ∧
    (value_at Total ["a"] d, value_at Comp ["a"] d) = (3, 2) ∧
    (value_at Total ["b"] d, value_at Comp ["b"] d) = (5, 5) ∧
    (value_at Total ["b"; "c"] d, value_at Comp ["b"; "c"] d) = (5, 0).
Proof.
  destruct (Diff_spec base comparison) as (d & E & D).
  - apply well_formed_distinct, insert_path_well_formed, root_well_formed.
  - apply well_formed_distinct, insert_path_well_formed, insert_path_well_formed, root_well_formed.
  - intros p. unfold base. rewrite insert_no_comp; [by apply root_value|apply root_well_formed].
  - intros p. unfold comparison. rewrite !insert_no_comp; [by apply root_value|apply root_well_formed|].
    apply insert_path_well_formed, root_well_formed.
  - exists d. split; [exact E|].
    destruct (D ["a"]) as [-> ->], (D ["b"]) as [-> ->], (D ["b"; "c"]) as [-> ->].
    split_and!; vm_compute; reflexivity.
Defined.

End FlameGraphRuns.
