(* ===== verification/TraceTree.v ===== *)
(** The spans of traces: the error and latency views of the traces page
    (clickhouse/traces.go, [getTraceErrors]; api/views/overview/traces.go;
    model/trace.go).

    The walks over parents take fuel: [None] is a walk that has not ended. *)

From Stdlib Require Import ZArith Lia Bool String Ascii.
From S2P Require Import Prelude Float32 GoStrings Utils FlameGraph.
Import FilepathFacts.

Local Open Scope string_scope.
Local Open Scope Z_scope.

(** * Spans *)

Record TraceSpanEvent := {
  ev_Name : string;
  ev_Attributes : gmap string string;
}.

(** The fields these views read.  Times and durations are in nanoseconds. *)
Record TraceSpan := {
  sp_Timestamp : Z;
  sp_Name : string;
  sp_TraceId : string;
  sp_SpanId : string;
  sp_ParentSpanId : string;
  sp_ServiceName : string;
  sp_Duration : Z;
  sp_StatusCode : string;
  sp_StatusMessage : string;
  sp_SpanAttributes : gmap string string;
  sp_Events : list TraceSpanEvent;
}.

Definition attr (s : TraceSpan) (name : string) : string := default "" (sp_SpanAttributes s !! name).

Definition label_names : list string :=
  ["net.peer.name"; "server.address"; "net.host.name"; "http.route"; "http.host.name"; "db.system"; "db.operation";
   "messaging.system"; "messaging.operation"].

Definition span_Labels (s : TraceSpan) : gmap string string :=
  filter (λ p, p.1 ∈ label_names) (sp_SpanAttributes s).

(** [Labels.String] of model/labels.go: the sort makes the order of the map of
    no account. *)
Definition Labels_String (ls : gmap string string) : string :=
  if bool_decide (ls = ∅) then ""
  else "{" ++ GoStrings.Join (StringSet.sort_strings ((λ p, p.1 ++ "=" ++ p.2) <$> map_to_list ls)) "," ++ "}".

Definition StatusError : string := "STATUS_CODE_ERROR".

Record TraceSpanStatus := { st_Error : bool; st_Message : string }.

Definition span_Status (s : TraceSpan) : TraceSpanStatus :=
  let err := String.eqb (sp_StatusCode s) StatusError in
  let message := if err then (if String.eqb (sp_StatusMessage s) "" then "ERROR" else sp_StatusMessage s) else "OK" in
  let c := attr s "http.status_code" in
  {| st_Error := err; st_Message := if String.eqb c "" then message else "HTTP-" ++ c |}.

(** The message of the first exception that has one. *)
Fixpoint exception_message (events : list TraceSpanEvent) : option string :=
  match events with
  | [] => None
  | e :: events =>
      if String.eqb (ev_Name e) "exception" then
        match ev_Attributes e !! "exception.message" with
        | Some m => Some m
        | None => exception_message events
        end
      else exception_message events
  end.

Definition ErrorMessage (s : TraceSpan) : string :=
  if negb (String.eqb (sp_StatusCode s) StatusError) then ""
  else if negb (String.eqb (sp_StatusMessage s) "") then sp_StatusMessage s
  else if negb (String.eqb (attr s "grpc.error_message") "") then attr s "grpc.error_message"
  else match exception_message (sp_Events s) with
       | Some m => m
       | None =>
           if negb (String.eqb (attr s "http.status_code") "") then "HTTP-" ++ attr s "http.status_code" else ""
       end.

Definition dquote : string := String "034"%char EmptyString.

Record TraceSpanDetails := { de_Text : string; de_Lang : string }.

Definition span_Details (s : TraceSpan) : TraceSpanDetails :=
  let system := attr s "db.system" in
  let statement := attr s "db.statement" in
  if negb (String.eqb (attr s "http.url") "") then {| de_Text := attr s "http.url"; de_Lang := "" |}
  else if String.eqb system "mongodb" then {| de_Text := statement; de_Lang := "json" |}
  else if String.eqb system "redis" || String.eqb system "zookeeper" then {| de_Text := statement; de_Lang := "" |}
  else if negb (String.eqb statement "") then {| de_Text := statement; de_Lang := "sql" |}
  else if negb (String.eqb (attr s "db.memcached.item") "") then
    {| de_Text := attr s "db.operation" ++ " " ++ dquote ++ attr s "db.memcached.item" ++ dquote; de_Lang := "bash" |}
  else {| de_Text := ""; de_Lang := "" |}.

(** * The errors of a trace: [getTraceErrors] *)

(** [parents] and [errorSpans], each by span id; the last span of an id wins. *)
Definition parents_of (spans : list TraceSpan) : gmap string string :=
  foldl (λ m s, <[sp_SpanId s := sp_ParentSpanId s]> m) ∅ spans.

Definition error_spans (spans : list TraceSpan) : gmap string TraceSpan :=
  foldl (λ m s, if String.eqb (sp_StatusCode s) StatusError then <[sp_SpanId s := s]> m else m) ∅ spans.

(** [for parentId != "" { delete(errorSpans, parentId); parentId = parents[parentId] }] *)
Fixpoint drop_ancestors (fuel : nat) (parents : gmap string string) (parentId : string) (errs : gmap string TraceSpan)
    : option (gmap string TraceSpan) :=
  match fuel with
  | O => None
  | S fuel =>
      if String.eqb parentId "" then Some errs
      else drop_ancestors fuel parents (default "" (parents !! parentId)) (delete parentId errs)
  end.

(** [for _, s := range errorSpans]: a span deleted before the loop comes to it is
    not visited.  [order] is the order in which the map gives its keys. *)
Fixpoint visit_errors (fuel : nat) (parents : gmap string string) (order : list string) (errs : gmap string TraceSpan)
    : option (gmap string TraceSpan) :=
  match order with
  | [] => Some errs
  | id :: order =>
      match errs !! id with
      | None => visit_errors fuel parents order errs
      | Some s =>
          match drop_ancestors fuel parents (sp_ParentSpanId s) errs with
          | Some errs => visit_errors fuel parents order errs
          | None => None
          end
      end
  end.

Definition failed_spans (fuel : nat) (order : list string) (spans : list TraceSpan) : option (gmap string TraceSpan) :=
  visit_errors fuel (parents_of spans) order (error_spans spans).

Record TraceSpanKey := { k_Cluster : string; k_ServiceName : string; k_SpanName : string; k_LabelsHash : N }.

#[export] Instance TraceSpanKey_eq_dec : EqDecision TraceSpanKey.
Proof. solve_decision. Defined.
#[export] Instance TraceSpanKey_countable : Countable TraceSpanKey.
Proof.
  refine (inj_countable' (λ k, (k_Cluster k, k_ServiceName k, k_SpanName k, k_LabelsHash k))
    (λ '(a, b, c, d), {| k_Cluster := a; k_ServiceName := b; k_SpanName := c; k_LabelsHash := d |}) _).
  by intros [].
Defined.

Record TraceErrorsStat := {
  te_Labels : gmap string string;
  te_SampleTraceId : string;
  te_SampleError : string;
  te_Count : f32;
}.

Section errors.
(** [Labels.Hash], of the hash of the library it uses. *)
Context (Hash : gmap string string → N) (cluster : string).

Definition error_key (s : TraceSpan) : TraceSpanKey :=
  {| k_Cluster := cluster; k_ServiceName := sp_ServiceName s; k_SpanName := sp_Name s; k_LabelsHash := Hash (span_Labels s) |}.

Definition count_error (errors : gmap TraceSpanKey TraceErrorsStat) (s : TraceSpan) : gmap TraceSpanKey TraceErrorsStat :=
  let e := default {| te_Labels := span_Labels s; te_SampleTraceId := sp_TraceId s; te_SampleError := ErrorMessage s; te_Count := F32.zero |}
             (errors !! error_key s) in
  <[error_key s := {| te_Labels := te_Labels e; te_SampleTraceId := te_SampleTraceId e; te_SampleError := te_SampleError e;
                      te_Count := F32.add (te_Count e) F32.one |}]> errors.

(** The traces, each with the orders in which its two loops over the map go. *)
Fixpoint trace_errors (fuel : nat) (traces : list (list TraceSpan * list string * list string))
    (errors : gmap TraceSpanKey TraceErrorsStat) : option (gmap TraceSpanKey TraceErrorsStat) :=
  match traces with
  | [] => Some errors
  | (spans, order, order') :: traces =>
      match failed_spans fuel order spans with
      | None => None
      | Some errs => trace_errors fuel traces (foldl count_error errors (omap (errs !!.) order'))
      end
  end.

(** RenderTraces merges the errors of each ClickHouse, and divides the counts by
    their sum. *)
Definition merge_errors (overall : gmap TraceSpanKey TraceErrorsStat) (total : f32)
    (errors : list (TraceSpanKey * TraceErrorsStat)) : gmap TraceSpanKey TraceErrorsStat * f32 :=
  foldl (λ '(overall, total) '(k, v),
    (match overall !! k with
     | None => <[k := v]> overall
     | Some e => <[k := {| te_Labels := te_Labels e; te_SampleTraceId := te_SampleTraceId e; te_SampleError := te_SampleError e;
                           te_Count := F32.add (te_Count e) (te_Count v) |}]> overall
     end, F32.add total (te_Count v))) (overall, total) errors.
End errors.

(** * The latency of traces: [getTraceLatencyFlamegraph] *)

Definition end_of (s : TraceSpan) : Z := sp_Timestamp s + sp_Duration s.

(** [UnixNano] *)
Definition UnixNano (t : Z) : Z := wrap64 t.

Definition sort_Z (l : list Z) : list Z := merge_sort Z.le l.

(** The bounds of the spans, in order, each once. *)
Definition bounds (spans : list TraceSpan) : list Z :=
  sort_Z (elements (list_to_set (flat_map (λ s, [UnixNano (sp_Timestamp s); UnixNano (end_of s)]) spans) : gset Z)).

Definition covers (from to : Z) (s : TraceSpan) : bool :=
  (UnixNano (sp_Timestamp s) <=? from) && (to <=? UnixNano (end_of s)).

(** The share of an interval of each of the [n] spans that cover it. *)
Definition share (from to : Z) (n : nat) : Z := wrap64 (Z.quot (sub64 to from) (Z.of_nat n)).

Definition add_share (from to : Z) (spans : list TraceSpan) (durations : list Z) : list Z :=
  let n := length (List.filter (covers from to) spans) in
  zip_with (λ s d, if covers from to s then add64 d (share from to n) else d) spans durations.

Fixpoint share_intervals (intervals : list Z) (spans : list TraceSpan) (durations : list Z) : list Z :=
  match intervals with
  | from :: (to :: _) as rest => share_intervals rest spans (add_share from to spans durations)
  | _ => durations
  end.

(** [durations], in the order of [spans]. *)
Definition durations_of (parentId : string) (spans : list TraceSpan) : list Z :=
  if String.eqb parentId "" then map sp_Duration spans
  else share_intervals (bounds spans) spans (map (λ _, 0) spans).

Definition span_name (s : TraceSpan) : string :=
  sp_ServiceName s ++ ": " ++ sp_Name s ++ " " ++ Labels_String (span_Labels s).

Definition span_child (s : TraceSpan) : FlameGraphNode :=
  Node (span_name s) 0 0 0 [] (sp_ServiceName s) (Some {["trace_id" := sp_TraceId s]}).

(** [child.Total += durations[s]] *)
Definition add_total (d : Z) (n : FlameGraphNode) : FlameGraphNode :=
  Node (Name n) (add64 (Total n) d) (Self n) (Comp n) (Children n) (ColorBy n) (Data n).

Definition set_self (self : Z) (n : FlameGraphNode) : FlameGraphNode :=
  Node (Name n) (Total n) self (Comp n) (Children n) (ColorBy n) (Data n).

Definition name_le (a b : FlameGraphNode) : Prop := String.le (Name a) (Name b).
#[export] Instance name_le_dec : RelDecision name_le.
Proof. intros a b. unfold name_le. apply _. Defined.

(** One span: its child is found or appended, its duration added, and its own
    children put under it by [f]. *)
Fixpoint update_child (f : FlameGraphNode → option FlameGraphNode) (name : string) (new : FlameGraphNode)
    (children : list FlameGraphNode) : option (list FlameGraphNode) :=
  match children with
  | [] => match f new with Some c => Some [c] | None => None end
  | c :: cs =>
      if String.eqb (Name c) name then match f c with Some c => Some (c :: cs) | None => None end
      else match update_child f name new cs with Some cs => Some (c :: cs) | None => None end
  end.

Definition children_of (spans : list TraceSpan) (id : string) : list TraceSpan :=
  List.filter (λ s, String.eqb (sp_ParentSpanId s) id) spans.

(** The loop over the spans of a parent; [f] is the recursive call. *)
Fixpoint add_spans (f : FlameGraphNode → string → option FlameGraphNode) (spans : list (TraceSpan * Z))
    (children : list FlameGraphNode) : option (list FlameGraphNode) :=
  match spans with
  | [] => Some children
  | (s, d) :: spans =>
      match update_child (λ c, f (add_total d c) (sp_SpanId s)) (span_name s) (span_child s) children with
      | Some children => add_spans f spans children
      | None => None
      end
  end.

(** [node.Self = node.Total] less the children's totals. *)
Definition finish_node (children : list FlameGraphNode) (n : FlameGraphNode) : FlameGraphNode :=
  let children := merge_sort name_le children in
  set_self (foldl (λ self c, sub64 self (Total c)) (Total n) children) (with_children (λ _, children) n).

Fixpoint addChildrenSpans (fuel : nat) (spans : list TraceSpan) (node : FlameGraphNode) (parentId : string)
    : option FlameGraphNode :=
  match fuel with
  | O => None
  | S fuel =>
      match children_of spans parentId with
      | [] => Some node
      | ss =>
          match add_spans (addChildrenSpans fuel spans) (zip ss (durations_of parentId ss)) (Children node) with
          | Some children => Some (finish_node children node)
          | None => None
          end
      end
  end.

(** [for _, ch := range root.Children { root.Total += ch.Total; if root.Data == nil { root.Data = ch.Data } }] *)
Definition sum_root (root : FlameGraphNode) : FlameGraphNode :=
  foldl (λ r c, Node (Name r) (add64 (Total r) (Total c)) 0 (Comp r) (Children r) (ColorBy r)
                  (match Data r with None => Data c | some => some end)) root (Children root).

(** [Some None] is the nil graph of no traces. *)
Definition getTraceLatencyFlamegraph (fuel : nat) (traces : list (list TraceSpan)) : option (option FlameGraphNode) :=
  match traces with
  | [] => Some None
  | _ =>
      match addChildrenSpans fuel (concat traces) root "" with
      | Some r => Some (Some (set_self 0 (sum_root r)))
      | None => None
      end
  end.

(** The root has the data of its first child itself, not a copy: what [Diff]
    writes there shows at the root. *)
Definition share_data (n : FlameGraphNode) : FlameGraphNode :=
  match Children n with
  | c :: _ => Node (Name n) (Total n) (Self n) (Comp n) (Children n) (ColorBy n) (Data c)
  | [] => n
  end.

(** The latency view of RenderTraces. *)
Definition latency_graph (diff_ selected : bool) (base comp : option FlameGraphNode) : outcome (option FlameGraphNode) :=
  if diff_ then
    match Diff base comp with
    | Ret n => Ret (Some (share_data n))
    | Panic => Panic
    end
  else Ret (if selected then comp else base).

(** * The statistics of spans *)

Record TraceSpanStats := {
  ts_Total : f32;
  ts_Failed : f32;
  ts_Histogram : list (f32 * f32);
}.

(** A map keyed by the lower bounds of buckets, none of them NaN: assignment. *)
Fixpoint set_bucket (h : list (f32 * f32)) (b v : f32) : list (f32 * f32) :=
  match h with
  | [] => [(b, v)]
  | (b', v') :: h => if F32.eqb b' b then (b', v) :: h else (b', v') :: set_bucket h b v
  end.

Definition set_buckets (h buckets : list (f32 * f32)) : list (f32 * f32) :=
  foldl (λ h '(b, v), set_bucket h b v) h buckets.

(** What RenderTraces does with the statistics of one span of one ClickHouse:
    the overall statistics of its key, and the total of all of them. *)
Definition merge_stats (overall : gmap TraceSpanKey TraceSpanStats) (total : TraceSpanStats)
    (stats : list (TraceSpanKey * TraceSpanStats)) : gmap TraceSpanKey TraceSpanStats * TraceSpanStats :=
  foldl (λ '(overall, total) '(k, v),
    (match overall !! k with
     | None => <[k := v]> overall
     | Some s => <[k := {| ts_Total := F32.add (ts_Total s) (ts_Total v); ts_Failed := F32.add (ts_Failed s) (ts_Failed v);
                           ts_Histogram := set_buckets (ts_Histogram s) (ts_Histogram v) |}]> overall
     end,
     {| ts_Total := F32.add (ts_Total total) (ts_Total v); ts_Failed := F32.add (ts_Failed total) (ts_Failed v);
        ts_Histogram := set_buckets (ts_Histogram total) (ts_Histogram v) |})) (overall, total) stats.

Module TraceTreeFacts.
Local Open Scope list_scope.

(** * Walking up *)

Definition parent (spans : list TraceSpan) (id : string) : string := default "" (parents_of spans !! id).

(** [q] is met on the walk that starts at [p]. *)
Inductive up (spans : list TraceSpan) : string → string → Prop :=
| up_here p : p ≠ "" → up spans p p
| up_next p q : p ≠ "" → up spans (parent spans p) q → up spans p q.

Lemma up_trans spans p q r : up spans p q → up spans (parent spans q) r → up spans p r.
Proof. induction 1; intros; apply up_next; auto. Qed.

(** A map made by one loop over spans with distinct ids. *)
Lemma fold_lookup {B} (use : TraceSpan → bool) (value : TraceSpan → B) (spans : list TraceSpan) :
  NoDup (sp_SpanId <$> spans) → ∀ id b,
  foldl (λ m s, if use s then <[sp_SpanId s := value s]> m else m) (∅ : gmap string B) spans !! id = Some b ↔
  ∃ s, s ∈ spans ∧ use s = true ∧ sp_SpanId s = id ∧ value s = b.
Proof.
  induction spans as [|s spans IH] using rev_ind; intros N id b.
  { cbn. rewrite lookup_empty. split; [done|]. by intros (s & ?%not_elem_of_nil & _). }
  rewrite fmap_app in N. apply NoDup_app in N as (N & D & _). rewrite foldl_app. cbn.
  assert (Old : ∀ t, t ∈ spans → sp_SpanId t ≠ sp_SpanId s).
  { intros t Ht E. apply (D (sp_SpanId t)); [apply list_elem_of_fmap; eauto|]. rewrite E. by apply list_elem_of_singleton. }
  destruct (use s) eqn:U.
  - destruct (decide (sp_SpanId s = id)) as [<-|Ne].
    + rewrite lookup_insert_eq. split; [intros [= <-]; exists s; split_and!; [apply elem_of_app; right; by apply list_elem_of_singleton|done..]|].
      intros (t & [Ht|Ht]%elem_of_app & _ & E & <-); [by destruct (Old t Ht)|]. by apply list_elem_of_singleton in Ht as ->.
    + rewrite lookup_insert_ne by done. rewrite IH by done. split; [intros (t & Ht & R); exists t; split; [by apply elem_of_app; left|done]|].
      intros (t & [Ht|Ht]%elem_of_app & Ut & E & <-); [by eauto 10|]. by apply list_elem_of_singleton in Ht as ->.
  - rewrite IH by done. split; [intros (t & Ht & R); exists t; split; [by apply elem_of_app; left|done]|].
    intros (t & [Ht|Ht]%elem_of_app & Ut & E & <-); [by eauto 10|]. apply list_elem_of_singleton in Ht as ->. congruence.
Qed.

Lemma parents_lookup spans id p :
  NoDup (sp_SpanId <$> spans) → parents_of spans !! id = Some p ↔ ∃ s, s ∈ spans ∧ sp_SpanId s = id ∧ sp_ParentSpanId s = p.
Proof.
  intros N. unfold parents_of. pose proof (fold_lookup (λ _, true) sp_ParentSpanId spans N id p) as F. cbn in F.
  rewrite F. naive_solver.
Qed.

Lemma errors_lookup spans id s :
  NoDup (sp_SpanId <$> spans) →
  error_spans spans !! id = Some s ↔ s ∈ spans ∧ sp_StatusCode s = StatusError ∧ sp_SpanId s = id.
Proof.
  intros N. unfold error_spans.
  pose proof (fold_lookup (λ s, String.eqb (sp_StatusCode s) StatusError) (λ s, s) spans N) as F. rewrite (F _ s).
  setoid_rewrite String.eqb_eq. naive_solver.
Qed.

Section walk.
Context (spans : list TraceSpan) (rank : string → nat).
Hypothesis distinct_ids : NoDup (sp_SpanId <$> spans).
(** No span is its own ancestor. *)
Hypothesis acyclic : ∀ s, s ∈ spans → (rank (sp_ParentSpanId s) < rank (sp_SpanId s))%nat.

Lemma parent_rank p : parent spans p ≠ "" → (rank (parent spans p) < rank p)%nat.
Proof.
  unfold parent. destruct (parents_of spans !! p) as [q|] eqn:E; [|done]. intros _. cbn.
  apply parents_lookup in E as (s & Hs & <- & <-); [|done]. by apply acyclic.
Qed.

Lemma drop_ancestors_spec fuel p errs :
  (p = "" ∨ rank p + 2 ≤ fuel)%nat → (0 < fuel)%nat →
  ∃ (l : list string) errs', drop_ancestors fuel (parents_of spans) p errs = Some errs' ∧
    (∀ id, id ∈ l ↔ up spans p id) ∧ ∀ id, errs' !! id = if bool_decide (id ∈ l) then None else errs !! id.
Proof.
  revert p errs. induction fuel as [|fuel IH]; intros p errs Hp Hf; [lia|]. cbn.
  destruct (String.eqb_spec p "") as [->|Ne].
  { exists [], errs. split_and!; [done| |done]. intros id. split; [by intros ?%not_elem_of_nil|by inversion 1]. }
  destruct Hp as [->|Hp]; [done|].
  destruct (IH (parent spans p) (delete p errs)) as (l & errs' & E & U & S); [|lia|].
  { destruct (decide (parent spans p = "")) as [|N]; [by left|right]. apply parent_rank in N. lia. }
  exists (p :: l), errs'. split_and!; [exact E| |].
  - intros id. rewrite elem_of_cons, U. split.
    + intros [->|Up]; [by constructor|by apply up_next].
    + inversion 1; subst; auto.
  - intros id. rewrite S. destruct (decide (id = p)) as [->|Np].
    + rewrite lookup_delete_eq, (bool_decide_eq_true_2 (p ∈ p :: l)) by apply list_elem_of_here. by case_bool_decide.
    + rewrite lookup_delete_ne by done. rewrite (bool_decide_ext (id ∈ p :: l) (id ∈ l)); [done|].
      rewrite elem_of_cons. naive_solver.
Qed.

Definition covered (visited : list string) (id : string) : Prop :=
  ∃ id' s', id' ∈ visited ∧ error_spans spans !! id' = Some s' ∧ up spans (sp_ParentSpanId s') id.

Lemma covered_cons id0 visited id :
  covered (id0 :: visited) id ↔
    covered visited id ∨ ∃ s', error_spans spans !! id0 = Some s' ∧ up spans (sp_ParentSpanId s') id.
Proof.
  unfold covered. setoid_rewrite elem_of_cons. naive_solver.
Qed.

(** The spans left are the error spans that nothing visited so far is under. *)
Definition uncovered (visited : list string) (errs : gmap string TraceSpan) : Prop :=
  ∀ id s, errs !! id = Some s ↔ (error_spans spans !! id = Some s ∧ ¬ covered visited id).

Lemma parent_of_error id s : error_spans spans !! id = Some s → parent spans id = sp_ParentSpanId s.
Proof.
  intros (Hs & _ & <-)%errors_lookup; [|done]. unfold parent.
  assert (parents_of spans !! sp_SpanId s = Some (sp_ParentSpanId s)) as ->; [|done].
  apply parents_lookup; [done|]. by exists s.
Qed.

Lemma visit_errors_spec fuel order :
  (∀ s, s ∈ spans → rank (sp_SpanId s) < fuel)%nat →
  ∀ visited errs, uncovered visited errs →
  (∀ id, errs !! id = None → is_Some (error_spans spans !! id) → covered visited id) →
  ∃ errs' (visited' : list string), visit_errors fuel (parents_of spans) order errs = Some errs' ∧ uncovered visited' errs' ∧
    (∀ id, id ∈ visited' ↔ id ∈ order ∨ id ∈ visited).
Proof.
  unfold uncovered. intros Hf. induction order as [|id0 order IH]; intros visited errs U C; cbn.
  { exists errs, visited. split_and!; [done|done|]. intros id. split; [by right|by intros [?%not_elem_of_nil|?]]. }
  assert (Order : ∀ visited' : list string, (∀ id, id ∈ visited' ↔ id ∈ order ∨ id ∈ id0 :: visited) →
    ∀ id, id ∈ visited' ↔ id ∈ id0 :: order ∨ id ∈ visited).
  { intros visited' H id. rewrite H, !elem_of_cons. tauto. }
  destruct (errs !! id0) as [s0|] eqn:E0.
  - pose proof (proj1 (proj1 (U _ _) E0)) as L0. pose proof L0 as (Hs0 & _ & Ei)%errors_lookup; [|done].
    pose proof (acyclic s0 Hs0). pose proof (Hf s0 Hs0).
    destruct (drop_ancestors_spec fuel (sp_ParentSpanId s0) errs) as (l & errs1 & -> & Hl & S1); [lia..|].
    destruct (IH (id0 :: visited) errs1) as (errs' & visited' & E & U' & V).
    + intros id s. rewrite S1, covered_cons. case_bool_decide as Hid; rewrite Hl in Hid.
      * split; [done|]. intros [_ N]. destruct N. right. by exists s0.
      * rewrite U. split; [|naive_solver]. intros [? N]. split; [done|]. intros [?|(s' & Es & Up)]; [done|].
        apply Hid. congruence.
    + intros id E1 Hid. rewrite covered_cons. rewrite S1 in E1. case_bool_decide as Hi; [|left; by apply C].
      right. exists s0. split; [done|]. by apply Hl.
    + exists errs', visited'. eauto.
  - destruct (IH (id0 :: visited) errs) as (errs' & visited' & E & U' & V).
    + intros id s. rewrite U, covered_cons. split; [|naive_solver]. intros [? N]. split; [done|].
      intros [?|(s' & Es & Up)]; [done|]. apply N. destruct (C id0 E0) as (id' & t & Hv & Et & Ut); [by eexists|].
      exists id', t. split_and!; [done|done|]. eapply up_trans; [exact Ut|]. by rewrite (parent_of_error _ _ Es).
    + intros id E1 Hid. rewrite covered_cons. left. by apply C.
    + exists errs', visited'. eauto.
Qed.

(** * Going down *)

Lemma update_child_some f name new children :
  (∀ c, f c ≠ None) → update_child f name new children ≠ None.
Proof.
  intros F. induction children as [|c cs IH]; cbn.
  - specialize (F new). by destruct (f new).
  - destruct (String.eqb (Name c) name); [specialize (F c); by destruct (f c)|]. by destruct (update_child f name new cs).
Qed.

Lemma add_spans_some f l children :
  (∀ s d c, (s, d) ∈ l → f c (sp_SpanId s) ≠ None) → add_spans f l children ≠ None.
Proof.
  revert children. induction l as [|[s d] l IH]; intros children F; cbn; [done|].
  pose proof (update_child_some (λ c, f (add_total d c) (sp_SpanId s)) (span_name s) (span_child s) children) as U.
  destruct (update_child _ _ _ _); [|by destruct U; [intros c; eapply F; apply list_elem_of_here|]].
  apply IH. intros s' d' c H. eapply F. by apply list_elem_of_further.
Qed.
End walk.

Lemma children_of_elem spans s id : s ∈ children_of spans id ↔ s ∈ spans ∧ sp_ParentSpanId s = id.
Proof. unfold children_of. rewrite !list_elem_of_In, List.filter_In, String.eqb_eq. done. Qed.

Lemma addChildrenSpans_S fuel spans node id :
  addChildrenSpans (S fuel) spans node id =
    if bool_decide (children_of spans id = []) then Some node
    else (λ children, finish_node children node) <$> add_spans (addChildrenSpans fuel spans)
           (zip (children_of spans id) (durations_of id (children_of spans id))) (Children node).
Proof. cbn [addChildrenSpans]. case_bool_decide as E; destruct (children_of spans id); by try destruct (add_spans _ _ _). Qed.

(** No span under [id] is above itself: with the fuel of its rank the walk ends. *)
Lemma addChildrenSpans_some spans (rank : string → nat) fuel node id :
  (∀ s, s ∈ spans → (rank (sp_SpanId s) < rank (sp_ParentSpanId s))%nat) →
  (rank id < fuel)%nat → addChildrenSpans fuel spans node id ≠ None.
Proof.
  intros A. revert node id. induction fuel as [|fuel IH]; intros node id Hf; [lia|].
  rewrite addChildrenSpans_S. case_bool_decide; [done|].
  pose proof (add_spans_some (addChildrenSpans fuel spans) (zip (children_of spans id) (durations_of id (children_of spans id)))
    (Children node)) as S.
  destruct (add_spans _ _ _); [done|]. destruct S; [|done].
  intros s d c Hz%elem_of_zip_l. apply children_of_elem in Hz as [Hs <-]. apply IH. specialize (A s Hs). lia.
Qed.

Lemma add_spans_none f l1 s d l2 children :
  (∀ c, f c (sp_SpanId s) = None) → add_spans f (l1 ++ (s, d) :: l2) children = None.
Proof.
  intros F. revert children. induction l1 as [|[s1 d1] l1 IH]; intros children; cbn.
  - replace (update_child _ _ _ _) with (@None (list FlameGraphNode)); [done|]. symmetry.
    induction children as [|c cs IHc]; cbn; [by rewrite F|]. destruct (String.eqb _ _); [by rewrite F|]. by rewrite IHc.
  - destruct (update_child _ _ _ _); [apply IH|done].
Qed.

(** * Sharing time *)

Fixpoint total (l : list Z) : Z := match l with [] => 0 | d :: l => d + total l end.

(** Spans and bounds a clock can give: nothing overflows. *)
Definition clock_range (t : Z) : Prop := 0 ≤ t < 2 ^ 62.

Lemma add_share_length from to spans ds :
  length ds = length spans → length (add_share from to spans ds) = length spans.
Proof. intros H. unfold add_share. rewrite length_zip_with. lia. Qed.

Lemma share_bounds from to n :
  clock_range from → clock_range to → from ≤ to → (0 < n)%nat →
  0 ≤ share from to n ∧ Z.of_nat n * share from to n ≤ to - from ∧ share from to n ≤ to - from.
Proof.
  unfold clock_range, share. intros F T L N.
  assert (Q : 0 ≤ Z.quot (to - from) (Z.of_nat n) ∧ Z.of_nat n * Z.quot (to - from) (Z.of_nat n) ≤ to - from).
  { rewrite Z.quot_div_nonneg by lia. split; [apply Z.div_pos; lia|apply Z.mul_div_le; lia]. }
  rewrite sub64_id by i64. rewrite wrap64_id by (unfold in_i64, i64_min, i64_max; nia). split_and!; nia.
Qed.

(** One interval: each span gets at most the interval, all of them together too. *)
Lemma add_share_total from to spans ds acc :
  clock_range from → clock_range to → from ≤ to → length ds = length spans →
  Forall (λ d, 0 ≤ d ≤ acc) ds → acc + (to - from) < 2 ^ 63 →
  Forall (λ d, 0 ≤ d ≤ acc + (to - from)) (add_share from to spans ds) ∧
  total (add_share from to spans ds) ≤ total ds + (to - from).
Proof.
  intros F T L Len B A. unfold add_share. set (n := length _).
  destruct (decide (n = 0)%nat) as [Z0|N0].
  - assert (E : zip_with (λ s d, if covers from to s then add64 d (share from to n) else d) spans ds = ds).
    { assert (N : ∀ s, s ∈ spans → covers from to s = false).
      { intros s Hs. destruct (covers from to s) eqn:C; [|done].
        assert (I : In s (List.filter (covers from to) spans)) by (apply List.filter_In; split; [by apply list_elem_of_In|done]).
        subst n. destruct (List.filter _ spans); [done|]. done. }
      generalize (share from to n) as sh. intros sh. clear n Z0 B. revert ds Len. induction spans as [|s spans IH]; intros [|d ds] Len; try done. cbn.
      rewrite N by apply list_elem_of_here. f_equal. apply IH; [|by injection Len].
      intros t Ht. apply N. by apply list_elem_of_further. }
    rewrite E. split; [|lia]. eapply Forall_impl; [exact B|]. cbn. intros. lia.
  - destruct (share_bounds from to n F T L ltac:(lia)) as (S0 & Sn & S1). set (sh := share from to n) in *.
    assert (G : Forall (λ d, 0 ≤ d ≤ acc + (to - from)) (zip_with (λ s d, if covers from to s then add64 d sh else d) spans ds)
      ∧ total (zip_with (λ s d, if covers from to s then add64 d sh else d) spans ds)
        = total ds + Z.of_nat (length (List.filter (covers from to) spans)) * sh).
    { clearbody sh n. revert ds Len B. induction spans as [|s spans IH]; intros [|d ds] Len B; try done.
      inversion B as [|? ? B1 B2]; subst. destruct (IH ds) as [G1 G2]; [by injection Len|done|]. cbn.
      destruct (covers from to s); cbn.
      - rewrite add64_id by i64. split; [constructor; [lia|done]|]. rewrite G2. lia.
      - split; [constructor; [lia|done]|]. rewrite G2. lia. }
    destruct G as [G1 G2]. split; [done|]. rewrite G2. fold n. lia.
Qed.

Lemma share_intervals_total intervals spans :
  StronglySorted Z.le intervals → Forall clock_range intervals →
  ∀ ds acc, length ds = length spans → Forall (λ d, 0 ≤ d ≤ acc) ds →
  acc + (List.last intervals 0 - List.hd 0 intervals) < 2 ^ 63 →
  let ds' := share_intervals intervals spans ds in
  length ds' = length spans ∧ Forall (λ d, 0 ≤ d) ds' ∧
  total ds' ≤ total ds + (List.last intervals 0 - List.hd 0 intervals).
Proof.
  induction intervals as [|from [|to rest] IH]; intros S R ds acc Len B A.
  1, 2: cbn; split_and!; [done|eapply Forall_impl; [exact B|cbn; intros; lia]|lia].
  change (share_intervals (from :: to :: rest) spans ds) with (share_intervals (to :: rest) spans (add_share from to spans ds)).
  inversion S as [|? ? S' F]; subst. inversion R as [|? ? R1 R2]; subst. inversion R2 as [|? ? R3 R4]; subst.
  assert (L : from ≤ to) by (inversion F; done).
  change (List.last (from :: to :: rest) 0) with (List.last (to :: rest) 0) in *. cbn [List.hd] in *.
  assert (L2 : to ≤ List.last (to :: rest) 0).
  { inversion S' as [|? ? _ F2]; subst. destruct rest as [|z rest]; [done|]. rewrite Forall_forall in F2. apply F2.
    apply list_elem_of_In. change (List.last (to :: z :: rest) 0) with (List.last (z :: rest) 0). 
    rewrite (List.app_removelast_last (l := z :: rest) 0) at 2 by done. apply List.in_or_app. right. by left. }
  destruct (add_share_total from to spans ds acc R1 R3 L Len B) as [B' T']; [lia|].
  destruct (IH S' R2 (add_share from to spans ds) (acc + (to - from))) as (X & Y & T2);
    [by apply add_share_length|done|cbn [List.hd]; lia|].
  cbn [List.hd] in T2. split_and!; [done|done|lia].
Qed.

Lemma bounds_sorted spans : StronglySorted Z.le (bounds spans).
Proof. apply (StronglySorted_merge_sort _). Qed.

Lemma elem_of_bounds spans z :
  z ∈ bounds spans ↔ ∃ s, s ∈ spans ∧ (z = UnixNano (sp_Timestamp s) ∨ z = UnixNano (end_of s)).
Proof.
  unfold bounds, sort_Z. rewrite merge_sort_Permutation, elem_of_elements, elem_of_list_to_set.
  rewrite list_elem_of_In, in_flat_map. setoid_rewrite list_elem_of_In. cbn. naive_solver.
Qed.
End TraceTreeFacts.

Module TraceTreeTheorems.
Import TraceTreeFacts.
Local Open Scope list_scope.

(** C33 The errors of a trace are its error spans that have no error span under
    them, whatever the order in which the map gives the spans it deletes from:
    for spans with distinct ids, none of them its own ancestor, the walk ends and
    leaves exactly these. *)
Theorem failed_spans_spec spans rank fuel order :
  NoDup (sp_SpanId <$> spans) →
  (∀ s, s ∈ spans → (rank (sp_ParentSpanId s) < rank (sp_SpanId s) < fuel)%nat) →
  (∀ id, is_Some (error_spans spans !! id) → id ∈ order) →
  ∃ errs, failed_spans fuel order spans = Some errs ∧ ∀ id s,
    errs !! id = Some s ↔
      s ∈ spans ∧ sp_StatusCode s = StatusError ∧ sp_SpanId s = id ∧
      ∀ s', s' ∈ spans → sp_StatusCode s' = StatusError → ¬ up spans (sp_ParentSpanId s') id.
Proof.
  intros N R O.
  destruct (visit_errors_spec spans rank N (λ s Hs, proj1 (R s Hs)) fuel order (λ s Hs, proj2 (R s Hs)) [] (error_spans spans))
    as (errs & visited & E & U & V).
  - intros id s. split; [|naive_solver]. intros ?. split; [done|]. by intros (? & ? & ?%not_elem_of_nil & _).
  - intros id E [s Hs]. congruence.
  - exists errs. split; [exact E|]. intros id s. unfold uncovered in U. rewrite U, errors_lookup by done.
    split; intros H; destruct H as [H1 H2].
    + destruct H1 as (Hs & He & Hi). split_and!; [done..|]. intros s' Hs' He' Up. apply H2.
      exists (sp_SpanId s'), s'. assert (Es : error_spans spans !! sp_SpanId s' = Some s') by (by apply errors_lookup).
      split_and!; [|done|done]. apply V. left. apply O. by eexists.
    + destruct H2 as (He & Hi & Un). split; [done|]. intros (id' & s' & _ & (Hs' & He' & _)%errors_lookup & Up); [|done].
      by apply (Un s').
Qed.

(** A span that is its own parent: the walk of [getTraceErrors] never ends. *)
Lemma own_parent_never_ends parents id errs fuel :
  id ≠ "" → parents !! id = Some id → drop_ancestors fuel parents id errs = None.
Proof.
  intros Ne E. revert errs. induction fuel as [|fuel IH]; intros errs; [done|]. cbn.
  rewrite (proj2 (String.eqb_neq _ _) Ne), E. apply IH.
Qed.

(** The latency graph of traces without cycles is built: the recursion over
    the spans under each span ends. *)
Theorem latency_graph_terminates traces rank fuel :
  (∀ s, s ∈ concat traces → (rank (sp_SpanId s) < rank (sp_ParentSpanId s))%nat) →
  (rank "" < fuel)%nat →
  ∃ graph, getTraceLatencyFlamegraph fuel traces = Some graph ∧ (graph = None ↔ traces = []).
Proof.
  intros R F. destruct traces as [|t traces]; [by exists None|].
  pose proof (addChildrenSpans_some (concat (t :: traces)) rank fuel root "" R F) as A.
  unfold getTraceLatencyFlamegraph. destruct (addChildrenSpans _ _ _ _) as [r|]; [|done]. by eexists.
Qed.

(** A span without ids is its own parent and a root: the recursion never ends. *)
Lemma span_without_ids_never_ends traces s fuel :
  s ∈ concat traces → sp_SpanId s = "" → sp_ParentSpanId s = "" → getTraceLatencyFlamegraph fuel traces = None.
Proof.
  intros Hs Ei Ep.
  assert (A : ∀ node, addChildrenSpans fuel (concat traces) node "" = None).
  { induction fuel as [|fuel IH]; intros node; [done|]. rewrite addChildrenSpans_S.
    assert (Hc : s ∈ children_of (concat traces) "") by (by apply children_of_elem).
    rewrite bool_decide_eq_false_2 by (intros E; rewrite E in Hc; by apply not_elem_of_nil in Hc).
    apply list_elem_of_lookup in Hc as [i Hi]. set (ss := children_of (concat traces) "") in *.
    assert (Hd : durations_of "" ss !! i = Some (sp_Duration s)) by (cbn; rewrite list_lookup_fmap, Hi; done).
    assert (Hz : zip ss (durations_of "" ss) !! i = Some (s, sp_Duration s))
      by (apply lookup_zip_with_Some; eauto 10).
    apply take_drop_middle in Hz. rewrite <- Hz, add_spans_none; [done|]. intros c. rewrite Ei. apply IH. }
  destruct traces as [|t traces]; [by apply not_elem_of_nil in Hs|]. unfold getTraceLatencyFlamegraph. by rewrite A.
Qed.

(** C37 The time of spans that run at once under one parent is shared among them:
    no span is given a negative time, and together they are given at most the
    time from the first of their bounds to the last. *)
Theorem durations_shared parentId spans first last :
  parentId ≠ "" → spans ≠ [] → clock_range first → clock_range last →
  Forall (λ s, first ≤ sp_Timestamp s ≤ last ∧ first ≤ end_of s ≤ last) spans →
  length (durations_of parentId spans) = length spans ∧
  Forall (λ d, 0 ≤ d) (durations_of parentId spans) ∧
  total (durations_of parentId spans) ≤ last - first.
Proof.
  intros Np Ns Cf Cl B. unfold durations_of. rewrite (proj2 (String.eqb_neq _ _) Np).
  assert (In_ : ∀ z, z ∈ bounds spans → first ≤ z ≤ last).
  { intros z (s & Hs & H)%elem_of_bounds. rewrite Forall_forall in B. destruct (B s Hs). unfold clock_range in *.
    unfold UnixNano in H. rewrite !wrap64_id in H by i64. destruct H as [->| ->]; lia. }
  assert (R : Forall clock_range (bounds spans)).
  { apply Forall_forall. intros z Hz%In_. unfold clock_range in *. lia. }
  assert (HL : first ≤ List.hd 0 (bounds spans) ∧ List.last (bounds spans) 0 ≤ last ∧ List.hd 0 (bounds spans) ≤ last).
  { destruct spans as [|s spans]; [done|]. destruct (bounds (s :: spans)) as [|z l] eqn:E.
    { exfalso. assert (UnixNano (sp_Timestamp s) ∈ bounds (s :: spans)) as H; [|rewrite E in H; by apply not_elem_of_nil in H].
      apply elem_of_bounds. exists s. split; [apply list_elem_of_here|by left]. }
    assert (Hh := In_ z (list_elem_of_here _ _)). cbn [List.hd]. split_and!; [lia| |lia].
    apply In_. apply list_elem_of_In. rewrite (List.app_removelast_last (l := z :: l) 0) at 2 by done.
    apply List.in_or_app. right. by left. }
  unfold clock_range in *.
  destruct (share_intervals_total (bounds spans) spans (bounds_sorted spans) R (map (λ _, 0) spans) 0) as (X & Y & Z).
  - apply length_map.
  - apply Forall_forall. intros d (s & -> & _)%list_elem_of_fmap. lia.
  - lia.
  - split_and!; [done|done|]. assert (total (map (λ _ : TraceSpan, 0) spans) = 0) as T0; [|lia].
    clear. induction spans as [|s spans IH]; [done|]. cbn. exact IH.
Qed.

(** Comparing with a selection or a baseline that has no traces panics. *)
Lemma comparing_nothing_panics selected g :
  latency_graph true selected None g = Panic ∧ latency_graph true selected g None = Panic.
Proof. by destruct g. Qed.

End TraceTreeTheorems.

Module TraceTreeRuns.
Import TraceTreeFacts TraceTreeTheorems.

Definition span (id parent status : string) (start duration : Z) : TraceSpan :=
  {| sp_Timestamp := start; sp_Name := "GET"; sp_TraceId := "t"; sp_SpanId := id; sp_ParentSpanId := parent;
     sp_ServiceName := id; sp_Duration := duration; sp_StatusCode := status; sp_StatusMessage := "";
     sp_SpanAttributes := ∅; sp_Events := [] |}.

(** [a] calls [b] and [c] at once; [b] fails, and [a] with it. *)
Definition trace : list TraceSpan :=
  [span "a" "" StatusError 0 100; span "b" "a" StatusError 10 40; span "c" "a" "" 30 40].

Definition depth (id : string) : nat := if String.eqb id "" then 0 else if String.eqb id "a" then 1 else 2.
Definition height (id : string) : nat := 2 - depth id.

Lemma failed_spans_spec_witness :
  ∃ errs, failed_spans 3 ["a"; "b"] trace = Some errs ∧ errs !! "a" = None ∧ is_Some (errs !! "b").
Proof.
  destruct (failed_spans_spec trace depth 3 ["a"; "b"]) as (errs & E & S).
  - decide_now.
  - apply Forall_forall. repeat constructor.
  - intros id [s (Hs & He & <-)%errors_lookup]; [|decide_now]. cbn in Hs.
    repeat (apply elem_of_cons in Hs as [->|Hs]; [cbn in He |- *; try done; apply (bool_decide_unpack _); vm_compute; exact I|]).
    by apply not_elem_of_nil in Hs.
  - exists errs. split; [exact E|]. revert E. vm_compute failed_spans. intros [= <-]. split; [done|by eexists].
Defined.

Lemma latency_graph_terminates_witness :
  ∃ graph, getTraceLatencyFlamegraph 4 [trace] = Some graph ∧ (graph = None ↔ [trace] = []).
Proof.
  apply (latency_graph_terminates [trace] height 4).
  - apply Forall_forall. repeat constructor.
  - cbn. lia.
Defined.

Lemma durations_shared_witness :
  let ss := [span "b" "a" "" 10 40; span "c" "a" "" 30 40] in
  durations_of "a" ss = [30; 30] ∧ total (durations_of "a" ss) ≤ 70 - 10.
Proof.
  cbn zeta. split; [vm_compute; reflexivity|].
  refine (proj2 (proj2 (durations_shared "a" [span "b" "a" "" 10 40; span "c" "a" "" 30 40] 10 70 _ _ _ _ _)));
    try done; try (unfold clock_range; lia).
  repeat (apply List.Forall_cons; [unfold end_of; cbn; lia|]). apply List.Forall_nil.
Defined.

(** The own time of a span that calls nothing is left at zero. *)
Example leaf_has_no_self :
  match getTraceLatencyFlamegraph 4 [trace] with
  | Some (Some g) =>
      (FlameGraphFacts.value_at Total ["a: GET "; "b: GET "] g, FlameGraphFacts.value_at Self ["a: GET "; "b: GET "] g) = (30, 0)
  | _ => False
  end.
Proof. vm_compute. reflexivity. Qed.

(** Two spans' requests: the totals are summed, the buckets are not. *)
Definition stats_of (n : Z) : TraceSpanStats :=
  {| ts_Total := F32.of_Z n; ts_Failed := F32.zero; ts_Histogram := [(F32.zero, F32.of_Z n)] |}.
Definition key (name : string) : TraceSpanKey :=
  {| k_Cluster := "c"; k_ServiceName := name; k_SpanName := "GET"; k_LabelsHash := 0 |}.

Example histogram_of_the_last_span :
  let total := snd (merge_stats ∅ {| ts_Total := F32.zero; ts_Failed := F32.zero; ts_Histogram := [] |}
                      [(key "a", stats_of 10); (key "b", stats_of 3)]) in
  ts_Total total = F32.of_Z 13 ∧ ts_Histogram total = [(F32.zero, F32.of_Z 3)].
Proof. vm_compute. done. Qed.

End TraceTreeRuns.
