(* ===== verification/Traces.v ===== *)
(** The queries of the traces page (clickhouse/traces.go, traces_facets.go,
    sort.go; ch/traces_expressions.go; the facets of api/views/overview).

    A query is its text and its named arguments, as the code makes them; what
    ClickHouse answers is a parameter. *)

From Stdlib Require Import ZArith Lia Bool String Ascii.
From S2P Require Import Prelude Float32 TimeSeries GoStrings Utils Json RecordingRules FlameGraph TraceTree.
Import FilepathFacts.

Local Open Scope string_scope.
Local Open Scope Z_scope.

(** * The window of the page *)

Definition ChartStep (step : Z) : Z :=
  let remainder := wrap64 (Z.rem step 60) in
  if bool_decide (remainder = 0) then step else add64 step (sub64 60 remainder).

Definition tracesWindowFineSteps : list Z := [1; 2; 5; 10; 15; 30; 60].
Definition tracesWindowMaxPoints : Z := 60.

Record TracesWindow := { w_From : Z; w_To : Z; w_Step : Z }.

(** The loop over the fine steps: the first that is wide enough, or the last. *)
Fixpoint fine_step (steps : list Z) (duration step : Z) : Z :=
  match steps with
  | [] => step
  | fine :: steps => if duration <=? mul64 fine tracesWindowMaxPoints then fine else fine_step steps duration fine
  end.

Definition window_step (duration viewStep : Z) : Z :=
  let step := ChartStep viewStep in
  if duration <=? Time.Hour then fine_step tracesWindowFineSteps duration step else step.

Definition NewTracesWindow (from to : Z) (live : bool) (viewStep : Z) : outcome TracesWindow :=
  let step := window_step (Time.Sub to from) viewStep in
  let* from := Time.Truncate from step in
  if live then Ret {| w_From := from; w_To := to; w_Step := step |}
  else
    let* aligned := Time.Truncate to step in
    Ret {| w_From := from; w_To := if bool_decide (aligned = to) then to else Time.Add aligned step; w_Step := step |}.

Definition Points (w : TracesWindow) : outcome Z :=
  quot64 (sub64 (add64 (Time.Sub (w_To w) (w_From w)) (w_Step w)) 1) (w_Step w).

Definition ChartContext (w : TracesWindow) : outcome Context :=
  let* points := Points w in
  Ret {| ctx_From := w_From w; ctx_To := Time.Add (w_From w) (mul64 (sub64 points 1) (w_Step w)); ctx_Step := w_Step w;
         ctx_RawStep := 0; ctx_Truncated := false |}.

Definition minuteAligned (w : TracesWindow) : bool :=
  bool_decide (Z.rem (w_Step w) 60 = 0) && bool_decide (Z.rem (w_From w) 60 = 0).

(** * Sorting *)

Record Sort := { so_By : string; so_Dir : string }.

Definition traceSortColumns (by_ : string) : option string :=
  if String.eqb by_ "date" then Some "Timestamp" else if String.eqb by_ "duration" then Some "Duration" else None.
Definition logSortColumns (by_ : string) : option string :=
  if String.eqb by_ "date" then Some "Timestamp" else None.

Definition listOrderBy (s : Sort) (cols : string → option string) : string :=
  match cols (ToLower (TrimSpace (so_By s))) with
  | None => ""
  | Some col =>
      let dir := ToLower (TrimSpace (so_Dir s)) in
      let asc := String.eqb dir "asc" in
      if String.eqb col "Timestamp" && negb asc then ""
      else col ++ " " ++ (if asc then "ASC" else "DESC")
  end.

Definition TraceListOrderBy (s : Sort) : string := listOrderBy s traceSortColumns.
Definition LogListOrderBy (s : Sort) : string := listOrderBy s logSortColumns.

Definition timestampLimitCutoff (orderBy table cond limit : string) : string * string :=
  if String.eqb (TrimSpace limit) "" || String.eqb limit "0" then
    ("", if String.eqb orderBy "" then "Timestamp DESC" else orderBy)
  else if String.eqb orderBy "" || String.eqb orderBy "Timestamp DESC" then
    ("Timestamp >= (SELECT min(Timestamp) FROM (" ++ "SELECT Timestamp FROM " ++ table ++ " WHERE " ++ cond
       ++ " ORDER BY Timestamp DESC LIMIT " ++ limit ++ "))", "Timestamp DESC")
  else if String.eqb orderBy "Timestamp ASC" then
    ("Timestamp <= (SELECT max(Timestamp) FROM (" ++ "SELECT Timestamp FROM " ++ table ++ " WHERE " ++ cond
       ++ " ORDER BY Timestamp ASC LIMIT " ++ limit ++ "))", "Timestamp ASC")
  else ("", orderBy).

Definition logsListSQL (orderBy cond limit : string) : string :=
  let '(extra, order) := timestampLimitCutoff orderBy "otel_logs_distributed" cond limit in
  "SELECT ServiceName, Timestamp, multiIf(SeverityNumber=0, 0, intDiv(SeverityNumber, 4)+1), Body, TraceId, ResourceAttributes, LogAttributes"
    ++ " FROM otel_logs_distributed" ++ " WHERE " ++ cond
    ++ (if String.eqb extra "" then "" else " AND " ++ extra)
    ++ " ORDER BY " ++ order ++ " LIMIT " ++ limit.

(** * Expressions *)

Definition traceHttpStatusCode : string :=
  "toUInt16OrZero(if(SpanAttributes['http.status_code'] != '', SpanAttributes['http.status_code'], SpanAttributes['http.response.status_code']))".

Definition TraceStatusClassExpression : string :=
  "multiIf(" ++ traceHttpStatusCode ++ " BETWEEN 200 AND 599, concat(toString(intDiv(" ++ traceHttpStatusCode ++ ", 100)), 'xx'), "
    ++ "StatusCode = 'STATUS_CODE_ERROR', 'error', " ++ "'other')".

Definition TraceStatusClasses : list string := ["2xx"; "3xx"; "4xx"; "5xx"; "error"; "other"].

Definition traceSourceExpr : string := "if(startsWith(ServiceName, '/'), 'agent', 'otel')".
Definition traceNamespaceExpr : string := "if(position(Server, '/') > 0, splitByChar('/', Server)[1], 'n/a')".

Definition traceDerivedFieldExpr (field : string) (fromMV : bool) : option string :=
  if String.eqb field "Namespace" then Some traceNamespaceExpr
  else if String.eqb field "ApiRoute" then Some field
  else if String.eqb field "Source" then Some traceSourceExpr
  else if String.eqb field "Status" then Some (if fromMV then "StatusClass" else TraceStatusClassExpression)
  else None.

Definition derivedFieldPredicate (base op name : string) : option string :=
  if String.eqb op "=" then Some ("(" ++ base ++ ") = @" ++ name)
  else if String.eqb op "!=" then Some ("NOT ((" ++ base ++ ") = @" ++ name ++ ")")
  else if String.eqb op "~" then Some ("match(" ++ base ++ ", @" ++ name ++ ")")
  else if String.eqb op "!~" then Some ("NOT match(" ++ base ++ ", @" ++ name ++ ")")
  else None.

Definition traceNamespacePredicate (op name value : string) : option string :=
  let prefix :=
    if String.eqb value "n/a" then "position(Server, '/') = 0"
    else "startsWith(Server, concat(@" ++ name ++ ", '/'))" in
  if String.eqb op "=" then Some prefix
  else if String.eqb op "!=" then Some ("NOT " ++ prefix)
  else derivedFieldPredicate traceNamespaceExpr op name.

(** The operators on a column. *)
Definition columnPredicate (field op name : string) : option string :=
  if String.eqb op "=" then Some (field ++ " = @" ++ name)
  else if String.eqb op "!=" then Some (field ++ " != @" ++ name)
  else if String.eqb op "~" then Some ("match(" ++ field ++ ", @" ++ name ++ ")")
  else if String.eqb op "!~" then Some ("NOT match(" ++ field ++ ", @" ++ name ++ ")")
  else None.

(** * Filters *)

Record SpanFilter := { f_Field : string; f_Op : string; f_Value : string }.

Record SpanQuery := {
  q_Ctx : Context;
  q_TsFrom : Z;
  q_TsTo : Z;
  q_DurFrom : Z;
  q_DurTo : Z;
  q_Errors : bool;
  q_Limit : Z;
  q_Filters : list SpanFilter;
  q_ExcludePeerAddrs : list string;
  q_Sort : Sort;
  q_Diff : bool;
  q_WithBodies : bool;
}.

Definition AddFilter (q : SpanQuery) (field op value : string) : SpanQuery :=
  {| q_Ctx := q_Ctx q; q_TsFrom := q_TsFrom q; q_TsTo := q_TsTo q; q_DurFrom := q_DurFrom q; q_DurTo := q_DurTo q;
     q_Errors := q_Errors q; q_Limit := q_Limit q;
     q_Filters := (q_Filters q ++ [{| f_Field := field; f_Op := op; f_Value := value |}])%list;
     q_ExcludePeerAddrs := q_ExcludePeerAddrs q; q_Sort := q_Sort q; q_Diff := q_Diff q; q_WithBodies := q_WithBodies q |}.

(** A named argument. *)
Inductive arg :=
| AString (s : string)
| AStrings (l : list string)
| AInt (z : Z)
| ATime (t : Z).

Definition args := list (string * arg).

(** unicode.IsLetter: the letters of Latin-1, and those beyond, from the
    Unicode tables. *)
Class Unicode := { letter_beyond_latin1 : N → bool }.

Definition IsLetter `{Unicode} (r : N) : bool :=
  if (r <=? 255)%N then
    ((65 <=? r) && (r <=? 90))%N || ((97 <=? r) && (r <=? 122))%N || (r =? 170)%N || (r =? 181)%N || (r =? 186)%N
    || ((192 <=? r) && (r <=? 214))%N || ((216 <=? r) && (r <=? 246))%N || ((248 <=? r) && (r <=? 255))%N
  else letter_beyond_latin1 r.

Definition runes_of (s : string) : list N := runes (String.length s) s.

(** [!strings.ContainsFunc(f.Field, func(r rune) bool { return !unicode.IsLetter(r) })] *)
Definition letters `{Unicode} (s : string) : bool := forallb IsLetter (runes_of s).

Section filter.
Context `{Unicode}.

(** The condition of one filter, with the name of its argument. *)
Definition predicate (f : SpanFilter) (name : string) (fromMV : bool) : option string :=
  if String.eqb (f_Field f) "Namespace" then traceNamespacePredicate (f_Op f) name (f_Value f)
  else match traceDerivedFieldExpr (f_Field f) fromMV with
       | Some base => derivedFieldPredicate base (f_Op f) name
       | None => if letters (f_Field f) then columnPredicate (f_Field f) (f_Op f) name else None
       end.

Definition filter_name (i : nat) : string := "filter_" ++ Itoa (Z.of_nat i).

(** What the loop over the filters keeps of each: its field, its condition, and
    whether it is an alternative. *)
Record condition := { c_field : string; c_expr : string; c_alternative : bool }.

Fixpoint conditions (i : nat) (skipField : string) (fromMV : bool) (fs : list SpanFilter) : list condition * args :=
  match fs with
  | [] => ([], [])
  | f :: fs =>
      let '(cs, vs) := conditions (S i) skipField fromMV fs in
      if negb (String.eqb skipField "") && String.eqb (f_Field f) skipField then (cs, vs)
      else match predicate f (filter_name i) fromMV with
           | None => (cs, vs)
           | Some expr =>
               ({| c_field := f_Field f; c_expr := expr;
                   c_alternative := String.eqb (f_Op f) "=" || String.eqb (f_Op f) "~" |} :: cs,
                (filter_name i, AString (f_Value f)) :: vs)
           end
  end.

(** [fields]: each field once, in the order of its first condition. *)
Fixpoint fields_of (seen : list string) (cs : list condition) : list string :=
  match cs with
  | [] => []
  | c :: cs =>
      if bool_decide (c_field c ∈ seen) then fields_of seen cs
      else c_field c :: fields_of (c_field c :: seen) cs
  end.

Definition of_field (field : string) (alternative : bool) (cs : list condition) : list string :=
  map c_expr (List.filter (λ c, String.eqb (c_field c) field && Bool.eqb (c_alternative c) alternative) cs).

(** A clause of WHERE: a condition, or alternatives. *)
Inductive clause :=
| One (expr : string)
| Any (alternatives : list string).

Definition clause_text (c : clause) : string :=
  match c with
  | One expr => expr
  | Any alternatives => "(" ++ GoStrings.Join alternatives " OR " ++ ")"
  end.

(** The clauses of one field: what it must not be, then what it may be. *)
Definition field_clauses (cs : list condition) (field : string) : list clause :=
  (map One (of_field field false cs) ++
    match of_field field true cs with
    | [] => []
    | [a] => [One a]
    | alternatives => [Any alternatives]
    end)%list.

Definition clauses (cs : list condition) : list clause := flat_map (field_clauses cs) (fields_of [] cs).

Definition filter_ (q : SpanQuery) (skipField : string) (fromMV : bool) : list string * args :=
  let '(cs, vs) := conditions 0 skipField fromMV (q_Filters q) in
  (map clause_text (clauses cs), vs).

Definition Filter (q : SpanQuery) (fromMV : bool) : list string * args := filter_ q "" fromMV.

Definition rootSpanCondition (fromMV : bool) : string := if fromMV then "Root = 1" else "ParentSpanId = ''".

Definition exclude_addrs (q : SpanQuery) (f : list string * args) : list string * args :=
  match q_ExcludePeerAddrs q with
  | [] => f
  | addrs => (f.1 ++ ["NetSockPeerAddr NOT IN (@addrs)"], f.2 ++ [("addrs", AStrings addrs)])%list
  end.

Definition rootSpansFilter (q : SpanQuery) (fromMV : bool) (skipField : string) : list string * args :=
  let '(filter, vs) := filter_ q skipField fromMV in
  exclude_addrs q ((filter ++ [rootSpanCondition fromMV; "Counted = 1"])%list, vs).

Definition RootSpansFilter (q : SpanQuery) (fromMV : bool) : list string * args := rootSpansFilter q fromMV "".

Definition SpansByServiceNameFilter (q : SpanQuery) (fromMV : bool) : list string * args :=
  let '(filter, vs) := Filter q fromMV in
  exclude_addrs q
    ((filter ++ [("(SpanKind = 'SPAN_KIND_SERVER' OR SpanKind = 'SPAN_KIND_CONSUMER' OR (SpanKind = 'SPAN_KIND_INTERNAL' AND "
       ++ rootSpanCondition fromMV ++ "))")%string])%list, vs).

Definition IsSelectionDefined (q : SpanQuery) : bool :=
  (ctx_From (q_Ctx q) <? q_TsFrom q) || (q_TsTo q <? ctx_To (q_Ctx q)) || (0 <? q_DurFrom q) || (0 <? q_DurTo q) || q_Errors q.

Definition SelectionFilter (q : SpanQuery) : string * args :=
  let f := q_DurFrom q in
  let t := q_DurTo q in
  let error := "StatusCode = 'STATUS_CODE_ERROR'" in
  (if (0 <? f) && (0 <? t) && q_Errors q then "(Duration BETWEEN @durFrom AND @durTo OR " ++ error ++ ")"
   else if bool_decide (f = 0) && (0 <? t) && q_Errors q then "(Duration <= @durTo OR " ++ error ++ ")"
   else if (0 <? f) && bool_decide (t = 0) && q_Errors q then "(Duration >= @durFrom OR " ++ error ++ ")"
   else if bool_decide (f = 0) && bool_decide (t = 0) && q_Errors q then error
   else if (0 <? f) && (0 <? t) && negb (q_Errors q) then "Duration BETWEEN @durFrom AND @durTo"
   else if bool_decide (f = 0) && (0 <? t) && negb (q_Errors q) then "Duration <= @durTo"
   else if (0 <? f) && bool_decide (t = 0) && negb (q_Errors q) then "Duration >= @durFrom"
   else "",
   ((if 0 <? f then [("durFrom", AInt f)] else []) ++ (if 0 <? t then [("durTo", AInt t)] else []))%list).

Definition histogram_dimensions : list string :=
  ["ServiceName"; "SpanName"; "SpanKind"; "NetSockPeerAddr"; "Source"; "Status"; "Client"; "Server"; "Namespace"].

Definition filtersOnHistogramDimensions (q : SpanQuery) : bool :=
  forallb (λ f, bool_decide (f_Field f ∈ histogram_dimensions)) (q_Filters q).

(** [createdAt] is when the histogram table was made, zero when it is not known;
    [from] and it are in nanoseconds. *)
Definition useTracesHistogram (createdAt : Z) (q : SpanQuery) (from : Z) : bool :=
  filtersOnHistogramDimensions q && negb (bool_decide (createdAt = 0)) && (createdAt <? from).

(** * Facets *)

Definition maxTraceFacetValues : Z := 1000.

Definition traceFacetSelectSQL (field : string) (fromMV : bool) (where_clause : string) : option string :=
  let tail := " GROUP BY 1 HAVING " ++ field ++ " != '' ORDER BY 2 DESC, 1 LIMIT " ++ Itoa maxTraceFacetValues in
  match traceDerivedFieldExpr field false with
  | Some expr =>
      if fromMV then None
      else Some ("SELECT " ++ expr ++ " AS " ++ field ++ ", count(1) FROM otel_traces_distributed WHERE " ++ where_clause ++ tail)
  | None =>
      if bool_decide (field ∈ ["ServiceName"; "SpanName"; "Client"; "Server"]) then
        Some (if fromMV then "SELECT " ++ field ++ ", sum(Total) FROM otel_traces_histogram_distributed WHERE " ++ where_clause ++ tail
              else "SELECT " ++ field ++ ", count(1) FROM otel_traces_distributed WHERE " ++ where_clause ++ tail)
      else None
  end.

Definition buildTraceFacetQuery (q : SpanQuery) (field : string) (fromMV : bool) : option (string * args) :=
  let '(filter, vs) := rootSpansFilter q fromMV field in
  let filter := (filter ++ ["Timestamp >= @tsFrom AND Timestamp < @tsTo"])%list in
  let '(durFilter, durArgs) := SelectionFilter q in
  let '(filter, vs) :=
    if negb fromMV && negb (String.eqb durFilter "") then (filter ++ [durFilter], vs ++ durArgs)%list else (filter, vs) in
  match traceFacetSelectSQL field fromMV (GoStrings.Join filter " AND ") with
  | Some text => Some (text, (vs ++ [("tsFrom", ATime (q_TsFrom q)); ("tsTo", ATime (q_TsTo q))])%list)
  | None => None
  end.
End filter.

(** * Reading spans *)

Definition spanColumns (withBodies : bool) : string :=
  "Timestamp, TraceId, SpanId, ParentSpanId, SpanName, ServiceName, Client, Server, Duration, StatusCode, StatusMessage, ResourceAttributes, SpanAttributes, Events.Timestamp, Events.Name, Events.Attributes"
    ++ (if withBodies then ", RequestBodyHash, ResponseBodyHash, SpanKind, RequestKey" else "").

(** The query of [querySpans]. *)
Definition spans_sql (q : SpanQuery) (orderBy : string) (filters : list string) (filterArgs : args) : string * args :=
  let '(filters, filterArgs) :=
    if negb (Time.IsZero (q_TsFrom q)) && negb (Time.IsZero (q_TsTo q)) then
      (filters ++ ["Timestamp >= @tsFrom AND Timestamp < @tsTo"],
       filterArgs ++ [("tsFrom", ATime (q_TsFrom q)); ("tsTo", ATime (q_TsTo q))])%list
    else (filters, filterArgs) in
  let '(durFilter, durArgs) := SelectionFilter q in
  let '(filters, filterArgs) :=
    if String.eqb durFilter "" then (filters, filterArgs) else (filters ++ [durFilter], filterArgs ++ durArgs)%list in
  let cond := GoStrings.Join filters " AND " in
  let limit := if 0 <? q_Limit q then Itoa (q_Limit q) else "" in
  let '(extra, order) := timestampLimitCutoff orderBy "otel_traces_distributed" cond limit in
  ("SELECT " ++ spanColumns (q_WithBodies q) ++ " FROM otel_traces_distributed" ++ " WHERE " ++ cond
     ++ (if String.eqb extra "" then "" else " AND " ++ extra)
     ++ (if String.eqb order "" then "" else " ORDER BY " ++ order)
     ++ (if String.eqb limit "" then "" else " LIMIT " ++ limit), filterArgs).

Definition spanSliceWindows : list Z := [Time.Hour; mul64 2 Time.Hour; mul64 4 Time.Hour].

Definition with_range (q : SpanQuery) (from to limit : Z) : SpanQuery :=
  {| q_Ctx := q_Ctx q; q_TsFrom := from; q_TsTo := to; q_DurFrom := q_DurFrom q; q_DurTo := q_DurTo q;
     q_Errors := q_Errors q; q_Limit := limit; q_Filters := q_Filters q;
     q_ExcludePeerAddrs := q_ExcludePeerAddrs q; q_Sort := q_Sort q; q_Diff := q_Diff q; q_WithBodies := q_WithBodies q |}.

Section getSpans.
(** [querySpans] of some filters: the spans of a query in an order, or an error. *)
Context {Span : Type} (querySpans : SpanQuery → string → string + list Span).

(** The slices of the time range, the newest first. *)
Fixpoint span_slices (windows : list Z) (q : SpanQuery) (to : Z) (res : list Span) : string + list Span :=
  let last :=
    match querySpans (with_range q (q_TsFrom q) to (q_Limit q - Z.of_nat (length res))) "" with
    | inl err => inl err
    | inr spans => inr (res ++ spans)%list
    end in
  match windows with
  | [] => last
  | d :: windows =>
      let from := Time.Add to (sub64 0 d) in
      if from <=? q_TsFrom q then last
      else match querySpans (with_range q from to (q_Limit q - Z.of_nat (length res))) "" with
           | inl err => inl err
           | inr spans =>
               let res := (res ++ spans)%list in
               if q_Limit q <=? Z.of_nat (length res) then inr res
               else span_slices windows q from res
           end
  end.

Definition getSpans (q : SpanQuery) (orderBy : string) : string + list Span :=
  if negb (String.eqb orderBy "") || (q_Limit q <=? 0) || Time.IsZero (q_TsFrom q) || Time.IsZero (q_TsTo q)
  then querySpans q orderBy
  else span_slices spanSliceWindows q (q_TsTo q) [].
End getSpans.

(** Whether [GetRootSpansCounts] and [GetTraceSpanStats] read the histogram
    table. *)
Definition counts_fromMV (createdAt : Z) (q : SpanQuery) (window : TracesWindow) : bool :=
  minuteAligned window && useTracesHistogram createdAt q (w_From window * 1000000000).

Definition stats_fromMV (createdAt : Z) (q : SpanQuery) : bool :=
  bool_decide (q_DurFrom q = 0) && bool_decide (q_DurTo q = 0) && negb (q_Errors q)
  && useTracesHistogram createdAt q (q_TsFrom q * 1000000000).

(** * The bodies of HTTP requests *)

(** The fields loaded with the bodies. *)
Record BodySpan := {
  b_span : TraceSpan;
  b_SpanKind : string;
  b_RequestKey : N;
  b_RequestBodyHash : N;
  b_ResponseBodyHash : N;
  b_RequestBody : string;
  b_ResponseBody : string;
}.

Definition set_hashes (req resp : N) (s : BodySpan) : BodySpan :=
  {| b_span := b_span s; b_SpanKind := b_SpanKind s; b_RequestKey := b_RequestKey s; b_RequestBodyHash := req;
     b_ResponseBodyHash := resp; b_RequestBody := b_RequestBody s; b_ResponseBody := b_ResponseBody s |}.

Definition set_bodies (req resp : string) (s : BodySpan) : BodySpan :=
  {| b_span := b_span s; b_SpanKind := b_SpanKind s; b_RequestKey := b_RequestKey s; b_RequestBodyHash := b_RequestBodyHash s;
     b_ResponseBodyHash := b_ResponseBodyHash s; b_RequestBody := req; b_ResponseBody := resp |}.

(** Five seconds, in nanoseconds. *)
Definition clientSpanWindow : Z := 5 * 1000000000.

Record clientSpan := {
  cs_key : N;
  cs_timestamp : Z;
  cs_method : string;
  cs_target : string;
  cs_requestBodyHash : N;
  cs_responseBodyHash : N;
}.

Definition skipped_bodies (s : BodySpan) : bool :=
  String.eqb (b_SpanKind s) "SPAN_KIND_SERVER" && negb (b_RequestKey s =? 0)%N
  && (b_RequestBodyHash s =? 0)%N && (b_ResponseBodyHash s =? 0)%N.

Definition distance (server : BodySpan) (c : clientSpan) : Z := Z.abs (cs_timestamp c - sp_Timestamp (b_span server)).

(** The client spans of the server's key that are of its request. *)
Definition same_request (server : BodySpan) (c : clientSpan) : bool :=
  (cs_key c =? b_RequestKey server)%N
  && String.eqb (cs_method c) (attr (b_span server) "http.method")
  && String.eqb (cs_target c) (attr (b_span server) "http.target")
  && (distance server c <=? clientSpanWindow).

(** The loop over the clients: the first of the nearest. *)
Fixpoint nearest (server : BodySpan) (best : option clientSpan) (clients : list clientSpan) : option clientSpan :=
  match clients with
  | [] => best
  | c :: clients =>
      nearest server
        (if same_request server c then
           match best with
           | Some b => if distance server c <? distance server b then Some c else best
           | None => Some c
           end
         else best) clients
  end.

Definition borrow (clients : list clientSpan) (s : BodySpan) : BodySpan :=
  if skipped_bodies s then
    match nearest s None clients with
    | Some c => set_hashes (cs_requestBodyHash c) (cs_responseBodyHash c) s
    | None => s
    end
  else s.

(** The client spans that ClickHouse gives for request keys and a time range. *)
Definition borrow_range (servers : list BodySpan) : Z * Z :=
  let ts := map (λ s, sp_Timestamp (b_span s)) servers in
  (foldr Z.min (hd 0 ts) ts - clientSpanWindow, foldr Z.max (hd 0 ts) ts + clientSpanWindow).

Definition borrowClientBodies (client_spans : list N → Z * Z → string + list clientSpan) (spans : list BodySpan)
    : string + list BodySpan :=
  match List.filter skipped_bodies spans with
  | [] => inr spans
  | servers =>
      match client_spans (map b_RequestKey servers) (borrow_range servers) with
      | inl err => inl err
      | inr clients => inr (map (borrow clients) spans)
      end
  end.

Definition body_hashes (spans : list BodySpan) : list N :=
  List.filter (λ h, negb (h =? 0)%N) (flat_map (λ s, [b_RequestBodyHash s; b_ResponseBodyHash s]) spans).

Definition loadBodies (load : list N → string + gmap N string) (spans : list BodySpan) : string + list BodySpan :=
  match body_hashes spans with
  | [] => inr spans
  | hashes =>
      match load hashes with
      | inl err => inl err
      | inr bodies =>
          inr (map (λ s, set_bodies (default "" (bodies !! b_RequestBodyHash s)) (default "" (bodies !! b_ResponseBodyHash s)) s) spans)
      end
  end.

(** * The facets of several ClickHouses *)

Definition wrap_u64 (z : Z) : Z := z mod 2 ^ 64.

Record FacetValue := { fv_Value : string; fv_Count : Z }.
Record FacetGroup := { fg_Key : string; fg_Values : list FacetValue }.

Definition mergeFacetValues (dst : gmap string Z) (values : list FacetValue) : gmap string Z :=
  foldl (λ dst v, if String.eqb (fv_Value v) "" then dst
                  else <[fv_Value v := wrap_u64 (default 0 (dst !! fv_Value v) + fv_Count v)]> dst) dst values.

Definition facet_values (counts : gmap string Z) : list FacetValue :=
  map (λ '(v, n), {| fv_Value := v; fv_Count := n |}) (map_to_list counts).

(** More counted first, then by value. *)
Definition facet_le (a b : FacetValue) : Prop :=
  fv_Count b < fv_Count a ∨ (fv_Count a = fv_Count b ∧ String.le (fv_Value a) (fv_Value b)).
#[export] Instance facet_le_dec : RelDecision facet_le.
Proof. intros a b. unfold facet_le. apply _. Defined.

Definition sort_facets (values : list FacetValue) : list FacetValue := merge_sort facet_le values.

(** [by], of which the later value of a name wins. *)
Definition counts_by (values : list FacetValue) : gmap string Z :=
  foldl (λ m v, <[fv_Value v := fv_Count v]> m) ∅ values.

Definition completeNamespaceFacets (values : list FacetValue) : list FacetValue :=
  let by_ := counts_by values in
  (sort_facets (facet_values (delete "n/a" by_)) ++ [{| fv_Value := "n/a"; fv_Count := default 0 (by_ !! "n/a") |}])%list.

(** [slices.Index] *)
Fixpoint index_of (x : string) (l : list string) (i : Z) : Z :=
  match l with
  | [] => -1
  | y :: l => if String.eqb y x then i else index_of x l (i + 1)
  end.

Definition status_le (a b : FacetValue) : Prop :=
  index_of (fv_Value a) TraceStatusClasses 0 ≤ index_of (fv_Value b) TraceStatusClasses 0.
#[export] Instance status_le_dec : RelDecision status_le.
Proof. intros a b. unfold status_le. apply _. Defined.

Definition facet_order : list string := ["Source"; "Status"; "Namespace"; "Server"; "Client"; "ApiRoute"; "SpanName"].

Definition trace_facet_group (key : string) (counts : gmap string Z) : FacetGroup :=
  let values := facet_values counts in
  {| fg_Key := key;
     fg_Values := if String.eqb key "Namespace" then completeNamespaceFacets values
                  else if String.eqb key "Status" then merge_sort status_le values
                  else sort_facets values |}.

Definition traceFacetGroupsFromMerged (merged : gmap string (gmap string Z)) : list FacetGroup :=
  omap (λ key, trace_facet_group key <$> merged !! key) facet_order.

Module TracesFacts.
Local Open Scope list_scope.

(** * Filters *)

Definition clause_holds (truth : string → bool) (c : clause) : bool :=
  match c with
  | One expr => truth expr
  | Any alternatives => existsb truth alternatives
  end.

(** What a row must satisfy: no condition it must not have, and of the
    alternatives of a field one. *)
Definition satisfies (truth : string → bool) (cs : list condition) : Prop :=
  ∀ c, c ∈ cs →
    if c_alternative c then ∃ c', c' ∈ cs ∧ c_alternative c' = true ∧ c_field c' = c_field c ∧ truth (c_expr c') = true
    else truth (c_expr c) = true.

Lemma elem_of_of_field field alt cs e :
  e ∈ of_field field alt cs ↔ (∃ c, c ∈ cs ∧ c_field c = field ∧ c_alternative c = alt ∧ c_expr c = e).
Proof.
  unfold of_field. rewrite list_elem_of_In, in_map_iff. setoid_rewrite List.filter_In. setoid_rewrite andb_true_iff.
  setoid_rewrite String.eqb_eq. setoid_rewrite eqb_true_iff. setoid_rewrite list_elem_of_In. naive_solver.
Qed.

Lemma elem_of_fields cs seen field :
  field ∈ fields_of seen cs ↔ ((field ∉ seen) ∧ (∃ c, c ∈ cs ∧ c_field c = field)).
Proof.
  revert seen. induction cs as [|c cs IH]; intros seen; cbn.
  - split; [by intros ?%not_elem_of_nil|]. by intros [_ (c & ?%not_elem_of_nil & _)].
  - case_bool_decide as Hs.
    + rewrite IH. setoid_rewrite elem_of_cons. naive_solver.
    + rewrite elem_of_cons, IH. setoid_rewrite elem_of_cons. destruct (decide (field = c_field c)); naive_solver.
Qed.

Lemma field_clauses_hold truth cs field :
  forallb (clause_holds truth) (field_clauses cs field) = true ↔
    (∀ e, e ∈ of_field field false cs → truth e = true) ∧
    (of_field field true cs = [] ∨ ∃ e, e ∈ of_field field true cs ∧ truth e = true).
Proof.
  unfold field_clauses. rewrite forallb_app, andb_true_iff.
  assert (A : forallb (clause_holds truth) (map One (of_field field false cs)) = true ↔
    (∀ e, e ∈ of_field field false cs → truth e = true)).
  { rewrite forallb_forall. setoid_rewrite in_map_iff. setoid_rewrite list_elem_of_In. naive_solver. }
  rewrite A. apply Morphisms_Prop.and_iff_morphism; [done|].
  destruct (of_field field true cs) as [|a [|b l]]; cbn.
  - naive_solver.
  - rewrite andb_true_r. setoid_rewrite list_elem_of_singleton. naive_solver.
  - rewrite andb_true_r. change (truth a || (truth b || existsb truth l)) with (existsb truth (a :: b :: l)).
    rewrite existsb_exists. setoid_rewrite list_elem_of_In. naive_solver.
Qed.

Lemma clauses_hold truth cs : forallb (clause_holds truth) (clauses cs) = true ↔ satisfies truth cs.
Proof.
  unfold clauses.
  assert (E : forallb (clause_holds truth) (flat_map (field_clauses cs) (fields_of [] cs)) = true ↔
    (∀ field, field ∈ fields_of [] cs → forallb (clause_holds truth) (field_clauses cs field) = true)).
  { induction (fields_of [] cs) as [|f fs IH]; cbn; [split; [by intros _ ? ?%not_elem_of_nil|done]|].
    rewrite forallb_app, andb_true_iff, IH. setoid_rewrite elem_of_cons. naive_solver. }
  rewrite E. setoid_rewrite field_clauses_hold. setoid_rewrite elem_of_fields. setoid_rewrite elem_of_of_field. split.
  - intros H c Hc. destruct (H (c_field c)) as [N A]; [split; [apply not_elem_of_nil|by exists c]|].
    destruct (c_alternative c) eqn:Ec; [|by apply N; exists c].
    destruct A as [A|(e & (c' & Hc' & Hf & Ha & <-) & T)]; [|by exists c'].
    assert (c_expr c ∈ of_field (c_field c) true cs) as I by (apply elem_of_of_field; by exists c).
    rewrite A in I. by apply not_elem_of_nil in I.
  - intros S field [_ (c0 & Hc0 & <-)]. split.
    + intros e (c & Hc & Hf & Ha & <-). specialize (S c Hc). by rewrite Ha in S.
    + destruct (of_field (c_field c0) true cs) as [|e l] eqn:Eo; [by left|right].
      assert (e ∈ of_field (c_field c0) true cs) as (c & Hc & Hf & Ha & Hx)%elem_of_of_field by (rewrite Eo; apply list_elem_of_here).
      specialize (S c Hc). rewrite Ha in S. destruct S as (c' & Hc' & Ha' & Hf' & T).
      exists (c_expr c'). split; [|done]. exists c'. split_and!; congruence || done.
Qed.

(** Two filters that differ at most in the value they compare with. *)
Definition same_shape (f g : SpanFilter) : Prop :=
  f_Field f = f_Field g ∧ f_Op f = f_Op g ∧
  (f_Field f = "Namespace" → (f_Value f = "n/a" ↔ f_Value g = "n/a")).

Section filter.
Context `{Unicode}.

Lemma predicate_shape f g name fromMV : same_shape f g → predicate f name fromMV = predicate g name fromMV.
Proof.
  intros (E1 & E2 & E3). unfold predicate. rewrite <- E1, <- E2.
  destruct (String.eqb_spec (f_Field f) "Namespace") as [E|]; [|done].
  unfold traceNamespacePredicate. specialize (E3 E).
  assert (String.eqb (f_Value f) "n/a" = String.eqb (f_Value g) "n/a") as ->; [|done].
  destruct (String.eqb_spec (f_Value f) "n/a"), (String.eqb_spec (f_Value g) "n/a"); tauto.
Qed.

Lemma conditions_shape i skip fromMV fs gs :
  Forall2 same_shape fs gs →
  (conditions i skip fromMV fs).1 = (conditions i skip fromMV gs).1 ∧
  (conditions i skip fromMV fs).2.*1 = (conditions i skip fromMV gs).2.*1.
Proof.
  intros F. revert i. induction F as [|f g fs gs S F IH]; intros i; [done|]. cbn.
  rewrite (predicate_shape f g _ fromMV S). destruct S as (E1 & E2 & _). rewrite <- E1, <- E2.
  specialize (IH (Datatypes.S i)).
  destruct (conditions (Datatypes.S i) skip fromMV fs) as [cs vs], (conditions (Datatypes.S i) skip fromMV gs) as [cs' vs'].
  cbn in IH. destruct IH as [-> EV]. destruct (_ && _); [done|]. destruct (predicate _ _ _); [|done]. cbn. by rewrite EV.
Qed.

(** The arguments are the values of filters, under their numbers. *)
Lemma conditions_args i skip fromMV fs name v :
  (name, v) ∈ (conditions i skip fromMV fs).2 →
  ∃ j f, fs !! j = Some f ∧ name = filter_name (i + j) ∧ v = AString (f_Value f).
Proof.
  revert i. induction fs as [|f fs IH]; intros i; cbn; [by intros ?%not_elem_of_nil|].
  specialize (IH (Datatypes.S i)). destruct (conditions (Datatypes.S i) skip fromMV fs) as [cs vs].
  assert (Rest : (name, v) ∈ vs → ∃ j g, (f :: fs) !! j = Some g ∧ name = filter_name (i + j) ∧ v = AString (f_Value g)).
  { intros (j & g & E & -> & ->)%IH. exists (Datatypes.S j), g. split_and!; [done| |done]. f_equal. lia. }
  destruct (_ && _); [done|]. destruct (predicate _ _ _); [|done]. cbn. intros [E|I]%elem_of_cons; [|by apply Rest].
  injection E as -> ->. exists 0%nat, f. split_and!; [done| |done]. f_equal. lia.
Qed.

Lemma filter_name_inj i j : filter_name i = filter_name j → i = j.
Proof.
  unfold filter_name, Itoa. intros E. assert (pretty (Z.of_nat i) = pretty (Z.of_nat j)) as P.
  { cbn in E. rewrite !append_cons in E. by injection E. }
  apply (inj pretty) in P. lia.
Qed.

Lemma conditions_names_distinct i skip fromMV fs : NoDup (conditions i skip fromMV fs).2.*1.
Proof.
  revert i. induction fs as [|f fs IH]; intros i; [constructor|]. cbn.
  pose proof (conditions_args (Datatypes.S i) skip fromMV fs) as A. specialize (IH (Datatypes.S i)).
  destruct (conditions (Datatypes.S i) skip fromMV fs) as [cs vs]. cbn in A, IH.
  destruct (_ && _); [done|]. destruct (predicate _ _ _); [|done]. cbn. constructor; [|done].
  intros ([name v] & E & I)%list_elem_of_fmap. cbn in E. subst name.
  apply A in I as (j & g & _ & E & _). apply filter_name_inj in E. lia.
Qed.
End filter.

(** * Slices *)

Section slices.
Context {Span : Type} (time : Span → Z).

(** A table of spans, the newest first. *)
Definition newest_first (table : list Span) : Prop := StronglySorted (λ a b, time b ≤ time a) table.

Definition in_range (from to : Z) (s : Span) : bool :=
  (from * 1000000000 <=? time s) && (time s <? to * 1000000000).

(** The newest spans of the range, at most the limit of them. *)
Definition newest (table : list Span) (q : SpanQuery) : list Span :=
  take (Z.to_nat (q_Limit q)) (List.filter (in_range (q_TsFrom q) (q_TsTo q)) table).

Lemma filter_none_range from to table :
  (∀ s, s ∈ table → in_range from to s = false) → List.filter (in_range from to) table = [].
Proof.
  induction table as [|s table IH]; intros N; [done|]. cbn. rewrite N by apply list_elem_of_here.
  apply IH. intros t Ht. apply N. by apply list_elem_of_further.
Qed.

Lemma filter_split from mid to table :
  newest_first table → from ≤ mid ≤ to →
  List.filter (in_range from to) table = List.filter (in_range mid to) table ++ List.filter (in_range from mid) table.
Proof.
  intros S H. induction S as [|s table S IH F]; [done|]. cbn.
  destruct (decide (time s < mid * 1000000000)) as [L|G].
  - assert (N : List.filter (in_range mid to) table = []).
    { apply filter_none_range. intros t Ht. rewrite Forall_forall in F. specialize (F t Ht). unfold in_range.
      apply andb_false_iff. left. apply Z.leb_gt. lia. }
    rewrite N in IH |- *. assert (in_range mid to s = false) as -> by (unfold in_range; apply andb_false_iff; left; apply Z.leb_gt; lia).
    assert (in_range from mid s = in_range from to s) as ->.
    { unfold in_range. f_equal. rewrite (proj2 (Z.ltb_lt _ _)) by lia. symmetry. apply Z.ltb_lt. lia. }
    cbn. cbn in IH. by rewrite IH.
  - assert (in_range from mid s = false) as -> by (unfold in_range; apply andb_false_iff; right; apply Z.ltb_ge; lia).
    assert (in_range mid to s = in_range from to s) as ->.
    { unfold in_range. f_equal. rewrite (proj2 (Z.leb_le _ _)) by lia. symmetry. apply Z.leb_le. lia. }
    rewrite IH. by destruct (in_range from to s).
Qed.

(** What [with_range] asks of the newest spans. *)
Lemma newest_with_range table q from to limit :
  newest table (with_range q from to limit) = take (Z.to_nat limit) (List.filter (in_range from to) table).
Proof. done. Qed.

Lemma take_app_lt {A} n (l k : list A) : (length l ≤ n)%nat → take n (l ++ k) = l ++ take (n - length l) k.
Proof. intros H. rewrite take_app. by rewrite take_ge. Qed.

Lemma span_slices_spec table windows q to res :
  newest_first table → Forall (λ d, 0 < d ≤ 2 ^ 40) windows →
  0 ≤ q_TsFrom q ≤ to → to ≤ q_TsTo q < 2 ^ 61 →
  res = List.filter (in_range to (q_TsTo q)) table → Z.of_nat (length res) < q_Limit q →
  span_slices (λ q _, inr (newest table q)) windows q to res = inr (newest table q).
Proof.
  intros Sorted. revert to res. induction windows as [|d windows IH]; intros to res W L U E Len.
  - cbn [span_slices]. rewrite newest_with_range. f_equal. unfold newest.
    rewrite (filter_split (q_TsFrom q) to (q_TsTo q)), <- E by (done || lia). rewrite take_app_lt by lia. do 2 f_equal. lia.
  - assert (Last : inr (res ++ newest table (with_range q (q_TsFrom q) to (q_Limit q - Z.of_nat (length res))))
      = (inr (newest table q) : string + list Span)).
    { rewrite newest_with_range. f_equal. unfold newest.
      rewrite (filter_split (q_TsFrom q) to (q_TsTo q)), <- E by (done || lia). rewrite take_app_lt by lia. do 2 f_equal. lia. }
    apply Forall_cons in W as [Hd W']. cbn [span_slices]. unfold Time.Add.
    rewrite (sub64_id 0 d) by i64. rewrite add64_id by i64. replace (to + (0 - d)) with (to - d) by lia.
    destruct (to - d <=? q_TsFrom q) eqn:Ef; [exact Last|]. apply Z.leb_gt in Ef.
    rewrite newest_with_range. set (more := List.filter (in_range (to - d) to) table).
    assert (Both : List.filter (in_range (to - d) (q_TsTo q)) table = res ++ more)
      by (rewrite E; apply filter_split; [done|lia]).
    assert (Taken : res ++ take (Z.to_nat (q_Limit q - Z.of_nat (length res))) more = take (Z.to_nat (q_Limit q)) (res ++ more))
      by (rewrite take_app_lt by lia; do 2 f_equal; lia).
    rewrite Taken. destruct (q_Limit q <=? Z.of_nat (length (take (Z.to_nat (q_Limit q)) (res ++ more)))) eqn:El.
    + apply Z.leb_le in El. f_equal. unfold newest.
      rewrite (filter_split (q_TsFrom q) (to - d) (q_TsTo q)), Both by (done || lia).
      rewrite length_take in El. rewrite (take_app_le (res ++ more)) by lia. done.
    + apply Z.leb_gt in El. rewrite length_take in El.
      rewrite take_ge in * by lia. apply IH; [done|lia|lia|by rewrite Both|lia].
Qed.
End slices.

(** * Borrowed bodies *)

Lemma nearest_spec server clients best :
  match nearest server best clients with
  | None => best = None ∧ ∀ c, c ∈ clients → same_request server c = false
  | Some c =>
      (best = Some c ∨ c ∈ clients ∧ same_request server c = true) ∧
      (∀ c', c' ∈ clients → same_request server c' = true → distance server c ≤ distance server c') ∧
      (∀ b, best = Some b → distance server c ≤ distance server b)
  end.
Proof.
  revert best. induction clients as [|d clients IH]; intros best; cbn.
  { destruct best as [b|]; [|split; [done|]; by intros c ?%not_elem_of_nil].
    split_and!; [by left|by intros c' ?%not_elem_of_nil|]. intros b' [= ->]. lia. }
  specialize (IH (if same_request server d
    then match best with Some b => if distance server d <? distance server b then Some d else best | None => Some d end
    else best)).
  assert (Cons : ∀ c, (∀ c', c' ∈ clients → same_request server c' = true → distance server c ≤ distance server c') →
    (same_request server d = true → distance server c ≤ distance server d) →
    ∀ c', c' ∈ d :: clients → same_request server c' = true → distance server c ≤ distance server c').
  { intros c N D c' Hc' Sc'. apply elem_of_cons in Hc' as [->|Hc']; auto. }
  destruct (nearest _ _ clients) as [c|]; revert IH.
  - intros (O & N & B). assert (Later : c ∈ clients ∧ same_request server c = true → c ∈ d :: clients ∧ same_request server c = true).
    { intros [? ?]. split; [by apply list_elem_of_further|done]. }
    destruct (same_request server d) eqn:Sd; [destruct best as [b|]; [destruct (distance server d <? distance server b) eqn:L|]|].
    + apply Z.ltb_lt in L. pose proof (B d eq_refl). split_and!.
      * right. destruct O as [[= <-]|O]; [split; [apply list_elem_of_here|done]|auto].
      * by apply Cons.
      * intros b' [= <-]. lia.
    + apply Z.ltb_ge in L. pose proof (B b eq_refl). split_and!.
      * destruct O as [O|O]; auto.
      * apply Cons; [done|]. intros _. lia.
      * done.
    + pose proof (B d eq_refl). split_and!; [|by apply Cons|done].
      right. destruct O as [[= <-]|O]; [split; [apply list_elem_of_here|done]|auto].
    + split_and!; [|by apply Cons|done]. destruct O as [O|O]; auto.
  - destruct (same_request server d) eqn:Sd; intros [E N].
    { destruct best as [b|]; [|done]. by destruct (distance server d <? distance server b). }
    split; [done|]. intros c [->|Hc]%elem_of_cons; auto.
Qed.
End TracesFacts.

Module TracesTheorems.
Import TracesFacts.
Local Open Scope list_scope.

Lemma ChartStep_spec step : 0 < step ≤ 2 ^ 40 → 0 < ChartStep step < 2 ^ 41 ∧ ChartStep step mod 60 = 0.
Proof.
  intros H. unfold ChartStep. rewrite wrap64_id by (rewrite Z.rem_mod_nonneg by lia; pose proof (Z.mod_pos_bound step 60); i64).
  rewrite Z.rem_mod_nonneg by lia. pose proof (Z.mod_pos_bound step 60 ltac:(lia)). case_bool_decide as E; [lia|].
  rewrite sub64_id by i64. rewrite add64_id by i64. split; [lia|].
  replace (step + (60 - step mod 60)) with (60 + (step - step mod 60)) by lia.
  rewrite Zplus_mod, Z_mod_same_full, Z.add_0_l, Zmod_mod, Zminus_mod_idemp_r, Z.sub_diag. done.
Qed.

(** The step of a window: positive, wide enough for a short view, whole minutes
    for a long one. *)
Lemma window_step_spec duration viewStep :
  0 ≤ duration → 0 < viewStep ≤ 2 ^ 40 →
  0 < window_step duration viewStep < 2 ^ 41 ∧
  (duration ≤ 3600 → duration ≤ 60 * window_step duration viewStep ∧ window_step duration viewStep ≤ 60) ∧
  (3600 < duration → window_step duration viewStep mod 60 = 0).
Proof.
  intros D V. unfold window_step. change Time.Hour with 3600. destruct (ChartStep_spec viewStep V).
  destruct (duration <=? 3600) eqn:E; [apply Z.leb_le in E|apply Z.leb_gt in E]; [|split_and!; lia].
  unfold fine_step, tracesWindowFineSteps, tracesWindowMaxPoints.
  repeat match goal with |- context [duration <=? mul64 ?a ?b] => change (mul64 a b) with (a * b); destruct (Z.leb_spec duration (a * b)) end;
  split_and!; lia.
Qed.

Lemma truncate_spec t d : 0 ≤ t < 2 ^ 61 → 0 < d < 2 ^ 41 → Time.Truncate t d = Ret (d * (t / d)) ∧ d * (t / d) ≤ t < d * (t / d) + d.
Proof.
  intros T D. rewrite Truncate_floor by i64. split; [done|]. pose proof (Z.mul_div_le t d ltac:(lia)). pose proof (Z.mul_succ_div_gt t d ltac:(lia)). lia.
Qed.

(** The window of the traces page covers the view it is asked for: it starts at
    the start of the bucket of the view's start; it ends at the view's end when
    live, else at the end of a whole bucket, less than a bucket later; its points
    are the buckets it has, at most 62 for a view of up to an hour; and the window
    of a longer view is made of whole minutes, as the histogram table is. *)
Theorem NewTracesWindow_covers from to live viewStep :
  0 ≤ from ≤ to → to < 2 ^ 60 → 0 < viewStep ≤ 2 ^ 40 →
  ∃ w points c, NewTracesWindow from to live viewStep = Ret w ∧ Points w = Ret points ∧ ChartContext w = Ret c ∧
    0 < w_Step w ∧ (w_From w) mod (w_Step w) = 0 ∧ w_From w ≤ from < w_From w + w_Step w ∧
    to ≤ w_To w < to + w_Step w ∧ (live = true → w_To w = to) ∧ (live = false → (w_To w - w_From w) mod (w_Step w) = 0) ∧
    (points - 1) * w_Step w < w_To w - w_From w ≤ points * w_Step w ∧
    ctx_From c = w_From w ∧ ctx_Step c = w_Step w ∧ ctx_To c = w_From w + (points - 1) * w_Step w ∧
    (to - from ≤ 3600 → points ≤ 62) ∧ (3600 < to - from → minuteAligned w = true).
Proof.
  intros F T V. unfold NewTracesWindow. unfold Time.Sub. rewrite sub64_id by i64.
  destruct (window_step_spec (to - from) viewStep ltac:(lia) V) as (P & Short & Long).
  set (s := window_step (to - from) viewStep) in *.
  destruct (truncate_spec from s ltac:(lia) P) as [-> Bf]. cbn [obind].
  assert (E : ∃ t, (if live then Ret {| w_From := s * (from / s); w_To := to; w_Step := s |}
      else obind (Time.Truncate to s) (λ aligned, Ret {| w_From := s * (from / s);
        w_To := if bool_decide (aligned = to) then to else Time.Add aligned s; w_Step := s |}))
    = Ret {| w_From := s * (from / s); w_To := t; w_Step := s |} ∧ to ≤ t < to + s ∧
      (live = true → t = to) ∧ (live = false → ∃ k, t = s * k)).
  { destruct live; [exists to; split_and!; (done || lia)|].
    destruct (truncate_spec to s ltac:(lia) P) as [-> Bt]. cbn [obind]. eexists. split; [done|].
    case_bool_decide as E.
    - split_and!; [lia|lia|done|]. intros _. by exists (to / s).
    - unfold Time.Add. rewrite add64_id by i64. split_and!; [lia|lia|done|]. intros _. exists (to / s + 1). lia. }
  destruct E as (t & -> & Bt & Live & Past). set (f := s * (from / s)) in *.
  assert (Fpos : 0 ≤ f) by (subst f; apply Z.mul_nonneg_nonneg; [lia|apply Z.div_pos; lia]).
  set (points := (t - f + s - 1) / s).
  assert (Bp : s * points ≤ t - f + s - 1 < s * points + s).
  { pose proof (Z.mul_div_le (t - f + s - 1) s ltac:(lia)). pose proof (Z.mul_succ_div_gt (t - f + s - 1) s ltac:(lia)). subst points. lia. }
  assert (Pp : 0 ≤ points) by (apply Z.div_pos; lia).
  assert (Pb : points < 2 ^ 61) by (apply Z.div_lt_upper_bound; nia).
  set (w := {| w_From := f; w_To := t; w_Step := s |}).
  assert (Ep : Points w = Ret points).
  { unfold Points, w, Time.Sub. cbn. rewrite (sub64_id t f) by i64. rewrite (add64_id (t - f) s) by i64. rewrite sub64_id by i64.
    rewrite quot64_id; rewrite ?Z.quot_div_nonneg by lia; [done|lia|fold points; i64]. }
  exists w, points. eexists. split; [done|]. split; [done|]. unfold ChartContext. rewrite Ep. cbn [obind]. split; [done|]. cbn.
  assert (Em : mul64 (sub64 points 1) s = (points - 1) * s).
  { rewrite (sub64_id points 1) by i64. apply mul64_id. unfold in_i64, i64_min, i64_max. nia. }
  rewrite Em. unfold Time.Add. rewrite add64_id by (unfold in_i64, i64_min, i64_max; nia).
  assert (Fm : f mod s = 0) by (subst f; rewrite Z.mul_comm; apply Z.mod_mul; lia).
  split_and!; try lia; try done.
  - intros L. destruct (Past L) as [k ->]. subst f. rewrite <- Z.mul_sub_distr_l, Z.mul_comm. apply Z.mod_mul. lia.
  - intros L. destruct (Short L) as [S1 S2]. assert (t - f < s * 62); [|nia]. lia.
  - intros L. unfold minuteAligned. cbn. rewrite !Z.rem_mod_nonneg by lia.
    assert (s mod 60 = 0) as Hs by auto. rewrite Hs. subst f. rewrite Z.mul_mod, Hs by lia. done.
Qed.

Section filter.
Context `{Unicode}.

(** C31 The text of a filter never holds a value it compares with: two filters of
    the same fields and operators (and that agree on which namespaces are n/a)
    have the same text; the values are arguments, each under the number of its
    filter, no two under one name. *)
Theorem filter_text_has_no_values q q' skipField fromMV :
  Forall2 same_shape (q_Filters q) (q_Filters q') →
  (filter_ q skipField fromMV).1 = (filter_ q' skipField fromMV).1 ∧
  NoDup (filter_ q skipField fromMV).2.*1 ∧
  ∀ name v, (name, v) ∈ (filter_ q skipField fromMV).2 →
    ∃ i f, q_Filters q !! i = Some f ∧ name = filter_name i ∧ v = AString (f_Value f).
Proof.
  intros S. unfold filter_.
  destruct (conditions_shape 0 skipField fromMV _ _ S) as [E _].
  pose proof (conditions_names_distinct 0 skipField fromMV (q_Filters q)) as N.
  pose proof (conditions_args 0 skipField fromMV (q_Filters q)) as A.
  destruct (conditions 0 skipField fromMV (q_Filters q)) as [cs vs], (conditions 0 skipField fromMV (q_Filters q')) as [cs' vs'].
  cbn in *. subst cs'. done.
Qed.

(** What a filter means: its text is that of clauses that hold, together,
    exactly when every value a field must not have is excluded and, of the values
    a field may have, one applies. *)
Theorem filter_meaning q skipField fromMV :
  ∃ cl, (filter_ q skipField fromMV).1 = map clause_text cl ∧
    ∀ truth, forallb (clause_holds truth) cl = true ↔ satisfies truth (conditions 0 skipField fromMV (q_Filters q)).1.
Proof.
  unfold filter_. destruct (conditions 0 skipField fromMV (q_Filters q)) as [cs vs].
  exists (clauses cs). split; [done|]. intros truth. apply clauses_hold.
Qed.
End filter.

(** C36 Reading the spans of a range slice by slice, the newest first, gives what
    one query of the whole range gives. *)
Theorem getSpans_is_one_query {Span} (time : Span → Z) table q :
  newest_first time table → 0 < q_Limit q → 0 ≤ q_TsFrom q ≤ q_TsTo q → q_TsTo q < 2 ^ 61 →
  getSpans (λ q _, inr (newest time table q)) q "" = inr (newest time table q).
Proof.
  intros S L F T. unfold getSpans. destruct (_ || _); [done|].
  apply span_slices_spec; [done| |lia|lia| |cbn; lia].
  - repeat (apply List.Forall_cons; [vm_compute; split; [reflexivity|intros [=]]|]). apply List.Forall_nil.
  - symmetry. apply filter_none_range. intros s _. unfold in_range. destruct (q_TsTo q * 1000000000 <=? time s) eqn:E; [|done].
    apply Z.leb_le in E. cbn. apply Z.ltb_ge. lia.
Qed.

(** A server span that skipped its bodies gets those of a client span of its
    own request (its key, method and target, within five seconds), of the one
    nearest in time; with none it is left as it is, and so is any other span. *)
Theorem borrowClientBodies_spec client_spans spans clients :
  client_spans (map b_RequestKey (List.filter skipped_bodies spans)) (borrow_range (List.filter skipped_bodies spans)) = inr clients →
  ∃ res, borrowClientBodies client_spans spans = inr res ∧ length res = length spans ∧
    ∀ i s, spans !! i = Some s →
      (skipped_bodies s = false ∧ res !! i = Some s) ∨
      (skipped_bodies s = true ∧ res !! i = Some s ∧ ∀ c, c ∈ clients → same_request s c = false) ∨
      (skipped_bodies s = true ∧ ∃ c, c ∈ clients ∧ same_request s c = true ∧
         (∀ c', c' ∈ clients → same_request s c' = true → distance s c ≤ distance s c') ∧
         res !! i = Some (set_hashes (cs_requestBodyHash c) (cs_responseBodyHash c) s)).
Proof.
  intros E. unfold borrowClientBodies. destruct (List.filter skipped_bodies spans) as [|s0 ss] eqn:Es.
  - exists spans. split_and!; [done|done|]. intros i s Hs. left. split; [|done].
    destruct (skipped_bodies s) eqn:Sk; [|done]. apply list_elem_of_lookup_2, list_elem_of_In in Hs.
    assert (I : In s (List.filter skipped_bodies spans)) by (by apply List.filter_In). by rewrite Es in I.
  - rewrite E. eexists. split; [done|]. split; [apply length_map|]. intros i s Hs.
    assert (Hm : map (borrow clients) spans !! i = Some (borrow clients s)) by (change map with (@fmap list _); rewrite list_lookup_fmap, Hs; done).
    rewrite Hm. unfold borrow. destruct (skipped_bodies s); [right|by left].
    pose proof (nearest_spec s clients None) as N. destruct (nearest s None clients) as [c|].
    + destruct N as ([N|[Hc Sc]] & Nn & _); [done|]. right. split; [done|]. by exists c.
    + left. by destruct N.
Qed.

End TracesTheorems.

Module TracesRuns.
Import TracesFacts TracesTheorems.

#[local] Instance ascii_only : Unicode := {| letter_beyond_latin1 := λ _, false |}.

Definition query (filters : list SpanFilter) : SpanQuery :=
  {| q_Ctx := NewContext 0 0 0; q_TsFrom := 1000; q_TsTo := 20000; q_DurFrom := 0; q_DurTo := 0; q_Errors := false; q_Limit := 2;
     q_Filters := filters; q_ExcludePeerAddrs := []; q_Sort := {| so_By := "date"; so_Dir := "desc" |}; q_Diff := false;
     q_WithBodies := false |}.

Definition filter_of (field op value : string) : SpanFilter := {| f_Field := field; f_Op := op; f_Value := value |}.

(** TestSpanQueryFilterAlternativesOfOneField of traces_facets_test.go. *)
Definition service_filters (service : string) : list SpanFilter :=
  [filter_of "ServiceName" "=" service; filter_of "SpanName" "!=" "ping"; filter_of "ServiceName" "=" "coroot";
   filter_of "ServiceName" "~" "^express"; filter_of "SpanName" "!~" "^GET /health"; filter_of "ServiceName" "!=" "flask"].

Example alternatives_of_one_field :
  (filter_ (query (service_filters "clickhouse")) "" false).1 =
    ["ServiceName != @filter_5";
     "(ServiceName = @filter_0 OR ServiceName = @filter_2 OR match(ServiceName, @filter_3))";
     "SpanName != @filter_1"; "NOT match(SpanName, @filter_4)"].
Proof. vm_compute. reflexivity. Qed.

(** TestTracesWindowRange of traces_charts_test.go. *)
Definition hour_window : TracesWindow := {| w_From := 999960; w_To := 1003625; w_Step := 60 |}.
Lemma view_of_an_hour : NewTracesWindow 1000010 1003625 true 15 = Ret hour_window.
Proof. vm_compute. reflexivity. Qed.
Lemma points_of_an_hour : Points hour_window = Ret 62.
Proof. vm_compute. reflexivity. Qed.

Lemma NewTracesWindow_covers_witness :
  ∃ w points, NewTracesWindow 1000010 1003625 true 15 = Ret w ∧ Points w = Ret points ∧
    w_From w ≤ 1000010 < w_From w + w_Step w ∧ points = 62.
Proof.
  destruct (NewTracesWindow_covers 1000010 1003625 true 15) as (w & points & c & E & P & _ & _ & _ & B & _); [lia..|].
  exists w, points. split_and!; [exact E|exact P|apply B|apply B|].
  rewrite view_of_an_hour in E. injection E as <-. rewrite points_of_an_hour in P. by injection P as <-.
Defined.

Lemma filter_text_has_no_values_witness :
  (filter_ (query (service_filters "clickhouse")) "" false).1
  = (filter_ (query (service_filters "x' OR 1=1 --")) "" false).1.
Proof.
  apply (filter_text_has_no_values (query (service_filters "clickhouse")) (query (service_filters "x' OR 1=1 --"))).
  repeat (apply List.Forall2_cons; [split_and!; [reflexivity|reflexivity|intros [=]]|]). apply List.Forall2_nil.
Defined.

(** A view of five minutes from the middle of a minute: the charts count raw
    spans, the table of the same page reads whole minutes, none of them the one
    the window starts in. *)
Example stats_of_a_short_view :
  let w := {| w_From := 1000030; w_To := 1000330; w_Step := 5 |} in
  let q := with_range (query []) (w_From w) (w_To w) 100 in
  NewTracesWindow 1000030 1000330 true 15 = Ret w ∧ counts_fromMV 1 q w = false ∧ stats_fromMV 1 q = true.
Proof. vm_compute. done. Qed.

(** Spans by their time in seconds. *)
Definition table : list Z := [19000; 18000; 12000; 5000].

Lemma getSpans_is_one_query_witness :
  getSpans (λ q _, inr (newest (Z.mul 1000000000) table q)) (query []) "" = inr [19000; 18000].
Proof.
  rewrite (getSpans_is_one_query (Z.mul 1000000000) table (query [])); [vm_compute; reflexivity| |cbn; lia..].
  repeat (apply SSorted_cons; [|repeat (apply List.Forall_cons; [lia|]); apply List.Forall_nil]). apply SSorted_nil.
Defined.

Definition server : BodySpan :=
  {| b_span := TraceTreeRuns.span "s" "" "" 1000 10; b_SpanKind := "SPAN_KIND_SERVER"; b_RequestKey := 7; b_RequestBodyHash := 0;
     b_ResponseBodyHash := 0; b_RequestBody := ""; b_ResponseBody := "" |}.
Definition client (key : N) (timestamp : Z) (hash : N) : clientSpan :=
  {| cs_key := key; cs_timestamp := timestamp; cs_method := ""; cs_target := ""; cs_requestBodyHash := hash; cs_responseBodyHash := 0 |}.

Definition clients : list clientSpan := [client 8 1000 1; client 7 4000 2; client 7 900 3].

Lemma nearest_is_there : client 7 900 3 ∈ clients.
Proof. apply list_elem_of_In. cbn. tauto. Qed.

Lemma borrowClientBodies_spec_witness :
  ∃ res, borrowClientBodies (λ _ _, inr clients) [server] = inr res ∧ res !! 0%nat = Some (set_hashes 3 0 server).
Proof.
  destruct (borrowClientBodies_spec (λ _ _, inr clients) [server] clients eq_refl) as (res & E & _ & S).
  exists res. split; [exact E|].
  destruct (S 0%nat server eq_refl) as [[N _]|[(_ & _ & N)|(_ & c & Hc & Sc & N & ->)]]; [vm_compute in N; discriminate N| |].
  - specialize (N _ nearest_is_there). vm_compute in N. discriminate N.
  - specialize (N _ nearest_is_there eq_refl). unfold clients in Hc.
    repeat (apply elem_of_cons in Hc as [->|Hc]; [first [reflexivity|vm_compute in Sc; discriminate Sc|vm_compute in N; by destruct N]|]).
    by apply not_elem_of_nil in Hc.
Defined.

End TracesRuns.
