(* ===== verification/Logs.v ===== *)
(** The queries of the logs page (clickhouse/logs.go, logs_facets.go) over the
    tables [otel_logs] and [otel_logs_rollup] (ch/client.go).

    A condition of a WHERE clause is a term with its text ([cond_text]) and its
    meaning over a row ([cond_holds]); a query is its conditions and its named
    arguments.  What ClickHouse's text functions do is a parameter. *)

From Stdlib Require Import ZArith Lia Bool String Ascii.
From S2P Require Import Prelude Float32 TimeSeries GoStrings Utils Json Model Db RecordingRules FlameGraph TraceTree Traces.
Import FilepathFacts GoPath.

Local Open Scope string_scope.
Local Open Scope Z_scope.

(** * The tables *)

Record LogRow := {
  l_Timestamp : Z;                 (** nanoseconds *)
  l_TraceId : string;
  l_SeverityNumber : Z;
  l_ServiceName : string;
  l_Body : string;
  l_ResourceAttributes : gmap string string;
  l_LogAttributes : gmap string string;
  l_Namespace : string;            (** computed from the others when inserted *)
  l_Application : string;
}.

(** The columns [otel_logs_rollup_mv] groups by. *)
Record RollupKey := {
  ru_Minute : Z;                   (** seconds *)
  ru_ServiceName : string;
  ru_Namespace : string;
  ru_Application : string;
  ru_SeverityNumber : Z;
  ru_HostLog : string;
  ru_HostRes : string;
}.

#[export] Instance RollupKey_eq_dec : EqDecision RollupKey.
Proof. solve_decision. Defined.

(** [m['k']] of a map column: the empty string for a key it does not have. *)
Definition get (m : gmap string string) (k : string) : string := default "" (m !! k).

Definition seconds_of (ns : Z) : Z := ns / 1000000000.
Definition toStartOfMinute (s : Z) : Z := 60 * (s / 60).

Definition rollup_key (r : LogRow) : RollupKey :=
  {| ru_Minute := toStartOfMinute (seconds_of (l_Timestamp r)); ru_ServiceName := l_ServiceName r;
     ru_Namespace := l_Namespace r; ru_Application := l_Application r; ru_SeverityNumber := l_SeverityNumber r;
     ru_HostLog := get (l_LogAttributes r) "host.name"; ru_HostRes := get (l_ResourceAttributes r) "host.name" |}.

(** The rollup has, for each key, rows whose counts sum to the rows of the raw
    table with that key: one for each insert, until they are merged. *)
Definition count_key (k : RollupKey) (rollup : list (RollupKey * Z)) : Z :=
  foldr (λ p acc, (if bool_decide (p.1 = k) then p.2 else 0) + acc) 0 rollup.
Definition is_rollup (rows : list LogRow) (rollup : list (RollupKey * Z)) : Prop :=
  ∀ k, count_key k rollup = Z.of_nat (length (List.filter (λ r, bool_decide (rollup_key r = k)) rows)).

(** * Queries *)

Definition LogSourceOtel : string := "otel".
Definition LogSourceAgent : string := "agent".

Record LogFilter := { lf_Name : string; lf_Op : string; lf_Value : string }.

#[export] Instance LogFilter_eq_dec : EqDecision LogFilter.
Proof. solve_decision. Defined.

Record LogQuery := {
  lq_Ctx : Context;
  lq_Source : string;
  lq_Services : list string;
  lq_Filters : list LogFilter;
  lq_Limit : Z;
  lq_Since : Z;                    (** nanoseconds, zero for none *)
  lq_Sort : Sort;
}.

(** The names of arguments. *)
Inductive arg_name :=
| NServiceName | NFrom | NTo | NSince
| NSeverityFrom (j : nat) | NSeverityTo (j : nat)
| NTraceId (j : nat)
| NService (i j : nat)
| NDerived (name : string) (i j : nat)
| NAttrName (i j : nat) | NAttrValue (i j : nat)
| NTokens (not_ : option nat) | NSub (not_ : option nat) (k : nat).

#[export] Instance arg_name_eq_dec : EqDecision arg_name.
Proof. solve_decision. Defined.

Definition num (n : nat) : string := Itoa (Z.of_nat n).

(** The prefix of the arguments of a message search: the search, or the [k]-th
    that must not match. *)
Definition search_prefix (not_ : option nat) : string :=
  match not_ with None => "token" | Some k => "not_token_" ++ num k end.

Definition arg_text (n : arg_name) : string :=
  match n with
  | NServiceName => "serviceName"
  | NFrom => "from"
  | NTo => "to"
  | NSince => "since"
  | NSeverityFrom j => "severity_from_" ++ num j
  | NSeverityTo j => "severity_to_" ++ num j
  | NTraceId j => "trace_id_" ++ num j
  | NService i j => "service_name_" ++ num i ++ "_" ++ num j
  | NDerived name i j => "derived_" ++ name ++ "_" ++ num i ++ "_" ++ num j
  | NAttrName i j => "attr_name_" ++ num i ++ "_" ++ num j
  | NAttrValue i j => "attr_values_" ++ num i ++ "_" ++ num j
  | NTokens p => search_prefix p ++ "_tokens"
  | NSub p k => search_prefix p ++ "_sub_" ++ num k
  end.

Definition log_args := list (arg_name * arg).

(** The columns conditions compare. *)
Inductive column :=
| ServiceName | TraceId
| Derived (name : string)          (** Namespace, Application *)
| HostLog | HostRes
| LogAttribute (name : arg_name) | ResAttribute (name : arg_name).

Definition column_text (c : column) : string :=
  match c with
  | ServiceName => "ServiceName"
  | TraceId => "TraceId"
  | Derived name => name
  | HostLog => "HostLog"
  | HostRes => "HostRes"
  | LogAttribute n => "LogAttributes[@" ++ arg_text n ++ "]"
  | ResAttribute n => "ResourceAttributes[@" ++ arg_text n ++ "]"
  end.

Inductive cond :=
| CAgent
| CNotAgent
| CIn (n : arg_name)
| CEq (c : column) (n : arg_name) | CNe (c : column) (n : arg_name)
| CMatch (c : column) (n : arg_name) | CNotMatch (c : column) (n : arg_name)
| CBetween (n1 n2 : arg_name) | CNotBetween (n1 n2 : arg_name)
| CMinutes | CSince | CWindow
| CTokens (n : arg_name) | CSub (n : arg_name)
| CNot (c : cond)
| CAnd (l : list cond) | COr (l : list cond)
| CAll (l : list cond).            (** joined without parentheses *)

Fixpoint cond_text (c : cond) : string :=
  match c with
  | CAgent => "startsWith(ServiceName, '/')"
  | CNotAgent => "NOT startsWith(ServiceName, '/')"
  | CIn n => "ServiceName IN (@" ++ arg_text n ++ ")"
  | CEq c n => column_text c ++ " = @" ++ arg_text n
  | CNe c n => column_text c ++ " != @" ++ arg_text n
  | CMatch c n => "match(" ++ column_text c ++ ", @" ++ arg_text n ++ ")"
  | CNotMatch c n => "NOT match(" ++ column_text c ++ ", @" ++ arg_text n ++ ")"
  | CBetween n1 n2 => "SeverityNumber BETWEEN @" ++ arg_text n1 ++ " AND @" ++ arg_text n2
  | CNotBetween n1 n2 => "SeverityNumber NOT BETWEEN @" ++ arg_text n1 ++ " AND @" ++ arg_text n2
  | CMinutes => "Minute >= toDateTime(@from) AND Minute < toDateTime(@to)"
  | CSince => "Timestamp > @since"
  | CWindow => "Timestamp BETWEEN @from AND @to"
  | CTokens n => "hasAllTokens(lowerUTF8(Body), @" ++ arg_text n ++ ")"
  | CSub n => "positionCaseInsensitiveUTF8(Body, @" ++ arg_text n ++ ") > 0"
  | CNot c => "NOT (" ++ cond_text c ++ ")"
  | CAnd l => "(" ++ GoStrings.Join (map cond_text l) " AND " ++ ")"
  | COr l => "(" ++ GoStrings.Join (map cond_text l) " OR " ++ ")"
  | CAll l => GoStrings.Join (map cond_text l) " AND "
  end.

(** * The search box *)

(** unicode.ToLower, of ASCII and, from the Unicode tables, of the rest. *)
Class LowerCase := { lower_beyond_ascii : N → N }.

Definition lower_rune `{LowerCase} (r : N) : N :=
  if (r <? 128)%N then if ((65 <=? r) && (r <=? 90))%N then (r + 32)%N else r else lower_beyond_ascii r.

Definition StringsToLower `{LowerCase} (s : string) : string := encode_runes (map lower_rune (runes_of s)).

Record messageSearch := { ms_tokens : list string; ms_substrings : list string }.

Definition ms_empty (m : messageSearch) : bool :=
  bool_decide (ms_tokens m = []) && bool_decide (ms_substrings m = []).

Fixpoint uniq (seen l : list string) : list string :=
  match l with
  | [] => []
  | s :: l => if bool_decide (s ∈ seen) then uniq seen l else s :: uniq (s :: seen) l
  end.

Definition dedup (m : messageSearch) : messageSearch :=
  {| ms_tokens := uniq [] (ms_tokens m); ms_substrings := uniq [] (ms_substrings m) |}.

(** What the text index splits words at. *)
Definition splits_word (r : N) : bool :=
  IsSpace r || ((r <=? 127)%N && negb (((48 <=? r) && (r <=? 57)) || ((65 <=? r) && (r <=? 90)) || ((97 <=? r) && (r <=? 122)))%N).

(** strings.FieldsFunc *)
Fixpoint fields_func (fuel : nat) (split : N → bool) (s field : string) : list string :=
  let flush := if String.eqb field "" then [] else [field] in
  match fuel with
  | O => flush
  | S fuel =>
      match s with
      | EmptyString => flush
      | _ =>
          let '(r, n) := Utf8.decode s in
          if split r then (flush ++ fields_func fuel split (sdrop n s) "")%list
          else fields_func fuel split (sdrop n s) (field ++ stake n s)
      end
  end.

Definition FieldsFunc (s : string) (split : N → bool) : list string := fields_func (S (String.length s)) split s "".

Definition HasStar (s : string) : bool :=
  match s with String c _ => same c "*" | EmptyString => false end || HasSuffix s "*".

Fixpoint trim_left (c : ascii) (s : string) : string :=
  match s with String d s' => if same c d then trim_left c s' else s | EmptyString => s end.

Definition TrimStars (s : string) : string := Format.TrimRight (trim_left "*" s) "*".

Definition search_term `{LowerCase} (term : string) : messageSearch :=
  if HasStar term then
    let sub := TrimStars term in
    {| ms_tokens := []; ms_substrings := if String.eqb sub "" then [] else [sub] |}
  else {| ms_tokens := map StringsToLower (FieldsFunc term splits_word); ms_substrings := [] |}.

Definition join_search (a b : messageSearch) : messageSearch :=
  {| ms_tokens := ms_tokens a ++ ms_tokens b; ms_substrings := ms_substrings a ++ ms_substrings b |}.

Definition no_search : messageSearch := {| ms_tokens := []; ms_substrings := [] |}.

Definition parseMessageSearch `{LowerCase} (value : string) : messageSearch :=
  foldl (λ m term, join_search m (search_term term)) no_search (Utils.Fields value).

Definition messageExpr (m : messageSearch) (not_ : option nat) : list cond * log_args :=
  ((if bool_decide (ms_tokens m = []) then [] else [CTokens (NTokens not_)])
     ++ imap (λ k _, CSub (NSub not_ k)) (ms_substrings m),
   (if bool_decide (ms_tokens m = []) then [] else [(NTokens not_, AStrings (ms_tokens m))])
     ++ imap (λ k sub, (NSub not_ k, AString sub)) (ms_substrings m))%list.

(** * Filters *)

(** What one filter adds to its group: an alternative, an exclusion, or nothing. *)
Inductive part := Alternative (c : cond) | Exclusion (c : cond).

Definition operator (eq ne match_ not_match : cond) (op : string) : option part :=
  if String.eqb op "=" then Some (Alternative eq)
  else if String.eqb op "!=" then Some (Exclusion ne)
  else if String.eqb op "~" then Some (Alternative match_)
  else if String.eqb op "!~" then Some (Exclusion not_match)
  else None.

Definition eq_ne (eq ne : cond) (op : string) : option part :=
  if String.eqb op "=" then Some (Alternative eq) else if String.eqb op "!=" then Some (Exclusion ne) else None.

Definition severity_part (j : nat) (a : LogFilter) : option (part * log_args) :=
  let '(r1, r2) := Severity.Range (Severity.SeverityFromString (lf_Value a)) in
  let v1 := NSeverityFrom j in
  let v2 := NSeverityTo j in
  (λ p, (p, [(v1, AInt r1); (v2, AInt r2)])) <$> eq_ne (CBetween v1 v2) (CNotBetween v1 v2) (lf_Op a).

Definition trace_part (j : nat) (a : LogFilter) : option (part * log_args) :=
  if String.eqb (lf_Op a) "=" then Some (Alternative (CEq TraceId (NTraceId j)), [(NTraceId j, AString (lf_Value a))]) else None.

Definition service_part (i j : nat) (a : LogFilter) : option (part * log_args) :=
  let v := NService i j in
  (λ p, (p, [(v, AString (lf_Value a))]))
    <$> operator (CEq ServiceName v) (CNe ServiceName v) (CMatch ServiceName v) (CNotMatch ServiceName v) (lf_Op a).

Definition source_part (a : LogFilter) : option (part * log_args) :=
  let expr := if String.eqb (lf_Value a) LogSourceAgent then Some CAgent
              else if String.eqb (lf_Value a) LogSourceOtel then Some CNotAgent else None in
  match expr with
  | Some expr => (λ p, (p, [])) <$> eq_ne expr (CNot expr) (lf_Op a)
  | None => None
  end.

Definition derived_part (name : string) (i j : nat) (a : LogFilter) : option (part * log_args) :=
  let v := NDerived name i j in
  (λ p, (p, [(v, AString (lf_Value a))])) <$> eq_ne (CEq (Derived name) v) (CNe (Derived name) v) (lf_Op a).

Definition two_columns (c1 c2 : column) (v : arg_name) (op : string) : option part :=
  operator (COr [CEq c1 v; CEq c2 v]) (CAnd [CNe c1 v; CNe c2 v])
    (COr [CMatch c1 v; CMatch c2 v]) (CAnd [CNotMatch c1 v; CNotMatch c2 v]) op.

Definition host_part (i j : nat) (a : LogFilter) : option (part * log_args) :=
  let v := NAttrValue i j in
  (λ p, (p, [(v, AString (lf_Value a))])) <$> two_columns HostLog HostRes v (lf_Op a).

Definition attribute_part (name : string) (i j : nat) (a : LogFilter) : option (part * log_args) :=
  let n := NAttrName i j in
  let v := NAttrValue i j in
  (λ p, (p, [(n, AString name); (v, AString (lf_Value a))])) <$> two_columns (LogAttribute n) (ResAttribute n) v (lf_Op a).

(** The filters of one name; [None] is a query the rollup cannot answer. *)
Definition group_part (rollup : bool) (name : string) (i j : nat) (a : LogFilter) : option (part * log_args) :=
  if String.eqb name "Severity" then severity_part j a
  else if String.eqb name "TraceId" then trace_part j a
  else if String.eqb name "service.name" then service_part i j a
  else if String.eqb name "Source" then source_part a
  else if String.eqb name "Namespace" || String.eqb name "Application" then derived_part name i j a
  else if rollup then host_part i j a
  else attribute_part name i j a.

Definition rollup_has (name : string) : bool :=
  bool_decide (name ∈ ["Severity"; "service.name"; "Source"; "Namespace"; "Application"; "host.name"]).

Fixpoint group_parts (rollup : bool) (name : string) (i j : nat) (attrs : list LogFilter) : list part * log_args :=
  match attrs with
  | [] => ([], [])
  | a :: attrs =>
      let '(ps, vs) := group_parts rollup name i (S j) attrs in
      match group_part rollup name i j a with
      | Some (p, v) => (p :: ps, v ++ vs)%list
      | None => (ps, vs)
      end
  end.

Definition exclusions (ps : list part) : list cond := omap (λ p, match p with Exclusion c => Some c | _ => None end) ps.
Definition alternatives (ps : list part) : list cond := omap (λ p, match p with Alternative c => Some c | _ => None end) ps.

Definition group_where (ps : list part) : list cond :=
  ((match exclusions ps with [] => [] | ands => [CAnd ands] end)
     ++ (match alternatives ps with [] => [] | ors => [COr ors] end))%list.

(** The loop over the names, numbered as they come. *)
Fixpoint groups (rollup : bool) (i : nat) (byName : list (string * list LogFilter)) : option (list cond * log_args) :=
  match byName with
  | [] => Some ([], [])
  | (name, attrs) :: byName =>
      if rollup && negb (rollup_has name) then None
      else match groups rollup (S i) byName with
           | None => None
           | Some (where_, vs) =>
               let '(ps, v) := group_parts rollup name i 0 attrs in
               Some (group_where ps ++ where_, v ++ vs)%list
           end
  end.

Definition is_message (f : LogFilter) : bool := String.eqb (lf_Name f) "Message".
Definition is_exclusion (f : LogFilter) : bool := String.eqb (lf_Op f) "not contains".

(** The filters that are neither a message search nor the one left out. *)
Definition grouped (attr : option string) (fs : list LogFilter) : list LogFilter :=
  List.filter (λ f, negb (is_message f) && negb (match attr with Some a => String.eqb (lf_Name f) a | None => false end)) fs.

Definition names_of (fs : list LogFilter) : list string := remove_dups (map lf_Name fs).

Definition by_name (fs : list LogFilter) (names : list string) : list (string * list LogFilter) :=
  map (λ name, (name, List.filter (λ f, String.eqb (lf_Name f) name) fs)) names.

Section build.
Context `{MapOrder} `{LowerCase}.

(** [message] and [notMessage]. *)
Definition message_of (fs : list LogFilter) : messageSearch :=
  foldl join_search no_search
    (map (λ f, parseMessageSearch (lf_Value f)) (List.filter (λ f, is_message f && negb (is_exclusion f)) fs)).

Definition not_messages (fs : list LogFilter) : list messageSearch :=
  List.filter (λ m, negb (ms_empty m))
    (map (λ f, parseMessageSearch (lf_Value f)) (List.filter (λ f, is_message f && is_exclusion f) fs)).

Definition searches_message (fs : list LogFilter) : bool :=
  existsb (λ f, is_message f && negb (ms_empty (parseMessageSearch (lf_Value f)))) fs.

(** [Uniq], in the order of a map. *)
Definition Uniq (order : nat) (fs : list LogFilter) : list LogFilter := map_order order (remove_dups fs).

Definition services_where (q : LogQuery) : list cond * log_args :=
  match lq_Services q with
  | [] => (if String.eqb (lq_Source q) LogSourceAgent then [CAgent]
           else if String.eqb (lq_Source q) LogSourceOtel then [CNotAgent] else [], [])
  | [s] => ([CEq ServiceName NServiceName], [(NServiceName, AString s)])
  | l => ([CIn NServiceName], [(NServiceName, AStrings l)])
  end.

(** The times of the context are seconds; as arguments they are nanoseconds. *)
Definition nanos (s : Z) : Z := s * 1000000000.

Definition time_where (rollup : bool) (q : LogQuery) : option (list cond * log_args) :=
  let from := ctx_From (lq_Ctx q) in
  let to := ctx_To (lq_Ctx q) in
  let window := [(NFrom, ATime (nanos from)); (NTo, ATime (nanos to))] in
  if rollup then
    if negb (lq_Since q =? 0) || negb (Z.rem from 60 =? 0) || negb (Z.rem to 60 =? 0) then None
    else Some ([CMinutes], window)
  else if negb (lq_Since q =? 0) then Some ([CSince], [(NSince, ATime (lq_Since q))])
  else Some ([CWindow], window).

Definition message_where (fs : list LogFilter) : list cond * log_args :=
  let '(cs, vs) := messageExpr (dedup (message_of fs)) None in
  let nots := imap (λ k m, messageExpr (dedup m) (Some k)) (not_messages fs) in
  ((match cs with [] => [] | _ => [CAll cs] end)
     ++ flat_map (λ p : list cond * log_args, match p.1 with [] => [] | cs => [CNot (CAll cs)] end) nots,
   vs ++ flat_map snd nots)%list.

(** [order] numbers the two loops over maps: the filters without repetition, and
    the names. *)
Definition buildFilters (order : nat) (attr : option string) (rollup : bool) (q : LogQuery) : option (list cond * log_args) :=
  let '(w1, a1) := services_where q in
  match time_where rollup q with
  | None => None
  | Some (w2, a2) =>
      let fs := Uniq order (lq_Filters q) in
      if rollup && searches_message fs then None
      else
        let rest := grouped attr fs in
        match groups rollup 0 (by_name rest (map_order (S order) (names_of rest))) with
        | None => None
        | Some (w3, a3) =>
            let '(w4, a4) := message_where fs in
            Some (w1 ++ w2 ++ w3 ++ w4, a1 ++ a2 ++ a3 ++ a4)%list
        end
  end.

Definition filters (order : nat) (attr : option string) (q : LogQuery) : list cond * log_args :=
  default ([], []) (buildFilters order attr false q).
Definition rollupFilters (order : nat) (attr : option string) (q : LogQuery) : option (list cond * log_args) :=
  buildFilters order attr true q.
End build.

(** * What the queries mean *)

(** ClickHouse's [match], [hasAllTokens] over the words of a text in lower case,
    and [positionCaseInsensitiveUTF8]. *)
Class TextFunctions := {
  ch_match : string → string → bool;
  has_all_tokens : string → list string → bool;
  has_substring : string → string → bool;
}.

(** A row, as conditions read it: its columns, its severity, its text, and
    whether it is in the time of a query with these arguments. *)
Record RowView := {
  v_column : column → (arg_name → option arg) → string;
  v_severity : Z;
  v_body : string;
  v_window : Z → Z → bool;
  v_since : Z → bool;
  v_minutes : Z → Z → bool;
}.

Definition lookup_arg (vs : log_args) (n : arg_name) : option arg :=
  snd <$> List.find (λ p, bool_decide (p.1 = n)) vs.

Definition string_arg (env : arg_name → option arg) (n : arg_name) : string :=
  match env n with Some (AString s) => s | _ => "" end.
Definition int_arg (env : arg_name → option arg) (n : arg_name) : Z :=
  match env n with Some (AInt z) => z | _ => 0 end.
Definition strings_arg (env : arg_name → option arg) (n : arg_name) : list string :=
  match env n with Some (AStrings l) => l | _ => [] end.
Definition time_arg (env : arg_name → option arg) (n : arg_name) : Z :=
  match env n with Some (ATime t) => t | _ => 0 end.

Definition raw_column (r : LogRow) (c : column) (env : arg_name → option arg) : string :=
  match c with
  | ServiceName => l_ServiceName r
  | TraceId => l_TraceId r
  | Derived name => if String.eqb name "Namespace" then l_Namespace r else l_Application r
  | LogAttribute n => get (l_LogAttributes r) (string_arg env n)
  | ResAttribute n => get (l_ResourceAttributes r) (string_arg env n)
  | HostLog | HostRes => ""
  end.

Definition raw_view (r : LogRow) : RowView :=
  {| v_column := raw_column r; v_severity := l_SeverityNumber r; v_body := l_Body r;
     v_window := λ from to, (from <=? l_Timestamp r) && (l_Timestamp r <=? to);
     v_since := λ since, since <? l_Timestamp r; v_minutes := λ _ _, false |}.

Definition rollup_column (k : RollupKey) (c : column) (env : arg_name → option arg) : string :=
  match c with
  | ServiceName => ru_ServiceName k
  | Derived name => if String.eqb name "Namespace" then ru_Namespace k else ru_Application k
  | HostLog => ru_HostLog k
  | HostRes => ru_HostRes k
  | TraceId | LogAttribute _ | ResAttribute _ => ""
  end.

Definition rollup_view (k : RollupKey) : RowView :=
  {| v_column := rollup_column k; v_severity := ru_SeverityNumber k; v_body := "";
     v_window := λ _ _, false; v_since := λ _, false;
     v_minutes := λ from to, (seconds_of from <=? ru_Minute k) && (ru_Minute k <? seconds_of to) |}.

Definition starts_with_slash (s : string) : bool := match s with String c _ => same c "/" | EmptyString => false end.

Fixpoint cond_holds `{TextFunctions} (env : arg_name → option arg) (v : RowView) (c : cond) : bool :=
  let col c := v_column v c env in
  let str n := string_arg env n in
  match c with
  | CAgent => starts_with_slash (v_column v ServiceName env)
  | CNotAgent => negb (starts_with_slash (v_column v ServiceName env))
  | CIn n => bool_decide (v_column v ServiceName env ∈ strings_arg env n)
  | CEq c n => String.eqb (col c) (str n)
  | CNe c n => negb (String.eqb (col c) (str n))
  | CMatch c n => ch_match (col c) (str n)
  | CNotMatch c n => negb (ch_match (col c) (str n))
  | CBetween n1 n2 => (int_arg env n1 <=? v_severity v) && (v_severity v <=? int_arg env n2)
  | CNotBetween n1 n2 => negb ((int_arg env n1 <=? v_severity v) && (v_severity v <=? int_arg env n2))
  | CMinutes => v_minutes v (time_arg env NFrom) (time_arg env NTo)
  | CSince => v_since v (time_arg env NSince)
  | CWindow => v_window v (time_arg env NFrom) (time_arg env NTo)
  | CTokens n => has_all_tokens (v_body v) (strings_arg env n)
  | CSub n => has_substring (v_body v) (str n)
  | CNot c => negb (cond_holds env v c)
  | CAnd l | CAll l => forallb (cond_holds env v) l
  | COr l => existsb (cond_holds env v) l
  end.

Definition selects `{TextFunctions} (q : list cond * log_args) (v : RowView) : bool :=
  forallb (cond_holds (lookup_arg q.2) v) q.1.

(** * The histogram and the facets *)

(** multiIf(SeverityNumber=0, 0, intDiv(SeverityNumber, 4)+1) *)
Definition severity_class (n : Z) : Z := if n =? 0 then 0 else Z.quot n 4 + 1.

(** toStartOfInterval(t, INTERVAL step second) *)
Definition toStartOfInterval (step t : Z) : Z := step * (t / step).

(** count(1) and sum(Count), of the rows selected for which [obs] is [x]. *)
Definition raw_count `{TextFunctions} {X} `{EqDecision X} (q : list cond * log_args) (obs : LogRow → X) (x : X) (rows : list LogRow) : Z :=
  Z.of_nat (length (List.filter (λ r, selects q (raw_view r) && bool_decide (obs r = x)) rows)).
Definition rollup_count `{TextFunctions} {X} `{EqDecision X} (q : list cond * log_args) (obs : RollupKey → X) (x : X)
    (rollup : list (RollupKey * Z)) : Z :=
  foldr (λ p acc, (if selects q (rollup_view p.1) && bool_decide (obs p.1 = x) then p.2 else 0) + acc) 0 rollup.

Section answers.
Context `{MapOrder} `{LowerCase} `{TextFunctions}.

Definition raw_bucket (step : Z) (r : LogRow) : Z * Z :=
  (severity_class (l_SeverityNumber r), toStartOfInterval step (seconds_of (l_Timestamp r))).
Definition rollup_bucket (step : Z) (k : RollupKey) : Z * Z :=
  (severity_class (ru_SeverityNumber k), toStartOfInterval step (ru_Minute k)).

(** The count of [GetLogsHistogram] for a severity and a bucket, zero where the
    answer has no row.  The two builds of the conditions go through their maps in
    orders of their own. *)
Definition GetLogsHistogram (order order' : nat) (q : LogQuery) (rows : list LogRow) (rollup : list (RollupKey * Z)) (x : Z * Z) : Z :=
  let step := ctx_Step (lq_Ctx q) in
  match rollupFilters order None q with
  | Some w =>
      if (60 <=? step) && (Z.rem step 60 =? 0) then rollup_count w (rollup_bucket step) x rollup
      else raw_count (filters order' None q) (raw_bucket step) x rows
  | None => raw_count (filters order' None q) (raw_bucket step) x rows
  end.

(** The facets, by what a row is counted under. *)
Inductive facet := FSeverity | FService | FHost | FCluster | FSource | FNamespace | FApplication.

Definition facet_name (f : facet) : string :=
  match f with
  | FSeverity => "Severity" | FService => "service.name" | FHost => "host.name" | FCluster => "Cluster"
  | FSource => "Source" | FNamespace => "Namespace" | FApplication => "Application"
  end.

Definition facet_of_name (name : string) : option facet :=
  List.find (λ f, String.eqb (facet_name f) name) [FSeverity; FService; FHost; FCluster; FSource; FNamespace; FApplication].

(** [facetCountSQL] with the WHERE clause in its place. *)
Definition facetCountSQL (f : facet) (w : string) : string :=
  let by_ e c := "SELECT " ++ e ++ ", count(1) FROM otel_logs_distributed WHERE " ++ w ++ " GROUP BY " ++ c in
  match f with
  | FSeverity => by_ "multiIf(SeverityNumber=0, 0, intDiv(SeverityNumber, 4)+1)" "1"
  | FService => by_ "ServiceName" "ServiceName HAVING ServiceName != '' ORDER BY count(1) DESC, ServiceName LIMIT 1000"
  | FHost => by_ "if(LogAttributes[@attr] != '', LogAttributes[@attr], ResourceAttributes[@attr]) AS v"
                 "v HAVING v != '' ORDER BY count(1) DESC, v LIMIT 1000"
  | FCluster => "SELECT count(1) FROM otel_logs_distributed WHERE " ++ w
  | FSource => by_ "if(startsWith(ServiceName, '/'), 'agent', 'otel')" "1"
  | FNamespace => by_ "Namespace" "1"
  | FApplication => by_ "Application AS v" "v HAVING v != '' ORDER BY count(1) DESC, v LIMIT 1000"
  end.

Definition rollupFacetCountSQL (f : facet) (w : string) : string :=
  let from := " FROM otel_logs_rollup_distributed WHERE " ++ w in
  match f with
  | FSeverity => "SELECT multiIf(SeverityNumber=0, 0, intDiv(SeverityNumber, 4)+1), sum(Count)" ++ from ++ " GROUP BY 1"
  | FService => "SELECT ServiceName, sum(Count)" ++ from ++ " GROUP BY ServiceName HAVING ServiceName != '' ORDER BY sum(Count) DESC, ServiceName LIMIT 1000"
  | FHost => "SELECT if(HostLog != '', HostLog, HostRes) AS v, sum(Count)" ++ from ++ " GROUP BY v HAVING v != '' ORDER BY sum(Count) DESC, v LIMIT 1000"
  | FCluster => "SELECT sum(Count)" ++ from
  | FSource => "SELECT if(startsWith(ServiceName, '/'), 'agent', 'otel'), sum(Count)" ++ from ++ " GROUP BY 1"
  | FNamespace => "SELECT Namespace, sum(Count)" ++ from ++ " GROUP BY 1"
  | FApplication => "SELECT Application AS v, sum(Count)" ++ from ++ " GROUP BY v HAVING v != '' ORDER BY sum(Count) DESC, v LIMIT 1000"
  end.

(** What the texts above group by: an expression of the row. *)
Definition raw_facet (f : facet) (r : LogRow) : string + Z :=
  match f with
  | FSeverity => inr (severity_class (l_SeverityNumber r))
  | FService => inl (l_ServiceName r)
  | FHost => inl (let v := get (l_LogAttributes r) "host.name" in
                  if negb (String.eqb v "") then v else get (l_ResourceAttributes r) "host.name")
  | FCluster => inr 0
  | FSource => inl (if starts_with_slash (l_ServiceName r) then "agent" else "otel")
  | FNamespace => inl (l_Namespace r)
  | FApplication => inl (l_Application r)
  end.

Definition rollup_facet (f : facet) (k : RollupKey) : string + Z :=
  match f with
  | FSeverity => inr (severity_class (ru_SeverityNumber k))
  | FService => inl (ru_ServiceName k)
  | FHost => inl (if negb (String.eqb (ru_HostLog k) "") then ru_HostLog k else ru_HostRes k)
  | FCluster => inr 0
  | FSource => inl (if starts_with_slash (ru_ServiceName k) then "agent" else "otel")
  | FNamespace => inl (ru_Namespace k)
  | FApplication => inl (ru_Application k)
  end.

(** The text and the arguments of [GetLogFacetCounts], and what it counts. *)
Definition facet_query (order order' : nat) (q : LogQuery) (f : facet) : string * list (string * arg) :=
  let texts w := GoStrings.Join (map cond_text w) " AND " in
  let named vs := map (λ p, (arg_text p.1, p.2)) vs in
  match rollupFilters order (Some (facet_name f)) q with
  | Some (w, vs) => (rollupFacetCountSQL f (texts w), named vs)
  | None =>
      let '(w, vs) := filters order' (Some (facet_name f)) q in
      (facetCountSQL f (texts w),
       (named vs ++ match f with FHost => [("attr", AString "host.name")] | _ => [] end)%list)
  end.

Definition GetLogFacetCounts (order order' : nat) (q : LogQuery) (f : facet) (rows : list LogRow) (rollup : list (RollupKey * Z))
    (x : string + Z) : Z :=
  match rollupFilters order (Some (facet_name f)) q with
  | Some w => rollup_count w (rollup_facet f) x rollup
  | None => raw_count (filters order' (Some (facet_name f)) q) (raw_facet f) x rows
  end.
End answers.

(** How the rows of a facet query become the values shown. *)
Definition facet_rows := list (string * Z).

Definition complete (labels : list string) (rows : facet_rows) : list FacetValue :=
  let by_ := foldl (λ m p, <[p.1 := p.2]> m) (∅ : gmap string Z) rows in
  map (λ l, {| fv_Value := l; fv_Count := default 0 (by_ !! l) |}) labels.

Definition severity_rows (rows : list (Z * Z)) : list FacetValue :=
  complete ["unknown"; "info"; "warning"; "error"] (map (λ p, (Severity.ToString p.1, p.2)) rows).

Definition source_rows (rows : facet_rows) : list FacetValue := complete [LogSourceAgent; LogSourceOtel] rows.

Definition namespace_rows (rows : facet_rows) : list FacetValue :=
  completeNamespaceFacets (map (λ p, {| fv_Value := p.1; fv_Count := p.2 |}) rows).

Definition other_rows (rows : facet_rows) : list FacetValue :=
  omap (λ p, if String.eqb p.1 "" then None else Some {| fv_Value := p.1; fv_Count := p.2 |}) rows.

(** [LogFilter.Matches], with Go's regular expressions. *)
Definition Matches (regexp : string → string → bool) (lf : option LogFilter) (value : string) : bool :=
  match lf with
  | None => true
  | Some f =>
      if String.eqb (lf_Op f) "=" then String.eqb value (lf_Value f)
      else if String.eqb (lf_Op f) "!=" then negb (String.eqb value (lf_Value f))
      else if String.eqb (lf_Op f) "~" then regexp (lf_Value f) value
      else if String.eqb (lf_Op f) "!~" then negb (regexp (lf_Value f) value)
      else false
  end.

(** The text of [GetLogs], and the query of [GetKubernetesEvents]. *)
Definition GetLogs_sql `{MapOrder} `{LowerCase} (order : nat) (q : LogQuery) : string :=
  logsListSQL (LogListOrderBy (lq_Sort q)) (GoStrings.Join (map cond_text (filters order None q).1) " AND ") (Itoa (lq_Limit q)).

Definition KubernetesEvents_query (from to limit : Z) (extraFilters : list LogFilter) : LogQuery :=
  {| lq_Ctx := NewContext from to 0; lq_Source := ""; lq_Services := [];
     lq_Filters := {| lf_Name := "service.name"; lf_Op := "="; lf_Value := "KubernetesEvents" |} :: extraFilters;
     lq_Limit := limit; lq_Since := 0; lq_Sort := {| so_By := ""; so_Dir := "" |} |}.

(** The text of [GetLogsHistogram] over the rows, and over the rollup. *)
Definition histogram_text (step : Z) (time count table w : string) : string :=
  "SELECT multiIf(SeverityNumber=0, 0, intDiv(SeverityNumber, 4)+1), toStartOfInterval(" ++ time ++ ", INTERVAL " ++ Itoa step
    ++ " second), " ++ count ++ " FROM " ++ table ++ " WHERE " ++ w ++ " GROUP BY 1, 2".
Definition rawLogsHistogramSQL (step : Z) (w : string) : string := histogram_text step "Timestamp" "count(1)" "otel_logs_distributed" w.
Definition rollupLogsHistogramSQL (step : Z) (w : string) : string :=
  histogram_text step "Minute" "sum(Count)" "otel_logs_rollup_distributed" w.

(** [queryLogsHistogram]: a chart for each severity, by severity. *)
Definition histogram_row (ctx : Context) (acc : gmap Z TimeSeries) (row : Z * Z * Z) : outcome (gmap Z TimeSeries) :=
  let '(sev, t, count) := row in
  let* ts := match acc !! sev with
             | Some ts => Ret ts
             | None => let* n := PointsCount ctx in TimeSeries.New (ctx_From ctx) n (ctx_Step ctx)
             end in
  let* ts := TimeSeries.Set_ ts t (F32.of_Z count) in
  Ret (<[sev := ts]> acc).

Definition sev_le (a b : Z * TimeSeries) : Prop := a.1 <= b.1.
#[export] Instance sev_le_dec : RelDecision sev_le := λ a b, decide (a.1 <= b.1).

Fixpoint histogram_rows (ctx : Context) (acc : gmap Z TimeSeries) (rows : list (Z * Z * Z)) : outcome (gmap Z TimeSeries) :=
  match rows with
  | [] => Ret acc
  | row :: rows => let* acc := histogram_row ctx acc row in histogram_rows ctx acc rows
  end.

Definition queryLogsHistogram (ctx : Context) (rows : list (Z * Z * Z)) : outcome (list (Z * TimeSeries)) :=
  let* acc := histogram_rows ctx ∅ rows in
  Ret (merge_sort sev_le (map_to_list acc)).

Definition maxLogFilterScanWindow : Z := 3600.

(** [GetLogFilters]: the values suggested without a query, and the query that
    gives the rest, if there is one. *)
Definition scan_window (q : LogQuery) : LogQuery :=
  if (lq_Since q =? 0) && (maxLogFilterScanWindow <? Time.Sub (ctx_To (lq_Ctx q)) (ctx_From (lq_Ctx q))) then
    {| lq_Ctx := {| ctx_From := Time.Add (ctx_To (lq_Ctx q)) (- maxLogFilterScanWindow); ctx_To := ctx_To (lq_Ctx q);
                    ctx_Step := ctx_Step (lq_Ctx q); ctx_RawStep := ctx_RawStep (lq_Ctx q); ctx_Truncated := ctx_Truncated (lq_Ctx q) |};
       lq_Source := lq_Source q; lq_Services := lq_Services q; lq_Filters := lq_Filters q; lq_Limit := lq_Limit q;
       lq_Since := lq_Since q; lq_Sort := lq_Sort q |}
  else q.

Definition GetLogFilters `{MapOrder} `{LowerCase} (project : string) (order : nat) (q : LogQuery) (name : string)
    : list string * option (string * list (string * arg)) :=
  let '(w, vs) := filters order (Some name) (scan_window q) in
  let query select orderBy extra :=
    Some (select ++ " FROM otel_logs_distributed WHERE " ++ GoStrings.Join (map cond_text w) " AND " ++ " " ++ orderBy
            ++ " LIMIT 1000 SETTINGS max_block_size=2048, max_threads=4",
          (map (λ p, (arg_text p.1, p.2)) vs ++ extra)%list) in
  if String.eqb name "" then
    (["Severity"; "Source"; "Namespace"; "Application"; "Message"; "Cluster"],
     query "SELECT arrayJoin(arrayConcat(mapKeys(LogAttributes), mapKeys(ResourceAttributes))) AS k"
           "GROUP BY 1 HAVING NOT match(k, '\\.\\d+(\\.|$)') ORDER BY count(1) DESC, 1" [])
  else if String.eqb name "Severity" then
    ([], query "SELECT DISTINCT multiIf(SeverityNumber=0, 0, intDiv(SeverityNumber, 4)+1)" "ORDER BY 1" [])
  else if String.eqb name "Message" then ([], None)
  else if String.eqb name "Cluster" then ([project], None)
  else if String.eqb name "Source" then ([LogSourceAgent; LogSourceOtel], None)
  else if String.eqb name "Namespace" || String.eqb name "Application" then ([], query ("SELECT DISTINCT " ++ name) "ORDER BY 1" [])
  else ([], query "SELECT DISTINCT arrayJoin([LogAttributes[@attr], ResourceAttributes[@attr]])" "ORDER BY 1" [("attr", AString name)]).

(** The rows of that query, added to the values. *)
Definition log_filter_values (res : list string) (rows : list string) : list string :=
  (res ++ List.filter (λ s, negb (String.eqb s "")) rows)%list.
Definition severity_filter_values (rows : list Z) : list string := log_filter_values [] (map Severity.ToString rows).

Definition GetLogSources (services : list string) : list string * bool :=
  (List.filter (λ s, negb (starts_with_slash s)) services, existsb starts_with_slash services).

(** * The facets of several ClickHouses (api/views/overview/logs_facets.go) *)

Definition severityFacetOrder : list string := ["unknown"; "info"; "warning"; "error"].
Definition sourceFacetOrder : list string := [LogSourceAgent; LogSourceOtel].

Definition complete_facets (labels : list string) (values : list FacetValue) : list FacetValue :=
  map (λ l, {| fv_Value := l; fv_Count := default 0 (counts_by values !! l) |}) labels.
Definition completeSeverityFacets (values : list FacetValue) : list FacetValue := complete_facets severityFacetOrder values.
Definition completeSourceFacets (values : list FacetValue) : list FacetValue := complete_facets sourceFacetOrder values.

Definition log_facet_order : list string := ["Source"; "Severity"; "Cluster"; "Namespace"; "Application"; "host.name"].

Definition log_facet_group (key : string) (counts : gmap string Z) : FacetGroup :=
  let values := facet_values counts in
  {| fg_Key := key;
     fg_Values := if String.eqb key "Severity" then completeSeverityFacets values
                  else if String.eqb key "Source" then completeSourceFacets values
                  else if String.eqb key "Namespace" then completeNamespaceFacets values
                  else sort_facets values |}.

Definition facetGroupsFromMerged (merged : gmap string (gmap string Z)) : list FacetGroup :=
  omap (λ key, log_facet_group key <$> merged !! key) log_facet_order.

Module LogsFacts.
Local Open Scope list_scope.

(** * What a filter asks of a row *)

(** [Some (true, b)]: one of the alternatives of its name, which the row has iff
    [b]; [Some (false, b)]: an exclusion, which the row passes iff [b]; [None]: no
    condition. *)
Definition text_op `{TextFunctions} (texts : list string) (op value : string) : option (bool * bool) :=
  if String.eqb op "=" then Some (true, existsb (λ t, String.eqb t value) texts)
  else if String.eqb op "!=" then Some (false, negb (existsb (λ t, String.eqb t value) texts))
  else if String.eqb op "~" then Some (true, existsb (λ t, ch_match t value) texts)
  else if String.eqb op "!~" then Some (false, negb (existsb (λ t, ch_match t value) texts))
  else None.

Definition flag_op (b : bool) (op : string) : option (bool * bool) :=
  if String.eqb op "=" then Some (true, b) else if String.eqb op "!=" then Some (false, negb b) else None.

Definition asks `{TextFunctions} (r : LogRow) (a : LogFilter) : option (bool * bool) :=
  let name := lf_Name a in
  if String.eqb name "Severity" then
    let '(r1, r2) := Severity.Range (Severity.SeverityFromString (lf_Value a)) in
    flag_op ((r1 <=? l_SeverityNumber r) && (l_SeverityNumber r <=? r2)) (lf_Op a)
  else if String.eqb name "TraceId" then
    if String.eqb (lf_Op a) "=" then Some (true, String.eqb (l_TraceId r) (lf_Value a)) else None
  else if String.eqb name "service.name" then text_op [l_ServiceName r] (lf_Op a) (lf_Value a)
  else if String.eqb name "Source" then
    if String.eqb (lf_Value a) LogSourceAgent then flag_op (starts_with_slash (l_ServiceName r)) (lf_Op a)
    else if String.eqb (lf_Value a) LogSourceOtel then flag_op (negb (starts_with_slash (l_ServiceName r))) (lf_Op a)
    else None
  else if String.eqb name "Namespace" then flag_op (String.eqb (l_Namespace r) (lf_Value a)) (lf_Op a)
  else if String.eqb name "Application" then flag_op (String.eqb (l_Application r) (lf_Value a)) (lf_Op a)
  else text_op [get (l_LogAttributes r) name; get (l_ResourceAttributes r) name] (lf_Op a) (lf_Value a).

(** A row meets filters when it passes each exclusion and, for each name with
    alternatives, has one of them. *)
Definition meets `{TextFunctions} (r : LogRow) (fs : list LogFilter) : bool :=
  forallb (λ f, match asks r f with
                | Some (false, b) => b
                | Some (true, _) =>
                    existsb (λ g, String.eqb (lf_Name g) (lf_Name f) && bool_decide (asks r g = Some (true, true))) fs
                | None => true
                end) fs.

(** * Arguments *)

Definition agrees (env : arg_name → option arg) (vs : log_args) : Prop := ∀ n x, (n, x) ∈ vs → env n = Some x.

Lemma agrees_app env vs vs' : agrees env (vs ++ vs') ↔ agrees env vs ∧ agrees env vs'.
Proof.
  unfold agrees. setoid_rewrite elem_of_app. naive_solver.
Qed.

Lemma agrees_cons env n x vs : agrees env ((n, x) :: vs) ↔ env n = Some x ∧ agrees env vs.
Proof.
  unfold agrees. setoid_rewrite elem_of_cons. naive_solver.
Qed.

Definition consistent (vs : log_args) : Prop := ∀ n x y, (n, x) ∈ vs → (n, y) ∈ vs → x = y.

Lemma lookup_arg_agrees vs : consistent vs → agrees (lookup_arg vs) vs.
Proof.
  intros C n x I. unfold lookup_arg.
  destruct (List.find _ vs) as [[m y]|] eqn:E; cbn.
  - apply List.find_some in E as [I' E]. cbn in E. apply bool_decide_eq_true in E as ->.
    f_equal. apply (C n); [by apply list_elem_of_In|done].
  - apply list_elem_of_In in I. apply (List.find_none _ _ E) in I. cbn in I.
    by apply bool_decide_eq_false in I.
Qed.

(** The arguments of the filters of one name, the [i]-th. *)
Definition belongs (name : string) (i : nat) (n : arg_name) : Prop :=
  match n with
  | NSeverityFrom _ | NSeverityTo _ => name = "Severity"
  | NTraceId _ => name = "TraceId"
  | NService i' _ | NDerived _ i' _ | NAttrName i' _ | NAttrValue i' _ => i' = i
  | _ => False
  end.

(** The number of the filter an argument is of. *)
Definition filter_number (n : arg_name) : nat :=
  match n with
  | NSeverityFrom j | NSeverityTo j | NTraceId j | NService _ j | NDerived _ _ j | NAttrName _ j | NAttrValue _ j => j
  | _ => 0
  end.

Ltac split_ops :=
  repeat match goal with
  | |- context [String.eqb (lf_Op ?a) ?s] => destruct (String.eqb (lf_Op a) s)
  | |- context [String.eqb (lf_Value ?a) ?s] => destruct (String.eqb (lf_Value a) s)
  end.

Ltac unfold_parts :=
  unfold group_part, severity_part, trace_part, service_part, source_part, derived_part, host_part, attribute_part,
    two_columns, operator, eq_ne.

Ltac each_argument :=
  repeat match goal with
  | I : (_, _) ∈ [] |- _ => by apply not_elem_of_nil in I
  | I : (_, _) ∈ _ :: _ |- _ => apply elem_of_cons in I as [I|I]
  | E : (_, _) = (_, _) |- _ => simplify_eq
  end.

Lemma group_part_args rollup name i j a p vs :
  group_part rollup name i j a = Some (p, vs) →
  consistent vs ∧ ∀ n x, (n, x) ∈ vs → belongs name i n ∧ filter_number n = j.
Proof.
  unfold_parts. destruct (Severity.Range (Severity.SeverityFromString (lf_Value a))) as [r1 r2].
  repeat match goal with
  | |- context [String.eqb name ?s] => destruct (String.eqb_spec name s)
  end; cbn [orb]; destruct rollup; split_ops; cbn; intros E; simplify_eq; cbn;
  (split; [intros ? ? ? I I'|intros ? ? I]); each_argument; done.
Qed.

(** * The conditions of a filter *)

Definition is_alternative (p : part) : bool := match p with Alternative _ => true | Exclusion _ => false end.
Definition part_cond (p : part) : cond := match p with Alternative c | Exclusion c => c end.

(** A part says of a view what its filter asks of the row. *)
Definition says `{TextFunctions} (env : arg_name → option arg) (v : RowView) (p : option (part * log_args)) : option (bool * bool) :=
  (λ p, (is_alternative p.1, cond_holds env v (part_cond p.1))) <$> p.

Ltac read_arguments A :=
  repeat (apply agrees_cons in A as [? A]);
  unfold string_arg, int_arg;
  repeat match goal with E : _ = Some _ |- _ => rewrite E; clear E end.

Lemma part_says_raw `{TextFunctions} env i j a r :
  (∀ p vs, group_part false (lf_Name a) i j a = Some (p, vs) → agrees env vs) →
  says env (raw_view r) (group_part false (lf_Name a) i j a) = asks r a.
Proof.
  unfold_parts. unfold asks, flag_op, text_op. destruct (Severity.Range (Severity.SeverityFromString (lf_Value a))) as [r1 r2].
  repeat match goal with
  | |- context [String.eqb (lf_Name a) ?s] => destruct (String.eqb_spec (lf_Name a) s)
  end; cbn [orb]; split_ops; cbn; intros A; try (specialize (A _ _ eq_refl); read_arguments A; cbn);
    rewrite ?e, ?orb_false_r, ?andb_true_r, ?negb_orb; cbn; done.
Qed.

Lemma part_says_rollup `{TextFunctions} env i j a r :
  rollup_has (lf_Name a) = true →
  (∀ p vs, group_part true (lf_Name a) i j a = Some (p, vs) → agrees env vs) →
  says env (rollup_view (rollup_key r)) (group_part true (lf_Name a) i j a) = asks r a.
Proof.
  unfold rollup_has. rewrite bool_decide_eq_true.
  unfold_parts. unfold asks, flag_op, text_op. destruct (Severity.Range (Severity.SeverityFromString (lf_Value a))) as [r1 r2].
  intros R; repeat (apply elem_of_cons in R as [->|R]); try by apply not_elem_of_nil in R.
  all: cbn [orb String.eqb Ascii.eqb Bool.eqb]; split_ops; cbn; intros A; try (specialize (A _ _ eq_refl); read_arguments A; cbn);
    rewrite ?orb_false_r, ?andb_true_r, ?negb_orb; cbn; done.
Qed.

(** * The filters of one name, and all of them *)

Definition one_name (name : string) (attrs : list LogFilter) : Prop := ∀ a, a ∈ attrs → lf_Name a = name.

(** What conditions of parts say together. *)
Definition says_all (l : list (option (bool * bool))) : bool :=
  forallb (λ o, match o with Some (false, b) => b | _ => true end) l
    && (forallb (λ o, match o with Some (true, _) => false | _ => true end) l
        || existsb (λ o, match o with Some (true, b) => b | _ => false end) l).

Lemma group_where_says `{TextFunctions} env v ps :
  forallb (cond_holds env v) (group_where ps)
  = says_all (map (λ p, says env v (Some (p, []))) ps).
Proof.
  unfold group_where, says_all. rewrite forallb_app. f_equal.
  - transitivity (forallb (cond_holds env v) (exclusions ps)).
    + destruct (exclusions ps); cbn; [done|]. by rewrite andb_true_r.
    + unfold exclusions. induction ps as [|[c|c] ps IH]; cbn; [done|done|]. by f_equal.
  - transitivity (bool_decide (alternatives ps = []) || existsb (cond_holds env v) (alternatives ps)).
    + destruct (alternatives ps); cbn; [done|]. by rewrite andb_true_r.
    + unfold alternatives. f_equal; induction ps as [|[c|c] ps IH]; cbn; try done; by f_equal.
Qed.

Lemma group_parts_says `{TextFunctions} rollup name env v r attrs i j :
  (∀ a i j, a ∈ attrs →
     (∀ p vs, group_part rollup name i j a = Some (p, vs) → agrees env vs) →
     says env v (group_part rollup name i j a) = asks r a) →
  agrees env (group_parts rollup name i j attrs).2 →
  says_all (map (λ p, says env v (Some (p, []))) (group_parts rollup name i j attrs).1) = says_all (map (asks r) attrs).
Proof.
  intros S A.
  assert (E : omap id (map (λ p, says env v (Some (p, []))) (group_parts rollup name i j attrs).1) = omap id (map (asks r) attrs)).
  { revert j A. induction attrs as [|a attrs IH]; intros j A; [done|]. cbn in A |- *.
    specialize (S a i j (list_elem_of_here _ _)) as Sa.
    specialize (IH (λ b i j B, S b i j (list_elem_of_further _ _ _ B)) (Datatypes.S j)).
    destruct (group_parts rollup name i (Datatypes.S j) attrs) as [ps vs] eqn:E.
    destruct (group_part rollup name i j a) as [[p v']|]; cbn in *.
    - apply agrees_app in A as [A1 A2]. rewrite <- Sa; [cbn|by intros ? ? [= <- <-]]. by rewrite IH.
    - rewrite <- Sa; [|done]. by apply IH. }
  assert (N : ∀ l, says_all l = says_all (map Some (omap id l))).
  { intros l. unfold says_all. f_equal; [|f_equal]; induction l as [|[[[] b]|] l IHl]; cbn; try done; by rewrite IHl. }
  by rewrite N, E, <- N.
Qed.

Lemma groups_say `{TextFunctions} rollup env v r byName i w vs :
  (∀ name attrs, (name, attrs) ∈ byName → one_name name attrs) →
  (∀ a i j, (rollup = true → rollup_has (lf_Name a) = true) →
     (∀ p vs, group_part rollup (lf_Name a) i j a = Some (p, vs) → agrees env vs) →
     says env v (group_part rollup (lf_Name a) i j a) = asks r a) →
  groups rollup i byName = Some (w, vs) → agrees env vs →
  forallb (cond_holds env v) w = forallb (λ g, says_all (map (asks r) g.2)) byName.
Proof.
  intros N S. revert i w vs. induction byName as [|[name attrs] byName IH]; intros i w vs G A; cbn in G; [by simplify_eq|].
  destruct (rollup && negb (rollup_has name)) eqn:R; [done|].
  destruct (groups rollup (Datatypes.S i) byName) as [[w' vs']|] eqn:E; [|done].
  destruct (group_parts rollup name i 0 attrs) as [ps v'] eqn:P. simplify_eq. cbn.
  apply agrees_app in A as [A1 A2]. rewrite forallb_app. f_equal.
  - rewrite group_where_says. replace ps with (group_parts rollup name i 0 attrs).1 by by rewrite P.
    apply group_parts_says; [|by rewrite P]. intros a i' j Ia. rewrite <- (N _ _ (list_elem_of_here _ _) a Ia).
    apply S. intros ->. cbn in R. rewrite (N _ _ (list_elem_of_here _ _) a Ia). by apply negb_false_iff.
  - eapply IH; [|exact E|exact A2]. intros ? ? I. apply (N _ _ (list_elem_of_further _ _ _ I)).
Qed.

(** * The arguments of all groups are consistent *)

Lemma groups_args rollup byName i w vs n x :
  groups rollup i byName = Some (w, vs) → (n, x) ∈ vs →
  ∃ k name attrs j a p v, byName !! k = Some (name, attrs) ∧ attrs !! j = Some a
    ∧ group_part rollup name (i + k) j a = Some (p, v) ∧ (n, x) ∈ v.
Proof.
  assert (P : ∀ name attrs i j, (n, x) ∈ (group_parts rollup name i j attrs).2 →
            ∃ k a p v, attrs !! k = Some a ∧ group_part rollup name i (j + k) a = Some (p, v) ∧ (n, x) ∈ v).
  { clear. intros name attrs i. induction attrs as [|a attrs IH]; intros j I; [by apply not_elem_of_nil in I|]. cbn in I.
    specialize (IH (S j)). destruct (group_parts rollup name i (S j) attrs) as [ps vs].
    destruct (group_part rollup name i j a) as [[p v]|] eqn:G; cbn in *.
    - apply elem_of_app in I as [I|I].
      + exists 0%nat, a, p, v. by rewrite Nat.add_0_r.
      + destruct (IH I) as (k & b & p' & v' & ? & ? & ?). exists (S k), b, p', v'. by rewrite Nat.add_succ_r.
    - destruct (IH I) as (k & b & p' & v' & ? & ? & ?). exists (S k), b, p', v'. by rewrite Nat.add_succ_r. }
  revert i w vs. induction byName as [|[name attrs] byName IH]; intros i w vs G I; cbn in G; [simplify_eq; by apply not_elem_of_nil in I|].
  destruct (rollup && negb (rollup_has name)); [done|].
  destruct (groups rollup (S i) byName) as [[w' vs']|] eqn:E; [|done].
  destruct (group_parts rollup name i 0 attrs) as [ps v'] eqn:Ep. simplify_eq. apply elem_of_app in I as [I|I].
  - destruct (P name attrs i 0%nat) as (j & a & p & v & ? & ? & ?); [by rewrite Ep|].
    exists 0%nat, name, attrs, j, a, p, v. by rewrite Nat.add_0_r.
  - destruct (IH _ _ _ E I) as (k & name' & attrs' & j & a & p & v & ? & ? & ? & ?).
    exists (S k), name', attrs', j, a, p, v. by rewrite Nat.add_succ_r.
Qed.

Lemma groups_consistent rollup byName w vs :
  NoDup byName.*1 → groups rollup 0 byName = Some (w, vs) →
  consistent vs ∧ ∀ n x, (n, x) ∈ vs → ∃ name i, belongs name i n.
Proof.
  intros N G. split.
  - intros n x y I I'.
    destruct (groups_args _ _ _ _ _ _ _ G I) as (k & name & attrs & j & a & p & v & B & L & P & V).
    destruct (groups_args _ _ _ _ _ _ _ G I') as (k' & name' & attrs' & j' & a' & p' & v' & B' & L' & P' & V').
    apply group_part_args in P as P1, P' as P1'. destruct P1 as [C P1], P1' as [_ P1'].
    destruct (P1 _ _ V) as [K J], (P1' _ _ V') as [K' J'].
    assert (k = k') as <-.
    { assert (name = name' ∨ k = k') as [<-|]; [|eapply NoDup_lookup; [exact N|..]; rewrite list_lookup_fmap|done].
      - destruct n; cbn in K, K'; subst; first [by left|right; lia|done].
      - by rewrite B.
      - by rewrite B'. }
    rewrite B in B'. simplify_eq. by eapply C.
  - intros n x I. destruct (groups_args _ _ _ _ _ _ _ G I) as (k & name & attrs & j & a & p & v & B & L & P & V).
    apply group_part_args in P as [_ P]. exists name, (0 + k)%nat. by eapply P.
Qed.

(** * All the filters *)

Section row.
Context `{TextFunctions} (r : LogRow).

Lemma meets_spec fs :
  meets r fs = true ↔
  ∀ f, f ∈ fs →
    match asks r f with
    | Some (false, b) => b = true
    | Some (true, _) => ∃ g, g ∈ fs ∧ lf_Name g = lf_Name f ∧ asks r g = Some (true, true)
    | None => True
    end.
Proof.
  unfold meets. rewrite forallb_forall. setoid_rewrite <-list_elem_of_In.
  split; intros M f I; specialize (M f I); destruct (asks r f) as [[[] b]|]; try done.
  - apply existsb_exists in M as (g & Ig & G). apply andb_true_iff in G as [G1 G2].
    apply String.eqb_eq in G1. apply bool_decide_eq_true in G2. exists g. by rewrite list_elem_of_In.
  - destruct M as (g & Ig & G1 & G2). apply existsb_exists. exists g. split; [by apply list_elem_of_In|].
    rewrite G1, String.eqb_refl. by apply bool_decide_eq_true.
Qed.

Lemma meets_same fs fs' : (∀ f, f ∈ fs ↔ f ∈ fs') → meets r fs = meets r fs'.
Proof.
  intros E. apply eq_true_iff_eq. rewrite !meets_spec.
  split; intros M f I; apply E in I; specialize (M f I); destruct (asks r f) as [[[] b]|]; try done;
    destruct M as (g & Ig & G); exists g; (split; [by apply E|done]).
Qed.

Lemma says_all_spec fs :
  says_all (map (asks r) fs) = true ↔
  (∀ f b, f ∈ fs → asks r f = Some (false, b) → b = true)
  ∧ (∀ f b, f ∈ fs → asks r f = Some (true, b) → ∃ g, g ∈ fs ∧ asks r g = Some (true, true)).
Proof.
  unfold says_all. rewrite andb_true_iff, orb_true_iff, !forallb_forall, existsb_exists.
  setoid_rewrite <-list_elem_of_In. setoid_rewrite list_elem_of_fmap. split.
  - intros [E A]. split.
    + intros f b I Hf. specialize (E (asks r f) (ex_intro _ f (conj eq_refl I))). by rewrite Hf in E.
    + intros f b I Hf. destruct A as [A|(o & (g & -> & Ig) & G)].
      * specialize (A (asks r f) (ex_intro _ f (conj eq_refl I))). by rewrite Hf in A.
      * exists g. split; [done|]. by destruct (asks r g) as [[[] []]|].
  - intros [E A]. split.
    + intros o (f & -> & I). destruct (asks r f) as [[[] b]|] eqn:Hf; try done. by eapply E.
    + destruct (existsb (λ f, match asks r f with Some (true, _) => true | _ => false end) fs) eqn:X.
      * right. apply existsb_exists in X as (f & I & Hf). apply list_elem_of_In in I.
        destruct (asks r f) as [[[] b]|] eqn:Ef; try done. destruct (A f b I Ef) as (g & Ig & G).
        exists (asks r g). rewrite G. split; [by exists g|done].
      * left. intros o (f & -> & I). destruct (asks r f) as [[[] b]|] eqn:Ef; try done.
        apply not_true_iff_false in X. destruct X. apply existsb_exists. exists f. by rewrite <-list_elem_of_In, Ef.
Qed.

Lemma by_name_meets fs names :
  (∀ f, f ∈ fs → lf_Name f ∈ names) →
  forallb (λ g, says_all (map (asks r) g.2)) (by_name fs names) = meets r fs.
Proof.
  intros N. assert (F : ∀ name f, f ∈ List.filter (λ f, String.eqb (lf_Name f) name) fs ↔ f ∈ fs ∧ lf_Name f = name).
  { intros name f. by rewrite list_elem_of_In, filter_In, <-list_elem_of_In, String.eqb_eq. }
  apply eq_true_iff_eq. rewrite meets_spec, forallb_forall. setoid_rewrite <-list_elem_of_In.
  unfold by_name. setoid_rewrite list_elem_of_fmap. split.
  - intros A f I.
    assert (G := A _ (ex_intro _ (lf_Name f) (conj eq_refl (N f I)))). apply says_all_spec in G as [G1 G2].
    setoid_rewrite F in G1. setoid_rewrite F in G2.
    destruct (asks r f) as [[[] b]|] eqn:E; [|by apply (G1 f b)|done].
    destruct (G2 f b (conj I eq_refl) E) as (g & [? ?] & ?). by exists g.
  - intros M g (name & -> & I). apply says_all_spec. setoid_rewrite F. split.
    + intros f b [If Nf] E. specialize (M f If). by rewrite E in M.
    + intros f b [If Nf] E. specialize (M f If). rewrite E in M. destruct M as (g & ? & ? & ?).
      exists g. by rewrite <- Nf.
Qed.
End row.

Lemma by_name_one_name fs names name attrs : (name, attrs) ∈ by_name fs names → one_name name attrs.
Proof.
  unfold by_name. intros I a Ia. apply list_elem_of_fmap in I as (n & [= -> ->] & _).
  apply list_elem_of_In, filter_In in Ia as [_ Ia]. by apply String.eqb_eq in Ia.
Qed.

Lemma by_name_fst fs names : (by_name fs names).*1 = names.
Proof.
  unfold by_name. rewrite <-list_fmap_compose. apply list_fmap_id.
Qed.

(** * The conditions of a query *)

Section built.
Context `{MapOrder} `{LowerCase} `{TextFunctions}.

Lemma Uniq_elem order fs f : f ∈ Uniq order fs ↔ f ∈ fs.
Proof.
  unfold Uniq. by rewrite map_order_perm, elem_of_remove_dups.
Qed.

Definition services_meet (q : LogQuery) (r : LogRow) : bool :=
  match lq_Services q with
  | [] => if String.eqb (lq_Source q) LogSourceAgent then starts_with_slash (l_ServiceName r)
          else if String.eqb (lq_Source q) LogSourceOtel then negb (starts_with_slash (l_ServiceName r)) else true
  | l => bool_decide (l_ServiceName r ∈ l)
  end.

Definition time_meets (q : LogQuery) (r : LogRow) : bool :=
  (nanos (ctx_From (lq_Ctx q)) <=? l_Timestamp r) && (l_Timestamp r <=? nanos (ctx_To (lq_Ctx q))).

Lemma services_where_says q env v r :
  v_column v ServiceName env = l_ServiceName r → agrees env (services_where q).2 →
  forallb (cond_holds env v) (services_where q).1 = services_meet q r.
Proof.
  intros C. unfold services_where, services_meet. destruct (lq_Services q) as [|s [|s' l]]; cbn.
  - destruct (String.eqb (lq_Source q) LogSourceAgent), (String.eqb (lq_Source q) LogSourceOtel); cbn; by rewrite ?C, ?andb_true_r.
  - intros [A _]%agrees_cons. unfold string_arg. rewrite A, C, andb_true_r. apply eq_true_iff_eq.
    rewrite String.eqb_eq, bool_decide_eq_true, elem_of_cons, elem_of_nil. naive_solver.
  - intros [A _]%agrees_cons. unfold strings_arg. by rewrite A, C, andb_true_r.
Qed.

(** Arguments of the parts of a query that are not groups. *)
Lemma services_args q n x : (n, x) ∈ (services_where q).2 → n = NServiceName.
Proof.
  unfold services_where. destruct (lq_Services q) as [|s [|s' l]]; cbn; intros I; each_argument; done.
Qed.

Lemma services_consistent q : consistent (services_where q).2.
Proof.
  unfold services_where. intros n x y. destruct (lq_Services q) as [|s [|s' l]]; cbn; intros I I'; each_argument; done.
Qed.

Lemma time_args rollup q w vs : time_where rollup q = Some (w, vs) →
  consistent vs ∧ ∀ n x, (n, x) ∈ vs → n ∈ [NFrom; NTo; NSince].
Proof.
  unfold time_where. destruct rollup.
  - destruct (_ || _); intros E; simplify_eq. split; [intros ? ? ? I I'|intros ? ? I]; each_argument; try done; set_solver.
  - destruct (negb _); intros E; simplify_eq; (split; [intros ? ? ? I I'|intros ? ? I]; each_argument; try done; set_solver).
Qed.

Lemma filter_mapped_none {A B} (p : B → bool) (g : A → B) (c : A → bool) l :
  (∀ x, x ∈ l → c x = true → negb (p (g x)) = true) → List.filter p (map g (List.filter c l)) = [].
Proof.
  intros N. induction l as [|x l IH]; [done|]. cbn. specialize (IH (λ y I, N y (list_elem_of_further _ _ _ I))).
  destruct (c x) eqn:C; cbn; [|done]. specialize (N x (list_elem_of_here _ _) C). apply negb_true_iff in N. by rewrite N.
Qed.

Lemma join_empty {A} (g : A → messageSearch) (c : A → bool) l :
  (∀ x, x ∈ l → c x = true → ms_empty (g x) = true) → foldl join_search no_search (map g (List.filter c l)) = no_search.
Proof.
  intros N. induction l as [|x l IH]; [done|]. cbn. specialize (IH (λ y I, N y (list_elem_of_further _ _ _ I))).
  destruct (c x) eqn:C; cbn; [|done]. specialize (N x (list_elem_of_here _ _) C).
  apply andb_true_iff in N as [N1%bool_decide_eq_true N2%bool_decide_eq_true]. unfold join_search at 2. by rewrite N1, N2.
Qed.

Lemma no_search_where order fs :
  searches_message fs = false → message_where (Uniq order fs) = ([], []).
Proof.
  intros N.
  assert (A : ∀ f, f ∈ Uniq order fs → is_message f = true → ms_empty (parseMessageSearch (lf_Value f)) = true).
  { intros f I M. apply Uniq_elem in I. destruct (ms_empty _) eqn:E; [done|].
    apply not_true_iff_false in N. destruct N. apply existsb_exists. exists f. by rewrite <-list_elem_of_In, M, E. }
  assert (X : not_messages (Uniq order fs) = []).
  { apply filter_mapped_none. intros f I [M _]%andb_true_iff. by rewrite A. }
  assert (Y : message_of (Uniq order fs) = no_search).
  { apply join_empty. intros f I [M _]%andb_true_iff. by apply A. }
  unfold message_where. by rewrite X, Y.
Qed.
Lemma searches_Uniq order fs : searches_message (Uniq order fs) = searches_message fs.
Proof.
  apply eq_true_iff_eq. unfold searches_message. rewrite !existsb_exists. setoid_rewrite <-list_elem_of_In.
  split; intros (f & I & F); exists f; (split; [by apply Uniq_elem in I || by apply Uniq_elem|done]).
Qed.

Lemma grouped_elem attr order fs f : f ∈ grouped attr (Uniq order fs) ↔ f ∈ grouped attr fs.
Proof.
  unfold grouped. by rewrite !list_elem_of_In, !filter_In, <-!list_elem_of_In, Uniq_elem.
Qed.

Lemma consistent_app a b :
  consistent a → consistent b → (∀ n x y, (n, x) ∈ a → (n, y) ∈ b → False) → consistent (a ++ b).
Proof.
  intros Ca Cb D n x y [I|I]%elem_of_app [I'|I']%elem_of_app; eauto; exfalso; eauto.
Qed.

Lemma says_view env (rollup : bool) i j a (r : LogRow) :
  (rollup = true → rollup_has (lf_Name a) = true) →
  (∀ p vs, group_part rollup (lf_Name a) i j a = Some (p, vs) → agrees env vs) →
  says env (if rollup then rollup_view (rollup_key r) else raw_view r) (group_part rollup (lf_Name a) i j a) = asks r a.
Proof.
  destruct rollup; intros R A; [apply part_says_rollup; auto|by apply part_says_raw].
Qed.

Lemma built_selects order attr (rollup : bool) q w vs (r : LogRow) (v := if rollup then rollup_view (rollup_key r) else raw_view r) :
  buildFilters order attr rollup q = Some (w, vs) → searches_message (lq_Filters q) = false →
  ∃ wt vt, time_where rollup q = Some (wt, vt) ∧ agrees (lookup_arg vs) vt
    ∧ selects (w, vs) v
      = services_meet q r && (forallb (cond_holds (lookup_arg vs) v) wt && meets r (grouped attr (lq_Filters q))).
Proof.
  unfold buildFilters. intros B M. destruct (services_where q) as [w1 a1] eqn:E1.
  destruct (time_where rollup q) as [[w2 a2]|] eqn:E2; [|done].
  rewrite searches_Uniq, M, andb_false_r in B.
  set (fs := grouped attr (Uniq order (lq_Filters q))) in *. set (names := map_order (S order) (names_of fs)) in *.
  destruct (groups rollup 0 (by_name fs names)) as [[w3 a3]|] eqn:E3; [|done].
  rewrite no_search_where in B by done. simplify_eq. rewrite !app_nil_r.
  assert (N : NoDup names) by (unfold names, names_of; rewrite map_order_perm; apply NoDup_remove_dups).
  destruct (groups_consistent _ _ _ _ ltac:(by rewrite by_name_fst) E3) as [C3 B3].
  assert (S1 : ∀ n x, (n, x) ∈ (services_where q).2 → n = NServiceName) by apply services_args. assert (C1 := services_consistent q). rewrite E1 in S1, C1.
  destruct (time_args _ _ _ _ E2) as [C2 T2].
  assert (C : consistent (a1 ++ a2 ++ a3)).
  { apply consistent_app; [done|apply consistent_app; [done..|]|].
    - intros n x y I I'. destruct (B3 _ _ I') as (name & i & D). apply T2 in I.
      repeat (apply elem_of_cons in I as [->|I]; [done|]). by apply not_elem_of_nil in I.
    - intros n x y I [I'|I']%elem_of_app; apply S1 in I as ->.
      + apply T2 in I'. repeat (apply elem_of_cons in I' as [I'|I']; [done|]). by apply not_elem_of_nil in I'.
      + by destruct (B3 _ _ I') as (name & i & D). }
  apply lookup_arg_agrees in C as A. set (env := lookup_arg (a1 ++ a2 ++ a3)) in *.
  apply agrees_app in A as [A1 A]. apply agrees_app in A as [A2 A3].
  exists w2, a2. split_and!; [done..|]. unfold selects. cbn [fst snd]. fold env. rewrite !forallb_app. f_equal; [|f_equal].
  - replace w1 with (services_where q).1 by by rewrite E1.
    apply services_where_says; [|by rewrite E1]. unfold v. by destruct rollup.
  - erewrite groups_say; [|apply by_name_one_name| |exact E3|exact A3].
    + rewrite (by_name_meets r fs names); [apply meets_same; intros f; apply grouped_elem|].
      intros f I. unfold names, names_of. rewrite map_order_perm, elem_of_remove_dups. apply list_elem_of_fmap. by exists f.
    + intros a i j R Ha. by apply says_view.
Qed.

Lemma groups_of_raw i byName : ∃ w vs, groups false i byName = Some (w, vs).
Proof.
  revert i. induction byName as [|[name attrs] byName IH]; intros i; cbn; [by eexists _, _|].
  destruct (IH (S i)) as (w & vs & ->). destruct (group_parts false name i 0 attrs). by eexists _, _.
Qed.

Lemma filters_select order attr q r :
  lq_Since q = 0 → searches_message (lq_Filters q) = false →
  selects (filters order attr q) (raw_view r)
  = services_meet q r && (time_meets q r && meets r (grouped attr (lq_Filters q))).
Proof.
  intros T M. assert (B : ∃ w vs, buildFilters order attr false q = Some (w, vs)).
  { unfold buildFilters, time_where. destruct (services_where q). rewrite T. cbn.
    match goal with |- context [groups false 0 ?b] => destruct (groups_of_raw 0 b) as (w & vs & ->) end.
    destruct (message_where (Uniq order (lq_Filters q))). by eexists _, _. }
  destruct B as (w & vs & B). destruct (built_selects _ _ _ _ _ _ r B M) as (wt & vt & W & A & S).
  unfold filters. rewrite B. cbn [default]. etransitivity; [exact S|]. f_equal. f_equal.
  unfold time_where in W. rewrite T in W. cbn in W. simplify_eq. apply agrees_cons in A as [A1 A]. apply agrees_cons in A as [A2 _].
  cbn. unfold time_arg. by rewrite A1, A2, andb_true_r.
Qed.

Lemma rollup_needs order attr q w : rollupFilters order attr q = Some w →
  lq_Since q = 0 ∧ searches_message (lq_Filters q) = false ∧ Z.rem (ctx_From (lq_Ctx q)) 60 = 0 ∧ Z.rem (ctx_To (lq_Ctx q)) 60 = 0.
Proof.
  unfold rollupFilters, buildFilters, time_where. destruct (services_where q).
  destruct (Z.eqb_spec (lq_Since q) 0), (Z.eqb_spec (Z.rem (ctx_From (lq_Ctx q)) 60) 0), (Z.eqb_spec (Z.rem (ctx_To (lq_Ctx q)) 60) 0); try done.
  cbn [negb orb andb]. rewrite searches_Uniq. by destruct (searches_message (lq_Filters q)).
Qed.

Lemma rollup_selects order attr q w r :
  rollupFilters order attr q = Some w → l_Timestamp r ≠ nanos (ctx_To (lq_Ctx q)) →
  selects w (rollup_view (rollup_key r)) = services_meet q r && (time_meets q r && meets r (grouped attr (lq_Filters q))).
Proof.
  intros R T. destruct (rollup_needs _ _ _ _ R) as (N & M & F60 & T60). destruct w as [w vs].
  destruct (built_selects _ _ _ _ _ _ r R M) as (wt & vt & W & A & S). etransitivity; [exact S|]. f_equal. f_equal.
  unfold time_where in W. rewrite N, F60, T60 in W. cbn in W. simplify_eq. apply agrees_cons in A as [A1 A]. apply agrees_cons in A as [A2 _].
  cbn. unfold time_arg. rewrite A1, A2, andb_true_r. unfold time_meets, seconds_of, toStartOfMinute, nanos in *.
  rewrite !Z.div_mul by done.
  apply eq_true_iff_eq. rewrite !andb_true_iff, !Z.leb_le, Z.ltb_lt.
  apply Z.rem_divide in F60 as [a Ea], T60 as [b Eb]; [|done..]. rewrite Ea, Eb in *. clear -T.
  Z.to_euclidean_division_equations. lia.
Qed.

(** * Counting by key *)

Definition weigh (g : RollupKey → bool) (l : list (RollupKey * Z)) : Z :=
  foldr (λ p acc, (if g p.1 then p.2 else 0) + acc) 0 l.

Fixpoint over_keys (g : RollupKey → bool) (c : RollupKey → Z) (ks : list RollupKey) : Z :=
  match ks with [] => 0 | k :: ks => (if g k then c k else 0) + over_keys g c ks end.

Lemma over_keys_plus g c d ks : over_keys g (λ k, c k + d k) ks = over_keys g c ks + over_keys g d ks.
Proof.
  induction ks as [|k ks IH]; cbn; [done|]. rewrite IH. destruct (g k); lia.
Qed.

Lemma over_keys_ext g c d ks : (∀ k, c k = d k) → over_keys g c ks = over_keys g d ks.
Proof.
  intros E. induction ks as [|k ks IH]; cbn; [done|]. by rewrite IH, E.
Qed.

Lemma over_keys_one g k x ks :
  NoDup ks → over_keys g (λ k', if bool_decide (k = k') then x else 0) ks = if g k && bool_decide (k ∈ ks) then x else 0.
Proof.
  induction 1 as [|k' ks N D IH]; cbn; [by rewrite andb_false_r|]. rewrite IH.
  destruct (decide (k = k')) as [<-|Nk].
  - rewrite (bool_decide_eq_true_2 (k = k)), (bool_decide_eq_false_2 (k ∈ ks)), (bool_decide_eq_true_2 (k ∈ k :: ks)) by (try done; by left).
    destruct (g k); cbn; lia.
  - rewrite (bool_decide_eq_false_2 (k = k')) by done.
    replace (bool_decide (k ∈ k' :: ks)) with (bool_decide (k ∈ ks)) by (apply bool_decide_ext; rewrite elem_of_cons; naive_solver).
    destruct (g k'); lia.
Qed.

Lemma weigh_by_key g ks l :
  NoDup ks → (∀ k, k ∈ l.*1 → k ∈ ks) → weigh g l = over_keys g (λ k, count_key k l) ks.
Proof.
  intros N. induction l as [|[k x] l IH]; intros I.
  - cbn. clear. by induction ks as [|k ks IH]; cbn; [|rewrite <- IH; destruct (g k)].
  - cbn in I |- *. rewrite over_keys_plus, over_keys_one by done.
    rewrite (bool_decide_eq_true_2 (k ∈ ks)) by (apply I; by left). rewrite andb_true_r. f_equal.
    apply IH. intros k' I'. apply I. by right.
Qed.

Definition ones (rows : list LogRow) : list (RollupKey * Z) := map (λ r, (rollup_key r, 1)) rows.

Lemma weigh_ones g rows : weigh g (ones rows) = Z.of_nat (length (List.filter (λ r, g (rollup_key r)) rows)).
Proof.
  induction rows as [|r rows IH]; [done|]. cbn [ones map List.filter].
  change (weigh g ((rollup_key r, 1) :: map (λ r, (rollup_key r, 1)) rows))
    with ((if g (rollup_key r) then 1 else 0) + weigh g (ones rows)).
  rewrite IH. destruct (g (rollup_key r)); cbn [length]; lia.
Qed.

Lemma rollup_weighs rows rollup g : is_rollup rows rollup →
  weigh g rollup = Z.of_nat (length (List.filter (λ r, g (rollup_key r)) rows)).
Proof.
  intros R. rewrite <- weigh_ones. set (ks := remove_dups (rollup.*1 ++ (ones rows).*1)).
  rewrite !(weigh_by_key g ks) by (try apply NoDup_remove_dups; intros k I; apply elem_of_remove_dups, elem_of_app; tauto).
  apply over_keys_ext. intros k. rewrite (R k). symmetry. exact (weigh_ones (λ k', @bool_decide (k' = k) (decide_rel eq k' k)) rows).
Qed.

Lemma rollup_answers {X} `{EqDecision X} order order' attr q w (obs : RollupKey → X) (obs' : LogRow → X) x rows rollup :
  is_rollup rows rollup → (∀ r, r ∈ rows → l_Timestamp r ≠ nanos (ctx_To (lq_Ctx q))) →
  rollupFilters order attr q = Some w → (∀ r, obs (rollup_key r) = obs' r) →
  rollup_count w obs x rollup = raw_count (filters order' attr q) obs' x rows.
Proof.
  intros R T F O. unfold raw_count.
  etransitivity; [apply (rollup_weighs rows rollup (λ k, selects w (rollup_view k) && @bool_decide (obs k = x) (decide_rel eq (obs k) x)) R)|].
  f_equal. f_equal. apply filter_ext_in. intros r I%list_elem_of_In.
  destruct (rollup_needs _ _ _ _ F) as (N & M & _). rewrite O.
  by rewrite (rollup_selects _ _ _ _ _ F (T r I)), filters_select.
Qed.
End built.

Lemma bucket_of_minute step s : step = 60 * (step / 60) → 60 <= step → toStartOfInterval step (toStartOfMinute s) = toStartOfInterval step s.
Proof.
  intros D L. unfold toStartOfInterval, toStartOfMinute. f_equal. rewrite D.
  assert (1 <= step / 60) by (apply Z.div_le_lower_bound; lia).
  by rewrite Z.div_mul_cancel_l, <- Z.div_div by lia.
Qed.
End LogsFacts.

Module LogsTheorems.
Import LogsFacts.
Local Open Scope list_scope.

(** C18 The per-minute rollup answers exactly as the table of logs would: when the
    rollup's counts are those of the rows, and no row is stamped at the very end
    of the window, the histogram and each facet count are, for every bucket and
    value, those of the query over the raw rows, whatever the order in which the
    two queries go through their maps, and whichever of the two is asked. *)
Theorem rollup_is_exact `{MapOrder} `{LowerCase} `{TextFunctions} q rows rollup :
  is_rollup rows rollup → (∀ r, r ∈ rows → l_Timestamp r ≠ nanos (ctx_To (lq_Ctx q))) →
  (∀ order order' x,
     GetLogsHistogram order order' q rows rollup x
     = raw_count (filters order' None q) (raw_bucket (ctx_Step (lq_Ctx q))) x rows)
  ∧ (∀ order order' f x,
     GetLogFacetCounts order order' q f rows rollup x
     = raw_count (filters order' (Some (facet_name f)) q) (raw_facet f) x rows).
Proof.
  intros R T. split; [intros order order' x|intros order order' f x]; unfold GetLogsHistogram, GetLogFacetCounts.
  - destruct (rollupFilters order None q) as [w|] eqn:F; [|done].
    destruct ((60 <=? ctx_Step (lq_Ctx q)) && _) eqn:E; [|done]. apply andb_true_iff in E as [E1%Z.leb_le E2%Z.eqb_eq].
    apply (rollup_answers order order' None q w _ _ x rows rollup R T F). intros r. unfold rollup_bucket, raw_bucket. cbn [ru_Minute rollup_key ru_SeverityNumber].
    f_equal. apply bucket_of_minute; [|done]. clear -E1 E2. Z.to_euclidean_division_equations. lia.
  - destruct (rollupFilters order (Some (facet_name f)) q) as [w|] eqn:F; [|done].
    apply (rollup_answers order order' (Some (facet_name f)) q w _ _ x rows rollup R T F). by destruct f.
Qed.

(** The class a severity number is counted under is its level, but for the
    last number of each level, which is counted under the next one: a filter by
    level, which uses the ranges, and the counts disagree on it. *)
Theorem severity_class_is_off k n :
  Severity.SeverityTrace <= k <= Severity.SeverityFatal →
  (Severity.Range k).1 <= n <= (Severity.Range k).2 →
  severity_class n = if n =? (Severity.Range k).2 then k + 1 else k.
Proof.
  unfold Severity.SeverityTrace, Severity.SeverityFatal. intros K N.
  assert (Hk : k = 1 ∨ k = 2 ∨ k = 3 ∨ k = 4 ∨ k = 5 ∨ k = 6) by lia.
  unfold severity_class. destruct Hk as [->|[->|[->|[->|[->| ->]]]]]; cbn in N |- *;
    destruct (Z.eqb_spec n 0); try lia; match goal with |- _ = if n =? ?b then _ else _ => destruct (Z.eqb_spec n b) end;
    Z.to_euclidean_division_equations; lia.
Qed.
End LogsTheorems.

Module LogsRuns.
Import LogsTheorems.
Local Open Scope list_scope.

#[local] Instance run_order : MapOrder := {| map_order _ _ l := l; map_order_perm _ _ l := reflexivity l |}.
#[local] Instance run_lower : LowerCase := {| lower_beyond_ascii r := r |}.
#[local] Instance run_text : TextFunctions :=
  {| ch_match t re := String.prefix re t; has_all_tokens t l := forallb (λ w, existsb (String.eqb w) (Utils.Fields t)) l;
     has_substring t s := bool_decide (s = t) |}.

Definition run_row (ns severity : Z) (service host : string) : LogRow :=
  {| l_Timestamp := ns; l_TraceId := "t"; l_SeverityNumber := severity; l_ServiceName := service; l_Body := "hello";
     l_ResourceAttributes := ∅; l_LogAttributes := {[ "host.name" := host ]}; l_Namespace := "n/a"; l_Application := service |}.

Definition run_rows : list LogRow :=
  [run_row 61000000000 9 "front" "h1"; run_row 62000000000 9 "front" "h1"; run_row 130000000000 17 "front" "h2"].

Definition run_rollup : list (RollupKey * Z) :=
  [(rollup_key (run_row 60000000000 9 "front" "h1"), 1); (rollup_key (run_row 120000000000 17 "front" "h2"), 1);
   (rollup_key (run_row 60000000000 9 "front" "h1"), 1)].

Definition run_query : LogQuery :=
  {| lq_Ctx := NewContext 60 180 60; lq_Source := ""; lq_Services := [];
     lq_Filters := [{| lf_Name := "host.name"; lf_Op := "!="; lf_Value := "h2" |}; {| lf_Name := "Severity"; lf_Op := "="; lf_Value := "info" |}];
     lq_Limit := 10; lq_Since := 0; lq_Sort := {| so_By := ""; so_Dir := "" |} |}.

Lemma run_is_rollup : is_rollup run_rows run_rollup.
Proof.
  intros k. unfold run_rows, run_rollup, count_key. cbn [foldr List.filter fst snd].
  rewrite <- (eq_refl : rollup_key (run_row 60000000000 9 "front" "h1") = rollup_key (run_row 61000000000 9 "front" "h1")).
  rewrite <- (eq_refl : rollup_key (run_row 60000000000 9 "front" "h1") = rollup_key (run_row 62000000000 9 "front" "h1")).
  rewrite <- (eq_refl : rollup_key (run_row 120000000000 17 "front" "h2") = rollup_key (run_row 130000000000 17 "front" "h2")).
  destruct (bool_decide (rollup_key (run_row 60000000000 9 "front" "h1") = k)), (bool_decide (rollup_key (run_row 120000000000 17 "front" "h2") = k)); done.
Qed.

Lemma run_not_at_end r : r ∈ run_rows → l_Timestamp r ≠ nanos (ctx_To (lq_Ctx run_query)).
Proof.
  intros I. repeat (apply elem_of_cons in I as [->|I]; [done|]). by apply not_elem_of_nil in I.
Qed.

(** Two lines of the first minute, asked of the rollup. *)
Lemma rollup_is_exact_witness :
  is_rollup run_rows run_rollup ∧ rollupFilters 0 None run_query ≠ None
  ∧ raw_count (filters 1 None run_query) (raw_bucket 60) (3, 60) run_rows = 2
  ∧ GetLogsHistogram 0 1 run_query run_rows run_rollup (3, 60)
    = raw_count (filters 1 None run_query) (raw_bucket 60) (3, 60) run_rows.
Proof.
  split; [exact run_is_rollup|]. split; [by vm_compute|]. split; [by vm_compute|].
  exact (proj1 (rollup_is_exact run_query run_rows run_rollup run_is_rollup run_not_at_end) 0%nat 1%nat (3, 60)).
Defined.

Lemma severity_class_is_off_witness : severity_class 12 = 4 ∧ Severity.Range Severity.SeverityInfo = (9, 12).
Proof.
  split; [|done]. exact (severity_class_is_off Severity.SeverityInfo 12 ltac:(done) ltac:(done)).
Defined.
End LogsRuns.
