(* ===== verification/GoNet.v ===== *)
(** What the collector uses of package net: [ParseIP], the kinds of an IP, and
    the joining and splitting of a host and a port. *)

From Stdlib Require Import ZArith Lia Bool String Ascii.
From S2P Require Import Prelude GoStrings FlameGraph.
Import FilepathFacts GoPath.

Local Open Scope string_scope.
Local Open Scope N_scope.

Module Net.

(** * IP addresses: sixteen bytes, those of version 4 mapped *)

Definition IP := list N.

Definition digit (c : ascii) : option N :=
  let n := N_of_ascii c in if (48 <=? n) && (n <=? 57) then Some (n - 48) else None.

Definition hex_digit (c : ascii) : option N :=
  let n := N_of_ascii c in
  if (48 <=? n) && (n <=? 57) then Some (n - 48)
  else if (97 <=? n) && (n <=? 102) then Some (n - 87)
  else if (65 <=? n) && (n <=? 70) then Some (n - 55)
  else None.

(** An octet: digits, none after a leading zero, at most 255. *)
Fixpoint octet_digits (s : string) (val : N) : option N :=
  match s with
  | EmptyString => Some val
  | String c s =>
      match digit c with
      | Some d => let val := val * 10 + d in if 255 <? val then None else octet_digits s val
      | None => None
      end
  end.

Definition octet (s : string) : option N :=
  match s with
  | EmptyString => None
  | String "0" (String _ _) => None
  | _ => octet_digits s 0
  end.

Definition parseIPv4Fields (s : string) : option (list N) :=
  match map octet (Split "." s) with
  | [Some a; Some b; Some c; Some d] => Some [a; b; c; d]
  | _ => None
  end.

Definition v4_prefix : list N := [0; 0; 0; 0; 0; 0; 0; 0; 0; 0; 255; 255].

(** The group at the start of [s]: its value and what follows it; at most four
    digits. *)
Fixpoint hex_group (digits : nat) (acc : N) (s : string) : option (nat * N * string) :=
  match s with
  | EmptyString => Some (digits, acc, s)
  | String c s' =>
      match hex_digit c with
      | Some d => if (3 <? digits)%nat then None else hex_group (S digits) (acc * 16 + d) s'
      | None => Some (digits, acc, s)
      end
  end.

(** The loop over the groups: the bytes so far, the place of [::] if it was met,
    and what is left of the text. *)
Fixpoint groups_v6 (fuel : nat) (ip : list N) (ellipsis : option nat) (s : string) : option (list N * option nat * string) :=
  match fuel with
  | O => Some (ip, ellipsis, s)
  | S fuel =>
      match hex_group 0 0 s with
      | None | Some (O, _, _) => None
      | Some (_, acc, rest) =>
          match rest with
          | String "." _ =>
              if match ellipsis with None => negb (length ip =? 12)%nat | Some _ => false end then None
              else if (16 <? length ip + 4)%nat then None
              else match parseIPv4Fields s with
                   | Some v4 => Some ((ip ++ v4)%list, ellipsis, EmptyString)
                   | None => None
                   end
          | _ =>
              let ip := (ip ++ [acc / 256; acc mod 256])%list in
              match rest with
              | EmptyString => Some (ip, ellipsis, EmptyString)
              | String ":" (String ":" rest) =>
                  match ellipsis with
                  | Some _ => None
                  | None =>
                      match rest with
                      | EmptyString => Some (ip, Some (length ip), EmptyString)
                      | _ => groups_v6 fuel ip (Some (length ip)) rest
                      end
                  end
              | String ":" (String _ _ as rest) => groups_v6 fuel ip ellipsis rest
              | _ => None
              end
          end
      end
  end.

Definition expand (r : list N * option nat * string) : option IP :=
  let '(ip, ellipsis, s) := r in
  match s with
  | String _ _ => None
  | EmptyString =>
      if (length ip <? 16)%nat then
        match ellipsis with
        | None => None
        | Some e => Some (take e ip ++ replicate (16 - length ip) 0 ++ drop e ip)%list
        end
      else match ellipsis with Some _ => None | None => Some ip end
  end.

(** A zone makes it no IP.  Eight groups fill the address. *)
Definition parseIPv6 (s : string) : option IP :=
  match s with
  | String ":" (String ":" EmptyString) => Some (replicate 16 0)
  | String ":" (String ":" rest) => groups_v6 8 [] (Some 0%nat) rest ≫= expand
  | _ => groups_v6 8 [] None s ≫= expand
  end.

Fixpoint first_of (s : string) : option ascii :=
  match s with
  | EmptyString => None
  | String c s => if same c "." || same c ":" || same c "%" then Some c else first_of s
  end.

Definition ParseIP (s : string) : option IP :=
  match first_of s with
  | Some "."%char => (λ v4, v4_prefix ++ v4)%list <$> parseIPv4Fields s
  | Some ":"%char => if contains "%" s then None else parseIPv6 s
  | _ => None
  end.

Definition To4 (ip : IP) : option (list N) :=
  if bool_decide (length ip = 16%nat ∧ take 12 ip = v4_prefix) then Some (drop 12 ip) else None.

Definition IPv6loopback : IP := (replicate 15 0 ++ [1])%list.

Definition IsLoopback (ip : IP) : bool :=
  match To4 ip with
  | Some (a :: _) => a =? 127
  | _ => bool_decide (ip = IPv6loopback)
  end.

Definition IsUnspecified (ip : IP) : bool :=
  bool_decide (ip = (v4_prefix ++ [0; 0; 0; 0])%list) || bool_decide (ip = replicate 16 0).

Definition IsLinkLocalUnicast (ip : IP) : bool :=
  match To4 ip with
  | Some (a :: b :: _) => (a =? 169) && (b =? 254)
  | _ => match ip with a :: b :: _ => (a =? 254) && (N.land b 192 =? 128) | _ => false end
  end.

(** * Hosts and ports *)

Local Open Scope Z_scope.

Definition JoinHostPort (host port : string) : string :=
  if contains ":" host then "[" ++ host ++ "]:" ++ port else host ++ ":" ++ port.

(** The index of the first byte [c], -1 for none. *)
Fixpoint IndexByte (s : string) (c : ascii) : Z :=
  match s with
  | EmptyString => -1
  | String d s' => if same c d then 0 else let i := IndexByte s' c in if 0 <=? i then i + 1 else -1
  end.

Definition slice (s : string) (i j : Z) : string := stake (Z.to_nat (j - i)) (sdrop (Z.to_nat i) s).

(** [None] for each of its errors. *)
Definition SplitHostPort (hostport : string) : option (string * string) :=
  let i := LastIndexByte hostport ":" in
  let n := Z.of_nat (String.length hostport) in
  if i <? 0 then None
  else
    let found :=
      match hostport with
      | String "[" _ =>
          let e := IndexByte hostport "]" in
          if e <? 0 then None
          else if e + 1 =? i then Some (slice hostport 1 e, 1, e + 1)
          else None
      | _ =>
          let host := upto hostport i in
          if contains ":" host then None else Some (host, 0, 0)
      end in
    match found with
    | None => None
    | Some (host, j, k) =>
        if contains "[" (from hostport j) then None
        else if contains "]" (from hostport k) then None
        else Some (host, slice hostport (i + 1) n)
    end.

End Net.

Module NetFacts.
Local Open Scope Z_scope.
Import Net.

Lemma LastIndexByte_none c s : contains c s = false → LastIndexByte s c = -1.
Proof.
  induction s as [|d s IH]; [done|]. cbn. intros [N1 N2]%orb_false_iff. rewrite IH by done. cbn.
  unfold same in *. by rewrite Ascii.eqb_sym, N1 || rewrite N1.
Qed.

Lemma LastIndexByte_app c a s :
  contains c s = false → LastIndexByte (a ++ String c s) c = Z.of_nat (String.length a).
Proof.
  intros N. induction a as [|d a IH].
  - change ("" ++ String c s) with (String c s). cbn [LastIndexByte]. rewrite LastIndexByte_none by done. unfold same. by rewrite Ascii.eqb_refl.
  - rewrite append_cons. cbn [LastIndexByte]. rewrite IH. cbn [String.length].
    destruct (Z.leb_spec 0 (Z.of_nat (String.length a))); lia.
Qed.

Lemma IndexByte_app c a s :
  contains c a = false → IndexByte (a ++ String c s) c = Z.of_nat (String.length a).
Proof.
  induction a as [|d a IH].
  - intros _. change ("" ++ String c s) with (String c s). cbn [IndexByte]. unfold same. by rewrite Ascii.eqb_refl.
  - cbn [contains]. intros [N1 N2]%orb_false_iff. rewrite append_cons. cbn [IndexByte].
    replace (same c d) with false by (unfold same in *; by rewrite Ascii.eqb_sym). rewrite IH by done. cbn [String.length].
    destruct (Z.leb_spec 0 (Z.of_nat (String.length a))); lia.
Qed.

Lemma contains_app c a b : contains c (a ++ b) = contains c a || contains c b.
Proof. induction a as [|d a IH]; [done|]. rewrite append_cons. cbn. by rewrite IH, orb_assoc. Qed.

Lemma stake_app a b : stake (String.length a) (a ++ b) = a.
Proof. induction a as [|d a IH]; [by destruct b|]. rewrite append_cons. cbn. by rewrite IH. Qed.

Lemma sdrop_app a b : sdrop (String.length a) (a ++ b) = b.
Proof. induction a as [|d a IH]; [by destruct b|]. rewrite append_cons. cbn. apply IH. Qed.

Lemma stake_whole s : stake (String.length s) s = s.
Proof. induction s as [|d s IH]; [done|]. cbn. by rewrite IH. Qed.

Lemma length_append a b : String.length (a ++ b) = (String.length a + String.length b)%nat.
Proof. induction a as [|d a IH]; [done|]. rewrite append_cons. cbn. by rewrite IH. Qed.

(** A host and a port joined are split again. *)
Lemma SplitHostPort_JoinHostPort host port :
  contains "[" host = false → contains "]" host = false →
  contains "[" port = false → contains "]" port = false → contains ":" port = false →
  SplitHostPort (JoinHostPort host port) = Some (host, port).
Proof.
  intros H1 H2 P1 P2 P3. unfold JoinHostPort, SplitHostPort. destruct (contains ":" host) eqn:C.
  - set (s := "[" ++ host ++ "]:" ++ port).
    assert (Es : s = ("[" ++ host ++ "]") ++ String ":" port) by (unfold s; by rewrite <- !append_assoc).
    assert (Ei : LastIndexByte s ":" = Z.of_nat (String.length host) + 2).
    { rewrite Es, LastIndexByte_app by done. rewrite !length_append. cbn. lia. }
    assert (Eb : IndexByte s "]" = Z.of_nat (String.length host) + 1).
    { unfold s. change ("[" ++ host ++ "]:" ++ port) with (String "[" (host ++ "]:" ++ port)). cbn [IndexByte same Ascii.eqb Bool.eqb].
      change ("]:" ++ port) with (String "]" (":" ++ port)). rewrite IndexByte_app by done.
      destruct (Z.leb_spec 0 (Z.of_nat (String.length host))); lia. }
    assert (En : Z.of_nat (String.length s) = Z.of_nat (String.length host) + 3 + Z.of_nat (String.length port)).
    { rewrite Es, !length_append. cbn. lia. }
    rewrite Ei, En. unfold s at 1. change ("[" ++ host ++ "]:" ++ port) with (String "[" (host ++ "]:" ++ port)). cbv iota.
    rewrite Eb. destruct (Z.ltb_spec (Z.of_nat (String.length host) + 2) 0), (Z.ltb_spec (Z.of_nat (String.length host) + 1) 0); try lia.
    destruct (Z.eqb_spec (Z.of_nat (String.length host) + 1 + 1) (Z.of_nat (String.length host) + 2)); [|lia].
    assert (Es1 : from s 1 = host ++ "]:" ++ port) by done.
    assert (Esk : from s (Z.of_nat (String.length host) + 1 + 1) = String ":" port).
    { unfold from. replace (Z.to_nat (Z.of_nat (String.length host) + 1 + 1)) with (String.length ("[" ++ host ++ "]"))
        by (rewrite !length_append; cbn; lia). by rewrite Es, sdrop_app. }
    rewrite Es1, Esk, !contains_app, H1. cbn [contains same Ascii.eqb Bool.eqb orb]. rewrite P1, P2. cbn [orb].
    f_equal. f_equal.
    + unfold slice. replace (Z.to_nat (Z.of_nat (String.length host) + 1 - 1)) with (String.length host) by lia.
      change (sdrop (Z.to_nat 1) s) with (host ++ "]:" ++ port). apply stake_app.
    + unfold slice. replace (Z.to_nat (Z.of_nat (String.length host) + 2 + 1)) with (S (String.length ("[" ++ host ++ "]")))
        by (rewrite !length_append; cbn; lia).
      replace (Z.to_nat _) with (String.length port) by lia.
      replace s with ((("[" ++ host ++ "]") ++ ":") ++ port) by (rewrite Es, <- append_assoc; done).
      replace (S (String.length ("[" ++ host ++ "]"))) with (String.length (("[" ++ host ++ "]") ++ ":")) by (rewrite !length_append; cbn; lia).
      rewrite sdrop_app. apply stake_whole.
  - set (s := host ++ ":" ++ port). assert (Es : s = host ++ String ":" port) by done.
    assert (Ei : LastIndexByte s ":" = Z.of_nat (String.length host)) by (rewrite Es; by apply LastIndexByte_app).
    assert (En : Z.of_nat (String.length s) = Z.of_nat (String.length host) + 1 + Z.of_nat (String.length port)).
    { rewrite Es, !length_append. cbn. lia. }
    assert (Hd : match s with String "[" _ => false | _ => true end = true).
    { unfold s. destruct host as [|d host]; [done|]. rewrite append_cons. cbn in H1. apply orb_false_iff in H1 as [H1 _].
      unfold same in H1. by destruct d as [[] [] [] [] [] [] [] []]. }
    assert (Eu : upto s (Z.of_nat (String.length host)) = host).
    { unfold upto. rewrite Nat2Z.id. apply stake_app. }
    rewrite Ei, En. destruct (Z.ltb_spec (Z.of_nat (String.length host)) 0); [lia|].
    assert (F : match s with
            | String "[" _ =>
                let e := IndexByte s "]" in
                if e <? 0 then None else if e + 1 =? Z.of_nat (String.length host) then Some (slice s 1 e, 1, e + 1) else None
            | _ => if contains ":" (upto s (Z.of_nat (String.length host))) then None
                   else Some (upto s (Z.of_nat (String.length host)), 0, 0)
            end = Some (host, 0, 0)).
    { rewrite Eu, C. by destruct s as [|[[] [] [] [] [] [] [] []] s]. }
    cbv zeta in F |- *. rewrite F. change (from s 0) with s. rewrite Es, !contains_app, H1, H2. cbn [contains same Ascii.eqb Bool.eqb orb].
    rewrite P1, P2. cbn [orb]. f_equal. f_equal. unfold slice.
    replace (Z.to_nat (Z.of_nat (String.length host) + 1)) with (String.length (host ++ ":")) by (rewrite length_append; cbn; lia).
    replace (Z.to_nat _) with (String.length port) by lia.
    replace (host ++ String ":" port) with ((host ++ ":") ++ port) by by rewrite <- append_assoc.
    rewrite sdrop_app. apply stake_whole.
Qed.

Example v4 : ParseIP "10.42.0.200" = Some (v4_prefix ++ [10; 42; 0; 200])%N%list := eq_refl.
Example v4_zero : ParseIP "10.042.0.1" = None := eq_refl.
Example v6 : ParseIP "fe80::1:2" = Some [254; 128; 0; 0; 0; 0; 0; 0; 0; 0; 0; 0; 0; 1; 0; 2]%N := eq_refl.
Example v6_mapped : ParseIP "::ffff:1.2.3.4" = ParseIP "1.2.3.4" := eq_refl.
Example v6_short : (ParseIP "1:2:3", ParseIP "1::2::3", ParseIP "::", ParseIP "fe80::1%eth0") = (None, None, Some (replicate 16 0%N), None) := eq_refl.
Example split_v6 : SplitHostPort "[::1]:80" = Some ("::1", "80") := eq_refl.
Example split_bad : (SplitHostPort "::1", SplitHostPort "1.2.3.4", SplitHostPort "[::1]80", SplitHostPort "a:b:c") = (None, None, None, None) := eq_refl.
End NetFacts.
