(* ===== verification/SpanCounting.v ===== *)
(** Which span of a request is counted (collector/request_counting.go).

    Times are nanoseconds since the zero time: now is later than any
    [serverSpanMemory] after it. *)

From Stdlib Require Import ZArith Lia Bool String Ascii.
From S2P Require Import Prelude GoStrings.

Local Open Scope string_scope.
Local Open Scope Z_scope.

Definition NanosPerSecond : Z := 1000000000.
Definition serverSpanMemory : Z := 3600 * NanosPerSecond.
Definition serverSpanSourcesMaxHold : Z := 30 * NanosPerSecond.

Definition span_attr (span : gmap string string) (name : string) : string := default "" (span !! name).
Definition is_set (s : string) : bool := negb (String.eqb s "").

Definition requestProtocol (span : gmap string string) : string :=
  let a := span_attr span in
  if is_set (a "db.system") then a "db.system"
  else if String.eqb (a "rpc.system") "grpc" || is_set (a "rpc.grpc.status_code") then "grpc"
  else if is_set (a "http.method") || is_set (a "http.request.method") then "http"
  else "".

(** A server and a protocol. *)
Notation serverProtocol := (string * string)%type.

Record serverSpanSources := {
  byAgent : gmap serverProtocol Z;
  bySDK : gmap serverProtocol Z;
  lastPrune : Z;
}.

Record serverSpanSource := { so_server : string; so_protocol : string; so_fromAgent : bool; so_lastSeen : Z }.

Definition newServerSpanSources : serverSpanSources := {| byAgent := ∅; bySDK := ∅; lastPrune := 0 |}.

(** The spans of the agent, or of the SDK. *)
Definition sources (fromAgent : bool) (s : serverSpanSources) : gmap serverProtocol Z := if fromAgent then byAgent s else bySDK s.

Definition set_source (fromAgent : bool) (key : serverProtocol) (at_ : Z) (s : serverSpanSources) : serverSpanSources :=
  if fromAgent then {| byAgent := <[key := at_]> (byAgent s); bySDK := bySDK s; lastPrune := lastPrune s |}
  else {| byAgent := byAgent s; bySDK := <[key := at_]> (bySDK s); lastPrune := lastPrune s |}.

Definition remembered (now : Z) (p : serverProtocol * Z) : Prop := now - p.2 < serverSpanMemory.

Definition prune (now : Z) (s : serverSpanSources) : serverSpanSources :=
  if now - lastPrune s <? serverSpanMemory then s
  else {| byAgent := filter (λ p, now - p.2 < serverSpanMemory) (byAgent s);
          bySDK := filter (λ p, now - p.2 < serverSpanMemory) (bySDK s); lastPrune := now |}.

Definition recent (fromAgent : bool) (s : serverSpanSources) (key : serverProtocol) (now : Z) : bool :=
  match sources fromAgent s !! key with Some at_ => now - at_ <? serverSpanMemory | None => false end.

Definition counted (spanKind : string) (fromAgent : bool) (server protocol : string) (now : Z) (s : serverSpanSources)
    : bool * serverSpanSources :=
  let key := (server, protocol) in
  let s := prune now s in
  if String.eqb spanKind "SPAN_KIND_SERVER" then
    if String.eqb protocol "" then (true, s)
    else
      let s := set_source fromAgent key now s in
      (if fromAgent then negb (recent false s key now) else true, s)
  else if String.eqb spanKind "SPAN_KIND_CLIENT" then
    if String.eqb protocol "" then (true, s)
    else (negb (recent true s key now) && negb (recent false s key now), s)
  else (true, s).

(** One row: the later time is kept. *)
Definition remember_source (s : serverSpanSources) (r : serverSpanSource) : serverSpanSources :=
  let key := (so_server r, so_protocol r) in
  if default 0 (sources (so_fromAgent r) s !! key) <? so_lastSeen r then set_source (so_fromAgent r) key (so_lastSeen r) s else s.

Definition remember_sources (s : serverSpanSources) (rows : list serverSpanSource) : serverSpanSources := foldl remember_source s rows.

Module SpanCountingFacts.
Local Open Scope list_scope.

(** What has been seen: server spans of a protocol, here or in the rows read. *)
Record seen := { s_fromAgent : bool; s_key : serverProtocol; s_at : Z }.

Definition seen_lately (h : list seen) (fromAgent : bool) (key : serverProtocol) (now : Z) : bool :=
  existsb (λ r, Bool.eqb (s_fromAgent r) fromAgent && bool_decide (s_key r = key) && (now - s_at r <? serverSpanMemory)) h.

(** From [clock] on the sources tell what the history does. *)
Definition knows (s : serverSpanSources) (h : list seen) (clock : Z) : Prop :=
  (∀ fromAgent key now, clock ≤ now → recent fromAgent s key now = seen_lately h fromAgent key now)
  ∧ (∀ fromAgent key at_, sources fromAgent s !! key = Some at_ → at_ ≤ clock)
  ∧ (∀ r, r ∈ h → s_at r ≤ clock).

Lemma knows_later s h clock clock' : clock ≤ clock' → knows s h clock → knows s h clock'.
Proof. intros L (K & A & H). split_and!; [intros; apply K; lia|intros; etransitivity; eauto..]. Qed.

Lemma knows_new clock : knows newServerSpanSources [] clock.
Proof.
  split_and!; [by intros [] key now _|by intros [] key at_ [=]|by intros r ?%not_elem_of_nil].
Qed.

Lemma sources_prune fromAgent s now :
  sources fromAgent (prune now s) =
  if now - lastPrune s <? serverSpanMemory then sources fromAgent s
  else filter (λ p, now - p.2 < serverSpanMemory) (sources fromAgent s).
Proof. unfold prune. by destruct (now - lastPrune s <? serverSpanMemory), fromAgent. Qed.

(** Pruning at a time is not observed from that time on. *)
Lemma recent_prune fromAgent s key now now' : now ≤ now' → recent fromAgent (prune now s) key now' = recent fromAgent s key now'.
Proof.
  intros L. unfold recent. rewrite sources_prune. destruct (now - lastPrune s <? serverSpanMemory); [done|].
  destruct (sources fromAgent s !! key) as [at_|] eqn:E.
  - destruct (decide (now - at_ < serverSpanMemory)) as [Lt|Ge].
    + by rewrite (map_lookup_filter_Some_2 _ _ _ _ E Lt).
    + rewrite (map_lookup_filter_None_2 (λ p, now - p.2 < serverSpanMemory)); [|right; intros ? E'; rewrite E in E'; by simplify_eq].
      symmetry. apply Z.ltb_ge. lia.
  - by rewrite (map_lookup_filter_None_2 (λ p, now - p.2 < serverSpanMemory)) by by left.
Qed.

Lemma knows_prune s h clock now : clock ≤ now → knows s h clock → knows (prune now s) h now.
Proof.
  intros L (K & A & H). split_and!.
  - intros fromAgent key now' L'. rewrite recent_prune by done. apply K. lia.
  - intros fromAgent key at_ E. rewrite sources_prune in E. etransitivity; [|exact L].
    destruct (now - lastPrune s <? serverSpanMemory); [by eapply A|]. apply map_lookup_filter_Some in E as [E _]. by eapply A.
  - intros r I. etransitivity; [by apply H|done].
Qed.

Lemma sources_set fromAgent fromAgent' key at_ s :
  sources fromAgent (set_source fromAgent' key at_ s) = if Bool.eqb fromAgent fromAgent' then <[key := at_]> (sources fromAgent s) else sources fromAgent s.
Proof. by destruct fromAgent, fromAgent'. Qed.

(** A source set to a time not before the one it had. *)
Lemma knows_set s h clock fromAgent key at_ :
  knows s h clock → at_ ≤ clock → (∀ old, sources fromAgent s !! key = Some old → old ≤ at_) →
  knows (set_source fromAgent key at_ s) ({| s_fromAgent := fromAgent; s_key := key; s_at := at_ |} :: h) clock.
Proof.
  intros (K & A & H) L Later. split_and!.
  - intros fromAgent' key' now L'. unfold recent. rewrite sources_set. cbn.
    specialize (K fromAgent' key' now L'). unfold recent in K.
    destruct (Bool.eqb_spec fromAgent' fromAgent) as [->|Ne].
    + rewrite eqb_reflx. destruct (decide (key = key')) as [<-|Nk].
      * rewrite lookup_insert_eq, bool_decide_eq_true_2 by done. cbn. fold (seen_lately h fromAgent key now). rewrite <- K.
        destruct (sources fromAgent s !! key) as [old|] eqn:E; [|by rewrite orb_false_r].
        specialize (Later old eq_refl). destruct (Z.ltb_spec (now - at_) serverSpanMemory); [done|]. symmetry. apply Z.ltb_ge. lia.
      * rewrite lookup_insert_ne by done. rewrite bool_decide_eq_false_2 by done. cbn. exact K.
    + replace (Bool.eqb fromAgent fromAgent') with false by by destruct fromAgent, fromAgent'. cbn. exact K.
  - intros fromAgent' key' old E. rewrite sources_set in E. destruct (Bool.eqb fromAgent' fromAgent); [|by eapply A].
    apply lookup_insert_Some in E as [[_ <-]|[_ E]]; [done|by eapply A].
  - intros r [->|I]%elem_of_cons; [done|by apply H].
Qed.

Definition row_seen (r : serverSpanSource) : seen :=
  {| s_fromAgent := so_fromAgent r; s_key := (so_server r, so_protocol r); s_at := so_lastSeen r |}.

(** A row that is not later than what is known adds nothing. *)
Lemma knows_remember s h clock rows :
  knows s h clock → Forall (λ r, 0 < so_lastSeen r ≤ clock) rows → knows (remember_sources s rows) (rev (map row_seen rows) ++ h) clock.
Proof.
  unfold remember_sources. intros K F. revert s h K. induction F as [|r rows Lr F IH]; intros s h K; [done|]. cbn.
  rewrite <-app_assoc. apply IH. unfold remember_source. cbv zeta.
  destruct (Z.ltb_spec (default 0 (sources (so_fromAgent r) s !! (so_server r, so_protocol r))) (so_lastSeen r)) as [Lt|Ge].
  - apply knows_set; [done|lia|]. intros old E. rewrite E in Lt. simpl in Lt. lia.
  - destruct K as (K & A & H). split_and!; [|done|intros q [->|I]%elem_of_cons; [cbn; lia|by apply H]].
    intros fromAgent key now L. rewrite K by done. cbn.
    destruct (Bool.eqb_spec (so_fromAgent r) fromAgent) as [<-|]; [|done]. cbn.
    destruct (decide ((so_server r, so_protocol r) = key)) as [<-|Nk]; [|rewrite bool_decide_eq_false_2 by exact Nk; done].
    rewrite bool_decide_eq_true_2 by done. cbn. fold (seen_lately h (so_fromAgent r) (so_server r, so_protocol r) now).
    rewrite <- (K _ _ _ L). unfold recent.
    destruct (sources (so_fromAgent r) s !! (so_server r, so_protocol r)) as [old|]; cbn in Ge; [|lia].
    destruct (Z.ltb_spec (now - so_lastSeen r) serverSpanMemory); [|done]. apply Z.ltb_lt. lia.
Qed.

(** * A run: spans counted and rows read, as the clock goes on *)

Inductive event :=
| Span (spanKind : string) (fromAgent : bool) (server protocol : string) (now : Z)
| Rows (rows : list serverSpanSource) (now : Z).

Definition event_time (e : event) : Z := match e with Span _ _ _ _ now | Rows _ now => now end.

Definition run_event (s : serverSpanSources) (e : event) : serverSpanSources :=
  match e with
  | Span spanKind fromAgent server protocol now => (counted spanKind fromAgent server protocol now s).2
  | Rows rows _ => remember_sources s rows
  end.

Definition run (events : list event) : serverSpanSources := foldl run_event newServerSpanSources events.

Definition event_seen (e : event) : list seen :=
  match e with
  | Span spanKind fromAgent server protocol now =>
      if String.eqb spanKind "SPAN_KIND_SERVER" && negb (String.eqb protocol "")
      then [{| s_fromAgent := fromAgent; s_key := (server, protocol); s_at := now |}] else []
  | Rows rows _ => rev (map row_seen rows)
  end.

Definition history (events : list event) : list seen := foldl (λ h e, event_seen e ++ h) [] events.

(** The clock does not go back, and no row is from its future. *)
Fixpoint in_order (clock : Z) (events : list event) : Prop :=
  match events with
  | [] => True
  | e :: events =>
      clock ≤ event_time e
      ∧ match e with Rows rows now => Forall (λ r, 0 < so_lastSeen r ≤ now) rows | _ => True end
      ∧ in_order (event_time e) events
  end.

Definition end_time (clock : Z) (events : list event) : Z := foldl (λ _ e, event_time e) clock events.

Lemma knows_counted s h clock spanKind fromAgent server protocol now :
  clock ≤ now → knows s h clock →
  knows (counted spanKind fromAgent server protocol now s).2 (event_seen (Span spanKind fromAgent server protocol now) ++ h) now.
Proof.
  intros L K. assert (K' := knows_prune _ _ _ _ L K). unfold counted. cbn.
  destruct (String.eqb spanKind "SPAN_KIND_SERVER"); cbn.
  - destruct (String.eqb protocol ""); cbn; [done|]. apply knows_set; [done|lia|].
    intros old E. destruct K' as (_ & A & _). by eapply A.
  - destruct (String.eqb spanKind "SPAN_KIND_CLIENT"), (String.eqb protocol ""); done.
Qed.

Lemma knows_run s h clock events :
  knows s h clock → in_order clock events →
  knows (foldl run_event s events) (foldl (λ h e, event_seen e ++ h) h events) (end_time clock events).
Proof.
  revert s h clock. induction events as [|e events IH]; intros s h clock K O; [done|]. destruct O as (L & F & O).
  cbn. apply IH; [|done]. destruct e as [spanKind fromAgent server protocol now|rows now]; cbn in L, F |- *.
  - by apply (knows_counted _ _ clock).
  - apply knows_remember; [by apply (knows_later _ _ clock)|done].
Qed.

(** Whether a span is counted, by what has been seen before it. *)
Definition counts (h : list seen) (spanKind : string) (fromAgent : bool) (server protocol : string) (now : Z) : bool :=
  let key := (server, protocol) in
  String.eqb protocol ""
  || (if String.eqb spanKind "SPAN_KIND_SERVER" then negb (fromAgent && seen_lately h false key now)
      else if String.eqb spanKind "SPAN_KIND_CLIENT" then negb (seen_lately h true key now || seen_lately h false key now)
      else true).

Lemma counted_knows s h clock spanKind fromAgent server protocol now :
  clock ≤ now → knows s h clock →
  (counted spanKind fromAgent server protocol now s).1 = counts h spanKind fromAgent server protocol now.
Proof.
  intros L K. destruct (knows_prune _ _ _ _ L K) as (K' & _). unfold counted, counts. cbv zeta.
  destruct (String.eqb spanKind "SPAN_KIND_SERVER").
  - destruct (String.eqb protocol ""); [done|]. destruct fromAgent; [|done]. cbn [orb andb fst]. rewrite <- K' by done. done.
  - destruct (String.eqb spanKind "SPAN_KIND_CLIENT"), (String.eqb protocol ""); try done. cbn [orb fst].
    by rewrite !K', negb_orb.
Qed.

(** * One request *)

(** A side of a request: the client, by its agent or its SDK, or the server. *)
Inductive side := ClientSide (fromAgent : bool) | AgentSide | SDKSide.

#[export] Instance side_eq_dec : EqDecision side.
Proof. solve_decision. Defined.

Definition side_span (server protocol : string) (now : Z) (x : side) : event :=
  match x with
  | ClientSide fromAgent => Span "SPAN_KIND_CLIENT" fromAgent server protocol now
  | AgentSide => Span "SPAN_KIND_SERVER" true server protocol now
  | SDKSide => Span "SPAN_KIND_SERVER" false server protocol now
  end.

(** How many of the spans of a request are counted, in the order they come. *)
Fixpoint count_request (server protocol : string) (now : Z) (sides : list side) (s : serverSpanSources) : nat * serverSpanSources :=
  match sides with
  | [] => (0%nat, s)
  | x :: sides =>
      let r := match x with
               | ClientSide fromAgent => counted "SPAN_KIND_CLIENT" fromAgent server protocol now s
               | AgentSide => counted "SPAN_KIND_SERVER" true server protocol now s
               | SDKSide => counted "SPAN_KIND_SERVER" false server protocol now s
               end in
      let '(n, s) := count_request server protocol now sides r.2 in
      ((if r.1 then 1 else 0) + n, s)%nat
  end.

Lemma now_is_recent now : now - now < serverSpanMemory.
Proof. unfold serverSpanMemory, NanosPerSecond. lia. Qed.

(** What each side of a request counts when the sides its server records are
    known. *)
Definition side_counts (agent sdk : bool) (x : side) : nat :=
  match x with
  | ClientSide _ => if agent || sdk then 0 else 1
  | AgentSide => if sdk then 0 else 1
  | SDKSide => 1
  end.

Lemma recent_set_other fromAgent fromAgent' key now s :
  fromAgent ≠ fromAgent' → recent fromAgent (set_source fromAgent' key now s) key now = recent fromAgent s key now.
Proof. intros Ne. unfold recent. rewrite sources_set. by destruct fromAgent, fromAgent'. Qed.

Lemma recent_set_same fromAgent key now s : recent fromAgent (set_source fromAgent key now s) key now = true.
Proof.
  unfold recent. rewrite sources_set, eqb_reflx, lookup_insert_eq. apply Z.ltb_lt, now_is_recent.
Qed.

Lemma count_request_known server protocol now sides s agent sdk :
  protocol ≠ "" →
  recent true s (server, protocol) now = agent → recent false s (server, protocol) now = sdk →
  (AgentSide ∈ sides → agent = true) → (SDKSide ∈ sides → sdk = true) →
  (count_request server protocol now sides s).1 = sum_list (side_counts agent sdk <$> sides).
Proof.
  intros P. apply String.eqb_neq in P. revert s. induction sides as [|x sides IH]; intros s A K Ha Hk; [done|].
  assert (Ha' : AgentSide ∈ sides → agent = true) by (intros; apply Ha; by right).
  assert (Hk' : SDKSide ∈ sides → sdk = true) by (intros; apply Hk; by right).
  cbn [count_request fmap list_fmap sum_list].
  destruct x as [fromAgent| |]; unfold counted; cbn [String.eqb Ascii.eqb Bool.eqb]; rewrite P.
  - cbn [fst snd]. specialize (IH (prune now s)). rewrite !recent_prune in IH by done. rewrite !recent_prune, A, K by done.
    destruct (count_request server protocol now sides (prune now s)) as [n s'] eqn:E. cbn in IH |- *. rewrite IH by done.
    by destruct agent, sdk.
  - cbn [fst snd]. set (s1 := set_source true (server, protocol) now (prune now s)).
    assert (A1 : recent true s1 (server, protocol) now = agent) by (unfold s1; rewrite recent_set_same, Ha by (by left); done).
    assert (K1 : recent false s1 (server, protocol) now = sdk) by (unfold s1; rewrite recent_set_other, recent_prune by done; exact K).
    rewrite K1. specialize (IH s1 A1 K1 Ha' Hk'). destruct (count_request server protocol now sides s1) as [n s'] eqn:E. cbn in IH |- *.
    rewrite IH. by destruct sdk.
  - cbn [fst snd]. set (s1 := set_source false (server, protocol) now (prune now s)).
    assert (A1 : recent true s1 (server, protocol) now = agent) by (unfold s1; rewrite recent_set_other, recent_prune by done; exact A).
    assert (K1 : recent false s1 (server, protocol) now = sdk) by (unfold s1; rewrite recent_set_same, Hk by (by left); done).
    specialize (IH s1 A1 K1 Ha' Hk'). destruct (count_request server protocol now sides s1) as [n s'] eqn:E. cbn in IH |- *.
    by rewrite IH.
Qed.
End SpanCountingFacts.

Module SpanCountingTheorems.
Import SpanCountingFacts.
Local Open Scope list_scope.

(** C24 What is forgotten is never missed: whatever spans and rows came before, as
    the clock goes on, a span is counted exactly as the whole history of server
    spans seen says: a span of the agent unless an SDK's span of its server and
    protocol was seen within the hour, a client's unless any was. *)
Theorem counted_by_history events spanKind fromAgent server protocol now :
  in_order 0 events → end_time 0 events ≤ now →
  (counted spanKind fromAgent server protocol now (run events)).1
  = counts (history events) spanKind fromAgent server protocol now.
Proof.
  intros O L. eapply counted_knows; [exact L|]. apply knows_run; [apply knows_new|done].
Qed.

(** A request is counted once: when the sides its server records (the agent's,
    the SDK's, or none) are known from the last hour, of the spans of the two
    sides of a request, in whatever order they come, exactly one is counted. *)
Theorem request_counted_once events server protocol now agent sdk fromAgent sides :
  in_order 0 events → end_time 0 events ≤ now → protocol ≠ "" →
  seen_lately (history events) true (server, protocol) now = agent →
  seen_lately (history events) false (server, protocol) now = sdk →
  sides ≡ₚ ClientSide fromAgent :: (if agent then [AgentSide] else []) ++ (if sdk then [SDKSide] else []) →
  (count_request server protocol now sides (run events)).1 = 1%nat.
Proof.
  intros O L P A K Perm. destruct (knows_run _ _ _ _ (knows_new 0) O) as (R & _).
  rewrite (count_request_known server protocol now sides (run events) agent sdk P).
  - rewrite Perm. by destruct agent, sdk.
  - by rewrite <- A; apply R.
  - by rewrite <- K; apply R.
  - rewrite Perm. destruct agent; [done|]. destruct sdk; cbn; intros I; exfalso;
      repeat (apply elem_of_cons in I as [I|I]; [done|]); by apply not_elem_of_nil in I.
  - rewrite Perm. destruct sdk; [done|]. destruct agent; cbn; intros I; exfalso;
      repeat (apply elem_of_cons in I as [I|I]; [done|]); by apply not_elem_of_nil in I.
Qed.
End SpanCountingTheorems.

Module SpanCountingRuns.
Import SpanCountingFacts SpanCountingTheorems.
Local Open Scope list_scope.

Definition minute (n : Z) : Z := 1000000000000000 + n * 60 * NanosPerSecond.

(** A server whose SDK was seen an hour ago by another replica and whose agent was
    seen now and again, across a pruning. *)
Definition run_events : list event :=
  [Span "SPAN_KIND_SERVER" true "ns/shop" "http" (minute 0);
   Rows [{| so_server := "ns/shop"; so_protocol := "http"; so_fromAgent := false; so_lastSeen := minute 1 |}] (minute 2);
   Span "SPAN_KIND_SERVER" true "ns/shop" "http" (minute 59);
   Span "SPAN_KIND_CLIENT" true "ns/db" "mysql" (minute 61)].

Lemma run_in_order : in_order 0 run_events.
Proof.
  unfold run_events, minute, NanosPerSecond. cbn [in_order event_time].
  repeat match goal with |- _ ∧ _ => split end; try lia; try exact I.
  apply List.Forall_cons; [cbn [so_lastSeen]; lia|apply List.Forall_nil].
Qed.

Lemma counted_by_history_witness :
  end_time 0 run_events ≤ minute 90
  ∧ (counted "SPAN_KIND_CLIENT" true "ns/shop" "http" (minute 90) (run run_events)).1 = false
  ∧ (counted "SPAN_KIND_CLIENT" true "ns/shop" "http" (minute 90) (run run_events)).1
    = counts (history run_events) "SPAN_KIND_CLIENT" true "ns/shop" "http" (minute 90).
Proof.
  split; [by vm_compute|]. split; [by vm_compute|].
  exact (counted_by_history run_events "SPAN_KIND_CLIENT" true "ns/shop" "http" (minute 90) run_in_order ltac:(by vm_compute)).
Defined.

Lemma request_counted_once_witness :
  (count_request "ns/shop" "http" (minute 90) [AgentSide; ClientSide true] (run run_events)).1 = 1%nat.
Proof.
  exact (request_counted_once run_events "ns/shop" "http" (minute 90) true false true [AgentSide; ClientSide true]
    run_in_order ltac:(by vm_compute) ltac:(done) ltac:(by vm_compute) ltac:(by vm_compute) (perm_swap (ClientSide true) AgentSide [])).
Defined.
End SpanCountingRuns.
