(* ===== verification/Directory.v ===== *)
(** The application directory of the collector (collector/applications.go),
    which names the two sides of a span, with the guess of the application of an
    OpenTelemetry service (model/container.go).

    A Go map is the list of its entries in the order [range] gives them; what the
    URL parser finds as the host of a URL is a parameter. *)

From Stdlib Require Import ZArith Lia Bool String Ascii.
From S2P Require Import Prelude Float32 TimeSeries GoStrings Utils FlameGraph Model Db AppId GoNet SpanCounting.
Import FilepathFacts GoPath Net.

Local Open Scope string_scope.
Local Open Scope Z_scope.

(** * What it reads of the world *)

Record PodInfo := { pod_IP : string; pod_Phase : string; pod_LifeSpan : option TimeSeries }.

Record Listen := { li_IP : string; li_Port : string; li_Proxied : bool }.

(** [in_AgentVersion] is that of the instance's node, if it has one. *)
Record InstanceInfo := {
  in_Name : string;
  in_Pod : option PodInfo;
  in_AgentVersion : option string;
  in_TcpListens : list (Listen * bool);
  in_Containers : list string;
}.

Record KubernetesService := { ks_Name : string; ks_Namespace : string; ks_ClusterIP : string }.

Record AppInfo := {
  ap_Id : ApplicationId;
  ap_Instances : list InstanceInfo;
  ap_Services : list KubernetesService;
  ap_TracingService : option string;
}.

Record DirectoryWorld := {
  dw_Applications : list AppInfo;
  dw_NodeAddresses : list string;     (** of the interfaces of all nodes *)
}.

Definition IsObsolete (p : PodInfo) : bool := String.eqb (pod_Phase p) "".

(** * The owners of addresses *)

Definition starts (prefix s : string) : bool := match strip_prefix prefix s with Some _ => true | None => false end.

Definition applicationName (id : ApplicationId) : string :=
  if String.eqb (Namespace id) "" || String.eqb (Namespace id) "_" || String.eqb (Kind id) ApplicationKindExternalService
  then Name id
  else Namespace id ++ "/" ++ Name id.

Record addressOwner := { ow_application : string; ow_alive : bool; ow_lastSeen : Z; ow_traced : bool }.

Definition replaces (owner other : addressOwner) : bool :=
  if negb (Bool.eqb (ow_alive owner) (ow_alive other)) then ow_alive owner
  else ow_lastSeen other <? ow_lastSeen owner.

Definition own (owners : gmap string addressOwner) (p : string * addressOwner) : gmap string addressOwner :=
  match owners !! p.1 with
  | Some current => if replaces p.2 current then <[p.1 := p.2]> owners else owners
  | None => <[p.1 := p.2]> owners
  end.

(** [LastNotNull] never panics ([DirectoryFacts.LastNotNull_returns]). *)
Definition last_seen (p : PodInfo) : Z :=
  match LastNotNull (pod_LifeSpan p) with Ret (t, _) => t | Panic => 0 end.

Definition pod_owner (name : string) (i : InstanceInfo) : list (string * addressOwner) :=
  match in_Pod i with
  | Some p =>
      if String.eqb (pod_IP p) "" then []
      else [(pod_IP p, {| ow_application := name; ow_alive := negb (IsObsolete p); ow_lastSeen := last_seen p;
                          ow_traced := match in_AgentVersion i with Some v => negb (String.eqb v "") | None => false end |})]
  | None => []
  end.

Definition listen_owner (name : string) (active : bool) : addressOwner :=
  {| ow_application := name; ow_alive := active; ow_lastSeen := 0; ow_traced := false |}.

Definition ip_owners_of (name : string) (i : InstanceInfo) : list (string * addressOwner) :=
  (pod_owner name i
     ++ omap (λ l, if String.eqb (li_Port l.1) "0" then Some (li_IP l.1, listen_owner name l.2) else None) (in_TcpListens i))%list.

Definition listen_owners_of (name : string) (i : InstanceInfo) : list (string * addressOwner) :=
  omap (λ l, if String.eqb (li_Port l.1) "0" then None
             else Some (JoinHostPort (li_IP l.1) (li_Port l.1), listen_owner name l.2)) (in_TcpListens i).

Definition of_apps {A} (f : string → InstanceInfo → list A) (w : DirectoryWorld) : list A :=
  flat_map (λ a, flat_map (f (applicationName (ap_Id a))) (ap_Instances a)) (dw_Applications w).

Definition owners (candidates : list (string * addressOwner)) : gmap string addressOwner := foldl own ∅ candidates.

(** Assignments to a map, the last of a key wins. *)
Definition assign {V} (l : list (string * V)) : gmap string V := foldl (λ m p, <[p.1 := p.2]> m) ∅ l.

Record ApplicationDirectory := {
  d_world : DirectoryWorld;
  d_byListen : gmap string string;
  d_byIp : gmap string string;
  d_byContainerId : gmap string string;
  d_byPod : gmap string string;
  d_byService : gmap string string;
  d_byTracing : gmap string string;
  d_tracedClients : list string;
  d_nodeIps : gset string;
}.

Definition pod_entries (a : AppInfo) : list (string * string) :=
  flat_map (λ i, match in_Pod i with
                 | Some _ => [(Namespace (ap_Id a) ++ "/" ++ in_Name i, applicationName (ap_Id a))]
                 | None => []
                 end) (ap_Instances a).

Definition container_entries (a : AppInfo) : list (string * string) :=
  flat_map (λ i, map (λ c, (c, applicationName (ap_Id a))) (in_Containers i)) (ap_Instances a).

Definition service_entries (a : AppInfo) : list (string * string) :=
  flat_map (λ s, (ks_Name s ++ "." ++ ks_Namespace s, applicationName (ap_Id a))
                   :: (if String.eqb (ks_ClusterIP s) "" then [] else [(ks_ClusterIP s, applicationName (ap_Id a))]))
    (ap_Services a).

Definition tracing_entries (a : AppInfo) : list (string * string) :=
  match ap_TracingService a with
  | Some s => if String.eqb s "" then [] else [(s, applicationName (ap_Id a))]
  | None => []
  end.

Definition NewApplicationDirectory (w : DirectoryWorld) : ApplicationDirectory :=
  let ipOwners := owners (of_apps ip_owners_of w) in
  let listenOwners := owners (of_apps listen_owners_of w) in
  {| d_world := w;
     d_byListen := ow_application <$> listenOwners;
     d_byIp := ow_application <$> ipOwners;
     d_byContainerId := assign (flat_map container_entries (dw_Applications w));
     d_byPod := assign (flat_map pod_entries (dw_Applications w));
     d_byService := assign (flat_map service_entries (dw_Applications w));
     d_byTracing := assign (flat_map tracing_entries (dw_Applications w));
     d_tracedClients := StringSet.sort_strings (omap (λ p, if ow_traced p.2 then Some p.1 else None) (map_to_list ipOwners));
     d_nodeIps := list_to_set (dw_NodeAddresses w) |}.

(** * Guessing the application of a service (model/container.go) *)

Definition guess_path (s : string) (id : ApplicationId) : bool :=
  match Split "/" s with
  | [_; kind; ns; name] =>
      (String.eqb kind "k8s" || String.eqb kind "k8s-cronjob") && String.eqb ns (Namespace id) && String.eqb name (Name id)
  | [_; kind; name] => String.eqb kind "system.slice" && String.eqb name (Name id ++ ".service")
  | _ => false
  end.

Definition guessed_by (s : string) (id : ApplicationId) : bool :=
  guess_path s id || HasSuffix s (Name id) || HasSuffix (Name id) s.

Definition guessService (services : list string) (id : ApplicationId) : string :=
  match List.find (λ s, String.eqb s (Name id)) services with
  | Some s => s
  | None => default "" (List.find (λ s, guessed_by s id) services)
  end.

Definition GuessService (services : list string) (ids : list ApplicationId) (id : ApplicationId) : string :=
  let service := guessService services id in
  if String.eqb service "" then ""
  else if existsb (λ id', negb (bool_decide (id = id')) && String.eqb (guessService services id') service) ids then ""
  else service.

Definition app_ids (w : DirectoryWorld) : list ApplicationId := map ap_Id (dw_Applications w).

(** The loop over the applications, in the order the map gives them this time. *)
Definition guess (order : list ApplicationId) (w : DirectoryWorld) (serviceName : string) : string :=
  match List.find (λ id, String.eqb (GuessService [serviceName] (app_ids w) id) serviceName) order with
  | Some id => applicationName id
  | None => ""
  end.

(** [guessApplication] with the names it has guessed before. *)
Definition guessApplication (order : list ApplicationId) (d : ApplicationDirectory) (guessed : gmap string string) (serviceName : string)
    : string * gmap string string :=
  if String.eqb serviceName "" || starts "/" serviceName then ("", guessed)
  else match guessed !! serviceName with
       | Some name => (name, guessed)
       | None => let name := guess order (d_world d) serviceName in (name, <[serviceName := name]> guessed)
       end.

(** * The two sides of a span *)

Definition unknown_in (serviceName : string) (prefix : string) (pods : bool) : option string :=
  match strip_prefix prefix serviceName with
  | Some name =>
      match Split "/" name with
      | [_; _] => Some name
      | [ns; pod; _] => if pods then Some (ns ++ "/" ++ pod) else None
      | _ => None
      end
  | None => None
  end.

Definition unknownApplicationName (serviceName : string) (resource : gmap string string) : string :=
  match unknown_in serviceName "/k8s/" true with
  | Some name => name
  | None =>
      match unknown_in serviceName "/k8s-cronjob/" false with
      | Some name => name
      | None =>
          let ns := span_attr resource "k8s.namespace.name" in
          if is_set ns && is_set serviceName && negb (starts "/" serviceName) then ns ++ "/" ++ serviceName
          else serviceName
      end
  end.

(** The pod the span is of, by its name or its host. *)
Definition own_pod (d : ApplicationDirectory) (resource : gmap string string) : option string :=
  let ns := span_attr resource "k8s.namespace.name" in
  if is_set ns then
    head (omap (λ pod, if is_set pod then d_byPod d !! (ns ++ "/" ++ pod) else None)
            [span_attr resource "k8s.pod.name"; span_attr resource "host.name"])
  else None.

Definition ownApplication (order : list ApplicationId) (d : option ApplicationDirectory) (guessed : gmap string string)
    (serviceName : string) (resource : gmap string string) : string * gmap string string :=
  match d with
  | None => (unknownApplicationName serviceName resource, guessed)
  | Some d =>
      match d_byContainerId d !! span_attr resource "container.id" with
      | Some name => (name, guessed)
      | None =>
          match own_pod d resource with
          | Some name => (name, guessed)
          | None =>
              match d_byTracing d !! serviceName with
              | Some name => (name, guessed)
              | None =>
                  let '(name, guessed) := guessApplication order d guessed serviceName in
                  (if is_set name then name else unknownApplicationName serviceName resource, guessed)
              end
          end
      end
  end.

Definition host_of (address : string) : string := match SplitHostPort address with Some (host, _) => host | None => address end.

Definition service_name_of (host namespace : string) : string :=
  match Split "." host with
  | a :: b :: _ => a ++ "." ++ b
  | _ => host ++ "." ++ namespace
  end.

Definition peerApplication (d : option ApplicationDirectory) (address namespace : string) : string :=
  match d with
  | None => address
  | Some d =>
      if String.eqb address "" then address
      else match d_byListen d !! address with
           | Some name => name
           | None =>
               let host := host_of address in
               match d_byIp d !! host with
               | Some name => name
               | None =>
                   match d_byService d !! host with
                   | Some name => name
                   | None =>
                       match ParseIP host with
                       | None => default address (d_byService d !! service_name_of host namespace)
                       | Some _ => address
                       end
                   end
               end
           end
  end.

(** [url.Parse(s)] and the [Host] of its result, when it has no error. *)
Class UrlHost := { url_host : string → option string }.

Definition url_address `{UrlHost} (span : gmap string string) (key : string) : option string :=
  match url_host (span_attr span key) with
  | Some host => if is_set host then Some host else None
  | None => None
  end.

Definition address_of (span : gmap string string) (keys : string * string) : option string :=
  let host := span_attr span keys.1 in
  let port := span_attr span keys.2 in
  if is_set host then Some (if is_set port then JoinHostPort host port else host) else None.

Definition serverAddress `{UrlHost} (span : gmap string string) : string :=
  default "" (head (omap (address_of span) [("server.address", "server.port"); ("net.peer.name", "net.peer.port")]
                      ++ omap (url_address span) ["http.url"; "url.full"])%list).

Definition clientAddress (span : gmap string string) : string :=
  default "" (head (List.filter is_set (map (span_attr span) ["client.address"; "net.sock.peer.addr"; "net.peer.ip"; "http.client_ip"]))).

Definition serves (spanKind : string) : bool := String.eqb spanKind "SPAN_KIND_SERVER" || String.eqb spanKind "SPAN_KIND_CONSUMER".
Definition calls (spanKind : string) : bool := String.eqb spanKind "SPAN_KIND_CLIENT" || String.eqb spanKind "SPAN_KIND_PRODUCER".

(** The client and the server. *)
Definition SpanApplications `{UrlHost} (order : list ApplicationId) (d : option ApplicationDirectory) (guessed : gmap string string)
    (serviceName spanKind : string) (resource span : gmap string string) : string * string * gmap string string :=
  let '(own_name, guessed) := ownApplication order d guessed serviceName resource in
  let namespace := span_attr resource "k8s.namespace.name" in
  if serves spanKind then (peerApplication d (clientAddress span) namespace, own_name, guessed)
  else if calls spanKind then (own_name, peerApplication d (serverAddress span) namespace, guessed)
  else ("", own_name, guessed).

Module DirectoryFacts.
Local Open Scope list_scope.

Lemma LastNotNull_returns ts : ∃ r, LastNotNull ts = Ret r.
Proof.
  destruct ts as [ts|]; [|by eexists]. unfold LastNotNull. rewrite for_ts_fold.
  generalize (0, F32.zero). induction (points ts) as [|p l IH]; intros s; cbn; [by eexists|]. apply IH.
Qed.

(** * Owners *)

(** The one candidate for an address that is alive when another is not, or was
    seen after it when both are, or neither is. *)
Definition better (o c : addressOwner) : Prop :=
  (ow_alive o = true ∧ ow_alive c = false) ∨ (ow_alive o = ow_alive c ∧ ow_lastSeen c < ow_lastSeen o).
Definition best (candidates : list (string * addressOwner)) (a : string) (o : addressOwner) : Prop :=
  (a, o) ∈ candidates ∧ ∀ c, (a, c) ∈ candidates → c = o ∨ better o c.

Lemma better_replaces o c : better o c → replaces o c = true.
Proof.
  unfold better, replaces. intros [[-> ->]|[-> L]]; [done|]. rewrite eqb_reflx. cbn. by apply Z.ltb_lt.
Qed.

Lemma replaces_irrefl o : replaces o o = false.
Proof. unfold replaces. rewrite eqb_reflx. cbn. apply Z.ltb_irrefl. Qed.

Lemma replaces_asym a b : replaces a b = true → replaces b a = false.
Proof.
  unfold replaces. destruct (ow_alive a), (ow_alive b); cbn; rewrite ?Z.ltb_lt, ?Z.ltb_ge; try done; lia.
Qed.

(** What does not replace the current one does not replace what does. *)
Lemma replaces_weak a b c : replaces a b = true → replaces c b = false → replaces c a = false.
Proof.
  unfold replaces. destruct (ow_alive a), (ow_alive b), (ow_alive c); cbn; rewrite ?Z.ltb_lt, ?Z.ltb_ge; try done; lia.
Qed.

Lemma owners_spec candidates a :
  match owners candidates !! a with
  | Some o => (a, o) ∈ candidates ∧ ∀ c, (a, c) ∈ candidates → replaces c o = false
  | None => ∀ c, (a, c) ∉ candidates
  end.
Proof.
  unfold owners. induction candidates as [|[b o] l IH] using rev_ind; [cbn; rewrite lookup_empty; by intros c ?%not_elem_of_nil|].
  rewrite foldl_app. cbn. unfold own at 1. cbn.
  set (m := foldl own ∅ l) in *. destruct (decide (a = b)) as [<-|Ne].
  - destruct (m !! a) as [current|] eqn:E.
    + destruct IH as [I B]. destruct (replaces o current) eqn:R.
      * rewrite lookup_insert_eq. split; [apply elem_of_app; right; by apply list_elem_of_singleton|].
        intros c [Ic|[= ->]%list_elem_of_singleton]%elem_of_app; [by eapply replaces_weak; eauto|apply replaces_irrefl].
      * rewrite E. split; [by apply elem_of_app; left|].
        intros c [Ic|[= ->]%list_elem_of_singleton]%elem_of_app; [by apply B|done].
    + rewrite lookup_insert_eq. split; [apply elem_of_app; right; by apply list_elem_of_singleton|].
      intros c [Ic|[= ->]%list_elem_of_singleton]%elem_of_app; [by destruct (IH c)|apply replaces_irrefl].
  - assert (Keep : ∀ m' : gmap string addressOwner, m' !! a = m !! a →
      match m' !! a with
      | Some o' => (a, o') ∈ l ++ [(b, o)] ∧ ∀ c, (a, c) ∈ l ++ [(b, o)] → replaces c o' = false
      | None => ∀ c, (a, c) ∉ l ++ [(b, o)]
      end).
    { intros m' ->. destruct (m !! a) as [o'|].
      - destruct IH as [I B]. split; [by apply elem_of_app; left|].
        intros c [Ic|[= -> ->]%list_elem_of_singleton]%elem_of_app; [by apply B|done].
      - intros c [Ic|[= -> ->]%list_elem_of_singleton]%elem_of_app; [by eapply IH|done]. }
    destruct (m !! b) as [current|]; [destruct (replaces o current)|]; apply Keep; by rewrite ?lookup_insert_ne.
Qed.

Lemma owners_best candidates a o : best candidates a o → owners candidates !! a = Some o.
Proof.
  intros [I B]. assert (S := owners_spec candidates a). destruct (owners candidates !! a) as [o'|]; [|by destruct (S o)].
  destruct S as [I' B']. destruct (B o' I') as [->|R%better_replaces]; [done|]. rewrite B' in R by done. done.
Qed.

Lemma traced_elem (m : gmap string addressOwner) ip :
  ip ∈ StringSet.sort_strings (omap (λ p, if ow_traced p.2 then Some p.1 else None) (map_to_list m))
  ↔ ∃ o, m !! ip = Some o ∧ ow_traced o = true.
Proof.
  unfold StringSet.sort_strings. rewrite merge_sort_Permutation, list_elem_of_omap. split.
  - intros ([a o] & I & E). apply elem_of_map_to_list in I. cbn in E. destruct (ow_traced o) eqn:T; simplify_eq. by exists o.
  - intros (o & L & T). exists (ip, o). rewrite elem_of_map_to_list. cbn. by rewrite T.
Qed.

(** * Guesses *)

Lemma GuessService_is services ids id s : s ≠ "" → GuessService services ids id = s → guessService services id = s.
Proof.
  unfold GuessService. intros N. destruct (String.eqb_spec (guessService services id) ""); [by intros <-|].
  by destruct (existsb _ ids); [intros <-|].
Qed.

(** At most one application is guessed for a service. *)
Lemma GuessService_unique s ids id id' :
  s ≠ "" → id ∈ ids → id' ∈ ids → GuessService [s] ids id = s → GuessService [s] ids id' = s → id = id'.
Proof.
  intros N I I' G G'. apply (GuessService_is _ _ _ _ N) in G' as G''. unfold GuessService in G.
  destruct (String.eqb_spec (guessService [s] id) ""); [by subst|].
  destruct (existsb _ ids) eqn:E; [by subst|]. destruct (decide (id = id')) as [->|Ne]; [done|]. exfalso.
  apply not_true_iff_false in E. apply E, existsb_exists. exists id'. rewrite <-list_elem_of_In. split; [done|].
  rewrite bool_decide_eq_false_2 by done. cbn. apply String.eqb_eq. congruence.
Qed.

Lemma guess_any_order s w order order' :
  s ≠ "" → order ≡ₚ app_ids w → order' ≡ₚ app_ids w → guess order w s = guess order' w s.
Proof.
  intros N P P'. unfold guess. set (f := λ id, String.eqb (GuessService [s] (app_ids w) id) s).
  assert (F : ∀ l, l ≡ₚ app_ids w → match List.find f l with
                                   | Some id => id ∈ app_ids w ∧ GuessService [s] (app_ids w) id = s
                                   | None => ∀ id, id ∈ app_ids w → GuessService [s] (app_ids w) id ≠ s
                                   end).
  { intros l Pl. destruct (List.find f l) as [id|] eqn:E.
    - apply find_some in E as [I E]. apply String.eqb_eq in E. by rewrite <-list_elem_of_In, Pl in I.
    - intros id I G. rewrite <- Pl, list_elem_of_In in I. apply (find_none _ _ E) in I. unfold f in I. by apply String.eqb_neq in I. }
  assert (F1 := F order P). assert (F2 := F order' P').
  destruct (List.find f order) as [id|], (List.find f order') as [id'|]; [|by destruct F1 as [I G], (F2 id I)|by destruct F2 as [I G], (F1 id' I)|done].
  destruct F1 as [I G], F2 as [I' G']. by rewrite (GuessService_unique s (app_ids w) id id').
Qed.

(** The names guessed before are those that would be guessed now. *)
Definition sound (w : DirectoryWorld) (guessed : gmap string string) : Prop :=
  ∀ s name, guessed !! s = Some name → s ≠ "" ∧ name = guess (app_ids w) w s.

Lemma guessApplication_sound order d guessed s :
  order ≡ₚ app_ids (d_world d) → sound (d_world d) guessed →
  sound (d_world d) (guessApplication order d guessed s).2
  ∧ (guessApplication order d guessed s).1
    = if String.eqb s "" || starts "/" s then "" else guess (app_ids (d_world d)) (d_world d) s.
Proof.
  intros P S. unfold guessApplication. destruct (String.eqb_spec s "") as [|N]; cbn; [done|].
  destruct (starts "/" s); [done|]. destruct (guessed !! s) as [name|] eqn:E; cbn.
  - split; [done|]. by apply S in E as [_ ->].
  - assert (G : guess order (d_world d) s = guess (app_ids (d_world d)) (d_world d) s) by (by apply guess_any_order).
    split; [|done]. intros s' name' L. apply lookup_insert_Some in L as [[<- <-]|[_ L]]; [done|by apply S].
Qed.

Lemma ownApplication_sound order d guessed s resource :
  order ≡ₚ app_ids (d_world d) → sound (d_world d) guessed →
  sound (d_world d) (ownApplication order (Some d) guessed s resource).2
  ∧ (ownApplication order (Some d) guessed s resource).1 = (ownApplication (app_ids (d_world d)) (Some d) ∅ s resource).1.
Proof.
  intros P S. unfold ownApplication. destruct (d_byContainerId d !! _); [done|]. destruct (own_pod d resource); [done|].
  destruct (d_byTracing d !! s); [done|].
  assert (A := guessApplication_sound order d guessed s P S).
  assert (B := guessApplication_sound (app_ids (d_world d)) d ∅ s (reflexivity _) ltac:(by intros ? ? ?)).
  destruct (guessApplication order d guessed s) as [n g], (guessApplication (app_ids (d_world d)) d ∅ s) as [n' g'].
  cbn in *. destruct A as [A1 ->], B as [_ ->]. done.
Qed.

(** * Names *)

Lemma starts_prefix p s : strip_prefix p (p ++ s)%string = Some s.
Proof.
  induction p as [|c p IH]; [done|]. rewrite append_cons. cbn. unfold same. by rewrite Ascii.eqb_refl.
Qed.
End DirectoryFacts.

Module DirectoryTheorems.
Import DirectoryFacts NetFacts DbFacts.
Local Open Scope list_scope.

(** C25 An address is its best owner's: of the pods and the listens that had it,
    the one alive, then the one seen last, whatever the order in which the world
    gives them; an address nobody had names nobody; the traced clients are the
    addresses whose owner is a pod of a node with an agent. *)
Theorem directory_owners w d : d = NewApplicationDirectory w →
  (∀ ip o, best (of_apps ip_owners_of w) ip o →
     d_byIp d !! ip = Some (ow_application o) ∧ (ip ∈ d_tracedClients d ↔ ow_traced o = true))
  ∧ (∀ a o, best (of_apps listen_owners_of w) a o → d_byListen d !! a = Some (ow_application o))
  ∧ (∀ ip, (∀ o, (ip, o) ∉ of_apps ip_owners_of w) → d_byIp d !! ip = None ∧ ip ∉ d_tracedClients d)
  ∧ (∀ a, (∀ o, (a, o) ∉ of_apps listen_owners_of w) → d_byListen d !! a = None).
Proof.
  intros ->. cbn. split_and!; setoid_rewrite lookup_fmap; try setoid_rewrite traced_elem.
  - intros ip o B. rewrite (owners_best _ _ _ B). split; [done|]. naive_solver.
  - intros a o B. by rewrite (owners_best _ _ _ B).
  - intros ip N. assert (S := owners_spec (of_apps ip_owners_of w) ip).
    destruct (owners (of_apps ip_owners_of w) !! ip) as [o|]; [by destruct (N o); destruct S|]. split; [done|]. by intros (o & ? & _).
  - intros a N. assert (S := owners_spec (of_apps listen_owners_of w) a).
    destruct (owners (of_apps listen_owners_of w) !! a) as [o|]; [by destruct (N o); destruct S|done].
Qed.

(** The sides of a span have one name: with whatever the directory has guessed
    before, and whatever order its maps are visited in, the client and the server
    are those a fresh directory gives, and what is remembered stays so. *)
Theorem SpanApplications_stable `{UrlHost} order d guessed serviceName spanKind resource span :
  order ≡ₚ app_ids (d_world d) → sound (d_world d) guessed →
  let r := SpanApplications order (Some d) guessed serviceName spanKind resource span in
  sound (d_world d) r.2
  ∧ r.1 = (SpanApplications (app_ids (d_world d)) (Some d) ∅ serviceName spanKind resource span).1.
Proof.
  intros P S. destruct (ownApplication_sound order d guessed serviceName resource P S) as [A B].
  unfold SpanApplications. destruct (ownApplication order (Some d) guessed serviceName resource) as [n g].
  destruct (ownApplication (app_ids (d_world d)) (Some d) ∅ serviceName resource) as [n' g']. cbn in A, B. subst n'.
  destruct (serves spanKind); [done|]. by destruct (calls spanKind).
Qed.

(** A pod the world does not know yet is named as the world will name it: the
    agent's name of a service of Kubernetes, or its container id for a pod with no
    owner, gives the name of the application, and the namespace is what comes
    before the slash. *)
Theorem unknown_named_as_known id container resource :
  contains "/" (Namespace id) = false → contains "/" (Name id) = false → contains "/" container = false →
  Namespace id ≠ "" → Namespace id ≠ "_" → Kind id ≠ ApplicationKindExternalService →
  let path := (Namespace id ++ "/" ++ Name id)%string in
  unknownApplicationName ("/k8s/" ++ path)%string resource = applicationName id
  ∧ unknownApplicationName ("/k8s-cronjob/" ++ path)%string resource = applicationName id
  ∧ unknownApplicationName ("/k8s/" ++ path ++ "/" ++ container)%string resource = applicationName id
  ∧ Split "/" (applicationName id) = [Namespace id; Name id].
Proof.
  intros N1 N2 N3 E1 E2 E3. cbv zeta.
  assert (Sp : Split "/" (Namespace id ++ "/" ++ Name id)%string = [Namespace id; Name id]).
  { change ("/" ++ Name id)%string with (String "/" (Name id)). rewrite Split_cons by done. by rewrite Split_none. }
  assert (Sc : Split "/" ((Namespace id ++ "/" ++ Name id) ++ "/" ++ container)%string = [Namespace id; Name id; container]).
  { rewrite <- !append_assoc. change ("/" ++ Name id ++ "/" ++ container)%string with (String "/" (Name id ++ String "/" container)).
    rewrite !Split_cons by done. by rewrite Split_none. }
  assert (An : applicationName id = (Namespace id ++ "/" ++ Name id)%string).
  { unfold applicationName. apply String.eqb_neq in E1, E2, E3. by rewrite E1, E2, E3. }
  rewrite An. unfold unknownApplicationName, unknown_in. rewrite !starts_prefix, Sp, Sc. by split_and!.
Qed.

(** A peer known by no port is found by its IP: joining its host and port and
    splitting them again gives the host, so that a client span that calls a pod
    on any port names the application that has the pod's IP. *)
Theorem peer_by_ip d ip port name namespace :
  contains "[" ip = false → contains "]" ip = false →
  contains "[" port = false → contains "]" port = false → contains ":" port = false →
  d_byListen d !! JoinHostPort ip port = None → d_byIp d !! ip = Some name →
  peerApplication (Some d) (JoinHostPort ip port) namespace = name.
Proof.
  intros A1 A2 P1 P2 P3 L I. unfold peerApplication, host_of. rewrite L, SplitHostPort_JoinHostPort, I by done.
  destruct (String.eqb_spec (JoinHostPort ip port) "") as [E|]; [|done].
  unfold JoinHostPort in E. destruct (contains ":" ip); [done|]. by destruct ip.
Qed.
End DirectoryTheorems.

Module DirectoryRuns.
Import DirectoryFacts DirectoryTheorems.
Local Open Scope list_scope.

#[local] Instance run_urls : UrlHost := {| url_host s := if String.eqb s "http://10.42.0.10:8080/" then Some "10.42.0.10:8080" else None |}.

Definition app_id (name : string) : ApplicationId := {| ClusterId := "c"; Namespace := "dev"; Kind := "Deployment"; Name := name |}.

Definition pod (name ip phase : string) : InstanceInfo :=
  {| in_Name := name; in_Pod := Some {| pod_IP := ip; pod_Phase := phase; pod_LifeSpan := None |};
     in_AgentVersion := Some "1.2"; in_TcpListens := [({| li_IP := ip; li_Port := "8080"; li_Proxied := false |}, negb (String.eqb phase ""))];
     in_Containers := [("/k8s/dev/" ++ name ++ "/main")%string] |}.

Definition app (name : string) (i : InstanceInfo) : AppInfo :=
  {| ap_Id := app_id name; ap_Instances := [i]; ap_Services := [{| ks_Name := name; ks_Namespace := "dev"; ks_ClusterIP := "10.43.0.1" |}];
     ap_TracingService := None |}.

(** The IP of a deleted pod of [basket] is now that of a pod of [catalog]. *)
Definition world : DirectoryWorld :=
  {| dw_Applications := [app "catalog" (pod "catalog-1" "10.42.0.10" "Running"); app "basket" (pod "basket-1" "10.42.0.10" "")];
     dw_NodeAddresses := ["192.168.100.76"] |}.

Definition catalog_owner : addressOwner :=
  {| ow_application := "dev/catalog"; ow_alive := true; ow_lastSeen := 0; ow_traced := true |}.

Lemma catalog_is_best : best (of_apps ip_owners_of world) "10.42.0.10" catalog_owner.
Proof.
  split; [by left|]. intros c I. repeat (apply elem_of_cons in I as [[= ->]|I]; [first [by left|right; left; by split]|]). by apply not_elem_of_nil in I.
Qed.

Lemma directory_owners_witness :
  d_byIp (NewApplicationDirectory world) !! "10.42.0.10" = Some "dev/catalog"
  ∧ "10.42.0.10" ∈ d_tracedClients (NewApplicationDirectory world).
Proof.
  destruct (proj1 (directory_owners world (NewApplicationDirectory world) (reflexivity _)) _ _ catalog_is_best) as [A B].
  split; [exact A|by apply B].
Defined.

Definition server_span : gmap string string := {[ "client.address" := "10.42.0.10" ]}.

Lemma SpanApplications_stable_witness :
  (SpanApplications (rev (app_ids world)) (Some (NewApplicationDirectory world)) {[ "dev-basket" := "dev/basket" ]}
     "dev-basket" "SPAN_KIND_SERVER" ∅ server_span).1 = ("dev/catalog", "dev/basket").
Proof.
  assert (S : sound world {[ "dev-basket" := "dev/basket" ]}).
  { intros s name L. apply lookup_singleton_Some in L as [<- <-]. split; [done|by vm_compute]. }
  rewrite (proj2 (SpanApplications_stable (rev (app_ids world)) (NewApplicationDirectory world) _ "dev-basket" "SPAN_KIND_SERVER" ∅ server_span
    (Permutation_sym (Permutation_rev _)) S)).
  vm_compute. reflexivity.
Defined.

Lemma unknown_named_as_known_witness :
  unknownApplicationName "/k8s/dev/catalog" ∅ = "dev/catalog" ∧ unknownApplicationName "/k8s/dev/catalog/main" ∅ = "dev/catalog".
Proof.
  destruct (unknown_named_as_known (app_id "catalog") "main" ∅ ltac:(done) ltac:(done) ltac:(done) ltac:(done) ltac:(done) ltac:(done))
    as (A & _ & B & _).
  split; [exact A|exact B].
Defined.

Lemma peer_by_ip_witness : peerApplication (Some (NewApplicationDirectory world)) (JoinHostPort "10.42.0.10" "9090") "dev" = "dev/catalog".
Proof.
  exact (peer_by_ip (NewApplicationDirectory world) "10.42.0.10" "9090" "dev/catalog" "dev" ltac:(done) ltac:(done) ltac:(done) ltac:(done) ltac:(done)
    ltac:(by vm_compute) ltac:(by vm_compute)).
Defined.

Example by_url : serverAddress {[ "http.url" := "http://10.42.0.10:8080/" ]} = "10.42.0.10:8080".
Proof. by vm_compute. Qed.
Example by_short_name : peerApplication (Some (NewApplicationDirectory world)) "catalog:80" "dev" = "dev/catalog".
Proof. by vm_compute. Qed.
Example by_full_name : peerApplication (Some (NewApplicationDirectory world)) "catalog.dev.svc.cluster.local" "other" = "dev/catalog".
Proof. by vm_compute. Qed.
Example of_a_host : (SpanApplications [] None ∅ "/k8s/dev/cat/main" "SPAN_KIND_INTERNAL" ∅ ∅).1 = ("", "dev/cat").
Proof. by vm_compute. Qed.
End DirectoryRuns.
