(* ===== verification/RecentAddresses.v ===== *)
(** The addresses of pods the world does not know yet
    (collector/recent_addresses.go). *)

From Stdlib Require Import ZArith Lia Bool String Ascii.
From S2P Require Import Prelude GoStrings FlameGraph AppId GoNet SpanCounting Directory.
Import FilepathFacts Net.

Local Open Scope string_scope.
Local Open Scope Z_scope.

Definition recentAddressMemory : Z := 600 * NanosPerSecond.

Record recentAddress := { ra_application : string; ra_seen : Z }.

Record recentAddresses := {
  byListen : gmap string recentAddress;
  byIp : gmap string recentAddress;
  ra_lastPrune : Z;
}.

Record recentAddressRow := { rr_address : string; rr_application : string; rr_lastSeen : Z }.

Definition newRecentAddresses : recentAddresses := {| byListen := ∅; byIp := ∅; ra_lastPrune := 0 |}.

Definition networkIp (ip : string) : bool :=
  match ParseIP ip with
  | Some parsed => negb (IsLoopback parsed) && negb (IsUnspecified parsed) && negb (IsLinkLocalUnicast parsed)
  | None => false
  end.

(** [set]: the address seen later is kept. *)
Definition set_address (addresses : gmap string recentAddress) (key : string) (known : recentAddress) : gmap string recentAddress :=
  match addresses !! key with
  | Some current => if ra_seen current <? ra_seen known then <[key := known]> addresses else addresses
  | None => <[key := known]> addresses
  end.

Definition forget (now : Z) (addresses : gmap string recentAddress) : gmap string recentAddress :=
  filter (λ p, now - ra_seen p.2 < recentAddressMemory) addresses.

Definition prune_addresses (now : Z) (a : recentAddresses) : recentAddresses :=
  if now - ra_lastPrune a <? recentAddressMemory then a
  else {| byListen := forget now (byListen a); byIp := forget now (byIp a); ra_lastPrune := now |}.

Definition of_a_pod (application : string) : bool := negb (starts "/" application) && contains "/" application.

(** Whether the IP of a pod is recorded by itself. *)
Definition own_ip (directory : option ApplicationDirectory) (ip : string) : bool :=
  match directory with Some d => bool_decide (ip ∉ d_nodeIps d) | None => false end.

(** [now] is the clock, that of the pruning. *)
Definition record (directory : option ApplicationDirectory) (address application : string) (seen now : Z) (a : recentAddresses) : recentAddresses :=
  if negb (of_a_pod application) then a
  else
    let known := {| ra_application := application; ra_seen := seen |} in
    let '(ip, listen) := match SplitHostPort address with Some (ip, _) => (ip, true) | None => (address, false) end in
    if negb (networkIp ip) then a
    else
      let a := prune_addresses now a in
      {| byListen := if listen then set_address (byListen a) address known else byListen a;
         byIp := if own_ip directory ip then set_address (byIp a) ip known else byIp a;
         ra_lastPrune := ra_lastPrune a |}.

Definition learn (directory : option ApplicationDirectory) (spanKind application : string) (span : gmap string string) (now : Z)
    (a : recentAddresses) : recentAddresses :=
  if String.eqb spanKind "SPAN_KIND_SERVER" then
    let ip := span_attr span "server.address" in
    let port := span_attr span "server.port" in
    if is_set ip && is_set port then record directory (JoinHostPort ip port) application now now a else a
  else if String.eqb spanKind "SPAN_KIND_CLIENT" then
    let ip := span_attr span "network.local.address" in
    if is_set ip then record directory ip application now now a else a
  else a.

Definition remember_rows (directory : option ApplicationDirectory) (rows : list recentAddressRow) (now : Z) (a : recentAddresses) : recentAddresses :=
  foldl (λ a r, record directory (rr_address r) (rr_application r) (rr_lastSeen r) now a) a rows.

Definition lookup_address (address : string) (now : Z) (a : recentAddresses) : option string :=
  let known := match byListen a !! address with Some known => Some known | None => byIp a !! host_of address end in
  match known with
  | Some known => if recentAddressMemory <=? now - ra_seen known then None else Some (ra_application known)
  | None => None
  end.

(** In the order of the map. *)
Definition clients (now : Z) (a : recentAddresses) : list string :=
  omap (λ p, if now - ra_seen p.2 <? recentAddressMemory then Some p.1 else None) (map_to_list (byIp a)).

Module RecentAddressesFacts.
Local Open Scope list_scope.

(** One call of [record]. *)
Record call := {
  c_directory : option ApplicationDirectory;
  c_address : string;
  c_application : string;
  c_seen : Z;
  c_now : Z;
}.

Definition run_call (a : recentAddresses) (c : call) : recentAddresses :=
  record (c_directory c) (c_address c) (c_application c) (c_seen c) (c_now c) a.

Definition run_calls (calls : list call) : recentAddresses := foldl run_call newRecentAddresses calls.

(** What a call teaches: of a port, and of an IP. *)
Definition call_known (c : call) : recentAddress := {| ra_application := c_application c; ra_seen := c_seen c |}.
Definition teaches (c : call) : bool := of_a_pod (c_application c) && networkIp (host_of (c_address c)).
Definition teaches_listen (c : call) : option (string * recentAddress) :=
  if teaches c then match SplitHostPort (c_address c) with Some _ => Some (c_address c, call_known c) | None => None end else None.
Definition teaches_ip (c : call) : option (string * recentAddress) :=
  if teaches c && own_ip (c_directory c) (host_of (c_address c)) then Some (host_of (c_address c), call_known c) else None.

(** What was taught, of each address what was seen last, nothing forgotten. *)
Definition taught (l : list (string * recentAddress)) : gmap string recentAddress := foldl (λ m p, set_address m p.1 p.2) ∅ l.

(** The application of an address, if seen lately. *)
Definition live (m : gmap string recentAddress) (key : string) (now : Z) : option string :=
  match m !! key with
  | Some known => if now - ra_seen known <? recentAddressMemory then Some (ra_application known) else None
  | None => None
  end.

(** [m] has what [u] has, but for what is forgotten at [clock]. *)
Definition mirrors (m u : gmap string recentAddress) (clock : Z) : Prop :=
  ∀ key, m !! key = u !! key
    ∨ ∃ k, u !! key = Some k ∧ recentAddressMemory ≤ clock - ra_seen k
           ∧ ∀ k', m !! key = Some k' → ra_seen k' ≤ ra_seen k.

Lemma mirrors_live m u clock key now : mirrors m u clock → clock ≤ now → live m key now = live u key now.
Proof.
  intros M L. unfold live. destruct (M key) as [->|(k & -> & E & Le)]; [done|].
  destruct (Z.ltb_spec (now - ra_seen k) recentAddressMemory); [lia|].
  destruct (m !! key) as [k'|]; [|done]. specialize (Le k' eq_refl). destruct (Z.ltb_spec (now - ra_seen k') recentAddressMemory); [lia|done].
Qed.

Lemma mirrors_later m u clock clock' : clock ≤ clock' → mirrors m u clock → mirrors m u clock'.
Proof.
  intros L M key. destruct (M key) as [?|(k & E & Le & B)]; [by left|right]. exists k. split_and!; [done|lia|done].
Qed.

Lemma lookup_set m key known key' :
  set_address m key known !! key'
  = if bool_decide (key = key')
    then match m !! key with Some c => if ra_seen c <? ra_seen known then Some known else Some c | None => Some known end
    else m !! key'.
Proof.
  unfold set_address. destruct (decide (key = key')) as [<-|N].
  - rewrite bool_decide_eq_true_2 by done. destruct (m !! key) as [c|] eqn:E; [|by rewrite lookup_insert_eq].
    destruct (ra_seen c <? ra_seen known); [by rewrite lookup_insert_eq|done].
  - rewrite bool_decide_eq_false_2 by done. destruct (m !! key) as [c|]; [|by rewrite lookup_insert_ne].
    destruct (ra_seen c <? ra_seen known); [by rewrite lookup_insert_ne|done].
Qed.

Lemma mirrors_set m u clock key known : mirrors m u clock → mirrors (set_address m key known) (set_address u key known) clock.
Proof.
  intros M key'. rewrite !lookup_set. destruct (decide (key = key')) as [<-|N]; [|rewrite bool_decide_eq_false_2 by done; apply M].
  rewrite bool_decide_eq_true_2 by done. destruct (M key) as [E|(k & E & Le & B)]; [left; by rewrite E|].
  rewrite E. destruct (Z.ltb_spec (ra_seen k) (ra_seen known)) as [Lt|Ge].
  - left. destruct (m !! key) as [k'|]; [|done]. specialize (B k' eq_refl).
    destruct (Z.ltb_spec (ra_seen k') (ra_seen known)); [done|lia].
  - right. exists k. split_and!; [done..|]. intros k' Ek'. destruct (m !! key) as [k2|]; [|by simplify_eq].
    specialize (B k2 eq_refl). destruct (ra_seen k2 <? ra_seen known); by simplify_eq.
Qed.

Lemma lookup_forget now m key :
  forget now m !! key
  = match m !! key with Some k => if now - ra_seen k <? recentAddressMemory then Some k else None | None => None end.
Proof.
  unfold forget. destruct (m !! key) as [k|] eqn:E.
  - destruct (Z.ltb_spec (now - ra_seen k) recentAddressMemory).
    + by apply map_lookup_filter_Some_2.
    + apply map_lookup_filter_None_2. right. intros k' E'. rewrite E in E'. simplify_eq. cbn. lia.
  - apply map_lookup_filter_None_2. by left.
Qed.

Lemma mirrors_forget m u now : mirrors m u now → mirrors (forget now m) u now.
Proof.
  intros M key. rewrite lookup_forget. destruct (M key) as [E|(k & E & Le & B)].
  - rewrite E. destruct (u !! key) as [k|] eqn:Eu; [|by left].
    destruct (Z.ltb_spec (now - ra_seen k) recentAddressMemory); [by left|right]. by exists k.
  - right. exists k. split_and!; [done..|]. intros k' Ek'. destruct (m !! key) as [k2|]; [|done].
    destruct (now - ra_seen k2 <? recentAddressMemory); simplify_eq. by apply B.
Qed.

Lemma prune_mirrors a clock now ul ui :
  clock ≤ now → mirrors (byListen a) ul clock → mirrors (byIp a) ui clock →
  mirrors (byListen (prune_addresses now a)) ul now ∧ mirrors (byIp (prune_addresses now a)) ui now.
Proof.
  intros L Ml Mi. apply (mirrors_later _ _ _ now L) in Ml. apply (mirrors_later _ _ _ now L) in Mi. unfold prune_addresses.
  destruct (now - ra_lastPrune a <? recentAddressMemory); cbn; [done|]. split; by apply mirrors_forget.
Qed.

(** The clock does not go back. *)
Fixpoint calls_in_order (clock : Z) (calls : list call) : Prop :=
  match calls with [] => True | c :: calls => clock ≤ c_now c ∧ calls_in_order (c_now c) calls end.

Definition calls_end (clock : Z) (calls : list call) : Z := foldl (λ _ c, c_now c) clock calls.

Lemma host_of_split address : host_of address = match SplitHostPort address with Some (ip, _) => ip | None => address end.
Proof. done. Qed.

Lemma record_mirrors a c clock ll li :
  clock ≤ c_now c → mirrors (byListen a) (taught ll) clock → mirrors (byIp a) (taught li) clock →
  mirrors (byListen (run_call a c)) (taught (ll ++ option_list (teaches_listen c))) (c_now c)
  ∧ mirrors (byIp (run_call a c)) (taught (li ++ option_list (teaches_ip c))) (c_now c).
Proof.
  intros L Ml Mi. destruct (prune_mirrors _ _ (c_now c) _ _ L Ml Mi) as [Pl Pi].
  apply (mirrors_later _ _ _ _ L) in Ml. apply (mirrors_later _ _ _ _ L) in Mi.
  unfold run_call, record, teaches_listen, teaches_ip, teaches, call_known, host_of.
  destruct (of_a_pod (c_application c)); cbn [negb andb option_list]; [|by rewrite !app_nil_r].
  destruct (SplitHostPort (c_address c)) as [[ip port]|]; cbn [fst];
    (destruct (networkIp _); cbn [negb andb option_list byListen byIp]; [|by rewrite !app_nil_r]); (split;
    [|destruct (own_ip (c_directory c) _); cbn [option_list]; rewrite ?app_nil_r; [|done]; unfold taught; rewrite foldl_app; by apply mirrors_set]).
  - unfold taught. rewrite foldl_app. by apply mirrors_set.
  - by rewrite app_nil_r.
Qed.

Lemma run_mirrors a clock calls ll li :
  calls_in_order clock calls → mirrors (byListen a) (taught ll) clock → mirrors (byIp a) (taught li) clock →
  mirrors (byListen (foldl run_call a calls)) (taught (ll ++ omap teaches_listen calls)) (calls_end clock calls)
  ∧ mirrors (byIp (foldl run_call a calls)) (taught (li ++ omap teaches_ip calls)) (calls_end clock calls).
Proof.
  revert a clock ll li. induction calls as [|c calls IH]; intros a clock ll li O Ml Mi; [by rewrite !app_nil_r|].
  destruct O as [L O]. destruct (record_mirrors a c clock ll li L Ml Mi) as [Ml' Mi'].
  destruct (IH _ _ _ _ O Ml' Mi') as [A B]. cbn [foldl calls_end]. split.
  - replace (ll ++ omap teaches_listen (c :: calls)) with ((ll ++ option_list (teaches_listen c)) ++ omap teaches_listen calls); [done|].
    rewrite <-app_assoc. f_equal. cbn. by destruct (teaches_listen c).
  - replace (li ++ omap teaches_ip (c :: calls)) with ((li ++ option_list (teaches_ip c)) ++ omap teaches_ip calls); [done|].
    rewrite <-app_assoc. f_equal. cbn. by destruct (teaches_ip c).
Qed.

(** What was taught of an address is the latest of what was. *)
Lemma taught_latest l key :
  match taught l !! key with
  | Some k => (key, k) ∈ l ∧ ∀ k', (key, k') ∈ l → ra_seen k' ≤ ra_seen k
  | None => ∀ k, (key, k) ∉ l
  end.
Proof.
  unfold taught. induction l as [|[key' k] l IH] using rev_ind; [cbn; rewrite lookup_empty; by intros k ?%not_elem_of_nil|].
  rewrite foldl_app. cbn [foldl fst snd]. rewrite lookup_set. set (m := foldl _ ∅ l) in *.
  assert (A : ∀ k', (key, k') ∈ l ++ [(key', k)] ↔ (key, k') ∈ l ∨ key = key' ∧ k' = k).
  { intros k'. rewrite elem_of_app, list_elem_of_singleton. naive_solver. }
  destruct (decide (key' = key)) as [->|N].
  - rewrite bool_decide_eq_true_2 by done. destruct (m !! key) as [c|].
    + destruct IH as [I B]. destruct (Z.ltb_spec (ra_seen c) (ra_seen k)); (split; [apply A; tauto|]).
      * intros k' [I'|[_ ->]]%A; [specialize (B k' I'); lia|lia].
      * intros k' [I'|[_ ->]]%A; [by apply B|done].
    + split; [apply A; tauto|]. intros k' [I'|[_ ->]]%A; [by destruct (IH k')|lia].
  - rewrite bool_decide_eq_false_2 by done. destruct (m !! key) as [c|].
    + destruct IH as [I B]. split; [apply A; tauto|]. intros k' [I'|[-> _]]%A; [by apply B|done].
    + intros k' [I'|[-> _]]%A; [by eapply IH|done].
Qed.
End RecentAddressesFacts.

Module RecentAddressesTheorems.
Import RecentAddressesFacts.
Local Open Scope list_scope.

Lemma new_mirrors clock : mirrors (byListen newRecentAddresses) (taught []) clock ∧ mirrors (byIp newRecentAddresses) (taught []) clock.
Proof. split; intros key; by left. Qed.

Lemma run_calls_mirrors calls now :
  calls_in_order 0 calls → calls_end 0 calls ≤ now →
  mirrors (byListen (run_calls calls)) (taught (omap teaches_listen calls)) now
  ∧ mirrors (byIp (run_calls calls)) (taught (omap teaches_ip calls)) now.
Proof.
  intros O L. destruct (new_mirrors 0) as [Ml Mi]. destruct (run_mirrors newRecentAddresses 0 calls [] [] O Ml Mi) as [A B].
  split; by eapply mirrors_later.
Qed.

(** Forgetting changes no answer but one: as the clock goes on, an address seen
    as a port within ten minutes is named by what was seen there last; one never
    seen as a port, by what was last seen at its IP within ten minutes, or not at
    all; nothing else is answered, and the traced clients are the IPs seen within
    ten minutes.  (A port whose time is over hides its IP until it is forgotten.) *)
Theorem recent_lookup_spec calls address now :
  calls_in_order 0 calls → calls_end 0 calls ≤ now →
  let ports := taught (omap teaches_listen calls) in
  let ips := taught (omap teaches_ip calls) in
  let answer := lookup_address address now (run_calls calls) in
  (∀ app, live ports address now = Some app → answer = Some app)
  ∧ (ports !! address = None → answer = live ips (host_of address) now)
  ∧ (∀ app, answer = Some app → live ports address now = Some app ∨ live ips (host_of address) now = Some app)
  ∧ (∀ ip, ip ∈ clients now (run_calls calls) ↔ is_Some (live ips ip now)).
Proof.
  intros O L. destruct (run_calls_mirrors calls now O L) as [Ml Mi]. cbv zeta. set (a := run_calls calls) in *.
  assert (El := mirrors_live _ _ _ address now Ml (Z.le_refl now)). assert (Ei := λ ip, mirrors_live _ _ _ ip now Mi (Z.le_refl now)).
  assert (La : lookup_address address now a
               = match byListen a !! address with Some _ => live (byListen a) address now | None => live (byIp a) (host_of address) now end).
  { unfold lookup_address, live. destruct (byListen a !! address) as [k|].
    - rewrite Z.leb_antisym. by destruct (now - ra_seen k <? recentAddressMemory).
    - destruct (byIp a !! host_of address) as [k|]; [|done]. rewrite Z.leb_antisym. by destruct (now - ra_seen k <? recentAddressMemory). }
  rewrite La. split_and!.
  - intros app V. rewrite <- El in V. unfold live in V |- *. by destruct (byListen a !! address).
  - intros N. destruct (Ml address) as [E|(k & E & _)]; [|by rewrite N in E]. rewrite E, N. apply Ei.
  - intros app. destruct (byListen a !! address); [rewrite El|rewrite Ei]; auto.
  - intros ip. rewrite <- Ei. unfold clients, live. rewrite list_elem_of_omap. split.
    + intros ([ip' k] & I & V). apply elem_of_map_to_list in I. cbn in V. destruct (Z.ltb_spec (now - ra_seen k) recentAddressMemory); simplify_eq.
      rewrite I. by destruct (Z.ltb_spec (now - ra_seen k) recentAddressMemory); [eexists|lia].
    + intros [app V]. destruct (byIp a !! ip) as [k|] eqn:E; [|done]. exists (ip, k). rewrite elem_of_map_to_list. cbn.
      by destruct (now - ra_seen k <? recentAddressMemory).
Qed.

(** Only pods are named: an answer is the application of a namespace that was
    recorded within ten minutes at this very port or at this IP, an IP of the
    network, and by the IP alone only when the directory of that moment knew that
    it is no node's. *)
Theorem recent_addresses_are_pods calls address now app :
  calls_in_order 0 calls → calls_end 0 calls ≤ now → lookup_address address now (run_calls calls) = Some app →
  ∃ c, c ∈ calls ∧ c_application c = app ∧ of_a_pod app = true ∧ now - c_seen c < recentAddressMemory
       ∧ networkIp (host_of (c_address c)) = true
       ∧ (c_address c = address ∨ host_of (c_address c) = host_of address ∧ own_ip (c_directory c) (host_of address) = true).
Proof.
  intros O L A. destruct (run_calls_mirrors calls now O L) as [Ml Mi].
  assert (From : ∀ m key, live m key now = Some app → ∃ k, m !! key = Some k ∧ ra_application k = app ∧ now - ra_seen k < recentAddressMemory).
  { intros m key V. unfold live in V. destruct (m !! key) as [k|]; [|done]. exists k.
    destruct (Z.ltb_spec (now - ra_seen k) recentAddressMemory); by simplify_eq. }
  assert (V : live (taught (omap teaches_listen calls)) address now = Some app ∨ live (taught (omap teaches_ip calls)) (host_of address) now = Some app).
  { rewrite <- (mirrors_live _ _ _ _ _ Ml (Z.le_refl now)), <- (mirrors_live _ _ _ _ _ Mi (Z.le_refl now)).
    unfold lookup_address, live in *. destruct (byListen (run_calls calls) !! address) as [k|]; [left|right].
    - rewrite Z.leb_antisym in A. by destruct (now - ra_seen k <? recentAddressMemory).
    - destruct (byIp (run_calls calls) !! host_of address) as [k|]; [|done]. rewrite Z.leb_antisym in A. by destruct (now - ra_seen k <? recentAddressMemory). }
  destruct V as [V|V]; apply From in V as (k & E & Ek & Lk).
  - assert (S := taught_latest (omap teaches_listen calls) address). rewrite E in S. destruct S as [I _].
    apply list_elem_of_omap in I as (c & Ic & T). unfold teaches_listen, teaches in T.
    destruct (of_a_pod (c_application c)) eqn:P, (networkIp (host_of (c_address c))) eqn:N; try done. cbn in T.
    destruct (SplitHostPort (c_address c)); simplify_eq. exists c. split_and!; auto.
  - assert (S := taught_latest (omap teaches_ip calls) (host_of address)). rewrite E in S. destruct S as [I _].
    apply list_elem_of_omap in I as (c & Ic & T). unfold teaches_ip, teaches in T.
    destruct (of_a_pod (c_application c)) eqn:P, (networkIp (host_of (c_address c))) eqn:N; try done. cbn in T.
    destruct (own_ip (c_directory c) (host_of (c_address c))) eqn:Ow; [|done]. injection T as Th Ta. subst k. cbn in *.
    exists c. split_and!; try done; [congruence|]. right. split; [done|congruence].
Qed.
End RecentAddressesTheorems.

Module RecentAddressesRuns.
Import RecentAddressesFacts RecentAddressesTheorems.
Local Open Scope list_scope.

Definition minute (n : Z) : Z := 1000000000000000 + n * 60 * NanosPerSecond.

Definition directory : ApplicationDirectory :=
  NewApplicationDirectory {| dw_Applications := []; dw_NodeAddresses := ["192.168.100.76"; "10.42.0.1"] |}.

Definition call_at (address application : string) (seen now : Z) : call :=
  {| c_directory := Some directory; c_address := address; c_application := application; c_seen := minute seen; c_now := minute now |}.

Definition run : list call :=
  [call_at "10.42.0.200:8080" "dev/catalog" 0 0; call_at "10.42.0.200" "dev/orders" 8 8; call_at "192.168.100.76" "kube-system/proxy" 8 8].

Lemma calls_run_in_order : calls_in_order 0 run.
Proof. unfold run, call_at, minute, NanosPerSecond. cbn. lia. Qed.

(** By then the port is ten minutes old, the IP two: the IP is the answer only
    once the port is forgotten, at the next pruning. *)
Example expired_listen_hides_pod :
  lookup_address "10.42.0.200:8080" (minute 10) (run_calls run) = None
  ∧ lookup_address "10.42.0.200:8080" (minute 10) (prune_addresses (minute 10) (run_calls run)) = Some "dev/orders".
Proof. by vm_compute. Qed.

Lemma recent_lookup_spec_witness :
  lookup_address "10.42.0.200:9090" (minute 9) (run_calls run) = Some "dev/orders"
  ∧ lookup_address "192.168.100.76" (minute 9) (run_calls run) = None.
Proof.
  assert (E : calls_end 0 run ≤ minute 9) by by vm_compute.
  rewrite (proj1 (proj2 (recent_lookup_spec run "10.42.0.200:9090" (minute 9) calls_run_in_order E)) ltac:(by vm_compute)).
  rewrite (proj1 (proj2 (recent_lookup_spec run "192.168.100.76" (minute 9) calls_run_in_order E)) ltac:(by vm_compute)).
  split; by vm_compute.
Defined.

Lemma recent_addresses_are_pods_witness :
  ∃ c, c ∈ run ∧ c_application c = "dev/orders" ∧ of_a_pod "dev/orders" = true.
Proof.
  destruct (recent_addresses_are_pods run "10.42.0.200" (minute 9) "dev/orders" calls_run_in_order ltac:(by vm_compute) ltac:(by vm_compute))
    as (c & I & A & P & _).
  exists c. auto.
Defined.
End RecentAddressesRuns.
