(* ===== verification/Otlp.v ===== *)
(** OTLP attribute values as text (collector/utils.go), with what they use of
    strconv and encoding/json.

    A message is what the getters of its fields return; the value of an
    attribute is [None] when the message has none. *)

From Stdlib Require Import ZArith Lia Bool String Ascii.
From S2P Require Import Prelude Float32 GoStrings Utils Format Fingerprint.

Local Open Scope string_scope.
Local Open Scope Z_scope.

(** * strconv *)

(** [FormatFloat(x, 'f', -1, 64)] writes the shortest decimal that reads back as
    [x], of those of its length the closest.  The decimals that read back are
    the ones between the midpoints to the neighbours of [x], the midpoints too
    when the mantissa is even. *)
Module FormatF64.

(** [a * 2^e <= b * 10^k], for natural [a] and [b]. *)
Definition dyadic_le (a e b k : Z) : bool :=
  a * 2 ^ Z.max 0 e * 10 ^ Z.max 0 (- k) <=? b * 10 ^ Z.max 0 k * 2 ^ Z.max 0 (- e).
Definition dyadic_ge (a e b k : Z) : bool :=
  b * 10 ^ Z.max 0 k * 2 ^ Z.max 0 (- e) <=? a * 2 ^ Z.max 0 e * 10 ^ Z.max 0 (- k).

(** Whether [q * 10^k] reads back as [m * 2^e]. *)
Definition reads_back (m e q k : Z) : bool :=
  let closer := (m =? 2 ^ 52) && (-1074 <? e) in
  let '(low, elow) := if closer then (4 * m - 1, e - 2) else (2 * m - 1, e - 1) in
  if Z.even m then dyadic_le low elow q k && dyadic_ge (2 * m + 1) (e - 1) q k
  else negb (dyadic_ge low elow q k) && negb (dyadic_le (2 * m + 1) (e - 1) q k).

(** [m * 2^e / 10^k], as a numerator and a denominator. *)
Definition scaled_by (m e k : Z) : Z * Z :=
  (m * 2 ^ Z.max 0 e * 10 ^ Z.max 0 (- k), 10 ^ Z.max 0 k * 2 ^ Z.max 0 (- e)).

(** The decimal of step [10^k] that reads back: the closest of the two around. *)
Definition candidate (m e k : Z) : option Z :=
  let '(n, d) := scaled_by m e k in
  let near := round_half_even n d in
  let other := if near =? n / d then near + 1 else n / d in
  if reads_back m e near k then Some near
  else if reads_back m e other k then Some other else None.

(** From the coarsest step on: 17 digits always read back. *)
Fixpoint shortest (fuel : nat) (m e k : Z) : Z * Z :=
  match fuel with
  | O => (0, k)
  | S fuel =>
      match candidate m e k with
      | Some q => (q, k)
      | None => shortest fuel m e (k - 1)
      end
  end.

(** [q * 10^k] in full. *)
Definition full (q k : Z) : string :=
  if 0 <=? k then Itoa (q * 10 ^ k) else decimal (Z.to_nat (- k)) q.

(** A step above the first digit. *)
Definition top (m e : Z) : Z := (Z.log2 m + e) * 30103 / 100000 + 2.

Definition text (x : F64.f64) : string :=
  match x with
  | S754_nan => "NaN"
  | S754_infinity s => if s then "-Inf" else "+Inf"
  | S754_zero s => (if s then "-" else "") ++ "0"
  | S754_finite s m e =>
      let '(q, k) := shortest 24 (Zpos m) e (top (Zpos m) e) in (if s then "-" else "") ++ full q k
  end.
End FormatF64.

Definition FormatBool (b : bool) : string := if b then "true" else "false".

(** [ParseUint(s, 16, 64)], [None] on its errors. *)
Definition hex_value (a : ascii) : option Z :=
  let n := Z.of_nat (nat_of_ascii a) in
  if (48 <=? n) && (n <=? 57) then Some (n - 48)
  else if (97 <=? n) && (n <=? 102) then Some (n - 87)
  else if (65 <=? n) && (n <=? 70) then Some (n - 55)
  else None.

Fixpoint hex_digits (s : string) (acc : Z) : option Z :=
  match s with
  | EmptyString => Some acc
  | String a s => match hex_value a with Some d => hex_digits s (acc * 16 + d) | None => None end
  end.

Definition ParseHex (s : string) : option Z :=
  if String.eqb s "" then None
  else match hex_digits s 0 with Some n => if n <? 2 ^ 64 then Some n else None | None => None end.

(** [hex.EncodeToString] of a string of bytes. *)
Definition EncodeToString (s : string) : string := hex_encode (map N_of_ascii (list_ascii_of_string s)).

(** * encoding/json: a string, a list of strings, a map of strings *)
Module JsonText.
Local Open Scope N_scope.

Definition backslash : string := String (ascii_of_N 92) "".
Definition mark : string := String (ascii_of_N 34) "".
Definition lit (a : ascii) : string := String a "".
Definition hex2 (n : N) : string := lit (hex_char (n / 16)) ++ lit (hex_char (n mod 16)).

(** A byte of ASCII, HTML escaped as [json.Marshal] does. *)
Definition escape_ascii (a : ascii) : string :=
  let n := N_of_ascii a in
  if (n =? 92) || (n =? 34) then backslash ++ lit a
  else if n =? 8 then backslash ++ "b"
  else if n =? 12 then backslash ++ "f"
  else if n =? 10 then backslash ++ "n"
  else if n =? 13 then backslash ++ "r"
  else if n =? 9 then backslash ++ "t"
  else if (n <? 32) || (n =? 60) || (n =? 62) || (n =? 38) then backslash ++ "u00" ++ hex2 n
  else lit a.

Fixpoint escape (fuel : nat) (s : string) : string :=
  match fuel, s with
  | S fuel, String a _ =>
      if N_of_ascii a <? 128 then escape_ascii a ++ escape fuel (sdrop 1 s)
      else
        let '(c, size) := Utf8.decode s in
        (if (c =? Utf8.RuneError) && Nat.eqb size 1 then backslash ++ "ufffd"
         else if c =? 8232 then backslash ++ "u2028"
         else if c =? 8233 then backslash ++ "u2029"
         else stake size s) ++ escape fuel (sdrop size s)
  | _, _ => ""
  end.

Definition quote (s : string) : string := mark ++ escape (String.length s) s ++ mark.

Definition of_list (l : list string) : string := "[" ++ GoStrings.Join (map quote l) "," ++ "]".

(** The members in the order of their keys. *)
Definition of_map (m : gmap string string) : string :=
  "{" ++ GoStrings.Join
           (map (λ k, quote k ++ ":" ++ quote (default "" (m !! k)))
              (StringSet.sort_strings (map fst (map_to_list m)))) "," ++ "}".
End JsonText.

(** * collector/utils.go *)

(** [v1.AnyValue]: [AnyUnset] has no value of any kind. *)
Inductive AnyValue :=
| AnyUnset
| StringValue (s : string)
| BoolValue (b : bool)
| IntValue (n : Z)
| DoubleValue (x : F64.f64)
| BytesValue (s : string)
| ArrayValue (l : list AnyValue)
| KvlistValue (l : list (string * option AnyValue)).

(** Assignments to a Go map made by a loop. *)
Definition set_all {V} (l : list (string * V)) : gmap string V := foldl (λ m p, <[p.1 := p.2]> m) ∅ l.

Fixpoint collect {A B} (f : A → outcome B) (l : list A) : outcome (list B) :=
  match l with
  | [] => Ret []
  | a :: l => let* b := f a in let* bs := collect f l in Ret (b :: bs)
  end.

(** A nil value is dereferenced. *)
Fixpoint valueToString (value : AnyValue) : outcome string :=
  match value with
  | StringValue s => Ret s
  | BoolValue b => Ret (FormatBool b)
  | IntValue n => Ret (Itoa n)
  | DoubleValue x => Ret (FormatF64.text x)
  | BytesValue s => Ret s
  | ArrayValue vs =>
      let* s := (fix values l := match l with
                                 | [] => Ret []
                                 | v :: l => let* t := valueToString v in let* ts := values l in Ret (t :: ts)
                                 end) vs in
      Ret (JsonText.of_list s)
  | KvlistValue vs =>
      let* s := (fix members l := match l with
                                  | [] => Ret []
                                  | (k, Some v) :: l => let* t := valueToString v in let* ts := members l in Ret ((k, t) :: ts)
                                  | (_, None) :: _ => Panic
                                  end) vs in
      Ret (JsonText.of_map (set_all s))
  | AnyUnset => Ret "unknown attribute value type: <nil>"
  end.

Definition attribute_text (value : option AnyValue) : outcome string :=
  match value with Some v => valueToString v | None => Panic end.

Definition KeyValues := list (string * option AnyValue).

Definition attributesToMap (kv : KeyValues) : outcome (gmap string string) :=
  let* l := collect (λ p : string * option AnyValue, let* t := attribute_text p.2 in Ret (p.1, t)) kv in Ret (set_all l).

Module OtlpRuns.
Definition f64_of (n d : Z) : F64.f64 := F64.div (F64.of_Z n) (F64.of_Z d).

Example shortest_texts :
  map FormatF64.text [f64_of 1 10; f64_of 1 3; f64_of (-5) 2; F64.of_Z 0; F64.of_Z 1000000000000000000000; F64.of_Z 9007199254740993;
                      f64_of 123456789 1000; F64.add (f64_of 1 10) (f64_of 2 10); S754_finite false 1 (-1); F64.of_Z 1;
                      F64.of_Z 99999; f64_of 999 1000; f64_of 1 (10 ^ 22)]
  = ["0.1"; "0.3333333333333333"; "-2.5"; "0"; "1000000000000000000000"; "9007199254740992";
     "123456.789"; "0.30000000000000004"; "0.5"; "1"; "99999"; "0.999"; "0.0000000000000000000001"].
Proof. by vm_compute. Qed.

Example extreme_texts :
  String.length (FormatF64.text (S754_finite false 1 (-1074))) = 326%nat
  ∧ FormatF64.text (S754_finite false 4503599627370496 (-52)) = "1"
  ∧ stake 20 (FormatF64.text (S754_finite false 9007199254740991 971)) = "17976931348623157000".
Proof. vm_compute. by split_and?. Qed.

Example value_texts :
  valueToString (ArrayValue [IntValue 1; StringValue ("a" ++ JsonText.mark ++ "<"); BoolValue true])
  = Ret ("[" ++ JsonText.quote "1" ++ "," ++ JsonText.mark ++ "a" ++ JsonText.backslash ++ JsonText.mark ++ JsonText.backslash ++ "u003c"
         ++ JsonText.mark ++ "," ++ JsonText.quote "true" ++ "]")
  ∧ valueToString (KvlistValue [("b", Some (IntValue (-3))); ("a", Some AnyUnset)])
    = Ret ("{" ++ JsonText.quote "a" ++ ":" ++ JsonText.mark ++ "unknown attribute value type: " ++ JsonText.backslash ++ "u003cnil"
           ++ JsonText.backslash ++ "u003e" ++ JsonText.mark ++ "," ++ JsonText.quote "b" ++ ":" ++ JsonText.quote "-3" ++ "}")
  ∧ attributesToMap [("http.status", Some (IntValue 200)); ("peer", None)] = Panic.
Proof. vm_compute. by split_and?. Qed.
End OtlpRuns.
