(* ===== verification/TracesBatch.v ===== *)
(** The batches of spans of the collector (collector/traces.go).

    A batch is the columns of the rows it holds, as the list of the rows: [Add]
    appends to all the columns of a span together.  An operation that holds the
    lock is one function, which reads the clock once; what ClickHouse is sent is
    returned.  The hash of a body is a parameter. *)

From Stdlib Require Import ZArith Lia Bool String Ascii.
From S2P Require Import Prelude GoStrings FlameGraph AppId GoNet SpanCounting Directory RecentAddresses Otlp.
Import Net RecentAddressesFacts.

Local Open Scope string_scope.
Local Open Scope Z_scope.

Definition attrHTTPRequestBody : string := "http.request.body".
Definition attrHTTPResponseBody : string := "http.response.body".
Definition maxSpanBodyBytes : Z := 16 * 1024.
Definition bodyRewriteInterval : Z := 3600 * NanosPerSecond.
Definition maxBodiesWritten : Z := 100000.
Definition maxHeldBatches : nat := 10.
Definition nodeAgentScope : string := "coroot-node-agent".
Definition attrRequestKey : string := "coroot.request.key".

(** [xxhash.Sum64String] *)
Class Xxhash := { Sum64String : string → Z }.

(** * The request, as its getters return it *)

Record SpanEvent := { ev_TimeUnixNano : Z; ev_Name : string; ev_Attributes : KeyValues }.
Record SpanLink := { ln_TraceId : string; ln_SpanId : string; ln_TraceState : string; ln_Attributes : KeyValues }.
Record OtlpSpan := {
  os_TraceId : string;
  os_SpanId : string;
  os_ParentSpanId : string;
  os_TraceState : string;
  os_Name : string;
  os_Kind : string;                (** [GetKind().String()] *)
  os_StartTimeUnixNano : Z;
  os_EndTimeUnixNano : Z;
  os_Attributes : KeyValues;
  os_Events : list SpanEvent;
  os_Links : list SpanLink;
  os_StatusCode : string;          (** [GetStatus().GetCode().String()] *)
  os_StatusMessage : string;
}.
Record ScopeSpans := { ss_Name : string; ss_Version : string; ss_Spans : list OtlpSpan }.
Record ResourceSpans := { rs_Attributes : KeyValues; rs_ScopeSpans : list ScopeSpans }.
Definition ExportTraceServiceRequest := list ResourceSpans.

(** * Attributes with columns of their own *)

Definition extractRequestKey (attrs : gmap string string) : Z * gmap string string :=
  match attrs !! attrRequestKey with
  | None => (0, attrs)
  | Some value => (default 0 (ParseHex value), delete attrRequestKey attrs)
  end.

Definition bodyHash `{Xxhash} (body : string) : Z := if String.eqb body "" then 0 else Sum64String body.

Definition capBody (s : string) : string :=
  if maxSpanBodyBytes <? Z.of_nat (String.length s) then stake (Z.to_nat maxSpanBodyBytes) s else s.

Definition extractBodies (attrs : gmap string string) : string * string * gmap string string :=
  (capBody (span_attr attrs attrHTTPRequestBody), capBody (span_attr attrs attrHTTPResponseBody),
   delete attrHTTPResponseBody (delete attrHTTPRequestBody attrs)).

(** * Rows *)

Record SpanColumns := {
  Timestamp : Z;
  TraceId : string;
  SpanId : string;
  ParentSpanId : string;
  TraceState : string;
  SpanName : string;
  SpanKind : string;
  ServiceName : string;
  Protocol : string;
  RequestKey : Z;
  ResourceAttributes : gmap string string;
  SpanAttributes : gmap string string;
  Duration : Z;
  StatusCode : string;
  StatusMessage : string;
  EventsTimestamp : list Z;
  EventsName : list string;
  EventsAttributes : list (gmap string string);
  LinksTraceId : list string;
  LinksSpanId : list string;
  LinksTraceState : list string;
  LinksAttributes : list (gmap string string);
}.

Record SpanRow := { row_span : SpanColumns; RequestBodyHash : Z; ResponseBodyHash : Z }.

Record pendingSpan := {
  ps_serviceName : string;
  ps_spanKind : string;
  ps_fromAgent : bool;
  ps_protocol : string;
  ps_resource : gmap string string;
  ps_span : gmap string string;
}.

Definition pending_of (fromAgent : bool) (c : SpanColumns) : pendingSpan :=
  {| ps_serviceName := ServiceName c; ps_spanKind := SpanKind c; ps_fromAgent := fromAgent; ps_protocol := Protocol c;
     ps_resource := ResourceAttributes c; ps_span := SpanAttributes c |}.

Record TracesBatch := {
  rows : list SpanRow;
  pending : list pendingSpan;
  bodies : gmap Z string;
  bodiesWrittenAt : gmap Z Z;
  servers : serverSpanSources;
  serversLoaded : bool;
  addresses : recentAddresses;
  addressesLoaded : bool;
  createdAt : Z;
}.

(** [reads_servers] and [reads_addresses]: whether there is a function to read
    them with. *)
Definition newTracesBatch (reads_servers reads_addresses : bool) (now : Z) : TracesBatch :=
  {| rows := []; pending := []; bodies := ∅; bodiesWrittenAt := ∅; servers := newServerSpanSources; serversLoaded := negb reads_servers;
     addresses := newRecentAddresses; addressesLoaded := negb reads_addresses; createdAt := now |}.

(** What ClickHouse is sent: the rows of trace_bodies, and those of otel_traces
    with the columns [Client], [Server] and [Counted].  [saved]: whether the insert
    succeeded; when it did not, the error is logged and the rows are gone. *)
Inductive query :=
| InsertBodies (l : list (Z * string)) (lastSeen : Z) (saved : bool)
| InsertSpans (l : list SpanRow) (applications : list (string * string * bool)) (saved : bool).

(** What an operation finds: the directory of the project and whether its first
    build is over, the services it has guessed, the order its applications come
    in at each span, the clock, and whether the inserts of bodies and of spans
    succeed. *)
Record Env := {
  env_directory : option ApplicationDirectory;
  env_ready : bool;
  env_guessed : gmap string string;
  env_order : nat → list ApplicationId;
  env_now : Z;
  env_bodies_saved : bool;
  env_spans_saved : bool;
}.

(** * Adding *)

(** The attribute maps of a span: its scope's name and version are added. *)
Definition scope_attributes (name version : string) (attrs : gmap string string) : gmap string string :=
  let attrs := if String.eqb name "" then attrs else <["otel.scope.name" := name]> attrs in
  if String.eqb version "" then attrs else <["otel.scope.version" := version]> attrs.

(** A span that was read: its columns, its two bodies, and whether it is of the
    node agent. *)
Record ReadSpan := { read_columns : SpanColumns; read_request : string; read_response : string; read_fromAgent : bool }.

Definition read_span (serviceName : string) (resource : gmap string string) (scope : ScopeSpans) (s : OtlpSpan) : outcome ReadSpan :=
  let* attrs := attributesToMap (os_Attributes s) in
  let '(request, response, attrs) := extractBodies attrs in
  let '(key, attrs) := extractRequestKey attrs in
  let attrs := scope_attributes (ss_Name scope) (ss_Version scope) attrs in
  let* eventAttributes := collect (λ e, attributesToMap (ev_Attributes e)) (os_Events s) in
  let* linkAttributes := collect (λ l, attributesToMap (ln_Attributes l)) (os_Links s) in
  Ret {| read_columns :=
           {| Timestamp := wrap64 (os_StartTimeUnixNano s);
              TraceId := EncodeToString (os_TraceId s);
              SpanId := EncodeToString (os_SpanId s);
              ParentSpanId := EncodeToString (os_ParentSpanId s);
              TraceState := os_TraceState s;
              SpanName := os_Name s;
              SpanKind := os_Kind s;
              ServiceName := serviceName;
              Protocol := requestProtocol attrs;
              RequestKey := key;
              ResourceAttributes := resource;
              SpanAttributes := attrs;
              Duration := wrap64 (os_EndTimeUnixNano s - os_StartTimeUnixNano s);
              StatusCode := os_StatusCode s;
              StatusMessage := os_StatusMessage s;
              EventsTimestamp := map (λ e, wrap64 (ev_TimeUnixNano e)) (os_Events s);
              EventsName := map ev_Name (os_Events s);
              EventsAttributes := eventAttributes;
              LinksTraceId := map (λ l, EncodeToString (ln_TraceId l)) (os_Links s);
              LinksSpanId := map (λ l, EncodeToString (ln_SpanId l)) (os_Links s);
              LinksTraceState := map ln_TraceState (os_Links s);
              LinksAttributes := linkAttributes |};
         read_request := request; read_response := response;
         read_fromAgent := String.eqb (ss_Name scope) nodeAgentScope |}.

(** The spans of a request in order; reading stops at the first panic. *)
Definition resource_spans (rs : ResourceSpans) : list (outcome ReadSpan) :=
  match attributesToMap (rs_Attributes rs) with
  | Panic => [Panic]
  | Ret resource =>
      flat_map (λ scope, map (read_span (span_attr resource "service.name") resource scope) (ss_Spans scope)) (rs_ScopeSpans rs)
  end.

Definition request_spans (req : ExportTraceServiceRequest) : list (outcome ReadSpan) := flat_map resource_spans req.

Definition with_bodies (bs : gmap Z string) (b : TracesBatch) : TracesBatch :=
  {| rows := rows b; pending := pending b; bodies := bs; bodiesWrittenAt := bodiesWrittenAt b; servers := servers b;
     serversLoaded := serversLoaded b; addresses := addresses b; addressesLoaded := addressesLoaded b; createdAt := createdAt b |}.

Definition written_lately (b : TracesBatch) (hash now : Z) : bool :=
  match bodiesWrittenAt b !! hash with Some writtenAt => now - writtenAt <? bodyRewriteInterval | None => false end.

Definition addBody `{Xxhash} (body : string) (now : Z) (b : TracesBatch) : Z * TracesBatch :=
  let hash := bodyHash body in
  if hash =? 0 then (0, b)
  else if written_lately b hash now then (hash, b)
  else (hash, with_bodies (<[hash := body]> (bodies b)) b).

Definition add_span `{Xxhash} (now : Z) (s : ReadSpan) (b : TracesBatch) : TracesBatch :=
  let '(requestHash, b) := addBody (read_request s) now b in
  let '(responseHash, b) := addBody (read_response s) now b in
  {| rows := rows b ++ [{| row_span := read_columns s; RequestBodyHash := requestHash; ResponseBodyHash := responseHash |}];
     pending := pending b ++ [pending_of (read_fromAgent s) (read_columns s)];
     bodies := bodies b; bodiesWrittenAt := bodiesWrittenAt b; servers := servers b; serversLoaded := serversLoaded b;
     addresses := addresses b; addressesLoaded := addressesLoaded b; createdAt := createdAt b |}%list.

(** The batch after the spans, and whether all were added. *)
Fixpoint add_read_spans `{Xxhash} (now : Z) (l : list (outcome ReadSpan)) (b : TracesBatch) : TracesBatch * bool :=
  match l with
  | [] => (b, true)
  | Ret s :: l => add_read_spans now l (add_span now s b)
  | Panic :: _ => (b, false)
  end.

(** * Writing *)

Definition learnAddresses (directory : option ApplicationDirectory) (span : pendingSpan) (client server : string) (now : Z)
    (a : recentAddresses) : recentAddresses :=
  if negb (ps_fromAgent span) then a
  else if String.eqb (ps_spanKind span) "SPAN_KIND_SERVER" then learn directory (ps_spanKind span) server (ps_span span) now a
  else if String.eqb (ps_spanKind span) "SPAN_KIND_CLIENT" then learn directory (ps_spanKind span) client (ps_span span) now a
  else a.

(** The name of a peer named by its address. *)
Definition name_peer (peer address : string) (now : Z) (a : recentAddresses) : string :=
  if is_set address && String.eqb peer address then default peer (lookup_address address now a) else peer.

Definition namePeers `{UrlHost} (span : pendingSpan) (client server : string) (now : Z) (a : recentAddresses) : string * string :=
  if serves (ps_spanKind span) then (name_peer client (clientAddress (ps_span span)) now a, server)
  else if calls (ps_spanKind span) then (client, name_peer server (serverAddress (ps_span span)) now a)
  else (client, server).

Definition span_names `{UrlHost} (e : Env) (index : nat) (guessed : gmap string string) (span : pendingSpan)
    : string * string * gmap string string :=
  SpanApplications (env_order e index) (env_directory e) guessed (ps_serviceName span) (ps_spanKind span) (ps_resource span) (ps_span span).

(** The first loop: the two names of each span, and the addresses learned. *)
Fixpoint name_spans `{UrlHost} (e : Env) (index : nat) (spans : list pendingSpan) (guessed : gmap string string) (a : recentAddresses)
    : list (string * string) * recentAddresses :=
  match spans with
  | [] => ([], a)
  | span :: spans =>
      let '(client, server, guessed) := span_names e index guessed span in
      let a := learnAddresses (env_directory e) span client server (env_now e) a in
      let '(names, a) := name_spans e (S index) spans guessed a in
      ((client, server) :: names, a)
  end.

(** The second loop: the columns [Client], [Server] and [Counted]. *)
Fixpoint decide_spans `{UrlHost} (now : Z) (spans : list pendingSpan) (names : list (string * string)) (a : recentAddresses)
    (s : serverSpanSources) : list (string * string * bool) * serverSpanSources :=
  match spans, names with
  | span :: spans, (client, server) :: names =>
      let '(client, server) := namePeers span client server now a in
      let '(is_counted, s) := counted (ps_spanKind span) (ps_fromAgent span) server (ps_protocol span) now s in
      let '(columns, s) := decide_spans now spans names a s in
      ((client, server, is_counted) :: columns, s)
  | _, _ => ([], s)
  end.

Definition saveBodies (now : Z) (saved : bool) (b : TracesBatch) : TracesBatch * list query :=
  if bool_decide (bodies b = ∅) then (b, [])
  else
    let q := InsertBodies (map_to_list (bodies b)) now saved in
    if saved then
      let written := if maxBodiesWritten <? Z.of_nat (size (bodiesWrittenAt b)) + Z.of_nat (size (bodies b)) then ∅ else bodiesWrittenAt b in
      ({| rows := rows b; pending := pending b; bodies := ∅; bodiesWrittenAt := ((λ _, now) <$> bodies b) ∪ written; servers := servers b;
          serversLoaded := serversLoaded b; addresses := addresses b; addressesLoaded := addressesLoaded b; createdAt := createdAt b |}, [q])
    else (with_bodies ∅ b, [q]).

Definition write `{UrlHost} (e : Env) (b : TracesBatch) : TracesBatch * list query :=
  match rows b with
  | [] => (b, [])
  | _ =>
      let '(names, a) := name_spans e 0 (pending b) (env_guessed e) (addresses b) in
      let '(columns, s) := decide_spans (env_now e) (pending b) names a (servers b) in
      let b := {| rows := rows b; pending := []; bodies := bodies b; bodiesWrittenAt := bodiesWrittenAt b; servers := s;
                  serversLoaded := serversLoaded b; addresses := a; addressesLoaded := addressesLoaded b; createdAt := createdAt b |} in
      let '(b, q) := saveBodies (env_now e) (env_bodies_saved e) b in
      ({| rows := []; pending := pending b; bodies := bodies b; bodiesWrittenAt := bodiesWrittenAt b; servers := servers b;
          serversLoaded := serversLoaded b; addresses := addresses b; addressesLoaded := addressesLoaded b; createdAt := createdAt b |},
       q ++ [InsertSpans (rows b) columns (env_spans_saved e)])%list
  end.

Definition readsDone (b : TracesBatch) : bool := serversLoaded b && addressesLoaded b.

(** Whether a batch of this limit holds its spans still. *)
Definition holds (limit : nat) (e : Env) (b : TracesBatch) : bool :=
  negb (readsDone b && env_ready e)
  && (env_now e - createdAt b <? serverSpanSourcesMaxHold)
  && Nat.ltb (length (rows b)) (maxHeldBatches * limit).

Definition save `{UrlHost} (limit : nat) (e : Env) (b : TracesBatch) : TracesBatch * list query :=
  if holds limit e b then (b, []) else write e b.

(** The last value: whether it panics. *)
Definition Add `{Xxhash} `{UrlHost} (limit : nat) (e : Env) (req : ExportTraceServiceRequest) (b : TracesBatch)
    : TracesBatch * list query * bool :=
  let '(b, added) := add_read_spans (env_now e) (request_spans req) b in
  if negb added then (b, [], true)
  else if Nat.ltb (length (rows b)) limit then (b, [], false)
  else (save limit e b, false).

(** * Reading, the ticker and the end *)

(** A read of [keepReading]: [None] for an error. *)
Definition read_servers (result : option (list serverSpanSource)) (b : TracesBatch) : TracesBatch :=
  match result with
  | None => b
  | Some sources =>
      {| rows := rows b; pending := pending b; bodies := bodies b; bodiesWrittenAt := bodiesWrittenAt b; servers := remember_sources (servers b) sources;
         serversLoaded := true; addresses := addresses b; addressesLoaded := addressesLoaded b; createdAt := createdAt b |}
  end.

Definition read_addresses (e : Env) (result : option (list recentAddressRow)) (b : TracesBatch) : TracesBatch :=
  match result with
  | None => b
  | Some l =>
      {| rows := rows b; pending := pending b; bodies := bodies b; bodiesWrittenAt := bodiesWrittenAt b; servers := servers b;
         serversLoaded := serversLoaded b; addresses := remember_rows (env_directory e) l (env_now e) (addresses b); addressesLoaded := true;
         createdAt := createdAt b |}
  end.

(** What can happen to a batch; [Close_] is the end of [Close], once it has
    waited.  A tick or a read that is under way then may come after it. *)
Inductive event :=
| Add_ (e : Env) (req : ExportTraceServiceRequest)
| Tick (e : Env)
| ReadServers (result : option (list serverSpanSource))
| ReadAddresses (e : Env) (result : option (list recentAddressRow))
| Close_ (e : Env).

Definition batch_step `{Xxhash} `{UrlHost} (limit : nat) (b : TracesBatch) (ev : event) : TracesBatch * list query :=
  match ev with
  | Add_ e req => (Add limit e req b).1
  | Tick e => save limit e b
  | ReadServers result => (read_servers result b, [])
  | ReadAddresses e result => (read_addresses e result b, [])
  | Close_ e => write e b
  end.

(** The batch and all ClickHouse was sent. *)
Fixpoint run `{Xxhash} `{UrlHost} (limit : nat) (b : TracesBatch) (events : list event) : TracesBatch * list query :=
  match events with
  | [] => (b, [])
  | ev :: events =>
      let '(b, q) := batch_step limit b ev in
      let '(b, qs) := run limit b events in (b, q ++ qs)%list
  end.

(** The waiting of [Close]: a channel is loaded at a time, or never, and the
    deadline is received once, at its time: [None] after.  A [select] takes what
    is ready first, and either when both are. *)
Inductive wait : list (option Z) → option Z → Z → Z → Prop :=
| wait_end deadline now : wait [] deadline now now
| wait_loaded t loads deadline now end_ :
    match deadline with Some d => Z.max now t ≤ Z.max now d | None => True end →
    wait loads deadline (Z.max now t) end_ →
    wait (Some t :: loads) deadline now end_
| wait_deadline load loads d now end_ :
    match load with Some t => Z.max now d ≤ Z.max now t | None => True end →
    wait loads None (Z.max now d) end_ →
    wait (load :: loads) (Some d) now end_.

Module TracesBatchFacts.
Local Open Scope list_scope.

(** * What is sent *)

Definition sent_rows (q : query) : list SpanRow := match q with InsertSpans l _ _ => l | InsertBodies _ _ _ => [] end.
Definition stored_rows (q : query) : list SpanRow := match q with InsertSpans l _ true => l | _ => [] end.
Definition sent (qs : list query) : list SpanRow := flat_map sent_rows qs.

(** What is in the table: an insert that fails stores nothing. *)
Definition stored (qs : list query) : list SpanRow := flat_map stored_rows qs.

Lemma stored_sublist qs : stored qs `sublist_of` sent qs.
Proof.
  induction qs as [|q qs IH]; cbn; [done|]. apply sublist_app; [|exact IH]. destruct q as [|l columns []]; cbn; [done..|apply sublist_nil_l].
Qed.
Lemma stored_all qs : Forall (λ q, match q with InsertSpans _ _ saved => saved = true | InsertBodies _ _ _ => True end) qs → stored qs = sent qs.
Proof. induction 1 as [|q qs Hq _ IH]; [done|]. cbn. unfold stored, sent in IH. rewrite IH. f_equal. destruct q; [done|]. by subst. Qed.

Lemma sent_app qs qs' : sent (qs ++ qs') = sent qs ++ sent qs'.
Proof. apply flat_map_app. Qed.

(** Each insert of spans has rows, and a name for each. *)
Definition well_formed (q : query) : Prop :=
  match q with InsertSpans l columns _ => l ≠ [] ∧ length columns = length l | InsertBodies l _ _ => l ≠ [] end.

Section parameters.
Context `{Xxhash} `{UrlHost}.

(** The row of a span, and the rows a list of spans adds. *)
Definition read_row (s : ReadSpan) : SpanRow :=
  {| row_span := read_columns s; RequestBodyHash := bodyHash (read_request s); ResponseBodyHash := bodyHash (read_response s) |}.

Fixpoint read_spans (l : list (outcome ReadSpan)) : list ReadSpan :=
  match l with Ret s :: l => s :: read_spans l | _ => [] end.
Definition read_rows (l : list (outcome ReadSpan)) : list SpanRow := map read_row (read_spans l).

(** The spans of a request, those before the one that panicked if one did. *)
Definition accepted (ev : event) : list ReadSpan :=
  match ev with Add_ _ req => read_spans (request_spans req) | _ => [] end.
Definition added (ev : event) : list SpanRow := map read_row (accepted ev).

Lemma addBody_spec body now b :
  ∃ bs, addBody body now b = (bodyHash body, with_bodies bs b)
        ∧ (bs = bodies b ∨ bs = <[bodyHash body := body]> (bodies b) ∧ bodyHash body ≠ 0)
        ∧ (bodyHash body ≠ 0 → is_Some (bs !! bodyHash body) ∨ written_lately b (bodyHash body) now = true).
Proof.
  unfold addBody. cbv zeta. destruct (Z.eqb_spec (bodyHash body) 0) as [E|Ne].
  - exists (bodies b). rewrite E. split_and!; [by destruct b|by left|done].
  - destruct (written_lately b (bodyHash body) now) eqn:W.
    + exists (bodies b). split_and!; [by destruct b|by left|by right].
    + exists (<[bodyHash body := body]> (bodies b)). split_and!; [done|by right|]. rewrite lookup_insert_eq. left. by eexists.
Qed.

(** Adding a span, but for the bodies it keeps. *)
Lemma add_span_shape now s b :
  ∃ bs, add_span now s b
        = {| rows := rows b ++ [read_row s]; pending := pending b ++ [pending_of (read_fromAgent s) (read_columns s)]; bodies := bs;
             bodiesWrittenAt := bodiesWrittenAt b; servers := servers b; serversLoaded := serversLoaded b; addresses := addresses b;
             addressesLoaded := addressesLoaded b; createdAt := createdAt b |}.
Proof.
  unfold add_span. destruct (addBody_spec (read_request s) now b) as (bs & -> & _).
  destruct (addBody_spec (read_response s) now (with_bodies bs b)) as (bs' & -> & _). by exists bs'.
Qed.

Lemma add_spans_rows now l b : rows (add_read_spans now l b).1 = rows b ++ read_rows l.
Proof.
  revert b. induction l as [|[s|] l IH]; intros b; cbn; [by rewrite app_nil_r| |by rewrite app_nil_r].
  rewrite IH. destruct (add_span_shape now s b) as [bs ->]. cbn. by rewrite <-app_assoc.
Qed.

(** What a span's names are decided from, and a batch that holds these spans. *)
Definition pending_span (s : ReadSpan) : pendingSpan := pending_of (read_fromAgent s) (read_columns s).
Definition holding (b : TracesBatch) (spans : list ReadSpan) : Prop := rows b = map read_row spans ∧ pending b = map pending_span spans.

Lemma add_spans_holding now l b spans : holding b spans → holding (add_read_spans now l b).1 (spans ++ read_spans l).
Proof.
  revert b spans. induction l as [|[s|] l IH]; intros b spans Hh; cbn; [by rewrite app_nil_r| |by rewrite app_nil_r].
  replace (spans ++ s :: read_spans l) with ((spans ++ [s]) ++ read_spans l) by by rewrite <-app_assoc.
  apply IH. destruct (add_span_shape now s b) as [bs ->], Hh as [R P]. unfold holding. cbn. by rewrite R, P, !map_app.
Qed.

(** The columns and what the names are decided from have the same length. *)
Definition aligned (b : TracesBatch) : Prop := length (pending b) = length (rows b).

Lemma add_spans_aligned now l b : aligned b → aligned (add_read_spans now l b).1.
Proof.
  revert b. induction l as [|[s|] l IH]; intros b A; cbn; [done| |done]. apply IH.
  destruct (add_span_shape now s b) as [bs ->]. unfold aligned. cbn. rewrite !length_app, A. done.
Qed.

Lemma name_spans_length e index spans guessed a : length (name_spans e index spans guessed a).1 = length spans.
Proof.
  revert index guessed a. induction spans as [|span spans IH]; intros index guessed a; [done|]. cbn.
  destruct (span_names e index guessed span) as [[client server] g].
  specialize (IH (S index) g (learnAddresses (env_directory e) span client server (env_now e) a)).
  destruct (name_spans _ _ spans _ _) as [names a']. cbn in *. by rewrite IH.
Qed.

Lemma decide_spans_length now spans names a s :
  length names = length spans → length (decide_spans now spans names a s).1 = length spans.
Proof.
  revert names s. induction spans as [|span spans IH]; intros [|[client server] names] s L; try done. cbn.
  destruct (namePeers span client server now a) as [c v]. destruct (counted _ _ v _ now s) as [k s'].
  specialize (IH names s' ltac:(by injection L)). destruct (decide_spans now spans names a s') as [columns s'']. cbn in *. by rewrite IH.
Qed.

Lemma saveBodies_rows now saved b :
  rows (saveBodies now saved b).1 = rows b ∧ pending (saveBodies now saved b).1 = pending b
  ∧ sent (saveBodies now saved b).2 = [] ∧ Forall well_formed (saveBodies now saved b).2.
Proof.
  unfold saveBodies. case_bool_decide as E; [done|].
  assert (W : Forall well_formed [InsertBodies (map_to_list (bodies b)) now saved]).
  { repeat constructor. cbn. intros Em%map_to_list_empty_iff. done. }
  by destruct saved.
Qed.

(** A write sends what is held and leaves nothing. *)
Lemma write_sends e b :
  sent (write e b).2 = rows b ∧ rows (write e b).1 = [] ∧ (aligned b → aligned (write e b).1 ∧ Forall well_formed (write e b).2).
Proof.
  unfold write. destruct (rows b) as [|r l] eqn:R; [done|].
  assert (L := name_spans_length e 0 (pending b) (env_guessed e) (addresses b)).
  destruct (name_spans _ _ (pending b) _ _) as [names a].
  assert (C := decide_spans_length (env_now e) (pending b) names a (servers b) L).
  destruct (decide_spans _ (pending b) _ _ _) as [columns s].
  set (b1 := {| rows := r :: l; pending := []; bodies := bodies b |}).
  destruct (saveBodies_rows (env_now e) (env_bodies_saved e) b1) as (E1 & E2 & E3 & E4).
  destruct (saveBodies (env_now e) (env_bodies_saved e) b1) as [b2 q]. cbn [fst snd] in *. split_and!.
  - rewrite sent_app, E3. cbn. by rewrite app_nil_r, E1.
  - done.
  - intros A. split; [unfold aligned; cbn; by rewrite E2|]. apply Forall_app. split; [done|].
    repeat constructor; cbn; [by rewrite E1|]. cbn in C. rewrite C, E1. unfold aligned in A. by rewrite A, R.
Qed.

Lemma save_sends limit e b :
  sent (save limit e b).2 ++ rows (save limit e b).1 = rows b
  ∧ (aligned b → aligned (save limit e b).1 ∧ Forall well_formed (save limit e b).2).
Proof.
  unfold save. destruct (holds limit e b); [done|]. destruct (write_sends e b) as (S & R & W). by rewrite S, R, app_nil_r.
Qed.

Lemma step_sends limit b ev :
  sent (batch_step limit b ev).2 ++ rows (batch_step limit b ev).1 = rows b ++ added ev
  ∧ (aligned b → aligned (batch_step limit b ev).1 ∧ Forall well_formed (batch_step limit b ev).2).
Proof.
  destruct ev as [e req|e|result|e result|e]; unfold added; cbn [batch_step accepted map].
  - unfold Add. assert (R := add_spans_rows (env_now e) (request_spans req) b). unfold read_rows in R.
    assert (A := add_spans_aligned (env_now e) (request_spans req) b). destruct (add_read_spans _ _ b) as [b' ok]. cbn [fst snd] in R, A |- *.
    rewrite <- R. destruct ok; cbn [negb]; [|by split; [|split; [apply A|]]].
    destruct (Nat.ltb (length (rows b')) limit); cbn [fst snd]; [by split; [|split; [apply A|]]|].
    destruct (save_sends limit e b') as [E W]. auto.
  - rewrite app_nil_r. apply save_sends.
  - rewrite app_nil_r. by destruct result.
  - rewrite app_nil_r. by destruct result.
  - destruct (write_sends e b) as (S & R & W). by rewrite S, R, !app_nil_r.
Qed.

Lemma run_cons limit b ev events :
  run limit b (ev :: events) = ((run limit (batch_step limit b ev).1 events).1, (batch_step limit b ev).2 ++ (run limit (batch_step limit b ev).1 events).2).
Proof. cbn. destruct (batch_step limit b ev) as [b1 q]. cbn. by destruct (run limit b1 events). Qed.

Lemma run_sends limit b events :
  aligned b →
  sent (run limit b events).2 ++ rows (run limit b events).1 = rows b ++ flat_map added events
  ∧ Forall well_formed (run limit b events).2.
Proof.
  revert b. induction events as [|ev events IH]; intros b A; [by rewrite app_nil_r|].
  rewrite run_cons. cbn [fst snd flat_map]. destruct (step_sends limit b ev) as (S & W). destruct (W A) as [A' W'].
  destruct (IH _ A') as [E F]. split; [|by apply Forall_app].
  by rewrite sent_app, <-app_assoc, E, !app_assoc, S.
Qed.

(** * How many are held *)

Definition reads_all (ev : event) : Prop :=
  match ev with Add_ _ req => Panic ∉ request_spans req | _ => True end.

Lemma no_panic (l : list (outcome ReadSpan)) : forallb (λ s, match s with Ret _ => true | Panic => false end) l = true → Panic ∉ l.
Proof. intros F I. apply list_elem_of_In in I. by apply (proj1 (forallb_forall _ l) F) in I. Qed.

Definition event_env (ev : event) : option Env :=
  match ev with Add_ e _ | Tick e | ReadAddresses e _ | Close_ e => Some e | ReadServers _ => None end.

Lemma add_spans_ok now l b : Panic ∉ l → (add_read_spans now l b).2 = true.
Proof.
  revert b. induction l as [|[s|] l IH]; intros b N; cbn; [done| |by destruct N; left].
  apply IH. intros I. apply N. by right.
Qed.

Lemma save_held limit e b :
  (0 < limit)%nat →
  rows (save limit e b).1 = [] ∨ holds limit e b = true ∧ (save limit e b).1 = b ∧ (length (rows b) < maxHeldBatches * limit)%nat.
Proof.
  intros L. unfold save. destruct (holds limit e b) eqn:E; [right|left; apply write_sends]. split_and!; [done..|].
  unfold holds in E. apply andb_prop in E as [_ E]. by apply Nat.ltb_lt in E.
Qed.

Lemma save_over limit e b :
  readsDone b = true ∧ env_ready e = true ∨ createdAt b + serverSpanSourcesMaxHold ≤ env_now e → rows (save limit e b).1 = [].
Proof.
  intros C. unfold save. replace (holds limit e b) with false; [apply write_sends|]. unfold holds.
  destruct C as [[-> ->]|C]; [done|]. symmetry. apply andb_false_iff. left. apply andb_false_iff. right. apply Z.ltb_ge. lia.
Qed.

Lemma step_held limit b ev :
  (0 < limit)%nat → reads_all ev → (length (rows b) < maxHeldBatches * limit)%nat →
  (length (rows (batch_step limit b ev).1) < maxHeldBatches * limit)%nat.
Proof.
  intros L R B. assert (Z0 : (0 < maxHeldBatches * limit)%nat) by (unfold maxHeldBatches; lia).
  assert (S : ∀ e b, (length (rows b) < maxHeldBatches * limit)%nat ∨ True → (length (rows (save limit e b).1) < maxHeldBatches * limit)%nat).
  { intros e b' _. destruct (save_held limit e b' L) as [->|(_ & -> & ?)]; done. }
  destruct ev as [e req|e|[]|e []|e]; cbn [batch_step fst]; auto.
  - unfold Add. assert (O := add_spans_ok (env_now e) _ b R). destruct (add_read_spans _ _ b) as [b' ok]. cbn in O. rewrite O. cbn [negb].
    destruct (Nat.ltb_spec (length (rows b')) limit); cbn [fst]; [unfold maxHeldBatches; lia|auto].
  - by rewrite (proj1 (proj2 (write_sends e b))).
Qed.

Lemma run_held limit b events :
  (0 < limit)%nat → Forall reads_all events → (length (rows b) < maxHeldBatches * limit)%nat →
  (length (rows (run limit b events).1) < maxHeldBatches * limit)%nat.
Proof.
  intros L. revert b. induction events as [|ev events IH]; intros b F B; [done|]. apply Forall_cons in F as [R F].
  rewrite run_cons. cbn [fst]. apply IH; [done|]. by apply step_held.
Qed.

(** A batch keeps the time it was made. *)
Lemma add_spans_created now l b :
  createdAt (add_read_spans now l b).1 = createdAt b ∧ readsDone (add_read_spans now l b).1 = readsDone b.
Proof.
  revert b. induction l as [|[s|] l IH]; intros b; cbn; [done| |done]. destruct (IH (add_span now s b)) as [-> ->].
  by destruct (add_span_shape now s b) as [bs ->].
Qed.

Lemma saveBodies_created now saved b : createdAt (saveBodies now saved b).1 = createdAt b.
Proof. unfold saveBodies. case_bool_decide; [done|]. by destruct saved. Qed.

Lemma write_created e b : createdAt (write e b).1 = createdAt b.
Proof.
  unfold write. destruct (rows b); [done|]. destruct (name_spans _ _ _ _ _) as [names a].
  destruct (decide_spans _ _ _ _ _) as [columns s'].
  match goal with |- context [saveBodies ?n ?s ?b1] => assert (C := saveBodies_created n s b1); destruct (saveBodies n s b1) end.
  exact C.
Qed.

Lemma step_created limit b ev : createdAt (batch_step limit b ev).1 = createdAt b.
Proof.
  assert (S : ∀ e b, createdAt (save limit e b).1 = createdAt b).
  { intros e b'. unfold save. destruct (holds limit e b'); [done|apply write_created]. }
  destruct ev as [e req|e|[]|e []|e]; cbn [batch_step fst]; auto; [|apply write_created].
  unfold Add. destruct (add_spans_created (env_now e) (request_spans req) b) as [C _]. destruct (add_read_spans _ _ b) as [b' ok]. cbn [fst] in C.
  destruct ok; cbn [negb fst]; [|done]. destruct (Nat.ltb (length (rows b')) limit); cbn [fst]; [done|]. by rewrite S.
Qed.

Lemma run_created limit b events : createdAt (run limit b events).1 = createdAt b.
Proof.
  revert b. induction events as [|ev events IH]; intros b; [done|]. rewrite run_cons. cbn [fst]. by rewrite IH, step_created.
Qed.

(** * Bodies *)

Definition saves_spans (ev : event) : Prop := match event_env ev with Some e => env_spans_saved e = true | None => True end.
Definition saves (ev : event) : Prop := match event_env ev with Some e => env_bodies_saved e = true | None => True end.

(** A body of this hash is among the queries. *)
Definition body_in (qs : list query) (hash : Z) : Prop :=
  ∃ l lastSeen body, InsertBodies l lastSeen true ∈ qs ∧ (hash, body) ∈ l ∧ bodyHash body = hash.

Definition row_hash (r : SpanRow) (hash : Z) : Prop := (hash = RequestBodyHash r ∨ hash = ResponseBodyHash r) ∧ hash ≠ 0.

(** What is held refers to bodies that are kept or were sent before. *)
Definition bodies_known (before : list query) (b : TracesBatch) : Prop :=
  (∀ hash body, bodies b !! hash = Some body → bodyHash body = hash)
  ∧ (∀ hash, is_Some (bodiesWrittenAt b !! hash) → body_in before hash)
  ∧ (∀ r hash, r ∈ rows b → row_hash r hash → is_Some (bodies b !! hash) ∨ body_in before hash).

(** An insert of spans comes after the bodies they refer to. *)
Fixpoint bodies_first (before qs : list query) : Prop :=
  match qs with
  | [] => True
  | q :: qs =>
      match q with InsertSpans l _ _ => ∀ r hash, r ∈ l → row_hash r hash → body_in before hash | _ => True end
      ∧ bodies_first (before ++ [q]) qs
  end.

Lemma bodies_first_app before qs qs' : bodies_first before (qs ++ qs') ↔ bodies_first before qs ∧ bodies_first (before ++ qs) qs'.
Proof.
  revert before. induction qs as [|q qs IH]; intros before; cbn; [by rewrite app_nil_r; naive_solver|].
  rewrite IH, <-app_assoc. cbn. naive_solver.
Qed.

Lemma body_in_app qs qs' hash : body_in qs hash → body_in (qs ++ qs') hash.
Proof. intros (l & t & body & I & R). exists l, t, body. split; [|done]. apply elem_of_app. by left. Qed.

Lemma bodies_known_app before qs b : bodies_known before b → bodies_known (before ++ qs) b.
Proof.
  intros (K & W & R). split_and!; [done|intros; by apply body_in_app, W|]. intros r hash I Ha.
  destruct (R r hash I Ha); [by left|right; by apply body_in_app].
Qed.

(** Keeping a body, or not. *)
Lemma addBody_known before body now b :
  bodies_known before b →
  bodies_known before (addBody body now b).2
  ∧ (∀ hash, is_Some (bodies b !! hash) → is_Some (bodies (addBody body now b).2 !! hash))
  ∧ (bodyHash body ≠ 0 → is_Some (bodies (addBody body now b).2 !! bodyHash body) ∨ body_in before (bodyHash body)).
Proof.
  intros (K & W & R). destruct (addBody_spec body now b) as (bs & -> & C & D). cbn [snd].
  assert (Sub : ∀ hash, is_Some (bodies b !! hash) → is_Some (bs !! hash)).
  { intros hash I. destruct C as [->|[-> _]]; [done|]. destruct (decide (hash = bodyHash body)) as [->|Ne];
      [rewrite lookup_insert_eq; by eexists|by rewrite lookup_insert_ne]. }
  split_and!; [split_and!| |].
  - intros hash bd. cbn. destruct C as [->|[-> _]]; [apply K|]. intros [[<- <-]|[_ E]]%lookup_insert_Some; [done|by apply K].
  - exact W.
  - intros r hash I Ha. destruct (R r hash I Ha) as [I'|]; [left; by apply Sub|by right].
  - exact Sub.
  - intros N. destruct (D N) as [I|L]; [by left|right]. apply W. unfold written_lately in L.
    destruct (bodiesWrittenAt b !! bodyHash body); [by eexists|done].
Qed.

Lemma add_span_known before now s b : bodies_known before b → bodies_known before (add_span now s b).
Proof.
  intros K. unfold add_span.
  destruct (addBody_known before (read_request s) now b K) as (K1 & _ & H1). destruct (addBody_spec (read_request s) now b) as (bs & E1 & _).
  rewrite E1 in K1, H1 |- *. set (b1 := with_bodies bs b) in *.
  destruct (addBody_known before (read_response s) now b1 K1) as (K2 & Sub & H2).
  destruct (addBody_spec (read_response s) now b1) as (bs' & E2 & _). rewrite E2 in K2, Sub, H2 |- *. cbn [snd] in *.
  destruct K2 as (K2 & W2 & R2). split_and!; [done..|]. cbn [rows bodies]. intros r hash [I| ->%list_elem_of_singleton]%elem_of_app Ha.
  - by apply (R2 r).
  - destruct Ha as [[->| ->] N]; cbn in N |- *; [|by apply H2]. destruct (H1 N) as [I|]; [left; by apply Sub|by right].
Qed.

Lemma add_spans_known before now l b : bodies_known before b → bodies_known before (add_read_spans now l b).1.
Proof.
  revert b. induction l as [|[s|] l IH]; intros b K; cbn; [done| |done]. by apply IH, add_span_known.
Qed.

(** Saved bodies are all written, before the spans. *)
Lemma saveBodies_known before now b :
  bodies_known before b →
  let r := saveBodies now true b in
  bodies_known (before ++ r.2) r.1 ∧ bodies r.1 = ∅ ∧ bodies_first before r.2.
Proof.
  intros (K & W & R). unfold saveBodies. case_bool_decide as E; cbn [fst snd].
  { rewrite app_nil_r. done. }
  assert (In : ∀ hash body, bodies b !! hash = Some body → body_in (before ++ [InsertBodies (map_to_list (bodies b)) now true]) hash).
  { intros hash body L. exists (map_to_list (bodies b)), now, body. split_and!; [apply elem_of_app; right; by left|by apply elem_of_map_to_list|].
    by apply K. }
  split_and!; [split_and!| |]; cbn [bodies bodiesWrittenAt rows]; try done.
  - intros hash [t L]. apply lookup_union_Some_raw in L as [L|[_ L]].
    + apply lookup_fmap_Some in L as (body & _ & L). by apply (In _ body).
    + apply body_in_app, W. destruct (maxBodiesWritten <? _); [by rewrite lookup_empty in L|by eexists].
  - intros r hash I Ha. right. destruct (R r hash I Ha) as [[body L]|]; [by apply (In _ body)|by apply body_in_app].
Qed.

Lemma write_known before e b :
  env_bodies_saved e = true → bodies_known before b →
  bodies_known (before ++ (write e b).2) (write e b).1 ∧ bodies_first before (write e b).2.
Proof.
  intros S K. unfold write. destruct (rows b) as [|r l] eqn:E; [by rewrite app_nil_r|]. rewrite S.
  destruct (name_spans _ _ _ _ _) as [names a]. destruct (decide_spans _ _ _ _ _) as [columns s].
  set (b1 := {| rows := r :: l; pending := []; bodies := bodies b |}).
  assert (K1 : bodies_known before b1). { destruct K as (K & W & R). rewrite E in R. done. }
  destruct (saveBodies_known before (env_now e) b1 K1) as (K2 & E2 & F). destruct (saveBodies _ _ b1) as [b2 q]. cbn [fst snd] in *.
  destruct K2 as (K2 & W2 & R2). split.
  - rewrite app_assoc. apply bodies_known_app. split_and!; [done..|]. by intros r' hash ?%not_elem_of_nil.
  - apply bodies_first_app. split; [done|]. cbn. split; [|done]. intros r' hash I Ha.
    destruct (R2 r' hash I Ha) as [I'|]; [|done]. rewrite E2, lookup_empty in I'. by destruct I'.
Qed.

Lemma step_known limit before b ev :
  saves ev → bodies_known before b →
  bodies_known (before ++ (batch_step limit b ev).2) (batch_step limit b ev).1 ∧ bodies_first before (batch_step limit b ev).2.
Proof.
  intros S K.
  assert (Sv : ∀ e b, env_bodies_saved e = true → bodies_known before b →
    bodies_known (before ++ (save limit e b).2) (save limit e b).1 ∧ bodies_first before (save limit e b).2).
  { intros e b' S' K'. unfold save. destruct (holds limit e b'); [by rewrite app_nil_r|by apply write_known]. }
  destruct ev as [e req|e|[]|e []|e]; cbn [batch_step fst snd]; try by rewrite app_nil_r.
  - unfold Add. assert (K' := add_spans_known before (env_now e) (request_spans req) b K). destruct (add_read_spans _ _ b) as [b' ok].
    cbn [fst] in K'. destruct ok; cbn [negb fst snd]; [|by rewrite app_nil_r].
    destruct (Nat.ltb (length (rows b')) limit); cbn [fst snd]; [by rewrite app_nil_r|by apply Sv].
  - by apply Sv.
  - by apply write_known.
Qed.

Lemma run_known limit before b events :
  Forall saves events → bodies_known before b → bodies_first before (run limit b events).2.
Proof.
  revert before b. induction events as [|ev events IH]; intros before b F K; [done|]. apply Forall_cons in F as [S F].
  rewrite run_cons. cbn [snd]. destruct (step_known limit before b ev S K) as [K' B]. apply bodies_first_app. split; [done|]. by apply IH.
Qed.

(** * Names *)

(** What a span of the node agent tells of its own side, as a call of
    [record]. *)
Definition learn_call (e : Env) (span : pendingSpan) (client server : string) : option call :=
  let call_of address application :=
    {| c_directory := env_directory e; c_address := address; c_application := application; c_seen := env_now e; c_now := env_now e |} in
  if negb (ps_fromAgent span) then None
  else if String.eqb (ps_spanKind span) "SPAN_KIND_SERVER" then
    let ip := span_attr (ps_span span) "server.address" in
    let port := span_attr (ps_span span) "server.port" in
    if is_set ip && is_set port then Some (call_of (JoinHostPort ip port) server) else None
  else if String.eqb (ps_spanKind span) "SPAN_KIND_CLIENT" then
    let ip := span_attr (ps_span span) "network.local.address" in
    if is_set ip then Some (call_of ip client) else None
  else None.

Lemma learnAddresses_call e span client server a :
  learnAddresses (env_directory e) span client server (env_now e) a
  = foldl run_call a (option_list (learn_call e span client server)).
Proof.
  unfold learnAddresses, learn_call, learn. destruct (ps_fromAgent span); [|done]. cbn [negb].
  destruct (String.eqb (ps_spanKind span) "SPAN_KIND_SERVER"); [by destruct (is_set _ && is_set _)|].
  destruct (String.eqb (ps_spanKind span) "SPAN_KIND_CLIENT"); [by destruct (is_set _)|done].
Qed.

(** The names the directory gives, which do not depend on the addresses. *)
Definition batch_names (e : Env) (b : TracesBatch) : list (string * string) :=
  (name_spans e 0 (pending b) (env_guessed e) (addresses b)).1.

Definition calls_told (e : Env) (spans : list pendingSpan) (names : list (string * string)) : list call :=
  omap (λ p : pendingSpan * (string * string), learn_call e p.1 p.2.1 p.2.2) (zip spans names).

Lemma name_spans_calls e index spans guessed a :
  (name_spans e index spans guessed a).2 = foldl run_call a (calls_told e spans (name_spans e index spans guessed a).1).
Proof.
  revert index guessed a. induction spans as [|span spans IH]; intros index guessed a; [done|]. cbn [name_spans].
  destruct (span_names e index guessed span) as [[client server] g].
  specialize (IH (S index) g (learnAddresses (env_directory e) span client server (env_now e) a)).
  destruct (name_spans _ _ spans _ _) as [names a']. cbn [fst snd] in *. rewrite IH, learnAddresses_call, <- foldl_app. f_equal.
  unfold calls_told. cbn [zip zip_with omap list_omap fst snd]. by destruct (learn_call e span client server).
Qed.

(** The addresses once the whole batch is learned, and what it tells of IPs. *)
Definition learned (e : Env) (b : TracesBatch) : recentAddresses :=
  foldl run_call (addresses b) (calls_told e (pending b) (batch_names e b)).

Definition told (e : Env) (b : TracesBatch) : list (string * recentAddress) :=
  omap teaches_ip (calls_told e (pending b) (batch_names e b)).

(** What is known of the servers when the [j]th span of the batch is decided. *)
Definition servers_at (now : Z) (spans : list pendingSpan) (names : list (string * string)) (a : recentAddresses) (s : serverSpanSources) (j : nat)
    : serverSpanSources := (decide_spans now (take j spans) (take j names) a s).2.

Lemma decide_spans_lookup now spans names a s j q client server :
  spans !! j = Some q → names !! j = Some (client, server) →
  let named := namePeers q client server now a in
  (decide_spans now spans names a s).1 !! j
  = Some (named, (counted (ps_spanKind q) (ps_fromAgent q) named.2 (ps_protocol q) now (servers_at now spans names a s j)).1).
Proof.
  cbv zeta. revert names s j. induction spans as [|span spans IH]; intros [|[c0 v0] names] s [|j] Es En; try done; unfold servers_at; cbn [take decide_spans].
  - injection Es as ->. injection En as -> ->. destruct (namePeers q client server now a) as [c v]. cbn [fst snd].
    destruct (counted _ _ v _ now s) as [k s']. by destruct (decide_spans now spans names a s') as [columns s''].
  - destruct (namePeers span c0 v0 now a) as [c v]. destruct (counted _ _ v _ now s) as [k s'].
    assert (I := IH names s' j Es En). unfold servers_at in I. destruct (decide_spans now (take j spans) (take j names) a s') as [cs s1].
    destruct (decide_spans now spans names a s') as [columns s'']. exact I.
Qed.

(** The first loop gives each span the directory's names of it. *)
Lemma name_spans_lookup e index spans guessed a j q : spans !! j = Some q →
  ∃ client server guessed' guessed'', (name_spans e index spans guessed a).1 !! j = Some (client, server)
    ∧ span_names e (index + j) guessed' q = (client, server, guessed'').
Proof.
  revert index guessed a j. induction spans as [|span spans IH]; intros index guessed a [|j] Es; try done; cbn [name_spans].
  - injection Es as ->. destruct (span_names e index guessed q) as [[client server] g] eqn:E. rewrite Nat.add_0_r.
    destruct (name_spans _ _ spans _ _) as [names a']. by exists client, server, guessed, g.
  - destruct (span_names e index guessed span) as [[c v] g].
    destruct (IH (S index) g (learnAddresses (env_directory e) span c v (env_now e) a) j Es) as (client & server & g1 & g2 & L & E).
    destruct (name_spans _ _ spans _ _) as [names a']. exists client, server, g1, g2. split; [exact L|].
    by rewrite Nat.add_succ_r, <-Nat.add_succ_l.
Qed.

(** Each span of a write gets the names of its pending part. *)
Lemma write_names e b j q client server :
  aligned b → pending b !! j = Some q → batch_names e b !! j = Some (client, server) →
  ∃ columns is_counted, InsertSpans (rows b) columns (env_spans_saved e) ∈ (write e b).2
    ∧ columns !! j = Some (namePeers q client server (env_now e) (learned e b), is_counted).
Proof.
  intros A Q N. unfold write. destruct (rows b) as [|r l] eqn:R.
  { unfold aligned in A. rewrite R in A. apply nil_length_inv in A. by rewrite A in Q. }
  assert (C := name_spans_calls e 0 (pending b) (env_guessed e) (addresses b)).
  fold (batch_names e b) in C. unfold batch_names in N, C. unfold learned, batch_names.
  destruct (name_spans _ _ _ _ _) as [names a]. cbn [fst snd] in *. rewrite <- C.
  assert (D := decide_spans_lookup (env_now e) (pending b) names a (servers b) j q client server Q N). cbv zeta in D. set (k := fst (counted _ _ _ _ _ _)) in D.
  destruct (decide_spans _ _ _ _ _) as [columns s].
  set (b1 := {| rows := r :: l; pending := []; bodies := bodies b |}).
  destruct (saveBodies_rows (env_now e) (env_bodies_saved e) b1) as (E1 & _).
  destruct (saveBodies _ _ b1) as [b2 qs]. cbn [fst snd] in *. exists columns, k. split; [|done].
  apply elem_of_app. right. rewrite E1. by left.
Qed.

(** The columns of the [j]th span of a batch when it is written: its sides as the
    directory names them, a peer that is named by its address by what is known of
    the address once the whole batch has told its own, and whether the span counts
    next to those before it. *)
Definition decided (e : Env) (b : TracesBatch) (j : nat) (s : ReadSpan) (column : string * string * bool) : Prop :=
  ∃ client server guessed guessed', span_names e j guessed (pending_span s) = (client, server, guessed')
    ∧ let named := namePeers (pending_span s) client server (env_now e) (learned e b) in
      let servers := servers_at (env_now e) (pending b) (batch_names e b) (learned e b) (servers b) j in
      column = (named, (counted (SpanKind (read_columns s)) (read_fromAgent s) named.2 (Protocol (read_columns s)) (env_now e) servers).1).

(** The batch an operation writes, if it writes. *)
Definition gathered (ev : event) (b : TracesBatch) : TracesBatch :=
  match ev with Add_ e req => (add_read_spans (env_now e) (request_spans req) b).1 | _ => b end.

(** An insert of the run: that of one operation, of all the spans the batch holds
    by then, each with its columns. *)
Definition inserted (limit : nat) (b0 : TracesBatch) (events : list event) (l : list SpanRow) (columns : list (string * string * bool)) (saved : bool) : Prop :=
  ∃ pre ev post e spans, events = pre ++ ev :: post ∧ event_env ev = Some e
    ∧ let b := gathered ev (run limit b0 pre).1 in
      holding b spans ∧ spans ≠ [] ∧ l = map read_row spans ∧ saved = env_spans_saved e ∧ length columns = length spans
      ∧ ∀ j s, spans !! j = Some s → ∃ column, columns !! j = Some column ∧ decided e b j s column.

Lemma saveBodies_no_spans now saved b l columns ok : InsertSpans l columns ok ∉ (saveBodies now saved b).2.
Proof.
  unfold saveBodies. case_bool_decide; [by apply not_elem_of_nil|]. by destruct saved; intros ?%list_elem_of_singleton.
Qed.

Lemma write_insert e b spans l columns ok : holding b spans → InsertSpans l columns ok ∈ (write e b).2 →
  spans ≠ [] ∧ l = map read_row spans ∧ ok = env_spans_saved e ∧ length columns = length spans
  ∧ ∀ j s, spans !! j = Some s → ∃ column, columns !! j = Some column ∧ decided e b j s column.
Proof.
  intros [R P]. unfold write, decided, learned. assert (N := name_spans_lookup e 0 (pending b) (env_guessed e) (addresses b)).
  assert (C := name_spans_calls e 0 (pending b) (env_guessed e) (addresses b)).
  assert (L := name_spans_length e 0 (pending b) (env_guessed e) (addresses b)). fold (batch_names e b) in C, N, L.
  unfold batch_names in *. destruct (rows b) as [|r rs] eqn:E; [by intros ?%not_elem_of_nil|].
  destruct (name_spans _ _ _ _ _) as [names a]. cbn [fst snd] in *. rewrite <- C.
  assert (D := decide_spans_lookup (env_now e) (pending b) names a (servers b)).
  assert (Ld := decide_spans_length (env_now e) (pending b) names a (servers b) L).
  destruct (decide_spans _ _ _ _ _) as [cols s'] eqn:Ed. cbn [fst] in *.
  match goal with |- context [saveBodies ?n ?sv ?b1] => destruct (saveBodies_rows n sv b1) as (E1 & _); assert (Nb := saveBodies_no_spans n sv b1);
    destruct (saveBodies n sv b1) as [b2 qs] end.
  cbn [fst snd rows] in *. intros [I|I%list_elem_of_singleton]%elem_of_app; [by destruct (Nb l columns ok)|]. simplify_eq.
  split_and!; [intros ->; by rewrite R in E|by rewrite E1|done|by rewrite Ld, P, length_map|].
  intros j s Hj. assert (Pj : pending b !! j = Some (pending_span s)) by (rewrite P; by apply list_lookup_fmap_Some; exists s).
  destruct (N j _ Pj) as (client & server & g & g' & Ln & Es). eexists. split; [exact (D j _ client server Pj Ln)|].
  exists client, server, g, g'. by split.
Qed.

Lemma step_insert limit b ev l columns ok : InsertSpans l columns ok ∈ (batch_step limit b ev).2 →
  ∃ e, event_env ev = Some e ∧ InsertSpans l columns ok ∈ (write e (gathered ev b)).2.
Proof.
  assert (S : ∀ e b, InsertSpans l columns ok ∈ (save limit e b).2 → InsertSpans l columns ok ∈ (write e b).2).
  { intros e b'. unfold save. destruct (holds limit e b'); [by intros ?%not_elem_of_nil|done]. }
  destruct ev as [e req|e|[]|e []|e]; cbn [batch_step snd event_env gathered]; try by intros ?%not_elem_of_nil.
  - unfold Add. destruct (add_read_spans _ _ b) as [b' k]. destruct k; cbn [negb fst snd]; [|by intros ?%not_elem_of_nil].
    destruct (Nat.ltb _ _); cbn [fst snd]; [by intros ?%not_elem_of_nil|]. eauto.
  - eauto.
  - eauto.
Qed.

Lemma gathered_holding ev b spans : holding b spans → ∃ spans', holding (gathered ev b) spans'.
Proof. intros Hh. destruct ev; cbn [gathered]; [|by exists spans..]. eexists. by apply add_spans_holding. Qed.

Lemma write_holding e b spans : holding b spans → ∃ spans', holding (write e b).1 spans'.
Proof.
  intros Hh. destruct (rows b) as [|r l] eqn:E; [exists spans; unfold write; by rewrite E|]. exists [].
  split; [apply write_sends|]. unfold write. rewrite E. destruct (name_spans _ _ _ _ _), (decide_spans _ _ _ _ _).
  match goal with |- context [saveBodies ?n ?sv ?b1] => destruct (saveBodies_rows n sv b1) as (_ & E2 & _); destruct (saveBodies n sv b1) end.
  exact E2.
Qed.

Lemma step_holding limit b ev spans : holding b spans → ∃ spans', holding (batch_step limit b ev).1 spans'.
Proof.
  intros Hh. assert (S : ∀ e b spans, holding b spans → ∃ spans', holding (save limit e b).1 spans').
  { intros e b' sp Hb. unfold save. destruct (holds limit e b'); [by exists sp|by eapply write_holding]. }
  destruct ev as [e req|e|[]|e []|e]; cbn [batch_step fst]; try (by exists spans); [|by eapply S|by eapply write_holding].
  assert (Ha := add_spans_holding (env_now e) (request_spans req) b spans Hh). unfold Add. destruct (add_read_spans _ _ b) as [b' k]. cbn [fst] in Ha.
  destruct k; cbn [negb fst]; [|by eexists]. destruct (Nat.ltb _ _); cbn [fst]; [by eexists|by eapply S].
Qed.

Lemma run_insert limit b events l columns ok spans : holding b spans → InsertSpans l columns ok ∈ (run limit b events).2 →
  inserted limit b events l columns ok.
Proof.
  revert b spans. induction events as [|ev events IH]; intros b spans Hh; [by intros ?%not_elem_of_nil|].
  rewrite run_cons. cbn [snd]. intros [I|I]%elem_of_app.
  - destruct (step_insert limit b ev l columns ok I) as (e & Ee & Iw). destruct (gathered_holding ev b spans Hh) as [spans' Hg].
    destruct (write_insert e _ spans' l columns ok Hg Iw) as (?&?&?&?&?). exists [], ev, events, e, spans'. by split_and!.
  - destruct (step_holding limit b ev spans Hh) as [spans' Hs]. destruct (IH _ _ Hs I) as (pre & ev' & post & e & sp & -> & Ee & W).
    exists (ev :: pre), ev', post, e, sp. split; [done|]. split; [done|]. rewrite run_cons. exact W.
Qed.

(** An IP is that of one application only, and it is known from now on. *)
Definition ip_of (ip application : string) (a : recentAddresses) : Prop :=
  ∀ k, byIp a !! ip = Some k → ra_application k = application.

Definition ip_fresh (ip : string) (now : Z) (a : recentAddresses) : Prop := ∃ k, byIp a !! ip = Some k ∧ now ≤ ra_seen k.

(** A call forgets what is old and then sets what it teaches. *)
Lemma run_call_byIp a c :
  ∃ m, (∀ ip, m !! ip = byIp a !! ip ∨ m !! ip = None ∧ ∃ k, byIp a !! ip = Some k ∧ recentAddressMemory ≤ c_now c - ra_seen k)
       ∧ byIp (run_call a c) = match teaches_ip c with Some (ip, k) => set_address m ip k | None => m end.
Proof.
  assert (Self : ∀ ip, byIp a !! ip = byIp a !! ip ∨ byIp a !! ip = None
                      ∧ ∃ k, byIp a !! ip = Some k ∧ recentAddressMemory ≤ c_now c - ra_seen k) by by left.
  unfold run_call, record, teaches_ip, teaches, call_known, host_of.
  destruct (of_a_pod (c_application c)); cbn [negb andb]; [|by exists (byIp a)].
  assert (F : ∀ ip, byIp (prune_addresses (c_now c) a) !! ip = byIp a !! ip ∨ byIp (prune_addresses (c_now c) a) !! ip = None
                   ∧ ∃ k, byIp a !! ip = Some k ∧ recentAddressMemory ≤ c_now c - ra_seen k).
  { intros ip. unfold prune_addresses. destruct (c_now c - ra_lastPrune a <? recentAddressMemory); [by left|]. cbn. rewrite lookup_forget.
    destruct (byIp a !! ip) as [k|]; [|by left]. destruct (Z.ltb_spec (c_now c - ra_seen k) recentAddressMemory); [by left|right].
    split; [done|]. by exists k. }
  destruct (SplitHostPort (c_address c)) as [[ip port]|]; cbn [fst];
    (destruct (networkIp _); cbn [negb andb]; [|by exists (byIp a)]; exists (byIp (prune_addresses (c_now c) a)); split; [exact F|];
     by destruct (own_ip (c_directory c) _)).
Qed.

Lemma run_call_ip a c ip application now :
  c_seen c = now → c_now c = now → ip_of ip application a →
  (∀ k, teaches_ip c = Some (ip, k) → ra_application k = application) →
  ip_of ip application (run_call a c)
  ∧ (ip_fresh ip now a ∨ (∃ k, teaches_ip c = Some (ip, k)) → ip_fresh ip now (run_call a c)).
Proof.
  intros Es En O T. destruct (run_call_byIp a c) as (m & M & E).
  assert (Om : ∀ k, m !! ip = Some k → ra_application k = application).
  { intros k L. destruct (M ip) as [E'|[E' _]]; rewrite E' in L; [by apply O|done]. }
  assert (Fm : ip_fresh ip now a → ∃ k, m !! ip = Some k ∧ now ≤ ra_seen k).
  { intros (k & L & Le). destruct (M ip) as [->|(_ & k' & L' & Old)]; [by exists k|].
    rewrite L in L'. simplify_eq. exfalso. revert Old. unfold recentAddressMemory, NanosPerSecond. lia. }
  unfold ip_of, ip_fresh. rewrite E. destruct (teaches_ip c) as [[ip' k0]|] eqn:Te.
  2:{ split; [exact Om|]. intros [F|[k [=]]]. by apply Fm. }
  assert (Sk : ip' = ip → ra_seen k0 = now).
  { intros _. unfold teaches_ip in Te. destruct (teaches c && own_ip _ _); [|done]. injection Te as _ <-. exact Es. }
  setoid_rewrite lookup_set. destruct (decide (ip' = ip)) as [->|N].
  - rewrite bool_decide_eq_true_2 by done. specialize (Sk eq_refl). split.
    + intros k. destruct (m !! ip) as [c0|] eqn:L; [destruct (ra_seen c0 <? ra_seen k0)|]; intros [= <-]; auto.
    + intros _. destruct (m !! ip) as [c0|]; [destruct (Z.ltb_spec (ra_seen c0) (ra_seen k0))|]; eexists; (split; [done|lia]).
  - rewrite bool_decide_eq_false_2 by done. split; [exact Om|]. intros [F|[k [= Eq _]]]; [by apply Fm|done].
Qed.

Lemma run_calls_ip a l ip application now :
  Forall (λ c, c_seen c = now ∧ c_now c = now) l → ip_of ip application a →
  (∀ k, (ip, k) ∈ omap teaches_ip l → ra_application k = application) →
  ip_of ip application (foldl run_call a l)
  ∧ (ip_fresh ip now a ∨ (∃ k, (ip, k) ∈ omap teaches_ip l) → ip_fresh ip now (foldl run_call a l)).
Proof.
  intros F. revert a. induction F as [|c l [Es En] F IH]; intros a O T.
  { split; [done|]. intros [?|[k I]]; [done|by apply not_elem_of_nil in I]. }
  cbn [foldl]. destruct (run_call_ip a c ip application now Es En O) as [O' F'].
  { intros k Te. apply T, list_elem_of_omap. exists c. split; [by left|done]. }
  destruct (IH (run_call a c) O') as [O2 F2].
  { intros k (x & I & Te)%list_elem_of_omap. apply T, list_elem_of_omap. exists x. split; [by right|done]. }
  split; [done|]. intros [Fr|[k (x & [->|I]%elem_of_cons & Te)%list_elem_of_omap]]; apply F2; [left; apply F'; by left| |].
  - left. apply F'. right. by exists k.
  - right. exists k. apply list_elem_of_omap. by exists x.
Qed.

Lemma calls_told_now e spans names : Forall (λ c, c_seen c = env_now e ∧ c_now c = env_now e) (calls_told e spans names).
Proof.
  apply Forall_forall. intros c (p & _ & L)%list_elem_of_omap. unfold learn_call in L.
  repeat match type of L with context [if ?x then _ else _] => destruct x end; by simplify_eq.
Qed.
End parameters.
End TracesBatchFacts.

Module TracesBatchTheorems.
Import TracesBatchFacts.
Local Open Scope list_scope.

Ltac wait_cases :=
  repeat match goal with H : wait _ _ _ _ |- _ => inversion H; subst; clear H end; lia.

Section theorems.
Context `{Xxhash} `{UrlHost}.

(** C10 No span is sent twice or out of order, and none is lost on the way to its
    insert: whatever requests, ticks, reads and ends come, what ClickHouse was sent
    and what the batch holds are together the spans of the requests as they came
    (of a request that panicked, those before the one that did).  An insert is tried
    once: the spans of one that fails are lost, and no others ([stored_rows]).  Every
    insert is of all the batch holds when an operation writes it, and gives each
    span its client, its server and its count as they are then ([decided]). *)
Theorem spans_sent_once limit reads_servers reads_addresses now events :
  let start := newTracesBatch reads_servers reads_addresses now in
  let '(b, qs) := run limit start events in
  sent qs ++ rows b = flat_map added events
  ∧ stored qs `sublist_of` flat_map added events
  ∧ (Forall saves_spans events → stored qs ++ rows b = flat_map added events)
  ∧ ∀ l columns saved, InsertSpans l columns saved ∈ qs → inserted limit start events l columns saved.
Proof.
  cbv zeta. set (start := newTracesBatch reads_servers reads_addresses now).
  assert (S := run_sends limit start events eq_refl). assert (I := run_insert limit start events).
  destruct (run limit start events) as [b qs]. destruct S as [S _]. change (rows start ++ flat_map added events) with (flat_map added events) in S. split_and!; [exact S| | |].
  - rewrite <- S. apply sublist_inserts_r, stored_sublist.
  - intros F. rewrite <- S. f_equal. apply stored_all, Forall_forall. intros [|l columns saved] Hq; [done|].
    destruct (I l columns saved [] (conj eq_refl eq_refl) Hq) as (pre & ev & post & e & spans & -> & Ee & _ & _ & _ & -> & _).
    apply Forall_app in F as [_ F]. apply Forall_cons in F as [F _]. unfold saves_spans in F. by rewrite Ee in F.
  - intros l columns saved Hq. by apply (I l columns saved []).
Qed.

(** What is held is bounded, in number and in time: when no request panics, the
    batch never holds ten times its limit; and once it has read what it waits for
    and the directory is ready, or 30 seconds after it was made, a tick empties
    it and a request leaves less than the limit. *)
Theorem held_spans_bounded limit reads_servers reads_addresses now events e req :
  (0 < limit)%nat → Forall reads_all events → reads_all (Add_ e req) →
  let b := (run limit (newTracesBatch reads_servers reads_addresses now) events).1 in
  (length (rows b) < maxHeldBatches * limit)%nat
  ∧ (readsDone b = true ∧ env_ready e = true ∨ now + serverSpanSourcesMaxHold ≤ env_now e →
     rows (batch_step limit b (Tick e)).1 = [] ∧ (length (rows (batch_step limit b (Add_ e req)).1) < limit)%nat).
Proof.
  intros L F R b. assert (B : (length (rows b) < maxHeldBatches * limit)%nat).
  { apply run_held; [done..|]. cbn. unfold maxHeldBatches. lia. }
  split; [done|]. intros C. assert (Cb : createdAt b = now) by apply run_created. rewrite <- Cb in C.
  split; [by apply save_over|]. cbn [batch_step]. unfold Add.
  destruct (add_spans_created (env_now e) (request_spans req) b) as [Cr Rd].
  assert (O := add_spans_ok (env_now e) _ b R). destruct (add_read_spans _ _ b) as [b' ok]. cbn [fst snd] in *. rewrite O. cbn [negb].
  destruct (Nat.ltb_spec (length (rows b')) limit); [done|]. cbn [fst]. rewrite save_over; [done|]. by rewrite Cr, Rd.
Qed.

(** A span never refers to a body that was not written: while ClickHouse takes
    the bodies it is sent, before an insert of spans every body that one of its
    rows refers to was inserted, with this hash of its text, by this insert's
    write or an earlier one. *)
Theorem bodies_before_spans limit reads_servers reads_addresses now events before l columns saved after r hash :
  Forall saves events →
  (run limit (newTracesBatch reads_servers reads_addresses now) events).2 = before ++ InsertSpans l columns saved :: after →
  r ∈ l → row_hash r hash → body_in before hash.
Proof.
  intros F E I Ha.
  assert (K : bodies_first [] (run limit (newTracesBatch reads_servers reads_addresses now) events).2).
  { apply run_known; [done|]. split_and!; [done|intros hash' [? [=]]|by intros r' hash' ?%not_elem_of_nil]. }
  rewrite E in K. apply bodies_first_app in K as [_ [K _]]. by apply (K r hash).
Qed.

(** Spans of a batch name each other in whatever order they come: when the client
    spans and server spans of the node agents of a batch tell of an IP, and all
    of one application, every server span of the batch (sent before them or
    after) whose peer the directory only knows by an address at this IP gets this
    application as its client, unless a process is known to listen at the very
    address. *)
Theorem peers_named_in_any_order e b ip k j q server :
  aligned b → (ip, k) ∈ told e b →
  (∀ k', (ip, k') ∈ told e b → ra_application k' = ra_application k) → ip_of ip (ra_application k) (addresses b) →
  pending b !! j = Some q → serves (ps_spanKind q) = true → is_set (clientAddress (ps_span q)) = true →
  batch_names e b !! j = Some (clientAddress (ps_span q), server) → host_of (clientAddress (ps_span q)) = ip →
  byListen (learned e b) !! clientAddress (ps_span q) = None →
  ∃ columns is_counted, InsertSpans (rows b) columns (env_spans_saved e) ∈ (write e b).2
    ∧ columns !! j = Some (ra_application k, server, is_counted).
Proof.
  intros A I U O Q S V N Hi Nl. destruct (write_names e b j q _ server A Q N) as (columns & c & Iq & Ic).
  exists columns, c. split; [done|]. rewrite Ic. unfold namePeers. rewrite S. unfold name_peer. rewrite V, String.eqb_refl. cbn [andb].
  destruct (run_calls_ip (addresses b) (calls_told e (pending b) (batch_names e b)) ip (ra_application k) (env_now e)
    (calls_told_now _ _ _) O U) as [O' F].
  destruct (F (or_intror (ex_intro _ k I))) as (k' & L & Le). fold (learned e b) in O', L.
  unfold lookup_address. rewrite Nl, Hi, L.
  destruct (Z.leb_spec recentAddressMemory (env_now e - ra_seen k')) as [Old|_]; [|by rewrite (O' k' L)].
  exfalso. revert Old. unfold recentAddressMemory, NanosPerSecond. lia.
Qed.
End theorems.

(** How long [Close] waits for the two reads: when both succeed some time, not
    longer than for the later; but the deadline is received once, so it bounds
    only one of the two: [Close] waits past it for the second, and never ends
    when neither succeeds, or the second does not and the first only after the
    deadline. *)
Theorem close_waits deadline now t t' end_ :
  (∃ e, wait [Some t; Some t'] (Some deadline) now e)
  ∧ (wait [Some t; Some t'] (Some deadline) now end_ → end_ ≤ Z.max now (Z.max t t'))
  ∧ (wait [None; Some t] (Some deadline) now end_ ↔ end_ = Z.max (Z.max now deadline) t)
  ∧ (wait [Some t; None] (Some deadline) now end_ ↔ Z.max now t ≤ Z.max now deadline ∧ end_ = Z.max now deadline)
  ∧ ¬ wait [None; None] (Some deadline) now end_.
Proof.
  split_and!; [| |split|split|].
  - destruct (Z.le_gt_cases (Z.max now t) (Z.max now deadline)) as [Le|Gt].
    + destruct (Z.le_gt_cases (Z.max (Z.max now t) t') (Z.max (Z.max now t) deadline)); eexists; (apply wait_loaded; [exact Le|]).
      * apply wait_loaded; [done|apply wait_end].
      * apply wait_deadline; [lia|apply wait_end].
    + eexists. apply wait_deadline; [lia|]. apply wait_loaded; [done|apply wait_end].
  - intros W. wait_cases.
  - intros W. wait_cases.
  - intros ->. apply wait_deadline; [done|]. apply wait_loaded; [done|apply wait_end].
  - intros W. wait_cases.
  - intros [L ->]. apply wait_loaded; [done|]. replace (Z.max now deadline) with (Z.max (Z.max now t) deadline) by lia.
    apply wait_deadline; [done|apply wait_end].
  - intros W. wait_cases.
Qed.
End TracesBatchTheorems.

Module TracesBatchRuns.
Import TracesBatchFacts TracesBatchTheorems.
Local Open Scope list_scope.

#[local] Instance run_hash : Xxhash := {| Sum64String := λ s, Z.of_nat (String.length s) |}.
#[local] Instance run_urls : UrlHost := {| url_host := λ _, None |}.

Definition second (n : Z) : Z := 1000000000000000 + n * NanosPerSecond.

Definition env_at (now : Z) : Env :=
  {| env_directory := Some (NewApplicationDirectory {| dw_Applications := []; dw_NodeAddresses := ["192.168.100.76"] |});
     env_ready := true; env_guessed := ∅; env_order := λ _, []; env_now := second now; env_bodies_saved := true;
     env_spans_saved := true |}.

Definition span (kind id : string) (attrs : list (string * string)) : OtlpSpan :=
  {| os_TraceId := "0123456789abcdef"; os_SpanId := id; os_ParentSpanId := ""; os_TraceState := ""; os_Name := "GET"; os_Kind := kind;
     os_StartTimeUnixNano := second 0; os_EndTimeUnixNano := second 1; os_Attributes := map (λ p, (p.1, Some (StringValue p.2))) attrs;
     os_Events := []; os_Links := []; os_StatusCode := "STATUS_CODE_UNSET"; os_StatusMessage := "" |}.

Definition export_request (namespace service : string) (spans : list OtlpSpan) : ExportTraceServiceRequest :=
  [{| rs_Attributes := [("service.name", Some (StringValue service)); ("k8s.namespace.name", Some (StringValue namespace))];
      rs_ScopeSpans := [{| ss_Name := nodeAgentScope; ss_Version := "1.0"; ss_Spans := spans |}] |}].

(** A server span comes before the client span that tells where it was sent
    from. *)
Definition server_span : OtlpSpan :=
  span "SPAN_KIND_SERVER" "server01" [("client.address", "10.42.0.50"); ("http.method", "GET"); ("http.response.body", "hello")].
Definition client_span : OtlpSpan :=
  span "SPAN_KIND_CLIENT" "client01" [("network.local.address", "10.42.0.50"); ("http.method", "GET"); ("coroot.request.key", "ff")].

Definition run_events : list event :=
  [Add_ (env_at 1) (export_request "dev" "catalog" [server_span]); Tick (env_at 2); Add_ (env_at 3) (export_request "dev" "orders" [client_span]);
   ReadServers (Some [])].

Definition held : TracesBatch := (run 2 (newTracesBatch true false (second 0)) run_events).1.

(** An attribute without a value: the span before it is kept. *)
Example nil_value_panics :
  let bad := span "SPAN_KIND_CLIENT" "client02" [] in
  let bad := {| os_TraceId := os_TraceId bad; os_SpanId := os_SpanId bad; os_ParentSpanId := ""; os_TraceState := ""; os_Name := ""; os_Kind := os_Kind bad;
                os_StartTimeUnixNano := 0; os_EndTimeUnixNano := 0; os_Attributes := [("a", None)]; os_Events := []; os_Links := [];
                os_StatusCode := ""; os_StatusMessage := "" |} in
  let '(b, qs, panics) := Add 2 (env_at 1) (export_request "dev" "catalog" [server_span; bad]) (newTracesBatch true false (second 0)) in
  panics = true ∧ qs = [] ∧ length (rows b) = 1%nat.
Proof. by vm_compute. Qed.

(** The spans are sent although their bodies could not be. *)
Example bodies_lost :
  let failing e := {| env_directory := env_directory e; env_ready := true; env_guessed := ∅; env_order := env_order e; env_now := env_now e;
                      env_bodies_saved := false; env_spans_saved := true |} in
  let '(b, qs) := run 1 (newTracesBatch false false (second 0)) [Add_ (failing (env_at 1)) (export_request "dev" "catalog" [server_span])] in
  map ResponseBodyHash (sent qs) = [5] ∧ bodies b = ∅ ∧ bodiesWrittenAt b = ∅.
Proof. by vm_compute. Qed.

Lemma held_spans_bounded_witness :
  length (rows held) = 2%nat ∧ rows (batch_step 2 held (Tick (env_at 4))).1 = [].
Proof.
  assert (F : Forall reads_all run_events).
  { unfold run_events. repeat (apply List.Forall_cons; [first [exact I|apply no_panic; by vm_compute]|]). apply List.Forall_nil. }
  destruct (held_spans_bounded 2 true false (second 0) run_events (env_at 4) [] ltac:(lia) F ltac:(by apply not_elem_of_nil)) as [_ C].
  split; [by vm_compute|]. apply C. left. by vm_compute.
Defined.

Definition sent_events : list event := run_events ++ [Tick (env_at 4)].

Definition sent_queries : list query := (run 2 (newTracesBatch true false (second 0)) sent_events).2.

(** A failed insert of spans is not tried again. *)
Example spans_lost :
  let failing e := {| env_directory := env_directory e; env_ready := true; env_guessed := ∅; env_order := env_order e; env_now := env_now e;
                      env_bodies_saved := true; env_spans_saved := false |} in
  let '(b, qs) := run 1 (newTracesBatch false false (second 0)) [Add_ (failing (env_at 1)) (export_request "dev" "catalog" [server_span])] in
  length (sent qs) = 1%nat ∧ stored qs = [] ∧ rows b = [].
Proof. by vm_compute. Qed.

Lemma spans_sent_once_witness :
  length (stored sent_queries) = 2%nat ∧ stored sent_queries = flat_map added sent_events.
Proof.
  assert (F : Forall saves_spans sent_events) by (repeat (apply List.Forall_cons; [by vm_compute|]); apply List.Forall_nil).
  assert (T := spans_sent_once 2 true false (second 0) sent_events). cbv zeta in T. unfold sent_queries.
  assert (R : rows (run 2 (newTracesBatch true false (second 0)) sent_events).1 = []) by by vm_compute.
  assert (L : length (stored (run 2 (newTracesBatch true false (second 0)) sent_events).2) = 2%nat) by by vm_compute.
  destruct (run 2 (newTracesBatch true false (second 0)) sent_events) as [b qs]. destruct T as (_ & _ & T & _).
  split; [exact L|]. rewrite <- (T F). cbn [fst snd] in *. by rewrite R, app_nil_r.
Defined.

Lemma bodies_before_spans_witness :
  ∃ r, r ∈ sent sent_queries ∧ row_hash r 5 ∧ body_in (take 1 sent_queries) 5.
Proof.
  assert (F : Forall saves sent_events) by (repeat (apply List.Forall_cons; [by vm_compute|]); apply List.Forall_nil).
  assert (X : existsb (λ r, ResponseBodyHash r =? 5) (sent sent_queries) = true) by by vm_compute.
  apply existsb_exists in X as (r & I%list_elem_of_In & E%Z.eqb_eq).
  assert (R : row_hash r 5) by (split; [right; by rewrite E|done]). exists r. split_and!; [done|done|].
  apply (bodies_before_spans 2 true false (second 0) sent_events (take 1 sent_queries) (sent sent_queries)
    (match sent_queries with [_; InsertSpans _ columns _] => columns | _ => [] end) true [] r 5 F); [by vm_compute|done|done].
Defined.

Lemma peers_named_in_any_order_witness :
  ∃ columns is_counted, InsertSpans (rows held) columns true ∈ (write (env_at 4) held).2
    ∧ columns !! 0%nat = Some ("dev/orders", "dev/catalog", is_counted).
Proof.
  assert (T : told (env_at 4) held = [("10.42.0.50", {| ra_application := "dev/orders"; ra_seen := second 4 |})]) by by vm_compute.
  assert (X : match pending held !! 0%nat with
              | Some q => String.eqb (clientAddress (ps_span q)) "10.42.0.50" && serves (ps_spanKind q)
              | None => false
              end = true) by by vm_compute.
  destruct (pending held !! 0%nat) as [q|] eqn:Q; [|done]. apply andb_prop in X as [Ec%String.eqb_eq Es].
  apply (peers_named_in_any_order (env_at 4) held "10.42.0.50" {| ra_application := "dev/orders"; ra_seen := second 4 |} 0 q "dev/catalog").
  - by vm_compute.
  - rewrite T. by left.
  - intros k' I. rewrite T in I. apply list_elem_of_singleton in I. injection I as ->. exact eq_refl.
  - intros k' I. assert (N : byIp (addresses held) !! "10.42.0.50" = None) by by vm_compute. rewrite N in I. discriminate I.
  - exact Q.
  - exact Es.
  - by rewrite Ec.
  - rewrite Ec. by vm_compute.
  - rewrite Ec. by vm_compute.
  - rewrite Ec. by vm_compute.
Defined.
End TracesBatchRuns.
