(* ===== verification/Batches.v ===== *)
(** The batches of logs, profiles and metrics of the collector
    (collector/logs.go, profiles.go, metrics.go).

    As in TracesBatch, a batch is the list of the rows it holds and an operation
    that holds the lock is one function.  What ClickHouse is sent is returned, each
    query with whether it succeeded: when it did not, that is logged, and the rows
    are gone from the batch all the same. *)

From Stdlib Require Import ZArith Lia Bool String Ascii.
From S2P Require Import Prelude Float32 GoStrings Utils SpanCounting Otlp.

Local Open Scope string_scope.
Local Open Scope Z_scope.

(** * What a batch of any kind promises

    [bq_step] is an operation, [bq_added] the items it is given, [bq_held] those
    the batch holds, [bq_items] those of a query. *)
Record BatchQueue (B E Q T : Type) := {
  bq_step : B → E → B * list (Q * bool);
  bq_held : B → list T;
  bq_added : E → list T;
  bq_items : Q → list T;
  bq_conserves : ∀ b ev, (flat_map bq_items (bq_step b ev).2.*1 ++ bq_held (bq_step b ev).1 = bq_held b ++ bq_added ev)%list;
}.
Arguments bq_step {B E Q T} _ _ _.
Arguments bq_held {B E Q T} _ _.
Arguments bq_added {B E Q T} _ _.
Arguments bq_items {B E Q T} _ _.
Arguments bq_conserves {B E Q T} _ _ _.

Section batch_queue.
Context {B E Q T : Type}.

Fixpoint run_steps (step : B → E → B * list (Q * bool)) (b : B) (events : list E) : B * list (Q * bool) :=
  match events with
  | [] => (b, [])
  | ev :: events =>
      let '(b, q) := step b ev in
      let '(b, qs) := run_steps step b events in (b, q ++ qs)%list
  end.

(** The queries that succeeded, and those that did not. *)
Definition stored (qs : list (Q * bool)) : list Q := omap (λ q, if snd q : bool then Some (fst q) else None) qs.
Definition failed (qs : list (Q * bool)) : list Q := omap (λ q, if snd q : bool then None else Some (fst q)) qs.
Lemma stored_failed (items : Q → list T) qs : flat_map items (stored qs) ++ flat_map items (failed qs) ≡ₚ flat_map items qs.*1.
Proof.
  induction qs as [|[q []] qs IH]; cbn; [done|by rewrite <-app_assoc, IH|].
  by rewrite (Permutation_app_comm (items q)), app_assoc, IH, (Permutation_app_comm (flat_map items qs.*1)).
Qed.

(** Of the items that came, in this order, every one is sent once or held: one that
    is not in the table was in a query that failed, and the others come in order. *)
Definition sent_once (items : Q → list T) (qs : list (Q * bool)) (held came : list T) : Prop :=
  (flat_map items qs.*1 ++ held = came)%list ∧ (flat_map items (stored qs) ++ flat_map items (failed qs) ++ held)%list ≡ₚ came.

(** Through any operations, what was sent and what is held are what was held and
    what came, in order. *)
Lemma run_conserves (q : BatchQueue B E Q T) b events :
  let '(b', qs) := run_steps (bq_step q) b events in
  sent_once (bq_items q) qs (bq_held q b') (bq_held q b ++ flat_map (bq_added q) events)%list.
Proof.
  assert (S : let '(b', qs) := run_steps (bq_step q) b events in
              (flat_map (bq_items q) qs.*1 ++ bq_held q b' = bq_held q b ++ flat_map (bq_added q) events)%list).
  { revert b. induction events as [|ev events IH]; intros b; cbn [run_steps flat_map]; [by rewrite app_nil_r|].
    assert (C := bq_conserves q b ev). destruct (bq_step q b ev) as [b1 q1]. specialize (IH b1).
    destruct (run_steps (bq_step q) b1 events) as [b2 qs]. cbn [fst snd] in *. by rewrite fmap_app, flat_map_app, <-app_assoc, IH, !app_assoc, C. }
  destruct (run_steps _ b events) as [b' qs]. split; [done|]. by rewrite app_assoc, stored_failed, S.
Qed.

(** What is true of the queries of each operation is true of all. *)
Lemma run_queries (P : list (Q * bool) → Prop) step (b : B) (events : list E) :
  P [] → (∀ q q', P q → P q' → P (q ++ q')%list) → (∀ b ev, P (step b ev).2) → P (run_steps step b events).2.
Proof.
  intros N A S. revert b. induction events as [|ev events IH]; intros b; cbn [run_steps]; [done|].
  assert (W := S b ev). destruct (step b ev) as [b1 q1]. specialize (IH b1). destruct (run_steps step b1 events). by apply A.
Qed.
End batch_queue.

(** An operation of a batch: a request, or the ticker's or [Close]'s save; [exec]
    tells whether a query it makes succeeds. *)
Inductive operation (R Q : Type) := OpAdd (exec : Q → bool) (r : R) | OpSave (exec : Q → bool).
Arguments OpAdd {R Q} exec r.
Arguments OpSave {R Q} exec.
(** What ClickHouse says of the queries. *)
Definition executed {Q} (exec : Q → bool) (qs : list Q) : list (Q * bool) := map (λ q, (q, exec q)) qs.

(** * Logs *)
Module LogsBatch.

Record LogRecord := {
  lr_TimeUnixNano : Z;
  lr_TraceId : string;
  lr_SpanId : string;
  lr_Flags : Z;
  lr_SeverityText : string;
  lr_SeverityNumber : Z;
  lr_Attributes : KeyValues;
  lr_Body : option AnyValue;
}.
Record ScopeLogs := { sl_Name : string; sl_Version : string; sl_LogRecords : list LogRecord }.
Record ResourceLogs := { rl_Attributes : KeyValues; rl_ScopeLogs : list ScopeLogs }.

Record Row := {
  Timestamp : Z;
  TraceId : string;
  SpanId : string;
  TraceFlags : Z;
  SeverityText : string;
  SeverityNumber : Z;
  ServiceName : string;
  ResourceAttributes : gmap string string;
  LogAttributes : gmap string string;
  Body : string;
}.

(** [GetBody().GetStringValue()]: empty for any other kind of body. *)
Definition string_value (value : option AnyValue) : string := match value with Some (StringValue s) => s | _ => "" end.

Definition scope_attributes (name version : string) (attrs : gmap string string) : gmap string string :=
  let attrs := if String.eqb name "" then attrs else <["otel.scope.name" := name]> attrs in
  if String.eqb version "" then attrs else <["otel.scope.version" := version]> attrs.

(** A record's row; none for a time before 1970. *)
Definition read_record (serviceName : string) (resource : gmap string string) (scope : ScopeLogs) (lr : LogRecord) : outcome (option Row) :=
  let* attrs := attributesToMap (lr_Attributes lr) in
  let attrs := scope_attributes (sl_Name scope) (sl_Version scope) attrs in
  Ret (if wrap64 (lr_TimeUnixNano lr) <? 0 then None
       else Some {| Timestamp := wrap64 (lr_TimeUnixNano lr);
                    TraceId := EncodeToString (lr_TraceId lr);
                    SpanId := EncodeToString (lr_SpanId lr);
                    TraceFlags := lr_Flags lr;
                    SeverityText := lr_SeverityText lr;
                    SeverityNumber := lr_SeverityNumber lr;
                    ServiceName := serviceName;
                    ResourceAttributes := resource;
                    LogAttributes := attrs;
                    Body := string_value (lr_Body lr) |}).

Definition resource_records (rl : ResourceLogs) : list (outcome (option Row)) :=
  match attributesToMap (rl_Attributes rl) with
  | Panic => [Panic]
  | Ret resource =>
      flat_map (λ scope, map (read_record (span_attr resource "service.name") resource scope) (sl_LogRecords scope)) (rl_ScopeLogs rl)
  end.

(** The rows before the first panic, and whether there is none. *)
Fixpoint read_all (l : list (outcome (option Row))) : list Row * bool :=
  match l with
  | [] => ([], true)
  | Ret r :: l => let '(rs, ok) := read_all l in (option_list r ++ rs, ok)%list
  | Panic :: _ => ([], false)
  end.

Definition request_rows (req : list ResourceLogs) : list Row * bool := read_all (flat_map resource_records req).

Inductive query := InsertLogs (l : list Row).

Definition save (exec : query → bool) (rows : list Row) : list Row * list (query * bool) :=
  match rows with [] => ([], []) | _ => ([], executed exec [InsertLogs rows]) end.

(** The last value: whether it panics. *)
Definition Add (limit : nat) (exec : query → bool) (req : list ResourceLogs) (rows : list Row) : list Row * list (query * bool) * bool :=
  let '(added, ok) := request_rows req in
  let rows := (rows ++ added)%list in
  if negb ok then (rows, [], true)
  else if Nat.ltb (length rows) limit then (rows, [], false)
  else (save exec rows, false).

Definition operate (limit : nat) (rows : list Row) (op : operation (list ResourceLogs) query) : list Row * list (query * bool) :=
  match op with OpAdd exec req => (Add limit exec req rows).1 | OpSave exec => save exec rows end.
End LogsBatch.

(** * Profiles *)
Module ProfilesBatch.

(** A profile of github.com/google/pprof; a line has a function or none.
    [profile.Parse] makes sure that a sample has a value for each type: without
    one, [Panic]. *)
Record Function_ := { fn_Name : string; fn_Filename : string }.
Record Line := { ln_Function : option Function_; ln_Line : Z }.
Record Sample := { sm_Location : list (list Line); sm_Value : list Z }.
Record Profile := { pr_SampleType : list string; pr_Sample : list Sample; pr_TimeNanos : Z; pr_DurationNanos : Z }.

Record Row := {
  ServiceName : string;
  Type_ : string;
  Start : Z;
  End_ : Z;
  Labels : gmap string string;
  Value : Z;
  StackHash_ : Z;
  Stack : list string;
}.

(** [fnv.New64a] *)
Definition fnv_offset : Z := 14695981039346656037.
Definition fnv_prime : Z := 1099511628211.
Definition fnv_write (h : Z) (s : string) : Z :=
  fold_left (λ h a, Z.lxor h (Z.of_nat (nat_of_ascii a)) * fnv_prime mod 2 ^ 64) (list_ascii_of_string s) h.
Definition StackHash (s : list string) : Z := fold_left fnv_write s fnv_offset.

Definition frame (l : Line) : option string :=
  match ln_Function l with
  | Some f => Some (fn_Name f ++ " " ++ fn_Filename f ++ ":" ++ Itoa (ln_Line l))
  | None => None
  end.

Definition stack_of (s : Sample) : list string := flat_map (omap frame) (sm_Location s).

(** The row of a sample for its [i]th type. *)
Definition read_sample (serviceName : string) (labels : gmap string string) (p : Profile) (i : nat) (type : string) (s : Sample) : outcome Row :=
  let* value := nth_go (sm_Value s) (Z.of_nat i) in
  Ret {| ServiceName := serviceName; Type_ := type; Start := pr_TimeNanos p - pr_DurationNanos p; End_ := pr_TimeNanos p; Labels := labels;
         Value := value; StackHash_ := StackHash (stack_of s); Stack := stack_of s |}.

Definition profile_samples (serviceName : string) (labels : gmap string string) (p : Profile) : list (outcome Row) :=
  concat (imap (λ i type, if String.eqb type "" then [] else map (read_sample serviceName labels p i type) (pr_Sample p)) (pr_SampleType p)).

Fixpoint read_all (l : list (outcome Row)) : list Row * bool :=
  match l with
  | [] => ([], true)
  | Ret r :: l => let '(rs, ok) := read_all l in (r :: rs, ok)
  | Panic :: _ => ([], false)
  end.

Inductive query :=
| InsertStacks (l : list (string * Z * Z * list string))     (** service, hash, last seen, stack *)
| InsertSamples (l : list (string * string * Z * Z * gmap string string * Z * Z)).

Definition stack_row (r : Row) := (ServiceName r, StackHash_ r, End_ r, Stack r).
Definition sample_row (r : Row) := (ServiceName r, Type_ r, Start r, End_ r, Labels r, StackHash_ r, Value r).

Definition save (exec : query → bool) (rows : list Row) : list Row * list (query * bool) :=
  match rows with
  | [] => ([], [])
  | _ => ([], executed exec [InsertStacks (map stack_row rows); InsertSamples (map sample_row rows)])
  end.

Definition Request : Type := string * gmap string string * Profile.

Definition Add (limit : nat) (exec : query → bool) (req : Request) (rows : list Row) : list Row * list (query * bool) * bool :=
  let '(serviceName, labels, p) := req in
  let '(added, ok) := read_all (profile_samples serviceName labels p) in
  let rows := (rows ++ added)%list in
  if negb ok then (rows, [], true)
  else if Nat.ltb (length rows) limit then (rows, [], false)
  else (save exec rows, false).

Definition operate (limit : nat) (rows : list Row) (op : operation Request query) : list Row * list (query * bool) :=
  match op with OpAdd exec req => (Add limit exec req rows).1 | OpSave exec => save exec rows end.
End ProfilesBatch.

(** * Metrics *)
Module MetricsBatch.

Record PromSeries := { ts_Labels : list (string * string); ts_Samples : list (Z * F64.f64) }.
Record Metadata := { md_Family : string; md_Type : string; md_Unit : string; md_Help : string }.
Record WriteRequest := { wr_Metadata : list Metadata; wr_Timeseries : list PromSeries }.

(** A row is a series; [batch_rows] counts the samples. *)
Record Series := { sr_name : string; sr_tags : gmap string string; sr_ts : list Z; sr_vs : list F64.f64 }.
Record Batch := { batch_rows : Z; batch_series : list Series; batch_metadata : list Metadata }.

Definition NewMetricsBatch : Batch := {| batch_rows := 0; batch_series := []; batch_metadata := [] |}.

(** The name and the labels: an empty label is an absent one. *)
Definition read_label (acc : string * gmap string string) (l : string * string) : string * gmap string string :=
  if String.eqb l.1 "__name__" then (l.2, acc.2)
  else if String.eqb l.2 "" then acc
  else (acc.1, <[l.1 := l.2]> acc.2).

Definition read_series (ts : PromSeries) : option Series :=
  match ts_Samples ts with
  | [] => None
  | samples =>
      let '(name, tags) := foldl read_label ("", ∅) (ts_Labels ts) in
      Some {| sr_name := name; sr_tags := tags; sr_ts := map fst samples; sr_vs := map snd samples |}
  end.

Definition append_series (b : Batch) (s : Series) : Batch :=
  {| batch_rows := batch_rows b + Z.of_nat (length (sr_ts s)); batch_series := (batch_series b ++ [s])%list; batch_metadata := batch_metadata b |}.

Inductive query := InsertMetrics (l : list Series) | InsertMetadata (l : list Metadata).

Definition save (exec : query → bool) (b : Batch) : Batch * list (query * bool) :=
  let '(b, q) :=
    if 0 <? batch_rows b
    then ({| batch_rows := 0; batch_series := []; batch_metadata := batch_metadata b |}, executed exec [InsertMetrics (batch_series b)])
    else (b, []) in
  match batch_metadata b with
  | [] => (b, q)
  | md => ({| batch_rows := batch_rows b; batch_series := batch_series b; batch_metadata := [] |}, (q ++ executed exec [InsertMetadata md])%list)
  end.

Definition Add (limit : Z) (exec : query → bool) (req : WriteRequest) (b : Batch) : Batch * list (query * bool) :=
  let b := {| batch_rows := batch_rows b; batch_series := batch_series b; batch_metadata := (batch_metadata b ++ wr_Metadata req)%list |} in
  let b := foldl append_series b (omap read_series (wr_Timeseries req)) in
  if batch_rows b <? limit then (b, []) else save exec b.

Definition operate (limit : Z) (b : Batch) (op : operation WriteRequest query) : Batch * list (query * bool) :=
  match op with OpAdd exec req => Add limit exec req b | OpSave exec => save exec b end.
End MetricsBatch.


Module BatchesFacts.
Local Open Scope list_scope.

Lemma Forall2_flat_map {A B C} (R : B → C → Prop) (f : A → list B) (g : A → list C) l :
  Forall (λ x, Forall2 R (f x) (g x)) l → Forall2 R (flat_map f l) (flat_map g l).
Proof. induction 1 as [|x l Hx _ IH]; cbn; [constructor|by apply Forall2_app]. Qed.

Lemma executed_fst {Q} (exec : Q → bool) qs : (executed exec qs).*1 = qs.
Proof. unfold executed. induction qs as [|q qs IH]; cbn; [done|by rewrite IH]. Qed.

(** * Logs *)

(** What is read of a request, in order: the attributes of a resource and of each of
    its records. *)
Inductive log_read :=
| ReadResource (rl : LogsBatch.ResourceLogs)
| ReadRecord (rl : LogsBatch.ResourceLogs) (sl : LogsBatch.ScopeLogs) (lr : LogsBatch.LogRecord).
Definition resource_reads (rl : LogsBatch.ResourceLogs) : list log_read :=
  ReadResource rl :: flat_map (λ sl, map (ReadRecord rl sl) (LogsBatch.sl_LogRecords sl)) (LogsBatch.rl_ScopeLogs rl).
Definition attributes_read (x : log_read) : KeyValues :=
  match x with ReadResource rl => LogsBatch.rl_Attributes rl | ReadRecord _ _ lr => LogsBatch.lr_Attributes lr end.
Fixpoint before_panic (l : list log_read) : list log_read :=
  match l with
  | [] => []
  | x :: l => match attributesToMap (attributes_read x) with Panic => [] | Ret _ => x :: before_panic l end
  end.
Definition record_read (x : log_read) : option (LogsBatch.ResourceLogs * LogsBatch.ScopeLogs * LogsBatch.LogRecord) :=
  match x with
  | ReadRecord rl sl lr => if 0 <=? wrap64 (LogsBatch.lr_TimeUnixNano lr) then Some (rl, sl, lr) else None
  | ReadResource _ => None
  end.

(** The records of a request: those read before a panic, if there is one, but for
    those whose time is not one of 1970 to 2262. *)
Definition log_accepted (op : operation (list LogsBatch.ResourceLogs) LogsBatch.query) :=
  match op with OpAdd _ req => omap record_read (before_panic (flat_map resource_reads req)) | OpSave _ => [] end.

(** The row of a record. *)
Definition log_row (x : LogsBatch.ResourceLogs * LogsBatch.ScopeLogs * LogsBatch.LogRecord) (row : LogsBatch.Row) : Prop :=
  let '(rl, sl, lr) := x in
  LogsBatch.Timestamp row = wrap64 (LogsBatch.lr_TimeUnixNano lr)
  ∧ LogsBatch.TraceId row = EncodeToString (LogsBatch.lr_TraceId lr) ∧ LogsBatch.SpanId row = EncodeToString (LogsBatch.lr_SpanId lr)
  ∧ LogsBatch.TraceFlags row = LogsBatch.lr_Flags lr
  ∧ LogsBatch.SeverityText row = LogsBatch.lr_SeverityText lr ∧ LogsBatch.SeverityNumber row = LogsBatch.lr_SeverityNumber lr
  ∧ attributesToMap (LogsBatch.rl_Attributes rl) = Ret (LogsBatch.ResourceAttributes row)
  ∧ LogsBatch.ServiceName row = default "" (LogsBatch.ResourceAttributes row !! "service.name")
  ∧ (∃ attrs, attributesToMap (LogsBatch.lr_Attributes lr) = Ret attrs
       ∧ ∀ k, LogsBatch.LogAttributes row !! k =
           if String.eqb k "otel.scope.version" && is_set (LogsBatch.sl_Version sl) then Some (LogsBatch.sl_Version sl)
           else if String.eqb k "otel.scope.name" && is_set (LogsBatch.sl_Name sl) then Some (LogsBatch.sl_Name sl)
           else attrs !! k)
  ∧ (∀ text, LogsBatch.lr_Body lr = Some (StringValue text) → LogsBatch.Body row = text)
  ∧ ((∀ text, LogsBatch.lr_Body lr ≠ Some (StringValue text)) → LogsBatch.Body row = "").

Definition log_items (q : LogsBatch.query) : list LogsBatch.Row := let 'LogsBatch.InsertLogs l := q in l.
Definition log_added (op : operation (list LogsBatch.ResourceLogs) LogsBatch.query) : list LogsBatch.Row :=
  match op with OpAdd _ req => (LogsBatch.request_rows req).1 | OpSave _ => [] end.

Lemma read_record_row rl sl lr resource : attributesToMap (LogsBatch.rl_Attributes rl) = Ret resource →
  match attributesToMap (LogsBatch.lr_Attributes lr) with
  | Panic => LogsBatch.read_record (span_attr resource "service.name") resource sl lr = Panic
  | Ret _ => ∃ r, LogsBatch.read_record (span_attr resource "service.name") resource sl lr = Ret r
               ∧ Forall2 log_row (option_list (record_read (ReadRecord rl sl lr))) (option_list r)
  end.
Proof.
  intros Er. unfold LogsBatch.read_record. destruct (attributesToMap (LogsBatch.lr_Attributes lr)) as [attrs|] eqn:Ea; [|done].
  cbn [obind record_read]. eexists. split; [reflexivity|]. destruct (Z.leb_spec 0 (wrap64 (LogsBatch.lr_TimeUnixNano lr))) as [L|L].
  - rewrite (proj2 (Z.ltb_ge _ _)) by lia. cbn [option_list]. constructor; [|constructor]. unfold log_row. cbn [LogsBatch.ResourceAttributes]. split_and!; try done.
    + exists attrs. split; [done|]. intros k. cbn. unfold LogsBatch.scope_attributes, is_set.
      destruct (String.eqb_spec k "otel.scope.version") as [->|Nv]; [|destruct (String.eqb_spec k "otel.scope.name") as [->|Nn]];
        destruct (String.eqb_spec (LogsBatch.sl_Version sl) ""), (String.eqb_spec (LogsBatch.sl_Name sl) ""); cbn [negb andb];
        by rewrite ?lookup_insert_eq, ?lookup_insert_ne, ?lookup_insert_eq by done.
    + by intros text ->.
    + cbn. unfold LogsBatch.string_value. intros N. destruct (LogsBatch.lr_Body lr) as [[|text| | | | | |]|]; try done. by destruct (N text).
  - rewrite (proj2 (Z.ltb_lt _ _)) by lia. constructor.
Qed.

Lemma read_all_rows rl resource xs rest : attributesToMap (LogsBatch.rl_Attributes rl) = Ret resource →
  ∀ l', Forall2 log_row (omap record_read (before_panic l')) (LogsBatch.read_all rest).1 →
  Forall2 log_row (omap record_read (before_panic (map (λ p : LogsBatch.ScopeLogs * LogsBatch.LogRecord, ReadRecord rl p.1 p.2) xs ++ l')))
    (LogsBatch.read_all (map (λ p, LogsBatch.read_record (span_attr resource "service.name") resource p.1 p.2) xs ++ rest)).1.
Proof.
  intros Er l' F. induction xs as [|[sl lr] xs IH]; [done|]. cbn [map app before_panic attributes_read fst snd].
  assert (R := read_record_row rl sl lr resource Er). destruct (attributesToMap (LogsBatch.lr_Attributes lr)) as [a|].
  - destruct R as (r & -> & Rr). cbn [LogsBatch.read_all]. destruct (LogsBatch.read_all (map _ xs ++ rest)) as [rs ok].
    cbn [omap list_omap fst] in *. destruct (record_read (ReadRecord rl sl lr)); cbn [option_list] in Rr.
    + destruct r; cbn [option_list app] in *; inversion Rr; by constructor.
    + destruct r; cbn [option_list app] in *; [inversion Rr|done].
  - rewrite R. constructor.
Qed.

(** The pairs of a scope and one of its records. *)
Definition scope_records (rl : LogsBatch.ResourceLogs) : list (LogsBatch.ScopeLogs * LogsBatch.LogRecord) :=
  flat_map (λ sl, map (pair sl) (LogsBatch.sl_LogRecords sl)) (LogsBatch.rl_ScopeLogs rl).
Lemma scope_records_map {C} (f : LogsBatch.ScopeLogs → LogsBatch.LogRecord → C) rl :
  flat_map (λ sl, map (f sl) (LogsBatch.sl_LogRecords sl)) (LogsBatch.rl_ScopeLogs rl) = map (λ p, f p.1 p.2) (scope_records rl).
Proof.
  unfold scope_records. induction (LogsBatch.rl_ScopeLogs rl) as [|sl l IH]; cbn; [done|]. by rewrite map_app, map_map, IH.
Qed.

Lemma log_rows op : Forall2 log_row (log_accepted op) (log_added op).
Proof.
  destruct op as [exec req|exec]; [|constructor]. cbn [log_accepted log_added]. unfold LogsBatch.request_rows.
  induction req as [|rl req IH]; cbn [flat_map]; [constructor|]. unfold resource_reads at 1, LogsBatch.resource_records at 1.
  rewrite !scope_records_map. cbn [app before_panic attributes_read].
  destruct (attributesToMap (LogsBatch.rl_Attributes rl)) as [resource|] eqn:Er; [|constructor].
  cbn [omap list_omap record_read]. rewrite scope_records_map. by apply read_all_rows.
Qed.

Lemma logs_conserve limit rows op :
  flat_map log_items (LogsBatch.operate limit rows op).2.*1 ++ (LogsBatch.operate limit rows op).1 = rows ++ log_added op.
Proof.
  assert (S : ∀ exec l, flat_map log_items (LogsBatch.save exec l).2.*1 ++ (LogsBatch.save exec l).1 = l).
  { intros exec []; [done|]. cbn. by rewrite !app_nil_r. }
  destruct op as [exec req|exec]; cbn [LogsBatch.operate log_added]; [|by rewrite app_nil_r]. unfold LogsBatch.Add.
  destruct (LogsBatch.request_rows req) as [l []]; cbn [negb fst]; [|done].
  destruct (Nat.ltb (length (rows ++ l)) limit); [done|apply S].
Qed.

Definition logs_queue (limit : nat) : BatchQueue (list LogsBatch.Row) _ _ LogsBatch.Row :=
  {| bq_step := LogsBatch.operate limit; bq_held := λ l, l; bq_added := log_added; bq_items := log_items; bq_conserves := logs_conserve limit |}.

(** * Profiles *)

(** A sample for one of its types: [profile.Parse] checks that it has a value for
    each. *)
Definition parsed (op : operation ProfilesBatch.Request ProfilesBatch.query) : Prop :=
  match op with
  | OpAdd _ (_, _, p) => Forall (λ s, length (ProfilesBatch.sm_Value s) = length (ProfilesBatch.pr_SampleType p)) (ProfilesBatch.pr_Sample p)
  | OpSave _ => True
  end.
Definition type_samples (p : ProfilesBatch.Profile) (i : nat) (type : string) : list (nat * string * ProfilesBatch.Sample) :=
  if String.eqb type "" then [] else map (λ s, (i, type, s)) (ProfilesBatch.pr_Sample p).
Definition sample_came : Type := ProfilesBatch.Request * (nat * string * ProfilesBatch.Sample).
Definition samples_accepted (op : operation ProfilesBatch.Request ProfilesBatch.query) : list sample_came :=
  match op with
  | OpAdd _ ((_, _, p) as req) => map (pair req) (concat (imap (type_samples p) (ProfilesBatch.pr_SampleType p)))
  | OpSave _ => []
  end.

(** The row of a sample; its stack has the lines of its locations that have a
    function. *)
Definition frame_text (l : ProfilesBatch.Line) (text : string) : Prop :=
  ∃ f, ProfilesBatch.ln_Function l = Some f
    ∧ text = (ProfilesBatch.fn_Name f ++ " " ++ ProfilesBatch.fn_Filename f ++ ":" ++ Itoa (ProfilesBatch.ln_Line l))%string.
Definition sample_of (x : sample_came) (row : ProfilesBatch.Row) : Prop :=
  let '((serviceName, labels, p), (i, type, s)) := x in
  ProfilesBatch.ServiceName row = serviceName ∧ ProfilesBatch.Type_ row = type ∧ ProfilesBatch.Labels row = labels
  ∧ ProfilesBatch.Start row = ProfilesBatch.pr_TimeNanos p - ProfilesBatch.pr_DurationNanos p ∧ ProfilesBatch.End_ row = ProfilesBatch.pr_TimeNanos p
  ∧ ProfilesBatch.sm_Value s !! i = Some (ProfilesBatch.Value row)
  ∧ Forall2 frame_text (filter (λ l, ProfilesBatch.ln_Function l ≠ None) (concat (ProfilesBatch.sm_Location s))) (ProfilesBatch.Stack row)
  ∧ ProfilesBatch.StackHash_ row = ProfilesBatch.StackHash (ProfilesBatch.Stack row).

Lemma stack_of_frames s :
  Forall2 frame_text (filter (λ l, ProfilesBatch.ln_Function l ≠ None) (concat (ProfilesBatch.sm_Location s))) (ProfilesBatch.stack_of s).
Proof.
  unfold ProfilesBatch.stack_of. induction (ProfilesBatch.sm_Location s) as [|ls lss IH]; cbn [concat flat_map]; [constructor|].
  rewrite filter_app. apply Forall2_app; [|exact IH]. clear IH.
  induction ls as [|l ls IH]; [constructor|]. rewrite filter_cons. cbn [omap list_omap]. unfold ProfilesBatch.frame at 1.
  destruct (ProfilesBatch.ln_Function l) as [f|] eqn:E; case_decide; try done. constructor; [|exact IH]. by exists f.
Qed.

Lemma map_imap {A B C} (f : B → C) (g : nat → A → B) l : map f (imap g l) = imap (λ i x, f (g i x)) l.
Proof. apply (fmap_imap g f). Qed.
Lemma profile_samples_map serviceName labels p :
  ProfilesBatch.profile_samples serviceName labels p
  = map (λ x : nat * string * ProfilesBatch.Sample, ProfilesBatch.read_sample serviceName labels p x.1.1 x.1.2 x.2)
      (concat (imap (type_samples p) (ProfilesBatch.pr_SampleType p))).
Proof.
  unfold ProfilesBatch.profile_samples. rewrite concat_map. f_equal. rewrite map_imap. apply imap_ext. intros i type _. cbn.
  unfold type_samples. destruct (String.eqb type ""); [done|]. by rewrite map_map.
Qed.

Lemma read_samples_rows serviceName labels p xs :
  Forall (λ x : nat * string * ProfilesBatch.Sample, (x.1.1 < length (ProfilesBatch.sm_Value x.2))%nat) xs →
  Forall2 sample_of (map (pair (serviceName, labels, p)) xs)
    (ProfilesBatch.read_all (map (λ x, ProfilesBatch.read_sample serviceName labels p x.1.1 x.1.2 x.2) xs)).1.
Proof.
  induction 1 as [|[[i type] s] xs Hx _ IH]; [constructor|]. cbn [map ProfilesBatch.read_all fst snd] in *.
  destruct (lookup_lt_is_Some_2 _ _ Hx) as [v Hv]. unfold ProfilesBatch.read_sample at 1, nth_go.
  rewrite bool_decide_true, Nat2Z.id, Hv by lia. cbn [obind]. destruct (ProfilesBatch.read_all _) as [rs ok]. cbn [fst] in *.
  constructor; [|exact IH]. unfold sample_of. cbn. split_and!; try done. apply stack_of_frames.
Qed.

Definition sample_items (q : ProfilesBatch.query) :=
  match q with ProfilesBatch.InsertSamples l => l | ProfilesBatch.InsertStacks _ => [] end.
Definition stack_items (q : ProfilesBatch.query) :=
  match q with ProfilesBatch.InsertStacks l => l | ProfilesBatch.InsertSamples _ => [] end.
Definition samples_added (op : operation ProfilesBatch.Request ProfilesBatch.query) : list ProfilesBatch.Row :=
  match op with
  | OpAdd _ (serviceName, labels, p) => (ProfilesBatch.read_all (ProfilesBatch.profile_samples serviceName labels p)).1
  | OpSave _ => []
  end.

Lemma sample_rows op : parsed op → Forall2 sample_of (samples_accepted op) (samples_added op).
Proof.
  destruct op as [exec [[serviceName labels] p]|exec]; [|constructor]. cbn [parsed samples_accepted samples_added]. intros V.
  rewrite profile_samples_map. apply read_samples_rows, Forall_forall. intros [[i type] s] I.
  apply list_elem_of_In, in_concat in I as (l & Hl & Hin). apply list_elem_of_In, list_elem_of_lookup in Hl as [j Hj].
  rewrite list_lookup_imap in Hj. apply fmap_Some in Hj as (type' & Ht & ->). unfold type_samples in Hin.
  destruct (String.eqb type' ""); [done|]. apply in_map_iff in Hin as (s' & [= <- <- <-] & Hs). cbn [fst snd].
  rewrite (proj1 (Forall_forall _ _) V s') by by apply list_elem_of_In. by apply lookup_lt_Some in Ht.
Qed.

Lemma samples_conserve {T} (f : ProfilesBatch.Row → T) (items : ProfilesBatch.query → list T) limit rows op :
  (∀ l, items (ProfilesBatch.InsertStacks (map ProfilesBatch.stack_row l)) ++ items (ProfilesBatch.InsertSamples (map ProfilesBatch.sample_row l)) = map f l) →
  flat_map items (ProfilesBatch.operate limit rows op).2.*1 ++ map f (ProfilesBatch.operate limit rows op).1 = map f rows ++ map f (samples_added op).
Proof.
  intros I. assert (S : ∀ exec l, flat_map items (ProfilesBatch.save exec l).2.*1 ++ map f (ProfilesBatch.save exec l).1 = map f l).
  { intros exec [|r l]; [done|]. specialize (I (r :: l)). cbn in I |- *. by rewrite !app_nil_r. }
  destruct op as [exec [[serviceName labels] p]|exec]; cbn [ProfilesBatch.operate samples_added]; [|by rewrite app_nil_r]. unfold ProfilesBatch.Add.
  destruct (ProfilesBatch.read_all _) as [l []]; cbn [negb fst]; rewrite <- map_app; [|done].
  destruct (Nat.ltb (length (rows ++ l)) limit); [done|apply S].
Qed.

Definition samples_queue (limit : nat) : BatchQueue (list ProfilesBatch.Row) _ _ _ :=
  {| bq_step := ProfilesBatch.operate limit; bq_held := map ProfilesBatch.sample_row; bq_added := λ op, map ProfilesBatch.sample_row (samples_added op);
     bq_items := sample_items; bq_conserves := λ rows op, samples_conserve _ sample_items limit rows op (λ l, eq_refl) |}.
Definition stacks_queue (limit : nat) : BatchQueue (list ProfilesBatch.Row) _ _ _ :=
  {| bq_step := ProfilesBatch.operate limit; bq_held := map ProfilesBatch.stack_row; bq_added := λ op, map ProfilesBatch.stack_row (samples_added op);
     bq_items := stack_items; bq_conserves := λ rows op, samples_conserve _ stack_items limit rows op (λ l, app_nil_r _) |}.

(** The stacks that samples refer to are sent just before them. *)
Fixpoint stacks_first (qs : list ProfilesBatch.query) : Prop :=
  match qs with
  | [] => True
  | ProfilesBatch.InsertStacks stacks :: ProfilesBatch.InsertSamples samples :: qs =>
      map (λ '(service, hash, _, _), (service, hash)) stacks = map (λ '(service, _, _, _, _, hash, _), (service, hash)) samples ∧ stacks_first qs
  | _ => False
  end.
Lemma stacks_first_app qs qs' : stacks_first qs → stacks_first qs' → stacks_first (qs ++ qs').
Proof.
  revert qs. fix IH 1. intros [|[a|a] [|[b|b] qs]]; cbn [stacks_first app]; try done. intros [E F] F'. split; [done|]. by apply IH.
Qed.
Lemma save_stacks_first exec rows : stacks_first (ProfilesBatch.save exec rows).2.*1.
Proof.
  destruct rows as [|r l]; [done|]. cbn [ProfilesBatch.save snd]. rewrite executed_fst. cbn [stacks_first]. split; [|done]. by rewrite !map_map.
Qed.
Lemma step_stacks_first limit rows op : stacks_first (ProfilesBatch.operate limit rows op).2.*1.
Proof.
  destruct op as [exec [[serviceName labels] p]|exec]; cbn [ProfilesBatch.operate]; [|apply save_stacks_first]. unfold ProfilesBatch.Add.
  destruct (ProfilesBatch.read_all _) as [l []]; cbn [negb fst snd]; [|done].
  destruct (Nat.ltb _ _); cbn [fst snd]; [done|apply save_stacks_first].
Qed.

(** * Metrics *)

Definition series_items (q : MetricsBatch.query) :=
  match q with MetricsBatch.InsertMetrics l => l | MetricsBatch.InsertMetadata _ => [] end.
Definition series_added (op : operation MetricsBatch.WriteRequest MetricsBatch.query) :=
  match op with OpAdd _ req => omap MetricsBatch.read_series (MetricsBatch.wr_Timeseries req) | OpSave _ => [] end.
Definition metadata_items (q : MetricsBatch.query) :=
  match q with MetricsBatch.InsertMetadata l => l | MetricsBatch.InsertMetrics _ => [] end.
Definition metadata_added (op : operation MetricsBatch.WriteRequest MetricsBatch.query) :=
  match op with OpAdd _ req => MetricsBatch.wr_Metadata req | OpSave _ => [] end.

(** The series of a request: one without samples is left out.  A label of a series
    is in its tags with the last value it was given that is not empty, and its name
    is the last it was given. *)
Definition series_accepted (op : operation MetricsBatch.WriteRequest MetricsBatch.query) : list MetricsBatch.PromSeries :=
  match op with OpAdd _ req => filter (λ ts, MetricsBatch.ts_Samples ts ≠ []) (MetricsBatch.wr_Timeseries req) | OpSave _ => [] end.
Definition series_row_of (ts : MetricsBatch.PromSeries) (s : MetricsBatch.Series) : Prop :=
  MetricsBatch.sr_name s = default "" (last (omap (λ l : string * string, if String.eqb l.1 "__name__" then Some l.2 else None) (MetricsBatch.ts_Labels ts)))
  ∧ (∀ name, MetricsBatch.sr_tags s !! name
             = if String.eqb name "__name__" then None
               else last (omap (λ l : string * string, if String.eqb l.1 name && is_set l.2 then Some l.2 else None) (MetricsBatch.ts_Labels ts)))
  ∧ zip (MetricsBatch.sr_ts s) (MetricsBatch.sr_vs s) = MetricsBatch.ts_Samples ts ∧ length (MetricsBatch.sr_ts s) = length (MetricsBatch.sr_vs s).

Lemma series_labels ts s : MetricsBatch.read_series ts = Some s → series_row_of ts s.
Proof.
  unfold MetricsBatch.read_series. destruct (MetricsBatch.ts_Samples ts) as [|p l] eqn:E; [done|].
  rewrite (surjective_pairing (foldl _ _ _)). intros [= <-]. unfold series_row_of. cbn [MetricsBatch.sr_name MetricsBatch.sr_tags MetricsBatch.sr_ts MetricsBatch.sr_vs].
  split_and!.
  - induction (MetricsBatch.ts_Labels ts) as [|x ls IH] using rev_ind; [done|]. rewrite foldl_snoc, omap_app, last_app. cbn.
    unfold MetricsBatch.read_label at 1. destruct (String.eqb x.1 "__name__"); [done|]. by destruct (String.eqb x.2 "").
  - intros name. induction (MetricsBatch.ts_Labels ts) as [|x ls IH] using rev_ind; cbn; [by destruct (String.eqb name "__name__")|].
    rewrite foldl_snoc, omap_app, last_app. cbn. unfold MetricsBatch.read_label at 1, is_set.
    destruct (String.eqb_spec x.1 "__name__") as [Ex|Nx].
    + cbn [snd]. rewrite IH, Ex. destruct (String.eqb_spec "__name__" name) as [<-|]; [done|]. done.
    + destruct (String.eqb_spec x.2 "") as [Ev|Nv]; cbn [snd negb].
      * rewrite andb_false_r. exact IH.
      * rewrite andb_true_r. destruct (String.eqb_spec x.1 name) as [<-|Nn]; [|rewrite lookup_insert_ne by done; exact IH].
        rewrite lookup_insert_eq. by destruct (String.eqb_spec x.1 "__name__").
  - rewrite E. clear. revert p. induction l as [|q l IH]; intros p; cbn in *; [by destruct p|]. rewrite IH. by destruct p.
  - cbn. by rewrite !length_map.
Qed.

Lemma series_rows op : Forall2 series_row_of (series_accepted op) (series_added op).
Proof.
  destruct op as [exec req|exec]; [|constructor]. cbn [series_accepted series_added].
  induction (MetricsBatch.wr_Timeseries req) as [|ts l IH]; [constructor|]. rewrite filter_cons. cbn [omap list_omap].
  destruct (MetricsBatch.read_series ts) as [s|] eqn:E.
  - assert (MetricsBatch.ts_Samples ts ≠ []) by (unfold MetricsBatch.read_series in E; by destruct (MetricsBatch.ts_Samples ts)).
    rewrite decide_True by done. constructor; [by apply series_labels|exact IH].
  - assert (MetricsBatch.ts_Samples ts = []).
    { unfold MetricsBatch.read_series in E. destruct (MetricsBatch.ts_Samples ts); [done|]. by destruct (foldl _ _ _). }
    by rewrite decide_False by tauto.
Qed.

Lemma add_series_all b l :
  let b' := foldl MetricsBatch.append_series b l in
  MetricsBatch.batch_series b' = MetricsBatch.batch_series b ++ l ∧ MetricsBatch.batch_metadata b' = MetricsBatch.batch_metadata b
  ∧ MetricsBatch.batch_rows b' = MetricsBatch.batch_rows b + Z.of_nat (sum_list_with (λ s, length (MetricsBatch.sr_ts s)) l).
Proof.
  revert b. induction l as [|s l IH]; intros b; cbn; [rewrite app_nil_r; split_and!; [done..|lia]|].
  destruct (IH (MetricsBatch.append_series b s)) as (-> & -> & ->). cbn. rewrite <-app_assoc. split_and!; [done..|lia].
Qed.

Lemma metrics_save_conserves exec b :
  flat_map series_items (MetricsBatch.save exec b).2.*1 ++ MetricsBatch.batch_series (MetricsBatch.save exec b).1 = MetricsBatch.batch_series b
  ∧ flat_map metadata_items (MetricsBatch.save exec b).2.*1 ++ MetricsBatch.batch_metadata (MetricsBatch.save exec b).1 = MetricsBatch.batch_metadata b.
Proof.
  unfold MetricsBatch.save. destruct (0 <? MetricsBatch.batch_rows b), (MetricsBatch.batch_metadata b) as [|d l] eqn:D; cbn;
    rewrite ?D, ?app_nil_r; done.
Qed.

Lemma metrics_conserve limit b op :
  flat_map series_items (MetricsBatch.operate limit b op).2.*1 ++ MetricsBatch.batch_series (MetricsBatch.operate limit b op).1
    = MetricsBatch.batch_series b ++ series_added op
  ∧ flat_map metadata_items (MetricsBatch.operate limit b op).2.*1 ++ MetricsBatch.batch_metadata (MetricsBatch.operate limit b op).1
    = MetricsBatch.batch_metadata b ++ metadata_added op.
Proof.
  destruct op as [exec req|exec]; cbn [MetricsBatch.operate series_added metadata_added]; [|rewrite !app_nil_r; apply metrics_save_conserves].
  unfold MetricsBatch.Add. cbv zeta.
  match goal with |- context [foldl MetricsBatch.append_series ?b0 ?l] =>
    destruct (add_series_all b0 l) as (E1 & E2 & _); set (b1 := foldl MetricsBatch.append_series b0 l) in * end.
  cbn in E1, E2. rewrite <- E1, <- E2. destruct (MetricsBatch.batch_rows b1 <? limit); [done|apply metrics_save_conserves].
Qed.

Definition series_queue (limit : Z) : BatchQueue MetricsBatch.Batch _ _ _ :=
  {| bq_step := MetricsBatch.operate limit; bq_held := MetricsBatch.batch_series; bq_added := series_added; bq_items := series_items;
     bq_conserves := λ b op, proj1 (metrics_conserve limit b op) |}.

Definition metadata_queue (limit : Z) : BatchQueue MetricsBatch.Batch _ _ _ :=
  {| bq_step := MetricsBatch.operate limit; bq_held := MetricsBatch.batch_metadata; bq_added := metadata_added; bq_items := metadata_items;
     bq_conserves := λ b op, proj2 (metrics_conserve limit b op) |}.

(** The batch counts its samples, and has some when it has a series. *)
Definition counts_samples (b : MetricsBatch.Batch) : Prop :=
  MetricsBatch.batch_rows b = Z.of_nat (sum_list_with (λ s, length (MetricsBatch.sr_ts s)) (MetricsBatch.batch_series b))
  ∧ Forall (λ s, MetricsBatch.sr_ts s ≠ []) (MetricsBatch.batch_series b).

Lemma read_series_samples ts s : MetricsBatch.read_series ts = Some s → MetricsBatch.sr_ts s ≠ [].
Proof.
  unfold MetricsBatch.read_series. destruct (MetricsBatch.ts_Samples ts) as [|p l]; [done|].
  destruct (foldl MetricsBatch.read_label _ _). by intros [= <-].
Qed.

Lemma save_empties exec b : counts_samples b → (MetricsBatch.save exec b).1 = MetricsBatch.NewMetricsBatch.
Proof.
  intros [C F]. unfold MetricsBatch.save, MetricsBatch.NewMetricsBatch. destruct (Z.ltb_spec 0 (MetricsBatch.batch_rows b)) as [|Le].
  - by destruct (MetricsBatch.batch_metadata b) as [|d l].
  - assert (Z0 : MetricsBatch.batch_series b = []).
    { destruct F as [|s l N F]; [done|]. cbn in C. destruct (MetricsBatch.sr_ts s); [done|]. cbn in C. lia. }
    rewrite Z0 in C. cbn in C. destruct b as [n l md]. cbn in *. subst. by destruct md.
Qed.

Lemma metrics_step_counts limit b op : counts_samples b → counts_samples (MetricsBatch.operate limit b op).1.
Proof.
  assert (N : counts_samples MetricsBatch.NewMetricsBatch) by by split; [|constructor].
  intros C. destruct op as [exec req|exec]; cbn [MetricsBatch.operate]; [|by rewrite save_empties]. unfold MetricsBatch.Add. cbv zeta.
  match goal with |- context [foldl MetricsBatch.append_series ?b0 ?l] =>
    destruct (add_series_all b0 l) as (E1 & E2 & E3); set (b1 := foldl MetricsBatch.append_series b0 l) in * end.
  assert (C1 : counts_samples b1).
  { destruct C as [C F]. split; rewrite E1; cbn in E3 |- *.
    - rewrite E3, C, sum_list_with_app. lia.
    - apply Forall_app. split; [done|]. apply Forall_forall. intros s (ts & _ & R)%list_elem_of_omap. by eapply read_series_samples. }
  destruct (MetricsBatch.batch_rows b1 <? limit); [done|by rewrite save_empties].
Qed.

Lemma run_counts limit b ops : counts_samples b → counts_samples (run_steps (MetricsBatch.operate limit) b ops).1.
Proof.
  revert b. induction ops as [|op ops IH]; intros b C; [done|]. cbn [run_steps]. assert (C' := metrics_step_counts limit b op C).
  destruct (MetricsBatch.operate limit b op) as [b1 q1]. specialize (IH b1 C'). by destruct (run_steps _ b1 ops).
Qed.

Lemma map_flat_map {A B C} (f : B → C) (g : A → list B) l : map f (flat_map g l) = flat_map (λ x, map f (g x)) l.
Proof. induction l as [|x l IH]; cbn; [done|]. by rewrite map_app, IH. Qed.
End BatchesFacts.

Module BatchesTheorems.
Import BatchesFacts.
Local Open Scope list_scope.

(** C26 Nothing that was accepted is sent twice, out of order or not at all: through
    any requests and saves, of each kind of telemetry what ClickHouse was sent,
    followed by what the batch holds, are the rows of what the requests had.  A query
    is tried once, so the rows of one that fails are lost, and no others
    ([sent_once]).  What is accepted is: the log records read before an attribute that
    panics, but for times before 1970 and beyond 2262; a sample for each of its types
    with a name; the series with samples; the metadata.  Samples are sent right after
    the stacks they refer to; and a save of a batch of metrics leaves nothing behind. *)
Theorem telemetry_sent_once limit mlimit logs profiles metrics :
  Forall parsed profiles →
  (let '(held, qs) := run_steps (LogsBatch.operate limit) [] logs in
   ∃ rows, Forall2 log_row (flat_map log_accepted logs) rows ∧ sent_once log_items qs held rows)
  ∧ (let '(held, qs) := run_steps (ProfilesBatch.operate limit) [] profiles in
     ∃ rows, Forall2 sample_of (flat_map samples_accepted profiles) rows
       ∧ sent_once sample_items qs (map ProfilesBatch.sample_row held) (map ProfilesBatch.sample_row rows)
       ∧ sent_once stack_items qs (map ProfilesBatch.stack_row held) (map ProfilesBatch.stack_row rows)
       ∧ stacks_first qs.*1)
  ∧ (let '(held, qs) := run_steps (MetricsBatch.operate mlimit) MetricsBatch.NewMetricsBatch metrics in
     (∃ series, Forall2 series_row_of (flat_map series_accepted metrics) series ∧ sent_once series_items qs (MetricsBatch.batch_series held) series)
     ∧ sent_once metadata_items qs (MetricsBatch.batch_metadata held) (flat_map metadata_added metrics)
     ∧ ∀ exec, (MetricsBatch.save exec held).1 = MetricsBatch.NewMetricsBatch).
Proof.
  intros V. split_and!.
  - assert (S := run_conserves (logs_queue limit) [] logs). cbn in S. destruct (run_steps _ _ logs) as [held qs].
    exists (flat_map log_added logs). split; [|exact S]. apply Forall2_flat_map, Forall_true, log_rows.
  - assert (S := run_conserves (samples_queue limit) [] profiles). assert (K := run_conserves (stacks_queue limit) [] profiles). cbn in S, K.
    assert (F := run_queries (λ qs, stacks_first qs.*1) (ProfilesBatch.operate limit) [] profiles I
      ltac:(intros q q' Hq Hq'; cbv beta in *; rewrite fmap_app; by apply stacks_first_app) (step_stacks_first limit)).
    destruct (run_steps _ _ profiles) as [held qs]. rewrite <- !map_flat_map in *. exists (flat_map samples_added profiles). split_and!; [|exact S|exact K|exact F].
    apply Forall2_flat_map. eapply Forall_impl; [exact V|]. intros op. apply sample_rows.
  - assert (S := run_conserves (series_queue mlimit) MetricsBatch.NewMetricsBatch metrics).
    assert (M := run_conserves (metadata_queue mlimit) MetricsBatch.NewMetricsBatch metrics). cbn in S, M.
    assert (C := run_counts mlimit MetricsBatch.NewMetricsBatch metrics ltac:(by split; [|constructor])).
    destruct (run_steps _ _ metrics) as [held qs]. split_and!; [|exact M|intros; by apply save_empties].
    exists (flat_map series_added metrics). split; [|exact S]. apply Forall2_flat_map, Forall_true, series_rows.
Qed.
End BatchesTheorems.

Module BatchesRuns.
Import BatchesFacts BatchesTheorems.
Local Open Scope list_scope.

Definition log (time : Z) (body : AnyValue) : LogsBatch.LogRecord :=
  {| LogsBatch.lr_TimeUnixNano := time; LogsBatch.lr_TraceId := ""; LogsBatch.lr_SpanId := ""; LogsBatch.lr_Flags := 0;
     LogsBatch.lr_SeverityText := "INFO"; LogsBatch.lr_SeverityNumber := 9; LogsBatch.lr_Attributes := []; LogsBatch.lr_Body := Some body |}.

Definition logs : list LogsBatch.ResourceLogs :=
  [{| LogsBatch.rl_Attributes := [("service.name", Some (StringValue "shop"))];
      LogsBatch.rl_ScopeLogs := [{| LogsBatch.sl_Name := "app"; LogsBatch.sl_Version := "";
                                    LogsBatch.sl_LogRecords := [log 5 (StringValue "started"); log (2 ^ 63) (StringValue "past"); log 6 (KvlistValue [("event", Some (StringValue "order"))])] |}] |}].

(** A structured body is stored empty, and a time beyond 2262 not at all. *)
Example structured_body_lost :
  map (λ r, (LogsBatch.Timestamp r, LogsBatch.Body r)) (flat_map log_items (LogsBatch.Add 2 (λ _, true) logs []).1.2.*1) = [(5, "started"); (6, "")].
Proof. by vm_compute. Qed.

Example stack_hash_is_fnv : ProfilesBatch.StackHash ["a"] = 12638187200555641996 ∧ ProfilesBatch.StackHash ["foo"; "bar"] = ProfilesBatch.StackHash ["foob"; "ar"].
Proof. by vm_compute. Qed.

(** A failed insert is not tried again. *)
Example logs_lost :
  let '(held, qs) := run_steps (LogsBatch.operate 2) [] [OpAdd (λ _, false) logs] in
  held = [] ∧ length (flat_map log_items (failed qs)) = 2%nat ∧ flat_map log_items (stored qs) = [].
Proof. by vm_compute. Qed.

Definition cpu_line (name : string) : ProfilesBatch.Line :=
  {| ProfilesBatch.ln_Function := Some {| ProfilesBatch.fn_Name := name; ProfilesBatch.fn_Filename := "main.go" |}; ProfilesBatch.ln_Line := 7 |}.
Definition cpu_profile : ProfilesBatch.Profile :=
  {| ProfilesBatch.pr_SampleType := [""; "cpu"]; ProfilesBatch.pr_TimeNanos := 20; ProfilesBatch.pr_DurationNanos := 5;
     ProfilesBatch.pr_Sample := [{| ProfilesBatch.sm_Location := [[cpu_line "main.serve"]; [cpu_line "main.main"]]; ProfilesBatch.sm_Value := [1; 30] |}] |}.
Definition profile_operations : list (operation ProfilesBatch.Request ProfilesBatch.query) := [OpAdd (λ _, true) ("shop", ∅, cpu_profile); OpSave (λ _, true)].

Lemma telemetry_sent_once_witness :
  let '(held, qs) := run_steps (ProfilesBatch.operate 10) [] profile_operations in
  length qs = 2%nat ∧ ∃ row, Forall2 sample_of (flat_map samples_accepted profile_operations) [row]
    ∧ flat_map stack_items (stored qs) = [ProfilesBatch.stack_row row] ∧ ProfilesBatch.Stack row = ["main.serve main.go:7"; "main.main main.go:7"].
Proof.
  assert (V : Forall parsed profile_operations) by (repeat constructor).
  destruct (telemetry_sent_once 10 10 [] profile_operations [] V) as (_ & P & _).
  destruct (run_steps (ProfilesBatch.operate 10) [] profile_operations) as [held qs] eqn:E. vm_compute in E. injection E as <- <-.
  destruct P as (rows & F & _ & [S _] & _). split; [reflexivity|]. cbn in S. rewrite ?app_nil_r in S.
  destruct rows as [|row [|row' rows]]; try discriminate S. exists row. split; [exact F|]. split; [exact S|].
  injection S as _ _ _ S. symmetry. exact S.
Defined.
End BatchesRuns.
