(* ===== verification/Schema.v ===== *)
(** The ClickHouse schema of a project (ch/client.go, ch/traces_expressions.go)
    and its migrations (ch/migrations.go, db/clickhouse_schema.go).

    The statements are the texts of the code. *)

From Stdlib Require Import ZArith Lia Bool String Ascii.
From S2P Require Import Prelude GoStrings Utils AppId Traces.
Import FilepathFacts.

Local Open Scope string_scope.

(** * ch/traces_expressions.go *)

Definition traceHttpMethod : string := "if(SpanAttributes['http.method'] != '', SpanAttributes['http.method'], SpanAttributes['http.request.method'])".

Definition traceHttpPath : string := "multiIf("
  ++ "SpanAttributes['http.route'] != '', substringIndex(SpanAttributes['http.route'], char(63), 1), "
  ++ "SpanAttributes['http.target'] != '', substringIndex(SpanAttributes['http.target'], char(63), 1), "
  ++ "SpanAttributes['url.path'] != '', substringIndex(SpanAttributes['url.path'], char(63), 1), "
  ++ "path(SpanAttributes['http.url']))".

Definition traceApiRouteExpression : string := "if(" ++ traceHttpPath ++ " = '', '', "
  ++ "if(" ++ traceHttpMethod ++ " = '', " ++ traceHttpPath ++ ", concat(" ++ traceHttpMethod ++ ", ' ', " ++ traceHttpPath ++ ")))".

(** * The tables of version 1 *)

Definition create_otel_logs : string := "
CREATE TABLE IF NOT EXISTS otel_logs @on_cluster (
     Timestamp DateTime64(9) CODEC(Delta, ZSTD(1)),
     TraceId String CODEC(ZSTD(1)),
     SpanId String CODEC(ZSTD(1)),
     TraceFlags UInt32 CODEC(ZSTD(1)),
     SeverityText LowCardinality(String) CODEC(ZSTD(1)),
     SeverityNumber Int32 CODEC(ZSTD(1)),
     ServiceName LowCardinality(String) CODEC(ZSTD(1)),
     Body String CODEC(ZSTD(1)),
     ResourceAttributes Map(LowCardinality(String), String) CODEC(ZSTD(1)),
     LogAttributes Map(LowCardinality(String), String) CODEC(ZSTD(1)),
     Namespace LowCardinality(String) MATERIALIZED (if(startsWith(ServiceName, '/k8s'), if(arrayElement(splitByChar('/', ServiceName), 3) = '', 'n/a', arrayElement(splitByChar('/', ServiceName), 3)), if(ResourceAttributes['k8s.namespace.name'] != '', ResourceAttributes['k8s.namespace.name'], if(LogAttributes['k8s.namespace.name'] != '', LogAttributes['k8s.namespace.name'], 'n/a')))) CODEC(ZSTD(1)),
     Application LowCardinality(String) MATERIALIZED (if(startsWith(ServiceName, '/k8s'), nullIf(arrayElement(splitByChar('/', ServiceName), length(splitByChar('/', ServiceName))), ''), ServiceName)) CODEC(ZSTD(1)),
     INDEX idx_trace_id TraceId TYPE bloom_filter(0.001) GRANULARITY 1,
     INDEX idx_res_attr_key mapKeys(ResourceAttributes) TYPE bloom_filter(0.01) GRANULARITY 1,
     INDEX idx_res_attr_value mapValues(ResourceAttributes) TYPE bloom_filter(0.01) GRANULARITY 1,
     INDEX idx_log_attr_key mapKeys(LogAttributes) TYPE bloom_filter(0.01) GRANULARITY 1,
     INDEX idx_log_attr_value mapValues(LogAttributes) TYPE bloom_filter(0.01) GRANULARITY 1,
     INDEX idx_body lowerUTF8(Body) TYPE text(tokenizer = 'splitByNonAlpha') GRANULARITY 1
) ENGINE @merge_tree
TTL toDateTime(Timestamp) + toIntervalSecond(@ttl_logs)
PARTITION BY toDate(Timestamp)
ORDER BY (ServiceName, SeverityText, toUnixTimestamp(Timestamp), TraceId)
SETTINGS index_granularity=8192, ttl_only_drop_parts = 1
".

Definition create_otel_logs_service_name_severity_text : string := "
CREATE TABLE IF NOT EXISTS otel_logs_service_name_severity_text @on_cluster (
    ServiceName LowCardinality(String) CODEC(ZSTD(1)),
    SeverityText LowCardinality(String) CODEC(ZSTD(1)),
    LastSeen DateTime64(9) CODEC(Delta, ZSTD(1))
)
ENGINE @replacing_merge_tree
PRIMARY KEY (ServiceName, SeverityText)
TTL toDateTime(LastSeen) + toIntervalSecond(@ttl_logs)
PARTITION BY toDate(LastSeen)".

Definition create_otel_logs_service_name_severity_text_mv : string := "
CREATE MATERIALIZED VIEW IF NOT EXISTS otel_logs_service_name_severity_text_mv @on_cluster TO otel_logs_service_name_severity_text AS
SELECT ServiceName, SeverityText, max(Timestamp) AS LastSeen FROM otel_logs group by ServiceName, SeverityText".

Definition create_otel_logs_rollup : string := "
CREATE TABLE IF NOT EXISTS otel_logs_rollup @on_cluster (
    Minute DateTime CODEC(Delta, ZSTD(1)),
    ServiceName LowCardinality(String) CODEC(ZSTD(1)),
    Namespace LowCardinality(String) CODEC(ZSTD(1)),
    Application LowCardinality(String) CODEC(ZSTD(1)),
    SeverityNumber Int32 CODEC(ZSTD(1)),
    HostLog LowCardinality(String) CODEC(ZSTD(1)),
    HostRes LowCardinality(String) CODEC(ZSTD(1)),
    Count UInt64 CODEC(ZSTD(1))
) ENGINE @summing_merge_tree
PARTITION BY toDate(Minute)
ORDER BY (ServiceName, Minute, SeverityNumber, Namespace, Application, HostLog, HostRes)
TTL Minute + toIntervalSecond(@ttl_logs)
SETTINGS ttl_only_drop_parts = 1".

Definition create_otel_logs_rollup_mv : string := "
CREATE MATERIALIZED VIEW IF NOT EXISTS otel_logs_rollup_mv @on_cluster TO otel_logs_rollup AS
SELECT toDateTime(toStartOfMinute(Timestamp)) AS Minute, ServiceName, Namespace, Application, SeverityNumber,
       LogAttributes['host.name'] AS HostLog, ResourceAttributes['host.name'] AS HostRes,
       count() AS Count
FROM otel_logs
GROUP BY Minute, ServiceName, Namespace, Application, SeverityNumber, HostLog, HostRes".

Definition create_otel_traces : string := "
CREATE TABLE IF NOT EXISTS otel_traces @on_cluster (
     Timestamp DateTime64(9) CODEC(Delta, ZSTD(1)),
     TraceId String CODEC(ZSTD(1)),
     SpanId String CODEC(ZSTD(1)),
     ParentSpanId String CODEC(ZSTD(1)),
     TraceState String CODEC(ZSTD(1)),
     SpanName LowCardinality(String) CODEC(ZSTD(1)),
     SpanKind LowCardinality(String) CODEC(ZSTD(1)),
     ServiceName LowCardinality(String) CODEC(ZSTD(1)),
     Client LowCardinality(String) CODEC(ZSTD(1)),
     Server LowCardinality(String) CODEC(ZSTD(1)),
     -- 1 for the span the views count for its request, 0 for a second record
     -- of a request another span counts (collector/request_counting.go)
     Counted UInt8 DEFAULT 1 CODEC(ZSTD(1)),
     -- the protocol of the request of a span (http, grpc, the db.system of a
     -- database), '' for anything else (collector/request_counting.go)
     Protocol LowCardinality(String) CODEC(ZSTD(1)),
     -- the key the node agent gives a request, the same at its client and
     -- server spans, 0 for none: the server span finds the bodies of its
     -- request in the client span by it
     RequestKey UInt64 CODEC(ZSTD(1)),
     ResourceAttributes Map(LowCardinality(String), String) CODEC(ZSTD(1)),
     SpanAttributes Map(LowCardinality(String), String) CODEC(ZSTD(1)),
     Duration Int64 CODEC(ZSTD(1)),
     StatusCode LowCardinality(String) CODEC(ZSTD(1)),
     StatusMessage String CODEC(ZSTD(1)),
     RequestBodyHash UInt64 CODEC(ZSTD(1)),
     ResponseBodyHash UInt64 CODEC(ZSTD(1)),
     ApiRoute LowCardinality(String) MATERIALIZED (" ++ traceApiRouteExpression ++ ") CODEC(ZSTD(1)),
     Events Nested (
         Timestamp DateTime64(9),
         Name LowCardinality(String),
         Attributes Map(LowCardinality(String), String)
     ) CODEC(ZSTD(1)),
     Links Nested (
         TraceId String,
         SpanId String,
         TraceState String,
         Attributes Map(LowCardinality(String), String)
     ) CODEC(ZSTD(1)),
     INDEX idx_trace_id TraceId TYPE bloom_filter(0.001) GRANULARITY 1,
     INDEX idx_res_attr_key mapKeys(ResourceAttributes) TYPE bloom_filter(0.01) GRANULARITY 1,
     INDEX idx_res_attr_value mapValues(ResourceAttributes) TYPE bloom_filter(0.01) GRANULARITY 1,
     INDEX idx_span_attr_key mapKeys(SpanAttributes) TYPE bloom_filter(0.01) GRANULARITY 1,
     INDEX idx_span_attr_value mapValues(SpanAttributes) TYPE bloom_filter(0.01) GRANULARITY 1,
     INDEX idx_duration Duration TYPE minmax GRANULARITY 1,
     INDEX idx_request_key RequestKey TYPE bloom_filter(0.01) GRANULARITY 1,
     INDEX idx_request_body_hash RequestBodyHash TYPE bloom_filter(0.01) GRANULARITY 1,
     INDEX idx_response_body_hash ResponseBodyHash TYPE bloom_filter(0.01) GRANULARITY 1
) ENGINE @merge_tree
TTL toDateTime(Timestamp) + toIntervalSecond(@ttl_traces)
PARTITION BY toDate(Timestamp)
ORDER BY (Server, ServiceName, SpanName, toUnixTimestamp(Timestamp), TraceId)
SETTINGS index_granularity=8192, ttl_only_drop_parts = 1".

Definition create_trace_bodies : string := "
CREATE TABLE IF NOT EXISTS trace_bodies @on_cluster (
     Hash UInt64 CODEC(ZSTD(1)),
     Body String CODEC(ZSTD(1)),
     LastSeen DateTime CODEC(Delta, ZSTD(1)),
     INDEX idx_body Body TYPE text(tokenizer = 'splitByNonAlpha') GRANULARITY 1
) ENGINE @replacing_merge_tree_by(LastSeen)
TTL LastSeen + toIntervalSecond(@ttl_traces)
PARTITION BY toDate(LastSeen)
ORDER BY Hash
SETTINGS index_granularity=8192, ttl_only_drop_parts = 1".

Definition alter_otel_traces_NetSockPeerAddr : string := "ALTER TABLE otel_traces @on_cluster ADD COLUMN IF NOT EXISTS NetSockPeerAddr LowCardinality(String) MATERIALIZED SpanAttributes['net.sock.peer.addr'] CODEC(ZSTD(1))".

Definition alter_otel_traces_idx_trace_id : string := "ALTER TABLE otel_traces @on_cluster ADD INDEX IF NOT EXISTS idx_trace_id TraceId TYPE bloom_filter(0.001) GRANULARITY 1".

Definition create_otel_traces_histogram : string := "
CREATE TABLE IF NOT EXISTS otel_traces_histogram @on_cluster (
     ServiceName LowCardinality(String) CODEC(ZSTD(1)),
     SpanName LowCardinality(String) CODEC(ZSTD(1)),
     SpanKind LowCardinality(String) CODEC(ZSTD(1)),
     Root UInt8 CODEC(ZSTD(1)),
     NetSockPeerAddr LowCardinality(String) CODEC(ZSTD(1)),
     NetPeerName LowCardinality(String) CODEC(ZSTD(1)),
     NetPeerPort LowCardinality(String) CODEC(ZSTD(1)),
     Timestamp DateTime CODEC(Delta, ZSTD(1)),
     Bucket Float64 CODEC(ZSTD(1)),
     Total UInt64 CODEC(ZSTD(1)),
     Failed UInt64 CODEC(ZSTD(1)),
     StatusClass LowCardinality(String) CODEC(ZSTD(1)),
     Client LowCardinality(String) CODEC(ZSTD(1)),
     Server LowCardinality(String) CODEC(ZSTD(1)),
     Counted UInt8 CODEC(ZSTD(1))
) ENGINE @summing_merge_tree
TTL Timestamp + toIntervalSecond(@ttl_traces)
PARTITION BY toDate(Timestamp)
ORDER BY (Server, ServiceName, SpanName, SpanKind, Root, Timestamp, NetSockPeerAddr, NetPeerName, NetPeerPort, Bucket, StatusClass, Client, Counted)
SETTINGS index_granularity=8192, ttl_only_drop_parts = 1".

Definition create_otel_traces_histogram_mv : string := "
CREATE MATERIALIZED VIEW IF NOT EXISTS otel_traces_histogram_mv @on_cluster TO otel_traces_histogram AS
SELECT
    ServiceName, SpanName, SpanKind,
    ParentSpanId = '' AS Root,
    NetSockPeerAddr,
    SpanAttributes['net.peer.name'] AS NetPeerName,
    SpanAttributes['net.peer.port'] AS NetPeerPort,
    toDateTime(toStartOfMinute(Timestamp)) AS Timestamp,
    roundDown(Duration/1000000, [0,5,10,25,50,100,250,500,1000,2500,5000,10000]) AS Bucket,
    count(1) AS Total,
    countIf(StatusCode = 'STATUS_CODE_ERROR') AS Failed,
    " ++ TraceStatusClassExpression ++ " AS StatusClass,
    Client,
    Server,
    Counted
FROM otel_traces
GROUP BY ServiceName, SpanName, SpanKind, Root, NetSockPeerAddr, NetPeerName, NetPeerPort, Timestamp, Bucket, StatusClass, Client, Server, Counted".

Definition create_otel_traces_trace_id_ts : string := "
CREATE TABLE IF NOT EXISTS otel_traces_trace_id_ts @on_cluster (
     TraceId String CODEC(ZSTD(1)),
     Start DateTime64(9) CODEC(Delta, ZSTD(1)),
     End DateTime64(9) CODEC(Delta, ZSTD(1)),
     INDEX idx_trace_id TraceId TYPE bloom_filter(0.01) GRANULARITY 1
) ENGINE @merge_tree
TTL toDateTime(Start) + toIntervalSecond(@ttl_traces)
PARTITION BY toDate(Start)
ORDER BY (TraceId, toUnixTimestamp(Start))
SETTINGS index_granularity=8192, ttl_only_drop_parts = 1".

Definition create_otel_traces_trace_id_ts_mv : string := "
CREATE MATERIALIZED VIEW IF NOT EXISTS otel_traces_trace_id_ts_mv @on_cluster TO otel_traces_trace_id_ts AS
SELECT 
	TraceId,
	min(Timestamp) as Start,
	max(Timestamp) as End
FROM otel_traces
WHERE TraceId!=''
GROUP BY TraceId".

Definition create_otel_traces_service_name : string := "
CREATE TABLE IF NOT EXISTS otel_traces_service_name @on_cluster (
    ServiceName LowCardinality(String) CODEC(ZSTD(1)),
    LastSeen DateTime64(9) CODEC(Delta, ZSTD(1))
)
ENGINE @replacing_merge_tree
PRIMARY KEY (ServiceName)
TTL toDateTime(LastSeen) + toIntervalSecond(@ttl_traces)
PARTITION BY toDate(LastSeen)".

Definition create_otel_traces_service_name_mv : string := "
CREATE MATERIALIZED VIEW IF NOT EXISTS otel_traces_service_name_mv @on_cluster TO otel_traces_service_name AS
SELECT ServiceName, max(Timestamp) AS LastSeen FROM otel_traces group by ServiceName".

Definition create_trace_server_sources : string := "
CREATE TABLE IF NOT EXISTS trace_server_sources @on_cluster (
    Server LowCardinality(String) CODEC(ZSTD(1)),
    Protocol LowCardinality(String) CODEC(ZSTD(1)),
    FromAgent UInt8 CODEC(ZSTD(1)),
    LastSeen DateTime CODEC(Delta, ZSTD(1))
)
ENGINE @replacing_merge_tree_by(LastSeen)
TTL LastSeen + INTERVAL 1 DAY
PARTITION BY toDate(LastSeen)
ORDER BY (Server, Protocol, FromAgent)".

Definition create_trace_server_sources_mv : string := "
CREATE MATERIALIZED VIEW IF NOT EXISTS trace_server_sources_mv @on_cluster TO trace_server_sources AS
SELECT Server, Protocol, SpanAttributes['otel.scope.name'] = 'coroot-node-agent' AS FromAgent, toDateTime(max(Timestamp)) AS LastSeen
FROM otel_traces
WHERE SpanKind = 'SPAN_KIND_SERVER' AND Protocol != ''
GROUP BY Server, Protocol, FromAgent".

Definition create_trace_addresses : string := "
CREATE TABLE IF NOT EXISTS trace_addresses @on_cluster (
    Address LowCardinality(String) CODEC(ZSTD(1)),
    Application LowCardinality(String) CODEC(ZSTD(1)),
    LastSeen DateTime CODEC(Delta, ZSTD(1))
)
ENGINE @replacing_merge_tree_by(LastSeen)
TTL LastSeen + INTERVAL 1 DAY
PARTITION BY toDate(LastSeen)
ORDER BY (Address, Application)".

Definition create_trace_addresses_mv : string := "
CREATE MATERIALIZED VIEW IF NOT EXISTS trace_addresses_mv @on_cluster TO trace_addresses AS
SELECT
    if(SpanKind = 'SPAN_KIND_SERVER',
       if(position(SpanAttributes['server.address'], ':') > 0,
          concat('[', SpanAttributes['server.address'], ']:', SpanAttributes['server.port']),
          concat(SpanAttributes['server.address'], ':', SpanAttributes['server.port'])),
       SpanAttributes['network.local.address']) AS Address,
    if(SpanKind = 'SPAN_KIND_SERVER', Server, Client) AS Application,
    toDateTime(max(Timestamp)) AS LastSeen
FROM otel_traces
WHERE SpanAttributes['otel.scope.name'] = 'coroot-node-agent' AND (
    (SpanKind = 'SPAN_KIND_SERVER' AND SpanAttributes['server.address'] != '' AND SpanAttributes['server.port'] != '') OR
    (SpanKind = 'SPAN_KIND_CLIENT' AND SpanAttributes['network.local.address'] != ''))
GROUP BY Address, Application".

Definition create_profiling_stacks : string := "
CREATE TABLE IF NOT EXISTS profiling_stacks @on_cluster (
	ServiceName LowCardinality(String) CODEC(ZSTD(1)),
	Hash UInt64 CODEC(ZSTD(1)),
	LastSeen DateTime64(9) CODEC(Delta, ZSTD(1)),
	Stack Array(String) CODEC(ZSTD(1))
) 
ENGINE @replacing_merge_tree
PRIMARY KEY (ServiceName, Hash)
TTL toDateTime(LastSeen) + toIntervalSecond(@ttl_profiles)
PARTITION BY toDate(LastSeen)
ORDER BY (ServiceName, Hash)".

Definition create_profiling_samples : string := "
CREATE TABLE IF NOT EXISTS profiling_samples @on_cluster (
	ServiceName LowCardinality(String) CODEC(ZSTD(1)),
    Type LowCardinality(String) CODEC(ZSTD(1)),
	Start DateTime64(9) CODEC(Delta, ZSTD(1)),
	End DateTime64(9) CODEC(Delta, ZSTD(1)),
	Labels Map(LowCardinality(String), String) CODEC(ZSTD(1)),
	StackHash UInt64 CODEC(ZSTD(1)),
	Value Int64 CODEC(ZSTD(1))
) ENGINE @merge_tree
TTL toDateTime(Start) + toIntervalSecond(@ttl_profiles)
PARTITION BY toDate(Start)
ORDER BY (ServiceName, Type, toUnixTimestamp(Start), toUnixTimestamp(End))".

Definition create_profiling_profiles : string := "
CREATE TABLE IF NOT EXISTS profiling_profiles @on_cluster (
    ServiceName LowCardinality(String) CODEC(ZSTD(1)),
    Type LowCardinality(String) CODEC(ZSTD(1)),
    LastSeen DateTime64(9) CODEC(Delta, ZSTD(1))
)
ENGINE @replacing_merge_tree
PRIMARY KEY (ServiceName, Type)
TTL toDateTime(LastSeen) + toIntervalSecond(@ttl_profiles)
PARTITION BY toDate(LastSeen)".

Definition create_profiling_profiles_mv : string := "
CREATE MATERIALIZED VIEW IF NOT EXISTS profiling_profiles_mv @on_cluster TO profiling_profiles AS
SELECT ServiceName, Type, max(End) AS LastSeen FROM profiling_samples group by ServiceName, Type".

Definition create_world_series : string := "
CREATE TABLE IF NOT EXISTS world_series @on_cluster (
    Query LowCardinality(String),
    SeriesHash UInt64,
    Labels Map(LowCardinality(String), String),
    LastSeen DateTime('UTC')
) ENGINE @replacing_merge_tree_by(LastSeen)
ORDER BY (Query, SeriesHash)
TTL LastSeen + toIntervalSecond(@ttl_metrics)
SETTINGS index_granularity = 256".

Definition create_world_points : string := "
CREATE TABLE IF NOT EXISTS world_points @on_cluster (
    Query LowCardinality(String),
    SeriesHash UInt64,
    Timestamp DateTime('UTC') CODEC(DoubleDelta, ZSTD(1)),
    Value Float32 CODEC(Gorilla, ZSTD(1))
) ENGINE @merge_tree
PARTITION BY toDate(Timestamp)
ORDER BY (toStartOfHour(Timestamp), Query, SeriesHash, Timestamp)
TTL Timestamp + toIntervalSecond(@ttl_metrics)
SETTINGS ttl_only_drop_parts = 1".

Definition create_world_points_5m : string := "
CREATE TABLE IF NOT EXISTS world_points_5m @on_cluster (
    Query LowCardinality(String),
    SeriesHash UInt64,
    Timestamp DateTime('UTC'),
    Last AggregateFunction(argMax, Float32, DateTime('UTC')),
    Sum SimpleAggregateFunction(sum, Float64),
    Cnt SimpleAggregateFunction(sum, UInt64),
    Max SimpleAggregateFunction(max, Float32)
) ENGINE @aggregating_merge_tree
PARTITION BY toDate(Timestamp)
ORDER BY (toStartOfDay(Timestamp), Query, SeriesHash, Timestamp)
TTL Timestamp + toIntervalSecond(@ttl_metrics)".

Definition create_world_points_5m_mv : string := "
CREATE MATERIALIZED VIEW IF NOT EXISTS world_points_5m_mv @on_cluster TO world_points_5m AS
SELECT Query, SeriesHash, Bucket AS Timestamp,
       argMaxState(Value, Ts) AS Last, sum(toFloat64(Value)) AS Sum, count() AS Cnt, max(Value) AS Max
FROM (SELECT Query, SeriesHash, Value, Timestamp AS Ts,
             toStartOfInterval(Timestamp - INTERVAL 1 SECOND, INTERVAL 5 MINUTE) + INTERVAL 5 MINUTE AS Bucket
      FROM world_points)
GROUP BY Query, SeriesHash, Bucket".

Definition create_world_points_1h : string := "
CREATE TABLE IF NOT EXISTS world_points_1h @on_cluster (
    Query LowCardinality(String),
    SeriesHash UInt64,
    Timestamp DateTime('UTC'),
    Last AggregateFunction(argMax, Float32, DateTime('UTC')),
    Sum SimpleAggregateFunction(sum, Float64),
    Cnt SimpleAggregateFunction(sum, UInt64),
    Max SimpleAggregateFunction(max, Float32)
) ENGINE @aggregating_merge_tree
PARTITION BY toDate(Timestamp)
ORDER BY (toStartOfDay(Timestamp), Query, SeriesHash, Timestamp)
TTL Timestamp + toIntervalSecond(@ttl_metrics)".

Definition create_world_points_1h_mv : string := "
CREATE MATERIALIZED VIEW IF NOT EXISTS world_points_1h_mv @on_cluster TO world_points_1h AS
SELECT Query, SeriesHash, Bucket AS Timestamp,
       argMaxState(Value, Ts) AS Last, sum(toFloat64(Value)) AS Sum, count() AS Cnt, max(Value) AS Max
FROM (SELECT Query, SeriesHash, Value, Timestamp AS Ts,
             toStartOfInterval(Timestamp - INTERVAL 1 SECOND, INTERVAL 1 HOUR) + INTERVAL 1 HOUR AS Bucket
      FROM world_points)
GROUP BY Query, SeriesHash, Bucket".

Definition create_metrics : string := "CREATE TABLE IF NOT EXISTS metrics @on_metrics_cluster ENGINE = TimeSeries
SETTINGS recent_samples_ttl_seconds = 0
SAMPLES INNER ENGINE = ReplicatedMergeTree('/clickhouse/tables/metrics/{database}/samples', '{replica}')
  PARTITION BY toStartOfInterval(toDateTime(timestamp), toIntervalHour(5))
  ORDER BY (id, timestamp) TTL toDateTime(timestamp) + toIntervalSecond(@ttl_metrics) SETTINGS index_granularity = 8192, ttl_only_drop_parts = 1
TAGS INNER ENGINE = ReplicatedAggregatingMergeTree('/clickhouse/tables/metrics/{database}/tags', '{replica}')
  PRIMARY KEY metric_name ORDER BY (metric_name, id)
METRIC FAMILIES INNER ENGINE = ReplicatedReplacingMergeTree('/clickhouse/tables/metrics/{database}/families', '{replica}')
  ORDER BY metric_family_name".

Definition create_otel_logs_distributed : string := "CREATE TABLE IF NOT EXISTS otel_logs_distributed ON CLUSTER @cluster AS otel_logs
			ENGINE = Distributed(@cluster, currentDatabase(), otel_logs, rand())".

Definition create_otel_logs_service_name_severity_text_distributed : string := "CREATE TABLE IF NOT EXISTS otel_logs_service_name_severity_text_distributed ON CLUSTER @cluster AS otel_logs_service_name_severity_text
			ENGINE = Distributed(@cluster, currentDatabase(), otel_logs_service_name_severity_text)".

Definition create_otel_logs_rollup_distributed : string := "CREATE TABLE IF NOT EXISTS otel_logs_rollup_distributed ON CLUSTER @cluster AS otel_logs_rollup
			ENGINE = Distributed(@cluster, currentDatabase(), otel_logs_rollup, rand())".

Definition create_otel_traces_distributed : string := "CREATE TABLE IF NOT EXISTS otel_traces_distributed ON CLUSTER @cluster AS otel_traces
			ENGINE = Distributed(@cluster, currentDatabase(), otel_traces, cityHash64(TraceId))".

Definition create_otel_traces_trace_id_ts_distributed : string := "CREATE TABLE IF NOT EXISTS otel_traces_trace_id_ts_distributed ON CLUSTER @cluster AS otel_traces_trace_id_ts
			ENGINE = Distributed(@cluster, currentDatabase(), otel_traces_trace_id_ts)".

Definition create_trace_bodies_distributed : string := "CREATE TABLE IF NOT EXISTS trace_bodies_distributed ON CLUSTER @cluster AS trace_bodies
			ENGINE = Distributed(@cluster, currentDatabase(), trace_bodies, Hash)".

Definition create_trace_addresses_distributed : string := "CREATE TABLE IF NOT EXISTS trace_addresses_distributed ON CLUSTER @cluster AS trace_addresses
			ENGINE = Distributed(@cluster, currentDatabase(), trace_addresses, cityHash64(Address))".

Definition create_trace_server_sources_distributed : string := "CREATE TABLE IF NOT EXISTS trace_server_sources_distributed ON CLUSTER @cluster AS trace_server_sources
			ENGINE = Distributed(@cluster, currentDatabase(), trace_server_sources, cityHash64(Server))".

Definition create_otel_traces_histogram_distributed : string := "CREATE TABLE IF NOT EXISTS otel_traces_histogram_distributed ON CLUSTER @cluster AS otel_traces_histogram
			ENGINE = Distributed(@cluster, currentDatabase(), otel_traces_histogram, rand())".

Definition create_otel_traces_service_name_distributed : string := "CREATE TABLE IF NOT EXISTS otel_traces_service_name_distributed ON CLUSTER @cluster AS otel_traces_service_name
			ENGINE = Distributed(@cluster, currentDatabase(), otel_traces_service_name)".

Definition create_profiling_stacks_distributed : string := "CREATE TABLE IF NOT EXISTS profiling_stacks_distributed ON CLUSTER @cluster AS profiling_stacks
		ENGINE = Distributed(@cluster, currentDatabase(), profiling_stacks, Hash)".

Definition create_profiling_samples_distributed : string := "CREATE TABLE IF NOT EXISTS profiling_samples_distributed ON CLUSTER @cluster AS profiling_samples
		ENGINE = Distributed(@cluster, currentDatabase(), profiling_samples, StackHash)".

Definition create_profiling_profiles_distributed : string := "CREATE TABLE IF NOT EXISTS profiling_profiles_distributed ON CLUSTER @cluster AS profiling_profiles
		ENGINE = Distributed(@cluster, currentDatabase(), profiling_profiles)".

Definition create_world_series_distributed : string := "CREATE TABLE IF NOT EXISTS world_series_distributed ON CLUSTER @cluster AS world_series
		ENGINE = Distributed(@cluster, currentDatabase(), world_series, cityHash64(Query, SeriesHash))".

Definition create_world_points_distributed : string := "CREATE TABLE IF NOT EXISTS world_points_distributed ON CLUSTER @cluster AS world_points
		ENGINE = Distributed(@cluster, currentDatabase(), world_points, cityHash64(Query, SeriesHash))".

Definition create_world_points_5m_distributed : string := "CREATE TABLE IF NOT EXISTS world_points_5m_distributed ON CLUSTER @cluster AS world_points_5m
		ENGINE = Distributed(@cluster, currentDatabase(), world_points_5m, cityHash64(Query, SeriesHash))".

Definition create_world_points_1h_distributed : string := "CREATE TABLE IF NOT EXISTS world_points_1h_distributed ON CLUSTER @cluster AS world_points_1h
		ENGINE = Distributed(@cluster, currentDatabase(), world_points_1h, cityHash64(Query, SeriesHash))".

Definition tables : list string :=
  [create_otel_logs; create_otel_logs_service_name_severity_text; create_otel_logs_service_name_severity_text_mv; create_otel_logs_rollup; create_otel_logs_rollup_mv; create_otel_traces; create_trace_bodies; alter_otel_traces_NetSockPeerAddr; alter_otel_traces_idx_trace_id; create_otel_traces_histogram; create_otel_traces_histogram_mv; create_otel_traces_trace_id_ts; create_otel_traces_trace_id_ts_mv; create_otel_traces_service_name; create_otel_traces_service_name_mv; create_trace_server_sources; create_trace_server_sources_mv; create_trace_addresses; create_trace_addresses_mv; create_profiling_stacks; create_profiling_samples; create_profiling_profiles; create_profiling_profiles_mv; create_world_series; create_world_points; create_world_points_5m; create_world_points_5m_mv; create_world_points_1h; create_world_points_1h_mv].

Definition timeSeriesTables : list string :=
  [create_metrics].

Definition distributedTables : list string :=
  [create_otel_logs_distributed; create_otel_logs_service_name_severity_text_distributed; create_otel_logs_rollup_distributed; create_otel_traces_distributed; create_otel_traces_trace_id_ts_distributed; create_trace_bodies_distributed; create_trace_addresses_distributed; create_trace_server_sources_distributed; create_otel_traces_histogram_distributed; create_otel_traces_service_name_distributed; create_profiling_stacks_distributed; create_profiling_samples_distributed; create_profiling_profiles_distributed; create_world_series_distributed; create_world_points_distributed; create_world_points_5m_distributed; create_world_points_1h_distributed].

(** * Rendering a statement *)

Record CollectorConfig := { TracesTTL : Z; LogsTTL : Z; ProfilesTTL : Z; MetricsTTL : Z }.

(** A character of [\w]. *)
Definition word_char (a : ascii) : bool :=
  let n := nat_of_ascii a in
  ((48 <=? n) && (n <=? 57) || (65 <=? n) && (n <=? 90) || (97 <=? n) && (n <=? 122) || (n =? 95))%nat.

Fixpoint take_word (s : string) : string * string :=
  match s with
  | String a s' => if word_char a then let '(w, rest) := take_word s' in (String a w, rest) else ("", s)
  | EmptyString => ("", "")
  end.

Definition replicated (engine args : string) : string :=
  engine ++ "('/clickhouse/tables/{shard}/{database}/{table}', '{replica}'" ++ args ++ ")".

(** [replacingByVersion.ReplaceAllString]: leftmost matches, not overlapping. *)
Fixpoint replace_by_version (skip : nat) (s : string) : string :=
  match s with
  | EmptyString => ""
  | String a s' =>
      match skip with
      | S skip => replace_by_version skip s'
      | O =>
          match strip_prefix "@replacing_merge_tree_by(" s with
          | Some rest =>
              match take_word rest with
              | (String _ _ as w, String ")" _) =>
                  replicated "ReplicatedReplacingMergeTree" (", " ++ w) ++ replace_by_version (String.length w + 25) s'
              | _ => String a (replace_by_version 0 s')
              end
          | None => String a (replace_by_version 0 s')
          end
      end
  end.

Definition migrationStatement (statement : string) (config : CollectorConfig) : string :=
  let s := ReplaceAll statement "@ttl_traces" (Itoa (TracesTTL config)) in
  let s := ReplaceAll s "@ttl_logs" (Itoa (LogsTTL config)) in
  let s := ReplaceAll s "@ttl_profiles" (Itoa (ProfilesTTL config)) in
  let s := ReplaceAll s "@ttl_metrics" (Itoa (MetricsTTL config)) in
  let s := ReplaceAll s "@merge_tree" (replicated "ReplicatedMergeTree" "") in
  let s := replace_by_version 0 s in
  let s := ReplaceAll s "@replacing_merge_tree" (replicated "ReplicatedReplacingMergeTree" "") in
  let s := ReplaceAll s "@summing_merge_tree" (replicated "ReplicatedSummingMergeTree" "") in
  ReplaceAll s "@aggregating_merge_tree" (replicated "ReplicatedAggregatingMergeTree" "").

(** A client of a cluster. *)
Record LowLevelClient := { cluster : string; metricsCluster : string }.

(** The query [ExecWithSettings] sends. *)
Definition exec_query (c : LowLevelClient) (query : string) : string :=
  let s := ReplaceAll query "@on_metrics_cluster" ("ON CLUSTER " ++ metricsCluster c) in
  let s := ReplaceAll s "@on_cluster" ("ON CLUSTER " ++ cluster c) in
  ReplaceAll s "@cluster" (cluster c).

Definition MetricsCluster : string := "coroot_metrics".

(** [info], from the answers of ClickHouse: whether Keeper is there, and the
    names of its clusters. *)
Definition info (keeper : bool) (clusters : gset string) : option LowLevelClient :=
  if negb keeper then None
  else
    let chosen :=
      match elements clusters with
      | [] => None
      | [c] => Some c
      | _ => if bool_decide ("coroot" ∈ clusters) then Some "coroot"
             else if bool_decide ("default" ∈ clusters) then Some "default" else None
      end in
    match chosen with
    | Some c => Some {| cluster := c; metricsCluster := if bool_decide (MetricsCluster ∈ clusters) then MetricsCluster else c |}
    | None => None
    end.

Definition target (database : string) (c : LowLevelClient) : string := (if String.eqb database "" then "default" else database) ++ "@" ++ cluster c.

(** * Migrations

    A database is the queries executed on it since it was created, and what a
    [Run] does to it is a parameter of the migration. *)

Record Migration := {
  Version : nat;
  Name : string;
  Statements : list string;
  Run : option (list string → list string * bool);
}.

Definition Migrations : list Migration :=
  [{| Version := 1; Name := "baseline"; Statements := tables ++ distributedTables ++ timeSeriesTables; Run := None |}]%list.

Definition schemaSentinelTable : string := "otel_traces".

(** The schema versions recorded in Postgres, by project and target, and the
    database of this one. *)
Record Schema := { executed : list string; versions : gmap (string * string) nat }.

Definition GetClickhouseSchemaVersion (projectId target : string) (s : Schema) : nat := default 0%nat (versions s !! (projectId, target)).
Definition SetClickhouseSchemaVersion (projectId target : string) (version : nat) (s : Schema) : Schema :=
  {| executed := executed s; versions := <[(projectId, target) := version]> (versions s) |}.
Definition execute (query : string) (s : Schema) : Schema := {| executed := (executed s ++ [query])%list; versions := versions s |}.

(** Whether ClickHouse says that a table exists, from what was executed. *)
Class ClickHouseTables := { has_table : list string → string → bool }.

(** The calls that fail, told one by one: [true] for one that does. *)
Definition Failures := list bool.
Definition next_fails (f : Failures) : bool * Failures := match f with [] => (false, []) | b :: f => (b, f) end.

Section migrations.
Context `{ClickHouseTables} (client : LowLevelClient) (config : CollectorConfig) (projectId tgt : string).

Definition statement_query (statement : string) : string := exec_query client (migrationStatement statement config).

(** The last value of these: whether it went through. *)
Fixpoint exec_statements (l : list string) (f : Failures) (s : Schema) : Schema * Failures * bool :=
  match l with
  | [] => (s, f, true)
  | statement :: l =>
      let '(fails, f) := next_fails f in
      if fails then (s, f, false) else exec_statements l f (execute (statement_query statement) s)
  end.

Definition ExecMigration (m : Migration) (f : Failures) (s : Schema) : Schema * Failures * bool :=
  let '(s, f, ok) := exec_statements (Statements m) f s in
  if negb ok then (s, f, false)
  else match Run m with
       | None => (s, f, true)
       | Some run => let '(e, ok) := run (executed s) in ({| executed := e; versions := versions s |}, f, ok)
       end.

Fixpoint apply_migrations (l : list Migration) (f : Failures) (s : Schema) : Schema * Failures * bool :=
  match l with
  | [] => (s, f, true)
  | m :: l =>
      let '(s, f, ok) := ExecMigration m f s in
      if negb ok then (s, f, false)
      else
        let '(fails, f) := next_fails f in
        if fails then (s, f, false)
        else apply_migrations l f (SetClickhouseSchemaVersion projectId tgt (Version m) s)
  end.

(** [Migrate], holding the lock. *)
Definition Migrate (migrations : list Migration) (f : Failures) (s : Schema) : Schema * bool :=
  let '(fails, f) := next_fails f in
  if fails then (s, false)
  else
    let version := GetClickhouseSchemaVersion projectId tgt s in
    let '(asked, f) := if Nat.ltb 0 version then next_fails f else (false, f) in
    if asked then (s, false)
    else
      let version := if Nat.ltb 0 version && negb (has_table (executed s) schemaSentinelTable) then 0%nat else version in
      if Nat.ltb (length migrations) version then (s, true)
      else let '(s, _, ok) := apply_migrations (drop version migrations) f s in (s, ok).
End migrations.

Module SchemaFacts.
Local Open Scope nat_scope.
Local Open Scope list_scope.

(** * What the statements say *)

(** A word without the parentheses around it. *)
Fixpoint strip_parens (s : string) : string :=
  match s with
  | EmptyString => ""
  | String a s' => if Ascii.eqb a "(" || Ascii.eqb a ")" then strip_parens s' else String a (strip_parens s')
  end.

Fixpoint after (word : string) (words : list string) : list string :=
  match words with
  | w :: ((x :: _) as ws) => if String.eqb w word then strip_parens x :: after word ws else after word ws
  | _ => []
  end.

(** The words of a text outside of its quoted strings. *)
Fixpoint words_of (quoted : bool) (word s : string) : list string :=
  let word_ends := if String.eqb word "" then [] else [word] in
  match s with
  | EmptyString => word_ends
  | String a s' =>
      if Ascii.eqb a "'" then word_ends ++ words_of (negb quoted) "" s'
      else if quoted then words_of quoted "" s'
      else if word_char a then words_of quoted (word ++ String a "")%string s'
      else word_ends ++ words_of quoted "" s'
  end.
Definition upper (a : ascii) : bool := let n := nat_of_ascii a in (65 <=? n) && (n <=? 90).
Definition lower (a : ascii) : bool := let n := nat_of_ascii a in (97 <=? n) && (n <=? 122).

(** A column is named like this, unlike a keyword, a function or a table. *)
Definition column_name (word : string) : bool :=
  match word with String a s => upper a && existsb lower (list_ascii_of_string s) | EmptyString => false end.
Definition columns_of (words : list string) : list string := List.filter column_name words.

(** The columns of a CREATE TABLE: the first words of the lines between its
    parentheses, and not deeper. *)
Definition count_char (a : ascii) (s : string) : nat := length (List.filter (Ascii.eqb a) (list_ascii_of_string s)).
Fixpoint line_columns (depth : nat) (lines : list string) : list string :=
  match lines with
  | [] => []
  | line :: lines =>
      (if Nat.eqb depth 1 then match Fields line with w :: _ => columns_of [w] | [] => [] end else [])
      ++ line_columns (depth + count_char "(" line - count_char ")" line) lines
  end.
Definition newline : ascii := ascii_of_nat 10.

(** The words before the first FROM. *)
Fixpoint until_from (words : list string) : list string :=
  match words with
  | w :: words => if String.eqb w "FROM" then [] else w :: until_from words
  | [] => []
  end.

(** What a statement does, when it can run again: a table with its columns, a table
    with the columns of another, a view from one table to another, a column or an
    index.  [reads]: the columns it is computed from; [names]: those a view names
    itself; [fills]: those it gives a row. *)
Inductive effect :=
| MakesTable (name : string) (columns : list string)
| CopiesTable (name table : string)
| MakesView (name target source : string) (reads names fills : list string)
| Adds (table name : string) (column : bool) (reads : list string).

Definition effect_of (sql : string) : option effect :=
  let words := words_of false "" sql in
  match Fields sql with
  | "CREATE" :: "TABLE" :: "IF" :: "NOT" :: "EXISTS" :: name :: "ON" :: "CLUSTER" :: "@cluster" :: "AS" :: table :: _ => Some (CopiesTable name table)
  | "CREATE" :: "TABLE" :: "IF" :: "NOT" :: "EXISTS" :: name :: "@on_cluster" :: _ => Some (MakesTable name (line_columns 0 (Split newline sql)))
  | "CREATE" :: "TABLE" :: "IF" :: "NOT" :: "EXISTS" :: name :: "@on_metrics_cluster" :: _ => Some (MakesTable name [])
  | "CREATE" :: "MATERIALIZED" :: "VIEW" :: "IF" :: "NOT" :: "EXISTS" :: name :: "@on_cluster" :: "TO" :: target :: "AS" :: ws =>
      match List.filter (λ w, negb (String.eqb w "SELECT")) (after "FROM" ws) with
      | [source] => Some (MakesView name target source (columns_of words) (columns_of (after "AS" words ++ after "as" words)) (columns_of (until_from words)))
      | _ => None
      end
  | "ALTER" :: "TABLE" :: table :: "@on_cluster" :: "ADD" :: what :: "IF" :: "NOT" :: "EXISTS" :: name :: _ =>
      if String.eqb what "COLUMN" then Some (Adds table name true (columns_of (after "MATERIALIZED" words)))
      else if String.eqb what "INDEX" then Some (Adds table name false (columns_of (after name words)))
      else None
  | _ => None
  end.

(** The objects made so far, with their columns. *)
Definition Made := list (string * list string).
Definition columns (made : Made) (name : string) : option (list string) := snd <$> List.find (λ t, String.eqb t.1 name) made.
Definition all_in (l columns : list string) : bool := forallb (λ c, bool_decide (c ∈ columns)) l.

(** One statement: it makes something of its own, from tables that are there with
    the columns it reads; a view fills every column of its target. *)
Definition check_effect (made : Made) (e : effect) : option Made :=
  match e with
  | MakesTable name cs => if bool_decide (name ∉ made.*1) then Some ((name, cs) :: made) else None
  | CopiesTable name table =>
      cs ← columns made table;
      if bool_decide (name ∉ made.*1) then Some ((name, cs) :: made) else None
  | MakesView name target source reads names fills =>
      from ← columns made source;
      to ← columns made target;
      if bool_decide (name ∉ made.*1) && all_in reads (from ++ names) && all_in to fills then Some ((name, []) :: made) else None
  | Adds table name column reads =>
      cs ← columns made table;
      if bool_decide ((table ++ "." ++ name)%string ∉ made.*1) && all_in reads cs
      then Some (((table ++ "." ++ name)%string, []) :: map (λ t, if column && String.eqb t.1 table then (t.1, t.2 ++ [name]) else t) made)
      else None
  end.
Fixpoint check_order (made : Made) (l : list string) : option Made :=
  match l with
  | [] => Some made
  | sql :: l => e ← effect_of sql; made ← check_effect made e; check_order made l
  end.

(** The columns the collector and the evaluator insert. *)
Definition inserts : Made :=
  [("otel_logs_distributed", ["Timestamp"; "TraceId"; "SpanId"; "TraceFlags"; "SeverityText"; "SeverityNumber"; "ServiceName"; "ResourceAttributes"; "LogAttributes"; "Body"]);
   ("profiling_stacks_distributed", ["ServiceName"; "Hash"; "LastSeen"; "Stack"]);
   ("profiling_samples_distributed", ["ServiceName"; "Type"; "Start"; "End"; "Labels"; "StackHash"; "Value"]);
   ("trace_bodies_distributed", ["Hash"; "Body"; "LastSeen"]);
   ("otel_traces_distributed", ["Timestamp"; "TraceId"; "SpanId"; "ParentSpanId"; "TraceState"; "SpanName"; "SpanKind"; "ServiceName"; "Client"; "Server"; "Counted";
      "Protocol"; "RequestKey"; "ResourceAttributes"; "SpanAttributes"; "Duration"; "StatusCode"; "StatusMessage"; "RequestBodyHash"; "ResponseBodyHash"; "Events"; "Links"]);
   ("world_series_distributed", ["Query"; "SeriesHash"; "Labels"; "LastSeen"]);
   ("world_points_distributed", ["Query"; "SeriesHash"; "Timestamp"; "Value"]);
   ("metrics", [])].

(** * What is sent

    A statement is cut into texts without "@" and the placeholders between them;
    filling those cut out is what the code does to the text. *)

Fixpoint no_at (s : string) : bool := match s with String a s' => negb (Ascii.eqb a "@") && no_at s' | EmptyString => true end.
Inductive piece := Lit (s : string) | Hole (s : string) | Val (i : nat).
Definition piece_text (env : nat → string) (p : piece) : string := match p with Lit s | Hole s => s | Val i => env i end.
Fixpoint text (env : nat → string) (ps : list piece) : string := match ps with [] => "" | p :: ps => (piece_text env p ++ text env ps)%string end.
Definition fill_hole (old : string) (i : nat) (ps : list piece) : list piece :=
  map (λ p, match p with Hole h => if String.eqb h old then Val i else p | _ => p end) ps.

(** The two differ at a character that both have. *)
Fixpoint differ (s t : string) : bool :=
  match s, t with String a s, String b t => if Ascii.eqb a b then differ s t else true | _, _ => false end.
Definition fits (prefix old : string) (ps : list piece) : bool :=
  forallb (λ p, match p with Hole h => String.eqb h old || differ prefix h | _ => true end) ps.
Definition well_cut (ps : list piece) : bool :=
  forallb (λ p, match p with Lit s => no_at s | Hole (String a h) => Ascii.eqb a "@" && no_at h | Hole EmptyString => false | Val _ => true end) ps.

Lemma no_at_app s t : no_at (s ++ t) = no_at s && no_at t.
Proof. induction s as [|a s IH]; [done|]. rewrite append_cons. cbn [no_at]. by rewrite IH, andb_assoc. Qed.
Lemma prefix_self s t : String.prefix s (s ++ t) = true.
Proof. induction s as [|a s IH]; [by destruct t|]. rewrite append_cons. cbn [String.prefix]. destruct (ascii_dec a a); [exact IH|done]. Qed.
Lemma prefix_differ s h t : differ s h = true → String.prefix s (h ++ t) = false.
Proof.
  revert h. induction s as [|a s IH]; intros [|b h]; try done. rewrite append_cons. cbn [differ String.prefix]. destruct (Ascii.eqb_spec a b) as [->|N]; intros D.
  - destruct (ascii_dec b b); [by apply IH|done].
  - destruct (ascii_dec a b); [by destruct N|done].
Qed.
Lemma strip_prefix_differ s h t : differ s h = true → strip_prefix s (h ++ t) = None.
Proof.
  revert h. induction s as [|a s IH]; intros [|b h]; try done. rewrite append_cons. cbn [differ strip_prefix]. unfold same. destruct (Ascii.eqb_spec a b) as [->|N]; intros D; [by apply IH|done].
Qed.

Section filling.
Context (env : nat → string) (o : string) (i : nat).
Local Notation old := (String "@" o).

Lemma replace_pass s t : no_at s = true → replace_from old (env i) 0 (s ++ t) = (s ++ replace_from old (env i) 0 t)%string.
Proof.
  induction s as [|a s IH]; [done|]. cbn [no_at]. intros [N S]%andb_true_iff. rewrite append_cons. cbn [replace_from String.prefix].
  destruct (ascii_dec "@" a) as [<-|_]; [done|]. by rewrite IH.
Qed.
Lemma replace_skip u t : replace_from old (env i) (String.length u) (u ++ t) = replace_from old (env i) 0 t.
Proof. induction u as [|a u IH]; [done|]. exact IH. Qed.

Lemma replace_text ps : well_cut ps = true → fits old old ps = true → (∀ j, no_at (env j) = true) →
  ReplaceAll (text env ps) old (env i) = text env (fill_hole old i ps).
Proof.
  intros W F E. unfold ReplaceAll. induction ps as [|p ps IH]; [done|]. cbn [well_cut fits forallb] in W, F. apply andb_true_iff in W as [Wp W], F as [Fp F].
  specialize (IH W F). cbn [text fill_hole map]. destruct p as [s|h|j]; cbn [piece_text].
  - by rewrite replace_pass, IH.
  - destruct h as [|a h]; [done|]. apply andb_true_iff in Wp as [Wa Wh]. apply Ascii.eqb_eq in Wa as ->.
    destruct (String.eqb_spec (String "@" h) old) as [[= ->]|Ne].
    + cbn [piece_text]. change (String "@" o ++ text env ps)%string with (String "@" (o ++ text env ps)). cbn [replace_from].
      change (String "@" (o ++ text env ps)) with (old ++ text env ps)%string. rewrite prefix_self. cbn [String.length]. rewrite Nat.sub_succ, Nat.sub_0_r.
      by rewrite replace_skip, IH.
    + cbn [orb] in Fp. cbn [piece_text]. change (String "@" h ++ text env ps)%string with (String "@" (h ++ text env ps)). cbn [replace_from].
      change (String "@" (h ++ text env ps)) with (String "@" h ++ text env ps)%string. rewrite prefix_differ by done.
      by rewrite replace_pass, IH.
  - by rewrite replace_pass, IH.
Qed.
End filling.

Definition by_LastSeen : string := "@replacing_merge_tree_by(LastSeen)".
Fixpoint by_fits (ps : list piece) : bool :=
  match ps with
  | [] => true
  | Hole h :: ps =>
      (String.eqb h by_LastSeen || differ "@replacing_merge_tree_by(" (h ++ match ps with Lit s :: _ => s | _ => "" end)) && by_fits ps
  | _ :: ps => by_fits ps
  end.
Lemma by_pass s t : no_at s = true → replace_by_version 0 (s ++ t) = (s ++ replace_by_version 0 t)%string.
Proof.
  induction s as [|a s IH]; [done|]. cbn [no_at]. intros [N S]%andb_true_iff. rewrite append_cons. cbn [replace_by_version strip_prefix].
  unfold same. destruct (Ascii.eqb_spec "@" a) as [<-|_]; [done|]. by rewrite IH.
Qed.
Lemma by_version_text env i ps : well_cut ps = true → by_fits ps = true → (∀ j, no_at (env j) = true) →
  env i = replicated "ReplicatedReplacingMergeTree" ", LastSeen" →
  replace_by_version 0 (text env ps) = text env (fill_hole by_LastSeen i ps).
Proof.
  intros W F E Ei. induction ps as [|p ps IH]; [done|]. cbn [well_cut forallb] in W. apply andb_true_iff in W as [Wp W].
  cbn [text fill_hole map]. destruct p as [s|h|j]; cbn [piece_text by_fits] in F |- *; [|apply andb_true_iff in F as [Fp F]|]; specialize (IH W F).
  - by rewrite by_pass, IH.
  - destruct (String.eqb_spec h by_LastSeen) as [->|Ne].
    + cbn [piece_text]. transitivity (env i ++ replace_by_version 0 (text env ps))%string; [|by rewrite IH]. rewrite Ei. reflexivity.
    + cbn [orb] in Fp. destruct h as [|a h]; [done|]. apply andb_true_iff in Wp as [Wa Wh]. apply Ascii.eqb_eq in Wa as ->. cbn [piece_text].
      change (String "@" h ++ text env ps)%string with (String "@" (h ++ text env ps)). cbn [replace_by_version].
      change (String "@" (h ++ text env ps)) with (String "@" h ++ text env ps)%string. assert (X : ∃ t, (String "@" h ++ text env ps = (String "@" h ++ match ps with Lit s :: _ => s | _ => "" end) ++ t)%string).
      { destruct ps as [|[s|h'|j] ps]; [exists ""|exists (text env ps)|exists (text env (Hole h' :: ps))|exists (text env (Val j :: ps))].
        2: exact (append_assoc (String "@" h) s (text env ps)). all: by rewrite !append_nil_r. }
      destruct X as [t ->]. rewrite strip_prefix_differ by done. by rewrite by_pass, IH.
  - by rewrite by_pass, IH.
Qed.

(** Filling one placeholder after the other. *)
Fixpoint fill_all (l : list (string * nat)) (ps : list piece) : option (list piece) :=
  match l with
  | [] => Some ps
  | (old, i) :: l => if well_cut ps && fits old old ps && String.prefix "@" old then fill_all l (fill_hole old i ps) else None
  end.
Lemma fill_all_text env l ps ps' : (∀ j, no_at (env j) = true) → fill_all l ps = Some ps' →
  foldl (λ s (r : string * nat), ReplaceAll s r.1 (env r.2)) (text env ps) l = text env ps'.
Proof.
  intros E. revert ps. induction l as [|[old i] l IH]; intros ps; cbn [fill_all foldl]; [by intros [= ->]|].
  destruct (_ && _) eqn:C; [|done]. apply andb_true_iff in C as [[W F]%andb_true_iff P]. destruct old as [|a o]; [done|].
  cbn [String.prefix] in P. destruct (ascii_dec "@" a) as [<-|]; [|discriminate P]. intros Hl. cbn [fst snd]. rewrite (replace_text env o i ps W F E). by apply IH.
Qed.

(** The placeholders, in the order the code fills them. *)
Definition placeholders_before : list (string * nat) := [("@ttl_traces", 0); ("@ttl_logs", 1); ("@ttl_profiles", 2); ("@ttl_metrics", 3); ("@merge_tree", 4)].
Definition placeholders_after : list (string * nat) :=
  [("@replacing_merge_tree", 6); ("@summing_merge_tree", 7); ("@aggregating_merge_tree", 8); ("@on_metrics_cluster", 9); ("@on_cluster", 10); ("@cluster", 11)].
Definition filled (client : LowLevelClient) (config : CollectorConfig) (i : nat) : string :=
  match i with
  | 0 => Itoa (TracesTTL config) | 1 => Itoa (LogsTTL config) | 2 => Itoa (ProfilesTTL config) | 3 => Itoa (MetricsTTL config)
  | 4 => replicated "ReplicatedMergeTree" "" | 5 => replicated "ReplicatedReplacingMergeTree" ", LastSeen"
  | 6 => replicated "ReplicatedReplacingMergeTree" "" | 7 => replicated "ReplicatedSummingMergeTree" ""
  | 8 => replicated "ReplicatedAggregatingMergeTree" ""
  | 9 => "ON CLUSTER " ++ metricsCluster client | 10 => "ON CLUSTER " ++ cluster client | 11 => cluster client
  | _ => ""
  end%string.

(** The cuts of a statement: a placeholder is "@", a word, and a column in
    parentheses if it ends with "_by". *)
Fixpoint pieces_of (n : nat) (lit s : string) : list piece :=
  match n, s with
  | S n, String a s' =>
      if Ascii.eqb a "@" then
        let '(w, rest) := take_word s' in
        match strip_prefix "(LastSeen)" rest with
        | Some rest' => if String.eqb w "replacing_merge_tree_by" then Lit lit :: Hole by_LastSeen :: pieces_of n "" rest'
                        else Lit lit :: Hole (String "@" w) :: pieces_of n "" rest
        | None => Lit lit :: Hole (String "@" w) :: pieces_of n "" rest
        end
      else pieces_of n (lit ++ String a "")%string s'
  | _, _ => [Lit (lit ++ s)%string]
  end.

(** The cuts are right and every placeholder is filled. *)
Definition all_filled (sql : string) : bool :=
  let ps := pieces_of (String.length sql) "" sql in
  String.eqb (text (λ _, "") ps) sql
  && forallb (λ p, match p with Val _ => false | _ => true end) ps
  && match fill_all placeholders_before ps with
     | Some ps =>
         well_cut ps && by_fits ps
         && match fill_all placeholders_after (fill_hole by_LastSeen 5 ps) with
            | Some ps => forallb (λ p, match p with Lit s => no_at s | Hole _ => false | Val _ => true end) ps
            | None => false
            end
     | None => false
     end.

Lemma text_no_val env env' ps : forallb (λ p, match p with Val _ => false | _ => true end) ps = true → text env ps = text env' ps.
Proof. induction ps as [|[s|h|j] ps IH]; cbn; intros F; try done; by rewrite IH. Qed.
Lemma text_no_at env ps : (∀ j, no_at (env j) = true) → forallb (λ p, match p with Lit s => no_at s | Hole _ => false | Val _ => true end) ps = true →
  no_at (text env ps) = true.
Proof.
  intros E. induction ps as [|p ps IH]; [done|]. cbn [forallb text]. intros [P F]%andb_true_iff. rewrite no_at_app, IH by done.
  by destruct p; cbn [piece_text]; rewrite ?P, ?E.
Qed.

Lemma no_at_Itoa z : no_at (Itoa z) = true.
Proof.
  assert (Hn : ∀ n s, no_at s = true → no_at (pretty_N_go n s) = true).
  { intros n. induction n as [n IH] using (well_founded_induction N.lt_wf_0). intros s Hs.
    destruct (decide (n = 0)%N) as [->|Hn]; [by rewrite pretty_N_go_0|].
    rewrite pretty_N_go_step by lia. apply IH; [apply N.div_lt; lia|]. cbn [no_at]. rewrite Hs, andb_true_r.
    assert (Hm : (n `mod` 10 < 10)%N) by (apply N.mod_lt; done). revert Hm. generalize (n `mod` 10)%N. intros d Hd.
    destruct d as [|q]; [done|]. by do 4 (destruct q as [q|q|]; try done; try lia). }
  assert (Hp : ∀ p, no_at (pretty (Npos p)) = true).
  { intros p. unfold pretty, pretty_N. rewrite decide_False by done. by apply Hn. }
  unfold Itoa. destruct z as [|p|p]; [done|apply Hp|]. change (pretty (Zneg p)) with (String "-" (pretty (Npos p))). cbn [no_at]. by rewrite Hp.
Qed.

Lemma statement_query_no_at client config sql : no_at (cluster client) = true → no_at (metricsCluster client) = true → all_filled sql = true →
  no_at (statement_query client config sql) = true.
Proof.
  intros C M A. assert (E : ∀ j, no_at (filled client config j) = true).
  { intros j. do 12 (destruct j as [|j]; [first [apply no_at_Itoa|done|cbn; rewrite ?C, ?M; done|by rewrite no_at_app]|]). done. }
  unfold all_filled in A. set (ps := pieces_of _ "" sql) in A. apply andb_true_iff in A as [[T%String.eqb_eq V]%andb_true_iff A].
  rewrite (text_no_val _ (filled client config) ps V) in T.
  destruct (fill_all placeholders_before ps) as [ps1|] eqn:F1; [|done]. apply andb_true_iff in A as [[W B]%andb_true_iff A].
  destruct (fill_all placeholders_after (fill_hole by_LastSeen 5 ps1)) as [ps2|] eqn:F2; [|done].
  assert (T1 := fill_all_text (filled client config) _ _ _ E F1). assert (T2 := by_version_text (filled client config) 5 ps1 W B E eq_refl).
  assert (T3 := fill_all_text (filled client config) _ _ _ E F2).
  assert (Q : statement_query client config sql = text (filled client config) ps2).
  { rewrite <- T3, <- T2, <- T1, T. reflexivity. }
  rewrite Q. by apply text_no_at.
Qed.

(** * Migrating *)

Section migrating.
Context `{ClickHouseTables} (client : LowLevelClient) (config : CollectorConfig) (projectId tgt : string).

Local Notation query := (statement_query client config).

(** The first [n] migrations were executed on the database. *)
Definition has_migrations (all : list Migration) (n : nat) (s : Schema) : Prop :=
  ∀ m sql, m ∈ take n all → sql ∈ Statements m → query sql ∈ executed s.

Definition version_of (s : Schema) : nat := GetClickhouseSchemaVersion projectId tgt s.

(** The version that is recorded has been executed. *)
Definition recorded (all : list Migration) (s : Schema) : Prop := version_of s ≤ length all ∧ has_migrations all (version_of s) s.

Definition numbered (all : list Migration) : Prop := ∀ i m, all !! i = Some m → Version m = S i.

(** A [Run] keeps what was executed. *)
Definition runs_keep (all : list Migration) : Prop :=
  ∀ m run e, m ∈ all → Run m = Some run → e ⊆ (run e).1.

Lemma executed_mono_has all n (s s' : Schema) : executed s ⊆ executed s' → has_migrations all n s → has_migrations all n s'.
Proof. intros Sub M m sql I J. apply Sub. by apply (M m). Qed.

Lemma exec_statements_spec l f s :
  let '(s', f', ok) := exec_statements client config l f s in
  executed s ⊆ executed s' ∧ versions s' = versions s ∧ (ok = true → ∀ sql, sql ∈ l → query sql ∈ executed s').
Proof.
  revert f s. induction l as [|sql l IH]; intros f s; cbn; [split_and!; [done..|by intros _ x ?%not_elem_of_nil]|].
  destruct (next_fails f) as [[] f']; [done|]. specialize (IH f' (execute (query sql) s)).
  destruct (exec_statements client config l f' (execute (query sql) s)) as [[s' f''] ok]. destruct IH as (Sub & V & E). cbn in Sub, V.
  split_and!; [|done|].
  - intros x I. apply Sub, elem_of_app. by left.
  - intros O x [->|I]%elem_of_cons; [|by apply E]. apply Sub, elem_of_app. right. by left.
Qed.

Lemma ExecMigration_spec all m f s :
  runs_keep all → m ∈ all →
  let '(s', f', ok) := ExecMigration client config m f s in
  executed s ⊆ executed s' ∧ versions s' = versions s ∧ (ok = true → ∀ sql, sql ∈ Statements m → query sql ∈ executed s').
Proof.
  intros K I. unfold ExecMigration. assert (E := exec_statements_spec (Statements m) f s).
  destruct (exec_statements _ _ _ _ _) as [[s1 f1] ok]. destruct E as (Sub & V & E). destruct ok; cbn [negb]; [|done].
  destruct (Run m) as [run|] eqn:R; [|done]. assert (Keep := K m run (executed s1) I R). destruct (run (executed s1)) as [e ok']. cbn in *.
  split_and!; [by etransitivity|done|]. intros _ sql J. by apply Keep, E.
Qed.

Lemma version_of_set v s : version_of (SetClickhouseSchemaVersion projectId tgt v s) = v.
Proof. unfold version_of, GetClickhouseSchemaVersion, SetClickhouseSchemaVersion. cbn. by rewrite lookup_insert_eq. Qed.

(** Applying the migrations from [v] on, when those before are there. *)
Lemma apply_migrations_spec all n v f s :
  numbered all → runs_keep all → has_migrations all v s → n ≤ length all →
  let '(s', _, ok) := apply_migrations client config projectId tgt (drop v (take n all)) f s in
  executed s ⊆ executed s' ∧ (recorded all s → recorded all s')
  ∧ (ok = true → has_migrations all (v `max` n) s' ∧ version_of s' = if Nat.ltb v n then n else version_of s).
Proof.
  intros N K. remember (n - v) as d eqn:D. revert v f s D. induction d as [|d IH]; intros v f s D M Ln.
  - rewrite drop_ge by (rewrite length_take; lia). cbn [apply_migrations]. split_and!; [done..|]. intros _. replace (v `max` n) with v by lia.
    by destruct (Nat.ltb_spec v n); [lia|].
  - destruct (lookup_lt_is_Some_2 all v ltac:(lia)) as [m Em].
    assert (Et : take n all !! v = Some m) by (rewrite lookup_take_lt by lia; done).
    rewrite (drop_S _ m v Et). cbn [apply_migrations].
    assert (I : m ∈ all) by by eapply list_elem_of_lookup_2.
    assert (E := ExecMigration_spec all m f s K I). destruct (ExecMigration client config m f s) as [[s1 f1] ok1]. destruct E as (Sub & V & E).
    assert (R1 : recorded all s → recorded all s1).
    { intros [L R]. unfold recorded, version_of, GetClickhouseSchemaVersion in *. rewrite V. split; [done|]. by eapply executed_mono_has. }
    destruct ok1; cbn [negb]; [|done]. destruct (next_fails f1) as [[] f2]; [done|].
    set (s2 := SetClickhouseSchemaVersion projectId tgt (Version m) s1).
    assert (Vm : Version m = S v) by by apply N.
    assert (M2 : has_migrations all (S v) s2).
    { intros m' sql I' J. rewrite (take_S_r _ _ _ Em) in I'. apply elem_of_app in I' as [I'|I'%list_elem_of_singleton].
      - apply Sub. by apply (M m').
      - subst m'. by apply E. }
    assert (R2 : recorded all s2) by (split; unfold s2; rewrite version_of_set, Vm; [lia|exact M2]).
    specialize (IH (S v) f2 s2 ltac:(lia) M2 Ln). destruct (apply_migrations _ _ _ _ _ f2 s2) as [[s' f'] ok].
    destruct IH as (Sub' & R' & C). split_and!; [by etransitivity|auto|]. intros O. replace (v `max` n) with (S v `max` n) by lia.
    destruct (C O) as [C1 C2]. split; [done|]. rewrite C2. destruct (Nat.ltb_spec v n); [|lia].
    destruct (Nat.ltb_spec (S v) n); [done|]. unfold s2. rewrite version_of_set. lia.
Qed.

(** The sentinel is there once its statement was executed. *)
Definition sentinel_law : Prop := ∀ log, query create_otel_traces ∈ log → has_table log schemaSentinelTable = true.

Lemma baseline_makes_sentinel all m : head all = head Migrations → m ∈ take 1 all → create_otel_traces ∈ Statements m.
Proof.
  intros E I. destruct all as [|m' all]; [by apply not_elem_of_nil in I|]. cbn in I. rewrite take_0 in I. apply list_elem_of_singleton in I as ->. injection E as ->.
  apply (bool_decide_eq_true_1 _). by vm_compute.
Qed.

Lemma Migrate_spec all n f s :
  numbered all → runs_keep all → sentinel_law → head all = head Migrations → n ≤ length all → recorded all s →
  let '(s', ok) := Migrate client config projectId tgt (take n all) f s in
  executed s ⊆ executed s' ∧ recorded all s'
  ∧ (ok = true → has_migrations all (version_of s `max` n) s' ∧ version_of s' = version_of s `max` n).
Proof.
  intros N K Se Hd Ln R. unfold Migrate. destruct (next_fails f) as [[] f1]; [done|].
  fold (version_of s). destruct R as [Lv M]. cbv zeta.
  destruct (if Nat.ltb 0 (version_of s) then next_fails f1 else (false, f1)) as [[] f2]; [done|].
  assert (Sent : Nat.ltb 0 (version_of s) && negb (has_table (executed s) schemaSentinelTable) = false).
  { destruct (Nat.ltb_spec 0 (version_of s)) as [Lt|]; [|done]. cbn. rewrite Se; [done|].
    destruct all as [|m all'] eqn:Ea; [cbn in Lv; lia|]. rewrite <- Ea in *.
    apply (M m); [|apply (baseline_makes_sentinel all); [done|rewrite Ea; by left]].
    rewrite Ea. destruct (version_of s) as [|v]; [lia|]. cbn. by left. }
  rewrite Sent. rewrite length_take. destruct (Nat.ltb_spec (n `min` length all) (version_of s)) as [Lt|Ge].
  { split_and!; [done..|]. intros _. by replace (version_of s `max` n) with (version_of s) by lia. }
  assert (A := apply_migrations_spec all n (version_of s) f2 s N K M Ln). destruct (apply_migrations _ _ _ _ _ f2 s) as [[s' f'] ok].
  destruct A as (Sub & R & C). split_and!; [done|by apply R|]. intros O. destruct (C O) as [C1 C2]. split; [done|]. rewrite C2.
  destruct (Nat.ltb_spec (version_of s) n); lia.
Qed.

(** Nothing fails. *)
Lemma exec_statements_ok l s : (exec_statements client config l [] s).1.2 = [] ∧ (exec_statements client config l [] s).2 = true.
Proof. revert s. induction l as [|sql l IH]; intros s; cbn; [done|]. apply IH. Qed.

Lemma apply_migrations_ok l s :
  Forall (λ m, ∀ run e, Run m = Some run → (run e).2 = true) l → (apply_migrations client config projectId tgt l [] s).2 = true.
Proof.
  intros F. revert s. induction F as [|m l R F IH]; intros s; [done|]. cbn [apply_migrations]. unfold ExecMigration.
  destruct (exec_statements_ok (Statements m) s) as [Ef Eo]. destruct (exec_statements _ _ (Statements m) [] s) as [[s1 f1] ok]. cbn in Ef, Eo. subst.
  cbn [negb]. destruct (Run m) as [run|]; [|cbn; apply IH]. specialize (R run (executed s1) eq_refl). destruct (run (executed s1)) as [e ok]. cbn in R. subst ok.
  cbn. apply IH.
Qed.

(** A database without the sentinel is migrated from the start, whatever version is
    recorded of it. *)
Lemma Migrate_anew all n s :
  numbered all → runs_keep all → n ≤ length all → Forall (λ m, ∀ run e, Run m = Some run → (run e).2 = true) all →
  has_table (executed s) schemaSentinelTable = false →
  let '(s', ok) := Migrate client config projectId tgt (take n all) [] s in
  ok = true ∧ has_migrations all n s' ∧ version_of s' = if Nat.ltb 0 n then n else version_of s.
Proof.
  intros N K Ln Rn Se. unfold Migrate. cbn [next_fails]. cbv zeta.
  assert (M0 : has_migrations all 0 s) by (intros m sql I; by apply not_elem_of_nil in I).
  assert (A := apply_migrations_spec all n 0 [] s N K M0 Ln). rewrite drop_0 in A.
  assert (O := apply_migrations_ok (take n all) s (Forall_take _ n all Rn)).
  assert (G : ∀ f v, f = [] → v = 0 →
    let '(s', ok) := (if Nat.ltb (length (take n all)) v then (s, true)
                      else let '(s, _, ok) := apply_migrations client config projectId tgt (drop v (take n all)) f s in (s, ok)) in
    ok = true ∧ has_migrations all n s' ∧ version_of s' = if Nat.ltb 0 n then n else version_of s).
  { intros f v -> ->. rewrite drop_0. replace (Nat.ltb (length (take n all)) 0) with false by done.
    destruct (apply_migrations _ _ _ _ (take n all) [] s) as [[s' f'] ok]. cbn in O. subst ok. destruct A as (_ & _ & A). destruct (A eq_refl) as [A1 A2].
    exact (conj eq_refl (conj A1 A2)). }
  destruct (Nat.ltb 0 (GetClickhouseSchemaVersion projectId tgt s)) eqn:E0; cbn [andb]; [rewrite Se|apply Nat.ltb_ge in E0]; apply G; [done|done|done|lia].
Qed.

(** Attempts by replicas of any release: those that know the first [n]. *)
Fixpoint attempts (all : list Migration) (l : list (nat * Failures)) (s : Schema) : Schema :=
  match l with
  | [] => s
  | (n, f) :: l => attempts all l (Migrate client config projectId tgt (take n all) f s).1
  end.

Lemma attempts_recorded all l s :
  numbered all → runs_keep all → sentinel_law → head all = head Migrations → Forall (λ a, a.1 ≤ length all) l → recorded all s →
  recorded all (attempts all l s).
Proof.
  intros N K Se Hd F. revert s. induction F as [|[n f] l Ln F IH]; intros s R; [done|]. cbn [attempts]. apply IH.
  assert (A := Migrate_spec all n f s N K Se Hd Ln R). destruct (Migrate _ _ _ _ _ f s) as [s' ok]. apply A.
Qed.
End migrating.
End SchemaFacts.

Module SchemaTheorems.
Import SchemaFacts.
Local Open Scope list_scope.
Local Open Scope nat_scope.

(** C40 The schema can be made.  Every statement makes its object only if it is not
    there (so that a migration can run again from its start), and no two make the
    same; a view, an index or a column is computed from columns its table has by then,
    a view fills every column of its target, and a distributed table is made of a table
    that is there.  The tables the collector and the evaluator insert into have the
    columns they insert, and the one that tells a schema from none is there.  Whatever
    the configuration and the clusters, no placeholder is left in what is sent. *)
Theorem baseline_is_ordered client config :
  no_at (cluster client) = true → no_at (metricsCluster client) = true →
  (∃ made, check_order [] (flat_map Statements Migrations) = Some made ∧ schemaSentinelTable ∈ made.*1
     ∧ ∀ table cs, (table, cs) ∈ inserts → ∃ all, columns made table = Some all ∧ cs ⊆ all)
  ∧ ∀ sql, sql ∈ flat_map Statements Migrations → no_at (statement_query client config sql) = true.
Proof.
  intros Hc Hm. split.
  - eexists. split; [vm_compute; reflexivity|]. split; [apply (bool_decide_eq_true_1 _); by vm_compute|].
    match goal with |- context [columns ?m] => set (made := m) end.
    assert (A : forallb (λ t, match columns made t.1 with Some all => all_in t.2 all | None => false end) inserts = true) by by vm_compute.
    rewrite forallb_forall in A. intros table cs I. specialize (A (table, cs) ltac:(by apply list_elem_of_In)). cbn [fst snd] in A.
    destruct (columns made table) as [all|]; [|done]. exists all. split; [done|]. unfold all_in in A. rewrite forallb_forall in A.
    intros c Ic. apply list_elem_of_In, A in Ic. by apply bool_decide_eq_true in Ic.
  - assert (A : forallb all_filled (flat_map Statements Migrations) = true) by by vm_compute. rewrite forallb_forall in A.
    intros sql I. apply statement_query_no_at; [done..|]. by apply A, list_elem_of_In.
Qed.

Section theorems.
Context `{ClickHouseTables} (client : LowLevelClient) (config : CollectorConfig) (projectId tgt : string).

(** C22 Failed migrations are resumed.  Let what is recorded have been executed, as it
    is of a new database.  After any attempts, by replicas of any releases and failing
    anywhere, what is recorded has been executed, while nobody else changes the
    database; and an attempt in which nothing fails then goes through, after which every
    statement of its release was executed and the version is its own, or that of a
    later release.  A database that is found without its sentinel table, as one that was
    dropped, is migrated from the start whatever is recorded of it, when nothing fails
    ([half_migrated_is_left] is what happens when something does). *)
Theorem migrations_resume all attempts_ n s :
  numbered all → runs_keep all → sentinel_law client config → head all = head Migrations →
  Forall (λ a, a.1 ≤ length all) attempts_ → n ≤ length all →
  Forall (λ m, ∀ run e, Run m = Some run → (run e).2 = true) all → recorded client config projectId tgt all s →
  let s1 := attempts client config projectId tgt all attempts_ s in
  recorded client config projectId tgt all s1
  ∧ let '(s2, ok) := Migrate client config projectId tgt (take n all) [] s1 in
    (ok = true ∧ has_migrations client config all n s2 ∧ version_of projectId tgt s2 = version_of projectId tgt s1 `max` n)
    ∧ ∀ dropped, has_table (executed dropped) schemaSentinelTable = false →
      let '(s3, ok) := Migrate client config projectId tgt (take n all) [] dropped in
      ok = true ∧ has_migrations client config all n s3 ∧ version_of projectId tgt s3 = if Nat.ltb 0 n then n else version_of projectId tgt dropped.
Proof.
  intros N K Se Hd F Ln Rn R s1. assert (R1 : recorded client config projectId tgt all s1) by by apply attempts_recorded.
  split; [done|]. assert (M := Migrate_spec client config projectId tgt all n [] s1 N K Se Hd Ln R1).
  assert (Ok : (Migrate client config projectId tgt (take n all) [] s1).2 = true).
  { unfold Migrate. cbn [next_fails]. fold (version_of projectId tgt s1). cbv zeta.
    destruct (Nat.ltb 0 (version_of projectId tgt s1)); cbn [next_fails andb];
      (match goal with |- context [if Nat.ltb ?a ?b then _ else _] => destruct (Nat.ltb a b); [done|] end);
      match goal with |- context [apply_migrations client config projectId tgt ?l [] s1] =>
        assert (A := apply_migrations_ok client config projectId tgt l s1); destruct (apply_migrations client config projectId tgt l [] s1) as [[? ?] ?] end;
      apply A, Forall_drop, Forall_take, Rn. }
  destruct (Migrate _ _ _ _ _ [] s1) as [s2 ok]. cbn in Ok. subst ok. destruct M as (_ & _ & M). destruct (M eq_refl) as [M1 M2].
  split; [|intros dropped; by apply Migrate_anew]. split_and!; [done| |done]. intros m sql I J. apply (M1 m); [|done].
  replace n with (n `min` (version_of projectId tgt s1 `max` n)) in I by lia. rewrite <- take_take in I. apply (subseteq_take n _ _ I).
Qed.

(** A database that was dropped and whose migration then failed half way is left
    as it is: as soon as otel_traces was made again the recorded version, which
    is never lowered, counts, and every later attempt does nothing and reports
    success. *)
Theorem half_migrated_is_left s f s1 f' :
  sentinel_law client config → version_of projectId tgt s = length Migrations →
  Migrate client config projectId tgt Migrations f s = (s1, false) →
  statement_query client config create_otel_traces ∈ executed s1 →
  (Migrate client config projectId tgt Migrations f' s1).1 = s1
  ∧ Migrate client config projectId tgt Migrations [] s1 = (s1, true).
Proof.
  intros Se V M I. assert (V1 : version_of projectId tgt s1 = length Migrations).
  { rewrite <- V. unfold Migrate in M. destruct (next_fails f) as [[] f1]; [by injection M as <-|]. cbv zeta in M.
    destruct (if Nat.ltb 0 _ then next_fails f1 else (false, f1)) as [[] f2]; [by injection M as <-|].
    match type of M with context [Nat.ltb (length Migrations) ?v] => destruct (Nat.ltb (length Migrations) v); [done|]; set (k := v) in M end.
    destruct k as [|k]; [|by rewrite drop_ge in M by (cbn; lia)]. rewrite drop_0 in M. cbn [apply_migrations Migrations] in M.
    match type of M with context [ExecMigration client config ?m f2 s] =>
      assert (E := ExecMigration_spec client config Migrations m f2 s ltac:(intros ? ? ? ->%list_elem_of_singleton; done) ltac:(by left));
      destruct (ExecMigration client config m f2 s) as [[s2 f3] ok] end.
    destruct E as (_ & Vs & _). unfold version_of, GetClickhouseSchemaVersion. destruct ok; cbn [negb] in M; [|injection M as <-; by rewrite Vs].
    destruct (next_fails f3) as [[] f4]; [injection M as <-; by rewrite Vs|done]. }
  assert (Again : ∀ f'', Migrate client config projectId tgt Migrations f'' s1 = (s1, true) ∨ Migrate client config projectId tgt Migrations f'' s1 = (s1, false)).
  { intros f''. unfold Migrate. destruct (next_fails f'') as [[] f1]; [by right|]. fold (version_of projectId tgt s1). rewrite V1. cbv zeta.
    cbn [Migrations length Nat.ltb Nat.leb andb]. destruct (next_fails f1) as [[] f2]; [by right|]. rewrite (Se _ I). cbn. by left. }
  split; [by destruct (Again f') as [-> | ->]|]. unfold Migrate. cbn [next_fails]. fold (version_of projectId tgt s1). rewrite V1. cbv zeta.
  cbn [Migrations length Nat.ltb Nat.leb andb next_fails]. by rewrite (Se _ I).
Qed.
End theorems.
End SchemaTheorems.

Module SchemaRuns.
Import SchemaFacts SchemaTheorems.
Local Open Scope list_scope.
Local Open Scope nat_scope.

Definition run_client : LowLevelClient := {| cluster := "coroot"; metricsCluster := "coroot_metrics" |}.
Definition run_config : CollectorConfig := {| TracesTTL := 604800; LogsTTL := 604800; ProfilesTTL := 604800; MetricsTTL := 2592000 |}.

(** The sentinel exists once its statement was executed. *)
#[local] Instance run_tables : ClickHouseTables :=
  {| has_table := λ log t, bool_decide (t = schemaSentinelTable) && bool_decide (statement_query run_client run_config create_otel_traces ∈ log) |}.

Lemma run_sentinel : sentinel_law run_client run_config.
Proof. intros log I. unfold has_table, run_tables. by rewrite !bool_decide_eq_true_2. Qed.

Definition nothing_yet : Schema := {| executed := []; versions := ∅ |}.

(** What is sent: no placeholder is left. *)
Example rendered_statements :
  existsb (λ q, match Split "@" q with [_] => false | _ => true end) (map (statement_query run_client run_config) (flat_map Statements Migrations)) = false
  ∧ statement_query run_client run_config create_trace_bodies_distributed
    = "CREATE TABLE IF NOT EXISTS trace_bodies_distributed ON CLUSTER coroot AS trace_bodies
			ENGINE = Distributed(coroot, currentDatabase(), trace_bodies, Hash)".
Proof. by vm_compute. Qed.

Example clusters_chosen :
  info true {["default"; "coroot"; "other"]} = Some {| cluster := "coroot"; metricsCluster := "coroot" |}
  ∧ info true {["one"]} = Some {| cluster := "one"; metricsCluster := "one" |}
  ∧ info true {["one"; "two"]} = None ∧ info false {["one"]} = None.
Proof. by vm_compute. Qed.

(** The first attempt fails at the tenth call, the second at the last one, the
    third goes through. *)
Definition run_attempts : list (nat * Failures) := [(1, repeat false 10 ++ [true]); (1, repeat false 48 ++ [true])].

Lemma run_numbered : numbered Migrations.
Proof. intros [|i] m E; [by injection E as <-|done]. Qed.

Lemma run_keeps : runs_keep Migrations.
Proof. by intros m run e ->%list_elem_of_singleton. Qed.

(** A dropped database at version 1. *)
Definition dropped : Schema := {| executed := []; versions := {[("p", "coroot_p@coroot") := 1]} |}.

Lemma baseline_is_ordered_witness :
  no_at (statement_query run_client run_config create_otel_traces) = true
  ∧ ∃ all, columns (default [] (check_order [] (flat_map Statements Migrations))) "otel_traces_distributed" = Some all ∧ "NetSockPeerAddr" ∈ all.
Proof.
  destruct (baseline_is_ordered run_client run_config eq_refl eq_refl) as [(made & E & _ & I) S]. split.
  - apply S. apply (bool_decide_eq_true_1 _). by vm_compute.
  - rewrite E. cbn [default]. destruct (I "trace_bodies_distributed" ["Hash"; "Body"; "LastSeen"]) as (_ & _ & _);
      [apply (bool_decide_eq_true_1 _); by vm_compute|]. vm_compute in E. injection E as <-. eexists. split; [vm_compute; reflexivity|].
    apply (bool_decide_eq_true_1 _). by vm_compute.
Defined.

Lemma migrations_resume_witness :
  let s1 := attempts run_client run_config "p" "coroot_p@coroot" Migrations run_attempts nothing_yet in
  let '(s2, ok) := Migrate run_client run_config "p" "coroot_p@coroot" (take 1 Migrations) [] s1 in
  ok = true ∧ has_migrations run_client run_config Migrations 1 s2 ∧ version_of "p" "coroot_p@coroot" s2 = 1
  ∧ let '(s3, ok) := Migrate run_client run_config "p" "coroot_p@coroot" (take 1 Migrations) [] dropped in
    ok = true ∧ has_migrations run_client run_config Migrations 1 s3 ∧ version_of "p" "coroot_p@coroot" s3 = 1.
Proof.
  assert (R : recorded run_client run_config "p" "coroot_p@coroot" Migrations nothing_yet).
  { split; [apply Nat.leb_le; by vm_compute|]. intros m sql I. by apply not_elem_of_nil in I. }
  assert (M := migrations_resume run_client run_config "p" "coroot_p@coroot" Migrations run_attempts 1 nothing_yet run_numbered run_keeps run_sentinel
    eq_refl ltac:(repeat constructor) ltac:(cbn; lia) ltac:(repeat constructor; done) R).
  cbv zeta in M |- *. destruct M as [_ M]. destruct (Migrate _ _ _ _ _ _ (attempts _ _ _ _ _ _ _)) as [s2 ok]. destruct M as ((O & Hm & V) & A).
  split_and!; [done|done| |exact (A dropped ltac:(by vm_compute))]. rewrite V. by vm_compute.
Defined.

(** An attempt on the dropped database that fails after seven statements. *)
Definition half : Schema * bool := Migrate run_client run_config "p" "coroot_p@coroot" Migrations (repeat false 9 ++ [true]) dropped.

Lemma half_migrated_is_left_witness :
  length (executed half.1) = 7 ∧ length (flat_map Statements Migrations) = 47
  ∧ Migrate run_client run_config "p" "coroot_p@coroot" Migrations [] half.1 = (half.1, true).
Proof.
  split; [by vm_compute|]. split; [by vm_compute|].
  assert (E : half = (half.1, false)).
  { apply injective_projections; [done|by vm_compute]. }
  assert (I : statement_query run_client run_config create_otel_traces ∈ executed half.1) by (apply (bool_decide_eq_true_1 _); by vm_compute).
  exact (proj2 (half_migrated_is_left run_client run_config "p" "coroot_p@coroot" dropped (repeat false 9 ++ [true]) half.1 [] run_sentinel eq_refl E I)).
Defined.
End SchemaRuns.
