(* ===== verification/AppView.v ===== *)
(** What the tools of the MCP endpoint read of an application and show of it:
    its charts (model/chart.go), quantiles (model/sli.go), the connections between
    applications (model/connection.go) and the services its logs are stored under
    (model/application.go, model/container.go).

    The maps of a world hold no nil pointers, and a Go map is the list of its
    entries in the order [range] gives them. *)

From S2P Require Export Db.
From S2P Require GoNet Directory.
From S2P Require RecordingRules Logs.
From Stdlib Require Import Ascii String ZArith Lia.
Import FilepathFacts.
Local Open Scope string_scope.
Local Open Scope Z_scope.

(** * model/sli.go: quantiles of a histogram *)
Definition Buckets : Type := list (Iterator * f32).

(** [b.iter.Next()] of every bucket. *)
Fixpoint next_all (buckets : Buckets) : outcome Buckets :=
  match buckets with
  | [] => Ret []
  | (it, le) :: buckets =>
      let* r := Next it in
      let* rest := next_all buckets in
      Ret ((snd r, le) :: rest)
  end.

(** The walk over the buckets at one moment; [prev] and [lower] are the value and
    the bound of the bucket before. *)
Fixpoint interpolate (rank prev lower : f32) (buckets : Buckets) : f32 :=
  match buckets with
  | [] => F32.zero
  | (it, upper) :: buckets =>
      let c := if IsNaN (it_v it) then F32.zero else it_v it in
      if F32.ltb c rank then interpolate rank (it_v it) upper buckets
      else if IsInf upper 1 then lower
      else F32.add lower (F32.mul (F32.sub upper lower) (F32.div (F32.sub rank prev) (F32.sub c prev)))
  end.

(** [res] is filled in the order of its indexes. *)
Definition Quantile (histogram : list HistogramBucket) (q : f32) : outcome (option TimeSeries) :=
  match last histogram with
  | None => Ret None
  | Some total =>
      let buckets := (λ b, (Iter (hb_TimeSeries b), hb_Le b)) <$> histogram in
      let* r := for_ts (λ (s : Buckets * list f32) _ t,
                          let* buckets := next_all (fst s) in
                          Ret (buckets, snd s ++ [interpolate (F32.mul t q) F32.zero F32.zero buckets])%list)
                       (hb_TimeSeries total) (buckets, []) in
      Ret (WithData (snd r) (hb_TimeSeries total))
  end.

(** * model/chart.go *)

(** The interface [SeriesData]. *)
Inductive SeriesData := DTimeSeries (ts : option TimeSeries) | DAggregate (a : Aggregate.t).
Definition sd_IsEmpty (d : SeriesData) : bool :=
  match d with DTimeSeries ts => IsEmpty ts | DAggregate a => Aggregate.AIsEmpty a end.
Definition sd_Get (d : SeriesData) : outcome (option TimeSeries) :=
  match d with DTimeSeries ts => Ret ts | DAggregate a => Aggregate.Get a end.
Definition sd_Reduce (f : F) (d : SeriesData) : outcome f32 :=
  match d with DTimeSeries ts => Reduce f ts | DAggregate a => Aggregate.AReduce a f end.
Definition sd_MarshalJSON (d : SeriesData) : outcome (option (list (option f32))) :=
  let* ts := sd_Get d in TS_MarshalJSON ts.

Record Series := { se_Name : string; se_Data : SeriesData }.
Record SeriesList := {
  sl_series : list Series; sl_topN : Z; sl_topF : option F;
  sl_histogram : list HistogramBucket; sl_percentiles : list f32 }.
Record Chart := { cht_Title : string; cht_Series : SeriesList; cht_Threshold : option Series }.
Record Widget := { wi_Chart : option Chart; wi_ChartGroup : option (list (option Chart)) }.

Definition SeriesList_IsEmpty (sl : SeriesList) : bool :=
  bool_decide (sl_series sl = []) && (bool_decide (sl_histogram sl = []) || bool_decide (sl_percentiles sl = [])).
Definition Chart_IsEmpty (ch : Chart) : bool :=
  SeriesList_IsEmpty (cht_Series ch) && match cht_Threshold ch with None => true | Some t => sd_IsEmpty (se_Data t) end.

(** The series with their weights, without those that have none. *)
Fixpoint weigh (by_ : F) (ss : list Series) : outcome (list (Series * f32)) :=
  match ss with
  | [] => Ret []
  | s :: ss =>
      let* w := sd_Reduce by_ (se_Data s) in
      let* rest := weigh by_ ss in
      Ret (if IsNaN w then rest else (s, w) :: rest)
  end.
Fixpoint add_data (other : Aggregate.t) (ss : list Series) : outcome Aggregate.t :=
  match ss with
  | [] => Ret other
  | s :: ss => let* ts := sd_Get (se_Data s) in add_data (Aggregate.Add other [ts]) ss
  end.
Definition heavier (a b : Series * f32) : bool := negb (F32.gtb (snd b) (snd a)).
Definition topN (ss : list Series) (n : Z) (by_ : F) : outcome (list Series) :=
  let* sortable := weigh by_ ss in
  let sorted := fst <$> order_by heavier sortable in
  let keep := Z.to_nat (n - 1) in
  let* other := add_data (Aggregate.NewAggregate NanSum) (drop keep sorted) in
  let* otherTs := Aggregate.Get other in
  Ret (take keep sorted ++ if IsEmpty otherTs then [] else [{| se_Name := "other"; se_Data := DTimeSeries otherTs |}])%list.

Fixpoint percentile_series (histogram : list HistogramBucket) (qs : list f32) : outcome (list Series) :=
  match qs with
  | [] => Ret []
  | q :: qs =>
      let* ts := Quantile histogram q in
      let* rest := percentile_series histogram qs in
      Ret ({| se_Name := "p" ++ Itoa (F32.to_i64 (F32.mul q (F32.of_Z 100))); se_Data := DTimeSeries ts |} :: rest)
  end.

(** The series [SeriesList.MarshalJSON] writes. *)
Definition written_series (sl : SeriesList) : outcome (list Series) :=
  match sl_topF sl with
  | Some by_ =>
      if 0 <? sl_topN sl then topN (sl_series sl) (sl_topN sl) by_
      else let* ps := percentile_series (sl_histogram sl) (sl_percentiles sl) in Ret (sl_series sl ++ ps)%list
  | None => let* ps := percentile_series (sl_histogram sl) (sl_percentiles sl) in Ret (sl_series sl ++ ps)%list
  end.

(** [json.Marshal] of the list and [json.Unmarshal] of what it wrote: a series
    comes back under its name, with its values as they are written and without
    its times. *)
Definition untimed : TimeSeries := {| ts_from := 0; ts_step := 0; ts_data := [] |}.
Fixpoint reread (ss : list Series) : outcome (list (string * TimeSeries)) :=
  match ss with
  | [] => Ret []
  | s :: ss =>
      let* data := sd_MarshalJSON (se_Data s) in
      let* rest := reread ss in
      Ret ((se_Name s, TS_UnmarshalJSON untimed data) :: rest)
  end.

(** * model/connection.go *)
Record RemoteRef := { rr_Id : ApplicationId; rr_Status : Z }.
Record AppToAppConnection := {
  ac_RemoteApplication : option RemoteRef;
  ac_Rtt : option TimeSeries;
  ac_SuccessfulConnections : option TimeSeries;
  ac_Active : option TimeSeries;
  ac_FailedConnections : option TimeSeries;
  ac_RequestsCount : list (string * list (string * option TimeSeries));
  ac_RequestsLatency : list (string * option TimeSeries);
  ac_Endpoints : StringSet.t }.

Definition positive (ts : option TimeSeries) : bool := F32.gtb (Last ts) F32.zero.
Definition IsActual (c : AppToAppConnection) : bool :=
  positive (ac_SuccessfulConnections c) || positive (ac_Active c) || positive (ac_FailedConnections c).
Definition HasConnectivityIssues (c : AppToAppConnection) : bool :=
  IsActual c && (negb (IsEmpty (ac_Rtt c)) && TailIsEmpty (ac_Rtt c)).
Definition HasFailedConnectionAttempts (c : AppToAppConnection) : bool :=
  IsActual c && positive (ac_FailedConnections c).
Definition ConnectionStatus (c : AppToAppConnection) : Z * string :=
  if negb (IsActual c) then (Status.UNKNOWN, "")
  else if HasConnectivityIssues c then (Status.CRITICAL, "connectivity issues")
  else if HasFailedConnectionAttempts c then (Status.CRITICAL, "failed connections")
  else (Status.OK, "").

Definition add_all (p : string → bool) (byStatus : list (string * option TimeSeries)) (sum : Aggregate.t) : Aggregate.t :=
  foldl (λ sum e, if p (fst e) then Aggregate.Add sum [snd e] else sum) sum byStatus.
(** The requests of the statuses [p], of all protocols: the filter is nil here. *)
Definition sum_requests (p : string → bool) (c : AppToAppConnection) : outcome (option TimeSeries) :=
  Aggregate.Get (foldl (λ sum e, add_all p (snd e) sum) (Aggregate.NewAggregate NanSum) (ac_RequestsCount c)).
Definition GetConnectionsRequestsSum : AppToAppConnection → outcome (option TimeSeries) := sum_requests (λ _, true).
Definition GetConnectionsErrorsSum : AppToAppConnection → outcome (option TimeSeries) := sum_requests RecordingRules.IsRequestStatusFailed.

Definition requests_with (c : AppToAppConnection) (protocol : string) : list (string * option TimeSeries) :=
  default [] (snd <$> List.find (λ e, String.eqb (fst e) protocol) (ac_RequestsCount c)).
Fixpoint latency_sums (c : AppToAppConnection) (l : list (string * option TimeSeries)) (time count : Aggregate.t) : outcome (Aggregate.t * Aggregate.t) :=
  match l with
  | [] => Ret (time, count)
  | (protocol, latency) :: l =>
      match requests_with c protocol with
      | [] => latency_sums c l time count
      | requests =>
          let* req := Aggregate.Get (add_all (λ _, true) requests (Aggregate.NewAggregate NanSum)) in
          latency_sums c l (Aggregate.Add time [latency]) (Aggregate.Add count [req])
      end
  end.
Definition GetConnectionsRequestsLatency (c : AppToAppConnection) : outcome (option TimeSeries) :=
  let* sums := latency_sums c (ac_RequestsLatency c) (Aggregate.NewAggregate NanSum) (Aggregate.NewAggregate NanSum) in
  let* time := Aggregate.Get (fst sums) in
  let* count := Aggregate.Get (snd sums) in
  Div time count.

(** * model/container.go: the service of a container

    [regexp.FindStringSubmatch] over patterns of literals and repetitions of
    classes of bytes: the leftmost match, each repetition as long as the rest
    allows.  [pat_group] ends the group, which begins the pattern. *)
Inductive pat := PLit (s : string) | PRep (class : ascii → bool) (min : nat) (max : option nat) | PGroup.

Fixpoint run_length (class : ascii → bool) (s : string) : nat :=
  match s with EmptyString => 0 | String a s => if class a then S (run_length class s) else 0 end.

(** [match_here pats seen s]: what the group has matched of [seen] and [s], when
    the patterns match at the start of [s]. *)
Fixpoint match_here (pats : list pat) (seen s : string) (group : option string) : option string :=
  match pats with
  | [] => group
  | PLit l :: pats => s' ← strip_prefix l s; match_here pats (seen ++ l) s' group
  | PGroup :: pats => match_here pats seen s (Some seen)
  | PRep class min max :: pats =>
      let longest := match max with None => run_length class s | Some m => Nat.min m (run_length class s) end in
      (fix try (k : nat) : option string :=
         if (k <? min)%nat then None
         else match match_here pats (seen ++ stake k s) (sdrop k s) group with
              | Some g => Some g
              | None => match k with O => None | S k => try k end
              end) longest
  end.
Fixpoint FindSubmatch (pats : list pat) (s : string) : option string :=
  match match_here pats "" s None with
  | Some g => Some g
  | None => match s with EmptyString => None | String _ s => FindSubmatch pats s end
  end.

Definition in_range (a b : nat) (c : ascii) : bool := let n := nat_of_ascii c in (a <=? n)%nat && (n <=? b)%nat.
Definition name_char (c : ascii) : bool := in_range 97 122 c || in_range 48 57 c || Ascii.eqb c "-".
Definition hash_char (c : ascii) : bool := in_range 48 57 c || in_range 97 102 c.
Definition random_char (c : ascii) : bool := existsb (Ascii.eqb c) (list_ascii_of_string "bcdfghjklmnpqrstvwxz2456789").
Definition not_newline (c : ascii) : bool := negb (nat_of_ascii c =? 10)%nat.
Definition pod_group : list pat := [PLit "/k8s/"; PRep name_char 1 None; PLit "/"; PRep name_char 1 None; PGroup; PLit "-"].
Definition in_pod : list pat := [PLit "/"; PRep not_newline 1 None].
Definition deploymentPodRegex : list pat := (pod_group ++ [PRep hash_char 1 (Some 10%nat); PLit "-"; PRep random_char 5 (Some 5%nat)] ++ in_pod)%list.
Definition daemonsetPodRegex : list pat := (pod_group ++ [PRep random_char 5 (Some 5%nat)] ++ in_pod)%list.
Definition statefulsetPodRegex : list pat := (pod_group ++ [PRep (in_range 48 57) 1 None] ++ in_pod)%list.

Definition ContainerIdToServiceName (containerId : string) : string :=
  match strip_prefix "/k8s/" containerId with
  | None => containerId
  | Some _ => default containerId (head (omap (λ r, FindSubmatch r containerId) [deploymentPodRegex; daemonsetPodRegex; statefulsetPodRegex]))
  end.

Example service_of_deployment : ContainerIdToServiceName "/k8s/shop/cart-5d8f7c9b4-x2kqz/cart" = "/k8s/shop/cart". Proof. reflexivity. Qed.
Example service_of_daemonset : ContainerIdToServiceName "/k8s/kube-system/proxy-bcdfg/proxy" = "/k8s/kube-system/proxy". Proof. reflexivity. Qed.
Example service_of_statefulset : ContainerIdToServiceName "/k8s/db/pg-0/postgres" = "/k8s/db/pg". Proof. reflexivity. Qed.
Example service_of_docker : ContainerIdToServiceName "/docker/pg-0" = "/docker/pg-0". Proof. reflexivity. Qed.

(** * model/application.go

    A container as the tools read it; [in_Types] is what
    [Instance.ApplicationTypes] finds; the remote application of a connection is
    its id: the world holds one application of an id. *)
Record ContainerView := { cv_Id : string; cv_InitContainer : bool; cv_CpuUsage : option TimeSeries; cv_MemoryRss : option TimeSeries }.
Record UpstreamView := { up_RemoteApplication : option ApplicationId; up_RequestsHistogram : list (string * list (f32 * option TimeSeries)) }.
Record InstanceView := { in_Containers : list ContainerView; in_Types : gset string; in_Upstreams : list UpstreamView }.
Record LogPatternView := { lv_Sample : string; lv_Messages : option TimeSeries; lv_Similar : option StringSet.t }.
Record ReportView := { rv_Name : string; rv_Status : Z; rv_Checks : list Check_; rv_Widgets : list Widget }.

Record AppView := {
  av_Status : Z;
  av_Instances : list InstanceView;
  av_LogMessages : list (Z * list (string * LogPatternView));
  av_Reports : list ReportView;
  av_AvailabilitySLIs : list AvailabilitySLI;
  av_LatencySLIs : list LatencySLI;
  av_Upstreams : list AppToAppConnection;
  av_Downstreams : list AppToAppConnection }.

Definition ToApplicationType (protocol : string) : string :=
  if String.eqb protocol "postgres" then "postgres"
  else if String.eqb protocol "redis" then "redis"
  else if String.eqb protocol "mongo" then "mongodb"
  else if String.eqb protocol "mysql" then "mysql"
  else if String.eqb protocol "memcached" then "memcached"
  else "".
Definition type_of_port (port : string) : string :=
  if String.eqb port "5432" then "postgres"
  else if String.eqb port "3306" then "mysql"
  else if String.eqb port "6379" then "redis"
  else if String.eqb port "11211" then "memcached"
  else if String.eqb port "27017" || String.eqb port "27018" then "mongodb"
  else "".
Definition add_type (t : string) (res : gset string) : gset string := if String.eqb t "" then res else {[t]} ∪ res.
Definition types_of_client (res : gset string) (d : AppToAppConnection) : gset string :=
  let res := foldl (λ res ep, add_type (type_of_port (match GoNet.Net.SplitHostPort ep with Some (_, port) => port | None => "" end)) res)
                   res (StringSet.Items (Some (ac_Endpoints d))) in
  foldl (λ res p, add_type (ToApplicationType (fst p)) res) res (ac_RequestsCount d).
Definition ApplicationTypes (id : ApplicationId) (a : AppView) : gset string :=
  let res := foldl (λ res i, in_Types i ∪ res) ∅ (av_Instances a) in
  if String.eqb (Kind id) ApplicationKindExternalService then foldl types_of_client res (av_Downstreams a) else res.

Definition LogServices (a : AppView) : list string :=
  StringSet.Items (Some (foldl (λ res i, foldl (λ res c, StringSet.Add [ContainerIdToServiceName (cv_Id c)] res) res (in_Containers i))
                               (StringSet.NewStringSet []) (av_Instances a))).

Definition LogQueryServices (a : AppView) (source otelService : string) : list string :=
  if String.eqb source Logs.LogSourceOtel then if String.eqb otelService "" then [] else [otelService]
  else if String.eqb source Logs.LogSourceAgent then LogServices a
  else [].
(** [logs]: the service of the application's settings of logs, if it has them. *)
Definition OtelLogService (logs : option string) (candidates : list string) (ids : list ApplicationId) (id : ApplicationId) : string :=
  match logs with Some service => service | None => Directory.GuessService candidates ids id end.

Definition SimilarLogPatternHashes (a : AppView) (hash : string) : list string :=
  StringSet.Items (Some (foldl (λ res m, foldl (λ res p, if StringSet.Has hash (lv_Similar (snd p))
                                                          then StringSet.Add (StringSet.Items (lv_Similar (snd p))) res else res)
                                                res (snd m))
                               (StringSet.NewStringSet [hash]) (av_LogMessages a))).

(** What a node's page is made of, besides its report. *)
Record NodeView := {
  nv_Report : option (string * Z * list Check_);
  nv_CpuUsagePercent : option TimeSeries;
  nv_MemoryTotalBytes : option TimeSeries;
  nv_MemoryAvailableBytes : option TimeSeries;
  nv_NetInterfaces : list (option TimeSeries * option TimeSeries) }.

(** model/log.go *)
Record LogEntryView := {
  le_ServiceName : string; le_Timestamp : Z; le_Severity : Z; le_Body : string; le_TraceId : string;
  le_LogAttributes : gmap string string; le_ResourceAttributes : gmap string string;
  le_ClusterId : string; le_ClusterName : string }.

(** The query of the traces page and what [RenderTraces] answers; the parts that
    the tools hand on are values of their own. *)
Record TracesQuery := { tq_View : string; tq_DurFrom : string; tq_DurTo : string; tq_TraceId : string; tq_Filters : list (string * string * string) }.
Inductive traces_part := TracesSummary | TracesErrors | TracesLatency | TracesTrace.
Record TracesPage := { tp_Error : string; tp_part : traces_part → json }.

(** * The series of a world

    The loader of a world gives all its series the length of its window, and what
    the auditor makes of them keeps it: [view_ok], [node_ok]. *)
Definition of_length (n : nat) (ts : option TimeSeries) : Prop := match ts with None => True | Some ts => List.length (ts_data ts) = n end.
Definition data_of_length (n : nat) (d : SeriesData) : Prop :=
  match d with DTimeSeries ts => of_length n ts | DAggregate a => Forall (λ ts, of_length n (Some ts)) (Aggregate.input a) end.
Definition chart_of_length (n : nat) (ch : Chart) : Prop := Forall (λ s, data_of_length n (se_Data s)) (sl_series (cht_Series ch)).
Definition widget_of_length (n : nat) (w : Widget) : Prop :=
  (∀ ch, wi_Chart w = Some ch → chart_of_length n ch) ∧ (∀ l ch, wi_ChartGroup w = Some l → Some ch ∈ l → chart_of_length n ch).
Definition connection_of_length (n : nat) (c : AppToAppConnection) : Prop :=
  Forall (λ e, Forall (λ e, of_length n e.2) e.2) (ac_RequestsCount c) ∧ Forall (λ e, of_length n e.2) (ac_RequestsLatency c).
Definition instance_of_length (n : nat) (i : InstanceView) : Prop :=
  Forall (λ c, of_length n (cv_CpuUsage c) ∧ of_length n (cv_MemoryRss c)) (in_Containers i)
  ∧ Forall (λ u, Forall (λ e, Forall (λ e, of_length n e.2) e.2) (up_RequestsHistogram u)) (in_Upstreams i).
Definition view_ok (a : AppView) : Prop :=
  ∃ n, Forall (instance_of_length n) (av_Instances a)
       ∧ Forall (λ r, Forall (widget_of_length n) (rv_Widgets r)) (av_Reports a)
       ∧ Forall (connection_of_length n) (av_Upstreams a).
Definition node_ok (v : NodeView) : Prop := ∃ n, Forall (λ i, of_length n i.1 ∧ of_length n i.2) (nv_NetInterfaces v).

Definition no_view : AppView :=
  {| av_Status := Status.UNKNOWN; av_Instances := []; av_LogMessages := []; av_Reports := []; av_AvailabilitySLIs := []; av_LatencySLIs := [];
     av_Upstreams := []; av_Downstreams := [] |}.
Definition no_node : NodeView :=
  {| nv_Report := None; nv_CpuUsagePercent := None; nv_MemoryTotalBytes := None; nv_MemoryAvailableBytes := None; nv_NetInterfaces := [] |}.
Lemma no_view_ok : view_ok no_view.
Proof. exists 0%nat. split_and!; constructor. Qed.
Lemma no_node_ok : node_ok no_node.
Proof. exists 0%nat. constructor. Qed.
