(* ===== verification/Projects.v ===== *)
(** Projects and their settings: db/project.go, db/integrations.go,
    db/custom_cloud_pricing.go, db/application_settings.go, db/dashboards.go and
    the tables of db/migrations/00001_baseline.sql that refer to a project.

    What the notifications need of an integration is the record of Categories;
    here it is next to its credentials.  A column the code writes as JSON holds
    the value itself. *)

From S2P Require Export Db.
From S2P Require Import Schema RecordingRules.
From S2P Require Categories AlertStore.
From Stdlib Require Import Ascii String ZArith Lia.
Local Open Scope string_scope.

(** * Errors of the database *)
Inductive db_error := ErrNotFound | ErrConflict | ErrInvalid | ErrOther (message : string).
#[export] Instance db_error_eq_dec : EqDecision db_error.
Proof. solve_decision. Defined.

(** * db/integrations.go *)
Record BasicAuth := { ba_User : string; ba_Password : string }.
Record Header := { hd_Key : string; hd_Value : string }.

Record IntegrationClickhouse := {
  ch_Global : bool; ch_Protocol : string; ch_Addr : string; ch_Auth : BasicAuth; ch_Database : string;
  ch_InitialDatabase : string; ch_TlsEnable : bool; ch_TlsSkipVerify : bool; ch_TlsCAFile : string }.
Record IntegrationAWS := {
  aws_Region : string; aws_AccessKeyID : string; aws_SecretAccessKey : string;
  aws_RDSTagFilters : gmap string string; aws_ElasticacheTagFilters : gmap string string }.
Record IntegrationSlack := { sl_Token : string; sl_notify : Categories.IntegrationSlack }.
Record IntegrationPagerduty := { pd_IntegrationKey : string; pd_notify : Categories.IntegrationPagerduty }.
Record IntegrationOpsgenie := { og_ApiKey : string; og_EUInstance : bool; og_notify : Categories.IntegrationOpsgenie }.
Record IntegrationWebhook := {
  wh_Url : string; wh_TlsSkipVerify : bool; wh_BasicAuth : option BasicAuth; wh_CustomHeaders : list Header;
  wh_CustomFields : gmap string string; wh_IncidentTemplate : string; wh_DeploymentTemplate : string;
  wh_notify : Categories.IntegrationWebhook }.

Record Integrations := {
  i_Clickhouse : option IntegrationClickhouse;
  i_AWS : option IntegrationAWS;
  i_Readonly : bool;
  i_BaseUrl : string;
  i_Slack : option IntegrationSlack;
  i_Teams : option Categories.IntegrationTeams;
  i_Pagerduty : option IntegrationPagerduty;
  i_Opsgenie : option IntegrationOpsgenie;
  i_Webhook : option IntegrationWebhook }.

Definition no_integrations : Integrations :=
  {| i_Clickhouse := None; i_AWS := None; i_Readonly := false; i_BaseUrl := ""; i_Slack := None; i_Teams := None;
     i_Pagerduty := None; i_Opsgenie := None; i_Webhook := None |}.

(** What [net/url.Parse] says of a text: its scheme and host, or that it does not parse. *)
Class UrlParse := { url_Parse : string → option (string * string) }.

(** The [Validate] methods: [None] when the configuration is valid. *)
Definition Slack_Validate (i : IntegrationSlack) : option string :=
  if String.eqb (sl_Token i) "" then Some "token is required"
  else if String.eqb (Categories.sl_DefaultChannel (sl_notify i)) "" then Some "default channel is required"
  else None.

Definition Pagerduty_Validate (i : IntegrationPagerduty) : option string :=
  if String.eqb (pd_IntegrationKey i) "" then Some "integration key is required" else None.
Definition Opsgenie_Validate (i : IntegrationOpsgenie) : option string :=
  if String.eqb (og_ApiKey i) "" then Some "api key is required" else None.

Definition Webhook_Validate (i : IntegrationWebhook) : option string :=
  let n := wh_notify i in
  if String.eqb (wh_Url i) "" then Some "url is required"
  else if Categories.wh_Incidents n && String.eqb (wh_IncidentTemplate i) "" then Some "incident template is required"
  else if Categories.wh_Deployments n && String.eqb (wh_DeploymentTemplate i) "" then Some "deployment template is required"
  else if Categories.boolValue (Categories.wh_Alerts n) && String.eqb (Categories.wh_AlertTemplate n) "" then Some "alert template is required"
  else None.

Section teams.
Context `{UrlParse}.

Definition valid_webhook_url (u : string) : bool :=
  match url_Parse u with
  | None => false
  | Some (scheme, host) => (String.eqb scheme "http" || String.eqb scheme "https") && negb (String.eqb host "")
  end.

(** The channels in order, with the names seen so far. *)
Fixpoint check_channels (names : list string) (l : list (string * string)) : string + list string :=
  match l with
  | [] => inr names
  | (name, u) :: l =>
      if String.eqb name "" then inl "channel name is required"
      else if contains ":" name then inl "channel name must not contain ':'"
      else if String.eqb u "" then inl ("webhook url is required for channel " ++ name)
      else if negb (valid_webhook_url u) then inl ("invalid webhook url for channel " ++ name)
      else if existsb (String.eqb name) names then inl ("duplicate channel name: " ++ name)
      else check_channels (name :: names) l
  end.

Definition Teams_Validate (i : Categories.IntegrationTeams) : option string :=
  if negb (String.eqb (Categories.te_WebhookUrl i) "") && negb (bool_decide (Categories.te_Channels i = [])) then
    Some "webhookURL is deprecated and cannot be used together with channels"
  else
    let channels := Categories.GetChannels i in
    if bool_decide (channels = []) then Some "at least one channel is required"
    else match check_channels [] channels with
         | inl e => Some e
         | inr names =>
             if existsb (String.eqb (Categories.GetDefaultChannel i)) names then None
             else Some "default channel must be one of the configured channels"
         end.

(** The error of one integration, wrapped. *)
Definition wrapped {A} (prefix : string) (validate : A → option string) (i : option A) : option string :=
  match i with
  | None => None
  | Some i => match validate i with Some e => Some (prefix ++ ": " ++ e) | None => None end
  end.
Definition first_error (l : list (option string)) : option string := head (omap id l).

(** [NotificationIntegrations.Validate]: the integrations with the slashes at the
    end of the base url dropped, or the error. *)
Definition NotificationIntegrations_Validate (i : Integrations) : string + Integrations :=
  if String.eqb (i_BaseUrl i) "" then inl "base url is required"
  else if bool_decide (url_Parse (i_BaseUrl i) = None) then inl "invalid base url"
  else
    match first_error [wrapped "invalid slack configuration" Slack_Validate (i_Slack i);
                       wrapped "invalid teams configuration" Teams_Validate (i_Teams i);
                       wrapped "invalid pagerduty configuration" Pagerduty_Validate (i_Pagerduty i);
                       wrapped "invalid opsgenie configuration" Opsgenie_Validate (i_Opsgenie i);
                       wrapped "invalid webhook configuration" Webhook_Validate (i_Webhook i)] with
    | Some e => inl e
    | None => inr {| i_Clickhouse := i_Clickhouse i; i_AWS := i_AWS i; i_Readonly := i_Readonly i;
                     i_BaseUrl := Format.TrimRight (i_BaseUrl i) "/"; i_Slack := i_Slack i; i_Teams := i_Teams i;
                     i_Pagerduty := i_Pagerduty i; i_Opsgenie := i_Opsgenie i; i_Webhook := i_Webhook i |}
    end.
End teams.

Record IntegrationInfo := {
  ii_Type : string; ii_Configured : bool; ii_Incidents : bool; ii_Deployments : bool; ii_Alerts : bool;
  ii_Title : string; ii_Details : string }.

Definition info_row (type title : string) (cfg : option (bool * bool * bool * string)) : IntegrationInfo :=
  match cfg with
  | None => {| ii_Type := type; ii_Configured := false; ii_Incidents := false; ii_Deployments := false; ii_Alerts := false;
               ii_Title := title; ii_Details := "" |}
  | Some (incidents, deployments, alerts, details) =>
      {| ii_Type := type; ii_Configured := true; ii_Incidents := incidents; ii_Deployments := deployments; ii_Alerts := alerts;
         ii_Title := title; ii_Details := details |}
  end.

Definition GetInfo (i : Integrations) : list IntegrationInfo := [
  info_row IntegrationTypeSlack "Slack" ((λ c, let n := sl_notify c in
    (Categories.sl_Incidents n, Categories.sl_Deployments n, Categories.boolValue (Categories.sl_Alerts n),
     "default channel: #" ++ Categories.sl_DefaultChannel n)) <$> i_Slack i);
  info_row IntegrationTypeTeams "MS Teams" ((λ n,
    (Categories.te_Incidents n, Categories.te_Deployments n, Categories.boolValue (Categories.te_Alerts n),
     "default channel: " ++ Categories.GetDefaultChannel n)) <$> i_Teams i);
  info_row IntegrationTypePagerduty "Pagerduty" ((λ c, let n := pd_notify c in
    (Categories.pd_Incidents n, false, Categories.boolValue (Categories.pd_Alerts n), "")) <$> i_Pagerduty i);
  info_row IntegrationTypeOpsgenie "Opsgenie" ((λ c, let n := og_notify c in
    (Categories.og_Incidents n, false, Categories.boolValue (Categories.og_Alerts n),
     "region: " ++ if og_EUInstance c then "EU" else "US")) <$> i_Opsgenie i);
  info_row IntegrationTypeWebhook "Webhook" ((λ c, let n := wh_notify c in
    (Categories.wh_Incidents n, Categories.wh_Deployments n, Categories.boolValue (Categories.wh_Alerts n), "")) <$> i_Webhook i)].

(** * db/custom_cloud_pricing.go *)
Record CustomCloudPricing := { cp_Default : bool; cp_PerCPUCore : f32; cp_PerMemoryGb : f32 }.
Definition defaultCustomCloudPricing : CustomCloudPricing :=
  {| cp_Default := true; cp_PerCPUCore := F32.frac 3465 100000; cp_PerMemoryGb := F32.frac 3938 1000000 |}.

(** * db/project.go *)
Record ApiKey := { k_Key : string; k_Description : string }.
Definition emptyApiKey : string := "00000000000000000000000000000000".
Definition ApiKey_Validate (k : ApiKey) : option string := if String.eqb (k_Key k) "" then Some "key is required" else None.
Definition IsEmpty (k : ApiKey) : bool := String.eqb (k_Key k) emptyApiKey.

Record ProjectSettings := {
  ps_Readonly : bool;
  ps_ApplicationCategories : gmap string (list string);
  ps_ApplicationCategorySettings : gmap string (option Categories.ApplicationCategorySettings);
  ps_Integrations : Integrations;
  ps_CustomApplications : gmap string (list string);
  ps_ApiKeys : list ApiKey;
  ps_CustomCloudPricing : option CustomCloudPricing;
  ps_MemberProjects : list string }.

Record Project := { p_Id : string; p_Name : string; p_Settings : ProjectSettings }.

Definition no_settings : ProjectSettings :=
  {| ps_Readonly := false; ps_ApplicationCategories := ∅; ps_ApplicationCategorySettings := ∅; ps_Integrations := no_integrations;
     ps_CustomApplications := ∅; ps_ApiKeys := []; ps_CustomCloudPricing := None; ps_MemberProjects := [] |}.

(** One field of the settings set. *)
Definition set_Integrations (f : Integrations → Integrations) (s : ProjectSettings) : ProjectSettings :=
  {| ps_Readonly := ps_Readonly s; ps_ApplicationCategories := ps_ApplicationCategories s;
     ps_ApplicationCategorySettings := ps_ApplicationCategorySettings s; ps_Integrations := f (ps_Integrations s);
     ps_CustomApplications := ps_CustomApplications s; ps_ApiKeys := ps_ApiKeys s;
     ps_CustomCloudPricing := ps_CustomCloudPricing s; ps_MemberProjects := ps_MemberProjects s |}.
Definition set_ApiKeys (f : list ApiKey → list ApiKey) (s : ProjectSettings) : ProjectSettings :=
  {| ps_Readonly := ps_Readonly s; ps_ApplicationCategories := ps_ApplicationCategories s;
     ps_ApplicationCategorySettings := ps_ApplicationCategorySettings s; ps_Integrations := ps_Integrations s;
     ps_CustomApplications := ps_CustomApplications s; ps_ApiKeys := f (ps_ApiKeys s);
     ps_CustomCloudPricing := ps_CustomCloudPricing s; ps_MemberProjects := ps_MemberProjects s |}.
Definition set_CustomCloudPricing (c : option CustomCloudPricing) (s : ProjectSettings) : ProjectSettings :=
  {| ps_Readonly := ps_Readonly s; ps_ApplicationCategories := ps_ApplicationCategories s;
     ps_ApplicationCategorySettings := ps_ApplicationCategorySettings s; ps_Integrations := ps_Integrations s;
     ps_CustomApplications := ps_CustomApplications s; ps_ApiKeys := ps_ApiKeys s;
     ps_CustomCloudPricing := c; ps_MemberProjects := ps_MemberProjects s |}.
Definition set_MemberProjects (l : list string) (s : ProjectSettings) : ProjectSettings :=
  {| ps_Readonly := ps_Readonly s; ps_ApplicationCategories := ps_ApplicationCategories s;
     ps_ApplicationCategorySettings := ps_ApplicationCategorySettings s; ps_Integrations := ps_Integrations s;
     ps_CustomApplications := ps_CustomApplications s; ps_ApiKeys := ps_ApiKeys s;
     ps_CustomCloudPricing := ps_CustomCloudPricing s; ps_MemberProjects := l |}.
Definition set_CustomApplications (m : gmap string (list string)) (s : ProjectSettings) : ProjectSettings :=
  {| ps_Readonly := ps_Readonly s; ps_ApplicationCategories := ps_ApplicationCategories s;
     ps_ApplicationCategorySettings := ps_ApplicationCategorySettings s; ps_Integrations := ps_Integrations s;
     ps_CustomApplications := m; ps_ApiKeys := ps_ApiKeys s;
     ps_CustomCloudPricing := ps_CustomCloudPricing s; ps_MemberProjects := ps_MemberProjects s |}.
Definition set_CategorySettings (m : gmap string (option Categories.ApplicationCategorySettings)) (s : ProjectSettings) : ProjectSettings :=
  {| ps_Readonly := ps_Readonly s; ps_ApplicationCategories := ps_ApplicationCategories s;
     ps_ApplicationCategorySettings := m; ps_Integrations := ps_Integrations s;
     ps_CustomApplications := ps_CustomApplications s; ps_ApiKeys := ps_ApiKeys s;
     ps_CustomCloudPricing := ps_CustomCloudPricing s; ps_MemberProjects := ps_MemberProjects s |}.
Definition with_settings (f : ProjectSettings → ProjectSettings) (p : Project) : Project :=
  {| p_Id := p_Id p; p_Name := p_Name p; p_Settings := f (p_Settings p) |}.

Definition MemberProjects (p : Project) : list string := ps_MemberProjects (p_Settings p).
Definition Multicluster (p : Project) : bool := negb (bool_decide (MemberProjects p = [])).
Definition ClusterId (p : Project) : string := p_Id p.

(** The project as the notifications see it. *)
Definition notify_integrations (i : Integrations) : Categories.Integrations :=
  {| Categories.i_BaseUrl := i_BaseUrl i; Categories.i_Slack := sl_notify <$> i_Slack i; Categories.i_Teams := i_Teams i;
     Categories.i_Pagerduty := pd_notify <$> i_Pagerduty i; Categories.i_Opsgenie := og_notify <$> i_Opsgenie i;
     Categories.i_Webhook := wh_notify <$> i_Webhook i |}.
Definition notify_project (p : Project) : Categories.Project :=
  {| Categories.p_Id := p_Id p; Categories.p_Name := p_Name p;
     Categories.p_Integrations := notify_integrations (ps_Integrations (p_Settings p));
     Categories.p_ApplicationCategorySettings := ps_ApplicationCategorySettings (p_Settings p);
     Categories.p_MemberProjects := MemberProjects p |}.

(** [applyDefaults] *)
Definition or_default {A} (d : A) (o : option A) : option A := match o with Some _ => o | None => Some d end.
Definition slack_defaults (c : IntegrationSlack) : IntegrationSlack :=
  let n := sl_notify c in
  {| sl_Token := sl_Token c;
     sl_notify := {| Categories.sl_DefaultChannel := Categories.sl_DefaultChannel n; Categories.sl_Incidents := Categories.sl_Incidents n;
                     Categories.sl_Deployments := Categories.sl_Deployments n;
                     Categories.sl_Alerts := or_default (Categories.sl_Incidents n) (Categories.sl_Alerts n) |} |}.
Definition teams_defaults (n : Categories.IntegrationTeams) : Categories.IntegrationTeams :=
  {| Categories.te_WebhookUrl := Categories.te_WebhookUrl n; Categories.te_Channels := Categories.te_Channels n;
     Categories.te_DefaultChannel := Categories.te_DefaultChannel n; Categories.te_Incidents := Categories.te_Incidents n;
     Categories.te_Deployments := Categories.te_Deployments n;
     Categories.te_Alerts := or_default (Categories.te_Incidents n) (Categories.te_Alerts n) |}.
Definition pagerduty_defaults (c : IntegrationPagerduty) : IntegrationPagerduty :=
  let n := pd_notify c in
  {| pd_IntegrationKey := pd_IntegrationKey c;
     pd_notify := {| Categories.pd_Incidents := Categories.pd_Incidents n;
                     Categories.pd_Alerts := or_default (Categories.pd_Incidents n) (Categories.pd_Alerts n) |} |}.
Definition opsgenie_defaults (c : IntegrationOpsgenie) : IntegrationOpsgenie :=
  let n := og_notify c in
  {| og_ApiKey := og_ApiKey c; og_EUInstance := og_EUInstance c;
     og_notify := {| Categories.og_Incidents := Categories.og_Incidents n;
                     Categories.og_Alerts := or_default (Categories.og_Incidents n) (Categories.og_Alerts n) |} |}.
Definition webhook_defaults (c : IntegrationWebhook) : IntegrationWebhook :=
  let n := wh_notify c in
  let alerts := Categories.wh_Incidents n && negb (String.eqb (Categories.wh_AlertTemplate n) "") in
  {| wh_Url := wh_Url c; wh_TlsSkipVerify := wh_TlsSkipVerify c; wh_BasicAuth := wh_BasicAuth c;
     wh_CustomHeaders := wh_CustomHeaders c; wh_CustomFields := wh_CustomFields c;
     wh_IncidentTemplate := wh_IncidentTemplate c; wh_DeploymentTemplate := wh_DeploymentTemplate c;
     wh_notify := {| Categories.wh_Incidents := Categories.wh_Incidents n; Categories.wh_Deployments := Categories.wh_Deployments n;
                     Categories.wh_Alerts := or_default alerts (Categories.wh_Alerts n);
                     Categories.wh_AlertTemplate := Categories.wh_AlertTemplate n |} |}.
Definition integrations_defaults (i : Integrations) : Integrations :=
  {| i_Clickhouse := i_Clickhouse i; i_AWS := i_AWS i; i_Readonly := i_Readonly i; i_BaseUrl := i_BaseUrl i;
     i_Slack := slack_defaults <$> i_Slack i; i_Teams := teams_defaults <$> i_Teams i;
     i_Pagerduty := pagerduty_defaults <$> i_Pagerduty i; i_Opsgenie := opsgenie_defaults <$> i_Opsgenie i;
     i_Webhook := webhook_defaults <$> i_Webhook i |}.
Definition applyDefaults (p : Project) : Project :=
  with_settings (λ s, set_Integrations integrations_defaults
    (set_CustomCloudPricing (or_default defaultCustomCloudPricing (ps_CustomCloudPricing s)) s)) p.

(** [GetCustomApplicationName]: of the applications whose patterns match, the
    first that the loop over the map comes to. *)
Definition GetCustomApplicationName (order : list string) (p : Project) (instance_ : string) : string :=
  default "" (List.find (λ name, match ps_CustomApplications (p_Settings p) !! name with
                                 | Some patterns => GlobMatch instance_ patterns
                                 | None => false
                                 end) order).

Definition ClickHouseConfig (p : Project) (globalClickHouse : option IntegrationClickhouse) : option IntegrationClickhouse :=
  match i_Clickhouse (ps_Integrations (p_Settings p)), globalClickHouse with
  | Some c, _ => Some c
  | None, Some gc =>
      Some {| ch_Global := ch_Global gc; ch_Protocol := ch_Protocol gc; ch_Addr := ch_Addr gc; ch_Auth := ch_Auth gc;
              ch_Database := "coroot_" ++ p_Id p; ch_InitialDatabase := ch_InitialDatabase gc; ch_TlsEnable := ch_TlsEnable gc;
              ch_TlsSkipVerify := ch_TlsSkipVerify gc; ch_TlsCAFile := ch_TlsCAFile gc |}
  | None, None => None
  end.

(** * model/application_settings.go, model/risk.go *)
Record RiskOverride := {
  ro_Category : string; ro_Type : string;
  ro_Dismissal : option (string * Z * string)  (** by, timestamp, reason *) }.
Record Credentials := { cr_Username : string; cr_Password : string }.
Record ApplicationInstrumentation := {
  ai_Type : string; ai_Port : string; ai_Credentials : Credentials; ai_Params : gmap string string; ai_Enabled : option bool }.
Record ApplicationSettings := {
  as_Profiling : option string;  (** the service *)
  as_Tracing : option string;
  as_Logs : option string;
  as_Instrumentation : gmap string ApplicationInstrumentation;
  as_RiskOverrides : list RiskOverride }.

Definition default_port (t : string) : option string :=
  if String.eqb t "postgres" then Some "5432" else if String.eqb t "redis" then Some "6379"
  else if String.eqb t "mongodb" then Some "27017" else if String.eqb t "memcached" then Some "11211"
  else if String.eqb t "mysql" then Some "3306" else None.
Definition GetDefaultInstrumentation (t : string) : option ApplicationInstrumentation :=
  (λ port, {| ai_Type := t; ai_Port := port; ai_Credentials := {| cr_Username := ""; cr_Password := "" |};
              ai_Params := ∅; ai_Enabled := None |}) <$> default_port t.

(** The argument of [SaveApplicationSetting], one of the types it takes. *)
Inductive setting :=
| SettingProfiling (service : string)
| SettingTracing (service : string)
| SettingLogs (service : string)
| SettingInstrumentation (i : ApplicationInstrumentation)
| SettingRisks (l : list RiskOverride).

Definition no_application_settings : ApplicationSettings :=
  {| as_Profiling := None; as_Tracing := None; as_Logs := None; as_Instrumentation := ∅; as_RiskOverrides := [] |}.

Definition apply_setting (v : setting) (a : ApplicationSettings) : ApplicationSettings :=
  {| as_Profiling := match v with SettingProfiling s => Some s | _ => as_Profiling a end;
     as_Tracing := match v with SettingTracing s => Some s | _ => as_Tracing a end;
     as_Logs := match v with SettingLogs s => Some s | _ => as_Logs a end;
     as_Instrumentation := match v with SettingInstrumentation i => <[ai_Type i := i]> (as_Instrumentation a) | _ => as_Instrumentation a end;
     as_RiskOverrides := match v with SettingRisks l => l | _ => as_RiskOverrides a end |}.

(** * db/dashboards.go *)
Record DashboardQuery := { dq_DataSource : string; dq_Query : string; dq_Legend : string; dq_Color : string }.
Record DashboardPanel := {
  dp_Name : string; dp_Description : string;
  dp_Metrics : option (list DashboardQuery);
  dp_Chart : option (string * bool);  (** display, stacked *)
  dp_X : Z; dp_Y : Z; dp_W : Z; dp_H : Z }.
Record DashboardPanelGroup := { dg_Name : string; dg_Panels : list DashboardPanel; dg_Collapsed : bool }.
Definition DashboardConfig : Type := list DashboardPanelGroup.
Record Dashboard := { d_Id : string; d_Name : string; d_Description : string; d_Config : DashboardConfig }.

(** * Tables

    [project], [application_settings], [dashboards] and [clickhouse_schema]; the
    other tables are those of Db. *)
Record ProjectRow := { pr_id : string; pr_name : string; pr_settings : option ProjectSettings }.
Record ApplicationSettingsRow := { asr_project_id : string; asr_application_id : string; asr_settings : option ApplicationSettings }.
Record DashboardRow := { dsr_project_id : string; dsr_dashboard : Dashboard }.
Record ProjectTables := {
  t_project : list ProjectRow;
  t_application_settings : list ApplicationSettingsRow;
  t_dashboards : list DashboardRow;
  t_clickhouse_schema : gmap (string * string) nat }.

Definition with_project (f : list ProjectRow → list ProjectRow) (t : ProjectTables) : ProjectTables :=
  {| t_project := f (t_project t); t_application_settings := t_application_settings t; t_dashboards := t_dashboards t;
     t_clickhouse_schema := t_clickhouse_schema t |}.
Definition with_application_settings (f : list ApplicationSettingsRow → list ApplicationSettingsRow) (t : ProjectTables) : ProjectTables :=
  {| t_project := t_project t; t_application_settings := f (t_application_settings t); t_dashboards := t_dashboards t;
     t_clickhouse_schema := t_clickhouse_schema t |}.
Definition with_dashboards (f : list DashboardRow → list DashboardRow) (t : ProjectTables) : ProjectTables :=
  {| t_project := t_project t; t_application_settings := t_application_settings t; t_dashboards := f (t_dashboards t);
     t_clickhouse_schema := t_clickhouse_schema t |}.

(** * Statements *)
Section statements.
Context `{Env}.
Local Notation PM := (M ProjectTables).

(** A statement on all the tables. *)
Definition exec {A} (q : ProjectTables * Tables → db_error + (A * (ProjectTables * Tables))) : PM (db_error + A) := λ s,
  match env_fault (sys_ticks s) with
  | Some err => (inl (ErrOther err), tick s)
  | None =>
      match q (sys_mem s, sys_tables s) with
      | inl err => (inl err, tick s)
      | inr (a, (pt, t)) => (inr a, Build_Sys pt t (S (sys_ticks s)))
      end
  end.
Definition read {A} (q : ProjectTables → db_error + A) : PM (db_error + A) :=
  exec (λ t, match q (fst t) with inl e => inl e | inr a => inr (a, t) end).
Definition write (f : ProjectTables → db_error + ProjectTables) : PM (db_error + unit) :=
  exec (λ t, match f (fst t) with inl e => inl e | inr pt => inr (tt, (pt, snd t)) end).

Definition is_project (id : string) (r : ProjectRow) : bool := String.eqb (pr_id r) id.
Definition scan_project (r : ProjectRow) : Project :=
  applyDefaults {| p_Id := pr_id r; p_Name := pr_name r; p_Settings := default no_settings (pr_settings r) |}.

Definition GetProjects : PM (db_error + gmap string Project) :=
  read (λ t, inr (foldl (λ m r, <[pr_name r := scan_project r]> m) ∅ (t_project t))).
Definition GetProjectNames : PM (db_error + gmap string string) :=
  read (λ t, inr (foldl (λ m r, <[pr_id r := pr_name r]> m) ∅ (t_project t))).
Definition GetProject (id : string) : PM (db_error + Project) :=
  read (λ t, match List.find (is_project id) (t_project t) with
             | Some r => inr (scan_project r)
             | None => inl ErrNotFound
             end).

Definition row_set_settings (s : ProjectSettings) (r : ProjectRow) : ProjectRow :=
  {| pr_id := pr_id r; pr_name := pr_name r; pr_settings := Some s |}.
Definition SaveProjectSettings (p : Project) : PM (db_error + unit) :=
  write (λ t, inr (with_project (update_where (is_project (p_Id p)) (row_set_settings (p_Settings p))) t)).

(** [project_pkey] and the unique name; only the INSERT's violation is
    reported as a conflict. *)
Definition unique_violation : string := "unique_violation".
Definition taken (id name : string) (t : ProjectTables) : bool :=
  existsb (λ r, String.eqb (pr_id r) id || String.eqb (pr_name r) name) (t_project t).
Definition insert_project (id name : string) : PM (db_error + unit) :=
  write (λ t, if taken id name t then inl (ErrOther unique_violation)
              else inr (with_project (λ l, (l ++ [{| pr_id := id; pr_name := name; pr_settings := None |}])%list) t)).
Definition row_set_name (name : string) (r : ProjectRow) : ProjectRow :=
  {| pr_id := pr_id r; pr_name := name; pr_settings := pr_settings r |}.
Definition name_of_another (id name : string) (t : ProjectTables) : bool :=
  existsb (is_project id) (t_project t) && existsb (λ r, negb (is_project id r) && String.eqb (pr_name r) name) (t_project t).
Definition rename_project (id name : string) : PM (db_error + unit) :=
  write (λ t, if name_of_another id name t then inl (ErrOther unique_violation)
              else inr (with_project (update_where (is_project id) (row_set_name name)) t)).

(** [SaveProject]: the error, and the project with the id and the key it was
    given.  [key] is [utils.RandomString(32)]. *)
Definition SaveProject (builtins : list AlertingRule) (key : string) (p : Project) : PM (option db_error * Project) :=
  if String.eqb (p_Id p) "" then
    id ← NanoId;
    let p := {| p_Id := id; p_Name := p_Name p; p_Settings := p_Settings p |} in
    r ← insert_project id (p_Name p);
    match r with
    | inl e => mret (Some (if decide (e = ErrOther unique_violation) then ErrConflict else e), p)
    | inr _ =>
        let single := negb (Multicluster p) in
        let p := if single then with_settings (set_ApiKeys (λ _, [{| k_Key := key; k_Description := "default" |}])) p else p in
        r ← (if single then SaveProjectSettings p else mret (inr tt));
        match r with
        | inl e => mret (Some e, p)
        | inr _ =>
            r ← AlertStore.InitBuiltinAlertingRules id builtins;
            mret (match r with inl e => Some (ErrOther e) | inr _ => None end, p)
        end
    end
  else
    r ← rename_project (p_Id p) (p_Name p);
    mret (match r with inl e => Some e | inr _ => None end, p).

(** A foreign key to [project(id)] that holds on to the project. *)
Definition referenced (id : string) (pt : ProjectTables) (t : Tables) : bool :=
  existsb (λ r, String.eqb (ck_project_id r) id) (t_check_configs t)
  || existsb (λ r, String.eqb (ir_project_id r) id) (t_incident t)
  || existsb (λ r, String.eqb (in_project_id r) id) (t_incident_notification t)
  || existsb (λ r, String.eqb (an_project_id r) id) (t_alert_notification t)
  || existsb (λ r, String.eqb (dr_project_id r) id) (t_application_deployment t)
  || existsb (λ r, String.eqb (asr_project_id r) id) (t_application_settings pt)
  || existsb (λ r, String.eqb (dsr_project_id r) id) (t_dashboards pt)
  || existsb (λ r, String.eqb (ru_project_id r) id) (t_alerting_rule t)
  || existsb (λ r, String.eqb (r_project_id r) id) (t_alert t).

(** The statements of the transaction of [DeleteProject]. *)
Definition delete_where {R} (p : R → bool) (rows : list R) : list R := List.filter (λ r, negb (p r)) rows.
Definition delete_steps (id : string) : list (ProjectTables * Tables → db_error + (ProjectTables * Tables)) := [
  (λ '(pt, t), inr (pt, with_check_configs (delete_where (λ r, String.eqb (ck_project_id r) id)) t));
  (λ '(pt, t), inr (pt, with_incident_notification (delete_where (λ r, String.eqb (in_project_id r) id)) t));
  (λ '(pt, t), inr (pt, with_incident (delete_where (λ r, String.eqb (ir_project_id r) id)) t));
  (λ '(pt, t), inr (pt, with_application_deployment (delete_where (λ r, String.eqb (dr_project_id r) id)) t));
  (λ '(pt, t), inr (with_application_settings (delete_where (λ r, String.eqb (asr_project_id r) id)) pt, t));
  (λ '(pt, t), inr (with_dashboards (delete_where (λ r, String.eqb (dsr_project_id r) id)) pt, t));
  (λ '(pt, t), inr (pt, with_alert (delete_where (λ r, String.eqb (r_project_id r) id)) t));
  (λ '(pt, t), inr (pt, with_alerting_rule (delete_where (λ r, String.eqb (ru_project_id r) id)) t));
  (λ '(pt, t), inr ({| t_project := t_project pt; t_application_settings := t_application_settings pt; t_dashboards := t_dashboards pt;
                       t_clickhouse_schema := filter (λ kv, fst (fst kv) ≠ id) (t_clickhouse_schema pt) |}, t));
  (λ '(pt, t), if existsb (is_project id) (t_project pt) && referenced id pt t then inl (ErrOther "foreign_key_violation")
               else inr (with_project (delete_where (is_project id)) pt, t))].

(** A transaction: nothing is changed before the commit. *)
Fixpoint transaction (l : list (ProjectTables * Tables → db_error + (ProjectTables * Tables))) (tx : ProjectTables * Tables) : PM (db_error + unit) :=
  λ s,
  match env_fault (sys_ticks s) with
  | Some err => (inl (ErrOther err), tick s)
  | None =>
      match l with
      | [] => (inr tt, Build_Sys (fst tx) (snd tx) (S (sys_ticks s)))
      | q :: l =>
          match q tx with
          | inl err => (inl err, tick s)
          | inr tx => transaction l tx (tick s)
          end
      end
  end.

(** The [Begin] may fail as well. *)
Definition DeleteProject (id : string) : PM (db_error + unit) := λ s,
  match env_fault (sys_ticks s) with
  | Some err => (inl (ErrOther err), tick s)
  | None => transaction (delete_steps id) (sys_mem s, sys_tables s) (tick s)
  end.

Definition update_project (id : string) (f : ProjectSettings → ProjectSettings) : PM (db_error + unit) :=
  r ← GetProject id;
  match r with inl e => mret (inl e) | inr p => SaveProjectSettings (with_settings f p) end.

(** The patterns that are not blank, trimmed; none deletes the application. *)
Definition trimmed_patterns (l : list string) : list string := filter (λ s, s ≠ "") (RecordingRules.TrimSpace <$> l).
Definition save_custom_application (name newName : string) (instancePatterns : list string) (m : gmap string (list string)) : gmap string (list string) :=
  match trimmed_patterns instancePatterns with
  | [] => delete name m
  | patterns => if String.eqb name newName then <[name := patterns]> m else <[newName := patterns]> (delete name m)
  end.
Definition SaveCustomApplication (id name newName : string) (instancePatterns : list string) : PM (db_error + unit) :=
  update_project id (λ s, set_CustomApplications (save_custom_application name newName instancePatterns (ps_CustomApplications s)) s).

Definition SaveIntegrationsBaseUrl (id baseUrl : string) : PM (db_error + unit) :=
  update_project id (set_Integrations (λ i,
    {| i_Clickhouse := i_Clickhouse i; i_AWS := i_AWS i; i_Readonly := i_Readonly i; i_BaseUrl := baseUrl; i_Slack := i_Slack i;
       i_Teams := i_Teams i; i_Pagerduty := i_Pagerduty i; i_Opsgenie := i_Opsgenie i; i_Webhook := i_Webhook i |})).
Definition SaveProjectIntegration (p : Project) (type : string) : PM (db_error + unit) := SaveProjectSettings p.

(** db/application_settings.go *)
Definition settings_of (projectId : string) (appId : ApplicationId) (r : ApplicationSettingsRow) : bool :=
  String.eqb (asr_project_id r) projectId && String.eqb (asr_application_id r) (AppIdString appId).
Definition GetApplicationSettings (projectId : string) (appId : ApplicationId) : PM (db_error + option ApplicationSettings) :=
  read (λ t, inr (match List.find (settings_of projectId appId) (t_application_settings t) with
                  | Some r => asr_settings r
                  | None => None
                  end)).
Definition row_set_app_settings (a : ApplicationSettings) (r : ApplicationSettingsRow) : ApplicationSettingsRow :=
  {| asr_project_id := asr_project_id r; asr_application_id := asr_application_id r; asr_settings := Some a |}.
Definition insert_settings (projectId : string) (appId : ApplicationId) (a : ApplicationSettings) : PM (db_error + unit) :=
  write (λ t, if existsb (settings_of projectId appId) (t_application_settings t) then inl (ErrOther unique_violation)
              else inr (with_application_settings (λ l, (l ++ [{| asr_project_id := projectId; asr_application_id := AppIdString appId;
                                                                  asr_settings := Some a |}])%list) t)).
Definition SaveApplicationSetting (projectId : string) (appId : ApplicationId) (v : setting) : PM (db_error + unit) :=
  r ← GetApplicationSettings projectId appId;
  match r with
  | inl e => mret (inl e)
  | inr None => insert_settings projectId appId (apply_setting v no_application_settings)
  | inr (Some a) =>
      write (λ t, inr (with_application_settings (update_where (settings_of projectId appId) (row_set_app_settings (apply_setting v a))) t))
  end.

(** The settings of a project by application; a row without settings or
    whose id does not parse is skipped, and of the rows of one application the last counts. *)
Definition GetApplicationSettingsByProject (projectId : string) : PM (db_error + gmap ApplicationId ApplicationSettings) :=
  read (λ t, inr (foldl (λ m r,
    if String.eqb (asr_project_id r) projectId then
      match asr_settings r, NewApplicationIdFromString (asr_application_id r) projectId with
      | Some a, Some id => <[id := a]> m
      | _, _ => m
      end
    else m) ∅ (t_application_settings t))).

(** db/dashboards.go *)
Definition is_dashboard (projectId id : string) (r : DashboardRow) : bool :=
  String.eqb (dsr_project_id r) projectId && String.eqb (d_Id (dsr_dashboard r)) id.
Definition GetDashboards (projectId : string) : PM (db_error + list Dashboard) :=
  read (λ t, inr ((λ r, let d := dsr_dashboard r in {| d_Id := d_Id d; d_Name := d_Name d; d_Description := d_Description d; d_Config := [] |})
                  <$> where_ (λ r, String.eqb (dsr_project_id r) projectId) (t_dashboards t))).
Definition GetDashboard (projectId id : string) : PM (db_error + Dashboard) :=
  read (λ t, match List.find (is_dashboard projectId id) (t_dashboards t) with
             | Some r => let d := dsr_dashboard r in inr {| d_Id := id; d_Name := d_Name d; d_Description := ""; d_Config := d_Config d |}
             | None => inl ErrNotFound
             end).
Definition CreateDashboard (projectId name description : string) : PM (string * option db_error) :=
  id ← NanoId;
  r ← write (λ t, if existsb (is_dashboard projectId id) (t_dashboards t) then inl (ErrOther unique_violation)
                  else inr (with_dashboards (λ l, (l ++ [{| dsr_project_id := projectId;
                    dsr_dashboard := {| d_Id := id; d_Name := name; d_Description := description; d_Config := [] |} |}])%list) t));
  mret (id, match r with inl e => Some e | inr _ => None end).
Definition change_dashboard (projectId id : string) (f : Dashboard → Dashboard) : PM (db_error + unit) :=
  write (λ t, inr (with_dashboards (update_where (is_dashboard projectId id)
    (λ r, {| dsr_project_id := dsr_project_id r; dsr_dashboard := f (dsr_dashboard r) |})) t)).
Definition UpdateDashboard (projectId id name description : string) : PM (db_error + unit) :=
  change_dashboard projectId id (λ d, {| d_Id := d_Id d; d_Name := name; d_Description := description; d_Config := d_Config d |}).
Definition SaveDashboardConfig (projectId id : string) (config : DashboardConfig) : PM (db_error + unit) :=
  change_dashboard projectId id (λ d, {| d_Id := d_Id d; d_Name := d_Name d; d_Description := d_Description d; d_Config := config |}).
Definition DeleteDashboard (projectId id : string) : PM (db_error + unit) :=
  write (λ t, inr (with_dashboards (delete_where (is_dashboard projectId id)) t)).
End statements.

(** * Facts *)
Module ProjectsFacts.
Section facts.
Context `{Env}.

Lemma existsb_delete_where {R} (p : R → bool) (l : list R) : existsb p (delete_where p l) = false.
Proof.
  unfold delete_where. apply not_true_is_false. intros (r & [_ Hn]%filter_In & Hp)%existsb_exists.
  by rewrite Hp in Hn.
Qed.

(** What the deletes of the transaction leave. *)
Definition without (id : string) (pt : ProjectTables) (t : Tables) : ProjectTables * Tables :=
  ({| t_project := delete_where (is_project id) (t_project pt);
      t_application_settings := delete_where (λ r, String.eqb (asr_project_id r) id) (t_application_settings pt);
      t_dashboards := delete_where (λ r, String.eqb (dsr_project_id r) id) (t_dashboards pt);
      t_clickhouse_schema := filter (λ kv, fst (fst kv) ≠ id) (t_clickhouse_schema pt) |},
   {| t_alert := delete_where (λ r, String.eqb (r_project_id r) id) (t_alert t);
      t_alerting_rule := delete_where (λ r, String.eqb (ru_project_id r) id) (t_alerting_rule t);
      t_alert_notification := t_alert_notification t;
      t_incident := delete_where (λ r, String.eqb (ir_project_id r) id) (t_incident t);
      t_incident_notification := delete_where (λ r, String.eqb (in_project_id r) id) (t_incident_notification t);
      t_check_configs := delete_where (λ r, String.eqb (ck_project_id r) id) (t_check_configs t);
      t_application_deployment := delete_where (λ r, String.eqb (dr_project_id r) id) (t_application_deployment t) |}).

(** An alert notification of a project that is there. *)
Definition notified (id : string) (pt : ProjectTables) (t : Tables) : bool :=
  existsb (is_project id) (t_project pt) && existsb (λ r, String.eqb (an_project_id r) id) (t_alert_notification t).

(** A transaction all of whose calls go through. *)
Fixpoint run_steps (l : list (ProjectTables * Tables → db_error + (ProjectTables * Tables))) (tx : ProjectTables * Tables) : db_error + (ProjectTables * Tables) :=
  match l with
  | [] => inr tx
  | q :: l => match q tx with inl e => inl e | inr tx => run_steps l tx end
  end.

Lemma transaction_inv l tx (s : Sys ProjectTables) :
  let '(r, s') := transaction l tx s in
  match r with
  | inl _ => sys_mem s' = sys_mem s ∧ sys_tables s' = sys_tables s
  | inr _ => run_steps l tx = inr (sys_mem s', sys_tables s')
  end.
Proof.
  revert tx s. induction l as [|q l IH]; intros tx s; cbn [transaction run_steps].
  - destruct (env_fault _); [done|]. cbn. by destruct tx.
  - destruct (env_fault _); [done|]. destruct (q tx) as [e|tx']; [done|].
    specialize (IH tx' (tick s)). destruct (transaction l tx' (tick s)) as [[e|[]] s']; done.
Qed.

(** Without a failing call, the transaction does what its steps do. *)
Lemma transaction_run l tx (s : Sys ProjectTables) : (∀ n, env_fault n = None) →
  fst (transaction l tx s) = match run_steps l tx with inl e => inl e | inr _ => inr tt end.
Proof.
  intros Hf. revert tx s. induction l as [|q l IH]; intros tx s; cbn [transaction run_steps]; rewrite Hf; [done|].
  destruct (q tx); [done|]. apply IH.
Qed.

Lemma delete_steps_run id pt t :
  run_steps (delete_steps id) (pt, t)
  = if notified id pt t then inl (ErrOther "foreign_key_violation") else inr (without id pt t).
Proof.
  unfold delete_steps, notified, without. cbn -[existsb delete_where].
  unfold referenced. cbn -[existsb delete_where]. rewrite !existsb_delete_where. cbn -[existsb delete_where].
  rewrite ?orb_false_r. by destruct (existsb (is_project id) _), (existsb _ (t_alert_notification t)).
Qed.

Lemma exec_inv {A} (q : ProjectTables * Tables → db_error + (A * (ProjectTables * Tables))) (s : Sys ProjectTables) :
  let '(r, s') := exec q s in
  match r with
  | inl _ => sys_mem s' = sys_mem s ∧ sys_tables s' = sys_tables s
  | inr a => q (sys_mem s, sys_tables s) = inr (a, (sys_mem s', sys_tables s'))
  end.
Proof. unfold exec. destruct (env_fault _); [done|]. destruct (q _) as [e|[a [pt t]]]; done. Qed.

Lemma find_update {R} (p : R → bool) (f : R → R) (l : list R) :
  (∀ r, p (f r) = p r) → List.find p (update_where p f l) = f <$> List.find p l.
Proof.
  intros Hp. induction l as [|r l IH]; [done|]. cbn. destruct (p r) eqn:E; cbn; [by rewrite Hp, E|].
  rewrite E. apply IH.
Qed.

Lemma find_update_other {R} (p p' : R → bool) (f : R → R) (l : list R) :
  (∀ r, p' (f r) = p' r) → (∀ r, p r = true → p' r = true → False) → List.find p' (update_where p f l) = List.find p' l.
Proof.
  intros Hp Hd. induction l as [|r l IH]; [done|]. cbn. destruct (p r) eqn:E; cbn; rewrite ?Hp.
  - destruct (p' r) eqn:E'; [by destruct (Hd r)|]. apply IH.
  - destruct (p' r); [done|]. apply IH.
Qed.

Lemma find_app_None {R} (p : R → bool) (l k : list R) : List.find p l = None → List.find p (l ++ k)%list = List.find p k.
Proof. induction l as [|r l IH]; [done|]. cbn. destruct (p r); [done|]. apply IH. Qed.

Lemma find_app_other {R} (p : R → bool) (l : list R) r : p r = false → List.find p (l ++ [r])%list = List.find p l.
Proof. intros Hp. induction l as [|x l IH]; cbn; [by rewrite Hp|]. by destruct (p x). Qed.

Lemma find_None_existsb {R} (p : R → bool) (l : list R) : existsb p l = false ↔ List.find p l = None.
Proof. induction l as [|r l IH]; [done|]. cbn. by destruct (p r). Qed.

Lemma settings_of_keys projectId appId r :
  settings_of projectId appId r = true ↔ asr_project_id r = projectId ∧ asr_application_id r = AppIdString appId.
Proof. unfold settings_of. by rewrite andb_true_iff, !String.eqb_eq. Qed.
End facts.
End ProjectsFacts.

Module ProjectsTheorems.
Import ProjectsFacts.
Section theorems.
Context `{Env}.

(** C27 Deleting a project: either nothing is changed, or the project is gone with
    everything that refers to it, and nothing else; and for a project that was
    ever notified of an alert it is always the former, since its rows in
    alert_notification, which refer to the project, are not deleted. *)
Theorem DeleteProject_spec id (s : Sys ProjectTables) :
  let '(r, s') := DeleteProject id s in
  match r with
  | inl _ => sys_mem s' = sys_mem s ∧ sys_tables s' = sys_tables s
  | inr _ => (sys_mem s', sys_tables s') = without id (sys_mem s) (sys_tables s)
             ∧ notified id (sys_mem s) (sys_tables s) = false
  end
  ∧ ((∀ n, env_fault n = None) → (r = inr tt ↔ notified id (sys_mem s) (sys_tables s) = false)).
Proof.
  unfold DeleteProject. destruct (env_fault (sys_ticks s)) eqn:F.
  { cbn. split; [done|]. intros Hf. by rewrite Hf in F. }
  assert (T := transaction_inv (delete_steps id) (sys_mem s, sys_tables s) (tick s)).
  assert (R := transaction_run (delete_steps id) (sys_mem s, sys_tables s) (tick s)).
  rewrite delete_steps_run in T, R. destruct (transaction _ _ (tick s)) as [r s']. cbn in R. split.
  - destruct r as [e|[]]; [done|]. destruct (notified _ _ _); [done|]. by split; [congruence|].
  - intros Hf. rewrite (R Hf). by destruct (notified _ _ _).
Qed.

(** A setting saved for an application is the one read back, the other settings
    of the application are kept, and so are the rows of every other
    application. *)
Theorem SaveApplicationSetting_then_Get projectId appId v (s s' : Sys ProjectTables) :
  SaveApplicationSetting projectId appId v s = (inr tt, s') →
  let find p a (t : ProjectTables) := List.find (settings_of p a) (t_application_settings t) in
  (∃ a, a = match find projectId appId (sys_mem s) with Some r => default no_application_settings (asr_settings r) | None => no_application_settings end
     ∧ asr_settings <$> find projectId appId (sys_mem s') = Some (Some (apply_setting v a)))
  ∧ ∀ p a, (p, AppIdString a) ≠ (projectId, AppIdString appId) → find p a (sys_mem s') = find p a (sys_mem s).
Proof.
  intros Hs find. unfold SaveApplicationSetting, GetApplicationSettings, read in Hs. unfold mbind, M_bind in Hs.
  match type of Hs with context [exec ?q s] => assert (G := exec_inv q s); destruct (exec q s) as [[e|o] s1] end; [done|].
  cbn in G. injection G as <- Em Et. subst find. cbn beta.
  destruct (List.find (settings_of projectId appId) (t_application_settings (sys_mem s))) as [r|] eqn:Fd; cbn [fst] in *.
  - destruct (asr_settings r) as [a|] eqn:Sa.
    + unfold write in Hs. match type of Hs with exec ?q s1 = _ => assert (W := exec_inv q s1) end. rewrite Hs in W. cbn in W. injection W as Wm Wt.
      rewrite <- Wm. cbn. rewrite <- Em. split.
      * exists a. split; [done|]. rewrite find_update by done. by rewrite Fd.
      * intros p a' Hn. apply find_update_other; [done|]. intros x H1%settings_of_keys H2%settings_of_keys. apply Hn. destruct H1 as [<- <-], H2 as [<- <-]. done.
    + unfold insert_settings, write in Hs. match type of Hs with exec ?q s1 = _ => assert (W := exec_inv q s1) end. rewrite Hs in W. cbn in W.
      rewrite <- Em in W. destruct (existsb _ _) eqn:Ex; [done|]. apply find_None_existsb in Ex. by rewrite Fd in Ex.
  - unfold insert_settings, write in Hs. match type of Hs with exec ?q s1 = _ => assert (W := exec_inv q s1) end. rewrite Hs in W. cbn in W.
    rewrite <- Em in W. destruct (existsb _ _) eqn:Ex; [done|]. injection W as Wm Wt. rewrite <- Wm. cbn. split.
    + exists no_application_settings. split; [done|]. rewrite find_app_None by done. cbn. unfold settings_of at 1. cbn. by rewrite !String.eqb_refl.
    + intros p a' Hn. apply find_app_other. apply not_true_is_false. intros [E1 E2]%settings_of_keys. cbn in E1, E2. apply Hn. congruence.
Qed.
End theorems.
End ProjectsTheorems.

(** * Runs *)
Module ProjectsRuns.
Import ProjectsFacts ProjectsTheorems.

Definition run_env : Env := steady_env 1000.
#[local] Existing Instance run_env.

Definition run_project : ProjectRow := {| pr_id := "p1"; pr_name := "prod"; pr_settings := None |}.
Definition run_note : AlertNotificationRow :=
  {| an_project_id := "p1"; an_alert_id := "a"; an_rule_id := "r"; an_application_id := "p1:default:Deployment:api"; an_status := 3;
     an_destination := "slack:ops"; an_timestamp := 900; an_sent_at := 901; an_external_key := ""; an_details := None |}.
Definition run_tables (notes : list AlertNotificationRow) : Sys ProjectTables :=
  Build_Sys {| t_project := [run_project]; t_application_settings := []; t_dashboards := []; t_clickhouse_schema := ∅ |}
    {| t_alert := []; t_alerting_rule := []; t_alert_notification := notes; t_incident := []; t_incident_notification := [];
       t_check_configs := []; t_application_deployment := [] |} 0.

(** A project without alert notifications is deleted; one with a single
    notification, delivered long ago, cannot be. *)
Example project_delete_run : fst (DeleteProject "p1" (run_tables [])) = inr tt. Proof. reflexivity. Qed.
Example project_delete_blocked_run : fst (DeleteProject "p1" (run_tables [run_note])) = inl (ErrOther "foreign_key_violation"). Proof. reflexivity. Qed.

Definition run_app : ApplicationId := {| AppId.ClusterId := "p1"; Namespace := "default"; Kind := "Deployment"; Name := "api" |}.

Lemma SaveApplicationSetting_then_Get_witness :
  asr_settings <$> List.find (settings_of "p1" run_app)
    (t_application_settings (sys_mem (snd (SaveApplicationSetting "p1" run_app (SettingLogs "api-logs") (run_tables [])))))
  = Some (Some (apply_setting (SettingLogs "api-logs") no_application_settings)).
Proof.
  destruct (SaveApplicationSetting_then_Get "p1" run_app (SettingLogs "api-logs") (run_tables [])
    (snd (SaveApplicationSetting "p1" run_app (SettingLogs "api-logs") (run_tables [])))) as [(a & -> & R) _].
  - vm_compute. reflexivity.
  - exact R.
Defined.

(** A blank pattern is no pattern: saving only such deletes the application. *)
Example custom_rename : save_custom_application "a" "b" [" x* "; " "] {["a" := ["y"]]} = {["b" := ["x*"]]}. Proof. by vm_compute. Qed.
Example custom_delete : save_custom_application "a" "b" [" "] {["a" := ["y"]]} = ∅. Proof. by vm_compute. Qed.

(** A second project of the same name is a conflict; renaming to it is an
    error like any other. *)
Example save_conflict : fst (fst (SaveProject [] "k" {| p_Id := ""; p_Name := "prod"; p_Settings := no_settings |} (run_tables []))) = Some ErrConflict.
Proof. reflexivity. Qed.
Example rename_conflict :
  let s := Build_Sys {| t_project := [run_project; {| pr_id := "p2"; pr_name := "dev"; pr_settings := None |}];
                        t_application_settings := []; t_dashboards := []; t_clickhouse_schema := ∅ |} no_tables 0 in
  fst (fst (SaveProject [] "k" {| p_Id := "p2"; p_Name := "prod"; p_Settings := no_settings |} s)) = Some (ErrOther unique_violation).
Proof. reflexivity. Qed.
End ProjectsRuns.
