(* ===== verification/Forms.v ===== *)
(** The forms of the API: api/forms/forms.go and api/forms/auth.go.

    A form is what a request body decodes to ([ReadJson]); [Valid] checks it and,
    for some, cleans it.  The forms of the integrations also show a project's
    configuration ([Get], with the credentials masked or not), change it
    ([Update]) and test it ([Test]). *)

From S2P Require Import Checks GoNet RecordingRules.
From S2P Require Export Projects.
From Stdlib Require Import Ascii String ZArith Lia.
Local Open Scope string_scope.

(** [slugRe]: [^[-_0-9a-z]{3,}$]. *)
Definition slug_char (a : ascii) : bool :=
  let n := nat_of_ascii a in
  ((n =? 45) || (n =? 95) || (48 <=? n) && (n <=? 57) || (97 <=? n) && (n <=? 122))%nat.
Fixpoint all_chars (p : ascii → bool) (s : string) : bool :=
  match s with EmptyString => true | String a s => p a && all_chars p s end.
Definition slug (s : string) : bool := (3 <=? String.length s)%nat && all_chars slug_char s.

Example slug1 : slug "my_app-1" = true. Proof. reflexivity. Qed.
Example slug2 : slug "ab" = false. Proof. reflexivity. Qed.
Example slug3 : slug "Prod" = false. Proof. reflexivity. Qed.

(** * Forms *)
Record LoginForm := { lf_Email : string; lf_Password : string; lf_Action : string }.
Definition LoginForm_Valid (f : LoginForm) : bool := negb (String.eqb (lf_Email f) "") && negb (String.eqb (lf_Password f) "").

Record ChangePasswordForm := { cf_OldPassword : string; cf_NewPassword : string }.
Definition ChangePasswordForm_Valid (f : ChangePasswordForm) : bool :=
  negb (String.eqb (cf_OldPassword f) "") && negb (String.eqb (cf_NewPassword f) "").

Definition UserActionCreate : string := "create".
Definition UserActionUpdate : string := "update".
Definition UserActionDelete : string := "delete".
Record UserForm := { uf_Action : string; uf_Id : Z; uf_Email : string; uf_Name : string; uf_Role : string; uf_Password : string }.
(** The result of [Valid] is the form it leaves, [None] when it is invalid. *)
Definition UserForm_Valid (f : UserForm) : option UserForm :=
  if String.eqb (uf_Action f) UserActionDelete then Some f
  else
    let f := {| uf_Action := uf_Action f; uf_Id := uf_Id f; uf_Email := TrimSpace (uf_Email f); uf_Name := TrimSpace (uf_Name f);
                uf_Role := uf_Role f; uf_Password := uf_Password f |} in
    if negb (String.eqb (uf_Email f) "") && negb (String.eqb (uf_Name f) "") then Some f else None.

Record ProjectForm := { pf_Name : string; pf_MemberProjects : list string }.
Definition ProjectForm_Valid (f : ProjectForm) : bool := slug (pf_Name f) && forallb slug (pf_MemberProjects f).

Record ApiKeyForm := { kf_Action : string; kf_ApiKey : ApiKey }.
Record DashboardForm := { df_Action : string; df_Dashboard : Dashboard }.
Definition DashboardForm_Valid (f : DashboardForm) : bool := negb (String.eqb (d_Name (df_Dashboard f)) "").

(** The configurations of a check, by its level: of all, of the project, of the application. *)
Definition CheckConfigForm : Type := list (option CheckConfigSimple).
Definition CheckConfigSLOAvailabilityForm : Type := list CheckConfigSLOAvailability.
Definition CheckConfigSLOLatencyForm : Type := list CheckConfigSLOLatency.

(** What the parser of PromQL says of a query: its error. *)
Class PromParser := { ParseExpr_error : string → option string }.

Definition CheckConfigSLOAvailabilityForm_Valid (f : CheckConfigSLOAvailabilityForm) : bool :=
  forallb (λ c, negb (ca_Custom c && (String.eqb (ca_TotalRequestsQuery c) "" || String.eqb (ca_FailedRequestsQuery c) ""))) f.
Definition CheckConfigSLOLatencyForm_Valid (f : CheckConfigSLOLatencyForm) : bool :=
  forallb (λ c, negb (cl_Custom c && (String.eqb (cl_HistogramQuery c) "" || F32.leb (cl_ObjectiveBucket c) F32.zero))) f.

Section promql.
Context `{PromParser}.

Definition validateCustomQuery (query : string) : option string :=
  match ParseExpr_error (ReplaceAll query "$RANGE" "1m") with Some e => Some ("invalid query: " ++ e) | None => None end.
Definition Total (c : CheckConfigSLOAvailability) : string := "sum(rate(" ++ ca_TotalRequestsQuery c ++ "[$RANGE]))".
Definition Failed (c : CheckConfigSLOAvailability) : string := "sum(rate(" ++ ca_FailedRequestsQuery c ++ "[$RANGE]))".
Definition Histogram (c : CheckConfigSLOLatency) : string := "sum by(le)(rate(" ++ cl_HistogramQuery c ++ "[$RANGE]))".

(** [Validate]: the first error. *)
Definition CheckConfigSLOAvailabilityForm_Validate (f : CheckConfigSLOAvailabilityForm) : option string :=
  first_error (f ≫= λ c, if ca_Custom c then [validateCustomQuery (Total c); validateCustomQuery (Failed c)] else []).
Definition CheckConfigSLOLatencyForm_Validate (f : CheckConfigSLOLatencyForm) : option string :=
  first_error (f ≫= λ c, if cl_Custom c then [validateCustomQuery (Histogram c)] else []).
End promql.

(** The destinations of a test notification. *)
Record TestForm := { tf_Incident : option Categories.Destinations; tf_Deployment : option Categories.Destinations }.
Record ApplicationCategoryForm := {
  acf_Action : string; acf_Id : string; acf_Category : Categories.ApplicationCategory; acf_Test : option TestForm }.

Definition category_pattern (p : string) : bool :=
  (List.length (Split "/" p) =? 2)%nat && match p with String a _ => negb (Ascii.eqb a "/") | EmptyString => false end.
Definition ApplicationCategoryForm_Valid (f : ApplicationCategoryForm) : bool :=
  match acf_Test f with
  | Some _ => true
  | None =>
      let patterns := Fields (Categories.ac_CustomPatterns (acf_Category f)) in
      slug (Categories.ac_Name (acf_Category f)) && GlobValidate patterns && forallb category_pattern patterns
  end.

Example category_pattern1 : category_pattern "ns/app*" = true. Proof. reflexivity. Qed.
Example category_pattern2 : category_pattern "/app" = false. Proof. reflexivity. Qed.
Example category_pattern3 : category_pattern "a/b/c" = false. Proof. reflexivity. Qed.

(** A notification client with its credentials, and what is sent with it. *)
Inductive client :=
| ClientSlack (token channel : string)
| ClientTeams (url : string)
| ClientPagerduty (key : string)
| ClientOpsgenie (key : string) (eu : bool)
| ClientWebhook (cfg : IntegrationWebhook).
Inductive sample := SampleIncident | SampleDeployment.

Definition or_text (a b : string) : string := if String.eqb a "" then b else a.
Definition slack_client (ch : option Categories.ChannelSettings) (i : Integrations) : option client :=
  match ch, i_Slack i with
  | Some ch, Some s => Some (ClientSlack (sl_Token s) (or_text (Categories.cs_Channel ch) (Categories.sl_DefaultChannel (sl_notify s))))
  | _, _ => None
  end.
Definition teams_client (ch : option Categories.ChannelSettings) (i : Integrations) : option client :=
  match ch, i_Teams i with
  | Some ch, Some t => Some (ClientTeams (Categories.GetWebhookUrl (Categories.cs_Channel ch) t))
  | _, _ => None
  end.
Definition both {A B C} (a : option A) (b : option B) (f : B → C) : option C := match a with Some _ => f <$> b | None => None end.

(** The client is that of the last destination that has one. *)
Definition last_of {A} (l : list (option A)) : option A := last (omap id l).
(** [SendTestNotification]: the client and what it sends, if anything. *)
Definition SendTestNotification (f : ApplicationCategoryForm) (p : Project) : option (client * sample) :=
  let i := ps_Integrations (p_Settings p) in
  match acf_Test f with
  | None => None
  | Some t =>
      match tf_Incident t, tf_Deployment t with
      | Some d, _ =>
          (λ c, (c, SampleIncident)) <$> last_of [slack_client (Categories.nd_Slack d) i; teams_client (Categories.nd_Teams d) i;
            both (Categories.nd_Pagerduty d) (i_Pagerduty i) (λ c, ClientPagerduty (pd_IntegrationKey c));
            both (Categories.nd_Opsgenie d) (i_Opsgenie i) (λ c, ClientOpsgenie (og_ApiKey c) (og_EUInstance c));
            both (Categories.nd_Webhook d) (i_Webhook i) ClientWebhook]
      | None, Some d =>
          (λ c, (c, SampleDeployment)) <$> last_of [slack_client (Categories.nd_Slack d) i; teams_client (Categories.nd_Teams d) i;
            both (Categories.nd_Webhook d) (i_Webhook i) ClientWebhook]
      | None, None => None
      end
  end.

Record CustomApplicationForm := { caf_Name : string; caf_NewName : string; caf_InstancePatternsStr : string; caf_InstancePatterns : list string }.
Definition CustomApplicationForm_Valid (f : CustomApplicationForm) : option CustomApplicationForm :=
  if negb (slug (caf_NewName f)) then None
  else
    let patterns := Fields (caf_InstancePatternsStr f) in
    if GlobValidate patterns then
      Some {| caf_Name := caf_Name f; caf_NewName := caf_NewName f; caf_InstancePatternsStr := caf_InstancePatternsStr f; caf_InstancePatterns := patterns |}
    else None.

Definition CustomCloudPricingForm_Valid (f : CustomCloudPricing) : bool :=
  negb (F32.leb (cp_PerCPUCore f) F32.zero || F32.leb (cp_PerMemoryGb f) F32.zero).
Definition ApplicationInstrumentationForm_Valid (f : ApplicationInstrumentation) : bool := negb (String.eqb (ai_Port f) "").
Record ApplicationSettingsRisksForm := { rf_Action : string; rf_Category : string; rf_Type : string; rf_Reason : string }.

Definition IntegrationsForm_Valid `{UrlParse} (baseUrl : string) : option string :=
  if bool_decide (url_Parse baseUrl = None) || String.eqb baseUrl "" then None else Some (Format.TrimRight baseUrl "/").

(** * The forms of the integrations *)
Inductive IntegrationForm :=
| IntegrationFormClickhouse (c : IntegrationClickhouse) (global : option IntegrationClickhouse)
| IntegrationFormAWS (c : IntegrationAWS)
| IntegrationFormSlack (c : IntegrationSlack)
| IntegrationFormTeams (c : Categories.IntegrationTeams)
| IntegrationFormPagerduty (c : IntegrationPagerduty)
| IntegrationFormOpsgenie (c : IntegrationOpsgenie)
| IntegrationFormWebhook (c : IntegrationWebhook).

Definition no_clickhouse : IntegrationClickhouse :=
  {| ch_Global := false; ch_Protocol := ""; ch_Addr := ""; ch_Auth := {| ba_User := ""; ba_Password := "" |}; ch_Database := "";
     ch_InitialDatabase := ""; ch_TlsEnable := false; ch_TlsSkipVerify := false; ch_TlsCAFile := "" |}.
Definition no_aws : IntegrationAWS :=
  {| aws_Region := ""; aws_AccessKeyID := ""; aws_SecretAccessKey := ""; aws_RDSTagFilters := ∅; aws_ElasticacheTagFilters := ∅ |}.
Definition slack_of (incidents deployments : bool) (alerts : option bool) : IntegrationSlack :=
  {| sl_Token := ""; sl_notify := {| Categories.sl_DefaultChannel := ""; Categories.sl_Incidents := incidents;
     Categories.sl_Deployments := deployments; Categories.sl_Alerts := alerts |} |}.
Definition teams_of (channels : list (string * string)) (default : string) (incidents deployments : bool) (alerts : option bool) : Categories.IntegrationTeams :=
  {| Categories.te_WebhookUrl := ""; Categories.te_Channels := channels; Categories.te_DefaultChannel := default;
     Categories.te_Incidents := incidents; Categories.te_Deployments := deployments; Categories.te_Alerts := alerts |}.
Definition pagerduty_of (incidents : bool) (alerts : option bool) : IntegrationPagerduty :=
  {| pd_IntegrationKey := ""; pd_notify := {| Categories.pd_Incidents := incidents; Categories.pd_Alerts := alerts |} |}.
Definition opsgenie_of (incidents : bool) (alerts : option bool) : IntegrationOpsgenie :=
  {| og_ApiKey := ""; og_EUInstance := false; og_notify := {| Categories.og_Incidents := incidents; Categories.og_Alerts := alerts |} |}.
Definition webhook_of (incidents deployments : bool) (alerts : option bool) : IntegrationWebhook :=
  {| wh_Url := ""; wh_TlsSkipVerify := false; wh_BasicAuth := None; wh_CustomHeaders := []; wh_CustomFields := ∅;
     wh_IncidentTemplate := ""; wh_DeploymentTemplate := "";
     wh_notify := {| Categories.wh_Incidents := incidents; Categories.wh_Deployments := deployments; Categories.wh_Alerts := alerts;
                     Categories.wh_AlertTemplate := "" |} |}.

Definition IntegrationTypeClickhouse : string := "clickhouse".
Definition IntegrationTypeAWS : string := "aws".

Definition NewIntegrationForm (t : string) (globalClickHouse : option IntegrationClickhouse) : option IntegrationForm :=
  if String.eqb t IntegrationTypeClickhouse then Some (IntegrationFormClickhouse no_clickhouse globalClickHouse)
  else if String.eqb t IntegrationTypeAWS then Some (IntegrationFormAWS no_aws)
  else if String.eqb t IntegrationTypeSlack then Some (IntegrationFormSlack (slack_of false false None))
  else if String.eqb t IntegrationTypeTeams then Some (IntegrationFormTeams (teams_of [] "" false false None))
  else if String.eqb t IntegrationTypePagerduty then Some (IntegrationFormPagerduty (pagerduty_of false None))
  else if String.eqb t IntegrationTypeOpsgenie then Some (IntegrationFormOpsgenie (opsgenie_of false None))
  else if String.eqb t IntegrationTypeWebhook then Some (IntegrationFormWebhook (webhook_of false false None))
  else None.

Definition IntegrationForm_Valid `{UrlParse} (f : IntegrationForm) : bool :=
  match f with
  | IntegrationFormClickhouse c _ => match Net.SplitHostPort (ch_Addr c) with Some _ => true | None => false end
  | IntegrationFormAWS c =>
      negb (String.eqb (aws_Region c) "") && negb (String.eqb (aws_AccessKeyID c) "") && negb (String.eqb (aws_SecretAccessKey c) "")
  | IntegrationFormSlack c => bool_decide (Slack_Validate c = None)
  | IntegrationFormTeams c => bool_decide (Categories.GetChannels c = []) || bool_decide (Teams_Validate c = None)
  | IntegrationFormPagerduty c => bool_decide (Pagerduty_Validate c = None)
  | IntegrationFormOpsgenie c => bool_decide (Opsgenie_Validate c = None)
  | IntegrationFormWebhook c => bool_decide (Webhook_Validate c = None)
  end.

Definition hidden : string := "<hidden>".
Definition mask (masked : bool) (s : string) : string := if masked then hidden else s.

Definition get_clickhouse (c : IntegrationClickhouse) (global : option IntegrationClickhouse) (p : Project) (masked : bool) : IntegrationClickhouse :=
  let c := default c (ClickHouseConfig p global) in
  let user := or_text (ba_User (ch_Auth c)) "default" in
  {| ch_Global := ch_Global c; ch_Protocol := or_text (ch_Protocol c) "native"; ch_Addr := mask masked (ch_Addr c);
     ch_Auth := {| ba_User := mask masked user; ba_Password := mask masked (ba_Password (ch_Auth c)) |};
     ch_Database := or_text (ch_Database c) "default"; ch_InitialDatabase := ch_InitialDatabase c; ch_TlsEnable := ch_TlsEnable c;
     ch_TlsSkipVerify := ch_TlsSkipVerify c; ch_TlsCAFile := ch_TlsCAFile c |}.
Definition get_aws (c : IntegrationAWS) (p : Project) (masked : bool) : IntegrationAWS :=
  let c := default c (i_AWS (ps_Integrations (p_Settings p))) in
  {| aws_Region := aws_Region c; aws_AccessKeyID := mask masked (aws_AccessKeyID c); aws_SecretAccessKey := mask masked (aws_SecretAccessKey c);
     aws_RDSTagFilters := aws_RDSTagFilters c; aws_ElasticacheTagFilters := aws_ElasticacheTagFilters c |}.
Definition get_slack (p : Project) (masked : bool) : IntegrationSlack :=
  match i_Slack (ps_Integrations (p_Settings p)) with
  | None => slack_of true true (Some true)
  | Some c => {| sl_Token := mask masked (sl_Token c); sl_notify := sl_notify c |}
  end.
Definition get_teams (p : Project) (masked : bool) : Categories.IntegrationTeams :=
  match i_Teams (ps_Integrations (p_Settings p)) with
  | None => teams_of [(Categories.TeamsDefaultChannelName, "")] Categories.TeamsDefaultChannelName true true (Some true)
  | Some c => teams_of ((λ ch, (fst ch, mask masked (snd ch))) <$> Categories.GetChannels c) (Categories.GetDefaultChannel c)
                (Categories.te_Incidents c) (Categories.te_Deployments c) (Categories.te_Alerts c)
  end.
Definition get_pagerduty (p : Project) (masked : bool) : IntegrationPagerduty :=
  match i_Pagerduty (ps_Integrations (p_Settings p)) with
  | None => pagerduty_of true (Some true)
  | Some c => {| pd_IntegrationKey := mask masked (pd_IntegrationKey c); pd_notify := pd_notify c |}
  end.
Definition get_opsgenie (p : Project) (masked : bool) : IntegrationOpsgenie :=
  match i_Opsgenie (ps_Integrations (p_Settings p)) with
  | None => opsgenie_of true (Some true)
  | Some c => {| og_ApiKey := mask masked (og_ApiKey c); og_EUInstance := og_EUInstance c; og_notify := og_notify c |}
  end.
Definition get_webhook (p : Project) (masked : bool) : IntegrationWebhook :=
  match i_Webhook (ps_Integrations (p_Settings p)) with
  | None => webhook_of true true (Some true)
  | Some c => {| wh_Url := mask masked (wh_Url c); wh_TlsSkipVerify := wh_TlsSkipVerify c; wh_BasicAuth := wh_BasicAuth c;
                 wh_CustomHeaders := wh_CustomHeaders c; wh_CustomFields := wh_CustomFields c; wh_IncidentTemplate := wh_IncidentTemplate c;
                 wh_DeploymentTemplate := wh_DeploymentTemplate c; wh_notify := wh_notify c |}
  end.

(** [Get]: the project's configuration in the form (a new one). *)
Definition Get (f : IntegrationForm) (p : Project) (masked : bool) : IntegrationForm :=
  match f with
  | IntegrationFormClickhouse c g => IntegrationFormClickhouse (get_clickhouse c g p masked) g
  | IntegrationFormAWS c => IntegrationFormAWS (get_aws c p masked)
  | IntegrationFormSlack _ => IntegrationFormSlack (get_slack p masked)
  | IntegrationFormTeams _ => IntegrationFormTeams (get_teams p masked)
  | IntegrationFormPagerduty _ => IntegrationFormPagerduty (get_pagerduty p masked)
  | IntegrationFormOpsgenie _ => IntegrationFormOpsgenie (get_opsgenie p masked)
  | IntegrationFormWebhook _ => IntegrationFormWebhook (get_webhook p masked)
  end.

(** The integrations with the form's own set, or cleared. *)
Definition set_integration (f : IntegrationForm) (clear : bool) (i : Integrations) : Integrations :=
  let keep {A} (c : A) : option A := if clear then None else Some c in
  {| i_Clickhouse := match f with IntegrationFormClickhouse c _ => keep c | _ => i_Clickhouse i end;
     i_AWS := match f with IntegrationFormAWS c => keep c | _ => i_AWS i end;
     i_Readonly := i_Readonly i; i_BaseUrl := i_BaseUrl i;
     i_Slack := match f with IntegrationFormSlack c => keep c | _ => i_Slack i end;
     i_Teams := match f with
                | IntegrationFormTeams c => if bool_decide (Categories.GetChannels c = []) then None else keep c
                | _ => i_Teams i
                end;
     i_Pagerduty := match f with IntegrationFormPagerduty c => keep c | _ => i_Pagerduty i end;
     i_Opsgenie := match f with IntegrationFormOpsgenie c => keep c | _ => i_Opsgenie i end;
     i_Webhook := match f with IntegrationFormWebhook c => keep c | _ => i_Webhook i end |}.

(** Whether [Update] tests the form first. *)
Definition update_tests (f : IntegrationForm) (clear : bool) : bool :=
  negb clear && match f with IntegrationFormClickhouse _ None | IntegrationFormAWS _ => true | _ => false end.

(** [Update], given the result of the test: the error, or the project changed. *)
Definition Update (f : IntegrationForm) (clear : bool) (test : option string) (p : Project) : string + Project :=
  match f with
  | IntegrationFormClickhouse _ (Some _) => inl "global ClickHouse configuration is used and cannot be changed"
  | _ =>
      match (if update_tests f clear then test else None) with
      | Some e => inl e
      | None => inr (with_settings (set_Integrations (set_integration f clear)) p)
      end
  end.

(** What [Test] does: the pings and the sample notifications it sends in turn,
    until one fails, or an error without any. *)
Inductive probe := Ping (c : IntegrationClickhouse) | Send (c : client) (s : sample).
Definition test_probes (f : IntegrationForm) : string + list probe :=
  match f with
  | IntegrationFormClickhouse c _ => inr [Ping c]
  | IntegrationFormAWS _ => inr []
  | IntegrationFormSlack c => inr [Send (ClientSlack (sl_Token c) (Categories.sl_DefaultChannel (sl_notify c))) SampleIncident]
  | IntegrationFormTeams c =>
      let u := Categories.GetWebhookUrl "" c in
      if String.eqb u "" then inl "no channels configured" else inr [Send (ClientTeams u) SampleIncident]
  | IntegrationFormPagerduty c => inr [Send (ClientPagerduty (pd_IntegrationKey c)) SampleIncident]
  | IntegrationFormOpsgenie c => inr [Send (ClientOpsgenie (og_ApiKey c) (og_EUInstance c)) SampleIncident]
  | IntegrationFormWebhook c =>
      inr ((if Categories.wh_Incidents (wh_notify c) then [Send (ClientWebhook c) SampleIncident] else [])
           ++ (if Categories.wh_Deployments (wh_notify c) then [Send (ClientWebhook c) SampleDeployment] else []))%list
  end.

(** * Facts *)
Module FormsFacts.

(** A project without what must be hidden: API keys, and the credentials of its
    integrations. *)
Definition hide_clickhouse (c : IntegrationClickhouse) : IntegrationClickhouse :=
  {| ch_Global := ch_Global c; ch_Protocol := ch_Protocol c; ch_Addr := "";
     ch_Auth := {| ba_User := ""; ba_Password := "" |}; ch_Database := ch_Database c; ch_InitialDatabase := ch_InitialDatabase c;
     ch_TlsEnable := ch_TlsEnable c; ch_TlsSkipVerify := ch_TlsSkipVerify c; ch_TlsCAFile := ch_TlsCAFile c |}.
Definition hide_aws (c : IntegrationAWS) : IntegrationAWS :=
  {| aws_Region := aws_Region c; aws_AccessKeyID := ""; aws_SecretAccessKey := ""; aws_RDSTagFilters := aws_RDSTagFilters c;
     aws_ElasticacheTagFilters := aws_ElasticacheTagFilters c |}.
Definition hide_teams (c : Categories.IntegrationTeams) : Categories.IntegrationTeams :=
  teams_of ((λ ch, (fst ch, "")) <$> Categories.GetChannels c) (Categories.te_DefaultChannel c) (Categories.te_Incidents c)
    (Categories.te_Deployments c) (Categories.te_Alerts c).
Definition hide_webhook (c : IntegrationWebhook) : IntegrationWebhook :=
  {| wh_Url := ""; wh_TlsSkipVerify := wh_TlsSkipVerify c;
     wh_BasicAuth := (λ b, {| ba_User := ba_User b; ba_Password := "" |}) <$> wh_BasicAuth c;
     wh_CustomHeaders := (λ h, {| hd_Key := hd_Key h; hd_Value := "" |}) <$> wh_CustomHeaders c; wh_CustomFields := wh_CustomFields c;
     wh_IncidentTemplate := wh_IncidentTemplate c; wh_DeploymentTemplate := wh_DeploymentTemplate c; wh_notify := wh_notify c |}.
Definition hide_integrations (i : Integrations) : Integrations :=
  {| i_Clickhouse := hide_clickhouse <$> i_Clickhouse i; i_AWS := hide_aws <$> i_AWS i; i_Readonly := i_Readonly i; i_BaseUrl := i_BaseUrl i;
     i_Slack := (λ c, {| sl_Token := ""; sl_notify := sl_notify c |}) <$> i_Slack i; i_Teams := hide_teams <$> i_Teams i;
     i_Pagerduty := (λ c, {| pd_IntegrationKey := ""; pd_notify := pd_notify c |}) <$> i_Pagerduty i;
     i_Opsgenie := (λ c, {| og_ApiKey := ""; og_EUInstance := og_EUInstance c; og_notify := og_notify c |}) <$> i_Opsgenie i;
     i_Webhook := hide_webhook <$> i_Webhook i |}.
Definition hide_project (p : Project) : Project :=
  with_settings (λ s, set_Integrations hide_integrations
    (set_ApiKeys (fmap (λ k, {| k_Key := ""; k_Description := k_Description k |})) s)) p.
Definition is_webhook (f : IntegrationForm) : bool := match f with IntegrationFormWebhook _ => true | _ => false end.


(** What a masked form shows does not depend on the credentials, but for the
    webhook. *)
Lemma Get_masked f p : is_webhook f = false → Get f p true = Get f (hide_project p) true.
Proof.
  intros W. destruct f; cbn; f_equal; try done.
  - unfold get_clickhouse, ClickHouseConfig. cbn. by destruct (i_Clickhouse _), global.
  - unfold get_aws. cbn. by destruct (i_AWS _).
  - unfold get_slack. cbn. by destruct (i_Slack _).
  - unfold get_teams. cbn. destruct (i_Teams _) as [t|]; [cbn|done]. unfold teams_of. cbn. unfold Categories.GetDefaultChannel. cbn. f_equal.
    unfold Categories.GetChannels at 2. cbn. case_bool_decide as E.
    + apply fmap_nil_inv in E. by rewrite E.
    + rewrite <- list_fmap_compose. done.
  - unfold get_pagerduty. cbn. by destruct (i_Pagerduty _).
  - unfold get_opsgenie. cbn. by destruct (i_Opsgenie _).
Qed.

(** A masked form of a webhook shows the password and the headers. *)
Lemma webhook_shows_password p c :
  i_Webhook (ps_Integrations (p_Settings p)) = Some c →
  ∃ c', Get (IntegrationFormWebhook (webhook_of false false None)) p true = IntegrationFormWebhook c'
    ∧ wh_BasicAuth c' = wh_BasicAuth c ∧ wh_CustomHeaders c' = wh_CustomHeaders c.
Proof. intros E. cbn. unfold get_webhook. rewrite E. by eexists. Qed.

(** Saving a form changes its own integration only. *)
Lemma Update_inv f clear test p p' :
  Update f clear test p = inr p' → p' = with_settings (set_Integrations (set_integration f clear)) p.
Proof. unfold Update. destruct f as [c [g|]| | | | | |]; [done|..]; destruct (if update_tests _ _ then _ else _); try done; by intros [= <-]. Qed.
End FormsFacts.
