(* ===== verification/Api.v ===== *)
(** The HTTP handlers of the API: api/api.go, api/rca.go, api/cloud.go,
    api/prometheus.go, the routes of main.go and [Auth] of api/auth.go.

    A handler is a program: a sequence of calls of the database, of the evaluator
    and of what is outside, each with its answer, and of writes of the response.
    What a call does is modelled where its component is (Projects, AlertStore,
    IncidentStore, Checks and so on); here the answers are arbitrary, and any
    call may fail.  The rendering of a page is not modelled: a response holds what
    its view is given. *)

From S2P Require Queries PromQL Logs AppView.
From S2P Require Import Checks IncidentStore Rbac.
From S2P Require Export Forms.
From Stdlib Require Import Ascii String ZArith Lia.
Local Open Scope string_scope.
Local Open Scope Z_scope.

(** * Requests *)

(** What a request body is read as. *)
Inductive form_kind :=
| KChangePassword | KUser | KProject | KApiKey | KDashboard | KCategory | KCustomApplication | KPricing | KBaseUrl
| KClickhouse | KAWS | KSlack | KTeams | KPagerduty | KOpsgenie | KWebhook
| KIds | KRule | KCheck | KAvailability | KLatency | KInstrumentation | KService | KRisks | KCloud | KPanel.

Definition form_of (k : form_kind) : Type :=
  match k with
  | KChangePassword => ChangePasswordForm
  | KUser => UserForm
  | KProject => ProjectForm
  | KApiKey => ApiKeyForm
  | KDashboard => DashboardForm
  | KCategory => ApplicationCategoryForm
  | KCustomApplication => CustomApplicationForm
  | KPricing => CustomCloudPricing
  | KBaseUrl => string
  | KClickhouse => IntegrationClickhouse
  | KAWS => IntegrationAWS
  | KSlack => IntegrationSlack
  | KTeams => Categories.IntegrationTeams
  | KPagerduty => IntegrationPagerduty
  | KOpsgenie => IntegrationOpsgenie
  | KWebhook => IntegrationWebhook
  | KIds => list string
  | KRule => AlertingRule
  | KCheck => CheckConfigForm
  | KAvailability => CheckConfigSLOAvailabilityForm
  | KLatency => CheckConfigSLOLatencyForm
  | KInstrumentation => ApplicationInstrumentation
  | KService => string
  | KRisks => ApplicationSettingsRisksForm
  | KCloud => string * bool
  | KPanel => DashboardPanel
  end%type.

(** [r_json]: what the body decodes to as each form, or none; [r_panel]: the
    [query] parameter decoded as a panel. *)
Record Request := {
  r_Method : string;
  r_vars : string → string;
  r_query : string → list string;
  r_header : string → string;
  r_json : ∀ k, option (form_of k);
  r_panel : option DashboardPanel }.

Definition query_Get (r : Request) (k : string) : string := default "" (head (r_query r k)).
Definition query_Has (r : Request) (k : string) : bool := negb (bool_decide (r_query r k = [])).
Definition MethodGet := "GET".
Definition MethodPost := "POST".
Definition MethodPut := "PUT".
Definition MethodDelete := "DELETE".
Definition is_method (r : Request) (m : string) : bool := String.eqb (r_Method r) m.

(** [net/url.QueryUnescape] *)
Definition hex_value (a : ascii) : option N :=
  let n := N_of_ascii a in
  (if (48 <=? n) && (n <=? 57) then Some (n - 48)
   else if (97 <=? n) && (n <=? 102) then Some (n - 87)
   else if (65 <=? n) && (n <=? 70) then Some (n - 55) else None)%N.
Fixpoint QueryUnescape (s : string) : option string :=
  match s with
  | EmptyString => Some ""
  | String "%" (String a (String b s)) =>
      match hex_value a, hex_value b, QueryUnescape s with
      | Some x, Some y, Some s => Some (String (ascii_of_N (16 * x + y)%N) s)
      | _, _, _ => None
      end
  | String "%" _ => None
  | String a s => String (if Ascii.eqb a "+" then " " else a)%char <$> QueryUnescape s
  end.

Example unescape1 : QueryUnescape "a%3Ab+c" = Some "a:b c". Proof. reflexivity. Qed.
Example unescape2 : QueryUnescape "100%" = None. Proof. reflexivity. Qed.

Definition GetApplicationId (r : Request) : option ApplicationId :=
  s ← QueryUnescape (r_vars r "app"); NewApplicationIdFromString s "".

(** * Users *)
Record User := { u_Id : Z; u_Email : string; u_Name : string; u_Roles : list string; u_Anonymous : bool }.
Definition AdminUserLogin : string := "admin".
Definition AnonymousUser (role : string) : User :=
  {| u_Id := 0; u_Email := ""; u_Name := "Anonymous"; u_Roles := [role]; u_Anonymous := true |}.

(** * What the calls exchange *)

(** A world as the handlers use it: its window, the applications with their
    category and settings, the names of its nodes, and its check configurations
    if it has them.  The rest of it is only shown. *)
Record PageApp := { pa_Id : ApplicationId; pa_Category : string; pa_Settings : option ApplicationSettings }.
Record PageWorld := {
  pw_Ctx : Context; pw_Applications : list PageApp; pw_Nodes : list (string * string); pw_CheckConfigs : option CheckConfigs }.
Definition GetApplication (w : PageWorld) (id : ApplicationId) : option PageApp :=
  List.find (λ a, bool_decide (pa_Id a = id)) (pw_Applications w).
Definition GetNode (w : PageWorld) (name : string) : option (string * string) :=
  List.find (λ n, String.eqb (fst n) name || String.eqb (snd n) name) (pw_Nodes w).
Definition NewWorld (from to step rawStep : Z) : PageWorld :=
  {| pw_Ctx := {| ctx_From := from; ctx_To := to; ctx_Step := step; ctx_RawStep := rawStep; ctx_Truncated := false |};
     pw_Applications := []; pw_Nodes := []; pw_CheckConfigs := None |}.
Definition set_truncated (b : bool) (w : PageWorld) : PageWorld :=
  let c := pw_Ctx w in
  {| pw_Ctx := {| ctx_From := ctx_From c; ctx_To := ctx_To c; ctx_Step := ctx_Step c; ctx_RawStep := ctx_RawStep c; ctx_Truncated := b |};
     pw_Applications := pw_Applications w; pw_Nodes := pw_Nodes w; pw_CheckConfigs := pw_CheckConfigs w |}.

(** world/client.go: [Status] *)
Record ResultsStatus := { rs_Error : string; rs_LagMax : Z; rs_LagAvg : Z }.
Definition no_status : ResultsStatus := {| rs_Error := ""; rs_LagMax := 0; rs_LagAvg := 0 |}.

Record AlertsQuery := {
  aq_IncludeResolved : bool; aq_Search : string; aq_SortBy : string; aq_SortDesc : bool; aq_Offset : Z; aq_Limit : Z;
  aq_ClusterNames : option (gmap string string) }.
Record AlertsResult := { ar_Alerts : list Alert; ar_Total : Z; ar_Firing : Z; ar_Resolved : Z }.
Record License := { li_Invalid : bool; li_Message : string }.
Record CloudSettings := { cl_ApiKey : string; cl_DisableIncidentsAutoInvestigation : bool }.

(** The configurations a check is saved with. *)
Inductive check_configs :=
| ConfigsAvailability (l : CheckConfigSLOAvailabilityForm)
| ConfigsLatency (l : CheckConfigSLOLatencyForm)
| ConfigSimple (c : option CheckConfigSimple).

Record PageContext := {
  pc_project : string; pc_Multicluster : bool; pc_MemberProjects : list string; pc_status : option ResultsStatus;
  pc_world : option PageWorld; pc_Alerts : gmap string Z; pc_License : option License }.

(** What is written as JSON. *)
Inductive payload :=
| PUser (u : User) (projects : gmap string string) (viewonly : bool)
| PUsers (users : list User) (roles : list Rbac.Role)
| PRoles (roles : list Rbac.Role)
| PSSO (roles : list string) (default : string)
| PAI (provider : string)
| PCloudStatus (configured : bool)
| PCloud (apiKey : string) (autoInvestigation : bool) (info : string)
| PProject (readonly : bool) (name : string) (keys : option (list ApiKey + string)) (refresh : Z) (members available : list string)
| PStatus (project : option string) (status : option ResultsStatus) (w : option PageWorld)
| POverview (project : Project) (w : PageWorld) (view query : string) (from to : Z) (live : bool)
| PDashboard (d : Dashboard)
| PDashboards (l : list Dashboard)
| PPanelData (sources : list string) (config : DashboardPanel) (from to step : Z)
| PApiKeys (editable : bool) (keys : list ApiKey)
| PInspections (c : CheckConfigs)
| PCategories (l : list Categories.ApplicationCategory)
| PCategory (f : ApplicationCategoryForm)
| PCustomApplications (m : gmap string (list string))
| PPricing (c : option CustomCloudPricing)
| PIntegrations (baseUrl : string) (l : list IntegrationInfo) (readonly : bool)
| PIntegration (f : IntegrationForm)
| PIntegrationAWS (f : IntegrationForm) (w : option PageWorld)
| PIntegrationClickhouse (f : IntegrationForm) (info : option string)
| PApplication (project : Project) (w : PageWorld) (app : PageApp)
| PIncidents (w : PageWorld) (l : list ApplicationIncident)
| PIncident (w : PageWorld) (app : PageApp) (i : ApplicationIncident)
| PAlerts (w : PageWorld) (res : AlertsResult) (rules : list AlertingRule) (notifications : list AlertNotificationRow)
| PAlert (w : PageWorld) (a : Alert) (app : option PageApp) (rules : list AlertingRule) (notifications : list AlertNotificationRow)
| PRules (rules : list AlertingRule) (checks : list (string * string)) (categories : list string) (counts : gmap string Z)
| PRule (rule : AlertingRule)
| PRulesExport (rules : list AlertingRule)
| PInspection (integrations : list (string * string)) (form : inspection_form)
| PInstrumentation (i : ApplicationInstrumentation)
| PProfiling (w : PageWorld) (app : PageApp)
| PTracing (w : PageWorld) (app : PageApp)
| PLogs (w : PageWorld) (app : PageApp) (message : string)
| PNode (w : PageWorld) (node : string * string)
| PRCA (rca : RCA)
| PClickhouseConfig (c : option IntegrationClickhouse)
with inspection_form :=
| FAvailability (c : CheckConfigSLOAvailability) (default : bool)
| FLatency (c : CheckConfigSLOLatency) (default : bool)
| FSimple (l : list (option CheckConfigSimple)).

Inductive prom_request := PromSeries | PromMetadata | PromLabelValues (label : string) | PromQueryRange.

(** One write of the response. *)
Inductive reply :=
| HttpError (message : string) (code : Z)
| HttpStatus (code : Z)
| Json (p : payload)
| JsonContext (c : option (PageContext * option payload))
| Prometheus (project : string) (r : prom_request).

(** * Calls *)
Inductive call : Type → Type :=
(* the database *)
| CGetUsers : call (db_error + list User)
| CGetProjectNames : call (db_error + gmap string string)
| CGetProjects : call (db_error + gmap string Project)
| CGetProject (id : string) : call (db_error + Project)
| CGetDashboards (projectId : string) : call (db_error + list Dashboard)
| CGetDashboard (projectId id : string) : call (db_error + Dashboard)
(* beside an error there may be an incident that was not read *)
| CGetIncidentByKey (projectId key : string) : call (db_error * option ApplicationIncident + ApplicationIncident)
| CGetIncidentsForList (projectId : string) (limit : Z) : call (db_error + list ApplicationIncident)
| CQueryAlerts (projectId : string) (q : AlertsQuery) : call (db_error + AlertsResult)
| CGetAlert (projectId id : string) : call (db_error + Alert)
| CGetAlertNotifications (projectId : string) (ids : list string) : call (db_error + list AlertNotificationRow)
| CGetAlertingRules (projectId : string) : call (db_error + list AlertingRule)
| CGetAlertingRule (projectId id : string) : call (db_error + AlertingRule)
| CFiringByRule (projectId : string) : call (db_error + gmap string Z)
| CFiringBySeverity (projectId : string) : call (db_error + gmap string Z)
| CGetCheckConfigs (projectId : string) : call (db_error + CheckConfigs)
| CGetDeployments (projectId : string) : call (db_error + list ApplicationDeployment)
| CGetApplicationIncidents (projectId : string) (from to : Z) : call (db_error + list ApplicationIncident)
| CGetUser (id : Z) : call (db_error + User)
| CDefaultAdminIsTheOnlyUser : call (db_error + bool)
(* the clock and random texts *)
| CNow : call Z
| CNanoId (n : Z) : call string
| CRandomString (n : Z) : call string
(* the evaluator, the constructor, ClickHouse, the license *)
| CResultsStatus (projectId : string) : call (string + ResultsStatus)
| CResultsTo (projectId : string) : call (string + Z)
| CPromQL (projectId : string) : call (string + unit)
| CCustomWorld (project : string) (from to : Z) : call (option PageWorld * option string)
| CConstructWorld (project : string) (results : list string) (from to step : Z) : call (option PageWorld * option string)
| CNewClickhouseClient (cfg : IntegrationClickhouse) (project : string) : call (option string)
| CClusterInfo (cfg : IntegrationClickhouse) (project : string) : call (string + string)
| CPanelData (sources : list string) (config : DashboardPanel) (from to step : Z) : call (option string)
| CCheckLicense : call (option License)
| CCloudSettings : call (db_error + CloudSettings)
| CCloudInfo : call (string + string)
| CQueryResults (projectId : string) (from to step : Z) : call (string + unit)
| CRCAStatus : call (string * option string)
| CKubernetesEvents (projectId : string) (from to limit : Z) : call (string + unit)
| CTracesViolatingSLOs (projectId : string) (app : ApplicationId) (from to : Z) : call (option string)
| CRCA (projectId : string) (app : ApplicationId) (from to step : Z) : call (string + RCA)
(* what the tools of the MCP endpoint read besides *)
| CGetMcpSessionProject (sessionId : string) : call (db_error + string)
| CGetLatestIncidentsBrief (projectId : string) (limit : Z) : call (db_error + list ApplicationIncident)
| CAppView (w : PageWorld) (app : ApplicationId) : call AppView.AppView
| CAudit (projectId : string) (w : PageWorld) (app : option ApplicationId) : call (ApplicationId → AppView.AppView)
| CAuditNode (w : PageWorld) (node : string * string) : call AppView.NodeView
| CRenderNodes (projectId : string) (w : PageWorld) : call (list (string * Json.json))
| CRenderTraces (projectId : string) (chs : string + nat) (w : PageWorld) (q : AppView.TracesQuery) (from to : Z) (live : bool) : call AppView.TracesPage
| CGetStep (projectId : string) : call Z
| CQueryRange (projectId query : string) (from to step : Z) : call (string + list PromQL.MetricValues)
| CGetLogSources (projectId clusterId : string) (from : Z) : call (string + list string)
| CGetLogs (projectId clusterId : string) (q : Logs.LogQuery) : call (string + list AppView.LogEntryView)
(* the response *)
| CReply (r : reply) : call unit
(* writes *)
| CAddUser (email password name role : string) : call (option db_error)
| CUpdateUser (id : Z) (email password name role : string) : call (option db_error)
| CDeleteUser (id : Z) : call (option db_error)
| CChangeUserPassword (id : Z) (old new : string) : call (option db_error)
| CCloudSaveSettings (s : CloudSettings) : call (option db_error)
| CSaveProject (p : Project) : call (option db_error * Project)
| CSaveProjectSettings (p : Project) : call (option db_error)
| CDeleteProject (id : string) : call (option db_error)
| CMigrateClickhouse (p : Project) : call (option string)
| CUpdateClickhouseClient (p : Project) : call (option string)
| CCreateDashboard (projectId name description : string) : call (string * option db_error)
| CUpdateDashboard (projectId id name description : string) : call (option db_error)
| CDeleteDashboard (projectId id : string) : call (option db_error)
| CSaveDashboardConfig (projectId id : string) (c : DashboardConfig) : call (option db_error)
| CSaveCategory (p : Project) (id : string) (c : option Categories.ApplicationCategory) : call (option db_error)
| CSendTest (p : Project) (c : client) (s : sample) : call (option string)
| CProbe (p : Project) (pr : probe) : call (option string)
| CSaveCustomApplication (projectId name newName : string) (patterns : list string) : call (option db_error)
| CSaveBaseUrl (projectId baseUrl : string) : call (option db_error)
| CSaveIntegration (p : Project) (type : string) : call (option db_error)
| CResolveAlerts (projectId : string) (ids : list string) (by_ : string) : call (option db_error)
| CSuppressAlerts (projectId : string) (ids : list string) (by_ : string) : call (option db_error)
| CReopenAlerts (projectId : string) (ids : list string) : call (option db_error)
| CEnqueueResolved (p : Project) (alerts : list Alert) (rule : AlertingRule) : call unit
| CCreateRule (projectId : string) (r : AlertingRule) : call (option db_error)
| CUpdateRule (projectId : string) (r : AlertingRule) : call (option db_error)
| CDeleteRule (projectId id : string) : call (option db_error)
| CResolveAlertsByRule (projectId id : string) : call (db_error + list Alert)
| CSaveCheckConfig (projectId : string) (app : ApplicationId) (check : string) (c : check_configs) : call (option db_error)
| CSaveApplicationSetting (projectId : string) (app : ApplicationId) (v : setting) : call (option db_error)
| CUpdateIncidentRCA (projectId : string) (i : ApplicationIncident) (rca : RCA) : call (option db_error)
| CSetMcpSessionProject (sessionId projectId : string) : call (option db_error).

(** A program of calls. *)
Inductive prog (A : Type) :=
| Done (a : A)
| Call {X : Type} (c : call X) (k : X → prog A)
| Crash.
Arguments Done {A} a.
Arguments Call {A X} c k.
Arguments Crash {A}.

Fixpoint bind_prog {A B} (p : prog A) (f : A → prog B) : prog B :=
  match p with
  | Done a => f a
  | Call c k => Call c (λ x, bind_prog (k x) f)
  | Crash => Crash
  end.
#[export] Instance prog_ret : MRet prog := λ A a, Done a.
#[export] Instance prog_bind : MBind prog := λ A B f p, bind_prog p f.
Definition ask_ {X} (c : call X) : prog X := Call c Done.

(** A run: the answers come from an environment, by the number of the call. *)
Record event := Event { ev_type : Type; ev_call : call ev_type; ev_answer : ev_type }.
Definition Answers := nat → ∀ X, call X → X.
Fixpoint run {A} (env : Answers) (n : nat) (p : prog A) : list event * option A :=
  match p with
  | Done a => ([], Some a)
  | Crash => ([], None)
  | Call c k => let x := env n _ c in let '(l, a) := run env (S n) (k x) in (Event _ c x :: l, a)
  end.

(** * The handlers *)

(** What [NewApi] and [AuthInit] are given: the role manager's answer, the global
    ClickHouse, whether there is a license manager and a [LoadWorldF], and the role
    of anonymous users, if there are any. *)
Record ApiConfig := {
  ap_roles : string + list Rbac.Role;
  ap_globalClickHouse : option IntegrationClickhouse;
  ap_license : bool;
  ap_loadWorld : bool;
  ap_anonymousRole : string }.

(** str2duration.ParseDuration: the whole seconds of a duration. *)
Class Durations := { str2duration : string → option Z }.

Definition MaxIncidentWindow : Z := Time.Day.
Definition AlertTimeOffset : Z := Time.Hour.

Section handlers.
Context `{UrlParse} `{PromParser} `{Durations} (api : ApiConfig).

(** [klog] and the like write nothing the program reads. *)
Definition http_error (message : string) (code : Z) : prog unit := ask_ (CReply (HttpError message code)).
Definition write_json (p : payload) : prog unit := ask_ (CReply (Json p)).
Definition finish : prog unit := Done tt.

(** [if err != nil { ...; http.Error(w, m, 500); return }] *)
Definition or_500 {E A} (r : E + A) (k : A → prog unit) : prog unit :=
  match r with inl _ => http_error "" 500 | inr a => k a end.
Definition none_or_500 {E} (r : option E) (k : prog unit) : prog unit :=
  match r with Some _ => http_error "" 500 | None => k end.

Definition IsAllowed (u : User) (a : Rbac.Action) : bool :=
  Rbac.IsAllowed (match ap_roles api with inl _ => None | inr l => Some l end) (u_Roles u) [a].
Definition guard_ (b : bool) (message : string) (k : prog unit) : prog unit := if b then k else http_error message 403.

(** [ReadAndValidate]: a form that is read and valid, or 400. *)
Definition read_form (k : form_kind) (valid : form_of k → option (form_of k)) (r : Request) : option (form_of k) :=
  f ← r_json r k; valid f.
Definition accept {A} (valid : A → bool) (a : A) : option A := if valid a then Some a else None.
Definition or_400 {A} (message : string) (f : option A) (k : A → prog unit) : prog unit :=
  match f with None => http_error message 400 | Some f => k f end.

(** ** User, Users, Roles, SSO, AI *)
Definition password_error (e : db_error) : prog unit :=
  match e with
  | ErrNotFound => http_error "User not found." 404
  | ErrInvalid => http_error "Invalid old password." 400
  | ErrConflict => http_error "New password can't be the same as the old one." 400
  | ErrOther _ => http_error "" 500
  end.

Definition handle_User (r : Request) (u : User) : prog unit :=
  if is_method r MethodPost then
    if u_Anonymous u then finish
    else or_400 "" (read_form KChangePassword (accept ChangePasswordForm_Valid) r) (λ f,
      e ← ask_ (CChangeUserPassword (u_Id u) (cf_OldPassword f) (cf_NewPassword f));
      match e with Some e => password_error e | None => finish end)
  else
    projects ← ask_ CGetProjectNames;
    or_500 projects (λ projects,
      write_json (PUser u projects (negb (IsAllowed u (Rbac.Edit (Rbac.Settings (Rbac.Project "*"))))))).

Definition UsersEdit : Rbac.Action := Rbac.NewAction Rbac.ScopeUsers Rbac.ActionEdit ∅.
Definition SettingsEdit : Rbac.Action := Rbac.NewAction Rbac.ScopeSettings Rbac.ActionEdit ∅.

Definition handle_Users (r : Request) (u : User) : prog unit :=
  guard_ (IsAllowed u UsersEdit) "You are not allowed to edit users." (
    or_500 (ap_roles api) (λ roles,
      if is_method r MethodPost then
        or_400 "" (read_form KUser UserForm_Valid r) (λ f,
          if String.eqb (uf_Email f) AdminUserLogin then finish
          else if String.eqb (uf_Action f) UserActionCreate then
            if negb (Rbac.Valid (uf_Role f) roles) then http_error ("Unknown role: " ++ uf_Name f) 400
            else
              e ← ask_ (CAddUser (uf_Email f) (uf_Password f) (uf_Name f) (uf_Role f));
              match e with
              | Some ErrConflict => http_error "The user is already added." 409
              | Some _ => http_error "" 500
              | None => finish
              end
          else if String.eqb (uf_Action f) UserActionUpdate then
            if negb (Rbac.Valid (uf_Role f) roles) then http_error ("Unknown role: " ++ uf_Name f) 400
            else
              e ← ask_ (CUpdateUser (uf_Id f) (uf_Email f) (uf_Password f) (uf_Name f) (uf_Role f));
              none_or_500 e finish
          else if String.eqb (uf_Action f) UserActionDelete then
            e ← ask_ (CDeleteUser (uf_Id f)); none_or_500 e finish
          else finish)
      else
        users ← ask_ CGetUsers;
        or_500 users (λ users, write_json (PUsers users roles)))).

Definition qaSample : Rbac.Role :=
  Rbac.NewRole "QA" [Rbac.NewPermission Rbac.ScopeProjectAll Rbac.ActionAll {["project_id" := "staging"]}].
Definition dbaSample : Rbac.Role :=
  Rbac.NewRole "DBA" [
    Rbac.NewPermission Rbac.ScopeProjectInstrumentations Rbac.ActionEdit ∅;
    Rbac.NewPermission Rbac.ScopeApplication Rbac.ActionView {["application_category" := "databases"]};
    Rbac.NewPermission Rbac.ScopeNode Rbac.ActionView {["node_name" := "db*"]};
    Rbac.NewPermission Rbac.ScopeDashboard Rbac.ActionView {["dashboard_name" := "db*"]}].
Definition handle_Roles (r : Request) (u : User) : prog unit :=
  if is_method r MethodPost then http_error "" 405
  else or_500 (ap_roles api) (λ roles, write_json (PRoles (roles ++ [qaSample; dbaSample]))).
Definition handle_SSO (r : Request) (u : User) : prog unit :=
  or_500 (ap_roles api) (λ roles, write_json (PSSO (Rbac.r_Name <$> roles) Rbac.RoleViewer)).
Definition handle_AI (r : Request) (u : User) : prog unit := write_json (PAI "").

(** api/cloud.go *)
Definition handle_Cloud (r : Request) (u : User) : prog unit :=
  guard_ (IsAllowed u SettingsEdit) "You are not allowed to edit global settings." (
    settings ← ask_ CCloudSettings;
    or_500 settings (λ settings,
      if String.eqb (query_Get r "query") "status" then write_json (PCloudStatus (negb (String.eqb (cl_ApiKey settings) "")))
      else if is_method r MethodPost then
        or_400 "" (read_form KCloud Some r) (λ f,
          e ← ask_ (CCloudSaveSettings {| cl_ApiKey := fst f; cl_DisableIncidentsAutoInvestigation := negb (snd f) |});
          none_or_500 e finish)
      else
        info ← ask_ CCloudInfo;
        match info with
        | inl e => http_error e 500
        | inr info => write_json (PCloud (cl_ApiKey settings) (negb (cl_DisableIncidentsAutoInvestigation settings)) info)
        end)).

(** ** Project *)
Definition SettingsOf (projectId : string) : Rbac.Action := Rbac.Edit (Rbac.Settings (Rbac.Project projectId)).
Definition config_only : string := "This project is defined through the config and cannot be modified via the UI.".

Definition available_projects (projectId : string) (projects : gmap string Project) : list string :=
  (λ kv, p_Name (snd kv)) <$> filter (λ kv, p_Id (snd kv) ≠ projectId ∧ Multicluster (snd kv) = false) (map_to_list projects).

Definition project_get (projectId : string) (allowed : bool) : prog unit :=
  projects ← ask_ CGetProjects;
  or_500 projects (λ projects,
    let available := available_projects projectId projects in
    if String.eqb projectId "" then write_json (PProject false "" None 0 [] available)
    else
      p ← ask_ (CGetProject projectId);
      match p with
      | inl ErrNotFound => finish
      | inl _ => http_error "" 500
      | inr p =>
          write_json (PProject (ps_Readonly (p_Settings p)) (p_Name p)
            (Some (if allowed then inl (ps_ApiKeys (p_Settings p)) else inr "permission denied")) Queries.ResultsStep (MemberProjects p) available)
      end).

(** The project to save, or the response. *)
Definition project_form (projectId : string) (f : ProjectForm) (k : Project → prog unit) : prog unit :=
  if String.eqb projectId "" then
    k {| p_Id := ""; p_Name := pf_Name f; p_Settings := set_MemberProjects (pf_MemberProjects f) no_settings |}
  else
    p ← ask_ (CGetProject projectId);
    match p with
    | inl ErrNotFound => http_error "Project not found." 404
    | inl _ => http_error "" 500
    | inr p =>
        if ps_Readonly (p_Settings p) then http_error config_only 403
        else k {| p_Id := p_Id p; p_Name := pf_Name f; p_Settings := set_MemberProjects (pf_MemberProjects f) (p_Settings p) |}
    end.

Definition project_save (projectId : string) (p : Project) : prog unit :=
  let p := {| p_Id := projectId; p_Name := p_Name p;
              p_Settings := if Multicluster p then set_ApiKeys (λ _, []) (p_Settings p) else p_Settings p |} in
  saved ← ask_ (CSaveProject p);
  match saved with
  | (Some ErrConflict, _) => http_error "This project name is already being used." 409
  | (Some _, _) => http_error "" 500
  | (None, p) =>
      e ← ask_ (CSaveProjectSettings p);
      none_or_500 e (
        let migrate := String.eqb projectId "" && negb (Multicluster p) && match ap_globalClickHouse api with Some _ => true | None => false end in
        e ← (if migrate then ask_ (CMigrateClickhouse p) else Done None);
        match e with
        | Some _ => http_error "Failed to create or update clickhouse database" 500
        | None => http_error (p_Id p) 200
        end)
  end.

Definition handle_Project (r : Request) (u : User) : prog unit :=
  let projectId := r_vars r "project" in
  let isAllowed := IsAllowed u (SettingsOf projectId) in
  if is_method r MethodGet then project_get projectId isAllowed
  else if is_method r MethodPost then
    guard_ isAllowed "You are not allowed to configure the project." (
      or_400 "" (read_form KProject (accept ProjectForm_Valid) r) (λ f, project_form projectId f (project_save projectId)))
  else if is_method r MethodDelete then
    guard_ isAllowed "You are not allowed to delete the project." (
      e ← ask_ (CDeleteProject projectId); none_or_500 e (http_error "" 200))
  else http_error "" 405.

(** ** The world of a request *)

(** utils/url.go: [ParseTime]; [Atoi] keeps the value of an error, so a text that
    is out of range is told from one that is in it. *)
Definition ParseInt (s : string) : option Z :=
  let '(neg, s) := match s with String "-" s => (true, s) | String "+" s => (false, s) | _ => (false, s) end in
  if String.eqb s "" then None
  else match parse_digits s 0 with
       | ParsedInt n => if neg then if (2 ^ 63 <? n) then None else Some (- n) else if (2 ^ 63 <=? n) then None else Some n
       | _ => None
       end.
Definition ParseTime (now : Z) (val : string) (def : Z) : Z :=
  if String.eqb val "" then def
  else match FilepathFacts.strip_prefix "now" val with
       | Some "" => now
       | Some d => match str2duration d with None => def | Some d => Time.Add now d end
       | None =>
           match ParseInt val with
           | None => def
           | Some ms => if ms =? 0 then def else Z.quot ms 1000
           end
       end.

Definition maxDuration (d1 d2 : Z) : Z := if d2 <=? d1 then d1 else d2.
Definition increaseStepForBigDurations (from to step : Z) : Z :=
  let duration := Time.Sub to from in
  if 5 * Time.Day <? duration then maxDuration step (60 * Time.Minute)
  else if Time.Day <? duration then maxDuration step (15 * Time.Minute)
  else if 12 * Time.Hour <? duration then maxDuration step (10 * Time.Minute)
  else if 6 * Time.Hour <? duration then maxDuration step (5 * Time.Minute)
  else if Time.Hour <? duration then maxDuration step Time.Minute
  else step.

(** [getTimeContext]: from, to, the incident, and whether the window was cut.  The
    incident is what [GetIncidentByKey] returned, beside an error as well. *)
Definition incident_window (now from to : Z) (i : ApplicationIncident) : Z * Z * bool :=
  let from := Time.Add (i_OpenedAt i) (wrap64 (- IncidentTimeOffset)) in
  let to := if Resolved i then Time.Add (i_ResolvedAt i) IncidentTimeOffset else now in
  if MaxIncidentWindow <? Time.Sub to from then (Time.Add to (wrap64 (- MaxIncidentWindow)), to, true) else (from, to, false).

Definition alert_window (now : Z) (a : Alert) (keepFiringFor : Z) : Z * Z :=
  let to := if 0 <? a_ResolvedAt a then a_ResolvedAt a else now in
  let from := Time.Add to (wrap64 (- Time.Hour - AlertTimeOffset - keepFiringFor)) in
  let opened := Time.Add (a_OpenedAt a) (wrap64 (- AlertTimeOffset)) in
  (if from <? opened then opened else from, to).

Definition getTimeContext (projectId fromStr toStr incidentKey alertId : string) : prog (Z * Z * option ApplicationIncident * bool) :=
  now ← ask_ CNow;
  let from := ParseTime now fromStr (Time.Add now (wrap64 (- Time.Hour))) in
  let to := ParseTime now toStr now in
  let from := if to <=? from then Time.Add to (wrap64 (- Time.Hour)) else from in
  read ← (if String.eqb incidentKey "" then Done (inl None)
          else i ← ask_ (CGetIncidentByKey projectId incidentKey); Done (match i with inl (_, i) => inl i | inr i => inr i end));
  let incident := match read with inl i => i | inr i => Some i end in
  let '(from, to, truncated) := match read with inr i => incident_window now from to i | inl _ => (from, to, false) end in
  alert ← (if String.eqb alertId "" then Done None
           else a ← ask_ (CGetAlert projectId alertId); Done (match a with inl _ => None | inr a => Some a end));
  match alert with
  | None => Done (from, to, incident, truncated)
  | Some a =>
      rule ← ask_ (CGetAlertingRule projectId (a_RuleId a));
      let '(from, to) := alert_window now a (match rule with inr r => rule_KeepFiringFor r | inl _ => 0 end) in
      Done (from, to, incident, truncated)
  end.

(** [LoadWorld]: the world, the status and the error. *)
Definition Loaded : Type := option PageWorld * option ResultsStatus * option string.
Definition construct (p : Project) (results : list string) (status : ResultsStatus) (from to : Z) : prog Loaded :=
  w ← ask_ (CConstructWorld (p_Id p) results from to (increaseStepForBigDurations from to Queries.ResultsStep));
  Done (fst w, Some status, snd w).

Fixpoint load_members (p : Project) (projects : gmap string Project) (members results : list string) (status : ResultsStatus) (from to : Z) : prog Loaded :=
  match members with
  | [] => construct p results status from to
  | mp :: members =>
      match projects !! mp with
      | None => Done (None, None, Some ("member project not found: " ++ mp)%string)
      | Some m =>
          cs ← ask_ (CResultsStatus (p_Id m));
          match cs with
          | inl e => Done (None, None, Some e)
          | inr cs =>
              let status := {| rs_Error := if String.eqb (rs_Error cs) "" then rs_Error status else rs_Error cs;
                               rs_LagMax := Z.max (rs_LagMax status) (rs_LagMax cs); rs_LagAvg := Z.max (rs_LagAvg status) (rs_LagAvg cs) |} in
              resultsTo ← ask_ (CResultsTo (p_Id m));
              match resultsTo with
              | inl e => Done (None, Some status, Some e)
              | inr resultsTo =>
                  if Time.IsZero resultsTo || (resultsTo <? from) then Done (None, Some status, None)
                  else load_members p projects members (results ++ [p_Id m])%list status from (if resultsTo <? to then resultsTo else to)
              end
          end
      end
  end.

Definition LoadWorld (p : Project) (from to : Z) : prog Loaded :=
  if ap_loadWorld api then
    w ← ask_ (CCustomWorld (p_Id p) from to); Done (fst w, Some no_status, snd w)
  else if Multicluster p then
    projects ← ask_ CGetProjects;
    match projects with
    | inl e => Done (None, None, Some "projects")
    | inr projects => load_members p projects (MemberProjects p) [] no_status from to
    end
  else
    status ← ask_ (CResultsStatus (p_Id p));
    match status with
    | inl e => Done (None, None, Some e)
    | inr status =>
        resultsTo ← ask_ (CResultsTo (p_Id p));
        match resultsTo with
        | inl e => Done (None, Some status, Some e)
        | inr resultsTo =>
            if Time.IsZero resultsTo || (resultsTo <? from) then Done (None, Some status, None)
            else construct p [p_Id p] status from (if resultsTo <? to then resultsTo else to)
        end
    end.

(** [LoadWorldByRequest]: both the world and the project or neither, and the
    error. *)
Definition LoadWorldByRequest (r : Request) (incident : string) : prog (option (PageWorld * Project * option ResultsStatus) * option string) :=
  let projectId := r_vars r "project" in
  p ← ask_ (CGetProject projectId);
  match p with
  | inl ErrNotFound => Done (None, None)
  | inl _ => Done (None, Some "project")
  | inr p =>
      ctx ← getTimeContext projectId (query_Get r "from") (query_Get r "to") incident (query_Get r "alert");
      let '(from, to, _, truncated) := ctx in
      loaded ← LoadWorld p from to;
      let '(w, status, err) := loaded in
      let step := increaseStepForBigDurations from to (15 * Time.Second) in
      let w := set_truncated truncated (default (NewWorld from (Time.Add to (wrap64 (- step))) step step) w) in
      Done (Some (w, p, status), err)
  end.

(** ** api/ctx.go *)
Definition WithContext (p : Project) (status : option ResultsStatus) (w : option PageWorld) (data : payload) : prog (option (PageContext * option payload)) :=
  alerts ← ask_ (CFiringBySeverity (p_Id p));
  license ← (if ap_license api then ask_ CCheckLicense else Done None);
  Done (Some ({| pc_project := p_Id p; pc_Multicluster := Multicluster p; pc_MemberProjects := MemberProjects p; pc_status := status;
                 pc_world := w; pc_Alerts := match alerts with inr m => m | inl _ => ∅ end; pc_License := license |},
              match license with Some l => if li_Invalid l then None else Some data | None => Some data end)).
Definition write_page (p : Project) (status : option ResultsStatus) (w : PageWorld) (data : payload) : prog unit :=
  c ← WithContext p status (Some w) data; ask_ (CReply (JsonContext c)).

(** The world of the request for [k]; without a project, an empty context. *)
Definition with_world_at (r : Request) (incident : string) (none : prog unit) (k : PageWorld → Project → option ResultsStatus → prog unit) : prog unit :=
  l ← LoadWorldByRequest r incident;
  none_or_500 (snd l) (match fst l with
                       | None => none
                       | Some (w, p, status) => k w p status
                       end).
Definition no_page : prog unit := ask_ (CReply (JsonContext None)).
Definition with_world (r : Request) : (PageWorld → Project → option ResultsStatus → prog unit) → prog unit :=
  with_world_at r (query_Get r "incident") no_page.

Definition handle_Status (r : Request) (u : User) : prog unit :=
  p ← ask_ (CGetProject (r_vars r "project"));
  match p with
  | inl ErrNotFound => write_json (PStatus None None None)
  | inl _ => http_error "" 500
  | inr p =>
      now ← ask_ CNow;
      l ← LoadWorld p (Time.Add now (wrap64 (- Time.Hour))) now;
      let '(w, status, err) := l in
      match err with
      | Some _ => http_error "" 500
      | None => c ← WithContext p status w (PStatus (Some (p_Id p)) status w); ask_ (CReply (JsonContext c))
      end
  end.

(** ** Overview, Dashboards, PanelData *)
Definition view_action (projectId view : string) : option (Rbac.Action * string) :=
  let p := Rbac.Project projectId in
  if String.eqb view "traces" then Some (Rbac.View (Rbac.Traces p), "You are not allowed to view traces.")
  else if String.eqb view "logs" then Some (Rbac.View (Rbac.Logs p), "You are not allowed to view logs.")
  else if String.eqb view "costs" then Some (Rbac.View (Rbac.Costs p), "You are not allowed to view costs.")
  else if String.eqb view "risks" then Some (Rbac.View (Rbac.Risks p), "You are not allowed to view risks.")
  else None.
Definition guard_view (u : User) (a : option (Rbac.Action * string)) (k : prog unit) : prog unit :=
  match a with None => k | Some (a, message) => guard_ (IsAllowed u a) message k end.

(** [clickhouse.GetClients]: a client for each project with a configuration, or
    the first error. *)
Fixpoint new_clients (l : list Project) (n : nat) : prog (string + nat) :=
  match l with
  | [] => Done (inr n)
  | p :: l =>
      match ClickHouseConfig p (ap_globalClickHouse api) with
      | None => new_clients l n
      | Some cfg =>
          e ← ask_ (CNewClickhouseClient cfg (p_Id p));
          match e with Some e => Done (inl e) | None => new_clients l (S n) end
      end
  end.
Definition GetClickhouseClients (p : Project) : prog (string + nat) :=
  if Multicluster p then
    projects ← ask_ CGetProjects;
    match projects with
    | inl _ => Done (inl "projects")
    | inr projects => new_clients (omap (λ mp, projects !! mp) (MemberProjects p)) 0
    end
  else new_clients [p] 0.
(** [GetClickhouseClient]: whether there is a client, or the error. *)
Definition GetClickhouseClient (p : Project) (memberProjectId : string) : prog (string + bool) :=
  m ← (if Multicluster p then
         if String.eqb memberProjectId "" then Done (inl "invalid member project id")
         else m ← ask_ (CGetProject memberProjectId); Done (match m with inl _ => inl "project" | inr m => inr m end)
       else Done (inr p));
  match m with
  | inl e => Done (inl e)
  | inr m => chs ← GetClickhouseClients m; Done (match chs with inl e => inl e | inr n => inr (0 <? n)%nat end)
  end.

Definition handle_Overview (r : Request) (u : User) : prog unit :=
  let projectId := r_vars r "project" in
  let view := r_vars r "view" in
  guard_view u (view_action projectId view) (
    with_world r (λ w p status,
      chs ← GetClickhouseClients p;
      now ← ask_ CNow;
      ctx ← getTimeContext (p_Id p) (query_Get r "from") (query_Get r "to") (query_Get r "incident") (query_Get r "alert");
      let '(from, to, _, _) := ctx in
      write_page p status w (POverview p w view (query_Get r "query") from to (negb (to <? now))))).

Definition dashboard_post (id : string) (p : Project) (f : DashboardForm) : prog unit :=
  let d := df_Dashboard f in
  if String.eqb (df_Action f) "create" then
    res ← ask_ (CCreateDashboard (p_Id p) (d_Name d) (d_Description d));
    match res with (id, None) => http_error id 201 | (_, Some _) => http_error "" 500 end
  else
    e ← (if String.eqb (df_Action f) "update" then ask_ (CUpdateDashboard (p_Id p) id (d_Name d) (d_Description d))
         else if String.eqb (df_Action f) "delete" then ask_ (CDeleteDashboard (p_Id p) id)
         else ask_ (CSaveDashboardConfig (p_Id p) id (d_Config d)));
    none_or_500 e finish.

Definition DashboardsEdit (projectId : string) : Rbac.Action := Rbac.Edit (Rbac.Dashboards (Rbac.Project projectId)).
Definition DashboardView (projectId name : string) : Rbac.Action := Rbac.Dashboard_View name (Rbac.Project projectId).

Definition handle_Dashboards (r : Request) (u : User) : prog unit :=
  let id := r_vars r "dashboard" in
  with_world r (λ w p status,
    if is_method r MethodPost then
      guard_ (IsAllowed u (DashboardsEdit (p_Id p))) "You are not allowed to configure dashboards." (
        or_400 "" (read_form KDashboard (accept DashboardForm_Valid) r) (dashboard_post id p))
    else if String.eqb id "" then
      l ← ask_ (CGetDashboards (p_Id p));
      or_500 l (λ l, write_page p status w (PDashboards l))
    else
      d ← ask_ (CGetDashboard (p_Id p) id);
      match d with
      | inl ErrNotFound => http_error "Dashboard not found" 404
      | inl _ => http_error "" 500
      | inr d =>
          guard_ (IsAllowed u (DashboardView (p_Id p) (d_Name d))) "You are not allowed to view this dashboard." (
            write_page p status w (PDashboard d))
      end).

(** The PromQL clients of the member projects, by the names of their projects. *)
Fixpoint member_sources (projects : gmap string Project) (members sources : list string) : prog (option (list string)) :=
  match members with
  | [] => Done (Some sources)
  | mp :: members =>
      match projects !! mp with
      | None => Done None
      | Some m =>
          c ← ask_ (CPromQL (p_Id m));
          match c with inl _ => Done None | inr _ => member_sources projects members (sources ++ [p_Name m])%list end
      end
  end.

Definition handle_PanelData (r : Request) (u : User) : prog unit :=
  let projectId := r_vars r "project" in
  p ← ask_ (CGetProject projectId);
  match p with
  | inl ErrNotFound => http_error "Project not found" 404
  | inl _ => http_error "" 500
  | inr p =>
      or_400 "Invalid query" (r_panel r) (λ config,
        sources ← (if Multicluster p then
                     projects ← ask_ CGetProjects;
                     match projects with inl _ => Done None | inr projects => member_sources projects (MemberProjects p) [] end
                   else c ← ask_ (CPromQL (p_Id p)); Done (match c with inl _ => None | inr _ => Some [p_Name p] end));
        match sources with
        | None => http_error "" 500
        | Some sources =>
            ctx ← getTimeContext projectId (query_Get r "from") (query_Get r "to") (query_Get r "incident") (query_Get r "alert");
            let '(from, to, _, _) := ctx in
            let step := increaseStepForBigDurations from to Queries.ResultsStep in
            e ← ask_ (CPanelData sources config from to step);
            match e with
            | Some e => http_error e 400
            | None => write_json (PPanelData sources config from to step)
            end
        end)
  end.

(** ** ApiKeys *)
Definition edit_keys (action : string) (newKey : string) (f : ApiKeyForm) : option (list ApiKey → list ApiKey) :=
  let k := kf_ApiKey f in
  if String.eqb action "generate" then Some (λ l, (l ++ [{| k_Key := newKey; k_Description := k_Description k |}])%list)
  else if String.eqb action "delete" then Some (filter (λ k', k_Key k' ≠ k_Key k))
  else if String.eqb action "edit" then
    Some (fmap (λ k', if String.eqb (k_Key k') (k_Key k) then {| k_Key := k_Key k'; k_Description := k_Description k |} else k'))
  else None.

Definition handle_ApiKeys (r : Request) (u : User) : prog unit :=
  let projectId := r_vars r "project" in
  p ← ask_ (CGetProject projectId);
  or_500 p (λ p,
    let isAllowed := IsAllowed u (SettingsOf projectId) in
    let keys := ps_ApiKeys (p_Settings p) in
    if is_method r MethodGet then
      write_json (PApiKeys (isAllowed && negb (ps_Readonly (p_Settings p)) && negb (Multicluster p))
        (if isAllowed then keys else (λ k, {| k_Key := ""; k_Description := k_Description k |}) <$> keys))
    else
      guard_ isAllowed "You are not allowed to configure API keys." (
        or_400 "" (read_form KApiKey Some r) (λ f,
          key ← (if String.eqb (kf_Action f) "generate" then ask_ (CRandomString 32) else Done "");
          match edit_keys (kf_Action f) key f with
          | None => finish
          | Some edit => e ← ask_ (CSaveProjectSettings (with_settings (set_ApiKeys edit) p)); none_or_500 e finish
          end))).

Definition handle_Inspections (r : Request) (u : User) : prog unit :=
  with_world r (λ w p status,
    match pw_CheckConfigs w with
    | Some c => write_page p status w (PInspections c)
    | None => c ← ask_ (CGetCheckConfigs (p_Id p)); or_500 c (λ c, write_page p status w (PInspections c))
    end).

(** ** ApplicationCategories *)
Definition CategoriesEdit (projectId : string) : Rbac.Action := Rbac.Edit (Rbac.ApplicationCategories (Rbac.Project projectId)).
Definition category_le (a b : Categories.ApplicationCategory) : bool :=
  if Bool.eqb (Categories.ac_Builtin a) (Categories.ac_Builtin b) then bool_decide (String.le (Categories.ac_Name a) (Categories.ac_Name b))
  else Categories.ac_Builtin a.

Definition category_post (p : Project) (f : ApplicationCategoryForm) : prog unit :=
  if String.eqb (acf_Action f) "test" then
    match SendTestNotification f p with
    | None => finish
    | Some (c, s) => e ← ask_ (CSendTest p c s); match e with Some e => http_error e 400 | None => finish end
    end
  else
    e ← ask_ (CSaveCategory p (acf_Id f) (if String.eqb (acf_Action f) "delete" then None else Some (acf_Category f)));
    match e with
    | Some ErrConflict => http_error "Application category already exists." 409
    | Some _ => http_error "" 500
    | None => finish
    end.

(** [NewApplicationCategory]: the destinations of a new category, all of them off. *)
Definition off_channel (on : bool) (ch : string) : option Categories.ChannelSettings :=
  if on then Some {| Categories.cs_Enabled := false; Categories.cs_Channel := ch |} else None.
Definition off (on : bool) : option bool := if on then Some false else None.
Definition flag {A} (i : option A) (f : A → bool) : bool := match i with Some c => f c | None => false end.
Definition new_kind (i : Integrations) (slack teams pagerduty opsgenie webhook : bool) : Categories.KindSettings :=
  {| Categories.ks_Enabled := false;
     Categories.ks_Destinations :=
       {| Categories.nd_Slack := off_channel slack (match i_Slack i with Some c => Categories.sl_DefaultChannel (sl_notify c) | None => "" end);
          Categories.nd_Teams := off_channel teams (match i_Teams i with Some c => Categories.GetDefaultChannel c | None => "" end);
          Categories.nd_Pagerduty := off pagerduty; Categories.nd_Opsgenie := off opsgenie; Categories.nd_Webhook := off webhook |} |}.
Definition NewApplicationCategory (p : Project) : Categories.ApplicationCategory :=
  let i := ps_Integrations (p_Settings p) in
  let on := Categories.boolValue in
  {| Categories.ac_Name := ""; Categories.ac_Builtin := false; Categories.ac_Default := false; Categories.ac_BuiltinPatterns := "";
     Categories.ac_CustomPatterns := "";
     Categories.ac_NotificationSettings :=
       {| Categories.ns_Incidents := new_kind i (flag (i_Slack i) (λ c, Categories.sl_Incidents (sl_notify c))) (flag (i_Teams i) Categories.te_Incidents)
            (flag (i_Pagerduty i) (λ c, Categories.pd_Incidents (pd_notify c))) (flag (i_Opsgenie i) (λ c, Categories.og_Incidents (og_notify c)))
            (flag (i_Webhook i) (λ c, Categories.wh_Incidents (wh_notify c)));
          Categories.ns_Deployments := new_kind i (flag (i_Slack i) (λ c, Categories.sl_Deployments (sl_notify c))) (flag (i_Teams i) Categories.te_Deployments)
            false false (flag (i_Webhook i) (λ c, Categories.wh_Deployments (wh_notify c)));
          Categories.ns_Alerts := new_kind i (flag (i_Slack i) (λ c, on (Categories.sl_Alerts (sl_notify c)))) (flag (i_Teams i) (λ c, on (Categories.te_Alerts c)))
            (flag (i_Pagerduty i) (λ c, on (Categories.pd_Alerts (pd_notify c)))) (flag (i_Opsgenie i) (λ c, on (Categories.og_Alerts (og_notify c))))
            (flag (i_Webhook i) (λ c, on (Categories.wh_Alerts (wh_notify c)))) |} |}.

Definition handle_ApplicationCategories (r : Request) (u : User) : prog unit :=
  let projectId := r_vars r "project" in
  p ← ask_ (CGetProject projectId);
  or_500 p (λ p,
    if is_method r MethodPost then
      guard_ (IsAllowed u (CategoriesEdit projectId)) "You are not allowed to configure application categories." (
        if ps_Readonly (p_Settings p) then http_error config_only 403
        else or_400 "Invalid name or patterns" (read_form KCategory (accept ApplicationCategoryForm_Valid) r) (category_post p))
    else
      let categories := Categories.GetApplicationCategories (notify_project p) in
      if negb (query_Has r "name") then write_json (PCategories (order_by category_le (snd <$> map_to_list categories)))
      else
        let form name c := PCategory {| acf_Action := ""; acf_Id := name; acf_Category := c; acf_Test := None |} in
        let name := query_Get r "name" in
        if String.eqb name "" then write_json (form "" (NewApplicationCategory p))
        else match categories !! name with
             | None => http_error ("Unknown application category: " ++ name) 404
             | Some c => write_json (form (Categories.ac_Name c) c)
             end).

(** ** CustomApplications, CustomCloudPricing *)
Definition CustomApplicationsEdit (projectId : string) : Rbac.Action := Rbac.Edit (Rbac.CustomApplications (Rbac.Project projectId)).
Definition handle_CustomApplications (r : Request) (u : User) : prog unit :=
  let projectId := r_vars r "project" in
  p ← ask_ (CGetProject projectId);
  or_500 p (λ p,
    if is_method r MethodPost then
      guard_ (IsAllowed u (CustomApplicationsEdit projectId)) "You are not allowed to configure custom applications." (
        if ps_Readonly (p_Settings p) then http_error config_only 403
        else or_400 "Invalid name or patterns" (read_form KCustomApplication CustomApplicationForm_Valid r) (λ f,
          e ← ask_ (CSaveCustomApplication (p_Id p) (caf_Name f) (caf_NewName f) (caf_InstancePatterns f));
          none_or_500 e finish))
    else write_json (PCustomApplications (ps_CustomApplications (p_Settings p)))).

Definition PricingEdit (projectId : string) : Rbac.Action := Rbac.Edit (Rbac.CustomCloudPricing (Rbac.Project projectId)).
Definition save_pricing (p : Project) (c : option CustomCloudPricing) : prog unit :=
  e ← ask_ (CSaveProjectSettings (with_settings (set_CustomCloudPricing c) p)); none_or_500 e finish.
Definition handle_CustomCloudPricing (r : Request) (u : User) : prog unit :=
  let projectId := r_vars r "project" in
  p ← ask_ (CGetProject projectId);
  or_500 p (λ p,
    if is_method r MethodGet then write_json (PPricing (ps_CustomCloudPricing (p_Settings p)))
    else guard_ (IsAllowed u (PricingEdit projectId)) "You are not allowed to configure custom cloud pricing." (
      if is_method r MethodDelete then save_pricing p None
      else if is_method r MethodPost then
        or_400 "Invalid form" (read_form KPricing (accept CustomCloudPricingForm_Valid) r) (λ f, save_pricing p (Some f))
      else http_error "" 405)).

(** ** Integrations, Integration *)
Definition IntegrationsEdit (projectId : string) : Rbac.Action := Rbac.Edit (Rbac.Integrations (Rbac.Project projectId)).
Definition handle_Integrations (r : Request) (u : User) : prog unit :=
  let projectId := r_vars r "project" in
  if is_method r MethodPut then
    guard_ (IsAllowed u (IntegrationsEdit projectId)) "You are not allowed to configure notification integrations." (
      or_400 "Invalid base url" (read_form KBaseUrl IntegrationsForm_Valid r) (λ baseUrl,
        e ← ask_ (CSaveBaseUrl projectId baseUrl); none_or_500 e finish))
  else
    p ← ask_ (CGetProject projectId);
    or_500 p (λ p, let i := ps_Integrations (p_Settings p) in write_json (PIntegrations (i_BaseUrl i) (GetInfo i) (i_Readonly i))).

(** The body read into the form. *)
Definition read_integration (f : IntegrationForm) (r : Request) : option IntegrationForm :=
  f ← match f with
      | IntegrationFormClickhouse _ g => (λ c, IntegrationFormClickhouse c g) <$> r_json r KClickhouse
      | IntegrationFormAWS _ => IntegrationFormAWS <$> r_json r KAWS
      | IntegrationFormSlack _ => IntegrationFormSlack <$> r_json r KSlack
      | IntegrationFormTeams _ => IntegrationFormTeams <$> r_json r KTeams
      | IntegrationFormPagerduty _ => IntegrationFormPagerduty <$> r_json r KPagerduty
      | IntegrationFormOpsgenie _ => IntegrationFormOpsgenie <$> r_json r KOpsgenie
      | IntegrationFormWebhook _ => IntegrationFormWebhook <$> r_json r KWebhook
      end;
  accept IntegrationForm_Valid f.

(** [form.Test]: the probes in turn, until one fails. *)
Fixpoint run_probes (p : Project) (l : list probe) : prog (option string) :=
  match l with
  | [] => Done None
  | pr :: l => e ← ask_ (CProbe p pr); match e with Some e => Done (Some e) | None => run_probes p l end
  end.
Definition form_Test (f : IntegrationForm) (p : Project) : prog (option string) :=
  match test_probes f with inl e => Done (Some e) | inr l => run_probes p l end.

Definition integration_get (r : Request) (p : Project) (f : IntegrationForm) : prog unit :=
  match f with
  | IntegrationFormAWS _ =>
      l ← LoadWorldByRequest r (query_Get r "incident");
      write_json (PIntegrationAWS f (match fst l with Some (w, _, _) => Some w | None => None end))
  | IntegrationFormClickhouse _ _ =>
      info ← (match ClickHouseConfig p (ap_globalClickHouse api) with
              | Some cfg => if String.eqb (ch_Protocol cfg) "coroot" then Done None
                            else i ← ask_ (CClusterInfo cfg (p_Id p)); Done (match i with inl _ => None | inr i => Some i end)
              | None => Done None
              end);
      write_json (PIntegrationClickhouse f info)
  | _ => write_json (PIntegration f)
  end.

(** The settings are saved even when [Update] failed, as they were read. *)
Definition integration_update (type : string) (clear : bool) (p : Project) (f : IntegrationForm) : prog unit :=
  test ← (if update_tests f clear then form_Test f p else Done None);
  p ← match Update f clear test p with
      | inl e => _ ← http_error e 400; Done p
      | inr p => Done p
      end;
  e ← ask_ (CSaveIntegration p type);
  none_or_500 e (
    match ap_globalClickHouse api with
    | Some _ => finish
    | None => e ← ask_ (CUpdateClickhouseClient p); match e with Some e => http_error ("Clickhouse error: " ++ e) 500 | None => finish end
    end).

Definition handle_Integration (r : Request) (u : User) : prog unit :=
  let projectId := r_vars r "project" in
  let type := r_vars r "type" in
  p ← ask_ (CGetProject projectId);
  or_500 p (λ p,
    or_400 "" (NewIntegrationForm type (ap_globalClickHouse api)) (λ f,
      let isAllowed := IsAllowed u (IntegrationsEdit projectId) in
      if is_method r MethodGet then integration_get r p (Get f p (negb isAllowed))
      else guard_ isAllowed "You are not allowed to configure integrations." (
        if is_method r MethodPost then
          or_400 "invalid data" (read_integration f r) (λ f,
            e ← form_Test f p; match e with Some e => http_error e 400 | None => finish end)
        else if is_method r MethodPut then or_400 "invalid data" (read_integration f r) (integration_update type false p)
        else if is_method r MethodDelete then integration_update type true p f
        else http_error "" 405))).

(** ** Prom *)
Definition prom_of (rest : string) : option prom_request :=
  if String.eqb rest "series" then Some PromSeries
  else if String.eqb rest "metadata" then Some PromMetadata
  else match Split "/" rest with
       | [a; name; b] => if String.eqb a "label" && String.eqb b "values" then Some (PromLabelValues name) else None
       | _ => None
       end.
Definition serve_prom (projectId rest : string) : prog unit :=
  c ← ask_ (CPromQL projectId);
  or_500 c (λ _, match prom_of rest with
                 | Some q => ask_ (CReply (Prometheus projectId q))
                 | None => http_error "" 404
                 end).
Definition handle_Prom (r : Request) (u : User) : prog unit :=
  p ← ask_ (CGetProject (r_vars r "project"));
  or_500 p (λ p,
    if negb (Multicluster p) then serve_prom (p_Id p) (r_vars r "rest")
    else
      let ds := r_header r "X-Datasource" in
      if String.eqb ds "" then http_error "" 400
      else
        projects ← ask_ CGetProjects;
        or_500 projects (λ projects,
          match projects !! ds with
          | None => http_error "" 400
          | Some m => serve_prom (p_Id m) (r_vars r "rest")
          end)).

(** ** Application, Incidents, Incident, Alerts, Alert *)
Definition ApplicationView (projectId : string) (app : PageApp) : Rbac.Action :=
  let id := pa_Id app in
  Rbac.Application_View (pa_Category app) (Namespace id) (Kind id) (Name id) (Rbac.Project projectId).
Definition not_this_app : string := "You are not allowed to view this application.".

(** [world.GetApplication], or 404. *)
Definition with_app (w : PageWorld) (id : ApplicationId) (k : PageApp → prog unit) : prog unit :=
  match GetApplication w id with None => http_error "Application not found" 404 | Some app => k app end.
Definition or_bad_app (r : Request) (k : ApplicationId → prog unit) : prog unit := or_400 "invalid application id" (GetApplicationId r) k.

Definition handle_Application (r : Request) (u : User) : prog unit :=
  or_bad_app r (λ appId,
    with_world r (λ w p status,
      with_app w appId (λ app,
        guard_ (IsAllowed u (ApplicationView (r_vars r "project") app)) not_this_app (
          write_page p status w (PApplication p w app))))).

(** [strconv.ParseUint(s, 10, 32)] *)
Definition ParseUint32 (s : string) : option Z :=
  n ← ParseUint s; if (2 ^ 32 <=? n) then None else Some n.

Definition handle_Incidents (r : Request) (u : User) : prog unit :=
  let projectId := r_vars r "project" in
  let l := query_Get r "limit" in
  or_400 "" (if String.eqb l "" then Some 100 else ParseUint32 l) (λ limit,
    p ← ask_ (CGetProject projectId);
    match p with
    | inl ErrNotFound => http_error "project not found" 404
    | inl _ => http_error "" 500
    | inr p =>
        incidents ← ask_ (CGetIncidentsForList (p_Id p) limit);
        or_500 incidents (λ incidents,
          with_world r (λ w p status, write_page p status w (PIncidents w incidents)))
    end).

(** [values.Add]: a key that the query has already comes first. *)
Definition incident_of_request (r : Request) (key : string) : string :=
  if query_Has r "incident" then query_Get r "incident" else key.

Definition handle_Incident (r : Request) (u : User) : prog unit :=
  let projectId := r_vars r "project" in
  let key := r_vars r "incident" in
  i ← ask_ (CGetIncidentByKey projectId key);
  match i with
  | inl (ErrNotFound, _) => http_error "Incident not found" 404
  | inl _ => http_error "failed to get incident" 500
  | inr i =>
      with_world_at r (incident_of_request r key) no_page (λ w p status,
        with_app w (i_ApplicationId i) (λ app,
          guard_ (IsAllowed u (ApplicationView projectId app)) not_this_app (
            write_page p status w (PIncident w app i))))
  end.

(** [strconv.Atoi] with its error. *)
Definition positive_or (default min : Z) (s : string) : Z :=
  if String.eqb s "" then default else match ParseInt s with Some n => if min <=? n then n else default | None => default end.
Definition alerts_query (r : Request) : AlertsQuery :=
  {| aq_IncludeResolved := String.eqb (query_Get r "include_resolved") "true"; aq_Search := query_Get r "search";
     aq_SortBy := query_Get r "sort_by"; aq_SortDesc := negb (String.eqb (query_Get r "sort_desc") "false");
     aq_Offset := positive_or 0 0 (query_Get r "offset"); aq_Limit := positive_or 50 1 (query_Get r "limit"); aq_ClusterNames := None |}.
Definition with_cluster_names (names : gmap string string) (q : AlertsQuery) : AlertsQuery :=
  {| aq_IncludeResolved := aq_IncludeResolved q; aq_Search := aq_Search q; aq_SortBy := aq_SortBy q; aq_SortDesc := aq_SortDesc q;
     aq_Offset := aq_Offset q; aq_Limit := aq_Limit q; aq_ClusterNames := Some names |}.

Definition AlertsView (projectId : string) : Rbac.Action := Rbac.View (Rbac.Alerts (Rbac.Project projectId)).
Definition AlertsEdit (projectId : string) : Rbac.Action := Rbac.Edit (Rbac.Alerts (Rbac.Project projectId)).

Definition handle_Alerts (r : Request) (u : User) : prog unit :=
  let projectId := r_vars r "project" in
  guard_ (IsAllowed u (AlertsView projectId)) "" (
    let q := alerts_query r in
    names ← (if String.eqb (aq_SortBy q) "cluster" then
               names ← ask_ CGetProjectNames; Done (match names with inl e => inl e | inr m => inr (Some m) end)
             else Done (inr None));
    or_500 names (λ names,
      res ← ask_ (CQueryAlerts projectId (match names with Some m => with_cluster_names m q | None => q end));
      or_500 res (λ res,
        rules ← ask_ (CGetAlertingRules projectId);
        or_500 rules (λ rules,
          ns ← ask_ (CGetAlertNotifications projectId (a_Id <$> ar_Alerts res));
          or_500 ns (λ ns,
            with_world r (λ w p status, write_page p status w (PAlerts w res rules ns))))))).

Definition handle_Alert (r : Request) (u : User) : prog unit :=
  let projectId := r_vars r "project" in
  let alertId := r_vars r "alert" in
  guard_ (IsAllowed u (AlertsView projectId)) "" (
    a ← ask_ (CGetAlert projectId alertId);
    match a with
    | inl ErrNotFound => http_error "Alert not found" 404
    | inl _ => http_error "" 500
    | inr a =>
        rules ← ask_ (CGetAlertingRules projectId);
        or_500 rules (λ rules,
          ns ← ask_ (CGetAlertNotifications projectId [alertId]);
          or_500 ns (λ ns,
            with_world r (λ w p status,
              let app := GetApplication w (a_ApplicationId a) in
              guard_ (match app with Some app => IsAllowed u (ApplicationView projectId app) | None => true end) not_this_app (
                chs ← GetClickhouseClients p;
                write_page p status w (PAlert w a app rules (where_ (λ n, String.eqb (an_alert_id n) alertId) ns))))))
    end).

(** ** ResolveAlerts, SuppressAlerts, ReopenAlerts *)
Definition display_name (u : User) : string := or_text (u_Name u) (u_Email u).

(** The alerts of the ids that can be read and that [p] holds for. *)
Fixpoint get_alerts (projectId : string) (p : Alert → bool) (ids : list string) : prog (list Alert) :=
  match ids with
  | [] => Done []
  | id :: ids =>
      a ← ask_ (CGetAlert projectId id);
      l ← get_alerts projectId p ids;
      Done (match a with inr a => if p a then a :: l else l | inl _ => l end)
  end.

(** The notifications of alerts resolved by hand; [rules] holds those read so far. *)
Fixpoint notify_resolved (p : Project) (by_ : string) (rules : gmap string AlertingRule) (l : list Alert) : prog unit :=
  match l with
  | [] => finish
  | a :: l =>
      let a := alert_set_resolved_by by_ a in
      rule ← match rules !! a_RuleId a with
             | Some rule => Done (Some rule)
             | None => rule ← ask_ (CGetAlertingRule (p_Id p) (a_RuleId a)); Done (match rule with inr rule => Some rule | inl _ => None end)
             end;
      match rule with
      | None => notify_resolved p by_ rules l
      | Some rule => _ ← ask_ (CEnqueueResolved p [a] rule); notify_resolved p by_ (<[a_RuleId a := rule]> rules) l
      end
  end.

Definition resolveAlerts (p : Project) (ids : list string) (by_ : string) : prog (option db_error * nat) :=
  toNotify ← get_alerts (p_Id p) (λ a, a_ResolvedAt a =? 0) ids;
  e ← ask_ (CResolveAlerts (p_Id p) ids by_);
  match e with
  | Some e => Done (Some e, 0%nat)
  | None => _ ← notify_resolved p by_ ∅ toNotify; Done (None, List.length toNotify)
  end.

Definition with_ids (r : Request) (k : list string → prog unit) : prog unit := or_400 "invalid request body" (r_json r KIds) k.

Definition handle_ResolveAlerts (r : Request) (u : User) : prog unit :=
  let projectId := r_vars r "project" in
  guard_ (IsAllowed u (AlertsEdit projectId)) "" (
    with_ids r (λ ids,
      p ← ask_ (CGetProject projectId);
      or_500 p (λ p,
        res ← resolveAlerts p ids (display_name u);
        none_or_500 (fst res) (ask_ (CReply (HttpStatus 204)))))).

Definition handle_SuppressAlerts (r : Request) (u : User) : prog unit :=
  let projectId := r_vars r "project" in
  guard_ (IsAllowed u (AlertsEdit projectId)) "" (
    with_ids r (λ ids,
      if bool_decide (ids = []) then http_error "no alert ids provided" 400
      else
        toNotify ← get_alerts projectId (λ a, (a_ResolvedAt a =? 0) && (a_ManuallyResolvedAt a =? 0) && negb (a_Suppressed a)) ids;
        e ← ask_ (CSuppressAlerts projectId ids (display_name u));
        none_or_500 e (
          _ ← (if bool_decide (toNotify = []) then finish
               else p ← ask_ (CGetProject projectId);
                    match p with inl _ => finish | inr p => notify_resolved p (display_name u) ∅ toNotify end);
          ask_ (CReply (HttpStatus 204))))).

Definition handle_ReopenAlerts (r : Request) (u : User) : prog unit :=
  let projectId := r_vars r "project" in
  guard_ (IsAllowed u (AlertsEdit projectId)) "" (
    with_ids r (λ ids,
      if bool_decide (ids = []) then http_error "no alert ids provided" 400
      else e ← ask_ (CReopenAlerts projectId ids); none_or_500 e (ask_ (CReply (HttpStatus 204))))).

(** ** AlertingRules, AlertingRule, AlertingRulesExport *)
Definition RulesView (projectId : string) : Rbac.Action := Rbac.View (Rbac.AlertingRules (Rbac.Project projectId)).
Definition RulesEdit (projectId : string) : Rbac.Action := Rbac.Edit (Rbac.AlertingRules (Rbac.Project projectId)).
Definition set_rule (id projectId : string) (builtin : bool) (r : AlertingRule) : AlertingRule :=
  {| rule_Id := id; rule_ProjectId := projectId; rule_Name := rule_Name r; rule_Source := rule_Source r; rule_Selector := rule_Selector r;
     rule_Severity := rule_Severity r; rule_For := rule_For r; rule_KeepFiringFor := rule_KeepFiringFor r; rule_Templates := rule_Templates r;
     rule_NotificationCategory := rule_NotificationCategory r; rule_Enabled := rule_Enabled r; rule_Readonly := rule_Readonly r;
     rule_Builtin := builtin; rule_CreatedAt := rule_CreatedAt r; rule_UpdatedAt := rule_UpdatedAt r |}.

Definition handle_AlertingRules (r : Request) (u : User) : prog unit :=
  let projectId := r_vars r "project" in
  if is_method r MethodGet then
    guard_ (IsAllowed u (RulesView projectId)) "" (
      rules ← ask_ (CGetAlertingRules projectId);
      or_500 rules (λ rules,
        counts ← ask_ (CFiringByRule projectId);
        or_500 counts (λ counts,
          with_world r (λ w p status,
            write_page p status w (PRules rules ((λ c, (cc_Id c, cc_Title c)) <$> Checks)
              (fst <$> map_to_list (Categories.GetApplicationCategories (notify_project p))) counts)))))
  else if is_method r MethodPost then
    guard_ (IsAllowed u (RulesEdit projectId)) "" (
      or_400 "invalid request body" (r_json r KRule) (λ rule,
        id ← ask_ (CNanoId 8);
        let rule := set_rule id projectId false rule in
        e ← ask_ (CCreateRule projectId rule);
        none_or_500 e (write_json (PRule rule))))
  else finish.

Definition get_rule (projectId ruleId missing : string) (k : AlertingRule → prog unit) : prog unit :=
  rule ← ask_ (CGetAlertingRule projectId ruleId);
  match rule with
  | inl ErrNotFound => http_error missing 404
  | inl _ => http_error "" 500
  | inr rule => k rule
  end.

Definition rule_delete (projectId ruleId : string) (rule : AlertingRule) : prog unit :=
  resolved ← ask_ (CResolveAlertsByRule projectId ruleId);
  _ ← match resolved with
      | inl _ | inr [] => finish
      | inr l =>
          p ← ask_ (CGetProject projectId);
          match p with inl _ => finish | inr p => ask_ (CEnqueueResolved p l rule) end
      end;
  e ← ask_ (CDeleteRule projectId ruleId);
  none_or_500 e (ask_ (CReply (HttpStatus 204))).

Definition handle_AlertingRule (r : Request) (u : User) : prog unit :=
  let projectId := r_vars r "project" in
  let ruleId := r_vars r "rule" in
  if is_method r MethodGet then
    guard_ (IsAllowed u (RulesView projectId)) "" (get_rule projectId ruleId "Rule not found" (λ rule, write_json (PRule rule)))
  else if is_method r MethodPut then
    guard_ (IsAllowed u (RulesEdit projectId)) "" (
      get_rule projectId ruleId "Rule not found" (λ existing,
        if rule_Readonly existing then http_error "This rule is managed via config and cannot be edited" 403
        else or_400 "invalid request body" (r_json r KRule) (λ rule,
          let rule := set_rule ruleId projectId (rule_Builtin rule) rule in
          e ← ask_ (CUpdateRule projectId rule);
          none_or_500 e (write_json (PRule rule)))))
  else if is_method r MethodDelete then
    guard_ (IsAllowed u (RulesEdit projectId)) "" (
      get_rule projectId ruleId "Rule not found or is builtin" (λ rule,
        if rule_Readonly rule then http_error "This rule is managed via config and cannot be deleted" 403
        else rule_delete projectId ruleId rule))
  else finish.

Definition handle_AlertingRulesExport (r : Request) (u : User) : prog unit :=
  let projectId := r_vars r "project" in
  guard_ (IsAllowed u (RulesView projectId)) "" (
    rules ← ask_ (CGetAlertingRules projectId);
    or_500 rules (λ rules, write_json (PRulesExport rules))).

(** ** The settings of an application *)

(** [appConfigProjectId]: the project whose settings hold those of an
    application: of a multi-cluster project, the member that is its cluster. *)
Definition member_of_cluster (projects : gmap string Project) (clusterId : string) (members : list string) : option string :=
  head (omap (λ mp, match projects !! mp with
                    | Some m => if String.eqb (ClusterId m) clusterId then Some (p_Id m) else None
                    | None => None
                    end) members).
Definition appConfigProjectId (p : Project) (appId : ApplicationId) : prog (option string) :=
  if negb (Multicluster p) || String.eqb (AppId.ClusterId appId) "" then Done (Some (p_Id p))
  else
    projects ← ask_ CGetProjects;
    Done (match projects with
          | inl _ => None
          | inr projects => member_of_cluster projects (AppId.ClusterId appId) (MemberProjects p)
          end).
Definition with_config_project (p : Project) (appId : ApplicationId) (k : string → prog unit) : prog unit :=
  id ← appConfigProjectId p appId;
  match id with None => http_error "Application not found" 404 | Some id => k id end.

Definition InspectionsEdit (projectId : string) : Rbac.Action := Rbac.Edit (Rbac.Inspections (Rbac.Project projectId)).
Definition InstrumentationsEdit (projectId : string) : Rbac.Action := Rbac.Edit (Rbac.Instrumentations (Rbac.Project projectId)).
Definition RisksEdit (projectId : string) : Rbac.Action := Rbac.Edit (Rbac.Risks (Rbac.Project projectId)).

(** The destinations of the incidents of an application, as shown with its checks. *)
Definition inspection_integrations (p : Project) (category : string) : list (string * string) :=
  match Categories.GetApplicationCategories (notify_project p) !! category with
  | None => []
  | Some c =>
      let k := Categories.ns_Incidents (Categories.ac_NotificationSettings c) in
      let d := Categories.ks_Destinations k in
      if negb (Categories.ks_Enabled k) then []
      else
        (match Categories.nd_Slack d with Some s => if Categories.cs_Enabled s then [("Slack", "channel: #" ++ Categories.cs_Channel s)%string] else [] | None => [] end
         ++ (if Categories.channel_enabled (Categories.nd_Teams d) then [("MS Teams", "")] else [])
         ++ (if Categories.boolValue (Categories.nd_Pagerduty d) then [("Pagerduty", "")] else [])
         ++ (if Categories.boolValue (Categories.nd_Opsgenie d) then [("Opsgenie", "")] else [])
         ++ (if Categories.boolValue (Categories.nd_Webhook d) then [("Webhook", "")] else []))%list
  end.

(** The form of a check, [None] when there is no such check. *)
Definition inspection_form_of (cc : CheckConfigs) (checkId : string) (appId : ApplicationId) (category : string) : option inspection_form :=
  if String.eqb checkId "SLOAvailability" then let '(c, d) := GetAvailability cc appId in Some (FAvailability c d)
  else if String.eqb checkId "SLOLatency" then let '(c, d) := GetLatency cc appId category in Some (FLatency c d)
  else match GetSimpleAll cc checkId appId with
       | None | Some [] => None
       | Some l => Some (FSimple l)
       end.

(** The loop over the levels of a check's configurations: that of all is not
    saved, the next is the project's, the third the application's; any further
    one is saved as the project's. *)
Fixpoint save_levels (configProjectId : string) (appId : ApplicationId) (checkId : string) (level : nat) (l : CheckConfigForm) : prog unit :=
  match l with
  | [] => finish
  | c :: l =>
      match level with
      | O => save_levels configProjectId appId checkId 1 l
      | _ =>
          let id := match level with 2%nat => appId | _ => ApplicationIdZero end in
          e ← ask_ (CSaveCheckConfig configProjectId id checkId (ConfigSimple c));
          none_or_500 e (save_levels configProjectId appId checkId (S level) l)
      end
  end.

Definition inspection_post (r : Request) (configProjectId : string) (appId : ApplicationId) (checkId : string) : prog unit :=
  let save c := e ← ask_ (CSaveCheckConfig configProjectId appId checkId c); none_or_500 e finish in
  if String.eqb checkId "SLOAvailability" then
    or_400 "" (read_form KAvailability (accept CheckConfigSLOAvailabilityForm_Valid) r) (λ f,
      match CheckConfigSLOAvailabilityForm_Validate f with Some e => http_error e 400 | None => save (ConfigsAvailability f) end)
  else if String.eqb checkId "SLOLatency" then
    or_400 "" (read_form KLatency (accept CheckConfigSLOLatencyForm_Valid) r) (λ f,
      match CheckConfigSLOLatencyForm_Validate f with Some e => http_error e 400 | None => save (ConfigsLatency f) end)
  else or_400 "" (r_json r KCheck) (save_levels configProjectId appId checkId 0).

Definition handle_Inspection (r : Request) (u : User) : prog unit :=
  let projectId := r_vars r "project" in
  let checkId := r_vars r "type" in
  or_bad_app r (λ appId,
    with_world_at r (query_Get r "incident") (http_error "Application not found" 404) (λ w p status,
      with_config_project p appId (λ configProjectId,
        let app := if IsZero appId then None else GetApplication w appId in
        let category := if IsZero appId then "" else match app with
                                                     | Some app => pa_Category app
                                                     | None => Categories.CalcApplicationCategory (notify_project p) appId
                                                     end in
        if is_method r MethodGet then
          cc ← ask_ (CGetCheckConfigs configProjectId);
          or_500 cc (λ cc,
            match inspection_form_of cc checkId appId category with
            | None => http_error "" 404
            | Some f => write_json (PInspection (match app with Some app => inspection_integrations p (pa_Category app) | None => [] end) f)
            end)
        else if is_method r MethodPost then
          guard_ (IsAllowed u (InspectionsEdit projectId)) "You are not allowed to configure inspections." (
            inspection_post r configProjectId appId checkId)
        else finish))).

Definition InstrumentationType (t : string) : string :=
  if String.eqb t "mongos" then "mongodb"
  else if existsb (String.eqb t) ["valkey"; "keydb"; "dragonfly"] then "redis" else t.

Definition set_enabled (b : option bool) (i : ApplicationInstrumentation) : ApplicationInstrumentation :=
  {| ai_Type := ai_Type i; ai_Port := ai_Port i; ai_Credentials := ai_Credentials i; ai_Params := ai_Params i; ai_Enabled := b |}.
Definition hide_credentials (i : ApplicationInstrumentation) : ApplicationInstrumentation :=
  {| ai_Type := ai_Type i; ai_Port := ai_Port i; ai_Credentials := {| cr_Username := hidden; cr_Password := hidden |};
     ai_Params := ai_Params i; ai_Enabled := ai_Enabled i |}.

(** For a type without a default [instrumentation.Enabled] dereferences nil. *)
Definition instrumentation_get (t : string) (app : PageApp) (isAllowed : bool) : prog unit :=
  let show i := write_json (PInstrumentation (if isAllowed then i else hide_credentials i)) in
  match (s ← pa_Settings app; as_Instrumentation s !! t) with
  | Some i => show (set_enabled (or_default true (ai_Enabled i)) i)
  | None =>
      match GetDefaultInstrumentation t with
      | None => Crash
      | Some i => show (set_enabled (Some false) i)
      end
  end.

Definition save_setting (configProjectId : string) (appId : ApplicationId) (v : setting) : prog unit :=
  e ← ask_ (CSaveApplicationSetting configProjectId appId v); none_or_500 e finish.

Definition handle_Instrumentation (r : Request) (u : User) : prog unit :=
  let projectId := r_vars r "project" in
  or_bad_app r (λ appId,
    with_world_at r (query_Get r "incident") (http_error "Application not found" 404) (λ w p status,
      with_app w appId (λ app,
        let isAllowed := IsAllowed u (InstrumentationsEdit projectId) in
        if is_method r MethodPost then
          guard_ isAllowed "You are not allowed to configure database integrations." (
            with_config_project p appId (λ configProjectId,
              or_400 "invalid data" (read_form KInstrumentation (accept ApplicationInstrumentationForm_Valid) r) (λ f,
                save_setting configProjectId appId (SettingInstrumentation f))))
        else instrumentation_get (InstrumentationType (r_vars r "type")) app isAllowed))).

(** The service of an application's profiles, traces or logs, saved. *)
Definition service_post (r : Request) (u : User) (message : string) (f : string → setting) (appId : ApplicationId) : prog unit :=
  let projectId := r_vars r "project" in
  guard_ (IsAllowed u (InspectionsEdit projectId)) message (
    p ← ask_ (CGetProject projectId);
    match p with
    | inl ErrNotFound => http_error "Project not found." 404
    | inl _ => http_error "" 500
    | inr p =>
        with_config_project p appId (λ configProjectId,
          or_400 "invalid data" (r_json r KService) (λ service, save_setting configProjectId appId (f service)))
    end).

Definition handle_Profiling (r : Request) (u : User) : prog unit :=
  or_bad_app r (λ appId,
    if is_method r MethodPost then service_post r u "You are not allowed to configure profiling settings." SettingProfiling appId
    else with_world r (λ w p status,
      with_app w appId (λ app,
        ch ← GetClickhouseClient p (AppId.ClusterId (pa_Id app));
        match ch with
        | inl _ => http_error "ClickHouse is not available" 500
        | inr _ => write_page p status w (PProfiling w app)
        end))).

Definition handle_Tracing (r : Request) (u : User) : prog unit :=
  or_bad_app r (λ appId,
    if is_method r MethodPost then service_post r u "You are not allowed to configure tracing settings." SettingTracing appId
    else with_world r (λ w p status,
      with_app w appId (λ app,
        ch ← GetClickhouseClient p (AppId.ClusterId (pa_Id app));
        match ch with
        | inl _ => http_error "ClickHouse is not available" 500
        | inr _ => write_page p status w (PTracing w app)
        end))).

Definition handle_Logs (r : Request) (u : User) : prog unit :=
  or_bad_app r (λ appId,
    if is_method r MethodPost then service_post r u "You are not allowed to configure logs settings." SettingLogs appId
    else with_world r (λ w p status,
      with_app w appId (λ app,
        ch ← GetClickhouseClient p (AppId.ClusterId (pa_Id app));
        write_page p status w (PLogs w app (match ch with inl _ => "Failed to load logs: ClickHouse is not available" | inr _ => "" end))))).

(** ** Risks, Node *)
Definition is_risk (f : ApplicationSettingsRisksForm) (ro : RiskOverride) : bool :=
  String.eqb (ro_Category ro) (rf_Category f) && String.eqb (ro_Type ro) (rf_Type f).
Definition other_risks (f : ApplicationSettingsRisksForm) (app : PageApp) : list RiskOverride :=
  match pa_Settings app with Some s => where_ (λ ro, negb (is_risk f ro)) (as_RiskOverrides s) | None => [] end.
Definition risk_overrides (f : ApplicationSettingsRisksForm) (by_ : string) (now : Z) (app : PageApp) : option (list RiskOverride) :=
  if String.eqb (rf_Action f) "dismiss" then
    Some (other_risks f app ++ [{| ro_Category := rf_Category f; ro_Type := rf_Type f; ro_Dismissal := Some (by_, now, rf_Reason f) |}])%list
  else if String.eqb (rf_Action f) "mark_as_active" then Some (other_risks f app)
  else None.

Definition handle_Risks (r : Request) (u : User) : prog unit :=
  let projectId := r_vars r "project" in
  or_bad_app r (λ appId,
    with_world r (λ w p status,
      with_app w appId (λ app,
        if is_method r MethodPost then
          guard_ (IsAllowed u (RisksEdit projectId)) "You are not allowed to dismiss risks." (
            or_400 "invalid data" (r_json r KRisks) (λ f,
              now ← (if String.eqb (rf_Action f) "dismiss" then ask_ CNow else Done 0);
              or_400 "" (risk_overrides f (u_Name u) now app) (λ overrides,
                with_config_project p appId (λ configProjectId, save_setting configProjectId appId (SettingRisks overrides)))))
        else finish))).

(** The node of the request, without the cluster before its first colon. *)
Definition node_name (raw : string) : option string :=
  (λ s, match SplitN ":" 2 s with [_; name] => name | _ => s end) <$> QueryUnescape raw.
Definition NodeView (projectId name : string) : Rbac.Action := Rbac.Node_View name (Rbac.Project projectId).
Definition handle_Node (r : Request) (u : User) : prog unit :=
  let projectId := r_vars r "project" in
  or_400 "invalid node name" (node_name (r_vars r "node")) (λ name,
    guard_ (IsAllowed u (NodeView projectId name)) "You are not allowed to view this node." (
      with_world r (λ w p status,
        match GetNode w name with
        | None => http_error "Node not found" 404
        | Some node => write_page p status w (PNode w node)
        end))).

(** ** api/rca.go *)
Definition rca_of (status error : string) : RCA :=
  {| rca_Status := status; rca_Error := error; rca_ShortSummary := ""; rca_RootCause := ""; rca_ImmediateFixes := ""; rca_DetailedRootCause := "" |}.
Definition rca_failed (error : string) : RCA := rca_of "Failed" error.
Definition rca_set_status (status : string) (rca : RCA) : RCA :=
  {| rca_Status := status; rca_Error := rca_Error rca; rca_ShortSummary := rca_ShortSummary rca; rca_RootCause := rca_RootCause rca;
     rca_ImmediateFixes := rca_ImmediateFixes rca; rca_DetailedRootCause := rca_DetailedRootCause rca |}.
Definition db_message (e : db_error) : string :=
  match e with ErrNotFound => "not found" | ErrConflict => "conflict" | ErrInvalid => "invalid" | ErrOther e => e end.

Definition time_context_step (key : string) (to from : Z) (i : ApplicationIncident) : Z :=
  if String.eqb (i_Key i) key || negb (Resolved i) then from
  else if Time.After (i_ResolvedAt i) from && Time.Before (i_ResolvedAt i) to then i_ResolvedAt i else from.
Definition IncidentTimeContext (projectId : string) (i : ApplicationIncident) (now : Z) : prog (Z * Z) :=
  let from := Time.Add (i_OpenedAt i) (wrap64 (- IncidentTimeOffset)) in
  let to := if Resolved i then i_ResolvedAt i else now in
  l ← ask_ (CGetApplicationIncidents projectId from (i_OpenedAt i));
  Done (match l with
        | inl _ => (from, to)
        | inr l => (foldl (time_context_step (i_Key i) to) from (where_ (λ j, bool_decide (i_ApplicationId j = i_ApplicationId i)) l), to)
        end).

(** What ClickHouse adds to the request, its errors being logged; [false] for a panic:
    the world is [nil] when the project is gone by then. *)
Definition rca_clickhouse (r : Request) (p : Project) (appId : ApplicationId) (from to : Z) (ctx : Z * Z) : prog bool :=
  ch ← GetClickhouseClient p "";
  match ch with
  | inr true =>
      _ ← ask_ (CKubernetesEvents (p_Id p) from to 1000);
      l ← LoadWorldByRequest r (query_Get r "incident");
      match l with
      | (_, Some _) => Done true
      | (None, None) => Done false
      | (Some (w, _, _), None) =>
          match GetApplication w appId with
          | None => Done true
          | Some app => _ ← ask_ (CTracesViolatingSLOs (p_Id p) (pa_Id app) (fst ctx) (snd ctx)); Done true
          end
      end
  | _ => Done true
  end.

(** What is read for the request and asked of the cloud; [None] for a panic. *)
Definition rca_request (r : Request) (p : Project) (appId : ApplicationId) (incident : option ApplicationIncident) (from to : Z) : prog (option RCA) :=
  let step := increaseStepForBigDurations from to Queries.ResultsStep in
  ctx ← match incident with Some i => IncidentTimeContext (p_Id p) i to | None => Done (from, to) end;
  cc ← ask_ (CGetCheckConfigs (p_Id p));
  match cc with
  | inl e => Done (Some (rca_failed (db_message e)))
  | inr _ =>
      ds ← ask_ (CGetDeployments (p_Id p));
      match ds with
      | inl e => Done (Some (rca_failed (db_message e)))
      | inr _ =>
          m ← ask_ (CQueryResults (p_Id p) (fst ctx) (snd ctx) step);
          match m with
          | inl e => Done (Some (rca_failed e))
          | inr _ =>
              goes_on ← rca_clickhouse r p appId from to ctx;
              if goes_on : bool then
                res ← ask_ (CRCA (p_Id p) appId (fst ctx) (snd ctx) step);
                Done (Some (match res with inl e => rca_failed e | inr rca => rca_set_status "OK" rca end))
              else Done None
          end
      end
  end.

Definition make_rca (r : Request) (incident : option ApplicationIncident) (from to : Z) : prog (option RCA) :=
  st ← ask_ CRCAStatus;
  if negb (String.eqb (fst st) "OK") then Done (Some (rca_of (fst st) (default "" (snd st))))
  else
    p ← ask_ (CGetProject (r_vars r "project"));
    match p with
    | inl e => Done (Some (rca_failed (db_message e)))
    | inr p =>
        if Multicluster p then Done (Some (rca_failed "RCA is not supported for multi-cluster projects"))
        else match GetApplicationId r with
             | None => Done (Some (rca_failed "invalid application id"))
             | Some appId =>
                 resultsTo ← ask_ (CResultsTo (p_Id p));
                 match resultsTo with
                 | inl e => Done (Some (rca_failed e))
                 | inr resultsTo =>
                     if Time.IsZero resultsTo || (resultsTo <? from) then Done (Some (rca_failed "Metric cache is empty"))
                     else rca_request r p appId incident from (if resultsTo <? to then resultsTo else to)
                 end
             end
    end.

(** The deferred function: the result, an error as well, is stored with the incident
    if there is one.  It runs in a panic too, with the empty result of the start. *)
Definition handle_RCA (r : Request) (u : User) : prog unit :=
  let projectId := r_vars r "project" in
  ctx ← getTimeContext projectId (query_Get r "from") (query_Get r "to") (query_Get r "incident") (query_Get r "alert");
  let '(from, to, incident, _) := ctx in
  rca ← make_rca r incident from to;
  let result := default (rca_of "" "") rca in
  _ ← match incident with
      | Some i => _ ← ask_ (CUpdateIncidentRCA projectId i result); finish
      | None => write_json (PRCA result)
      end;
  match rca with Some _ => finish | None => Crash end.

(** * The routes (main.go) *)
Definition Handler : Type := Request → User → prog unit.
Definition routes : list (string * list string * Handler) := [
  ("/api/user", [MethodGet; MethodPost], handle_User);
  ("/api/users", [MethodGet; MethodPost], handle_Users);
  ("/api/roles", [MethodGet; MethodPost], handle_Roles);
  ("/api/sso", [MethodGet; MethodPost], handle_SSO);
  ("/api/ai", [MethodGet; MethodPost], handle_AI);
  ("/api/cloud", [MethodGet; MethodPost], handle_Cloud);
  ("/api/project/", [MethodGet; MethodPost], handle_Project);
  ("/api/project/{project}", [MethodGet; MethodPost; MethodDelete], handle_Project);
  ("/api/project/{project}/status", [MethodGet], handle_Status);
  ("/api/project/{project}/api_keys", [MethodGet; MethodPost], handle_ApiKeys);
  ("/api/project/{project}/overview/{view}", [MethodGet], handle_Overview);
  ("/api/project/{project}/incidents", [MethodGet], handle_Incidents);
  ("/api/project/{project}/incident/{incident}", [MethodGet], handle_Incident);
  ("/api/project/{project}/alerts", [MethodGet], handle_Alerts);
  ("/api/project/{project}/alerts/resolve", [MethodPost], handle_ResolveAlerts);
  ("/api/project/{project}/alerts/suppress", [MethodPost], handle_SuppressAlerts);
  ("/api/project/{project}/alerts/{alert}", [MethodGet], handle_Alert);
  ("/api/project/{project}/alerts/reopen", [MethodPost], handle_ReopenAlerts);
  ("/api/project/{project}/alerting-rules", [MethodGet; MethodPost], handle_AlertingRules);
  ("/api/project/{project}/alerting-rules/export", [MethodGet], handle_AlertingRulesExport);
  ("/api/project/{project}/alerting-rules/{rule}", [MethodGet; MethodPut; MethodDelete], handle_AlertingRule);
  ("/api/project/{project}/dashboards", [MethodGet; MethodPost], handle_Dashboards);
  ("/api/project/{project}/dashboards/{dashboard}", [MethodGet; MethodPost], handle_Dashboards);
  ("/api/project/{project}/panel/data", [MethodGet], handle_PanelData);
  ("/api/project/{project}/inspections", [MethodGet], handle_Inspections);
  ("/api/project/{project}/application_categories", [MethodGet; MethodPost], handle_ApplicationCategories);
  ("/api/project/{project}/custom_applications", [MethodGet; MethodPost], handle_CustomApplications);
  ("/api/project/{project}/custom_cloud_pricing", [MethodGet; MethodPost; MethodDelete], handle_CustomCloudPricing);
  ("/api/project/{project}/integrations", [MethodGet; MethodPut], handle_Integrations);
  ("/api/project/{project}/integrations/{type}", [MethodGet; MethodPut; MethodDelete; MethodPost], handle_Integration);
  ("/api/project/{project}/app/{app}", [MethodGet], handle_Application);
  ("/api/project/{project}/app/{app}/rca", [MethodGet], handle_RCA);
  ("/api/project/{project}/app/{app}/inspection/{type}/config", [MethodGet; MethodPost], handle_Inspection);
  ("/api/project/{project}/app/{app}/instrumentation/{type}", [MethodGet; MethodPost], handle_Instrumentation);
  ("/api/project/{project}/app/{app}/profiling", [MethodGet; MethodPost], handle_Profiling);
  ("/api/project/{project}/app/{app}/tracing", [MethodGet; MethodPost], handle_Tracing);
  ("/api/project/{project}/app/{app}/logs", [MethodGet; MethodPost], handle_Logs);
  ("/api/project/{project}/app/{app}/risks", [MethodPost], handle_Risks);
  ("/api/project/{project}/node/{node}", [MethodGet], handle_Node)].
(** [PathPrefix("/api/project/{project}/prom/api/v1/{rest:.+}")], any method. *)
Definition prom_route : Handler := handle_Prom.

(** ** [Auth]: [session] is the user id of the request's session cookie, if it is
    a valid one. *)
Definition GetUser (session : option Z) : prog (option User) :=
  if negb (String.eqb (ap_anonymousRole api) "") then Done (Some (AnonymousUser (ap_anonymousRole api)))
  else match session with
       | None => Done None
       | Some id => u ← ask_ (CGetUser id); Done (match u with inl _ => None | inr u => Some u end)
       end.
Definition Auth (session : option Z) (h : Handler) (r : Request) : prog unit :=
  u ← GetUser session;
  match u with
  | Some u => h r u
  | None =>
      admin ← ask_ CDefaultAdminIsTheOnlyUser;
      or_500 admin (λ (alone : bool), http_error (if alone then "set_admin_password" else "") 401)
  end.

(** The handler that serves a request of a route; gorilla/mux answers a method
    that the route does not list. *)
Definition serve (session : option Z) (route : string * list string * Handler) (r : Request) : prog unit :=
  let '(_, methods, h) := route in
  if existsb (is_method r) methods then Auth session h r else http_error "" 405.

(** ** [ApiKeyAuth]: the project whose key the request has. *)
Definition has_key (apiKey : string) (p : Project) : bool :=
  negb (Multicluster p) && existsb (λ k, negb (IsEmpty k) && String.eqb (k_Key k) apiKey) (ps_ApiKeys (p_Settings p)).
(** [getProjectByApiKey]: of the projects that have the key, the first that the
    loop over the map comes to. *)
Definition getProjectByApiKey (order : list Project → list Project) (apiKey : string) : prog (db_error + option Project) :=
  projects ← ask_ CGetProjects;
  Done (match projects with
        | inl e => inl e
        | inr m => inr (List.find (has_key apiKey) (order (snd <$> map_to_list m)))
        end).
Definition ApiKeyAuth (order : list Project → list Project) (h : Request → Project → prog unit) (r : Request) : prog unit :=
  let apiKey := r_header r "X-API-Key" in
  if String.eqb apiKey "" then http_error "no api key" 400
  else
    p ← getProjectByApiKey order apiKey;
    match p with
    | inl _ => http_error "" 401
    | inr None => http_error "no project found" 404
    | inr (Some p) => h r p
    end.

(** api/prometheus.go, api/clickhouse.go *)
Definition prom_handler (q : Request → prom_request) (r : Request) (p : Project) : prog unit :=
  c ← ask_ (CPromQL (p_Id p)); or_500 c (λ _, ask_ (CReply (Prometheus (p_Id p) (q r)))).
Definition PrometheusQueryRange := prom_handler (λ _, PromQueryRange).
Definition PrometheusMetricMetadata := prom_handler (λ _, PromMetadata).
Definition PrometheusSeries := prom_handler (λ _, PromSeries).
Definition PrometheusLabelValues := prom_handler (λ r, PromLabelValues (r_vars r "labelName")).
Definition ClickhouseConfig (r : Request) (p : Project) : prog unit :=
  write_json (PClickhouseConfig (ClickHouseConfig p (ap_globalClickHouse api))).
End handlers.
