(* ===== verification/ApiSpec.v ===== *)
(** What a request to the API may do: the calls and the pages of every handler of
    [Api.routes] against the permissions of the user who makes it.

    The handlers are programs of calls, so a property of theirs is a weakest
    precondition: what every call satisfies, whatever was answered before, as long
    as the answers are those the database can give ([sound]). *)

From S2P Require Queries.
From S2P Require Import Checks IncidentStore Rbac.
From S2P Require Export Api.
From Stdlib Require Import Ascii String ZArith Lia.
Local Open Scope string_scope.

(** * Programs of calls *)

(** What the answers of the database have in common: the project of an id has this
    id, and renaming a project keeps it; the incident of a key has this key, also
    when it could not be read; and the series of a world have one length
    ([AppView.view_ok]). *)
Definition sound {X} (c : call X) : X → Prop :=
  match c in call X return X → Prop with
  | CGetProject id => λ x, ∀ p, x = inr p → p_Id p = id
  | CGetIncidentByKey _ key => λ x, ∀ i, (∃ e, x = inl (e, Some i)) ∨ x = inr i → i_Key i = key
  | CSaveProject p => λ x, ∀ p', x = (None, p') → p_Id p ≠ "" → p' = p
  | CAppView _ _ => AppView.view_ok
  | CAudit _ _ _ => λ x, ∀ id, AppView.view_ok (x id)
  | CAuditNode _ _ => AppView.node_ok
  | _ => λ _, True
  end.

Section wp.
Context (P : list event → ∀ X, call X → Prop) (C : Prop).

(** [wp h p Q]: after the calls [h], every call of [p] satisfies [P], and [p] ends
    with [Q], or crashes if [C] holds. *)
Fixpoint wp {A} (h : list event) (p : prog A) (Q : list event → A → Prop) : Prop :=
  match p with
  | Done a => Q h a
  | Call c k => P h _ c ∧ ∀ x, sound c x → wp (h ++ [Event _ c x])%list (k x) Q
  | Crash => C
  end.
End wp.

(** What has been answered so far. *)
Definition answered {X} (h : list event) (c : call X) (x : X) : Prop := Event X c x ∈ h.

Section wp_lemmas.
Context {P : list event → ∀ X, call X → Prop} {C : Prop}.

Lemma wp_bind {A B} (p : prog A) (f : A → prog B) h Q :
  wp P C h p (λ h' a, wp P C h' (f a) Q) → wp P C h (p ≫= f) Q.
Proof.
  revert h. induction p as [a|X c k IH|]; intros h W; cbn; [done| |done].
  destruct W as [Hc Hk]. split; [done|]. intros x Hx. apply IH, Hk, Hx.
Qed.

Lemma wp_weaken {A} (p : prog A) h Q (P' : list event → ∀ X, call X → Prop) Q' :
  (∀ l X c, P (h ++ l)%list X c → P' (h ++ l)%list X c) → (∀ l a, Q (h ++ l)%list a → Q' (h ++ l)%list a) →
  wp P C h p Q → wp P' C h p Q'.
Proof.
  revert h. induction p as [a|X c k IH|]; intros h HP HQ W; cbn in *; [|destruct W as [Hc Hk]|done].
  - rewrite <- (app_nil_r h). apply HQ. by rewrite app_nil_r.
  - split; [rewrite <- (app_nil_r h); apply HP; by rewrite app_nil_r|].
    intros x Hx. apply IH; [..|by apply Hk]; intros l; rewrite <- app_assoc; [apply HP|apply HQ].
Qed.

Lemma wp_ask {X} (c : call X) h (Q : list event → X → Prop) :
  P h X c → (∀ x, sound c x → answered (h ++ [Event X c x])%list c x → Q (h ++ [Event X c x])%list x) → wp P C h (ask_ c) Q.
Proof.
  intros Hc HQ. split; [done|]. intros x Hx. apply HQ; [done|]. unfold answered. apply elem_of_app. right. by apply list_elem_of_singleton.
Qed.
End wp_lemmas.

(** A program that does not crash, of calls that satisfy [ok] whatever was asked
    before them. *)
Fixpoint calls_only (ok : ∀ X, call X → bool) {A} (p : prog A) : Prop :=
  match p with
  | Done _ => True
  | Crash => False
  | Call c k => ok _ c = true ∧ ∀ x, calls_only ok (k x)
  end.

Lemma calls_only_bind ok {A B} (p : prog A) (f : A → prog B) :
  calls_only ok p → (∀ a, calls_only ok (f a)) → calls_only ok (p ≫= f).
Proof.
  intros Hp Hf. induction p as [a|X c k IH|]; cbn; [apply Hf| |done].
  destruct Hp as [Hc Hk]. split; [done|]. intros x. apply IH, Hk.
Qed.
Lemma calls_only_ask ok {X} (c : call X) : ok X c = true → calls_only ok (ask_ c).
Proof. done. Qed.

Lemma wp_calls_only P C ok {A} (p : prog A) h (Q : list event → A → Prop) :
  calls_only ok p → (∀ l X c, ok X c = true → P (h ++ l)%list X c) → (∀ l a, Q (h ++ l)%list a) → wp P C h p Q.
Proof.
  revert h. induction p as [a|X c k IH|]; intros h Hp HP HQ; cbn in *; [|destruct Hp as [Hc Hk]|done].
  - rewrite <- (app_nil_r h). apply HQ.
  - split; [rewrite <- (app_nil_r h); by apply HP|]. intros x _.
    apply IH; [done|..]; intros l; rewrite <- app_assoc; [apply HP|apply HQ].
Qed.

(** An environment that answers as the database can. *)
Definition sound_answers (env : Answers) : Prop := ∀ n X (c : call X), sound c (env n X c).

(** Every call of a run satisfies what the precondition says. *)
Lemma wp_run P C env {A} (p : prog A) h n Q : sound_answers env → wp P C h p Q →
  ∀ pre e post, fst (run env n p) = (pre ++ e :: post)%list → P (h ++ pre)%list (ev_type e) (ev_call e).
Proof.
  intros He. revert h n. induction p as [a|X c k IH|]; intros h n W pre e post; cbn [run].
  - by destruct pre.
  - destruct W as [Hc Hk]. specialize (IH (env n X c) (h ++ [Event X c (env n X c)])%list (S n) (Hk _ (He n X c))).
    destruct (run env (S n) (k (env n X c))) as [l a]. cbn [fst] in *. destruct pre as [|e' pre]; cbn.
    + intros [= <- _]. by rewrite app_nil_r.
    + intros [= <- E]. specialize (IH _ _ _ E). by rewrite <- app_assoc in IH.
  - by destruct pre.
Qed.

(** A run that ends, ends as the precondition says. *)
Lemma wp_result P C env {A} (p : prog A) h n Q : sound_answers env → wp P C h p Q →
  match snd (run env n p) with Some a => Q (h ++ fst (run env n p))%list a | None => C end.
Proof.
  intros He. revert h n. induction p as [a|X c k IH|]; intros h n W; cbn [run]; [by rewrite app_nil_r| |done].
  destruct W as [_ Hk]. specialize (IH (env n X c) _ (S n) (Hk _ (He n X c))). revert IH.
  destruct (run env (S n) (k (env n X c))) as [l [a|]]; cbn; [by rewrite <- app_assoc|done].
Qed.

Lemma wp_crash P C env {A} (p : prog A) h n Q : sound_answers env → wp P C h p Q → snd (run env n p) = None → C.
Proof.
  intros He. revert h n. induction p as [a|X c k IH|]; intros h n W; cbn [run]; [done| |done].
  destruct W as [_ Hk]. specialize (IH _ _ (S n) (Hk _ (He n X c))). by destruct (run env (S n) (k (env n X c))).
Qed.

(** * The rules *)

(** A call that changes something: the database, what is sent to others, ClickHouse. *)
Definition is_write {X} (c : call X) : bool :=
  match c with
  | CAddUser _ _ _ _ | CUpdateUser _ _ _ _ _ | CDeleteUser _ | CChangeUserPassword _ _ _ | CCloudSaveSettings _
  | CSaveProject _ | CSaveProjectSettings _ | CDeleteProject _ | CMigrateClickhouse _ | CUpdateClickhouseClient _
  | CCreateDashboard _ _ _ | CUpdateDashboard _ _ _ _ | CDeleteDashboard _ _ | CSaveDashboardConfig _ _ _
  | CSaveCategory _ _ _ | CSendTest _ _ _ | CProbe _ _ | CSaveCustomApplication _ _ _ _ | CSaveBaseUrl _ _
  | CSaveIntegration _ _ | CResolveAlerts _ _ _ | CSuppressAlerts _ _ _ | CReopenAlerts _ _ | CEnqueueResolved _ _ _
  | CCreateRule _ _ | CUpdateRule _ _ | CDeleteRule _ _ | CResolveAlertsByRule _ _ | CSaveCheckConfig _ _ _ _
  | CSaveApplicationSetting _ _ _ | CUpdateIncidentRCA _ _ _ | CSetMcpSessionProject _ _ => true
  | _ => false
  end.
Definition is_reply {X} (c : call X) : bool := match c with CReply _ => true | _ => false end.
(** A read of telemetry, which only the tools of the MCP endpoint make themselves. *)
Definition is_telemetry {X} (c : call X) : bool :=
  match c with CRenderTraces _ _ _ _ _ _ _ | CQueryRange _ _ _ _ _ | CGetLogSources _ _ _ | CGetLogs _ _ _ => true | _ => false end.
Definition is_read X (c : call X) : bool := negb (is_write c) && negb (is_reply c) && negb (is_telemetry c).

Section rules.
Context (api : ApiConfig) (r : Request) (u : User).
Let projectId : string := r_vars r "project".
Definition may (a : Rbac.Action) : Prop := IsAllowed api u a = true.

(** The project of the URL, as it was read. *)
Definition the_project (h : list event) (p : Project) : Prop := p_Id p = projectId ∧ answered h (CGetProject projectId) (inr p).

(** Where the settings of an application are: the project of the URL, or one of its
    member projects. *)
Definition config_project (h : list event) (id : string) : Prop :=
  id = projectId ∨
  ∃ p projects mp m, the_project h p ∧ answered h CGetProjects (inr projects) ∧ mp ∈ MemberProjects p ∧ projects !! mp = Some m ∧ id = p_Id m.

(** What a write takes of the user and of the project it is about. *)
Definition write_ok (h : list event) {X} (c : call X) : Prop :=
  match c with
  | CAddUser _ _ _ role => may UsersEdit ∧ ∃ roles, ap_roles api = inr roles ∧ Rbac.Valid role roles = true
  | CUpdateUser _ _ _ _ role => may UsersEdit ∧ ∃ roles, ap_roles api = inr roles ∧ Rbac.Valid role roles = true
  | CDeleteUser _ => may UsersEdit
  | CChangeUserPassword id _ _ => id = u_Id u ∧ u_Anonymous u = false
  | CCloudSaveSettings _ => may SettingsEdit
  | CSaveProject p =>
      may (SettingsOf projectId) ∧ p_Id p = projectId
      ∧ (projectId ≠ "" → ∃ p0, the_project h p0 ∧ ps_Readonly (p_Settings p0) = false)
  | CSaveProjectSettings p =>
      (may (SettingsOf projectId) ∧ (p_Id p = projectId ∨ projectId = "" ∧ ∃ p0, answered h (CSaveProject p0) (None, p)))
      ∨ (may (PricingEdit projectId) ∧ ∃ p0 c, the_project h p0 ∧ p = with_settings (set_CustomCloudPricing c) p0)
  | CDeleteProject id => may (SettingsOf projectId) ∧ id = projectId
  | CMigrateClickhouse p => may (SettingsOf projectId) ∧ projectId = "" ∧ ∃ p0, answered h (CSaveProject p0) (None, p)
  | CUpdateClickhouseClient p => may (IntegrationsEdit projectId) ∧ p_Id p = projectId
  | CSaveIntegration p type =>
      may (IntegrationsEdit projectId) ∧ type = r_vars r "type"
      ∧ ∃ p0, the_project h p0 ∧ (p = p0 ∨ ∃ f clear, p = with_settings (set_Integrations (set_integration f clear)) p0)
  | CProbe p _ => may (IntegrationsEdit projectId) ∧ the_project h p
  | CSaveBaseUrl id _ => may (IntegrationsEdit projectId) ∧ id = projectId
  | CCreateDashboard id _ _ | CUpdateDashboard id _ _ _ | CDeleteDashboard id _ | CSaveDashboardConfig id _ _ =>
      may (DashboardsEdit projectId) ∧ id = projectId
  | CSaveCategory p _ _ | CSendTest p _ _ => may (CategoriesEdit projectId) ∧ the_project h p ∧ ps_Readonly (p_Settings p) = false
  | CSaveCustomApplication id _ _ _ =>
      may (CustomApplicationsEdit projectId) ∧ id = projectId ∧ ∃ p, the_project h p ∧ ps_Readonly (p_Settings p) = false
  | CResolveAlerts id _ by_ | CSuppressAlerts id _ by_ => may (AlertsEdit projectId) ∧ id = projectId ∧ by_ = display_name u
  | CReopenAlerts id _ => may (AlertsEdit projectId) ∧ id = projectId
  | CEnqueueResolved p _ _ => (may (AlertsEdit projectId) ∨ may (RulesEdit projectId)) ∧ the_project h p
  | CCreateRule id rule => may (RulesEdit projectId) ∧ id = projectId ∧ rule_ProjectId rule = projectId ∧ rule_Builtin rule = false
  | CUpdateRule id rule =>
      may (RulesEdit projectId) ∧ id = projectId ∧ rule_Id rule = r_vars r "rule" ∧ rule_ProjectId rule = projectId
      ∧ ∃ r0, answered h (CGetAlertingRule projectId (r_vars r "rule")) (inr r0) ∧ rule_Readonly r0 = false
  | CDeleteRule id rule | CResolveAlertsByRule id rule =>
      may (RulesEdit projectId) ∧ id = projectId ∧ rule = r_vars r "rule"
      ∧ ∃ r0, answered h (CGetAlertingRule projectId (r_vars r "rule")) (inr r0) ∧ rule_Readonly r0 = false
  | CSaveCheckConfig id app check _ =>
      may (InspectionsEdit projectId) ∧ config_project h id ∧ check = r_vars r "type"
      ∧ (app = ApplicationIdZero ∨ GetApplicationId r = Some app)
  | CSaveApplicationSetting id app v =>
      may (match v with
           | SettingInstrumentation _ => InstrumentationsEdit projectId
           | SettingRisks _ => RisksEdit projectId
           | _ => InspectionsEdit projectId
           end)
      ∧ config_project h id ∧ GetApplicationId r = Some app
  | CUpdateIncidentRCA id i _ => id = projectId ∧ i_Key i = query_Get r "incident" ∧ query_Get r "incident" ≠ ""
  | CSetMcpSessionProject _ _ => False
  | _ => True
  end.

(** What is on a page, or in an answer, takes of the user.  The pages of the last
    cases take nothing: everyone who is logged in gets them, and with each page its
    context, which names all applications and nodes of the project. *)
Definition payload_ok (d : payload) : Prop :=
  match d with
  | PUsers _ _ => may UsersEdit
  | PCloudStatus _ | PCloud _ _ _ => may SettingsEdit
  | PProject _ _ keys _ _ _ => ∀ l, keys = Some (inl l) → may (SettingsOf projectId)
  | PApiKeys _ keys => may (SettingsOf projectId) ∨ Forall (λ k, k_Key k = "") keys
  | POverview _ _ view _ _ _ _ => ∀ a m, view_action projectId view = Some (a, m) → may a
  | PDashboard d => may (DashboardView projectId (d_Name d))
  | PApplication _ _ app | PIncident _ app _ => may (ApplicationView projectId app)
  | PAlerts _ _ _ _ => may (AlertsView projectId)
  | PAlert _ a app _ _ => may (AlertsView projectId) ∧ (∀ app', app = Some app' → may (ApplicationView projectId app'))
  | PRules _ _ _ _ | PRulesExport _ => may (RulesView projectId)
  | PRule _ => may (RulesView projectId) ∨ may (RulesEdit projectId)
  | PIntegration f | PIntegrationAWS f _ | PIntegrationClickhouse f _ => may (IntegrationsEdit projectId) ∨ ∃ f0 p, f = Get f0 p true
  | PInstrumentation i => may (InstrumentationsEdit projectId) ∨ ai_Credentials i = {| cr_Username := hidden; cr_Password := hidden |}
  | PNode w node => ∃ name, node_name (r_vars r "node") = Some name ∧ GetNode w name = Some node ∧ may (NodeView projectId name)
  | PClickhouseConfig _ => False
  | PUser _ _ _ | PRoles _ | PSSO _ _ | PAI _ | PStatus _ _ _ => True
  | PDashboards _ | PPanelData _ _ _ _ _ | PIncidents _ _ => True
  | PInspections _ | PInspection _ _ | PCategories _ | PCategory _ | PCustomApplications _ | PPricing _ | PIntegrations _ _ _ => True
  | PProfiling _ _ | PTracing _ _ | PLogs _ _ _ | PRCA _ => True
  end.
Definition reply_ok (x : reply) : Prop :=
  match x with
  | Json d | JsonContext (Some (_, Some d)) => payload_ok d
  | _ => True
  end.
Definition call_ok (h : list event) X (c : call X) : Prop :=
  write_ok h c ∧ match c with CReply x => reply_ok x | _ => True end.

Lemma call_ok_read h X (c : call X) : is_read X c = true → call_ok h X c.
Proof. by destruct c. Qed.
End rules.

(** * The handlers *)
Module HandlersFacts.

Lemma answered_app {X} h l (c : call X) x : answered h c x → answered (h ++ l)%list c x.
Proof. intros A. apply elem_of_app. by left. Qed.
Lemma the_project_app r h l p : the_project r h p → the_project r (h ++ l)%list p.
Proof. intros [E A]. split; [done|]. by apply answered_app. Qed.
Create HintDb handlers.
#[export] Hint Resolve answered_app the_project_app : handlers.

(** Proves that a program only reads. *)
Ltac reads :=
  repeat match goal with
  | |- calls_only _ (Done _) => exact I
  | |- calls_only _ (ask_ _) => apply calls_only_ask; reflexivity
  | |- calls_only _ (_ ≫= _) => apply calls_only_bind; [|intros ?]
  | |- calls_only _ (let '(_, _) := ?x in _) => destruct x
  | |- calls_only _ (if ?b then _ else _) => destruct b
  | |- calls_only _ (match ?x with _ => _ end) => destruct x
  | H : ∀ _, _ |- calls_only _ _ => apply H
  | H : calls_only _ _ |- calls_only _ _ => exact H
  end.

Section reads.
Context `{UrlParse} `{PromParser} `{Durations} (api : ApiConfig).
Notation reads p := (calls_only is_read p).

Lemma getTimeContext_reads projectId fromStr toStr key alert : reads (getTimeContext projectId fromStr toStr key alert).
Proof. unfold getTimeContext. reads. Qed.
Lemma construct_reads p results status from to : reads (construct p results status from to).
Proof. unfold construct. reads. Qed.
Lemma load_members_reads p projects members : ∀ results status from to, reads (load_members p projects members results status from to).
Proof. induction members as [|mp members IH]; intros; cbn [load_members]; [apply construct_reads|reads]. Qed.
Lemma LoadWorld_reads p from to : reads (LoadWorld api p from to).
Proof. unfold LoadWorld. reads; first [apply load_members_reads|apply construct_reads]. Qed.
Lemma WithContext_reads p status w d : reads (WithContext api p status w d).
Proof. unfold WithContext. reads. Qed.
Lemma new_clients_reads l : ∀ n, reads (new_clients api l n).
Proof. induction l as [|p l IH]; intros; cbn [new_clients]; reads. Qed.
Lemma GetClickhouseClients_reads p : reads (GetClickhouseClients api p).
Proof. unfold GetClickhouseClients. reads; apply new_clients_reads. Qed.
Lemma GetClickhouseClient_reads p id : reads (GetClickhouseClient api p id).
Proof. unfold GetClickhouseClient. reads; apply GetClickhouseClients_reads. Qed.
Lemma member_sources_reads projects members : ∀ l, reads (member_sources projects members l).
Proof. induction members as [|mp members IH]; intros; cbn [member_sources]; reads. Qed.
Lemma get_alerts_reads projectId f ids : reads (get_alerts projectId f ids).
Proof. induction ids as [|id ids IH]; cbn [get_alerts]; reads. Qed.
Lemma LoadWorldByRequest_reads r incident : reads (LoadWorldByRequest api r incident).
Proof. unfold LoadWorldByRequest. reads; first [apply getTimeContext_reads|apply LoadWorld_reads]. Qed.
Lemma rca_clickhouse_reads r p appId from to ctx : reads (rca_clickhouse api r p appId from to ctx).
Proof. unfold rca_clickhouse. reads; first [apply GetClickhouseClient_reads|apply LoadWorldByRequest_reads]. Qed.
Lemma rca_request_reads r p appId i from to : reads (rca_request api r p appId i from to).
Proof. unfold rca_request, IncidentTimeContext. reads; apply rca_clickhouse_reads. Qed.
Lemma make_rca_reads r i from to : reads (make_rca api r i from to).
Proof. unfold make_rca. reads; apply rca_request_reads. Qed.
End reads.
#[export] Hint Resolve getTimeContext_reads LoadWorld_reads WithContext_reads GetClickhouseClients_reads GetClickhouseClient_reads
  member_sources_reads get_alerts_reads make_rca_reads : handlers.

Section handlers.
Context `{UrlParse} `{PromParser} `{Durations} (api : ApiConfig) (r : Request) (u : User).
Let projectId : string := r_vars r "project".

Definition fine (h : list event) (p : prog unit) : Prop := wp (call_ok api r u) True h p (λ _ _, True).

Lemma fine_error h m c : fine h (http_error m c).
Proof. done. Qed.
Lemma fine_status h c : fine h (ask_ (CReply (HttpStatus c))).
Proof. done. Qed.
Lemma fine_prometheus h p q : fine h (ask_ (CReply (Prometheus p q))).
Proof. done. Qed.
Lemma fine_no_page h : fine h no_page.
Proof. done. Qed.
Lemma fine_finish h : fine h finish.
Proof. done. Qed.
Lemma fine_json h d : payload_ok api r u d → fine h (write_json d).
Proof. by intros Hd. Qed.
Lemma fine_guard h b m k : (b = true → fine h k) → fine h (guard_ b m k).
Proof. destruct b; cbn; [by intros W; apply W|done]. Qed.
Lemma fine_may h a m k : (may api u a → fine h k) → fine h (guard_ (IsAllowed api u a) m k).
Proof. apply fine_guard. Qed.
Lemma fine_view h x k : ((∀ a m, x = Some (a, m) → may api u a) → fine h k) → fine h (guard_view api u x k).
Proof.
  intros Hk. destruct x as [[a m]|]; cbn; [apply fine_may; intros Ha|]; apply Hk; [|done]. by intros ? ? [= <- <-].
Qed.
Lemma fine_or_500 {E A} h (x : E + A) k : (∀ a, x = inr a → fine h (k a)) → fine h (or_500 x k).
Proof. destruct x; cbn; [done|]. intros W. by apply W. Qed.
Lemma fine_none_or_500 {E} h (x : option E) k : fine h k → fine h (none_or_500 x k).
Proof. by destruct x. Qed.
Lemma fine_or_400 {A} h m (x : option A) k : (∀ a, x = Some a → fine h (k a)) → fine h (or_400 m x k).
Proof. destruct x; cbn; [|done]. intros W. by apply W. Qed.
Lemma fine_then {A} h (p : prog A) k : wp (call_ok api r u) True h p (λ _ _, True) → (∀ l a, fine (h ++ l)%list (k a)) → fine h (p ≫= k).
Proof.
  intros W Hk. apply wp_bind. apply (wp_weaken (P := call_ok api r u) (C := True) p h (λ _ _, True) (call_ok api r u)); [done| |exact W]. intros l a _. apply Hk.
Qed.
Lemma fine_assoc {A B} h (p : prog A) (f : A → prog B) k : fine h (p ≫= λ a, f a ≫= k) → fine h ((p ≫= f) ≫= k).
Proof. revert h. induction p as [a|X c k' IH|]; intros h; cbn; [done| |done]. intros [Hc Hk]. split; [done|]. intros x Hx. apply IH, Hk, Hx. Qed.
Lemma fine_ask {X} h (c : call X) k :
  call_ok api r u h X c → (∀ l x, sound c x → answered (h ++ l)%list c x → fine (h ++ l)%list (k x)) → fine h (ask_ c ≫= k).
Proof. intros Hc Hk. apply wp_bind, wp_ask; [done|]. intros x. apply Hk. Qed.
Lemma fine_project h k :
  (∀ l e, fine (h ++ l)%list (k (inl e))) → (∀ l p, the_project r (h ++ l)%list p → fine (h ++ l)%list (k (inr p))) →
  fine h (ask_ (CGetProject projectId) ≫= k).
Proof.
  intros Hl Hr. apply fine_ask; [done|]. intros l [e|p] Hp Ha; [apply Hl|]. apply Hr. split; [by apply Hp|done].
Qed.
Lemma fine_reads {A} h (p : prog A) k : calls_only is_read p → (∀ l a, fine (h ++ l)%list (k a)) → fine h (p ≫= k).
Proof. intros Hp Hk. apply wp_bind. eapply (wp_calls_only _ _ is_read); [done|intros; by apply call_ok_read|done]. Qed.

Lemma fine_context h p status w d : payload_ok api r u d →
  fine h (WithContext api p status w d ≫= λ c, ask_ (CReply (JsonContext c))).
Proof.
  intros Hd. apply wp_bind. unfold WithContext. apply wp_bind, wp_ask; [done|]. intros alerts _ _.
  apply wp_bind. eapply (wp_calls_only _ _ is_read); [reads|intros; by apply call_ok_read|].
  intros l [li|]; (split; [|done]); (split; [done|]); cbn; [by destruct (li_Invalid li)|done].
Qed.
Lemma fine_page h p status w d : payload_ok api r u d → fine h (write_page api p status w d).
Proof. apply fine_context. Qed.

Lemma fine_world_at h incident none k :
  (∀ l, fine (h ++ l)%list none) → (∀ l w p status, the_project r (h ++ l)%list p → fine (h ++ l)%list (k w p status)) →
  fine h (with_world_at api r incident none k).
Proof.
  intros Hn Hk. unfold with_world_at, LoadWorldByRequest. apply wp_bind, wp_bind, wp_ask; [done|]. intros [e|p] Hp Ha.
  - destruct e; cbn; first [done|apply Hn].
  - assert (the_project r (h ++ [Event _ (CGetProject projectId) (inr p)])%list p) as Hthe by (split; [by apply Hp|done]).
    apply wp_bind. eapply (wp_calls_only _ _ is_read); [apply getTimeContext_reads|intros; by apply call_ok_read|]. intros l [[[from to] i] truncated].
    apply wp_bind. eapply (wp_calls_only _ _ is_read); [apply LoadWorld_reads|intros; by apply call_ok_read|]. intros l' [[w status] err]. cbn.
    apply fine_none_or_500. rewrite <- !app_assoc. apply Hk. rewrite !app_assoc. by apply the_project_app, the_project_app.
Qed.
Lemma fine_world h k :
  (∀ l w p status, the_project r (h ++ l)%list p → fine (h ++ l)%list (k w p status)) → fine h (with_world api r k).
Proof. apply fine_world_at. intros l. apply fine_no_page. Qed.

Lemma fine_app h w id k : (∀ app, GetApplication w id = Some app → fine h (k app)) → fine h (with_app w id k).
Proof. unfold with_app. destruct (GetApplication w id); [|done]. intros W. by apply W. Qed.

(** The project whose settings are those of an application. *)
Lemma member_of_cluster_spec projects clusterId members id : member_of_cluster projects clusterId members = Some id →
  ∃ mp m, mp ∈ members ∧ projects !! mp = Some m ∧ id = p_Id m.
Proof.
  unfold member_of_cluster. intros Hh. apply head_Some_elem_of, list_elem_of_omap in Hh as (mp & Hmp & E).
  destruct (projects !! mp) as [m|] eqn:Em; [|done]. exists mp, m. destruct (String.eqb _ _); naive_solver.
Qed.
Lemma fine_config h p appId k : the_project r h p →
  (∀ l id, config_project r (h ++ l)%list id → fine (h ++ l)%list (k id)) → fine h (with_config_project p appId k).
Proof.
  intros Hp Hk. unfold with_config_project, appConfigProjectId. apply wp_bind. case_match.
  - cbn. rewrite <- (app_nil_r h). apply Hk. left. by destruct Hp.
  - apply wp_bind, wp_ask; [done|]. intros [e|projects] _ Ha; cbn; [apply fine_error|].
    destruct (member_of_cluster _ _ _) as [id|] eqn:E; [|apply fine_error]. apply Hk. right.
    apply member_of_cluster_spec in E as (mp & m & ? & ? & ->). exists p, projects, mp, m. split_and!; [by apply the_project_app|done..].
Qed.
End handlers.

(** One step of a handler; what is left are the conditions of its writes and of
    what it shows. *)
Ltac fine_step :=
  match goal with
  | |- fine _ _ _ _ (http_error _ _) => apply fine_error
  | |- fine _ _ _ _ finish => apply fine_finish
  | |- fine _ _ _ _ no_page => apply fine_no_page
  | |- fine _ _ _ _ (ask_ (CReply (HttpStatus _))) => apply fine_status
  | |- fine _ _ _ _ (ask_ (CReply (Prometheus _ _))) => apply fine_prometheus
  | |- fine _ _ _ _ (write_json _) => apply fine_json; try exact I
  | |- fine _ _ _ _ (write_page _ _ _ _ _) => apply fine_page; try exact I
  | |- fine _ _ _ _ (guard_ (IsAllowed _ _ _) _ _) => apply fine_may; intros ?
  | |- fine _ _ _ _ (guard_ _ _ _) => apply fine_guard; intros ?
  | |- fine _ _ _ _ (guard_view _ _ _ _) => apply fine_view; intros ?
  | |- fine _ _ _ _ (WithContext _ _ _ _ _ ≫= _) => apply fine_context; try exact I
  | |- fine _ _ _ _ (or_500 (inl _) _) => apply fine_error
  | |- fine ?api ?r ?u ?h (or_500 (inr ?a) ?k) => change (fine api r u h (k a)); cbv beta
  | |- fine _ _ _ _ (or_500 _ _) => apply fine_or_500; intros
  | |- fine _ _ _ _ (none_or_500 _ _) => apply fine_none_or_500
  | |- fine _ _ _ _ (or_400 _ _ _) => apply fine_or_400; intros
  | |- fine _ _ _ _ (or_bad_app _ _) => unfold or_bad_app
  | |- fine _ _ _ _ (with_ids _ _) => unfold with_ids
  | |- fine _ _ _ _ (with_world _ _ _) => apply fine_world; intros
  | |- fine _ _ _ _ (with_world_at _ _ _ _ _) => apply fine_world_at; intros
  | |- fine _ _ _ _ (with_app _ _ _) => apply fine_app; intros
  | |- fine _ _ _ _ (with_config_project _ _ _) => eapply fine_config; [by eauto 6 with handlers|intros]
  | |- fine _ _ _ _ (ask_ (CGetProject (r_vars _ _)) ≫= _) => apply fine_project; intros
  | |- fine _ _ _ _ (ask_ _ ≫= _) => apply fine_ask; [first [by apply call_ok_read|split; [cbn [write_ok]|exact I]]|intros]
  | |- fine _ _ _ _ (Done _ ≫= _) => cbn [mbind prog_bind bind_prog]
  | |- fine _ _ _ _ (finish ≫= _) => cbn [mbind prog_bind bind_prog finish]
  | |- fine _ _ _ _ (http_error _ _ ≫= _) => apply fine_ask; [done|intros]
  | |- fine _ _ _ _ ((match ?x with _ => _ end) ≫= _) => destruct x eqn:?
  | |- fine _ _ _ _ (_ ≫= _) => apply fine_reads; [solve [reads; eauto with handlers]|intros]
  | |- fine _ _ _ _ ((_ ≫= _) ≫= _) => apply fine_assoc
  | |- fine _ _ _ _ (let '(_, _) := ?x in _) => destruct x
  | |- fine _ _ _ _ (match ?x with _ => _ end) => destruct x eqn:?
  end.
(** The projects that were read have the id of the URL. *)
Ltac ids :=
  repeat match goal with
  | H : the_project ?r _ ?p |- _ => lazymatch goal with _ : p_Id p = _ |- _ => fail | _ => pose proof (proj1 H : p_Id p = r_vars r "project") end
  end;
  repeat match goal with E : p_Id _ = r_vars _ _ |- _ => progress (rewrite E in * ) end.
Ltac fine := repeat fine_step; ids; cbn [payload_ok]; split_and?; eauto 6 with handlers.


Section all_handlers.
Context `{UrlParse} `{PromParser} `{Durations} (api : ApiConfig) (r : Request) (u : User).
Notation fine := (fine api r u).
Lemma User_fine h : fine h (handle_User api r u).
Proof. unfold handle_User, password_error. fine. Qed.
Lemma Roles_fine h : fine h (handle_Roles api r u).
Proof. unfold handle_Roles. fine. Qed.
Lemma SSO_fine h : fine h (handle_SSO api r u).
Proof. unfold handle_SSO. fine. Qed.
Lemma AI_fine h : fine h (handle_AI r u).
Proof. unfold handle_AI. fine. Qed.
Lemma Cloud_fine h : fine h (handle_Cloud api r u).
Proof. unfold handle_Cloud. fine. Qed.
Lemma Status_fine h : fine h (handle_Status api r u).
Proof. unfold handle_Status. fine. Qed.
Lemma Overview_fine h : fine h (handle_Overview api r u).
Proof. unfold handle_Overview. fine. Qed.
Lemma Dashboards_fine h : fine h (handle_Dashboards api r u).
Proof. unfold handle_Dashboards, dashboard_post. fine. Qed.
Lemma Inspections_fine h : fine h (handle_Inspections api r u).
Proof. unfold handle_Inspections. fine. Qed.
Lemma ApplicationCategories_fine h : fine h (handle_ApplicationCategories api r u).
Proof. unfold handle_ApplicationCategories, category_post. fine. Qed.
Lemma Integrations_fine h : fine h (handle_Integrations api r u).
Proof. unfold handle_Integrations. fine. Qed.
Lemma Application_fine h : fine h (handle_Application api r u).
Proof. unfold handle_Application. fine. Qed.
Lemma Incidents_fine h : fine h (handle_Incidents api r u).
Proof. unfold handle_Incidents. fine. Qed.
Lemma Incident_fine h : fine h (handle_Incident api r u).
Proof. unfold handle_Incident. fine. Qed.
Lemma Alerts_fine h : fine h (handle_Alerts api r u).
Proof. unfold handle_Alerts. fine. Qed.
Lemma ReopenAlerts_fine h : fine h (handle_ReopenAlerts api r u).
Proof. unfold handle_ReopenAlerts. fine. Qed.
Lemma AlertingRules_fine h : fine h (handle_AlertingRules api r u).
Proof. unfold handle_AlertingRules. fine. Qed.
Lemma AlertingRule_fine h : fine h (handle_AlertingRule api r u).
Proof. unfold handle_AlertingRule, get_rule, rule_delete. fine. Qed.
Lemma AlertingRulesExport_fine h : fine h (handle_AlertingRulesExport api r u).
Proof. unfold handle_AlertingRulesExport. fine. Qed.
Lemma Profiling_fine h : fine h (handle_Profiling api r u).
Proof. unfold handle_Profiling, service_post, save_setting. fine. Qed.
Lemma Tracing_fine h : fine h (handle_Tracing api r u).
Proof. unfold handle_Tracing, service_post, save_setting. fine. Qed.
Lemma Logs_fine h : fine h (handle_Logs api r u).
Proof. unfold handle_Logs, service_post, save_setting. fine. Qed.
Lemma Risks_fine h : fine h (handle_Risks api r u).
Proof. unfold handle_Risks, save_setting. fine. Qed.
Lemma Node_fine h : fine h (handle_Node api r u).
Proof. unfold handle_Node. fine. Qed.
Lemma PanelData_fine h : fine h (handle_PanelData r u).
Proof. unfold handle_PanelData. fine. Qed.
Lemma Prom_fine h : fine h (handle_Prom r u).
Proof. unfold handle_Prom, serve_prom. fine. Qed.
Lemma Users_fine h : fine h (handle_Users api r u).
Proof.
  unfold handle_Users. fine; match goal with E : negb (Rbac.Valid _ ?l) = false |- _ => exists l; split; [done|by apply negb_false_iff] end.
Qed.
Lemma CustomApplications_fine h : fine h (handle_CustomApplications api r u).
Proof. unfold handle_CustomApplications. fine. Qed.
Lemma CustomCloudPricing_fine h : fine h (handle_CustomCloudPricing api r u).
Proof. unfold handle_CustomCloudPricing, save_pricing. fine; right; split; eauto. Qed.
Lemma ApiKeys_fine h : fine h (handle_ApiKeys api r u).
Proof.
  unfold handle_ApiKeys. fine; [|by left; split; [|left]..].
  unfold may. destruct (IsAllowed _ _ _); [by left|right]. by apply Forall_fmap, Forall_true.
Qed.
Lemma Alert_fine h : fine h (handle_Alert api r u).
Proof. unfold handle_Alert. fine. intros app E. by rewrite E in *. Qed.
Lemma Instrumentation_fine h : fine h (handle_Instrumentation api r u).
Proof.
  unfold handle_Instrumentation, instrumentation_get, save_setting.
  fine; first [by split|unfold may; destruct (IsAllowed _ _ _); [by left|by right]].
Qed.

Lemma notify_resolved_fine p by_ l : (may api u (AlertsEdit (r_vars r "project"))) → ∀ rules h, the_project r h p → fine h (notify_resolved p by_ rules l).
Proof.
  intros Hmay. induction l as [|a l IH]; intros rules h Hp; cbn [notify_resolved]; [apply fine_finish|].
  fine; apply IH; eauto with handlers.
Qed.
Lemma ResolveAlerts_fine h : fine h (handle_ResolveAlerts api r u).
Proof.
  unfold handle_ResolveAlerts, resolveAlerts. fine.
  apply fine_then; [apply notify_resolved_fine; [done|eauto with handlers]|intros; fine].
Qed.
Lemma SuppressAlerts_fine h : fine h (handle_SuppressAlerts api r u).
Proof.
  unfold handle_SuppressAlerts. fine.
  apply fine_then; [apply notify_resolved_fine; [done|eauto with handlers]|intros; fine].
Qed.

Lemma form_Test_fine f p h : may api u (IntegrationsEdit (r_vars r "project")) → the_project r h p →
  wp (call_ok api r u) True h (form_Test f p) (λ _ _, True).
Proof.
  intros Hmay. unfold form_Test. destruct (test_probes f) as [e|l]; [done|]. revert h.
  induction l as [|pr l IH]; intros h Hp; cbn [run_probes]; [done|]. apply wp_bind, wp_ask; [done|].
  intros [e|] _ _; [done|]. apply IH. eauto with handlers.
Qed.
Lemma Update_same f clear test p p' : Update f clear test p = inr p' → p_Id p' = p_Id p.
Proof. by intros ->%FormsFacts.Update_inv. Qed.
Lemma integration_update_fine clear p f h : may api u (IntegrationsEdit (r_vars r "project")) → the_project r h p →
  fine h (integration_update api (r_vars r "type") clear p f).
Proof.
  intros Hmay Hp. unfold integration_update.
  assert (∀ h p' , the_project r h p → (p' = p ∨ ∃ f clear, p' = with_settings (set_Integrations (set_integration f clear)) p) →
    fine h (e ← ask_ (CSaveIntegration p' (r_vars r "type"));
            none_or_500 e (match ap_globalClickHouse api with
                           | Some _ => finish
                           | None => e ← ask_ (CUpdateClickhouseClient p'); match e with Some e => http_error ("Clickhouse error: " ++ e) 500 | None => finish end
                           end))) as Hsave.
  { intros h' p' Hp' Hor. assert (p_Id p' = r_vars r "project") as E by (destruct Hor as [->|(? & ? & ->)]; apply Hp'). fine. }
  apply fine_then; [destruct (update_tests f clear); [by apply form_Test_fine|done]|]. intros l test.
  destruct (Update f clear test p) as [e|p'] eqn:E.
  - apply fine_assoc, fine_ask; [done|]. intros l' x _ _. apply Hsave; [|by left]. eauto with handlers.
  - cbn [mbind prog_bind bind_prog]. apply Hsave; [eauto with handlers|]. right. apply FormsFacts.Update_inv in E. eauto.
Qed.
Lemma integration_get_fine p f h : may api u (IntegrationsEdit (r_vars r "project")) ∨ (∃ f0 p0, f = Get f0 p0 true) →
  fine h (integration_get api r p f).
Proof.
  intros Hm. unfold integration_get. destruct f; fine.
  apply fine_then; [|intros; by fine]. unfold LoadWorldByRequest.
  apply (wp_calls_only _ _ is_read); [reads; eauto with handlers|intros; by apply call_ok_read|done].
Qed.
Lemma Integration_fine h : fine h (handle_Integration api r u).
Proof.
  unfold handle_Integration. fine; [|apply fine_then; [by apply form_Test_fine|intros; fine]|by apply integration_update_fine..].
  apply integration_get_fine. unfold may. destruct (IsAllowed _ _ _); [by left|right; eauto].
Qed.

Lemma config_project_app h l id : config_project r h id → config_project r (h ++ l)%list id.
Proof.
  intros [->|(p & projects & mp & m & ? & ? & ?)]; [by left|right].
  exists p, projects, mp, m. eauto with handlers.
Qed.
Lemma save_levels_fine configProjectId appId l : may api u (InspectionsEdit (r_vars r "project")) →
  GetApplicationId r = Some appId → ∀ level h, config_project r h configProjectId → fine h (save_levels configProjectId appId (r_vars r "type") level l).
Proof.
  intros Hmay Ha. induction l as [|c l IH]; intros level h Hid; cbn [save_levels]; [apply fine_finish|].
  destruct level; [by apply IH|]. fine; [|by apply IH, config_project_app]. destruct level as [|[|]]; eauto.
Qed.
Lemma Inspection_fine h : fine h (handle_Inspection api r u).
Proof. unfold handle_Inspection, inspection_post. fine. by apply save_levels_fine. Qed.

Lemma project_save_fine p h : may api u (SettingsOf (r_vars r "project")) →
  (r_vars r "project" ≠ "" → ∃ p0, the_project r h p0 ∧ ps_Readonly (p_Settings p0) = false) → fine h (project_save api (r_vars r "project") p).
Proof.
  intros Hmay Hp. unfold project_save. apply fine_ask; [by split; [|exact I]|]. intros l [e p'] Hs Ha.
  destruct e as [[]|]; try apply fine_error.
  assert (p_Id p' = r_vars r "project" ∨ r_vars r "project" = "" ∧ ∃ p0, answered (h ++ l)%list (CSaveProject p0) (None, p')) as Hor.
  { destruct (decide (r_vars r "project" = "")) as [E|E]; [right; eauto|left]. by rewrite (Hs p' eq_refl E). }
  apply fine_ask; [split; [left; by split|exact I]|]. intros l' e _ _. apply fine_none_or_500.
  destruct (String.eqb_spec (r_vars r "project") "") as [E|E]; cbn [andb].
  2: { cbn [mbind prog_bind bind_prog]. apply fine_error. }
  destruct (negb (Multicluster p') && _); [|apply fine_error].
  apply fine_ask; [split; [|exact I]|intros; by fine]. split_and!; [done..|].
  exists {| p_Id := r_vars r "project"; p_Name := p_Name p;
    p_Settings := if Multicluster p then set_ApiKeys (λ _, []) (p_Settings p) else p_Settings p |}. eauto with handlers.
Qed.
Lemma Project_fine h : fine h (handle_Project api r u).
Proof.
  unfold handle_Project, project_get, project_form. fine; [done| |apply project_save_fine..]; [|done| |done|]; try by apply String.eqb_eq.
  - intros l'. unfold may. by destruct (IsAllowed _ _ _).
  - intros []. by apply String.eqb_eq.
  - intros _. exists p. eauto.
Qed.

(** The incident of a window is the one of the request. *)
Lemma getTimeContext_incident h f t key alert :
  wp (call_ok api r u) True h (getTimeContext (r_vars r "project") f t key alert)
    (λ _ ctx, ∀ i, snd (fst ctx) = Some i → i_Key i = key ∧ key ≠ "").
Proof.
  unfold getTimeContext. apply wp_bind, wp_ask; [done|]. intros now _ _. apply wp_bind.
  assert (∀ h (incident : option ApplicationIncident) (from to : Z) (truncated : bool), (∀ i, incident = Some i → i_Key i = key ∧ key ≠ "") →
    wp (call_ok api r u) True h
      (alert ← (if String.eqb alert "" then Done None
                else a ← ask_ (CGetAlert (r_vars r "project") alert); Done (match a with inl _ => None | inr a => Some a end));
       match alert with
       | None => Done (from, to, incident, truncated)
       | Some a =>
           rule ← ask_ (CGetAlertingRule (r_vars r "project") (a_RuleId a));
           let '(from, to) := alert_window now a (match rule with inr r => rule_KeepFiringFor r | inl _ => 0 end)%Z in
           Done (from, to, incident, truncated)
       end)
      (λ _ ctx, ∀ i, snd (fst ctx) = Some i → i_Key i = key ∧ key ≠ "")) as Hrest.
  { intros h' incident from to truncated Hi. apply wp_bind.
    apply (wp_calls_only _ _ is_read); [reads|intros; by apply call_ok_read|].
    intros l [a|]; [|exact Hi]. apply wp_bind, wp_ask; [done|]. intros rule _ _. by destruct (alert_window _ _ _). }
  destruct (String.eqb_spec key "") as [|Hkey]; [by apply Hrest|]. apply wp_bind, wp_ask; [done|].
  intros [[e i]|i] Hs _; cbn beta iota delta [wp].
  - apply Hrest. intros i' ->. split; [|done]. apply Hs. left. by exists e.
  - destruct (incident_window _ _ _ _) as [[from to] truncated]. apply Hrest. intros i' [= <-]. split; [|done]. apply Hs. by right.
Qed.
Lemma RCA_fine h : fine h (handle_RCA api r u).
Proof.
  unfold handle_RCA. apply wp_bind. eapply (wp_weaken (P := call_ok api r u) (C := True)); [| |apply getTimeContext_incident]; [done|].
  intros l [[[from to] i] truncated] Hi. cbn [fst snd] in Hi. cbn beta iota zeta.
  match goal with |- wp _ _ ?h ?p _ => change (fine h p) end.
  apply fine_reads; [apply make_rca_reads|]. intros l' rca. apply fine_then; [|intros; by destruct rca].
  destruct i as [i|]; [|done]. apply fine_ask; [|done]. destruct (Hi i eq_refl). done.
Qed.

Lemma routes_fine path methods (hd : Handler) h : (path, methods, hd) ∈ routes api ∨ hd = prom_route → fine h (hd r u).
Proof.
  intros [Hin| ->]; [|apply Prom_fine].
  assert (Forall (λ x : string * list string * Handler, fine h (snd x r u)) (routes api)) as Hall.
  { repeat apply Forall_cons_2; cbn [snd]; [apply User_fine|apply Users_fine|apply Roles_fine|apply SSO_fine|apply AI_fine|apply Cloud_fine
      |apply Project_fine|apply Project_fine|apply Status_fine|apply ApiKeys_fine|apply Overview_fine|apply Incidents_fine|apply Incident_fine
      |apply Alerts_fine|apply ResolveAlerts_fine|apply SuppressAlerts_fine|apply Alert_fine|apply ReopenAlerts_fine|apply AlertingRules_fine
      |apply AlertingRulesExport_fine|apply AlertingRule_fine|apply Dashboards_fine|apply Dashboards_fine|apply PanelData_fine
      |apply Inspections_fine|apply ApplicationCategories_fine|apply CustomApplications_fine|apply CustomCloudPricing_fine
      |apply Integrations_fine|apply Integration_fine|apply Application_fine|apply RCA_fine|apply Inspection_fine|apply Instrumentation_fine
      |apply Profiling_fine|apply Tracing_fine|apply Logs_fine|apply Risks_fine|apply Node_fine|apply Forall_nil_2]. }
  rewrite Forall_forall in Hall. exact (Hall _ Hin).
Qed.
End all_handlers.
End HandlersFacts.
Import HandlersFacts.

(** * Requests *)
Section requests.
Context `{UrlParse} `{PromParser} `{Durations} (api : ApiConfig) (session : option Z).

(** The user a request is made by. *)
Definition authenticated (h : list event) (u : User) : Prop :=
  if negb (String.eqb (ap_anonymousRole api) "") then u = AnonymousUser (ap_anonymousRole api)
  else ∃ id, session = Some id ∧ answered h (CGetUser id) (inr u).

(** A route of the API. *)
Definition api_route (route : string * list string * Handler) : Prop := route ∈ routes api ∨ snd route = prom_route.

(** A call that changes or shows something. *)
Definition matters {X} (c : call X) : bool :=
  is_write c || match c with CReply (Json _) | CReply (JsonContext _) => true | _ => false end.
Definition served_ok (r : Request) (h : list event) X (c : call X) : Prop :=
  matters c = true → ∃ u, authenticated h u ∧ call_ok api r u h X c.

Lemma authenticated_app h l u : authenticated h u → authenticated (h ++ l)%list u.
Proof. unfold authenticated. destruct (negb _); [done|]. intros (id & ? & ?). exists id. split; [done|]. by apply answered_app. Qed.

Lemma serve_fine route r : api_route route → wp (served_ok r) True [] (serve api session route r) (λ _ _, True).
Proof.
  intros Hr. destruct route as [[path methods] hd]. unfold serve. destruct (existsb _ _); [|done].
  assert (∀ h u, authenticated h u → wp (served_ok r) True h (hd r u) (λ _ _, True)) as Hh.
  { intros h u Hu. apply (wp_weaken (P := call_ok api r u) (C := True) (hd r u) h (λ _ _, True)); [|done|].
    - intros l X c Hc _. exists u. split; [by apply authenticated_app|done].
    - apply (routes_fine _ _ _ path methods). by destruct Hr as [?|E]; [left|right]. }
  unfold Auth, GetUser. apply wp_bind. destruct (negb _) eqn:Ea.
  - apply Hh. unfold authenticated. by rewrite Ea.
  - assert (∀ h, wp (served_ok r) True h
      (admin ← ask_ CDefaultAdminIsTheOnlyUser;
       or_500 admin (λ (alone : bool), http_error (if alone then "set_admin_password" else "") 401)) (λ _ _, True)) as Hno.
    { intros h. apply wp_bind, wp_ask; [done|]. by intros [e|[]] _ _. }
    destruct session as [id|] eqn:Es; [|apply Hno].
    apply wp_bind, wp_ask; [done|]. intros [e|u] _ Ha; [apply Hno|]. apply Hh. unfold authenticated. rewrite Ea. eauto.
Qed.
End requests.

(** ** The built-in roles *)
Module RolesFacts.

Section facts.
Context (api : ApiConfig) (u : User).

Context (r : Request) (h : list event).
End facts.
End RolesFacts.
Import RolesFacts.

(** * The theorems *)
Module ApiTheorems.
Section theorems.
Context `{UrlParse} `{PromParser} `{Durations} (api : ApiConfig) (session : option Z).

(** C5 Whatever is answered, whenever a request to a route of the API changes
    something (the database, ClickHouse, what is sent to others), it is made by a
    user who is logged in, and it is about the project of the URL.  Each write has
    the permission [write_ok] names, but two that take none: the own password of a
    user, and the root cause of the incident the request names, which every user
    of the project may replace.  The settings of an application are saved in the
    project of the URL or in one of its member projects, a user who may only change
    the prices saves the settings as they were read but for the prices, and what is
    defined by the config is not changed. *)
Theorem writes_are_allowed route r env : api_route api route → sound_answers env →
  ∀ pre e post, fst (run env 0 (serve api session route r)) = (pre ++ e :: post)%list → is_write (ev_call e) = true →
  ∃ u, authenticated api session pre u ∧ write_ok api r u pre (ev_call e).
Proof.
  intros Hr He pre e post E Hw.
  destruct (wp_run _ _ _ _ _ 0 _ He (serve_fine api session route r Hr) pre e post E) as (u & Hu & [Hok _]); [|by exists u].
  unfold matters. by rewrite Hw.
Qed.

(** C6 Whatever is answered, the pages that are guarded are shown only to a user who
    may see them: that of an application (also of an incident or an alert), a node,
    a dashboard, the alerts, the rules, and the traces, logs, costs and risks of a
    project only with their permission to view; the users, the API keys, the
    settings of the cloud, the settings of an integration before they are masked and
    the credentials of an instrumentation only with the permission to edit them.
    The other pages [payload_ok] names (the other overviews, the lists of incidents
    and dashboards, the logs, traces and profiles of an application, the data of
    panels, the checks and the settings without secrets) need nothing but a user. *)
Theorem pages_are_allowed route r env : api_route api route → sound_answers env →
  ∀ pre x answer post, fst (run env 0 (serve api session route r)) = (pre ++ Event _ (CReply x) answer :: post)%list →
  match x with Json d | JsonContext (Some (_, Some d)) => ∃ u, authenticated api session pre u ∧ payload_ok api r u d | _ => True end.
Proof.
  intros Hr He pre x answer post E.
  pose proof (wp_run _ _ _ _ _ 0 _ He (serve_fine api session route r Hr) pre _ post E) as Hs. cbn in Hs.
  destruct x as [| |d|[[? [d|]]|]|]; try done; (destruct Hs as (u & Hu & [_ Hok]); [done|by exists u]).
Qed.

End theorems.
End ApiTheorems.

(** * Secrets *)

(** Two environments that differ in secrets only: the API keys and the credentials
    of the integrations of the projects they answer.  ClickHouse may be asked with
    other credentials then, and answers the same. *)
Module Secrets.
Import FormsFacts.

Definition low_project (p p' : Project) : Prop := hide_project p = hide_project p'.
Inductive low_call : ∀ X, call X → call X → Prop :=
| low_same X (c : call X) : low_call X c c
| low_info cfg cfg' p : low_call _ (CClusterInfo cfg p) (CClusterInfo cfg' p).
Definition low_sum {A} (R : A → A → Prop) (x x' : db_error + A) : Prop :=
  match x, x' with inl e, inl e' => e = e' | inr a, inr a' => R a a' | _, _ => False end.
Definition low_answer {X} (c : call X) : X → X → Prop :=
  match c in call X return X → X → Prop with
  | CGetProject _ => low_sum low_project
  | CGetProjects => low_sum (λ m m', hide_project <$> m = hide_project <$> m')
  | _ => eq
  end.
Definition low_environments (env env' : Answers) : Prop := ∀ n X (c c' : call X), low_call X c c' → low_answer c (env n X c) (env' n X c').

(** Two programs that do the same but for secrets. *)
Inductive sim {A} (R : A → A → Prop) : prog A → prog A → Prop :=
| sim_done a a' : R a a' → sim R (Done a) (Done a')
| sim_crash : sim R Crash Crash
| sim_call X (c c' : call X) k k' : low_call X c c' → (∀ x x', low_answer c x x' → sim R (k x) (k' x')) → sim R (Call c k) (Call c' k').

(** What the client gets. *)
Definition replies (l : list event) : list reply := omap (λ e, match ev_call e with CReply x => Some x | _ => None end) l.

Lemma low_call_reply X (c c' : call X) : low_call X c c' →
  match c with CReply x => Some x | _ => None end = match c' with CReply x => Some x | _ => None end.
Proof. by destruct 1. Qed.

Lemma sim_run {A} (R : A → A → Prop) p p' env env' n : low_environments env env' → sim R p p' →
  replies (fst (run env n p)) = replies (fst (run env' n p')).
Proof.
  intros He Hs. revert n. induction Hs as [| |X c c' k k' Hc Hk IH]; intros n; cbn [run]; [done..|].
  specialize (IH _ _ (He n X c c' Hc) (S n)). destruct (run env _ _) as [l o], (run env' _ _) as [l' o']. cbn in *.
  rewrite (low_call_reply _ _ _ Hc). by destruct c'; cbn; rewrite IH.
Qed.

Lemma sim_bind {A B} (R : A → A → Prop) (S : B → B → Prop) p p' f f' :
  sim R p p' → (∀ a a', R a a' → sim S (f a) (f' a')) → sim S (p ≫= f) (p' ≫= f').
Proof.
  intros Hp Hf. induction Hp as [a a' Ha| |X c c' k k' Hc Hk IH]; cbn; [by apply Hf|constructor|].
  constructor; [done|]. intros x x' Hx. by apply IH.
Qed.
Lemma sim_ask {X} (c c' : call X) : low_call X c c' → sim (low_answer c) (ask_ c) (ask_ c').
Proof. intros Hc. constructor; [done|]. intros x x' Hx. by constructor. Qed.
(** A program that does not look at projects. *)
Definition no_project X (c : call X) : bool := match c with CGetProject _ | CGetProjects => false | _ => true end.
Lemma sim_refl {A} (p : prog A) : calls_only no_project p → sim eq p p.
Proof.
  induction p as [a|X c k IH|]; cbn; [by constructor| |done]. intros [Hc Hk]. constructor; [constructor|].
  intros x x' Hx. assert (x = x') as <- by (destruct c; try done). by apply IH.
Qed.

(** What does not depend on secrets is the same for both. *)
Lemma low_eq {B} (g : Project → B) p p' : (∀ p, g p = g (hide_project p)) → low_project p p' → g p = g p'.
Proof. intros Hg E. by rewrite (Hg p), (Hg p'), E. Qed.
Lemma low_Id p p' : low_project p p' → p_Id p = p_Id p'.
Proof. by apply (low_eq p_Id). Qed.
Lemma low_Get f p p' : is_webhook f = false → low_project p p' → Get f p true = Get f p' true.
Proof. intros W. apply (low_eq (λ p, Get f p true)). intros q. by apply Get_masked. Qed.
Lemma low_GetInfo p p' : low_project p p' → GetInfo (ps_Integrations (p_Settings p)) = GetInfo (ps_Integrations (p_Settings p')).
Proof.
  apply (low_eq (λ p, GetInfo (ps_Integrations (p_Settings p)))). intros q. destruct q as [id n [ro cs cats it ca ks pr mp]]. cbn.
  destruct it as [ch aws ro' url sl te pd og wh]. unfold GetInfo. cbn. by destruct sl, te, pd, og, wh.
Qed.
Lemma low_lookup m m' k : hide_project <$> m = hide_project <$> m' →
  match (m : gmap string Project) !! k, (m' : gmap string Project) !! k with
  | Some p, Some p' => low_project p p'
  | None, None => True
  | _, _ => False
  end.
Proof.
  intros E. assert (Ek : (hide_project <$> m) !! k = (hide_project <$> m') !! k) by by rewrite E.
  rewrite !lookup_fmap in Ek. destruct (m !! k), (m' !! k); try done. unfold low_project. by apply (inj Some).
Qed.
Lemma low_available projectId (m m' : gmap string Project) : hide_project <$> m = hide_project <$> m' →
  available_projects projectId m = available_projects projectId m'.
Proof.
  assert (∀ m : gmap string Project, available_projects projectId m = available_projects projectId (hide_project <$> m)) as Hg.
  { intros q. unfold available_projects. rewrite map_to_list_fmap. induction (map_to_list q) as [|[k p] l IH]; [done|].
    cbn [fmap list_fmap]. rewrite !filter_cons. cbn [prod_map fst snd]. change (p_Id (hide_project p)) with (p_Id p).
    change (Multicluster (hide_project p)) with (Multicluster p). destruct (decide _); [|done]. cbn [fmap list_fmap]. by f_equal. }
  intros E. by rewrite (Hg m), (Hg m'), E.
Qed.

(** ** The handlers that show settings *)
Section handlers.
Context `{UrlParse} `{PromParser} `{Durations} (api : ApiConfig) (r : Request) (u : User).
Notation sim_eq := (sim eq).

Lemma sim_json d : sim_eq (write_json d) (write_json d).
Proof. by apply sim_refl. Qed.
Lemma sim_error m c : sim_eq (http_error m c) (http_error m c).
Proof. by apply sim_refl. Qed.
Lemma sim_project projectId (k k' : db_error + Project → prog unit) :
  (∀ e, sim_eq (k (inl e)) (k' (inl e))) → (∀ p p', low_project p p' → sim_eq (k (inr p)) (k' (inr p'))) →
  sim_eq (ask_ (CGetProject projectId) ≫= k) (ask_ (CGetProject projectId) ≫= k').
Proof.
  intros Hl Hr. eapply sim_bind; [apply sim_ask; constructor|]. intros [e|p] [e'|p'] E; cbn in E; try done; [by rewrite E|by apply Hr].
Qed.

Lemma project_get_sim projectId : sim_eq (project_get projectId false) (project_get projectId false).
Proof.
  unfold project_get. eapply sim_bind; [apply sim_ask; constructor|]. intros [e|m] [e'|m'] E; cbn in E; try done; cbn [or_500]; [apply sim_error|].
  rewrite (low_available projectId m m' E). destruct (String.eqb projectId ""); [apply sim_json|].
  apply sim_project; [intros []; cbn; try apply sim_error; by constructor|]. intros p p' Hp.
  rewrite (low_eq (λ p, ps_Readonly (p_Settings p)) p p'), (low_eq p_Name p p'), (low_eq MemberProjects p p') by done. apply sim_json.
Qed.
Lemma Project_sim : is_method r MethodGet = true → ¬ may api u (SettingsOf (r_vars r "project")) →
  sim_eq (handle_Project api r u) (handle_Project api r u).
Proof. intros Hg Hm. unfold handle_Project. rewrite Hg. rewrite (not_true_is_false _ Hm). apply project_get_sim. Qed.

Lemma ApiKeys_sim : is_method r MethodGet = true → ¬ may api u (SettingsOf (r_vars r "project")) →
  sim_eq (handle_ApiKeys api r u) (handle_ApiKeys api r u).
Proof.
  intros Hg Hm. unfold handle_ApiKeys. rewrite Hg, (not_true_is_false _ Hm). apply sim_project; [intros; apply sim_error|]. intros p p' Hp. cbn [or_500 andb].
  rewrite (low_eq (λ p, (λ k, {| k_Key := ""; k_Description := k_Description k |}) <$> ps_ApiKeys (p_Settings p)) p p'); [apply sim_json| |done].
  intros q. cbn. by rewrite <- list_fmap_compose.
Qed.

Lemma Integrations_sim : is_method r MethodGet = true → sim_eq (handle_Integrations api r u) (handle_Integrations api r u).
Proof.
  intros Hg. unfold handle_Integrations. replace (is_method r MethodPut) with false.
  2: { unfold is_method in *. apply String.eqb_eq in Hg. by rewrite Hg. }
  apply sim_project; [intros; apply sim_error|]. intros p p' Hp. cbn [or_500]. rewrite (low_GetInfo p p' Hp).
  rewrite (low_eq (λ p, i_BaseUrl (ps_Integrations (p_Settings p))) p p'), (low_eq (λ p, i_Readonly (ps_Integrations (p_Settings p))) p p') by done.
  apply sim_json.
Qed.

(** The world of a request, from two projects. *)
Definition low_load (x x' : option (PageWorld * Project * option ResultsStatus) * option string) : Prop :=
  snd x = snd x' ∧ match fst x, fst x' with
                   | Some (w, p, status), Some (w', p', status') => w = w' ∧ low_project p p' ∧ status = status'
                   | None, None => True
                   | _, _ => False
                   end.
Lemma construct_sim p p' results status from to : low_project p p' → sim_eq (construct p results status from to) (construct p' results status from to).
Proof. intros Hp. unfold construct. rewrite (low_Id p p' Hp). by apply sim_refl. Qed.
Lemma load_members_sim p p' m m' members : low_project p p' → hide_project <$> m = hide_project <$> m' → ∀ results status from to,
  sim_eq (load_members p m members results status from to) (load_members p' m' members results status from to).
Proof.
  intros Hp Hm. induction members as [|mp members IH]; intros results status from to; cbn [load_members]; [by apply construct_sim|].
  pose proof (low_lookup m m' mp Hm) as Hl. destruct (m !! mp) as [q|], (m' !! mp) as [q'|]; try done; [|by constructor].
  rewrite (low_Id q q' Hl). eapply sim_bind; [apply sim_ask; constructor|]. intros [e|cs] ? <-; [by constructor|].
  eapply sim_bind; [apply sim_ask; constructor|]. intros [e|t] ? <-; [by constructor|]. destruct (_ || _); [by constructor|]. apply IH.
Qed.
Lemma LoadWorld_sim p p' from to : low_project p p' → sim_eq (LoadWorld api p from to) (LoadWorld api p' from to).
Proof.
  intros Hp. unfold LoadWorld. rewrite (low_Id p p' Hp), (low_eq Multicluster p p'), (low_eq MemberProjects p p') by done.
  destruct (ap_loadWorld api); [by apply sim_refl|]. destruct (Multicluster p').
  - eapply sim_bind; [apply sim_ask; constructor|]. intros [e|m] [e'|m'] E; cbn in E; try done; [by constructor|]. by apply load_members_sim.
  - eapply sim_bind; [apply sim_ask; constructor|]. intros [e|s] ? <-; [by constructor|].
    eapply sim_bind; [apply sim_ask; constructor|]. intros [e|t] ? <-; [by constructor|]. destruct (_ || _); [by constructor|]. by apply construct_sim.
Qed.
Lemma LoadWorldByRequest_sim incident : sim low_load (LoadWorldByRequest api r incident) (LoadWorldByRequest api r incident).
Proof.
  unfold LoadWorldByRequest. eapply sim_bind; [apply sim_ask; constructor|]. intros [e|p] [e'|p'] E; cbn in E; try done.
  - rewrite E. by destruct e'; constructor.
  - eapply sim_bind; [apply (sim_refl (getTimeContext _ _ _ _ _)); unfold getTimeContext; reads|]. intros [[[from to] i] truncated] ? <-.
    eapply sim_bind; [by apply LoadWorld_sim|]. intros [[w status] err] ? <-. by constructor.
Qed.
Lemma integration_get_sim p p' f : low_project p p' → sim_eq (integration_get api r p f) (integration_get api r p' f).
Proof.
  intros Hp. destruct f as [c g| | | | | |]; cbn [integration_get]; try apply sim_json.
  - eapply (sim_bind eq); [|intros ? ? <-; apply sim_json].
    assert (match ClickHouseConfig p (ap_globalClickHouse api), ClickHouseConfig p' (ap_globalClickHouse api) with
            | Some cfg, Some cfg' => ch_Protocol cfg = ch_Protocol cfg'
            | None, None => True
            | _, _ => False
            end) as Hc.
    { assert (ch_Protocol <$> i_Clickhouse (ps_Integrations (p_Settings p)) = ch_Protocol <$> i_Clickhouse (ps_Integrations (p_Settings p'))) as Hch.
      { apply (low_eq (λ p, ch_Protocol <$> i_Clickhouse (ps_Integrations (p_Settings p)))); [|done]. intros q. cbn. by destruct (i_Clickhouse _). }
      unfold ClickHouseConfig. destruct (i_Clickhouse _), (i_Clickhouse _), (ap_globalClickHouse api); try done; by injection Hch. }
    destruct (ClickHouseConfig p _) as [cfg|], (ClickHouseConfig p' _) as [cfg'|]; try done; [|by constructor].
    rewrite Hc. destruct (String.eqb _ _); [by constructor|]. rewrite (low_Id p p' Hp).
    eapply sim_bind; [apply sim_ask; constructor|]. intros x ? <-. by constructor.
  - eapply sim_bind; [apply LoadWorldByRequest_sim|]. intros [[[[w q] st]|] e] [[[[w' q'] st']|] e'] [_ E]; cbn in E; try done; [|apply sim_json].
    destruct E as (-> & _ & _). apply sim_json.
Qed.
Lemma Integration_sim : is_method r MethodGet = true → ¬ may api u (IntegrationsEdit (r_vars r "project")) →
  r_vars r "type" ≠ IntegrationTypeWebhook → sim_eq (handle_Integration api r u) (handle_Integration api r u).
Proof.
  intros Hg Hm Ht. unfold handle_Integration. rewrite Hg. apply sim_project; [intros; apply sim_error|]. intros p p' Hp. cbn [or_500].
  destruct (NewIntegrationForm _ _) as [f|] eqn:Ef; cbn [or_400]; [|apply sim_error].
  rewrite (not_true_is_false _ Hm). cbn [negb]. rewrite (low_Get f p p'); [by apply integration_get_sim| |done].
  unfold NewIntegrationForm in Ef. apply String.eqb_neq in Ht. rewrite Ht in Ef.
  repeat case_match; by simplify_eq.
Qed.
End handlers.
End Secrets.

Module SecretsTheorems.
Import Secrets.
(** C11 The API keys of a project and the credentials of its integrations are not
    shown to who may not edit them: of two environments that differ in them only, a
    GET of the project, its keys, its integrations or one of them (but the webhook,
    whose password and headers are shown) gets the same answer. *)
Theorem secrets_are_hidden `{UrlParse} `{PromParser} `{Durations} api r u h env env' n :
  h ∈ [handle_Project api; handle_ApiKeys api; handle_Integrations api; handle_Integration api] →
  is_method r MethodGet = true → r_vars r "type" ≠ IntegrationTypeWebhook →
  ¬ may api u (SettingsOf (r_vars r "project")) → ¬ may api u (IntegrationsEdit (r_vars r "project")) →
  low_environments env env' →
  replies (fst (run env n (h r u))) = replies (fst (run env' n (h r u))).
Proof.
  rewrite !elem_of_cons, elem_of_nil. intros Hh Hg Ht Hs Hi Hl. apply (sim_run eq); [done|].
  destruct Hh as [->|[->|[->|[->|[]]]]]; [by apply Project_sim|by apply ApiKeys_sim|by apply Integrations_sim|by apply Integration_sim].
Qed.
End SecretsTheorems.

(** * The database answers as it is assumed *)
Module SoundFacts.
Section facts.
Context `{Env}.

Lemma applyDefaults_Id p : p_Id (applyDefaults p) = p_Id p.
Proof. done. Qed.
Lemma GetProject_sound id (s : Sys ProjectTables) : sound (CGetProject id) (fst (GetProject id s)).
Proof.
  intros p. unfold GetProject, read, exec. destruct (env_fault _); [done|]. cbn. destruct (List.find _ _) as [row|] eqn:F; [|done].
  intros [= <-]. apply List.find_some in F as [_ F]. unfold is_project in F. by apply String.eqb_eq in F.
Qed.
Lemma SaveProject_sound builtins key p (s : Sys ProjectTables) : sound (CSaveProject p) (fst (SaveProject builtins key p s)).
Proof.
  intros p' E Hp. unfold SaveProject in E. rewrite (proj2 (String.eqb_neq _ _) Hp) in E.
  unfold mbind, M_bind in E. destruct (rename_project _ _ s) as [[e|[]] s']; cbn in E; by injection E.
Qed.
End facts.
End SoundFacts.

(** * Runs *)
Module ApiRuns.
Import ApiTheorems SecretsTheorems Secrets.

#[local] Instance run_urls : UrlParse := {| url_Parse _ := None |}.
#[local] Instance run_prom : PromParser := {| ParseExpr_error _ := None |}.
#[local] Instance run_durations : Durations := {| str2duration _ := None |}.

(** A database that has nothing and refuses everything. *)
Definition refuse {X} (c : call X) : X :=
  match c in call X return X with
  | CGetUsers => inl ErrNotFound | CGetProjectNames => inl ErrNotFound | CGetProjects => inl ErrNotFound | CGetProject _ => inl ErrNotFound
  | CGetDashboards _ => inl ErrNotFound | CGetDashboard _ _ => inl ErrNotFound | CGetIncidentByKey _ _ => inl (ErrNotFound, None)
  | CGetIncidentsForList _ _ => inl ErrNotFound | CQueryAlerts _ _ => inl ErrNotFound | CGetAlert _ _ => inl ErrNotFound
  | CGetAlertNotifications _ _ => inl ErrNotFound | CGetAlertingRules _ => inl ErrNotFound | CGetAlertingRule _ _ => inl ErrNotFound
  | CFiringByRule _ => inl ErrNotFound | CFiringBySeverity _ => inl ErrNotFound | CGetCheckConfigs _ => inl ErrNotFound
  | CGetDeployments _ => inl ErrNotFound | CGetApplicationIncidents _ _ _ => inl ErrNotFound | CGetUser _ => inl ErrNotFound
  | CDefaultAdminIsTheOnlyUser => inr false | CNow => 1000%Z | CNanoId _ => "id" | CRandomString _ => "random"
  | CResultsStatus _ => inl "" | CResultsTo _ => inl "" | CPromQL _ => inl "" | CCustomWorld _ _ _ => (None, None)
  | CConstructWorld _ _ _ _ _ => (None, None) | CNewClickhouseClient _ _ => None | CClusterInfo _ _ => inl "" | CPanelData _ _ _ _ _ => None
  | CCheckLicense => None | CCloudSettings => inl ErrNotFound | CCloudInfo => inl "" | CQueryResults _ _ _ _ => inl "" | CRCAStatus => ("Disabled", None)
  | CKubernetesEvents _ _ _ _ => inl "" | CTracesViolatingSLOs _ _ _ _ => None | CRCA _ _ _ _ _ => inl "" | CReply _ => tt
  | CAddUser _ _ _ _ => Some ErrNotFound | CUpdateUser _ _ _ _ _ => Some ErrNotFound | CDeleteUser _ => Some ErrNotFound
  | CChangeUserPassword _ _ _ => Some ErrNotFound | CCloudSaveSettings _ => Some ErrNotFound | CSaveProject p => (Some ErrNotFound, p)
  | CSaveProjectSettings _ => Some ErrNotFound | CDeleteProject _ => Some ErrNotFound | CMigrateClickhouse _ => None
  | CUpdateClickhouseClient _ => None | CCreateDashboard _ _ _ => ("", Some ErrNotFound) | CUpdateDashboard _ _ _ _ => Some ErrNotFound
  | CDeleteDashboard _ _ => Some ErrNotFound | CSaveDashboardConfig _ _ _ => Some ErrNotFound | CSaveCategory _ _ _ => Some ErrNotFound
  | CSendTest _ _ _ => None | CProbe _ _ => None | CSaveCustomApplication _ _ _ _ => Some ErrNotFound | CSaveBaseUrl _ _ => Some ErrNotFound
  | CSaveIntegration _ _ => Some ErrNotFound | CResolveAlerts _ _ _ => Some ErrNotFound | CSuppressAlerts _ _ _ => Some ErrNotFound
  | CReopenAlerts _ _ => Some ErrNotFound | CEnqueueResolved _ _ _ => tt | CCreateRule _ _ => Some ErrNotFound | CUpdateRule _ _ => Some ErrNotFound
  | CDeleteRule _ _ => Some ErrNotFound | CResolveAlertsByRule _ _ => inl ErrNotFound | CSaveCheckConfig _ _ _ _ => Some ErrNotFound
  | CSaveApplicationSetting _ _ _ => Some ErrNotFound | CUpdateIncidentRCA _ _ _ => Some ErrNotFound
  | CGetMcpSessionProject _ => inr "" | CSetMcpSessionProject _ _ => Some ErrNotFound | CGetLatestIncidentsBrief _ _ => inl ErrNotFound
  | CAppView _ _ => AppView.no_view | CAudit _ _ _ => λ _, AppView.no_view | CAuditNode _ _ => AppView.no_node | CRenderNodes _ _ => []
  | CRenderTraces _ _ _ _ _ _ _ => {| AppView.tp_Error := ""; AppView.tp_part _ := Json.JNull |} | CGetStep _ => 30%Z
  | CQueryRange _ _ _ _ _ => inl "" | CGetLogSources _ _ _ => inl "" | CGetLogs _ _ _ => inl ""
  end.

(** A database with one project, one user, one incident and one application. *)
Definition run_user (role : string) : User := {| u_Id := 7; u_Email := "u@example.com"; u_Name := "U"; u_Roles := [role]; u_Anonymous := false |}.
Definition run_project (key : string) : Project :=
  {| p_Id := "p1"; p_Name := "prod"; p_Settings := set_ApiKeys (λ _, [{| k_Key := key; k_Description := "default" |}]) no_settings |}.
Definition run_app : ApplicationId := {| AppId.ClusterId := "p1"; Namespace := "default"; Kind := "Deployment"; Name := "api" |}.
Definition run_world : PageWorld :=
  {| pw_Ctx := pw_Ctx (NewWorld 0 3600 15 15); pw_Applications := [{| pa_Id := run_app; pa_Category := "application"; pa_Settings := None |}];
     pw_Nodes := []; pw_CheckConfigs := None |}.
Definition run_rca : RCA := rca_of "OK" "".
Definition run_incident : ApplicationIncident :=
  {| i_ApplicationId := run_app; i_Key := "k1"; i_OpenedAt := 500; i_ResolvedAt := 0; i_Severity := Status.CRITICAL; i_Details := no_details; i_RCA := Some run_rca |}.
Definition answers (role key : string) : Answers := λ _ X c,
  match c in call X return X with
  | CGetUser 7 => inr (run_user role)
  | CGetProject "p1" => inr (run_project key)
  | CGetIncidentByKey "p1" "k1" => inr run_incident
  | CCustomWorld _ _ _ => (Some run_world, None)
  | CDeleteProject _ => None
  | c => refuse c
  end.
Lemma answers_sound role key : sound_answers (answers role key).
Proof.
  intros n X c. destruct c; try exact I; cbn.
  - intros p. repeat (case_match; try done). by intros [= <-].
  - intros i [[e E]|E]; revert E; repeat (case_match; try done). by intros [= <-].
  - apply AppView.no_view_ok.
  - intros _. apply AppView.no_view_ok.
  - apply AppView.no_node_ok.
  - done.
Qed.

Definition run_api : ApiConfig := {| ap_roles := inr Rbac.Roles; ap_globalClickHouse := None; ap_license := false; ap_loadWorld := true; ap_anonymousRole := "" |}.
Definition req (method : string) (vars : list (string * string)) (query : list (string * string)) : Request :=
  let get l k := match List.find (λ x, String.eqb (fst x) k) l with Some (_, v) => v | None => "" end in
  {| r_Method := method; r_vars := get vars; r_query := λ k, match get query k with "" => [] | v => [v] end; r_header := λ _, "";
     r_json := λ _, None; r_panel := None |}.

(** What a request does. *)
Definition the_run route r role := run (answers role "secret") 0 (serve run_api (Some 7%Z) route r).

Definition project_route : string * list string * Handler := ("/api/project/{project}", [MethodGet; MethodPost; MethodDelete], handle_Project run_api).
Definition delete_project : Request := req MethodDelete [("project", "p1")] [].
Lemma project_route_in : api_route run_api project_route.
Proof. left. apply (list_elem_of_lookup_2 _ 7). reflexivity. Qed.

Lemma writes_are_allowed_witness :
  ∃ u, authenticated run_api (Some 7%Z) [Event _ (CGetUser 7) (inr (run_user "Admin"))] u
    ∧ write_ok run_api delete_project u [Event _ (CGetUser 7) (inr (run_user "Admin"))] (CDeleteProject "p1").
Proof.
  apply (writes_are_allowed run_api (Some 7%Z) project_route delete_project (answers "Admin" "secret") project_route_in (answers_sound _ _)
    _ (Event _ (CDeleteProject "p1") None) [Event _ (CReply (HttpError "" 200)) tt]); reflexivity.
Defined.

Definition keys_route : string * list string * Handler := ("/api/project/{project}/api_keys", [MethodGet; MethodPost], handle_ApiKeys run_api).
Definition get_keys : Request := req MethodGet [("project", "p1")] [].
Lemma keys_route_in : api_route run_api keys_route.
Proof. left. apply (list_elem_of_lookup_2 _ 9). reflexivity. Qed.
Lemma pages_are_allowed_witness :
  let pre := [Event _ (CGetUser 7) (inr (run_user "Admin")); Event _ (CGetProject "p1") (inr (run_project "secret"))] in
  ∃ u, authenticated run_api (Some 7%Z) pre u
    ∧ payload_ok run_api get_keys u (PApiKeys true [{| k_Key := "secret"; k_Description := "default" |}]).
Proof.
  apply (pages_are_allowed run_api (Some 7%Z) keys_route get_keys (answers "Admin" "secret") keys_route_in (answers_sound _ _)
    _ (Json (PApiKeys true [{| k_Key := "secret"; k_Description := "default" |}])) tt []). reflexivity.
Defined.

(** A viewer's GET of the root cause of an incident replaces the stored one. *)
Definition rca_route : string * list string * Handler := ("/api/project/{project}/app/{app}/rca", [MethodGet], handle_RCA run_api).
Definition get_rca : Request := req MethodGet [("project", "p1"); ("app", "p1:default:Deployment:api")] [("incident", "k1")].
Definition rca_calls : list event := [
  Event _ (CGetUser 7) (inr (run_user "Viewer")); Event _ CNow 1000%Z; Event _ (CGetIncidentByKey "p1" "k1") (inr run_incident);
  Event _ CRCAStatus ("Disabled", None)].
Definition rca_write : event := Event _ (CUpdateIncidentRCA "p1" run_incident (rca_of "Disabled" "")) (Some ErrNotFound).
Example viewer_overwrites_rca : fst (the_run rca_route get_rca "Viewer") = (rca_calls ++ [rca_write])%list. Proof. reflexivity. Qed.



(** An incident that could not be read is taken for one, without its window, and what
    became of the investigation is stored under the key of the request. *)
Definition failing_answers : Answers := λ n X c,
  match c in call X return X with
  | CGetIncidentByKey "p1" key => inl (ErrOther "connection lost", Some (unread_incident "p1" key))
  | c => answers "Viewer" "secret" n _ c
  end.
Example unread_incident_is_written :
  last (fst (run failing_answers 0 (serve run_api (Some 7%Z) rca_route get_rca))) =
    Some (Event _ (CUpdateIncidentRCA "p1" (unread_incident "p1" "k1") (rca_of "Disabled" "")) (Some ErrNotFound)).
Proof. reflexivity. Qed.

(** Reading the instrumentation of an application of a type the program does not
    know crashes the handler. *)
Definition instrumentation_route : string * list string * Handler :=
  ("/api/project/{project}/app/{app}/instrumentation/{type}", [MethodGet; MethodPost], handle_Instrumentation run_api).
Definition get_instrumentation : Request :=
  req MethodGet [("project", "p1"); ("app", "p1:default:Deployment:api"); ("type", "nginx")] [].
Example unknown_instrumentation_crashes : snd (the_run instrumentation_route get_instrumentation "Viewer") = None.
Proof. vm_compute. reflexivity. Qed.

(** A project that is deleted while the root cause of one of its applications is
    asked for crashes the handler, which has stored an empty result by then. *)
Definition run_clickhouse : IntegrationClickhouse :=
  {| ch_Global := true; ch_Protocol := "native"; ch_Addr := "ch:9000"; ch_Auth := {| ba_User := ""; ba_Password := "" |}; ch_Database := "";
     ch_InitialDatabase := ""; ch_TlsEnable := false; ch_TlsSkipVerify := false; ch_TlsCAFile := "" |}.
Definition clickhouse_api : ApiConfig :=
  {| ap_roles := inr Rbac.Roles; ap_globalClickHouse := Some run_clickhouse; ap_license := false; ap_loadWorld := true; ap_anonymousRole := "" |}.
Definition vanishing_answers : Answers := λ n X c,
  match c in call X return X with
  | CRCAStatus => ("OK", None)
  | CGetProject "p1" => if (n <? 10)%nat then inr (run_project "secret") else inl ErrNotFound
  | CResultsTo _ => inr 2000%Z
  | CGetCheckConfigs _ => inr []
  | CGetDeployments _ => inr []
  | CQueryResults _ _ _ _ => inr tt
  | c => answers "Viewer" "secret" n _ c
  end.
Example vanished_project_crashes :
  let '(events, result) := run vanishing_answers 0 (serve clickhouse_api (Some 7%Z) ("", [MethodGet], handle_RCA clickhouse_api) get_rca) in
  last events = Some (Event _ (CUpdateIncidentRCA "p1" run_incident (rca_of "" "")) (Some ErrNotFound)) ∧ result = None.
Proof. vm_compute. split; reflexivity. Qed.

Lemma answers_low role key key' : low_environments (answers role key) (answers role key').
Proof.
  intros n X c c' [X' c1|cfg cfg' p]; [|done]. destruct c1; cbn; try done. repeat (case_match; try done).
Qed.
Lemma secrets_are_hidden_witness :
  replies (fst (run (answers "Viewer" "secret") 0 (handle_ApiKeys run_api get_keys (run_user "Viewer"))))
  = replies (fst (run (answers "Viewer" "another") 0 (handle_ApiKeys run_api get_keys (run_user "Viewer"))))
  ∧ replies (fst (run (answers "Viewer" "secret") 0 (handle_ApiKeys run_api get_keys (run_user "Viewer"))))
  = [Json (PApiKeys false [{| k_Key := ""; k_Description := "default" |}])].
Proof.
  split; [|vm_compute; reflexivity].
  apply (secrets_are_hidden run_api get_keys (run_user "Viewer") (handle_ApiKeys run_api)).
  - right. left.
  - reflexivity.
  - vm_compute. discriminate.
  - vm_compute. discriminate.
  - vm_compute. discriminate.
  - apply answers_low.
Defined.

(** The administrator is only kept from being changed by email: deleting by id
    goes through. *)
Definition users_route : string * list string * Handler := ("/api/users", [MethodGet; MethodPost], handle_Users run_api).
Definition delete_admin : Request :=
  {| r_Method := MethodPost; r_vars := λ _, ""; r_query := λ _, []; r_header := λ _, "";
     r_json := λ k, match k return option (form_of k) with
                    | KUser => Some {| uf_Action := UserActionDelete; uf_Id := 1; uf_Email := ""; uf_Name := ""; uf_Role := ""; uf_Password := "" |}
                    | _ => None
                    end;
     r_panel := None |}.
Example admin_deleted_by_id : In (Event _ (CDeleteUser 1) (Some ErrNotFound)) (fst (the_run users_route delete_admin "Admin")).
Proof. right. left. reflexivity. Qed.
End ApiRuns.
