(* ===== verification/Base64.v ===== *)
(** The parts of encoding/base64, crypto/hmac and crypto/sha256 that
    api/auth.go and api/mcp_oauth.go use: the URL alphabet with and without
    padding, and HMAC-SHA256.  A byte slice is a [string]. *)

From S2P Require Export Fingerprint.
From Stdlib Require Import Ascii String ZArith Lia.
Local Open Scope string_scope.
Local Open Scope N_scope.

(** Bytes as numbers, and back. *)
Fixpoint of_bytes (l : list N) : string :=
  match l with [] => "" | b :: l => String (ascii_of_N b) (of_bytes l) end.

Module Base64.

(** * The URL alphabet *)
Definition char (n : N) : ascii :=
  ascii_of_N (if n <? 26 then 65 + n else if n <? 52 then 71 + n else if n <? 62 then n - 4 else if n =? 62 then 45 else 95).
Definition value (a : ascii) : option N :=
  let n := N_of_ascii a in
  if (65 <=? n) && (n <=? 90) then Some (n - 65)
  else if (97 <=? n) && (n <=? 122) then Some (n - 71)
  else if (48 <=? n) && (n <=? 57) then Some (n + 4)
  else if n =? 45 then Some 62 else if n =? 95 then Some 63 else None.

(** * [EncodeToString]; [pad] for [URLEncoding], without for [RawURLEncoding] *)
Fixpoint EncodeToString (pad : bool) (s : string) : string :=
  match s with
  | "" => ""
  | String a "" =>
      let a := N_of_ascii a in
      String (char (a / 4)) (String (char (a mod 4 * 16)) (if pad then "==" else ""))
  | String a (String b "") =>
      let a := N_of_ascii a in let b := N_of_ascii b in
      String (char (a / 4)) (String (char (a mod 4 * 16 + b / 16)) (String (char (b mod 16 * 4)) (if pad then "=" else "")))
  | String a (String b (String c s)) =>
      let a := N_of_ascii a in let b := N_of_ascii b in let c := N_of_ascii c in
      String (char (a / 4)) (String (char (a mod 4 * 16 + b / 16))
        (String (char (b mod 16 * 4 + c / 64)) (String (char (c mod 64)) (EncodeToString pad s))))
  end.

(** * [URLEncoding.DecodeString]: [None] is an error

    Line ends are skipped wherever they are; what the last digits hold beyond
    the last byte is not looked at. *)
Definition is_newline (a : ascii) : bool := let n := N_of_ascii a in (n =? 10) || (n =? 13).
Fixpoint drop_newlines (s : string) : string :=
  match s with
  | "" => ""
  | String a s => if is_newline a then drop_newlines s else String a (drop_newlines s)
  end.

Definition byte1 (x y : N) : ascii := ascii_of_N (x * 4 + y / 16).
Definition byte2 (y z : N) : ascii := ascii_of_N (y mod 16 * 16 + z / 4).
Definition byte3 (z w : N) : ascii := ascii_of_N (z mod 4 * 64 + w).

Fixpoint decode (s : string) : option string :=
  match s with
  | "" => Some ""
  | String a (String b (String c (String d s))) =>
      match value a, value b with
      | Some x, Some y =>
          if Ascii.eqb c "=" then if Ascii.eqb d "=" && String.eqb s "" then Some (String (byte1 x y) "") else None
          else match value c with
               | None => None
               | Some z =>
                   if Ascii.eqb d "=" then
                     if String.eqb s "" then Some (String (byte1 x y) (String (byte2 y z) "")) else None
                   else match value d, decode s with
                        | Some w, Some t => Some (String (byte1 x y) (String (byte2 y z) (String (byte3 z w) t)))
                        | _, _ => None
                        end
               end
      | _, _ => None
      end
  | _ => None
  end.
Definition DecodeString (s : string) : option string := decode (drop_newlines s).

End Base64.

(** * HMAC-SHA256 *)
Module Hmac.

Definition block_size : nat := 64.
Definition block_key (key : string) : list N :=
  let k := Sha256.bytes key in
  let k := if (block_size <? List.length k)%nat then Sha256.Sum key else k in
  (k ++ replicate (block_size - List.length k) 0)%list.
Definition xor_pad (p : N) (k : list N) : string := of_bytes (N.lxor p <$> k).

(** [hmac.New(sha256.New, key)], [Write(msg)], [Sum(nil)] *)
Definition Sum (key msg : string) : string :=
  let k := block_key key in
  of_bytes (Sha256.Sum (xor_pad 92 k ++ of_bytes (Sha256.Sum (xor_pad 54 k ++ msg)))).

End Hmac.

(** [sha256.Sum256] *)
Definition Sum256 (s : string) : string := of_bytes (Sha256.Sum s).

(** * Test vectors: RFC 4648 and RFC 7636, and a known MAC *)
Example base64_f : Base64.EncodeToString true "foobarf" = "Zm9vYmFyZg==". Proof. reflexivity. Qed.
Example base64_url : Base64.EncodeToString false (of_bytes [251; 255]) = "-_8". Proof. reflexivity. Qed.
Example base64_lines : Base64.DecodeString ("Zm9v" ++ of_bytes [10] ++ "YmE=") = Some "fooba". Proof. reflexivity. Qed.
Example base64_bad : Base64.DecodeString "Zm9vYmE" = None. Proof. reflexivity. Qed.
Example pkce_vector :
  Base64.EncodeToString false (Sum256 "dBjftJeZ4CVP-mB92K27uhbUJU1p1r_wW1gFWFOEjXk") = "E9Melhoa2OwvFrEMTJguCHaoeK1t8URWbuGJSstw-cM".
Proof. vm_compute. reflexivity. Qed.
Example hmac_vector :
  hex_encode (Sha256.bytes (Hmac.Sum "key" "The quick brown fox jumps over the lazy dog"))
  = "f7bc83f430538424b13298e6aa6fb143ef4d59a14946175997479dbc2d1a3cd8".
Proof. vm_compute. reflexivity. Qed.

(** * Facts *)
Module Base64Facts.
Import Base64.

Lemma N_of_ascii_lt a : N_of_ascii a < 256.
Proof. apply N_ascii_bounded. Qed.

Definition digits : list N := N.of_nat <$> seq 0 64.
Lemma digits_all : forallb (λ n, match value (char n) with Some m => (m =? n) | None => false end
                             && negb (Ascii.eqb (char n) "=") && negb (is_newline (char n)) && negb (Ascii.eqb (char n) ".")
                             && (N_of_ascii (char n) <? 128)) digits = true.
Proof. vm_compute. reflexivity. Qed.

Lemma digit_facts n : n < 64 → value (char n) = Some n ∧ Ascii.eqb (char n) "=" = false ∧ is_newline (char n) = false
  ∧ Ascii.eqb (char n) "." = false ∧ N_of_ascii (char n) <? 128 = true.
Proof.
  intros Hn. assert (Hin : In n digits).
  { apply list_elem_of_In, list_elem_of_fmap. exists (N.to_nat n). rewrite N2Nat.id. split; [done|]. apply elem_of_seq. lia. }
  assert (H := proj1 (forallb_forall _ _) digits_all _ Hin). cbn beta in H.
  repeat (apply andb_prop in H as [H ?]). destruct (value (char n)) as [m|]; [|done].
  apply N.eqb_eq in H as ->. repeat split; try done; by apply negb_true_iff.
Qed.

(** Three bytes at a time. *)
Lemma by_three (P : string → Prop) :
  P "" → (∀ a, P (String a "")) → (∀ a b, P (String a (String b ""))) →
  (∀ a b c s, P s → P (String a (String b (String c s)))) → ∀ s, P s.
Proof.
  intros H0 H1 H2 H3. refine (fix go s := _).
  destruct s as [|a [|b [|c s]]]; [exact H0|apply H1|apply H2|apply H3, go].
Qed.

Ltac euclid := zify; Z.to_euclidean_division_equations; lia.

Lemma byte1_eq a r : r < 16 → byte1 (N_of_ascii a / 4) (N_of_ascii a mod 4 * 16 + r) = a.
Proof.
  intros Hr. unfold byte1. rewrite <- (ascii_N_embedding a) at 3. f_equal. assert (H := N_of_ascii_lt a). euclid.
Qed.
Lemma byte2_eq x b r : r < 4 → byte2 (x * 16 + N_of_ascii b / 16) (N_of_ascii b mod 16 * 4 + r) = b.
Proof.
  intros Hr. unfold byte2. rewrite <- (ascii_N_embedding b) at 3. f_equal. assert (H := N_of_ascii_lt b). euclid.
Qed.
Lemma byte3_eq x c : byte3 (x * 4 + N_of_ascii c / 64) (N_of_ascii c mod 64) = c.
Proof.
  unfold byte3. rewrite <- (ascii_N_embedding c) at 3. f_equal. assert (H := N_of_ascii_lt c). euclid.
Qed.

(** Every character of an encoded text is a digit or padding. *)
Definition plain (a : ascii) : Prop := is_newline a = false ∧ Ascii.eqb a "." = false ∧ N_of_ascii a <? 128 = true.
Lemma char_plain n : n < 64 → plain (char n).
Proof. intros H. destruct (digit_facts n H) as (_ & _ & H1 & H2). by split. Qed.
Fixpoint all_plain (s : string) : Prop := match s with "" => True | String a s => plain a ∧ all_plain s end.

Lemma encode_plain pad s : all_plain (EncodeToString pad s).
Proof.
  induction s as [|a|a b|a b c s IH] using by_three; [done|..];
    try (assert (Ha := N_of_ascii_lt a)); try (assert (Hb := N_of_ascii_lt b)); try (assert (Hc := N_of_ascii_lt c));
    cbn -[char N.div N.modulo N.mul N.add plain]; repeat split; try done;
    try (apply char_plain; euclid); destruct pad; done.
Qed.

Lemma plain_no_newlines s : all_plain s → drop_newlines s = s.
Proof. induction s as [|a s IH]; [done|]. cbn. intros [[H1 _] Hs]. by rewrite H1, IH. Qed.
Lemma plain_no_dot s : all_plain s → contains "." s = false.
Proof.
  induction s as [|a s IH]; [done|]. cbn [all_plain contains]. intros [(_ & H & _) Hs]. rewrite IH by done. apply orb_false_iff.
  split; [|done]. apply Ascii.eqb_neq in H. unfold same. apply not_true_iff_false. intros E. apply Ascii.eqb_eq in E. congruence.
Qed.

(** An encoded text has no dot, so the two parts of a cookie are found again. *)
Lemma encode_no_dot pad s : contains "." (EncodeToString pad s) = false.
Proof. apply plain_no_dot, encode_plain. Qed.

(** What is encoded decodes to itself. *)
Lemma decode_encode s : DecodeString (EncodeToString true s) = Some s.
Proof.
  unfold DecodeString. rewrite plain_no_newlines by apply encode_plain. induction s as [|a|a b|a b c s IH] using by_three; [done|..].
  - assert (Ha := N_of_ascii_lt a). cbn -[char value N.div N.modulo N.mul N.add].
    destruct (digit_facts (N_of_ascii a / 4)) as (->&_); [euclid|].
    destruct (digit_facts (N_of_ascii a mod 4 * 16)) as (->&_); [euclid|]. cbn.
    rewrite <- (N.add_0_r (_ mod 4 * 16)). by rewrite byte1_eq.
  - assert (Ha := N_of_ascii_lt a). assert (Hb := N_of_ascii_lt b). cbn -[char value N.div N.modulo N.mul N.add].
    destruct (digit_facts (N_of_ascii a / 4)) as (->&_); [euclid|].
    destruct (digit_facts (N_of_ascii a mod 4 * 16 + N_of_ascii b / 16)) as (->&_); [euclid|].
    destruct (digit_facts (N_of_ascii b mod 16 * 4)) as (->&->&_); [euclid|]. cbn -[N.div N.modulo N.mul N.add].
    rewrite byte1_eq by euclid. rewrite <- (N.add_0_r (_ mod 16 * 4)). by rewrite byte2_eq.
  - assert (Ha := N_of_ascii_lt a). assert (Hb := N_of_ascii_lt b). assert (Hc := N_of_ascii_lt c). cbn -[char value N.div N.modulo N.mul N.add].
    destruct (digit_facts (N_of_ascii a / 4)) as (->&_); [euclid|].
    destruct (digit_facts (N_of_ascii a mod 4 * 16 + N_of_ascii b / 16)) as (->&_); [euclid|].
    destruct (digit_facts (N_of_ascii b mod 16 * 4 + N_of_ascii c / 64)) as (->&->&_); [euclid|].
    destruct (digit_facts (N_of_ascii c mod 64)) as (->&->&_); [euclid|].
    rewrite IH. rewrite byte1_eq by euclid. rewrite byte2_eq by euclid. by rewrite byte3_eq.
Qed.

(** An encoded text has no dot: the two parts of a cookie are found again. *)

(** ** The digest has 32 bytes *)
Lemma round_length st kw : List.length (Sha256.round st kw) = List.length st.
Proof. unfold Sha256.round. do 9 (destruct st as [|? st]; [done|]). done. Qed.
Lemma compress_length h block : List.length (Sha256.compress h block) = List.length h.
Proof.
  unfold Sha256.compress. rewrite length_zip_with. apply Nat.min_l. generalize (zip Sha256.K (reverse (Sha256.schedule 48 (reverse (Sha256.words block))))).
  intros l. apply Nat.eq_le_incl. revert h. induction l as [|kw l IH]; intros h; [done|]. cbn. by rewrite <- IH, round_length.
Qed.
Lemma blocks_length fuel bs h : List.length (Sha256.blocks fuel bs h) = List.length h.
Proof. revert bs h. induction fuel as [|fuel IH]; intros bs h; [done|]. cbn. by rewrite IH, compress_length. Qed.
Lemma be_bytes_length k n : List.length (Sha256.be_bytes k n) = k.
Proof. revert n. induction k as [|k IH]; intros n; [done|]. cbn. rewrite length_app, IH. cbn. lia. Qed.
Lemma of_bytes_length l : String.length (of_bytes l) = List.length l.
Proof. induction l as [|b l IH]; [done|]. cbn. by rewrite IH. Qed.
Lemma Sum256_length s : String.length (Sum256 s) = 32%nat.
Proof.
  unfold Sum256, Sha256.Sum. rewrite of_bytes_length.
  assert (L : ∀ l, List.length (flat_map (Sha256.be_bytes 4) l) = (4 * List.length l)%nat).
  { induction l as [|n l IH]; [done|]. cbn [flat_map]. rewrite length_app, be_bytes_length, IH. cbn. lia. }
  by rewrite L, blocks_length.
Qed.
Lemma encode_empty pad s : EncodeToString pad s = "" → s = "".
Proof. destruct s as [|a [|b [|c s]]]; done. Qed.
End Base64Facts.
