(* ===== verification/Users.v ===== *)
(** Users, settings and MCP sessions: db/user.go, db/settings.go,
    db/mcp_session.go and their tables of db/migrations/00001_baseline.sql.

    A column the code writes as JSON holds the value itself.  The ids of users
    come from a sequence, which gives a value to each insert, also to one that
    then fails. *)

From S2P Require Import Rbac.
From S2P Require Export Base64 Api.
From Stdlib Require Import Ascii String ZArith Lia.
Local Open Scope string_scope.
Local Open Scope Z_scope.

(** bcrypt, with the salt of a call *)
Class Bcrypt := {
  GenerateFromPassword : nat → string → option string;
  CompareHashAndPassword : string → string → bool }.
(** [time.Now], in nanoseconds *)
Class WallClock := { wall_clock : nat → Z }.

(** * Tables *)
Record UserRow := { us_id : Z; us_email : string; us_name : string; us_password : string; us_roles : list string }.
Record McpSessionRow := { ms_project_id : string; ms_updated_at : Z }.
Record AuthTables := {
  t_users : list UserRow;
  t_users_seq : Z;  (** the last id given *)
  t_settings : gmap string json;
  t_mcp_session : gmap string McpSessionRow }.

Definition with_users (f : list UserRow → list UserRow) (t : AuthTables) : AuthTables :=
  {| t_users := f (t_users t); t_users_seq := t_users_seq t; t_settings := t_settings t; t_mcp_session := t_mcp_session t |}.
Definition with_settings_table (f : gmap string json → gmap string json) (t : AuthTables) : AuthTables :=
  {| t_users := t_users t; t_users_seq := t_users_seq t; t_settings := f (t_settings t); t_mcp_session := t_mcp_session t |}.
Definition with_mcp_session (f : gmap string McpSessionRow → gmap string McpSessionRow) (t : AuthTables) : AuthTables :=
  {| t_users := t_users t; t_users_seq := t_users_seq t; t_settings := t_settings t; t_mcp_session := f (t_mcp_session t) |}.

Definition has_email (email : string) (r : UserRow) : bool := String.eqb (us_email r) email.
Definition has_id (id : Z) (r : UserRow) : bool := us_id r =? id.
Definition scan_user (r : UserRow) : User :=
  {| u_Id := us_id r; u_Email := us_email r; u_Name := us_name r; u_Roles := us_roles r; u_Anonymous := false |}.
Definition row_set_user (email name : string) (password : option string) (role : string) (r : UserRow) : UserRow :=
  {| us_id := us_id r; us_email := email; us_name := name; us_password := default (us_password r) password; us_roles := [role] |}.
Definition row_set_password (hash : string) (r : UserRow) : UserRow :=
  {| us_id := us_id r; us_email := us_email r; us_name := us_name r; us_password := hash; us_roles := us_roles r |}.

Definition AdminUserName : string := "Admin".
Definition AdminUserDefaultPassword : string := "".
Definition IsDefaultAdmin (u : User) : bool := String.eqb (u_Email u) AdminUserLogin.

Section statements.
Context `{Env} `{Bcrypt} `{WallClock}.
Local Notation AM := (M AuthTables).

(** One statement: what it answers and the tables it leaves; a call that fails
    changes nothing. *)
Definition sql {A} (q : AuthTables → (db_error + A) * AuthTables) : AM (db_error + A) := λ s,
  match env_fault (sys_ticks s) with
  | Some err => (inl (ErrOther err), tick s)
  | None => let '(a, t) := q (sys_mem s) in (a, Build_Sys t (sys_tables s) (S (sys_ticks s)))
  end.
Definition select_ {A} (q : AuthTables → db_error + A) : AM (db_error + A) := sql (λ t, (q t, t)).
Definition change (f : AuthTables → AuthTables) : AM (db_error + unit) := sql (λ t, (inr tt, f t)).
Definition failed {A} (e : db_error) : AM (db_error + A) := mret (inl e).
Definition done_ {A} (a : A) : AM (db_error + A) := mret (inr a).
(** What follows a call that went through. *)
Definition if_ok {A B} (m : AM (db_error + A)) (k : A → AM (db_error + B)) : AM (db_error + B) :=
  a ← m; match a with inl e => failed e | inr a => k a end.

Definition timeNow : AM Z := ask wall_clock.
(** [Time.Unix] *)
Definition Unix (t : Z) : Z := t / 1000000000.

Definition password_too_long : db_error := ErrOther "bcrypt: password length exceeds 72 bytes".
Definition Generate (password : string) : AM (db_error + string) :=
  ask (λ n, match GenerateFromPassword n password with Some h => inr h | None => inl password_too_long end).

(** * db/settings.go

    [decode] is what [json.Unmarshal] makes of the stored value. *)
Definition GetSetting {A} (decode : json → option A) (name : string) : AM (db_error + A) :=
  select_ (λ t, match t_settings t !! name with
                | None => inl ErrNotFound
                | Some v => match decode v with Some a => inr a | None => inl (ErrOther "json") end
                end).

(** The UPDATE answers how many rows it changed. *)
Definition update_setting (name : string) (v : json) : AM (db_error + bool) :=
  sql (λ t, match t_settings t !! name with
            | Some _ => (inr true, with_settings_table (<[name := v]>) t)
            | None => (inr false, t)
            end).
Definition insert_setting (name : string) (v : json) : AM (db_error + unit) :=
  sql (λ t, match t_settings t !! name with
            | Some _ => (inl (ErrOther unique_violation), t)
            | None => (inr tt, with_settings_table (<[name := v]>) t)
            end).
Definition SetSetting (name : string) (v : json) : AM (db_error + unit) :=
  if_ok (update_setting name v) (λ found, if found then done_ tt else insert_setting name v).

(** * db/user.go *)

(** The INSERT; the violation of [email]'s uniqueness is a conflict.  A SERIAL
    column has the ids of a 32-bit integer. *)
Definition max_serial : Z := 2147483647.
Definition insert_user (email name hash role : string) : AM (db_error + unit) :=
  sql (λ t, let id := t_users_seq t + 1 in
            if max_serial <? id then (inl (ErrOther "nextval: reached maximum value of sequence"), t) else
            let row := {| us_id := id; us_email := email; us_name := name; us_password := hash; us_roles := [role] |} in
            let taken := existsb (has_email email) (t_users t) in
            (if taken then inl ErrConflict else inr tt,
             {| t_users := if taken then t_users t else (t_users t ++ [row])%list; t_users_seq := id;
                t_settings := t_settings t; t_mcp_session := t_mcp_session t |})).

Definition AddUser (email password name role : string) : AM (db_error + unit) :=
  if_ok (Generate password) (λ hash, insert_user email name hash role).

Definition CreateAdminIfNotExists (password : string) : AM (db_error + unit) :=
  r ← select_ (λ t, match List.find (has_email AdminUserLogin) (t_users t) with Some _ => inr tt | None => inl ErrNotFound end);
  match r with
  | inr tt => done_ tt
  | inl ErrNotFound => AddUser AdminUserLogin password AdminUserName Rbac.RoleAdmin
  | inl e => failed e
  end.

(** An UPDATE of the users of [p]; one that would leave two users with one
    email fails. *)
Definition update_users (p : UserRow → bool) (f : UserRow → UserRow) : AM (db_error + unit) :=
  sql (λ t, let rows := update_where p f (t_users t) in
            if bool_decide (NoDup (us_email <$> rows)) then (inr tt, with_users (λ _, rows) t)
            else (inl (ErrOther unique_violation), t)).

Definition SetAdminPassword (password : string) : AM (db_error + unit) :=
  if_ok (Generate password) (λ hash, update_users (has_email AdminUserLogin) (row_set_password hash)).

(** The rows in turn, with the one read before: [None] when there is a second. *)
Fixpoint only_row (u : option UserRow) (rows : list UserRow) : option (option UserRow) :=
  match rows with
  | [] => Some u
  | r :: rows =>
      if match u with Some u => negb (String.eqb (us_email u) "") | None => false end then None
      else only_row (Some r) rows
  end.
Definition default_admin (rows : list UserRow) : option User :=
  match only_row None rows with
  | Some (Some r) =>
      if IsDefaultAdmin (scan_user r) && CompareHashAndPassword (us_password r) AdminUserDefaultPassword
      then Some (scan_user r) else None
  | _ => None
  end.
Definition DefaultAdminUserIsTheOnlyUser : AM (db_error + option User) := select_ (λ t, inr (default_admin (t_users t))).

Definition GetUsers : AM (db_error + list User) := select_ (λ t, inr (scan_user <$> t_users t)).

Definition AuthUser (email password : string) : AM (db_error + Z) :=
  r ← select_ (λ t, match List.find (has_email email) (t_users t) with Some r => inr r | None => inl ErrNotFound end);
  match r with
  | inl e => failed e
  | inr r => if CompareHashAndPassword (us_password r) password then done_ (us_id r) else failed ErrNotFound
  end.

Definition user_by_id (id : Z) (t : AuthTables) : db_error + UserRow :=
  match List.find (has_id id) (t_users t) with Some r => inr r | None => inl ErrNotFound end.
Definition GetUser (id : Z) : AM (db_error + User) :=
  select_ (λ t, match user_by_id id t with inl e => inl e | inr r => inr (scan_user r) end).

(** An empty password leaves the one there is. *)
Definition UpdateUser (id : Z) (email password name role : string) : AM (db_error + unit) :=
  if String.eqb password "" then update_users (has_id id) (row_set_user email name None role)
  else if_ok (Generate password) (λ hash, update_users (has_id id) (row_set_user email name (Some hash) role)).

Definition ChangeUserPassword (id : Z) (oldPassword newPassword : string) : AM (db_error + unit) :=
  if_ok (select_ (user_by_id id)) (λ r,
    if negb (CompareHashAndPassword (us_password r) oldPassword) then failed ErrInvalid
    else if String.eqb oldPassword newPassword then failed ErrConflict
    else if_ok (Generate newPassword) (λ hash, update_users (has_id id) (row_set_password hash))).

Definition DeleteUser (id : Z) : AM (db_error + unit) :=
  change (with_users (where_ (λ r, negb (has_id id r)))).

(** * db/mcp_session.go *)
Definition mcpSessionMaxAge : Z := 30 * 24 * 3600 * 1000000000.

Definition SetMcpSessionProject (sessionId projectId : string) : AM (db_error + unit) :=
  now ← timeNow;
  if_ok (change (with_mcp_session (filter (λ p, Unix (now - mcpSessionMaxAge) ≤ ms_updated_at p.2)))) (λ _,
    change (with_mcp_session (<[sessionId := {| ms_project_id := projectId; ms_updated_at := Unix now |}]>))).

(** [""] when no project is selected. *)
Definition GetMcpSessionProject (sessionId : string) : AM (db_error + string) :=
  select_ (λ t, inr (match t_mcp_session t !! sessionId with Some r => ms_project_id r | None => "" end)).

Definition DeleteMcpSession (sessionId : string) : AM (db_error + unit) := change (with_mcp_session (delete sessionId)).

End statements.

(** * Facts *)
Module UsersFacts.
Section facts.
Context `{Env} `{Bcrypt} `{WallClock}.
Local Notation AM := (M AuthTables).

(** What a program does to the tables, whatever fails: a relation of the tables
    before and after. *)
Definition moves {A} (R : AuthTables → AuthTables → Prop) (m : AM A) : Prop := ∀ s, R (sys_mem s) (sys_mem (snd (m s))).

Lemma moves_ret {A} R `{Reflexive _ R} (a : A) : moves R (mret a).
Proof. intros s. cbn. reflexivity. Qed.
Lemma moves_bind {A B} R `{Transitive _ R} (m : AM A) (k : A → AM B) : moves R m → (∀ a, moves R (k a)) → moves R (m ≫= k).
Proof.
  intros Hm Hk s. unfold mbind, M_bind. specialize (Hm s). destruct (m s) as [a s1]. cbn in Hm.
  etransitivity; [apply Hm|apply Hk].
Qed.
Lemma moves_ask {A} R `{Reflexive _ R} (f : nat → A) : moves R (ask f).
Proof. intros s. cbn. reflexivity. Qed.
Lemma moves_sql {A} R `{Reflexive _ R} (q : AuthTables → (db_error + A) * AuthTables) :
  (∀ t, R t (snd (q t))) → moves R (sql q).
Proof.
  intros Hq s. unfold sql. destruct (env_fault _); [cbn; reflexivity|]. specialize (Hq (sys_mem s)). by destruct (q (sys_mem s)).
Qed.
Lemma moves_select {A} R `{Reflexive _ R} (q : AuthTables → db_error + A) : moves R (select_ q).
Proof. apply moves_sql; [done|]. intros t. cbn. reflexivity. Qed.
Lemma moves_if_ok {A B} R `{PreOrder _ R} (m : AM (db_error + A)) (k : A → AM (db_error + B)) :
  moves R m → (∀ a, moves R (k a)) → moves R (if_ok m k).
Proof. intros Hm Hk. apply moves_bind; [apply _|done|]. intros [e|a]; [apply moves_ret|apply Hk]. apply _. Qed.

(** What a statement answers. *)
Lemma sql_inv {A} (q : AuthTables → (db_error + A) * AuthTables) (s : Sys AuthTables) :
  (fst (sql q s) = fst (q (sys_mem s)) ∧ sys_mem (snd (sql q s)) = snd (q (sys_mem s)))
  ∨ ((∃ err, env_fault (sys_ticks s) = Some err ∧ fst (sql q s) = inl (ErrOther err)) ∧ sys_mem (snd (sql q s)) = sys_mem s).
Proof. unfold sql. destruct (env_fault _); [right; eauto|left]. by destruct (q (sys_mem s)). Qed.
Lemma select_ok {A} (q : AuthTables → db_error + A) s a s' : select_ q s = (inr a, s') → q (sys_mem s) = inr a ∧ sys_mem s' = sys_mem s.
Proof.
  intros E. destruct (sql_inv (λ t, (q t, t)) s) as [[E1 E2]|[[err [_ E1]] E2]]; unfold select_ in E; rewrite E in *; cbn in *; [done|discriminate].
Qed.

(** ** The table of users *)
Definition users_ok (t : AuthTables) : Prop :=
  NoDup (us_email <$> t_users t) ∧ NoDup (us_id <$> t_users t) ∧ Forall (λ r, 1 ≤ us_id r ≤ t_users_seq t) (t_users t) ∧ 0 ≤ t_users_seq t ≤ max_serial.
Definition users_kept (t t' : AuthTables) : Prop := (users_ok t → users_ok t') ∧ t_settings t' = t_settings t.
#[export] Instance users_kept_preorder : PreOrder users_kept.
Proof. split; [by intros t|]. intros t1 t2 t3 [H1' E1] [H2' E2]. split; [auto|congruence]. Qed.

Lemma insert_user_ok email name hash role : moves users_kept (insert_user email name hash role).
Proof.
  apply moves_sql; [apply _|]. intros t. split; [|cbn; by repeat case_match]. intros (He & Hi & Hr & Hs). cbv zeta beta.
  destruct (Z.ltb_spec max_serial (t_users_seq t + 1)); [done|]. cbn. destruct (existsb _ _) eqn:Ex.
  - split; [done|]. split; [done|]. split; [|cbn; lia]. eapply Forall_impl; [exact Hr|]. cbn. lia.
  - split; [|split; [|split; [|cbn; lia]]]; cbn.
    + rewrite fmap_app. apply NoDup_app. split; [done|]. split; [|apply NoDup_singleton].
      intros x (r & -> & Hx)%list_elem_of_fmap Hin%list_elem_of_singleton. cbn in Hin. apply not_true_iff_false in Ex. apply Ex.
      apply existsb_exists. exists r. split; [by apply list_elem_of_In|]. by apply String.eqb_eq.
    + rewrite fmap_app. apply NoDup_app. split; [done|]. split; [|apply NoDup_singleton].
      intros x (r & -> & Hx)%list_elem_of_fmap Hin%list_elem_of_singleton. cbn in Hin.
      rewrite Forall_forall in Hr. specialize (Hr r Hx). cbn in Hr. lia.
    + apply Forall_app. split; [|constructor; [cbn; lia|constructor]]. eapply Forall_impl; [exact Hr|]. cbn. lia.
Qed.

Lemma update_users_ok p f : (∀ r, us_id (f r) = us_id r) → moves users_kept (update_users p f).
Proof.
  intros Hf. apply moves_sql; [apply _|]. intros t. split; [|cbn; by repeat case_match]. intros (He & Hi & Hr & Hs). cbv zeta beta. case_bool_decide as Hn; [|done]. cbn.
  assert (Hids : us_id <$> update_where p f (t_users t) = us_id <$> t_users t).
  { unfold update_where. rewrite <- list_fmap_compose. apply list_fmap_ext. intros i r _. cbn. by destruct (p r). }
  split; [done|]. split; [cbn; by rewrite Hids|]. split; [|done]. cbn.
  rewrite Forall_forall in *. intros r Hx. unfold update_where in Hx. apply list_elem_of_fmap in Hx as (r0 & -> & Hx).
  specialize (Hr r0 Hx). by destruct (p r0); rewrite ?Hf.
Qed.

Lemma delete_user_ok id : moves users_kept (DeleteUser id).
Proof.
  apply moves_sql; [apply _|]. intros t. split; [|cbn; by repeat case_match]. intros (He & Hi & Hr & Hs). cbn. unfold users_ok. cbn.
  split; [by apply where_NoDup|]. split; [by apply where_NoDup|]. split; [|done].
  rewrite Forall_forall in *. intros r Hx. apply Hr. apply elem_of_where in Hx. by destruct Hx.
Qed.

Lemma Generate_ok p : moves users_kept (Generate p).
Proof. apply moves_ask, _. Qed.
Lemma select_users_ok {A} (q : AuthTables → db_error + A) : moves users_kept (select_ q).
Proof. apply moves_select, _. Qed.
Lemma sessions_ok (f : gmap string McpSessionRow → gmap string McpSessionRow) : moves users_kept (change (with_mcp_session f)).
Proof. apply moves_sql; [apply _|]. intros t. by split. Qed.
Lemma timeNow_ok : moves users_kept timeNow.
Proof. apply moves_ask, _. Qed.
End facts.

Create HintDb users.
#[export] Hint Resolve insert_user_ok update_users_ok delete_user_ok Generate_ok select_users_ok sessions_ok timeNow_ok : users.

(** One step of a program; a match is taken apart. *)
Ltac kept_step :=
  lazymatch goal with
  | |- moves _ (mret _) => apply moves_ret; apply _
  | |- moves _ (failed _) => apply moves_ret; apply _
  | |- moves _ (done_ _) => apply moves_ret; apply _
  | |- moves _ (if_ok _ _) => apply moves_if_ok; [apply _|by auto with users|intros ?]
  | |- moves _ (mbind _ _) => apply moves_bind; [apply _|by auto with users|intros ?]
  | |- moves _ (match ?x with _ => _ end) => destruct x
  | |- _ => by auto with users
  end.
Ltac kept := repeat (cbv zeta beta; kept_step).

Section operations.
Context `{Env} `{Bcrypt} `{WallClock}.

Lemma AddUser_ok email password name role : moves users_kept (AddUser email password name role).
Proof. unfold AddUser. kept. Qed.
Lemma UpdateUser_ok id email password name role : moves users_kept (UpdateUser id email password name role).
Proof. unfold UpdateUser. kept. Qed.
Lemma ChangeUserPassword_ok id old new : moves users_kept (ChangeUserPassword id old new).
Proof. unfold ChangeUserPassword. kept. Qed.
Lemma SetAdminPassword_ok password : moves users_kept (SetAdminPassword password).
Proof. unfold SetAdminPassword. kept. Qed.
Lemma AuthUser_ok email password : moves users_kept (AuthUser email password).
Proof. unfold AuthUser. kept. Qed.
Lemma GetUser_ok id : moves users_kept (GetUser id).
Proof. apply moves_select, _. Qed.
Lemma GetSetting_ok {A} (decode : json → option A) name : moves users_kept (GetSetting decode name).
Proof. apply moves_select, _. Qed.
Lemma SetMcpSessionProject_ok sessionId projectId : moves users_kept (SetMcpSessionProject sessionId projectId).
Proof. unfold SetMcpSessionProject. kept. Qed.
Lemma DeleteMcpSession_ok sessionId : moves users_kept (DeleteMcpSession sessionId).
Proof. apply sessions_ok. Qed.
End operations.
#[export] Hint Resolve AddUser_ok UpdateUser_ok ChangeUserPassword_ok SetAdminPassword_ok AuthUser_ok GetUser_ok @GetSetting_ok
  SetMcpSessionProject_ok DeleteMcpSession_ok : users.

Lemma ids_unique t r r' : users_ok t → r ∈ t_users t → r' ∈ t_users t → us_id r = us_id r' → r = r'.
Proof.
  intros (_ & Hi & _) Hr Hr' E. apply (NoDup_fst_eq ((λ r, (us_id r, r)) <$> t_users t) (us_id r)).
  - by rewrite <- list_fmap_compose.
  - apply list_elem_of_fmap. by exists r.
  - apply list_elem_of_fmap. exists r'. by rewrite E.
Qed.
End UsersFacts.

Module UsersTheorems.
Import UsersFacts.
Section theorems.
Context `{Env} `{Bcrypt} `{WallClock}.

(** C14 Changing a password: an error leaves the tables as they are and says what is
    wrong, in this order: no such user, the old password is not theirs, the new
    one is the old one; otherwise only the hash of this user is replaced, by one
    made from the new password. *)
Theorem ChangeUserPassword_spec id old new (s : Sys AuthTables) :
  let '(r, s') := ChangeUserPassword id old new s in
  let user := List.find (has_id id) (t_users (sys_mem s)) in
  match r with
  | inl e =>
      sys_mem s' = sys_mem s
      ∧ match e with
        | ErrNotFound => user = None
        | ErrInvalid => ∃ u, user = Some u ∧ CompareHashAndPassword (us_password u) old = false
        | ErrConflict => ∃ u, user = Some u ∧ CompareHashAndPassword (us_password u) old = true ∧ old = new
        | ErrOther _ => True
        end
  | inr _ =>
      ∃ u n hash, user = Some u ∧ CompareHashAndPassword (us_password u) old = true ∧ old ≠ new
      ∧ GenerateFromPassword n new = Some hash
      ∧ sys_mem s' = with_users (update_where (has_id id) (row_set_password hash)) (sys_mem s)
  end.
Proof.
  unfold ChangeUserPassword, if_ok. unfold mbind at 1, M_bind. unfold select_ at 1.
  match goal with |- context [sql ?q s] => assert (G := sql_inv q s); destruct (sql q s) as [[e|u] s1] end; cbn in G.
  { destruct G as [[E1 E2]|[[err [_ E1]] E2]]; cbn; (split; [done|]); [|by injection E1 as ->].
    unfold user_by_id in E1. destruct (List.find _ _); [done|]. by injection E1 as ->. }
  destruct G as [[E1 E2]|[[err [_ E1]] E2]]; [|done].
  unfold user_by_id in E1. destruct (List.find _ _) as [u'|]; [|done]. injection E1 as <-.
  destruct (CompareHashAndPassword (us_password u) old) eqn:C; cbn [negb]; [|by split; [|exists u]].
  destruct (String.eqb_spec old new) as [->|Hne]; [by split; [|exists u]|].
  unfold mbind, M_bind, Generate, ask. destruct (GenerateFromPassword (sys_ticks s1) new) as [hash|] eqn:Gn; [|by cbn; rewrite E2].
  unfold update_users. match goal with |- context [sql ?q ?s2] => assert (G := sql_inv q s2); destruct (sql q s2) as [[e|[]] s3] end; cbn -[bool_decide] in G.
  - cbn. split; [|by destruct G as [[G _]|[[err [_ G]] _]]; [case_bool_decide; [done|]|]; injection G as ->].
    destruct G as [[G1 G2]|[_ G2]]; [|congruence]. case_bool_decide; [done|]. cbn in G2. congruence.
  - destruct G as [[G1 G2]|[[err [_ G1]] _]]; [|done]. case_bool_decide; [|done]. cbn in G2.
    exists u, (sys_ticks s1), hash. repeat (split; [done|]). rewrite G2, E2. done.
Qed.
End theorems.
End UsersTheorems.
