(* ===== verification/Sessions.v ===== *)
(** Sessions: [AuthInit], [Login], [Logout] and the session cookie of
    api/auth.go, the ids of MCP sessions of api/mcp_sessions.go, and api/url.go.

    Cookies and session ids are the texts the code makes, with their MACs; what
    [json.Unmarshal] reads in a text that is not one of those is a parameter. *)

From S2P Require RecordingRules.
From S2P Require Import Rbac.
From S2P Require Export Users.
From Stdlib Require Import Ascii String ZArith Lia.
Local Open Scope string_scope.
Local Open Scope Z_scope.

(** [json.Unmarshal] of a text into a [Session] *)
Class SessionJson := { session_Unmarshal : string → option Z }.

Definition AuthSecretSettingName : string := "auth_secret".
Definition SessionCookieName : string := "coroot_session".
Definition SessionCookieTTL : Z := 7 * 24 * 3600 * 1000000000.

(** What [AuthInit] leaves in the [Api]. *)
Record AuthState := { au_secret : string; au_anonymousRole : string }.

Record Cookie := { ck_Name : string; ck_Value : string; ck_Expires : option Z }.
Inductive login_reply := LoginError (message : string) (code : Z) | LoginCookie (c : Cookie).

(** * The cookie *)
Definition quote_char : string := String (ascii_of_N 34) "".
(** [json.Marshal(Session{Id: id})] *)
Definition session_Marshal (id : Z) : string := "{" ++ quote_char ++ "id" ++ quote_char ++ ":" ++ Itoa id ++ "}".
Definition session_value (secret : string) (id : Z) : string :=
  let data := session_Marshal id in
  Base64.EncodeToString true data ++ "." ++ Base64.EncodeToString true (Hmac.Sum secret data).

(** The data of a cookie whose MAC is right. *)
Definition session_data (secret value : string) : option string :=
  match Split "." value with
  | [p0; p1] =>
      data ← Base64.DecodeString p0;
      if String.eqb p1 (Base64.EncodeToString true (Hmac.Sum secret data)) then Some data else None
  | _ => None
  end.
Definition session_user `{SessionJson} (secret value : string) : option Z :=
  data ← session_data secret value; session_Unmarshal data.

Section sessions.
Context `{Env} `{Bcrypt} `{WallClock} `{SessionJson}.
Local Notation AM := (M AuthTables).

(** ** AuthInit

    [roles] is what the role manager answers. *)
Definition bad_role (role : string) : db_error := ErrOther ("anonymous role must be one of the roles, got " ++ role).
Definition auth_secret : AM (db_error + string) :=
  r ← GetSetting (λ v, json_string v "") AuthSecretSettingName;
  match r with
  | inl ErrNotFound =>
      secret ← NanoId;
      if_ok (SetSetting AuthSecretSettingName (JStr secret)) (λ _, done_ secret)
  | r => mret r
  end.
Definition AuthInit (roles : string + list Rbac.Role) (anonymousRole adminPassword : string) : AM (db_error + AuthState) :=
  let init :=
    if_ok auth_secret (λ secret,
      if_ok (CreateAdminIfNotExists adminPassword) (λ _,
        done_ {| au_secret := secret; au_anonymousRole := anonymousRole |})) in
  if String.eqb anonymousRole "" then init
  else match roles with
       | inl e => failed (ErrOther e)
       | inr roles => if Rbac.Valid anonymousRole roles then init else failed (bad_role anonymousRole)
       end.

(** ** Login, Logout

    [form] is what the body decodes to. *)
Definition SetSessionCookie (api : AuthState) (userId ttl : Z) : AM Cookie :=
  now ← timeNow;
  mret {| ck_Name := SessionCookieName; ck_Value := session_value (au_secret api) userId; ck_Expires := Some (now + ttl) |}.
Definition login_as (api : AuthState) (userId : Z) : AM login_reply :=
  c ← SetSessionCookie api userId SessionCookieTTL; mret (LoginCookie c).

Definition password_reply (e : db_error) : login_reply :=
  match e with
  | ErrNotFound => LoginError "User not found." 404
  | ErrInvalid => LoginError "Invalid old password." 400
  | ErrConflict => LoginError "New password can't be the same as the old one." 400
  | ErrOther _ => LoginError "" 500
  end.

Definition set_admin_password (api : AuthState) (password : string) : AM login_reply :=
  admin ← DefaultAdminUserIsTheOnlyUser;
  match admin with
  | inl _ => mret (LoginError "" 500)
  | inr None => mret (LoginError "The admin password has already been set." 401)
  | inr (Some admin) =>
      e ← ChangeUserPassword (u_Id admin) AdminUserDefaultPassword password;
      match e with
      | inl e => mret (password_reply e)
      | inr _ => login_as api (u_Id admin)
      end
  end.

Definition Login (api : AuthState) (form : option LoginForm) : AM login_reply :=
  match form with
  | None => mret (LoginError "" 400)
  | Some form =>
      if negb (LoginForm_Valid form) then mret (LoginError "" 400)
      else if String.eqb (lf_Action form) "set_admin_password" then set_admin_password api (lf_Password form)
      else
        id ← AuthUser (lf_Email form) (lf_Password form);
        match id with
        | inl ErrNotFound => mret (LoginError "Invalid email or password." 404)
        | inl _ => mret (LoginError "" 500)
        | inr id => login_as api id
        end
  end.

(** The cookie is emptied. *)
Definition Logout : Cookie := {| ck_Name := SessionCookieName; ck_Value := ""; ck_Expires := None |}.

(** ** GetUser

    [cookie] is the value of the request's session cookie, if it has one. *)
Definition GetUser (api : AuthState) (cookie : option string) : AM (option User) :=
  if negb (String.eqb (au_anonymousRole api) "") then mret (Some (AnonymousUser (au_anonymousRole api)))
  else match cookie ≫= session_user (au_secret api) with
       | None => mret None
       | Some id => u ← Users.GetUser id; mret (match u with inl _ => None | inr u => Some u end)
       end.
End sessions.

(** * api/mcp_sessions.go *)
Module McpSessions.

Definition sign (secret value : string) : string := Base64.EncodeToString false (Hmac.Sum secret value).
(** [value] is [utils.RandomString(24)]. *)
Definition Generate (secret value : string) : string := value ++ "." ++ sign secret value.

(** [strings.Cut] at the first dot. *)
Fixpoint cut (c : ascii) (s : string) : option (string * string) :=
  match s with
  | "" => None
  | String a s => if Ascii.eqb a c then Some ("", s) else match cut c s with Some (v, r) => Some (String a v, r) | None => None end
  end.
Definition Validate (secret sessionId : string) : bool :=
  match cut "." sessionId with
  | None => false
  | Some (value, signature) => negb (String.eqb value "") && String.eqb signature (sign secret value)
  end.

Definition Terminate `{Env} (secret sessionId : string) : M AuthTables (db_error + unit) :=
  if negb (Validate secret sessionId) then failed (ErrOther "invalid session id") else DeleteMcpSession sessionId.

End McpSessions.

(** * api/url.go

    A request's URL as the code takes it: the host it was sent to, the headers of
    the proxies, and whether it came over TLS. *)
Record UrlRequest := {
  ur_Host : string; ur_Forwarded : string; ur_ForwardedProto : string; ur_ForwardedHost : string; ur_ForwardedPort : string;
  ur_TLS : bool }.
Record AbsoluteUrl := { ab_Scheme : string; ab_Host : string; ab_Path : string }.

Definition forwarded_part (u : string * string) (p : string) : string * string :=
  let p := RecordingRules.TrimSpace p in
  match FilepathFacts.strip_prefix "proto=" p with
  | Some s => (s, u.2)
  | None => match FilepathFacts.strip_prefix "host=" p with Some h => (u.1, h) | None => u end
  end.
Definition first_of (s : string) : string := default "" (head (Split "," s)).
Definition fullURL (r : UrlRequest) : string * string :=
  let u := ("http", ur_Host r) in
  let u := if String.eqb (ur_Forwarded r) "" then u else foldl forwarded_part u (Split ";" (ur_Forwarded r)) in
  let u := if String.eqb (ur_ForwardedProto r) "" then u else (first_of (ur_ForwardedProto r), u.2) in
  let u := if String.eqb (ur_ForwardedHost r) "" then u else (u.1, first_of (ur_ForwardedHost r)) in
  let port := ur_ForwardedPort r in
  let u := if negb (String.eqb port "") && negb (String.eqb port "443") && negb (String.eqb port "80") && negb (contains ":" u.2)
           then (u.1, u.2 ++ ":" ++ port) else u in
  if ur_TLS r then ("https", u.2) else u.

(** For a path without a query, which is what the code asks for. *)
Definition GetAbsoluteUrl (urlBasePath : string) (r : UrlRequest) (uri : string) : AbsoluteUrl :=
  let '(scheme, host) := fullURL r in
  {| ab_Scheme := scheme; ab_Host := host;
     ab_Path := if String.eqb uri "/" && negb (String.eqb urlBasePath "/") then urlBasePath else uri |}.

Example full_url1 :
  fullURL {| ur_Host := "coroot:8080"; ur_Forwarded := "for=1.2.3.4; proto=https;host=obs.example.com"; ur_ForwardedProto := "";
             ur_ForwardedHost := ""; ur_ForwardedPort := "8443"; ur_TLS := false |} = ("https", "obs.example.com:8443").
Proof. reflexivity. Qed.

(** * Facts *)
Module SessionsFacts.
Import UsersFacts.

Lemma ParseInt_Itoa z : in_i64 z → ParseInt (Itoa z) = Some z.
Proof.
  intros Hz. unfold in_i64, i64_min, i64_max in Hz. unfold Itoa.
  destruct z as [|p|p]; [done| |].
  - destruct (UtilsFacts.Itoa_head p) as (d & s & Hd & E). change (pretty (Zpos p)) with (pretty (Npos p)).
    assert (D : ParseInt (String (pretty_N_char d) s)
                = match parse_digits (String (pretty_N_char d) s) 0 with ParsedInt n => if 2 ^ 63 <=? n then None else Some n | _ => None end).
    { destruct d as [|q]; [done|]. by do 4 (destruct q as [q|q|]; try done; try lia). }
    rewrite E, D, <- E, UtilsFacts.parse_Itoa by lia. destruct (Z.leb_spec (2 ^ 63) (Z.pos p)); [lia|done].
  - destruct (UtilsFacts.Itoa_head p) as (d & s & Hd & E).
    change (pretty (Zneg p)) with (String "-" (pretty (Npos p))). unfold ParseInt. rewrite E. cbn [String.eqb]. rewrite <- E.
    rewrite UtilsFacts.parse_Itoa by lia. destruct (Z.ltb_spec (2 ^ 63) (Z.pos p)); [lia|done].
Qed.

(** The data of a cookie the code made is what it put there. *)
Lemma session_data_value secret id : session_data secret (session_value secret id) = Some (session_Marshal id).
Proof.
  unfold session_data, session_value. change ("." ++ ?t)%string with (String "." t).
  rewrite DbFacts.Split_cons by apply Base64Facts.encode_no_dot. rewrite DbFacts.Split_none by apply Base64Facts.encode_no_dot.
  rewrite Base64Facts.decode_encode. cbn. by rewrite String.eqb_refl.
Qed.

Lemma cut_app c v t : contains c v = false → McpSessions.cut c (v ++ String c t) = Some (v, t).
Proof.
  intros Hc. induction v as [|a v IH].
  - rewrite FilepathFacts.append_nil_l. cbn [McpSessions.cut]. by rewrite Ascii.eqb_refl.
  - rewrite FilepathFacts.append_cons. cbn [McpSessions.cut]. cbn [contains] in Hc. apply orb_false_iff in Hc as [Ha Hv]. unfold same in Ha. rewrite IH by done. by rewrite Ha.
Qed.

(** A generated session id is accepted under its secret. *)
Lemma Validate_Generate secret value : value ≠ "" → contains "." value = false →
  McpSessions.Validate secret (McpSessions.Generate secret value) = true.
Proof.
  intros Hv Hd. unfold McpSessions.Validate, McpSessions.Generate. change ("." ++ ?t)%string with (String "." t).
  rewrite cut_app by done. rewrite String.eqb_refl. by destruct (String.eqb_spec value "").
Qed.

Section facts.
Context `{Env} `{Bcrypt} `{WallClock} `{SessionJson}.

Lemma login_as_ok api id : moves users_kept (login_as api id).
Proof. unfold login_as, SetSessionCookie. apply moves_bind; [apply _| |]; kept. Qed.
Lemma Login_ok api form : moves users_kept (Login api form).
Proof.
  unfold Login, set_admin_password. repeat (kept_step || apply login_as_ok).
  apply moves_bind; [apply _|apply moves_select, _|]. repeat (kept_step || (intros ?) || apply login_as_ok).
Qed.
Lemma session_GetUser_ok api cookie : moves users_kept (GetUser api cookie).
Proof. unfold GetUser. kept. Qed.

Lemma find_user (p : UserRow → bool) l u : List.find p l = Some u → u ∈ l ∧ p u = true.
Proof. intros [Hin Hp]%List.find_some. by split; [apply list_elem_of_In|]. Qed.

Lemma AuthUser_inv email password (s s' : Sys AuthTables) id : AuthUser email password s = (inr id, s') →
  ∃ u, u ∈ t_users (sys_mem s) ∧ us_id u = id ∧ us_email u = email ∧ CompareHashAndPassword (us_password u) password = true.
Proof.
  unfold AuthUser, mbind, M_bind. intros E. destruct (select_ _ s) as [[e|u] s1] eqn:Q; [done|].
  apply select_ok in Q as [Q _]. destruct (List.find _ _) as [u'|] eqn:F; [|done]. injection Q as <-.
  apply find_user in F as [Hin Hp%String.eqb_eq]. destruct (CompareHashAndPassword _ _) eqn:C; [|done].
  injection E as <- _. by exists u'.
Qed.

Lemma default_admin_row l a : default_admin l = Some a → ∃ u, u ∈ l ∧ a = scan_user u.
Proof.
  unfold default_admin. assert (Hin : ∀ l u r, only_row u l = Some (Some r) → u = Some r ∨ r ∈ l).
  { clear. induction l as [|x l IH]; intros u r E; cbn in E; [injection E as ->; by left|].
    destruct (match u with Some _ => _ | None => _ end); [done|]. apply IH in E as [[= ->]|E]; right; [left|by right]. }
  destruct (only_row None l) as [[r|]|] eqn:E; [|done..]. apply Hin in E as [?|E]; [done|].
  destruct (_ && _); [|done]. intros [= <-]. by exists r.
Qed.

(** A cookie is made for a user who gave their password, or for the default
    admin who sets it. *)
Definition may_log_in (f : LoginForm) (t : AuthTables) (u : UserRow) : Prop :=
  u ∈ t_users t
  ∧ (us_email u = lf_Email f ∧ CompareHashAndPassword (us_password u) (lf_Password f) = true
     ∨ lf_Action f = "set_admin_password" ∧ default_admin (t_users t) = Some (scan_user u)).
Lemma Login_cookie api form (s : Sys AuthTables) c : fst (Login api form s) = LoginCookie c →
  ∃ f u, form = Some f ∧ may_log_in f (sys_mem s) u ∧ ck_Value c = session_value (au_secret api) (us_id u).
Proof.
  unfold Login. destruct form as [f|]; [|done]. destruct (negb _); [done|].
  destruct (String.eqb_spec (lf_Action f) "set_admin_password") as [Ea|_].
  - unfold set_admin_password, mbind, M_bind. destruct (DefaultAdminUserIsTheOnlyUser s) as [[e|[a|]] s1] eqn:D; [done| |done].
    apply select_ok in D as [[= D] _]. destruct (ChangeUserPassword _ _ _ s1) as [[e|[]] s2]; [by destruct e|].
    intros [= <-]. destruct (default_admin_row _ _ D) as (u & Hin & ->). exists f, u. split; [done|]. split; [|done]. split; [done|by right].
  - unfold mbind, M_bind. destruct (AuthUser _ _ s) as [[e|id] s1] eqn:A; [by destruct e|].
    intros [= <-]. apply AuthUser_inv in A as (u & Hin & <- & He & Hp). exists f, u. split; [done|]. split; [|done]. split; [done|by left].
Qed.
End facts.
End SessionsFacts.
