(* ===== verification/OAuth.v ===== *)
(** The OAuth server of the MCP endpoint: api/mcp_oauth.go.

    Signing and checking tokens (JSON Web Tokens) is a parameter: the library's
    laws are [JwtLaws].  A redirect is the URI with the query values set on it. *)

From S2P Require Export Sessions.
From Stdlib Require Import Ascii String ZArith Lia.
Local Open Scope string_scope.
Local Open Scope Z_scope.

Definition seconds (n : Z) : Z := n * 1000000000.

Definition mcpOAuthCodeTTL : Z := seconds 30.
Definition mcpOAuthAccessTokenTTL : Z := seconds 3600.
Definition mcpOAuthRefreshTokenTTL : Z := seconds (30 * 24 * 3600).
Definition mcpOAuthScope : string := "mcp".
Definition mcpBearerPrefix : string := "Bearer ".
Definition mcpOAuthMaxClientNameLen : nat := 200.
Definition mcpOAuthMaxRedirectURIs : nat := 5.

Definition mcpAudClient : string := "mcp:client".
Definition mcpAudCode : string := "mcp:code".
Definition mcpAudAccess : string := "mcp:access".
Definition mcpAudRefresh : string := "mcp:refresh".

Definition oauthErrInvalidRequest := "invalid_request".
Definition oauthErrInvalidGrant := "invalid_grant".
Definition oauthErrUnauthorizedClient := "unauthorized_client".
Definition oauthErrUnsupportedGrantType := "unsupported_grant_type".
Definition oauthErrUnsupportedResponseType := "unsupported_response_type".
Definition oauthErrAccessDenied := "access_denied".
Definition oauthErrInvalidClientMetadata := "invalid_client_metadata".
Definition oauthErrInvalidRedirectURI := "invalid_redirect_uri".

(** * Claims

    The three claim types of the code in one record, as in the token's text: a
    field a type does not have is empty.  Times are in seconds. *)
Record Claims := {
  c_client_name : string; c_redirect_uris : list string;  (** [mcpClientClaims] *)
  c_client_id : string;                                    (** [mcpCodeClaims], [mcpTokenClaims] *)
  c_redirect_uri : string; c_code_challenge : string;      (** [mcpCodeClaims] *)
  c_Subject : string; c_Audience : list string; c_ExpiresAt : option Z; c_IssuedAt : option Z }.

Definition mcpClientClaims (name : string) (uris : list string) (issued : Z) : Claims :=
  {| c_client_name := name; c_redirect_uris := uris; c_client_id := ""; c_redirect_uri := ""; c_code_challenge := "";
     c_Subject := ""; c_Audience := [mcpAudClient]; c_ExpiresAt := None; c_IssuedAt := Some issued |}.
Definition mcpCodeClaims (client redirect challenge subject : string) (expires : Z) : Claims :=
  {| c_client_name := ""; c_redirect_uris := []; c_client_id := client; c_redirect_uri := redirect; c_code_challenge := challenge;
     c_Subject := subject; c_Audience := [mcpAudCode]; c_ExpiresAt := Some expires; c_IssuedAt := None |}.
Definition mcpTokenClaims (client subject audience : string) (expires : Z) : Claims :=
  {| c_client_name := ""; c_redirect_uris := []; c_client_id := client; c_redirect_uri := ""; c_code_challenge := "";
     c_Subject := subject; c_Audience := [audience]; c_ExpiresAt := Some expires; c_IssuedAt := None |}.

(** [jwt.NewNumericDate]: whole seconds *)
Definition NewNumericDate (t : Z) : Z := t / 1000000000.

(** [jwt_Parse secret audience now token]: the claims of a token of the audience
    that is signed with the secret and not expired. *)
Class Jwt := {
  jwt_Sign : string → Claims → string;
  jwt_Parse : string → string → Z → string → option Claims }.

(** What is written as JSON and read back: bytes that are not UTF-8 become U+FFFD. *)
Definition to_utf8 (s : string) : string := encode_runes (runes (String.length s) s).
Definition claims_utf8 (c : Claims) : Claims :=
  {| c_client_name := to_utf8 (c_client_name c); c_redirect_uris := to_utf8 <$> c_redirect_uris c; c_client_id := to_utf8 (c_client_id c);
     c_redirect_uri := to_utf8 (c_redirect_uri c); c_code_challenge := to_utf8 (c_code_challenge c); c_Subject := to_utf8 (c_Subject c);
     c_Audience := to_utf8 <$> c_Audience c; c_ExpiresAt := c_ExpiresAt c; c_IssuedAt := c_IssuedAt c |}.
(** A token is live while the clock is before its [exp]. *)
Definition live (c : Claims) (now : Z) : bool := match c_ExpiresAt c with Some e => now <? seconds e | None => true end.
Definition for_audience (audience : string) (c : Claims) : bool := existsb (String.eqb audience) (c_Audience c).

Class JwtLaws (J : Jwt) := {
  jwt_Parse_Sign secret audience now c :
    jwt_Parse secret audience now (jwt_Sign secret c)
    = if for_audience audience (claims_utf8 c) && live c now then Some (claims_utf8 c) else None;
  jwt_Sign_ascii secret c : to_utf8 (jwt_Sign secret c) = jwt_Sign secret c }.

(** * Requests and replies

    [oq_Form]: the first value of each field of the form, [None] when the form
    does not parse; [oq_Cookie]: the session cookie; [oq_Authorization]: the
    header. *)
Record OAuthRequest := {
  oq_Method : string; oq_Form : option (string → string); oq_Cookie : option string; oq_Authorization : string;
  oq_RequestURI : string; oq_Url : UrlRequest }.
(** The body of a registration. *)
Record RegisterForm := { rf_ClientName : string; rf_RedirectURIs : list string }.

Inductive metadata := MText (s : string) | MTexts (l : list string) | MUrl (u : AbsoluteUrl) | MUrls (l : list AbsoluteUrl).
Inductive oauth_reply :=
| OAuthError (status : Z) (code desc : string)
| ServerError
| Redirect (uri : string) (query : list (string * string))
| Registered (clientId : string) (issuedAt : Z) (name : string) (uris : list string)
| Tokens (access token_type : string) (expires_in : Z) (refresh scope : string)
| Metadata (l : list (string * metadata))
| StatusOK
| NoReply.

Definition mcpOAuthError (status : Z) (code desc : string) : oauth_reply := OAuthError status code desc.

(** [strings.TrimRight(s, "/")] of the issuer, whose path is the base path. *)
Definition mcpIssuerURL (base : string) (u : UrlRequest) : AbsoluteUrl :=
  let a := GetAbsoluteUrl base u "/" in {| ab_Scheme := ab_Scheme a; ab_Host := ab_Host a; ab_Path := Format.TrimRight (ab_Path a) "/" |}.

Definition MCPOAuthProtectedResource (base : string) (r : OAuthRequest) : oauth_reply :=
  Metadata [("resource", MUrl (GetAbsoluteUrl base (oq_Url r) "/mcp"));
            ("authorization_servers", MUrls [mcpIssuerURL base (oq_Url r)]);
            ("scopes_supported", MTexts [mcpOAuthScope]);
            ("bearer_methods_supported", MTexts ["header"])].
Definition MCPOAuthAuthorizationServer (base : string) (r : OAuthRequest) : oauth_reply :=
  Metadata [("issuer", MUrl (mcpIssuerURL base (oq_Url r)));
            ("authorization_endpoint", MUrl (GetAbsoluteUrl base (oq_Url r) "/oauth/authorize"));
            ("token_endpoint", MUrl (GetAbsoluteUrl base (oq_Url r) "/oauth/token"));
            ("registration_endpoint", MUrl (GetAbsoluteUrl base (oq_Url r) "/oauth/register"));
            ("revocation_endpoint", MUrl (GetAbsoluteUrl base (oq_Url r) "/oauth/revoke"));
            ("response_types_supported", MTexts ["code"]);
            ("grant_types_supported", MTexts ["authorization_code"; "refresh_token"]);
            ("token_endpoint_auth_methods_supported", MTexts ["none"]);
            ("code_challenge_methods_supported", MTexts ["S256"]);
            ("scopes_supported", MTexts [mcpOAuthScope])].

Definition mcpVerifyPKCE (verifier challenge : string) : bool :=
  if String.eqb verifier "" || String.eqb challenge "" then false
  else String.eqb (Base64.EncodeToString false (Sum256 verifier)) challenge.
Definition mcpRedirectURIAllowed (allowed : list string) (given : string) : bool := existsb (λ a, String.eqb a given) allowed.

Definition mcpDisplayUserName (u : User) : string :=
  if negb (String.eqb (u_Name u) "") then u_Name u
  else if negb (String.eqb (u_Email u) "") then u_Email u
  else "user #" ++ Itoa (u_Id u).

(** A query value that is set only when it is not empty. *)
Definition unless_empty (k v : string) : list (string * string) := if String.eqb v "" then [] else [(k, v)].

Record authorizeRequest := {
  az_ClientId : string; az_RedirectURI : string; az_ResponseType : string; az_CodeChallenge : string;
  az_CodeChallengeMethod : string; az_State : string; az_Scope : string }.
Definition parseAuthorizeRequest (form : string → string) : authorizeRequest :=
  {| az_ClientId := form "client_id"; az_RedirectURI := form "redirect_uri"; az_ResponseType := form "response_type";
     az_CodeChallenge := form "code_challenge"; az_CodeChallengeMethod := form "code_challenge_method";
     az_State := form "state"; az_Scope := form "scope" |}.

Section oauth.
Context `{Env} `{Bcrypt} `{WallClock} `{SessionJson} `{Jwt} `{UrlParse}.
Local Notation AM := (M AuthTables).
(** [urlBasePath]: [api.cfg.UrlBasePath] *)
Context (api : AuthState) (urlBasePath : string).

(** * Tokens *)
Definition mcpAuthSecret : AM (db_error + string) := GetSetting (λ v, json_string v "") AuthSecretSettingName.
Definition mcpSign (c : Claims) : AM (db_error + string) :=
  if_ok mcpAuthSecret (λ secret, done_ (jwt_Sign secret c)).
Definition mcpVerify (audience token : string) : AM (option Claims) :=
  secret ← mcpAuthSecret;
  match secret with
  | inl _ => mret None
  | inr secret => now ← timeNow; mret (jwt_Parse secret audience now token)
  end.
Definition mcpIssueToken (audience : string) (userId : Z) (clientId : string) (ttl : Z) : AM (db_error + string) :=
  now ← timeNow; mcpSign (mcpTokenClaims clientId (Itoa userId) audience (NewNumericDate (now + ttl))).

(** What follows a token that is verified. *)
Definition with_claims {A} (audience token : string) (refused : A) (k : Claims → AM A) : AM A :=
  c ← mcpVerify audience token; match c with None => mret refused | Some c => k c end.

Definition MCPUserFromBearer (authorization : string) : AM (option User) :=
  match FilepathFacts.strip_prefix mcpBearerPrefix authorization with
  | None => mret None
  | Some token =>
      with_claims mcpAudAccess token None (λ claims,
        match ParseInt (c_Subject claims) with
        | None => mret None
        | Some userId => u ← Users.GetUser userId; mret (match u with inl _ => None | inr u => Some u end)
        end)
  end.

(** * Registration *)
Definition MCPOAuthRegister (body : option RegisterForm) : AM oauth_reply :=
  match body with
  | None => mret (mcpOAuthError 400 oauthErrInvalidClientMetadata "invalid request body")
  | Some req =>
      let uris := rf_RedirectURIs req in
      if bool_decide (uris = []) then mret (mcpOAuthError 400 oauthErrInvalidRedirectURI "redirect_uris required")
      else if (mcpOAuthMaxRedirectURIs <? List.length uris)%nat then mret (mcpOAuthError 400 oauthErrInvalidRedirectURI "too many redirect_uris")
      else if existsb (λ u, bool_decide (url_Parse u = None)) uris then mret (mcpOAuthError 400 oauthErrInvalidRedirectURI "invalid redirect_uri")
      else
        let name := stake mcpOAuthMaxClientNameLen (rf_ClientName req) in
        now ← timeNow;
        clientId ← mcpSign (mcpClientClaims name uris (NewNumericDate now));
        match clientId with
        | inl _ => mret ServerError
        | inr clientId => now ← timeNow; mret (Registered clientId (Unix now) name uris)
        end
  end.

(** * Authorization *)
Definition mcpRedirectErr (redirectURI state code desc : string) : oauth_reply :=
  if String.eqb redirectURI "" then mcpOAuthError 400 code desc
  else match url_Parse redirectURI with
       | None => mcpOAuthError 400 code desc
       | Some _ => Redirect redirectURI ([("error", code)] ++ unless_empty "error_description" desc ++ unless_empty "state" state)%list
       end.

(** [path.Join] of the base path, which is clean, and a page. *)
Definition page (name : string) : string :=
  if String.eqb urlBasePath "" then name else Format.TrimRight urlBasePath "/" ++ "/" ++ name.
Definition mcpLoginRedirect (r : OAuthRequest) : oauth_reply := Redirect (page "login") [("next", oq_RequestURI r)].
Definition mcpConsentRedirect (form : string → string) (clientName : string) (user : User) : oauth_reply :=
  Redirect (page "auth/mcp-consent")
    (flat_map (λ k, unless_empty k (form k))
       ["client_id"; "redirect_uri"; "response_type"; "code_challenge"; "code_challenge_method"; "state"; "scope"]
     ++ [("client_name", if String.eqb clientName "" then "An MCP client" else clientName); ("user_name", mcpDisplayUserName user)])%list.

Definition mcpAuthorizeShowConsent (r : OAuthRequest) (form : string → string) (clientName : string) (user : option User) : oauth_reply :=
  match user with
  | None => mcpLoginRedirect r
  | Some user => mcpConsentRedirect form clientName user
  end.

(** The redirect to the client: a URI that does not parse is a nil pointer. *)
Definition redirect_code (req : authorizeRequest) (code : string) : outcome oauth_reply :=
  match url_Parse (az_RedirectURI req) with
  | None => Panic
  | Some _ => Ret (Redirect (az_RedirectURI req)
                     ([("code", code)] ++ unless_empty "state" (az_State req) ++ unless_empty "scope" (az_Scope req))%list)
  end.
Definition mcpAuthorizeIssueCode (form : string → string) (req : authorizeRequest) (user : option User) : AM (outcome oauth_reply) :=
  match user with
  | None => mret (Ret (mcpOAuthError 401 oauthErrAccessDenied "not authenticated"))
  | Some user =>
      if negb (String.eqb (form "decision") "allow") then
        mret (Ret (mcpRedirectErr (az_RedirectURI req) (az_State req) oauthErrAccessDenied ""))
      else
        now ← timeNow;
        code ← mcpSign (mcpCodeClaims (az_ClientId req) (az_RedirectURI req) (az_CodeChallenge req) (Itoa (u_Id user))
                          (NewNumericDate (now + mcpOAuthCodeTTL)));
        match code with
        | inl _ => mret (Ret ServerError)
        | inr code => mret (redirect_code req code)
        end
  end.

Definition MCPOAuthAuthorize (r : OAuthRequest) : AM (outcome oauth_reply) :=
  match oq_Form r with
  | None => mret (Ret (mcpOAuthError 400 oauthErrInvalidRequest "cannot parse params"))
  | Some form =>
      let req := parseAuthorizeRequest form in
      with_claims mcpAudClient (az_ClientId req) (Ret (mcpOAuthError 400 oauthErrUnauthorizedClient "unknown client")) (λ client,
        if negb (mcpRedirectURIAllowed (c_redirect_uris client) (az_RedirectURI req)) then
          mret (Ret (mcpOAuthError 400 oauthErrInvalidRequest "redirect_uri mismatch"))
        else if negb (String.eqb (az_ResponseType req) "code") then
          mret (Ret (mcpRedirectErr (az_RedirectURI req) (az_State req) oauthErrUnsupportedResponseType ""))
        else if String.eqb (az_CodeChallenge req) "" || negb (String.eqb (az_CodeChallengeMethod req) "S256") then
          mret (Ret (mcpRedirectErr (az_RedirectURI req) (az_State req) oauthErrInvalidRequest "PKCE S256 required"))
        else
          user ← GetUser api (oq_Cookie r);
          if String.eqb (oq_Method r) MethodGet then mret (Ret (mcpAuthorizeShowConsent r form (c_client_name client) user))
          else if String.eqb (oq_Method r) MethodPost then mcpAuthorizeIssueCode form req user
          else mret (Ret NoReply))
  end.

(** * Tokens for a code, or for a refresh token *)
Definition invalid_grant (desc : string) : oauth_reply := mcpOAuthError 400 oauthErrInvalidGrant desc.
Definition mcpIssueTokenPair (userId : Z) (clientId : string) : AM oauth_reply :=
  access ← mcpIssueToken mcpAudAccess userId clientId mcpOAuthAccessTokenTTL;
  match access with
  | inl _ => mret ServerError
  | inr access =>
      refresh ← mcpIssueToken mcpAudRefresh userId clientId mcpOAuthRefreshTokenTTL;
      mret (match refresh with inl _ => ServerError 
                        | inr refresh => Tokens access "Bearer" (mcpOAuthAccessTokenTTL / seconds 1) refresh mcpOAuthScope end)
  end.
Definition token_for (subject clientId : string) : AM oauth_reply :=
  match ParseInt subject with
  | None => mret (invalid_grant "invalid subject")
  | Some userId => mcpIssueTokenPair userId clientId
  end.

Definition mcpExchangeCode (form : string → string) : AM oauth_reply :=
  with_claims mcpAudCode (form "code") (invalid_grant "invalid code") (λ code,
    if negb (String.eqb (c_client_id code) (form "client_id")) then mret (invalid_grant "client_id mismatch")
    else if negb (String.eqb (c_redirect_uri code) (form "redirect_uri")) then mret (invalid_grant "redirect_uri mismatch")
    else if negb (mcpVerifyPKCE (form "code_verifier") (c_code_challenge code)) then mret (invalid_grant "PKCE verification failed")
    else token_for (c_Subject code) (form "client_id")).

Definition mcpExchangeRefresh (form : string → string) : AM oauth_reply :=
  with_claims mcpAudRefresh (form "refresh_token") (invalid_grant "invalid refresh_token") (λ claims,
    if negb (String.eqb (form "client_id") "") && negb (String.eqb (c_client_id claims) (form "client_id")) then
      mret (invalid_grant "client_id mismatch")
    else token_for (c_Subject claims) (c_client_id claims)).

Definition MCPOAuthToken (r : OAuthRequest) : AM oauth_reply :=
  match oq_Form r with
  | None => mret (mcpOAuthError 400 oauthErrInvalidRequest "cannot parse params")
  | Some form =>
      if String.eqb (form "grant_type") "authorization_code" then mcpExchangeCode form
      else if String.eqb (form "grant_type") "refresh_token" then mcpExchangeRefresh form
      else mret (mcpOAuthError 400 oauthErrUnsupportedGrantType "")
  end.

Definition MCPOAuthRevoke : oauth_reply := StatusOK.
End oauth.

(** * Facts *)
Module OAuthFacts.
Import UsersFacts SessionsFacts.

(** ** Texts of ASCII characters are UTF-8 *)
Fixpoint ascii_text (s : string) : bool :=
  match s with "" => true | String a s => (N_of_ascii a <? 128)%N && ascii_text s end.

Lemma to_utf8_ascii s : ascii_text s = true → to_utf8 s = s.
Proof.
  unfold to_utf8. induction s as [|a s IH]; [done|]. cbn [ascii_text]. intros [Ha Hs]%andb_prop.
  cbn [String.length runes Utf8.decode]. unfold Utf8.byte. rewrite Ha. cbn [sdrop encode_runes foldr].
  unfold encode_rune. rewrite Ha. cbn [append]. fold (encode_runes (runes (String.length s) s)).
  rewrite ascii_N_embedding. cbn. f_equal. by apply IH.
Qed.

Lemma ascii_text_app s t : ascii_text (s ++ t) = ascii_text s && ascii_text t.
Proof. induction s as [|a s IH]; [done|]. rewrite FilepathFacts.append_cons. cbn [ascii_text]. by rewrite IH, andb_assoc. Qed.

Lemma ascii_text_pretty_N n s : ascii_text s = true → ascii_text (pretty_N_go n s) = true.
Proof.
  revert s. induction n as [n IH] using (well_founded_induction N.lt_wf_0). intros s Hs.
  destruct (decide (n = 0)%N) as [->|Hn]; [by rewrite pretty_N_go_0|].
  rewrite pretty_N_go_step by lia. apply IH; [apply N.div_lt; lia|]. cbn [ascii_text]. rewrite Hs, andb_true_r.
  assert (Hm : (n `mod` 10 < 10)%N) by (apply N.mod_lt; done). revert Hm. generalize (n `mod` 10)%N. intros d Hd.
  destruct d as [|q]; [done|]. by do 4 (destruct q as [q|q|]; try done; try lia).
Qed.
Lemma ascii_text_Itoa z : ascii_text (Itoa z) = true.
Proof.
  assert (Hp : ∀ p, ascii_text (pretty (Npos p)) = true).
  { intros p. unfold pretty, pretty_N. rewrite decide_False by done. by apply ascii_text_pretty_N. }
  unfold Itoa. destruct z as [|p|p]; [done|apply Hp|]. change (pretty (Zneg p)) with (String "-" (pretty (Npos p))). cbn [ascii_text]. by rewrite Hp.
Qed.

(** ** The audiences are apart *)
Definition audiences : list string := [mcpAudClient; mcpAudCode; mcpAudAccess; mcpAudRefresh].
Lemma audience_of c a b : c_Audience c = [b] → a ∈ audiences → b ∈ audiences → for_audience a (claims_utf8 c) = true → a = b.
Proof.
  intros Hc Ha Hb. unfold for_audience, claims_utf8. cbn. rewrite Hc.
  unfold audiences in *. repeat (apply elem_of_cons in Ha as [->|Ha]); try (by apply not_elem_of_nil in Ha);
  repeat (apply elem_of_cons in Hb as [->|Hb]); try (by apply not_elem_of_nil in Hb); intros E; first [done|by vm_compute in E].
Qed.

Section facts.
Context `{Env} `{Bcrypt} `{WallClock} `{SessionJson} `{Jwt} `{UrlParse}.

(** ** What a run of each step does

    [stays s s' k]: the tables are those there were, and [k] ticks have passed. *)
Definition stays (s s' : Sys AuthTables) (k : nat) : Prop := sys_mem s' = sys_mem s ∧ sys_ticks s' = (sys_ticks s + k)%nat.
Definition has_secret (secret : string) (s : Sys AuthTables) : Prop :=
  t_settings (sys_mem s) !! AuthSecretSettingName = Some (JStr secret).

Lemma select_stays {A} (q : AuthTables → db_error + A) s r s' : select_ q s = (r, s') →
  stays s s' 1 ∧ (r = q (sys_mem s) ∨ ∃ e, r = inl (ErrOther e)).
Proof.
  unfold select_, sql, stays. destruct (env_fault (sys_ticks s)) as [e|]; intros [= <- <-]; cbn; (split; [split; [done|lia]|]); [right; by exists e|by left].
Qed.
Lemma time_stays s t s' : timeNow s = (t, s') → stays s s' 1 ∧ t = wall_clock (sys_ticks s).
Proof. intros [= <- <-]. repeat split. cbn. lia. Qed.

Lemma sign_stays secret c s r s' : has_secret secret s → mcpSign c s = (r, s') →
  stays s s' 1 ∧ (∀ tok, r = inr tok → tok = jwt_Sign secret c).
Proof.
  intros Hs. unfold mcpSign, if_ok, mbind, M_bind, mcpAuthSecret, GetSetting.
  destruct (select_ _ s) as [x s1] eqn:Q. apply select_stays in Q as [Hst Hr]. unfold has_secret in Hs. rewrite Hs in Hr. cbn in Hr.
  destruct x as [e|x]; intros [= <- <-]; (split; [done|]); [done|]. intros tok [= <-]. destruct Hr as [[= ->]|[? ?]]; done.
Qed.

Lemma verify_stays secret audience tok s r s' : has_secret secret s → mcpVerify audience tok s = (r, s') →
  (∃ k, stays s s' k) ∧ ∀ c, r = Some c →
    ∃ n, (sys_ticks s ≤ n < sys_ticks s')%nat ∧ jwt_Parse secret audience (wall_clock n) tok = Some c.
Proof.
  intros Hs. unfold mcpVerify, mbind, M_bind, mcpAuthSecret, GetSetting.
  destruct (select_ _ s) as [x s1] eqn:Q. apply select_stays in Q as [[Hm Ht] Hr]. unfold has_secret in Hs. rewrite Hs in Hr. cbn in Hr.
  destruct x as [e|x]; [intros [= <- <-]; split; [by exists 1%nat|done]|].
  destruct Hr as [[= ->]|[? ?]]; [|done]. unfold timeNow, ask. intros [= <- <-]. cbn. split.
  - exists 2%nat. split; cbn; [done|lia].
  - intros c Hc. exists (sys_ticks s1). split; [lia|done].
Qed.

Lemma issue_stays secret audience userId client ttl s r s' : has_secret secret s → mcpIssueToken audience userId client ttl s = (r, s') →
  (∃ k, stays s s' k) ∧ ∀ tok, r = inr tok →
    ∃ n, (sys_ticks s ≤ n < sys_ticks s')%nat
      ∧ tok = jwt_Sign secret (mcpTokenClaims client (Itoa userId) audience (NewNumericDate (wall_clock n + ttl))).
Proof.
  intros Hs. unfold mcpIssueToken. unfold mbind, M_bind, timeNow, ask.
  destruct (mcpSign _ _) as [x s1] eqn:Q. apply (sign_stays secret) in Q as [[Hm Ht] Hr]; [|done]. cbn in *.
  intros [= <- <-]. split.
  - exists 2%nat. split; [done|]. rewrite Ht. lia.
  - intros tok Htok. exists (sys_ticks s). split; [lia|]. by apply Hr.
Qed.

Lemma session_user_stays api cookie s r s' : GetUser api cookie s = (r, s') →
  (∃ k, stays s s' k) ∧ ∀ u, r = Some u →
    (au_anonymousRole api ≠ "" ∧ u_Id u = 0
     ∨ ∃ v id row, cookie = Some v ∧ session_user (au_secret api) v = Some id ∧ row ∈ t_users (sys_mem s) ∧ u = scan_user row ∧ us_id row = id).
Proof.
  unfold GetUser. destruct (String.eqb_spec (au_anonymousRole api) "") as [_|Hr]; cbn [negb].
  2: { intros [= <- <-]. split; [exists 0%nat; split; [done|lia]|]. intros u [= <-]. by left. }
  destruct cookie as [v|]; cbn; [|intros [= <- <-]; split; [exists 0%nat; split; [done|lia]|done]].
  destruct (session_user _ v) as [id|] eqn:Sv; [|intros [= <- <-]; split; [exists 0%nat; split; [done|lia]|done]].
  unfold mbind, M_bind, Users.GetUser. destruct (select_ _ s) as [x s1] eqn:Q. apply select_stays in Q as [Hst Hx].
  intros [= <- <-]. split; [by exists 1%nat|]. intros u E. right. destruct x as [e|x]; [done|]. injection E as ->.
  destruct Hx as [Hx|[? ?]]; [|done]. unfold user_by_id in Hx. destruct (List.find _ _) as [row|] eqn:F; [|done]. injection Hx as ->.
  apply find_user in F as [Hin Hid%Z.eqb_eq]. by exists v, id, row.
Qed.
(** ** What the handlers hand out

    The tokens of a reply: a client id, a code, or the tokens of a pair. *)
Definition tokens_of (a : oauth_reply) : list string :=
  match a with
  | Registered clientId _ _ _ => [clientId]
  | Redirect _ ((k, code) :: _) => if String.eqb k "code" then [code] else []
  | Tokens access _ _ refresh _ => [access; refresh]
  | _ => []
  end.

Lemma Register_tokens secret body s a s' : has_secret secret s → MCPOAuthRegister body s = (a, s') →
  ∀ tok, tok ∈ tokens_of a → ∃ name uris now issued,
    a = Registered tok issued name uris ∧ tok = jwt_Sign secret (mcpClientClaims name uris now)
    ∧ existsb (λ u, bool_decide (url_Parse u = None)) uris = false.
Proof.
  intros Hs E tok. unfold MCPOAuthRegister in E. destruct body as [req|]; [|injection E as <- _; by intros ?%not_elem_of_nil].
  destruct (bool_decide _); [injection E as <- _; by intros ?%not_elem_of_nil|].
  destruct (_ <? _)%nat; [injection E as <- _; by intros ?%not_elem_of_nil|].
  destruct (existsb _ _) eqn:Ex; [injection E as <- _; by intros ?%not_elem_of_nil|].
  unfold mbind at 1, M_bind at 1, timeNow at 1, ask in E. unfold mbind at 1, M_bind at 1 in E.
  destruct (mcpSign _ _) as [r s1] eqn:Q. apply (sign_stays secret) in Q as [_ Hr]; [|done].
  destruct r as [e|clientId]; injection E as <- _; [by intros ?%not_elem_of_nil|]. intros ->%list_elem_of_singleton.
  specialize (Hr _ eq_refl). eexists _, _, _, _. split; [reflexivity|]. by split.
Qed.

Lemma redirect_err_tokens uri state code desc : tokens_of (mcpRedirectErr uri state code desc) = [].
Proof. unfold mcpRedirectErr. destruct (String.eqb uri ""); [done|]. by destruct (url_Parse uri). Qed.

Lemma consent_tokens base form name u : tokens_of (mcpConsentRedirect base form name u) = [].
Proof.
  unfold mcpConsentRedirect. match goal with |- tokens_of (Redirect _ ?l) = _ => set (q := l); assert (Hq : Forall (λ p, p.1 ≠ "code") q) end.
  { apply Forall_app. split; [|by repeat constructor]. apply Forall_forall. intros p Hp%list_elem_of_In%in_flat_map.
    destruct Hp as (k & Hk & Hp). unfold unless_empty in Hp. cbv beta in Hp. destruct (String.eqb (form k) ""); cbn in Hp; [done|]. destruct Hp as [<-|[]]. cbn.
    repeat (destruct Hk as [<-|Hk]; [done|]). done. }
  clearbody q. destruct q as [|[k v] q]; [done|]. cbn. apply Forall_cons in Hq as [Hk _]. cbn in Hk. by destruct (String.eqb_spec k "code").
Qed.

(** What the request of a code is, that is granted at a time. *)
Definition authorized (secret : string) (s s' : Sys AuthTables) (api : AuthState) (r : OAuthRequest)
    (client redirect challenge : string) (user : User) (t : Z) : Prop :=
  ∃ form claims n0 n cookie,
    oq_Form r = Some form ∧ oq_Method r = MethodPost ∧ form "decision" = "allow" ∧ form "client_id" = client
    ∧ form "redirect_uri" = redirect ∧ form "code_challenge" = challenge ∧ challenge ≠ ""
    ∧ jwt_Parse secret mcpAudClient (wall_clock n0) client = Some claims ∧ redirect ∈ c_redirect_uris claims
    ∧ oq_Cookie r = cookie
    ∧ (au_anonymousRole api ≠ "" ∧ u_Id user = 0
       ∨ ∃ v id row, cookie = Some v ∧ session_user (au_secret api) v = Some id ∧ row ∈ t_users (sys_mem s) ∧ user = scan_user row ∧ us_id row = id)
    ∧ t = wall_clock n ∧ (sys_ticks s ≤ n < sys_ticks s')%nat.

Lemma Authorize_tokens secret api base r s a s' : has_secret secret s → MCPOAuthAuthorize api base r s = (a, s') →
  ∀ tok, tok ∈ match a with Ret a => tokens_of a | Panic => [] end → ∃ client redirect challenge user t,
    authorized secret s s' api r client redirect challenge user t
    ∧ tok = jwt_Sign secret (mcpCodeClaims client redirect challenge (Itoa (u_Id user)) (NewNumericDate (t + mcpOAuthCodeTTL))).
Proof.
  intros Hs E tok. unfold MCPOAuthAuthorize in E. destruct (oq_Form r) as [form|] eqn:Fm; [|injection E as <- _; by intros ?%not_elem_of_nil].
  set (req := parseAuthorizeRequest form) in *. unfold with_claims in E. unfold mbind at 1, M_bind at 1 in E.
  destruct (mcpVerify _ _ s) as [c s1] eqn:V. apply (verify_stays secret) in V as [[k1 [M1 T1]] Hv]; [|done].
  destruct c as [client|]; [|injection E as <- _; by intros ?%not_elem_of_nil]. destruct (Hv _ eq_refl) as (n0 & _ & Hp). clear Hv.
  destruct (mcpRedirectURIAllowed _ _) eqn:Al; [|injection E as <- _; by intros ?%not_elem_of_nil]. cbn [negb] in E.
  destruct (negb (String.eqb _ "code")); [injection E as <- _; cbv beta iota; rewrite redirect_err_tokens; by intros ?%not_elem_of_nil|].
  destruct (String.eqb_spec (az_CodeChallenge req) "") as [|Hch]; cbn [orb] in E.
  { injection E as <- _; cbv beta iota; rewrite redirect_err_tokens; by intros ?%not_elem_of_nil. }
  destruct (negb (String.eqb (az_CodeChallengeMethod req) _)); [injection E as <- _; cbv beta iota; rewrite redirect_err_tokens; by intros ?%not_elem_of_nil|].
  unfold mbind at 1, M_bind at 1 in E. destruct (GetUser api _ s1) as [user s2] eqn:G. apply session_user_stays in G as [[k2 [M2 T2]] Hu].
  destruct (String.eqb _ MethodGet).
  { injection E as <- _. unfold mcpAuthorizeShowConsent. destruct user; cbv beta iota; [rewrite consent_tokens|]; by intros ?%not_elem_of_nil. }
  destruct (String.eqb_spec (oq_Method r) MethodPost) as [Hpost|]; [|injection E as <- _; by intros ?%not_elem_of_nil].
  unfold mcpAuthorizeIssueCode in E. destruct user as [user|]; [|injection E as <- _; by intros ?%not_elem_of_nil].
  destruct (String.eqb_spec (form "decision") "allow") as [Hal|]; cbn [negb] in E.
  2: { injection E as <- _; cbv beta iota; rewrite redirect_err_tokens; by intros ?%not_elem_of_nil. }
  unfold mbind at 1, M_bind at 1, timeNow at 1, ask in E. unfold mbind at 1, M_bind at 1 in E.
  destruct (mcpSign _ _) as [code s3] eqn:Q. apply (sign_stays secret) in Q as [[M3 T3] Hc]; [|unfold has_secret in *; cbn; by rewrite M2, M1].
  destruct code as [e|code]; [injection E as <- _; by intros ?%not_elem_of_nil|]. injection E as <- <-. unfold redirect_code.
  destruct (url_Parse _); [|by intros ?%not_elem_of_nil]. intros ->%list_elem_of_singleton.
  exists (az_ClientId req), (az_RedirectURI req), (az_CodeChallenge req), user, (wall_clock (sys_ticks s2)).
  split; [|by apply Hc]. exists form, client, n0, (sys_ticks s2), (oq_Cookie r).
  repeat (split; [done|]). split; [|].
  { unfold mcpRedirectURIAllowed in Al. apply existsb_exists in Al as (x & Hx & Hxe%String.eqb_eq). subst x. by apply list_elem_of_In. }
  split; [done|]. split; [rewrite <- M1; by apply Hu|]. split; [done|]. cbn in T3. lia.
Qed.

(** The tokens of a pair. *)
Definition pair_token (secret : string) (s s' : Sys AuthTables) (userId : Z) (client tok : string) : Prop :=
  ∃ n audience ttl, (sys_ticks s ≤ n < sys_ticks s')%nat
    ∧ (audience, ttl) ∈ [(mcpAudAccess, mcpOAuthAccessTokenTTL); (mcpAudRefresh, mcpOAuthRefreshTokenTTL)]
    ∧ tok = jwt_Sign secret (mcpTokenClaims client (Itoa userId) audience (NewNumericDate (wall_clock n + ttl))).

Lemma token_for_tokens secret subject client s a s' : has_secret secret s → token_for subject client s = (a, s') →
  ∀ tok, tok ∈ tokens_of a → ∃ userId, ParseInt subject = Some userId ∧ pair_token secret s s' userId client tok.
Proof.
  intros Hs E tok. unfold token_for in E. destruct (ParseInt subject) as [userId|]; [|injection E as <- _; by intros ?%not_elem_of_nil].
  unfold mcpIssueTokenPair in E. unfold mbind at 1, M_bind at 1 in E.
  destruct (mcpIssueToken _ _ _ _ s) as [x s1] eqn:Q1. apply (issue_stays secret) in Q1 as [[k1 [M1 T1]] H1']; [|done].
  destruct x as [e|access]; [injection E as <- _; by intros ?%not_elem_of_nil|]. unfold mbind, M_bind in E.
  destruct (mcpIssueToken _ _ _ _ s1) as [x s2] eqn:Q2. apply (issue_stays secret) in Q2 as [[k2 [M2 T2]] H2']; [|unfold has_secret in *; by rewrite M1].
  injection E as <- <-. destruct x as [e|refresh]; [by intros ?%not_elem_of_nil|].
  destruct (H1' _ eq_refl) as (n1 & Hn1 & ->), (H2' _ eq_refl) as (n2 & Hn2 & ->).
  intros Hin. exists userId. split; [done|]. cbn in Hin. apply elem_of_cons in Hin as [->|Hin%list_elem_of_singleton].
  - exists n1, mcpAudAccess, mcpOAuthAccessTokenTTL. split; [lia|]. split; [by left|done].
  - subst tok. exists n2, mcpAudRefresh, mcpOAuthRefreshTokenTTL. split; [lia|]. split; [by right; left|done].
Qed.

(** What the tokens of a pair are given for, the code or refresh token being
    verified at a time. *)
Definition exchanged (secret : string) (s s' : Sys AuthTables) (r : OAuthRequest) (client : string) (userId : Z) : Prop :=
  ∃ form claims n, oq_Form r = Some form ∧ (sys_ticks s ≤ n < sys_ticks s')%nat ∧ ParseInt (c_Subject claims) = Some userId
    ∧ (form "grant_type" = "authorization_code" ∧ jwt_Parse secret mcpAudCode (wall_clock n) (form "code") = Some claims
         ∧ c_client_id claims = client ∧ form "client_id" = client ∧ c_redirect_uri claims = form "redirect_uri"
         ∧ mcpVerifyPKCE (form "code_verifier") (c_code_challenge claims) = true
       ∨ form "grant_type" = "refresh_token" ∧ jwt_Parse secret mcpAudRefresh (wall_clock n) (form "refresh_token") = Some claims
         ∧ c_client_id claims = client).

Lemma Token_tokens secret r s a s' : has_secret secret s → MCPOAuthToken r s = (a, s') →
  ∀ tok, tok ∈ tokens_of a → ∃ client userId, exchanged secret s s' r client userId ∧ pair_token secret s s' userId client tok.
Proof.
  intros Hs E tok Hin. unfold MCPOAuthToken in E. destruct (oq_Form r) as [form|] eqn:Fm; [|injection E as <- _; by apply not_elem_of_nil in Hin].
  assert (Hsecret : ∀ s1 k, stays s s1 k → has_secret secret s1) by (intros s1 k [M _]; unfold has_secret in *; by rewrite M).
  assert (Hlater : ∀ s1 k userId client, stays s s1 k → pair_token secret s1 s' userId client tok → pair_token secret s s' userId client tok).
  { intros s1 k userId client [_ T] (n & au & ttl & Hn & Hx). exists n, au, ttl. split; [lia|done]. }
  assert (Hafter : ∀ s1 k subject client userId, stays s s1 k → token_for subject client s1 = (a, s') → ParseInt subject = Some userId →
    (sys_ticks s1 < sys_ticks s')%nat).
  { intros s1 k subject client userId Hst Et Hp.
    destruct (token_for_tokens secret _ _ _ _ _ (Hsecret _ _ Hst) Et tok Hin) as (? & _ & n & _ & _ & Hn & _). lia. }
  destruct (String.eqb_spec (form "grant_type") "authorization_code") as [Hg|_]; [|destruct (String.eqb_spec (form "grant_type") "refresh_token") as [Hg|_]].
  - unfold mcpExchangeCode, with_claims in E. unfold mbind at 1, M_bind at 1 in E.
    destruct (mcpVerify _ _ s) as [c s1] eqn:V. apply (verify_stays secret) in V as [[k Hst] Hv]; [|done].
    destruct c as [claims|]; [|injection E as <- _; by apply not_elem_of_nil in Hin]. destruct (Hv _ eq_refl) as (n & Hn & Hp).
    destruct (String.eqb_spec (c_client_id claims) (form "client_id")) as [Hc|]; cbn [negb] in E; [|injection E as <- _; by apply not_elem_of_nil in Hin].
    destruct (String.eqb_spec (c_redirect_uri claims) (form "redirect_uri")) as [Hr|]; cbn [negb] in E; [|injection E as <- _; by apply not_elem_of_nil in Hin].
    destruct (mcpVerifyPKCE _ _) eqn:Pk; cbn [negb] in E; [|injection E as <- _; by apply not_elem_of_nil in Hin].
    destruct (token_for_tokens secret _ _ _ _ _ (Hsecret _ _ Hst) E tok Hin) as (userId & Hi & Hpair).
    exists (form "client_id"), userId. split; [|by eapply Hlater]. exists form, claims, n. split; [done|].
    split; [specialize (Hafter _ _ _ _ _ Hst E Hi); lia|]. split; [done|]. by left.
  - unfold mcpExchangeRefresh, with_claims in E. unfold mbind at 1, M_bind at 1 in E.
    destruct (mcpVerify _ _ s) as [c s1] eqn:V. apply (verify_stays secret) in V as [[k Hst] Hv]; [|done].
    destruct c as [claims|]; [|injection E as <- _; by apply not_elem_of_nil in Hin]. destruct (Hv _ eq_refl) as (n & Hn & Hp).
    destruct (negb _ && negb _); [injection E as <- _; by apply not_elem_of_nil in Hin|].
    destruct (token_for_tokens secret _ _ _ _ _ (Hsecret _ _ Hst) E tok Hin) as (userId & Hi & Hpair).
    exists (c_client_id claims), userId. split; [|by eapply Hlater]. exists form, claims, n. split; [done|].
    split; [specialize (Hafter _ _ _ _ _ Hst E Hi); lia|]. split; [done|]. by right.
  - injection E as <- _; by apply not_elem_of_nil in Hin.
Qed.

Lemma Bearer_user secret authorization s u s' : has_secret secret s → MCPUserFromBearer authorization s = (Some u, s') →
  ∃ tok claims n userId row, FilepathFacts.strip_prefix mcpBearerPrefix authorization = Some tok
    ∧ (sys_ticks s ≤ n < sys_ticks s')%nat ∧ jwt_Parse secret mcpAudAccess (wall_clock n) tok = Some claims
    ∧ ParseInt (c_Subject claims) = Some userId ∧ row ∈ t_users (sys_mem s) ∧ u = scan_user row ∧ us_id row = userId.
Proof.
  intros Hs E. unfold MCPUserFromBearer in E. destruct (FilepathFacts.strip_prefix _ _) as [tok|]; [|done].
  unfold with_claims in E. unfold mbind at 1, M_bind at 1 in E. destruct (mcpVerify _ _ s) as [c s1] eqn:V.
  apply (verify_stays secret) in V as [[k [M1 T1]] Hv]; [|done]. destruct c as [claims|]; [|done]. destruct (Hv _ eq_refl) as (n & Hn & Hp).
  destruct (ParseInt _) as [userId|] eqn:Pi; [|done]. unfold mbind, M_bind, Users.GetUser in E.
  destruct (select_ _ s1) as [x s2] eqn:Q. apply select_stays in Q as [[M2 T2] Hx]. injection E as E <-.
  destruct x as [e|x]; [done|]. injection E as ->. destruct Hx as [Hx|[? ?]]; [|done].
  unfold user_by_id in Hx. destruct (List.find _ _) as [row|] eqn:F; [|done]. injection Hx as ->.
  apply find_user in F as [Hin Hid%Z.eqb_eq]. rewrite M1 in Hin. exists tok, claims, n, userId, row. repeat (split; [done|]).
  split; [lia|]. by repeat split.
Qed.

(** The handlers keep the tables: only their tokens are new. *)
Lemma mcpVerify_ok audience tok : moves users_kept (mcpVerify audience tok).
Proof. unfold mcpVerify, mcpAuthSecret. kept. Qed.
Lemma mcpSign_ok c : moves users_kept (mcpSign c).
Proof. unfold mcpSign, mcpAuthSecret. kept. Qed.
Lemma with_claims_ok {A} audience tok (refused : A) k : (∀ c, moves users_kept (k c)) → moves users_kept (with_claims audience tok refused k).
Proof. intros Hk. unfold with_claims. apply moves_bind; [apply _|apply mcpVerify_ok|]. intros [c|]; [apply Hk|kept]. Qed.
End facts.
#[export] Hint Resolve mcpVerify_ok mcpSign_ok session_GetUser_ok : users.

Section handlers.
Context `{Env} `{Bcrypt} `{WallClock} `{SessionJson} `{Jwt} `{UrlParse}.

Lemma mcpIssueToken_ok audience userId client ttl : moves users_kept (mcpIssueToken audience userId client ttl).
Proof. unfold mcpIssueToken. kept. Qed.
#[local] Hint Resolve mcpIssueToken_ok : users.
Lemma token_for_ok subject client : moves users_kept (token_for subject client).
Proof. unfold token_for, mcpIssueTokenPair. kept. Qed.
Lemma Register_ok body : moves users_kept (MCPOAuthRegister body).
Proof. unfold MCPOAuthRegister. kept. Qed.
Lemma Authorize_ok api base r : moves users_kept (MCPOAuthAuthorize api base r).
Proof.
  unfold MCPOAuthAuthorize, mcpAuthorizeIssueCode. destruct (oq_Form r) as [form|]; [|kept]. apply with_claims_ok. intros c. kept.
Qed.
Lemma Token_ok r : moves users_kept (MCPOAuthToken r).
Proof.
  unfold MCPOAuthToken, mcpExchangeCode, mcpExchangeRefresh. destruct (oq_Form r) as [form|]; [|kept].
  repeat case_match; try (apply with_claims_ok; intros c; repeat case_match); try apply token_for_ok; kept.
Qed.
Lemma Bearer_ok authorization : moves users_kept (MCPUserFromBearer authorization).
Proof. unfold MCPUserFromBearer. destruct (FilepathFacts.strip_prefix _ _) as [tok|]; [|kept]. apply with_claims_ok. intros c. kept. Qed.
End handlers.
End OAuthFacts.
