(* ===== verification/AuthSpec.v ===== *)
(** The requests that authenticate, together: logging in, the OAuth server and
    the calls of the MCP endpoint, with the operations on users, over one
    database.

    A run serves a list of requests, one after another, and keeps what each was
    given and answered.  What a request may present is not restricted but by
    [unforged]: a token or a session it presents that verifies under the secret
    was handed out before. *)

From S2P Require Import Rbac.
From S2P Require Export OAuth.
From Stdlib Require Import Ascii String ZArith Lia.
Local Open Scope string_scope.
Local Open Scope Z_scope.

Inductive auth_request :=
| QLogin (form : option LoginForm)
| QRegister (body : option RegisterForm)
| QAuthorize (r : OAuthRequest)
| QToken (r : OAuthRequest)
| QRevoke
| QMcp (authorization : string)
| QSelectProject (sessionId projectId : string)
| QAddUser (email password name role : string)
| QUpdateUser (id : Z) (email password name role : string)
| QChangePassword (id : Z) (old new : string)
| QDeleteUser (id : Z).

Inductive auth_reply :=
| ALogin (r : login_reply)
| AOAuth (r : outcome oauth_reply)
| AMcp (u : option User)
| ADb (e : db_error + unit).

(** What is handed out. *)
Definition issued_tokens (a : auth_reply) : list string :=
  match a with AOAuth (Ret r) => OAuthFacts.tokens_of r | _ => [] end.
Definition issued_cookies (a : auth_reply) : list string := match a with ALogin (LoginCookie c) => [ck_Value c] | _ => [] end.
(** What a request presents. *)
Definition form_values (r : OAuthRequest) (fields : list string) : list string :=
  match oq_Form r with Some form => form <$> fields | None => [] end.
Definition presented_tokens (q : auth_request) : list string :=
  match q with
  | QAuthorize r => form_values r ["client_id"]
  | QToken r => form_values r ["code"; "refresh_token"]
  | QMcp authorization => match FilepathFacts.strip_prefix mcpBearerPrefix authorization with Some tok => [tok] | None => [] end
  | _ => []
  end.
Definition presented_cookie (q : auth_request) : option string := match q with QAuthorize r => oq_Cookie r | _ => None end.

Record auth_event := {
  ae_before : Sys AuthTables; ae_request : auth_request; ae_reply : auth_reply; ae_after : Sys AuthTables }.

Section auth.
Context `{Env} `{Bcrypt} `{WallClock} `{SessionJson} `{Jwt} `{UrlParse}.
Context (api : AuthState) (base : string).
Local Notation AM := (M AuthTables).

Definition answer (q : auth_request) : AM auth_reply :=
  match q with
  | QLogin form => a ← Login api form; mret (ALogin a)
  | QRegister body => a ← MCPOAuthRegister body; mret (AOAuth (Ret a))
  | QAuthorize r => a ← MCPOAuthAuthorize api base r; mret (AOAuth a)
  | QToken r => a ← MCPOAuthToken r; mret (AOAuth (Ret a))
  | QRevoke => mret (AOAuth (Ret MCPOAuthRevoke))
  | QMcp authorization => u ← MCPUserFromBearer authorization; mret (AMcp u)
  | QSelectProject sessionId projectId => e ← SetMcpSessionProject sessionId projectId; mret (ADb e)
  | QAddUser email password name role => e ← AddUser email password name role; mret (ADb e)
  | QUpdateUser id email password name role => e ← UpdateUser id email password name role; mret (ADb e)
  | QChangePassword id old new => e ← ChangeUserPassword id old new; mret (ADb e)
  | QDeleteUser id => e ← DeleteUser id; mret (ADb e)
  end.

Fixpoint serve_all (l : list auth_request) (s : Sys AuthTables) : list auth_event :=
  match l with
  | [] => []
  | q :: l => let '(a, s') := answer q s in
              {| ae_before := s; ae_request := q; ae_reply := a; ae_after := s' |} :: serve_all l s'
  end.

Definition tokens_until (h : list auth_event) : list string := flat_map (λ e, issued_tokens (ae_reply e)) h.
Definition cookies_until (h : list auth_event) : list string := flat_map (λ e, issued_cookies (ae_reply e)) h.

(** [e], after [h], presents nothing forged. *)
Definition unforged (h : list auth_event) (e : auth_event) : Prop :=
  (∀ tok audience now c, tok ∈ presented_tokens (ae_request e) → jwt_Parse (au_secret api) audience now tok = Some c → tok ∈ tokens_until h)
  ∧ (∀ v id, presented_cookie (ae_request e) = Some v → session_user (au_secret api) v = Some id →
       ∃ v', v' ∈ cookies_until h ∧ session_user (au_secret api) v' = Some id).

(** * What a token stands for *)

(** A time the clock showed while [e] was served. *)
Definition at_event (e : auth_event) (t : Z) : Prop :=
  ∃ n, (sys_ticks (ae_before e) ≤ n < sys_ticks (ae_after e))%nat ∧ t = wall_clock n.

(** The user gave the password, or is the default admin who set the first one. *)
Definition logged_in (h : list auth_event) (u : Z) : Prop :=
  ∃ e f row, e ∈ h ∧ ae_request e = QLogin (Some f) ∧ SessionsFacts.may_log_in f (sys_mem (ae_before e)) row ∧ us_id row = u.
(** The client was registered with the redirect URI. *)
Definition registered (h : list auth_event) (client redirect : string) : Prop :=
  ∃ e issued name uris, e ∈ h ∧ ae_reply e = AOAuth (Ret (Registered client issued name uris)) ∧ redirect ∈ to_utf8 <$> uris.
(** A user who is logged in allowed the client, at a time. *)
Definition consents (h : list auth_event) (e : auth_event) (u : Z) (client redirect challenge : string) (t : Z) : Prop :=
  ∃ r form, ae_request e = QAuthorize r ∧ oq_Form r = Some form ∧ oq_Method r = MethodPost ∧ form "decision" = "allow"
    ∧ form "client_id" = client ∧ form "redirect_uri" = redirect ∧ form "code_challenge" = challenge ∧ challenge ≠ ""
    ∧ registered h client redirect
    ∧ (au_anonymousRole api ≠ "" ∧ u = 0 ∨ logged_in h u)
    ∧ at_event e t.
Definition consented (h : list auth_event) (u : Z) (client redirect challenge : string) (t : Z) : Prop :=
  ∃ h1 e h2, h = (h1 ++ e :: h2)%list ∧ consents h1 e u client redirect challenge t.
(** The code is exchanged by who knows what the challenge was made of. *)
Definition exchanges_code (e : auth_event) (client redirect challenge : string) : Prop :=
  ∃ r form, ae_request e = QToken r ∧ oq_Form r = Some form ∧ form "grant_type" = "authorization_code" ∧ form "client_id" = client
    ∧ form "redirect_uri" = to_utf8 redirect ∧ Base64.EncodeToString false (Sum256 (form "code_verifier")) = to_utf8 challenge.
Definition refreshes (e : auth_event) : Prop :=
  ∃ r form, ae_request e = QToken r ∧ oq_Form r = Some form ∧ form "grant_type" = "refresh_token".

(** Tokens were given for a user to a client, at a time: for a code within its
    30 seconds, or for a refresh token within its 30 days. *)
Inductive granted : list auth_event → Z → string → Z → Prop :=
| granted_code h e u client redirect challenge t0 t1 t :
    consented h u client redirect challenge t0 → exchanges_code e client redirect challenge →
    at_event e t1 → t1 < t0 + mcpOAuthCodeTTL → at_event e t → granted (h ++ [e]) u client t
| granted_refresh h e u client t0 t1 t :
    granted h u client t0 → refreshes e →
    at_event e t1 → t1 < t0 + mcpOAuthRefreshTokenTTL → at_event e t → granted (h ++ [e]) u client t
| granted_before h e u client t : granted h u client t → granted (h ++ [e]) u client t.

(** What the claims of a token that was handed out say. *)
Inductive known (h : list auth_event) : Claims → Prop :=
| known_client name uris now issued : (∃ e, e ∈ h ∧ ae_reply e = AOAuth (Ret (Registered (jwt_Sign (au_secret api) (mcpClientClaims name uris now)) issued name uris))) →
    known h (mcpClientClaims name uris now)
| known_code u client redirect challenge t : in_i64 u → to_utf8 client = client → consented h u client redirect challenge t →
    known h (mcpCodeClaims client redirect challenge (Itoa u) (NewNumericDate (t + mcpOAuthCodeTTL)))
| known_token u client t audience ttl : in_i64 u → to_utf8 client = client → granted h u client t →
    (audience, ttl) ∈ [(mcpAudAccess, mcpOAuthAccessTokenTTL); (mcpAudRefresh, mcpOAuthRefreshTokenTTL)] →
    known h (mcpTokenClaims client (Itoa u) audience (NewNumericDate (t + ttl))).
Definition all_known (h : list auth_event) : Prop := ∀ tok, tok ∈ tokens_until h → ∃ c, tok = jwt_Sign (au_secret api) c ∧ known h c.
(** Every session that was handed out is of a user who logged in. *)
Definition all_logged_in (h : list auth_event) : Prop :=
  ∀ v, v ∈ cookies_until h → ∃ u, v = session_value (au_secret api) u ∧ in_i64 u ∧ logged_in h u.

Definition state_ok (s : Sys AuthTables) : Prop := OAuthFacts.has_secret (au_secret api) s ∧ UsersFacts.users_ok (sys_mem s).
End auth.

(** What [json.Unmarshal] reads in a session the code wrote. *)
Class SessionJsonLaws (S : SessionJson) := {
  session_Unmarshal_Marshal z : in_i64 z → session_Unmarshal (session_Marshal z) = Some z }.

(** * Facts *)
Module AuthFacts.
Import UsersFacts SessionsFacts OAuthFacts.
Section facts.
Context `{Env} `{Bcrypt} `{WallClock} `{SJ : SessionJson} `{J : Jwt} `{UrlParse} {SL : SessionJsonLaws SJ} {JL : JwtLaws J}.
Context (api : AuthState) (base : string).
Local Notation secret := (au_secret api).
Local Notation known := (known api).
Local Notation granted := (granted api).
Local Notation consented := (consented api).

(** ** What is known stays known *)
Lemma consented_app h l u client redirect challenge t : consented h u client redirect challenge t → consented (h ++ l) u client redirect challenge t.
Proof. intros (h1 & e & h2 & -> & Hc). exists h1, e, (h2 ++ l)%list. by rewrite <- app_assoc. Qed.
Lemma logged_in_app h l u : logged_in h u → logged_in (h ++ l) u.
Proof. intros (e & f & row & He & Hx). exists e, f, row. split; [apply elem_of_app; by left|done]. Qed.
Lemma known_snoc h e c : known h c → known (h ++ [e]) c.
Proof.
  intros [name uris now issued (e' & He & Hr)|u client redirect challenge t Hu Hc Hg|u client t audience ttl Hu Hc Hg Ha].
  - apply known_client with (issued := issued). exists e'. split; [apply elem_of_app; by left|done].
  - eapply known_code; [done..|]. by apply consented_app.
  - eapply known_token; [done..| |done]. by apply granted_before.
Qed.
Lemma consented_logged_in h u client redirect challenge t : consented h u client redirect challenge t → u ≠ 0 → logged_in h u.
Proof.
  intros (h1 & e & h2 & -> & (r & form & _ & _ & _ & _ & _ & _ & _ & _ & _ & Hu & _)) Hn.
  destruct Hu as [[_ ?]|Hu]; [done|by apply logged_in_app].
Qed.
Lemma granted_logged_in h u client t : granted h u client t → u ≠ 0 → logged_in h u.
Proof.
  induction 1 as [h e u client redirect challenge t0 t1 t Hc| |]; intros Hn; apply logged_in_app; [by eapply consented_logged_in|auto..].
Qed.

(** ** What a token that verifies says *)
Lemma live_before c now t : c_ExpiresAt c = Some (NewNumericDate t) → live c now = true → now < t.
Proof. unfold live, NewNumericDate, seconds. intros -> Hl%Z.ltb_lt. assert (Hd := Z.mul_div_le t 1000000000). lia. Qed.

Lemma parsed h a now tok c : all_known api h → tok ∈ tokens_until h → jwt_Parse secret a now tok = Some c →
  ∃ c0, tok = jwt_Sign secret c0 ∧ known h c0 ∧ c = claims_utf8 c0 ∧ for_audience a (claims_utf8 c0) = true ∧ live c0 now = true.
Proof.
  intros Hk Hin Hp. destruct (Hk tok Hin) as (c0 & -> & Hc0). rewrite jwt_Parse_Sign in Hp.
  destruct (_ && _) eqn:E; [|done]. injection Hp as <-. apply andb_prop in E as [? ?]. by exists c0.
Qed.

(** The claims have the audience [b], which is not the one asked for. *)
Ltac other_audience b Ha :=
  apply (audience_of _ _ b) in Ha; [try (vm_compute in Ha; discriminate); congruence|done|first [done|by compute_done]|by compute_done].

Lemma parsed_client h now tok c : all_known api h → tok ∈ tokens_until h → jwt_Parse secret mcpAudClient now tok = Some c →
  to_utf8 tok = tok ∧ ∀ redirect, redirect ∈ c_redirect_uris c → registered h tok redirect.
Proof.
  intros Hk Hin Hp. destruct (parsed h _ now tok c Hk Hin Hp) as (c0 & -> & Hc0 & -> & Ha & _).
  split; [apply jwt_Sign_ascii|]. intros redirect Hr.
  destruct Hc0 as [name uris now' issued (e & He & Hrep)|u client r' challenge t _ _ _|u client t audience ttl _ _ _ Hau].
  - exists e, issued, name, uris. by split.
  - by other_audience mcpAudCode Ha.
  - apply elem_of_cons in Hau as [[= -> ->]|[= -> ->]%list_elem_of_singleton].
    + by other_audience mcpAudAccess Ha.
    + by other_audience mcpAudRefresh Ha.
Qed.

Lemma parsed_code h now tok c : all_known api h → tok ∈ tokens_until h → jwt_Parse secret mcpAudCode now tok = Some c →
  ∃ u redirect challenge t, in_i64 u ∧ ParseInt (c_Subject c) = Some u ∧ to_utf8 (c_client_id c) = c_client_id c
    ∧ consented h u (c_client_id c) redirect challenge t
    ∧ c_redirect_uri c = to_utf8 redirect ∧ c_code_challenge c = to_utf8 challenge ∧ now < t + mcpOAuthCodeTTL.
Proof.
  intros Hk Hin Hp. destruct (parsed h _ now tok c Hk Hin Hp) as (c0 & -> & Hc0 & -> & Ha & Hl).
  destruct Hc0 as [name uris now' issued _|u client r' challenge t Hu Hc Hg|u client t audience ttl _ _ _ Hau].
  - by other_audience mcpAudClient Ha.
  - exists u, r', challenge, t. split; [done|]. split.
    { change (ParseInt (to_utf8 (Itoa u)) = Some u). rewrite to_utf8_ascii by apply ascii_text_Itoa. by apply ParseInt_Itoa. }
    cbn [claims_utf8 c_client_id mcpCodeClaims]. rewrite !Hc. repeat (split; [done|]). refine (live_before _ _ _ _ Hl); reflexivity.
  - apply elem_of_cons in Hau as [[= -> ->]|[= -> ->]%list_elem_of_singleton].
    + by other_audience mcpAudAccess Ha.
    + by other_audience mcpAudRefresh Ha.
Qed.

Lemma parsed_token h a ttl now tok c : (a, ttl) ∈ [(mcpAudAccess, mcpOAuthAccessTokenTTL); (mcpAudRefresh, mcpOAuthRefreshTokenTTL)] →
  all_known api h → tok ∈ tokens_until h → jwt_Parse secret a now tok = Some c →
  ∃ u t, in_i64 u ∧ ParseInt (c_Subject c) = Some u ∧ to_utf8 (c_client_id c) = c_client_id c ∧ granted h u (c_client_id c) t ∧ now < t + ttl.
Proof.
  intros Hau Hk Hin Hp. destruct (parsed h _ now tok c Hk Hin Hp) as (c0 & -> & Hc0 & -> & Ha & Hl).
  assert (Hin' : a ∈ audiences ∧ a ≠ mcpAudClient ∧ a ≠ mcpAudCode).
  { apply elem_of_cons in Hau as [[= -> ->]|[= -> ->]%list_elem_of_singleton]; (split; [|done]); [right; right; left|right; right; right; left]. }
  destruct Hin' as (Hin' & Hn1 & Hn2).
  destruct Hc0 as [name uris now' issued _|u client r' challenge t _ _ _|u client t audience ttl' Hu Hc Hg Hau'].
  - by other_audience mcpAudClient Ha.
  - by other_audience mcpAudCode Ha.
  - assert (audience = a ∧ ttl' = ttl) as [-> ->].
    { apply (audience_of _ _ audience) in Ha as ->; [|done|done|].
      - apply elem_of_cons in Hau as [[= -> ->]|[= -> ->]%list_elem_of_singleton];
        apply elem_of_cons in Hau' as [[= ->]|[= ->]%list_elem_of_singleton]; done.
      - apply elem_of_cons in Hau' as [[= -> ->]|[= -> ->]%list_elem_of_singleton]; [right; right; left|right; right; right; left]. }
    exists u, t. split; [done|]. split.
    { change (ParseInt (to_utf8 (Itoa u)) = Some u). rewrite to_utf8_ascii by apply ascii_text_Itoa. by apply ParseInt_Itoa. }
    cbn [claims_utf8 c_client_id mcpTokenClaims]. rewrite !Hc. repeat (split; [done|]). refine (live_before _ _ _ _ Hl); reflexivity.
Qed.
(** ** One request *)
Lemma answer_ok q : moves users_kept (answer api base q).
Proof.
  destruct q; cbn [answer]; try (apply moves_bind; [apply _| |intros; apply moves_ret, _]);
    first [apply Login_ok|apply Register_ok|apply Authorize_ok|apply Token_ok|apply Bearer_ok|by auto with users|apply moves_ret, _].
Qed.
Lemma answer_state q s a s' : state_ok api s → answer api base q s = (a, s') → state_ok api s'.
Proof.
  intros [Hs Hu] E. assert (Hm := answer_ok q s). rewrite E in Hm. cbn in Hm. destruct Hm as [Hm He].
  split; [unfold has_secret in *; by rewrite He|auto].
Qed.

(** The event of a request, after a history. *)
Definition event_of (e : auth_event) : Prop := answer api base (ae_request e) (ae_before e) = (ae_reply e, ae_after e).

Lemma tokens_snoc h e tok : tok ∈ tokens_until (h ++ [e]) ↔ tok ∈ tokens_until h ∨ tok ∈ issued_tokens (ae_reply e).
Proof. unfold tokens_until. rewrite !list_elem_of_In, flat_map_app, in_app_iff. cbn. by rewrite app_nil_r. Qed.
Lemma cookies_snoc h e v : v ∈ cookies_until (h ++ [e]) ↔ v ∈ cookies_until h ∨ v ∈ issued_cookies (ae_reply e).
Proof. unfold cookies_until. rewrite !list_elem_of_In, flat_map_app, in_app_iff. cbn. by rewrite app_nil_r. Qed.

(** The session of a request is of who logged in. *)
Lemma session_logged_in h e v id : unforged api h e → all_logged_in api h → presented_cookie (ae_request e) = Some v →
  session_user secret v = Some id → logged_in h id.
Proof.
  intros [_ Hf] Hl Hp Hv. destruct (Hf v id Hp Hv) as (v' & Hin & Hv'). destruct (Hl v' Hin) as (u & -> & Hu & Hlu).
  unfold session_user in Hv'. rewrite session_data_value in Hv'. cbn in Hv'. rewrite session_Unmarshal_Marshal in Hv' by done.
  by injection Hv' as ->.
Qed.

Lemma row_in_i64 s row : state_ok api s → row ∈ t_users (sys_mem s) → in_i64 (us_id row).
Proof.
  intros [_ (_ & _ & Hr & Hs)] Hin. rewrite Forall_forall in Hr. specialize (Hr row Hin). cbn in Hr.
  unfold in_i64, i64_min, i64_max. unfold max_serial in Hs. lia.
Qed.

(** A client id that is presented and verifies is one that was registered. *)
Lemma code_known h e r client redirect challenge user t : state_ok api (ae_before e) → unforged api h e → all_known api h → all_logged_in api h →
  ae_request e = QAuthorize r → authorized secret (ae_before e) (ae_after e) api r client redirect challenge user t →
  in_i64 (u_Id user) ∧ to_utf8 client = client ∧ consented (h ++ [e]) (u_Id user) client redirect challenge t.
Proof.
  intros Hst Hf Hk Hl Hq (form & claims & n0 & n & cookie & Fm & Hpost & Hdec & Hcl & Hre & Hch & Hne & Hp & Hr & Hco & Hu & Ht & Hn).
  assert (Hin : client ∈ tokens_until h).
  { apply (proj1 Hf _ mcpAudClient (wall_clock n0) claims); [|done]. rewrite Hq. cbn. unfold form_values. rewrite Fm. cbn. rewrite Hcl. by left. }
  destruct (parsed_client h (wall_clock n0) client claims Hk Hin Hp) as [Hasc Hreg].
  split; [|split; [done|]].
  - destruct Hu as [[_ ->]|(v & id & row & _ & _ & Hrow & -> & _)]; [done|by apply (row_in_i64 (ae_before e))].
  - exists h, e, []. split; [done|]. exists r, form. repeat (split; [done|]). split; [by apply Hreg|]. split; [|by exists n].
    destruct Hu as [Hu|(v & id & row & Hv & Hs & _ & -> & <-)]; [by left|right].
    apply (session_logged_in h e v); try done. rewrite Hq. cbn. by rewrite Hco.
Qed.

(** What is exchanged for tokens was granted. *)
Lemma exchange_known h e r client userId t : unforged api h e → all_known api h →
  ae_request e = QToken r → exchanged secret (ae_before e) (ae_after e) r client userId → at_event e t →
  in_i64 userId ∧ to_utf8 client = client ∧ granted (h ++ [e]) userId client t.
Proof.
  intros Hf Hk Hq (form & claims & n & Fm & Hn & Hi & Hx) Ht.
  assert (Hin : ∀ k a, k ∈ ["code"; "refresh_token"] → jwt_Parse secret a (wall_clock n) (form k) = Some claims → form k ∈ tokens_until h).
  { intros k a Hka Hp. apply (proj1 Hf _ a (wall_clock n) claims); [|done]. rewrite Hq. cbn. unfold form_values. rewrite Fm.
    apply list_elem_of_fmap. by exists k. }
  assert (Hat : at_event e (wall_clock n)) by by exists n.
  destruct Hx as [(Hg & Hp & <- & Hc & Hr & Pk)|(Hg & Hp & <-)].
  - destruct (parsed_code h (wall_clock n) (form "code") claims Hk) as (u & redirect & challenge & t0 & Hu & Hi' & Hasc & Hcon & Er & Ec & Hl);
      [by apply (Hin "code" mcpAudCode); [left|]|done|].
    rewrite Hi in Hi'. injection Hi' as <-. split; [done|]. split; [done|].
    eapply granted_code; [exact Hcon| |exact Hat|exact Hl|exact Ht].
    exists r, form. repeat (split; [done|]). split; [by rewrite <- Hr|]. unfold mcpVerifyPKCE in Pk.
    destruct (_ || _); [done|]. apply String.eqb_eq in Pk. by rewrite Pk.
  - destruct (parsed_token h mcpAudRefresh mcpOAuthRefreshTokenTTL (wall_clock n) (form "refresh_token") claims) as (u & t0 & Hu & Hi' & Hasc & Hgr & Hl);
      [by right; left|done|by apply (Hin "refresh_token" mcpAudRefresh); [right; left|]|done|].
    rewrite Hi in Hi'. injection Hi' as <-. split; [done|]. split; [done|].
    eapply granted_refresh; [exact Hgr| |exact Hat|exact Hl|exact Ht]. by exists r, form.
Qed.

(** The requests that hand out tokens and sessions. *)
Ltac answered Ea :=
  cbn [answer] in Ea; unfold mbind, M_bind in Ea;
  repeat match type of Ea with (let '(_, _) := ?x in _) = _ => let E := fresh "E" in destruct x as [? ?] eqn:E end;
  injection Ea as <- <-.
Lemma issues_tokens q s a s' tok : answer api base q s = (a, s') → tok ∈ issued_tokens a →
  (∃ body x, q = QRegister body ∧ MCPOAuthRegister body s = (x, s') ∧ a = AOAuth (Ret x))
  ∨ (∃ r x, q = QAuthorize r ∧ MCPOAuthAuthorize api base r s = (x, s') ∧ a = AOAuth x)
  ∨ (∃ r x, q = QToken r ∧ MCPOAuthToken r s = (x, s') ∧ a = AOAuth (Ret x)).
Proof.
  intros Ea Hin. destruct q; answered Ea; cbn in Hin; try (by apply not_elem_of_nil in Hin); [left|right; left|right; right]; eauto.
Qed.
Lemma issues_cookies q s a s' v : answer api base q s = (a, s') → v ∈ issued_cookies a →
  ∃ form c, q = QLogin form ∧ fst (Login api form s) = LoginCookie c ∧ v = ck_Value c.
Proof.
  intros Ea Hin. destruct q; answered Ea; cbn in Hin; try (by apply not_elem_of_nil in Hin).
  case_match; [by apply not_elem_of_nil in Hin|]. apply list_elem_of_singleton in Hin as ->. eexists _, _. split; [done|]. split; [|done]. by rewrite E.
Qed.

(** One request keeps what is known of all that was handed out. *)
Lemma step_tokens_known h e : state_ok api (ae_before e) → event_of e → unforged api h e → all_known api h → all_logged_in api h →
  all_known api (h ++ [e]).
Proof.
  intros Hst Ev Hf Hk Hl. assert (Hs := proj1 Hst).
  intros tok [Hin|Hin]%tokens_snoc; [destruct (Hk tok Hin) as (c & -> & Hc); exists c; split; [done|by apply known_snoc]|].
  destruct (issues_tokens _ _ _ _ tok Ev Hin) as [(body & x & Q & E & Er)|[(r & x & Q & E & Er)|(r & x & Q & E & Er)]]; rewrite Er in Hin; cbn in Hin.
  - destruct (Register_tokens secret _ _ _ _ Hs E tok Hin) as (name & uris & now & issued & -> & -> & _).
    eexists. split; [reflexivity|]. apply known_client with (issued := issued). exists e. split; [apply elem_of_app; right; left|done].
  - destruct (Authorize_tokens secret _ _ _ _ _ _ Hs E tok Hin) as (client & redirect & challenge & user & t & Hauth & ->).
    destruct (code_known h e r client redirect challenge user t Hst Hf Hk Hl Q Hauth) as (Hu & Hc & Hcon).
    eexists. split; [reflexivity|]. by apply (known_code _ _ _ _ redirect).
  - destruct (Token_tokens secret _ _ _ _ Hs E tok Hin) as (client & userId & Hex & (n & au & ttl & Hn & Hau & ->)).
    destruct (exchange_known h e r client userId (wall_clock n) Hf Hk Q Hex) as (Hu & Hc & Hg); [by exists n|].
    eexists. split; [reflexivity|]. by apply known_token.
Qed.
Lemma step_logged_in h e : state_ok api (ae_before e) → event_of e → all_logged_in api h → all_logged_in api (h ++ [e]).
Proof.
  intros Hst Ev Hl v [Hin|Hin]%cookies_snoc; [destruct (Hl v Hin) as (u & -> & Hu & Hlu); exists u; repeat (split; [done|]); by apply logged_in_app|].
  destruct (issues_cookies _ _ _ _ v Ev Hin) as (form & c & Q & E & ->).
  destruct (Login_cookie api form (ae_before e) c E) as (f & row & -> & Hmay & ->).
  exists (us_id row). split; [done|]. split; [by apply (row_in_i64 (ae_before e)); [|apply Hmay]|].
  exists e, f, row. split; [apply elem_of_app; right; left|]. by repeat (split; [done|]).
Qed.

(** ** A run *)
Lemma serve_all_known h0 l s : state_ok api s → all_known api h0 → all_logged_in api h0 →
  (∀ h e rest, serve_all api base l s = (h ++ e :: rest)%list → unforged api (h0 ++ h) e) →
  ∀ h e rest, serve_all api base l s = (h ++ e :: rest)%list →
    state_ok api (ae_before e) ∧ event_of e ∧ all_known api (h0 ++ h) ∧ all_logged_in api (h0 ++ h).
Proof.
  revert h0 s. induction l as [|q l IH]; intros h0 s Hst Hk Hl Hf h e rest E; cbn in E; [by destruct h|].
  cbn in Hf. destruct (answer api base q s) as [a s1] eqn:Ea.
  set (e0 := {| ae_before := s; ae_request := q; ae_reply := a; ae_after := s1 |}) in *.
  destruct h as [|e1 h]; cbn in E; injection E as E1 E2.
  - subst e. rewrite app_nil_r. repeat (split; [done|]). done.
  - subst e1. assert (Hf0 : unforged api h0 e0) by (specialize (Hf [] e0 _ eq_refl); by rewrite app_nil_r in Hf).
    replace (h0 ++ e0 :: h)%list with ((h0 ++ [e0]) ++ h)%list by by rewrite <- app_assoc.
    apply (IH (h0 ++ [e0])%list s1) with (rest := rest); [| | | |done].
    + by apply (answer_state q s a).
    + by apply (step_tokens_known h0 e0).
    + by apply (step_logged_in h0 e0).
    + intros h' e' rest' E'. rewrite <- app_assoc. apply (Hf (e0 :: h') e' rest'). by rewrite E'.
Qed.
End facts.
End AuthFacts.

Module AuthTheorems.
Import UsersFacts SessionsFacts OAuthFacts AuthFacts.
Section theorems.
Context `{Env} `{Bcrypt} `{WallClock} `{SJ : SessionJson} `{J : Jwt} `{UrlParse} {SL : SessionJsonLaws SJ} {JL : JwtLaws J}.

(** C7 Nobody reaches the MCP endpoint but by the consent of a user who logged in.
    Take any requests, served one after another while any call of the database
    may fail, where whoever sends them presents no token and no session that was
    not handed out before.  When a call of the endpoint is served as a user, then
    this is a user of the table, who had logged in with the password; and an
    access token had been given less than an hour before to a client that was
    registered with a redirect URI, for a code of that URI, asked for by this user
    in a session and exchanged within 30 seconds with the verifier of its
    challenge, or for a chain of refresh tokens, each used within 30 days, that
    begins with such a code. *)
Theorem mcp_access_was_consented (api : AuthState) (base : string) (s : Sys AuthTables) (requests : list auth_request) :
  state_ok api s →
  (∀ h e rest, serve_all api base requests s = (h ++ e :: rest)%list → unforged api h e) →
  ∀ h e rest authorization u, serve_all api base requests s = (h ++ e :: rest)%list →
  ae_request e = QMcp authorization → ae_reply e = AMcp (Some u) →
  (∃ row, row ∈ t_users (sys_mem (ae_before e)) ∧ u = scan_user row)
  ∧ logged_in h (u_Id u)
  ∧ ∃ client t0 t, granted api h (u_Id u) client t0 ∧ at_event e t ∧ t < t0 + mcpOAuthAccessTokenTTL.
Proof.
  intros Hst Hf h e rest authorization u E Q Er.
  destruct (serve_all_known api base [] requests s Hst) with (3 := Hf) (h := h) (e := e) (rest := rest) as (Hse & Ev & Hk & Hl);
    [intros tok Hin; by apply not_elem_of_nil in Hin|intros v Hin; by apply not_elem_of_nil in Hin|done|].
  assert (Hfe := Hf h e rest E). unfold event_of in Ev. rewrite Q, Er in Ev. cbn [answer] in Ev. unfold mbind, M_bind in Ev.
  destruct (MCPUserFromBearer authorization (ae_before e)) as [x s1] eqn:B. injection Ev as -> ->.
  apply (Bearer_user (au_secret api)) in B as (tok & claims & n & userId & row & Hp & Hn & Hj & Hi & Hin & -> & <-); [|apply Hse].
  assert (Htok : tok ∈ tokens_until h).
  { apply (proj1 Hfe _ mcpAudAccess (wall_clock n) claims); [|done]. rewrite Q. cbn [presented_tokens]. rewrite Hp. by left. }
  destruct (parsed_token api h mcpAudAccess mcpOAuthAccessTokenTTL (wall_clock n) tok claims) as (id & t0 & Hid & Hi' & _ & Hg & Hlive);
    [by left|done|done|done|].
  rewrite Hi in Hi'. injection Hi' as <-. split; [by exists row|]. split.
  - eapply granted_logged_in; [exact Hg|]. destruct Hse as [_ (_ & _ & Hr & _)]. rewrite Forall_forall in Hr. specialize (Hr row Hin). cbn in Hr. cbn. lia.
  - exists (c_client_id claims), t0, (wall_clock n). repeat (split; [done|]). split; [by exists n|done].
Qed.
End theorems.
End AuthTheorems.

(** * A client that follows the protocol *)
(** A form with the given fields. *)
Definition form_with (l : list (string * string)) (k : string) : string :=
  match List.find (λ p, String.eqb p.1 k) l with Some p => p.2 | None => "" end.
Definition no_url : UrlRequest :=
  {| ur_Host := ""; ur_Forwarded := ""; ur_ForwardedProto := ""; ur_ForwardedHost := ""; ur_ForwardedPort := ""; ur_TLS := false |}.
Definition post (cookie : option string) (form : list (string * string)) : OAuthRequest :=
  {| oq_Method := MethodPost; oq_Form := Some (form_with form); oq_Cookie := cookie; oq_Authorization := ""; oq_RequestURI := "";
     oq_Url := no_url |}.

(** What a client that follows the protocol sends. *)
Definition allow_request (cookie client redirect verifier : string) : OAuthRequest :=
  post (Some cookie) [("client_id", client); ("redirect_uri", redirect); ("response_type", "code");
    ("code_challenge", Base64.EncodeToString false (Sum256 verifier)); ("code_challenge_method", "S256"); ("decision", "allow")].
Definition code_request (client redirect verifier code : string) : OAuthRequest :=
  post None [("grant_type", "authorization_code"); ("code", code); ("client_id", client); ("redirect_uri", redirect); ("code_verifier", verifier)].
Definition refresh_request (client refresh : string) : OAuthRequest :=
  post None [("grant_type", "refresh_token"); ("refresh_token", refresh); ("client_id", client)].


Module ProtocolFacts.
Import UsersFacts SessionsFacts OAuthFacts AuthFacts.
Section facts.
Context `{Env} `{Bcrypt} `{WallClock} `{SJ : SessionJson} `{J : Jwt} `{UrlParse} {SL : SessionJsonLaws SJ} {JL : JwtLaws J}.

Lemma ascii_plain s : Base64Facts.all_plain s → ascii_text s = true.
Proof. induction s as [|a s IH]; [done|]. cbn. intros [(_ & _ & ->) Hs]. by rewrite IH. Qed.
Lemma to_utf8_base64 pad s : to_utf8 (Base64.EncodeToString pad s) = Base64.EncodeToString pad s.
Proof. apply to_utf8_ascii, ascii_plain, Base64Facts.encode_plain. Qed.

Lemma find_row s row : users_ok (sys_mem s) → row ∈ t_users (sys_mem s) → user_by_id (us_id row) (sys_mem s) = inr row.
Proof.
  intros Hu Hin. unfold user_by_id. destruct (List.find (has_id (us_id row)) _) as [r|] eqn:F.
  - apply find_user in F as [Hr Hid%Z.eqb_eq]. f_equal. by apply (ids_unique (sys_mem s)).
  - apply List.find_none with (x := row) in F; [|by apply list_elem_of_In]. unfold has_id in F. by rewrite Z.eqb_refl in F.
Qed.
Lemma run_select {A} (q : AuthTables → db_error + A) (s : Sys AuthTables) : env_fault (sys_ticks s) = None → select_ q s = (q (sys_mem s), tick s).
Proof. intros Hf. unfold select_, sql. rewrite Hf. by destruct s. Qed.

Section protocol.
Context (Hfault : ∀ n, env_fault n = None).

Lemma run_secret secret s : has_secret secret s → mcpAuthSecret s = (inr secret, tick s).
Proof. intros Hs. unfold mcpAuthSecret, GetSetting. rewrite run_select by done. unfold has_secret in Hs. by rewrite Hs. Qed.
Lemma run_sign secret c s : has_secret secret s → mcpSign c s = (inr (jwt_Sign secret c), tick s).
Proof. intros Hs. unfold mcpSign, if_ok, mbind, M_bind. by rewrite (run_secret secret). Qed.
Lemma run_verify secret audience tok s : has_secret secret s →
  mcpVerify audience tok s = (jwt_Parse secret audience (wall_clock (sys_ticks s + 1)) tok, tick (tick s)).
Proof.
  intros Hs. unfold mcpVerify, mbind, M_bind. rewrite (run_secret secret) by done. unfold timeNow, ask. cbn. by rewrite Nat.add_1_r.
Qed.
Lemma Parse_client secret now name redirect d : to_utf8 redirect = redirect →
  ∃ c, jwt_Parse secret mcpAudClient now (jwt_Sign secret (mcpClientClaims name [redirect] d)) = Some c ∧ c_redirect_uris c = [redirect].
Proof. intros Hr. rewrite jwt_Parse_Sign. eexists. split; [reflexivity|]. cbn [claims_utf8 c_redirect_uris mcpClientClaims]. cbn [fmap list_fmap]. by rewrite Hr. Qed.
Lemma Parse_code secret now client redirect challenge u t :
  to_utf8 client = client → to_utf8 redirect = redirect → to_utf8 challenge = challenge → now < seconds (NewNumericDate t) →
  ∃ c, jwt_Parse secret mcpAudCode now (jwt_Sign secret (mcpCodeClaims client redirect challenge (Itoa u) (NewNumericDate t))) = Some c
    ∧ c_client_id c = client ∧ c_redirect_uri c = redirect ∧ c_code_challenge c = challenge ∧ c_Subject c = Itoa u.
Proof.
  intros Hc Hr Hch Hl%Z.ltb_lt. rewrite jwt_Parse_Sign. unfold live. cbn [c_ExpiresAt mcpCodeClaims]. rewrite Hl.
  eexists. split; [reflexivity|]. cbn [claims_utf8 c_client_id c_redirect_uri c_code_challenge c_Subject mcpCodeClaims].
  repeat (split; [done|]). apply to_utf8_ascii, ascii_text_Itoa.
Qed.
Lemma Parse_token secret now client u audience t : audience ∈ [mcpAudAccess; mcpAudRefresh] →
  to_utf8 client = client → now < seconds (NewNumericDate t) →
  ∃ c, jwt_Parse secret audience now (jwt_Sign secret (mcpTokenClaims client (Itoa u) audience (NewNumericDate t))) = Some c
    ∧ c_client_id c = client ∧ c_Subject c = Itoa u.
Proof.
  intros Ha Hc Hl%Z.ltb_lt. rewrite jwt_Parse_Sign. unfold live. cbn [c_ExpiresAt mcpTokenClaims]. rewrite Hl.
  replace (for_audience audience _) with true by (apply elem_of_cons in Ha as [-> | ->%list_elem_of_singleton]; by vm_compute).
  eexists. split; [reflexivity|]. cbn [claims_utf8 c_client_id c_Subject mcpTokenClaims]. split; [done|]. apply to_utf8_ascii, ascii_text_Itoa.
Qed.

Lemma mcpVerifyPKCE_verifier verifier : verifier ≠ "" → mcpVerifyPKCE verifier (Base64.EncodeToString false (Sum256 verifier)) = true.
Proof.
  intros Hv. unfold mcpVerifyPKCE. destruct (String.eqb_spec verifier "") as [|_]; [done|]. cbn [orb].
  destruct (String.eqb_spec (Base64.EncodeToString false (Sum256 verifier)) "") as [E|_]; [|apply String.eqb_refl].
  apply Base64Facts.encode_empty in E. assert (L := Base64Facts.Sum256_length verifier). by rewrite E in L.
Qed.

(** Each request of the protocol; no call fails. *)
Context (secret : string) (s : Sys AuthTables) (Hs : has_secret secret s).

Lemma tick_secret s' : has_secret secret s' → has_secret secret (tick s').
Proof. done. Qed.
#[local] Hint Resolve tick_secret : core.

Lemma run_register name redirect : url_Parse redirect ≠ None →
  fst (MCPOAuthRegister (Some {| rf_ClientName := name; rf_RedirectURIs := [redirect] |}) s)
  = Registered (jwt_Sign secret (mcpClientClaims (stake mcpOAuthMaxClientNameLen name) [redirect] (NewNumericDate (wall_clock (sys_ticks s)))))
      (Unix (wall_clock (sys_ticks s + 2))) (stake mcpOAuthMaxClientNameLen name) [redirect].
Proof.
  intros Hr. unfold MCPOAuthRegister. cbn [rf_RedirectURIs rf_ClientName]. rewrite bool_decide_false by done. cbn [List.length Nat.ltb Nat.leb mcpOAuthMaxRedirectURIs existsb].
  rewrite bool_decide_false by done. cbn [orb]. unfold mbind, M_bind, timeNow at 1, ask at 1. rewrite (run_sign secret) by auto.
  unfold timeNow, ask. cbn. do 3 f_equal. lia.
Qed.

Lemma run_authorize (api : AuthState) base row name redirect d verifier :
  au_anonymousRole api = "" → au_secret api = secret → users_ok (sys_mem s) → row ∈ t_users (sys_mem s) →
  url_Parse redirect ≠ None → to_utf8 redirect = redirect →
  let client := jwt_Sign secret (mcpClientClaims name [redirect] d) in
  fst (MCPOAuthAuthorize api base (allow_request (session_value secret (us_id row)) client redirect verifier) s)
  = Ret (Redirect redirect [("code", jwt_Sign secret (mcpCodeClaims client redirect (Base64.EncodeToString false (Sum256 verifier)) (Itoa (us_id row))
      (NewNumericDate (wall_clock (sys_ticks s + 3) + mcpOAuthCodeTTL))))]).
Proof.
  intros Ha Hsec Hu Hin Hp Hr client. unfold MCPOAuthAuthorize. cbn [oq_Form allow_request post].
  set (form := form_with _). unfold with_claims, mbind at 1, M_bind at 1. rewrite (run_verify secret) by done.
  destruct (Parse_client secret (wall_clock (sys_ticks s + 1)) name redirect d Hr) as (c & Hc & Hu').
  change (az_ClientId (parseAuthorizeRequest form)) with client. subst client. rewrite Hc, Hu'.
  change (az_RedirectURI (parseAuthorizeRequest form)) with redirect. cbn [mcpRedirectURIAllowed existsb]. rewrite String.eqb_refl. cbn [orb negb].
  change (az_ResponseType (parseAuthorizeRequest form)) with "code". cbn [negb String.eqb].
  change (az_CodeChallengeMethod (parseAuthorizeRequest form)) with "S256".
  change (az_CodeChallenge (parseAuthorizeRequest form)) with (Base64.EncodeToString false (Sum256 verifier)).
  destruct (String.eqb_spec (Base64.EncodeToString false (Sum256 verifier)) "") as [E|_].
  { apply Base64Facts.encode_empty in E. assert (L := Base64Facts.Sum256_length verifier). by rewrite E in L. }
  cbn [orb negb String.eqb Ascii.eqb Bool.eqb]. unfold mbind at 1, M_bind at 1, GetUser at 1. rewrite Ha, Hsec. cbn [String.eqb negb oq_Cookie allow_request post].
  change (Some ?v ≫= ?f) with (f v). cbv beta. unfold session_user at 1. rewrite session_data_value. cbn [mbind option_bind].
  rewrite session_Unmarshal_Marshal by (apply (row_in_i64 api s); [split; [by rewrite Hsec|done]|done]).
  unfold mbind at 1, M_bind at 1, Users.GetUser. rewrite run_select by done. cbn [tick sys_mem]. rewrite (find_row s) by done.
  cbn [oq_Method allow_request post]. change (String.eqb MethodPost MethodGet) with false. change (String.eqb MethodPost MethodPost) with true.
  cbv beta iota. unfold mcpAuthorizeIssueCode. change (form "decision") with "allow". cbn [String.eqb Ascii.eqb Bool.eqb negb].
  unfold mret at 1, M_ret at 1. cbv beta iota. unfold mbind, M_bind, timeNow, ask. rewrite (run_sign secret) by done. unfold redirect_code.
  change (az_RedirectURI (parseAuthorizeRequest form)) with redirect. destruct (url_Parse redirect); [|done].
  replace (sys_ticks s + 3)%nat with (sys_ticks (tick (tick (tick s)))) by (cbn; lia). reflexivity.
Qed.

(** The pair that is given for a subject. *)
Lemma run_pair (userId : Z) client s' : has_secret secret s' → in_i64 userId →
  fst (token_for (Itoa userId) client s')
  = Tokens (jwt_Sign secret (mcpTokenClaims client (Itoa userId) mcpAudAccess (NewNumericDate (wall_clock (sys_ticks s') + mcpOAuthAccessTokenTTL))))
      "Bearer" 3600
      (jwt_Sign secret (mcpTokenClaims client (Itoa userId) mcpAudRefresh (NewNumericDate (wall_clock (sys_ticks s' + 2) + mcpOAuthRefreshTokenTTL))))
      mcpOAuthScope.
Proof.
  intros Hs' Hi. unfold token_for. rewrite ParseInt_Itoa by done. unfold mcpIssueTokenPair, mcpIssueToken, mbind, M_bind, timeNow, ask.
  rewrite !(run_sign secret) by done. replace (sys_ticks s' + 2)%nat with (sys_ticks (tick (tick s'))) by (cbn; lia). reflexivity.
Qed.

Lemma run_code client redirect verifier userId t : in_i64 userId → to_utf8 client = client → to_utf8 redirect = redirect → verifier ≠ "" →
  wall_clock (sys_ticks s + 1) < seconds (NewNumericDate t) →
  let code := jwt_Sign secret (mcpCodeClaims client redirect (Base64.EncodeToString false (Sum256 verifier)) (Itoa userId) (NewNumericDate t)) in
  fst (MCPOAuthToken (code_request client redirect verifier code) s) = fst (token_for (Itoa userId) client (tick (tick s))).
Proof.
  intros Hi Hc Hr Hv Hl code. unfold MCPOAuthToken. cbn [oq_Form code_request post]. set (form := form_with _).
  change (form "grant_type") with "authorization_code". cbn [String.eqb Ascii.eqb Bool.eqb]. unfold mcpExchangeCode, with_claims, mbind, M_bind.
  change (form "code") with code. subst code. rewrite (run_verify secret) by done.
  destruct (Parse_code secret (wall_clock (sys_ticks s + 1)) client redirect (Base64.EncodeToString false (Sum256 verifier)) userId t)
    as (c & -> & -> & -> & -> & ->); [done|done|apply to_utf8_base64|done|].
  change (form "client_id") with client. change (form "redirect_uri") with redirect. change (form "code_verifier") with verifier.
  rewrite !String.eqb_refl, mcpVerifyPKCE_verifier by done. done.
Qed.

Lemma run_refresh client userId t : in_i64 userId → to_utf8 client = client → wall_clock (sys_ticks s + 1) < seconds (NewNumericDate t) →
  let refresh := jwt_Sign secret (mcpTokenClaims client (Itoa userId) mcpAudRefresh (NewNumericDate t)) in
  fst (MCPOAuthToken (refresh_request client refresh) s) = fst (token_for (Itoa userId) client (tick (tick s))).
Proof.
  intros Hi Hc Hl refresh. unfold MCPOAuthToken. cbn [oq_Form refresh_request post]. set (form := form_with _).
  change (form "grant_type") with "refresh_token". cbn [String.eqb Ascii.eqb Bool.eqb]. unfold mcpExchangeRefresh, with_claims, mbind, M_bind.
  change (form "refresh_token") with refresh. subst refresh. rewrite (run_verify secret) by done.
  destruct (Parse_token secret (wall_clock (sys_ticks s + 1)) client userId mcpAudRefresh t) as (c & -> & -> & ->); [by right; left|done|done|].
  change (form "client_id") with client. rewrite String.eqb_refl, andb_false_r. done.
Qed.

Lemma run_bearer client row t : users_ok (sys_mem s) → row ∈ t_users (sys_mem s) → in_i64 (us_id row) → to_utf8 client = client →
  wall_clock (sys_ticks s + 1) < seconds (NewNumericDate t) →
  let access := jwt_Sign secret (mcpTokenClaims client (Itoa (us_id row)) mcpAudAccess (NewNumericDate t)) in
  fst (MCPUserFromBearer (mcpBearerPrefix ++ access) s) = Some (scan_user row).
Proof.
  intros Hu Hin Hi Hc Hl access. unfold MCPUserFromBearer. rewrite UtilsFacts.strip_prefix_app. subst access. unfold with_claims, mbind, M_bind.
  rewrite (run_verify secret) by done.
  destruct (Parse_token secret (wall_clock (sys_ticks s + 1)) client (us_id row) mcpAudAccess t) as (c & -> & _ & ->); [by left|done|done|].
  rewrite ParseInt_Itoa by done. unfold Users.GetUser. rewrite run_select by done. cbn [tick sys_mem]. by rewrite (find_row s).
Qed.
End protocol.
End facts.
End ProtocolFacts.

Module ProtocolTheorems.
Import UsersFacts SessionsFacts OAuthFacts AuthFacts ProtocolFacts.
Section theorems.
Context `{Env} `{Bcrypt} `{WallClock} `{SJ : SessionJson} `{J : Jwt} `{UrlParse} {SL : SessionJsonLaws SJ} {JL : JwtLaws J}.

(** C12 A client that follows the protocol gets in.  When no call fails: a
    registration is answered with a client id; when a user in a session then
    allows the client, the answer is a redirect with a code; the code, sent with
    the verifier before it expires, is answered with a pair of tokens; and with
    the access token, before it expires, the endpoint serves the user who allowed
    it, while the refresh token, before it expires, is answered with another
    pair.  The requests may come at any times. *)
Theorem oauth_flow_works (api : AuthState) (base : string) (s1 s2 s3 s4 s5 : Sys AuthTables) (row : UserRow) name redirect verifier :
  (∀ n, env_fault n = None) → state_ok api s1 → au_anonymousRole api = "" →
  sys_mem s2 = sys_mem s1 → sys_mem s3 = sys_mem s1 → sys_mem s4 = sys_mem s1 → sys_mem s5 = sys_mem s1 →
  row ∈ t_users (sys_mem s1) → url_Parse redirect ≠ None → to_utf8 redirect = redirect → verifier ≠ "" →
  ∃ client issued, fst (MCPOAuthRegister (Some {| rf_ClientName := name; rf_RedirectURIs := [redirect] |}) s1)
                   = Registered client issued (stake mcpOAuthMaxClientNameLen name) [redirect]
  ∧ ∃ code, fst (MCPOAuthAuthorize api base (allow_request (session_value (au_secret api) (us_id row)) client redirect verifier) s2)
               = Ret (Redirect redirect [("code", code)])
  ∧ (wall_clock (sys_ticks s3 + 1) < seconds (NewNumericDate (wall_clock (sys_ticks s2 + 3) + mcpOAuthCodeTTL)) →
     ∃ access refresh, fst (MCPOAuthToken (code_request client redirect verifier code) s3) = Tokens access "Bearer" 3600 refresh mcpOAuthScope
     ∧ (wall_clock (sys_ticks s4 + 1) < seconds (NewNumericDate (wall_clock (sys_ticks s3 + 2) + mcpOAuthAccessTokenTTL)) →
        fst (MCPUserFromBearer (mcpBearerPrefix ++ access) s4) = Some (scan_user row))
     ∧ (wall_clock (sys_ticks s5 + 1) < seconds (NewNumericDate (wall_clock (sys_ticks s3 + 4) + mcpOAuthRefreshTokenTTL)) →
        ∃ access' refresh', fst (MCPOAuthToken (refresh_request client refresh) s5) = Tokens access' "Bearer" 3600 refresh' mcpOAuthScope)).
Proof.
  intros Hf [Hs Hu] Ha E2 E3 E4 E5 Hin Hp Hr Hv.
  assert (Hsec : ∀ s, sys_mem s = sys_mem s1 → has_secret (au_secret api) s) by (intros s E; unfold has_secret in *; by rewrite E).
  assert (Hi : in_i64 (us_id row)) by (apply (row_in_i64 api s1); [by split|done]).
  eexists _, _. split; [by apply (run_register Hf (au_secret api))|].
  set (client := jwt_Sign _ _). assert (Hc : to_utf8 client = client) by apply jwt_Sign_ascii.
  eexists. split; [by apply (run_authorize Hf (au_secret api)); rewrite ?E2; auto|]. intros Hl.
  eexists _, _. split; [rewrite (run_code Hf (au_secret api)) by auto; apply (run_pair Hf (au_secret api)); [exact (Hsec (tick (tick s3)) E3)|done]|].
  split.
  - intros Hl4. apply (run_bearer Hf (au_secret api)); rewrite ?E4; auto.
    by replace (sys_ticks (tick (tick s3))) with (sys_ticks s3 + 2)%nat by (cbn; lia).
  - intros Hl5. eexists _, _. rewrite (run_refresh Hf (au_secret api)); [apply (run_pair Hf (au_secret api)); [exact (Hsec (tick (tick s5)) E5)|done]|auto..].
    by replace (sys_ticks (tick (tick s3)) + 2)%nat with (sys_ticks s3 + 4)%nat by (cbn; lia).
Qed.
End theorems.
End ProtocolTheorems.

(** * Runs

    A token library that keeps the laws: the fields in base64, the secret first. *)
Module AuthRuns.
Import UsersFacts SessionsFacts OAuthFacts AuthFacts AuthTheorems ProtocolFacts ProtocolTheorems.

Fixpoint pack (l : list string) : string :=
  match l with [] => "" | s :: l => Base64.EncodeToString true s ++ String "." (pack l) end.
Definition unpack (t : string) : option (list string) := mapM Base64.DecodeString (removelast (Split "." t)).
Lemma unpack_pack l : unpack (pack l) = Some l.
Proof.
  unfold unpack. induction l as [|s l IH]; [done|]. cbn [pack]. rewrite DbFacts.Split_cons by apply Base64Facts.encode_no_dot.
  assert (Hne : Split "." (pack l) ≠ []) by (destruct (pack l) as [|a t]; cbn; [done|]; destruct (same a "."); [done|]; by destruct (Split "." t)).
  cbn [removelast]. destruct (Split "." (pack l)) as [|x xs] eqn:E; [done|]. cbn [mapM]. rewrite Base64Facts.decode_encode. cbn [mbind option_bind]. by rewrite IH.
Qed.
Lemma pack_ascii l : ascii_text (pack l) = true.
Proof. induction l as [|s l IH]; [done|]. cbn [pack]. rewrite ascii_text_app, ascii_plain by apply Base64Facts.encode_plain. cbn. by rewrite IH. Qed.

Fixpoint bits (p : positive) : string :=
  match p with xH => "" | xO p => String "0" (bits p) | xI p => String "1" (bits p) end.
Fixpoint of_bits (s : string) : positive :=
  match s with "" => xH | String a s => if Ascii.eqb a "0" then xO (of_bits s) else xI (of_bits s) end.
Lemma of_bits_bits p : of_bits (bits p) = p.
Proof. induction p as [p IH|p IH|]; cbn; by rewrite ?IH. Qed.
Definition put {A} `{Countable A} (a : A) : string := bits (encode a).
Definition take_ {A} `{Countable A} (s : string) : option A := decode (of_bits s).
Lemma take_put {A} `{Countable A} (a : A) : take_ (put a) = Some a.
Proof. unfold take_, put. by rewrite of_bits_bits, decode_encode. Qed.

Definition run_sign_ (secret : string) (c : Claims) : string :=
  pack [secret; c_client_name c; c_client_id c; c_redirect_uri c; c_code_challenge c; c_Subject c;
        pack (c_redirect_uris c); pack (c_Audience c); put (c_ExpiresAt c); put (c_IssuedAt c)].
Definition run_claims (secret tok : string) : option Claims :=
  match unpack tok with
  | Some [sec; name; client; redirect; challenge; subject; uris; auds; exp; iat] =>
      match unpack uris, unpack auds, take_ exp, take_ iat with
      | Some uris, Some auds, Some exp, Some iat =>
          if String.eqb sec secret then
            Some {| c_client_name := name; c_redirect_uris := uris; c_client_id := client; c_redirect_uri := redirect;
                    c_code_challenge := challenge; c_Subject := subject; c_Audience := auds; c_ExpiresAt := exp; c_IssuedAt := iat |}
          else None
      | _, _, _, _ => None
      end
  | _ => None
  end.
#[local] Instance run_jwt : Jwt := {
  jwt_Sign := run_sign_;
  jwt_Parse secret audience now tok :=
    c ← run_claims secret tok;
    if for_audience audience (claims_utf8 c) && live c now then Some (claims_utf8 c) else None }.
Lemma run_claims_sign secret c : run_claims secret (run_sign_ secret c) = Some c.
Proof.
  unfold run_claims, run_sign_. rewrite !unpack_pack, !take_put, String.eqb_refl. by destruct c.
Qed.
#[local] Instance run_jwt_laws : JwtLaws run_jwt.
Proof.
  split.
  - intros secret audience now c. cbn [jwt_Parse jwt_Sign run_jwt]. rewrite run_claims_sign. done.
  - intros secret c. apply to_utf8_ascii, pack_ascii.
Qed.

Fixpoint but_last (s : string) : string := match s with "" => "" | String a "" => "" | String a s => String a (but_last s) end.
Lemma but_last_app s a : but_last (s ++ String a "") = s.
Proof. induction s as [|b s IH]; [done|]. rewrite FilepathFacts.append_cons. cbn [but_last]. rewrite IH. by destruct s. Qed.
Definition session_head : string := "{" ++ quote_char ++ "id" ++ quote_char ++ ":".
#[local] Instance run_json : SessionJson := {
  session_Unmarshal t := r ← FilepathFacts.strip_prefix session_head t; ParseInt (but_last r) }.
#[local] Instance run_json_laws : SessionJsonLaws run_json.
Proof.
  split. intros z Hz. cbn [session_Unmarshal run_json].
  replace (session_Marshal z) with (session_head ++ (Itoa z ++ String "}" ""))%string by done.
  rewrite UtilsFacts.strip_prefix_app. cbn [mbind option_bind]. rewrite but_last_app. by apply ParseInt_Itoa.
Qed.

#[local] Instance run_bcrypt : Bcrypt := {
  GenerateFromPassword n p := Some ("hash of " ++ p);
  CompareHashAndPassword h p := String.eqb h ("hash of " ++ p) }.
#[local] Instance run_clock : WallClock := { wall_clock n := seconds (1700000000 + Z.of_nat n) }.
#[local] Instance run_url : UrlParse := { url_Parse u := if String.eqb u "%" then None else Some ("https", u) }.
#[local] Instance run_env : Env := {| env_clock := λ _, 0; env_nano := λ _, "0123456789abcdef0123456789abcdef"; env_fault := λ _, None |}.

Definition no_tables : Tables :=
  {| t_alert := []; t_alerting_rule := []; t_alert_notification := []; t_incident := []; t_incident_notification := [];
     t_check_configs := []; t_application_deployment := [] |}.
Definition empty_tables : AuthTables := {| t_users := []; t_users_seq := 0; t_settings := ∅; t_mcp_session := ∅ |}.

(** The start of the server on an empty database, and a user who is added. *)
Definition started : (db_error + AuthState) * Sys AuthTables :=
  AuthInit (inr Rbac.Roles) "" "secret" (Build_Sys empty_tables no_tables 0).
Definition run_api : AuthState := {| au_secret := "0123456789abcdef0123456789abcdef"; au_anonymousRole := "" |}.
Example started_api : fst started = inr run_api.
Proof. vm_compute. reflexivity. Qed.
Definition run_start : Sys AuthTables := Eval vm_compute in snd (AddUser "ann@example.com" "pw" "Ann" "Editor" (snd started)).
Definition ann : UserRow := {| us_id := 2; us_email := "ann@example.com"; us_name := "Ann"; us_password := "hash of pw"; us_roles := ["Editor"] |}.
Lemma run_start_ok : state_ok run_api run_start.
Proof.
  split; [reflexivity|]. split; [by apply (bool_decide_unpack _)|]. split; [by apply (bool_decide_unpack _)|]. split; [|by vm_compute].
  repeat constructor; cbn; lia.
Qed.

(** The requests of a client, made of what the earlier ones were answered. *)
Definition nth_reply (l : list auth_request) (n : nat) : auth_reply :=
  match nth_error (serve_all run_api "/" l run_start) n with Some e => ae_reply e | None => AMcp None end.
Definition first_token (a : auth_reply) : string := default "" (head (issued_tokens a)).
Definition login : auth_request := QLogin (Some {| lf_Email := "ann@example.com"; lf_Password := "pw"; lf_Action := "" |}).
Definition registration : auth_request := QRegister (Some {| rf_ClientName := "cli"; rf_RedirectURIs := ["http://127.0.0.1/cb"] |}).
Definition cookie : string := Eval vm_compute in default "" (head (issued_cookies (nth_reply [login] 0))).
Definition client : string := Eval vm_compute in first_token (nth_reply [login; registration] 1).
Definition allow : auth_request := QAuthorize (allow_request cookie client "http://127.0.0.1/cb" "a verifier").
Definition code : string := Eval vm_compute in first_token (nth_reply [login; registration; allow] 2).
Definition exchange : auth_request := QToken (code_request client "http://127.0.0.1/cb" "a verifier" code).
Definition access : string := Eval vm_compute in first_token (nth_reply [login; registration; allow; exchange] 3).
Definition call_mcp : auth_request := QMcp (mcpBearerPrefix ++ access).
Definition run_requests : list auth_request := [login; registration; allow; exchange; call_mcp].

Example run_is_served : nth_reply run_requests 4 = AMcp (Some (scan_user ann)).
Proof. vm_compute. reflexivity. Qed.

(** A run in which what is presented was handed out, checked by computing. *)
Definition clean (h : list auth_event) (e : auth_event) : bool :=
  forallb (λ tok, String.eqb tok "" || existsb (String.eqb tok) (tokens_until h)) (presented_tokens (ae_request e))
  && match presented_cookie (ae_request e) with Some v => existsb (String.eqb v) (cookies_until h) | None => true end.
Fixpoint clean_run (h l : list auth_event) : bool :=
  match l with [] => true | e :: l => clean h e && clean_run (h ++ [e]) l end.
Lemma existsb_elem x l : existsb (String.eqb x) l = true → x ∈ l.
Proof. intros (y & Hy & ->%String.eqb_eq)%existsb_exists. by apply list_elem_of_In. Qed.
Lemma clean_unforged h e : clean h e = true → unforged run_api h e.
Proof.
  intros [Ht Hc]%andb_prop. split.
  - intros tok audience now c Hin Hp. rewrite forallb_forall in Ht. apply list_elem_of_In in Hin. specialize (Ht tok Hin).
    apply orb_prop in Ht as [->%String.eqb_eq|Ht]; [done|by apply existsb_elem].
  - intros v id Hv Hs. rewrite Hv in Hc. exists v. split; [by apply existsb_elem|done].
Qed.
Lemma clean_run_unforged h0 l : clean_run h0 l = true → ∀ h e rest, l = (h ++ e :: rest)%list → unforged run_api (h0 ++ h) e.
Proof.
  revert h0. induction l as [|e0 l IH]; intros h0 Hc h e rest E; [by destruct h|]. cbn in Hc. apply andb_prop in Hc as [H1' H2'].
  destruct h as [|e1 h]; injection E as <- ->.
  - rewrite app_nil_r. by apply clean_unforged.
  - replace (h0 ++ e0 :: h)%list with ((h0 ++ [e0]) ++ h)%list by by rewrite <- app_assoc. by apply (IH _ H2' h e rest).
Qed.

Lemma mcp_access_was_consented_witness :
  ∃ h e, serve_all run_api "/" run_requests run_start = (h ++ [e])%list ∧ ae_reply e = AMcp (Some (scan_user ann))
  ∧ logged_in h 2
  ∧ ∃ client t0 t, granted run_api h 2 client t0 ∧ at_event e t ∧ t < t0 + mcpOAuthAccessTokenTTL.
Proof.
  set (l := serve_all run_api "/" run_requests run_start).
  assert (E : ∃ h e, l = (h ++ [e])%list ∧ ae_request e = call_mcp ∧ ae_reply e = AMcp (Some (scan_user ann))).
  { exists (take 4 l), (default {| ae_before := run_start; ae_request := QRevoke; ae_reply := AMcp None; ae_after := run_start |} (l !! 4%nat)).
    subst l. split; [vm_compute; reflexivity|]. split; vm_compute; reflexivity. }
  destruct E as (h & e & E & Q & Er). exists h, e. split; [exact E|]. split; [exact Er|].
  assert (Hf : ∀ h e rest, l = (h ++ e :: rest)%list → unforged run_api h e).
  { intros h' e' rest' E'. refine (clean_run_unforged [] l _ h' e' rest' E'). subst l. vm_compute. reflexivity. }
  exact (proj2 (mcp_access_was_consented run_api "/" run_start run_requests run_start_ok Hf h e [] _ _ E Q Er)).
Defined.

Lemma oauth_flow_works_witness :
  ∃ client issued, fst (MCPOAuthRegister (Some {| rf_ClientName := "cli"; rf_RedirectURIs := ["http://127.0.0.1/cb"] |}) run_start)
                   = Registered client issued "cli" ["http://127.0.0.1/cb"]
  ∧ ∃ code, fst (MCPOAuthAuthorize run_api "/" (allow_request cookie client "http://127.0.0.1/cb" "a verifier") run_start)
            = Ret (Redirect "http://127.0.0.1/cb" [("code", code)])
  ∧ ∃ access refresh, fst (MCPOAuthToken (code_request client "http://127.0.0.1/cb" "a verifier" code) run_start)
                      = Tokens access "Bearer" 3600 refresh mcpOAuthScope
  ∧ fst (MCPUserFromBearer (mcpBearerPrefix ++ access) run_start) = Some (scan_user ann).
Proof.
  destruct (oauth_flow_works run_api "/" run_start run_start run_start run_start run_start ann "cli" "http://127.0.0.1/cb" "a verifier")
    as (client & issued & H1 & code & H2 & H3); [done|exact run_start_ok|done|done|done|done|done|by right; left|done|by vm_compute|done|].
  exists client, issued. split; [exact H1|]. exists code. split; [exact H2|].
  destruct H3 as (access & refresh & H3 & H4 & _); [by vm_compute|]. exists access, refresh. split; [exact H3|]. apply H4. by vm_compute.
Defined.

(** ** What is not taken back *)

(** A session outlives the password it was begun with, and a code can be
    exchanged again while it lives. *)
Definition change_password : auth_request := QChangePassword 2 "pw" "new".
Example session_survives_password_change :
  nth_reply [login; registration; change_password; allow] 2 = ADb (inr tt)
  ∧ ∃ t, nth_reply [login; registration; change_password; allow] 3 = AOAuth (Ret (Redirect "http://127.0.0.1/cb" [("code", t)])).
Proof. split; [by vm_compute|]. eexists. vm_compute. reflexivity. Qed.
Example code_is_used_twice :
  ∃ a r, nth_reply [login; registration; allow; exchange; exchange] 4 = AOAuth (Ret (Tokens a "Bearer" 3600 r "mcp")).
Proof. eexists _, _. vm_compute. reflexivity. Qed.
(** A token that was revoked is still accepted. *)
Example revoked_is_accepted : nth_reply [login; registration; allow; exchange; QRevoke; call_mcp] 5 = AMcp (Some (scan_user ann)).
Proof. vm_compute. reflexivity. Qed.
(** Under anonymous access the flow gives tokens, of user 0, whom no call is served as. *)
Definition open_api : AuthState := {| au_secret := au_secret run_api; au_anonymousRole := "Viewer" |}.
Definition open_reply (l : list auth_request) (n : nat) : auth_reply :=
  match nth_error (serve_all open_api "/" l run_start) n with Some e => ae_reply e | None => AMcp None end.
Definition open_code : string := Eval vm_compute in first_token (open_reply [login; registration; allow] 2).
Definition open_exchange : auth_request := QToken (code_request client "http://127.0.0.1/cb" "a verifier" open_code).
Definition open_access : string := Eval vm_compute in first_token (open_reply [login; registration; allow; open_exchange] 3).
Example anonymous_is_refused :
  issued_tokens (open_reply [login; registration; allow; open_exchange] 3) ≠ []
  ∧ open_reply [login; registration; allow; open_exchange; QMcp (mcpBearerPrefix ++ open_access)] 4 = AMcp None.
Proof. split; [by vm_compute|]. vm_compute. reflexivity. Qed.
(** A user who is deleted is not. *)
Example deleted_is_refused : nth_reply [login; registration; allow; exchange; QDeleteUser 2; call_mcp] 5 = AMcp None.
Proof. vm_compute. reflexivity. Qed.
End AuthRuns.
