(* ===== verification/Mcp.v ===== *)
(** The tools of the MCP endpoint: api/mcp.go.

    A tool is a program of the calls of Api, which ends with its result.  The
    request is what the library's accessors answer for it; the user and the id of
    the session are what the endpoint found them to be (OAuth, Sessions).  What a
    world holds of an application or a node beyond what Api has of it is the
    answer of a call.  [sort.Slice] leaves the order of equal elements open: it is a
    stable sort here.  Times of results are written in RFC 3339, which is not
    modelled. *)

From S2P Require Logs PromQL RecordingRules.
From S2P Require Import Checks IncidentStore Rbac.
From S2P Require Export AppView.
From S2P Require Export Api.
From Stdlib Require Import Ascii String ZArith Lia.
Import FilepathFacts.
Local Open Scope string_scope.
Local Open Scope Z_scope.

(** * Requests and results *)

(** What [req.GetString] and the other accessors of the library answer. *)
Record ToolRequest := {
  tr_GetString : string → string → string;
  tr_RequireString : string → string + string;
  tr_GetFloat : string → Z → F64.f64;
  tr_RequireStringSlice : string → string + list string;
  tr_GetStringSlice : string → list string }.

(** [int(req.GetFloat(...))]: the conversion does not depend on the format. *)
Definition get_int (req : ToolRequest) (key : string) (def : Z) : Z := F32.to_i64 (tr_GetFloat req key def).
Definition limit_of (req : ToolRequest) (def max : Z) : Z :=
  let limit := get_int req "limit" def in if (limit <=? 0) || (max <? limit) then def else limit.

Record mcpInspectionRef := { ir_Inspection : string; ir_Status : string }.
Record mcpAppInfo := {
  ai_Id : string; ai_Namespace : string; ai_Category : string; ai_Types : list string; ai_Status : string; ai_Issues : list mcpInspectionRef }.
Record mcpIssue := { is_Id : string; is_Title : string; is_Status : string; is_Message : string }.
Record MCPSeriesValue := {
  sv_Name : string; sv_Labels : option (gmap string string);
  sv_Last : option f32; sv_Min : option f32; sv_Max : option f32; sv_Avg : option f32; sv_Sparkline : list (option f32) }.
Record mcpChart := { mch_Title : string; mch_Series : list MCPSeriesValue }.
Record mcpLogPattern := { mlp_Hash : string; mlp_Severity : string; mlp_Sample : string; mlp_Messages : Z }.
Record mcpReportStatus := {
  mrs_Name : string; mrs_Status : string; mrs_Issues : list mcpIssue; mrs_Charts : list mcpChart; mrs_LogPatterns : list mcpLogPattern }.
Record mcpLatency := { la_Avg : option f32; la_P50 : option f32; la_P95 : option f32; la_P99 : option f32 }.
Record mcpDependency := {
  de_Id : string; de_Status : string; de_Connectivity : string; de_ConnectivityMessage : string; de_Protocols : list string;
  de_RttSeconds : option f32; de_Rps : option f32; de_ErrorsPerSec : option f32; de_LatencySeconds : option mcpLatency }.
Record mcpClient := { mcl_Id : string; mcl_Status : string }.
Record mcpAppStatus := {
  mas_Id : string; mas_Namespace : string; mas_Vitals : list MCPSeriesValue; mas_Status : string;
  mas_Reports : list mcpReportStatus; mas_Dependencies : list mcpDependency; mas_Clients : list mcpClient }.
Record mcpQuerySeries := { qs_Labels : gmap string string; qs_Values : list (option f32) }.
Record mcpQueryMetricsResult := {
  qm_Query : string; qm_From : Z; qm_To : Z; qm_StepSeconds : Z; qm_SeriesTotal : Z; qm_SeriesReturn : Z; qm_Truncated : bool;
  qm_Series : list mcpQuerySeries }.
Record mcpListMetricNamesResult := { mn_Match : string; mn_Total : Z; mn_Returned : Z; mn_Truncated : bool; mn_Names : list string }.
Record mcpLogsResult := {
  lr_AppId : string; lr_Source : string; lr_From : Z; lr_To : Z; lr_Limit : Z; lr_Returned : Z; lr_Entries : list LogEntryView }.

(** What is written as JSON. *)
Inductive tool_payload :=
| TProjects (m : gmap string string)
| TSelected (projectId name : string)
| TApplications (l : list mcpAppInfo)
| TAppStatus (s : mcpAppStatus)
| TAlerts (l : list Alert)
| TIncidents (l : list ApplicationIncident)
| TResolved (resolved notified : nat)
| TIncident (i : ApplicationIncident)
| TQueryMetrics (r : mcpQueryMetricsResult)
| TNodes (l : list (string * json))
| TNode (report : option (string * Z * list Check_)) (sparklines : list MCPSeriesValue)
| TTraces (part : traces_part) (j : json)
| TMetricNames (r : mcpListMetricNamesResult)
| TLogs (r : mcpLogsResult).

(** A result, or the error of a tool that could not write its own. *)
Inductive tool_result := ToolError (message : string) | ToolText (d : tool_payload) | ToolFailed.

(** [json.Marshal] fails on a float that is not finite. *)
Definition finite (v : f32) : bool := negb (IsNaN v || IsInf v 0).
Definition finite_ptr (v : option f32) : bool := match v with Some v => finite v | None => true end.
Definition finite_series (s : MCPSeriesValue) : bool :=
  forallb finite_ptr (sv_Last s :: sv_Min s :: sv_Max s :: sv_Avg s :: sv_Sparkline s).
Definition finite_latency (l : mcpLatency) : bool := forallb finite_ptr [la_Avg l; la_P50 l; la_P95 l; la_P99 l].
Definition finite_dependency (d : mcpDependency) : bool :=
  forallb finite_ptr [de_RttSeconds d; de_Rps d; de_ErrorsPerSec d] && match de_LatencySeconds d with Some l => finite_latency l | None => true end.
Definition marshals (d : tool_payload) : bool :=
  match d with
  | TAppStatus s =>
      forallb finite_series (mas_Vitals s)
      && forallb (λ r, forallb (λ c, forallb finite_series (mch_Series c)) (mrs_Charts r)) (mas_Reports s)
      && forallb finite_dependency (mas_Dependencies s)
  | TQueryMetrics r => forallb (λ s, forallb finite_ptr (qs_Values s)) (qm_Series r)
  | TNode report sparklines =>
      forallb finite_series sparklines
      && match report with Some (_, _, checks) => forallb (λ c, finite (ch_Threshold c)) checks | None => true end
  | _ => true
  end.
Definition MCPJSON (d : tool_payload) : tool_result := if marshals d then ToolText d else ToolFailed.

(** * What is computed of series *)
Definition mcpLogPatternsTopN : nat := 10.
Definition mcpLogSampleMaxLength : nat := 200.
Definition MCPSparklineBuckets : nat := 12.

(** The bucket of index [i], and its mean. *)
Definition downsample_bucket (values : list f32) (n i : nat) : list f32 :=
  let total := List.length values in
  let start := (i * total / n)%nat in
  let end_ := Nat.min ((i + 1) * total / n) total in
  take (end_ - start) (drop start values).
Definition mean (values : list f32) : option f32 :=
  let '(s, c) := foldl sum_count (F32.zero, 0) values in
  if 0 <? c then Some (F32.div s (F32.of_Z c)) else None.
Definition mcpDownsample (values : list f32) (n : nat) : list (option f32) :=
  if bool_decide (values = []) || (n =? 0)%nat then [] else (λ i, mean (downsample_bucket values n i)) <$> seq 0 n.

(** The variables of the loop of [MCPSummarize]. *)
Record summary := { su_values : list f32; su_sum : f32; su_last : f32; su_min : f32; su_max : f32; su_count : Z; su_hasAny : bool }.
Definition summary_zero : summary :=
  {| su_values := []; su_sum := F32.zero; su_last := F32.zero; su_min := F32.zero; su_max := F32.zero; su_count := 0; su_hasAny := false |}.
Definition summary_step (s : summary) (v : f32) : summary :=
  let values := (su_values s ++ [v])%list in
  if IsNaN v then
    {| su_values := values; su_sum := su_sum s; su_last := su_last s; su_min := su_min s; su_max := su_max s; su_count := su_count s; su_hasAny := su_hasAny s |}
  else
    {| su_values := values; su_sum := F32.add (su_sum s) v; su_last := v;
       su_min := if negb (su_hasAny s) || F32.ltb v (su_min s) then v else su_min s;
       su_max := if negb (su_hasAny s) || F32.gtb v (su_max s) then v else su_max s;
       su_count := su_count s + 1; su_hasAny := true |}.
Definition no_value (name : string) (labels : option (gmap string string)) : option MCPSeriesValue :=
  match labels with
  | None => None
  | Some _ => Some {| sv_Name := name; sv_Labels := labels; sv_Last := None; sv_Min := None; sv_Max := None; sv_Avg := None; sv_Sparkline := [] |}
  end.
Definition MCPSummarize (name : string) (labels : option (gmap string string)) (ts : option TimeSeries) (sparkBuckets : nat) : outcome (option MCPSeriesValue) :=
  match ts with
  | None => Ret (no_value name labels)
  | Some _ =>
      let* s := for_ts (λ s _ v, Ret (summary_step s v)) ts summary_zero in
      Ret (if su_hasAny s then
             Some {| sv_Name := name; sv_Labels := labels; sv_Last := Some (su_last s); sv_Min := Some (su_min s); sv_Max := Some (su_max s);
                     sv_Avg := Some (F32.div (su_sum s) (F32.of_Z (su_count s)));
                     sv_Sparkline := mcpDownsample (su_values s) sparkBuckets |}
           else no_value name labels)
  end.

(** [if sv := MCPSummarize(...); sv != nil { out = append(out, *sv) }] of each. *)
Fixpoint summarize_all (l : list (string * option TimeSeries)) : outcome (list MCPSeriesValue) :=
  match l with
  | [] => Ret []
  | (name, ts) :: l =>
      let* sv := MCPSummarize name None ts MCPSparklineBuckets in
      let* rest := summarize_all l in
      Ret (match sv with Some sv => sv :: rest | None => rest end)
  end.

Definition mcpSummarizeChart (ch : option Chart) : outcome (option mcpChart) :=
  match ch with
  | None => Ret None
  | Some ch =>
      if Chart_IsEmpty ch then Ret None
      else
        let* ss := written_series (cht_Series ch) in
        let* series := reread ss in
        let* out := summarize_all ((λ s, (fst s, Some (snd s))) <$> series) in
        Ret (if bool_decide (List.length out = 0)%nat then None else Some {| mch_Title := cht_Title ch; mch_Series := out |})
  end.

Fixpoint summarize_charts (l : list (option Chart)) : outcome (list mcpChart) :=
  match l with
  | [] => Ret []
  | ch :: l =>
      let* c := mcpSummarizeChart ch in
      let* rest := summarize_charts l in
      Ret (match c with Some c => c :: rest | None => rest end)
  end.
(** A widget's chart, if it has one, and then those of its group. *)
Definition mcpExtractCharts (widgets : list Widget) : outcome (list mcpChart) :=
  summarize_charts (List.concat ((λ w, (match wi_Chart w with Some ch => [Some ch] | None => [] end)
                                        ++ default [] (wi_ChartGroup w))%list <$> widgets)).

Definition mcpComputeVitals (a : AppView) : outcome (list MCPSeriesValue) :=
  let slis := match av_AvailabilitySLIs a with
              | [] => []
              | sli :: _ => [("rps", as_TotalRequests sli); ("errors_per_sec", as_FailedRequests sli)]
              end in
  let h := match av_LatencySLIs a with [] => [] | sli :: _ => ls_Histogram sli end in
  let* p50 := Quantile h (F32.frac 5 10) in
  let* p95 := Quantile h (F32.frac 95 100) in
  let* p99 := Quantile h (F32.frac 99 100) in
  let quantiles := match h with
                   | [] => []
                   | _ => [("latency_p50_seconds", p50); ("latency_p95_seconds", p95); ("latency_p99_seconds", p99)]
                   end in
  let containers := filter (λ c, cv_InitContainer c = false) (List.concat (in_Containers <$> av_Instances a)) in
  let* cpu := Aggregate.Get (Aggregate.Add (Aggregate.NewAggregate NanSum) (cv_CpuUsage <$> containers)) in
  let* mem := Aggregate.Get (Aggregate.Add (Aggregate.NewAggregate NanSum) (cv_MemoryRss <$> containers)) in
  summarize_all (slis ++ quantiles ++ [("cpu_cores", cpu); ("memory_bytes", mem)])%list.

(** The patterns with messages and their number, the most frequent first. *)
Fixpoint rank_patterns (severity : Z) (l : list (string * LogPatternView)) : outcome (list (mcpLogPattern * f32)) :=
  match l with
  | [] => Ret []
  | (hash, p) :: l =>
      let* total := Reduce NanSum (lv_Messages p) in
      let* rest := rank_patterns severity l in
      Ret (if negb (TimeSeries.IsEmpty (lv_Messages p)) && F32.gtb total F32.zero
           then ({| mlp_Hash := hash; mlp_Severity := Severity.ToString severity; mlp_Sample := Utils.Truncate (lv_Sample p) mcpLogSampleMaxLength;
                    mlp_Messages := F32.to_i64 total |}, total) :: rest
           else rest)
  end.
Fixpoint rank_messages (l : list (Z * list (string * LogPatternView))) : outcome (list (mcpLogPattern * f32)) :=
  match l with
  | [] => Ret []
  | (severity, patterns) :: l =>
      let* here := rank_patterns severity patterns in
      let* rest := rank_messages l in
      Ret (here ++ rest)%list
  end.
Definition more_frequent (a b : mcpLogPattern * f32) : bool := negb (F32.gtb (snd b) (snd a)).
Definition mcpExtractLogPatterns (a : AppView) (n : nat) : outcome (list mcpLogPattern) :=
  let* all := rank_messages (av_LogMessages a) in
  Ret (fst <$> take n (order_by more_frequent all)).

Definition mcpLastNotNull (ts : option TimeSeries) : outcome (option f32) :=
  let* r := LastNotNull ts in Ret (if IsNaN (snd r) then None else Some (snd r)).

(** The sums of the buckets of the connections from the instances of an
    application to another one; [sums] is keyed by the float's comparison. *)
Fixpoint add_bucket (le : f32) (ts : option TimeSeries) (sums : list (f32 * Aggregate.t)) : list (f32 * Aggregate.t) :=
  match sums with
  | [] => [(le, Aggregate.Add (Aggregate.NewAggregate NanSum) [ts])]
  | (le', agg) :: sums => if F32.eqb le' le then (le', Aggregate.Add agg [ts]) :: sums else (le', agg) :: add_bucket le ts sums
  end.
Definition upstream_buckets (from : AppView) (to : ApplicationId) : list (f32 * option TimeSeries) :=
  List.concat (List.concat ((λ u, snd <$> up_RequestsHistogram u)
    <$> filter (λ u, up_RemoteApplication u = Some to) (List.concat (in_Upstreams <$> av_Instances from)))).
Fixpoint get_buckets (sums : list (f32 * Aggregate.t)) : outcome (list HistogramBucket) :=
  match sums with
  | [] => Ret []
  | (le, agg) :: sums =>
      let* ts := Aggregate.Get agg in
      let* rest := get_buckets sums in
      Ret ({| hb_Le := le; hb_TimeSeries := ts |} :: rest)
  end.
Definition lower_bound (a b : HistogramBucket) : bool := negb (F32.ltb (hb_Le b) (hb_Le a)).
Definition mcpAggregateUpstreamHistogram (from : AppView) (to : ApplicationId) : outcome (list HistogramBucket) :=
  let* out := get_buckets (foldl (λ sums b, add_bucket (fst b) (snd b) sums) [] (upstream_buckets from to)) in
  Ret (order_by lower_bound out).

Definition labelsString (ls : gmap string string) : string :=
  String.concat "" ((λ k, k ++ "=" ++ default "" (ls !! k) ++ ",") <$> StringSet.sort_strings (elements (dom ls))).

(** strconv.Quote; which runes beyond ASCII are printable is a parameter. *)
Class Printable := { printable_beyond_ascii : N → bool }.
Section quote.
Context `{Printable}.
Definition backslash : string := String (ascii_of_N 92) "".
Definition dquote : string := String (ascii_of_N 34) "".
Fixpoint hex_digits (n : nat) (r : N) : string :=
  match n with
  | O => ""
  | S n => hex_digits n (r / 16) ++ String (let d := (r mod 16)%N in ascii_of_N (if (d <? 10)%N then 48 + d else 87 + d)) ""
  end.
Definition IsPrint (r : N) : bool := if (r <? 128)%N then (32 <=? r)%N && (r <=? 126)%N else printable_beyond_ascii r.
Definition quote_rune (r : N) (text : string) : string :=
  if (r =? 34)%N || (r =? 92)%N then backslash ++ text
  else if IsPrint r then text
  else if (r =? 7)%N then backslash ++ "a"
  else if (r =? 8)%N then backslash ++ "b"
  else if (r =? 12)%N then backslash ++ "f"
  else if (r =? 10)%N then backslash ++ "n"
  else if (r =? 13)%N then backslash ++ "r"
  else if (r =? 9)%N then backslash ++ "t"
  else if (r =? 11)%N then backslash ++ "v"
  else if (r <? 32)%N || (r =? 127)%N then backslash ++ "x" ++ hex_digits 2 r
  else if (r <? 65536)%N then backslash ++ "u" ++ hex_digits 4 r
  else backslash ++ "U" ++ hex_digits 8 r.
Fixpoint quote_runes (fuel : nat) (s : string) : string :=
  match fuel, s with
  | S fuel, String a _ =>
      let '(r, size) := Utf8.decode s in
      (if (r =? Utf8.RuneError)%N && (size =? 1)%nat then backslash ++ "x" ++ hex_digits 2 (N_of_ascii a)
       else quote_rune r (stake size s)) ++ quote_runes fuel (sdrop size s)
  | _, _ => ""
  end.
Definition Quote (s : string) : string := dquote ++ quote_runes (String.length s) s ++ dquote.
End quote.

(** * The tools *)
Definition mcpMetricsDefaultLimit : Z := 100.
Definition mcpMetricsMaxLimit : Z := 1000.
Definition mcpMetricsNamesLimit : Z := 500.
Definition mcpMetricsNamesMaxLimit : Z := 5000.
Definition mcpMetricsMinStep : Z := 15 * Time.Second.
Definition mcpMetricsMaxRange : Z := 24 * Time.Hour.
Definition mcpLogsDefaultLimit : Z := 100.
Definition mcpLogsMaxLimit : Z := 1000.

Section tools.
Context `{UrlParse} `{PromParser} `{Durations} `{Logs.LowerCase} `{Printable} (api : ApiConfig).

Definition Tool : Type := ToolRequest → option User → string → prog tool_result.

Definition error_ (m : string) : prog tool_result := Done (ToolError m).
Definition text_ (d : tool_payload) : prog tool_result := Done (MCPJSON d).
Definition lift {A} (o : outcome A) : prog A := match o with Ret a => Done a | Panic => Crash end.
Definition unless_error {E A} (r : E + A) (message : E → string) (k : A → prog tool_result) : prog tool_result :=
  match r with inl e => error_ (message e) | inr a => k a end.

Definition IsAllowedAny (u : User) (actions : list Rbac.Action) : bool :=
  Rbac.IsAllowed (match ap_roles api with inl _ => None | inr l => Some l end) (u_Roles u) actions.
Definition may_list (u : User) (projectId : string) : bool := IsAllowedAny u (Rbac.ProjectList (Rbac.Project projectId)).
Definition allowed (u : User) (a : Rbac.Action) (message : string) (k : prog tool_result) : prog tool_result :=
  if IsAllowed api u a then k else error_ message.
(** The permission to view an application. *)
Definition AppAction (projectId category : string) (id : ApplicationId) : Rbac.Action :=
  Rbac.Application_View category (Namespace id) (Kind id) (Name id) (Rbac.Project projectId).

Definition currentProject (session : string) : prog (db_error + option Project) :=
  if String.eqb session "" then Done (inr None)
  else
    id ← ask_ (CGetMcpSessionProject session);
    match id with
    | inl e => Done (inl e)
    | inr id =>
        if String.eqb id "" then Done (inr None)
        else p ← ask_ (CGetProject id); Done (match p with inl e => inl e | inr p => inr (Some p) end)
    end.

Definition RequireUserAndProject (user : option User) (session : string) (k : User → Project → prog tool_result) : prog tool_result :=
  match user with
  | None => error_ "unauthorized"
  | Some u =>
      project ← currentProject session;
      unless_error project (λ e, "failed to load project: " ++ db_message e) (λ project,
        match project with
        | None => error_ "no project selected — call select_project first"
        | Some p => if may_list u (p_Id p) then k u p else error_ "forbidden: no access to this project"
        end)
  end.

Definition toolListProjects : Tool := λ _ user _,
  match user with
  | None => error_ "unauthorized"
  | Some u =>
      names ← ask_ CGetProjectNames;
      unless_error names (λ _, "failed to load projects") (λ names,
        text_ (TProjects (list_to_map ((λ p, (p.2, p.1)) <$> filter (λ p, may_list u p.1 = true) (map_to_list names)))))
  end.

Definition toolSelectProject : Tool := λ req user session,
  match user with
  | None => error_ "unauthorized"
  | Some u =>
      unless_error (tr_RequireString req "project_id") (λ e, e) (λ projectId,
        if negb (may_list u projectId) then error_ "forbidden: no access to this project"
        else
          p ← ask_ (CGetProject projectId);
          unless_error p (λ _, "project not found") (λ p,
            if String.eqb session "" then error_ "no session"
            else
              e ← ask_ (CSetMcpSessionProject session (p_Id p));
              match e with
              | Some _ => Done ToolFailed
              | None => text_ (TSelected (p_Id p) (p_Name p))
              end))
  end.

(** The world of the last hour; its status is not used. *)
Definition last_hour (p : Project) : prog (option PageWorld * option string) :=
  now ← ask_ CNow;
  l ← LoadWorld api p (Time.Add now (wrap64 (- Time.Hour))) now;
  Done (l.1.1, l.2).

Definition unless_zero (namespace : string) : string := if String.eqb namespace "_" then "" else namespace.
Definition known_status (status : Z) : string := if status =? Status.UNKNOWN then "" else Status.ToString status.
Definition sorted_by {A} (name : A → string) (l : list A) : list A := order_by (λ a b, bool_decide (String.le (name a) (name b))) l.

Definition app_info (app : PageApp) (a : AppView) : mcpAppInfo :=
  {| ai_Id := AppIdString (pa_Id app);
     ai_Namespace := unless_zero (Namespace (pa_Id app));
     ai_Category := pa_Category app;
     ai_Types := StringSet.sort_strings (elements (ApplicationTypes (pa_Id app) a));
     ai_Status := known_status (av_Status a);
     ai_Issues := sorted_by ir_Inspection ((λ r, {| ir_Inspection := rv_Name r; ir_Status := Status.ToString (rv_Status r) |})
                                          <$> filter (λ r, Status.WARNING ≤ rv_Status r) (av_Reports a)) |}.

Definition toolListApplications : Tool := λ _ user session,
  RequireUserAndProject user session (λ u p,
    l ← last_hour p;
    match l with
    | (_, Some _) => error_ "failed to load world"
    | (None, None) => text_ (TApplications [])
    | (Some w, None) =>
        views ← ask_ (CAudit (p_Id p) w None);
        text_ (TApplications (sorted_by ai_Id ((λ app, app_info app (views (pa_Id app)))
          <$> filter (λ app, IsAllowed api u (ApplicationView (p_Id p) app) = true) (pw_Applications w))))
    end).

(** [None] is the nil application of an empty id. *)
Definition ResolveApp (u : User) (p : Project) (w : PageWorld) (appIdStr : string) (k : option PageApp → prog tool_result) : prog tool_result :=
  if String.eqb appIdStr "" then k None
  else match NewApplicationIdFromString appIdStr (p_Id p) with
       | None => error_ ("invalid app_id: invalid application id: " ++ appIdStr)
       | Some appId =>
           match GetApplication w appId with
           | None => error_ "application not found"
           | Some app => allowed u (ApplicationView (p_Id p) app) "forbidden: no access to this application" (k (Some app))
           end
       end.

(** ** get_application_status *)
Definition report_status (a : AppView) (r : ReportView) : outcome mcpReportStatus :=
  let issues := (λ c, {| is_Id := ch_Id c; is_Title := ch_Title c; is_Status := Status.ToString (ch_Status c); is_Message := ch_Message c |})
                <$> filter (λ c, Status.WARNING ≤ ch_Status c) (rv_Checks r) in
  let* charts := if Status.WARNING <=? rv_Status r then mcpExtractCharts (rv_Widgets r) else Ret [] in
  let* patterns := if String.eqb (rv_Name r) "Logs" then mcpExtractLogPatterns a mcpLogPatternsTopN else Ret [] in
  Ret {| mrs_Name := rv_Name r; mrs_Status := Status.ToString (rv_Status r); mrs_Issues := issues; mrs_Charts := charts; mrs_LogPatterns := patterns |}.

Definition latency_of (a : AppView) (conn : AppToAppConnection) (rem : RemoteRef) : outcome (option mcpLatency) :=
  let* latency := GetConnectionsRequestsLatency conn in
  let* avg := mcpLastNotNull latency in
  let* buckets := mcpAggregateUpstreamHistogram a (rr_Id rem) in
  let quantile q := let* ts := Quantile buckets q in mcpLastNotNull ts in
  let* p50 := quantile (F32.frac 5 10) in
  let* p95 := quantile (F32.frac 95 100) in
  let* p99 := quantile (F32.frac 99 100) in
  let lat := match buckets with
             | [] => {| la_Avg := avg; la_P50 := None; la_P95 := None; la_P99 := None |}
             | _ => {| la_Avg := avg; la_P50 := p50; la_P95 := p95; la_P99 := p99 |}
             end in
  Ret (match la_Avg lat, la_P50 lat, la_P95 lat, la_P99 lat with None, None, None, None => None | _, _, _, _ => Some lat end).

Definition dependency (a : AppView) (conn : AppToAppConnection) (rem : RemoteRef) : outcome mcpDependency :=
  let '(cs, msg) := ConnectionStatus conn in
  let* rtt := mcpLastNotNull (ac_Rtt conn) in
  let* requests := GetConnectionsRequestsSum conn in
  let* rps := mcpLastNotNull requests in
  let* failed := GetConnectionsErrorsSum conn in
  let* errors := mcpLastNotNull failed in
  let* lat := latency_of a conn rem in
  Ret {| de_Id := AppIdString (rr_Id rem); de_Status := known_status (rr_Status rem);
         de_Connectivity := Status.ToString cs; de_ConnectivityMessage := msg;
         de_Protocols := StringSet.sort_strings (fst <$> ac_RequestsCount conn);
         de_RttSeconds := rtt; de_Rps := rps; de_ErrorsPerSec := errors; de_LatencySeconds := lat |}.

(** The remote application of a connection that is in use. *)
Definition actual_remote (conn : AppToAppConnection) : option RemoteRef :=
  if IsActual conn then ac_RemoteApplication conn else None.
Fixpoint dependencies (a : AppView) (l : list AppToAppConnection) : outcome (list mcpDependency) :=
  match l with
  | [] => Ret []
  | conn :: l =>
      match actual_remote conn with
      | None => dependencies a l
      | Some rem => let* d := dependency a conn rem in let* rest := dependencies a l in Ret (d :: rest)
      end
  end.
Fixpoint report_statuses (a : AppView) (l : list ReportView) : outcome (list mcpReportStatus) :=
  match l with
  | [] => Ret []
  | r :: l => let* s := report_status a r in let* rest := report_statuses a l in Ret (s :: rest)
  end.
Definition app_status (id : ApplicationId) (a : AppView) : outcome mcpAppStatus :=
  let* vitals := mcpComputeVitals a in
  let* reports := report_statuses a (av_Reports a) in
  let* deps := dependencies a (av_Upstreams a) in
  Ret {| mas_Id := AppIdString id; mas_Namespace := unless_zero (Namespace id); mas_Vitals := vitals;
         mas_Status := Status.ToString (av_Status a);
         mas_Reports := sorted_by mrs_Name reports;
         mas_Dependencies := sorted_by de_Id deps;
         mas_Clients := sorted_by mcl_Id ((λ rem, {| mcl_Id := AppIdString (rr_Id rem); mcl_Status := known_status (rr_Status rem) |})
                                         <$> omap actual_remote (av_Downstreams a)) |}.

Definition toolGetApplicationStatus : Tool := λ req user session,
  RequireUserAndProject user session (λ u p,
    unless_error (tr_RequireString req "app_id") (λ e, e) (λ appIdStr,
      l ← last_hour p;
      match l with
      | (_, Some _) => error_ "failed to load world"
      | (None, None) => error_ "no data available"
      | (Some w, None) =>
          ResolveApp u p w appIdStr (λ app,
            views ← ask_ (CAudit (p_Id p) w (pa_Id <$> app));
            match app with
            | None => Crash
            | Some app => s ← lift (app_status (pa_Id app) (views (pa_Id app))); text_ (TAppStatus s)
            end)
      end)).

(** ** Alerts and incidents *)
Definition AlertAction (projectId : string) (a : Alert) : Rbac.Action := AppAction projectId (a_ApplicationCategory a) (a_ApplicationId a).

(** The query of a state; [None] for a state that is not one. *)
Definition alerts_of_state (state : string) (limit : Z) : option AlertsQuery :=
  let q resolved by_ := {| aq_IncludeResolved := resolved; aq_Search := ""; aq_SortBy := by_; aq_SortDesc := true; aq_Offset := 0;
                           aq_Limit := limit; aq_ClusterNames := None |} in
  if String.eqb state "firing" then Some (q false "opened_at")
  else if String.eqb state "resolved" then Some (q true "resolved_at")
  else if String.eqb state "any" then Some (q true "opened_at")
  else None.
Definition still_firing (a : Alert) : bool := (a_ResolvedAt a =? 0) && (a_ManuallyResolvedAt a =? 0) && negb (a_Suppressed a).
(** [appIdFilter]: the application asked for, if there is one. *)
Definition optional_app (p : Project) (appIdStr : string) (k : option ApplicationId → prog tool_result) : prog tool_result :=
  if String.eqb appIdStr "" then k None
  else match NewApplicationIdFromString appIdStr (p_Id p) with
       | None => error_ ("invalid app_id: invalid application id: " ++ appIdStr)
       | Some id => k (Some id)
       end.
Definition is_asked (filterId : option ApplicationId) (id : ApplicationId) : bool :=
  match filterId with Some f => bool_decide (id = f) | None => true end.

Definition toolListAlerts : Tool := λ req user session,
  RequireUserAndProject user session (λ u p,
    allowed u (AlertsView (p_Id p)) "forbidden: no permission to view alerts in this project" (
      let state := tr_GetString req "state" "firing" in
      match alerts_of_state state (limit_of req 100 1000) with
      | None => error_ "state must be 'firing', 'resolved', or 'any'"
      | Some q =>
          res ← ask_ (CQueryAlerts (p_Id p) q);
          unless_error res (λ _, "failed to query alerts") (λ res,
            optional_app p (tr_GetString req "app_id" "") (λ filterId,
              text_ (TAlerts (filter (λ a, negb (String.eqb state "resolved" && still_firing a)
                                           && is_asked filterId (a_ApplicationId a)
                                           && IsAllowed api u (AlertAction (p_Id p) a) = true) (ar_Alerts res)))))
      end)).

Definition fetchIncidents (projectId : string) (hours : Z) (state : string) (limit : Z) : prog (db_error + list ApplicationIncident) :=
  if 0 <? hours then
    now ← ask_ CNow;
    ask_ (CGetApplicationIncidents projectId (Time.Add now (mul64 (wrap64 (- hours)) Time.Hour)) now)
  else ask_ (CGetLatestIncidentsBrief projectId (if String.eqb state "any" then limit else mul64 limit 4)).

(** The category of an application of the world, empty without one. *)
Definition category_of (w : option PageWorld) (id : ApplicationId) : string :=
  match w ≫= λ w, GetApplication w id with Some app => pa_Category app | None => "" end.
Definition IncidentAction (projectId : string) (w : option PageWorld) (i : ApplicationIncident) : Rbac.Action :=
  AppAction projectId (category_of w (i_ApplicationId i)) (i_ApplicationId i).
(** [filtered[a]] may come before [filtered[b]]: open ones first, the latest
    first. *)
Definition incident_le (a b : ApplicationIncident) : bool :=
  if bool_decide (Resolved a = Resolved b) then
    if Resolved a then i_ResolvedAt b <=? i_ResolvedAt a else i_OpenedAt b <=? i_OpenedAt a
  else negb (Resolved a).
Definition in_state (state : string) (i : ApplicationIncident) : bool :=
  negb (String.eqb state "open" && Resolved i) && negb (String.eqb state "resolved" && negb (Resolved i)).
(** [!filterId.IsZero()]: an application id that is read is not the zero id when
    one of its parts is not empty. *)
Definition asked_unless_zero (filterId : option ApplicationId) (id : ApplicationId) : bool :=
  match filterId with Some f => bool_decide (f = ApplicationIdZero) || bool_decide (id = f) | None => true end.

Definition toolListIncidents : Tool := λ req user session,
  RequireUserAndProject user session (λ u p,
    let state := tr_GetString req "state" "any" in
    if negb (existsb (String.eqb state) ["open"; "resolved"; "any"]) then error_ "state must be 'open', 'resolved', or 'any'"
    else
      let hours := get_int req "hours" 0 in
      let limit := limit_of req 50 500 in
      optional_app p (tr_GetString req "app_id" "") (λ filterId,
        raw ← fetchIncidents (p_Id p) hours state limit;
        unless_error raw (λ _, "failed to query incidents") (λ raw,
          l ← last_hour p;
          let filtered := filter (λ i, asked_unless_zero filterId (i_ApplicationId i) && in_state state i
                                       && IsAllowed api u (IncidentAction (p_Id p) l.1 i) = true) raw in
          text_ (TIncidents (take (Z.to_nat limit) (order_by incident_le filtered)))))).

Definition toolResolveAlerts : Tool := λ req user session,
  RequireUserAndProject user session (λ u p,
    allowed u (AlertsEdit (p_Id p)) "forbidden: no permission to edit alerts in this project" (
      unless_error (tr_RequireStringSlice req "ids") (λ e, e) (λ ids,
        match ids with
        | [] => error_ "ids must be a non-empty array"
        | _ =>
            res ← resolveAlerts p ids (display_name u ++ " (via MCP)");
            match res with
            | (Some _, _) => error_ "failed to resolve alerts"
            | (None, notified) => text_ (TResolved (List.length ids) notified)
            end
        end))).

(** The widgets of the RCA, which the model leaves out, are dropped. *)
Definition toolGetIncidentDetails : Tool := λ req user session,
  RequireUserAndProject user session (λ u p,
    unless_error (tr_RequireString req "key") (λ e, e) (λ key,
      i ← ask_ (CGetIncidentByKey (p_Id p) key);
      unless_error i (λ _, "incident not found") (λ i,
        l ← last_hour p;
        allowed u (IncidentAction (p_Id p) l.1 i) "forbidden: no access to this application" (text_ (TIncident i))))).

(** ** Metrics *)
Definition MetricsView (projectId : string) : Rbac.Action := Rbac.View (Rbac.Metrics (Rbac.Project projectId)).
Definition no_metrics : string := "forbidden: no permission to view metrics in this project".

Definition query_series (mv : PromQL.MetricValues) : outcome mcpQuerySeries :=
  let* values := match PromQL.mv_Values mv with
                 | None => Ret []
                 | Some _ => for_ts (λ l _ v, Ret (l ++ [if IsNaN v then None else Some v])%list) (PromQL.mv_Values mv) []
                 end in
  Ret {| qs_Labels := PromQL.mv_Labels mv; qs_Values := values |}.
Fixpoint query_all (l : list PromQL.MetricValues) : outcome (list mcpQuerySeries) :=
  match l with
  | [] => Ret []
  | mv :: l => let* s := query_series mv in let* rest := query_all l in Ret (s :: rest)
  end.
Definition step_of (req : ToolRequest) (step : Z) : Z :=
  let s := tr_GetFloat req "step_seconds" 0 in
  let step := if F32.gtb s F32.zero then F32.to_i64 s else step in
  if step <? mcpMetricsMinStep then mcpMetricsMinStep else step.

Definition toolQueryMetrics : Tool := λ req user session,
  RequireUserAndProject user session (λ u p,
    allowed u (MetricsView (p_Id p)) no_metrics (
      unless_error (tr_RequireString req "query") (λ e, e) (λ query,
        let limit := limit_of req mcpMetricsDefaultLimit mcpMetricsMaxLimit in
        client ← ask_ (CPromQL (p_Id p));
        unless_error client (λ e, e) (λ _,
          ctx ← getTimeContext (p_Id p) (tr_GetString req "from" "") (tr_GetString req "to" "") "" "";
          let '(from, to, _, _) := ctx in
          if mcpMetricsMaxRange <? Time.Sub to from then error_ "range too large (max 24 hours)"
          else
            clientStep ← ask_ (CGetStep (p_Id p));
            let step := step_of req clientStep in
            series ← ask_ (CQueryRange (p_Id p) query from to step);
            unless_error series (λ e, "query failed: " ++ e) (λ series,
              let total := Z.of_nat (List.length series) in
              let truncated := limit <? total in
              out ← lift (query_all (if truncated then take (Z.to_nat limit) series else series));
              text_ (TQueryMetrics {| qm_Query := query; qm_From := from; qm_To := to; qm_StepSeconds := step; qm_SeriesTotal := total;
                                      qm_SeriesReturn := if truncated then limit else total; qm_Truncated := truncated;
                                      qm_Series := sorted_by (λ s, labelsString (qs_Labels s)) out |})))))).

Definition names_query (match_ : string) : string := "group by (__name__) ({__name__=~" ++ Quote match_ ++ "})".
Definition toolListMetricNames : Tool := λ req user session,
  RequireUserAndProject user session (λ u p,
    allowed u (MetricsView (p_Id p)) no_metrics (
      let match_ := or_text (tr_GetString req "match" ".+") ".+" in
      let limit := limit_of req mcpMetricsNamesLimit mcpMetricsNamesMaxLimit in
      client ← ask_ (CPromQL (p_Id p));
      unless_error client (λ e, e) (λ _,
        now ← ask_ CNow;
        series ← ask_ (CQueryRange (p_Id p) (names_query match_) (Time.Add now (-5 * Time.Minute)) now Time.Minute);
        unless_error series (λ e, "query failed: " ++ e) (λ series,
          let seen : gset string := list_to_set (omap (λ mv, match PromQL.mv_Labels mv !! "__name__" with
                                                             | Some name => if String.eqb name "" then None else Some name
                                                             | None => None
                                                             end) series) in
          let names := StringSet.sort_strings (elements seen) in
          let total := Z.of_nat (List.length names) in
          let truncated := limit <? total in
          text_ (TMetricNames {| mn_Match := match_; mn_Total := total; mn_Returned := if truncated then limit else total;
                                 mn_Truncated := truncated; mn_Names := if truncated then take (Z.to_nat limit) names else names |}))))).

(** ** Nodes *)
Definition toolListNodes : Tool := λ _ user session,
  RequireUserAndProject user session (λ u p,
    l ← last_hour p;
    match l with
    | (_, Some _) => error_ "failed to load world"
    | (None, None) => text_ (TNodes [])
    | (Some w, None) =>
        all ← ask_ (CRenderNodes (p_Id p) w);
        text_ (TNodes (filter (λ n, IsAllowed api u (Api.NodeView (p_Id p) n.1) = true) all))
    end).

Definition memory_percent (n : AppView.NodeView) : outcome (list (string * option TimeSeries)) :=
  if TimeSeries.IsEmpty (nv_MemoryTotalBytes n) || TimeSeries.IsEmpty (nv_MemoryAvailableBytes n) then Ret []
  else
    let* used := Sub_ (nv_MemoryTotalBytes n) (nv_MemoryAvailableBytes n) in
    let* pct := Aggregate2 used (nv_MemoryTotalBytes n)
                  (λ u t, if F32.eqb t F32.zero then NaN else F32.div (F32.mul (F32.of_Z 100) u) t) in
    Ret [("memory_percent", pct)].
Definition node_sparklines (n : AppView.NodeView) : outcome (list MCPSeriesValue) :=
  let* memory := memory_percent n in
  let* rx := Aggregate.Get (Aggregate.Add (Aggregate.NewAggregate NanSum) (nv_NetInterfaces n).*1) in
  let* tx := Aggregate.Get (Aggregate.Add (Aggregate.NewAggregate NanSum) (nv_NetInterfaces n).*2) in
  summarize_all ([("cpu_percent", nv_CpuUsagePercent n)] ++ memory ++ [("net_rx_bytes_per_sec", rx); ("net_tx_bytes_per_sec", tx)])%list.

Definition toolGetNodeDetails : Tool := λ req user session,
  RequireUserAndProject user session (λ u p,
    unless_error (tr_RequireString req "name") (λ e, e) (λ name,
      allowed u (Api.NodeView (p_Id p) name) "forbidden: no access to this node" (
        l ← last_hour p;
        match l with
        | (_, Some _) => error_ "failed to load world"
        | (None, None) => error_ "no data available"
        | (Some w, None) =>
            match GetNode w name with
            | None => error_ "node not found"
            | Some node =>
                _ ← ask_ (CAudit (p_Id p) w None);
                n ← ask_ (CAuditNode w node);
                sparklines ← lift (node_sparklines n);
                text_ (TNode (nv_Report n) sparklines)
            end
        end))).

(** ** Traces *)
Definition TracesView (projectId : string) : Rbac.Action := Rbac.View (Rbac.Traces (Rbac.Project projectId)).
Definition field_filter (field value : string) : list (string * string * string) :=
  if String.eqb value "" then [] else [(field, "=", value)].
Definition with_filters (l : list (string * string * string)) (q : TracesQuery) : TracesQuery :=
  {| tq_View := tq_View q; tq_DurFrom := tq_DurFrom q; tq_DurTo := tq_DurTo q; tq_TraceId := tq_TraceId q; tq_Filters := (tq_Filters q ++ l)%list |}.

Definition runTracesQuery (req : ToolRequest) (user : option User) (session : string) (q : TracesQuery) (part : traces_part) : prog tool_result :=
  RequireUserAndProject user session (λ u p,
    allowed u (TracesView (p_Id p)) "forbidden: no permission to view traces in this project" (
      now ← ask_ CNow;
      ctx ← getTimeContext (p_Id p) (tr_GetString req "from" "") (tr_GetString req "to" "") "" "";
      let '(from, to, _, _) := ctx in
      l ← LoadWorld api p from to;
      match l with
      | (Some w, _, None) =>
          chs ← GetClickhouseClients api p;
          let q := with_filters (field_filter "ServiceName" (tr_GetString req "service" "")
                                 ++ field_filter "SpanName" (tr_GetString req "span" ""))%list q in
          res ← ask_ (CRenderTraces (p_Id p) chs w q from to (negb (to <? now)));
          if String.eqb (tp_Error res) "" then text_ (TTraces part (tp_part res part)) else error_ (tp_Error res)
      | _ => error_ "failed to load world"
      end)).

Definition traces_query (view durFrom durTo traceId : string) : TracesQuery :=
  {| tq_View := view; tq_DurFrom := durFrom; tq_DurTo := durTo; tq_TraceId := traceId; tq_Filters := [] |}.
Definition toolTracesSummary : Tool := λ req user session, runTracesQuery req user session (traces_query "" "" "" "") TracesSummary.
Definition toolTracesErrors : Tool := λ req user session, runTracesQuery req user session (traces_query "errors" "" "" "") TracesErrors.
Definition toolTracesOutliers : Tool := λ req user session,
  runTracesQuery req user session (traces_query "latency" (tr_GetString req "dur_from" "1s") (tr_GetString req "dur_to" "inf") "") TracesLatency.
Definition toolGetTrace : Tool := λ req user session,
  unless_error (tr_RequireString req "trace_id") (λ e, e) (λ traceId,
    runTracesQuery req user session (traces_query "" "" "" traceId) TracesTrace).

(** ** Logs *)
Definition LogsView (projectId : string) : Rbac.Action := Rbac.View (Rbac.Logs (Rbac.Project projectId)).
Definition log_filter (name op value : string) : Logs.LogFilter := {| Logs.lf_Name := name; Logs.lf_Op := op; Logs.lf_Value := value |}.

(** The source and the services of a query; [a] is what the world holds of the
    application. *)
Definition resolveLogSource (p : Project) (clusterId : string) (w : PageWorld) (app : option (PageApp * AppView)) (source : string)
    (k : string → list string → prog tool_result) : prog tool_result :=
  match app with
  | None => k (or_text source Logs.LogSourceAgent) []
  | Some (app, a) =>
      services ← (if String.eqb source Logs.LogSourceAgent then Done (inr "")
                  else
                    s ← ask_ (CGetLogSources (p_Id p) clusterId (ctx_From (pw_Ctx w)));
                    Done (match s with
                          | inl e => inl e
                          | inr candidates => inr (OtelLogService (pa_Settings app ≫= as_Logs) candidates (pa_Id <$> pw_Applications w) (pa_Id app))
                          end));
      unless_error services (λ e, "failed to load services from logs: " ++ e) (λ otelService,
        let source := or_text source (if String.eqb otelService "" then Logs.LogSourceAgent else Logs.LogSourceOtel) in
        let services := LogQueryServices a source otelService in
        if String.eqb source Logs.LogSourceOtel && String.eqb otelService "" then
          error_ "no OpenTelemetry service is associated with this application"
        else if String.eqb source Logs.LogSourceAgent && bool_decide (services = []) then
          error_ "no container services found for this application — try source='otel'"
        else k source services)
  end.

Definition log_filters (req : ToolRequest) (app : option (PageApp * AppView)) (search logPattern : string) : list Logs.LogFilter :=
  let severities := filter (λ s, s ≠ "") ((λ s, Logs.StringsToLower (RecordingRules.TrimSpace s)) <$> tr_GetStringSlice req "severity") in
  let hashes := match app with Some (_, a) => SimilarLogPatternHashes a logPattern | None => [logPattern] end in
  (log_filter "Severity" "=" <$> severities)
    ++ (if String.eqb search "" then [] else [log_filter "Message" "contains" search])
    ++ (if String.eqb logPattern "" then [] else log_filter "pattern.hash" "=" <$> hashes).

(** The order of entries: the newest first. *)
Definition newest_first (a b : LogEntryView) : bool := le_Timestamp b <=? le_Timestamp a.

Definition with_view (w : PageWorld) (app : option PageApp) : prog (option (PageApp * AppView)) :=
  match app with None => Done None | Some app => a ← ask_ (CAppView w (pa_Id app)); Done (Some (app, a)) end.

Definition toolQueryLogs : Tool := λ req user session,
  RequireUserAndProject user session (λ u p,
    allowed u (LogsView (p_Id p)) "forbidden: no permission to view logs in this project" (
      ctx ← getTimeContext (p_Id p) (tr_GetString req "from" "") (tr_GetString req "to" "") "" "";
      let '(from, to, _, _) := ctx in
      let limit := limit_of req mcpLogsDefaultLimit mcpLogsMaxLimit in
      let search := tr_GetString req "search" "" in
      let logPattern := RecordingRules.TrimSpace (tr_GetString req "log_pattern" "") in
      let source := if String.eqb logPattern "" then tr_GetString req "source" "" else Logs.LogSourceAgent in
      l ← LoadWorld api p from to;
      match l with
      | (_, _, Some _) => error_ "failed to load world"
      | (None, _, None) => error_ "no data available"
      | (Some w, _, None) =>
          ResolveApp u p w (tr_GetString req "app_id" "") (λ app,
            let clusterId := match app with Some app => AppId.ClusterId (pa_Id app) | None => "" end in
            ch ← GetClickhouseClient api p clusterId;
            match ch with
            | inr true =>
                app ← with_view w app;
                resolveLogSource p clusterId w app source (λ source services,
                  let lq := {| Logs.lq_Ctx := NewContext from to Time.Minute; Logs.lq_Source := source; Logs.lq_Services := services;
                               Logs.lq_Filters := log_filters req app search logPattern; Logs.lq_Limit := limit; Logs.lq_Since := 0;
                               Logs.lq_Sort := {| Traces.so_By := ""; Traces.so_Dir := "" |} |} in
                  entries ← ask_ (CGetLogs (p_Id p) clusterId lq);
                  unless_error entries (λ e, "failed to query logs: " ++ e) (λ entries,
                    text_ (TLogs {| lr_AppId := match app with Some (app, _) => AppIdString (pa_Id app) | None => "" end;
                                    lr_Source := source; lr_From := from; lr_To := to; lr_Limit := limit;
                                    lr_Returned := Z.of_nat (List.length entries); lr_Entries := order_by newest_first entries |})))
            | _ => error_ "ClickHouse is not configured for this project"
            end)
      end)).

(** [registerTools] *)
Definition tools : list (string * Tool) := [
  ("list_projects", toolListProjects); ("select_project", toolSelectProject); ("list_applications", toolListApplications);
  ("list_alerts", toolListAlerts); ("list_incidents", toolListIncidents); ("resolve_alerts", toolResolveAlerts);
  ("get_incident_details", toolGetIncidentDetails); ("get_application_status", toolGetApplicationStatus); ("list_nodes", toolListNodes);
  ("get_node_details", toolGetNodeDetails); ("traces_summary", toolTracesSummary); ("traces_errors", toolTracesErrors);
  ("traces_outliers", toolTracesOutliers); ("get_trace", toolGetTrace); ("list_metric_names", toolListMetricNames);
  ("query_metrics", toolQueryMetrics); ("query_logs", toolQueryLogs)].
End tools.
