(* ===== verification/McpSpec.v ===== *)
(** What the tools of the MCP endpoint may do and show, and what they compute of
    series.

    The tools are programs of the calls of the API, and what is said of them is a
    weakest precondition, as in ApiSpec. *)

From S2P Require Import Checks IncidentStore Rbac.
From S2P Require Import ApiSpec Directory.
From S2P Require Export Mcp.
From Stdlib Require Import Ascii String ZArith Lia.
Local Open Scope string_scope.
Local Open Scope Z_scope.

(** * Series *)
Module SeriesFacts.

(** A computation that does not panic, with a result that satisfies [P]. *)
Definition returns {A} (o : outcome A) (P : A → Prop) : Prop := ∃ a, o = Ret a ∧ P a.
Lemma returns_ret {A} (a : A) (P : A → Prop) : P a → returns (Ret a) P.
Proof. by exists a. Qed.
Lemma returns_bind {A B} (o : outcome A) (k : A → outcome B) (P : A → Prop) (Q : B → Prop) :
  returns o P → (∀ a, P a → returns (k a) Q) → returns (obind o k) Q.
Proof. intros (a & -> & Ha) Hk. by apply Hk. Qed.
Lemma returns_weaken {A} (o : outcome A) (P Q : A → Prop) : returns o P → (∀ a, P a → Q a) → returns o Q.
Proof. intros (a & -> & Ha) HPQ. exists a. auto. Qed.
Lemma lift_returns {A} (o : outcome A) P : returns o P → ∃ a, lift o = Done a ∧ P a.
Proof. intros (a & -> & Ha). by exists a. Qed.

Lemma fold_go_returns {A S} (body : S → A → outcome S) (I : S → Prop) (l : list A) :
  (∀ s x, I s → returns (body s x) I) → ∀ s, I s → returns (fold_go body s l) I.
Proof.
  intros Hb. induction l as [|x l IH]; intros s Hs; cbn [fold_go]; [by apply returns_ret|].
  eapply returns_bind; [by apply Hb|]. auto.
Qed.
Lemma for_ts_returns {S} (body : S → Z → f32 → outcome S) (I : S → Prop) ts :
  (∀ s t v, I s → returns (body s t v) I) → ∀ s, I s → returns (for_ts body ts s) I.
Proof.
  intros Hb s Hs. destruct ts as [ts|]; [|by apply returns_ret].
  rewrite for_ts_fold. apply fold_go_returns; [|done]. intros s' [t v]. apply Hb.
Qed.

Definition started (it : Iterator) : Prop := -1 ≤ it_idx it.
Lemma Next_returns it : started it → returns (Next it) (λ r, started r.2).
Proof.
  unfold started, Next. intros Hs. case_bool_decide; [by apply returns_ret|].
  case_bool_decide as Hi; [apply returns_ret; cbn; lia|].
  unfold nth_go. destruct (it_data it !! Z.to_nat (it_idx it + 1)) as [v|] eqn:E.
  - rewrite bool_decide_true by lia. cbn. apply returns_ret. cbn. lia.
  - exfalso. apply lookup_ge_None in E. unfold len_go in Hi. lia.
Qed.
Lemma next_all_returns buckets : Forall (λ b, started b.1) buckets → returns (next_all buckets) (Forall (λ b, started b.1)).
Proof.
  induction 1 as [|[it le] buckets Hb _ IH]; cbn [next_all]; [by apply returns_ret|].
  eapply returns_bind; [by apply Next_returns|]. intros r Hr.
  eapply returns_bind; [exact IH|]. intros rest Hrest. apply returns_ret. by constructor.
Qed.
Lemma Iter_started ts : started (Iter ts).
Proof. unfold started. destruct ts; cbn; lia. Qed.
Lemma Quantile_returns h q : returns (Quantile h q) (λ _, True).
Proof.
  unfold Quantile. destruct (last h) as [total|]; [|by apply returns_ret].
  eapply returns_bind; [apply (for_ts_returns _ (λ s, Forall (λ b, started b.1) s.1))|intros; by apply returns_ret].
  - intros s t v Hs. eapply returns_bind; [by apply next_all_returns|]. intros bs Hbs. by apply returns_ret.
  - cbn. apply Forall_fmap, Forall_true. intros b. apply Iter_started.
Qed.

Lemma Reduce_ends g ts : returns (Reduce g ts) (λ _, True).
Proof. destruct ts; [rewrite Reduce_fold|]; by apply returns_ret. Qed.
Lemma mcpLastNotNull_returns ts : returns (mcpLastNotNull ts) (λ _, True).
Proof. unfold mcpLastNotNull. destruct (DirectoryFacts.LastNotNull_returns ts) as [r ->]. by apply returns_ret. Qed.
Lemma Aggregate2_returns x y g : returns (Aggregate2 x y g) (λ _, True).
Proof. destruct x, y; [rewrite Aggregate2_fold|..]; by apply returns_ret. Qed.
Lemma TS_MarshalJSON_returns ts : returns (TS_MarshalJSON ts) (λ _, True).
Proof.
  destruct ts as [ts|]; [|by apply returns_ret]. unfold TS_MarshalJSON.
  eapply returns_bind; [apply (for_ts_returns _ (λ _, True)); [intros; by apply returns_ret|done]|]. intros. by apply returns_ret.
Qed.

(** Aggregates of series of one length. *)
Definition agg_ok (n : nat) (a : Aggregate.t) : Prop := Forall (λ ts, of_length n (Some ts)) (Aggregate.input a).
Lemma new_ok n g : agg_ok n (Aggregate.NewAggregate g).
Proof. constructor. Qed.
Lemma add_ok n a tss : agg_ok n a → Forall (of_length n) tss → agg_ok n (Aggregate.Add a tss).
Proof.
  unfold agg_ok. cbn [Aggregate.Add Aggregate.input]. generalize (Aggregate.input a). induction tss as [|ts tss IH]; intros l Hl Ht; cbn; [done|].
  apply Forall_cons_1 in Ht as [Ht Hts]. apply IH; [|done]. destruct ts; [|done]. apply Forall_app. split; [done|by constructor].
Qed.
Lemma Get_returns n a : agg_ok n a → returns (Aggregate.Get a) (of_length n).
Proof.
  unfold agg_ok, Aggregate.Get. destruct (Aggregate.input a) as [|first l] eqn:E; intros Ha; [by apply returns_ret|].
  destruct l as [|second l]; [apply returns_ret; by inversion Ha|].
  rewrite (AggregateFacts.merge_all_spec _ (List.length (ts_data first))) by apply length_replicate.
  assert (Hf : of_length n (Some first)) by (by inversion Ha). cbn in Hf.
  rewrite bool_decide_true by (eapply Forall_impl; [exact Ha|]; intros ts Hts; cbn in Hts; lia).
  cbn [obind]. apply returns_ret. unfold of_length. cbn [ts_data NewWithData].
  rewrite AggregateFacts.foldl_merge_length. by rewrite length_replicate.
Qed.

Create HintDb returns.
#[export] Hint Resolve returns_ret Quantile_returns Reduce_ends mcpLastNotNull_returns Aggregate2_returns TS_MarshalJSON_returns
  new_ok Get_returns : returns.
(** The steps of a computation each of which is known to return. *)
Ltac returning :=
  repeat match goal with
  | |- returns (obind _ _) _ => eapply returns_bind; [by eauto with returns|intros ? ?]
  | |- returns (Ret _) _ => apply returns_ret; try exact I
  | |- returns (match ?x with _ => _ end) _ => destruct x
  end.

Lemma MCPSummarize_returns name labels ts n : returns (MCPSummarize name labels ts n) (λ _, True).
Proof.
  unfold MCPSummarize. destruct ts as [ts|]; [|by apply returns_ret].
  eapply returns_bind; [apply (for_ts_returns _ (λ _, True)); [intros; by apply returns_ret|done]|]. intros. by apply returns_ret.
Qed.
#[local] Hint Resolve MCPSummarize_returns : returns.
Lemma summarize_all_returns l : returns (summarize_all l) (λ _, True).
Proof. induction l as [|[name ts] l IH]; cbn [summarize_all]; returning. Qed.
#[local] Hint Resolve summarize_all_returns : returns.

(** ** Charts *)
Definition gettable (s : Series) : Prop := returns (sd_Get (se_Data s)) (λ _, True).
Lemma data_gettable n d : data_of_length n d → returns (sd_Get d) (of_length n).
Proof. destruct d as [ts|a]; cbn; [by exists ts|]. by apply Get_returns. Qed.
Lemma series_gettable n s : data_of_length n (se_Data s) → gettable s.
Proof. intros Hd. eapply returns_weaken; [by eapply data_gettable|done]. Qed.
Lemma weigh_returns n by_ ss : Forall (λ s, data_of_length n (se_Data s)) ss →
  returns (weigh by_ ss) (Forall (λ p, data_of_length n (se_Data p.1))).
Proof.
  induction 1 as [|s ss Hs _ IH]; cbn [weigh]; [by apply returns_ret|].
  eapply (returns_bind _ _ (λ _, True)).
  - destruct (se_Data s) as [ts|a]; cbn [sd_Reduce]; [apply Reduce_ends|].
    eapply returns_bind; [by apply (Get_returns n)|]. intros. apply Reduce_ends.
  - intros w _. eapply returns_bind; [exact IH|]. intros rest Hrest. apply returns_ret. destruct (IsNaN w); [done|by constructor].
Qed.
Lemma add_data_returns n ss : Forall (λ s, data_of_length n (se_Data s)) ss → ∀ other, agg_ok n other → returns (add_data other ss) (agg_ok n).
Proof.
  induction 1 as [|s ss Hs _ IH]; intros other Ho; cbn [add_data]; [by apply returns_ret|].
  eapply returns_bind; [by apply data_gettable|]. intros ts Hts. apply IH. apply add_ok; [done|by constructor].
Qed.
Lemma topN_returns n ss k by_ : Forall (λ s, data_of_length n (se_Data s)) ss → returns (topN ss k by_) (Forall gettable).
Proof.
  intros Hss. unfold topN. eapply returns_bind; [by apply (weigh_returns n)|]. intros sortable Hsort.
  assert (Hs : Forall (λ s, data_of_length n (se_Data s)) (fst <$> order_by heavier sortable)).
  { apply Forall_fmap. unfold order_by. by rewrite merge_sort_Permutation. }
  eapply returns_bind; [apply (add_data_returns n); [by apply Forall_drop|apply new_ok]|]. intros other Ho.
  eapply returns_bind; [by apply Get_returns|]. intros otherTs _. apply returns_ret, Forall_app. split.
  - apply Forall_take. eapply Forall_impl; [exact Hs|]. intros s. apply series_gettable.
  - destruct (TimeSeries.IsEmpty otherTs); constructor; [|done]. by exists otherTs.
Qed.
Lemma percentile_series_returns h qs : returns (percentile_series h qs) (Forall gettable).
Proof.
  induction qs as [|q qs IH]; cbn [percentile_series]; [by apply returns_ret|].
  eapply returns_bind; [apply Quantile_returns|]. intros ts _. eapply returns_bind; [exact IH|]. intros rest Hrest.
  apply returns_ret. constructor; [by exists ts|done].
Qed.
Lemma written_series_returns n ch : chart_of_length n ch → returns (written_series (cht_Series ch)) (Forall gettable).
Proof.
  unfold chart_of_length, written_series. intros Hch.
  assert (Hp : returns (let* ps := percentile_series (sl_histogram (cht_Series ch)) (sl_percentiles (cht_Series ch)) in
                        Ret (sl_series (cht_Series ch) ++ ps)%list) (Forall gettable)).
  { eapply returns_bind; [apply percentile_series_returns|]. intros ps Hps. apply returns_ret, Forall_app. split; [|done].
    eapply Forall_impl; [exact Hch|]. intros s. apply series_gettable. }
  destruct (sl_topF _); [|done]. destruct (0 <? _); [|done]. by apply (topN_returns n).
Qed.
Lemma reread_returns ss : Forall gettable ss → returns (reread ss) (λ _, True).
Proof.
  induction 1 as [|s ss Hs _ IH]; cbn [reread]; [by apply returns_ret|]. unfold sd_MarshalJSON.
  eapply returns_bind; [eapply returns_bind; [exact Hs|intros; apply TS_MarshalJSON_returns]|]. intros. returning.
Qed.
Lemma mcpSummarizeChart_returns n ch : (∀ c, ch = Some c → chart_of_length n c) → returns (mcpSummarizeChart ch) (λ _, True).
Proof.
  intros Hch. destruct ch as [ch|]; cbn [mcpSummarizeChart]; [|by apply returns_ret].
  destruct (Chart_IsEmpty ch); [by apply returns_ret|].
  eapply returns_bind; [by apply (written_series_returns n), Hch|]. intros ss Hss.
  eapply returns_bind; [by apply reread_returns|]. intros. returning.
Qed.
Lemma mcpExtractCharts_returns n widgets : Forall (widget_of_length n) widgets → returns (mcpExtractCharts widgets) (λ _, True).
Proof.
  intros Hw. unfold mcpExtractCharts. set (l := List.concat _).
  assert (Hl : Forall (λ ch, ∀ c, ch = Some c → chart_of_length n c) l).
  { apply Forall_concat, Forall_fmap. eapply Forall_impl; [exact Hw|]. intros w [Hc Hg]. apply Forall_app. split.
    - destruct (wi_Chart w) as [ch|]; constructor; [|done]. intros c [= <-]. by apply Hc.
    - destruct (wi_ChartGroup w) as [g|]; [|constructor]. apply Forall_forall. intros ch Hin c ->. by eapply Hg. }
  induction Hl as [|ch l Hch _ IH]; cbn [summarize_charts]; [by apply returns_ret|].
  eapply returns_bind; [by apply (mcpSummarizeChart_returns n)|]. intros. returning.
Qed.

(** ** Applications *)
Lemma container_series n l (f : ContainerView → option TimeSeries) :
  Forall (instance_of_length n) l → (∀ c, of_length n (cv_CpuUsage c) ∧ of_length n (cv_MemoryRss c) → of_length n (f c)) →
  Forall (of_length n) (f <$> filter (λ c, cv_InitContainer c = false) (List.concat (in_Containers <$> l))).
Proof.
  intros Hl Hf. apply Forall_fmap, Forall_forall. intros c [_ Hc]%list_elem_of_filter.
  apply list_elem_of_In, in_concat in Hc as (cs & Hcs & Hin). apply list_elem_of_In, list_elem_of_fmap in Hcs as (i & -> & Hi).
  rewrite Forall_forall in Hl. destruct (Hl i Hi) as [Hcs _]. rewrite Forall_forall in Hcs.
  apply Hf, Hcs. by apply list_elem_of_In.
Qed.
Lemma mcpComputeVitals_returns n a : Forall (instance_of_length n) (av_Instances a) → returns (mcpComputeVitals a) (λ _, True).
Proof.
  intros Hi. unfold mcpComputeVitals. do 3 (eapply returns_bind; [apply Quantile_returns|intros ? _]).
  do 2 (eapply returns_bind; [apply (Get_returns n), add_ok; [apply new_ok|apply container_series; naive_solver]|intros ? _]).
  apply summarize_all_returns.
Qed.

Lemma rank_patterns_returns severity l : returns (rank_patterns severity l) (λ _, True).
Proof. induction l as [|[hash p] l IH]; cbn [rank_patterns]; returning. Qed.
#[local] Hint Resolve rank_patterns_returns : returns.
Lemma rank_messages_returns l : returns (rank_messages l) (λ _, True).
Proof. induction l as [|[severity ps] l IH]; cbn [rank_messages]; returning. Qed.
#[local] Hint Resolve rank_messages_returns : returns.
Lemma mcpExtractLogPatterns_returns a k : returns (mcpExtractLogPatterns a k) (λ _, True).
Proof. unfold mcpExtractLogPatterns. returning. Qed.
#[local] Hint Resolve mcpExtractLogPatterns_returns : returns.

Lemma add_all_ok n p l : Forall (λ e, of_length n e.2) l → ∀ a, agg_ok n a → agg_ok n (add_all p l a).
Proof.
  unfold add_all. induction 1 as [|e l He _ IH]; intros a Ha; cbn [foldl]; [done|]. apply IH. destruct (p e.1); [|done].
  apply add_ok; [done|by constructor].
Qed.
Lemma sum_requests_returns n p c : connection_of_length n c → returns (sum_requests p c) (of_length n).
Proof.
  intros [Hc _]. unfold sum_requests. apply Get_returns. revert Hc. generalize (ac_RequestsCount c). generalize (new_ok n NanSum).
  generalize (Aggregate.NewAggregate NanSum). intros a Ha l Hl. revert a Ha.
  induction Hl as [|e l He _ IH]; intros a Ha; cbn [foldl]; [done|]. apply IH. by apply add_all_ok.
Qed.
Lemma requests_with_length n c protocol : connection_of_length n c → Forall (λ e, of_length n e.2) (requests_with c protocol).
Proof.
  intros [Hc _]. unfold requests_with. destruct (List.find _ _) as [e|] eqn:E; [|constructor]. cbn.
  apply List.find_some in E as [Hin _]. rewrite Forall_forall in Hc. apply Hc. by apply list_elem_of_In.
Qed.
Lemma latency_sums_returns n c l : connection_of_length n c → Forall (λ e, of_length n e.2) l → ∀ time count, agg_ok n time → agg_ok n count →
  returns (latency_sums c l time count) (λ s, agg_ok n s.1 ∧ agg_ok n s.2).
Proof.
  intros Hc. induction 1 as [|[protocol latency] l He _ IH]; intros time count Ht Hn; cbn [latency_sums]; [by apply returns_ret|].
  assert (Hr := requests_with_length n c protocol Hc). destruct (requests_with c protocol) as [|x requests] eqn:E; [by apply IH|].
  eapply returns_bind; [by apply (Get_returns n), add_all_ok; [|apply new_ok]|]. intros req Hreq.
  apply IH; apply add_ok; try done; by constructor.
Qed.
Lemma GetConnectionsRequestsLatency_returns n c : connection_of_length n c → returns (GetConnectionsRequestsLatency c) (λ _, True).
Proof.
  intros Hc. unfold GetConnectionsRequestsLatency.
  eapply returns_bind; [apply (latency_sums_returns n); [done|apply Hc|apply new_ok..]|]. intros [time count] [Ht Hn].
  eapply returns_bind; [by apply (Get_returns n)|]. intros t _. eapply returns_bind; [by apply (Get_returns n)|]. intros.
  apply Aggregate2_returns.
Qed.

Lemma get_buckets_returns n sums : Forall (λ s, agg_ok n s.2) sums → returns (get_buckets sums) (λ _, True).
Proof.
  induction 1 as [|[le agg] sums Hs _ IH]; cbn [get_buckets]; [by apply returns_ret|].
  eapply returns_bind; [by apply (Get_returns n)|]. intros. returning.
Qed.
Lemma add_bucket_ok n le ts sums : of_length n ts → Forall (λ s, agg_ok n s.2) sums → Forall (λ s, agg_ok n s.2) (add_bucket le ts sums).
Proof.
  intros Hts. induction 1 as [|[le' agg] sums Hs Hss IH]; cbn [add_bucket].
  - constructor; [|done]. apply add_ok; [apply new_ok|by constructor].
  - destruct (F32.eqb _ _); constructor; try done. apply add_ok; [done|by constructor].
Qed.
Lemma mcpAggregateUpstreamHistogram_returns n a to : Forall (instance_of_length n) (av_Instances a) →
  returns (mcpAggregateUpstreamHistogram a to) (λ _, True).
Proof.
  intros Hi. unfold mcpAggregateUpstreamHistogram. eapply returns_bind; [|intros; by apply returns_ret]. apply (get_buckets_returns n).
  assert (Hb : Forall (λ b, of_length n b.2) (upstream_buckets a to)).
  { unfold upstream_buckets. apply Forall_concat, Forall_concat, Forall_fmap, Forall_forall. intros u [_ Hu]%list_elem_of_filter.
    apply list_elem_of_In, in_concat in Hu as (us & Hus & Hin). apply list_elem_of_In, list_elem_of_fmap in Hus as (i & -> & Hii).
    rewrite Forall_forall in Hi. destruct (Hi i Hii) as [_ Hup]. rewrite Forall_forall in Hup.
    apply Forall_fmap. apply (Hup u). by apply list_elem_of_In. }
  assert (Hs : Forall (λ s : f32 * Aggregate.t, agg_ok n s.2) []) by constructor. revert Hs. generalize ([] : list (f32 * Aggregate.t)).
  induction Hb as [|b bs Hb _ IH]; intros sums Hs; cbn [foldl]; [done|]. apply IH. by apply add_bucket_ok.
Qed.

Lemma latency_of_returns n a conn rem : Forall (instance_of_length n) (av_Instances a) → connection_of_length n conn → returns (latency_of a conn rem) (λ _, True).
Proof.
  intros Hi Hc. unfold latency_of. eapply returns_bind; [by apply (GetConnectionsRequestsLatency_returns n)|]. intros latency _.
  eapply returns_bind; [apply mcpLastNotNull_returns|]. intros avg _.
  eapply returns_bind; [by apply (mcpAggregateUpstreamHistogram_returns n)|]. intros buckets _. cbv zeta beta.
  do 3 (eapply returns_bind; [eapply returns_bind; [apply Quantile_returns|intros; apply mcpLastNotNull_returns]|intros ? _]).
  by apply returns_ret.
Qed.
Lemma dependency_returns n a conn rem : Forall (instance_of_length n) (av_Instances a) → connection_of_length n conn → returns (dependency a conn rem) (λ _, True).
Proof.
  intros Hi Hc. unfold dependency. destruct (ConnectionStatus conn) as [cs msg].
  eapply returns_bind; [apply mcpLastNotNull_returns|]. intros rtt _.
  do 2 (eapply returns_bind; [by apply (sum_requests_returns n)|]; intros ? _; eapply returns_bind; [apply mcpLastNotNull_returns|]; intros ? _).
  eapply returns_bind; [by apply (latency_of_returns n)|]. intros. by apply returns_ret.
Qed.
Lemma dependencies_returns n a l : Forall (instance_of_length n) (av_Instances a) → Forall (connection_of_length n) l → returns (dependencies a l) (λ _, True).
Proof.
  intros Hi. induction 1 as [|conn l Hc _ IH]; cbn [dependencies]; [by apply returns_ret|].
  destruct (actual_remote conn) as [rem|]; [|done]. eapply returns_bind; [by apply (dependency_returns n)|]. intros. returning.
Qed.
Lemma report_statuses_returns n a l : Forall (λ r, Forall (widget_of_length n) (rv_Widgets r)) l → returns (report_statuses a l) (λ _, True).
Proof.
  induction 1 as [|r l Hr _ IH]; cbn [report_statuses]; [by apply returns_ret|]. eapply (returns_bind _ _ (λ _, True)); [|intros; returning].
  unfold report_status. eapply (returns_bind _ _ (λ _, True)); [destruct (_ <=? _); [by apply (mcpExtractCharts_returns n)|by apply returns_ret]|].
  intros charts _. eapply (returns_bind _ _ (λ _, True)); [destruct (String.eqb _ _); [apply mcpExtractLogPatterns_returns|by apply returns_ret]|].
  intros. by apply returns_ret.
Qed.

(** The status of an application whose series are those of a world. *)
Lemma app_status_returns id a : view_ok a → returns (app_status id a) (λ s, mas_Id s = AppIdString id ∧ mas_Status s = Status.ToString (av_Status a)).
Proof.
  intros (n & Hi & Hr & Hc). unfold app_status. eapply returns_bind; [by apply (mcpComputeVitals_returns n)|]. intros vitals _.
  eapply returns_bind; [by apply (report_statuses_returns n)|]. intros reports _.
  eapply returns_bind; [by apply (dependencies_returns n)|]. intros deps _. by apply returns_ret.
Qed.
Lemma node_sparklines_returns v : node_ok v → returns (node_sparklines v) (λ _, True).
Proof.
  intros [n Hn]. unfold node_sparklines. eapply (returns_bind _ _ (λ _, True)).
  { unfold memory_percent. destruct (_ || _); [by apply returns_ret|].
    do 2 (eapply returns_bind; [apply Aggregate2_returns|intros ? _]). by apply returns_ret. }
  intros memory _. do 2 (eapply returns_bind; [apply (Get_returns n), add_ok; [apply new_ok|apply Forall_fmap; eapply Forall_impl; [exact Hn|naive_solver]]|intros ? _]).
  apply summarize_all_returns.
Qed.
Lemma query_all_returns l : returns (query_all l) (λ _, True).
Proof.
  induction l as [|mv l IH]; cbn [query_all]; [by apply returns_ret|]. eapply (returns_bind _ _ (λ _, True)); [|intros; returning].
  unfold query_series. eapply (returns_bind _ _ (λ _, True)); [|intros; by apply returns_ret].
  destruct (PromQL.mv_Values mv); [|by apply returns_ret]. apply (for_ts_returns _ (λ _, True)); [intros; by apply returns_ret|done].
Qed.
End SeriesFacts.

(** * What a tool may do and show *)
Section rules.
Context (api : ApiConfig) (user : option User) (session : string).

(** The user of the call has the permission. *)
Definition user_may (a : Rbac.Action) : Prop := ∃ u, user = Some u ∧ IsAllowed api u a = true.
Definition user_lists (projectId : string) : Prop := ∃ u, user = Some u ∧ may_list api u projectId = true.

(** The project that was selected in the session, which the user may still see. *)
Definition chosen (h : list event) (p : Project) : Prop :=
  session ≠ "" ∧ answered h (CGetMcpSessionProject session) (inr (p_Id p)) ∧ answered h (CGetProject (p_Id p)) (inr p) ∧ user_lists (p_Id p).
Definition of_chosen (h : list event) (projectId : string) : Prop := ∃ p, chosen h p ∧ p_Id p = projectId.

(** A call changes nothing but the selection of the session and the alerts of the
    selected project, and reads only the telemetry the user may view. *)
Definition tool_call_ok (h : list event) X (c : call X) : Prop :=
  match c with
  | CSetMcpSessionProject s id => s = session ∧ session ≠ "" ∧ user_lists id
  | CResolveAlerts id _ by_ => of_chosen h id ∧ user_may (AlertsEdit id) ∧ ∃ u, user = Some u ∧ by_ = display_name u ++ " (via MCP)"
  | CEnqueueResolved p _ _ => chosen h p ∧ user_may (AlertsEdit (p_Id p))
  | CQueryRange id _ _ _ _ => of_chosen h id ∧ user_may (MetricsView id)
  | CRenderTraces id _ _ _ _ _ _ => of_chosen h id ∧ user_may (TracesView id)
  | CGetLogSources id _ _ | CGetLogs id _ _ => of_chosen h id ∧ user_may (LogsView id)
  | c => is_write c = false ∧ is_reply c = false
  end.

(** A world that was loaded for the project, and as the auditor was given it. *)
Definition loaded (h : list event) (p : Project) (w : PageWorld) : Prop :=
  ∃ from to err, answered h (CCustomWorld (p_Id p) from to) (Some w, err)
    ∨ ∃ results step, answered h (CConstructWorld (p_Id p) results from to step) (Some w, err).

(** Why no world was loaded for the project from a time on: one of the answers it
    depends on is an error or says that there are no results of that time yet. *)
Definition feeds (h : list event) (p : Project) (id : string) : Prop :=
  id = p_Id p ∨ ∃ projects mp m, answered h CGetProjects (inr projects) ∧ mp ∈ MemberProjects p ∧ projects !! mp = Some m ∧ id = p_Id m.
Inductive unloaded (h : list event) (p : Project) (from : Z) : Prop :=
| unloaded_custom to err : answered h (CCustomWorld (p_Id p) from to) (None, err) → unloaded h p from
| unloaded_world results to step err : answered h (CConstructWorld (p_Id p) results from to step) (None, err) → unloaded h p from
| unloaded_projects e : answered h CGetProjects (inl e) → unloaded h p from
| unloaded_member projects mp : answered h CGetProjects (inr projects) → mp ∈ MemberProjects p → projects !! mp = None → unloaded h p from
| unloaded_status id e : feeds h p id → answered h (CResultsStatus id) (inl e) → unloaded h p from
| unloaded_to id e : feeds h p id → answered h (CResultsTo id) (inl e) → unloaded h p from
| unloaded_late id to : feeds h p id → answered h (CResultsTo id) (inr to) → to = 0 ∨ to < from → unloaded h p from.
(** The world of the last hour, if there is one. *)
Definition world_of_last_hour (h : list event) (p : Project) (w : option PageWorld) : Prop :=
  match w with
  | Some w => loaded h p w
  | None => ∃ now, answered h CNow now ∧ unloaded h p (Time.Add now (wrap64 (- Time.Hour)))
  end.
Definition audited (h : list event) (p : Project) (w : PageWorld) (views : ApplicationId → AppView) : Prop :=
  loaded h p w ∧ ∃ o, answered h (CAudit (p_Id p) w o) views.

(** The logs of a result are the answer to a query: of all that is logged, or, under
    the id of an application, of the services the source has of it.  A source that is
    none of the two has no services, and then the query is of all again. *)
Definition shows_logs (h : list event) (p : Project) (r : mcpLogsResult) : Prop :=
  ∃ clusterId q entries, answered h (CGetLogs (p_Id p) clusterId q) (inr entries) ∧ lr_Entries r = order_by newest_first entries
    ∧ Logs.lq_Source q = lr_Source r
    ∧ (lr_AppId r = "" ∧ clusterId = "" ∧ Logs.lq_Services q = []
       ∨ ∃ w app a service, loaded h p w ∧ app ∈ pw_Applications w ∧ answered h (CAppView w (pa_Id app)) a
         ∧ user_may (ApplicationView (p_Id p) app) ∧ lr_AppId r = AppIdString (pa_Id app) ∧ clusterId = AppId.ClusterId (pa_Id app)
         ∧ Logs.lq_Services q = LogQueryServices a (lr_Source r) service
         ∧ (lr_Source r ∈ [Logs.LogSourceAgent; Logs.LogSourceOtel] → Logs.lq_Services q ≠ [])).

(** What a result shows, in the selected project [p]: of an application, an alert
    or an incident what the user may view of its application (of an incident by the
    category the application has in the world, an empty one if it is not there), of
    a node what the user may view of it.  The names and statuses of the applications
    an application is connected with ([mas_Dependencies], [mas_Clients]) are shown
    with it, and need nothing. *)
Definition shows_ok (h : list event) (p : Project) (d : tool_payload) : Prop :=
  match d with
  | TProjects _ | TSelected _ _ => False
  | TApplications l => ∀ info, info ∈ l → ∃ w views app, audited h p w views ∧ app ∈ pw_Applications w
      ∧ info = app_info app (views (pa_Id app)) ∧ user_may (ApplicationView (p_Id p) app)
  | TAppStatus s => ∃ w views app, audited h p w views ∧ app ∈ pw_Applications w
      ∧ app_status (pa_Id app) (views (pa_Id app)) = Ret s ∧ user_may (ApplicationView (p_Id p) app)
  | TAlerts l => user_may (AlertsView (p_Id p)) ∧ Forall (λ a, user_may (AlertAction (p_Id p) a)) l
  | TIncidents l => ∃ w, world_of_last_hour h p w ∧ Forall (λ i, user_may (IncidentAction (p_Id p) w i)) l
  | TIncident i => ∃ w, world_of_last_hour h p w ∧ user_may (IncidentAction (p_Id p) w i)
  | TResolved _ _ => user_may (AlertsEdit (p_Id p))
  | TNodes l => Forall (λ n, user_may (Api.NodeView (p_Id p) n.1)) l
  | TNode report _ => ∃ name w node v, loaded h p w ∧ GetNode w name = Some node ∧ user_may (Api.NodeView (p_Id p) name)
      ∧ answered h (CAuditNode w node) v ∧ report = nv_Report v
  | TTraces _ _ => user_may (TracesView (p_Id p))
  | TQueryMetrics _ | TMetricNames _ => user_may (MetricsView (p_Id p))
  | TLogs r => user_may (LogsView (p_Id p)) ∧ shows_logs h p r
  end.
Definition payload_allowed (h : list event) (d : tool_payload) : Prop :=
  match d with
  | TProjects m => ∀ name id, m !! name = Some id → user_lists id
  | TSelected id _ => user_lists id
  | d => ∃ p, chosen h p ∧ shows_ok h p d
  end.
Definition result_ok (h : list event) (res : tool_result) : Prop :=
  match res with ToolText d => payload_allowed h d | ToolError _ | ToolFailed => True end.
End rules.

(** Where a tool may crash: the status of no application. *)
Definition tool_crash (name : string) (req : ToolRequest) : Prop := name = "get_application_status" ∧ tr_RequireString req "app_id" = inr "".

Module ToolsFacts.
Import SeriesFacts HandlersFacts.
Section facts.
Context `{UrlParse} `{PromParser} `{Durations} `{Logs.LowerCase} `{Printable} (api : ApiConfig) (user : option User) (session : string) (C : Prop).

Definition good (h : list event) (p : prog tool_result) : Prop :=
  wp (tool_call_ok api user session) C h p (result_ok api user session).

Lemma good_error h m : good h (error_ m).
Proof. done. Qed.
Lemma good_failed h : good h (Done ToolFailed).
Proof. done. Qed.
Lemma good_text h d : payload_allowed api user session h d → good h (text_ d).
Proof. intros Hd. unfold good, text_, MCPJSON. cbn. by destruct (marshals d). Qed.
Lemma good_unless {E A} h (x : E + A) m k : (∀ a, x = inr a → good h (k a)) → good h (unless_error x m k).
Proof. destruct x; cbn; [done|]. intros W. by apply W. Qed.
Lemma good_ask {X} h (c : call X) k : tool_call_ok api user session h X c →
  (∀ l x, sound c x → answered (h ++ l)%list c x → good (h ++ l)%list (k x)) → good h (ask_ c ≫= k).
Proof. intros Hc Hk. apply wp_bind, wp_ask; [done|]. intros x. apply Hk. Qed.
Lemma tool_read_ok h X (c : call X) : is_read X c = true → tool_call_ok api user session h X c.
Proof. by destruct c. Qed.
Lemma good_reads {A} h (p : prog A) k : calls_only is_read p → (∀ l a, good (h ++ l)%list (k a)) → good h (p ≫= k).
Proof. intros Hp Hk. apply wp_bind. eapply (wp_calls_only _ _ is_read); [done|intros; by apply tool_read_ok|done]. Qed.
Lemma good_allowed h u a m k : user = Some u → (user_may api user a → good h k) → good h (allowed api u a m k).
Proof. unfold allowed. intros -> Hk. destruct (IsAllowed api u a) eqn:E; [|done]. apply Hk. by exists u. Qed.
Lemma good_lift {A} h (o : outcome A) P k : returns o P → (∀ a, o = Ret a → P a → good h (k a)) → good h (lift o ≫= k).
Proof. intros (a & -> & Ha) Hk. by apply Hk. Qed.
Lemma good_assoc {A B} h (p : prog A) (f : A → prog B) k : good h (p ≫= λ a, f a ≫= k) → good h ((p ≫= f) ≫= k).
Proof. revert h. induction p as [a|X c k' IH|]; intros h; cbn; [done| |done]. intros [Hc Hk]. split; [done|]. intros x Hx. apply IH, Hk, Hx. Qed.

Lemma chosen_app h l p : chosen api user session h p → chosen api user session (h ++ l)%list p.
Proof. intros (Hs & Ha & Hp & Hl). split_and!; try done; by apply answered_app. Qed.
Lemma good_project h k :
  (∀ l u p, user = Some u → chosen api user session (h ++ l)%list p → good (h ++ l)%list (k u p)) →
  good h (RequireUserAndProject api user session k).
Proof.
  intros Hk. unfold RequireUserAndProject. destruct user as [u|] eqn:Eu; [|done]. unfold currentProject. apply wp_bind.
  destruct (String.eqb_spec session ""); [done|]. apply wp_bind, wp_ask; [done|]. intros [e|id] _ Ha; [done|].
  destruct (String.eqb id ""); [done|]. apply wp_bind, wp_ask; [done|]. intros [e|p] Hp Ha'; [done|]. cbn.
  assert (p_Id p = id) as <- by (by apply Hp). destruct (may_list api u (p_Id p)) eqn:El; [|done].
  rewrite <- app_assoc. apply Hk; [done|]. rewrite app_assoc. split_and!; [done|by apply answered_app|done|]. by exists u.
Qed.
Lemma last_hour_reads p : calls_only is_read (last_hour api p).
Proof. unfold last_hour. reads. apply LoadWorld_reads. Qed.
Lemma loaded_app h l p w : loaded h p w → loaded (h ++ l)%list p w.
Proof.
  intros (from & to & err & [Ha|(results & step & Ha)]); exists from, to, err; [left|right; exists results, step]; by apply answered_app.
Qed.
Lemma feeds_app h l p id : feeds h p id → feeds (h ++ l)%list p id.
Proof.
  intros [->|(projects & mp & m & Ha & Hin)]; [by left|right]. exists projects, mp, m. split; [by apply answered_app|done].
Qed.
Lemma unloaded_app h l p from : unloaded h p from → unloaded (h ++ l)%list p from.
Proof.
  destruct 1; [eapply unloaded_custom|eapply unloaded_world|eapply unloaded_projects|eapply unloaded_member|eapply unloaded_status|
    eapply unloaded_to|eapply unloaded_late]; by eauto using answered_app, feeds_app.
Qed.
Definition worlds_loaded (p : Project) (from : Z) (h : list event) (l : Loaded) : Prop :=
  match l.1.1 with Some w => loaded h p w | None => unloaded h p from end.
Lemma construct_loaded h p results status from to : wp (tool_call_ok api user session) C h (construct p results status from to) (worlds_loaded p from).
Proof.
  unfold construct. apply wp_bind, wp_ask; [done|]. intros [[w|] err] _ Ha; [|by eapply unloaded_world].
  do 3 eexists. right. by do 2 eexists.
Qed.
Lemma late_or from to : Time.IsZero to || (to <? from) = true → to = 0 ∨ to < from.
Proof. intros [E|E]%orb_true_iff; [left; by apply bool_decide_eq_true in E|right; by apply Z.ltb_lt]. Qed.
Lemma load_members_loaded p projects from members : (∀ mp, mp ∈ members → mp ∈ MemberProjects p) → ∀ h results status to,
  answered h CGetProjects (inr projects) →
  wp (tool_call_ok api user session) C h (load_members p projects members results status from to) (worlds_loaded p from).
Proof.
  induction members as [|mp members IH]; intros Hm h results status to Hp; cbn [load_members]; [apply construct_loaded|].
  assert (mp ∈ MemberProjects p) as Hmp by (apply Hm, list_elem_of_here).
  destruct (projects !! mp) as [m|] eqn:E; [|by eapply unloaded_member].
  assert (∀ h, answered h CGetProjects (inr projects) → feeds h p (p_Id m)) as Hf by (intros h' Hp'; right; by exists projects, mp, m).
  apply wp_bind, wp_ask; [done|]. intros [e|cs] _ Ha; [by eapply unloaded_status; [apply feeds_app, Hf|]|].
  apply wp_bind, wp_ask; [done|]. intros [e|resultsTo] _ Ha'; [by eapply unloaded_to; [apply feeds_app, feeds_app, Hf|]|].
  destruct (_ || _) eqn:El; [eapply unloaded_late; [apply feeds_app, feeds_app, Hf; done|done|by apply late_or]|].
  apply IH; [intros ? ?; by apply Hm, list_elem_of_further|by apply answered_app, answered_app].
Qed.
Lemma LoadWorld_loaded h p from to : wp (tool_call_ok api user session) C h (LoadWorld api p from to) (worlds_loaded p from).
Proof.
  unfold LoadWorld. destruct (ap_loadWorld api).
  { apply wp_bind, wp_ask; [done|]. intros [[w|] err] _ Ha; [|by eapply unloaded_custom]. do 3 eexists. by left. }
  destruct (Multicluster p).
  - apply wp_bind, wp_ask; [done|]. intros [e|projects] _ Ha; [by eapply unloaded_projects|]. by apply load_members_loaded.
  - assert (∀ h, feeds h p (p_Id p)) as Hf by (by left).
    apply wp_bind, wp_ask; [done|]. intros [e|status] _ Ha; [by eapply unloaded_status|].
    apply wp_bind, wp_ask; [done|]. intros [e|resultsTo] _ Ha'; [by eapply unloaded_to|].
    destruct (_ || _) eqn:El; [|apply construct_loaded]. eapply unloaded_late; [done..|by apply late_or].
Qed.
Lemma good_world h p from to k :
  (∀ l loaded, worlds_loaded p from (h ++ l)%list loaded → good (h ++ l)%list (k loaded)) → good h (LoadWorld api p from to ≫= k).
Proof.
  intros Hk. apply wp_bind. eapply (wp_weaken (P := tool_call_ok api user session) (C := C)); [| |apply LoadWorld_loaded]; [done|apply Hk].
Qed.
Lemma good_last_hour h p k :
  (∀ l w err, world_of_last_hour (h ++ l)%list p w → good (h ++ l)%list (k (w, err))) → good h (last_hour api p ≫= k).
Proof.
  intros Hk. unfold last_hour. apply good_assoc, good_ask; [done|]. intros l now _ Ha. apply good_assoc, good_world.
  intros l' [[w st] err] Hl. cbn [mbind prog_bind bind_prog fst snd]. rewrite <- app_assoc. apply Hk. rewrite app_assoc.
  destruct w; [exact Hl|]. exists now. split; [by apply answered_app|exact Hl].
Qed.
Lemma good_resolve h u p w s k : user = Some u → (s = "" → good h (k None)) →
  (∀ app, app ∈ pw_Applications w → user_may api user (ApplicationView (p_Id p) app) → good h (k (Some app))) →
  good h (ResolveApp api u p w s k).
Proof.
  intros Hu Hnone Hk. unfold ResolveApp. destruct (String.eqb_spec s ""); [by apply Hnone|].
  destruct (NewApplicationIdFromString _ _) as [id|]; [|done]. destruct (GetApplication w id) as [app|] eqn:E; [|done].
  apply good_allowed; [done|]. intros Hm. apply Hk; [|done]. unfold GetApplication in E.
  apply List.find_some in E as [E _]. by apply list_elem_of_In.
Qed.
Lemma optional_app_good h p s k : (∀ x, good h (k x)) → good h (optional_app p s k).
Proof. intros Hk. unfold optional_app. destruct (String.eqb _ _); [apply Hk|]. by destruct (NewApplicationIdFromString _ _). Qed.
End facts.
#[export] Hint Resolve chosen_app loaded_app : handlers.
End ToolsFacts.

(** ** The tools *)
Module ToolsSpec.
Import SeriesFacts HandlersFacts ToolsFacts.
Section spec.
Context `{UrlParse} `{PromParser} `{Durations} `{Logs.LowerCase} `{Printable} (api : ApiConfig) (req : ToolRequest) (user : option User) (session : string) (C : Prop).
Notation good := (good api user session C).
Notation chosen := (chosen api user session).

(** One step of a tool. *)
Ltac tool_step :=
  match goal with
  | |- ToolsFacts.good _ _ _ _ _ (error_ _) => apply good_error
  | |- ToolsFacts.good _ _ _ _ _ (Done ToolFailed) => apply good_failed
  | |- ToolsFacts.good _ _ _ _ _ (text_ _) => apply good_text
  | |- ToolsFacts.good _ _ _ _ _ (RequireUserAndProject _ _ _ _) => apply good_project; intros ? ? ? ? ?
  | |- ToolsFacts.good _ _ _ _ _ (allowed _ _ _ _ _) => apply good_allowed; [done|intros ?]
  | |- ToolsFacts.good _ _ _ _ _ (unless_error _ _ _) => apply good_unless; intros ? ?
  | |- ToolsFacts.good _ _ _ _ _ (optional_app _ _ _) => apply optional_app_good; intros ?
  | |- ToolsFacts.good _ _ _ _ _ (last_hour _ _ ≫= _) => apply good_last_hour; intros ? ? ? ?
  | |- ToolsFacts.good _ _ _ _ _ (LoadWorld _ _ _ _ ≫= _) => apply good_world; intros ? ? ?
  | |- ToolsFacts.good _ _ _ _ _ (ask_ _ ≫= _) => apply good_ask; [first [by apply tool_read_ok|cbn [tool_call_ok]]|intros ? ? ? ?]
  | |- ToolsFacts.good _ _ _ _ _ ((_ ≫= _) ≫= _) => apply good_assoc
  | |- ToolsFacts.good _ _ _ _ _ (Done _ ≫= _) => cbn [mbind prog_bind bind_prog]
  | |- ToolsFacts.good _ _ _ _ _ (_ ≫= _) => apply good_reads; [solve [first [apply last_hour_reads|reads; eauto with handlers]]|intros ? ?]
  | |- ToolsFacts.good _ _ _ _ _ (let '(_, _) := ?x in _) => destruct x
  | |- ToolsFacts.good _ _ _ _ _ (match ?x with _ => _ end) => destruct x eqn:?
  | |- ToolsFacts.good _ _ _ _ _ (if ?x then _ else _) => destruct x eqn:?
  end.
Ltac tool := repeat tool_step.

(** The world was loaded for the selected project. *)
Ltac loaded :=
  match goal with
  | Hw : worlds_loaded ?p _ ?h (Some _, _, _) |- McpSpec.loaded ?h ?p _ => exact Hw
  | Hw : world_of_last_hour ?h ?p (Some _) |- McpSpec.loaded ?h ?p _ => exact Hw
  | |- McpSpec.loaded (_ ++ _)%list _ _ => simple apply loaded_app; loaded
  end.

(** The selected project is still the selected one. *)
Ltac chosen :=
  match goal with
  | Hc : McpSpec.chosen _ _ _ ?h ?p |- McpSpec.chosen _ _ _ ?h ?q => unify q p; exact Hc
  | |- McpSpec.chosen _ _ _ (_ ++ _)%list _ => simple apply chosen_app; chosen
  end.

Lemma may_filter {A} (f : A → Rbac.Action) u l : user = Some u → Forall (λ x, user_may api user (f x)) (filter (λ x, IsAllowed api u (f x) = true) l).
Proof. intros Hu. apply Forall_forall. intros x [Hx _]%list_elem_of_filter. by exists u. Qed.

Lemma toolListProjects_good h : good h (toolListProjects api req user session).
Proof.
  unfold toolListProjects. destruct user as [u|]; [|apply good_error]. tool. cbn. intros name id Hm.
  apply elem_of_list_to_map_2, list_elem_of_fmap in Hm as ([id' name'] & [= -> ->] & [Hl _]%list_elem_of_filter). by exists u.
Qed.
Lemma toolSelectProject_good h : good h (toolSelectProject api req user session).
Proof.
  unfold toolSelectProject. destruct user as [u|]; [|apply good_error]. apply good_unless. intros id _.
  destruct (may_list api u id) eqn:El; cbn [negb]; [|apply good_error]. apply good_ask; [done|]. intros l [e|p] Hp _; [apply good_error|]. cbn [unless_error].
  assert (p_Id p = id) as -> by (by apply Hp).
  destruct (String.eqb_spec session ""); [apply good_error|]. tool; [by split_and!; [..|exists u]|]. by exists u.
Qed.
Lemma toolListApplications_good h : good h (toolListApplications api req user session).
Proof.
  unfold toolListApplications. tool; (eexists; split; [chosen|]); intros info Hi; [|by apply not_elem_of_nil in Hi].
  unfold sorted_by, order_by in Hi. rewrite merge_sort_Permutation in Hi. apply list_elem_of_fmap in Hi as (app & -> & [Ha Hin]%list_elem_of_filter).
  do 3 eexists. split; [split; [loaded|by eexists]|]. split_and!; [done|done|by eexists].
Qed.
Lemma toolListAlerts_good h : good h (toolListAlerts api req user session).
Proof.
  unfold toolListAlerts. tool. eexists; split; [chosen|]. split; [done|].
  apply Forall_forall. intros al [Hal _]%list_elem_of_filter. apply andb_true_iff in Hal as [_ Hal]. by eexists.
Qed.
Lemma fetchIncidents_reads projectId hours state limit : calls_only is_read (fetchIncidents projectId hours state limit).
Proof. unfold fetchIncidents. reads. Qed.
#[local] Hint Resolve fetchIncidents_reads : handlers.
Lemma toolListIncidents_good h : good h (toolListIncidents api req user session).
Proof.
  unfold toolListIncidents. tool. eexists; split; [chosen|]. eexists; split; [done|]. apply Forall_take. unfold order_by. rewrite merge_sort_Permutation.
  apply Forall_forall. intros inc [Hinc _]%list_elem_of_filter. apply andb_true_iff in Hinc as [_ Hinc]. by eexists.
Qed.
Lemma toolGetIncidentDetails_good h : good h (toolGetIncidentDetails api req user session).
Proof. unfold toolGetIncidentDetails. tool. eexists; split; [chosen|]. by eexists. Qed.
Lemma notify_resolved_good p by_ l k : user_may api user (AlertsEdit (p_Id p)) → (∀ h, chosen h p → good h k) →
  ∀ rules h, chosen h p → good h (notify_resolved p by_ rules l ≫= λ _, k).
Proof.
  intros Hm Hk. induction l as [|a l IH]; intros rules h Hp; cbn [notify_resolved]; [by apply Hk|].
  apply good_assoc. apply good_reads; [destruct (rules !! _); reads|]. intros h' [rule|]; [|cbv beta iota; apply IH; chosen].
  apply good_assoc, good_ask; [split; [chosen|done]|]. intros l' [] _ _. apply IH. chosen.
Qed.
Lemma toolResolveAlerts_good h : good h (toolResolveAlerts api req user session).
Proof.
  unfold toolResolveAlerts, resolveAlerts. tool.
  - split; [eexists; split; [chosen|done]|]. split; [done|]. by eexists.
  - match goal with |- context [match ?x with Some _ => _ | None => _ end ≫= _] => destruct x end; [apply good_error|].
    apply good_assoc, notify_resolved_good; [done| |chosen]. intros h' Hp. cbn [mbind prog_bind bind_prog]. apply good_text. exists p. by split.
Qed.

Lemma toolGetApplicationStatus_good h :
  (tr_RequireString req "app_id" = inr "" → C) → good h (toolGetApplicationStatus api req user session).
Proof.
  intros HC. unfold toolGetApplicationStatus. tool. apply good_resolve; [done|intros Es|intros app Hin Hm].
  - apply good_ask; [by apply tool_read_ok|]. intros ? ? ? ?. cbn. apply HC. by subst.
  - apply good_ask; [by apply tool_read_ok|]. intros l' views Hv Ha. cbv beta iota.
    eapply good_lift; [apply app_status_returns, Hv|]. intros s Es _. apply good_text. eexists; split; [chosen|].
    do 3 eexists. split; [split; [loaded|by eexists]|by split_and!].
Qed.
Lemma toolListNodes_good h : good h (toolListNodes api req user session).
Proof. unfold toolListNodes. tool; (eexists; split; [chosen|]); [by apply may_filter|constructor]. Qed.
Lemma toolGetNodeDetails_good h : good h (toolGetNodeDetails api req user session).
Proof.
  unfold toolGetNodeDetails. tool. eapply good_lift; [by apply node_sparklines_returns|]. intros sparklines _ _. tool.
  eexists; split; [chosen|]. do 4 eexists. split; [loaded|]. by split_and!.
Qed.
Lemma toolQueryMetrics_good h : good h (toolQueryMetrics api req user session).
Proof.
  unfold toolQueryMetrics. tool; [split; [eexists; split; [chosen|done]|done]|].
  eapply good_lift; [apply query_all_returns|]. intros out _ _. tool. eexists; split; [chosen|done].
Qed.
Lemma toolListMetricNames_good h : good h (toolListMetricNames api req user session).
Proof.
  unfold toolListMetricNames. tool; [split; [eexists; split; [chosen|done]|done]|]. eexists; split; [chosen|done].
Qed.
Lemma runTracesQuery_good h q part : good h (runTracesQuery api req user session q part).
Proof.
  unfold runTracesQuery. tool; [split; [eexists; split; [chosen|done]|done]|]. eexists; split; [chosen|done].
Qed.
Lemma toolGetTrace_good h : good h (toolGetTrace api req user session).
Proof. unfold toolGetTrace. tool. apply runTracesQuery_good. Qed.

(** The services a source has of an application, none only for a source that is not
    known. *)
Definition source_services (app : option (PageApp * AppView)) (source : string) (services : list string) : Prop :=
  match app with
  | None => services = []
  | Some (_, a) => ∃ service, services = LogQueryServices a source service
      ∧ (source ∈ [Logs.LogSourceAgent; Logs.LogSourceOtel] → services ≠ [])
  end.
Lemma resolveLogSource_good h p clusterId w app source k : chosen h p → user_may api user (LogsView (p_Id p)) →
  (∀ l s services, source_services app s services → good (h ++ l)%list (k s services)) → good h (resolveLogSource p clusterId w app source k).
Proof.
  intros Hp Hm Hk. unfold resolveLogSource. destruct app as [[app a]|]; [|rewrite <- (app_nil_r h); by apply Hk].
  assert (∀ h' service s, (∀ services, source_services (Some (app, a)) s services → good h' (k s services)) →
    good h' (if String.eqb s Logs.LogSourceOtel && String.eqb service "" then
          error_ "no OpenTelemetry service is associated with this application"
        else if String.eqb s Logs.LogSourceAgent && bool_decide (LogQueryServices a s service = []) then
          error_ "no container services found for this application — try source='otel'"
        else k s (LogQueryServices a s service))) as Hguard.
  { intros h' service s Hk'. destruct (_ && _) eqn:Eo; [apply good_error|]. destruct (_ && bool_decide _) eqn:Ea; [apply good_error|].
    apply Hk'. exists service. split; [done|]. unfold LogQueryServices in *.
    intros [->|Hs]%elem_of_cons; [|apply list_elem_of_singleton in Hs as ->].
    - change (String.eqb Logs.LogSourceAgent Logs.LogSourceAgent) with true in Ea. cbn [andb] in Ea. by apply bool_decide_eq_false in Ea.
    - change (String.eqb Logs.LogSourceOtel Logs.LogSourceOtel) with true in *. cbn [andb] in Eo. by rewrite Eo. }
  destruct (String.eqb source Logs.LogSourceAgent).
  - cbn [mbind prog_bind bind_prog]. apply good_unless. intros service _. apply Hguard. rewrite <- (app_nil_r h). apply Hk.
  - apply good_assoc, good_ask; [split; [by exists p|done]|]. intros l x _ _. cbn [mbind prog_bind bind_prog].
    apply good_unless. intros service _. apply Hguard, Hk.
Qed.
Lemma toolQueryLogs_good h : good h (toolQueryLogs api req user session).
Proof.
  unfold toolQueryLogs. tool. apply good_resolve; [done|intros _|intros app Hin Happ];
    (apply good_reads; [apply GetClickhouseClient_reads|]; intros l' [e|[|]]; [apply good_error| |apply good_error]).
  - cbn [with_view mbind prog_bind bind_prog]. apply resolveLogSource_good; [chosen|done|]. intros l3 s services Hs. tool.
    + split; [eexists; split; [chosen|done]|done].
    + eexists; split; [chosen|]. split; [done|]. simplify_eq. do 3 eexists. split; [done|]. split; [done|]. split; [done|left]. done.
  - unfold with_view. apply good_assoc, good_ask; [by apply tool_read_ok|]. intros l'' a _ Ha. cbn [mbind prog_bind bind_prog].
    apply resolveLogSource_good; [chosen|done|]. intros l3 s services (service & Hs & Hne). tool.
    + split; [eexists; split; [chosen|done]|done].
    + eexists; split; [chosen|]. split; [done|]. simplify_eq. do 3 eexists. split; [done|]. split; [done|]. split; [done|right].
      do 4 eexists. split_and!; [loaded|done|by eauto with handlers|done..].
Qed.
End spec.
End ToolsSpec.

(** * Summaries of series *)
Module SummaryFacts.

Definition min_of (l : list f32) : f32 := foldl (λ m v, Min 0 m v) NaN l.
Definition max_of (l : list f32) : f32 := foldl (λ m v, Max 0 m v) NaN l.
Definition last_of (l : list f32) : f32 := foldl (λ s v, if negb (IsNaN v) then v else s) F32.zero l.

Lemma foldl_values {S} (g : S → f32 → S) (pts : list (Z * f32)) s : foldl (λ s p, g s p.2) s pts = foldl g s pts.*2.
Proof. revert s. induction pts as [|p pts IH]; intros s; [done|apply IH]. Qed.
Lemma Reduce_Min ts : Reduce Min (Some ts) = Ret (min_of (ts_data ts)).
Proof. rewrite Reduce_fold. f_equal. rewrite <- points_values. apply (foldl_values (λ m v, Min 0 m v)). Qed.
Lemma Reduce_Max ts : Reduce Max (Some ts) = Ret (max_of (ts_data ts)).
Proof. rewrite Reduce_fold. f_equal. rewrite <- points_values. apply (foldl_values (λ m v, Max 0 m v)). Qed.
Lemma last_value (pts : list (Z * f32)) s :
  (foldl (λ s p, if negb (IsNaN p.2) then (p.1, p.2) else s) s pts).2 = foldl (λ s v, if negb (IsNaN v) then v else s) s.2 pts.*2.
Proof. revert s. induction pts as [|[t v] pts IH]; intros s; cbn; [done|]. rewrite IH. by destruct (IsNaN v). Qed.
Lemma LastNotNull_value ts : ∃ t, LastNotNull (Some ts) = Ret (t, last_of (ts_data ts)).
Proof.
  unfold LastNotNull. rewrite for_ts_fold, fold_go_pure. set (r := foldl _ _ _). exists r.1.
  assert (E : r.2 = last_of (ts_data ts)) by (unfold r; rewrite last_value, points_values; done).
  by rewrite <- E, <- surjective_pairing.
Qed.
Lemma Average_value ts : Average (Some ts) =
  let r := foldl sum_count (F32.zero, 0) (ts_data ts) in Ret (if bool_decide (r.2 = 0) then NaN else F32.div r.1 (F32.of_Z r.2)).
Proof. unfold Average. rewrite for_ts_fold, fold_go_pure. cbn [obind]. by rewrite (foldl_values sum_count), points_values. Qed.

(** What the loop has after the values [l]. *)
Definition summary_of (l : list f32) : summary := foldl summary_step summary_zero l.
Lemma summary_of_spec l :
  let s := summary_of l in
  su_values s = l ∧ su_hasAny s = negb (forallb IsNaN l) ∧ su_last s = last_of l
  ∧ (su_sum s, su_count s) = foldl sum_count (F32.zero, 0) l
  ∧ (if su_hasAny s then su_min s = min_of l ∧ su_max s = max_of l ∧ 0 < su_count s ∧ IsNaN (su_min s) = false ∧ IsNaN (su_max s) = false
     else min_of l = NaN ∧ max_of l = NaN ∧ su_count s = 0).
Proof.
  unfold summary_of, last_of, min_of, max_of. induction l as [|v l IH] using rev_ind; [by split_and!|].
  rewrite !foldl_app, forallb_app. cbn [foldl forallb]. set (s := foldl summary_step _ l) in *.
  destruct IH as (Hv & Ha & Hl & Hs & Hm). rewrite <- Hl, <- Hs. unfold summary_step, sum_count. cbn [fst snd].
  destruct (IsNaN v) eqn:En; cbn [negb su_values su_hasAny su_last su_sum su_count su_min su_max].
  - apply IsNaN_true in En. subst v. rewrite Hv, Max_nan_r, Min_nan_r, !andb_true_r. by split_and!.
  - rewrite Hv, andb_false_r. do 4 (split; [done|]). destruct (su_hasAny s); cbn [negb orb].
    + destruct Hm as (E1 & E2 & ? & Hm1 & Hm2). rewrite <- E1, <- E2. unfold Min, Max. rewrite En, Hm1, Hm2.
      split_and!; [done..|lia| |].
      * by destruct (F32.ltb v _).
      * by destruct (F32.gtb v _).
    + destruct Hm as (-> & -> & ->). by split_and!.
Qed.

(** The bucket of an index is what lies between its cut and the next. *)
Definition cut (total n i : nat) : nat := (i * total / n)%nat.
Lemma cut_le total n i : n ≠ 0%nat → (cut total n i ≤ cut total n (S i))%nat.
Proof. intros Hn. unfold cut. apply Nat.Div0.div_le_mono. lia. Qed.
Lemma cut_max total n i : n ≠ 0%nat → (i ≤ n)%nat → (cut total n i ≤ total)%nat.
Proof.
  intros Hn Hi. unfold cut. transitivity (n * total / n)%nat; [apply Nat.Div0.div_le_mono; nia|].
  by rewrite Nat.mul_comm, Nat.div_mul.
Qed.
Lemma take_take_drop_go {A} (l : list A) a b : (take a l ++ take b (drop a l))%list = take (a + b)%nat l.
Proof. revert a. induction l as [|x l IH]; intros a; [by rewrite !take_nil, drop_nil, take_nil|]. destruct a; [done|]. cbn. by rewrite IH. Qed.
Lemma buckets_prefix values n k : n ≠ 0%nat → (k ≤ n)%nat →
  List.concat (downsample_bucket values n <$> seq 0 k) = take (cut (List.length values) n k) values.
Proof.
  intros Hn. induction k as [|k IH]; intros Hk; [unfold cut; by rewrite Nat.mul_0_l, Nat.Div0.div_0_l|].
  rewrite seq_S, fmap_app, List.concat_app, IH by lia. cbn [fmap list_fmap List.concat]. rewrite app_nil_r, Nat.add_0_l.
  unfold downsample_bucket. fold (cut (List.length values) n k). rewrite Nat.add_1_r. fold (cut (List.length values) n (S k)).
  rewrite Nat.min_l by by apply cut_max. rewrite take_take_drop_go. f_equal. assert (Hc := cut_le (List.length values) n k Hn). lia.
Qed.
Lemma buckets_partition values n : n ≠ 0%nat → List.concat (downsample_bucket values n <$> seq 0 n) = values.
Proof.
  intros Hn. rewrite buckets_prefix by done. unfold cut. rewrite Nat.mul_comm, Nat.div_mul by done. by apply take_ge.
Qed.
End SummaryFacts.

Module SummaryTheorems.
Import SummaryFacts.
(** C30 A summary, which is made in one pass, is what the functions of the series say:
    its last defined value, minimum, maximum and average, and the means of
    consecutive slices that together are all its values; a series without a
    defined value has none. *)
Theorem MCPSummarize_spec name labels ts :
  MCPSummarize name labels (Some ts) MCPSparklineBuckets =
    (if forallb IsNaN (ts_data ts) then Ret (no_value name labels)
     else
       let* last := LastNotNull (Some ts) in
       let* lowest := Reduce Min (Some ts) in
       let* highest := Reduce Max (Some ts) in
       let* average := Average (Some ts) in
       Ret (Some {| sv_Name := name; sv_Labels := labels; sv_Last := Some last.2; sv_Min := Some lowest; sv_Max := Some highest;
                    sv_Avg := Some average; sv_Sparkline := mean <$> (downsample_bucket (ts_data ts) MCPSparklineBuckets <$> seq 0 MCPSparklineBuckets) |}))
  ∧ List.concat (downsample_bucket (ts_data ts) MCPSparklineBuckets <$> seq 0 MCPSparklineBuckets) = ts_data ts.
Proof.
  split; [|by apply buckets_partition]. unfold MCPSummarize. rewrite for_ts_fold, fold_go_pure. cbn [obind].
  rewrite (foldl_values summary_step), points_values. fold (summary_of (ts_data ts)).
  destruct (summary_of_spec (ts_data ts)) as (Hv & Ha & Hl & Hs & Hm). rewrite Ha in *. destruct (forallb IsNaN (ts_data ts)) eqn:En; [done|]. cbn [negb] in *.
  destruct Hm as (-> & -> & Hc & _). destruct (LastNotNull_value ts) as [t ->]. rewrite Reduce_Min, Reduce_Max, Average_value, <- Hs. cbn [obind fst snd].
  rewrite Hv, Hl, bool_decide_false by lia. do 3 f_equal. unfold mcpDownsample. rewrite bool_decide_false; [by rewrite <- list_fmap_compose|].
  intros E. by rewrite E in En.
Qed.
End SummaryTheorems.

(** * The theorems *)
Module McpTheorems.
Import ToolsFacts ToolsSpec.
Section theorems.
Context `{UrlParse} `{PromParser} `{Durations} `{Logs.LowerCase} `{Printable} (api : ApiConfig).

(** C8 What a tool of the MCP endpoint does is allowed to the user of the call,
    whatever the database, the evaluator and ClickHouse answer.  It changes
    nothing but the project of its own session, to one the user may see, and the
    alerts of the selected project, with the permission to edit them; it asks for
    metrics, traces and logs of the selected project only with the permission to
    view them; the applications, alerts, incidents and nodes it lists or details
    are those the user may view ([shows_ok]), but the ids and statuses of what an
    application is connected with are shown with it; the logs under the id of an
    application are those of its services when the source is one of the two that are
    known ([shows_logs]).  The tool itself ends with a result, unless it was asked
    for the status of the application without an id; the rendering of traces, which
    is a call here, need not. *)
Theorem tools_are_allowed name tool req user session env : (name, tool) ∈ tools api → sound_answers env →
  let '(h, res) := run env 0 (tool req user session) in
  (∀ pre e post, h = (pre ++ e :: post)%list → tool_call_ok api user session pre (ev_type e) (ev_call e))
  ∧ match res with Some res => result_ok api user session h res | None => tool_crash name req end.
Proof.
  intros Hin He.
  assert (W : good api user session (tool_crash name req) [] (tool req user session)).
  { unfold tools in Hin. repeat (apply elem_of_cons in Hin as [[= -> ->]|Hin]); [..|by apply not_elem_of_nil in Hin].
    - apply toolListProjects_good.
    - apply toolSelectProject_good.
    - apply toolListApplications_good.
    - apply toolListAlerts_good.
    - apply toolListIncidents_good.
    - apply toolResolveAlerts_good.
    - apply toolGetIncidentDetails_good.
    - apply toolGetApplicationStatus_good. by split.
    - apply toolListNodes_good.
    - apply toolGetNodeDetails_good.
    - apply runTracesQuery_good.
    - apply runTracesQuery_good.
    - apply runTracesQuery_good.
    - apply toolGetTrace_good.
    - apply toolListMetricNames_good.
    - apply toolQueryMetrics_good.
    - apply toolQueryLogs_good. }
  assert (R := wp_result _ _ env _ [] 0%nat _ He W). assert (S := wp_run _ _ env _ [] 0%nat _ He W).
  destruct (run env 0 (tool req user session)) as [h res]. split; [exact S|]. by destruct res.
Qed.
End theorems.
End McpTheorems.

(** * Runs *)
Module McpRuns.
Import ApiRuns McpTheorems.

#[local] Existing Instances run_urls run_prom run_durations.
#[local] Instance run_lower : Logs.LowerCase := {| Logs.lower_beyond_ascii r := r |}.
#[local] Instance run_printable : Printable := {| printable_beyond_ascii _ := true |}.

(** A call of the user in the session [s1], which has selected the project; [arg]
    answers the accessors of texts. *)
Definition run_request (arg : string → string) : ToolRequest :=
  {| tr_GetString k def := or_text (arg k) def; tr_RequireString k := inr (arg k); tr_GetFloat _ def := F64.of_Z def;
     tr_RequireStringSlice _ := inl "missing"; tr_GetStringSlice _ := [] |}.
Definition no_args : string → string := λ _, "".
Definition nan_series : option TimeSeries := Some {| ts_from := 0; ts_step := 15; ts_data := [NaN; NaN] |}.
Definition up_series (data : list f32) : PromQL.MetricValues :=
  PromQL.metric_values {["__name__" := "up"]} 0 (Some {| ts_from := 0; ts_step := 30; ts_data := data |}).
Definition tool_answers (members : list string) (data : list f32) : Answers := λ _ X c,
  match c in call X return X with
  | CGetMcpSessionProject "s1" => inr "p1"
  | CGetProject "p1" => inr {| p_Id := "p1"; p_Name := "prod"; p_Settings := set_MemberProjects members no_settings |}
  | CCustomWorld _ _ _ => (Some run_world, None)
  | CPromQL _ => inr tt
  | CQueryRange _ _ _ _ _ => inr [up_series data]
  | c => refuse c
  end.
Lemma tool_answers_sound members data : sound_answers (tool_answers members data).
Proof.
  intros n X c. destruct c; try exact I; cbn.
  - intros p. repeat (case_match; try done). by intros [= <-].
  - by intros i [[e E]|E].
  - apply no_view_ok.
  - intros _. apply no_view_ok.
  - apply no_node_ok.
  - done.
Qed.
Definition run_tool (tool : Tool) (arg : string → string) (members : list string) (data : list f32) : option tool_result :=
  snd (run (tool_answers members data) 0 (tool (run_request arg) (Some (run_user "Viewer")) "s1")).

Definition run_info : mcpAppInfo :=
  {| ai_Id := "p1:default:Deployment:api"; ai_Namespace := "default"; ai_Category := "application"; ai_Types := []; ai_Status := ""; ai_Issues := [] |}.
Lemma tools_are_allowed_witness :
  run_tool (toolListApplications run_api) no_args [] [] = Some (ToolText (TApplications [run_info]))
  ∧ let '(h, res) := run (tool_answers [] []) 0 (toolListApplications run_api (run_request no_args) (Some (run_user "Viewer")) "s1") in
    (∀ pre e post, h = (pre ++ e :: post)%list → tool_call_ok run_api (Some (run_user "Viewer")) "s1" pre (ev_type e) (ev_call e))
    ∧ match res with
      | Some res => result_ok run_api (Some (run_user "Viewer")) "s1" h res
      | None => tool_crash "list_applications" (run_request no_args)
      end.
Proof.
  split; [vm_compute; reflexivity|]. apply tools_are_allowed; [|apply tool_answers_sound].
  unfold tools. do 2 apply list_elem_of_further. apply list_elem_of_here.
Defined.

(** An empty id is no application, but its status is asked for all the same. *)
Example status_of_no_application_crashes : run_tool (toolGetApplicationStatus run_api) no_args [] [] = None.
Proof. vm_compute. reflexivity. Qed.
(** One infinite sample makes the whole answer fail: JSON has no infinity. *)
Example infinite_sample_fails :
  run_tool (toolQueryMetrics run_api) (λ k, if String.eqb k "query" then "up" else "") [] [F32.one; S754_infinity false] = Some ToolFailed.
Proof. vm_compute. reflexivity. Qed.
Example finite_samples_are_shown :
  match run_tool (toolQueryMetrics run_api) (λ k, if String.eqb k "query" then "up" else "") [] [F32.one; NaN] with
  | Some (ToolText (TQueryMetrics r)) => qs_Values <$> qm_Series r
  | _ => []
  end = [[Some F32.one; None]].
Proof. vm_compute. reflexivity. Qed.
(** Logs of all the applications of a multi-cluster project: there is no client
    for an empty cluster. *)
Example logs_of_all_clusters :
  run_tool (toolQueryLogs run_api) no_args ["p2"] [] = Some (ToolError "ClickHouse is not configured for this project").
Proof. vm_compute. reflexivity. Qed.
(** The source [auto], which the tool says is its default, is none that it knows:
    the logs of one application are asked for without any of its services, so
    the query has no condition at all. *)
Definition run_clickhouse : IntegrationClickhouse :=
  {| ch_Global := false; ch_Protocol := "native"; ch_Addr := "ch:9000"; ch_Auth := {| ba_User := ""; ba_Password := "" |}; ch_Database := "default";
     ch_InitialDatabase := ""; ch_TlsEnable := false; ch_TlsSkipVerify := false; ch_TlsCAFile := "" |}.
Definition logs_api : ApiConfig :=
  {| ap_roles := ap_roles run_api; ap_globalClickHouse := Some run_clickhouse; ap_license := false; ap_loadWorld := true; ap_anonymousRole := "" |}.
Definition logs_queries (env : Answers) (arg : string → string) : list Logs.LogQuery :=
  omap (λ e, match ev_call e with CGetLogs _ _ q => Some q | _ => None end)
    (fst (run env 0 (toolQueryLogs logs_api (run_request arg) (Some (run_user "Viewer")) "s1"))).
Example auto_source_is_not_restricted :
  let env : Answers := λ _ X c, match c in call X return X with CGetLogSources _ _ _ => inr ["api"] | c => tool_answers [] [] 0%nat _ c end in
  let arg source k := if String.eqb k "app_id" then "p1:default:Deployment:api" else if String.eqb k "source" then source else "" in
  Logs.services_where <$> logs_queries env (arg "auto") = [([], [])]
  ∧ Logs.lq_Services <$> logs_queries env (arg "otel") = [["api"]].
Proof. vm_compute. split; reflexivity. Qed.
(** A series without any value is shown as zero. *)
Example lost_rtt_is_zero : mcpLastNotNull nan_series = Ret (Some F32.zero).
Proof. reflexivity. Qed.
End McpRuns.
