(* ===== verification/Config.v ===== *)
(** The configuration and the start of the program: config/.

    The file is read as YAML, which is not modelled: a [Config] is what decoding
    leaves.  [os.ExpandEnv], the parsing of flags, [url.JoinPath] and the loading
    of certificates are parameters.  A list the code tests against nil is an
    option where it comes from the file; what the column of a project without
    keys holds, null or an empty list, is a parameter. *)

From S2P Require Import Checks RecordingRules GoNet.
From S2P Require Export Projects.
From Stdlib Require Import Ascii String ZArith Lia.
Local Open Scope string_scope.
Local Open Scope Z_scope.

(** [url.JoinPath("/", p, "/")], and [tls.LoadX509KeyPair] with its error. *)
Class Libraries := {
  JoinPath : string → option string;
  LoadX509KeyPair : string → string → option string }.

(** * config/config.go *)
Record GRPC := { gr_Disabled : bool; gr_ListenAddress : string }.
Record TLS := { tls_CertFile : string; tls_KeyFile : string }.
Record ClickHouseSpaceManager := { sm_Enabled : bool; sm_UsageThresholdPercent : Z; sm_MinPartitions : Z }.
Record Clickhouse := {
  kh_Address : string; kh_User : string; kh_Password : string; kh_Database : string;
  kh_TlsEnable : bool; kh_TlsSkipVerify : bool; kh_TlsCAFile : string }.
Record Auth := { au_AnonymousRole : string; au_BootstrapAdminPassword : string }.
(** [Settings] of cloud/api.go *)
Record cloud_Settings := { cs_ApiKey : string; cs_DisableIncidentsAutoInvestigation : bool }.

(** * config/project.go *)
Record RemoteCoroot := { rm_Url : string; rm_TlsSkipVerify : bool; rm_ApiKey : string }.
Record AlertingRule_ := {
  cr_Id : string; cr_Name : option string; cr_Source : option AlertSource; cr_Selector : option AppSelector;
  cr_Severity : option string; cr_For : option Z; cr_KeepFiringFor : option Z; cr_Templates : option AlertTemplates;
  cr_NotificationCategory : option string; cr_Enabled : option bool }.
Record ApplicationCategory_ := { cg_Name : string; cg_Settings : Categories.ApplicationCategorySettings }.
Record CustomApplication_ := { cu_Name : string; cu_InstancePatterns : list string }.
Record SLOAvailabilityOverride := { oa_ApplicationId : ApplicationId; oa_ObjectivePercent : f32 }.
Record SLOLatencyOverride := { ol_ApplicationId : ApplicationId; ol_ObjectivePercent : f32; ol_ObjectiveThreshold : Z }.
Record InspectionOverrides := { io_SLOAvailability : list SLOAvailabilityOverride; io_SLOLatency : list SLOLatencyOverride }.

(** The notification integrations are those of an [Integrations]. *)
Record Project_ := {
  cp_Name : string;
  cp_MemberProjects : list string;
  cp_RemoteCoroot : option RemoteCoroot;
  cp_ApiKeys : option (list ApiKey);
  cp_ApiKeysSnake : option (list ApiKey);
  cp_NotificationIntegrations : option Integrations;
  cp_ApplicationCategories : list ApplicationCategory_;
  cp_CustomApplications : list CustomApplication_;
  cp_AlertingRules : list AlertingRule_;
  cp_InspectionOverrides : option InspectionOverrides }.

Record Config := {
  ListenAddress : string; HTTPSListenAddress : string; HTTPDisabled : bool; UrlBasePath : string; DataDir : string;
  cfg_GRPC : GRPC; cfg_TLS : option TLS;
  TracesTTL : Z; LogsTTL : Z; ProfilesTTL : Z; MetricsTTL : Z;
  cfg_Postgres : option string;  (** the connection string *)
  GlobalClickhouse : option Clickhouse;
  cfg_Auth : Auth;
  cfg_Projects : list Project_;
  DoNotCheckForDeployments : bool; DoNotCheckForUpdates : bool; DisableBuiltinAlerts : bool; DeveloperMode : bool;
  cfg_ClickHouseSpaceManager : ClickHouseSpaceManager;
  CorootCloud : option cloud_Settings;
  BootstrapClickhouse : option Clickhouse }.

Definition NewConfig : Config :=
  {| ListenAddress := ":8080"; HTTPSListenAddress := ""; HTTPDisabled := false; UrlBasePath := "/"; DataDir := "./data";
     cfg_GRPC := {| gr_Disabled := false; gr_ListenAddress := ":4317" |}; cfg_TLS := None;
     TracesTTL := 7 * Time.Day; LogsTTL := 7 * Time.Day; ProfilesTTL := 7 * Time.Day; MetricsTTL := 7 * Time.Day;
     cfg_Postgres := None; GlobalClickhouse := None;
     cfg_Auth := {| au_AnonymousRole := ""; au_BootstrapAdminPassword := "" |}; cfg_Projects := [];
     DoNotCheckForDeployments := false; DoNotCheckForUpdates := false; DisableBuiltinAlerts := false; DeveloperMode := false;
     cfg_ClickHouseSpaceManager := {| sm_Enabled := true; sm_UsageThresholdPercent := 70; sm_MinPartitions := 1 |};
     CorootCloud := None; BootstrapClickhouse := None |}.

(** * config/flags.go *)
Record ClickhouseFlags := {
  kf_Address : string; kf_User : string; kf_Password : string; kf_Database : string;
  kf_TlsEnabled : bool; kf_TlsSkipVerify : bool; kf_TlsCAFile : string }.
Record Flags := {
  configFile : string; listen : string; httpsListen : string; httpDisabled : bool; grpcDisabled : bool; grpcListen : string;
  tlsCertFile : string; tlsKeyFile : string; urlBasePath : string; dataDir : string;
  tracesTTL : Z; logsTTL : Z; profilesTTL : Z; metricsTTL : Z; pgConnectionString : string;
  doNotCheckForDeployments : bool; doNotCheckForUpdates : bool; disableBuiltinAlerts : bool;
  authAnonymousRole : string; authBootstrapAdminPassword : string; developerMode : bool;
  clickHouseSpaceManagerDisabled : bool; clickHouseSpaceManagerUsageThresholdPercent : Z; clickHouseSpaceManagerMinPartitions : Z;
  globalClickhouse : ClickhouseFlags; bootstrapClickhouse : ClickhouseFlags }.

Definition or_flag (flag value : string) : string := if String.eqb flag "" then value else flag.
Definition positive_flag (flag value : Z) : Z := if 0 <? flag then flag else value.

Definition tls_flags (f : Flags) (t : option TLS) : option TLS :=
  if negb (String.eqb (tlsCertFile f) "") && negb (String.eqb (tlsKeyFile f) "")
  then Some {| tls_CertFile := tlsCertFile f; tls_KeyFile := tlsKeyFile f |} else t.
Definition empty_clickhouse : Clickhouse :=
  {| kh_Address := ""; kh_User := ""; kh_Password := ""; kh_Database := ""; kh_TlsEnable := false; kh_TlsSkipVerify := false; kh_TlsCAFile := "" |}.
Definition global_flags (f : ClickhouseFlags) (c : option Clickhouse) : option Clickhouse :=
  let keep := bool_decide (is_Some c) || negb (String.eqb (kf_Address f) "") in
  let c := default empty_clickhouse c in
  if keep then
    Some {| kh_Address := or_flag (kf_Address f) (kh_Address c); kh_User := or_flag (kf_User f) (kh_User c);
            kh_Password := or_flag (kf_Password f) (kh_Password c); kh_Database := or_flag (kf_Database f) (kh_Database c);
            kh_TlsEnable := kf_TlsEnabled f || kh_TlsEnable c; kh_TlsSkipVerify := kf_TlsSkipVerify f || kh_TlsSkipVerify c;
            kh_TlsCAFile := or_flag (kf_TlsCAFile f) (kh_TlsCAFile c) |}
  else None.
Definition bootstrap_flags (f : ClickhouseFlags) (c : option Clickhouse) : option Clickhouse :=
  if String.eqb (kf_Address f) "" then c
  else Some {| kh_Address := kf_Address f; kh_User := kf_User f; kh_Password := kf_Password f; kh_Database := kf_Database f;
               kh_TlsEnable := false; kh_TlsSkipVerify := false; kh_TlsCAFile := "" |}.

Definition ApplyFlags (f : Flags) (cfg : Config) : Config :=
  {| ListenAddress := or_flag (listen f) (ListenAddress cfg);
     HTTPSListenAddress := or_flag (httpsListen f) (HTTPSListenAddress cfg);
     HTTPDisabled := httpDisabled f || HTTPDisabled cfg;
     UrlBasePath := or_flag (urlBasePath f) (UrlBasePath cfg);
     DataDir := or_flag (dataDir f) (DataDir cfg);
     cfg_GRPC := {| gr_Disabled := gr_Disabled (cfg_GRPC cfg) || grpcDisabled f;
                    gr_ListenAddress := or_flag (grpcListen f) (gr_ListenAddress (cfg_GRPC cfg)) |};
     cfg_TLS := tls_flags f (cfg_TLS cfg);
     TracesTTL := positive_flag (tracesTTL f) (TracesTTL cfg); LogsTTL := positive_flag (logsTTL f) (LogsTTL cfg);
     ProfilesTTL := positive_flag (profilesTTL f) (ProfilesTTL cfg); MetricsTTL := positive_flag (metricsTTL f) (MetricsTTL cfg);
     cfg_Postgres := if String.eqb (pgConnectionString f) "" then cfg_Postgres cfg else Some (pgConnectionString f);
     GlobalClickhouse := global_flags (globalClickhouse f) (GlobalClickhouse cfg);
     cfg_Auth := {| au_AnonymousRole := or_flag (authAnonymousRole f) (au_AnonymousRole (cfg_Auth cfg));
                    au_BootstrapAdminPassword := or_flag (authBootstrapAdminPassword f) (au_BootstrapAdminPassword (cfg_Auth cfg)) |};
     cfg_Projects := cfg_Projects cfg;
     DoNotCheckForDeployments := doNotCheckForDeployments f || DoNotCheckForDeployments cfg;
     DoNotCheckForUpdates := doNotCheckForUpdates f || DoNotCheckForUpdates cfg;
     DisableBuiltinAlerts := disableBuiltinAlerts f || DisableBuiltinAlerts cfg;
     DeveloperMode := developerMode f || DeveloperMode cfg;
     cfg_ClickHouseSpaceManager :=
       let m := cfg_ClickHouseSpaceManager cfg in
       {| sm_Enabled := sm_Enabled m && negb (clickHouseSpaceManagerDisabled f);
          sm_UsageThresholdPercent := positive_flag (clickHouseSpaceManagerUsageThresholdPercent f) (sm_UsageThresholdPercent m);
          sm_MinPartitions := positive_flag (clickHouseSpaceManagerMinPartitions f) (sm_MinPartitions m) |};
     CorootCloud := CorootCloud cfg;
     BootstrapClickhouse := bootstrap_flags (bootstrapClickhouse f) (BootstrapClickhouse cfg) |}.

(** * Validation *)
Section validate.
Context `{UrlParse} `{Libraries}.

(** The error of an element of a list, with its number. *)
Fixpoint first_invalid {A} (what : string) (validate : A → option string) (i : Z) (l : list A) : option string :=
  match l with
  | [] => None
  | x :: l =>
      match validate x with
      | Some e => Some ("invalid " ++ what ++ " #" ++ Itoa i ++ ": " ++ e)
      | None => first_invalid what validate (i + 1) l
      end
  end.
Definition or_else (a b : option string) : option string := match a with Some e => Some e | None => b end.

Definition RemoteCoroot_Validate (rc : RemoteCoroot) : option string :=
  if bool_decide (url_Parse (rm_Url rc) = None) then Some ("invalid url " ++ rm_Url rc)
  else if String.eqb (rm_ApiKey rc) "" then Some "missing api key" else None.

(** The client of a remote Coroot; nil is dereferenced for a url that does not
    parse. *)
Definition RemoteCoroot_ClickHouseConfig (rc : RemoteCoroot) : outcome IntegrationClickhouse :=
  match url_Parse (rm_Url rc) with
  | None => Panic
  | Some (scheme, uhost) =>
      let '(host, port) := default ("", "") (Net.SplitHostPort uhost) in
      let host := if String.eqb host "" then uhost else host in
      let port := if String.eqb port "" then if String.eqb scheme "https" then "443" else "80" else port in
      Ret {| ch_Global := true; ch_Protocol := "coroot"; ch_Addr := Net.JoinHostPort host port;
             ch_Auth := {| ba_User := "default"; ba_Password := rm_ApiKey rc |}; ch_Database := "default"; ch_InitialDatabase := "";
             ch_TlsEnable := String.eqb scheme "https"; ch_TlsSkipVerify := rm_TlsSkipVerify rc; ch_TlsCAFile := "" |}
  end.

Definition source_Validate (s : AlertSource) : option string :=
  let set o := match o with Some v => negb (String.eqb v "") | None => false end in
  if String.eqb (src_Type s) AlertSourceTypeCheck then
    if negb (set (src_Check s)) then Some "source.check.checkId is required for check source"
    else match check_index (default "" (src_Check s)) with
         | None => Some ("unknown checkId: " ++ default "" (src_Check s))
         | Some _ => None
         end
  else if String.eqb (src_Type s) AlertSourceTypePromQL then
    if set (src_PromQL s) then None else Some "source.promql.expression is required for promql source"
  else if String.eqb (src_Type s) AlertSourceTypeLogPatterns then
    match src_LogPattern s with
    | Some p => if bool_decide (lps_Severities p = []) then Some "source.logPattern.severities is required for log_patterns source" else None
    | None => Some "source.logPattern.severities is required for log_patterns source"
    end
  else if String.eqb (src_Type s) AlertSourceTypeKubernetesEvents then
    match src_KubernetesEvents s with Some _ => None | None => Some "source.kubernetesEvents is required for kubernetes_events source" end
  else Some ("invalid source type: " ++ src_Type s).
Definition AlertingRule_Validate (ar : AlertingRule_) : option string :=
  if String.eqb (cr_Id ar) "" then Some "id is required"
  else or_else (cr_Source ar ≫= source_Validate)
    (match cr_Severity ar with
     | Some s => if String.eqb s "warning" || String.eqb s "critical" then None
                 else Some ("invalid severity: " ++ s ++ " (must be 'warning' or 'critical')")
     | None => None
     end).

Definition invalid_percent (p : f32) : bool := F32.ltb p F32.zero || F32.gtb p (F32.of_Z 100).
Definition SLOAvailabilityOverride_Validate (o : SLOAvailabilityOverride) : option string :=
  if invalid_percent (oa_ObjectivePercent o) then Some "invalid objective_percent" else None.
Definition objective_bucket (threshold : Z) : f32 := RoundUpToDefaultBucket (F64.to_f32 (ParseDuration.Seconds threshold)).
Definition SLOLatencyOverride_Validate (o : SLOLatencyOverride) : option string :=
  if invalid_percent (ol_ObjectivePercent o) then Some "invalid objective_percent"
  else if F32.gtb (objective_bucket (ol_ObjectiveThreshold o)) (List.last DefaultHistogramBuckets F32.zero) then
    Some "invalid objective_threshold: must match one of the standard buckets [5ms, 10ms, 25ms, 50ms, 100ms, 250ms, 500ms, 1s, 2.5s, 5s, 10s]"
  else None.
(** The first error of a list of overrides. *)
Definition overrides_Validate {A} (what : string) (id : A → ApplicationId) (validate : A → option string) (l : list A) : option string :=
  head (omap (λ o, (λ e, "invalid application " ++ what ++ " SLO override for app " ++ AppIdString (id o) ++ ": " ++ e) <$> validate o) l).
Definition InspectionOverrides_Validate (io : InspectionOverrides) : option string :=
  or_else (overrides_Validate "availability" oa_ApplicationId SLOAvailabilityOverride_Validate (io_SLOAvailability io))
          (overrides_Validate "latency" ol_ApplicationId SLOLatencyOverride_Validate (io_SLOLatency io)).

Definition keys_of (k : option (list ApiKey)) : list ApiKey := default [] k.
(** [p.Validate()]: the error, and the project as the method leaves its receiver. *)
Definition Project_Validate (p : Project_) : option string * Project_ :=
  let keys := if bool_decide (keys_of (cp_ApiKeys p) = []) then cp_ApiKeysSnake p else cp_ApiKeys p in
  let notifications := NotificationIntegrations_Validate <$> cp_NotificationIntegrations p in
  let p' := {| cp_Name := cp_Name p; cp_MemberProjects := cp_MemberProjects p; cp_RemoteCoroot := cp_RemoteCoroot p;
               cp_ApiKeys := keys; cp_ApiKeysSnake := cp_ApiKeysSnake p;
               cp_NotificationIntegrations := match notifications with Some (inr i) => Some i | _ => cp_NotificationIntegrations p end;
               cp_ApplicationCategories := cp_ApplicationCategories p; cp_CustomApplications := cp_CustomApplications p;
               cp_AlertingRules := cp_AlertingRules p; cp_InspectionOverrides := cp_InspectionOverrides p |} in
  let name_required n := if String.eqb n "" then Some "name is required" else None in
  (if String.eqb (cp_Name p) "" then Some "name is required"
   else if bool_decide (keys_of keys = []) && bool_decide (cp_MemberProjects p = []) && bool_decide (cp_RemoteCoroot p = None)
   then Some "no api keys defined"
   else
     or_else (first_invalid "api key" ApiKey_Validate 0 (keys_of keys))
    (or_else (match notifications with Some (inl e) => Some ("invalid notification integrations: " ++ e) | _ => None end)
    (or_else (first_invalid "application category" (λ c, name_required (cg_Name c)) 0 (cp_ApplicationCategories p))
    (or_else (first_invalid "custom application" (λ c, name_required (cu_Name c)) 0 (cp_CustomApplications p))
    (or_else (first_invalid "alerting rule" AlertingRule_Validate 0 (cp_AlertingRules p))
    (or_else (cp_InspectionOverrides p ≫= InspectionOverrides_Validate)
             ((λ e, "invalie remoteCoroot config: " ++ e) <$> (cp_RemoteCoroot p ≫= RemoteCoroot_Validate))))))), p').

(** The loop of [Config.Validate] ranges over copies of the projects: only what
    a copy shares with its project, the notification integrations behind a
    pointer, is changed in the configuration. *)
Definition validated_project (p : Project_) : Project_ :=
  {| cp_Name := cp_Name p; cp_MemberProjects := cp_MemberProjects p; cp_RemoteCoroot := cp_RemoteCoroot p;
     cp_ApiKeys := cp_ApiKeys p; cp_ApiKeysSnake := cp_ApiKeysSnake p;
     cp_NotificationIntegrations := cp_NotificationIntegrations (snd (Project_Validate p));
     cp_ApplicationCategories := cp_ApplicationCategories p; cp_CustomApplications := cp_CustomApplications p;
     cp_AlertingRules := cp_AlertingRules p; cp_InspectionOverrides := cp_InspectionOverrides p |}.

Definition Clickhouse_Validate (c : option Clickhouse) : option string :=
  match c with
  | None => None
  | Some c =>
      if String.eqb (kh_Address c) "" then Some "address is required"
      else let '(host, port) := default ("", "") (Net.SplitHostPort (kh_Address c)) in
           if String.eqb host "" || String.eqb port "" then Some ("invalid address: " ++ kh_Address c) else None
  end.
Definition TLS_Validate (c : TLS) : option string :=
  if String.eqb (tls_CertFile c) "" then Some "certFile is required"
  else if String.eqb (tls_KeyFile c) "" then Some "keyFile is required"
  else (λ e, "invalid certificate: " ++ e) <$> LoadX509KeyPair (tls_CertFile c) (tls_KeyFile c).
Definition cloud_Settings_Validate (s : cloud_Settings) : option string := if String.eqb (cs_ApiKey s) "" then Some "api key is required" else None.

Definition prefixed (prefix : string) (e : option string) : option string := (λ e, prefix ++ ": " ++ e) <$> e.
(** The bootstrap ClickHouse that is validated: none next to a global one. *)
Definition bootstrap_only (cfg : Config) : option Clickhouse :=
  match GlobalClickhouse cfg with Some _ => None | None => BootstrapClickhouse cfg end.
Definition Validate (cfg : Config) : string + Config :=
  match JoinPath (UrlBasePath cfg) with
  | None => inl "invalid url_base_path: "
  | Some base =>
      let error :=
        if String.eqb (default "" (cfg_Postgres cfg)) "" then
          Some "a Postgres connection string is required (--pg-connection-string, PG_CONNECTION_STRING or postgres.connection_string)"
        else if HTTPDisabled cfg && String.eqb (HTTPSListenAddress cfg) "" then
          Some "at least one of HTTP or HTTPS listener must be enabled"
        else if negb (String.eqb (HTTPSListenAddress cfg) "") && bool_decide (cfg_TLS cfg = None) then
          Some "TLS certificate and key are required for HTTPS"
        else
          or_else (prefixed "invalid tls settings" (cfg_TLS cfg ≫= TLS_Validate))
         (or_else (prefixed "invalid corootCloud settings" (CorootCloud cfg ≫= cloud_Settings_Validate))
         (or_else (first_invalid "project" (λ p, fst (Project_Validate p)) 0 (cfg_Projects cfg))
         (or_else (prefixed "invalid global_clickhouse" (Clickhouse_Validate (GlobalClickhouse cfg)))
         (or_else (prefixed "invalid bootstrap_clickhouse" (Clickhouse_Validate (bootstrap_only cfg)))
                  (let u := sm_UsageThresholdPercent (cfg_ClickHouseSpaceManager cfg) in
                   if (u <? 0) || (100 <? u) then Some ("invalid usage_threshold_percent: " ++ Itoa u) else None))))) in
      match error with
      | Some e => inl e
      | None =>
          inr {| ListenAddress := ListenAddress cfg; HTTPSListenAddress := HTTPSListenAddress cfg; HTTPDisabled := HTTPDisabled cfg;
                 UrlBasePath := base; DataDir := DataDir cfg; cfg_GRPC := cfg_GRPC cfg; cfg_TLS := cfg_TLS cfg;
                 TracesTTL := TracesTTL cfg; LogsTTL := LogsTTL cfg; ProfilesTTL := ProfilesTTL cfg; MetricsTTL := MetricsTTL cfg;
                 cfg_Postgres := cfg_Postgres cfg; GlobalClickhouse := GlobalClickhouse cfg; cfg_Auth := cfg_Auth cfg;
                 cfg_Projects := validated_project <$> cfg_Projects cfg;
                 DoNotCheckForDeployments := DoNotCheckForDeployments cfg; DoNotCheckForUpdates := DoNotCheckForUpdates cfg;
                 DisableBuiltinAlerts := DisableBuiltinAlerts cfg; DeveloperMode := DeveloperMode cfg;
                 cfg_ClickHouseSpaceManager := cfg_ClickHouseSpaceManager cfg; CorootCloud := CorootCloud cfg;
                 BootstrapClickhouse := bootstrap_only cfg |}
      end
  end.

(** [Load], from what the file decodes to: nothing without a file, an error of
    reading or decoding it, or the configuration it makes of the default one. *)
Definition Load (f : Flags) (file : Config → string + Config) : string + Config :=
  match (if String.eqb (configFile f) "" then inr NewConfig else file NewConfig) with
  | inl e => inl e
  | inr cfg => Validate (ApplyFlags f cfg)
  end.

Definition GetGlobalClickhouse (cfg : Config) : option IntegrationClickhouse :=
  (λ c, {| ch_Global := true; ch_Protocol := "native"; ch_Addr := kh_Address c;
           ch_Auth := {| ba_User := if String.eqb (kh_User c) "" then "default" else kh_User c; ba_Password := kh_Password c |};
           ch_Database := ""; ch_InitialDatabase := if String.eqb (kh_Database c) "" then "default" else kh_Database c;
           ch_TlsEnable := kh_TlsEnable c; ch_TlsSkipVerify := kh_TlsSkipVerify c; ch_TlsCAFile := kh_TlsCAFile c |}) <$> GlobalClickhouse cfg.
Definition GetBootstrapClickhouse (cfg : Config) : option IntegrationClickhouse :=
  (λ c, {| ch_Global := false; ch_Protocol := "native"; ch_Addr := kh_Address c;
           ch_Auth := {| ba_User := if String.eqb (kh_User c) "" then "default" else kh_User c; ba_Password := kh_Password c |};
           ch_Database := if String.eqb (kh_Database c) "" then "default" else kh_Database c; ch_InitialDatabase := "";
           ch_TlsEnable := kh_TlsEnable c; ch_TlsSkipVerify := kh_TlsSkipVerify c; ch_TlsCAFile := kh_TlsCAFile c |}) <$> BootstrapClickhouse cfg.
End validate.

(** * config/bootstrap.go *)

(** [utils.RandomString(32)] at a tick, and whether the column of a project whose
    list of keys is empty holds null. *)
Class Start := { RandomString : nat → string; stored_null : string → bool }.

(** Why [Bootstrap] did not go through: it returned an error, or it panicked. *)
Inductive stop := BootError (e : db_error) | BootPanic.

(** A project that [byName] points to; [bo_null]: its keys are nil. *)
Record booted := { bo_Project : Project; bo_null : bool }.

Definition set_readonly (b : bool) (i : Integrations) : Integrations :=
  {| i_Clickhouse := i_Clickhouse i; i_AWS := i_AWS i; i_Readonly := b; i_BaseUrl := i_BaseUrl i; i_Slack := i_Slack i; i_Teams := i_Teams i;
     i_Pagerduty := i_Pagerduty i; i_Opsgenie := i_Opsgenie i; i_Webhook := i_Webhook i |}.
Definition set_clickhouse (c : option IntegrationClickhouse) (i : Integrations) : Integrations :=
  {| i_Clickhouse := c; i_AWS := i_AWS i; i_Readonly := i_Readonly i; i_BaseUrl := i_BaseUrl i; i_Slack := i_Slack i; i_Teams := i_Teams i;
     i_Pagerduty := i_Pagerduty i; i_Opsgenie := i_Opsgenie i; i_Webhook := i_Webhook i |}.
(** The notification integrations of [n] next to the other ones of [i]. *)
Definition set_notifications (n i : Integrations) : Integrations :=
  {| i_Clickhouse := i_Clickhouse i; i_AWS := i_AWS i; i_Readonly := i_Readonly n; i_BaseUrl := i_BaseUrl n; i_Slack := i_Slack n; i_Teams := i_Teams n;
     i_Pagerduty := i_Pagerduty n; i_Opsgenie := i_Opsgenie n; i_Webhook := i_Webhook n |}.
Definition set_Readonly (b : bool) (s : ProjectSettings) : ProjectSettings :=
  {| ps_Readonly := b; ps_ApplicationCategories := ps_ApplicationCategories s;
     ps_ApplicationCategorySettings := ps_ApplicationCategorySettings s; ps_Integrations := ps_Integrations s;
     ps_CustomApplications := ps_CustomApplications s; ps_ApiKeys := ps_ApiKeys s;
     ps_CustomCloudPricing := ps_CustomCloudPricing s; ps_MemberProjects := ps_MemberProjects s |}.

(** A project as the start finds it: nothing of it is read-only yet. *)
Definition opened (s : ProjectSettings) : ProjectSettings := set_Readonly false (set_Integrations (set_readonly false) s).

(** What a project of the configuration sets, before and after the settings of a
    remote Coroot are saved. *)
Definition declare_access (p : Project_) (s : ProjectSettings) : ProjectSettings :=
  let s := set_ApiKeys (λ _, keys_of (cp_ApiKeys p)) (set_MemberProjects (cp_MemberProjects p) (set_Readonly true s)) in
  match cp_NotificationIntegrations p with Some n => set_Integrations (set_notifications n) s | None => s end.
Definition declare_rest (p : Project_) (s : ProjectSettings) : ProjectSettings :=
  let s := set_Integrations (set_readonly (bool_decide (is_Some (cp_NotificationIntegrations p)))) s in
  let s := match cp_ApplicationCategories p with
           | [] => s
           | l => set_CategorySettings (foldl (λ m c, <[cg_Name c := Some (cg_Settings c)]> m) ∅ l) s
           end in
  match cp_CustomApplications p with
  | [] => s
  | l => set_CustomApplications (foldl (λ m c, <[cu_Name c := cu_InstancePatterns c]> m) ∅ l) s
  end.

(** [applyConfigOverrides] *)
Definition applyConfigOverrides (base : AlertingRule) (o : AlertingRule_) : AlertingRule :=
  let text new old := if String.eqb new "" then old else new in
  {| rule_Id := rule_Id base; rule_ProjectId := rule_ProjectId base;
     rule_Name := default (rule_Name base) (cr_Name o);
     rule_Source := default (rule_Source base) (cr_Source o);
     rule_Selector := default (rule_Selector base) (cr_Selector o);
     rule_Severity := match cr_Severity o with
                      | Some s => if String.eqb s "warning" then Status.WARNING else if String.eqb s "critical" then Status.CRITICAL else rule_Severity base
                      | None => rule_Severity base
                      end;
     rule_For := default (rule_For base) (cr_For o);
     rule_KeepFiringFor := default (rule_KeepFiringFor base) (cr_KeepFiringFor o);
     rule_Templates := match cr_Templates o with
                       | Some t => {| tpl_Summary := text (tpl_Summary t) (tpl_Summary (rule_Templates base));
                                      tpl_Description := text (tpl_Description t) (tpl_Description (rule_Templates base)) |}
                       | None => rule_Templates base
                       end;
     rule_NotificationCategory := default (rule_NotificationCategory base) (cr_NotificationCategory o);
     rule_Enabled := default (rule_Enabled base) (cr_Enabled o);
     rule_Readonly := rule_Readonly base; rule_Builtin := rule_Builtin base;
     rule_CreatedAt := rule_CreatedAt base; rule_UpdatedAt := rule_UpdatedAt base |}.
Definition rule_set_readonly (r : AlertingRule) : AlertingRule :=
  {| rule_Id := rule_Id r; rule_ProjectId := rule_ProjectId r; rule_Name := rule_Name r; rule_Source := rule_Source r; rule_Selector := rule_Selector r;
     rule_Severity := rule_Severity r; rule_For := rule_For r; rule_KeepFiringFor := rule_KeepFiringFor r; rule_Templates := rule_Templates r;
     rule_NotificationCategory := rule_NotificationCategory r; rule_Enabled := rule_Enabled r; rule_Readonly := true; rule_Builtin := rule_Builtin r;
     rule_CreatedAt := rule_CreatedAt r; rule_UpdatedAt := rule_UpdatedAt r |}.
(** The rule a new id starts from; the types have no zero values of their own. *)
Definition no_rule (projectId id : string) : AlertingRule :=
  {| rule_Id := id; rule_ProjectId := projectId; rule_Name := "";
     rule_Source := {| src_Type := ""; src_Check := None; src_LogPattern := None; src_PromQL := None; src_KubernetesEvents := None |};
     rule_Selector := {| sel_Type := ""; sel_Categories := []; sel_ApplicationIdPatterns := [] |};
     rule_Severity := 0; rule_For := 0; rule_KeepFiringFor := 0; rule_Templates := {| tpl_Summary := ""; tpl_Description := "" |};
     rule_NotificationCategory := ""; rule_Enabled := true; rule_Readonly := true; rule_Builtin := false; rule_CreatedAt := 0; rule_UpdatedAt := 0 |}.

Section bootstrap.
Context `{Env} `{MapOrder} `{UrlParse} `{Start} (builtins : list AlertingRule).
Local Notation PM := (M ProjectTables).

(** A call whose failure ends [Bootstrap] with its error, and what follows it. *)
Definition orElse {A B} (m : PM (stop + A)) (k : A → PM (stop + B)) : PM (stop + B) :=
  r ← m; match r with inl e => mret (inl e) | inr a => k a end.
Definition must {A} (m : PM (db_error + A)) : PM (stop + A) :=
  r ← m; mret (match r with inl e => inl (BootError e) | inr a => inr a end).
Definition must_text {A} (m : PM (string + A)) : PM (stop + A) :=
  r ← m; mret (match r with inl e => inl (BootError (ErrOther e)) | inr a => inr a end).
Fixpoint for_each {A} (l : list A) (f : A → PM (stop + unit)) : PM (stop + unit) :=
  match l with
  | [] => mret (inr tt)
  | a :: l => orElse (f a) (λ _, for_each l f)
  end.

(** The row of the table of settings is not among the tables here: only whether
    it could be saved is seen. *)
Definition SaveSettings (s : cloud_Settings) : PM (db_error + unit) := write (λ t, inr t).

Definition new_project (name : string) : PM (stop + Project) :=
  key ← ask RandomString;
  r ← SaveProject builtins key {| p_Id := ""; p_Name := name; p_Settings := no_settings |};
  mret (match fst r with Some e => inl (BootError e) | None => inr (snd r) end).

Definition getOrCreateDefaultProject : PM (stop + option Project) :=
  orElse (must GetProjects) (λ projects,
    match map_to_list projects with
    | [] => orElse (new_project "default") (λ p, mret (inr (Some p)))
    | [(_, p)] => mret (inr (Some p))
    | _ => mret (inr None)
    end).

(** The part for a configuration without projects. *)
Definition bootstrap_default (cfg : Config) : PM (stop + unit) :=
  match cfg_Projects cfg with
  | _ :: _ => mret (inr tt)
  | [] =>
      orElse getOrCreateDefaultProject (λ p,
        match p with
        | None => mret (inr tt)
        | Some p =>
            match i_Clickhouse (ps_Integrations (p_Settings p)), GetBootstrapClickhouse cfg with
            | None, Some c =>
                if String.eqb (ch_Addr c) "" then mret (inr tt)
                else must (SaveProjectIntegration (with_settings (set_Integrations (set_clickhouse (Some c))) p) "clickhouse")
            | _, _ => mret (inr tt)
            end
        end)
  end.

(** The projects of the database by name, opened. *)
Definition open_project (p : Project) : booted :=
  {| bo_Project := with_settings opened p; bo_null := bool_decide (ps_ApiKeys (p_Settings p) = []) && stored_null (p_Id p) |}.

(** The project of the configuration in the database: the one of its name, or a
    new one. *)
Definition find_or_create (byName : gmap string booted) (name : string) : PM (stop + Project) :=
  match byName !! name with
  | Some b => mret (inr (bo_Project b))
  | None => new_project name
  end.
Definition bootstrap_project (byName : gmap string booted) (p : Project_) : PM (stop + gmap string booted) :=
  orElse (find_or_create byName (cp_Name p)) (λ pp,
    let pp := with_settings (declare_access p) pp in
    orElse (match cp_RemoteCoroot p with
            | None => mret (inr pp)
            | Some rc =>
                match RemoteCoroot_ClickHouseConfig rc with
                | Panic => mret (inl BootPanic)
                | Ret c =>
                    let pp := with_settings (set_Integrations (set_clickhouse (Some c))) pp in
                    orElse (must (SaveProjectSettings pp)) (λ _, mret (inr pp))
                end
            end) (λ pp,
      mret (inr (<[cp_Name p := {| bo_Project := with_settings (declare_rest p) pp; bo_null := bool_decide (cp_ApiKeys p = None) |}]> byName)))).
Fixpoint bootstrap_projects (byName : gmap string booted) (l : list Project_) : PM (stop + gmap string booted) :=
  match l with
  | [] => mret (inr byName)
  | p :: l => orElse (bootstrap_project byName p) (λ byName, bootstrap_projects byName l)
  end.

(** [saveInspectionOverride] *)
Definition save_in_members (byName : gmap string booted) (members : list string) (appId : ApplicationId) (checkId : string) (cfg : option json) : PM (stop + unit) :=
  for_each members (λ mp,
    match byName !! mp with
    | None => mret (inr tt)
    | Some p => must_text (SaveCheckConfig (p_Id (bo_Project p)) appId checkId cfg)
    end).
Definition saveInspectionOverride (byName : gmap string booted) (project : Project) (appId : ApplicationId) (checkId : string) (cfg : option json) : PM (stop + unit) :=
  if negb (Multicluster project) then must_text (SaveCheckConfig (p_Id project) appId checkId cfg)
  else if negb (String.eqb (AppId.ClusterId appId) "") && negb (String.eqb (AppId.ClusterId appId) ClusterIdExternal) then
    match List.find (λ p, String.eqb (ClusterId p) (AppId.ClusterId appId)) (bo_Project <$> omap (λ mp, byName !! mp) (MemberProjects project)) with
    | Some p => must_text (SaveCheckConfig (p_Id p) appId checkId cfg)
    | None => mret (inr tt)
    end
  else save_in_members byName (MemberProjects project) appId checkId cfg.
Definition save_overrides (byName : gmap string booted) (project : Project) (io : InspectionOverrides) : PM (stop + unit) :=
  orElse (for_each (io_SLOAvailability io) (λ o,
    saveInspectionOverride byName project (oa_ApplicationId o) "SLOAvailability"
      (encode_availability (ca_make false "" "" (oa_ObjectivePercent o) "" ""))))
  (λ _, for_each (io_SLOLatency io) (λ o,
    saveInspectionOverride byName project (ol_ApplicationId o) "SLOLatency"
      (encode_latency (cl_make false "" (objective_bucket (ol_ObjectiveThreshold o)) (ol_ObjectivePercent o) "" "")))).
Definition bootstrap_overrides (byName : gmap string booted) (l : list Project_) : PM (stop + unit) :=
  for_each l (λ p,
    match cp_InspectionOverrides p, byName !! cp_Name p with
    | Some io, Some b => save_overrides byName (bo_Project b) io
    | _, _ => mret (inr tt)
    end).

(** A project without keys gets its id as one. *)
Definition default_key (b : booted) : Project :=
  if bo_null b then with_settings (set_ApiKeys (λ _, [{| k_Key := p_Id (bo_Project b); k_Description := "default" |}])) (bo_Project b)
  else bo_Project b.
Definition bootstrap_save (byName : gmap string booted) : PM (stop + unit) :=
  l ← range (map_to_list byName);
  for_each l (λ b, must (SaveProjectSettings (default_key (snd b)))).

(** [syncConfigAlertingRules] *)
Definition sync_rule (projectId : string) (byId : gmap string AlertingRule) (cr : AlertingRule_) : PM (string + unit) :=
  match byId !! cr_Id cr with
  | Some existing => AlertStore.UpdateAlertingRule projectId (rule_set_readonly (applyConfigOverrides existing cr))
  | None => AlertStore.CreateAlertingRule projectId (applyConfigOverrides (no_rule projectId (cr_Id cr)) cr)
  end.
Fixpoint sync_rules (projectId : string) (byId : gmap string AlertingRule) (l : list AlertingRule_) : PM (string + unit) :=
  match l with
  | [] => mret (inr tt)
  | cr :: l => r ← sync_rule projectId byId cr; match r with inl e => mret (inl e) | inr _ => sync_rules projectId byId l end
  end.
Definition syncConfigAlertingRules (projectId : string) (configRules : list AlertingRule_) : PM (string + unit) :=
  r ← AlertStore.ClearAlertingRulesReadonly projectId;
  match r with
  | inl e => mret (inl e)
  | inr _ =>
      existing ← AlertStore.GetAlertingRules projectId;
      match existing with
      | inl e => mret (inl e)
      | inr existing => sync_rules projectId (foldl (λ m r, <[rule_Id r := r]> m) ∅ existing) configRules
      end
  end.

(** The rules: what fails here is logged. *)
Definition bootstrap_rules (cfg : Config) (byName : gmap string booted) : PM unit :=
  _ ← (if DisableBuiltinAlerts cfg then
         l ← range (map_to_list byName);
         forM_ l (λ b, _ ← AlertStore.DisableBuiltinAlertingRules (p_Id (bo_Project (snd b))); mret tt)
       else mret tt);
  forM_ (cfg_Projects cfg) (λ p,
    match byName !! cp_Name p with
    | None => mret tt
    | Some pp =>
        let id := p_Id (bo_Project pp) in
        _ ← (match cp_AlertingRules p with
             | [] => AlertStore.ClearAlertingRulesReadonly id
             | rules => syncConfigAlertingRules id rules
             end);
        mret tt
    end).

Definition Bootstrap (cfg : Config) : PM (stop + unit) :=
  orElse (match CorootCloud cfg with Some s => must (SaveSettings s) | None => mret (inr tt) end) (λ _,
  orElse (bootstrap_default cfg) (λ _,
  orElse (must GetProjects) (λ ps,
  orElse (bootstrap_projects (open_project <$> ps) (cfg_Projects cfg)) (λ byName,
  orElse (bootstrap_overrides byName (cfg_Projects cfg)) (λ _,
  orElse (bootstrap_save byName) (λ _,
    _ ← bootstrap_rules cfg byName; mret (inr tt))))))).
End bootstrap.
