(* ===== verification/ConfigSpec.v ===== *)
(** What a start makes of the configuration (Config): which settings the
    projects have when [Bootstrap] has gone through, and that it loses none
    when it has not. *)

From S2P Require Import Checks RecordingRules.
From S2P Require Export Config.
From Stdlib Require Import Ascii String ZArith Lia.
Import DbFacts ProjectsFacts.
Local Open Scope string_scope.

(** * The declared settings *)

(** The declarations of a project, in their order; what the last of them that
    says something of a setting says, or else what the setting was. *)
Definition declarations (name : string) (l : list Project_) : list Project_ := filter (λ p, cp_Name p = name) l.
Definition latest {V} (says : Project_ → option V) (ds : list Project_) (v : V) : V := default v (last (omap says ds)).
Definition nonempty {A} (l : list A) : option (list A) := match l with [] => None | _ => Some l end.
(** The settings of the notifications, but for whether they are read-only. *)
Definition notifications (i : Integrations) :=
  (i_BaseUrl i, i_Slack i, i_Teams i, i_Pagerduty i, i_Opsgenie i, i_Webhook i).

Section spec.
Context `{UrlParse} `{Start}.

Definition remote_client (d : Project_) : option (option IntegrationClickhouse) :=
  rc ← cp_RemoteCoroot d; match RemoteCoroot_ClickHouseConfig rc with Ret c => Some (Some c) | Panic => None end.

(** The settings [s] of the project [id] whose declarations are [ds] and that
    had the settings [b].  Without declarations it had them, except that nothing
    is read-only and that keys that were null are its id. *)
Record as_declared (id : string) (ds : list Project_) (b s : ProjectSettings) : Prop := {
  ad_readonly : ps_Readonly s = bool_decide (ds ≠ []);
  ad_members : ps_MemberProjects s = latest (λ d, Some (cp_MemberProjects d)) ds (ps_MemberProjects b);
  ad_keys : ps_ApiKeys s =
    let key := [{| k_Key := id; k_Description := "default" |}] in
    match last ds with
    | Some d => default key (cp_ApiKeys d)
    | None => if bool_decide (ps_ApiKeys b = []) && stored_null id then key else ps_ApiKeys b
    end;
  ad_notifications : notifications (ps_Integrations s)
    = latest (λ d, notifications <$> cp_NotificationIntegrations d) ds (notifications (ps_Integrations b));
  ad_notifications_readonly : i_Readonly (ps_Integrations s) = latest (λ d, Some (bool_decide (cp_NotificationIntegrations d ≠ None))) ds false;
  ad_clickhouse : i_Clickhouse (ps_Integrations s) = latest remote_client ds (i_Clickhouse (ps_Integrations b));
  ad_categories name : ps_ApplicationCategorySettings s !! name =
    match last (omap (λ d, nonempty (cp_ApplicationCategories d)) ds) with
    | Some l => (λ c, Some (cg_Settings c)) <$> last (filter (λ c, cg_Name c = name) l)
    | None => ps_ApplicationCategorySettings b !! name
    end;
  ad_custom name : ps_CustomApplications s !! name =
    match last (omap (λ d, nonempty (cp_CustomApplications d)) ds) with
    | Some l => cu_InstancePatterns <$> last (filter (λ c, cu_Name c = name) l)
    | None => ps_CustomApplications b !! name
    end;
  ad_others : i_AWS (ps_Integrations s) = i_AWS (ps_Integrations b) ∧ ps_ApplicationCategories s = ps_ApplicationCategories b
    ∧ ps_CustomCloudPricing s = ps_CustomCloudPricing b }.

(** What a project had: the settings it was stored with, or none when it is new,
    which only a declaration makes it. *)
Definition had (rows : list ProjectRow) (l : list Project_) (id name : string) (b : ProjectSettings) : Prop :=
  match List.find (is_project id) rows with
  | Some r => pr_name r = name ∧ b = p_Settings (scan_project r)
  | None => name ∈ cp_Name <$> l ∧ b = no_settings
  end.
End spec.

(** * The same by the code's steps *)
Section declared.
Context `{UrlParse} `{Start}.

(** Ids and names of rows, and that both are unique. *)
Definition row_keys (l : list ProjectRow) : list (string * string) := (λ r, (pr_id r, pr_name r)) <$> l.
Definition keyed (k : list (string * string)) : Prop := NoDup k.*1 ∧ NoDup k.*2.

Definition remote_clickhouse (p : Project_) (s : ProjectSettings) : ProjectSettings :=
  match cp_RemoteCoroot p with
  | Some rc => match RemoteCoroot_ClickHouseConfig rc with Ret c => set_Integrations (set_clickhouse (Some c)) s | Panic => s end
  | None => s
  end.
Definition declare (s : ProjectSettings) (p : Project_) : ProjectSettings := declare_rest p (remote_clickhouse p (declare_access p s)).
Definition declared (name : string) (l : list Project_) (b : ProjectSettings) : ProjectSettings := foldl declare b (declarations name l).

(** Whether the keys of a project are nil when they are saved: as the last
    declaration has them, or else as they were stored. *)
Definition null_keys (id name : string) (l : list Project_) (b : ProjectSettings) : bool :=
  match last (declarations name l) with
  | Some p => bool_decide (cp_ApiKeys p = None)
  | None => bool_decide (ps_ApiKeys b = []) && stored_null id
  end.
Definition final_settings (id name : string) (l : list Project_) (b : ProjectSettings) : ProjectSettings :=
  if null_keys id name l b then set_ApiKeys (λ _, [{| k_Key := id; k_Description := "default" |}]) (declared name l b) else declared name l b.

(** What a project has before the declarations: its settings, no longer
    read-only, when it was in the table, or those of a new project, which only a
    declaration makes. *)
Definition before (rows : list ProjectRow) (l : list Project_) (id name : string) (b : ProjectSettings) : Prop :=
  match List.find (is_project id) rows with
  | Some r => pr_name r = name ∧ b = opened (p_Settings (scan_project r))
  | None => name ∈ cp_Name <$> l ∧ ∃ key, b = set_ApiKeys (λ _, [{| k_Key := key; k_Description := "default" |}]) no_settings
  end.

(** A url that does not parse, which validation refuses. *)
Definition unparsed (l : list Project_) : Prop := ∃ p rc, p ∈ l ∧ cp_RemoteCoroot p = Some rc ∧ url_Parse (rm_Url rc) = None.
End declared.

Module ConfigFacts.
Section facts.
Context `{Env} `{MapOrder} `{UrlParse} `{Start} (builtins : list AlertingRule).
Local Notation PM := (M ProjectTables).
Definition rows (s : Sys ProjectTables) : list ProjectRow := t_project (sys_mem s).

(** ** What leaves the projects alone *)
Local Notation quiet m := (frames (Mem := ProjectTables) (λ _ : Tables, tt) m).

Lemma quiet_statement {A} (q : Tables → string + (A * Tables)) : quiet (statement q).
Proof. intros s. destruct (statement q s) as [r s'] eqn:E. cbn. by apply statement_inv in E as [-> _]. Qed.
Lemma quiet_range {A} (l : list A) : quiet (range l).
Proof. done. Qed.
#[local] Hint Resolve quiet_statement quiet_range : coroot.

Lemma quiet_create projectId r : quiet (AlertStore.CreateAlertingRule projectId r).
Proof. unfold AlertStore.CreateAlertingRule. frames. Qed.
Lemma quiet_update projectId r : quiet (AlertStore.UpdateAlertingRule projectId r).
Proof. unfold AlertStore.UpdateAlertingRule. frames. Qed.
Lemma quiet_rules projectId : quiet (AlertStore.GetAlertingRules projectId).
Proof. unfold AlertStore.GetAlertingRules. frames. Qed.
Lemma quiet_disable projectId : quiet (AlertStore.DisableBuiltinAlertingRules projectId).
Proof. unfold AlertStore.DisableBuiltinAlertingRules. frames. Qed.
#[local] Hint Resolve quiet_create quiet_update quiet_rules quiet_disable : coroot.
Lemma quiet_init projectId l : quiet (AlertStore.InitBuiltinAlertingRules projectId l).
Proof. induction l as [|r l IH]; cbn [AlertStore.InitBuiltinAlertingRules]; frames. Qed.
Lemma quiet_clear_loop projectId l : quiet (AlertStore.clear_readonly_loop projectId l).
Proof. induction l as [|r l IH]; cbn [AlertStore.clear_readonly_loop]; frames. Qed.
#[local] Hint Resolve quiet_init quiet_clear_loop : coroot.
Lemma quiet_clear projectId : quiet (AlertStore.ClearAlertingRulesReadonly projectId).
Proof. unfold AlertStore.ClearAlertingRulesReadonly. frames. Qed.
Lemma quiet_save_config projectId appId checkId cfg : quiet (SaveCheckConfig projectId appId checkId cfg).
Proof. unfold SaveCheckConfig. frames. Qed.
#[local] Hint Resolve quiet_clear quiet_save_config : coroot.
Lemma quiet_sync projectId byId l : quiet (sync_rules projectId byId l).
Proof. induction l as [|r l IH]; cbn [sync_rules]; unfold sync_rule; frames. Qed.
#[local] Hint Resolve quiet_sync : coroot.
Lemma quiet_bootstrap_rules cfg byName : quiet (bootstrap_rules cfg byName).
Proof. unfold bootstrap_rules, syncConfigAlertingRules. frames. Qed.

Lemma quiet_for_each {A} (l : list A) (f : A → PM (stop + unit)) : (∀ a, quiet (f a)) → quiet (for_each l f).
Proof. intros Hf. induction l as [|a l IH]; [apply frames_ret|]. cbn. unfold orElse. frames. Qed.
Lemma quiet_must {A} (m : PM (string + A)) : quiet m → quiet (must_text m).
Proof. intros Hm. unfold must_text. frames. Qed.
Lemma quiet_override byName p appId checkId cfg : quiet (saveInspectionOverride byName p appId checkId cfg).
Proof.
  assert (S : ∀ id, quiet (must_text (SaveCheckConfig id appId checkId cfg))) by (intros; apply quiet_must, quiet_save_config).
  unfold saveInspectionOverride, save_in_members.
  repeat case_match; auto; [apply frames_ret|]. apply quiet_for_each. intros mp. case_match; [auto|apply frames_ret].
Qed.
Lemma quiet_overrides byName l : quiet (bootstrap_overrides byName l).
Proof.
  apply quiet_for_each. intros p. destruct (cp_InspectionOverrides p) as [io|]; [|apply frames_ret].
  destruct (byName !! cp_Name p) as [b|]; [|apply frames_ret]. unfold save_overrides, orElse. apply frames_bind.
  - apply quiet_for_each. intros o. apply quiet_override.
  - intros []; [apply frames_ret|]. apply quiet_for_each. intros o. apply quiet_override.
Qed.

(** ** Keys *)
Lemma keys_update (p : ProjectRow → bool) (v : ProjectSettings) l : row_keys (update_where p (row_set_settings v) l) = row_keys l.
Proof. unfold row_keys, update_where. rewrite <- list_fmap_compose. apply list_fmap_ext. intros i r _. cbn. by destruct (p r). Qed.

Lemma find_keys id l : List.find (is_project id) l = None ↔ id ∉ (row_keys l).*1.
Proof.
  rewrite <- find_None_existsb. unfold row_keys. rewrite <- list_fmap_compose. split.
  - intros E (r & -> & Hr)%list_elem_of_fmap. apply not_true_iff_false in E. apply E, existsb_exists. exists r. split; [by apply list_elem_of_In|].
    apply String.eqb_refl.
  - intros Hn. apply not_true_iff_false. intros (r & Hr & E%String.eqb_eq)%existsb_exists. apply Hn. subst.
    apply list_elem_of_In in Hr. apply (list_elem_of_fmap_2 (fst ∘ λ r, (pr_id r, pr_name r)) l r Hr).
Qed.

(** A statement on the projects: what it makes of their rows, or nothing. *)
Lemma write_rows f (s : Sys ProjectTables) :
  let '(r, s') := write f s in
  match r with inl _ => rows s' = rows s | inr _ => ∃ pt, f (sys_mem s) = inr pt ∧ rows s' = t_project pt end.
Proof.
  unfold write. match goal with |- context [exec ?q s] => assert (W := exec_inv q s); destruct (exec q s) as [[e|[]] s'] end; unfold rows.
  - by destruct W as [-> _].
  - cbn in W. destruct (f (sys_mem s)) as [e|pt]; [done|]. injection W as W _. exists pt. by rewrite <- W.
Qed.
Lemma save_settings_rows p (s : Sys ProjectTables) :
  let '(r, s') := SaveProjectSettings p s in
  rows s' = match r with inl _ => rows s | inr _ => update_where (is_project (p_Id p)) (row_set_settings (p_Settings p)) (rows s) end.
Proof.
  unfold SaveProjectSettings. assert (W := write_rows (λ t, inr (with_project (update_where (is_project (p_Id p)) (row_set_settings (p_Settings p))) t)) s).
  destruct (write _ s) as [[e|[]] s']; [done|]. by destruct W as (pt & [= <-] & ->).
Qed.
Lemma save_settings_keys p (s : Sys ProjectTables) : row_keys (rows (snd (SaveProjectSettings p s))) = row_keys (rows s).
Proof. assert (W := save_settings_rows p s). destruct (SaveProjectSettings p s) as [[] s']; cbn; rewrite W; [done|apply keys_update]. Qed.

Lemma insert_rows id name (s : Sys ProjectTables) :
  let '(r, s') := insert_project id name s in
  match r with
  | inl _ => rows s' = rows s
  | inr _ => row_keys (rows s') = (row_keys (rows s) ++ [(id, name)])%list ∧ id ∉ (row_keys (rows s)).*1 ∧ name ∉ (row_keys (rows s)).*2
  end.
Proof.
  unfold insert_project. match goal with |- context [write ?f s] => assert (W := write_rows f s); destruct (write f s) as [[e|[]] s'] end; [done|].
  destruct W as (pt & W & Hr). cbn in W. destruct (taken id name (sys_mem s)) eqn:T; [done|]. injection W as <-. rewrite Hr. cbn. fold (rows s).
  split; [unfold row_keys; by rewrite fmap_app|].
  unfold taken in T. fold (rows s) in T. unfold row_keys. rewrite <- !list_fmap_compose.
  assert (N : ∀ r, r ∈ rows s → pr_id r ≠ id ∧ pr_name r ≠ name).
  { intros r Hin. apply not_true_iff_false in T. split; intros E; apply T, existsb_exists; exists r; (split; [by apply list_elem_of_In|]);
      rewrite E, String.eqb_refl; [done|apply orb_true_r]. }
  split; intros (r & E & Hin)%list_elem_of_fmap; cbn in E; apply N in Hin; naive_solver.
Qed.

Lemma keyed_snoc k (id name : string) : keyed k → id ∉ k.*1 → name ∉ k.*2 → keyed (k ++ [(id, name)])%list.
Proof.
  intros [H1' H2'] Hi Hn. unfold keyed. rewrite !fmap_app. cbn.
  split; apply NoDup_app; (split; [done|split; [|apply NoDup_singleton]]); intros x Hx ->%list_elem_of_singleton; done.
Qed.

(** Rows are only added, and ids and names stay unique. *)
Definition extends (k k' : list (string * string)) : Prop := k `prefix_of` k' ∧ keyed k'.
Lemma extends_refl k : keyed k → extends k k.
Proof. by split. Qed.
Lemma extends_key k k' (id name : string) : extends k k' → id ∉ k'.*1 → name ∉ k'.*2 → extends k (k' ++ [(id, name)])%list.
Proof. intros [P K] Hi Hn. split; [by apply prefix_app_r|by apply keyed_snoc]. Qed.

Definition fresh_settings (key : string) : ProjectSettings := set_ApiKeys (λ _, [{| k_Key := key; k_Description := "default" |}]) no_settings.

(** Creating a project: a row with a new id and the name, also when a later
    statement fails. *)
Lemma new_project_rows k name : triple (λ s, row_keys (rows s) = k ∧ keyed k) (new_project builtins name) (λ r s,
  extends k (row_keys (rows s)) ∧
  match r with
  | inl e => ∃ e', e = BootError e'
  | inr p => p_Id p ∉ k.*1 ∧ p_Name p = name ∧ row_keys (rows s) = (k ++ [(p_Id p, name)])%list ∧ ∃ key, p_Settings p = fresh_settings key
  end).
Proof.
  intros s [Hk K]. unfold new_project, SaveProject, mbind, M_bind, ask. cbn -[insert_project SaveProjectSettings AlertStore.InitBuiltinAlertingRules]. unfold M_bind.
  set (id := env_nano _). set (key := RandomString _).
  match goal with |- context [insert_project id name ?x] => set (s1 := x) end. assert (E1 : rows s1 = rows s) by done.
  assert (I := insert_rows id name s1). destruct (insert_project id name s1) as [[e|[]] s2]; cbn -[SaveProjectSettings AlertStore.InitBuiltinAlertingRules].
  { rewrite I, E1, Hk. split; [by apply extends_refl|by eexists]. }
  rewrite E1, Hk in I. destruct I as (I & Hi & Hn). assert (X := extends_key _ _ _ _ (extends_refl _ K) Hi Hn).
  match goal with |- context [SaveProjectSettings ?p s2] => assert (S := save_settings_keys p s2); destruct (SaveProjectSettings p s2) as [[e|[]] s3] end;
    cbn -[AlertStore.InitBuiltinAlertingRules] in *.
  { rewrite S, I. split; [done|by eexists]. }
  assert (Q := quiet_init id builtins s3). destruct (AlertStore.InitBuiltinAlertingRules id builtins s3) as [[e|[]] s4]; cbn in *;
    unfold rows in *; destruct Q as [-> _]; rewrite S, I.
  { split; [done|by eexists]. }
  split; [done|]. split_and!; try done. by exists key.
Qed.

(** ** The projects by name *)
Lemma declared_snoc name l p b :
  declared name (l ++ [p])%list b = if decide (cp_Name p = name) then declare (declared name l b) p else declared name l b.
Proof.
  unfold declared, declarations. rewrite filter_app, foldl_app. destruct (decide (cp_Name p = name)) as [E|E].
  - rewrite filter_cons_True by done. done.
  - rewrite filter_cons_False by done. done.
Qed.
Lemma null_keys_snoc id name l p b :
  null_keys id name (l ++ [p])%list b = if decide (cp_Name p = name) then bool_decide (cp_ApiKeys p = None) else null_keys id name l b.
Proof.
  unfold null_keys, declarations. rewrite filter_app. destruct (decide (cp_Name p = name)) as [E|E].
  - rewrite filter_cons_True by done. rewrite filter_nil, last_snoc. done.
  - rewrite filter_cons_False by done. by rewrite filter_nil, app_nil_r.
Qed.
Lemma declared_none name l b : name ∉ cp_Name <$> l → declared name l b = b.
Proof.
  intros Hn. unfold declared, declarations. induction l as [|p l IH]; [done|]. cbn in Hn. apply not_elem_of_cons in Hn as [Hp Hn].
  rewrite filter_cons_False by congruence. by apply IH.
Qed.

(** What a project that [byName] points to is: it has a row, and the settings the
    declarations in [done] make of what it had. *)
Definition booted_ok (rows0 : list ProjectRow) (all done : list Project_) (k : list (string * string)) (name : string) (p : Project) : Prop :=
  p_Name p = name ∧ (p_Id p, name) ∈ k ∧ ∃ b, before rows0 all (p_Id p) name b ∧ p_Settings p = declared name done b.
Definition tracked (rows0 : list ProjectRow) (all done : list Project_) (byName : gmap string booted) (k : list (string * string)) : Prop :=
  (∀ name b, byName !! name = Some b →
     let p := bo_Project b in
     p_Name p = name ∧ (p_Id p, name) ∈ k
     ∧ ∃ b0, before rows0 all (p_Id p) name b0 ∧ p_Settings p = declared name done b0 ∧ bo_null b = null_keys (p_Id p) name done b0)
  ∧ (∀ name, name ∈ k.*2 → is_Some (byName !! name))
  ∧ (∀ name, name ∈ cp_Name <$> done → is_Some (byName !! name)).

Lemma projects_lookup (l : list ProjectRow) name p : NoDup (pr_name <$> l) →
  foldl (λ (m : gmap string Project) r, <[pr_name r := scan_project r]> m) ∅ l !! name = Some p ↔ ∃ r, r ∈ l ∧ pr_name r = name ∧ p = scan_project r.
Proof.
  induction l as [|r l IH] using rev_ind; cbn.
  { intros _. rewrite lookup_empty. split; [done|]. by intros (r & ?%elem_of_nil & _). }
  rewrite foldl_snoc, fmap_app. intros (Hn & Hd & _)%NoDup_app. destruct (decide (pr_name r = name)) as [<-|E].
  - rewrite lookup_insert_eq. split; [intros [= <-]; exists r; set_solver|]. intros (r' & Hr & En & ->).
    apply elem_of_app in Hr as [Hr|Hr%list_elem_of_singleton]; [|by subst]. exfalso. apply (Hd (pr_name r')); [by apply list_elem_of_fmap_2|]. rewrite En. set_solver.
  - rewrite lookup_insert_ne by done. rewrite IH by done. split; intros (r' & Hr & En & ->); exists r'; (split; [|done]); [set_solver|].
    apply elem_of_app in Hr as [Hr|Hr%list_elem_of_singleton]; [done|by subst].
Qed.
Lemma find_project_row (l : list ProjectRow) r : NoDup (pr_id <$> l) → r ∈ l → List.find (is_project (pr_id r)) l = Some r.
Proof.
  induction l as [|x l IH]; [by intros _ ?%elem_of_nil|]. intros [Hx Hd]%NoDup_cons Hr. cbn. unfold is_project at 1.
  destruct (String.eqb_spec (pr_id x) (pr_id r)) as [E|E].
  - apply elem_of_cons in Hr as [->|Hr]; [done|]. exfalso. apply Hx. rewrite E. by apply list_elem_of_fmap_2.
  - apply elem_of_cons in Hr as [->|Hr]; [done|]. by apply IH.
Qed.
Lemma tracked_start (l : list ProjectRow) all : keyed (row_keys l) →
  tracked l all [] (open_project <$> foldl (λ (m : gmap string Project) r, <[pr_name r := scan_project r]> m) ∅ l) (row_keys l).
Proof.
  unfold row_keys. intros [Ki Kn]. rewrite <- list_fmap_compose in Ki, Kn. change (NoDup (pr_id <$> l)) in Ki. change (NoDup (pr_name <$> l)) in Kn.
  split_and!.
  - intros name b Hb. rewrite lookup_fmap in Hb. apply fmap_Some in Hb as (p & Hp & ->). apply projects_lookup in Hp as (r & Hr & <- & ->); [|done]. cbn.
    split; [done|]. split; [apply (list_elem_of_fmap_2 (λ r, (pr_id r, pr_name r))), Hr|]. eexists. split; [|split; [done|]].
    + unfold before. by rewrite (find_project_row _ _ Ki Hr).
    + done.
  - intros name (r & -> & Hr)%list_elem_of_fmap. rewrite lookup_fmap, fmap_is_Some.
    apply list_elem_of_fmap in Hr as (r' & -> & Hr). cbn. exists (scan_project r'). apply projects_lookup; [done|]. by exists r'.
  - by intros name ?%elem_of_nil.
Qed.

(** ** One declaration *)
Lemma before_new (l : list ProjectRow) k all id name key :
  extends (row_keys l) k → id ∉ k.*1 → name ∈ cp_Name <$> all → before l all id name (fresh_settings key).
Proof.
  intros [[k' ->] _] Hi Hn. unfold before. replace (List.find (is_project id) l) with (@None ProjectRow).
  { split; [done|by exists key]. }
  symmetry. apply find_keys. intros Hin. apply Hi. rewrite fmap_app. apply elem_of_app. by left.
Qed.

(** The project of a declaration, before it is declared. *)
Definition found (l : list ProjectRow) (all done : list Project_) (byName : gmap string booted) (name : string) (k : list (string * string)) (p : Project) (s : Sys ProjectTables) : Prop :=
  ∃ k', row_keys (rows s) = k' ∧ k `prefix_of` k' ∧ extends (row_keys l) k' ∧ booted_ok l all done k' name p
  ∧ (∀ b, byName !! name = Some b → bo_Project b = p)
  ∧ (∀ n, n ∈ k'.*2 → n = name ∨ is_Some (byName !! n)).
Definition stopped (l : list ProjectRow) (all : list Project_) (e : stop) (k : list (string * string)) : Prop :=
  extends (row_keys l) k ∧ (e = BootPanic → unparsed all).

Lemma find_or_create_ok l all done (byName : gmap string booted) name k : name ∈ cp_Name <$> all →
  triple (λ s, row_keys (rows s) = k ∧ extends (row_keys l) k ∧ tracked l all done byName k) (find_or_create builtins byName name)
    (λ r s, match r with inl e => stopped l all e (row_keys (rows s)) | inr p => found l all done byName name k p s end).
Proof.
  intros Hname s (Hk & X & T). unfold find_or_create. destruct T as (T1 & T2 & T3). destruct (byName !! name) as [b|] eqn:B.
  - cbn. exists k. destruct (T1 _ _ B) as (? & ? & b0 & ? & ? & ?). split_and!; [done..| | |].
    + split_and!; [done..|by exists b0].
    + intros b' Hb. by rewrite B in Hb; injection Hb as <-.
    + intros n Hn. right. by apply T2.
  - assert (N := new_project_rows k name s (conj Hk (proj2 X))). destruct (new_project builtins name s) as [[e|p] s']; cbn in *; destruct N as [N1 N2].
    + split; [|by destruct N2 as [? ->]]. destruct N1 as [P K], X as [P' _]. split; [by etrans|done].
    + destruct N2 as (Hi & Hp & Hk' & key & Hs). assert (X' : extends (row_keys l) (row_keys (rows s'))) by (destruct N1 as [P K], X as [P' _]; split; [by etrans|done]).
      exists (row_keys (rows s')). split_and!; [done|exact (proj1 N1)|done| | |].
      * split_and!; [done|rewrite Hk', elem_of_app, list_elem_of_singleton; by right|]. exists (fresh_settings key).
        split; [by apply (before_new l k)|]. rewrite Hs, declared_none; [done|]. intros Hd. apply T3 in Hd. rewrite B in Hd. by destruct Hd.
      * by rewrite B.
      * intros n Hn. rewrite Hk', fmap_app, elem_of_app in Hn. destruct Hn as [Hn|Hn]; [right; by apply T2|left; by apply list_elem_of_singleton in Hn].
Qed.

Lemma tracked_step l all done (byName : gmap string booted) p k k' pp : k `prefix_of` k' → tracked l all done byName k →
  booted_ok l all done k' (cp_Name p) pp →
  (∀ b, byName !! cp_Name p = Some b → bo_Project b = pp) → (∀ n, n ∈ k'.*2 → n = cp_Name p ∨ is_Some (byName !! n)) →
  tracked l all (done ++ [p]) (<[cp_Name p := {| bo_Project := with_settings (λ s, declare s p) pp; bo_null := bool_decide (cp_ApiKeys p = None) |}]> byName) k'.
Proof.
  intros Hk (T1 & T2 & T3) (Pn & Pk & b & Pb & Ps) Hb Hn. split_and!.
  - intros name b' Hl. destruct (decide (cp_Name p = name)) as [<-|E].
    + rewrite lookup_insert_eq in Hl. injection Hl as <-. cbn. split_and!; [done..|]. exists b. rewrite declared_snoc, null_keys_snoc, Ps.
      by rewrite !decide_True by done.
    + rewrite lookup_insert_ne in Hl by done. destruct (T1 _ _ Hl) as (? & ? & b0 & ? & ? & ?). split_and!; [done| |].
      * destruct Hk as [? ->]. apply elem_of_app. by left.
      * exists b0. rewrite declared_snoc, null_keys_snoc. by rewrite !decide_False by done.
  - intros name Hin. destruct (decide (cp_Name p = name)) as [<-|E]; [by rewrite lookup_insert_eq|]. rewrite lookup_insert_ne by done.
    destruct (Hn _ Hin); [congruence|done].
  - intros name Hin. destruct (decide (cp_Name p = name)) as [<-|E]; [by rewrite lookup_insert_eq|]. rewrite lookup_insert_ne by done.
    rewrite fmap_app, elem_of_app in Hin. destruct Hin as [Hin|Hin%list_elem_of_singleton]; [by apply T3|congruence].
Qed.

Lemma bootstrap_project_ok l all done (byName : gmap string booted) p k : p ∈ all →
  triple (λ s, row_keys (rows s) = k ∧ extends (row_keys l) k ∧ tracked l all done byName k) (bootstrap_project builtins byName p)
    (λ r s, match r with
            | inl e => stopped l all e (row_keys (rows s))
            | inr byName' => ∃ k', row_keys (rows s) = k' ∧ extends (row_keys l) k' ∧ tracked l all (done ++ [p]) byName' k'
            end).
Proof.
  intros Hp s Hs. assert (Ht := proj2 (proj2 Hs)). assert (F := find_or_create_ok l all done byName (cp_Name p) k (list_elem_of_fmap_2 _ _ _ Hp) s Hs).
  unfold bootstrap_project, orElse, mbind, M_bind. destruct (find_or_create builtins byName (cp_Name p) s) as [[e|pp] s1]; cbn -[SaveProjectSettings] in *; [done|].
  destruct F as (k' & Hk' & P & X & B & Hb & Hn). assert (T := tracked_step l all done byName p k k' pp P Ht B Hb Hn).
  unfold declare, remote_clickhouse in T. destruct (cp_RemoteCoroot p) as [rc|] eqn:R; [|by exists k'].
  destruct (RemoteCoroot_ClickHouseConfig rc) as [c|] eqn:C; cbn -[SaveProjectSettings].
  - unfold must, mbind, M_bind, mret, M_ret.
    match goal with |- context [SaveProjectSettings ?q s1] => assert (S := save_settings_keys q s1); destruct (SaveProjectSettings q s1) as [[e|[]] s2] end;
      cbn in *; rewrite S, Hk'; [|by exists k'].
    split; [done|discriminate].
  - rewrite Hk'. split; [done|]. intros _. exists p, rc. split_and!; [done..|]. unfold RemoteCoroot_ClickHouseConfig in C. repeat case_match; done.
Qed.

Lemma bootstrap_projects_ok l all todo : ∀ done byName k, (∀ p, p ∈ todo → p ∈ all) →
  triple (λ s, row_keys (rows s) = k ∧ extends (row_keys l) k ∧ tracked l all done byName k) (bootstrap_projects builtins byName todo)
    (λ r s, match r with
            | inl e => stopped l all e (row_keys (rows s))
            | inr byName' => ∃ k', row_keys (rows s) = k' ∧ extends (row_keys l) k' ∧ tracked l all (done ++ todo) byName' k'
            end).
Proof.
  induction todo as [|p todo IH]; intros done byName k Hin s Hs; cbn [bootstrap_projects].
  - rewrite app_nil_r. by exists k.
  - assert (B := bootstrap_project_ok l all done byName p k (Hin _ (list_elem_of_here _ _)) s Hs).
    unfold orElse, mbind, M_bind. destruct (bootstrap_project builtins byName p s) as [[e|byName'] s1]; [done|]. cbn in B. destruct B as (k' & B).
    replace (done ++ p :: todo)%list with ((done ++ [p]) ++ todo)%list by by rewrite <- app_assoc.
    apply (IH (done ++ [p])%list byName' k'); [|done]. intros q Hq. apply Hin. by apply list_elem_of_further.
Qed.

(** ** Saving *)
Definition save_row (rs : list ProjectRow) (p : Project) : list ProjectRow := update_where (is_project (p_Id p)) (row_set_settings (p_Settings p)) rs.
Lemma save_all_rows (l : list (string * booted)) (s : Sys ProjectTables) :
  let '(r, s') := for_each l (λ b, must (SaveProjectSettings (default_key (snd b)))) s in
  row_keys (rows s') = row_keys (rows s) ∧ (r ≠ inl BootPanic)
  ∧ (r = inr tt → rows s' = foldl save_row (rows s) ((λ b, default_key (snd b)) <$> l)).
Proof.
  revert s. induction l as [|b l IH]; intros s; [done|]. cbn [for_each]. unfold orElse, must, mbind, M_bind, mret, M_ret.
  assert (W := save_settings_rows (default_key b.2) s). assert (K := save_settings_keys (default_key b.2) s).
  destruct (SaveProjectSettings (default_key b.2) s) as [[e|[]] s1]; cbn in K; [done|]. specialize (IH s1).
  unfold must, mbind, M_bind, mret, M_ret in IH. destruct (for_each l _ s1) as [r s2]. destruct IH as (IH1 & IH2 & IH3).
  split_and!; [congruence|done|]. intros E. rewrite IH3 by done. cbn. by rewrite W.
Qed.

(** A row has the settings of the one project that was saved under its id. *)
Lemma saved_row (ps : list Project) rs row p : row ∈ foldl save_row rs ps → p ∈ ps → p_Id p = pr_id row →
  (∀ q, q ∈ ps → p_Id q = p_Id p → q = p) → pr_settings row = Some (p_Settings p).
Proof.
  revert row. induction ps as [|q ps IH] using rev_ind; intros row Hr Hp E Hu; [by apply elem_of_nil in Hp|].
  rewrite foldl_snoc in Hr. unfold save_row at 1, update_where in Hr. apply list_elem_of_fmap in Hr as (r0 & -> & Hr0).
  destruct (is_project (p_Id q) r0) eqn:Q.
  - cbn in *. unfold is_project in Q. apply String.eqb_eq in Q. rewrite (Hu q); [done|set_solver|congruence].
  - apply IH; [done| |done|intros; apply Hu; set_solver]. apply elem_of_app in Hp as [Hp|Hp%list_elem_of_singleton]; [done|]. subst q.
    unfold is_project in Q. rewrite E in Q. by rewrite String.eqb_refl in Q.
Qed.

Lemma default_key_Id b : p_Id (default_key b) = p_Id (bo_Project b).
Proof. unfold default_key. by destruct (bo_null b). Qed.

(** What is saved when the declarations are those of [all]. *)
Lemma saved_settings l all (byName : gmap string booted) k ps row b L : tracked l all all byName k → keyed k →
  byName !! pr_name row = Some b → p_Id (bo_Project b) = pr_id row →
  L ≡ₚ map_to_list byName → row ∈ foldl save_row ps ((λ b, default_key (snd b)) <$> L) →
  ∃ b0, before l all (pr_id row) (pr_name row) b0 ∧ pr_settings row = Some (final_settings (pr_id row) (pr_name row) all b0).
Proof.
  intros (T1 & _ & _) [Ki Kn] Hb Hi HL HrL.
  destruct (T1 _ _ Hb) as (Hn & Hk & b0 & B & S & N). rewrite Hi in B, N. exists b0. split; [done|].
  rewrite (saved_row _ _ _ (default_key b) HrL).
  - f_equal. unfold final_settings, default_key. rewrite N. by destruct (null_keys _ _ _ _); cbn; rewrite S, ?Hi.
  - apply (list_elem_of_fmap_2 (λ b, default_key (snd b)) L (pr_name row, b)). rewrite HL. by apply elem_of_map_to_list.
  - by rewrite default_key_Id.
  - intros q ([n b'] & -> & Hq)%list_elem_of_fmap. cbn. rewrite !default_key_Id. intros E. rewrite HL in Hq. apply elem_of_map_to_list in Hq.
    destruct (T1 _ _ Hq) as (_ & Hk' & _). rewrite E in Hk'. assert (n = pr_name row) as ->.
    { clear -Ki Hk Hk'. apply list_elem_of_lookup in Hk as (i & Hi), Hk' as (j & Hj).
      assert (i = j) as <-; [|congruence]. apply (NoDup_lookup k.*1 i j (p_Id (bo_Project b))); [done|..]; rewrite list_lookup_fmap; [by rewrite Hi|by rewrite Hj]. }
    rewrite Hb in Hq. by injection Hq as ->.
Qed.

(** ** The steps make what is declared *)
Lemma fold_latest {V} (π : ProjectSettings → V) (says : Project_ → option V) ds b :
  (∀ s d, π (declare s d) = default (π s) (says d)) → π (foldl declare b ds) = latest says ds (π b).
Proof.
  intros Hs. unfold latest. induction ds as [|d ds IH] using rev_ind; [done|].
  rewrite foldl_snoc, Hs, IH, omap_app. cbn. destruct (says d); [by rewrite last_snoc|by rewrite app_nil_r].
Qed.

Lemma table_lookup {A V} (key : A → string) (val : A → V) (l : list A) (n : string) :
  foldl (λ (m : gmap string V) c, <[key c := val c]> m) ∅ l !! n = val <$> last (filter (λ c, key c = n) l).
Proof.
  induction l as [|c l IH] using rev_ind; [done|]. rewrite foldl_snoc, filter_app. destruct (decide (key c = n)) as [<-|E].
  - rewrite lookup_insert_eq, filter_cons_True, filter_nil, last_snoc by done. done.
  - rewrite lookup_insert_ne, filter_cons_False, filter_nil, app_nil_r by done. done.
Qed.

Lemma fold_table {A V} (π : ProjectSettings → gmap string V) (table : Project_ → list A) (key : A → string) (val : A → V) ds b n :
  (∀ s d, π (declare s d) = match table d with [] => π s | l => foldl (λ m c, <[key c := val c]> m) ∅ l end) →
  π (foldl declare b ds) !! n =
    match last (omap (λ d, nonempty (table d)) ds) with
    | Some l => val <$> last (filter (λ c, key c = n) l)
    | None => π b !! n
    end.
Proof.
  intros Hs. induction ds as [|d ds IH] using rev_ind; [done|]. rewrite foldl_snoc, Hs, omap_app. cbn.
  destruct (table d) as [|c l] eqn:E; cbn [nonempty]; [by rewrite app_nil_r|]. rewrite last_snoc. apply (table_lookup key val (c :: l)).
Qed.

(** One declaration, setting by setting. *)
Ltac by_declaration d :=
  destruct d as [? ? rc ? ? ni cats customs ? ?]; unfold declare, remote_clickhouse, remote_client, declare_rest, declare_access;
  cbn [cp_Name cp_MemberProjects cp_RemoteCoroot cp_ApiKeys cp_NotificationIntegrations cp_ApplicationCategories cp_CustomApplications];
  destruct rc as [rc|]; [cbn [mbind option_bind]; destruct (RemoteCoroot_ClickHouseConfig rc)|]; destruct ni, cats, customs; reflexivity.

(** The settings but for the keys, which are written last. *)
Lemma declared_settings id ds b b0 keys :
  b0 = opened b ∨ (∃ k, ds ≠ [] ∧ b0 = set_ApiKeys (λ _, k) (opened b)) →
  keys = (let key := [{| k_Key := id; k_Description := "default" |}] in
    match last ds with
    | Some d => default key (cp_ApiKeys d)
    | None => if bool_decide (ps_ApiKeys b = []) && stored_null id then key else ps_ApiKeys b
    end) → as_declared id ds b (set_ApiKeys (λ _, keys) (foldl declare b0 ds)).
Proof.
  intros Hb Hkeys.
  assert (Hone : ∀ {V} (π : ProjectSettings → V) says, (∀ s k, π (set_ApiKeys k s) = π s) →
    (∀ s d, π (declare s d) = default (π s) (says d)) → π (set_ApiKeys (λ _, keys) (foldl declare b0 ds)) = latest says ds (π (opened b))).
  { intros V π says Hπ Hd. rewrite Hπ, (fold_latest π says) by done. f_equal. destruct Hb as [->|(k & _ & ->)]; [done|apply Hπ]. }
  assert (Hsame : ∀ {V} (π : ProjectSettings → V), (∀ s k, π (set_ApiKeys k s) = π s) → (∀ s d, π (declare s d) = π s) →
    π (set_ApiKeys (λ _, keys) (foldl declare b0 ds)) = π (opened b)).
  { intros V π Hπ Hd. rewrite (Hone V π (λ _, None)) by done. unfold latest.
    replace (omap _ ds) with (@nil V); [done|]. clear. induction ds; done. }
  constructor.
  - rewrite (Hone _ ps_Readonly (λ _, Some true)); [|done|intros s d; by_declaration d]. unfold latest.
    destruct ds as [|d ds'] using rev_ind; [done|]. rewrite omap_app. change (omap _ [d]) with [true]. rewrite last_snoc. by rewrite bool_decide_true by (by destruct ds').
  - apply (Hone _ ps_MemberProjects (λ d, Some (cp_MemberProjects d))); [done|intros s d; by_declaration d].
  - exact Hkeys.
  - apply (Hone _ (λ s, notifications (ps_Integrations s)) (λ d, notifications <$> cp_NotificationIntegrations d)); [done|intros s d; by_declaration d].
  - apply (Hone _ (λ s, i_Readonly (ps_Integrations s)) (λ d, Some (bool_decide (cp_NotificationIntegrations d ≠ None)))); [done|].
    intros s d; by_declaration d.
  - apply (Hone _ (λ s, i_Clickhouse (ps_Integrations s)) remote_client); [done|intros s d; by_declaration d].
  - intros name. cbn [set_ApiKeys ps_ApplicationCategorySettings].
    rewrite (fold_table ps_ApplicationCategorySettings cp_ApplicationCategories cg_Name (λ c, Some (cg_Settings c))); [|intros s d; by_declaration d].
    by destruct Hb as [->|(k & _ & ->)].
  - intros name. cbn [set_ApiKeys ps_CustomApplications].
    rewrite (fold_table ps_CustomApplications cp_CustomApplications cu_Name cu_InstancePatterns); [|intros s d; by_declaration d].
    by destruct Hb as [->|(k & _ & ->)].
  - split_and!.
    + apply (Hsame _ (λ s, i_AWS (ps_Integrations s))); [done|intros s d; by_declaration d].
    + apply (Hsame _ ps_ApplicationCategories); [done|intros s d; by_declaration d].
    + apply (Hsame _ ps_CustomCloudPricing); [done|intros s d; by_declaration d].
Qed.

(** The keys of the steps. *)
Lemma declared_keys (ds : list Project_) b d : last ds = Some d → ps_ApiKeys (foldl declare b ds) = keys_of (cp_ApiKeys d).
Proof.
  intros Hl. apply last_Some in Hl as (ds' & ->). rewrite foldl_snoc. by_declaration d.
Qed.

Lemma final_declared rows0 id name l b0 : before rows0 l id name b0 →
  ∃ b, had rows0 l id name b ∧ as_declared id (declarations name l) b (final_settings id name l b0).
Proof.
  assert (Hset : ∀ s k, ps_ApiKeys s = k → s = set_ApiKeys (λ _, k) s) by (intros [] k <-; done).
  intros Hb. assert (∃ b, had rows0 l id name b ∧ (b0 = opened b ∨ (∃ k, declarations name l ≠ [] ∧ b0 = set_ApiKeys (λ _, k) (opened b)))) as (b & Hh & Hb0).
  { unfold before, had in *. destruct (List.find (is_project id) rows0) as [r|]; [exists (p_Settings (scan_project r)); naive_solver|].
    destruct Hb as (Hn & key & ->). exists no_settings. split; [done|]. right. exists [{| k_Key := key; k_Description := "default" |}]. split; [|done].
    apply list_elem_of_fmap in Hn as (p & -> & Hp). intros E. assert (p ∈ declarations (cp_Name p) l) as Hin by (by apply list_elem_of_filter).
    rewrite E in Hin. by apply elem_of_nil in Hin. }
  exists b. split; [done|]. unfold final_settings, null_keys, declared. destruct (last (declarations name l)) as [d|] eqn:El.
  - destruct (cp_ApiKeys d) as [k|] eqn:Ek.
    + rewrite bool_decide_false by done. rewrite (Hset (foldl declare b0 _) k) by (rewrite (declared_keys _ _ d), Ek; done).
      apply declared_settings; [done|]. by rewrite El, Ek.
    + rewrite bool_decide_true by done. apply declared_settings; [done|]. by rewrite El, Ek.
  - apply last_None in El. rewrite El in Hb0 |- *. destruct Hb0 as [->|(k & ? & _)]; [|done]. cbn [foldl].
    change (ps_ApiKeys (opened b)) with (ps_ApiKeys b). destruct (_ && _) eqn:E.
    + apply (declared_settings id [] b (opened b)); [by left|]. cbn. by rewrite E.
    + rewrite (Hset (opened b) (ps_ApiKeys b)) by done. apply (declared_settings id [] b (opened b)); [by left|]. cbn. by rewrite E.
Qed.

(** ** The start *)
Lemma rows_quiet {A} (m : PM A) (s : Sys ProjectTables) : quiet m → rows (snd (m s)) = rows s.
Proof. intros Q. specialize (Q s). unfold rows. by destruct Q as [-> _]. Qed.

(** After the projects are known. *)
Definition finished (l : list ProjectRow) (all : list Project_) (r : stop + unit) (s : Sys ProjectTables) : Prop :=
  extends (row_keys l) (row_keys (rows s)) ∧ (r = inl BootPanic → unparsed all)
  ∧ (r = inr tt → (∀ p, p ∈ all → cp_Name p ∈ pr_name <$> rows s)
                  ∧ ∀ row, row ∈ rows s → ∃ b, before l all (pr_id row) (pr_name row) b
                                              ∧ pr_settings row = Some (final_settings (pr_id row) (pr_name row) all b)).

Lemma no_panic_overrides byName l (s : Sys ProjectTables) : fst (bootstrap_overrides byName l s) ≠ inl BootPanic.
Proof.
  assert (F : ∀ {A} (l : list A) (f : A → PM (stop + unit)), (∀ a s, fst (f a s) ≠ inl BootPanic) → ∀ s, fst (for_each l f s) ≠ inl BootPanic).
  { intros A l' f Hf. induction l' as [|a l' IH]; intros s'; [done|]. cbn. unfold orElse, mbind, M_bind. specialize (Hf a s').
    destruct (f a s') as [[e|[]] s1]; [done|apply IH]. }
  assert (S : ∀ (m : PM (string + unit)) s, fst (must_text m s) ≠ inl BootPanic).
  { intros m s'. unfold must_text, mbind, M_bind. by destruct (m s') as [[] ?]. }
  assert (O : ∀ p appId checkId cfg s, fst (saveInspectionOverride byName p appId checkId cfg s) ≠ inl BootPanic).
  { intros p appId checkId cfg s'. unfold saveInspectionOverride, save_in_members. repeat case_match; try apply S; [done|].
    apply F. intros mp s1. case_match; [apply S|done]. }
  apply F. intros p s'. destruct (cp_InspectionOverrides p) as [io|], (byName !! cp_Name p) as [b|]; try done.
  unfold save_overrides, orElse, mbind, M_bind.
  match goal with |- context [for_each (io_SLOAvailability io) ?f s'] => assert (W := F _ (io_SLOAvailability io) f (λ o, O _ _ _ _) s');
    destruct (for_each (io_SLOAvailability io) f s') as [[e|[]] s1] end; [done|]. apply F. intros o s2. apply O.
Qed.

Lemma finish_ok l all (byName : gmap string booted) (s : Sys ProjectTables) cfg :
  extends (row_keys l) (row_keys (rows s)) → tracked l all all byName (row_keys (rows s)) →
  let '(r, s') := orElse (bootstrap_overrides byName all) (λ _, orElse (bootstrap_save byName) (λ _, _ ← bootstrap_rules cfg byName; mret (inr tt))) s in
  finished l all r s'.
Proof.
  intros X T. unfold orElse at 1, mbind, M_bind. assert (Q := rows_quiet _ s (quiet_overrides byName all)). assert (N := no_panic_overrides byName all s).
  destruct (bootstrap_overrides byName all s) as [[e|[]] s1]; cbn -[bootstrap_save bootstrap_rules] in *.
  { unfold finished. rewrite Q. split_and!; [done| |done]. intros [= ->]. done. }
  unfold orElse, bootstrap_save, range, mbind, M_bind. cbv beta iota zeta. set (L := map_order (sys_ticks s1) (map_to_list byName)).
  assert (W := save_all_rows L (tick s1)).
  destruct (for_each L _ (tick s1)) as [r s2]. destruct W as (K & NP & W). change (rows (tick s1)) with (rows s1) in *. rewrite Q in K, W.
  destruct r as [e|[]].
  { cbn. unfold finished. rewrite K. split_and!; [done| |done]. intros [= ->]. done. }
  assert (Q2 := rows_quiet _ s2 (quiet_bootstrap_rules cfg byName)). destruct (bootstrap_rules cfg byName s2) as [[] s3]; cbn in *.
  unfold finished. rewrite Q2, K. split_and!; [done|done|]. intros _. specialize (W eq_refl).
  assert (HK : ∀ row, row ∈ rows s2 → (pr_id row, pr_name row) ∈ row_keys (rows s)).
  { intros row Hr. rewrite <- K. apply (list_elem_of_fmap_2 (λ r, (pr_id r, pr_name r))), Hr. }
  split.
  - intros p Hp. destruct T as (T1 & _ & T3). destruct (T3 (cp_Name p)) as [b Hb]; [by apply list_elem_of_fmap_2|].
    destruct (T1 _ _ Hb) as (_ & Hk & _). rewrite <- K in Hk. apply list_elem_of_fmap in Hk as (row & [= _ ->] & Hr). by apply list_elem_of_fmap_2.
  - intros row Hr. assert (HR := HK row Hr). destruct T as (T1 & T2 & T3). destruct (T2 (pr_name row)) as [b Hb]; [apply (list_elem_of_fmap_2 snd _ _ HR)|].
    destruct (T1 _ _ Hb) as (_ & Hk & _). rewrite W in Hr.
    apply (saved_settings l all byName (row_keys (rows s)) (rows s) row b L); try done; [apply X| |apply map_order_perm].
    destruct X as [_ [Ki Kn]]. clear -Kn Hk HR. apply list_elem_of_lookup in Hk as (i & Hi), HR as (j & Hj).
    assert (i = j) as <-; [|congruence]. apply (NoDup_lookup (row_keys (rows s)).*2 i j (pr_name row)); [done|..]; rewrite list_lookup_fmap; [by rewrite Hi|by rewrite Hj].
Qed.

Lemma stays_finished all e (s s' : Sys ProjectTables) : keyed (row_keys (rows s)) → rows s' = rows s → finished (rows s) all (inl (BootError e)) s'.
Proof. intros K Hs. unfold finished. rewrite Hs. split_and!; [by apply extends_refl|done..]. Qed.

Lemma cloud_ok cfg (s : Sys ProjectTables) :
  let '(r, s') := (match CorootCloud cfg with Some st => must (SaveSettings st) | None => mret (inr tt) end) s in
  rows s' = rows s ∧ (r = inr tt ∨ ∃ x, r = inl (BootError x)).
Proof.
  destruct (CorootCloud cfg) as [st|]; [|split; [done|by left]]. unfold must, SaveSettings, mbind, M_bind.
  assert (W := write_rows (λ t, inr t) s). destruct (write _ s) as [[x|[]] s1]; [split; [done|right; by exists x]|].
  destruct W as (pt & [= <-] & W). split; [done|by left].
Qed.

Lemma Bootstrap_finished cfg (s : Sys ProjectTables) : cfg_Projects cfg ≠ [] → keyed (row_keys (rows s)) →
  let '(r, s') := Bootstrap builtins cfg s in finished (rows s) (cfg_Projects cfg) r s'.
Proof.
  intros Hp Hk. unfold Bootstrap, orElse at 1. unfold mbind at 1, M_bind at 1. assert (C := cloud_ok cfg s).
  destruct (_ s) as [e s1] in C |- *. destruct C as [R1 [-> | [x ->]]]; [|exact (stays_finished _ x s s1 Hk R1)].
  unfold bootstrap_default. destruct (cfg_Projects cfg) as [|p0 all'] eqn:Ep; [done|]. rewrite <- Ep in *. clear Hp.
  unfold orElse at 1. unfold mbind at 1, M_bind at 1. cbn [mret M_ret]. unfold orElse at 1. unfold mbind at 1, M_bind at 1.
  unfold must at 1, GetProjects, read. unfold mbind at 1, M_bind at 1.
  match goal with |- context [exec ?q s1] => assert (G := exec_inv q s1); destruct (exec q s1) as [[x|ps] s2] end; cbn [mret M_ret].
  { apply (stays_finished _ x s s2 Hk). unfold rows in *. by rewrite (proj1 G). }
  cbn in G. injection G as <- G _. assert (R2 : rows s2 = rows s) by (unfold rows in *; by rewrite <- G).
  fold (rows s1). rewrite R1. unfold orElse at 1. unfold mbind at 1, M_bind at 1.
  assert (B := bootstrap_projects_ok (rows s) (cfg_Projects cfg) (cfg_Projects cfg) [] _ (row_keys (rows s)) (λ p H, H) s2
                 (conj (f_equal row_keys R2) (conj (extends_refl _ Hk) (tracked_start (rows s) (cfg_Projects cfg) Hk)))).
  destruct (bootstrap_projects _ _ _ s2) as [[e|byName] s3]; cbn [fst snd app] in B.
  - unfold finished. destruct B as [B1 B2]. split_and!; [done| |done]. intros [= ->]. by apply B2.
  - destruct B as (k' & <- & X3 & T3). exact (finish_ok (rows s) (cfg_Projects cfg) byName s3 cfg X3 T3).
Qed.
End facts.
End ConfigFacts.

Module ConfigTheorems.
Import ConfigFacts.
Section theorems.
Context `{Env} `{MapOrder} `{UrlParse} `{Start} (builtins : list AlertingRule).

(** C28 A start with declared projects, whatever calls fail and in whatever order
    maps are visited, keeps every project under its id and name, and both stay
    unique; it panics only for a url of a remote Coroot that does not parse.  When
    it goes through, every declared project is there and no other one was made,
    and the settings of each project are what its declarations say
    ([as_declared], setting by setting): read-only, the member projects and the
    keys of the last one (its id as its key, when it has none); the notifications,
    the remote Coroot, the categories and the custom applications of the last
    one that has any, or what was stored; the rest as stored.  A project that is
    not declared keeps its settings, except that it is no longer read-only and
    that its id becomes its key when its keys were stored as null. *)
Theorem Bootstrap_declares cfg (s : Sys ProjectTables) (Hp : cfg_Projects cfg ≠ []) (Hk : keyed (row_keys (rows s))) :
  let '(r, s') := Bootstrap builtins cfg s in
  row_keys (rows s) `prefix_of` row_keys (rows s') ∧ keyed (row_keys (rows s'))
  ∧ match r with
    | inl BootPanic => unparsed (cfg_Projects cfg)
    | inl (BootError _) => True
    | inr _ =>
        (∀ p, p ∈ cfg_Projects cfg → cp_Name p ∈ pr_name <$> rows s')
        ∧ ∀ row, row ∈ rows s' → ∃ b v, had (rows s) (cfg_Projects cfg) (pr_id row) (pr_name row) b ∧ pr_settings row = Some v
                                       ∧ as_declared (pr_id row) (declarations (pr_name row) (cfg_Projects cfg)) b v
    end.
Proof.
  assert (F := Bootstrap_finished builtins cfg s Hp Hk). destruct (Bootstrap builtins cfg s) as [r s']. destruct F as ([P K] & F1 & F2).
  split_and!; [done..|]. destruct r as [[e|]|[]]; [done|by apply F1|]. destruct (F2 eq_refl) as [D R]. split; [done|].
  intros row Hrow. destruct (R row Hrow) as (b0 & B & E). apply final_declared in B as (b & Hb & Hv). by exists b, (final_settings (pr_id row) (pr_name row) (cfg_Projects cfg) b0).
Qed.
End theorems.
End ConfigTheorems.

(** * Runs *)
Module ConfigRuns.
Import ConfigFacts ConfigTheorems.

#[local] Instance run_env : Env := ProjectsRuns.run_env.
#[local] Instance run_order : MapOrder := {| map_order _ _ l := l; map_order_perm _ _ l := reflexivity l |}.
#[local] Instance run_urls : UrlParse := {| url_Parse _ := Some ("https", "coroot.example.com") |}.
#[local] Instance run_libraries : Libraries := {| JoinPath p := Some p; LoadX509KeyPair _ _ := None |}.
#[local] Instance run_start : Start := {| RandomString _ := "random"; stored_null _ := true |}.

Definition run_key (k : string) : ApiKey := {| k_Key := k; k_Description := "agents" |}.
Definition run_declared (name : string) (keys snake : option (list ApiKey)) (io : option InspectionOverrides) : Project_ :=
  {| cp_Name := name; cp_MemberProjects := []; cp_RemoteCoroot := None; cp_ApiKeys := keys; cp_ApiKeysSnake := snake;
     cp_NotificationIntegrations := None; cp_ApplicationCategories := []; cp_CustomApplications := []; cp_AlertingRules := [];
     cp_InspectionOverrides := io |}.
(** A file that declares the projects [l]. *)
Definition run_file (l : list Project_) (cfg : Config) : string + Config :=
  inr {| ListenAddress := ListenAddress cfg; HTTPSListenAddress := ""; HTTPDisabled := false; UrlBasePath := "/"; DataDir := DataDir cfg;
         cfg_GRPC := cfg_GRPC cfg; cfg_TLS := None; TracesTTL := TracesTTL cfg; LogsTTL := LogsTTL cfg; ProfilesTTL := ProfilesTTL cfg;
         MetricsTTL := MetricsTTL cfg; cfg_Postgres := Some "postgres://coroot"; GlobalClickhouse := None; cfg_Auth := cfg_Auth cfg; cfg_Projects := l;
         DoNotCheckForDeployments := false; DoNotCheckForUpdates := false; DisableBuiltinAlerts := false; DeveloperMode := false;
         cfg_ClickHouseSpaceManager := cfg_ClickHouseSpaceManager cfg; CorootCloud := None; BootstrapClickhouse := None |}.
Definition no_clickhouse : ClickhouseFlags :=
  {| kf_Address := ""; kf_User := ""; kf_Password := ""; kf_Database := ""; kf_TlsEnabled := false; kf_TlsSkipVerify := false; kf_TlsCAFile := "" |}.
Definition run_flags : Flags :=
  {| configFile := "coroot.yaml"; listen := ""; httpsListen := ""; httpDisabled := false; grpcDisabled := false; grpcListen := ""; tlsCertFile := "";
     tlsKeyFile := ""; urlBasePath := ""; dataDir := ""; tracesTTL := 0; logsTTL := 0; profilesTTL := 0; metricsTTL := 0; pgConnectionString := "";
     doNotCheckForDeployments := false; doNotCheckForUpdates := false; disableBuiltinAlerts := false; authAnonymousRole := "";
     authBootstrapAdminPassword := ""; developerMode := false; clickHouseSpaceManagerDisabled := false;
     clickHouseSpaceManagerUsageThresholdPercent := 0; clickHouseSpaceManagerMinPartitions := 0;
     globalClickhouse := no_clickhouse; bootstrapClickhouse := no_clickhouse |}.

(** A start with the file, and the tables it leaves. *)
Definition start (l : list Project_) (s : Sys ProjectTables) : (stop + unit) * Sys ProjectTables :=
  match Load run_flags (run_file l) with
  | inr cfg => Bootstrap [] cfg s
  | inl e => (inl (BootError (ErrOther e)), s)
  end.
Definition shown (s : Sys ProjectTables) : list (string * option (bool * list string)) :=
  (λ r, (pr_name r, (λ v, (ps_Readonly v, k_Key <$> ps_ApiKeys v)) <$> pr_settings r)) <$> rows s.

Definition run_cfg : Config :=
  match Load run_flags (run_file [run_declared "dev" (Some [run_key "secret"]) None None]) with inr cfg => cfg | inl _ => NewConfig end.
Lemma Bootstrap_declares_witness :
  let '(r, s') := Bootstrap [] run_cfg (ProjectsRuns.run_tables []) in
  shown s' = [("prod", Some (false, ["p1"])); ("dev", Some (true, ["secret"]))]
  ∧ row_keys (rows (ProjectsRuns.run_tables [])) `prefix_of` row_keys (rows s') ∧ keyed (row_keys (rows s'))
  ∧ match r with
    | inl BootPanic => unparsed (cfg_Projects run_cfg)
    | inl (BootError _) => True
    | inr _ =>
        (∀ p, p ∈ cfg_Projects run_cfg → cp_Name p ∈ pr_name <$> rows s')
        ∧ ∀ row, row ∈ rows s' → ∃ b v, had (rows (ProjectsRuns.run_tables [])) (cfg_Projects run_cfg) (pr_id row) (pr_name row) b ∧ pr_settings row = Some v
                                       ∧ as_declared (pr_id row) (declarations (pr_name row) (cfg_Projects run_cfg)) b v
    end.
Proof.
  assert (Hk : keyed (row_keys (rows (ProjectsRuns.run_tables [])))) by (split; apply NoDup_singleton).
  assert (Hp : cfg_Projects run_cfg ≠ []) by (vm_compute; discriminate).
  assert (T := Bootstrap_declares [] run_cfg (ProjectsRuns.run_tables []) Hp Hk).
  assert (S : shown (snd (Bootstrap [] run_cfg (ProjectsRuns.run_tables []))) = [("prod", Some (false, ["p1"])); ("dev", Some (true, ["secret"]))]) by (vm_compute; reflexivity).
  destruct (Bootstrap [] run_cfg (ProjectsRuns.run_tables [])) as [r s']. split; [exact S|exact T].
Defined.

(** Without declarations and without projects, the default project is made. *)
Example default_project_is_made :
  let '(r, s') := start [] (Build_Sys {| t_project := []; t_application_settings := []; t_dashboards := []; t_clickhouse_schema := ∅ |} no_tables 0) in
  r = inr tt ∧ shown s' = [("default", Some (false, ["random"]))].
Proof. vm_compute. split; reflexivity. Qed.

(** Keys under the older name [api_keys] pass the validation, which moves them
    to a copy of the project: the project is made with its id as its key. *)
Example snake_keys_are_lost :
  let '(r, s') := start [run_declared "dev" None (Some [run_key "secret"]) None] (ProjectsRuns.run_tables []) in
  r = inr tt ∧ shown s' = [("prod", Some (false, ["p1"])); ("dev", Some (true, ["2"]))].
Proof. vm_compute. split; reflexivity. Qed.

(** A rule that the configuration gave to a project stays read-only after the
    project is dropped from the configuration. *)
Definition run_rule : AlertingRule := applyConfigOverrides (no_rule "p1" "own-rule")
  {| cr_Id := "own-rule"; cr_Name := Some "Own rule"; cr_Source := None; cr_Selector := None; cr_Severity := None; cr_For := None;
     cr_KeepFiringFor := None; cr_Templates := None; cr_NotificationCategory := None; cr_Enabled := None |}.
Definition with_tables (f : Tables → Tables) (s : Sys ProjectTables) : Sys ProjectTables := Build_Sys (sys_mem s) (f (sys_tables s)) (sys_ticks s).
Example dropped_rules_stay_readonly :
  let '(r, s') := start [run_declared "dev" (Some [run_key "secret"]) None None]
                    (with_tables (with_alerting_rule (λ _, [AlertStore.rule_row "p1" 900 run_rule])) (ProjectsRuns.run_tables [])) in
  r = inr tt ∧ fst (AlertStore.DeleteAlertingRule "p1" "own-rule" s') = inl "readonly".
Proof. vm_compute. split; reflexivity. Qed.

(** An override is saved under an id without its cluster, next to the row that the
    settings of the application are in: of the two rows, which are of one
    application, only one is read, and the other settings are lost from sight. *)
Definition run_catalog (cluster : string) : ApplicationId := {| AppId.ClusterId := cluster; Namespace := "default"; Kind := "Deployment"; Name := "catalog" |}.
Example override_hides_settings :
  let saved := {| ck_project_id := "p1"; ck_application_id := Some (AppIdString (run_catalog "p1"));
                  ck_configs := Some (JObj [("CPUContainer", JObj [("threshold", JNum (F32.of_Z 90))])]) |} in
  let override := {| io_SLOAvailability := [{| oa_ApplicationId := run_catalog ""; oa_ObjectivePercent := F32.of_Z 98 |}]; io_SLOLatency := [] |} in
  let s := with_tables (with_check_configs (λ _, [saved])) (ProjectsRuns.run_tables []) in
  let read s := match fst (GetCheckConfigs "p1" s) with inr cc => fst (getRaw cc (run_catalog "p1") "CPUContainer") | inl _ => None end in
  let '(r, s') := start [run_declared "prod" (Some [run_key "secret"]) None (Some override)] s in
  r = inr tt ∧ read s = Some (JObj [("threshold", JNum (F32.of_Z 90))]) ∧ read s' = None.
Proof. vm_compute. repeat split; reflexivity. Qed.
End ConfigRuns.
